(* ===== verification/_CoqProject ===== *)
-Q . S2P
Prelude.v
Libc.v
Posix.v
Psutil.v
Hotspot.v
OpenJ9.v
Jattach.v
Escape.v
Signals.v
Utils.v
Stacks.v
Fetch.v
Real.v
Sysinfo.v
Devname.v
Keyfile.v
Meminfo.v
Vmstat.v
Diskstats.v
Slabinfo.v
Stat.v
Statscan.v
Procdata.v
Procfiles.v
Readproc.v
Procscan.v
Pidhist.v
Piditems.v
Pids.v
Pidsafe.v
Pidstreams.v
Pidscan.v
Vmcmd.v
Vmnumbers.v
Vmargs.v
Vmcalls.v
Vmdisks.v
Vmreport.v
Winattach.v
Toptext.v
Topforest.v
Topdata.v
Topfilter.v
Toprc.v
Topfields.v
Topkeys.v
Topsecure.v
Topsum.v
Toprow.v
Topshow.v
Topsaved.v
