(* ===== verification/Prelude.v ===== *)
(** * Verification of the C code of yc-360-script

    yc-360-script collects diagnostic data of running JVMs.  Its agent is
    written in Go; the parts that talk to the kernel and to the JVM are C code
    called through cgo, under src/internal/capture:

    - ycattach/posix: dynamic attach.  [jattach1] (jattach.c) looks up the
      target process (psutil.c), enters its namespaces and takes over its
      credentials; [jattach2] detects the kind of JVM and runs one command over
      the HotSpot protocol (jattach_hotspot.c) or the OpenJ9 protocol
      (jattach_openj9.c).  ycattach/windows: the same on Windows (jattach.c), by a
      thread injected into the JVM that answers over a named pipe.
    - procps/linux: the procps library and the top and vmstat commands.  Small
      helpers (escape.c, signals.c, namespace.c, pwcache.c, wchan.c,
      fileutils.c, numa.c, strutils.c), the reader of the process table
      (readproc.c), and the statistics modules (meminfo.c, proc_vmstat.c,
      stat.c, diskstats.c, slabinfo.c, ...), which share one design: a context
      is created by new, shared by ref and released by unref; get returns one
      value, select a stack of values, reap one stack per processor, node,
      device or cache.  The command top (top.c, top.h) keeps four windows of
      tasks with their own fields, filters, sort field and colours; a key changes
      a window or the settings, a frame lays out the columns, asks the library
      for the items they need and draws the summary and the windows, and W saves
      the settings in a file that the next start reads.

    ** Files

    - Prelude: bytes, machine integers with their wrap-around, automation.
    - Libc: the string, number and scanf functions of the C library the sources
      use, executable, with the facts the clients need (a printed number is
      scanned back, a blank-padded field is one field, ...).
    - Posix: the operating system as a parameter [os : trace -> call -> ret],
      the monad [M] of C functions over a trace, errno and static variables,
      its outcomes (result, undefined behaviour, exit, out of fuel), total and
      partial correctness ([wp], [wlp]), and the accounting of descriptors,
      directory streams and stdio streams ([net], [gains]).
    - Psutil: psutil.c (Linux branch) and env.c.
    - Hotspot: jattach_hotspot.c.
    - OpenJ9: jattach_openj9.c.
    - Jattach: jattach.c; the static variables of the library are the record
      [jglobals] of Psutil.
    - Escape: escape.c, on explicit destination buffers.
    - Signals: signals.c with [bsearch].
    - Utils: one module each for namespace.c, pwcache.c, wchan.c, fileutils.c,
      numa.c and strutils.c.
    - Stacks: items, result stacks and extents, which meminfo.c,
      proc_vmstat.c, stat.c, diskstats.c and slabinfo.c repeat; modelled once
      for an arbitrary table of setters.
      Extents are blobs with identities, so that the pointers that are handed
      out can be followed and sharing is visible.
    - Fetch: stacks_fetch (the anchor of stack pointers, its growth, the array
      handed out) and the sort functions.  The class [QSort] states what is
      documented of [qsort_r]; [isort] is an instance.
    - Real: finite floating-point numbers, exact with correct rounding; [%lf] and
      [%.2f].
    - Sysinfo: sysinfo.c, version.c and uptime.c.
    - Devname: devname.c.
    - Keyfile: what meminfo.c and proc_vmstat.c share (a file of named values,
      a hash table from names to fields), for an instance of the class
      [KeyFile]; Meminfo and Vmstat are its two instances.
    - Diskstats, Slabinfo: diskstats.c and slabinfo.c.
    - Stat: stat.c, its parser, derived values, node summaries and operations;
      Statscan: its theorems.  The item tables and enumerators of all these
      modules are transcribed from source and header.
    - Procdata: the process record of readproc.h, the allocation of its strings
      and the parsers of readproc.c for the files stat, status, statm, io and
      the like; Procfiles: reading of a file into a buffer, of vectors of
      strings, of environment and command line, of control groups; Readproc:
      filling of one process or thread, the directory scans, openproc and
      closeproc; Procscan: the theorems about a scan.
    - Pidhist, Piditems, Pids: pids.c, the interface to processes: the history
      of the last frame, the setters and the table of items, and the contexts
      with the functions of the interface.  Pidsafe, Pidstreams and Pidscan:
      their theorems on types, on what stays open, and on what a reap hands
      out; the last is proved against the class [Reader], which readproc
      implements.
    - Vmcmd: vmstat.c, the vmstat command, over the statistics modules, with
      the option parser of the C library.  Vmnumbers: its theorems on sizes and
      percentages; Vmargs: on its command line; Vmcalls: which calls the
      statistics modules make; Vmdisks and Vmreport: on its reports.
    - Winattach: windows/jattach.c, over an arbitrary Windows.
    - Toptext: the texts of top.c: columns of multi-byte characters,
      justification, scaled numbers and times, numbers typed at a prompt.
    - Topforest: the forest view, collapsed tasks and the focus.
    - Topdata: the field table and flags of top.h, the records of a window and of
      the program, their start and reset, the selection by user.
    - Topfilter: the other filters.
    - Toprc: writing and reading of the configuration file in all its versions.
    - Topfields: the size of the screen, the widths of the fields, the columns
      that fit and their headings, the items asked of the library.
    - Topkeys: the keys and the screens for fields, colours and help, in a monad
      over the settings, what is typed, and the system calls made.  Topsecure:
      their theorem on secure mode.
    - Topsum: the summary.  Toprow: the row of a task.  Topshow: the windows and
      the frame.
    - Topsaved: the invariant of the settings through keys and frames.

    ** How code is modelled

    A function that makes no system call is a Rocq function; [None] is an access
    outside an array or another undefined behaviour.  A function that does is a
    computation of [M]; a context record is passed in and returned.  Loops whose
    length depends on the system take a fuel argument.  The theorems are total:
    they give the fuel that suffices in terms of what the system delivers (the
    number of chunks, lines, directory entries), and show that neither
    undefined behaviour nor lack of fuel occurs; the theorems about descriptors
    hold on every path for every system.  Integers of the C types are [Z] with
    [wrap_u] and [wrap_s] where the code can leave their range.

    ** What the theorems show

    - Attach: no descriptor, directory stream or lock survives [jattach_openj9],
      [jattach_hotspot] and [jattach2], whatever the kernel and the JVM do; the
      request is written completely however writes are split; the connection
      handed on has presented the published key; the response is printed as the
      JVM sent it and unescaping inverts escaping; waiting for the JVM is
      bounded; the status file of the target is read correctly.
    - Escape: results fit their buffer, are printable outside UTF-8 locales, and
      in UTF-8 locales change exactly the control characters of a well-formed
      text; the format of a command name with its brackets and mark.
    - Signals: the binary search finds every name, conversions are inverse.
    - Utils: the name cache is transparent; the number parser accepts exactly
      its grammar.
    - Statistics: printed files are parsed back; derived figures, histories and
      summaries have their closed forms; reap and select hand out, for every
      node, stacks in which each requested item was set by its own setter, from
      any sound context, and keep the context sound; sorting sorts; the tables
      agree with the enumerators.
    - Processor statistics (Statscan): a reap gives every processor of the file
      its line, the node sums add up their processors, a shown sum of
      differences is the sum of the differences shown, and a session gives
      back what it opened.
    - Processes (Procdata, Procfiles, Procscan): the printed stat and status
      files are parsed back field by field; a file is read completely however
      reads are split; the command line is the escaped join of its arguments; a
      scan lists exactly the processes that the directory listed and whose
      files could be read; a session closes every directory it opened.
    - The process interface (Pidhist to Pidscan): the hash tables of the history
      implement a map; the rows of the table of items agree with their setters;
      through any sequence of calls, failing ones included, results hold values
      of their types and only what they own is freed, and only one directory
      stays open; a reap hands out one stack for each process, in order, with
      the items asked for.
    - The vmstat command (Vmnumbers, Vmargs, Vmreport): the words of a request
      set exactly what they ask for, and conflicting requests fail; the
      reports on partitions and disks print the counters of /proc/diskstats
      and their sums, once per update and with a sleep between updates, and
      finish; displayed sizes and percentages are within stated bounds of the
      exact values; the memory columns of the default report are read only
      once.
    - Terminals and uptime (Devname, Sysinfo): a terminal name that is shown was
      confirmed by the system, the driver table is read back, the parts of the
      uptime add up, versions decode.
    - Attach on Windows (Winattach): what was taken in the target and every handle
      are given back, with the stated exceptions; an injection that reports
      success has made the JVM enqueue exactly the command that was asked for.
    - Texts of top (Toptext, Toprow, Topfields): a text takes exactly the columns
      of its field, a row stands below its headings and both fit the screen;
      scaled numbers are rounded from the exact values; the sort field is among
      the items asked for.
    - Windows and frames (Topforest, Topshow, Topsum): the forest holds every task
      once, below the task that adopts it; a window starts on a task that is shown
      and shows the following ones in order; summary and windows fit the screen,
      and every visible window gets its share.
    - Settings (Topfilter, Toprc, Topkeys, Topsecure, Topsaved): a saved file is
      read back as the same settings; every key, with frames between, keeps them
      such that it is; in secure mode no sequence of keys makes top signal,
      renice or change its delay.
    - Behaviour at the limits that the code does not handle (a failed
      reallocation, a short write, a trailing backslash, ...) is stated by
      theorems of its own.

    ** Bounds

    Line and name buffers have the sizes of the source.  The theorems of
    Slabinfo assume at most 100,000,000 caches, which keeps the [int] sizes of
    the node array in range.  Memory is unlimited only where a theorem assumes
    [memory]; otherwise every allocation may fail.  The theorems on the columns of
    top assume a screen of at most 480 columns, which leaves room in its buffers of
    512 bytes.

    ** Not modelled

    The Go code; the macOS and FreeBSD branches of psutil.c; of top the terminal
    output with its colour strings, the decoding of keys and the line editor, the
    inspect screens, the search for its configuration files, its options, signals
    and refresh threads, and its translated texts. *)

From stdpp Require Import base numbers list strings.
Open Scope Z_scope.

(** ** Bytes and C strings

    A [char] is its unsigned value in [0, 255]; a C string is the list of its
    bytes without the terminating NUL; a buffer is the list of all its bytes. *)

Abbreviation bytes := (list Z).

(** String literals of the source as bytes. *)
Definition bs (s : string) : bytes :=
  map (fun a => Z.of_N (Ascii.N_of_ascii a)) (String.list_ascii_of_string s).

(** ** Machine integers *)

(** Reduction to an unsigned, and to a two's complement signed, [w]-bit value. *)
Definition wrap_u (w x : Z) : Z := x mod 2 ^ w.
Definition wrap_s (w x : Z) : Z := (x + 2 ^ (w - 1)) mod 2 ^ w - 2 ^ (w - 1).

Abbreviation u32 := (wrap_u 32).
Abbreviation u64 := (wrap_u 64).
Abbreviation i32 := (wrap_s 32).
Abbreviation i64 := (wrap_s 64).

Definition INT_MAX : Z := 2147483647.
Definition INT_MIN : Z := -2147483648.
Definition LONG_MAX : Z := 9223372036854775807.
Definition LONG_MIN : Z := -9223372036854775808.
Definition ULONG_MAX : Z := 18446744073709551615.

Create HintDb cdb.

Lemma wrap_u_range w x : 0 <= w -> 0 <= wrap_u w x < 2 ^ w.
Proof. intros. unfold wrap_u. apply Z.mod_pos_bound. lia. Qed.

Lemma wrap_u_small w x : 0 <= x < 2 ^ w -> wrap_u w x = x.
Proof. intros. unfold wrap_u. by apply Z.mod_small. Qed.

Lemma pow2_half w : 1 <= w -> 2 ^ w = 2 * 2 ^ (w - 1).
Proof. intros. rewrite <- Z.pow_succ_r by lia. f_equal. lia. Qed.

Lemma wrap_s_range w x : 1 <= w -> - 2 ^ (w - 1) <= wrap_s w x < 2 ^ (w - 1).
Proof.
  intros. unfold wrap_s. pose proof (pow2_half w ltac:(lia)).
  pose proof (Z.mod_pos_bound (x + 2 ^ (w - 1)) (2 ^ w) ltac:(lia)). lia.
Qed.

Lemma wrap_s_small w x : 1 <= w -> - 2 ^ (w - 1) <= x < 2 ^ (w - 1) -> wrap_s w x = x.
Proof.
  intros. unfold wrap_s. pose proof (pow2_half w ltac:(lia)).
  rewrite Z.mod_small; lia.
Qed.

Lemma i32_small x : INT_MIN <= x <= INT_MAX -> i32 x = x.
Proof. unfold INT_MIN, INT_MAX. intros. apply wrap_s_small; lia. Qed.

Lemma i32_range x : INT_MIN <= i32 x <= INT_MAX.
Proof. pose proof (wrap_s_range 32 x ltac:(lia)). unfold INT_MIN, INT_MAX. lia. Qed.

Lemma wrap_s_idem w x : 1 <= w -> wrap_s w (wrap_s w x) = wrap_s w x.
Proof. intros. apply wrap_s_small; [done|]. by apply wrap_s_range. Qed.

Lemma wrap_u_wrap_s w x : 1 <= w -> wrap_u w (wrap_s w x) = wrap_u w x.
Proof.
  intros. unfold wrap_u, wrap_s. rewrite Zminus_mod_idemp_l. f_equal. lia.
Qed.

Lemma i32_u64 x : i32 (u64 x) = i32 x.
Proof.
  unfold wrap_s, wrap_u. f_equal. change (2 ^ 64) with (2 ^ 32 * 2 ^ 32).
  rewrite (Z.mod_eq x) by lia.
  replace (x - 2 ^ 32 * 2 ^ 32 * (x / (2 ^ 32 * 2 ^ 32)) + 2 ^ (32 - 1))
    with (x + 2 ^ (32 - 1) + (- (2 ^ 32 * (x / (2 ^ 32 * 2 ^ 32)))) * 2 ^ 32) by ring.
  by rewrite Z.mod_add by lia.
Qed.

#[export] Hint Resolve wrap_u_range wrap_s_range i32_range : cdb.

(** ** Automation *)

(** Case analysis on the integer comparisons of the goal; the impossible
    branches are closed by arithmetic. *)
Ltac zcase1 :=
  match goal with
  | |- context [Z.eqb ?a ?b] => destruct (Z.eqb_spec a b); try (exfalso; lia)
  | |- context [Z.ltb ?a ?b] => destruct (Z.ltb_spec a b); try (exfalso; lia)
  | |- context [Z.leb ?a ?b] => destruct (Z.leb_spec a b); try (exfalso; lia)
  end.
Ltac zcase := repeat (zcase1; cbn [andb orb negb]).
