(* ===== verification/Libc.v ===== *)
(** * The part of the C library the sources use

    Character classes of the C locale, the string searches and comparisons,
    [strtol]/[strtoul]/[atoi], the conversions [%d], [%lu], [%016llx] of the
    [printf] family with [snprintf]'s truncation, and [sscanf] for the
    directives that occur in the formats of the sources.  A C string is a list
    of bytes without its NUL (see [Prelude]). *)

From stdpp Require Import base numbers list strings.
From S2P Require Import Prelude.
Open Scope Z_scope.

(** ** Characters *)

Definition isspace (c : Z) : bool := (c =? 32) || ((9 <=? c) && (c <=? 13)).
Definition isdigit (c : Z) : bool := (48 <=? c) && (c <=? 57).
Definition toupper (c : Z) : Z := if (97 <=? c) && (c <=? 122) then c - 32 else c.
Definition tolower (c : Z) : Z := if (65 <=? c) && (c <=? 90) then c + 32 else c.

(** ** Strings and buffers *)

(** The C string a buffer holds: its bytes up to the first NUL, [None] when
    the buffer holds no NUL (reading on would leave the buffer). *)
Fixpoint cstr (buf : bytes) : option bytes :=
  match buf with
  | [] => None
  | c :: r => if c =? 0 then Some [] else cons c <$> cstr r
  end.

(** Index of the first occurrence of a character, as [strchr] finds it. *)
Fixpoint strchr (s : bytes) (c : Z) : option nat :=
  match s with
  | [] => None
  | x :: r => if x =? c then Some 0%nat else S <$> strchr r c
  end.

(** Index of the last occurrence, as [strrchr]. *)
Fixpoint strrchr (s : bytes) (c : Z) : option nat :=
  match s with
  | [] => None
  | x :: r =>
      match strrchr r c with
      | Some i => Some (S i)
      | None => if x =? c then Some 0%nat else None
      end
  end.

(** [prefix p s]: [strncmp(s, p, strlen(p)) == 0]. *)
Fixpoint prefixb (p s : bytes) : bool :=
  match p, s with
  | [], _ => true
  | x :: p', y :: s' => (x =? y) && prefixb p' s'
  | _ :: _, [] => false
  end.

Fixpoint strstr (s p : bytes) : option nat :=
  if prefixb p s then Some 0%nat
  else match s with [] => None | _ :: r => S <$> strstr r p end.

(** [strcmp(a, b) == 0]. *)
Definition streq (a b : bytes) : bool := bool_decide (a = b).

(** [strcasecmp]: the sign of the first difference after [tolower]. *)
Fixpoint strcasecmp (a b : bytes) : Z :=
  match a, b with
  | [], [] => 0
  | [], y :: _ => - tolower y
  | x :: _, [] => tolower x
  | x :: a', y :: b' =>
      if tolower x =? tolower y then strcasecmp a' b' else tolower x - tolower y
  end.

(** [strncasecmp(s, p, strlen(p)) == 0]. *)
Definition caseprefixb (p s : bytes) : bool := prefixb (map tolower p) (map tolower s).

(** ** Reading numbers *)

Fixpoint skip_spaces (s : bytes) : bytes :=
  match s with
  | [] => []
  | c :: r => if isspace c then skip_spaces r else s
  end.

Fixpoint span_digits (s : bytes) : bytes * bytes :=
  match s with
  | [] => ([], [])
  | c :: r => if isdigit c then let '(d, t) := span_digits r in (c :: d, t) else ([], s)
  end.

Definition scan_sign (s : bytes) : bool * bytes :=
  match s with
  | c :: r => if c =? 45 then (true, r) else if c =? 43 then (false, r) else (false, s)
  | [] => (false, s)
  end.

Definition dec_step (v c : Z) : Z := 10 * v + (c - 48).
Definition dec_value (ds : bytes) : Z := foldl dec_step 0 ds.

(** What [strtol]/[strtoul] hand back: the value, the rest at [*endptr],
    whether a conversion was done ([endptr != str]) and whether [errno] was set
    to ERANGE. *)
Record strto := Strto { st_val : Z; st_rest : bytes; st_conv : bool; st_range : bool }.

Definition strtol (s : bytes) : strto :=
  let '(neg, s1) := scan_sign (skip_spaces s) in
  let '(ds, r) := span_digits s1 in
  match ds with
  | [] => Strto 0 s false false
  | _ =>
      let v := if neg : bool then - dec_value ds else dec_value ds in
      if LONG_MAX <? v then Strto LONG_MAX r true true
      else if v <? LONG_MIN then Strto LONG_MIN r true true
      else Strto v r true false
  end.

Definition strtoul (s : bytes) : strto :=
  let '(neg, s1) := scan_sign (skip_spaces s) in
  let '(ds, r) := span_digits s1 in
  match ds with
  | [] => Strto 0 s false false
  | _ =>
      let v := dec_value ds in
      if ULONG_MAX <? v then Strto ULONG_MAX r true true
      else Strto (if neg : bool then u64 (- v) else v) r true false
  end.

(** [atoi] is [(int) strtol(s, NULL, 10)]. *)
Definition atoi (s : bytes) : Z := i32 (st_val (strtol s)).

(** ** Printing numbers *)

Fixpoint dec_go (fuel : nat) (n : Z) (acc : bytes) : bytes :=
  match fuel with
  | O => acc
  | S f => if n <? 10 then (48 + n) :: acc else dec_go f (n / 10) ((48 + n mod 10) :: acc)
  end.

(** Decimal digits of a non-negative number; [n < 2 ^ S (log2 n)] bounds the
    digits, so the fuel is enough. *)
Definition dec (n : Z) : bytes := dec_go (S (Z.to_nat (Z.log2 n))) n [].

Arguments dec : simpl never.

(** [%d] *)
Definition fmt_d (n : Z) : bytes := if n <? 0 then 45 :: dec (- n) else dec n.

Definition hexdigit (d : Z) : Z := if d <? 10 then 48 + d else 87 + d.

Fixpoint hex_go (width : nat) (n : Z) : bytes :=
  match width with
  | O => []
  | S w => hex_go w (n / 16) ++ [hexdigit (n mod 16)]
  end.

(** [%016llx] of a 64-bit value. *)
Definition fmt_016llx (n : Z) : bytes := hex_go 16 n.

(** [snprintf(buf, size, ...)] of a text: the string left in the buffer, for
    [size > 0]; the value returned is the length of the whole text. *)
Definition snprintf (size : Z) (text : bytes) : bytes := take (Z.to_nat (size - 1)) text.
Definition snprintf_ret (text : bytes) : Z := Z.of_nat (length text).

(** ** sscanf *)

Inductive directive :=
| DSpace                 (* white space in the format *)
| DLit (c : Z)           (* an ordinary character *)
| DD                     (* %d, into an int *)
| DU                     (* %u, into an unsigned int *)
| DLU                    (* %lu, into an unsigned long *)
| DSkipU                 (* %*u *)
| DC                     (* %c *)
| DSkipS                 (* %*s *)
| DS (width : nat).      (* %<width>s *)

Inductive sval := VI (z : Z) | VS (s : bytes).

Fixpoint span_word (w : nat) (s : bytes) : bytes * bytes :=
  match w, s with
  | O, _ => ([], s)
  | _, [] => ([], [])
  | S w', c :: r =>
      if isspace c then ([], s) else let '(d, t) := span_word w' r in (c :: d, t)
  end.

(** The values stored so far, in order; a matching failure or the end of the
    input stops the scan.  The sources only compare the returned count with
    the full one, so the early-end value EOF and the count 0 are not told
    apart. *)
Fixpoint sscanf (fmt : list directive) (s : bytes) : list sval :=
  match fmt with
  | [] => []
  | DSpace :: f => sscanf f (skip_spaces s)
  | DLit c :: f =>
      match s with x :: r => if x =? c then sscanf f r else [] | [] => [] end
  | DD :: f =>
      let t := strtol s in
      if st_conv t then VI (i32 (st_val t)) :: sscanf f (st_rest t) else []
  | DU :: f =>
      let t := strtoul s in
      if st_conv t then VI (u32 (st_val t)) :: sscanf f (st_rest t) else []
  | DLU :: f =>
      let t := strtoul s in
      if st_conv t then VI (st_val t) :: sscanf f (st_rest t) else []
  | DSkipU :: f =>
      let t := strtoul s in if st_conv t then sscanf f (st_rest t) else []
  | DC :: f => match s with c :: r => VI c :: sscanf f r | [] => [] end
  | DSkipS :: f =>
      let '(d, r) := span_word (length s) (skip_spaces s) in
      match d with [] => [] | _ => sscanf f r end
  | DS w :: f =>
      let '(d, r) := span_word w (skip_spaces s) in
      match d with [] => [] | _ => VS d :: sscanf f r end
  end.

(** ** Facts *)

Lemma isdigit_spec c : isdigit c = true <-> 48 <= c <= 57.
Proof. unfold isdigit. rewrite andb_true_iff, !Z.leb_le. lia. Qed.

Lemma isdigit_not_space c : isdigit c = true -> isspace c = false.
Proof. rewrite isdigit_spec. unfold isspace. intros. apply orb_false_iff.
  split; [lia|]. apply andb_false_iff. right. lia. Qed.

Definition all_digits (ds : bytes) : Prop := Forall (fun c => isdigit c = true) ds.

(** A rest that does not go on with a digit. *)
Definition stops (r : bytes) : Prop := match r with c :: _ => isdigit c = false | [] => True end.

Lemma span_digits_app ds r : all_digits ds -> stops r -> span_digits (ds ++ r) = (ds, r).
Proof.
  intros Hd Hr. induction Hd as [|c ds Hc Hd IH]; simpl.
  - destruct r as [|c r]; [done|]. simpl in *. by rewrite Hr.
  - by rewrite Hc, IH.
Qed.

Lemma dec_go_digits fuel n acc :
  0 <= n -> all_digits acc -> all_digits (dec_go fuel n acc).
Proof.
  revert n acc. induction fuel as [|f IH]; intros n acc Hn Ha; simpl; [done|].
  destruct (Z.ltb_spec n 10) as [H|H].
  - constructor; [apply isdigit_spec; lia|done].
  - apply IH; [apply Z.div_pos; lia|].
    constructor; [|done]. apply isdigit_spec. pose proof (Z.mod_pos_bound n 10). lia.
Qed.

Lemma dec_go_value fuel n acc :
  0 <= n < 2 ^ Z.of_nat fuel -> (0 < fuel)%nat ->
  foldl dec_step 0 (dec_go fuel n acc) = foldl dec_step n acc.
Proof.
  revert n acc. induction fuel as [|f IH]; intros n acc Hn Hf; [lia|]. simpl.
  destruct (Z.ltb_spec n 10) as [H|H].
  - simpl. f_equal. unfold dec_step. lia.
  - assert (Hp : 2 ^ Z.of_nat (S f) = 2 * 2 ^ Z.of_nat f)
      by (rewrite Nat2Z.inj_succ, Z.pow_succ_r; lia).
    assert (f <> 0%nat) by (intros ->; simpl in *; lia).
    assert (0 <= n / 10 < 2 ^ Z.of_nat f) by (split; [apply Z.div_pos|apply Z.div_lt_upper_bound]; lia).
    rewrite IH by lia. simpl. f_equal. unfold dec_step.
    pose proof (Z.div_mod n 10). lia.
Qed.

Lemma dec_fuel n : 0 <= n -> 0 <= n < 2 ^ Z.of_nat (S (Z.to_nat (Z.log2 n))).
Proof.
  intros. pose proof (Z.log2_nonneg n). rewrite Nat2Z.inj_succ, Z2Nat.id by lia.
  destruct (Z.eq_dec n 0) as [->|Hz]; [simpl; lia|].
  pose proof (Z.log2_spec n). lia.
Qed.

Lemma dec_value_dec n : 0 <= n -> dec_value (dec n) = n.
Proof.
  intros. unfold dec_value, dec.
  rewrite dec_go_value by (try apply dec_fuel; lia). done.
Qed.

Lemma dec_digits n : 0 <= n -> all_digits (dec n).
Proof. intros. apply dec_go_digits; [done|constructor]. Qed.

Lemma dec_go_nonnil fuel n acc : (0 < fuel)%nat \/ acc <> [] -> dec_go fuel n acc <> [].
Proof.
  revert n acc. induction fuel as [|f IH]; intros n acc H; simpl; [intuition lia|].
  destruct (n <? 10); [done|]. apply IH. by right.
Qed.

Lemma dec_nonnil n : dec n <> [].
Proof. apply dec_go_nonnil. left. lia. Qed.

Lemma dec_head n : 0 <= n -> exists c r, dec n = c :: r /\ isdigit c = true.
Proof.
  intros Hn. pose proof (dec_nonnil n). pose proof (dec_digits n Hn) as Hd.
  destruct (dec n) as [|c r]; [done|]. inversion Hd; eauto.
Qed.

Lemma skip_spaces_digit c r : isdigit c = true -> skip_spaces (c :: r) = c :: r.
Proof. intros H. simpl. by rewrite isdigit_not_space. Qed.

Lemma scan_sign_digit c r : isdigit c = true -> scan_sign (c :: r) = (false, c :: r).
Proof.
  rewrite isdigit_spec. intros. simpl.
  destruct (Z.eqb_spec c 45); [lia|]. by destruct (Z.eqb_spec c 43); [lia|].
Qed.

(** What [strtol] sees of a printed number followed by a non-digit. *)
Lemma scan_fmt_d n r :
  stops r ->
  (let '(neg, s1) := scan_sign (skip_spaces (fmt_d n ++ r)) in (neg, span_digits s1)) =
  (n <? 0, (dec (Z.abs n), r)).
Proof.
  intros Hr. unfold fmt_d. destruct (Z.ltb_spec n 0) as [H|H].
  - simpl. rewrite span_digits_app; [|apply dec_digits; lia|done]. do 3 f_equal. lia.
  - rewrite Z.abs_eq by lia. destruct (dec_head n H) as (c & t & Hc & Hd).
    pose proof (dec_digits n H) as Ha. rewrite Hc in *. cbn [app].
    rewrite skip_spaces_digit, scan_sign_digit by done. rewrite app_comm_cons.
    by rewrite span_digits_app.
Qed.

Lemma strtol_fmt_d n r :
  LONG_MIN <= n <= LONG_MAX -> stops r -> strtol (fmt_d n ++ r) = Strto n r true false.
Proof.
  intros Hn Hr. pose proof (scan_fmt_d n r Hr) as H. unfold strtol.
  destruct (scan_sign _) as [neg s1]. destruct (span_digits s1) as [ds t].
  injection H as -> -> ->. destruct (dec (Z.abs n)) eqn:E; [by destruct (dec_nonnil (Z.abs n))|].
  rewrite <- E, dec_value_dec by lia.
  assert ((if n <? 0 then - Z.abs n else Z.abs n) = n) as -> by (destruct (Z.ltb_spec n 0); lia).
  destruct (Z.ltb_spec LONG_MAX n); [lia|]. by destruct (Z.ltb_spec n LONG_MIN); [lia|].
Qed.

Lemma strtoul_dec n r :
  0 <= n <= ULONG_MAX -> stops r -> strtoul (dec n ++ r) = Strto n r true false.
Proof.
  intros Hn Hr. pose proof (scan_fmt_d n r Hr) as H. unfold fmt_d in H.
  destruct (Z.ltb_spec n 0); [lia|]. unfold strtoul.
  destruct (scan_sign _) as [neg s1]. destruct (span_digits s1) as [ds t].
  injection H as -> -> ->. destruct (dec (Z.abs n)) eqn:E; [by destruct (dec_nonnil (Z.abs n))|].
  rewrite <- E, dec_value_dec, Z.abs_eq by lia.
  by destruct (Z.ltb_spec ULONG_MAX n); [lia|].
Qed.

Lemma atoi_fmt_d n r : INT_MIN <= n <= INT_MAX -> stops r -> atoi (fmt_d n ++ r) = n.
Proof.
  intros Hn Hr. unfold atoi. rewrite strtol_fmt_d; [|unfold INT_MIN, INT_MAX, LONG_MIN, LONG_MAX in *; lia|done].
  by apply i32_small.
Qed.

Lemma cstr_app s r : Forall (fun c => c <> 0) s -> cstr (s ++ 0 :: r) = Some s.
Proof.
  induction 1 as [|c s Hc Hs IH]; simpl; [done|].
  destruct (Z.eqb_spec c 0); [done|]. by rewrite IH.
Qed.

(** The C string of a buffer starts with its first line when that has no NUL. *)
Lemma cstr_line c : exists s, cstr (c ++ [0]) = Some s /\
  forall u v, c = u ++ 10 :: v -> Forall (fun x => x <> 0) u -> exists v', s = u ++ 10 :: v'.
Proof.
  induction c as [|x c (s & Hs & IH)]; simpl.
  - exists []. split; [done|]. by intros [].
  - destruct (Z.eqb_spec x 0) as [->|Hx].
    + exists []. split; [done|]. intros [|y u] v Hc Hu; simplify_eq/=. by inversion Hu.
    + rewrite Hs. exists (x :: s). split; [done|]. intros [|y u] v Hc Hu; simplify_eq/=.
      * by eexists.
      * inversion Hu; subst. destruct (IH u v eq_refl) as [v' ->]; [done|]. by exists v'.
Qed.

Lemma all_digits_no_nul ds : all_digits ds -> Forall (fun x => x <> 0) ds.
Proof. intros H. eapply Forall_impl; [apply H|]. simpl. intros x Hx%isdigit_spec. lia. Qed.

Lemma fmt_d_no_nul n : Forall (fun x => x <> 0) (fmt_d n).
Proof.
  unfold fmt_d. destruct (Z.ltb_spec n 0); [constructor; [done|]|];
    apply all_digits_no_nul, dec_digits; lia.
Qed.

Lemma cstr_no_nul buf s : cstr buf = Some s -> Forall (fun c => c <> 0) s.
Proof.
  revert s. induction buf as [|c r IH]; intros s; simpl; [done|].
  destruct (Z.eqb_spec c 0); [intros [= <-]; constructor|].
  destruct (cstr r) as [t|]; simpl; [|done]. intros [= <-]. constructor; eauto.
Qed.

Lemma streq_spec a b : streq a b = true <-> a = b.
Proof. unfold streq. apply bool_decide_eq_true. Qed.

Lemma strtol_rest_le s : (length (st_rest (strtol s)) <= length s)%nat.
Proof.
  assert (Hk : forall t, (length (skip_spaces t) <= length t)%nat)
    by (induction t as [|x t IH]; simpl; [lia|]; destruct (isspace x); simpl; lia).
  assert (Hs : forall t, (length (snd (scan_sign t)) <= length t)%nat).
  { intros [|x t]; simpl; [lia|]. destruct (x =? 45); [simpl; lia|].
    destruct (x =? 43); simpl; lia. }
  assert (Hd : forall t, (length (snd (span_digits t)) <= length t)%nat).
  { induction t as [|x t IH]; simpl; [lia|]. destruct (isdigit x); simpl; [|lia].
    destruct (span_digits t); simpl in *; lia. }
  unfold strtol. pose proof (Hs (skip_spaces s)) as H1. destruct (scan_sign _) as [neg s1].
  pose proof (Hd s1) as H2. destruct (span_digits s1) as [ds r]. simpl in *.
  pose proof (Hk s). destruct ds as [|d ds]; [simpl; lia|].
  destruct (LONG_MAX <? _); [simpl; lia|]. destruct (_ <? LONG_MIN); simpl; lia.
Qed.

(** ** Lengths *)

Lemma dec_go_length fuel n acc k :
  0 <= n < 10 ^ Z.of_nat k -> (0 < k)%nat ->
  (length (dec_go fuel n acc) <= k + length acc)%nat.
Proof.
  revert n acc k. induction fuel as [|f IH]; intros n acc k Hn Hk; simpl; [lia|].
  destruct (Z.ltb_spec n 10) as [H|H]; [simpl; lia|].
  destruct k as [|[|k]]; [lia|simpl in Hn; lia|].
  assert (Hp : 10 ^ Z.of_nat (S (S k)) = 10 * 10 ^ Z.of_nat (S k))
    by (rewrite (Nat2Z.inj_succ (S k)), Z.pow_succ_r; lia).
  specialize (IH (n / 10) ((48 + n mod 10) :: acc) (S k)). simpl in IH.
  transitivity (S k + S (length acc))%nat; [|lia]. apply IH; [|lia].
  split; [apply Z.div_pos; lia|]. apply Z.div_lt_upper_bound; [lia|].
  change (Z.of_nat (S k)) with (Z.of_nat (S k)). lia.
Qed.

Lemma dec_length n k : 0 <= n < 10 ^ Z.of_nat k -> (0 < k)%nat -> (length (dec n) <= k)%nat.
Proof. intros. pose proof (dec_go_length (S (Z.to_nat (Z.log2 n))) n [] k). unfold dec. simpl in *. lia. Qed.

(** An [int] prints in at most 11 characters. *)
Lemma fmt_d_length n : INT_MIN <= n <= INT_MAX -> (length (fmt_d n) <= 11)%nat.
Proof.
  unfold INT_MIN, INT_MAX, fmt_d. intros Hn. destruct (Z.ltb_spec n 0); cbn [length].
  - pose proof (dec_length (- n) 10 ltac:(simpl; lia) ltac:(lia)). lia.
  - pose proof (dec_length n 10 ltac:(simpl; lia) ltac:(lia)). lia.
Qed.

Lemma snprintf_fits size text : Z.of_nat (length text) < size -> snprintf size text = text.
Proof. intros. unfold snprintf. apply take_ge. lia. Qed.

Lemma snprintf_length size text : 0 < size -> Z.of_nat (length (snprintf size text)) < size.
Proof. intros. unfold snprintf. rewrite length_take. lia. Qed.

#[export] Hint Resolve dec_digits dec_nonnil : cdb.

Example dec_ex : dec 1024 = bs "1024". Proof. reflexivity. Qed.
Example hex_ex : fmt_016llx 48879 = bs "000000000000beef". Proof. reflexivity. Qed.
Example sscanf_ex :
  sscanf [DD; DSpace; DD; DSpace; DS 34; DSpace; DLU] (bs "   8       0 sda 12") =
  [VI 8; VI 0; VS (bs "sda"); VI 12].
Proof. reflexivity. Qed.

(** *** Scanning printed fields *)

Lemma strtol_blanks k s : st_conv (strtol s) = true ->
  strtol (replicate k 32 ++ s) = strtol s.
Proof.
  assert (H : skip_spaces (replicate k 32 ++ s) = skip_spaces s) by (induction k; cbn; done).
  unfold strtol. rewrite H. destruct (scan_sign _) as [neg s1]. destruct (span_digits s1) as [[|] r]; done.
Qed.

Lemma strtoul_blanks k s : st_conv (strtoul s) = true ->
  strtoul (replicate k 32 ++ s) = strtoul s.
Proof.
  assert (H : skip_spaces (replicate k 32 ++ s) = skip_spaces s) by (induction k; cbn; done).
  unfold strtoul. rewrite H. destruct (scan_sign _) as [neg s1]. destruct (span_digits s1) as [[|] r]; done.
Qed.

Lemma skip_spaces_blanks k s : skip_spaces (replicate k 32 ++ s) = skip_spaces s.
Proof. induction k; cbn; done. Qed.

Lemma skip_spaces_fmt_d n r : skip_spaces (fmt_d n ++ r) = fmt_d n ++ r.
Proof.
  unfold fmt_d. destruct (Z.ltb_spec n 0); [done|]. destruct (dec_head n ltac:(lia)) as (c & t & -> & Hc).
  by apply skip_spaces_digit.
Qed.

Lemma span_word_all w s c r : Forall (fun c => isspace c = false) s -> (length s <= w)%nat ->
  isspace c = true -> span_word w (s ++ c :: r) = (s, c :: r).
Proof.
  intros Hs. revert w. induction Hs as [|x s Hx _ IH]; intros w Hw Hc; cbn [app].
  - destruct w; cbn; [done|]. by rewrite Hc.
  - cbn in Hw. destruct w as [|w]; [lia|]. cbn [span_word]. rewrite Hx.
    by rewrite (IH w) by (lia || done).
Qed.

Lemma sscanf_DSpace f s : sscanf (DSpace :: f) s = sscanf f (skip_spaces s).
Proof. done. Qed.

Lemma skip_spaces_name s r : s <> [] -> Forall (fun c => isspace c = false) s ->
  skip_spaces (s ++ r) = s ++ r.
Proof. intros Hne Hs. destruct Hs as [|c s Hc Hs]; [done|]. cbn. by rewrite Hc. Qed.

(** A blank-padded number. *)
Lemma skip_spaces_dec v r : 0 <= v -> skip_spaces (dec v ++ r) = dec v ++ r.
Proof. intros Hv. destruct (dec_head v Hv) as (c & t & -> & Hc). by apply skip_spaces_digit. Qed.

Lemma strtoul_padded k v r : 0 <= v <= ULONG_MAX -> stops r ->
  strtoul (replicate k 32 ++ dec v ++ r) = Strto v r true false.
Proof. intros Hv Hr. rewrite strtoul_blanks; by rewrite strtoul_dec. Qed.

Lemma sscanf_DU k v r f : 0 <= v < 2 ^ 32 -> stops r ->
  sscanf (DU :: f) (replicate k 32 ++ dec v ++ r) = VI v :: sscanf f r.
Proof.
  intros Hv Hr. cbn [sscanf]. rewrite strtoul_padded by (unfold ULONG_MAX; lia || done).
  cbn [st_conv st_val st_rest]. by rewrite wrap_u_small.
Qed.

Lemma sscanf_dec v r f : 0 <= v < 2 ^ 32 -> stops r -> sscanf (DU :: f) (dec v ++ r) = VI v :: sscanf f r.
Proof. exact (sscanf_DU 0 v r f). Qed.

Lemma sscanf_cons_DLit c f r : sscanf (DLit c :: f) (c :: r) = sscanf f r.
Proof. cbn [sscanf]. by rewrite Z.eqb_refl. Qed.

Lemma sscanf_DSkipU k v r f : 0 <= v <= ULONG_MAX -> stops r ->
  sscanf (DSkipU :: f) (replicate k 32 ++ dec v ++ r) = sscanf f r.
Proof. intros Hv Hr. cbn [sscanf]. by rewrite strtoul_padded. Qed.

Lemma sscanf_DSpace_dec k v r f : 0 <= v ->
  sscanf (DSpace :: f) (replicate k 32 ++ dec v ++ r) = sscanf f (dec v ++ r).
Proof. intros Hv. by rewrite sscanf_DSpace, skip_spaces_blanks, skip_spaces_dec. Qed.

(** The ordinary characters of a format. *)
Definition lits (s : string) : list directive := map DLit (bs s).

Lemma sscanf_lits s f r : sscanf (lits s ++ f) (bs s ++ r) = sscanf f r.
Proof. unfold lits. induction (bs s) as [|c t IH]; [done|]. cbn. by rewrite Z.eqb_refl. Qed.

(** *** Searching *)

Lemma drop_past {A} (s : list A) c r : drop (S (length s)) (s ++ c :: r) = r.
Proof. induction s; cbn; done. Qed.

Lemma strchr_app s c r : Forall (fun x => x <> c) s -> strchr (s ++ c :: r) c = Some (length s).
Proof.
  induction 1 as [|x s Hx _ IH]; cbn [app strchr length].
  - by rewrite Z.eqb_refl.
  - zcase. by rewrite IH.
Qed.

Lemma strchr_lt s c i : strchr s c = Some i -> (i < length s)%nat.
Proof.
  revert i. induction s as [|x s IH]; intros i; cbn [strchr length]; [done|].
  zcase; [intros [= <-]; lia|]. destruct (strchr s c) as [j|]; cbn; [|done].
  intros [= <-]. specialize (IH j eq_refl). lia.
Qed.

Lemma strchr_absent c s : Forall (fun x => x <> c) s -> strchr s c = None.
Proof. induction 1 as [|x s Hx Hs IH]; simpl; [done|]. destruct (Z.eqb_spec x c); [done|]. by rewrite IH. Qed.

Lemma strrchr_none s c : Forall (fun x => x <> c) s -> strrchr s c = None.
Proof. induction 1 as [|x s Hx Hs IH]; simpl; [done|]. rewrite IH. by destruct (Z.eqb_spec x c). Qed.

Lemma strrchr_last a r c : Forall (fun x => x <> c) r -> strrchr (a ++ c :: r) c = Some (length a).
Proof.
  intros Hr. induction a as [|x a IH]; simpl.
  - by rewrite strrchr_none, Z.eqb_refl.
  - by rewrite IH.
Qed.

Lemma cstr_prefix a b : Forall (fun c => c <> 0) a -> cstr (a ++ b) = app a <$> cstr b.
Proof.
  induction 1 as [|c a Hc _ IH]; cbn [app cstr]; [by destruct (cstr b)|].
  destruct (Z.eqb_spec c 0); [done|]. rewrite IH. by destruct (cstr b).
Qed.
