(* ===== verification/Posix.v ===== *)
(** * System calls, traces and the monad of the modelled C functions

    The operating system is a parameter: a function [os] from the history of
    calls and the next call to what the call returns.  Quantifying over it
    quantifies over every behaviour the kernel, the target process and the file
    system can show.  A C function is a computation of the monad [M G], where
    [G] is the record of the static variables of its component; it appends each
    call it makes to the trace, so that what it did can be stated of the trace
    it leaves.  Undefined behaviour is the outcome [Undef], a loop that has not
    finished within its fuel is [NoFuel], process exit is [Exit]. *)

From stdpp Require Import base numbers list strings.
From S2P Require Import Prelude Libc.
Open Scope Z_scope.

(** ** Calls and results *)

Inductive call :=
| COpen (path : bytes) (flags mode : Z)
| CCreat (path : bytes) (mode : Z)
| CClose (fd : Z)
| CRead (fd n : Z)
| CRecv (fd n : Z)
| CWrite (fd : Z) (data : bytes)
| CStat (path : bytes)
| CReadlink (path : bytes) (n : Z)
| CUnlink (path : bytes)
| CSocket (domain : Z)
| CConnect (fd : Z) (path : bytes)
| CBind (fd : Z)
| CListen (fd backlog : Z)
| CGetsockname (fd : Z)
| CAccept (fd : Z)
| CSetRcvTimeo (fd secs : Z)
| CKill (pid sig : Z)
| CNanosleep (ns : Z)
| CSleep (secs : Z)
| CFlock (fd op : Z)
| CFtok (path : bytes) (id : Z)
| CSemget (key flags : Z)
| CSemop (sem value flags : Z)
| COpendir (path : bytes)
| CReaddir (dir : Z)
| CClosedir (dir : Z)
| CSetns (fd : Z)
| CGeteuid
| CGetegid
| CSetegid (gid : Z)
| CSeteuid (uid : Z)
| CIgnoreSigpipe
| CGetenv (name : bytes)
| CTime
| CMalloc (size : Z)
| CFopen (path : bytes)
| CGetline (fp : Z)
| CFclose (fp : Z)
| CLseek (fd off : Z)
| CFseek (fp off : Z)
| CFgets (fp size : Z)
| CFread (fp n : Z)
| CFeof (fp : Z)
| CFscan (fp : Z)
| CSysconf (name : Z)
| CIoctl (fd request : Z)
| CGetpagesize
| CNewlocale
| CSetutent
| CGetutent
| CEndutent
| CStdout (data : bytes)
| CStderr (data : bytes)
| CPerror (msg : bytes).

#[export] Instance call_eq_dec : EqDecision call.
Proof. solve_decision. Defined.

(** What a call hands back: its value, [errno] when that value is negative, the
    bytes it delivers, and the fields of [struct stat], [struct dirent],
    [struct utmp] and [struct sockaddr_in] (the port in host order) the sources
    look at.  A call that returns a pointer is negative for NULL. *)
Record ret := Ret {
  r_val : Z;
  r_errno : Z;
  r_data : bytes;
  r_ino : Z;
  r_uid : Z;
  r_sock : bool;
  r_dtype : Z;
  r_port : Z;
  r_gid : Z;
  r_rdev : Z
}.

Abbreviation event := (call * ret)%type.

(** The history, newest event first. *)
Abbreviation trace := (list event).

Definition os : Type := trace -> call -> ret.

Definition rok (v : Z) : ret := Ret v 0 [] 0 0 false 0 0 0 0.
Definition rerr (e : Z) : ret := Ret (-1) e [] 0 0 false 0 0 0 0.
Definition rdata (v : Z) (d : bytes) : ret := Ret v 0 d 0 0 false 0 0 0 0.

(** What the kernel documents about the calls that fill or drain a buffer. *)
Class Kernel (o : os) : Prop := {
  k_read : forall t fd n, 0 <= n ->
    r_val (o t (CRead fd n)) <= n /\
    length (r_data (o t (CRead fd n))) = Z.to_nat (r_val (o t (CRead fd n)));
  k_recv : forall t fd n, 0 <= n ->
    r_val (o t (CRecv fd n)) <= n /\
    length (r_data (o t (CRecv fd n))) = Z.to_nat (r_val (o t (CRecv fd n)));
  k_write : forall t fd d, r_val (o t (CWrite fd d)) <= Z.of_nat (length d)
}.

(** The same of [readlink]. *)
Class Readlink (o : os) : Prop := {
  k_readlink : forall t p n, 0 <= n ->
    r_val (o t (CReadlink p n)) <= n /\
    length (r_data (o t (CReadlink p n))) = Z.to_nat (r_val (o t (CReadlink p n)))
}.

(** ** The monad *)

Record world (G : Type) := World { w_tr : trace; w_errno : Z; w_g : G }.
Arguments World {G}.
Arguments w_tr {G}.
Arguments w_errno {G}.
Arguments w_g {G}.

Inductive outcome (G A : Type) :=
| Done (a : A) (w : world G)
| Undef (w : world G)
| Exit (code : Z) (w : world G)
| NoFuel.
Arguments Done {G A}.
Arguments Undef {G A}.
Arguments Exit {G A}.
Arguments NoFuel {G A}.

Definition M (G A : Type) : Type := os -> world G -> outcome G A.

#[export] Instance M_ret G : MRet (M G) := fun A a o w => Done a w.
#[export] Instance M_bind G : MBind (M G) := fun A B f m o w =>
  match m o w with
  | Done a w' => f a o w'
  | Undef w' => Undef w'
  | Exit c w' => Exit c w'
  | NoFuel => NoFuel
  end.

Section ops.
Context {G : Type}.

  (** One system call. *)
Definition sys (c : call) : M G ret := fun o w =>
    let r := o (w_tr w) c in
    Done r (World ((c, r) :: w_tr w) (if r_val r <? 0 then r_errno r else w_errno w) (w_g w)).

Definition undef {A} : M G A := fun o w => Undef w.
Definition nofuel {A} : M G A := fun o w => NoFuel.

  (** [_exit] *)
Definition exit_now {A} (code : Z) : M G A := fun o w => Exit code w.
Definition getg : M G G := fun o w => Done (w_g w) w.
Definition modg (f : G -> G) : M G unit := fun o w =>
    Done tt (World (w_tr w) (w_errno w) (f (w_g w))).
Definition get_errno : M G Z := fun o w => Done (w_errno w) w.
Definition set_errno (e : Z) : M G unit := fun o w => Done tt (World (w_tr w) e (w_g w)).

  (** A pointer or an array access that must succeed. *)
Definition deref {A} (x : option A) : M G A :=
    match x with Some a => mret a | None => undef end.

Definition stdout (d : bytes) : M G unit := sys (CStdout d) ≫= fun _ => mret tt.
Definition stderr (d : bytes) : M G unit := sys (CStderr d) ≫= fun _ => mret tt.
Definition perror (d : bytes) : M G unit := sys (CPerror d) ≫= fun _ => mret tt.
End ops.

(** ** Reasoning about computations

    [wp m o w Q]: run from [w] on [o], the computation finishes, without
    undefined behaviour, in a state that satisfies [Q].  [wlp]: if it finishes,
    its state satisfies [Q]. *)

Definition wp {G A} (m : M G A) (o : os) (w : world G) (Q : A -> world G -> Prop) : Prop :=
  match m o w with Done a w' => Q a w' | _ => False end.

Definition wlp {G A} (m : M G A) (o : os) (w : world G) (Q : A -> world G -> Prop) : Prop :=
  match m o w with Done a w' => Q a w' | _ => True end.

Section rules.
Context {G : Type}.
  Implicit Types (o : os) (w : world G).

Lemma wp_bind {A B} (m : M G A) (f : A -> M G B) o w Q :
    wp m o w (fun a w' => wp (f a) o w' Q) -> wp (m ≫= f) o w Q.
  Proof. unfold wp, mbind, M_bind. by destruct (m o w). Qed.

Lemma wlp_bind {A B} (m : M G A) (f : A -> M G B) o w Q :
    wlp m o w (fun a w' => wlp (f a) o w' Q) -> wlp (m ≫= f) o w Q.
  Proof. unfold wlp, mbind, M_bind. by destruct (m o w). Qed.

Lemma wp_mono {A} (m : M G A) o w (Q Q' : A -> world G -> Prop) :
    wp m o w Q -> (forall a w', Q a w' -> Q' a w') -> wp m o w Q'.
  Proof. unfold wp. destruct (m o w); naive_solver. Qed.

Lemma wlp_mono {A} (m : M G A) o w (Q Q' : A -> world G -> Prop) :
    wlp m o w Q -> (forall a w', Q a w' -> Q' a w') -> wlp m o w Q'.
  Proof. unfold wlp. destruct (m o w); naive_solver. Qed.

Lemma wp_wlp {A} (m : M G A) o w (Q : A -> world G -> Prop) : wp m o w Q -> wlp m o w Q.
  Proof. unfold wp, wlp. by destruct (m o w). Qed.

Lemma wlp_any {A} (m : M G A) o w (Q : A -> world G -> Prop) : (forall a w', Q a w') -> wlp m o w Q.
  Proof. intros H. unfold wlp. destruct (m o w); done || apply H. Qed.

Lemma wlp_and {A} (m : M G A) o w (P Q : A -> world G -> Prop) :
    wlp m o w P -> wlp m o w Q -> wlp m o w (fun a w' => P a w' /\ Q a w').
  Proof. unfold wlp. by destruct (m o w). Qed.

Lemma wlp_done {A} (m : M G A) o w Q a w' : m o w = Done a w' -> wlp m o w Q -> Q a w'.
  Proof. unfold wlp. by intros ->. Qed.
End rules.

(** ** The trace a computation leaves *)

(** The bytes written to a descriptor, and to standard output, in order. *)
Fixpoint written (fd : Z) (t : trace) : bytes :=
  match t with
  | [] => []
  | (CWrite f d, r) :: t' =>
      written fd t' ++ (if f =? fd then take (Z.to_nat (r_val r)) d else [])
  | _ :: t' => written fd t'
  end.

Fixpoint printed (t : trace) : bytes :=
  match t with
  | [] => []
  | (CStdout d, _) :: t' => printed t' ++ d
  | _ :: t' => printed t'
  end.

(** The bytes received from a descriptor, and how often it was read. *)
Fixpoint received (fd : Z) (t : trace) : bytes :=
  match t with
  | [] => []
  | (CRead f _, r) :: t' =>
      received fd t' ++ (if (f =? fd) && (0 <? r_val r) then r_data r else [])
  | _ :: t' => received fd t'
  end.

Fixpoint reads (fd : Z) (t : trace) : nat :=
  match t with
  | [] => 0
  | (CRead f _, _) :: t' => if f =? fd then S (reads fd t') else reads fd t'
  | _ :: t' => reads fd t'
  end.

(** From the history [t] on, the peer of [fd] sends at most [n] chunks. *)
Definition drained (o : os) (fd : Z) (n : nat) (t : trace) : Prop :=
  forall t' k, (n <= reads fd t')%nat -> r_val (o (t' ++ t) (CRead fd k)) <= 0.

(** ** Handles

    Descriptors, directory streams and stdio streams, by the value the system
    returned for them. *)
Inductive handle := HFd (fd : Z) | HDir (d : Z) | HFp (f : Z).

Definition handle_val (h : handle) : Z := match h with HFd v | HDir v | HFp v => v end.

Definition opened (v : Z) (r : ret) : Z :=
  if (0 <=? r_val r) && (r_val r =? v) then 1 else 0.
Definition closed (v f : Z) : Z := if f =? v then -1 else 0.

(** How the number of open references to a handle changes with a call. *)
Definition effect (h : handle) (e : event) : Z :=
  match h, e with
  | HFd v, ((COpen _ _ _ | CCreat _ _ | CSocket _ | CAccept _), r) => opened v r
  | HFd v, (CClose f, _) => closed v f
  | HDir v, (COpendir _, r) => opened v r
  | HDir v, (CClosedir d, _) => closed v d
  | HFp v, (CFopen _, r) => opened v r
  | HFp v, (CFclose f, _) => closed v f
  | _, _ => 0
  end.

Definition net (h : handle) (t : trace) : Z := foldr (fun e n => effect h e + n) 0 t.

(** *** Accounting

    [gains m D]: whatever the system does, if [m] finishes with the result [a]
    it has changed the number of references to each handle [h] by [D a h], and left the static variables alone. *)

Definition gains {G A} (m : M G A) (D : A -> handle -> Z) : Prop := forall o w,
  wlp m o w (fun a w' => w_g w' = w_g w /\
    forall h, 0 <= handle_val h -> net h (w_tr w') = net h (w_tr w) + D a h).

Create HintDb gdb.

Section gains.
Context {G : Type}.

Lemma gains_ret {A} (a : A) D : (forall h, 0 <= handle_val h -> D a h = 0) -> gains (G:=G) (mret a) D.
  Proof. intros H o w. split; [done|]. intros h Hh. rewrite H by done. simpl. lia. Qed.

Lemma gains_bind {A B} (m : M G A) (f : A -> M G B) D1 D :
    gains m D1 -> (forall a, gains (f a) (fun b h => D b h - D1 a h)) -> gains (m ≫= f) D.
  Proof.
    intros Hm Hf o w. apply wlp_bind. eapply wlp_mono; [apply Hm|].
    intros a w1 [Hg1 H1]. eapply wlp_mono; [apply Hf|].
    intros b w2 [Hg2 H2]. split; [congruence|]. intros h Hh. rewrite H2, H1 by done. lia.
  Qed.

Lemma gains_mono {A} (m : M G A) D1 D :
    gains m D1 -> (forall a h, 0 <= handle_val h -> D1 a h = D a h) -> gains m D.
  Proof.
    intros Hm HD o w. eapply wlp_mono; [apply Hm|]. intros a w1 [Hg H1]. split; [done|].
    intros h Hh. rewrite H1 by done. by rewrite HD.
  Qed.

Lemma gains_sys c : gains (G:=G) (sys c) (fun r h => effect h (c, r)).
  Proof. intros o w. split; [done|]. intros h Hh. unfold net. cbn [w_tr foldr]. lia. Qed.

Lemma gains_getg : gains (G:=G) getg (fun _ _ => 0).
  Proof. intros o w. split; [done|]. intros h Hh. simpl. lia. Qed.
Lemma gains_get_errno : gains (G:=G) get_errno (fun _ _ => 0).
  Proof. intros o w. split; [done|]. intros h Hh. simpl. lia. Qed.
Lemma gains_set_errno e : gains (G:=G) (set_errno e) (fun _ _ => 0).
  Proof. intros o w. split; [done|]. intros h Hh. simpl. lia. Qed.
Lemma gains_undef {A} (D : A -> handle -> Z) : gains (G:=G) undef D.
  Proof. by intros o w. Qed.
Lemma gains_nofuel {A} (D : A -> handle -> Z) : gains (G:=G) nofuel D.
  Proof. by intros o w. Qed.
Lemma gains_exit {A} c (D : A -> handle -> Z) : gains (G:=G) (exit_now c) D.
  Proof. by intros o w. Qed.
Lemma gains_deref {A} (x : option A) : gains (G:=G) (deref x) (fun _ _ => 0).
  Proof. destruct x; [by apply gains_ret|apply gains_undef]. Qed.
Lemma gains_stdout d : gains (G:=G) (stdout d) (fun _ _ => 0).
  Proof. intros o w. split; [done|]. intros [] Hh; simpl; lia. Qed.
Lemma gains_stderr d : gains (G:=G) (stderr d) (fun _ _ => 0).
  Proof. intros o w. split; [done|]. intros [] Hh; simpl; lia. Qed.
Lemma gains_perror d : gains (G:=G) (perror d) (fun _ _ => 0).
  Proof. intros o w. split; [done|]. intros [] Hh; simpl; lia. Qed.
End gains.

#[export] Hint Resolve gains_sys gains_getg gains_get_errno gains_set_errno
  gains_deref gains_stdout gains_stderr gains_perror : gdb.

(** What every run does, of a run that succeeds. *)
Lemma wp_gains {G A} (m : M G A) o (w : world G) Q D : wp m o w Q -> gains m D ->
  wp m o w (fun a w' => Q a w' /\ w_g w' = w_g w /\
    forall h, 0 <= handle_val h -> net h (w_tr w') = net h (w_tr w) + D a h).
Proof.
  intros H1 H2. specialize (H2 o w). unfold wp, wlp in *. by destruct (m o w).
Qed.

(** Case analysis on the comparisons of the accounting, then arithmetic. *)
Ltac fd_leaf :=
  intros;
  repeat match goal with h : handle |- _ => destruct h end;
  cbn [effect handle_val] in *; unfold opened, closed, andb in *;
  repeat match goal with
  | H : context [Z.eqb ?a ?b] |- _ => destruct (Z.eqb_spec a b); try discriminate H
  | H : context [Z.ltb ?a ?b] |- _ => destruct (Z.ltb_spec a b); try discriminate H
  | H : context [Z.leb ?a ?b] |- _ => destruct (Z.leb_spec a b); try discriminate H
  | |- context [Z.eqb ?a ?b] => destruct (Z.eqb_spec a b)
  | |- context [Z.ltb ?a ?b] => destruct (Z.ltb_spec a b)
  | |- context [Z.leb ?a ?b] => destruct (Z.leb_spec a b)
  end; subst; simpl in *; try lia; try congruence.

(** Syntax-directed proof of a [gains] goal. *)
Ltac gains_step :=
  match goal with
  | |- gains (mret _) _ => apply gains_ret; fd_leaf
  | |- gains undef _ => apply gains_undef
  | |- gains nofuel _ => apply gains_nofuel
  | |- gains (exit_now _) _ => apply gains_exit
  | |- gains (mbind _ _) _ =>
      eapply gains_bind; [solve [eauto with gdb] | intros ?; cbn beta]
  | |- gains (if ?b then _ else _) _ => destruct b eqn:?
  | |- gains (match ?x with _ => _ end) _ => destruct x eqn:?
  | |- gains _ _ => eapply gains_mono; [solve [eauto with gdb] | fd_leaf]
  end.
Ltac gains_tac := repeat gains_step.

(** The same where the parts that are no single call change nothing. *)
Ltac gains_zero := repeat first
  [ gains_step
  | match goal with |- gains (mbind _ _) _ => apply (gains_bind _ _ (fun _ _ => 0)); [|intros ?; cbn beta] end ].

Lemma wp_sys {G} c o (w : world G) (Q : ret -> world G -> Prop) :
  (forall r e, r = o (w_tr w) c -> Q r (World ((c, r) :: w_tr w) e (w_g w))) -> wp (sys c) o w Q.
Proof. intros H. by apply H. Qed.

Lemma wlp_sys {G} c o (w : world G) (Q : ret -> world G -> Prop) :
  (forall r e, r = o (w_tr w) c -> Q r (World ((c, r) :: w_tr w) e (w_g w))) -> wlp (sys c) o w Q.
Proof. intros H. by apply H. Qed.

Lemma wp_done {G A} (m : M G A) o w Q : wp m o w Q -> exists a w', m o w = Done a w' /\ Q a w'.
Proof. unfold wp. destruct (m o w); try done. eauto. Qed.

Lemma wp_ret {G A} (a : A) o (w : world G) (Q : A -> world G -> Prop) : Q a w -> wp (mret a) o w Q.
Proof. done. Qed.

(** The same with [errno] kept. *)
Lemma wp_sys_errno {G} c o (w : world G) (Q : ret -> world G -> Prop) :
  (forall r, r = o (w_tr w) c ->
     Q r (World ((c, r) :: w_tr w) (if r_val r <? 0 then r_errno r else w_errno w) (w_g w))) ->
  wp (sys c) o w Q.
Proof. intros H. by apply H. Qed.

(** Run a call, naming its result and keeping what the system answered. *)
Tactic Notation "wsys" ident(r) ident(H) :=
  (apply wp_sys || apply wlp_sys); let e := fresh "e" in intros r e H; cbn [w_tr w_errno w_g] in *.

(** One step of symbolic execution in a [wp]/[wlp] goal. *)
Ltac wstep :=
  match goal with
  | |- wlp (mbind _ _) _ _ _ => apply wlp_bind
  | |- wp (mbind _ _) _ _ _ => apply wp_bind
  end.

Ltac wsimpl := cbn [wlp wp sys mret M_ret getg modg get_errno set_errno undef nofuel deref
  stdout stderr perror w_tr w_errno w_g].
