(* ===== verification/Psutil.v ===== *)
(** * ycattach/posix: process information (psutil.c, env.c), Linux branch

    Finding the credentials and the in-container pid of the target process,
    entering its namespaces and locating its temporary directory. *)

From stdpp Require Import base numbers list strings.
From S2P Require Import Prelude Libc Posix.
Open Scope Z_scope.

(** [MAX_PATH]; the static buffer [tmp_path] has [MAX_PATH - 100] bytes. *)
Definition MAX_PATH : Z := 1024.
Definition TMP_PATH_SIZE : Z := MAX_PATH - 100.
Definition MAX_NOTIF_FILES : nat := 256.

(** The static variables of the attach library: [tmp_path] of psutil.c,
    [nspid] and [code] of jattach.c, [notif_lock] of jattach_openj9.c, and the
    static [line] of [sched_get_host_pid], of which only the capacity of the
    allocated block matters ([None]: still NULL). *)
Record jglobals := JGlobals {
  tmp_path : bytes;
  g_nspid : Z;
  g_code : Z;
  notif_lock : list Z;
  sched_line : option Z
}.

Definition set_tmp_path p g := JGlobals p (g_nspid g) (g_code g) (notif_lock g) (sched_line g).
Definition set_nspid n g := JGlobals (tmp_path g) n (g_code g) (notif_lock g) (sched_line g).
Definition set_code c g := JGlobals (tmp_path g) (g_nspid g) c (notif_lock g) (sched_line g).
Definition set_notif_lock l g := JGlobals (tmp_path g) (g_nspid g) (g_code g) l (sched_line g).
Definition set_sched_line l g := JGlobals (tmp_path g) (g_nspid g) (g_code g) (notif_lock g) l.

Abbreviation J := (M jglobals).

Section psutil.
  (** The value found in the uninitialised local [size] of
      [sched_get_host_pid] when it is called after the given history. *)
Variable junk : trace -> Z.

Definition getenv_int (name : bytes) : J Z :=
    r ← sys (CGetenv name);
    if (r_val r <? 0) || bool_decide (r_data r = []) then mret (-1)
    else mret (atoi (r_data r)).

  (** Returns the result and what was stored in [buf]. *)
Definition get_tmp_path_r (pid bufsize : Z) : J (Z * bytes) :=
    let text := bs "/proc/" ++ fmt_d pid ++ bs "/root/tmp" in
    let buf := snprintf bufsize text in
    if bufsize <=? snprintf_ret text then mret (-1, buf)
    else r ← sys (CStat buf); mret (r_val r, buf).

Definition get_tmp_path (pid : Z) : J unit :=
    r ← sys (CGetenv (bs "JATTACH_PATH"));
    if (0 <=? r_val r) && (Z.of_nat (length (r_data r)) <? TMP_PATH_SIZE) then
      modg (set_tmp_path (r_data r))
    else
      res ← get_tmp_path_r pid TMP_PATH_SIZE;
      _ ← modg (set_tmp_path res.2);
      if res.1 =? 0 then mret tt else modg (set_tmp_path (bs "/tmp")).

  (** [getline(&line, &size, fp)] on a block of capacity [cap] with [size]
      claiming [n]: the new capacity after storing [need] bytes, [None] when
      the store leaves the block. *)
Definition getline_store (cap : option Z) (n need : Z) : option Z :=
    match cap with
    | None => Some need
    | Some c =>
        if need <=? n then if need <=? c then Some c else None
        else Some need
    end.

Definition sched_get_host_pid (path : bytes) : J Z :=
    f ← sys (CFopen path);
    if r_val f <? 0 then mret (-1) else
    l ← sys (CGetline (r_val f));
    res ← (if r_val l =? -1 then mret (-1) else
      g ← getg;
      n ← (fun o w => Done (junk (w_tr w)) w);
      cap ← deref (getline_store (sched_line g) n (Z.of_nat (length (r_data l)) + 1));
      _ ← modg (set_sched_line (Some cap));
      match strrchr (r_data l) 40 with
      | Some i => mret (atoi (drop (S i) (r_data l)))
      | None => mret (-1)
      end);
    _ ← sys (CFclose (r_val f));
    mret res.

Definition pid_name (name : bytes) : bool :=
    match name with c :: _ => (49 <=? c) && (c <=? 57) | [] => false end.

  (** The [readdir] loop of [alt_lookup_nspid]. *)
Fixpoint alt_lookup_scan (fuel : nat) (pid dir : Z) : J Z :=
    match fuel with
    | O => nofuel
    | S f =>
        e ← sys (CReaddir dir);
        if r_val e <? 0 then _ ← sys (CClosedir dir); mret pid
        else if pid_name (r_data e) then
          h ← sched_get_host_pid
                (snprintf 300 (bs "/proc/" ++ fmt_d pid ++ bs "/root/proc/" ++ r_data e ++ bs "/sched"));
          if h =? pid then _ ← sys (CClosedir dir); mret (atoi (r_data e))
          else alt_lookup_scan f pid dir
        else alt_lookup_scan f pid dir
    end.

  (** Whether two namespace files both exist and have the same inode. *)
Definition same_ns (selfpath path : bytes) : J (option bool) :=
    a ← sys (CStat selfpath);
    if negb (r_val a =? 0) then mret None else
    b ← sys (CStat path);
    if negb (r_val b =? 0) then mret None else
    mret (Some (r_ino a =? r_ino b)).

Definition alt_lookup_nspid (fuel : nat) (pid : Z) : J Z :=
    same ← same_ns (bs "/proc/self/ns/pid")
             (snprintf 300 (bs "/proc/" ++ fmt_d pid ++ bs "/ns/pid"));
    match same with
    | Some true => mret pid
    | _ =>
        d ← sys (COpendir (snprintf 300 (bs "/proc/" ++ fmt_d pid ++ bs "/root/proc")));
        if r_val d <? 0 then mret pid else alt_lookup_scan fuel pid (r_val d)
    end.

  (** The out parameters of [get_process_info] and its [nspid_found]. *)
Record pinfo := PInfo { p_uid : Z; p_gid : Z; p_nspid : Z; p_found : bool }.

  (** What one line of /proc/pid/status does to them; [None] is undefined
      behaviour ([line + 5] past the string, or [atoi(NULL)]). *)
Definition status_line (p : pinfo) (line : bytes) : option pinfo :=
    if prefixb (bs "Uid:") line then
      if (length line <? 5)%nat then None else
      i ← strchr (drop 5 line) 9;
      Some (PInfo (u32 (atoi (drop i (drop 5 line)))) (p_gid p) (p_nspid p) (p_found p))
    else if prefixb (bs "Gid:") line then
      if (length line <? 5)%nat then None else
      i ← strchr (drop 5 line) 9;
      Some (PInfo (p_uid p) (u32 (atoi (drop i (drop 5 line)))) (p_nspid p) (p_found p))
    else if prefixb (bs "NStgid:") line then
      i ← strrchr line 9;
      Some (PInfo (p_uid p) (p_gid p) (atoi (drop i line)) true)
    else Some p.

Fixpoint status_loop (fuel : nat) (fp : Z) (p : pinfo) : J pinfo :=
    match fuel with
    | O => nofuel
    | S f =>
        l ← sys (CGetline fp);
        if r_val l =? -1 then mret p
        else p' ← deref (status_line p (r_data l)); status_loop f fp p'
    end.

  (** Returns the result code and the out parameters. *)
Definition get_process_info (fuel : nat) (pid : Z) (p : pinfo) : J (Z * pinfo) :=
    f ← sys (CFopen (snprintf 64 (bs "/proc/" ++ fmt_d pid ++ bs "/status")));
    if r_val f <? 0 then mret (-1, p) else
    p1 ← status_loop fuel (r_val f) (PInfo (p_uid p) (p_gid p) (p_nspid p) false);
    _ ← sys (CFclose (r_val f));
    if p_found p1 then mret (0, p1) else
    n ← alt_lookup_nspid fuel pid;
    mret (0, PInfo (p_uid p1) (p_gid p1) n false).

Definition O_RDONLY : Z := 0.

Definition enter_ns (pid : Z) (type : bytes) : J Z :=
    let path := snprintf 64 (bs "/proc/" ++ fmt_d pid ++ bs "/ns/" ++ type) in
    same ← same_ns (snprintf 64 (bs "/proc/self/ns/" ++ type)) path;
    match same with
    | Some false =>
        newns ← sys (COpen path O_RDONLY 0);
        if r_val newns <? 0 then mret (-1) else
        result ← sys (CSetns (r_val newns));
        _ ← sys (CClose (r_val newns));
        mret (if r_val result <? 0 then -1 else 1)
    | _ => mret 0
    end.
End psutil.

(** ** The status file of a process

    [serves o fp ls t]: from the history [t] on, the lines of the stream [fp]
    are [ls], whatever other calls are made in between. *)

Definition getlines (fp : Z) (t : trace) : nat :=
  length (filter (fun e : event => e.1 = CGetline fp) t).

Definition serves (o : os) (fp : Z) (ls : list bytes) (t : trace) : Prop :=
  forall t', o (t' ++ t) (CGetline fp) =
    match ls !! getlines fp t' with
    | Some l => rdata (Z.of_nat (length l)) l
    | None => rerr 0
    end.

Fixpoint status_lines (p : pinfo) (ls : list bytes) : option pinfo :=
  match ls with
  | [] => Some p
  | l :: r => p' ← status_line p l; status_lines p' r
  end.

Lemma status_lines_app p ls1 ls2 :
  status_lines p (ls1 ++ ls2) = (p' ← status_lines p ls1; status_lines p' ls2).
Proof.
  revert p. induction ls1 as [|l r IH]; intros p; simpl; [done|].
  destruct (status_line p l); simpl; auto.
Qed.

Lemma status_loop_serves o fp ls t fuel p p' :
  forall done t' e g,
  serves o fp (done ++ ls) t ->
  getlines fp t' = length done ->
  status_lines p ls = Some p' ->
  (length ls < fuel)%nat ->
  exists t'' e'', status_loop fuel fp p o (World (t' ++ t) e g) = Done p' (World (t'' ++ t) e'' g).
Proof.
  revert fuel p. induction ls as [|l r IH]; intros fuel p dn t' e g Hs Hn Hp Hf;
    (destruct fuel as [|f]; [simpl in Hf; lia|]); simpl in Hp; cbn [status_loop].
  - injection Hp as <-. unfold mbind, M_bind, sys. cbn [w_tr w_errno w_g].
    rewrite Hs, Hn, app_nil_r, lookup_ge_None_2 by lia. simpl.
    by eexists ((CGetline fp, rerr 0) :: t'), _.
  - destruct (status_line p l) as [p1|] eqn:El; [|done]. simpl in Hp.
    unfold mbind at 1, M_bind at 1, sys. cbn [w_tr w_errno w_g].
    rewrite Hs, Hn, lookup_app_r, Nat.sub_diag by lia. cbn [lookup list_lookup r_val r_data rdata].
    destruct (Z.eqb_spec (Z.of_nat (length l)) (-1)); [lia|].
    rewrite El. cbn [deref mbind M_bind mret M_ret].
    rewrite app_comm_cons. eapply (IH f p1 (dn ++ [l])); [by rewrite <- app_assoc| |done|simpl in *; lia].
    unfold getlines in *. rewrite filter_cons_True by done.
    cbn [length]. rewrite length_app, Hn. simpl. lia.
Qed.

(** The lines the kernel prints for the credentials and the namespace pids. *)
Definition cred_line (tag : bytes) (r e s f : Z) : bytes :=
  tag ++ 9 :: dec r ++ 9 :: dec e ++ 9 :: dec s ++ 9 :: dec f ++ [10].
Definition nstgid_line (ids : list Z) (inner : Z) : bytes :=
  bs "NStgid:" ++ concat (map (fun i => 9 :: dec i) ids) ++ 9 :: dec inner ++ [10].

Definition other_line (l : bytes) : Prop :=
  prefixb (bs "Uid:") l = false /\ prefixb (bs "Gid:") l = false /\ prefixb (bs "NStgid:") l = false.

Lemma strchr_digits c ds r : all_digits ds -> isdigit c = false -> strchr (ds ++ c :: r) c = Some (length ds).
Proof.
  intros Hd Hc. induction Hd as [|x ds Hx Hd IH]; simpl; [by rewrite Z.eqb_refl|].
  destruct (Z.eqb_spec x c); [subst; congruence|]. by rewrite IH.
Qed.

Lemma atoi_space c s : isspace c = true -> atoi (c :: s) = atoi s.
Proof.
  intros H. unfold atoi, strtol. simpl. rewrite H.
  destruct (scan_sign _) as [neg s1]. destruct (span_digits s1) as [ds t]. by destruct ds.
Qed.

Lemma atoi_dec_u32 n r : 0 <= n < 2 ^ 32 -> stops r -> atoi (dec n ++ r) = i32 n.
Proof.
  intros Hn Hr. unfold atoi. pose proof (strtol_fmt_d n r) as H. unfold fmt_d in H.
  destruct (Z.ltb_spec n 0); [lia|]. rewrite H; [done| |done]. unfold LONG_MIN, LONG_MAX. lia.
Qed.

Lemma status_cred tag r e s f :
  length tag = 4%nat -> 0 <= r -> 0 <= e < 2 ^ 32 ->
  (i ← strchr (drop 5 (cred_line tag r e s f)) 9;
   Some (u32 (atoi (drop i (drop 5 (cred_line tag r e s f)))))) = Some e /\
  (length (cred_line tag r e s f) <? 5)%nat = false.
Proof.
  intros Ht Hr He. split.
  - unfold cred_line. rewrite drop_app_ge, Ht by lia. simpl. rewrite drop_0.
    rewrite strchr_digits by (try done; apply dec_digits; lia). simpl.
    rewrite drop_app_length, atoi_space by done.
    rewrite atoi_dec_u32 by done. rewrite wrap_u_wrap_s by lia. by rewrite wrap_u_small.
  - apply Nat.ltb_ge. unfold cred_line. rewrite length_app, Ht. simpl. lia.
Qed.

Lemma status_uid p r e s f :
  0 <= r -> 0 <= e < 2 ^ 32 ->
  status_line p (cred_line (bs "Uid:") r e s f) = Some (PInfo e (p_gid p) (p_nspid p) (p_found p)).
Proof.
  intros Hr He. destruct (status_cred (bs "Uid:") r e s f eq_refl Hr He) as (H & Hl).
  unfold status_line. change (prefixb (bs "Uid:") _) with true. rewrite Hl. cbn iota.
  destruct (strchr _ 9); simpl in *; congruence.
Qed.

Lemma status_gid p r e s f :
  0 <= r -> 0 <= e < 2 ^ 32 ->
  status_line p (cred_line (bs "Gid:") r e s f) = Some (PInfo (p_uid p) e (p_nspid p) (p_found p)).
Proof.
  intros Hr He. destruct (status_cred (bs "Gid:") r e s f eq_refl Hr He) as (H & Hl).
  unfold status_line. change (prefixb (bs "Uid:") _) with false.
  change (prefixb (bs "Gid:") _) with true. rewrite Hl. cbn iota.
  destruct (strchr _ 9); simpl in *; congruence.
Qed.

Lemma status_nstgid p ids inner :
  0 <= inner <= INT_MAX ->
  status_line p (nstgid_line ids inner) = Some (PInfo (p_uid p) (p_gid p) inner true).
Proof.
  intros Hi. unfold status_line. change (prefixb (bs "Uid:") _) with false.
  change (prefixb (bs "Gid:") _) with false. change (prefixb (bs "NStgid:") _) with true. cbn iota.
  unfold nstgid_line. rewrite (app_assoc (bs _)). rewrite strrchr_last.
  - cbn [mbind option_bind]. rewrite drop_app_length, atoi_space by done.
    rewrite atoi_dec_u32; [|unfold INT_MAX in *; lia|done].
    by rewrite i32_small by (unfold INT_MIN; lia).
  - apply Forall_app. split; [|by repeat constructor].
    eapply Forall_impl; [apply dec_digits; lia|]. simpl. intros x Hx%isdigit_spec. lia.
Qed.

Lemma status_other p ls : Forall other_line ls -> status_lines p ls = Some p.
Proof.
  induction 1 as [|l ls (H1 & H2 & H3) Hls IH]; [done|]. cbn [status_lines].
  unfold status_line. by rewrite H1, H2, H3.
Qed.

Lemma status_lines_kernel p l1 l2 l3 l4 ru eu su fu rg eg sg fg ids inner :
  0 <= ru -> 0 <= eu < 2 ^ 32 -> 0 <= rg -> 0 <= eg < 2 ^ 32 -> 0 <= inner <= INT_MAX ->
  Forall other_line l1 -> Forall other_line l2 -> Forall other_line l3 -> Forall other_line l4 ->
  status_lines p (l1 ++ cred_line (bs "Uid:") ru eu su fu :: l2 ++ cred_line (bs "Gid:") rg eg sg fg
    :: l3 ++ nstgid_line ids inner :: l4) = Some (PInfo eu eg inner true).
Proof.
  intros Hru Heu Hrg Heg Hin H1 H2 H3 H4.
  rewrite status_lines_app, status_other by done. cbn [mbind option_bind status_lines].
  rewrite status_uid by done. cbn [mbind option_bind].
  rewrite status_lines_app, status_other by done. cbn [mbind option_bind status_lines].
  rewrite status_gid by done. cbn [mbind option_bind].
  rewrite status_lines_app, status_other by done. cbn [mbind option_bind status_lines].
  rewrite status_nstgid by done. cbn [mbind option_bind]. by rewrite status_other.
Qed.

(** ** Descriptors *)

Lemma gains_same_ns a b : gains (same_ns a b) (fun _ _ => 0).
Proof. unfold same_ns. gains_tac. Qed.
#[export] Hint Resolve gains_same_ns : gdb.

Lemma gains_enter_ns pid type : gains (enter_ns pid type) (fun _ _ => 0).
Proof. unfold enter_ns. gains_tac. Qed.
#[export] Hint Resolve gains_enter_ns : gdb.

(** ** Properties *)

(** Reading a status file as the kernel prints it yields the effective
    (second) uid and gid and the innermost namespace pid, whatever other lines
    the file holds: [get_process_info] finishes and returns 0 with them, for
    every [pid], every kernel behaviour on other calls and every previous state. *)
Theorem get_process_info_ok junk o t e g fuel pid p fp
    l1 l2 l3 l4 ru eu su fu rg eg sg fg ids inner :
  let path := bs "/proc/" ++ fmt_d pid ++ bs "/status" in
  INT_MIN <= pid <= INT_MAX ->
  0 <= ru -> 0 <= eu < 2 ^ 32 -> 0 <= rg -> 0 <= eg < 2 ^ 32 -> 0 <= inner <= INT_MAX ->
  Forall other_line l1 -> Forall other_line l2 -> Forall other_line l3 -> Forall other_line l4 ->
  0 <= fp -> r_val (o t (CFopen path)) = fp ->
  serves o fp (l1 ++ cred_line (bs "Uid:") ru eu su fu :: l2 ++ cred_line (bs "Gid:") rg eg sg fg
    :: l3 ++ nstgid_line ids inner :: l4) ((CFopen path, o t (CFopen path)) :: t) ->
  (length l1 + length l2 + length l3 + length l4 + 3 < fuel)%nat ->
  wp (get_process_info junk fuel pid p) o (World t e g)
     (fun r w => r = (0, PInfo eu eg inner true) /\ w_g w = g).
Proof.
  intros path Hpid Hru Heu Hrg Heg Hin H1 H2 H3 H4 Hfp Hopen Hs Hf.
  unfold get_process_info. rewrite snprintf_fits.
  2:{ rewrite !length_app. pose proof (fmt_d_length pid Hpid). simpl. lia. }
  fold path. wstep. unfold wp, sys. cbn [w_tr w_errno w_g]. rewrite Hopen.
  destruct (Z.ltb_spec fp 0); [lia|].
  edestruct (status_loop_serves o fp _ _ fuel (PInfo (p_uid p) (p_gid p) (p_nspid p) false)
    (PInfo eu eg inner true) [] [] e g Hs eq_refl) as (t1 & e1 & Hl).
  - by apply status_lines_kernel.
  - rewrite !length_app. cbn [length]. rewrite !length_app. cbn [length]. rewrite length_app. simpl. lia.
  - unfold mbind, M_bind. cbn [app] in Hl. rewrite Hl. by simpl.
Qed.

(** The path of the target's /tmp as the host sees it. *)
Definition root_tmp (pid : Z) : bytes := bs "/proc/" ++ fmt_d pid ++ bs "/root/tmp".

Lemma root_tmp_length pid : INT_MIN <= pid <= INT_MAX -> (length (root_tmp pid) <= 26)%nat.
Proof.
  intros H. unfold root_tmp. rewrite !length_app. pose proof (fmt_d_length pid H). simpl. lia.
Qed.

(** [get_tmp_path] takes the user's path when it is set and fits, else the
    target's /tmp when it can be reached, else /tmp; in every case the result
    fits the static buffer with its NUL. *)
Theorem get_tmp_path_choice o pid w :
  INT_MIN <= pid <= INT_MAX ->
  let env := o (w_tr w) (CGetenv (bs "JATTACH_PATH")) in
  wp (get_tmp_path pid) o w (fun _ w' =>
    Z.of_nat (length (tmp_path (w_g w'))) < TMP_PATH_SIZE /\
    tmp_path (w_g w') =
      (if (0 <=? r_val env) && (Z.of_nat (length (r_data env)) <? TMP_PATH_SIZE) then r_data env
       else if r_val (o ((CGetenv (bs "JATTACH_PATH"), env) :: w_tr w) (CStat (root_tmp pid))) =? 0
            then root_tmp pid else bs "/tmp")).
Proof.
  intros Hpid env. pose proof (root_tmp_length pid Hpid) as Hlen.
  unfold get_tmp_path. wstep. wsys r Hr. fold env in Hr. subst r.
  destruct ((0 <=? r_val env) && _) eqn:E; wsimpl.
  { split; [|done]. cbn. apply andb_true_iff in E as [_ E%Z.ltb_lt]. done. }
  unfold get_tmp_path_r. fold (root_tmp pid). unfold TMP_PATH_SIZE, MAX_PATH, snprintf_ret in *.
  destruct (Z.leb_spec (1024 - 100) (Z.of_nat (length (root_tmp pid)))); [lia|].
  rewrite snprintf_fits by lia. wstep. wstep. wsys st Hst. wsimpl. wstep. wsimpl. cbn [fst snd].
  rewrite <- Hst. destruct (r_val st =? 0); wsimpl; cbn [tmp_path set_tmp_path w_g]; (split; [first [lia | reflexivity]|done]).
Qed.

(** [sched_get_host_pid] hands [getline] the block of the previous call with
    an uninitialised size: when that garbage claims more than the block holds
    and the line does not fit the block, the store runs past it. *)
Theorem sched_get_host_pid_overflow junk o path w cap :
  sched_line (w_g w) = Some cap ->
  let f := o (w_tr w) (CFopen path) in
  let t1 := (CFopen path, f) :: w_tr w in
  let l := o t1 (CGetline (r_val f)) in
  0 <= r_val f -> 0 <= r_val l ->
  cap < Z.of_nat (length (r_data l)) + 1 <= junk ((CGetline (r_val f), l) :: t1) ->
  exists w', sched_get_host_pid junk path o w = Undef w'.
Proof.
  intros Hcap f t1 l Hf Hl [H1 H2]. unfold sched_get_host_pid, sys, mbind, M_bind. cbn [w_tr w_errno w_g].
  fold f. destruct (Z.ltb_spec (r_val f) 0); [lia|]. cbn [w_tr w_errno w_g]. fold t1 l.
  destruct (Z.eqb_spec (r_val l) (-1)); [lia|]. cbn [getg w_g w_tr]. rewrite Hcap. unfold getline_store.
  destruct (Z.leb_spec (Z.of_nat (length (r_data l)) + 1) (junk ((CGetline (r_val f), l) :: t1))); [|lia].
  destruct (Z.leb_spec (Z.of_nat (length (r_data l)) + 1) cap); [lia|]. by eexists.
Qed.

(** ** Witnesses *)

(** A system on which every file opens as stream 3 with the given lines. *)
Definition os_lines (ls : list bytes) : os := fun t c =>
  match c with
  | CFopen _ => rok 3
  | CGetline f =>
      if f =? 3 then
        match ls !! getlines 3 t with
        | Some l => rdata (Z.of_nat (length l)) l
        | None => rerr 0
        end
      else rerr 0
  | _ => rok 0
  end.

Lemma os_lines_serves ls path t :
  getlines 3 t = 0%nat -> serves (os_lines ls) 3 ls ((CFopen path, rok 3) :: t).
Proof.
  intros Ht t'. simpl. assert (Hg : getlines 3 (t' ++ (CFopen path, rok 3) :: t) = getlines 3 t').
  { unfold getlines in *. rewrite filter_app, length_app, filter_cons_False by done. lia. }
  by rewrite Hg.
Qed.

Definition g0 : jglobals := JGlobals [] 0 0 (replicate MAX_NOTIF_FILES 0) None.

Lemma get_process_info_ok_witness :
  wp (get_process_info (fun _ => 0) 10 77 (PInfo 0 0 0 false))
    (os_lines [bs "Name:" ++ 9 :: bs "java"; cred_line (bs "Uid:") 0 1000 0 0;
       cred_line (bs "Gid:") 0 100 0 0; nstgid_line [77] 5]) (World [] 0 g0)
    (fun r w => r = (0, PInfo 1000 100 5 true) /\ w_g w = g0).
Proof.
  apply (get_process_info_ok _ _ [] 0 g0 10 77 _ 3 [bs "Name:" ++ 9 :: bs "java"] [] [] []
    0 1000 0 0 0 100 0 0 [77] 5); try done.
  - by repeat constructor.
  - apply (os_lines_serves [_; _; _; _] _ []). done.
  - simpl. lia.
Defined.

Lemma get_tmp_path_choice_witness :
  wp (get_tmp_path 77) (fun _ c => match c with CGetenv _ => rerr 0 | _ => rok 0 end) (World [] 0 g0)
    (fun _ w' => Z.of_nat (length (tmp_path (w_g w'))) < TMP_PATH_SIZE /\
      tmp_path (w_g w') = bs "/proc/77/root/tmp").
Proof.
  apply (get_tmp_path_choice (fun _ c => match c with CGetenv _ => rerr 0 | _ => rok 0 end)
    77 (World [] 0 g0)). done.
Defined.

Lemma sched_get_host_pid_overflow_witness :
  exists w', sched_get_host_pid (fun _ => 4096) (bs "/proc/7/sched")
    (os_lines [bs "a-process-with-a-long-name (7, #threads: 1)"])
    (World [] 0 (set_sched_line (Some 16) g0)) = Undef w'.
Proof.
  apply (sched_get_host_pid_overflow (fun _ => 4096) _ _ _ 16); [reflexivity|done|done|].
  vm_compute. split; [reflexivity|intros H; discriminate H].
Defined.
