(* ===== verification/Hotspot.v ===== *)
(** * ycattach/posix/jattach_hotspot.c: dynamic attach to a HotSpot JVM

    The attach socket is created by the JVM in response to SIGQUIT when it finds
    a trigger file; the command and its arguments are sent as NUL-terminated
    strings and the response is mirrored to standard output. *)

From stdpp Require Import base numbers list strings.
From S2P Require Import Prelude Libc Posix Psutil.
Open Scope Z_scope.

Module Hotspot.

Definition PF_UNIX : Z := 1.
Definition SIGQUIT : Z := 3.
Definition SUN_PATH_SIZE : Z := 108.

Definition java_pid_path (g : jglobals) (pid : Z) : bytes :=
  tmp_path g ++ bs "/.java_pid" ++ fmt_d pid.

Definition check_socket (pid : Z) : J Z :=
  g ← getg;
  r ← sys (CStat (snprintf MAX_PATH (java_pid_path g pid)));
  mret (if (r_val r =? 0) && r_sock r then 0 else -1).

Definition get_file_owner (path : bytes) : J Z :=
  r ← sys (CStat path);
  mret (if r_val r =? 0 then r_uid r else u32 (-1)).

(** The [do ... while] loop of [start_attach_mechanism]; [ns] is [ts.tv_nsec]. *)
Fixpoint poll_socket (fuel : nat) (nspid ns : Z) : J Z :=
  match fuel with
  | O => nofuel
  | S f =>
      _ ← sys (CNanosleep ns);
      result ← check_socket nspid;
      if result =? 0 then mret result
      else if ns + 20000000 <? 500000000 then poll_socket f nspid (ns + 20000000)
      else mret result
  end.

(** One more than the 24 rounds the delays allow. *)
Definition POLL_FUEL : nat := 25.

(** Whether the trigger file could not be created in the working directory, or
    is not owned by the caller. *)
Definition trigger_rejected (fd : Z) (path : bytes) : J bool :=
  if fd =? -1 then mret true else
  c ← sys (CClose fd);
  if r_val c =? 0 then
    owner ← get_file_owner path;
    e ← sys CGeteuid;
    mret (negb (owner =? r_val e))
  else mret false.

(** Kicking the JVM and waiting for the socket; [path] is the trigger file. *)
Definition kick_and_wait (path : bytes) (pid nspid : Z) : J Z :=
  _ ← sys (CKill pid SIGQUIT);
  result ← poll_socket POLL_FUEL nspid 20000000;
  _ ← sys (CUnlink path);
  mret result.

Definition start_attach_mechanism (pid nspid : Z) : J Z :=
  g ← getg;
  let path := snprintf MAX_PATH (bs "/proc/" ++ fmt_d nspid ++ bs "/cwd/.attach_pid" ++ fmt_d nspid) in
  fd ← sys (CCreat path 432);
  rejected ← trigger_rejected (r_val fd) path;
  if rejected : bool then
    _ ← sys (CUnlink path);
    let path2 := snprintf MAX_PATH (tmp_path g ++ bs "/.attach_pid" ++ fmt_d nspid) in
    fd2 ← sys (CCreat path2 432);
    if r_val fd2 =? -1 then mret (-1) else
    _ ← sys (CClose (r_val fd2));
    kick_and_wait path2 pid nspid
  else kick_and_wait path pid nspid.

Definition connect_socket (pid : Z) : J Z :=
  g ← getg;
  fd ← sys (CSocket PF_UNIX);
  if r_val fd =? -1 then mret (-1) else
  c ← sys (CConnect (r_val fd) (snprintf SUN_PATH_SIZE (java_pid_path g pid)));
  if r_val c =? -1 then _ ← sys (CClose (r_val fd)); mret (-1)
  else mret (r_val fd).

(** The [for] loop of [write_command]: arguments [i] to 3. *)
Fixpoint write_args (n : nat) (i : nat) (fd argc : Z) (argv : list bytes) : J Z :=
  match n with
  | O => mret 0
  | S n' =>
      arg ← (if Z.of_nat i <? argc then deref (argv !! i) else mret []);
      r ← sys (CWrite fd (arg ++ [0]));
      if r_val r <=? 0 then mret (-1) else write_args n' (S i) fd argc argv
  end.

Definition write_command (fd argc : Z) (argv : list bytes) : J Z :=
  r ← sys (CWrite fd (bs "1" ++ [0]));
  if r_val r <=? 0 then mret (-1) else write_args 4 0 fd argc argv.

Definition BUF_SIZE : Z := 8192.

(** The [while] loop that completes the response to [load]; [d] is what the
    buffer holds. *)
Fixpoint read_load (fuel : nat) (fd : Z) (d : bytes) : J bytes :=
  match fuel with
  | O => nofuel
  | S f =>
      if Z.of_nat (length d) <? BUF_SIZE - 1 then
        r ← sys (CRead fd (BUF_SIZE - 1 - Z.of_nat (length d)));
        if 0 <? r_val r then read_load f fd (d ++ r_data r) else mret d
      else mret d
  end.

(** The [do ... while] loop that mirrors the response to standard output. *)
Fixpoint mirror (fuel : nat) (fd : Z) (d : bytes) : J unit :=
  match fuel with
  | O => nofuel
  | S f =>
      _ ← stdout d;
      r ← sys (CRead fd BUF_SIZE);
      if 0 <? r_val r then mirror f fd (r_data r) else mret tt
  end.

(** [atoi] of the C string at offset [k] of a buffer that holds [d] and a NUL. *)
Definition atoi_at (d : bytes) (k : nat) : option Z :=
  s ← cstr (drop k (d ++ [0])); Some (atoi s).

(** The result of [load] from its second line; [None] when [buf + 2] is past
    what the buffer holds. *)
Definition load_result (d : bytes) : option Z :=
  s ← cstr (drop 2 (d ++ [0]));
  if prefixb (bs "return code: ") s then atoi_at d 15 else atoi_at d 2.

Definition is_load (argc : Z) (argv : list bytes) : J bool :=
  if 0 <? argc then a ← deref (argv !! 0%nat); mret (streq a (bs "load")) else mret false.

Definition read_response (fuel : nat) (fd argc : Z) (argv : list bytes) : J Z :=
  r ← sys (CRead fd (BUF_SIZE - 1));
  if r_val r =? 0 then
    _ ← stderr (bs "Unexpected EOF reading response" ++ [10]); mret 1
  else if r_val r <? 0 then
    _ ← perror (bs "Error reading response"); mret 1
  else
    result ← deref (atoi_at (r_data r) 0);
    load ← (if result =? 0 then is_load argc argv else mret false);
    rd ← (if load : bool then
            d ← read_load fuel fd (r_data r);
            res ← deref (load_result d);
            mret (res, d)
          else mret (result, r_data r));
    _ ← stdout (bs "JVM response code = ");
    _ ← mirror fuel fd rd.2;
    _ ← stdout [10];
    mret rd.1.

Definition jattach_hotspot (fuel : nat) (pid nspid argc : Z) (argv : list bytes) : J Z :=
  c ← check_socket nspid;
  started ← (if c =? 0 then mret 0 else start_attach_mechanism pid nspid);
  if negb (started =? 0) then
    _ ← perror (bs "Could not start attach mechanism"); mret 1
  else
  fd ← connect_socket nspid;
  if fd =? -1 then
    _ ← perror (bs "Could not connect to socket"); mret 1
  else
  _ ← stdout (bs "Connected to remote JVM" ++ [10]);
  wr ← write_command fd argc argv;
  if negb (wr =? 0) then
    _ ← perror (bs "Error writing to socket");
    _ ← sys (CClose fd);
    mret 1
  else
  result ← read_response fuel fd argc argv;
  _ ← sys (CClose fd);
  mret result.

(** ** Handles *)

Lemma gains_check_socket pid : gains (check_socket pid) (fun _ _ => 0).
Proof. unfold check_socket. gains_tac. Qed.
Lemma gains_get_file_owner path : gains (get_file_owner path) (fun _ _ => 0).
Proof. unfold get_file_owner. gains_tac. Qed.
#[local] Hint Resolve gains_check_socket gains_get_file_owner : gdb.

Lemma gains_poll_socket fuel nspid ns : gains (poll_socket fuel nspid ns) (fun _ _ => 0).
Proof. revert ns. induction fuel as [|f IH]; intros ns; cbn [poll_socket]; gains_tac. Qed.
#[local] Hint Resolve gains_poll_socket : gdb.

(** The descriptor of the trigger file is closed whenever there is one. *)
Lemma gains_trigger_rejected fd path :
  gains (trigger_rejected fd path) (fun _ h => effect h (CClose fd, rok 0)).
Proof. unfold trigger_rejected. gains_tac. Qed.
Lemma gains_kick_and_wait path pid nspid : gains (kick_and_wait path pid nspid) (fun _ _ => 0).
Proof. unfold kick_and_wait. gains_tac. Qed.
#[local] Hint Resolve gains_trigger_rejected gains_kick_and_wait : gdb.

Lemma gains_start_attach pid nspid : gains (start_attach_mechanism pid nspid) (fun _ _ => 0).
Proof. unfold start_attach_mechanism. gains_tac. Qed.

(** A connected socket is handed to the caller. *)
Lemma gains_connect_socket pid :
  gains (connect_socket pid) (fun fd h => effect h (CSocket PF_UNIX, rok fd)).
Proof. unfold connect_socket. gains_tac. Qed.

Lemma gains_write_args n i fd argc argv : gains (write_args n i fd argc argv) (fun _ _ => 0).
Proof.
  revert i. induction n as [|n IH]; intros i; cbn [write_args]; [gains_tac|].
  eapply (gains_bind _ _ (fun _ _ => 0)); [destruct (_ <? _); gains_tac|]. intros a. gains_tac.
Qed.
#[local] Hint Resolve gains_write_args : gdb.
Lemma gains_hs_write_command fd argc argv : gains (write_command fd argc argv) (fun _ _ => 0).
Proof. unfold write_command. gains_tac. Qed.
Lemma gains_read_load fuel fd d : gains (read_load fuel fd d) (fun _ _ => 0).
Proof. revert d. induction fuel as [|f IH]; intros d; cbn [read_load]; gains_tac. Qed.
Lemma gains_mirror fuel fd d : gains (mirror fuel fd d) (fun _ _ => 0).
Proof. revert d. induction fuel as [|f IH]; intros d; cbn [mirror]; gains_tac. Qed.
Lemma gains_is_load argc argv : gains (is_load argc argv) (fun _ _ => 0).
Proof. unfold is_load. gains_tac. Qed.
#[local] Hint Resolve gains_start_attach gains_connect_socket gains_hs_write_command gains_read_load
  gains_mirror gains_is_load : gdb.

Lemma gains_hs_read_response fuel fd argc argv : gains (read_response fuel fd argc argv) (fun _ _ => 0).
Proof.
  unfold read_response. gains_step. do 2 (gains_step; [gains_tac|]). gains_step.
  eapply (gains_bind _ _ (fun _ _ => 0)); [destruct (_ =? _); gains_tac|]. intros load.
  eapply (gains_bind _ _ (fun _ _ => 0)); [destruct load; gains_tac|]. intros rd. gains_tac.
Qed.
#[local] Hint Resolve gains_hs_read_response : gdb.

Lemma gains_jattach_hotspot fuel pid nspid argc argv :
  gains (jattach_hotspot fuel pid nspid argc argv) (fun _ _ => 0).
Proof.
  unfold jattach_hotspot. gains_step.
  eapply (gains_bind _ _ (fun _ _ => 0)); [destruct (_ =? _); gains_tac|]. intros started. gains_tac.
Qed.

(** C40: whatever the kernel and the JVM do, and whichever path is taken, an
    attach to a HotSpot JVM that returns has closed exactly the descriptors,
    directory streams and files it opened. *)
Theorem jattach_hotspot_no_leak o fuel pid nspid argc argv w :
  wlp (jattach_hotspot fuel pid nspid argc argv) o w (fun _ w' =>
    w_g w' = w_g w /\ forall h, 0 <= handle_val h -> net h (w_tr w') = net h (w_tr w)).
Proof.
  eapply wlp_mono; [apply gains_jattach_hotspot|]. intros r w' [Hg Hn]. split; [done|].
  intros h Hh. rewrite Hn by done. lia.
Qed.

(** ** Waiting for the socket *)

(** Nanoseconds slept. *)
Fixpoint slept (t : trace) : Z :=
  match t with
  | [] => 0
  | (CNanosleep ns, _) :: t' => ns + slept t'
  | _ :: t' => slept t'
  end.

(** Whether the last thing done to a path is a successful creation. *)
Fixpoint left_behind (path : bytes) (t : trace) : bool :=
  match t with
  | [] => false
  | (CUnlink p, _) :: t' => if bool_decide (p = path) then false else left_behind path t'
  | (CCreat p _, r) :: t' =>
      if bool_decide (p = path) && negb (r_val r =? -1) then true else left_behind path t'
  | _ :: t' => left_behind path t'
  end.

Lemma poll_socket_spec o nspid n : forall fuel w,
  (n <= 24)%nat -> (n < fuel)%nat -> (0 < n)%nat ->
  wp (poll_socket fuel nspid (500000000 - 20000000 * Z.of_nat n)) o w (fun r w' =>
    exists k : nat, (1 <= k <= n)%nat /\
    slept (w_tr w') - slept (w_tr w) =
      Z.of_nat k * (500000000 - 20000000 * Z.of_nat n) + 10000000 * Z.of_nat k * (Z.of_nat k - 1) /\
    (r = 0 \/ r = -1 /\ k = n) /\
    forall p, left_behind p (w_tr w') = left_behind p (w_tr w)).
Proof.
  induction n as [|n IH]; intros fuel w Hn Hf Hpos; [lia|]. destruct fuel as [|f]; [lia|].
  cbn [poll_socket]. wstep. wsimpl. wstep. unfold check_socket. wstep. wsimpl. wstep. wsimpl.
  set (ns := 500000000 - 20000000 * Z.of_nat (S n)).
  destruct (_ && _); cbn [Z.eqb]; wsimpl.
  - exists 1%nat. split; [lia|]. cbn [slept]. split_and!; [lia|by left|done].
  - destruct (Z.ltb_spec (ns + 20000000) 500000000) as [Hlt|Hge].
    + destruct n as [|n']; [unfold ns in *; lia|].
      replace (ns + 20000000) with (500000000 - 20000000 * Z.of_nat (S n')) by (unfold ns; lia).
      eapply wp_mono; [apply (IH f); lia|]. intros r w' (k & Hk & Hs & Hr & Hp).
      exists (S k). split; [lia|]. cbn [slept w_tr] in Hs. split_and!; [unfold ns; nia| |intros p; by rewrite Hp].
      destruct Hr as [->|[-> ->]]; [by left|]. right. split; [done|lia].
    + wsimpl. exists 1%nat. split; [lia|]. cbn [slept]. split_and!; [unfold ns; lia| |done].
      right. split; [done|]. unfold ns in *. lia.
Qed.

Lemma kick_and_wait_spec o path pid nspid w :
  wp (kick_and_wait path pid nspid) o w (fun r w' =>
    (r = 0 \/ r = -1) /\
    slept (w_tr w) + 20000000 <= slept (w_tr w') <= slept (w_tr w) + 6000000000 /\
    (r = -1 -> slept (w_tr w') = slept (w_tr w) + 6000000000) /\
    forall p, left_behind p (w_tr w') = if bool_decide (path = p) then false else left_behind p (w_tr w)).
Proof.
  unfold kick_and_wait. wstep. wsimpl. wstep.
  eapply wp_mono; [apply (poll_socket_spec o nspid 24); unfold POLL_FUEL; lia|].
  intros r w' (k & Hk & Hs & Hr & Hp). wstep. wsimpl. cbn [slept w_tr] in *.
  split_and!; [intuition|nia|nia| |].
  - intros ->. destruct Hr as [|[_ ->]]; [done|]. lia.
  - intros p. cbn [left_behind]. case_bool_decide; [done|]. by rewrite Hp.
Qed.

Lemma trigger_rejected_spec o fd path w :
  wp (trigger_rejected fd path) o w (fun b w' =>
    slept (w_tr w') = slept (w_tr w) /\ (b = false -> fd <> -1) /\ w_g w' = w_g w /\
    forall p, left_behind p (w_tr w') = left_behind p (w_tr w)).
Proof.
  unfold trigger_rejected. destruct (Z.eqb_spec fd (-1)); wsimpl; [naive_solver|].
  wstep. wsimpl. destruct (_ =? 0); [|wsimpl; naive_solver].
  wstep. unfold get_file_owner. wstep. wsimpl. wstep. wsimpl. naive_solver.
Qed.

(** Starting the attach listener always finishes within the 6000 ms the
    source announces, a failure after the JVM was signalled means that all of
    them were waited, and no trigger file that was not there before is left
    behind, on any path and for every kernel behaviour. *)
Theorem start_attach_bounded o pid nspid w :
  wp (start_attach_mechanism pid nspid) o w (fun r w' =>
    (r = 0 \/ r = -1) /\
    slept (w_tr w') <= slept (w_tr w) + 6000000000 /\
    (r = -1 -> slept (w_tr w') = slept (w_tr w) \/ slept (w_tr w') = slept (w_tr w) + 6000000000) /\
    forall p, left_behind p (w_tr w') = true -> left_behind p (w_tr w) = true).
Proof.
  unfold start_attach_mechanism. wstep. wsimpl. generalize (snprintf MAX_PATH
    (bs "/proc/" ++ fmt_d nspid ++ bs "/cwd/.attach_pid" ++ fmt_d nspid)). intros path.
  generalize (snprintf MAX_PATH (tmp_path (w_g w) ++ bs "/.attach_pid" ++ fmt_d nspid)). intros path2.
  wstep. wsys fd Hfd. wstep.
  eapply wp_mono; [apply trigger_rejected_spec|]. intros b w1 (Hs1 & Hb & Hg & Hp1).
  cbn [w_tr slept] in *. destruct b.
  - wstep. wsys u Hu. wstep. wsys fd2 Hfd2. destruct (Z.eqb_spec (r_val fd2) (-1)) as [E|E]; wsimpl.
    + cbn [slept]. split_and!; [by right|lia|lia|].
      intros p. cbn [left_behind]. rewrite E, andb_false_r.
      case_bool_decide; [done|]. rewrite Hp1. cbn [left_behind]. by rewrite bool_decide_false.
    + wstep. wsys c Hc. eapply wp_mono; [apply kick_and_wait_spec|].
      intros r w' (Hr & Hs & Hf & Hp). cbn [slept w_tr] in *.
      split_and!; [done|lia|intros; right; rewrite Hf by done; lia|].
      intros p. rewrite Hp. case_bool_decide; [done|]. cbn [left_behind]. rewrite bool_decide_false by done.
      simpl. case_bool_decide; [done|]. rewrite Hp1. cbn [left_behind]. by rewrite bool_decide_false.
  - eapply wp_mono; [apply kick_and_wait_spec|]. intros r w' (Hr & Hs & Hf & Hp).
    split_and!; [done|lia|intros; right; rewrite Hf by done; lia|].
    intros p. rewrite Hp. case_bool_decide; [done|]. rewrite Hp1. cbn [left_behind].
    by rewrite bool_decide_false.
Qed.

(** ** The request on the wire *)

(** Four arguments, missing ones empty. *)
Definition padded (argv : list bytes) : list bytes := take 4 (argv ++ replicate 4 []).

(** The request as the attach listener of the JVM expects it: the protocol
    version and four arguments, each NUL-terminated. *)
Definition wire (argv : list bytes) : bytes :=
  bs "1" ++ [0] ++ concat (map (fun a => a ++ [0]) (padded argv)).

(** The receiver's view: the NUL-terminated strings of a byte stream. *)
Fixpoint split_nul (cur b : bytes) : list bytes :=
  match b with
  | [] => []
  | c :: r => if c =? 0 then cur :: split_nul [] r else split_nul (cur ++ [c]) r
  end.

Definition no_nul (s : bytes) : Prop := Forall (fun c => c <> 0) s.

Lemma split_nul_app s r : forall cur,
  no_nul s -> split_nul cur (s ++ 0 :: r) = (cur ++ s) :: split_nul [] r.
Proof.
  intros cur Hs. revert cur. induction Hs as [|c s Hc Hs IH]; intros cur; simpl.
  - by rewrite app_nil_r.
  - destruct (Z.eqb_spec c 0); [done|]. by rewrite IH, <- app_assoc.
Qed.

Lemma split_nul_concat l :
  Forall no_nul l -> split_nul [] (concat (map (fun a => a ++ [0]) l)) = l.
Proof.
  induction 1 as [|a l Ha Hl IH]; simpl; [done|].
  rewrite <- app_assoc. simpl. by rewrite split_nul_app, IH.
Qed.

Lemma padded_lookup argv i :
  (i < 4)%nat -> padded argv !! i = Some (if (i <? length argv)%nat then default [] (argv !! i) else []).
Proof.
  intros Hi. unfold padded. rewrite lookup_take_lt by done.
  destruct (Nat.ltb_spec i (length argv)) as [H|H].
  - rewrite lookup_app_l by done. by destruct (lookup_lt_is_Some_2 argv i H) as [x ->].
  - rewrite lookup_app_r by done. apply lookup_replicate_2. lia.
Qed.

Lemma padded_length argv : length (padded argv) = 4%nat.
Proof. unfold padded. rewrite length_take, length_app, length_replicate. lia. Qed.

Definition full_writes (o : os) (fd : Z) : Prop :=
  forall t d, r_val (o t (CWrite fd d)) = Z.of_nat (length d).

Lemma write_args_wire o fd argv : full_writes o fd -> forall n i w,
  (n + i = 4)%nat ->
  wp (write_args n i fd (Z.of_nat (length argv)) argv) o w (fun r w' =>
    r = 0 /\ written fd (w_tr w') =
      written fd (w_tr w) ++ concat (map (fun a => a ++ [0]) (drop i (padded argv)))).
Proof.
  intros Hw. induction n as [|n IH]; intros i w Hi; cbn [write_args].
  - wsimpl. rewrite drop_ge by (rewrite padded_length; lia). simpl. by rewrite app_nil_r.
  - pose proof (padded_lookup argv i ltac:(lia)) as Hp. rewrite (drop_S _ _ _ Hp).
    set (a := if (i <? length argv)%nat then default [] (argv !! i) else []) in *.
    wstep. assert (He : (if Z.of_nat i <? Z.of_nat (length argv) then deref (argv !! i) else mret [])
      = (mret a : J bytes)).
    { unfold a. destruct (Nat.ltb_spec i (length argv)) as [H|H].
      - destruct (Z.ltb_spec (Z.of_nat i) (Z.of_nat (length argv))); [|lia].
        by destruct (lookup_lt_is_Some_2 argv i H) as [x ->].
      - by destruct (Z.ltb_spec (Z.of_nat i) (Z.of_nat (length argv))); [lia|]. }
    rewrite He. wsimpl. wstep. wsys r Hr.
    assert (Hv : r_val r = Z.of_nat (length (a ++ [0]))) by (by rewrite Hr, Hw). rewrite Hv.
    assert (Hl : (Z.of_nat (length (a ++ [0])) <=? 0) = false)
      by (apply Z.leb_gt; rewrite length_app; simpl; lia).
    rewrite Hl. eapply wp_mono; [apply IH; lia|]. intros r' w' [-> Hw']. split; [done|].
    rewrite Hw'. cbn [w_tr written]. rewrite Z.eqb_refl, Hv, Nat2Z.id, take_ge by lia.
    cbn [map concat]. by rewrite <- app_assoc.
Qed.

(** When the kernel takes whole writes, [write_command] puts on the socket
    exactly the version and the first four arguments, padded with empty ones,
    and the receiver splitting the stream at NULs gets these strings back. *)
Theorem write_command_wire o fd argv w :
  full_writes o fd -> Forall no_nul argv ->
  wp (write_command fd (Z.of_nat (length argv)) argv) o w (fun r w' =>
    r = 0 /\ written fd (w_tr w') = written fd (w_tr w) ++ wire argv) /\
  split_nul [] (wire argv) = bs "1" :: padded argv.
Proof.
  intros Hw Hn. split.
  - unfold write_command. wstep. wsys r Hr.
    assert (Hv : r_val r = 2) by (by rewrite Hr, Hw). rewrite Hv. cbn [Z.leb Z.compare].
    eapply wp_mono; [by apply write_args_wire|]. intros r' w' [-> H]. split; [done|].
    rewrite H. cbn [w_tr written]. rewrite Z.eqb_refl, Hv.
    unfold wire. by rewrite <- !app_assoc, drop_0.
  - unfold wire. cbn [app]. rewrite split_nul_app by (repeat constructor; done). cbn [app].
    rewrite split_nul_concat; [done|]. unfold padded. apply Forall_take, Forall_app.
    split; [done|]. apply Forall_replicate. constructor.
Qed.

(** A kernel that takes one byte per [write], as it may when the socket buffer is full. *)
Definition one_byte_writes (o : os) (fd : Z) : Prop :=
  forall t d, d <> [] -> r_val (o t (CWrite fd d)) = 1.

Lemma write_args_short o fd argv : one_byte_writes o fd -> forall n i w,
  (length argv = 4)%nat -> (n + i = 4)%nat ->
  wp (write_args n i fd 4 argv) o w (fun r w' =>
    r = 0 /\ exists d, written fd (w_tr w') = written fd (w_tr w) ++ d /\ length d = n).
Proof.
  intros Hw. induction n as [|n IH]; intros i w Hl Hi; cbn [write_args].
  - wsimpl. split; [done|]. exists []. by rewrite app_nil_r.
  - wstep. destruct (Z.ltb_spec (Z.of_nat i) 4); [|lia].
    destruct (lookup_lt_is_Some_2 argv i ltac:(lia)) as [a ->]. wsimpl. wstep. wsys r Hr.
    assert (Hr1 : r_val r = 1) by (rewrite Hr; apply Hw; by destruct a). rewrite Hr1. cbn [Z.leb Z.compare].
    eapply wp_mono; [apply IH; lia|]. intros r' w' (-> & d & Hd & Hn). split; [done|].
    rewrite Hd. cbn [w_tr written]. rewrite Z.eqb_refl, Hr1, <- app_assoc. eexists. split; [done|].
    rewrite length_app, length_take, length_app, Hn. change (Z.to_nat 1) with 1%nat. cbn [length]. lia.
Qed.

(** The return values of the writes are only tested for being positive:
    with a kernel that takes one byte per call, [write_command] still reports
    success, having sent five bytes of a request of at least ten. *)
Theorem write_command_short_write o fd argv w :
  one_byte_writes o fd -> length argv = 4%nat ->
  wp (write_command fd 4 argv) o w (fun r w' =>
    r = 0 /\ exists d, written fd (w_tr w') = written fd (w_tr w) ++ d /\ length d = 5%nat /\
    (length d < length (wire argv))%nat).
Proof.
  intros Hw Hl. unfold write_command. wstep. wsys r Hr.
  assert (Hr1 : r_val r = 1) by (rewrite Hr; by apply Hw). rewrite Hr1. cbn [Z.leb Z.compare].
  eapply wp_mono; [by apply write_args_short|]. intros r' w' (-> & d & Hd & Hn). split; [done|].
  rewrite Hd. cbn [w_tr written]. rewrite Z.eqb_refl, Hr1, <- app_assoc. eexists. split; [done|].
  destruct argv as [|a [|b [|c [|d0 [|]]]]]; simpl in Hl; try lia.
  rewrite length_app, Hn. split; [done|]. unfold wire, padded. simpl.
  rewrite !length_app. simpl. lia.
Qed.

(** ** The response *)

Lemma mirror_spec o fd n t : drained o fd n t -> forall fuel t' e g d,
  (0 < fuel)%nat -> (n < fuel + reads fd t')%nat ->
  wp (mirror fuel fd d) o (World (t' ++ t) e g) (fun _ w' => exists x,
    received fd (w_tr w') = received fd (t' ++ t) ++ x /\
    printed (w_tr w') = printed (t' ++ t) ++ d ++ x).
Proof.
  intros Hd. induction fuel as [|f IH]; intros t' e g d Hf Hn; [lia|]. cbn [mirror].
  wstep. unfold stdout. wstep. wsys ro Hro. wsimpl. wstep. wsys r Hr.
  destruct (Z.ltb_spec 0 (r_val r)) as [Hpos|Hneg].
  - set (t1 := (CRead fd BUF_SIZE, r) :: (CStdout d, ro) :: t').
    assert (Hnr : (reads fd t' < n)%nat).
    { destruct (decide (n <= reads fd t')%nat) as [Hle|]; [|lia].
      pose proof (Hd ((CStdout d, ro) :: t') BUF_SIZE) as H. cbn [app reads] in H. specialize (H Hle). rewrite <- Hr in H. lia. }
    change (_ :: _ :: t' ++ t) with (t1 ++ t).
    eapply wp_mono; [apply IH; [lia|]; unfold t1; cbn [reads]; rewrite Z.eqb_refl; lia|].
    intros _ w' (x & Hx & Hpx). exists (r_data r ++ x). unfold t1 in *. cbn [app received printed] in *.
    rewrite Z.eqb_refl in Hx. destruct (Z.ltb_spec 0 (r_val r)); [|lia]. simpl in Hx.
    rewrite Hx, Hpx, <- !app_assoc. done.
  - wsimpl. exists []. cbn [received printed]. rewrite Z.eqb_refl.
    destruct (Z.ltb_spec 0 (r_val r)); [lia|]. simpl. by rewrite !app_nil_r.
Qed.

(** For a command other than [load], [read_response] finishes as soon as the
    JVM stops sending, prints everything the JVM sent behind the announcement,
    and returns the number on the first line of the response. *)
Theorem read_response_mirrors o fd argv n t e g fuel a :
  argv !! 0%nat = Some a -> a <> bs "load" ->
  drained o fd n t -> (n < fuel)%nat ->
  0 < r_val (o t (CRead fd (BUF_SIZE - 1))) ->
  let c := r_data (o t (CRead fd (BUF_SIZE - 1))) in
  wp (read_response fuel fd (Z.of_nat (length argv)) argv) o (World t e g) (fun r w' =>
    (exists x, received fd (w_tr w') = received fd t ++ c ++ x /\
      printed (w_tr w') = printed t ++ bs "JVM response code = " ++ c ++ x ++ [10]) /\
    (forall code rest, INT_MIN <= code <= INT_MAX -> c = fmt_d code ++ 10 :: rest -> r = code)).
Proof.
  intros Ha Hl Hd Hf Hpos c. unfold read_response. wstep. wsys r Hr.
  assert (Hc : c = r_data r) by (unfold c; by rewrite Hr). clearbody c. rewrite <- Hr in Hpos.
  destruct (Z.eqb_spec (r_val r) 0); [lia|]. destruct (Z.ltb_spec (r_val r) 0); [lia|].
  assert (Hcs : exists s, cstr (c ++ [0]) = Some s /\
    forall u v, c = u ++ 10 :: v -> no_nul u -> exists v', s = u ++ 10 :: v') by apply cstr_line.
  destruct Hcs as (s & Hs & Hline). wstep. unfold atoi_at. rewrite <- Hc.
  rewrite drop_0, Hs. change (Some s ≫= λ s0, Some (atoi s0)) with (Some (atoi s)). wsimpl.
  wstep. assert (Hload : wp (if atoi s =? 0 then is_load (Z.of_nat (length argv)) argv else mret false)
    o (World ((CRead fd (BUF_SIZE - 1), r) :: t) e0 g)
    (fun b w' => b = false /\ w' = World ((CRead fd (BUF_SIZE - 1), r) :: t) e0 g)).
  { destruct (_ =? 0); [|by wsimpl]. unfold is_load. destruct (Z.ltb_spec 0 (Z.of_nat (length argv))); [|by wsimpl].
    wstep. rewrite Ha. wsimpl. split; [|done]. unfold streq. by rewrite bool_decide_false. }
  eapply wp_mono; [apply Hload|]. intros b w' [-> ->]. wstep. wsimpl. wstep. unfold stdout at 1.
  wstep. wsys r1 Hr1. wsimpl. wstep. cbn [snd fst].
  set (t1 := [(CStdout (bs "JVM response code = "), r1); (CRead fd (BUF_SIZE - 1), r)]).
  change (_ :: _ :: t) with (t1 ++ t).
  eapply wp_mono; [apply (mirror_spec o fd n t Hd); [lia|]; lia|].
  intros _ w' (x & Hx & Hpx). wstep. unfold stdout. wstep. wsys r2 Hr2. wsimpl. split.
  - exists x. cbn [received printed]. rewrite Hx, Hpx. unfold t1. cbn [app received printed].
    rewrite Z.eqb_refl. destruct (Z.ltb_spec 0 (r_val r)); [|lia]. cbn [andb].
    rewrite <- Hc, <- !app_assoc. done.
  - intros code rest Hcode Heq. destruct (Hline _ _ Heq) as [v' ->].
    + apply fmt_d_no_nul.
    + by apply atoi_fmt_d.
Qed.

(** ** Witnesses *)

(** A kernel that takes whole writes and delivers one response of 12 bytes. *)
Definition os_full : os := fun t c =>
  match c with
  | CWrite _ d => rok (Z.of_nat (length d))
  | CRead f _ => if (reads f t =? 0)%nat then rdata 12 (bs "0" ++ 10 :: bs "Full dump" ++ [10]) else rok 0
  | _ => rok 0
  end.

(** A kernel that takes one byte per write. *)
Definition os_one : os := fun t c => match c with CWrite _ _ => rok 1 | _ => rok 0 end.

Lemma write_command_wire_witness :
  wp (write_command 5 1 [bs "threaddump"]) os_full (World [] 0 g0) (fun r w' =>
    r = 0 /\ written 5 (w_tr w') = written 5 [] ++ wire [bs "threaddump"]) /\
  split_nul [] (wire [bs "threaddump"]) = bs "1" :: padded [bs "threaddump"].
Proof.
  apply (write_command_wire os_full 5 [bs "threaddump"] (World [] 0 g0)); [done|].
  repeat constructor; done.
Defined.

Lemma write_command_short_write_witness :
  wp (write_command 5 4 [bs "load"; bs "/a.so"; bs "true"; []]) os_one (World [] 0 g0) (fun r w' =>
    r = 0 /\ exists d, written 5 (w_tr w') = written 5 [] ++ d /\ length d = 5%nat /\
    (length d < length (wire [bs "load"; bs "/a.so"; bs "true"; []]))%nat).
Proof. apply (write_command_short_write os_one 5 _ (World [] 0 g0)); [done|done]. Defined.

Lemma read_response_mirrors_witness :
  wp (read_response 2 5 1 [bs "threaddump"]) os_full (World [] 0 g0) (fun r w' =>
    (exists x, received 5 (w_tr w') = [] ++ (bs "0" ++ 10 :: bs "Full dump" ++ [10]) ++ x /\
      printed (w_tr w') = [] ++ bs "JVM response code = " ++
        (bs "0" ++ 10 :: bs "Full dump" ++ [10]) ++ x ++ [10]) /\
    (forall code rest, INT_MIN <= code <= INT_MAX ->
      bs "0" ++ 10 :: bs "Full dump" ++ [10] = fmt_d code ++ 10 :: rest -> r = code)).
Proof.
  apply (read_response_mirrors os_full 5 [bs "threaddump"] 1 [] 0 g0 2 (bs "threaddump")).
  - reflexivity.
  - intros H. discriminate H.
  - intros t' k Hk. unfold os_full. rewrite app_nil_r.
    destruct (Nat.eqb_spec (reads 5 t') 0); [lia|]. simpl. lia.
  - lia.
  - vm_compute. reflexivity.
Defined.

End Hotspot.
