(* ===== verification/OpenJ9.v ===== *)
(** * ycattach/posix/jattach_openj9.c: dynamic attach to an OpenJ9 JVM

    The attach protocol: take the attach lock, listen on a socket, publish port
    and key in replyInfo, lock the notification files and post the semaphore,
    accept the JVM's connection, release everything, then exchange one command
    and its response. *)

From stdpp Require Import base numbers list strings.
From S2P Require Import Prelude Libc Posix Psutil.
Open Scope Z_scope.

Module OpenJ9.

Definition O_WRONLY : Z := 1.
Definition O_CREAT : Z := 64.
Definition O_TRUNC : Z := 512.
Definition LOCK_EX : Z := 2.
Definition LOCK_UN : Z := 8.
Definition AF_INET : Z := 2.
Definition AF_INET6 : Z := 10.
Definition IPC_CREAT : Z := 512.
Definition IPC_NOWAIT : Z := 2048.
Definition DT_UNKNOWN : Z := 0.
Definition DT_DIR : Z := 4.

(** ** Commands *)

Definition arg_or (argc : Z) (argv : list bytes) (i : nat) (dflt : bytes) : option bytes :=
  if Z.of_nat i <? argc then argv !! i else Some dflt.

(** [strcpy] of a literal into [buf]. *)
Definition strcpy_fits (bufsize : Z) (s : bytes) : option bytes :=
  if Z.of_nat (length s) <? bufsize then Some s else None.

(** The string left in [buf]; [None] is undefined behaviour (no [argv[0]], or a
    buffer too small for a copied literal). *)
Definition translate_command (bufsize argc : Z) (argv : list bytes) : option bytes :=
  cmd ← argv !! 0%nat;
  if streq cmd (bs "load") && (2 <=? argc) then
    a1 ← argv !! 1%nat;
    a3 ← arg_or argc argv 3 [];
    path ← (if 2 <? argc then a2 ← argv !! 2%nat; Some (streq a2 (bs "true")) else Some false);
    Some (snprintf bufsize
      (bs (if path : bool then "ATTACH_LOADAGENTPATH(" else "ATTACH_LOADAGENT(")
       ++ a1 ++ bs "," ++ a3 ++ bs ")"))
  else if streq cmd (bs "jcmd") then
    a1 ← arg_or argc argv 1 (bs "help");
    a2 ← arg_or argc argv 2 [];
    Some (snprintf bufsize (bs "ATTACH_DIAGNOSTICS:" ++ a1 ++ bs "," ++ a2))
  else if streq cmd (bs "threaddump") then
    a1 ← arg_or argc argv 1 [];
    Some (snprintf bufsize (bs "ATTACH_DIAGNOSTICS:Thread.print," ++ a1))
  else if streq cmd (bs "dumpheap") then
    a1 ← arg_or argc argv 1 [];
    Some (snprintf bufsize (bs "ATTACH_DIAGNOSTICS:Dump.heap," ++ a1))
  else if streq cmd (bs "inspectheap") then
    a1 ← arg_or argc argv 1 [];
    Some (snprintf bufsize (bs "ATTACH_DIAGNOSTICS:GC.class_histogram," ++ a1))
  else if streq cmd (bs "datadump") then
    a1 ← arg_or argc argv 1 [];
    Some (snprintf bufsize (bs "ATTACH_DIAGNOSTICS:Dump.java," ++ a1))
  else if streq cmd (bs "properties") then
    strcpy_fits bufsize (bs "ATTACH_GETSYSTEMPROPERTIES")
  else if streq cmd (bs "agentProperties") then
    strcpy_fits bufsize (bs "ATTACH_GETAGENTPROPERTIES")
  else Some (snprintf bufsize cmd).

(** ** Unescaping *)

Definition unescaped_char (c : Z) : Z :=
  if c =? 0 then 92
  else if c =? 102 then 12
  else if c =? 110 then 10
  else if c =? 114 then 13
  else if c =? 116 then 9
  else c.

(** The [while] loop of [print_unescaped]: [b] is the memory from [str] to the
    end of the response; the result is what is written to standard output,
    [None] when [str] runs past the response.  Each round drops at least two
    bytes, so [length b] rounds are enough. *)
Fixpoint unescape_loop (fuel : nat) (b : bytes) : option bytes :=
  s ← cstr b;
  match strchr s 92 with
  | None => Some s
  | Some i =>
      c ← b !! S i;
      match fuel with
      | O => None
      | S f =>
          rest ← unescape_loop f (drop (i + 2) b);
          Some (take i b ++ unescaped_char c :: rest)
      end
  end.

Definition print_unescaped (b : bytes) : option bytes :=
  s ← cstr b;
  let b' := match strchr s 10 with Some i => <[i := 0]> b | None => b end in
  out ← unescape_loop (length b) b';
  Some (out ++ [10]).

(** ** Talking to the JVM *)

(** The write loop; [rest] is [cmd + off], [len - off] bytes. *)
Fixpoint write_loop (fuel : nat) (fd : Z) (rest : bytes) : J Z :=
  match rest with
  | [] => mret 0
  | _ =>
      match fuel with
      | O => nofuel
      | S f =>
          r ← sys (CWrite fd rest);
          if r_val r <=? 0 then mret (-1)
          else write_loop f fd (drop (Z.to_nat (r_val r)) rest)
      end
  end.

Definition write_command (fd : Z) (cmd : bytes) : J Z :=
  write_loop (length (cmd ++ [0])) fd (cmd ++ [0]).

(** How the read loop of [read_response] ends: with a complete response, with a
    failed [realloc], or with an early return. *)
Inductive response := Complete (d : bytes) | NoMemory | Failed.

(** [d] are the [off] bytes read so far, [size] the size of the block. *)
Fixpoint read_loop (fuel : nat) (fd : Z) (d : bytes) (size : Z) : J response :=
  match fuel with
  | O => nofuel
  | S f =>
      r ← sys (CRead fd (size - Z.of_nat (length d)));
      if r_val r =? 0 then
        _ ← stderr (bs "Unexpected EOF reading response" ++ [10]); mret Failed
      else if r_val r <? 0 then
        _ ← perror (bs "Error reading response"); mret Failed
      else
      let d' := d ++ r_data r in
      c ← deref (last d');
      if c =? 0 then mret (Complete d') else
      if size <=? Z.of_nat (length d') then
        m ← sys (CMalloc (size * 2));
        if r_val m <? 0 then mret NoMemory else read_loop f fd d' (size * 2)
      else read_loop f fd d' size
  end.

(** The error code of a [load] response. *)
Definition load_error (d : bytes) : option Z :=
  s ← cstr d;
  if prefixb (bs "ATTACH_ACK") s then Some 0
  else if prefixb (bs "ATTACH_ERR AgentInitializationException") s then
    t ← cstr (drop 39 d); Some (atoi t)
  else Some (-1).

(** What a complete response prints and returns. *)
Definition respond (cmd d : bytes) : option (bytes * Z) :=
  let plain := take (length d - 1) d ++ [10] in
  if prefixb (bs "ATTACH_LOADAGENT") cmd then
    e ← load_error d; Some (plain, e)
  else if prefixb (bs "ATTACH_DIAGNOSTICS:") cmd then
    s ← cstr d;
    match strstr s (bs "openj9_diagnostics.string_result=") with
    | Some i => out ← print_unescaped (drop (i + 33) d); Some (out, 0)
    | None => Some (plain, 0)
    end
  else Some (plain, 0).

Definition read_response (fuel : nat) (fd : Z) (cmd : bytes) : J Z :=
  m ← sys (CMalloc 8192);
  resp ← (if r_val m <? 0 then mret NoMemory else read_loop fuel fd [] 8192);
  match resp with
  | Failed => mret 1
  | NoMemory => _ ← stderr (bs "Failed to allocate memory for response" ++ [10]); mret 1
  | Complete d =>
      out ← deref (respond cmd d);
      _ ← stdout out.1;
      mret out.2
  end.

Fixpoint detach_loop (fuel : nat) (fd : Z) : J unit :=
  match fuel with
  | O => nofuel
  | S f =>
      r ← sys (CRead fd 256);
      if 0 <? r_val r then
        c ← deref (last (r_data r));
        if c =? 0 then mret tt else detach_loop f fd
      else mret tt
  end.

Definition detach (fuel : nat) (fd : Z) : J unit :=
  w ← write_command fd (bs "ATTACH_DETACHED");
  if negb (w =? 0) then mret tt else detach_loop fuel fd.

(** ** Locks, sockets and semaphores *)

Definition close_with_errno (fd : Z) : J unit :=
  saved_errno ← get_errno;
  _ ← sys (CClose fd);
  set_errno saved_errno.

Definition attach_dir (g : jglobals) : bytes := tmp_path g ++ bs "/.com_ibm_tools_attach".

Definition acquire_lock (subdir filename : bytes) : J Z :=
  g ← getg;
  lock_fd ← sys (COpen (snprintf MAX_PATH (attach_dir g ++ bs "/" ++ subdir ++ bs "/" ++ filename))
                       (Z.lor O_WRONLY O_CREAT) 438);
  if r_val lock_fd <? 0 then mret (-1) else
  l ← sys (CFlock (r_val lock_fd) LOCK_EX);
  if r_val l <? 0 then _ ← close_with_errno (r_val lock_fd); mret (-1)
  else mret (r_val lock_fd).

Definition release_lock (lock_fd : Z) : J unit :=
  _ ← sys (CFlock lock_fd LOCK_UN);
  _ ← sys (CClose lock_fd);
  mret tt.

(** [bind], [listen] and [getsockname] in a row: the port when all succeed. *)
Definition bind_and_listen (s : Z) : J (option Z) :=
  b ← sys (CBind s);
  if negb (r_val b =? 0) then mret None else
  l ← sys (CListen s 0);
  if negb (r_val l =? 0) then mret None else
  n ← sys (CGetsockname s);
  mret (if r_val n =? 0 then Some (r_port n) else None).

(** Returns the socket and [*port]. *)
Definition create_attach_socket : J (Z * Z) :=
  s6 ← sys (CSocket AF_INET6);
  if negb (r_val s6 =? -1) then
    p ← bind_and_listen (r_val s6);
    match p with
    | Some port => mret (r_val s6, port)
    | None => _ ← close_with_errno (r_val s6); mret (-1, 0)
    end
  else
    s4 ← sys (CSocket AF_INET);
    if negb (r_val s4 =? -1) then
      p ← bind_and_listen (r_val s4);
      match p with
      | Some port => mret (r_val s4, port)
      | None => _ ← close_with_errno (r_val s4); mret (-1, 0)
      end
    else _ ← close_with_errno (r_val s4); mret (-1, 0).

Definition reply_info_path (g : jglobals) (pid : Z) : bytes :=
  attach_dir g ++ bs "/" ++ fmt_d pid ++ bs "/replyInfo".

Definition close_attach_socket (s pid : Z) : J unit :=
  g ← getg;
  _ ← sys (CUnlink (snprintf MAX_PATH (reply_info_path g pid)));
  _ ← sys (CClose s);
  mret tt.

(** [read(fd, &key, sizeof(key))] on a little-endian machine: the bytes read
    replace the low bytes of [key]. *)
Fixpoint overlay_le (d : bytes) (key : Z) : Z :=
  match d with
  | [] => key
  | b :: r => b + 256 * overlay_le r (key / 256)
  end.

Definition random_key : J Z :=
  tm ← sys CTime;
  let key := u64 (r_val tm * 14313749767032793493) in
  fd ← sys (COpen (bs "/dev/urandom") O_RDONLY 0);
  if 0 <=? r_val fd then
    r ← sys (CRead (r_val fd) 8);
    _ ← sys (CClose (r_val fd));
    mret (if 0 <? r_val r then overlay_le (r_data r) key else key)
  else mret key.

Definition write_reply_info (pid port key : Z) : J Z :=
  g ← getg;
  fd ← sys (COpen (snprintf MAX_PATH (reply_info_path g pid))
                  (Z.lor O_WRONLY (Z.lor O_CREAT O_TRUNC)) 384);
  if r_val fd <? 0 then mret (-1) else
  _ ← sys (CWrite (r_val fd) (snprintf MAX_PATH (fmt_016llx key ++ [10] ++ fmt_d port ++ [10])));
  _ ← sys (CClose (r_val fd));
  mret 0.

Fixpoint semop_loop (count : nat) (sem value flags : Z) : J unit :=
  match count with
  | O => mret tt
  | S c => _ ← sys (CSemop sem value flags); semop_loop c sem value flags
  end.

Definition notify_semaphore (value : Z) (notif_count : nat) : J Z :=
  g ← getg;
  key ← sys (CFtok (snprintf MAX_PATH (attach_dir g ++ bs "/_notifier")) 161);
  sem ← sys (CSemget (r_val key) (Z.lor IPC_CREAT 438));
  if r_val sem <? 0 then mret (-1) else
  _ ← semop_loop notif_count (r_val sem) value (if value <? 0 then IPC_NOWAIT else 0);
  mret 0.

Fixpoint recv_loop (fuel : nat) (client : Z) (d : bytes) : J (option bytes) :=
  match fuel with
  | O => nofuel
  | S f =>
      if Z.of_nat (length d) <? 35 then
        r ← sys (CRecv client (35 - Z.of_nat (length d)));
        if r_val r <=? 0 then mret None else recv_loop f client (d ++ r_data r)
      else mret (Some d)
  end.

Definition expected_greeting (key : Z) : bytes :=
  snprintf 35 (bs "ATTACH_CONNECTED " ++ fmt_016llx key ++ bs " ").

Definition accept_client (s key : Z) : J Z :=
  _ ← sys (CSetRcvTimeo s 5);
  client ← sys (CAccept s);
  if r_val client <? 0 then
    _ ← perror (bs "JVM did not respond"); mret (-1)
  else
  buf ← recv_loop 36 (r_val client) [];
  match buf with
  | None =>
      _ ← stderr (bs "The JVM connection was prematurely closed" ++ [10]);
      _ ← sys (CClose (r_val client));
      mret (-1)
  | Some d =>
      if negb (bool_decide (take 34 d = expected_greeting key)) then
        _ ← stderr (bs "Unexpected JVM response" ++ [10]);
        _ ← sys (CClose (r_val client));
        mret (-1)
      else
        _ ← sys (CSetRcvTimeo (r_val client) 1800);
        mret (r_val client)
  end.

(** The [readdir] loop; [count] entries of [notif_lock] are filled. *)
Fixpoint lock_scan (fuel : nat) (dir : Z) (count : nat) : J nat :=
  match fuel with
  | O => nofuel
  | S f =>
      e ← sys (CReaddir dir);
      if (0 <=? r_val e) && (count <? MAX_NOTIF_FILES)%nat then
        if pid_name (r_data e) && ((r_dtype e =? DT_DIR) || (r_dtype e =? DT_UNKNOWN)) then
          l ← acquire_lock (r_data e) (bs "attachNotificationSync");
          _ ← modg (fun g => set_notif_lock (<[count := l]> (notif_lock g)) g);
          lock_scan f dir (S count)
        else lock_scan f dir count
      else mret count
  end.

Definition lock_notification_files (fuel : nat) : J nat :=
  g ← getg;
  dir ← sys (COpendir (snprintf MAX_PATH (attach_dir g)));
  if r_val dir <? 0 then mret 0%nat else
  count ← lock_scan fuel (r_val dir) 0;
  _ ← sys (CClosedir (r_val dir));
  mret count.

(** The [for] loop over the first entries of [notif_lock]. *)
Fixpoint unlock_loop (locks : list Z) : J unit :=
  match locks with
  | [] => mret tt
  | l :: r => _ ← (if 0 <=? l then release_lock l else mret tt); unlock_loop r
  end.

Definition unlock_notification_files (count : nat) : J unit :=
  g ← getg; unlock_loop (take count (notif_lock g)).

Definition is_openj9_process (pid : Z) : J bool :=
  g ← getg;
  r ← sys (CStat (snprintf MAX_PATH (attach_dir g ++ bs "/" ++ fmt_d pid ++ bs "/attachInfo")));
  mret (r_val r =? 0).

(** ** jattach_openj9 *)

(** The code at the label [error]. *)
Definition error_exit (s nspid attach_lock : Z) (notif_count : nat) : J Z :=
  _ ← (if 0 <=? s then close_attach_socket s nspid else mret tt);
  _ ← (if (0 <? notif_count)%nat then
         _ ← unlock_notification_files notif_count;
         _ ← notify_semaphore (-1) notif_count;
         mret tt
       else mret tt);
  _ ← release_lock attach_lock;
  mret 1.

(** The code after the JVM has connected and everything else is released. *)
Definition run_command (fuel : nat) (fd argc : Z) (argv : list bytes) : J Z :=
  _ ← stdout (bs "Connected to remote JVM" ++ [10]);
  cmd ← deref (translate_command 8192 argc argv);
  w ← write_command fd cmd;
  if negb (w =? 0) then
    _ ← perror (bs "Error writing to socket");
    _ ← sys (CClose fd);
    mret 1
  else
  result ← read_response fuel fd cmd;
  _ ← (if result =? 1 then mret tt else detach fuel fd);
  _ ← sys (CClose fd);
  mret result.

Definition jattach_openj9 (fuel : nat) (pid nspid argc : Z) (argv : list bytes) : J Z :=
  attach_lock ← acquire_lock [] (bs "_attachlock");
  if attach_lock <? 0 then
    _ ← perror (bs "Could not acquire attach lock"); mret 1
  else
  sp ← create_attach_socket;
  if sp.1 <? 0 then
    _ ← perror (bs "Failed to listen to attach socket");
    error_exit sp.1 nspid attach_lock 0
  else
  key ← random_key;
  wri ← write_reply_info nspid sp.2 key;
  if negb (wri =? 0) then
    _ ← perror (bs "Could not write replyInfo");
    error_exit sp.1 nspid attach_lock 0
  else
  notif_count ← lock_notification_files fuel;
  ns ← notify_semaphore 1 notif_count;
  if negb (ns =? 0) then
    _ ← perror (bs "Could not notify semaphore");
    error_exit sp.1 nspid attach_lock notif_count
  else
  fd ← accept_client sp.1 key;
  if fd <? 0 then error_exit sp.1 nspid attach_lock notif_count
  else
  _ ← close_attach_socket sp.1 nspid;
  _ ← unlock_notification_files notif_count;
  _ ← notify_semaphore (-1) notif_count;
  _ ← release_lock attach_lock;
  run_command fuel fd argc argv.

(** ** Handles *)

Lemma gains_close_with_errno fd : gains (close_with_errno fd) (fun _ h => effect h (CClose fd, rok 0)).
Proof. unfold close_with_errno. gains_tac. Qed.
#[local] Hint Resolve gains_close_with_errno : gdb.

(** A lock that is taken is a descriptor handed to the caller. *)
Definition held (fd : Z) (h : handle) : Z := effect h (COpen [] 0 0, rok fd).

Lemma gains_acquire_lock subdir filename : gains (acquire_lock subdir filename) held.
Proof. unfold acquire_lock, held. gains_tac. Qed.
Lemma gains_release_lock fd : 0 <= fd -> gains (release_lock fd) (fun _ h => - held fd h).
Proof. intros. unfold release_lock, held. gains_tac. Qed.
Lemma gains_bind_and_listen s : gains (bind_and_listen s) (fun _ _ => 0).
Proof. unfold bind_and_listen. gains_tac. Qed.
#[local] Hint Resolve gains_acquire_lock gains_release_lock gains_bind_and_listen : gdb.

Lemma gains_create_attach_socket : gains create_attach_socket (fun sp h => held sp.1 h).
Proof. unfold create_attach_socket, held. gains_tac. Qed.
Lemma gains_close_attach_socket s pid : 0 <= s -> gains (close_attach_socket s pid) (fun _ h => - held s h).
Proof. intros. unfold close_attach_socket, held. gains_tac. Qed.
Lemma gains_random_key : gains random_key (fun _ _ => 0).
Proof. unfold random_key. gains_tac. Qed.
Lemma gains_write_reply_info pid port key : gains (write_reply_info pid port key) (fun _ _ => 0).
Proof. unfold write_reply_info. gains_tac. Qed.
Lemma gains_semop_loop n sem v f : gains (semop_loop n sem v f) (fun _ _ => 0).
Proof. induction n as [|n IH]; cbn [semop_loop]; gains_tac. Qed.
#[local] Hint Resolve gains_create_attach_socket gains_close_attach_socket gains_random_key
  gains_write_reply_info gains_semop_loop : gdb.
Lemma gains_notify_semaphore v n : gains (notify_semaphore v n) (fun _ _ => 0).
Proof. unfold notify_semaphore. gains_tac. Qed.
Lemma gains_recv_loop fuel c d : gains (recv_loop fuel c d) (fun _ _ => 0).
Proof. revert d. induction fuel as [|f IH]; intros d; cbn [recv_loop]; gains_tac. Qed.
#[local] Hint Resolve gains_notify_semaphore gains_recv_loop : gdb.
Lemma gains_accept_client s key : gains (accept_client s key) held.
Proof. unfold accept_client, held. gains_tac. Qed.

Lemma gains_write_loop fuel fd rest : gains (write_loop fuel fd rest) (fun _ _ => 0).
Proof.
  revert rest. induction fuel as [|f IH]; intros rest; destruct rest; cbn [write_loop]; gains_tac.
Qed.
#[local] Hint Resolve gains_accept_client gains_write_loop : gdb.
Lemma gains_write_command fd cmd : gains (write_command fd cmd) (fun _ _ => 0).
Proof. unfold write_command. gains_tac. Qed.
Lemma gains_read_loop fuel fd d size : gains (read_loop fuel fd d size) (fun _ _ => 0).
Proof. revert d size. induction fuel as [|f IH]; intros d size; cbn [read_loop]; gains_tac. Qed.
#[local] Hint Resolve gains_write_command gains_read_loop : gdb.
Lemma gains_read_response fuel fd cmd : gains (read_response fuel fd cmd) (fun _ _ => 0).
Proof.
  unfold read_response. gains_step.
  eapply (gains_bind _ _ (fun _ _ => 0)); [destruct (_ <? _); gains_tac|]. intros resp. gains_tac.
Qed.
Lemma gains_detach_loop fuel fd : gains (detach_loop fuel fd) (fun _ _ => 0).
Proof. induction fuel as [|f IH]; cbn [detach_loop]; gains_tac. Qed.
#[local] Hint Resolve gains_read_response gains_detach_loop : gdb.
Lemma gains_detach fuel fd : gains (detach fuel fd) (fun _ _ => 0).
Proof. unfold detach. gains_tac. Qed.
#[local] Hint Resolve gains_detach : gdb.

(** The connection is closed on every path of the exchange. *)
Lemma gains_run_command fuel fd argc argv :
  0 <= fd -> gains (run_command fuel fd argc argv) (fun _ h => - held fd h).
Proof.
  intros. unfold run_command, held. do 3 gains_step. gains_step; [gains_tac|]. gains_step.
  eapply (gains_bind _ _ (fun _ _ => 0)); [destruct (_ =? _); gains_tac|]. intros u. gains_tac.
Qed.

(** *** Notification locks *)

Fixpoint held_all (locks : list Z) (h : handle) : Z :=
  match locks with [] => 0 | l :: r => held l h + held_all r h end.

Lemma held_all_app l1 l2 h : held_all (l1 ++ l2) h = held_all l1 h + held_all l2 h.
Proof. induction l1; simpl; lia. Qed.

Lemma gains_unlock_loop locks : gains (unlock_loop locks) (fun _ h => - held_all locks h).
Proof.
  induction locks as [|l r IH]; cbn [unlock_loop held_all]; [gains_tac|].
  eapply (gains_bind _ _ (fun _ h => - held l h)).
  - destruct (Z.leb_spec 0 l); [by apply gains_release_lock|].
    apply gains_ret. unfold held. fd_leaf.
  - intros u. eapply gains_mono; [apply IH|]. intros a h Hh. cbn beta. lia.
Qed.

(** The entries of [notif_lock] a scan fills are exactly the locks it took. *)
Lemma lock_scan_locks o fuel dir : forall count w,
  length (notif_lock (w_g w)) = MAX_NOTIF_FILES -> (count <= MAX_NOTIF_FILES)%nat ->
  wlp (lock_scan fuel dir count) o w (fun n w' =>
    length (notif_lock (w_g w')) = MAX_NOTIF_FILES /\ (count <= n <= MAX_NOTIF_FILES)%nat /\
    take count (notif_lock (w_g w')) = take count (notif_lock (w_g w)) /\
    forall h, 0 <= handle_val h -> net h (w_tr w') = net h (w_tr w) +
      held_all (take n (notif_lock (w_g w'))) h - held_all (take count (notif_lock (w_g w))) h).
Proof.
  induction fuel as [|f IH]; intros count w Hl Hc; cbn [lock_scan]; [done|].
  wstep. wsys ent He. destruct ((0 <=? r_val ent) && (count <? MAX_NOTIF_FILES)%nat) eqn:Ec.
  - apply andb_true_iff in Ec as [_ Hlt%Nat.ltb_lt].
    destruct (pid_name _ && _).
    + wstep. eapply wlp_mono; [apply gains_acquire_lock|]. intros l w1 [Hg1 Hn1].
      wstep. wsimpl. eapply wlp_mono; [apply IH; [cbn; by rewrite length_insert, Hg1|lia]|].
      cbn [w_g w_tr notif_lock set_notif_lock] in *. intros n w2 (Hl2 & Hn2 & Ht2 & Hd2).
      rewrite Hg1 in *. split_and!; [done|lia|lia| |].
      * apply (f_equal (take count)) in Ht2. rewrite !take_take in Ht2.
        replace (count `min` S count)%nat with count in Ht2 by lia.
        by rewrite take_insert_ge in Ht2 by lia.
      * intros h Hh. rewrite Hd2, Hn1 by done. cbn [w_tr].
        rewrite (take_S_r _ _ l) by (apply list_lookup_insert_eq; lia).
        rewrite take_insert_ge, held_all_app by lia. cbn [held_all]. unfold net. cbn [foldr]. destruct h; cbn [effect]; lia.
    + eapply wlp_mono; [by apply IH|]. cbn [w_g w_tr]. intros n w2 (Hl2 & Hn2 & Ht2 & Hd2).
      split_and!; [done|lia|lia|done|]. intros h Hh. rewrite Hd2 by done. unfold net. cbn [foldr]. destruct h; cbn [effect]; lia.
  - wsimpl. split_and!; [done|lia|lia|done|]. intros h Hh. unfold net. cbn [w_tr foldr w_g]. destruct h; cbn [effect]; lia.
Qed.

Lemma lock_notification_files_locks o fuel w :
  length (notif_lock (w_g w)) = MAX_NOTIF_FILES ->
  wlp (lock_notification_files fuel) o w (fun n w' =>
    forall h, 0 <= handle_val h ->
      net h (w_tr w') = net h (w_tr w) + held_all (take n (notif_lock (w_g w'))) h).
Proof.
  intros Hl. unfold lock_notification_files. wstep. wsimpl. wstep. wsys dir Hdir.
  destruct (Z.ltb_spec (r_val dir) 0) as [Hd|Hd]; wsimpl.
  - intros h Hh. unfold net. cbn [foldr take held_all]. fd_leaf.
  - wstep. eapply wlp_mono; [apply lock_scan_locks; [done|lia]|]. intros n w1 (_ & _ & _ & Hn).
    wstep. wsys c Hc. wsimpl. intros h Hh. unfold net in *. cbn [foldr take held_all w_tr] in *.
    rewrite Hn by done. fd_leaf.
Qed.

Lemma unlock_notification_files_locks o n w :
  wlp (unlock_notification_files n) o w (fun _ w' => w_g w' = w_g w /\
    forall h, 0 <= handle_val h ->
      net h (w_tr w') = net h (w_tr w) - held_all (take n (notif_lock (w_g w))) h).
Proof.
  unfold unlock_notification_files. wstep. wsimpl.
  eapply wlp_mono; [apply gains_unlock_loop|]. intros _ w' [Hg Hn]. split; [done|].
  intros h Hh. rewrite Hn by done. lia.
Qed.

(** The error exit gives back the socket, the notification locks and the attach
    lock, in the numbers it is told. *)
Lemma error_exit_releases o s nspid lock n w :
  0 <= lock ->
  wlp (error_exit s nspid lock n) o w (fun _ w' => forall h, 0 <= handle_val h ->
    net h (w_tr w') = net h (w_tr w) - held s h - held lock h
      - held_all (take n (notif_lock (w_g w))) h).
Proof.
  intros Hlock. unfold error_exit. wstep.
  eapply (wlp_mono _ _ _ (fun _ w1 => w_g w1 = w_g w /\
    forall h, 0 <= handle_val h -> net h (w_tr w1) = net h (w_tr w) - held s h)).
  { destruct (Z.leb_spec 0 s).
    - eapply wlp_mono; [by apply gains_close_attach_socket|]. intros _ w1 [Hg Hn].
      split; [done|]. intros h Hh. rewrite Hn by done. lia.
    - wsimpl. split; [done|]. intros h Hh. unfold held. fd_leaf. }
  intros _ w1 [Hg1 Hn1]. wstep.
  eapply (wlp_mono _ _ _ (fun _ w2 => forall h, 0 <= handle_val h ->
    net h (w_tr w2) = net h (w_tr w1) - held_all (take n (notif_lock (w_g w))) h)).
  { destruct (Nat.ltb_spec 0 n) as [H|H].
    - wstep. eapply wlp_mono; [apply unlock_notification_files_locks|]. intros _ w2 [Hg2 Hn2].
      wstep. eapply wlp_mono; [apply gains_notify_semaphore|]. intros r w3 [_ Hn3]. wsimpl.
      intros h Hh. rewrite Hn3, Hn2, Hg1 by done. lia.
    - assert (n = 0%nat) as -> by lia. wsimpl. intros h Hh. simpl. lia. }
  intros _ w2 Hn2. wstep. eapply wlp_mono; [by apply gains_release_lock|]. intros _ w3 [_ Hn3].
  wsimpl. intros h Hh. rewrite Hn3, Hn2, Hn1 by done. lia.
Qed.

Lemma handles_balanced o fuel pid nspid argc argv w :
  length (notif_lock (w_g w)) = MAX_NOTIF_FILES ->
  wlp (jattach_openj9 fuel pid nspid argc argv) o w (fun _ w' =>
    forall h, 0 <= handle_val h -> net h (w_tr w') = net h (w_tr w)).
Proof.
  intros Hl. unfold jattach_openj9. wstep.
  eapply wlp_mono; [apply gains_acquire_lock|]. intros lock w1 [Hg1 Hn1].
  destruct (Z.ltb_spec lock 0) as [Hlock|Hlock].
  { wstep. eapply wlp_mono; [apply gains_perror|]. intros ? w2 [_ Hn2]. wsimpl.
    intros h Hh. rewrite Hn2, Hn1 by done. unfold held. fd_leaf. }
  wstep. eapply wlp_mono; [apply gains_create_attach_socket|]. intros [s port] w2 [Hg2 Hn2].
  cbn [fst snd] in *. destruct (Z.ltb_spec s 0) as [Hs|Hs].
  { wstep. eapply wlp_mono; [apply gains_perror|]. intros ? w3 [Hg3 Hn3].
    eapply wlp_mono; [by apply error_exit_releases|]. intros ? w4 Hn4 h Hh.
    rewrite Hn4, Hn3, Hn2, Hn1 by done. simpl. lia. }
  wstep. eapply wlp_mono; [apply gains_random_key|]. intros key w3 [Hg3 Hn3].
  wstep. eapply wlp_mono; [apply gains_write_reply_info|]. intros wri w4 [Hg4 Hn4].
  destruct (negb (wri =? 0)).
  { wstep. eapply wlp_mono; [apply gains_perror|]. intros ? w5 [Hg5 Hn5].
    eapply wlp_mono; [by apply error_exit_releases|]. intros ? w6 Hn6 h Hh.
    rewrite Hn6, Hn5, Hn4, Hn3, Hn2, Hn1 by done. simpl. lia. }
  wstep. eapply wlp_mono; [apply lock_notification_files_locks; congruence|]. intros n w5 Hn5.
  wstep. eapply wlp_mono; [apply gains_notify_semaphore|]. intros ns w6 [Hg6 Hn6].
  destruct (negb (ns =? 0)).
  { wstep. eapply wlp_mono; [apply gains_perror|]. intros ? w7 [Hg7 Hn7].
    eapply wlp_mono; [by apply error_exit_releases|]. intros ? w8 Hn8 h Hh.
    rewrite Hn8, Hn7, Hn6, Hn5, Hn4, Hn3, Hn2, Hn1, Hg7, Hg6 by done. lia. }
  wstep. eapply wlp_mono; [apply gains_accept_client|]. intros fd w7 [Hg7 Hn7].
  destruct (Z.ltb_spec fd 0) as [Hfd|Hfd].
  { eapply wlp_mono; [by apply error_exit_releases|]. intros ? w8 Hn8 h Hh.
    rewrite Hn8, Hn7, Hn6, Hn5, Hn4, Hn3, Hn2, Hn1, Hg7, Hg6 by done.
    assert (held fd h = 0) by (unfold held; fd_leaf). lia. }
  wstep. eapply wlp_mono; [by apply gains_close_attach_socket|]. intros ? w8 [Hg8 Hn8].
  wstep. eapply wlp_mono; [apply unlock_notification_files_locks|]. intros ? w9 [Hg9 Hn9].
  wstep. eapply wlp_mono; [apply gains_notify_semaphore|]. intros r w10 [Hg10 Hn10].
  wstep. eapply wlp_mono; [by apply gains_release_lock|]. intros ? w11 [Hg11 Hn11].
  eapply wlp_mono; [by apply gains_run_command|]. intros res w12 [Hg12 Hn12] h Hh.
  rewrite Hn12, Hn11, Hn10, Hn9, Hn8, Hn7, Hn6, Hn5, Hn4, Hn3, Hn2, Hn1 by done.
  rewrite Hg8, Hg7, Hg6. lia.
Qed.

(** C25: whatever the kernel, the other processes and the JVM do, and whichever
    path is taken, an attach to an OpenJ9 JVM that returns has closed exactly
    the descriptors (attach lock, notification locks, sockets, files) and
    directory streams it opened: nothing leaks and nothing is closed twice. *)
Theorem jattach_openj9_no_leak o fuel pid nspid argc argv w :
  length (notif_lock (w_g w)) = MAX_NOTIF_FILES ->
  wlp (jattach_openj9 fuel pid nspid argc argv) o w (fun _ w' =>
    forall h, 0 <= handle_val h -> net h (w_tr w') = net h (w_tr w)).
Proof. apply handles_balanced. Qed.

(** ** Sending the command *)

Lemma write_loop_spec o `{!Kernel o} fd : forall fuel rest w,
  (length rest <= fuel)%nat ->
  wp (write_loop fuel fd rest) o w (fun r w' => exists k,
    written fd (w_tr w') = written fd (w_tr w) ++ take k rest /\
    (r = 0 /\ k = length rest \/ r = -1 /\ (k < length rest)%nat)).
Proof.
  induction fuel as [|f IH]; intros rest w Hf;
    (destruct rest as [|c rest]; cbn [write_loop];
      [wsimpl; exists 0%nat; rewrite app_nil_r; naive_solver|]); [simpl in Hf; lia|].
  wstep. wsys r Hr. set (l := c :: rest) in *.
  pose proof (k_write (w_tr w) fd l) as Hk. rewrite <- Hr in Hk.
  destruct (Z.leb_spec (r_val r) 0) as [H|H]; wsimpl.
  - exists 0%nat. cbn [written]. rewrite Z.eqb_refl.
    replace (Z.to_nat (r_val r)) with 0%nat by lia. split; [done|]. right. simpl. split; [done|lia].
  - eapply wp_mono; [apply IH; rewrite length_drop; simpl in *; lia|].
    intros r' w' (k & Hw & Hr'). exists (Z.to_nat (r_val r) + k)%nat. rewrite Hw.
    cbn [w_tr written]. rewrite Z.eqb_refl, <- app_assoc. split.
    + f_equal. rewrite <- (take_drop (Z.to_nat (r_val r)) l) at 3.
      rewrite take_app_ge by (rewrite length_take; lia). rewrite length_take.
      do 2 f_equal. lia.
    + rewrite length_drop in Hr'. destruct Hr' as [[-> ->]|[-> Hlt]]; [left|right]; split; [done|lia|done|lia].
Qed.

(** However the kernel splits the writes, [write_command] finishes, and it
    returns 0 exactly when the whole command and its NUL have been taken by the
    kernel, in order and without repetition; otherwise it returns -1 and a
    proper prefix was sent. *)
Theorem write_command_complete o fd cmd w :
  Kernel o ->
  wp (write_command fd cmd) o w (fun r w' => exists k,
    written fd (w_tr w') = written fd (w_tr w) ++ take k (cmd ++ [0]) /\
    (r = 0 /\ k = length (cmd ++ [0]) \/ r = -1 /\ (k < length (cmd ++ [0%Z]))%nat)).
Proof. intros HK. by apply write_loop_spec. Qed.

(** ** Unescaping *)

(** The escaping of Java properties files that the JVM applies. *)
Definition escape_char (c : Z) : bytes :=
  if c =? 92 then [92; 92]
  else if c =? 12 then [92; 102]
  else if c =? 10 then [92; 110]
  else if c =? 13 then [92; 114]
  else if c =? 9 then [92; 116]
  else [c].

Definition escape (s : bytes) : bytes := concat (map escape_char s).

Lemma escape_char_cases c :
  (exists d, escape_char c = [92; d] /\ d <> 0 /\ d <> 10 /\ unescaped_char d = c) \/
  (escape_char c = [c] /\ c <> 92 /\ c <> 10).
Proof.
  unfold escape_char, unescaped_char.
  destruct (Z.eqb_spec c 92) as [->|]; [left; exists 92; by vm_compute|].
  destruct (Z.eqb_spec c 12) as [->|]; [left; exists 102; by vm_compute|].
  destruct (Z.eqb_spec c 10) as [->|]; [left; exists 110; by vm_compute|].
  destruct (Z.eqb_spec c 13) as [->|]; [left; exists 114; by vm_compute|].
  destruct (Z.eqb_spec c 9) as [->|]; [left; exists 116; by vm_compute|]. by right.
Qed.

Lemma escape_clean s : Forall (fun c => c <> 0) s -> Forall (fun c => c <> 0 /\ c <> 10) (escape s).
Proof.
  induction 1 as [|c s Hc Hs IH]; [constructor|]. unfold escape in *. simpl.
  apply Forall_app. split; [|done].
  destruct (escape_char_cases c) as [(d & -> & Hd & Hd' & _)|(-> & ? & ?)]; by repeat constructor.
Qed.

Lemma Forall_weaken {A} (P Q : A -> Prop) l : Forall P l -> (forall x, P x -> Q x) -> Forall Q l.
Proof. intros HP HPQ. by eapply Forall_impl. Qed.

(** One round of the loop moves the characters before the next escape out. *)
Lemma unescape_loop_plain fuel c b :
  c <> 0 -> c <> 92 -> unescape_loop fuel (c :: b) = cons c <$> unescape_loop fuel b.
Proof.
  intros H0 H92. destruct fuel as [|f]; cbn [unescape_loop cstr].
  all: destruct (Z.eqb_spec c 0); [done|]. all: destruct (cstr b) as [s|]; [|done].
  all: cbn [fmap option_fmap option_map mbind option_bind strchr].
  all: destruct (Z.eqb_spec c 92); [done|]. all: destruct (strchr s 92) as [i|]; [|done].
  all: cbn [fmap option_fmap option_map]. all: change ((c :: b) !! S (S i)) with (b !! S i).
  all: destruct (b !! S i) as [d|]; [|done]. 1: done.
  cbn [mbind option_bind]. change (drop (S i + 2) (c :: b)) with (drop (i + 2) b).
  by destruct (unescape_loop f (drop (i + 2) b)).
Qed.

Lemma unescape_loop_escape fuel d b :
  d <> 0 -> is_Some (cstr b) ->
  unescape_loop (S fuel) (92 :: d :: b) = cons (unescaped_char d) <$> unescape_loop fuel b.
Proof.
  intros Hd [s Hs]. cbn [unescape_loop cstr]. simpl (92 =? 0). cbn iota.
  destruct (Z.eqb_spec d 0); [done|]. rewrite Hs. cbn. rewrite drop_0. by destruct (unescape_loop fuel b).
Qed.

Lemma cstr_is_Some b r : is_Some (cstr (b ++ 0 :: r)).
Proof.
  induction b as [|c b [s IH]]; simpl; [by eexists|]. destruct (c =? 0); [by eexists|].
  rewrite IH. by eexists.
Qed.

Lemma unescape_escape s r : Forall (fun c => c <> 0) s -> forall fuel,
  (length (escape s) <= fuel)%nat -> unescape_loop fuel (escape s ++ 0 :: r) = Some s.
Proof.
  induction 1 as [|c s Hc Hs IH]; intros fuel Hf; [by destruct fuel|].
  unfold escape in *. cbn [map concat] in *. rewrite <- app_assoc.
  destruct (escape_char_cases c) as [(d & He & Hd & _ & Hu)|(He & Hn & _)]; rewrite He in *; cbn [app] in *.
  - destruct fuel as [|f]; [simpl in Hf; lia|].
    rewrite unescape_loop_escape by (try done; apply cstr_is_Some). rewrite IH, Hu by (simpl in Hf; lia). done.
  - rewrite unescape_loop_plain by done. rewrite IH by (simpl in Hf; lia). done.
Qed.

(** [print_unescaped] inverts the escaping of the JVM: for every text
    without NUL, escaped and followed by a newline and the rest of the
    response, it prints exactly the text and a newline. *)
Theorem print_unescaped_escape s rest :
  Forall (fun c => c <> 0) s ->
  print_unescaped (escape s ++ 10 :: rest ++ [0]) = Some (s ++ [10]).
Proof.
  intros Hs. pose proof (escape_clean s Hs) as Hc. unfold print_unescaped.
  assert (Hcs : exists v, cstr (escape s ++ 10 :: rest ++ [0]) = Some (escape s ++ 10 :: v)).
  { destruct (cstr_line (escape s ++ 10 :: rest)) as (u & Hu & Hl).
    destruct (Hl _ _ eq_refl) as [v ->]; [apply (Forall_weaken _ _ _ Hc); tauto|].
    exists v. by rewrite <- app_assoc in Hu. }
  destruct Hcs as [v ->]. cbn [mbind option_bind].
  rewrite strchr_app by (apply (Forall_weaken _ _ _ Hc); tauto).
  rewrite insert_app_r_alt, Nat.sub_diag by lia. cbn [insert list_insert].
  rewrite unescape_escape; [done|done|]. rewrite length_app. lia.
Qed.

(** A response that ends in a single backslash makes [print_unescaped]
    step over the terminating NUL and read behind the response: undefined
    behaviour, for every text before the backslash. *)
Theorem print_unescaped_trailing_backslash s :
  Forall (fun c => c <> 0 /\ c <> 10 /\ c <> 92) s -> print_unescaped (s ++ [92; 0]) = None.
Proof.
  intros Hs. unfold print_unescaped.
  assert (Hc : cstr (s ++ [92; 0]) = Some (s ++ [92])).
  { change (s ++ [92; 0]) with (s ++ [92] ++ [0]). rewrite app_assoc. apply cstr_app.
    apply Forall_app. split; [apply (Forall_weaken _ _ _ Hs); tauto|by repeat constructor]. }
  rewrite Hc. cbn [mbind option_bind].
  rewrite strchr_absent by (apply Forall_app; split;
    [apply (Forall_weaken _ _ _ Hs); tauto|by repeat constructor]).
  assert (Hl : unescape_loop (length (s ++ [92; 0])) (s ++ [92; 0]) = None).
  { generalize (length (s ++ [92; 0])). intros fuel. clear Hc.
    induction Hs as [|c s (H0 & _ & H92) Hs IH]; cbn [app].
    - by destruct fuel as [|[|]].
    - rewrite unescape_loop_plain by done. by rewrite IH. }
  by rewrite Hl.
Qed.

(** ** Authentication of the JVM *)

(** The bytes received from a connection with [recv]. *)
Fixpoint recvd (fd : Z) (t : trace) : bytes :=
  match t with
  | [] => []
  | (CRecv f _, r) :: t' => recvd fd t' ++ (if (f =? fd) && (0 <? r_val r) then r_data r else [])
  | _ :: t' => recvd fd t'
  end.

Lemma recv_loop_spec o `{!Kernel o} c : forall fuel d w,
  (length d <= 35)%nat -> (35 < fuel + length d)%nat ->
  wp (recv_loop fuel c d) o w (fun x w' => forall b, x = Some b ->
    length b = 35%nat /\ exists y, b = d ++ y /\ recvd c (w_tr w') = recvd c (w_tr w) ++ y).
Proof.
  induction fuel as [|f IH]; intros d w Hd Hf; [lia|]. cbn [recv_loop].
  destruct (Z.ltb_spec (Z.of_nat (length d)) 35) as [H|H]; wsimpl.
  - wstep. wsys r Hr. pose proof (k_recv (w_tr w) c (35 - Z.of_nat (length d)) ltac:(lia)) as [Hk1 Hk2].
    rewrite <- Hr in *. destruct (Z.leb_spec (r_val r) 0); wsimpl; [done|].
    eapply wp_mono; [apply IH; rewrite length_app; lia|]. intros x w' Hx b ->.
    destruct (Hx b eq_refl) as (Hb & y & -> & Hy). split; [done|]. exists (r_data r ++ y).
    rewrite Hy. cbn [w_tr recvd]. rewrite Z.eqb_refl. destruct (Z.ltb_spec 0 (r_val r)); [|lia].
    simpl. by rewrite <- !app_assoc.
  - intros b [= <-]. split; [lia|]. exists []. by rewrite !app_nil_r.
Qed.

Lemma hex_go_length n k : length (hex_go n k) = n.
Proof. revert k. induction n as [|n IH]; intros k; simpl; [done|]. rewrite length_app, IH. simpl. lia. Qed.

(** C39: the only connection [accept_client] hands on is one whose first 35
    bytes start with the greeting and the 64-bit key written to replyInfo; it
    always finishes, whatever the peer sends. *)
Theorem accept_client_authentic o s key w :
  Kernel o ->
  wp (accept_client s key) o w (fun fd w' => 0 <= fd ->
    exists b, recvd fd (w_tr w') = recvd fd (w_tr w) ++ b /\ length b = 35%nat /\
    take 34 b = bs "ATTACH_CONNECTED " ++ fmt_016llx key ++ bs " ").
Proof.
  intros HK. unfold accept_client. wstep. wsys r0 H0. wstep. wsys client Hc.
  destruct (Z.ltb_spec (r_val client) 0).
  { wstep. unfold perror. wstep. wsys r1 H1. wsimpl. intros; lia. }
  wstep. eapply wp_mono; [apply recv_loop_spec; try done; simpl; lia|]. intros [b|] w1 Hb; cbn [w_tr recvd] in Hb.
  2:{ wstep. unfold stderr. wstep. wsys r1 H1. wsimpl. wstep. wsys r2 H2. wsimpl. intros; lia. }
  destruct (Hb b eq_refl) as (Hl & y & -> & Hy). case_bool_decide as He; cbn [negb].
  - wstep. wsys r1 H1. wsimpl. intros _. exists y. cbn [recvd]. split; [done|]. split; [done|].
    rewrite app_nil_l in He. rewrite He. apply snprintf_fits.
    unfold fmt_016llx. rewrite !length_app, hex_go_length. simpl. lia.
  - wstep. unfold stderr. wstep. wsys r1 H1. wsimpl. wstep. wsys r2 H2. wsimpl. intros; lia.
Qed.

(** ** Commands *)

(** Every non-empty command line is translated without undefined behaviour
    into a command that fits the 8192-byte buffer with its NUL. *)
Theorem translate_command_fits argv :
  argv <> [] ->
  exists s, translate_command 8192 (Z.of_nat (length argv)) argv = Some s /\ (length s < Z.to_nat 8192)%nat.
Proof.
  intros Hne.
  assert (Harg : forall i d, exists x, arg_or (Z.of_nat (length argv)) argv i d = Some x).
  { intros i d. unfold arg_or. destruct (Z.ltb_spec (Z.of_nat i) (Z.of_nat (length argv))); [|by eexists].
    apply lookup_lt_is_Some_2. lia. }
  assert (Hsn : forall t, (length (snprintf 8192 t) < Z.to_nat 8192)%nat).
  { intros t. pose proof (snprintf_length 8192 t). lia. }
  destruct argv as [|cmd args]; [done|]. unfold translate_command. cbn [lookup list_lookup mbind option_bind].
  destruct (streq cmd (bs "load") && (2 <=? Z.of_nat (length (cmd :: args)))) eqn:E.
  { apply andb_true_iff in E as [_ E%Z.leb_le]. destruct args as [|a1 args]; [simpl in E; lia|].
    destruct (Harg 3%nat []) as [x ->]. cbn [lookup list_lookup mbind option_bind].
    destruct args as [|a2 args]; [eexists; split; [reflexivity|apply Hsn]|].
    destruct (Z.ltb_spec 2 (Z.of_nat (length (cmd :: a1 :: a2 :: args)))); [|simpl in *; lia].
    eexists. split; [reflexivity|apply Hsn]. }
  clear E. destruct (Harg 1%nat (bs "help")) as [x1 E1]. destruct (Harg 2%nat []) as [x2 E2].
  destruct (Harg 1%nat []) as [x3 E3]. rewrite E1, E2, E3. cbn [mbind option_bind].
  repeat match goal with |- context [if streq ?a ?b then _ else _] => destruct (streq a b) end;
    (eexists; split; [reflexivity|first [apply Hsn | vm_compute; lia]]).
Qed.

(** ** Witnesses *)

(** A kernel that takes one byte per write, whose random bytes are the key
    48879, and on which the JVM connects as descriptor 9, sends the greeting for
    that key in one piece and answers the command with a diagnostic result. *)
Definition os_j9 : os := fun t c =>
  match c with
  | CWrite _ d => rok (Z.min 1 (Z.of_nat (length d)))
  | CRead f n =>
      if n =? 8 then rdata 8 [239; 190; 0; 0; 0; 0; 0; 0]
      else if n =? 8192 then rdata 38 (bs "openj9_diagnostics.string_result=ok\n" ++ [0])
      else rok 0
  | CRecv _ n => if n =? 35 then rdata 35 (bs "ATTACH_CONNECTED 000000000000beef " ++ [0]) else rok 0
  | CAccept _ => rok 9
  | CSocket _ => rok 4
  | COpen _ _ _ => rok 3
  | CReaddir _ => rerr 0
  | _ => rok 0
  end.

#[local] Instance os_j9_kernel : Kernel os_j9.
Proof.
  constructor.
  - intros t fd n Hn. simpl. destruct (Z.eqb_spec n 8); [simpl; split; [lia|done]|].
    destruct (Z.eqb_spec n 8192); simpl; [split; [lia|done]|lia].
  - intros t fd n Hn. simpl. destruct (Z.eqb_spec n 35); simpl; [split; [lia|done]|lia].
  - intros t fd d. simpl. lia.
Defined.

Lemma jattach_openj9_no_leak_witness :
  wlp (jattach_openj9 9 77 5 1 [bs "threaddump"]) os_j9 (World [] 0 g0) (fun _ w' =>
    forall h, 0 <= handle_val h -> net h (w_tr w') = net h []).
Proof. apply (jattach_openj9_no_leak os_j9 9 77 5 1 _ (World [] 0 g0)). reflexivity. Defined.

Lemma write_command_complete_witness :
  wp (write_command 9 (bs "ATTACH_DETACHED")) os_j9 (World [] 0 g0) (fun r w' => exists k,
    written 9 (w_tr w') = written 9 [] ++ take k (bs "ATTACH_DETACHED" ++ [0]) /\
    (r = 0 /\ k = length (bs "ATTACH_DETACHED" ++ [0]) \/
     r = -1 /\ (k < length (bs "ATTACH_DETACHED" ++ [0%Z]))%nat)).
Proof. apply (write_command_complete os_j9 9 _ (World [] 0 g0)). apply os_j9_kernel. Defined.

Lemma print_unescaped_escape_witness :
  print_unescaped (escape (bs "a" ++ 9 :: bs "b\c" ++ [10]) ++ 10 :: bs "x=1" ++ [0]) =
  Some ((bs "a" ++ 9 :: bs "b\c" ++ [10]) ++ [10]).
Proof. apply print_unescaped_escape. repeat constructor; done. Defined.

Lemma print_unescaped_trailing_backslash_witness : print_unescaped (bs "ab" ++ [92; 0]) = None.
Proof. apply print_unescaped_trailing_backslash. repeat constructor; done. Defined.

Lemma accept_client_authentic_witness :
  wp (accept_client 4 48879) os_j9 (World [] 0 g0) (fun fd w' => 0 <= fd ->
    exists b, recvd fd (w_tr w') = recvd fd [] ++ b /\ length b = 35%nat /\
    take 34 b = bs "ATTACH_CONNECTED " ++ fmt_016llx 48879 ++ bs " ").
Proof. apply (accept_client_authentic os_j9 4 48879 (World [] 0 g0)). apply os_j9_kernel. Defined.

Lemma translate_command_fits_witness :
  exists s, translate_command 8192 2 [bs "jcmd"; bs "GC.class_stats"] = Some s /\
    (length s < Z.to_nat 8192)%nat.
Proof. apply (translate_command_fits [bs "jcmd"; bs "GC.class_stats"]). done. Defined.

(** On this system the whole attach succeeds and prints the unescaped result. *)
Example jattach_openj9_run :
  match jattach_openj9 9 77 5 1 [bs "threaddump"] os_j9 (World [] 0 g0) with
  | Done r w => r = 0 /\ printed (w_tr w) = bs "Connected to remote JVM" ++ [10] ++ bs "ok" ++ [10; 10]
  | _ => False
  end.
Proof. vm_compute. split; reflexivity. Qed.

End OpenJ9.
