(* ===== verification/Jattach.v ===== *)
(** * ycattach/posix/jattach.c: the two phases of the attach

    [jattach1] runs in the constructor of the library, before the Go runtime
    starts its threads, and records in static variables what [jattach2] needs. *)

From stdpp Require Import base numbers list strings.
From S2P Require Import Prelude Libc Posix Psutil Hotspot OpenJ9.
Open Scope Z_scope.

Module Jattach.

(** The change of credentials: true when it failed. *)
Definition change_creds_failed (my_uid my_gid target_uid target_gid : Z) : J bool :=
  g_failed ← (if my_gid =? target_gid then mret false else
                r ← sys (CSetegid target_gid); mret (negb (r_val r =? 0)));
  if g_failed : bool then mret true else
  if my_uid =? target_uid then mret false else
  r ← sys (CSeteuid target_uid); mret (negb (r_val r =? 0)).

Definition jattach1 (junk : trace -> Z) (fuel : nat) (pid : Z) : J unit :=
  my_uid ← sys CGeteuid;
  my_gid ← sys CGetegid;
  g ← getg;
  info ← get_process_info junk fuel pid (PInfo (r_val my_uid) (r_val my_gid) (g_nspid g) false);
  _ ← modg (set_nspid (p_nspid info.2));
  if info.1 <? 0 then
    _ ← stderr (bs "Process " ++ fmt_d pid ++ bs " not found" ++ [10]);
    modg (set_code 1)
  else
  _ ← enter_ns pid (bs "net");
  _ ← enter_ns pid (bs "ipc");
  mnt_changed ← enter_ns pid (bs "mnt");
  failed ← change_creds_failed (r_val my_uid) (r_val my_gid) (p_uid info.2) (p_gid info.2);
  if failed : bool then
    _ ← perror (bs "Failed to change credentials to match the target process");
    modg (set_code 1)
  else
  _ ← get_tmp_path (if 0 <? mnt_changed then p_nspid info.2 else pid);
  _ ← sys CIgnoreSigpipe;
  modg (set_code 0).

Definition jattach2 (fuel : nat) (pid argc : Z) (argv : list bytes) : J Z :=
  g ← getg;
  if negb (g_code g =? 0) then
    _ ← stdout (bs "jattach1 ret " ++ fmt_d (g_code g) ++ [10]);
    mret (g_code g)
  else
  j9 ← OpenJ9.is_openj9_process (g_nspid g);
  if j9 : bool then OpenJ9.jattach_openj9 fuel pid (g_nspid g) argc argv
  else Hotspot.jattach_hotspot fuel pid (g_nspid g) argc argv.

(** ** Properties *)

(** C34: when the first phase failed, the second makes no call but its message and
    returns the recorded code; otherwise, whichever JVM it finds and however the
    attach ends, no descriptor, directory stream or file stays open. *)
Theorem jattach2_safe o fuel pid argc argv w :
  length (notif_lock (w_g w)) = MAX_NOTIF_FILES ->
  (g_code (w_g w) <> 0 ->
   wp (jattach2 fuel pid argc argv) o w (fun r w' => r = g_code (w_g w) /\ exists rr,
     w_tr w' = (CStdout (bs "jattach1 ret " ++ fmt_d (g_code (w_g w)) ++ [10]), rr) :: w_tr w)) /\
  wlp (jattach2 fuel pid argc argv) o w (fun _ w' =>
    forall h, 0 <= handle_val h -> net h (w_tr w') = net h (w_tr w)).
Proof.
  intros Hl. split.
  - intros Hc. unfold jattach2. wstep. wsimpl. destruct (Z.eqb_spec (g_code (w_g w)) 0); [done|].
    cbn [negb]. wstep. unfold stdout. wstep. wsys rr Hrr. wsimpl. eauto.
  - unfold jattach2. wstep. wsimpl. destruct (negb _).
    { wstep. eapply wlp_mono; [apply gains_stdout|]. intros ? w1 [_ H1]. wsimpl.
      intros h Hh. rewrite H1 by done. lia. }
    wstep. assert (Hj : gains (OpenJ9.is_openj9_process (g_nspid (w_g w))) (fun _ _ => 0))
      by (unfold OpenJ9.is_openj9_process; gains_tac).
    eapply wlp_mono; [apply Hj|]. intros [|] w1 [Hg H1].
    + eapply wlp_mono; [apply OpenJ9.handles_balanced; congruence|].
      intros r w2 H2 h Hh. rewrite H2, H1 by done. lia.
    + eapply wlp_mono; [apply Hotspot.gains_jattach_hotspot|]. intros r w2 [_ H2] h Hh.
      rewrite H2, H1 by done. lia.
Qed.

(** A target whose status file cannot be opened is reported and recorded
    as a failure before any namespace is entered or any credential changed. *)
Theorem jattach1_unknown_process junk o fuel pid w :
  let t1 := (CGeteuid, o (w_tr w) CGeteuid) :: w_tr w in
  let t2 := (CGetegid, o t1 CGetegid) :: t1 in
  let path := snprintf 64 (bs "/proc/" ++ fmt_d pid ++ bs "/status") in
  r_val (o t2 (CFopen path)) < 0 ->
  wp (jattach1 junk fuel pid) o w (fun _ w' =>
    g_code (w_g w') = 1 /\ tmp_path (w_g w') = tmp_path (w_g w) /\ exists rr,
    w_tr w' = (CStderr (bs "Process " ++ fmt_d pid ++ bs " not found" ++ [10]), rr) ::
              (CFopen path, o t2 (CFopen path)) :: t2).
Proof.
  intros t1 t2 path Hf. unfold jattach1. wstep. wsys u Hu. wstep. wsys gd Hgd. wstep. wsimpl. wstep.
  unfold get_process_info. wstep. fold path. wsys f Hf'. subst u gd. fold t1 t2 in Hf', Hf.
  rewrite <- Hf' in *. destruct (Z.ltb_spec (r_val f) 0); [|lia]. wsimpl. wstep. wsimpl. cbn [fst snd].
  change (-1 <? 0) with true. cbn iota. wstep. unfold stderr. wstep. wsys rr Hrr. wsimpl.
  split; [done|]. split; [done|]. by exists rr.
Qed.

Lemma jattach2_safe_witness :
  (1 <> 0 -> wp (jattach2 9 77 1 [bs "threaddump"]) OpenJ9.os_j9 (World [] 0 (set_code 1 g0)) (fun r w' =>
     r = 1 /\ exists rr, w_tr w' = [(CStdout (bs "jattach1 ret " ++ fmt_d 1 ++ [10]), rr)])) /\
  wlp (jattach2 9 77 1 [bs "threaddump"]) OpenJ9.os_j9 (World [] 0 (set_code 1 g0)) (fun _ w' =>
    forall h, 0 <= handle_val h -> net h (w_tr w') = net h []).
Proof. apply (jattach2_safe OpenJ9.os_j9 9 77 1 _ (World [] 0 (set_code 1 g0))). reflexivity. Defined.

Lemma jattach1_unknown_process_witness :
  wp (jattach1 (fun _ => 0) 9 77) (fun _ c => match c with CFopen _ => rerr 2 | _ => rok 0 end) (World [] 0 g0)
    (fun _ w' => g_code (w_g w') = 1 /\ tmp_path (w_g w') = [] /\ exists rr,
      w_tr w' = [(CStderr (bs "Process " ++ fmt_d 77 ++ bs " not found" ++ [10]), rr);
        (CFopen (snprintf 64 (bs "/proc/" ++ fmt_d 77 ++ bs "/status")), rerr 2);
        (CGetegid, rok 0); (CGeteuid, rok 0)]).
Proof.
  apply (jattach1_unknown_process (fun _ => 0)
    (fun _ c => match c with CFopen _ => rerr 2 | _ => rok 0 end) 9 77 (World [] 0 g0)).
  simpl. lia.
Defined.

End Jattach.
