(* ===== verification/Escape.v ===== *)
(** * procps/linux/escape.c: making command names printable

    A destination is the list of all bytes of its buffer, so that a store past
    its end is visible: such a store, and a scan that runs off the buffer, is
    [None].  [char_signed] is the signedness of plain [char] on the target
    (signed on x86, unsigned on 64-bit ARM Linux), on which the value of the
    [-1] entries of [UTF_tab] depends. *)

From stdpp Require Import base numbers list strings.
From S2P Require Import Prelude Libc.
Open Scope Z_scope.

Module Escape.

(** ** The tables *)

(** [UTF_tab[c]], by the ranges of its rows. *)
Definition UTF_tab (char_signed : bool) (c : Z) : Z :=
  let bad := if char_signed then -1 else 255 in
  if c <? 128 then 1
  else if c <? 194 then bad
  else if c <? 224 then 2
  else if c <? 240 then 3
  else if c <? 245 then 4
  else bad.

(** [ESC_tab[c]] *)
Definition ESC_tab (c : Z) : Z :=
  if c =? 0 then 64
  else if c <? 32 then 46
  else if c <? 127 then 124
  else if c =? 127 then 46
  else 63.

Definition esc_byte (c : Z) : Z := if ESC_tab c =? 124 then c else ESC_tab c.

(** ** The two scans *)

Fixpoint esc_all (str : bytes) : option bytes :=
  match str with
  | [] => None
  | c :: r => if c =? 0 then Some str else cons (esc_byte c) <$> esc_all r
  end.

Definition is_ctl (c : Z) : bool := (c <? 32) || (c =? 127).
Definition esc_lead (c : Z) : Z := if is_ctl c then 63 else c.

(** The loop of [esc_ctl] from index [i]; each step advances by at least one,
    so [len] steps are enough. *)
Fixpoint esc_ctl_loop (cs : bool) (fuel : nat) (str : bytes) (i len : Z) : option bytes :=
  if len <=? i then Some str else
  match fuel, str with
  | S f, c :: r =>
      let n := UTF_tab cs c in
      if (n <? 0) || (len <? i + n) then esc_all str
      else
        let str' := esc_lead c :: r in
        app (take (Z.to_nat n) str') <$> esc_ctl_loop cs f (drop (Z.to_nat n) str') (i + n) len
  | _, _ => None
  end.

Definition esc_ctl (cs : bool) (str : bytes) (len : Z) : option bytes :=
  esc_ctl_loop cs (Z.to_nat len) str 0 len.

(** ** escape_str *)

(** [snprintf(dst, size, "%s", src)]: the value returned (negative when the
    length exceeds [INT_MAX]) and the buffer. *)
Definition snprintf_s (dst src : bytes) (size : Z) : option (Z * bytes) :=
  if INT_MAX <? Z.of_nat (length src) then Some (-1, dst)
  else
    let out := snprintf size src ++ [0] in
    if (length dst <? length out)%nat then None
    else Some (Z.of_nat (length src), out ++ drop (length out) dst).

Definition poke (buf : bytes) (i : Z) (c : Z) : option bytes :=
  if (0 <=? i) && (i <? Z.of_nat (length buf)) then Some (<[Z.to_nat i := c]> buf) else None.

(** The thread-local [utf_sw] after the first lines of [escape_str]; [enc] is
    what [nl_langinfo(CODESET)] returns. *)
Definition utf_switch (utf_sw : Z) (enc : option bytes) : Z :=
  if utf_sw =? 0 then
    match enc with
    | Some e => if strcasecmp e (bs "UTF-8") =? 0 then 1 else -1
    | None => -1
    end
  else utf_sw.

(** The value returned, the destination and [utf_sw]. *)
Definition escape_str (cs : bool) (enc : option bytes) (utf_sw : Z) (dst src : bytes) (bufsize : Z)
  : option (Z * bytes * Z) :=
  let sw := utf_switch utf_sw enc in
  if bufsize <=? 0 then Some (0, dst, sw) else
  dst ← poke dst 0 0;
  if INT_MAX <=? bufsize then Some (0, dst, sw) else
  '(n, dst) ← snprintf_s dst src bufsize;
  if n <? 0 then dst ← poke dst 0 0; Some (0, dst, sw) else
  let n := if bufsize <=? n then bufsize - 1 else n in
  dst ← (if sw <? 0 then esc_all dst else esc_ctl cs dst n);
  Some (n, dst, sw).

(** ** escape_command *)

(** [pp->state] and [pp->cmd] of [proc_t]; [ESC_BRACKETS] and [ESC_DEFUNCT]
    of the flags. *)
Record eproc := EProc { e_state : Z; e_cmd : bytes }.

Definition ESC_BRACKETS : Z := 2.
Definition ESC_DEFUNCT : Z := 4.

Definition has (flags bit : Z) : bool := negb (Z.land flags bit =? 0).

(** [memcpy(buf + i, src, strlen(src))] *)
Fixpoint copy_at (buf : bytes) (i : Z) (src : bytes) : option bytes :=
  match src with
  | [] => Some buf
  | c :: r => buf ← poke buf i c; copy_at buf (i + 1) r
  end.

Definition escape_command (cs : bool) (enc : option bytes) (utf_sw : Z)
    (outbuf : bytes) (pp : eproc) (bytes flags : Z) : option (Z * list Z * Z) :=
  let overhead := if has flags ESC_BRACKETS then 2 else 0 in
  let zombie := has flags ESC_DEFUNCT && (e_state pp =? 90) in
  let overhead := if zombie then overhead + 10 else overhead in
  if bytes <=? overhead + 1 then
    outbuf ← poke outbuf 0 0; Some (0, outbuf, utf_sw)
  else
  '(outbuf, end_) ← (if has flags ESC_BRACKETS
                     then outbuf ← poke outbuf 0 91; Some (outbuf, 1) else Some (outbuf, 0));
  '(n, tail, sw) ← escape_str cs enc utf_sw (drop (Z.to_nat end_) outbuf) (e_cmd pp) (bytes - overhead);
  let outbuf := take (Z.to_nat end_) outbuf ++ tail in
  let end_ := end_ + n in
  '(outbuf, end_) ← (if has flags ESC_BRACKETS
                     then outbuf ← poke outbuf end_ 93; Some (outbuf, end_ + 1)
                     else Some (outbuf, end_));
  '(outbuf, end_) ← (if zombie
                     then outbuf ← copy_at outbuf end_ (bs " <defunct>"); Some (outbuf, end_ + 10)
                     else Some (outbuf, end_));
  outbuf ← poke outbuf end_ 0;
  Some (end_, outbuf, sw).

(** ** What the scans compute *)

Definition nonul (s : bytes) : Prop := Forall (fun c => c <> 0) s.
Definition printable (c : Z) : Prop := 32 <= c <= 126.

(** [esc_ctl] as a function of the text alone. *)
Fixpoint ctl_text (cs : bool) (fuel : nat) (s : bytes) : bytes :=
  match fuel, s with
  | S f, c :: r =>
      let n := UTF_tab cs c in
      if (n <? 0) || (Z.of_nat (length s) <? n) then map esc_byte s
      else take (Z.to_nat n) (esc_lead c :: r)
             ++ ctl_text cs f (drop (Z.to_nat n) (esc_lead c :: r))
  | _, _ => []
  end.

Lemma UTF_tab_nonzero cs c : UTF_tab cs c <> 0.
Proof. unfold UTF_tab. repeat case_match; lia. Qed.

Lemma UTF_tab_ascii cs c : c < 128 -> UTF_tab cs c = 1.
Proof. unfold UTF_tab. intros. by destruct (Z.ltb_spec c 128); [|lia]. Qed.

Lemma esc_byte_printable c : 0 < c <= 255 -> printable (esc_byte c).
Proof. unfold printable, esc_byte, ESC_tab. intros. repeat case_match; lia. Qed.

Lemma esc_byte_keeps c : printable c -> esc_byte c = c.
Proof. unfold printable, esc_byte, ESC_tab. intros. repeat case_match; lia. Qed.

Lemma esc_byte_nonzero c : c <> 0 -> esc_byte c <> 0.
Proof. unfold esc_byte, ESC_tab. intros. repeat case_match; lia. Qed.

Lemma esc_lead_nonzero c : c <> 0 -> esc_lead c <> 0.
Proof. unfold esc_lead. intros. by case_match. Qed.

Lemma esc_all_text s r :
  nonul s -> esc_all (s ++ 0 :: r) = Some (map esc_byte s ++ 0 :: r).
Proof.
  induction 1 as [|c s Hc _ IH]; simpl; [done|].
  destruct (Z.eqb_spec c 0); [done|]. by rewrite IH.
Qed.

Lemma ctl_text_length cs fuel s :
  (length s <= fuel)%nat -> length (ctl_text cs fuel s) = length s.
Proof.
  revert s. induction fuel as [|f IH]; intros [|c r] Hf; cbn [ctl_text]; try done; [simpl in Hf; lia|].
  pose proof (UTF_tab_nonzero cs c). set (n := UTF_tab cs c) in *.
  destruct (Z.ltb_spec n 0); cbn [orb]; [by rewrite length_map|].
  destruct (Z.ltb_spec (Z.of_nat (length (c :: r))) n); [by rewrite length_map|]. rewrite length_app, IH by (rewrite length_drop; cbn [length] in *; lia).
  rewrite length_take, length_drop. cbn [length] in *. lia.
Qed.

Lemma nonul_esc_lead c r : nonul (c :: r) -> nonul (esc_lead c :: r).
Proof. inversion 1; subst. constructor; [by apply esc_lead_nonzero|done]. Qed.

Lemma ctl_text_nonul cs fuel s : nonul s -> nonul (ctl_text cs fuel s).
Proof.
  revert s. induction fuel as [|f IH]; intros [|c r] Hs; cbn [ctl_text]; try by constructor.
  case_match.
  - apply Forall_map. eapply Forall_impl; [apply Hs|]. simpl. apply esc_byte_nonzero.
  - apply nonul_esc_lead in Hs. apply Forall_app. split; [by apply Forall_take|].
    by apply IH, Forall_drop.
Qed.

Lemma esc_ctl_loop_text cs fuel s r i :
  (length s <= fuel)%nat -> nonul s ->
  esc_ctl_loop cs fuel (s ++ 0 :: r) i (i + Z.of_nat (length s))
  = Some (ctl_text cs fuel s ++ 0 :: r).
Proof.
  revert s i. induction fuel as [|f IH]; intros [|c t] i Hf Hs;
    cbn [esc_ctl_loop ctl_text length app] in *; try lia; [by zcase..|].
  pose proof (UTF_tab_nonzero cs c). set (n := UTF_tab cs c) in *.
  destruct (Z.leb_spec (i + Z.of_nat (S (length t))) i); [lia|].
  destruct (Z.ltb_spec n 0); cbn [orb]; [by apply (esc_all_text (c :: t))|].
  destruct (Z.ltb_spec (Z.of_nat (S (length t))) n).
  { destruct (Z.ltb_spec (i + Z.of_nat (S (length t))) (i + n)); [|lia].
    by apply (esc_all_text (c :: t)). }
  destruct (Z.ltb_spec (i + Z.of_nat (S (length t))) (i + n)); [lia|].
  apply nonul_esc_lead in Hs.
  change (esc_lead c :: t ++ 0 :: r) with ((esc_lead c :: t) ++ 0 :: r).
  rewrite drop_app_le, take_app_le by (cbn [length]; lia).
  assert (Hi : i + Z.of_nat (S (length t))
    = i + n + Z.of_nat (length (drop (Z.to_nat n) (esc_lead c :: t))))
    by (rewrite length_drop; cbn [length]; lia).
  rewrite Hi, IH; [|rewrite length_drop; cbn [length]; lia|by apply Forall_drop].
  cbn [fmap option_fmap option_map]. by rewrite app_assoc.
Qed.

(** The text left in the destination: the source cut to the room there is,
    then escaped. *)
Definition escaped (cs : bool) (sw : Z) (src : bytes) (bufsize : Z) : bytes :=
  let s := take (Z.to_nat (bufsize - 1)) src in
  if sw <? 0 then map esc_byte s else ctl_text cs (length s) s.

Lemma escaped_length cs sw src bufsize : 0 < bufsize ->
  Z.of_nat (length (escaped cs sw src bufsize)) = Z.min (Z.of_nat (length src)) (bufsize - 1).
Proof.
  intros. unfold escaped. case_match; rewrite ?length_map, ?ctl_text_length by done;
    rewrite length_take; lia.
Qed.

Lemma escaped_nonul cs sw src bufsize : nonul src -> nonul (escaped cs sw src bufsize).
Proof.
  intros Hs. unfold escaped. case_match.
  - apply Forall_map. eapply Forall_impl; [by apply Forall_take|]. simpl. apply esc_byte_nonzero.
  - by apply ctl_text_nonul, Forall_take.
Qed.

Lemma poke_head dst c : (0 < length dst)%nat -> poke dst 0 c = Some (c :: drop 1 dst).
Proof. destruct dst; simpl; [lia|done]. Qed.

Lemma escape_str_eq cs enc sw0 dst src bufsize :
  nonul src -> Z.of_nat (length src) <= INT_MAX ->
  0 < bufsize < INT_MAX -> bufsize <= Z.of_nat (length dst) ->
  let sw := utf_switch sw0 enc in
  let text := escaped cs sw src bufsize in
  escape_str cs enc sw0 dst src bufsize =
    Some (Z.of_nat (length text), text ++ 0 :: drop (S (length text)) dst, sw).
Proof.
  intros Hs Hl Hb Hd sw text. unfold escape_str. fold sw.
  pose proof (escaped_length cs sw src bufsize ltac:(lia)) as Ht. fold text in Ht.
  set (s := take (Z.to_nat (bufsize - 1)) src).
  assert (Hsl : length s = length text) by (subst s; rewrite length_take; lia).
  assert (Hns : nonul s) by by apply Forall_take.
  destruct (Z.leb_spec bufsize 0); [lia|]. rewrite poke_head by lia. simpl.
  destruct (Z.leb_spec INT_MAX bufsize); [lia|].
  unfold snprintf_s. destruct (Z.ltb_spec INT_MAX (Z.of_nat (length src))); [lia|].
  unfold snprintf. fold s.
  assert (Hlen : (length (0%Z :: drop 1 dst) <? length (s ++ [0%Z]))%nat = false).
  { apply Nat.ltb_ge. rewrite length_app. simpl. rewrite length_drop, Hsl. lia. }
  rewrite Hlen. simpl.
  destruct (Z.ltb_spec (Z.of_nat (length src)) 0); [lia|].
  assert (Hn : (if bufsize <=? Z.of_nat (length src) then bufsize - 1 else Z.of_nat (length src))
               = Z.of_nat (length text)) by (case_match; lia).
  rewrite Hn. rewrite length_app, Nat.add_comm. simpl. rewrite drop_drop, <- app_assoc, Hsl.
  subst text. unfold escaped in *. fold s in Hsl, Ht |- *. destruct (sw <? 0).
  - simpl app. rewrite esc_all_text by done. done.
  - unfold esc_ctl. rewrite <- Hsl, Nat2Z.id. simpl app.
    rewrite (esc_ctl_loop_text cs (length s) s _ 0) by done. done.
Qed.

(** ** Building the output of [escape_command]

    [stage out pre buf]: [buf] is the buffer [out] after its first bytes were
    replaced by [pre]; the byte behind [pre] is unspecified. *)
Definition stage (out pre buf : bytes) : Prop :=
  exists x, buf = pre ++ x :: drop (S (length pre)) out.

Lemma stage_start out : (0 < length out)%nat -> stage out [] out.
Proof. destruct out as [|x o]; simpl; [lia|]. intros _. by exists x. Qed.

Lemma poke_middle a x b c : poke (a ++ x :: b) (Z.of_nat (length a)) c = Some (a ++ c :: b).
Proof.
  unfold poke. rewrite length_app. cbn [length]. zcase.
  by rewrite Nat2Z.id, insert_app_r_alt, Nat.sub_diag by done.
Qed.

Lemma stage_close out pre buf c : stage out pre buf ->
  poke buf (Z.of_nat (length pre)) c = Some (pre ++ c :: drop (S (length pre)) out).
Proof. intros [x ->]. apply poke_middle. Qed.

Lemma stage_extend out pre c : (S (length pre) < length out)%nat ->
  stage out (pre ++ [c]) (pre ++ c :: drop (S (length pre)) out).
Proof.
  intros H. destruct (drop (S (length pre)) out) as [|y d] eqn:E.
  - apply (f_equal length) in E. rewrite length_drop in E. simpl in E. lia.
  - exists y. rewrite <- app_assoc. simpl. do 3 f_equal.
    rewrite length_app, Nat.add_comm. simpl. rewrite <- (Nat.add_1_r (S (length pre))).
    rewrite <- drop_drop, E. done.
Qed.

Lemma stage_copy out src pre buf :
  stage out pre buf -> (length pre + length src < length out)%nat ->
  exists buf', copy_at buf (Z.of_nat (length pre)) src = Some buf' /\ stage out (pre ++ src) buf'.
Proof.
  revert pre buf. induction src as [|c r IH]; intros pre buf Hs Hl; cbn [copy_at].
  - exists buf. by rewrite app_nil_r.
  - rewrite (stage_close _ _ _ c Hs). cbn [mbind option_bind length] in *.
    destruct (IH (pre ++ [c]) _ (stage_extend out pre c ltac:(lia))) as (b & Hc & Hb).
    { rewrite length_app. simpl. lia. }
    rewrite length_app, Nat2Z.inj_add in Hc. exists b. split; [exact Hc|]. by rewrite <- app_assoc in Hb.
Qed.

(** Copying a text when a flag asks for it. *)
Lemma stage_if_copy (b : bool) out src pre buf :
  stage out pre buf -> (length pre + length (if b then src else []) < length out)%nat ->
  exists buf', (if b then o ← copy_at buf (Z.of_nat (length pre)) src;
                          Some (o, Z.of_nat (length pre) + Z.of_nat (length src))
                else Some (buf, Z.of_nat (length pre)))
    = Some (buf', Z.of_nat (length (pre ++ if b then src else []))) /\
    stage out (pre ++ if b then src else []) buf'.
Proof.
  intros Hs Hl. destruct b; [|rewrite app_nil_r; by exists buf].
  destruct (stage_copy out src pre buf Hs Hl) as (b' & -> & Hb). exists b'.
  split; [|done]. cbn. do 2 f_equal. rewrite length_app. lia.
Qed.

Lemma stage_if_poke (b : bool) out c pre buf :
  stage out pre buf -> (length pre + length (if b then [c] else []) < length out)%nat ->
  exists buf', (if b then o ← poke buf (Z.of_nat (length pre)) c; Some (o, Z.of_nat (length pre) + 1)
                else Some (buf, Z.of_nat (length pre)))
    = Some (buf', Z.of_nat (length (pre ++ if b then [c] else []))) /\
    stage out (pre ++ if b then [c] else []) buf'.
Proof.
  intros Hs Hl. destruct (stage_if_copy b out [c] pre buf Hs Hl) as (b' & Hb & Hs').
  exists b'. split; [|done]. rewrite <- Hb. destruct b; [|done]. cbn [copy_at].
  by rewrite (stage_close _ _ _ c Hs).
Qed.

Lemma stage_escape cs enc sw0 out pre buf src bufsize :
  stage out pre buf -> nonul src -> Z.of_nat (length src) <= INT_MAX ->
  0 < bufsize < INT_MAX -> Z.of_nat (length pre) + bufsize <= Z.of_nat (length out) ->
  let sw := utf_switch sw0 enc in
  let text := escaped cs sw src bufsize in
  exists tail,
    escape_str cs enc sw0 (drop (length pre) buf) src bufsize =
      Some (Z.of_nat (length text), tail, sw) /\
    stage out (pre ++ text) (take (length pre) buf ++ tail).
Proof.
  intros [x ->] Hn Hl Hb Ho sw text. rewrite drop_app_length, take_app_length.
  eexists. split.
  - apply escape_str_eq; try done. simpl. rewrite length_drop. lia.
  - exists 0. fold sw text. simpl. rewrite drop_drop, length_app, <- app_assoc. do 5 f_equal.
Qed.

(** What [escape_command] is to print of the escaped name [text]. *)
Definition decorated (flags state : Z) (text : bytes) : bytes :=
  let b := has flags ESC_BRACKETS in
  (if b then [91] else []) ++ text ++ (if b then [93] else [])
    ++ (if has flags ESC_DEFUNCT && (state =? 90) then bs " <defunct>" else []).

Definition overhead (flags state : Z) : Z := Z.of_nat (length (decorated flags state [])).

Lemma overhead_cases flags state :
  overhead flags state =
    (if has flags ESC_DEFUNCT && (state =? 90) then 10 else 0)
    + (if has flags ESC_BRACKETS then 2 else 0).
Proof. unfold overhead, decorated. by repeat case_match. Qed.

Lemma decorated_length flags state text :
  Z.of_nat (length (decorated flags state text))
  = overhead flags state + Z.of_nat (length text).
Proof. unfold overhead, decorated. rewrite !length_app. simpl. lia. Qed.

(** ** Theorems *)

(** Escape_str never leaves its buffer: for every locale and char signedness
    it returns the length of the text it left in [dst], which is the source cut
    to [bufsize - 1] bytes, free of NULs, and the bytes behind the terminating
    NUL are untouched. *)
Theorem escape_str_bounded cs enc sw0 dst src bufsize :
  nonul src -> Z.of_nat (length src) <= INT_MAX ->
  0 < bufsize < INT_MAX -> bufsize <= Z.of_nat (length dst) ->
  exists text,
    escape_str cs enc sw0 dst src bufsize =
      Some (Z.of_nat (length text), text ++ 0 :: drop (S (length text)) dst, utf_switch sw0 enc) /\
    Z.of_nat (length text) = Z.min (Z.of_nat (length src)) (bufsize - 1) /\ nonul text.
Proof.
  intros Hs Hl Hb Hd. eexists. split; [by apply escape_str_eq|].
  split; [apply escaped_length; lia|by apply escaped_nonul].
Qed.

(** Outside UTF-8 locales the text escape_str leaves is printable ASCII,
    and a source of printable ASCII that fits is copied unchanged. *)
Theorem escape_str_printable cs sw0 dst src bufsize :
  Forall (fun c => 0 < c <= 255) src -> Z.of_nat (length src) <= INT_MAX ->
  0 < bufsize < INT_MAX -> bufsize <= Z.of_nat (length dst) -> sw0 < 0 ->
  exists text,
    escape_str cs None sw0 dst src bufsize =
      Some (Z.of_nat (length text), text ++ 0 :: drop (S (length text)) dst, sw0) /\
    Forall printable text /\
    (Forall printable src -> Z.of_nat (length src) < bufsize -> text = src).
Proof.
  intros Hs Hl Hb Hd Hsw. eexists. split; [|split].
  - rewrite escape_str_eq by (done || (eapply Forall_impl; [apply Hs|]; simpl; lia)).
    unfold utf_switch. destruct (Z.eqb_spec sw0 0); [lia|]. done.
  - unfold escaped. zcase. apply Forall_map. eapply Forall_impl; [by apply Forall_take|].
    simpl. apply esc_byte_printable.
  - intros Hp Hf. unfold escaped. zcase. rewrite take_ge by lia.
    rewrite <- (map_id src) at 2. apply map_ext_Forall.
    eapply Forall_impl; [apply Hp|]. simpl. apply esc_byte_keeps.
Qed.

(** A character of well-formed UTF-8, as far as [esc_ctl] looks: as many bytes
    as its first byte announces. *)
Definition utf8_char (ch : bytes) : Prop :=
  match ch with c :: _ => UTF_tab true c = Z.of_nat (length ch) | [] => False end.

Definition esc_char (ch : bytes) : bytes :=
  match ch with [c] => [esc_lead c] | _ => ch end.

Lemma ctl_text_chars cs fuel chars :
  Forall utf8_char chars -> (length (concat chars) <= fuel)%nat ->
  ctl_text cs fuel (concat chars) = concat (map esc_char chars).
Proof.
  intros Hc. revert fuel. induction Hc as [|ch chars Hch _ IH]; intros fuel Hf; [by destruct fuel|].
  destruct ch as [|c r]; [done|]. unfold utf8_char in Hch.
  assert (Hcs : UTF_tab cs c = Z.of_nat (length (c :: r))).
  { rewrite <- Hch. destruct cs; [done|]. revert Hch. unfold UTF_tab. zcase; cbn [length]; lia. }
  destruct fuel as [|f]; [simpl in Hf; lia|].
  cbn [concat map app ctl_text]. rewrite Hcs. cbn [length] in Hf |- *. rewrite length_app in *.
  zcase. rewrite Nat2Z.id. cbn [take drop]. rewrite take_app_length, drop_app_length.
  cbn [concat app length] in Hf. rewrite length_app in Hf. rewrite IH by lia.
  destruct r as [|d r]; [done|]. cbn [app esc_char]. do 2 f_equal.
  unfold esc_lead, is_ctl. cbn [length] in Hcs. revert Hcs. unfold UTF_tab. zcase; lia || done.
Qed.

(** In a UTF-8 locale a well-formed text that fits is copied character by
    character, with exactly the control characters replaced by a question mark. *)
Theorem escape_str_utf8 cs enc dst chars bufsize :
  Forall utf8_char chars -> nonul (concat chars) ->
  Z.of_nat (length (concat chars)) < bufsize -> bufsize < INT_MAX ->
  bufsize <= Z.of_nat (length dst) -> strcasecmp enc (bs "UTF-8") = 0 ->
  escape_str cs (Some enc) 0 dst (concat chars) bufsize =
    Some (Z.of_nat (length (concat chars)),
          concat (map esc_char chars) ++ 0 :: drop (S (length (concat chars))) dst, 1).
Proof.
  intros Hc Hn Hf Hb Hd He. rewrite escape_str_eq by (done || lia).
  unfold utf_switch. rewrite He. cbn. unfold escaped. cbn [Z.ltb Z.compare].
  rewrite take_ge by lia. rewrite ctl_text_length by done. by rewrite ctl_text_chars by done.
Qed.

Lemma escape_command_eq cs enc sw0 outbuf pp bytes flags :
  nonul (e_cmd pp) -> Z.of_nat (length (e_cmd pp)) <= INT_MAX ->
  overhead flags (e_state pp) + 1 < bytes < INT_MAX ->
  bytes <= Z.of_nat (length outbuf) ->
  let sw := utf_switch sw0 enc in
  let out := decorated flags (e_state pp)
               (escaped cs sw (e_cmd pp) (bytes - overhead flags (e_state pp))) in
  escape_command cs enc sw0 outbuf pp bytes flags =
    Some (Z.of_nat (length out), out ++ 0 :: drop (S (length out)) outbuf, sw) /\
  Z.of_nat (length out) < bytes.
Proof.
  intros Hn Hl Hb Ho sw out. set (ov := overhead flags (e_state pp)) in *.
  set (text := escaped cs sw (e_cmd pp) (bytes - ov)) in *.
  pose proof (overhead_cases flags (e_state pp)) as Hov. fold ov in Hov.
  pose proof (escaped_length cs sw (e_cmd pp) (bytes - ov) ltac:(lia)) as Ht. fold text in Ht.
  pose proof (decorated_length flags (e_state pp) text) as Hout. fold ov out in Hout.
  split; [|lia]. unfold escape_command.
  unfold out, decorated. set (b := has flags ESC_BRACKETS) in *.
  set (z := has flags ESC_DEFUNCT && (e_state pp =? 90)) in *. cbv zeta.
  assert (Hoo : (if z then (if b then 2 else 0) + 10 else if b then 2 else 0) = ov)
    by (rewrite Hov; by destruct z, b).
  rewrite Hoo. destruct (Z.leb_spec bytes (ov + 1)); [lia|].
  assert (Hov0 : 0 <= ov) by (rewrite Hov; destruct z, b; lia).
  destruct (stage_if_poke b outbuf 91 [] outbuf (stage_start outbuf ltac:(lia)) ltac:(destruct b; simpl; lia))
    as (buf & Hp & Hst).
  change (Z.of_nat (length [])) with 0 in Hp. change (0 + 1) with 1 in Hp.
  rewrite Hp. cbn [mbind option_bind app] in Hst |- *. rewrite Nat2Z.id.
  destruct (stage_escape cs enc sw0 outbuf _ buf (e_cmd pp) (bytes - ov) Hst Hn Hl ltac:(lia))
    as (tail & -> & Hst2); [rewrite Hov; destruct z, b; simpl; lia|].
  fold sw text in Hst2 |- *. cbn [mbind option_bind].
  rewrite <- Nat2Z.inj_add, <- length_app.
  destruct (stage_if_poke b outbuf 93 _ _ Hst2) as (buf3 & -> & Hst3);
    [rewrite length_app; destruct b, z; simpl in *; lia|].
  cbn [mbind option_bind].
  destruct (stage_if_copy z outbuf (bs " <defunct>") _ _ Hst3) as (buf4 & Hc & Hst4);
    [rewrite !length_app; destruct b, z; simpl; lia|].
  change (Z.of_nat (length (bs " <defunct>"))) with 10 in Hc. rewrite Hc. cbn [mbind option_bind].
  rewrite (stage_close _ _ _ 0 Hst4). by rewrite <- !app_assoc.
Qed.

(** C38: when there is room for at least one byte of the name, escape_command
    leaves exactly the escaped name, in brackets and marked as defunct where the
    flags and the state ask for it, in fewer than [bytes] bytes; nothing behind
    the terminating NUL is written. *)
Theorem escape_command_format cs enc sw0 outbuf pp bytes flags :
  nonul (e_cmd pp) -> Z.of_nat (length (e_cmd pp)) <= INT_MAX ->
  overhead flags (e_state pp) + 1 < bytes < INT_MAX ->
  bytes <= Z.of_nat (length outbuf) ->
  let sw := utf_switch sw0 enc in
  let out := decorated flags (e_state pp)
               (escaped cs sw (e_cmd pp) (bytes - overhead flags (e_state pp))) in
  escape_command cs enc sw0 outbuf pp bytes flags =
    Some (Z.of_nat (length out), out ++ 0 :: drop (S (length out)) outbuf, sw) /\
  Z.of_nat (length out) < bytes.
Proof. apply escape_command_eq. Qed.

(** In a UTF-8 locale a control byte that follows a lead byte is never
    looked at: the two bytes 0xC2 and any control character come out of
    escape_str unchanged. *)
Theorem escape_str_control_survives cs dst c :
  is_ctl c = true -> c <> 0 -> (3 <= length dst)%nat -> Z.of_nat (length dst) < INT_MAX ->
  escape_str cs None 1 dst [194; c] (Z.of_nat (length dst))
  = Some (2, [194; c] ++ 0 :: drop 3 dst, 1).
Proof.
  intros Hc Hz Hd Hm.
  assert (nonul [194; c]) by (repeat (constructor; [done|]); constructor).
  rewrite escape_str_eq by (try lia; try done; simpl; unfold INT_MAX; lia).
  unfold utf_switch, escaped. cbn [Z.eqb Z.ltb Z.compare]. rewrite take_ge by (simpl; lia).
  by destruct cs.
Qed.

(** Where plain char is unsigned the invalid entries of UTF_tab read as
    255, so that an invalid byte makes esc_ctl skip 254 bytes unchecked: a text
    of 255 arbitrary bytes that starts with 0x80 comes out unchanged. *)
Theorem escape_str_unsigned_char dst r :
  nonul r -> length r = 254%nat -> (256 <= length dst)%nat -> Z.of_nat (length dst) < INT_MAX ->
  escape_str false None 1 dst (128 :: r) (Z.of_nat (length dst))
  = Some (255, (128 :: r) ++ 0 :: drop 256 dst, 1).
Proof.
  intros Hn Hr Hd Hm. assert (nonul (128 :: r)) by by constructor.
  rewrite escape_str_eq by (try lia; try done; simpl; unfold INT_MAX; lia).
  unfold utf_switch, escaped. cbn [Z.eqb Z.ltb Z.compare]. rewrite take_ge by (simpl; lia).
  cbn [length ctl_text]. rewrite Hr.
  change (UTF_tab false 128) with 255. change (esc_lead 128) with 128.
  cbn [Z.ltb Z.compare orb]. change (Z.of_nat 255 <? 255) with false. cbn iota.
  rewrite take_ge, drop_ge by (simpl; rewrite Hr; lia).
  change (ctl_text false 254 []) with (@nil Z). rewrite app_nil_r. cbn [length]. by rewrite Hr.
Qed.

(** ** Witnesses *)

Lemma escape_str_bounded_witness : exists text,
  escape_str true None (-1) (repeat 7 4) (bs "a long name") 4 =
    Some (Z.of_nat (length text), text ++ 0 :: drop (S (length text)) (repeat 7 4), -1) /\
  Z.of_nat (length text) = 3 /\ nonul text.
Proof.
  apply (escape_str_bounded true None (-1) (repeat 7 4) (bs "a long name") 4);
    [by repeat constructor|unfold INT_MAX; simpl; lia..].
Defined.

Lemma escape_str_printable_witness : exists text,
  escape_str true None (-1) (repeat 7 8) [65; 27; 200] 8 =
    Some (Z.of_nat (length text), text ++ 0 :: drop (S (length text)) (repeat 7 8), -1) /\
  Forall printable text /\
  (Forall printable [65; 27; 200] -> Z.of_nat (length [65; 27; 200]) < 8 -> text = [65; 27; 200]).
Proof.
  apply (escape_str_printable true (-1) (repeat 7 8) [65; 27; 200] 8);
    [by repeat (constructor; try lia)|unfold INT_MAX; simpl; lia..].
Defined.

Lemma escape_str_utf8_witness :
  escape_str true (Some (bs "utf-8")) 0 (repeat 7 8) (concat [[195; 164]; [10]; [65]]) 8 =
    Some (4, [195; 164; 63; 65] ++ 0 :: drop 5 (repeat 7 8), 1).
Proof.
  apply (escape_str_utf8 true (bs "utf-8") (repeat 7 8) [[195; 164]; [10]; [65]] 8);
    [by repeat constructor|by repeat constructor|unfold INT_MAX; simpl; lia..|reflexivity].
Defined.

Lemma escape_command_format_witness :
  escape_command true None (-1) (repeat 7 32) (EProc 90 (bs "java")) 32
    (ESC_BRACKETS + ESC_DEFUNCT)
  = Some (16, bs "[java] <defunct>" ++ 0 :: repeat 7 15, -1) /\ 16 < 32.
Proof.
  apply (escape_command_format true None (-1) (repeat 7 32) (EProc 90 (bs "java")) 32
    (ESC_BRACKETS + ESC_DEFUNCT));
    [by repeat constructor|unfold INT_MAX; simpl; lia|split; [reflexivity|unfold INT_MAX; lia]|simpl; lia].
Defined.

Lemma escape_str_control_survives_witness :
  escape_str true None 1 (repeat 7 4) [194; 27] 4 = Some (2, [194; 27; 0; 7], 1).
Proof.
  apply (escape_str_control_survives true (repeat 7 4) 27);
    [reflexivity|done|simpl; lia|unfold INT_MAX; simpl; lia].
Defined.

Lemma escape_str_unsigned_char_witness :
  escape_str false None 1 (repeat 7 256) (128 :: replicate 254 27) 256 =
    Some (255, (128 :: replicate 254 27) ++ [0], 1).
Proof.
  apply (escape_str_unsigned_char (repeat 7 256) (replicate 254 27));
    [by apply Forall_replicate|reflexivity|simpl; lia|unfold INT_MAX; simpl; lia].
Defined.

End Escape.
