(* ===== verification/Signals.v ===== *)
(** * procps/linux/signals.c: signal names and numbers

    The table of the Linux build (31 entries, [SIGSTKFLT] present, [SIGEMT]
    absent).  [SIGRTMIN] is a run-time value of the C library
    ([__libc_current_sigrtmin]): a variable of the section. *)

From stdpp Require Import base numbers list strings.
From S2P Require Import Prelude Libc.
Open Scope Z_scope.

(** ** bsearch

    The binary search of the C library over a table, for a comparison of the
    key with an entry.  An interval of [n] entries is searched in at most [n]
    steps. *)
Section bsearch.
Context {A : Type}.
Variable cmp : A -> Z.
Variable table : list A.

Fixpoint bsearch_loop (fuel : nat) (l u : nat) : option A :=
  match fuel with
  | O => None
  | S f =>
      if (l <? u)%nat then
        let idx := ((l + u) / 2)%nat in
        match table !! idx with
        | Some p =>
            let c := cmp p in
            if c <? 0 then bsearch_loop f l idx
            else if 0 <? c then bsearch_loop f (S idx) u
            else Some p
        | None => None
        end
      else None
  end.

Definition bsearch : option A := bsearch_loop (S (length table)) 0 (length table).

(** The comparison is monotone along the table. *)
Definition cmp_sorted : Prop := forall i j a b,
  (i < j)%nat -> table !! i = Some a -> table !! j = Some b ->
  (cmp a <= 0 -> cmp b < 0).

Lemma bsearch_loop_hit fuel l u x : bsearch_loop fuel l u = Some x -> x ∈ table /\ cmp x = 0.
Proof.
  revert l u. induction fuel as [|f IH]; intros l u; simpl; [done|].
  destruct (l <? u)%nat; [|done]. destruct (table !! _) as [p|] eqn:Hp; [|done].
  destruct (Z.ltb_spec (cmp p) 0); [by apply IH|]. destruct (Z.ltb_spec 0 (cmp p)); [by apply IH|].
  intros [= <-]. split; [by eapply list_elem_of_lookup_2|lia].
Qed.

Lemma bsearch_loop_miss fuel l u k x :
  cmp_sorted -> (u - l < fuel)%nat -> (u <= length table)%nat ->
  (l <= k < u)%nat -> table !! k = Some x -> cmp x = 0 -> bsearch_loop fuel l u <> None.
Proof.
  intros Hs. revert l u. induction fuel as [|f IH]; intros l u Hf Hu Hk Hx Hc; [lia|].
  cbn [bsearch_loop].
  destruct (Nat.ltb_spec l u) as [Hlu|]; [|lia].
  assert (Hm : (l <= (l + u) / 2 < u)%nat)
    by (split; [apply Nat.div_le_lower_bound|apply Nat.Div0.div_lt_upper_bound]; lia).
  destruct (table !! ((l + u) / 2)%nat) as [p|] eqn:Hp.
  2:{ apply lookup_ge_None in Hp. lia. }
  destruct (Z.ltb_spec (cmp p) 0) as [Hlt|Hge].
  - destruct (Nat.lt_trichotomy k ((l + u) / 2)) as [?|[->|Hgt]]; [|simplify_eq; lia|].
    + apply IH; done || lia.
    + pose proof (Hs _ _ _ _ Hgt Hp Hx). lia.
  - destruct (Z.ltb_spec 0 (cmp p)) as [Hgt|]; [|done].
    destruct (Nat.lt_trichotomy k ((l + u) / 2)) as [Hlt|[->|?]]; [|simplify_eq; lia|].
    + pose proof (Hs _ _ _ _ Hlt Hx Hp). lia.
    + apply IH; done || lia.
Qed.

(** On a sorted table the search finds the entry if there is one. *)
Lemma bsearch_spec x : cmp_sorted -> bsearch = Some x <-> x ∈ table /\ cmp x = 0.
Proof.
  intros Hs. split; [apply bsearch_loop_hit|].
  intros [[k Hk]%list_elem_of_lookup Hx].
  pose proof (lookup_lt_Some _ _ _ Hk).
  destruct bsearch as [y|] eqn:E.
  - apply bsearch_loop_hit in E as [[j Hj]%list_elem_of_lookup Hy].
    destruct (Nat.lt_trichotomy k j) as [Hl|[->|Hl]]; [|by simplify_eq|].
    + pose proof (Hs _ _ _ _ Hl Hk Hj). lia.
    + pose proof (Hs _ _ _ _ Hl Hj Hk). lia.
  - exfalso. by eapply (bsearch_loop_miss (S (length table)) 0 (length table)); eauto; lia.
Qed.
End bsearch.

Module Signals.

Section signals.
Variable SIGRTMIN : Z.

(** [mapstruct] as a pair; the numbers are those of Linux on x86 and ARM. *)
Definition sigtable : list (bytes * Z) :=
  [ (bs "ABRT", 6); (bs "ALRM", 14); (bs "BUS", 7); (bs "CHLD", 17); (bs "CONT", 18);
    (bs "FPE", 8); (bs "HUP", 1); (bs "ILL", 4); (bs "INT", 2); (bs "KILL", 9);
    (bs "PIPE", 13); (bs "POLL", 29); (bs "PROF", 27); (bs "PWR", 30); (bs "QUIT", 3);
    (bs "SEGV", 11); (bs "STKFLT", 16); (bs "STOP", 19); (bs "SYS", 31); (bs "TERM", 15);
    (bs "TRAP", 5); (bs "TSTP", 20); (bs "TTIN", 21); (bs "TTOU", 22); (bs "URG", 23);
    (bs "USR1", 10); (bs "USR2", 12); (bs "VTALRM", 26); (bs "WINCH", 28); (bs "XCPU", 24);
    (bs "XFSZ", 25) ].

Definition number_of_signals : Z := Z.of_nat (length sigtable).

Definition compare_signal_names (a b : bytes * Z) : Z := strcasecmp a.1 b.1.

Definition row_ok (row : Z) : bool := (0 <=? row) && (row <? number_of_signals).

Definition get_sigtable_name (row : Z) : option bytes :=
  if row_ok row then fst <$> sigtable !! Z.to_nat row else None.

Definition get_sigtable_num (row : Z) : Z :=
  if row_ok row then from_option snd (-1) (sigtable !! Z.to_nat row) else -1.

(** [None]: the signed addition [val+SIGRTMIN] overflows. *)
Definition signal_name_to_number (name : bytes) : option Z :=
  let name := if caseprefixb (bs "SIG") name then drop 3 name else name in
  if strcasecmp name (bs "CLD") =? 0 then Some 17
  else if strcasecmp name (bs "IO") =? 0 then Some 29
  else if strcasecmp name (bs "IOT") =? 0 then Some 6
  else
  match bsearch (fun e => compare_signal_names (name, 0) e) sigtable with
  | Some ptr => Some ptr.2
  | None =>
      if strcasecmp name (bs "RTMIN") =? 0 then Some SIGRTMIN
      else if strcasecmp name (bs "EXIT") =? 0 then Some 0
      else if strcasecmp name (bs "NULL") =? 0 then Some 0
      else
        let '(name, offset) :=
          if caseprefixb (bs "RTMIN+") name then (drop 6 name, SIGRTMIN) else (name, 0) in
        let r := strtol name in
        if negb (bool_decide (st_rest r = [])) || negb (st_conv r) then Some (-1)
        else
          let val := st_val r in
          if val <? 0 then Some (-1)
          else if LONG_MAX <? val + SIGRTMIN then None
          else if 127 <? val + SIGRTMIN then Some (-1) else Some (i32 (val + offset))
  end.

(** The [while (n--)] scan from the end of the table. *)
Fixpoint scan_down (t : list (bytes * Z)) (signo : Z) : option bytes :=
  match t with
  | [] => None
  | e :: r => if e.2 =? signo then Some e.1 else scan_down r signo
  end.

Definition signal_number_to_name (signo : Z) : bytes :=
  let signo := Z.land signo 127 in
  match scan_down (rev sigtable) signo with
  | Some n => n
  | None =>
      if signo =? SIGRTMIN then bs "RTMIN"
      else if negb (signo =? 0) then bs "RTMIN+" ++ fmt_d (signo - SIGRTMIN)
      else bs "0"
  end.

Definition is_option (a : bytes) : bool := match a with c :: _ => c =? 45 | [] => false end.

(** [skill_sig_option(&argc, argv)] on the arguments behind [argv[0]]: the
    signal and the arguments left. *)
Fixpoint skill_scan (signo : Z) (args : list bytes) : option (Z * list bytes) :=
  match args with
  | [] => Some (signo, [])
  | a :: r =>
      if is_option a then
        n ← signal_name_to_number (drop 1 a);
        if -1 <? n then Some (n, r)
        else '(s, r') ← skill_scan n r; Some (s, a :: r')
      else '(s, r') ← skill_scan signo r; Some (s, a :: r')
  end.

Definition skill_sig_option (argv : list bytes) : option (Z * list bytes) :=
  match argv with
  | [] => Some (-1, [])
  | p :: args => '(s, r) ← skill_scan (-1) args; Some (s, p :: r)
  end.

(** ** strtosig

    [SigRet r]: returns the string, or NULL; [SigBadFree]: [free] of a pointer
    that no allocation returned; [SigExit]: the process exits. *)
Inductive sigres := SigRet (r : option bytes) | SigBadFree | SigExit.

Fixpoint find_num (t : list (bytes * Z)) (n : Z) : option bytes :=
  match t with
  | [] => None
  | e :: r => if n =? e.2 then Some e.1 else find_num r n
  end.

Fixpoint find_name (t : list (bytes * Z)) (p : bytes) : option Z :=
  match t with
  | [] => None
  | e :: r => if streq p e.1 then Some e.2 else find_name r p
  end.

(** [copied] and [alloced]: whether the first [strdup], and the allocation of
    the result, succeed. *)
Definition strtosig (copied alloced : bool) (s : bytes) : sigres :=
  if negb copied then SigExit else
  let copy := map toupper s in
  let skip := prefixb (bs "SIG") copy in
  let p := if skip then drop 3 copy else copy in
  let result (numsignal : Z) :=
    if negb (numsignal =? 0) then
      match find_num sigtable numsignal with
      | Some n => SigRet (if alloced then Some n else None)
      | None => SigRet None
      end
    else
      match find_name sigtable p with
      | Some n => SigRet (if alloced then Some (snprintf 12 (fmt_d n)) else None)
      | None => SigRet None
      end in
  if match p with c :: _ => isdigit c | [] => false end then
    let r := strtol s in
    if negb (bool_decide (st_rest r = [])) || negb (st_conv r) then
      (if skip then SigBadFree else SigRet None)
    else result (i32 (st_val r))
  else result 0.

(** ** The two listings: the text printed *)

(** [unix_print_signals]: rows of names, broken behind column 73. *)
Fixpoint unix_print_loop (todo : nat) (i pos : Z) : bytes :=
  match todo with
  | O => [10]
  | S f =>
      let '(sep, pos) :=
        if i =? 1 then ([], pos)
        else if 73 <? pos then ([10], 0) else ([32], pos + 1) in
      let name := signal_number_to_name i in
      sep ++ name ++ unix_print_loop f (i + 1) (pos + Z.of_nat (length name))
  end.

Definition unix_print_signals : bytes := unix_print_loop (length sigtable) 1 0.

Definition fmt_2d (n : Z) : bytes := if (0 <=? n) && (n <? 10) then 32 :: fmt_d n else fmt_d n.

(** The literal of [pretty_print_signals]: 11 blanks and 20 NULs (and the one
    of the literal): [None] when [n] leaves it. *)
Definition pad (n : nat) : option bytes := cstr (drop n (repeat 32 11 ++ repeat 0 21)).

Fixpoint pretty_print_loop (todo : nat) (i : Z) : option bytes :=
  match todo with
  | O => Some (if negb ((i - 1) mod 7 =? 0) then [10] else [])
  | S f =>
      let cell := fmt_2d i ++ [32] ++ signal_number_to_name i in
      tail ← (if negb (i mod 7 =? 0) then pad (length cell) else Some [10]);
      rest ← pretty_print_loop f (i + 1);
      Some (cell ++ tail ++ rest)
  end.

Definition pretty_print_signals : option bytes := pretty_print_loop (length sigtable) 1.

End signals.

(** ** Case-insensitive comparison *)

Definition positive (s : bytes) : Prop := Forall (fun c => 0 < c) s.

Lemma tolower_pos c : 0 < c -> 0 < tolower c.
Proof. unfold tolower. intros. case_match; lia. Qed.

(** The order is transitive, so a table sorted by it can be searched. *)
Lemma strcasecmp_trans a b c : positive a -> positive b -> positive c ->
  strcasecmp a b <= 0 -> strcasecmp b c < 0 -> strcasecmp a c < 0.
Proof.
  intros Ha. revert b c. induction Ha as [|x a Hx _ IH]; intros b c Hb Hc;
    destruct Hb as [|y b Hy Hb]; destruct Hc as [|z c Hz Hc]; simpl;
    pose proof tolower_pos; try (specialize (H z Hz)); try (specialize (H y Hy)); try lia.
  - pose proof (tolower_pos x Hx). pose proof (tolower_pos z Hz). lia.
  - destruct (Z.eqb_spec (tolower x) (tolower y)), (Z.eqb_spec (tolower y) (tolower z)),
      (Z.eqb_spec (tolower x) (tolower z)); try lia; eauto.
Qed.

Lemma strcasecmp_lower a b : map tolower a = map tolower b -> strcasecmp a b = 0.
Proof.
  revert b. induction a as [|x a IH]; intros [|y b] [=]; simpl; [done|]. zcase; auto.
Qed.

Lemma strcasecmp_fold a a' b : map tolower a = map tolower a' -> strcasecmp a b = strcasecmp a' b.
Proof.
  revert a' b. induction a as [|x a IH]; intros [|x' a'] b H; try done.
  injection H as Hx Ha.
  destruct b as [|y b]; simpl; rewrite Hx; [done|]. case_match; auto.
Qed.

(** *** The table is sorted *)

Fixpoint sortedb (t : list (bytes * Z)) : bool :=
  match t with
  | [] => true
  | a :: r => forallb (fun b => strcasecmp a.1 b.1 <? 0) r && sortedb r
  end.

Lemma sortedb_lookup t i j a b : sortedb t = true ->
  (i < j)%nat -> t !! i = Some a -> t !! j = Some b -> strcasecmp a.1 b.1 < 0.
Proof.
  revert i j. induction t as [|e t IH]; intros i j; [done|]. simpl.
  intros [Hf Hs]%andb_true_iff Hij Ha Hb. destruct j as [|j]; [lia|]. simpl in Hb.
  destruct i as [|i]; simpl in Ha; simplify_eq.
  - rewrite forallb_forall in Hf. apply Z.ltb_lt, Hf. apply list_elem_of_In.
    by eapply list_elem_of_lookup_2.
  - eapply (IH i j); eauto with lia.
Qed.

Lemma sigtable_positive e : e ∈ sigtable -> positive e.1.
Proof. revert e. apply Forall_forall. repeat constructor. Qed.

Lemma sigtable_cmp_sorted name : positive name ->
  cmp_sorted (fun e => compare_signal_names (name, 0) e) sigtable.
Proof.
  intros Hn i j a b Hij Ha Hb Hle. unfold compare_signal_names in *. simpl in *.
  apply (strcasecmp_trans name a.1 b.1); try done;
    try (eapply sigtable_positive, list_elem_of_lookup_2; eauto).
  by eapply (sortedb_lookup sigtable).
Qed.

(** ** Theorems *)

Lemma is_prefix_tolower p name name' :
  map tolower name = map tolower name' -> caseprefixb p name = caseprefixb p name'.
Proof. unfold caseprefixb. by intros ->. Qed.

(** Every signal name of the table is converted to its number, whatever
    its case and with or without the prefix SIG: the binary search finds every
    entry and no alias or number rule interferes. *)
Theorem signal_name_to_number_table SIGRTMIN e name :
  e ∈ sigtable -> positive name -> map tolower name = map tolower e.1 ->
  signal_name_to_number SIGRTMIN name = Some e.2 /\
  signal_name_to_number SIGRTMIN (bs "SIG" ++ name) = Some e.2.
Proof.
  intros He Hp Hn.
  assert (Hb : bsearch (fun e => compare_signal_names (name, 0) e) sigtable = Some e).
  { apply bsearch_spec; [by apply sigtable_cmp_sorted|]. split; [done|].
    by apply strcasecmp_lower. }
  assert (Ha : forallb (fun e => negb (caseprefixb (bs "SIG") e.1)
      && forallb (fun a => negb (strcasecmp e.1 a =? 0)) [bs "CLD"; bs "IO"; bs "IOT"]) sigtable = true)
    by reflexivity.
  rewrite forallb_forall in Ha. specialize (Ha e ltac:(by apply list_elem_of_In)).
  cbn [forallb] in Ha. rewrite !andb_true_iff, !negb_true_iff in Ha. destruct Ha as (Hs & H1 & H2 & H3 & _).
  unfold signal_name_to_number.
  change (caseprefixb (bs "SIG") (bs "SIG" ++ name)) with true.
  change (drop 3 (bs "SIG" ++ name)) with name.
  rewrite (is_prefix_tolower _ name e.1 Hn), Hs, !(strcasecmp_fold name e.1 _ Hn), H1, H2, H3, Hb.
  done.
Qed.

(** Number to name and back, for one value of [SIGRTMIN]. *)
Definition roundtrip_ok (SIGRTMIN signo : Z) : bool :=
  bool_decide (signal_name_to_number SIGRTMIN (signal_number_to_name SIGRTMIN signo)
    = Some (if (32 <=? signo) && (signo <? SIGRTMIN) then -1 else signo)).

Lemma roundtrip_ok_all :
  forallb (fun m => forallb (fun n => roundtrip_ok (Z.of_nat m) (Z.of_nat n)) (seq 0 128))
    (seq 32 33) = true.
Proof. vm_compute. reflexivity. Qed.

(** The name of a signal number converts back to the number, for every
    number of 7 bits except those the C library reserves between 32 and
    SIGRTMIN: their names, RTMIN+-1 and the like, are not accepted. *)
Theorem signal_number_roundtrip SIGRTMIN signo :
  32 <= SIGRTMIN <= 64 -> 0 <= signo <= 127 ->
  signal_name_to_number SIGRTMIN (signal_number_to_name SIGRTMIN signo) =
    Some (if (32 <=? signo) && (signo <? SIGRTMIN) then -1 else signo).
Proof.
  intros Hm Hs. pose proof roundtrip_ok_all as H. rewrite forallb_forall in H.
  specialize (H (Z.to_nat SIGRTMIN) ltac:(apply in_seq; lia)). rewrite forallb_forall in H.
  specialize (H (Z.to_nat signo) ltac:(apply in_seq; lia)). rewrite !Z2Nat.id in H by lia.
  by apply bool_decide_eq_true in H.
Qed.

(** Skill_sig_option takes the first option that names a signal out of the
    arguments, returns its number and keeps all other arguments in order. *)
Theorem skill_sig_option_first SIGRTMIN p pre a post n :
  Forall (fun x => is_option x = true -> exists k,
            signal_name_to_number SIGRTMIN (drop 1 x) = Some k /\ k <= -1) pre ->
  is_option a = true -> signal_name_to_number SIGRTMIN (drop 1 a) = Some n -> 0 <= n ->
  skill_sig_option SIGRTMIN (p :: pre ++ a :: post) = Some (n, p :: pre ++ post).
Proof.
  intros Hpre Ha Hn Hnn. unfold skill_sig_option. generalize (-1).
  assert (H : forall s, skill_scan SIGRTMIN s (pre ++ a :: post) = Some (n, pre ++ post)).
  { induction Hpre as [|x pre Hx _ IH]; intros s; cbn [app skill_scan].
    - rewrite Ha, Hn. cbn. by zcase.
    - destruct (is_option x); [|by rewrite IH].
      destruct (Hx eq_refl) as (k & -> & Hk). cbn [mbind option_bind].
      destruct (Z.ltb_spec (-1) k); [lia|]. by rewrite IH. }
  intros s. by rewrite H.
Qed.

(** Strtosig converts every name of the table, in any case and with or
    without the prefix SIG, to its number, and that number back to the name. *)
Theorem strtosig_roundtrip e s :
  e ∈ sigtable -> map toupper s = e.1 \/ map toupper s = bs "SIG" ++ e.1 ->
  strtosig true true s = SigRet (Some (fmt_d e.2)) /\
  strtosig true true (fmt_d e.2) = SigRet (Some e.1).
Proof.
  intros He Hs. unfold strtosig at 1. cbn [negb].
  assert (H : Forall (fun e => (forall t, map toupper s = t -> t = e.1 \/ t = bs "SIG" ++ e.1 ->
     let p := if prefixb (bs "SIG") t then drop 3 t else t in
     p = e.1 /\ match p with c :: _ => isdigit c = false | [] => False end /\
     find_name sigtable p = Some e.2 /\ snprintf 12 (fmt_d e.2) = fmt_d e.2) /\
     strtosig true true (fmt_d e.2) = SigRet (Some e.1)) sigtable)
    by (repeat constructor; destruct H0 as [-> | ->]; reflexivity).
  rewrite Forall_forall in H. destruct (H e He) as [Hn Hr]. split; [|done].
  destruct (Hn _ eq_refl Hs) as (_ & Hd & Hf & Hp).
  destruct (if prefixb _ _ then _ else _) as [|c r]; [done|]. by rewrite Hd, Hf, Hp.
Qed.

(** A name that starts with SIG and a digit makes strtosig free a pointer
    into the middle of its copy. *)
Theorem strtosig_bad_free alloced s d r :
  map toupper s = bs "SIG" ++ d :: r -> isdigit d = true -> strtosig true alloced s = SigBadFree.
Proof.
  intros Hs Hd. unfold strtosig. cbv zeta. cbn [negb]. rewrite Hs.
  change (prefixb (bs "SIG") (bs "SIG" ++ d :: r)) with true. cbn iota.
  change (drop 3 (bs "SIG" ++ d :: r)) with (d :: r). cbn match. rewrite Hd.
  destruct s as [|x s]; [done|]. cbn in Hs. injection Hs as Hx _.
  assert (x = 83 \/ x = 115) as Hx2 by (revert Hx; unfold toupper; case_match; lia).
  by destruct Hx2 as [-> | ->].
Qed.

(** A number within SIGRTMIN of LONG_MAX, also behind RTMIN+, overflows the
    signed addition in the range test of signal_name_to_number. *)
Theorem signal_name_to_number_overflow SIGRTMIN n :
  32 <= SIGRTMIN <= 64 -> LONG_MAX - SIGRTMIN < n <= LONG_MAX ->
  signal_name_to_number SIGRTMIN (bs "RTMIN+" ++ fmt_d n) = None.
Proof.
  intros Hm Hn. unfold signal_name_to_number.
  set (name := bs "RTMIN+" ++ fmt_d n).
  change (caseprefixb (bs "SIG") name) with false. cbn iota.
  change (strcasecmp name (bs "CLD") =? 0) with false. change (strcasecmp name (bs "IO") =? 0) with false.
  change (strcasecmp name (bs "IOT") =? 0) with false. cbn iota.
  change (bsearch (fun e => compare_signal_names (name, 0) e) sigtable) with (@None (bytes * Z)).
  assert (Hr : strcasecmp name (bs "RTMIN") = 43) by reflexivity. rewrite Hr. cbn [Z.eqb].
  change (strcasecmp name (bs "EXIT") =? 0) with false.
  change (strcasecmp name (bs "NULL") =? 0) with false. cbn iota.
  change (caseprefixb (bs "RTMIN+") name) with true. change (drop 6 name) with (fmt_d n). cbn iota.
  rewrite <- (app_nil_r (fmt_d n)).
  rewrite strtol_fmt_d by (done || (unfold LONG_MIN, LONG_MAX in *; lia)).
  cbn [st_rest st_conv st_val negb]. rewrite bool_decide_true by done. cbn [orb negb].
  unfold LONG_MAX in *. by zcase.
Qed.

(** ** The listings *)

Example unix_print_signals_lines :
  unix_print_signals 34 =
  bs "HUP INT QUIT ILL TRAP ABRT BUS FPE KILL USR1 SEGV USR2 PIPE ALRM TERM STKFLT" ++ [10] ++
  bs "CHLD CONT STOP TSTP TTIN TTOU URG XCPU XFSZ VTALRM PROF WINCH POLL PWR SYS" ++ [10].
Proof. reflexivity. Qed.

Example pretty_print_signals_start :
  take 78 <$> pretty_print_signals 34 =
  Some (bs " 1 HUP      2 INT      3 QUIT     4 ILL      5 TRAP     6 ABRT     7 BUS" ++ [10]
        ++ bs " 8 FP").
Proof. reflexivity. Qed.

(** ** Witnesses *)

Lemma signal_name_to_number_table_witness :
  signal_name_to_number 34 (bs "Kill") = Some 9 /\
  signal_name_to_number 34 (bs "SIG" ++ bs "Kill") = Some 9.
Proof.
  apply (signal_name_to_number_table 34 (bs "KILL", 9) (bs "Kill"));
    [|by repeat constructor|reflexivity].
  apply (list_elem_of_lookup_2 _ 9). reflexivity.
Defined.

Lemma signal_number_roundtrip_witness :
  signal_name_to_number 34 (signal_number_to_name 34 40) = Some 40.
Proof. apply (signal_number_roundtrip 34 40); lia. Defined.

Lemma skill_sig_option_first_witness :
  skill_sig_option 34 (bs "skill" :: [bs "-x"; bs "pid"] ++ bs "-9" :: [bs "12"])
  = Some (9, bs "skill" :: [bs "-x"; bs "pid"] ++ [bs "12"]).
Proof.
  apply (skill_sig_option_first 34 (bs "skill") [bs "-x"; bs "pid"] (bs "-9") [bs "12"] 9);
    [|reflexivity|reflexivity|lia].
  repeat constructor; [|done]. intros _. exists (-1). split; [reflexivity|lia].
Defined.

Lemma strtosig_roundtrip_witness :
  strtosig true true (bs "sigterm") = SigRet (Some (bs "15")) /\
  strtosig true true (bs "15") = SigRet (Some (bs "TERM")).
Proof.
  apply (strtosig_roundtrip (bs "TERM", 15) (bs "sigterm"));
    [apply (list_elem_of_lookup_2 _ 19); reflexivity|right; reflexivity].
Defined.

Lemma strtosig_bad_free_witness : strtosig true true (bs "SIG9") = SigBadFree.
Proof. apply (strtosig_bad_free true (bs "SIG9") 57 []); reflexivity. Defined.

Lemma signal_name_to_number_overflow_witness :
  signal_name_to_number 34 (bs "RTMIN+" ++ fmt_d LONG_MAX) = None.
Proof. apply (signal_name_to_number_overflow 34 LONG_MAX); unfold LONG_MAX; lia. Defined.

End Signals.
