(* ===== verification/Utils.v ===== *)
(** * procps/linux: the small helpers

    namespace.c, pwcache.c, wchan.c, fileutils.c, numa.c and strutils.c, one
    module each. *)

From stdpp Require Import base numbers list strings sets.
From Stdlib Require Import SpecFloat.
From S2P Require Import Prelude Libc Posix.
Set Warnings "-clear-no-such-hyp".
Open Scope Z_scope.

(** ** namespace.c *)
Module Namespace.

Definition NSPATHLEN : Z := 64.
Definition EINVAL : Z := 22.

Definition ns_names : list bytes := [bs "ipc"; bs "mnt"; bs "net"; bs "pid"; bs "user"; bs "uts"].
Definition PROCPS_NS_COUNT : Z := 6.

Definition procps_ns_get_name (id : Z) : option bytes :=
  if (PROCPS_NS_COUNT <=? id) || (id <? 0) then None else ns_names !! Z.to_nat id.

Fixpoint ns_find (names : list bytes) (i : Z) (name : bytes) : Z :=
  match names with
  | [] => - EINVAL
  | n :: r => if streq n name then i else ns_find r (i + 1) name
  end.

Definition procps_ns_get_id (name : option bytes) : Z :=
  match name with
  | None => - EINVAL
  | Some name => ns_find ns_names 0 name
  end.

(** The path of the namespace file of a process, as cut by [snprintf]. *)
Definition ns_path (pid : Z) (name : bytes) : bytes :=
  snprintf NSPATHLEN (bs "/proc/" ++ fmt_d pid ++ bs "/ns/" ++ name).

Fixpoint ns_stat {G} (pid : Z) (names : list bytes) : M G (list Z) :=
  match names with
  | [] => mret []
  | n :: r =>
      st ← sys (CStat (ns_path pid n));
      rest ← ns_stat pid r;
      mret ((if r_val st =? 0 then r_ino st else 0) :: rest)
  end.

(** The value returned and the array [nsp->ns]; [nsp = false] is NULL. *)
Definition procps_ns_read_pid {G} (pid : Z) (nsp : bool) : M G (Z * list Z) :=
  if negb nsp then mret (- EINVAL, [])
  else if pid <? 1 then mret (- EINVAL, [])
  else ns ← ns_stat pid ns_names; mret (0, ns).

Lemma ns_find_bound names i name :
  ns_find names i name = - EINVAL \/
  exists k, names !! k = Some name /\ ns_find names i name = i + Z.of_nat k.
Proof.
  revert i. induction names as [|n r IH]; intros i; simpl; [by left|].
  destruct (streq n name) eqn:E.
  - apply streq_spec in E as ->. right. exists 0%nat. split; [done|lia].
  - destruct (IH (i + 1)) as [->|(k & Hk & ->)]; [by left|]. right. exists (S k). split; [done|lia].
Qed.

(** Names and identifiers are inverse to each other, and everything else is an
    error. *)
Theorem ns_id_name_inverse id name :
  procps_ns_get_name id = Some name <-> procps_ns_get_id (Some name) = id /\ 0 <= id.
Proof.
  split.
  - unfold procps_ns_get_name. destruct (_ || _) eqn:E; [done|].
    apply orb_false_iff in E as [H1 H2]. rewrite Z.leb_gt in H1. rewrite Z.ltb_ge in H2.
    intros H. split; [|done]. rewrite <- (Z2Nat.id id) by done.
    unfold PROCPS_NS_COUNT in *. remember (Z.to_nat id) as k.
    do 6 (destruct k as [|k]; [by injection H as <-|]). done.
  - intros [H Hz]. unfold procps_ns_get_id in H.
    destruct (ns_find_bound ns_names 0 name) as [E|(k & Hk & E)]; rewrite H in E.
    + unfold EINVAL in E. lia.
    + pose proof (lookup_lt_Some _ _ _ Hk) as Hl. simpl in Hl. unfold procps_ns_get_name, PROCPS_NS_COUNT.
      zcase. by rewrite E, Z.add_0_l, Nat2Z.id.
Qed.

(** The path of a namespace file is never cut. *)
Lemma ns_path_whole pid id name :
  INT_MIN <= pid <= INT_MAX -> procps_ns_get_name id = Some name ->
  ns_path pid name = bs "/proc/" ++ fmt_d pid ++ bs "/ns/" ++ name.
Proof.
  intros Hp Hn. apply snprintf_fits. pose proof (fmt_d_length pid Hp).
  rewrite !length_app. unfold NSPATHLEN.
  assert (Hl : (length name <= 4)%nat).
  { unfold procps_ns_get_name in Hn. destruct (_ || _); [done|].
    apply list_elem_of_lookup_2 in Hn. revert name Hn. apply Forall_forall. repeat constructor. }
  simpl. lia.
Qed.
End Namespace.

(** ** pwcache.c *)
Module Pwcache.

Definition P_G_SZ : Z := 33.
Definition HASHSIZE : nat := 64.
Definition HASH (x : Z) : Z := Z.land x 63.
Definition ERRname : bytes := bs "?".

(** [struct pwbuf] and [struct grpbuf] without the link: a chain is a list, a
    hash table the list of its 64 chains. *)
Record pwbuf := PwBuf { pw_id : Z; pw_name : bytes }.
Abbreviation pwhash := (list (list pwbuf)).

(** [strlen(n) >= P_G_SZ] or no entry: the number, else the name. *)
Definition id_name (lookup : Z -> option bytes) (id : Z) : bytes :=
  match lookup id with
  | Some n => if P_G_SZ <=? Z.of_nat (length n) then dec id else n
  | None => dec id
  end.

(** One walk of a chain with the insertion at its end. *)
Fixpoint chain_get (lookup : Z -> option bytes) (alloc : bool) (c : list pwbuf) (id : Z)
  : bytes * list pwbuf :=
  match c with
  | [] =>
      if alloc then let n := id_name lookup id in (n, [PwBuf id n]) else (ERRname, [])
  | p :: r =>
      if pw_id p =? id then (pw_name p, c)
      else let '(n, r') := chain_get lookup alloc r id in (n, p :: r')
  end.

Definition cache_get (lookup : Z -> option bytes) (alloc : bool) (h : pwhash) (id : Z)
  : bytes * pwhash :=
  let i := Z.to_nat (HASH id) in
  let '(n, c) := chain_get lookup alloc (nth i h []) id in (n, <[i := c]> h).

(** [getpwuid] and [getgrgid] by the name they find; [alloc]: whether [malloc]
    succeeds.  The static table is passed and returned. *)
Definition pwcache_get_user (getpwuid : Z -> option bytes) (alloc : bool) (h : pwhash) (uid : Z) :=
  cache_get getpwuid alloc h uid.
Definition pwcache_get_group (getgrgid : Z -> option bytes) (alloc : bool) (h : pwhash) (gid : Z) :=
  cache_get getgrgid alloc h gid.

Definition empty_hash : pwhash := replicate HASHSIZE [].

Section cache.
Variable lookup : Z -> option bytes.

(** Entries are in the chain of their hash, without duplicates, and hold the
    name of their id. *)
Definition chain_ok (i : nat) (c : list pwbuf) : Prop :=
  NoDup (map pw_id c) /\
  Forall (fun p => Z.to_nat (HASH (pw_id p)) = i /\ 0 <= pw_id p <= 4294967295 /\
                   pw_name p = id_name lookup (pw_id p)) c.
Definition hash_ok (h : pwhash) : Prop :=
  length h = HASHSIZE /\ forall i c, h !! i = Some c -> chain_ok i c.

Definition cached (h : pwhash) (id : Z) : Prop :=
  exists c, h !! Z.to_nat (HASH id) = Some c /\ id ∈ map pw_id c.

Lemma HASH_bound id : (Z.to_nat (HASH id) < HASHSIZE)%nat.
Proof.
  unfold HASH, HASHSIZE. change 63 with (Z.ones 6). rewrite Z.land_ones by lia.
  pose proof (Z.mod_pos_bound id (2 ^ 6)). lia.
Qed.

Lemma id_name_fits id : 0 <= id <= 4294967295 -> Z.of_nat (length (id_name lookup id)) < P_G_SZ.
Proof.
  intros H. pose proof (dec_length id 10 ltac:(simpl; lia) ltac:(lia)).
  unfold id_name, P_G_SZ. destruct (lookup id); [zcase|]; lia.
Qed.

Lemma chain_get_ok alloc i c id :
  chain_ok i c -> Z.to_nat (HASH id) = i -> 0 <= id <= 4294967295 ->
  chain_ok i (chain_get lookup alloc c id).2 /\
  (forall x, x ∈ map pw_id (chain_get lookup alloc c id).2 -> x = id \/ x ∈ map pw_id c) /\
  (forall x, x ∈ map pw_id c -> x ∈ map pw_id (chain_get lookup alloc c id).2) /\
  (alloc = true \/ id ∈ map pw_id c ->
   (chain_get lookup alloc c id).1 = id_name lookup id /\
   id ∈ map pw_id (chain_get lookup alloc c id).2).
Proof.
  intros [Hnd Hf] Hi Hid. induction Hf as [|p r (Hp1 & Hp2 & Hp3) Hf IH]; cbn [chain_get].
  - destruct alloc; cbn [fst snd map].
    + split; [split; [apply NoDup_singleton|by apply Forall_singleton]|]. set_solver.
    + split; [split; constructor|]. split; [set_solver|]. split; [set_solver|].
      intros [?|?]; [done|set_solver].
  - cbn [map] in Hnd. apply NoDup_cons in Hnd as [Hn Hnd].
    destruct (Z.eqb_spec (pw_id p) id) as [<-|Hne].
    + split; [split; by constructor|]. set_solver.
    + destruct (IH Hnd) as ((H1 & H1') & H2 & H3 & H4). destruct (chain_get lookup alloc r id) as [n r'].
      cbn [fst snd map] in *. repeat split.
      * constructor; [|done]. intros [E|?]%H2; [done|contradiction].
      * by constructor.
      * set_solver.
      * set_solver.
      * apply H4. set_solver.
      * apply list_elem_of_further, H4. set_solver.
Qed.

Lemma cache_get_spec alloc h id :
  hash_ok h -> 0 <= id <= 4294967295 ->
  let r := cache_get lookup alloc h id in
  hash_ok r.2 /\ (forall x, cached h x -> cached r.2 x) /\
  (alloc = true \/ cached h id -> r.1 = id_name lookup id /\ cached r.2 id).
Proof.
  intros [Hl Hc] Hid. unfold cache_get. set (i := Z.to_nat (HASH id)).
  pose proof (HASH_bound id) as Hi. fold i in Hi.
  destruct (lookup_lt_is_Some_2 h i ltac:(lia)) as [c Hi'].
  rewrite (nth_lookup_Some _ _ _ _ Hi').
  pose proof (chain_get_ok alloc i c id (Hc _ _ Hi') eq_refl Hid) as (H1 & H2 & H3 & H4).
  destruct (chain_get lookup alloc c id) as [n c']. cbn [fst snd] in *.
  split; [split|split].
  - by rewrite length_insert.
  - intros j cj Hj. destruct (decide (j = i)) as [->|Hji].
    + rewrite list_lookup_insert_eq in Hj by lia. by simplify_eq.
    + rewrite list_lookup_insert_ne in Hj by done. by apply Hc.
  - intros x (cx & Hx & Hin). destruct (decide (Z.to_nat (HASH x) = i)) as [E|E].
    + rewrite E in Hx. exists c'. rewrite E, list_lookup_insert_eq by lia. split; [done|].
      apply H3. by simplify_eq.
    + exists cx. by rewrite list_lookup_insert_ne by done.
  - intros Ha. destruct H4 as [-> H4].
    + destruct Ha as [?|(cx & Hx & Hin)]; [by left|right]. fold i in Hx. by simplify_eq.
    + split; [done|]. exists c'. fold i. by rewrite list_lookup_insert_eq by lia.
Qed.

End cache.

Lemma empty_hash_ok lookup : hash_ok lookup empty_hash.
Proof.
  split; [apply length_replicate|]. intros i c [-> _]%lookup_replicate_1. split; constructor.
Qed.

(** The name cache is transparent: from any reachable table, a request for
    a user or group whose allocation succeeds, or which was answered before,
    returns the name of the id, or its number when there is no name of at most
    32 characters; the name fits its array; every chain keeps its entries
    unique, in the right slot and correct. *)
Theorem pwcache_transparent lookup alloc h id :
  hash_ok lookup h -> 0 <= id <= 4294967295 ->
  let r := pwcache_get_user lookup alloc h id in
  r = pwcache_get_group lookup alloc h id /\
  hash_ok lookup r.2 /\ (forall x, cached h x -> cached r.2 x) /\
  (alloc = true \/ cached h id ->
     r.1 = id_name lookup id /\ Z.of_nat (length r.1) < P_G_SZ /\ cached r.2 id).
Proof.
  intros Hh Hid r. pose proof (cache_get_spec lookup alloc h id Hh Hid) as (H1 & H2 & H3).
  split; [done|]. split; [done|]. split; [done|]. intros [H4 H5]%H3.
  split; [done|]. split; [|done]. change (r.1) with (cache_get lookup alloc h id).1.
  rewrite H4. by apply id_name_fits.
Qed.

Lemma pwcache_transparent_witness :
  let h := (pwcache_get_user (fun _ => Some (bs "root")) true empty_hash 64).2 in
  let r := pwcache_get_user (fun _ => Some (bs "root")) false h 64 in
  r = pwcache_get_group (fun _ => Some (bs "root")) false h 64 /\
  hash_ok (fun _ => Some (bs "root")) r.2 /\ (forall x, cached h x -> cached r.2 x) /\
  (false = true \/ cached h 64 -> r.1 = bs "root" /\ Z.of_nat (length r.1) < P_G_SZ /\ cached r.2 64).
Proof.
  apply (pwcache_transparent (fun _ => Some (bs "root")) false _ 64); [|lia].
  apply (cache_get_spec (fun _ => Some (bs "root")) true empty_hash 64); [apply empty_hash_ok|lia].
Defined.
End Pwcache.

(** ** wchan.c *)
Module Wchan.

Definition BUF : Z := 64.

(** The loop that skips leading underscores: a NUL stops it. *)
Fixpoint skip_underscores (s : bytes) : bytes :=
  match s with
  | c :: r => if c =? 95 then skip_underscores r else s
  | [] => []
  end.

(** What is returned of the bytes [read] delivered; the buffer has room for
    one more than [read] was asked for, so that [buf[num]] exists. *)
Definition wchan_name (data : bytes) : option bytes :=
  s ← cstr (data ++ [0]);
  if streq s (bs "0") then Some (bs "-")
  else
    let s := match s with c :: r => if c =? 46 then r else s | [] => s end in
    Some (skip_underscores s).

Definition lookup_wchan {G} (pid : Z) : M G bytes :=
  f ← sys (COpen (snprintf BUF (bs "/proc/" ++ fmt_d pid ++ bs "/wchan")) 0 0);
  if r_val f =? -1 then mret (bs "?") else
  n ← sys (CRead (r_val f) (BUF - 1));
  _ ← sys (CClose (r_val f));
  if r_val n <? 1 then mret (bs "?") else
  if BUF <=? r_val n then undef else
  deref (wchan_name (take (Z.to_nat (r_val n)) (r_data n))).

Lemma wchan_name_total data : exists s, wchan_name data = Some s.
Proof.
  unfold wchan_name. destruct (cstr_line data) as (s & -> & _). cbn. case_match; eauto.
Qed.

Lemma skip_underscores_head s : head (skip_underscores s) <> Some 95.
Proof. induction s as [|c r IH]; cbn [skip_underscores]; [done|]. zcase; [done|]. cbn. congruence. Qed.

(** Whatever the kernel answers, the lookup returns a name, reads and writes
    inside its buffer, and closes the descriptor it opened. *)
Theorem lookup_wchan_safe {G} o pid (w : world G) :
  Kernel o -> wp (lookup_wchan pid) o w (fun s w' =>
    (s = bs "?" \/ s = bs "-" \/ head s <> Some 95) /\
    forall h, 0 <= handle_val h -> (forall r, r = o (w_tr w) (COpen (snprintf BUF
      (bs "/proc/" ++ fmt_d pid ++ bs "/wchan")) 0 0) -> -1 <= r_val r) ->
      net h (w_tr w') = net h (w_tr w)).
Proof.
  intros HK. unfold lookup_wchan. wstep. wsys f Hf.
  destruct (Z.eqb_spec (r_val f) (-1)) as [E|E].
  { split; [by left|]. intros h Hh _. unfold net; cbn [w_tr foldr]. fd_leaf. }
  wstep. wsys n Hn. wstep. wsys c Hc.
  assert (Hnet : forall h, 0 <= handle_val h -> -1 <= r_val f ->
     net h ((CClose (r_val f), c) :: (CRead (r_val f) (BUF - 1), n) ::
            (COpen (snprintf BUF (bs "/proc/" ++ fmt_d pid ++ bs "/wchan")) 0 0, f) :: w_tr w)
     = net h (w_tr w)).
  { intros h Hv Hr. unfold net; cbn [foldr]. fd_leaf. }
  destruct (Z.ltb_spec (r_val n) 1).
  { split; [by left|]. intros h Hh Ho. apply Hnet; [done|]. by apply Ho. }
  destruct (k_read (w_tr w) (r_val f) (BUF - 1)) as [_ _]; [unfold BUF; lia|].
  destruct (Z.leb_spec BUF (r_val n)) as [Hb|_].
  { subst n. pose proof (k_read ((COpen (snprintf BUF (bs "/proc/" ++ fmt_d pid ++ bs "/wchan")) 0 0, f)
      :: w_tr w) (r_val f) (BUF - 1)) as [Hb2 _]; [unfold BUF; lia|]. unfold BUF in *. lia. }
  destruct (wchan_name_total (take (Z.to_nat (r_val n)) (r_data n))) as [s Hs]. rewrite Hs.
  split; [|intros h Hh Ho; apply Hnet; [done|by apply Ho]].
  revert Hs. unfold wchan_name. destruct (cstr _) as [t|]; [|done]. cbn.
  case_match; intros [= <-]; [by right; left|]. right; right. apply skip_underscores_head.
Qed.
End Wchan.

(** ** fileutils.c *)
Module Fileutils.

Definition EBADF : Z := 9.
Definition EPIPE : Z := 32.

(** What the stream answers to [__fpending], [ferror] and [fclose], and [errno]
    behind the latter. *)
Record stream := Stream { pending : bool; prev_fail : bool; fclose_fail : bool; fclose_errno : Z }.

(** The value returned (0 or EOF) and [errno]. *)
Definition close_stream (s : stream) : Z * Z :=
  let errno := fclose_errno s in
  if prev_fail s || (fclose_fail s && (pending s || negb (errno =? EBADF))) then
    (-1, if negb (fclose_fail s) && negb (errno =? EPIPE) then 0 else errno)
  else (0, errno).

(** The exit code when the process is ended, and whether a message is written. *)
Definition close_stdout (out err : stream) : option Z * bool :=
  let '(r, e) := close_stream out in
  if negb (r =? 0) && negb (e =? EPIPE) then (Some 1, true)
  else let '(r, _) := close_stream err in
    if negb (r =? 0) then (Some 1, false) else (None, false).

(** Output is lost when a write or the close failed, except for a stream that
    was closed from the start and never written to. *)
Definition lost (s : stream) : bool :=
  prev_fail s || (fclose_fail s && (pending s || negb (fclose_errno s =? EBADF))).

(** The process goes on exactly when neither stream lost output, a broken pipe
    on standard output being forgiven. *)
Theorem close_stdout_exit out err :
  (close_stdout out err).1 = None <->
  (lost out = false \/ fclose_errno out = EPIPE) /\ lost err = false.
Proof.
  unfold close_stdout, close_stream. fold (lost out) (lost err).
  assert (He : forall b : bool, ((if b && negb (fclose_errno out =? EPIPE) then 0 else fclose_errno out)
      =? EPIPE) = (fclose_errno out =? EPIPE))
    by (intros []; unfold EPIPE; cbn; zcase; cbn; congruence || by zcase).
  destruct (lost out); cbn [negb Z.eqb andb fst]; rewrite ?He.
  - destruct (Z.eqb_spec (fclose_errno out) EPIPE), (lost err); cbn; naive_solver.
  - destruct (lost err); cbn; naive_solver.
Qed.
End Fileutils.

(** ** numa.c *)
Module Numa.

(** What [dlopen] and [dlsym] find: [None] is NULL.  A library function is its
    behaviour. *)
Record libnuma := Lib { sym_max : option Z; sym_node : option (Z -> Z) }.

(** [numa_max_node] and [numa_node_of_cpu] are pointers: [None] is NULL. *)
Record nstate := NState {
  initialized : bool; handle_open : bool;
  numa_max_node : option Z; numa_node_of_cpu : option (Z -> Z) }.

Definition null_max_node : Z := -1.
Definition null_node_of_cpu (n : Z) : Z := -1.

Definition nstart : nstate := NState false false (Some null_max_node) (Some null_node_of_cpu).

Definition numa_init (so so1 : option libnuma) (s : nstate) : nstate :=
  if initialized s then s else
  match (match so with Some l => Some l | None => so1 end) with
  | Some l =>
      match sym_max l, sym_node l with
      | Some m, Some n => NState true true (Some m) (Some n)
      | _, _ => NState true false (Some null_max_node) (Some null_node_of_cpu)
      end
  | None => NState true (handle_open s) (numa_max_node s) (numa_node_of_cpu s)
  end.

Definition numa_uninit (s : nstate) : nstate := s.

(** Both pointers can be called at any time, and come from the same place. *)
Definition callable (s : nstate) : Prop :=
  (numa_max_node s = Some null_max_node /\ numa_node_of_cpu s = Some null_node_of_cpu
     /\ handle_open s = false) \/
  (is_Some (numa_max_node s) /\ is_Some (numa_node_of_cpu s) /\ handle_open s = true).

Inductive nreach : nstate -> Prop :=
| nreach_start : nreach nstart
| nreach_init so so1 s : nreach s -> nreach (numa_init so so1 s)
| nreach_uninit s : nreach s -> nreach (numa_uninit s).

Theorem numa_callable s : nreach s -> callable s.
Proof.
  induction 1 as [|so so1 s _ IH|s _ IH]; [by left| |done].
  unfold numa_init. destruct (initialized s); [done|].
  destruct (match so with Some l => Some l | None => so1 end) as [[m n]|]; [|done]. cbn.
  destruct m, n; cbn; [|by left..]. right. repeat split; eauto.
Qed.
End Numa.

(** ** strutils.c *)
Module Strutils.

(** A function that exits on failure: [None] is the exit. *)
Definition strtol_or_err (str : option bytes) : option Z :=
  match str with
  | Some ((_ :: _) as s) =>
      let r := strtol s in
      if negb (st_range r) && st_conv r && bool_decide (st_rest r = []) then Some (st_val r) else None
  | _ => None
  end.

(** [strtod] is a parameter: value, rest, whether it converted, [errno]. *)
Definition strtod_or_err (strtod : bytes -> spec_float * bytes * bool * Z) (str : option bytes)
  : option spec_float :=
  match str with
  | Some ((_ :: _) as s) =>
      let '(v, rest, conv, errno) := strtod s in
      if (errno =? 0) && conv && bool_decide (rest = []) then Some v else None
  | _ => None
  end.

(** [double]: IEEE binary64. *)
Definition fmul := SFmul 53 1024.
Definition fdiv := SFdiv 53 1024.
Definition fadd := SFadd 53 1024.
Definition of_int (n : Z) : spec_float := binary_normalize 53 1024 n 0 false.
Definition f10 : spec_float := of_int 10.
(** The literal 0.1. *)
Definition f01 : spec_float := S754_finite false 7205759403792794 (-56).

(** The scan for the radix: the multiplier of the first digit. *)
Fixpoint find_radix (s : bytes) (mult : spec_float) : spec_float :=
  match s with
  | c :: r => if isdigit c then find_radix r (fmul mult f10) else mult
  | [] => mult
  end.

(** One of the two digit loops: value, multiplier and the rest. *)
Fixpoint digits (s : bytes) (num mult : spec_float) : spec_float * bytes :=
  match s with
  | c :: r =>
      if isdigit c then digits r (fadd num (fmul (of_int (c - 48)) mult)) (fdiv mult f10)
      else (num, s)
  | [] => (num, s)
  end.

(** The body of [strtod_nol_or_err] for a non-empty string. *)
Definition strtod_nol (s : bytes) : option spec_float :=
  let '(negative, cp) := scan_sign (skip_spaces s) in
  let finish num := Some (if negative : bool then SFopp num else num) in
  let '(num, cp) := digits cp (S754_zero false) (find_radix cp f01) in
  match cp with
  | [] => finish num
  | c :: cp =>
      if negb (c =? 46) && negb (c =? 44) then None
      else
        let '(num, cp) := digits cp num f01 in
        match cp with [] => finish num | _ => None end
  end.

Definition strtod_nol_or_err (str : option bytes) : option spec_float :=
  match str with
  | Some ((_ :: _) as s) => strtod_nol s
  | _ => None
  end.

(** The texts the conversion accepts. *)
Inductive number : bytes -> Prop :=
| number_int sp sg ds :
    Forall (fun c => isspace c = true) sp -> sg ∈ [[]; [45]; [43]] -> all_digits ds ->
    number (sp ++ sg ++ ds)
| number_frac sp sg ds c fs :
    Forall (fun c => isspace c = true) sp -> sg ∈ [[]; [45]; [43]] -> all_digits ds ->
    c ∈ [46; 44] -> all_digits fs -> number (sp ++ sg ++ ds ++ c :: fs).

Lemma digits_rest ds r num mult : all_digits ds -> stops r -> (digits (ds ++ r) num mult).2 = r.
Proof.
  intros Hd Hr. revert num mult. induction Hd as [|c ds Hc Hd IH]; intros; cbn [app digits].
  - destruct r as [|c r]; cbn; [done|]. cbn in Hr. by rewrite Hr.
  - by rewrite Hc, IH.
Qed.

Lemma digits_split s num mult : exists ds, all_digits ds /\ stops (digits s num mult).2 /\
  s = ds ++ (digits s num mult).2.
Proof.
  revert num mult. induction s as [|c r IH]; intros; cbn [digits].
  - exists []. by split; [constructor|].
  - destruct (isdigit c) eqn:E; [|exists []; by split; [constructor|]].
    destruct (IH (fadd num (fmul (of_int (c - 48)) mult)) (fdiv mult f10)) as (ds & H1 & H2 & H3).
    exists (c :: ds). split; [by constructor|]. split; [done|]. cbn. by f_equal.
Qed.

Lemma skip_spaces_split s : exists sp, Forall (fun c => isspace c = true) sp /\ s = sp ++ skip_spaces s.
Proof.
  induction s as [|c r (sp & H1 & H2)]; cbn; [exists []; by split; [constructor|]|].
  destruct (isspace c) eqn:E; [|exists []; by split; [constructor|]]. exists (c :: sp). split; [by constructor|].
  cbn. by f_equal.
Qed.

Lemma scan_sign_split s : exists sg, sg ∈ [[]; [45]; [43]] /\ s = sg ++ (scan_sign s).2.
Proof.
  destruct s as [|c r]; cbn; [exists []; set_solver|].
  zcase; subst; [exists [45]|exists [43]|exists []]; set_solver.
Qed.

Lemma skip_spaces_app sp s :
  Forall (fun c => isspace c = true) sp -> skip_spaces (sp ++ s) = skip_spaces s.
Proof. induction 1 as [|c sp Hc _ IH]; cbn [app skip_spaces]; [done|]. by rewrite Hc. Qed.

Lemma isspace_false c : isdigit c = true \/ c ∈ [45; 43; 46; 44] -> isspace c = false.
Proof. intros [?|H]; [by apply isdigit_not_space|]. set_unfold. naive_solver. Qed.

Definition starts_plain (s : bytes) : Prop :=
  match s with c :: _ => isdigit c = true \/ c ∈ [46; 44] | [] => True end.

(** Blanks and a sign in front of a digit or radix are scanned off. *)
Lemma scan_front sp sg s :
  Forall (fun c => isspace c = true) sp -> sg ∈ [[]; [45]; [43]] -> starts_plain s ->
  (scan_sign (skip_spaces (sp ++ sg ++ s))).2 = s.
Proof.
  intros Hsp Hsg Hs. rewrite skip_spaces_app by done.
  assert (Hc : sg = [] \/ sg = [45] \/ sg = [43]) by set_solver.
  destruct Hc as [->|[->| ->]]; [|done..]. cbn [app]. destruct s as [|c r]; [done|]. cbn in Hs.
  cbn [skip_spaces]. rewrite isspace_false by set_solver. cbn [scan_sign].
  assert (c <> 45 /\ c <> 43) as [? ?].
  { destruct Hs as [Hs|Hs]; [apply isdigit_spec in Hs; lia|]. set_unfold. lia. }
  by zcase.
Qed.

Lemma stops_radix c r : c ∈ [46; 44] -> stops (c :: r).
Proof. intros H. cbn. set_unfold. naive_solver. Qed.

Lemma strtod_nol_sound s : is_Some (strtod_nol s) -> number s.
Proof.
  unfold strtod_nol. intros H. destruct (skip_spaces_split s) as (sp & Hsp & Hs).
  destruct (scan_sign_split (skip_spaces s)) as (sg & Hsg & Hs2).
  destruct (scan_sign (skip_spaces s)) as [neg u]. cbn [snd] in Hs2.
  destruct (digits_split u (S754_zero false) (find_radix u f01)) as (ds & Hds & Hst & Hu).
  destruct (digits u _ _) as [num cp]. cbn [snd] in Hst, Hu. rewrite Hs, Hs2, Hu.
  destruct cp as [|c cp]; [rewrite app_nil_r; by constructor|].
  destruct (negb (c =? 46) && negb (c =? 44)) eqn:E; [by destruct H|].
  destruct (digits_split cp num f01) as (fs & Hfs & Hst2 & Hcp).
  destruct (digits cp num f01) as [num2 cp2]. cbn [snd] in Hcp. rewrite Hcp.
  destruct cp2; [|by destruct H]. rewrite app_nil_r. apply number_frac; try done.
  apply andb_false_iff in E as [E|E]; apply negb_false_iff, Z.eqb_eq in E as ->;
    [apply list_elem_of_here|apply list_elem_of_further, list_elem_of_here].
Qed.

Lemma strtod_nol_complete s : number s -> is_Some (strtod_nol s).
Proof.
  unfold strtod_nol. intros [sp sg ds Hsp Hsg Hds|sp sg ds c fs Hsp Hsg Hds Hc Hfs].
  - pose proof (scan_front sp sg ds Hsp Hsg) as Hf.
    destruct (scan_sign _) as [neg u]. cbn [snd] in Hf.
    rewrite Hf by (destruct Hds; unfold starts_plain; [done|by left]).
    pose proof (digits_rest ds [] (S754_zero false) (find_radix ds f01) Hds I) as Hr.
    rewrite app_nil_r in Hr. destruct (digits ds _ _) as [num cp]. cbn [snd] in Hr. subst cp. by eexists.
  - pose proof (scan_front sp sg (ds ++ c :: fs) Hsp Hsg) as Hf.
    destruct (scan_sign _) as [neg u]. cbn [snd] in Hf.
    rewrite Hf by (destruct Hds; unfold starts_plain; [by right|by left]).
    pose proof (digits_rest ds (c :: fs) (S754_zero false) (find_radix (ds ++ c :: fs) f01)
      Hds (stops_radix c fs Hc)) as Hr.
    destruct (digits (ds ++ c :: fs) _ _) as [num cp]. cbn [snd] in Hr. subst cp.
    assert (E : negb (c =? 46) && negb (c =? 44) = false) by (set_unfold; zcase; naive_solver).
    rewrite E. pose proof (digits_rest fs [] num f01 Hfs I) as Hr.
    rewrite app_nil_r in Hr. destruct (digits fs _ _) as [num2 cp2]. cbn [snd] in Hr. subst cp2. by eexists.
Qed.

(** Strtod_nol_or_err returns a value exactly for the non-empty texts of
    the grammar: blanks, an optional sign, digits and at most one radix, a dot
    or a comma, followed by digits; it exits on every other text.  (No digit is
    required: a lone sign or radix is accepted.) *)
Theorem strtod_nol_accepts s :
  is_Some (strtod_nol_or_err (Some s)) <-> s <> [] /\ number s.
Proof.
  split.
  - destruct s as [|x s]; [by intros []|]. intros H. split; [done|]. by apply strtod_nol_sound.
  - intros [Hne Hn]. destruct s as [|x s]; [done|]. by apply strtod_nol_complete.
Qed.

(** A printed [long] is read back; anything behind the digits is an error. *)
Theorem strtol_or_err_roundtrip n c r :
  LONG_MIN <= n <= LONG_MAX -> isdigit c = false ->
  strtol_or_err (Some (fmt_d n)) = Some n /\ strtol_or_err (Some (fmt_d n ++ c :: r)) = None.
Proof.
  intros Hn Hc. pose proof (strtol_fmt_d n [] Hn I) as H1. rewrite app_nil_r in H1.
  pose proof (strtol_fmt_d n (c :: r) Hn Hc) as H2.
  assert (Hne : exists x y, fmt_d n = x :: y).
  { unfold fmt_d. case_match; [by eexists _, _|]. pose proof (dec_nonnil n). destruct (dec n); [done|].
    by eexists _, _. }
  destruct Hne as (x & y & Hx). unfold strtol_or_err.
  rewrite Hx in H1, H2 |- *. cbn [app] in H2 |- *. rewrite H1, H2. split; [done|].
  cbn [st_range st_conv st_rest negb andb]. by rewrite bool_decide_false.
Qed.

Example strtod_nol_sign : strtod_nol_or_err (Some (bs "-")) = Some (S754_zero true).
Proof. reflexivity. Qed.
Example strtod_nol_12_5 :
  strtod_nol_or_err (Some (bs "+12,5")) = Some (fdiv (of_int 25) (of_int 2)).
Proof. reflexivity. Qed.
End Strutils.
