(* ===== verification/Stacks.v ===== *)
(** * procps/linux: items, result stacks and extents

    Every module of the library hands out its values the same way: a caller
    names an array of items, the module keeps a copy of it closed by the
    logical end, allocates blobs ('extents') of result stacks primed with those
    items, and runs the setter of each item over a stack.  The sources repeat
    the code per module with the module's prefix; it is modelled once here, for
    an arbitrary table of setters, and instantiated by the components. *)

From stdpp Require Import base numbers list strings.
From S2P Require Import Prelude Libc Posix.
Open Scope Z_scope.

(** ** Results *)

(** The union of a result: eight bytes, seen as their little-endian value, or a
    pointer to a string.  Storing the 32-bit member keeps the upper half (of a
    pointer, which no reader looks at, it is taken as 0). *)
Inductive uval := U64 (raw : Z) | UStr (s : bytes).

#[export] Instance uval_eq_dec : EqDecision uval.
Proof. solve_decision. Defined.

Definition set_ul_int (u : uval) (v : Z) : uval := U64 (u64 v).
Definition set_s_int (u : uval) (v : Z) : uval :=
  match u with
  | U64 raw => U64 (raw / 2 ^ 32 * 2 ^ 32 + u32 v)
  | UStr _ => U64 (u32 v)
  end.
Definition get_ul_int (u : uval) : Z := match u with U64 raw => raw | UStr _ => 0 end.
Definition get_s_int (u : uval) : Z := match u with U64 raw => i32 raw | UStr _ => 0 end.

Definition set_str (u : uval) (s : bytes) : uval := UStr s.

(** The member of the union a setter writes, by its name in the sources. *)
Inductive utype := ul_int | s_int | u_int | str | sl_int | ull_int | sll_int.

#[export] Instance utype_eq_dec : EqDecision utype.
Proof. solve_decision. Defined.

(** Storing a number through a member. *)
Definition set_as (t : utype) (u : uval) (v : Z) : uval :=
  match t with
  | ul_int | sl_int | ull_int | sll_int => set_ul_int u v
  | s_int | u_int => set_s_int u v
  | str => u
  end.

(** The tables of the sources name their setters. *)
Fixpoint assoc {A} (k : string) (l : list (string * A)) : option A :=
  match l with
  | [] => None
  | (x, a) :: r => if String.eqb x k then Some a else assoc k r
  end.

Lemma get_set_s_int u v : get_s_int (set_s_int u v) = i32 v.
Proof.
  destruct u; cbn [set_s_int get_s_int]; unfold wrap_s, wrap_u; f_equal.
  - replace (raw / 2 ^ 32 * 2 ^ 32 + v mod 2 ^ 32 + 2 ^ (32 - 1))
      with (v mod 2 ^ 32 + 2 ^ (32 - 1) + raw / 2 ^ 32 * 2 ^ 32) by lia.
    rewrite Z.mod_add by lia. by rewrite Zplus_mod_idemp_l.
  - by rewrite Zplus_mod_idemp_l.
Qed.

Record result := Result { r_item : Z; r_result : uval }.
Abbreviation stack := (list result).

(** A blob of stacks made by one allocation; [b_id] is its address.  A stack
    pointer is the blob and the position in it. *)
Record blob := Blob { b_id : nat; b_stacks : list stack }.
Abbreviation sptr := (nat * nat)%type.

(** [struct ext_support]: the items with their delimiter ([None] is NULL) and
    the extents, newest first; [x_next] is the address the next blob gets. *)
Record ext_support := Ext {
  x_numitems : Z;
  x_items : option (list Z);
  x_extents : list blob;
  x_next : nat
}.

Definition ext_empty : ext_support := Ext 0 None [] 0.

Fixpoint find_blob (bl : list blob) (id : nat) : option blob :=
  match bl with
  | [] => None
  | b :: r => if (b_id b =? id)%nat then Some b else find_blob r id
  end.

(** Reading and writing a stack through a pointer; [None] when the blob was
    freed or the position is outside. *)
Definition load (x : ext_support) (p : sptr) : option stack :=
  b ← find_blob (x_extents x) p.1; b_stacks b !! p.2.

Definition store_blob (p : sptr) (s : stack) (b : blob) : blob :=
  if (b_id b =? p.1)%nat then Blob (b_id b) (<[p.2 := s]> (b_stacks b)) else b.
Definition store (x : ext_support) (p : sptr) (s : stack) : ext_support :=
  Ext (x_numitems x) (x_items x) (map (store_blob p s) (x_extents x)) (x_next x).

(** ** Operations *)

Section stacks.
Context {H G : Type}.
(** The [setsfunc] column of the module's table. *)
Variable table : list (uval -> H -> uval).

Definition logical_end : Z := Z.of_nat (length table).

(** [..._assign_results]: the walk ends at an item that is not in the table;
    [None]: it leaves the stack. *)
Fixpoint assign_results (s : stack) (h : H) : option stack :=
  match s with
  | [] => None
  | r :: t =>
      if logical_end <=? r_item r then Some (r :: t)
      else
        set ← table !! Z.to_nat (r_item r);
        cons (Result (r_item r) (set (r_result r) h)) <$> assign_results t h
  end.

(** [..._itemize_stack] over calloc'ed memory. *)
Definition itemize_stack (depth : Z) (items : list Z) : option stack :=
  if (Z.to_nat depth <=? length items)%nat
  then Some (map (fun i => Result i (U64 0)) (take (Z.to_nat depth) items)) else None.

Fixpoint items_bad (n : nat) (items : list Z) : option bool :=
  match n, items with
  | O, _ => Some false
  | S n', i :: r => if (i <? 0) || (logical_end <=? i) then Some true else items_bad n' r
  | S _, [] => None
  end.

(** [..._items_check_failed]; [addr] is the address of the array. *)
Definition items_check_failed (numitems addr : Z) (items : list Z) : option bool :=
  if (numitems <? 1) || (addr <? 2 * logical_end) then Some true
  else items_bad (Z.to_nat numitems) items.

Definition extents_free_all (x : ext_support) : ext_support :=
  Ext (x_numitems x) (x_items x) [] (x_next x).

(** [..._stacks_alloc], for [maxstacks > 0]. *)
Definition stacks_alloc (x : ext_support) (maxstacks : Z) : M G (option blob * ext_support) :=
  r ← sys (CMalloc (24 + 8 * maxstacks + 8 + 8 * maxstacks + 16 * x_numitems x * maxstacks));
  if r_val r <? 0 then mret (None, x) else
  items ← deref (x_items x);
  s ← deref (itemize_stack (x_numitems x) items);
  let b := Blob (x_next x) (replicate (Z.to_nat maxstacks) s) in
  mret (Some b, Ext (x_numitems x) (x_items x) (b :: x_extents x) (S (x_next x))).

(** The test whether the items differ from those of the last call; [memcmp] of
    a NULL array is undefined. *)
Definition items_changed (x : ext_support) (items : list Z) (numitems : Z) : option bool :=
  if negb (x_numitems x =? numitems + 1) then Some true
  else
    old ← x_items x;
    let n := Z.to_nat numitems in
    Some (negb (bool_decide (take n old = take n items))).

(** The body of [..._stacks_reconfig_maybe] behind the check: 1 when the items
    were replaced and the extents freed, 0 when nothing changed, -1 when the
    reallocation failed (which leaves NULL in place of the items). *)
Definition reconfig (x : ext_support) (items : list Z) (numitems : Z) : M G (Z * ext_support) :=
  changed ← deref (items_changed x items numitems);
  if changed : bool then
    r ← sys (CMalloc (4 * (numitems + 1)));
    if r_val r <? 0 then mret (-1, Ext (x_numitems x) None (x_extents x) (x_next x)) else
    mret (1, extents_free_all
               (Ext (numitems + 1) (Some (take (Z.to_nat numitems) items ++ [logical_end]))
                    (x_extents x) (x_next x)))
  else mret (0, x).

Definition reconfig_maybe (x : ext_support) (addr : Z) (items : list Z) (numitems : Z)
  : M G (Z * ext_support) :=
  bad ← deref (items_check_failed numitems addr items);
  if bad : bool then mret (-1, x) else reconfig x items numitems.

(** ** The debugging interface: results, and whether a message is printed *)

(** [types] is the type column of the table. *)
Definition type_mismatch (types : list (option utype)) (typestr : option utype) (item : Z) : bool :=
  match types !! Z.to_nat item with
  | Some (Some t) => negb (bool_decide (typestr = Some t))
  | _ => false
  end.

Definition xtra_get (types : list (option utype)) (typestr : option utype) (item : Z)
    (r : option result) : bool :=
  (item <? 0) || (logical_end <=? item) ||
  match r with Some r => type_mismatch types typestr (r_item r) | None => false end.

Fixpoint valid_len (s : stack) : option Z :=
  match s with
  | [] => None
  | r :: t => if r_item r <? logical_end then Z.succ <$> valid_len t else Some 0
  end.

(** The outer [None] is a walk off the stack. *)
Definition xtra_val (types : list (option utype)) (relative_enum : Z) (typestr : option utype) (s : stack)
  : option (option result * bool) :=
  i ← valid_len s;
  if (relative_enum <? 0) || (i <=? relative_enum) then Some (None, true)
  else
    r ← s !! Z.to_nat relative_enum;
    Some (Some r, type_mismatch types typestr (r_item r)).

(** ** The invariant *)

Definition valid_item (i : Z) : Prop := 0 <= i < logical_end.

(** A stack primed with the items [its]. *)
Definition primed (its : list Z) (s : stack) : Prop := map r_item s = its ++ [logical_end].

Definition ext_ok (x : ext_support) (its : list Z) : Prop :=
  Forall valid_item its /\
  x_items x = Some (its ++ [logical_end]) /\ x_numitems x = Z.of_nat (length its) + 1 /\
  Forall (fun b => Forall (primed its) (b_stacks b) /\ b_stacks b <> [] /\ (b_id b < x_next x)%nat)
    (x_extents x) /\
  NoDup (map b_id (x_extents x)).

(** Between calls the support is unused or primed with some items. *)
Definition ext_inv (x : ext_support) : Prop :=
  (x_numitems x = 0 /\ x_items x = None /\ x_extents x = []) \/ exists its, ext_ok x its.

(** What a setter run leaves of one result. *)
Definition assigned (h : H) (r : result) : result :=
  match table !! Z.to_nat (r_item r) with
  | Some set => Result (r_item r) (set (r_result r) h)
  | None => r
  end.

Lemma assign_results_primed rs e h :
  Forall (fun r => valid_item (r_item r)) rs -> r_item e = logical_end ->
  assign_results (rs ++ [e]) h = Some (map (assigned h) rs ++ [e]).
Proof.
  intros Hv He. induction Hv as [|r rs Hr _ IH]; cbn [app assign_results map].
  - rewrite He. by zcase.
  - unfold valid_item in Hr. zcase. rewrite IH. unfold assigned, logical_end in *.
    destruct (lookup_lt_is_Some_2 table (Z.to_nat (r_item r)) ltac:(lia)) as [f ->]. done.
Qed.

Lemma primed_split its s : primed its s ->
  exists rs e, s = rs ++ [e] /\ map r_item rs = its /\ r_item e = logical_end.
Proof.
  unfold primed. intros Hs. destruct (exists_last (l := s)) as (rs & e & ->).
  { intros ->. by destruct its. }
  rewrite map_app in Hs. apply app_inj_tail in Hs as [H1 H2]. by exists rs, e.
Qed.

Lemma assigned_item h r : r_item (assigned h r) = r_item r.
Proof. unfold assigned. by destruct (table !! _). Qed.

(** Running the setters over a primed stack succeeds and keeps it primed. *)
Lemma assign_results_ok its s h : Forall valid_item its -> primed its s ->
  exists s', assign_results s h = Some s' /\ primed its s' /\
    forall i r, s !! i = Some r -> valid_item (r_item r) -> s' !! i = Some (assigned h r).
Proof.
  intros Hv (rs & e & -> & Hi & He)%primed_split.
  assert (Hr : Forall (fun r => valid_item (r_item r)) rs) by (subst its; revert Hv; clear; induction rs; cbn; inversion 1; constructor; auto).
  eexists. split; [by apply assign_results_primed|]. split.
  - unfold primed. rewrite map_app, map_map, <- Hi. cbn. rewrite He. f_equal.
    apply map_ext. intros r. apply assigned_item.
  - intros i r Hi' Hvr. destruct (decide (i < length rs)%nat) as [Hl|Hl].
    + rewrite lookup_app_l in Hi' by done. rewrite lookup_app_l by (by rewrite length_map).
      by rewrite list_lookup_fmap, Hi'.
    + rewrite lookup_app_r in Hi' by lia.
      destruct (i - length rs)%nat as [|k] eqn:E; [|by destruct k].
      cbn in Hi'. simplify_eq. unfold valid_item in Hvr. lia.
Qed.

Lemma items_bad_ok n items : (n <= length items)%nat ->
  items_bad n items = Some false <-> Forall valid_item (take n items).
Proof.
  revert items. induction n as [|n IH]; intros items Hn; cbn; [by split; intros; [constructor|]|].
  destruct items as [|i r]; cbn in *; [lia|]. unfold valid_item.
  destruct (Z.ltb_spec i 0), (Z.leb_spec logical_end i); cbn;
    try (split; [done|intros Hf; inversion Hf; lia]).
  rewrite IH by lia. unfold valid_item. split; [by constructor|by inversion 1].
Qed.

Lemma itemize_primed its : itemize_stack (Z.of_nat (length its) + 1) (its ++ [logical_end]) =
  Some (map (fun i => Result i (U64 0)) (its ++ [logical_end])).
Proof.
  unfold itemize_stack. rewrite length_app. cbn [length].
  destruct (Nat.leb_spec (Z.to_nat (Z.of_nat (length its) + 1)) (length its + 1)); [|lia].
  do 2 f_equal. rewrite take_ge; [done|]. rewrite length_app. cbn. lia.
Qed.

(** Allocation keeps the invariant, and fails only with malloc. *)
Lemma stacks_alloc_ok o w x its max :
  ext_ok x its -> 0 < max ->
  wp (stacks_alloc x max) o w (fun res w' =>
    ext_ok res.2 its /\
    match res.1 with
    | Some b => x_extents res.2 = b :: x_extents x /\ b_id b = x_next x /\
                x_next res.2 = S (x_next x) /\
                b_stacks b = replicate (Z.to_nat max) (map (fun i => Result i (U64 0)) (its ++ [logical_end]))
    | None => res.2 = x
    end /\
    (forall h, net h (w_tr w') = net h (w_tr w))).
Proof.
  intros Hx Hm. unfold stacks_alloc. wstep. wsys r Hr.
  assert (Hnet : forall h, net h ((CMalloc (24 + 8 * max + 8 + 8 * max + 16 * x_numitems x * max), r)
     :: w_tr w) = net h (w_tr w)) by (intros []; unfold net; cbn [foldr effect]; lia).
  destruct (Z.ltb_spec (r_val r) 0); [done|].
  destruct Hx as (Hv & Hi & Hn & Hb & Hd). rewrite Hi, Hn.
  wstep. cbn -[itemize_stack]. rewrite itemize_primed. cbn -[replicate].
  split; [|done]. split; [done|]. split; [done|]. split; [done|]. cbn [x_extents x_next]. split.
  - constructor; cbn [b_stacks b_id].
    + split; [|split; [|cbn [snd x_next]; lia]].
      2:{ destruct (Z.to_nat max) eqn:E; [lia|done]. }
      apply Forall_replicate. unfold primed. rewrite map_map. cbn. by rewrite map_id.
    + eapply Forall_impl; [apply Hb|]. cbn. intros b (H1 & H2 & H3). split; [done|]. split; [done|lia].
  - cbn. apply NoDup_cons. split; [|done]. intros (b & Hb1 & Hb2)%list_elem_of_fmap.
    rewrite Forall_forall in Hb. destruct (Hb _ Hb2). lia.
Qed.

(** With memory available the allocation succeeds. *)
Lemma stacks_alloc_full o w x its max :
  (forall t sz, 0 <= r_val (o t (CMalloc sz))) -> ext_ok x its -> 0 < max ->
  wp (stacks_alloc x max) o w (fun res w' => exists b,
    res = (Some b, Ext (x_numitems x) (x_items x) (b :: x_extents x) (S (x_next x))) /\
    b_id b = x_next x /\ length (b_stacks b) = Z.to_nat max /\
    ext_ok res.2 its /\ (forall h, net h (w_tr w') = net h (w_tr w))).
Proof.
  intros Hm Hx Hmax. pose proof (stacks_alloc_ok o w x its max Hx Hmax) as H1.
  set (sz := 24 + 8 * max + 8 + 8 * max + 16 * x_numitems x * max).
  set (b := Blob (x_next x) (replicate (Z.to_nat max) (map (fun i => Result i (U64 0)) (its ++ [logical_end])))).
  assert (H2 : wp (stacks_alloc x max) o w (fun res _ =>
     res = (Some b, Ext (x_numitems x) (x_items x) (b :: x_extents x) (S (x_next x))))).
  { clear H1. unfold stacks_alloc. wstep. unfold wp at 1. cbn [sys]. fold sz.
    destruct (Z.ltb_spec (r_val (o (w_tr w) (CMalloc sz))) 0) as [Hl|Hl].
    - specialize (Hm (w_tr w) sz). lia.
    - destruct Hx as (_ & Hi & Hn & _). rewrite Hi, Hn. wstep. unfold wp at 1. cbn [deref mret M_ret].
      rewrite itemize_primed. done. }
  unfold wp in *. destruct (stacks_alloc x max o w) as [res w'| | |]; try done. subst res. cbn [fst snd] in *.
  destruct H1 as (H3 & _ & H4). exists b. split; [done|]. split; [done|].
  split; [unfold b; cbn; apply length_replicate|done].
Qed.

Lemma find_blob_elem bl id b : find_blob bl id = Some b -> b ∈ bl /\ b_id b = id.
Proof.
  induction bl as [|a bl IH]; cbn; [done|]. destruct (Nat.eqb_spec (b_id a) id).
  - intros [= ->]. split; [constructor|done].
  - intros [??]%IH. split; [by constructor|done].
Qed.

Lemma find_blob_store bl p s :
  find_blob (map (store_blob p s) bl) p.1 = store_blob p s <$> find_blob bl p.1.
Proof.
  induction bl as [|a bl IH]; cbn; [done|]. unfold store_blob at 1 2.
  destruct (Nat.eqb_spec (b_id a) p.1) as [E|E]; cbn.
  - rewrite E, Nat.eqb_refl. cbn. unfold store_blob. by rewrite E, Nat.eqb_refl.
  - destruct (Nat.eqb_spec (b_id a) p.1); [done|]. apply IH.
Qed.

Lemma load_primed x its p s : ext_ok x its -> load x p = Some s -> primed its s.
Proof.
  intros (_ & _ & _ & Hb & _). unfold load. destruct (find_blob _ _) as [b|] eqn:E; [|done]. cbn.
  apply find_blob_elem in E as [Hin _]. rewrite Forall_forall in Hb. destruct (Hb _ Hin) as [Hp _].
  intros Hs. rewrite Forall_forall in Hp. apply Hp. by eapply list_elem_of_lookup_2.
Qed.

Lemma store_blob_id p s b : b_id (store_blob p s b) = b_id b.
Proof. unfold store_blob. by destruct (_ =? _)%nat. Qed.

(** A primed stack can be replaced by a primed stack. *)
Lemma store_ok x its p s s0 :
  ext_ok x its -> load x p = Some s0 -> primed its s ->
  ext_ok (store x p s) its /\ load (store x p s) p = Some s.
Proof.
  intros (Hv & Hi & Hn & Hb & Hd) Hl Hp. split.
  - split; [done|]. split; [done|]. split; [done|]. cbn [x_extents x_next store]. split.
    + apply Forall_map. eapply Forall_impl; [apply Hb|]. cbn. intros b (H1 & H2 & H3).
      rewrite store_blob_id. unfold store_blob. destruct (_ =? _)%nat; [|done]. cbn.
      split; [by apply Forall_insert|]. split; [|done].
      intros E. apply (f_equal length) in E. rewrite length_insert in E. by destruct (b_stacks b).
    + rewrite map_map, (map_ext _ b_id); [done|]. apply store_blob_id.
  - revert Hl. unfold load. cbn [store x_extents]. rewrite find_blob_store.
    destruct (find_blob _ _) as [b|] eqn:E; [|done]. cbn. intros Hs.
    apply find_blob_elem in E as [_ E]. unfold store_blob. rewrite E, Nat.eqb_refl. cbn.
    apply list_lookup_insert_eq. by eapply lookup_lt_Some.
Qed.

(** The first stack of the newest extent can be reached. *)
Lemma load_head x its b r : ext_ok x its -> x_extents x = b :: r ->
  exists s, load x (b_id b, 0%nat) = Some s.
Proof.
  intros (_ & _ & _ & Hb & _) Hx. unfold load. rewrite Hx in *. cbn. rewrite Nat.eqb_refl. cbn.
  inversion Hb as [|? ? (_ & Hne & _) _]; subst. destruct (b_stacks b); [done|]. eauto.
Qed.

Lemma items_changed_total x items n :
  ext_inv x -> 0 < n -> exists b, items_changed x items n = Some b.
Proof.
  intros Hx Hn. unfold items_changed. destruct (Z.eqb_spec (x_numitems x) (n + 1)) as [E|]; cbn; [|eauto].
  destruct Hx as [(Hz & _)|(its & _ & -> & _)]; [lia|]. cbn. eauto.
Qed.

(** From a sound support, [reconfig] has no undefined behaviour; unless malloc
    fails it leaves the support primed with exactly the requested items. *)
Lemma reconfig_ok o w x items n :
  ext_inv x -> 0 < n -> (Z.to_nat n <= length items)%nat ->
  Forall valid_item (take (Z.to_nat n) items) ->
  wp (reconfig x items n) o w (fun res w' =>
    (0 <= res.1 -> ext_ok res.2 (take (Z.to_nat n) items)) /\
    (res.1 = 1 -> x_extents res.2 = []) /\ (res.1 = 0 -> res.2 = x) /\ -1 <= res.1 <= 1 /\
    (forall h, net h (w_tr w') = net h (w_tr w)) /\
    ((forall t sz, 0 <= r_val (o t (CMalloc sz))) -> 0 <= res.1)).
Proof.
  intros Hx Hn Hl Hv. unfold reconfig.
  destruct (items_changed_total x items n Hx Hn) as [b Hb].
  wstep. rewrite Hb. cbn [deref mret wp M_ret]. destruct b.
  - wstep. wsys r Hr. destruct (Z.ltb_spec (r_val r) 0); cbn [wp mret M_ret fst snd w_tr].
    + do 3 (split; [lia|]). split; [lia|]. split; [intros []; unfold net; cbn [foldr effect]; lia|].
      intros Hm. subst r. specialize (Hm (w_tr w) (4 * (n + 1))). lia.
    + split; [|do 2 (split; [done|lia || idtac])].
      * intros _. unfold extents_free_all, ext_ok. cbn [x_extents x_items x_numitems x_next].
        split; [done|]. split; [done|]. split; [rewrite length_take; lia|].
        split; constructor.
      * split; [lia|]. split; [intros []; unfold net; cbn [foldr effect]; lia|lia].
  - cbn. split; [|split; [lia|split; [done|split; [lia|split; [done|lia]]]]]. intros _.
    unfold items_changed in Hb. destruct (Z.eqb_spec (x_numitems x) (n + 1)) as [E|]; [|done].
    destruct Hx as [(Hz & _)|(its & Hok)]; [lia|]. pose proof Hok as (_ & Hi & Hnum & _).
    rewrite Hi in Hb. cbn in Hb. injection Hb as Hb. apply negb_false_iff, bool_decide_eq_true in Hb.
    assert (Z.to_nat n = length its) as Hln by lia.
    rewrite Hln, take_app_length in Hb. by rewrite Hln, <- Hb.
Qed.

(** With memory, a call with valid items leaves the support primed with them;
    0 says that nothing changed, 1 that the old extents are gone. *)
Lemma reconfig_maybe_full o w x addr items numitems :
  (forall t sz, 0 <= r_val (o t (CMalloc sz))) -> ext_inv x ->
  2 * logical_end <= addr -> 1 <= numitems <= Z.of_nat (length items) ->
  Forall valid_item (take (Z.to_nat numitems) items) ->
  wp (reconfig_maybe x addr items numitems) o w (fun res w' =>
    ext_ok res.2 (take (Z.to_nat numitems) items) /\
    (res.1 = 0 /\ res.2 = x \/ res.1 = 1 /\ x_extents res.2 = []) /\
    forall h, net h (w_tr w') = net h (w_tr w)).
Proof.
  intros Hm Hx Ha Hn Hv. unfold reconfig_maybe.
  assert (Hbad : items_check_failed numitems addr items = Some false).
  { unfold items_check_failed. zcase. apply items_bad_ok; [lia|done]. }
  rewrite Hbad. wstep. unfold wp at 1. cbn [deref mret M_ret].
  eapply wp_mono; [apply (reconfig_ok o w x items numitems); done || lia|].
  intros [rc x'] w' (H1 & H2 & H3 & H4 & H5 & H6). cbn [fst snd] in *.
  specialize (H6 Hm). split; [by apply H1|]. split; [|done].
  destruct (Z.eq_dec rc 0) as [->|]; [left; auto|right; split; [lia|apply H2; lia]].
Qed.

Lemma reconfig_maybe_ok o w x addr items numitems :
  (forall t sz, 0 <= r_val (o t (CMalloc sz))) -> ext_inv x ->
  2 * logical_end <= addr -> 1 <= numitems <= Z.of_nat (length items) ->
  Forall valid_item (take (Z.to_nat numitems) items) ->
  wp (reconfig_maybe x addr items numitems) o w (fun res w' =>
    0 <= res.1 /\ ext_ok res.2 (take (Z.to_nat numitems) items) /\
    (res.2 = x \/ x_extents res.2 = []) /\ forall h, net h (w_tr w') = net h (w_tr w)).
Proof.
  intros Hm Hx Ha Hn Hv. eapply wp_mono; [by apply reconfig_maybe_full|].
  intros [rc x'] w' (H1 & [[-> H2]|[-> H2]] & H3); cbn [fst snd] in *; (split; [lia|]); auto.
Qed.

(** *** Accounting: none of this opens or closes a stream, whatever the system does. *)

Lemma gains_stacks_alloc x n : gains (stacks_alloc x n) (fun _ _ => 0).
Proof. unfold stacks_alloc. gains_tac. Qed.

Lemma gains_reconfig_maybe x addr items n : gains (reconfig_maybe x addr items n) (fun _ _ => 0).
Proof. unfold reconfig_maybe, reconfig. gains_tac. Qed.
End stacks.

#[export] Hint Resolve gains_stacks_alloc gains_reconfig_maybe : gdb.
