(* ===== verification/Fetch.v ===== *)
(** * procps/linux: reaping and sorting result stacks

    [..._stacks_fetch], which fills one result stack per node and hands the
    stack pointers to the caller, and [procps_..._sort] with its comparison
    functions.  As in [Stacks], the code the modules repeat is modelled once
    for an arbitrary table. *)

From stdpp Require Import base numbers list strings sorting.
From S2P Require Import Prelude Libc Posix Stacks.
Open Scope Z_scope.

(** [struct fetch_support].  An array of pointers is a list; [None] is a NULL or
    an indeterminate pointer, and the array itself is [None] when NULL. *)
Record fetch_support := Fetch {
  f_anchor : option (list (option sptr));
  f_alloc : Z;                                  (* n_alloc *)
  f_inuse : Z;                                  (* n_inuse *)
  f_saved : Z;                                  (* n_alloc_save *)
  f_stacks : option (list (option sptr));       (* results.stacks *)
  f_total : Z                                   (* results.total *)
}.

Definition fetch_empty : fetch_support := Fetch None 0 0 0 None 0.

Definition set_anchor a n f := Fetch a n (f_inuse f) (f_saved f) (f_stacks f) (f_total f).
Definition set_inuse n f := Fetch (f_anchor f) (f_alloc f) n (f_saved f) (f_stacks f) (f_total f).
Definition set_results s n t f := Fetch (f_anchor f) (f_alloc f) (f_inuse f) n s t.

(** The addresses of the stacks of a blob. *)
Definition blob_ptrs (b : blob) : list (option sptr) :=
  map (fun i => Some (b_id b, i)) (seq 0 (length (b_stacks b))).

(** [realloc] of a pointer array to [n] elements. *)
Definition realloc_ptrs (a : option (list (option sptr))) (n : Z) : list (option sptr) :=
  let a := default [] a in take (Z.to_nat n) a ++ replicate (Z.to_nat n - length a) None.

(** [memcpy(a + off, src, ...)]; [None] when it leaves the array. *)
Definition copy_ptrs (a : list (option sptr)) (off : nat) (src : list (option sptr))
  : option (list (option sptr)) :=
  if (off + length src <=? length a)%nat
  then Some (take off a ++ src ++ drop (off + length src) a) else None.

Section fetch.
Context {H G : Type}.
Variable table : list (uval -> H -> uval).
Variable STACKS_INCR : Z.
(** What is returned when the anchor cannot be allocated. *)
Variable anchor_rc : Z.

(** Assigning the results of one node to the stack at [anchor[n_inuse]]. *)
Definition assign_at (x : ext_support) (f : fetch_support) (node : H) : option ext_support :=
  a ← f_anchor f;
  slot ← a !! Z.to_nat (f_inuse f);
  p ← slot;
  s ← load x p;
  s ← assign_results table s node;
  Some (store x p s).

(** More room when all stacks are in use: false when memory ran out. *)
Definition grow (x : ext_support) (f : fetch_support) : M G (bool * ext_support * fetch_support) :=
  if f_inuse f <? f_alloc f then mret (true, x, f) else
  let n := f_alloc f + STACKS_INCR in
  r ← sys (CMalloc (8 * n));
  if r_val r <? 0 then mret (false, x, set_anchor None n f) else
  let a := realloc_ptrs (f_anchor f) n in
  '(b, x) ← stacks_alloc x STACKS_INCR;
  match b with
  | None => mret (false, x, set_anchor (Some a) n f)
  | Some b =>
      a ← deref (copy_ptrs a (Z.to_nat (f_inuse f)) (blob_ptrs b));
      mret (true, x, set_anchor (Some a) n f)
  end.

(** The iteration over the nodes. *)
Fixpoint fetch_loop (nodes : list H) (x : ext_support) (f : fetch_support)
  : M G (bool * ext_support * fetch_support) :=
  match nodes with
  | [] => mret (true, x, f)
  | node :: rest =>
      '(ok, x, f) ← grow x f;
      if negb ok then mret (false, x, f) else
      x ← deref (assign_at x f node);
      fetch_loop rest x (set_inuse (f_inuse f + 1) f)
  end.

(** The duplicate of the pointers that is handed out, closed by a NULL. *)
Definition finalize (f : fetch_support) : M G (Z * fetch_support) :=
  '(ok, f) ← (if f_saved f <? f_inuse f + 1 then
      let n := f_inuse f + 1 in
      r ← sys (CMalloc (8 * n));
      if r_val r <? 0 then mret (false, set_results None n (f_total f) f)
      else mret (true, set_results (Some (realloc_ptrs (f_stacks f) n)) n (f_total f) f)
    else mret (true, f));
  if negb ok then mret (-1, f) else
  a ← deref (f_anchor f);
  st ← deref (f_stacks f);
  st ← deref (copy_ptrs st 0 (take (Z.to_nat (f_inuse f)) a ++ [None]));
  mret (f_inuse f, set_results (Some st) (f_saved f) (f_inuse f) f).

(** The first two statements: an anchor, then stacks for all of it. *)
Definition init_anchor (f : fetch_support) : M G (bool * fetch_support) :=
  match f_anchor f with
  | Some _ => mret (true, f)
  | None =>
      r ← sys (CMalloc (8 * STACKS_INCR));
      if r_val r <? 0 then mret (false, f)
      else mret (true, set_anchor (Some (replicate (Z.to_nat STACKS_INCR) None)) STACKS_INCR f)
  end.

Definition init_extents (x : ext_support) (f : fetch_support) : M G (bool * ext_support * fetch_support) :=
  match x_extents x with
  | _ :: _ => mret (true, x, f)
  | [] =>
      '(b, x) ← stacks_alloc x (f_alloc f);
      match b with
      | None => mret (false, x, f)
      | Some b =>
          a ← deref (f_anchor f);
          a ← deref (copy_ptrs a 0 (blob_ptrs b));
          mret (true, x, set_anchor (Some a) (f_alloc f) f)
      end
  end.

Definition stacks_fetch (nodes : list H) (x : ext_support) (f : fetch_support)
  : M G (Z * ext_support * fetch_support) :=
  '(ok, f) ← init_anchor f;
  if negb ok then mret (anchor_rc, x, f) else
  '(ok, x, f) ← init_extents x f;
  if negb ok then mret (-1, x, f) else
  '(ok, x, f) ← fetch_loop nodes x (set_inuse 0 f);
  if negb ok then mret (-1, x, f) else
  '(rc, f) ← finalize f;
  mret (rc, x, f).

(** ** Invariant *)

Definition good_ptr (x : ext_support) (p : option sptr) : Prop :=
  exists q s, p = Some q /\ load x q = Some s.

(** The anchor has room for [n_alloc] pointers; while there are extents they
    all point to different live stacks. *)
Definition anchor_ok (x : ext_support) (f : fetch_support) : Prop :=
  match f_anchor f with
  | None => x_extents x = []
  | Some a => Z.of_nat (length a) = f_alloc f /\ 0 < f_alloc f /\
      (x_extents x <> [] -> Forall (good_ptr x) a /\ NoDup a)
  end.

Definition results_ok (f : fetch_support) : Prop :=
  match f_stacks f with
  | None => f_saved f = 0
  | Some st => 0 <= f_saved f <= Z.of_nat (length st)
  end.

(** The stack shows the values of a node for the items [its]. *)
Definition shows (its : list Z) (h : H) (s : stack) : Prop :=
  primed table its s /\
  forall i item set, its !! i = Some item -> table !! Z.to_nat item = Some set ->
    exists u, s !! i = Some (Result item (set u h)).

Lemma assign_shows its s0 h : Forall (valid_item table) its -> primed table its s0 ->
  exists s, assign_results table s0 h = Some s /\ shows its h s.
Proof.
  intros Hv Hp. destruct (assign_results_ok table its s0 h Hv Hp) as (s & Hs & Hp' & Ha).
  exists s. split; [done|]. split; [done|]. intros i item set Hi Hset.
  apply primed_split in Hp as (rs & e & -> & Hrs & _). subst its.
  rewrite list_lookup_fmap in Hi. destruct (rs !! i) as [r|] eqn:Er; [|done]. cbn in Hi. simplify_eq.
  exists (r_result r). rewrite (Ha i r).
  - unfold assigned. by rewrite Hset.
  - by apply lookup_app_l_Some.
  - rewrite Forall_forall in Hv. apply Hv. apply list_elem_of_fmap. exists r.
    split; [done|]. by eapply list_elem_of_lookup_2.
Qed.

(** *** Pointers *)

Lemma find_blob_cons b bl id : b_id b <> id -> find_blob (b :: bl) id = find_blob bl id.
Proof. intros Hn. cbn. by destruct (Nat.eqb_spec (b_id b) id). Qed.

Lemma load_fresh x its n mi b p s :
  ext_ok table x its -> b_id b = x_next x -> load x p = Some s ->
  load (Ext n mi (b :: x_extents x) (S (x_next x))) p = Some s.
Proof.
  intros (_ & _ & _ & Hb & _) Hid. unfold load. cbn [x_extents].
  destruct (find_blob (x_extents x) p.1) as [c|] eqn:E; [|done]. intros Hs.
  rewrite find_blob_cons, E; [done|].
  apply find_blob_elem in E as [Hin <-]. rewrite Forall_forall in Hb. destruct (Hb _ Hin) as (_ & _ & Hlt).
  lia.
Qed.

Lemma load_new x b n mi k i s :
  b_stacks b !! i = Some s -> load (Ext n mi (b :: x_extents x) k) (b_id b, i) = Some s.
Proof. intros Hs. unfold load. cbn. rewrite Nat.eqb_refl. by cbn. Qed.

Lemma blob_ptrs_lookup b i p : blob_ptrs b !! i = Some p <->
  p = Some (b_id b, i) /\ (i < length (b_stacks b))%nat.
Proof.
  unfold blob_ptrs. rewrite list_lookup_fmap. destruct (decide (i < length (b_stacks b))%nat) as [Hi|Hi].
  - rewrite lookup_seq_lt by done. cbn. split; [by intros [= <-]|by intros [-> _]].
  - rewrite lookup_seq_ge by lia. split; [done|]. intros []. lia.
Qed.

Lemma blob_ptrs_nodup b : NoDup (blob_ptrs b).
Proof. apply NoDup_fmap; [|apply NoDup_seq]. by intros i j [= ->]. Qed.

Lemma blob_ptrs_length b : length (blob_ptrs b) = length (b_stacks b).
Proof. unfold blob_ptrs. by rewrite length_map, length_seq. Qed.

Lemma load_store_other x p q s : p <> q -> load (store x p s) q = load x q.
Proof.
  intros Hpq. unfold load. cbn [store x_extents].
  induction (x_extents x) as [|b bl IH]; cbn; [done|].
  rewrite store_blob_id. destruct (Nat.eqb_spec (b_id b) q.1) as [E|E]; [|apply IH].
  cbn. unfold store_blob. destruct (Nat.eqb_spec (b_id b) p.1) as [E'|E']; [|done]. cbn.
  apply list_lookup_insert_ne. intros E2. apply Hpq. destruct p, q; cbn in *; congruence.
Qed.

Lemma good_ptr_store x its p s0 s q :
  ext_ok table x its -> load x p = Some s0 -> primed table its s -> good_ptr x q -> good_ptr (store x p s) q.
Proof.
  intros Hx Hl Hp (q' & s' & -> & Hq). destruct (decide (p = q')) as [->|Hne].
  - exists q', s. split; [done|]. by apply (store_ok table x its q' s s0).
  - exists q', s'. split; [done|]. by rewrite load_store_other.
Qed.

Lemma store_extents_nonempty x p s : x_extents x <> [] -> x_extents (store x p s) <> [].
Proof. cbn. by destruct (x_extents x). Qed.

(** *** The loop, with memory available *)

Definition live (its : list Z) (x : ext_support) (f : fetch_support) (a : list (option sptr)) : Prop :=
  ext_ok table x its /\ f_anchor f = Some a /\ Z.of_nat (length a) = f_alloc f /\
  x_extents x <> [] /\ Forall (good_ptr x) a /\ NoDup a /\ 0 <= f_inuse f <= f_alloc f /\ 0 < f_alloc f.

Definition same_results (f f' : fetch_support) : Prop :=
  f_saved f' = f_saved f /\ f_stacks f' = f_stacks f /\ f_total f' = f_total f.

Definition memory (o : os) : Prop := forall t sz, 0 <= r_val (o t (CMalloc sz)).

Lemma copy_ptrs_tail a src k : k = length a ->
  copy_ptrs (a ++ replicate (length src) None) k src = Some (a ++ src).
Proof.
  intros ->. unfold copy_ptrs. rewrite length_app, length_replicate.
  destruct (Nat.leb_spec (length a + length src) (length a + length src)); [|lia].
  rewrite take_app_length, (drop_ge (a ++ _)) by (rewrite length_app, length_replicate; lia).
  by rewrite app_nil_r.
Qed.

Lemma fresh_ptrs x its a b : ext_ok table x its -> b_id b = x_next x ->
  Forall (good_ptr x) a -> NoDup a -> NoDup (a ++ blob_ptrs b).
Proof.
  intros Hx Hid Ha Hn. apply NoDup_app. split; [done|]. split; [|apply blob_ptrs_nodup].
  intros p Hp [i Hi]%list_elem_of_lookup. apply blob_ptrs_lookup in Hi as [-> _].
  rewrite Forall_forall in Ha. destruct (Ha _ Hp) as (q & s & [= <-] & Hl). unfold load in Hl. cbn in Hl.
  destruct (find_blob _ _) as [c|] eqn:E; [|done]. apply find_blob_elem in E as [Hin Hc].
  destruct Hx as (_ & _ & _ & Hb & _). rewrite Forall_forall in Hb. destruct (Hb _ Hin) as (_ & _ & Hlt). lia.
Qed.

Lemma grow_ok o w its x f a : memory o -> 0 < STACKS_INCR -> live its x f a ->
  wp (grow x f) o w (fun res w' => exists x' f' a', res = (true, x', f') /\
    live its x' f' (a ++ a') /\ f_inuse f' = f_inuse f /\ f_inuse f' < f_alloc f' /\
    same_results f f' /\ (forall p s, load x p = Some s -> load x' p = Some s) /\
    forall h, net h (w_tr w') = net h (w_tr w)).
Proof.
  intros Hm Hi Hlive. pose proof Hlive as (Hx & Ha & Hl & Hne & Hg & Hnd & Hu). unfold grow.
  destruct (Z.ltb_spec (f_inuse f) (f_alloc f)) as [Hlt|Hge].
  { apply wp_ret. exists x, f, []. rewrite app_nil_r. do 4 (split; [done|]). by repeat split. }
  wstep. wsys r Hr. destruct (Z.ltb_spec (r_val r) 0) as [Hlt|_]; [subst r; specialize (Hm (w_tr w) (8 * (f_alloc f + STACKS_INCR))); lia|].
  wstep. eapply wp_mono; [by apply (stacks_alloc_full table o _ x its STACKS_INCR)|].
  intros res w1 (b & -> & Hid & Hbl & Hx' & Hnet). cbn [snd w_tr] in *.
  assert (Hra : realloc_ptrs (f_anchor f) (f_alloc f + STACKS_INCR) =
     a ++ replicate (length (blob_ptrs b)) None).
  { unfold realloc_ptrs. rewrite Ha. cbn [default from_option id]. rewrite take_ge by lia.
    do 2 f_equal. rewrite blob_ptrs_length. lia. }
  rewrite Hra. wstep. rewrite copy_ptrs_tail by lia. unfold wp at 1. cbn [deref mret M_ret]. apply wp_ret.
  eexists _, _, (blob_ptrs b). split; [done|]. split; [|split; [done|split; [cbn; lia|split; [done|split]]]].
  - split; [done|]. split; [done|]. cbn [f_alloc f_inuse set_anchor].
    split; [rewrite length_app, blob_ptrs_length; lia|]. split; [done|]. split; [|split; [|lia]].
    + apply Forall_app. split.
      * eapply Forall_impl; [apply Hg|]. intros p (q & s & -> & Hq). exists q, s. split; [done|].
        by eapply load_fresh.
      * apply Forall_lookup. intros i p [-> Hib]%blob_ptrs_lookup.
        destruct (lookup_lt_is_Some_2 (b_stacks b) i Hib) as [s Hs].
        eexists _, s. split; [done|]. by apply load_new.
    + by apply (fresh_ptrs x its).
  - intros p s Hp. by eapply load_fresh.
  - intros h. rewrite Hnet. destruct h; unfold net; cbn [foldr effect]; lia.
Qed.

(** What the loop has stored behind position [k]. *)
Definition filled (its : list Z) (x : ext_support) (a : list (option sptr)) (k : nat) (nodes : list H) : Prop :=
  forall j node, nodes !! j = Some node ->
    exists p s, a !! (k + j)%nat = Some (Some p) /\ load x p = Some s /\ shows its node s.

Lemma fetch_loop_ok o its : memory o -> 0 < STACKS_INCR -> Forall (valid_item table) its ->
  forall nodes w x f a, live its x f a ->
  wp (fetch_loop nodes x f) o w (fun res w' => exists x' f' a', res = (true, x', f') /\
    live its x' f' (a ++ a') /\ f_inuse f' = f_inuse f + Z.of_nat (length nodes) /\
    filled its x' (a ++ a') (Z.to_nat (f_inuse f)) nodes /\
    (forall i p, (i < Z.to_nat (f_inuse f))%nat -> a !! i = Some (Some p) -> load x' p = load x p) /\
    same_results f f' /\ forall h, net h (w_tr w') = net h (w_tr w)).
Proof.
  intros Hm Hi Hv. induction nodes as [|node nodes IH]; intros w x f a Hlive; cbn [fetch_loop].
  { apply wp_ret. exists x, f, []. rewrite app_nil_r. cbn [length]. rewrite Z.add_0_r.
    do 3 (split; [done|]). split; [by intros j node|]. by repeat split. }
  wstep. eapply wp_mono; [by apply (grow_ok o w its x f a)|].
  intros res w1 (x1 & f1 & a1 & -> & Hlive1 & Hu & Hlt & Hs1 & Hload & Hnet1). cbn [negb].
  pose proof Hlive1 as (Hx1 & Ha1 & Hl1 & Hne1 & Hg1 & Hnd1 & Hb1).
  set (k := Z.to_nat (f_inuse f)) in *.
  destruct (lookup_lt_is_Some_2 (a ++ a1) k ltac:(lia)) as [slot Hslot].
  destruct (proj1 (Forall_lookup _ _) Hg1 _ _ Hslot) as (p & s0 & -> & Hp0).
  pose proof (load_primed table x1 its p s0 Hx1 Hp0) as Hpr.
  destruct (assign_shows its s0 node Hv Hpr) as (s & Hs & Hshow).
  destruct (store_ok table x1 its p s s0 Hx1 Hp0 (proj1 Hshow)) as [Hx2 Hp2].
  set (x2 := store x1 p s) in *.
  assert (Has : assign_at x1 f1 node = Some x2).
  { unfold assign_at. rewrite Ha1. cbn [mbind option_bind]. rewrite Hu. fold k. rewrite Hslot.
    cbn [mbind option_bind]. rewrite Hp0. cbn [mbind option_bind]. by rewrite Hs. }
  rewrite Has. wstep. unfold wp at 1. cbn [deref mret M_ret].
  assert (Hlive2 : live its x2 (set_inuse (f_inuse f1 + 1) f1) (a ++ a1)).
  { split; [done|]. split; [done|]. split; [done|]. split; [by apply store_extents_nonempty|].
    split; [|split; [done|cbn; lia]]. eapply Forall_impl; [apply Hg1|]. intros q Hq.
    by eapply good_ptr_store; eauto; apply Hshow. }
  eapply wp_mono; [by apply (IH w1 x2 _ (a ++ a1))|].
  intros res w3 (x3 & f3 & a3 & -> & Hlive3 & Hu3 & Hfill & Hframe & Hs3 & Hnet3).
  cbn [set_inuse f_inuse] in Hu3, Hfill, Hframe.
  exists x3, f3, (a1 ++ a3). rewrite app_assoc. split; [done|]. split; [done|].
  split; [cbn [length]; lia|].
  assert (Hk1 : Z.to_nat (f_inuse f1 + 1) = S k) by lia. rewrite Hk1 in Hfill, Hframe.
  split; [|split; [|split; [destruct Hs1 as (? & ? & ?), Hs3 as (? & ? & ?); cbn in *; repeat split; congruence|
    intros h; by rewrite Hnet3, Hnet1]]].
  - intros [|j] nd Hj; cbn in Hj.
    + simplify_eq. exists p, s. rewrite Nat.add_0_r. split; [by apply lookup_app_l_Some|].
      split; [|done]. rewrite (Hframe k p); [done|lia|done].
    + destruct (Hfill j nd Hj) as (q & t & H1 & H2 & H3). exists q, t. by rewrite Nat.add_succ_r.
  - intros i q Hik Hq. assert (Hqa : (a ++ a1) !! i = Some (Some q)) by by apply lookup_app_l_Some.
    rewrite (Hframe i q) by (lia || done).
    assert (p <> q) by (intros ->; pose proof (NoDup_lookup _ _ _ _ Hnd1 Hslot Hqa); lia).
    unfold x2. rewrite load_store_other by done.
    destruct Hlive as (_ & _ & _ & _ & Hg & _). destruct (proj1 (Forall_lookup _ _) Hg _ _ Hq) as (q' & t & [= <-] & Ht).
    rewrite Ht. by apply Hload.
Qed.

Lemma init_anchor_ok o w x f : memory o -> 0 < STACKS_INCR -> anchor_ok x f ->
  wp (init_anchor f) o w (fun res w' => exists f' a, res = (true, f') /\ f_anchor f' = Some a /\
    anchor_ok x f' /\ same_results f f' /\ forall h, net h (w_tr w') = net h (w_tr w)).
Proof.
  intros Hm Hi Ha. unfold init_anchor. destruct (f_anchor f) as [a|] eqn:E.
  - apply wp_ret. exists f, a. by repeat split.
  - wstep. wsys r Hr. destruct (Z.ltb_spec (r_val r) 0) as [Hlt|_].
    { subst r. specialize (Hm (w_tr w) (8 * STACKS_INCR)). lia. }
    apply wp_ret. eexists _, _. split; [done|]. split; [done|].
    split; [|split; [done|intros []; unfold net; cbn [w_tr foldr effect]; lia]].
    unfold anchor_ok in *. rewrite E in Ha. cbn [f_anchor set_anchor f_alloc].
    rewrite length_replicate. split; [lia|]. split; [done|]. by rewrite Ha.
Qed.

Lemma copy_ptrs_whole a src : length src = length a -> copy_ptrs a 0 src = Some src.
Proof.
  intros Hl. unfold copy_ptrs. destruct (Nat.leb_spec (0 + length src) (length a)); [|lia].
  rewrite (drop_ge a) by lia. cbn [take app]. by rewrite app_nil_r.
Qed.

Lemma init_extents_ok o w its x f a : memory o -> ext_ok table x its -> anchor_ok x f ->
  f_anchor f = Some a ->
  wp (init_extents x f) o w (fun res w' => exists x' f' a', res = (true, x', f') /\
    live its x' (set_inuse 0 f') a' /\ same_results f f' /\ forall h, net h (w_tr w') = net h (w_tr w)).
Proof.
  intros Hm Hx Hok Ha. unfold anchor_ok in Hok. rewrite Ha in Hok. destruct Hok as (Hl & Hpos & Hg).
  unfold init_extents. destruct (x_extents x) as [|b0 bl] eqn:E.
  - wstep. eapply wp_mono; [by apply (stacks_alloc_full table o w x its (f_alloc f))|].
    intros res w1 (b & -> & Hid & Hbl & Hx' & Hnet). cbn [snd] in *. rewrite Ha.
    wstep. unfold wp at 1. cbn [deref mret M_ret].
    wstep. rewrite copy_ptrs_whole by (rewrite blob_ptrs_length; lia).
    unfold wp at 1. cbn [deref mret M_ret]. apply wp_ret. eexists _, _, (blob_ptrs b).
    split; [done|]. split; [|done]. split; [done|]. split; [done|]. cbn [f_alloc f_inuse set_inuse set_anchor].
    split; [rewrite blob_ptrs_length; lia|]. split; [done|]. split; [|split; [apply blob_ptrs_nodup|lia]].
    apply Forall_lookup. intros i p [-> Hib]%blob_ptrs_lookup.
    destruct (lookup_lt_is_Some_2 (b_stacks b) i Hib) as [s Hs]. eexists _, s. split; [done|].
    by apply load_new.
  - apply wp_ret. exists x, f, a. split; [done|]. split; [|done]. destruct (Hg ltac:(done)) as [H1 H2].
    split; [done|]. cbn [f_anchor f_alloc f_inuse set_inuse]. rewrite E. do 5 (split; [done|]). lia.
Qed.

Lemma finalize_ok o w f a : memory o -> f_anchor f = Some a -> results_ok f ->
  0 <= f_inuse f <= Z.of_nat (length a) ->
  wp (finalize f) o w (fun res w' => exists f' tail,
    res = (f_inuse f, f') /\ f_anchor f' = Some a /\ f_alloc f' = f_alloc f /\ f_inuse f' = f_inuse f /\
    results_ok f' /\ f_total f' = f_inuse f /\
    f_stacks f' = Some (take (Z.to_nat (f_inuse f)) a ++ None :: tail) /\
    forall h, net h (w_tr w') = net h (w_tr w)).
Proof.
  intros Hm Ha Hr Hu. unfold finalize. wstep. set (n := f_inuse f + 1).
  assert (H1 : wp (if f_saved f <? n then
      r ← sys (CMalloc (8 * n));
      if r_val r <? 0 then mret (false, set_results None n (f_total f) f)
      else mret (true, set_results (Some (realloc_ptrs (f_stacks f) n)) n (f_total f) f)
    else mret (true, f)) o w (fun res w' => exists f1 st, res = (true, f1) /\ f_stacks f1 = Some st /\
      f_saved f1 <= Z.of_nat (length st) /\ n <= f_saved f1 /\ f_anchor f1 = f_anchor f /\
      f_inuse f1 = f_inuse f /\ f_alloc f1 = f_alloc f /\ forall h, net h (w_tr w') = net h (w_tr w))).
  { destruct (Z.ltb_spec (f_saved f) n) as [Hs|Hs].
    - wstep. wsys r Hr0. destruct (Z.ltb_spec (r_val r) 0) as [Hlt|_].
      { subst r. specialize (Hm (w_tr w) (8 * n)). lia. }
      apply wp_ret. eexists _, _. split; [done|]. split; [done|]. cbn [f_saved set_results].
      split; [|split; [lia|split; [done|split; [done|split; [done|]]]]].
      + unfold realloc_ptrs. rewrite length_app, length_take, length_replicate. lia.
      + intros []; unfold net; cbn [w_tr foldr effect]; lia.
    - apply wp_ret. unfold results_ok in Hr. destruct (f_stacks f) as [st|] eqn:Est; [|lia].
      exists f, st. split; [done|]. split; [done|]. split; [lia|]. by repeat split. }
  eapply wp_mono; [apply H1|]. intros res w1 (f1 & st & -> & Hst & Hl & Hn & Ha1 & Hu1 & Hal & Hnet).
  cbn [negb]. rewrite Ha1, Ha, Hst, Hu1. wstep. unfold wp at 1. cbn [deref mret M_ret].
  wstep. unfold wp at 1. cbn [deref mret M_ret]. wstep.
  set (src := take (Z.to_nat (f_inuse f)) a ++ [None]).
  assert (Hsrc : length src = S (Z.to_nat (f_inuse f)))
    by (unfold src; rewrite length_app, length_take; cbn; lia).
  unfold copy_ptrs. destruct (Nat.leb_spec (0 + length src) (length st)); [|lia].
  unfold wp at 1. cbn [deref mret M_ret take app]. apply wp_ret.
  eexists _, (drop (length src) st). split; [done|]. cbn [f_anchor f_alloc f_total f_stacks f_saved set_results].
  split; [by rewrite Ha1|]. split; [done|]. split; [done|]. split; [|split; [done|split; [|done]]].
  - unfold results_ok. cbn [f_stacks f_saved set_results]. cbn [Nat.add].
    rewrite take_0, app_nil_l, length_app, length_drop. lia.
  - rewrite take_0, app_nil_l. unfold src at 1. cbn [Nat.add]. by rewrite <- app_assoc.
Qed.

(** Reconfiguring the items does not invalidate the anchor. *)
Lemma anchor_reconfig x x' f : anchor_ok x f -> x' = x \/ x_extents x' = [] -> anchor_ok x' f.
Proof.
  intros Ha [->|E]; [done|]. unfold anchor_ok in *. destruct (f_anchor f); [|done].
  destruct Ha as (? & ? & _). split; [done|]. split; [done|]. by rewrite E.
Qed.

Lemma live_anchor_ok its x f a : live its x f a -> anchor_ok x f.
Proof.
  intros (Hx & Ha & Hl & Hne & Hg & Hnd & _ & Hp). unfold anchor_ok. rewrite Ha. by repeat split.
Qed.

(** What a successful reap hands out: one pointer per node, in the order of the
    nodes, to a stack that shows the node, closed by a NULL. *)
Definition reaped (its : list Z) (x : ext_support) (f : fetch_support) (nodes : list H) : Prop :=
  f_total f = Z.of_nat (length nodes) /\
  exists st, f_stacks f = Some st /\ st !! length nodes = Some None /\ filled its x st 0 nodes.

Lemma stacks_fetch_ok o w its nodes x f :
  memory o -> 0 < STACKS_INCR -> ext_ok table x its -> anchor_ok x f -> results_ok f ->
  wp (stacks_fetch nodes x f) o w (fun res w' => exists x' f',
    res = (Z.of_nat (length nodes), x', f') /\ ext_ok table x' its /\ anchor_ok x' f' /\
    results_ok f' /\ reaped its x' f' nodes /\ forall h, net h (w_tr w') = net h (w_tr w)).
Proof.
  intros Hm Hi Hx Hok Hr. pose proof Hx as (Hv & _). unfold stacks_fetch. wstep.
  eapply wp_mono; [by apply (init_anchor_ok o w x f)|].
  intros res w1 (f1 & a1 & -> & Ha1 & Hok1 & Hs1 & Hn1). cbn [negb]. wstep.
  eapply wp_mono; [by apply (init_extents_ok o w1 its x f1 a1)|].
  intros res w2 (x2 & f2 & a2 & -> & Hlive2 & Hs2 & Hn2). cbn [negb]. wstep.
  eapply wp_mono; [by apply (fetch_loop_ok o its)|].
  intros res w3 (x3 & f3 & a3 & -> & Hlive3 & Hu3 & Hfill & _ & Hs3 & Hn3). cbn [negb].
  cbn [f_inuse set_inuse] in Hu3, Hfill. rewrite Z.add_0_l in Hu3.
  pose proof Hlive3 as (Hx3 & Ha3 & Hl3 & Hne3 & Hg3 & Hnd3 & Hb3).
  wstep. eapply wp_mono.
  { apply (finalize_ok o w3 f3 (a2 ++ a3)); try done; [|lia].
    unfold results_ok in *. destruct Hs1 as (? & ? & _), Hs2 as (? & ? & _), Hs3 as (? & ? & _).
    cbn [f_saved f_stacks set_inuse] in *.
    replace (f_stacks f3) with (f_stacks f) by congruence. replace (f_saved f3) with (f_saved f) by congruence. done. }
  intros res w4 (f4 & tail & -> & Ha4 & Hal4 & Hi4 & Hr4 & Ht4 & Hst4 & Hn4). apply wp_ret.
  exists x3, f4. rewrite Hu3. split; [done|]. split; [done|].
  split; [|split; [done|split; [|intros h; by rewrite Hn4, Hn3, Hn2, Hn1]]].
  - apply (live_anchor_ok its x3 f4 (a2 ++ a3)). split; [done|]. split; [done|].
    rewrite Hal4. do 4 (split; [done|]). rewrite Hi4. done.
  - split; [lia|]. eexists. split; [done|]. rewrite Hu3, Nat2Z.id. split.
    + apply list_lookup_middle. rewrite length_take. lia.
    + intros j node Hj. pose proof (lookup_lt_Some _ _ _ Hj).
      destruct (Hfill j node Hj) as (p & s & H1 & H2 & H3). exists p, s. split; [|done].
      rewrite lookup_app_l by (rewrite length_take; lia). rewrite lookup_take_lt by lia. exact H1.
Qed.

(** *** Accounting *)

Lemma gains_grow x f : gains (grow x f) (fun _ _ => 0).
Proof. unfold grow. gains_tac. Qed.
#[local] Hint Resolve gains_grow : gdb.

Lemma gains_fetch_loop nodes : forall x f, gains (fetch_loop nodes x f) (fun _ _ => 0).
Proof. induction nodes as [|n nodes IH]; intros x f; cbn [fetch_loop]; gains_tac. Qed.
#[local] Hint Resolve gains_fetch_loop : gdb.

Lemma gains_stacks_fetch nodes x f : gains (stacks_fetch nodes x f) (fun _ _ => 0).
Proof.
  unfold stacks_fetch, init_anchor, init_extents, finalize. gains_zero.
Qed.
End fetch.

#[export] Hint Resolve gains_stacks_fetch : gdb.

(** When the growth of the anchor fails, the anchor is lost while the
    extents stay: the next reap allocates a fresh anchor, does not fill it, and
    dereferences a NULL stack pointer at the first node. *)
Theorem stacks_fetch_enomem {H G} (table : list (uval -> H -> uval)) incr rc o x f node nodes (w : world G) :
  0 < incr -> x_extents x <> [] -> f_alloc f <= f_inuse f ->
  r_val (o (w_tr w) (CMalloc (8 * (f_alloc f + incr)))) < 0 ->
  exists f1 w1, grow incr x f o w = Done (false, x, f1) w1 /\
    forall o' (w' : world G), memory o' ->
      exists w2, stacks_fetch table incr rc (node :: nodes) x f1 o' w' = Undef w2.
Proof.
  intros Hi Hx Hf Hm. set (n := f_alloc f + incr) in *. exists (set_anchor None n f). eexists. split.
  - unfold grow. zcase. fold n. unfold mbind, M_bind, sys. cbv zeta.
    destruct (Z.ltb_spec (r_val (o (w_tr w) (CMalloc (8 * n)))) 0); [|lia]. reflexivity.
  - intros o' w' Hm'. unfold stacks_fetch, init_anchor. cbn [f_anchor set_anchor].
    unfold mbind, M_bind, sys. cbv zeta. specialize (Hm' (w_tr w') (8 * incr)).
    destruct (Z.ltb_spec (r_val (o' (w_tr w') (CMalloc (8 * incr)))) 0); [lia|].
    cbn [mret M_ret negb]. unfold init_extents. destruct (x_extents x) as [|b bl]; [done|].
    cbn [mret M_ret negb fetch_loop]. unfold mbind, M_bind, grow. cbn [set_inuse set_anchor f_inuse f_alloc].
    zcase. cbn [mret M_ret negb]. unfold assign_at. cbn [f_anchor f_inuse set_inuse set_anchor mbind option_bind].
    rewrite lookup_replicate_2 by lia. cbn [mbind option_bind deref]. by eexists.
Qed.

(** ** Sorting *)

(** The comparison functions of the [sortfunc] column. *)
Inductive sortfunc :=
| sort_noop | sort_s_int | sort_u_int | sort_ul_int | sort_str | sort_sl_int | sort_ull_int.

Definition get_u_int (u : uval) : Z := match u with U64 raw => u32 raw | UStr _ => 0 end.
Definition get_sl_int (u : uval) : Z := match u with U64 raw => i64 raw | UStr _ => 0 end.
Definition get_str (u : uval) : bytes := match u with UStr s => s | U64 _ => [] end.

Definition three_way (order a b : Z) : Z :=
  if b <? a then (if 0 <? order then 1 else -1)
  else if a <? b then (if 0 <? order then -1 else 1) else 0.

(** [strcmp] is the string comparison the module uses; the [int] arithmetic of
    the signed comparison is kept at its width, and the [long] difference is
    cut to the [int] that is returned. *)
Definition compare_results (strcmp : bytes -> bytes -> Z) (k : sortfunc) (order : Z) (a b : uval) : Z :=
  match k with
  | sort_noop => 0
  | sort_s_int => i32 (order * i32 (get_s_int a - get_s_int b))
  | sort_u_int => three_way order (get_u_int a) (get_u_int b)
  | sort_ul_int | sort_ull_int => three_way order (get_ul_int a) (get_ul_int b)
  | sort_sl_int => i32 (i64 (order * i64 (get_sl_int a - get_sl_int b)))
  | sort_str => i32 (order * strcmp (get_str a) (get_str b))
  end.

(** The result at an offset of a stack (stacks are homogeneous). *)
Definition at_offset (offset : nat) (s : stack) : uval := from_option r_result (U64 0) (s !! offset).

(** The search for the sort item in the first stack: [None] when it leaves the
    stack, [Some None] when the stack has no such item. *)
Fixpoint find_offset (logical_end sortitem : Z) (s : stack) : option (option nat) :=
  match s with
  | [] => None
  | r :: t =>
      if r_item r =? sortitem then Some (Some 0%nat)
      else if logical_end <=? r_item r then Some None
      else k ← find_offset logical_end sortitem t; Some (option_map S k)
  end.

(** [procps_..._sort]; the inner [None] is NULL.  [qsort] is [qsort_r]. *)
Definition procps_sort (qsort : (stack -> stack -> Z) -> list stack -> list stack)
    (strcmp : bytes -> bytes -> Z) (sortfuncs : list sortfunc)
    (stacks : list stack) (sortitem order : Z) : option (option (list stack)) :=
  let logical_end := Z.of_nat (length sortfuncs) in
  if (sortitem <? 0) || (logical_end <=? sortitem) then Some None
  else if negb (order =? 1) && negb (order =? -1) then Some None
  else if (length stacks <? 2)%nat then Some (Some stacks)
  else
    s ← head stacks;
    offset ← find_offset logical_end sortitem s;
    match offset with
    | None => Some None
    | Some offset =>
        k ← sortfuncs !! Z.to_nat sortitem;
        Some (Some (qsort (fun A B => compare_results strcmp k order (at_offset offset A) (at_offset offset B)) stacks))
    end.

(** What is documented of [qsort_r]: it permutes, and a comparison that is a
    total preorder is respected. *)
Class QSort (qsort : (stack -> stack -> Z) -> list stack -> list stack) : Prop := {
  qsort_perm : forall cmp l, Permutation (qsort cmp l) l;
  qsort_sorted : forall cmp l,
    (forall a b, cmp a b <= 0 \/ cmp b a <= 0) ->
    (forall a b c, cmp a b <= 0 -> cmp b c <= 0 -> cmp a c <= 0) ->
    StronglySorted (fun a b => cmp a b <= 0) (qsort cmp l)
}.

Definition sort_value (k : sortfunc) (u : uval) : Z :=
  match k with sort_u_int => get_u_int u | _ => get_ul_int u end.

Lemma three_way_le order a b : order = 1 \/ order = -1 ->
  three_way order a b <= 0 <-> order * a <= order * b.
Proof. intros [->| ->]; unfold three_way; cbn; zcase; split; lia. Qed.

Lemma find_offset_primed {H} (table : list (uval -> H -> uval)) its s item i :
  primed table its s -> Forall (valid_item table) its -> its !! i = Some item ->
  (forall j, (j < i)%nat -> its !! j <> Some item) ->
  find_offset (logical_end table) item s = Some (Some i).
Proof.
  intros (rs & e & -> & <- & He)%primed_split Hv. revert i.
  induction rs as [|r rs IH]; intros i Hi Hfirst; [done|]. cbn [map] in *.
  inversion Hv as [|? ? Hr Hv']; subst. cbn [app find_offset].
  destruct i as [|i]; cbn in Hi.
  - simplify_eq. by rewrite Z.eqb_refl.
  - destruct (Z.eqb_spec (r_item r) item) as [E|_].
    { exfalso. apply (Hfirst 0%nat); [lia|]. cbn. by rewrite E. }
    unfold valid_item in Hr. zcase. rewrite (IH Hv' i Hi); [done|].
    intros j Hj. apply (Hfirst (S j)). lia.
Qed.

(** Sorting by an unsigned item orders the stacks by its value, ascending or
    descending, and loses none. *)
Lemma procps_sort_ok {H} (table : list (uval -> H -> uval)) qsort `{!QSort qsort} strcmp sortfuncs stacks its
    item order k i :
  length sortfuncs = length table -> Forall (valid_item table) its ->
  Forall (primed table its) stacks -> its !! i = Some item ->
  (forall j, (j < i)%nat -> its !! j <> Some item) ->
  sortfuncs !! Z.to_nat item = Some k -> k = sort_u_int \/ k = sort_ul_int \/ k = sort_ull_int ->
  order = 1 \/ order = -1 -> (2 <= length stacks)%nat ->
  exists l, procps_sort qsort strcmp sortfuncs stacks item order = Some (Some l) /\
    Permutation l stacks /\
    StronglySorted (fun a b => order * sort_value k (at_offset i a) <= order * sort_value k (at_offset i b)) l.
Proof.
  intros Hlen Hv Hp Hi Hf Hk Hku Ho Hl.
  assert (Hvi : valid_item table item) by (eapply Forall_lookup_1; eauto). unfold valid_item, logical_end in Hvi.
  destruct stacks as [|s0 rest] eqn:Es; [cbn in Hl; lia|]. rewrite <- Es in *.
  assert (Hp0 : primed table its s0) by (rewrite Es in Hp; by inversion Hp).
  set (cmp := fun A B => compare_results strcmp k order (at_offset i A) (at_offset i B)).
  exists (qsort cmp stacks). split; [|split; [apply qsort_perm|]].
  - unfold procps_sort. rewrite Hlen.
    destruct (Z.ltb_spec item 0), (Z.leb_spec (Z.of_nat (length table)) item); try lia. cbn [orb].
    assert ((negb (order =? 1) && negb (order =? -1)) = false) as -> by (destruct Ho as [->| ->]; done).
    destruct (Nat.ltb_spec (length stacks) 2); [lia|]. rewrite Es. cbn [head mbind option_bind].
    fold (logical_end table). rewrite (find_offset_primed table its s0 item i) by done.
    cbn [mbind option_bind]. by rewrite Hk.
  - assert (Hle : forall a b, cmp a b <= 0 <->
      order * sort_value k (at_offset i a) <= order * sort_value k (at_offset i b)).
    { intros a b. unfold cmp. destruct Hku as [->|[->| ->]]; cbn; by apply three_way_le. }
    assert (Hs : StronglySorted (fun a b => cmp a b <= 0) (qsort cmp stacks)).
    { apply qsort_sorted; [intros a b|intros a b c]; rewrite !Hle; lia. }
    clear -Hs Hle. induction Hs as [|a l _ IH Ha]; constructor; [done|].
    eapply Forall_impl; [apply Ha|]. cbn. intros b. by rewrite Hle.
Qed.

(** The signed comparison wraps: the largest value sorts before -1. *)
Lemma compare_s_int_wraps strcmp :
  compare_results strcmp sort_s_int 1 (U64 INT_MAX) (U64 (u32 (-1))) < 0.
Proof. reflexivity. Qed.

(** A sorting function with the documented behaviour. *)
Section isort.
Variable cmp : stack -> stack -> Z.
Fixpoint isort_insert (a : stack) (l : list stack) : list stack :=
  match l with
  | [] => [a]
  | b :: r => if cmp a b <=? 0 then a :: l else b :: isort_insert a r
  end.
Fixpoint isort (l : list stack) : list stack :=
  match l with [] => [] | a :: r => isort_insert a (isort r) end.

Lemma isort_insert_perm a l : Permutation (isort_insert a l) (a :: l).
Proof.
  induction l as [|b r IH]; cbn; [done|]. destruct (cmp a b <=? 0); [done|].
  rewrite IH. apply Permutation_swap.
Qed.

Lemma isort_perm l : Permutation (isort l) l.
Proof. induction l as [|a r IH]; cbn; [done|]. by rewrite isort_insert_perm, IH. Qed.

Lemma isort_sorted l : (forall a b, cmp a b <= 0 \/ cmp b a <= 0) ->
  (forall a b c, cmp a b <= 0 -> cmp b c <= 0 -> cmp a c <= 0) ->
  StronglySorted (fun a b => cmp a b <= 0) (isort l).
Proof.
  intros Ht Htr. induction l as [|a r IH]; cbn; [constructor|].
  induction IH as [|b s Hs IHs Hb]; cbn; [by repeat constructor|].
  destruct (Z.leb_spec (cmp a b) 0) as [Hab|Hab].
  - constructor; [by constructor|]. constructor; [done|]. eapply Forall_impl; [apply Hb|]. eauto.
  - constructor; [done|]. rewrite isort_insert_perm. constructor; [|done].
    destruct (Ht a b); [lia|done].
Qed.
End isort.

#[export] Instance isort_qsort : QSort isort.
Proof. split; [intros; apply isort_perm|intros; by apply isort_sorted]. Qed.

(** ** Witness *)

(** One stack in use and no memory for more. *)
Definition full_ext : ext_support := Ext 2 (Some [0; 1]) [Blob 0 [[Result 0 (U64 0); Result 1 (U64 0)]]] 1.
Definition full_fetch : fetch_support := Fetch (Some [Some (0%nat, 0%nat)]) 1 1 0 None 0.

Lemma stacks_fetch_enomem_witness :
  exists f1 w1, grow 1 full_ext full_fetch (fun _ _ => rerr 12) (World [] 0 tt) = Done (false, full_ext, f1) w1 /\
    forall o' (w' : world unit), memory o' ->
      exists w2, stacks_fetch [fun u (_ : unit) => u] 1 (-1) [tt; tt] full_ext f1 o' w' = Undef w2.
Proof.
  apply (stacks_fetch_enomem [fun u (_ : unit) => u] 1 (-1) (fun _ _ => rerr 12) full_ext full_fetch tt [tt]
    (World [] 0 tt)); [lia|done|cbn; lia|cbn; lia].
Defined.

(** ** Streams read line by line *)

(** How many lines were read since the file was rewound. *)
Fixpoint line_no (fp : Z) (t : trace) : nat :=
  match t with
  | [] => 0
  | (CFseek f _, _) :: t' => if f =? fp then 0 else line_no fp t'
  | (CFgets f _, _) :: t' => if f =? fp then S (line_no fp t') else line_no fp t'
  | _ :: t' => line_no fp t'
  end.

(** The stream [fp] delivers these lines, from its start after every rewind. *)
Definition serves (o : os) (fp : Z) (ls : list bytes) : Prop := forall t n,
  o t (CFgets fp n) = match ls !! line_no fp t with Some l => rdata 1 l | None => rerr 0 end.

(** The stream a context has open. *)
Definition held (fp : Z) (h : handle) : Z :=
  match h with HFp v => if (0 <=? fp) && (fp =? v) then 1 else 0 | _ => 0 end.
