(* ===== verification/Real.v ===== *)
(** * Finite floating-point numbers

    A finite [double] is a multiple of the smallest positive one, 2 ^ -1074: it
    is modelled by that multiple, an integer, and so is a finite [float].  The
    operations of the language round the exact result to the nearest number of
    the format, ties to even.  Zero has no sign here, and infinities and NaNs
    are outside the model; the code that uses these numbers adds, subtracts,
    compares, divides by positive counts and prints. *)

From stdpp Require Import base numbers list strings.
From S2P Require Import Prelude Libc.
Open Scope Z_scope.

Module Real.

(** ** Rounding *)

(** The number 1. *)
Definition one : Z := 2 ^ 1074.

Arguments one : simpl never.

(** The integer nearest to [n / d], ties to even, for [d > 0]. *)
Definition nearest (n d : Z) : Z :=
  let q := n / d in
  let r := n mod d in
  if 2 * r <? d then q else if d <? 2 * r then q + 1 else if Z.even q then q else q + 1.

(** [n / d] rounded to [prec] significant bits, of which none is worth less than
    [2 ^ low]. *)
Definition round (prec low n d : Z) : Z :=
  let s := Z.max low (Z.log2 (Z.abs n / d) - (prec - 1)) in
  2 ^ s * nearest n (d * 2 ^ s).

(** The formats [double] and [float]. *)
Definition rnd (n d : Z) : Z := round 53 0 n d.
Definition rndf (n d : Z) : Z := round 24 925 n d.

(** Conversion of integers and the operations that occur. *)
Definition of_int (n : Z) : Z := rnd (n * one) 1.
Definition of_intf (n : Z) : Z := rndf (n * one) 1.
Definition fadd (x y : Z) : Z := rnd (x + y) 1.
Definition fsub (x y : Z) : Z := rnd (x - y) 1.
Definition fdiv (x y : Z) : Z := rnd (x * one) y.
Definition fmulf (x y : Z) : Z := rndf (x * y) one.
Definition fdivf (x y : Z) : Z := rndf (x * one) y.

(** [(int) x], undefined when the value is not one of [int]. *)
Definition to_int (x : Z) : option Z :=
  let n := Z.quot x one in
  if (INT_MIN <=? n) && (n <=? INT_MAX) then Some n else None.

(** ** Text *)

(** [%lf] of the [scanf] family for decimal numbers without an exponent, with
    the decimal point [radix] of the locale.  [LfOther] is a text of another
    form (an exponent, a hexadecimal number, an infinity, a NaN) or a number
    beyond the format: what it denotes is not modelled. *)
Inductive lf := LfFail | LfVal (x : Z) (rest : bytes) | LfOther.

Definition is_one_of (c : Z) (l : bytes) : bool := bool_decide (c ∈ l).

Definition lf_number (neg : bool) (whole frac rest : bytes) : lf :=
  if bool_decide (whole = []) && bool_decide (frac = []) then
    match rest with c :: _ => if is_one_of c (bs "iInN") then LfOther else LfFail | [] => LfFail end
  else if match rest with c :: _ => is_one_of c (bs "eE") | [] => false end then LfOther
  else if bool_decide (whole = bs "0") && bool_decide (frac = []) &&
          match rest with c :: _ => is_one_of c (bs "xX") | [] => false end then LfOther
  else
    let v := rnd (dec_value (whole ++ frac) * one) (10 ^ Z.of_nat (length frac)) in
    if 2 ^ 1024 * one <=? v then LfOther else LfVal (if neg then - v else v) rest.

Definition scan_lf (radix : Z) (s : bytes) : lf :=
  let '(neg, s) := scan_sign (skip_spaces s) in
  let '(whole, s) := span_digits s in
  match s with
  | c :: r =>
      if c =? radix then let '(frac, r) := span_digits r in lf_number neg whole frac r
      else lf_number neg whole [] s
  | [] => lf_number neg whole [] s
  end.

(** [sscanf] of [n] numbers: the values stored; [None] outside the model. *)
Fixpoint scan_lfs (n : nat) (radix : Z) (s : bytes) : option (list Z) :=
  match n with
  | O => Some []
  | S n =>
      match scan_lf radix s with
      | LfFail => Some []
      | LfVal x r => vs ← scan_lfs n radix r; Some (x :: vs)
      | LfOther => None
      end
  end.

Definition two_digits (n : Z) : bytes := [48 + n / 10; 48 + n mod 10].

(** [%.2f] *)
Definition fmt_f2 (radix x : Z) : bytes :=
  let c := nearest (Z.abs x * 100) one in
  (if x <? 0 then [45] else []) ++ dec (c / 100) ++ radix :: two_digits (c mod 100).

(** ** Facts *)

Lemma one_pos : 0 < one.
Proof. unfold one. lia. Qed.

Lemma nearest_exact q d : 0 < d -> nearest (q * d) d = q.
Proof.
  intros Hd. unfold nearest. rewrite Z.div_mul, Z.mod_mul by lia. zcase; lia.
Qed.

(** The error is at most one half. *)
Lemma nearest_error n d : 0 < d -> 2 * Z.abs (nearest n d * d - n) <= d.
Proof.
  intros Hd. unfold nearest. pose proof (Z.div_mod n d ltac:(lia)). pose proof (Z.mod_pos_bound n d Hd).
  set (q := n / d) in *. set (r := n mod d) in *.
  replace n with (q * d + r) by lia. zcase; [|nia|]; [nia|]. destruct (Z.even q); nia.
Qed.

Lemma nearest_mono n m d : 0 < d -> n <= m -> nearest n d <= nearest m d.
Proof.
  intros Hd H. unfold nearest.
  pose proof (Z.div_mod n d ltac:(lia)). pose proof (Z.mod_pos_bound n d Hd).
  pose proof (Z.div_mod m d ltac:(lia)). pose proof (Z.mod_pos_bound m d Hd).
  assert (n / d <= m / d) by (apply Z.div_le_mono; lia).
  destruct (Z.eq_dec (n / d) (m / d)) as [E|E].
  - rewrite <- E in *. set (q := n / d) in *.
    destruct (Z.even q); zcase; lia.
  - destruct (Z.even (n / d)), (Z.even (m / d)); zcase; lia.
Qed.

Lemma round_exact p low m e d : 0 < p -> 0 <= low <= e -> Z.abs m < 2 ^ p -> 0 < d ->
  round p low (m * 2 ^ e * d) d = m * 2 ^ e.
Proof.
  intros Hp He Hm Hd. unfold round. rewrite Z.abs_mul, (Z.abs_eq d), Z.div_mul by lia.
  set (s := Z.max low _).
  assert (Hs : 0 <= s <= e).
  { split; [lia|]. apply Z.max_lub; [lia|]. destruct (Z.eq_dec m 0) as [->|Hn].
    - rewrite Z.mul_0_l. change (Z.log2 (Z.abs 0)) with 0. lia.
    - assert (Hlog : Z.log2 (Z.abs (m * 2 ^ e)) < p + e); [|lia].
      apply Z.log2_lt_pow2; [nia|]. rewrite Z.abs_mul, Z.pow_add_r by lia.
      rewrite (Z.abs_eq (2 ^ e)) by lia. apply Z.mul_lt_mono_pos_r; lia. }
  assert (E : 2 ^ e = 2 ^ (e - s) * 2 ^ s) by (rewrite <- Z.pow_add_r by lia; f_equal; lia).
  replace (m * 2 ^ e * d) with (m * 2 ^ (e - s) * (d * 2 ^ s)) by (rewrite E; ring).
  rewrite nearest_exact by lia. rewrite E. ring.
Qed.

(** A number of the format is not changed. *)
Lemma rnd_exact m e : 0 <= e -> Z.abs m < 2 ^ 53 -> rnd (m * 2 ^ e) 1 = m * 2 ^ e.
Proof. intros. rewrite <- (Z.mul_1_r (m * 2 ^ e)) at 1. apply round_exact; lia. Qed.

(** Integers below 2 ^ 53 are exact. *)
Lemma of_int_exact n : Z.abs n < 2 ^ 53 -> of_int n = n * one.
Proof. intros. unfold of_int, one. by apply rnd_exact. Qed.

(** The numbers of the format, and the difference to an integer: it is exact
    when it stays between 0 and the minuend. *)
Definition finite (x : Z) : Prop := exists m e, 0 <= e <= 1074 /\ Z.abs m < 2 ^ 53 /\ x = m * 2 ^ e.

Lemma fsub_int x k : finite x -> 0 <= k -> k * one <= x -> fsub x (k * one) = x - k * one /\ finite (x - k * one).
Proof.
  intros (m & e & He & Hm & ->) Hk Hx. unfold fsub, one in *.
  assert (E : m * 2 ^ e - k * 2 ^ 1074 = (m - k * 2 ^ (1074 - e)) * 2 ^ e).
  { rewrite Z.mul_sub_distr_r, <- Z.mul_assoc, <- Z.pow_add_r by lia. do 3 f_equal. lia. }
  assert (0 <= m - k * 2 ^ (1074 - e)).
  { assert (0 < 2 ^ e) by lia. nia. }
  assert (Z.abs (m - k * 2 ^ (1074 - e)) < 2 ^ 53) by nia.
  rewrite E. split; [apply rnd_exact; lia|]. by exists (m - k * 2 ^ (1074 - e)), e.
Qed.
(** Rounding gives a number of the format. *)
Lemma rnd_finite n d : 0 <= n -> 0 < d -> n < d * 2 ^ 1125 -> finite (rnd n d).
Proof.
  intros Hn Hd Hlt. unfold rnd, round. rewrite Z.abs_eq by done.
  assert (Hq : n / d < 2 ^ 1125) by (apply Z.div_lt_upper_bound; lia).
  assert (H0 : 0 <= n / d) by (apply Z.div_pos; lia).
  set (s := Z.max 0 (Z.log2 (n / d) - (53 - 1))).
  assert (Hs : 0 <= s <= 1072).
  { unfold s. destruct (Z.eq_dec (n / d) 0) as [E|E]; [rewrite E; change (Z.log2 0) with 0; lia|].
    assert (Z.log2 (n / d) < 1125) by (apply Z.log2_lt_pow2; lia). lia. }
  assert (Hw : n / (d * 2 ^ s) < 2 ^ 53).
  { rewrite <- Z.div_div by lia. apply Z.div_lt_upper_bound; [lia|]. rewrite <- Z.pow_add_r by lia.
    destruct (Z.eq_dec (n / d) 0) as [E|E]; [rewrite E; lia|].
    apply Z.log2_lt_pow2; [lia|]. unfold s. lia. }
  assert (Hw0 : 0 <= n / (d * 2 ^ s)) by (apply Z.div_pos; lia).
  assert (Hm : 0 <= nearest n (d * 2 ^ s) <= 2 ^ 53).
  { unfold nearest. zcase; try lia. destruct (Z.even _); lia. }
  rewrite (Z.mul_comm (2 ^ s)). destruct (Z.eq_dec (nearest n (d * 2 ^ s)) (2 ^ 53)) as [->|E].
  - exists (2 ^ 52), (s + 1). split; [lia|]. split; [lia|]. rewrite <- !Z.pow_add_r by lia. f_equal. lia.
  - exists (nearest n (d * 2 ^ s)), s. split; [lia|]. split; [lia|]. reflexivity.
Qed.

(** The relative error is at most 2 ^ -53: the result lies within half a unit of
    the last of the 53 bits. *)
Lemma rnd_error n d k : 0 <= n -> 0 < d -> 52 <= k -> n < d * 2 ^ k ->
  2 * Z.abs (rnd n d * d - n) <= d * 2 ^ (k - 52).
Proof.
  intros Hn Hd Hk Hlt. unfold rnd, round. rewrite !(Z.abs_eq n) by done.
  set (s := Z.max 0 (Z.log2 (n / d) - (53 - 1))).
  assert (Hs : 0 <= s <= k - 52).
  { assert (n / d < 2 ^ k) by (apply Z.div_lt_upper_bound; lia).
    unfold s. destruct (Z.eq_dec (n / d) 0) as [E|E]; [rewrite E; change (Z.log2 0) with 0; lia|].
    assert (0 <= n / d) by (apply Z.div_pos; lia).
    assert (Z.log2 (n / d) < k) by (apply Z.log2_lt_pow2; lia). lia. }
  pose proof (nearest_error n (d * 2 ^ s) ltac:(lia)) as He.
  assert (2 ^ s <= 2 ^ (k - 52)) by (apply Z.pow_le_mono_r; lia).
  replace (2 ^ s * nearest n (d * 2 ^ s) * d - n) with (nearest n (d * 2 ^ s) * (d * 2 ^ s) - n) by ring. nia.
Qed.
End Real.
