(* ===== verification/Sysinfo.v ===== *)
(** * procps/linux/sysinfo.c, version.c and uptime.c

    Clock ticks, load averages, the length of a process id, the number of
    processors, the kernel version, and the two texts about how long the system
    has been up.  The descriptor that stays open for the load averages and the
    remembered length are passed in and returned.  [double]s are those of
    [Real]. *)

From stdpp Require Import base numbers list strings.
From S2P Require Import Prelude Libc Posix Stacks Fetch Real.
Open Scope Z_scope.

Module Sysinfo.
Import Real.

Definition EIO : Z := 5.
Definition ERANGE : Z := 34.

(** ** sysinfo.c *)

Definition SC_CLK_TCK : Z := 2.
Definition SC_NPROCESSORS_ONLN : Z := 84.

Definition BAD_OPEN_MESSAGE : bytes :=
  bs "Error: /proc must be mounted" ++ [10] ++
  bs "  To mount /proc at boot you need an /etc/fstab line like:" ++ [10] ++
  bs "      proc   /proc   proc    defaults" ++ [10] ++
  bs "  In the meantime, run " ++ [34] ++ bs "mount proc /proc -t proc" ++ [34; 10].

Definition LOADAVG_FILE : bytes := bs "/proc/loadavg".
Definition BUFSZ : Z := 8192.

(** [FILE_TO_BUF]: the descriptor and the bytes read. *)
Definition file_to_buf {G} (filename : bytes) (fd : Z) : M G (Z * bytes) :=
  fd ← (if fd =? -1 then
          r ← sys (COpen filename 0 0);
          if r_val r =? -1 then _ ← stderr BAD_OPEN_MESSAGE; exit_now 102 else mret (r_val r)
        else mret fd);
  _ ← sys (CLseek fd 0);
  n ← sys (CRead fd (BUFSZ - 1));
  if r_val n <? 0 then _ ← perror filename; exit_now 103
  else if BUFSZ - 1 <? r_val n then undef
  else mret (fd, take (Z.to_nat (r_val n)) (r_data n)).

Definition procps_hertz_get {G} : M G Z :=
  r ← sys (CSysconf SC_CLK_TCK); mret (if 0 <? r_val r then r_val r else 100).

(** What the variables hold that were 0 before a scan stored [vs] in the first
    of them. *)
Definition stored (n : nat) (vs : list Z) : list Z := vs ++ replicate (n - length vs) 0.

(** The value returned, the three averages and the descriptor.  Without a
    locale object [freelocale] is called with none, which is undefined. *)
Definition procps_loadavg {G} (loadavg_fd : Z) : M G (Z * list Z * Z) :=
  '(fd, data) ← file_to_buf LOADAVG_FILE loadavg_fd;
  l ← sys CNewlocale;
  if r_val l <? 0 then undef else
  s ← deref (cstr (data ++ [0]));
  vs ← deref (scan_lfs 3 46 s);
  mret (if (length vs <? 3)%nat then - ERANGE else 0, stored 3 vs, fd).

Definition PROCFS_PID_MAX : bytes := bs "/proc/sys/kernel/pid_max".
Definition DEFAULT_PID_LENGTH : Z := 5.

(** The length of the line without its newline: undefined for an empty one. *)
Definition line_length (line : bytes) : option Z :=
  s ← cstr (line ++ [0]);
  c ← last s;
  Some (Z.of_nat (length s) - (if c =? 10 then 1 else 0)).

(** The value returned is the new value of the static [pid_length]. *)
Definition procps_pid_length {G} (pid_length : Z) : M G Z :=
  if negb (pid_length =? 0) then mret pid_length else
  fp ← sys (CFopen PROCFS_PID_MAX);
  if r_val fp <? 0 then mret DEFAULT_PID_LENGTH else
  g ← sys (CFgets (r_val fp) 24);
  n ← (if r_val g <? 0 then mret DEFAULT_PID_LENGTH else deref (line_length (r_data g)));
  _ ← sys (CFclose (r_val fp));
  mret n.

Definition procps_cpu_count {G} : M G Z :=
  r ← sys (CSysconf SC_NPROCESSORS_ONLN); mret (if r_val r <? 1 then 1 else r_val r).

(** ** version.c *)

Definition PROCFS_OSRELEASE : bytes := bs "/proc/sys/kernel/osrelease".

(** [LINUX_VERSION] and its inverses (misc.h). *)
Definition LINUX_VERSION (x y z : Z) : Z := 65536 * Z.land x 32767 + 256 * Z.land y 255 + Z.land z 255.
Definition LINUX_VERSION_MAJOR (v : Z) : Z := Z.land (Z.shiftr v 16) 255.
Definition LINUX_VERSION_MINOR (v : Z) : Z := Z.land (Z.shiftr v 8) 255.
Definition LINUX_VERSION_PATCH (v : Z) : Z := Z.land v 255.

Definition osrelease_fmt : list directive := [DU; DLit 46; DU; DLit 46; DU].

Definition scanned (vs : list sval) (i : nat) : Z :=
  match vs !! i with Some (VI v) => v | _ => 0 end.

Definition procps_linux_version {G} : M G Z :=
  fp ← sys (CFopen PROCFS_OSRELEASE);
  if r_val fp <? 0 then e ← get_errno; mret (- e) else
  g ← sys (CFgets (r_val fp) 256);
  if r_val g <? 0 then _ ← sys (CFclose (r_val fp)); mret (- EIO) else
  _ ← sys (CFclose (r_val fp));
  s ← deref (cstr (r_data g ++ [0]));
  let vs := sscanf osrelease_fmt s in
  let depth := length vs in
  let x := scanned vs 0 in
  if (depth <? 2)%nat || ((depth <? 3)%nat && (x <? 3)) then mret (- ERANGE)
  else mret (LINUX_VERSION x (scanned vs 1) (scanned vs 2)).

(** ** uptime.c *)

Definition USER_PROCESS : Z := 7.

(** An entry is [ut_type] with [ut_name]; NULL is negative. *)
Fixpoint count_loop {G} (fuel : nat) (numuser : Z) : M G Z :=
  match fuel with
  | O => nofuel
  | S f =>
      ut ← sys CGetutent;
      if r_val ut <? 0 then mret numuser else
      count_loop f (if (r_dtype ut =? USER_PROCESS) && negb (bool_decide (r_data ut = []))
                    then numuser + 1 else numuser)
  end.

Definition count_users {G} (fuel : nat) : M G Z :=
  _ ← sys CSetutent;
  n ← count_loop fuel 0;
  _ ← sys CEndutent;
  mret n.

Definition UPTIME_FILE : bytes := bs "/proc/uptime".

(** The value returned and what is stored through the two pointers: nothing
    when the file cannot be opened. *)
Definition procps_uptime {G} : M G (Z * option (Z * Z)) :=
  fp ← sys (CFopen UPTIME_FILE);
  if r_val fp <? 0 then e ← get_errno; mret (- e, None) else
  l ← sys CNewlocale;
  t ← sys (CFscan (r_val fp));
  vs ← deref (scan_lfs 2 46 (r_data t));
  _ ← sys (CFclose (r_val fp));
  if r_val l <? 0 then undef else
  let v := stored 2 vs in
  mret (if (length vs <? 2)%nat then - ERANGE else 0, Some (nth 0 v 0, nth 1 v 0)).

(** [%02d] and [%2d] of a non-negative number. *)
Definition padded (pad : Z) (n : Z) : bytes := replicate (2 - length (fmt_d n)) pad ++ fmt_d n.

Definition choose (b : bool) (x y : string) : bytes := bs (if b then x else y).

(** The text up to the number of users. *)
Definition uptime_text (tm : Z * Z * Z) (up : Z) : bytes :=
  let '(h, m, s) := tm in
  let updays := Z.quot up 86400 in
  let uphours := Z.rem (Z.quot up 3600) 24 in
  let upminutes := Z.rem (Z.quot up 60) 60 in
  bs " " ++ padded 48 h ++ bs ":" ++ padded 48 m ++ bs ":" ++ padded 48 s ++ bs " up " ++
  (if updays =? 0 then [] else fmt_d updays ++ bs " " ++ choose (1 <? updays) "days" "day" ++ bs ", ") ++
  (if uphours =? 0 then fmt_d upminutes ++ bs " min, "
   else padded 32 uphours ++ bs ":" ++ padded 48 upminutes ++ bs ", ").

Definition users_text (radix users : Z) (av : list Z) : bytes :=
  padded 32 users ++ bs " " ++ choose (1 <? users) "users" "user" ++ bs ",  load average: " ++
  fmt_f2 radix (nth 0 av 0) ++ bs ", " ++ fmt_f2 radix (nth 1 av 0) ++ bs ", " ++ fmt_f2 radix (nth 2 av 0).

(** [localtime] is the conversion of the time zone; [radix] the decimal point of
    the locale.  The buffer has 256 bytes. *)
Definition procps_uptime_sprint {G} (fuel : nat) (localtime : Z -> Z * Z * Z) (radix loadavg_fd : Z) :
    M G (bytes * Z) :=
  t ← sys CTime;
  if r_val t <? 0 then mret ([], loadavg_fd) else
  '(rc, v) ← procps_uptime;
  if rc <? 0 then mret ([], loadavg_fd) else
  '(up, _) ← deref v;
  n ← deref (to_int up);
  users ← count_users fuel;
  '(_, av, fd) ← procps_loadavg loadavg_fd;
  let text := uptime_text (localtime (r_val t)) n ++ users_text radix users av in
  if 256 <=? Z.of_nat (length text) then undef else mret (text, fd).

(** *** The short text *)

(** [if (uptime_secs > u) { k = (int) uptime_secs / u; uptime_secs -= k * u; }],
    [k] being 0 otherwise. *)
Definition split (u x : Z) : option (Z * Z) :=
  if of_int u <? x then
    n ← to_int x;
    let k := Z.quot n u in
    Some (k, fsub x (of_int (k * u)))
  else Some (0, x).

Definition DECADE : Z := 315360000.
Definition YEAR : Z := 31536000.
Definition WEEK : Z := 604800.
Definition DAY : Z := 86400.
Definition HOUR : Z := 3600.
Definition MINUTE : Z := 60.

Record parts := Parts {
  updecades : Z; upyears : Z; upweeks : Z; updays : Z;
  uphours : option Z;                    (* [None]: never assigned *)
  upminutes : Z; left_secs : Z }.

Definition split_all (x : Z) : option parts :=
  '(d, x) ← split DECADE x;
  '(y, x) ← split YEAR x;
  '(w, x) ← split WEEK x;
  '(a, x) ← split DAY x;
  '(h, x) ← (if of_int HOUR <? x then '(h, x) ← split HOUR x; Some (Some h, x) else Some (None, x));
  '(m, x) ← split MINUTE x;
  Some (Parts d y w a h m x).

(** One clause of the text: nothing when it is not [shown]. *)
Definition clause (shown : bool) (n : Z) (many : bool) (plural singular : string) (st : bytes * Z) : bytes * Z :=
  let '(text, comma) := st in
  if shown then (text ++ (if 0 <? comma then bs ", " else []) ++ fmt_d n ++ bs " " ++ choose many plural singular, comma + 1)
  else st.

Definition counted (n : Z) (plural singular : string) : bytes * Z -> bytes * Z :=
  clause (negb (n =? 0)) n (1 <? n) plural singular.

(** Reading [uphours] before it was assigned is undefined. *)
Definition short_text (p : parts) : option bytes :=
  h ← uphours p;
  let st := (bs "up ", 0) in
  let st := counted (updecades p) "decades" "decade" st in
  let st := counted (upyears p) "years" "year" st in
  let st := counted (upweeks p) "weeks" "week" st in
  let st := counted (updays p) "days" "day" st in
  let st := counted h "hours" "hour" st in
  let m := upminutes p in
  Some (clause (negb (m =? 0) || (left_secs p <? of_int 60)) m (negb (m =? 1)) "minutes" "minute" st).1.

Definition procps_uptime_sprint_short {G} : M G bytes :=
  '(rc, v) ← procps_uptime;
  if rc <? 0 then mret [] else
  '(up, _) ← deref v;
  p ← deref (split_all up);
  deref (short_text p).

(** ** /proc/uptime *)

(** The line the kernel prints for [n] + [c]/100 and [i] + [j]/100 seconds. *)
Definition uptime_line (n c i j : Z) : bytes :=
  dec n ++ 46 :: two_digits c ++ 32 :: dec i ++ 46 :: two_digits j ++ [10].

(** The number that is read for it. *)
Definition secs (n c : Z) : Z := rnd ((100 * n + c) * one) 100.

Lemma two_digits_ok c : 0 <= c < 100 -> all_digits (two_digits c) /\ dec_value (two_digits c) = c.
Proof.
  intros Hc. pose proof (Z.div_mod c 10 ltac:(lia)). pose proof (Z.mod_pos_bound c 10 ltac:(lia)).
  assert (0 <= c / 10 < 10) by (split; [apply Z.div_pos|apply Z.div_lt_upper_bound]; lia).
  split; [repeat constructor; apply isdigit_spec; lia|]. unfold dec_value, two_digits, dec_step. cbn [foldl]. lia.
Qed.

Lemma dec_value_two n c : 0 <= n -> 0 <= c < 100 -> dec_value (dec n ++ two_digits c) = 100 * n + c.
Proof.
  intros Hn Hc. unfold dec_value. rewrite foldl_app. fold (dec_value (dec n)). rewrite dec_value_dec by done.
  pose proof (Z.div_mod c 10 ltac:(lia)). unfold two_digits, dec_step. cbn [foldl]. lia.
Qed.

Lemma scan_lf_two n c r : 0 <= n < 2 ^ 64 -> 0 <= c < 100 -> (exists x t, r = x :: t /\ (x = 32 \/ x = 10)) ->
  scan_lf 46 (dec n ++ 46 :: two_digits c ++ r) = LfVal (secs n c) r.
Proof.
  intros Hn Hc (x & t & -> & Hx). unfold scan_lf.
  destruct (dec_head n ltac:(lia)) as (d & u & Hd & Hdig).
  assert (Hs : skip_spaces (dec n ++ 46 :: two_digits c ++ x :: t) = dec n ++ 46 :: two_digits c ++ x :: t)
    by (rewrite Hd; cbn [app]; by apply skip_spaces_digit).
  assert (Hg : scan_sign (dec n ++ 46 :: two_digits c ++ x :: t) = (false, dec n ++ 46 :: two_digits c ++ x :: t))
    by (rewrite Hd; cbn [app]; by apply scan_sign_digit).
  rewrite Hs, Hg, span_digits_app by (try apply dec_digits; done || lia). cbn beta iota.
  change (46 =? 46) with true. cbv iota.
  rewrite span_digits_app by (try apply two_digits_ok; destruct Hx as [->| ->]; done). cbn beta iota.
  unfold lf_number. rewrite dec_value_two by lia. change (10 ^ Z.of_nat (length (two_digits c))) with 100.
  fold (secs n c). rewrite (bool_decide_false (dec n = [])) by apply dec_nonnil. cbn [andb].
  rewrite (bool_decide_false (two_digits c = [])) by done. rewrite andb_false_r. cbn [andb].
  assert (is_one_of x (bs "eE") = false) as -> by (destruct Hx as [->| ->]; vm_compute; reflexivity).
  assert (Hlt : secs n c < 2 ^ 1024 * one).
  { pose proof one_pos. pose proof (rnd_error ((100 * n + c) * one) 100 1140 ltac:(nia) ltac:(lia) ltac:(lia)) as He.
    unfold secs, one in *. lia. }
  destruct (Z.leb_spec (2 ^ 1024 * one) (secs n c)); [lia|done].
Qed.

Lemma scan_line n c i j : 0 <= n < 2 ^ 64 -> 0 <= c < 100 -> 0 <= i < 2 ^ 64 -> 0 <= j < 100 ->
  scan_lfs 2 46 (uptime_line n c i j) = Some [secs n c; secs i j].
Proof.
  intros. unfold uptime_line. cbn [scan_lfs]. rewrite scan_lf_two by (eauto || (repeat eexists; by left)).
  assert (scan_lf 46 (32 :: dec i ++ 46 :: two_digits j ++ [10]) = scan_lf 46 (dec i ++ 46 :: two_digits j ++ [10])) as ->.
  { unfold scan_lf. cbn [skip_spaces]. done. }
  rewrite scan_lf_two by (eauto || (repeat eexists; by right)). done.
Qed.

(** The stream of the file, and what it delivers. *)
Definition uptime_file (o : os) (fp : Z) (line : bytes) : Prop :=
  0 <= fp /\ (forall t, r_val (o t (CFopen UPTIME_FILE)) = fp) /\
  (forall t, 0 <= r_val (o t CNewlocale)) /\ (forall t, r_data (o t (CFscan fp)) = line).

Lemma procps_uptime_wp {G} o (w : world G) fp n c i j :
  uptime_file o fp (uptime_line n c i j) ->
  0 <= n < 2 ^ 64 -> 0 <= c < 100 -> 0 <= i < 2 ^ 64 -> 0 <= j < 100 ->
  wp procps_uptime o w (fun r w' => r = (0, Some (secs n c, secs i j)) /\
    forall h, 0 <= handle_val h -> net h (w_tr w') = net h (w_tr w)).
Proof.
  intros (Hp & Hf & Hl & Hs) Hn Hc Hi Hj. unfold procps_uptime. wstep. wsys f Ef.
  assert (r_val f = fp) as E by (subst f; apply Hf). rewrite !E. zcase.
  wstep. wsys l El. wstep. wsys t Et. assert (r_data t = uptime_line n c i j) as -> by (subst t; apply Hs).
  rewrite scan_line by done. wstep. cbn [deref]. apply wp_ret. wstep. wsys x Ex.
  assert (0 <= r_val l) by (subst l; apply Hl). zcase. apply wp_ret.
  split; [done|]. intros h Hh. unfold net. cbn [w_tr foldr]. fd_leaf.
Qed.

(** ** The parts of the short text *)

Lemma to_int_ok x : 0 <= x < 2 ^ 31 * one -> to_int x = Some (x / one).
Proof.
  intros Hx. pose proof one_pos. unfold to_int. rewrite Z.quot_div_nonneg by lia.
  assert (0 <= x / one < 2 ^ 31) by (split; [apply Z.div_pos|apply Z.div_lt_upper_bound]; lia).
  unfold INT_MIN, INT_MAX. zcase. done.
Qed.

(** A unit is taken off exactly. *)
Lemma split_ok u x : 0 < u < 2 ^ 31 -> finite x -> 0 <= x < 2 ^ 31 * one ->
  exists k x', split u x = Some (k, x') /\ x = u * k * one + x' /\ 0 <= k <= x / (u * one) /\
    0 <= x' <= u * one /\ finite x'.
Proof.
  intros Hu Hf Hx. pose proof one_pos. unfold split. rewrite of_int_exact by lia.
  destruct (Z.ltb_spec (u * one) x) as [Hlt|Hge].
  - rewrite to_int_ok by done. cbn [mbind option_bind].
    assert (Hn : 0 <= x / one < 2 ^ 31) by (split; [apply Z.div_pos|apply Z.div_lt_upper_bound]; lia).
    rewrite Z.quot_div_nonneg by lia. set (n := x / one) in *.
    assert (Hk : 0 <= n / u) by (apply Z.div_pos; lia).
    pose proof (Z.div_mod n u ltac:(lia)). pose proof (Z.mod_pos_bound n u ltac:(lia)).
    pose proof (Z.div_mod x one ltac:(lia)). pose proof (Z.mod_pos_bound x one ltac:(lia)). fold n in H2.
    assert (n / u * u <= n) by nia. rewrite of_int_exact by lia.
    destruct (fsub_int x (n / u * u) Hf) as [-> Hf']; [nia|nia|].
    exists (n / u), (x - n / u * u * one). split; [done|]. split; [ring|].
    split; [|split; [nia|done]]. split; [done|]. unfold n.
    rewrite Z.div_div, (Z.mul_comm one) by lia. lia.
  - exists 0, x. split; [done|]. split; [lia|]. split; [|split; [lia|done]].
    split; [lia|]. apply Z.div_pos; lia.
Qed.

Lemma secs_ok n c : 0 <= n < INT_MAX -> 0 <= c < 100 ->
  finite (secs n c) /\ secs n c / one = n /\ 0 <= secs n c < 2 ^ 31 * one.
Proof.
  unfold INT_MAX. intros Hn Hc. pose proof one_pos as H1. unfold secs. split; [apply rnd_finite; unfold one in *; lia|].
  assert (n * one <= rnd ((100 * n + c) * one) 100 < (n + 1) * one); [|split; [|nia]].
  - pose proof (rnd_error ((100 * n + c) * one) 100 1106 ltac:(nia) ltac:(lia) ltac:(lia)) as He.
    destruct (Z.eq_dec c 0) as [->|].
    + replace ((100 * n + 0) * one) with (n * 2 ^ 1074 * 100) by (unfold one; ring).
      unfold rnd. rewrite round_exact by lia. unfold one. lia.
    + unfold one in *. lia.
  - symmetry. apply (Z.div_unique _ _ _ (rnd ((100 * n + c) * one) 100 - n * one)); lia.
Qed.

(** The seconds the shown parts make up. *)
Definition shown_secs (p : parts) : Z :=
  DECADE * updecades p + YEAR * upyears p + WEEK * upweeks p + DAY * updays p +
  HOUR * default 0 (uphours p) + MINUTE * upminutes p.

(** What remains when the days are taken off. *)
Definition day_rest (p : parts) : Z := HOUR * default 0 (uphours p) * one + MINUTE * upminutes p * one + left_secs p.

Lemma split_all_ok x : finite x -> 0 <= x < 2 ^ 31 * one ->
  exists p, split_all x = Some p /\ x = shown_secs p * one + left_secs p /\ 0 <= left_secs p <= MINUTE * one /\
    0 <= upyears p <= 10 /\ 0 <= upweeks p <= 52 /\ 0 <= updays p <= 7 /\ 0 <= default 0 (uphours p) <= 24 /\
    0 <= upminutes p <= 60 /\ (uphours p = None <-> day_rest p <= HOUR * one).
Proof.
  intros Hf Hx. pose proof one_pos as H1. unfold split_all.
  destruct (split_ok DECADE x) as (d & x1 & -> & E1 & _ & R1 & F1); [unfold DECADE; lia|done|done|]. cbn [mbind option_bind].
  destruct (split_ok YEAR x1) as (y & x2 & -> & E2 & B2 & R2 & F2); [unfold YEAR; lia|done|unfold DECADE in *; lia|]. cbn [mbind option_bind].
  destruct (split_ok WEEK x2) as (k & x3 & -> & E3 & B3 & R3 & F3); [unfold WEEK; lia|done|unfold YEAR in *; lia|]. cbn [mbind option_bind].
  destruct (split_ok DAY x3) as (a & x4 & -> & E4 & B4 & R4 & F4); [unfold DAY; lia|done|unfold WEEK in *; lia|]. cbn [mbind option_bind].
  assert (Hd : forall u v z, 0 < u -> z <= v * one -> z / (u * one) <= v / u).
  { intros u v z Hu Hz. rewrite (Z.mul_comm u), <- Z.div_div by lia. apply Z.div_le_mono; [lia|].
    apply Z.div_le_upper_bound; lia. }
  assert (y <= 10) by (transitivity (DECADE / YEAR); [|done]; etrans; [apply B2|]; apply Hd; unfold YEAR; lia).
  assert (k <= 52) by (transitivity (YEAR / WEEK); [|done]; etrans; [apply B3|]; apply Hd; unfold WEEK; lia).
  assert (a <= 7) by (transitivity (WEEK / DAY); [|done]; etrans; [apply B4|]; apply Hd; unfold DAY; lia).
  rewrite of_int_exact by (unfold HOUR; lia). destruct (Z.ltb_spec (HOUR * one) x4) as [Hh|Hh].
  - destruct (split_ok HOUR x4) as (h & x5 & Es & E5 & B5 & R5 & F5); [unfold HOUR; lia|done|unfold DAY in *; lia|].
    rewrite Es. cbn [mbind option_bind].
    destruct (split_ok MINUTE x5) as (m & x6 & -> & E6 & B6 & R6 & F6); [unfold MINUTE; lia|done|unfold HOUR in *; lia|].
    cbn [mbind option_bind].
    assert (h <= 24) by (transitivity (DAY / HOUR); [|done]; etrans; [apply B5|]; apply Hd; unfold HOUR; lia).
    assert (m <= 60) by (transitivity (HOUR / MINUTE); [|done]; etrans; [apply B6|]; apply Hd; unfold MINUTE; lia).
    eexists. split; [done|]. unfold shown_secs, day_rest. cbn [updecades upyears upweeks updays uphours upminutes left_secs from_option]; unfold id.
    split; [rewrite E1, E2, E3, E4, E5, E6; ring|]. do 6 (split; [lia|]).
    replace (HOUR * h * one + MINUTE * m * one + x6) with x4 by (rewrite E5, E6; ring). split; [done|lia].
  - destruct (split_ok MINUTE x4) as (m & x6 & Es & E6 & B6 & R6 & F6); [unfold MINUTE; lia|done|unfold HOUR in *; lia|].
    cbn [mbind option_bind]. rewrite Es. cbn [mbind option_bind].
    assert (m <= 60) by (transitivity (HOUR / MINUTE); [|done]; etrans; [apply B6|]; apply Hd; unfold MINUTE; lia).
    eexists. split; [done|]. unfold shown_secs, day_rest. cbn [updecades upyears upweeks updays uphours upminutes left_secs from_option]; unfold id.
    split; [rewrite E1, E2, E3, E4, E6; ring|]. do 6 (split; [lia|]).
    replace (HOUR * 0 * one + MINUTE * m * one + x6) with x4 by (rewrite E6; ring). split; [done|done].
Qed.

(** The short text about the uptime accounts for all but at most the last
    minute of the time the kernel reports, part by part, when more than an hour
    is left after the days; otherwise the number of hours is read without ever
    having been assigned, which is undefined. *)
Theorem procps_uptime_sprint_short_ok {G} o (w : world G) fp n c i j :
  uptime_file o fp (uptime_line n c i j) ->
  0 <= n < INT_MAX -> 0 <= c < 100 -> 0 <= i < 2 ^ 64 -> 0 <= j < 100 ->
  exists p, split_all (secs n c) = Some p /\ shown_secs p <= n <= shown_secs p + 60 /\
    upyears p <= 10 /\ upweeks p <= 52 /\ updays p <= 7 /\ upminutes p <= 60 /\
    (HOUR * one < day_rest p -> wp procps_uptime_sprint_short o w (fun text w' =>
       short_text p = Some text /\ forall h, 0 <= handle_val h -> net h (w_tr w') = net h (w_tr w))) /\
    (day_rest p <= HOUR * one -> exists w', procps_uptime_sprint_short o w = Undef w').
Proof.
  intros Ho Hn Hc Hi Hj. destruct (secs_ok n c Hn Hc) as (Hf & Hd & Hx).
  destruct (split_all_ok (secs n c) Hf Hx) as (p & Hp & Ex & Hl & Hy & Hk & Ha & Hh & Hm & Hu).
  exists p. split; [done|]. pose proof one_pos. split.
  { rewrite Ex, Z.div_add_l in Hd by lia.
    assert (0 <= left_secs p / one <= 60); [|lia]. unfold MINUTE in Hl.
    split; [apply Z.div_pos; lia|]. apply Z.div_le_upper_bound; lia. }
  do 4 (split; [lia|]).
  pose proof (procps_uptime_wp o w fp n c i j Ho ltac:(unfold INT_MAX in *; lia) Hc Hi Hj) as Hw.
  split; intros Hr; unfold procps_uptime_sprint_short.
  - wstep. eapply wp_mono; [exact Hw|]. intros r w1 (-> & Hnet). cbn beta iota. change (0 <? 0) with false. cbv iota.
    wstep. cbn [deref]. apply wp_ret. cbn beta iota. rewrite Hp. wstep. apply wp_ret.
    destruct (uphours p) as [hh|] eqn:E; [|exfalso; destruct Hu as [Hu _]; specialize (Hu eq_refl); lia].
    unfold short_text. rewrite E. cbn [mbind option_bind deref]. apply wp_ret. by split.
  - apply wp_done in Hw as (r & w1 & Hw & -> & _). unfold mbind at 1, M_bind. rewrite Hw. cbn beta iota.
    change (0 <? 0) with false. cbv iota. unfold mbind, M_bind. cbn [deref mret M_ret]. rewrite Hp. cbn [deref mret M_ret].
    unfold short_text. assert (uphours p = None) as -> by (apply Hu; lia). cbn [mbind option_bind deref]. by eexists.
Qed.

(** ** The kernel version *)

(** The release name that starts with three numbers is encoded with all of
    them, up to the widths of the encoding. *)
Lemma linux_version_wp {G} o (w : world G) fp x y z rest :
  0 <= fp -> (forall t, r_val (o t (CFopen PROCFS_OSRELEASE)) = fp) ->
  (forall t, o t (CFgets fp 256) = rdata 1 (dec x ++ 46 :: dec y ++ 46 :: dec z ++ rest)) ->
  0 <= x < 2 ^ 32 -> 0 <= y < 2 ^ 32 -> 0 <= z < 2 ^ 32 -> stops rest -> Forall (fun c => c <> 0) rest ->
  wp procps_linux_version o w (fun v w' => v = LINUX_VERSION x y z /\
    forall h, 0 <= handle_val h -> net h (w_tr w') = net h (w_tr w)).
Proof.
  intros Hp Ho Hg Hx Hy Hz Hs Hr. unfold procps_linux_version. wstep. wsys f Ef.
  assert (r_val f = fp) as E by (subst f; apply Ho). rewrite !E. zcase.
  wstep. wsys g Eg. rewrite Hg in Eg. subst g. cbn [r_val rdata]. zcase. wstep. wsys c Ec. cbn [r_data rdata].
  assert (Hnul : Forall (fun c => c <> 0) (dec x ++ 46 :: dec y ++ 46 :: dec z ++ rest)).
  { repeat (rewrite Forall_app || rewrite Forall_cons); repeat split; try done; try lia;
      apply all_digits_no_nul, dec_digits; lia. }
  rewrite cstr_app by done. wstep. cbn [deref]. apply wp_ret. unfold osrelease_fmt.
  rewrite (sscanf_dec x), (sscanf_cons_DLit 46), (sscanf_dec y), (sscanf_cons_DLit 46), (sscanf_dec z) by done.
  cbn [sscanf length]. cbn.
  split; [done|].
  intros h Hh. unfold net. cbn [w_tr foldr]. fd_leaf.
Qed.

Lemma land_ones_small k x : 0 <= k -> 0 <= x < 2 ^ k -> Z.land x (Z.ones k) = x.
Proof. intros. rewrite Z.land_ones by lia. by apply Z.mod_small. Qed.

(** The encoding keeps numbers below 256 apart; a larger patch level, which
    stable kernels do reach, is reduced modulo 256. *)
Lemma linux_version_decode x y z : 0 <= x < 256 -> 0 <= y < 256 -> 0 <= z ->
  let v := LINUX_VERSION x y z in
  LINUX_VERSION_MAJOR v = x /\ LINUX_VERSION_MINOR v = y /\ LINUX_VERSION_PATCH v = z mod 256.
Proof.
  intros Hx Hy Hz v. unfold v, LINUX_VERSION, LINUX_VERSION_MAJOR, LINUX_VERSION_MINOR, LINUX_VERSION_PATCH.
  change 32767 with (Z.ones 15). change 255 with (Z.ones 8).
  rewrite (land_ones_small 15 x), (land_ones_small 8 y) by lia. rewrite !Z.land_ones by lia.
  rewrite !Z.shiftr_div_pow2 by lia. change (2 ^ 8) with 256. change (2 ^ 16) with 65536.
  pose proof (Z.mod_pos_bound z 256 ltac:(lia)). set (p := z mod 256) in *.
  repeat split.
  - rewrite <- (Z.div_unique (65536 * x + 256 * y + p) 65536 x (256 * y + p)) by lia. by apply Z.mod_small.
  - rewrite <- (Z.div_unique (65536 * x + 256 * y + p) 256 (256 * x + y) p) by lia.
    symmetry. apply (Z.mod_unique _ _ x); lia.
  - symmetry. apply (Z.mod_unique _ _ (256 * x + y)); lia.
Qed.

(** The kernel version that is returned for a release name such as
    5.10.0-8-amd64 carries its three numbers, and the stream is closed. *)
Theorem procps_linux_version_ok {G} o (w : world G) fp x y z rest :
  0 <= fp -> (forall t, r_val (o t (CFopen PROCFS_OSRELEASE)) = fp) ->
  (forall t, o t (CFgets fp 256) = rdata 1 (dec x ++ 46 :: dec y ++ 46 :: dec z ++ rest)) ->
  0 <= x < 256 -> 0 <= y < 256 -> 0 <= z < 2 ^ 32 -> stops rest -> Forall (fun c => c <> 0) rest ->
  wp procps_linux_version o w (fun v w' =>
    LINUX_VERSION_MAJOR v = x /\ LINUX_VERSION_MINOR v = y /\ LINUX_VERSION_PATCH v = z mod 256 /\
    forall h, 0 <= handle_val h -> net h (w_tr w') = net h (w_tr w)).
Proof.
  intros Hp Ho Hg Hx Hy Hz Hs Hr. eapply wp_mono; [apply (linux_version_wp o w fp x y z rest); done || lia|].
  intros v w' [-> Hn]. destruct (linux_version_decode x y z) as (? & ? & ?); [lia..|]. by repeat split.
Qed.

(** ** Witnesses *)

(** A system that has been up for one day, three hours, four minutes and five
    seconds, runs this kernel, and has every file as stream 3. *)
Definition uptime_os : os := fun _ c =>
  match c with
  | CFopen _ => rok 3
  | CFgets _ _ => rdata 1 (bs "5.10.0-8-amd64" ++ [10])
  | CFscan _ => rdata 1 (uptime_line 97445 7 300000 99)
  | _ => rok 0
  end.

Lemma procps_uptime_sprint_short_witness :
  exists p, split_all (secs 97445 7) = Some p /\ shown_secs p <= 97445 <= shown_secs p + 60 /\
    upyears p <= 10 /\ upweeks p <= 52 /\ updays p <= 7 /\ upminutes p <= 60 /\
    (HOUR * one < day_rest p -> wp procps_uptime_sprint_short uptime_os (World [] 0 tt) (fun text w' =>
       short_text p = Some text /\ forall h, 0 <= handle_val h -> net h (w_tr w') = net h [])) /\
    (day_rest p <= HOUR * one -> exists w', procps_uptime_sprint_short uptime_os (World [] 0 tt) = Undef w').
Proof.
  apply (procps_uptime_sprint_short_ok uptime_os (World [] 0 tt) 3 97445 7 300000 99); unfold INT_MAX; try lia.
  split; [lia|]. by repeat split.
Defined.

Lemma procps_linux_version_witness :
  wp procps_linux_version uptime_os (World [] 0 tt) (fun v w' =>
    LINUX_VERSION_MAJOR v = 5 /\ LINUX_VERSION_MINOR v = 10 /\ LINUX_VERSION_PATCH v = 0 mod 256 /\
    forall h, 0 <= handle_val h -> net h (w_tr w') = net h []).
Proof.
  apply (procps_linux_version_ok uptime_os (World [] 0 tt) 3 5 10 0 (bs "-8-amd64" ++ [10])); try done; try lia.
  repeat constructor; done.
Defined.

(** The text of that uptime, and an uptime of one day and half an hour. *)
Example uptime_short_text :
  (p ← split_all (secs 97445 7); short_text p) = Some (bs "up 1 day, 3 hours, 4 minutes") /\
  (p ← split_all (secs 88200 0); short_text p) = None.
Proof. by vm_compute. Qed.
End Sysinfo.
