(* ===== verification/Devname.v ===== *)
(** * procps/linux/devname.c: names of terminals

    From the number of a terminal device to its name: through the table of
    drivers in /proc/tty/drivers, through the standard error of the process, by
    the conventional names of device numbers.  The table is loaded once; it is
    passed in and returned.  The static buffer that holds the candidate name is
    written before it is read in every call, so that it is local here. *)

From stdpp Require Import base numbers list strings.
From S2P Require Import Prelude Libc Posix Stacks Fetch.
Open Scope Z_scope.

Module Devname.

Definition TTY_NAME_SIZE : Z := 128.
Definition ABBREV_DEV : Z := 1.
Definition ABBREV_TTY : Z := 2.
Definition ABBREV_PTS : Z := 4.

Definition MAJOR_OF (d : Z) : Z := Z.land (Z.shiftr (u32 d) 8) 4095.
Definition MINOR_OF (d : Z) : Z := Z.lor (Z.land (u32 d) 255) (Z.shiftr (Z.land (u32 d) 4293918720) 12).

(** ** The table of drivers *)

Record tty_map_node := Node {
  devfs_type : bool; major_number : Z; minor_first : Z; minor_last : Z; node_name : bytes }.

(** [tty_map]: NULL, -1, or the list. *)
Inductive tty_map_t := Unloaded | Absent | Loaded (l : list tty_map_node).

Fixpoint skip_blank (s : bytes) : bytes :=
  match s with c :: r => if c =? 32 then skip_blank r else s | [] => [] end.

(** The name column is [len] bytes of [p]: whether it ends in the format of a
    number, and the name kept. *)
Definition devfs_name (p : bytes) (len : nat) : bool * bytes :=
  let devfs := (3 <=? len)%nat && streq (take 2 (drop (len - 2) p)) (bs "%d") in
  let n := if devfs then (len - 2)%nat else len in
  (devfs, take (if (16 <=? n)%nat then 15%nat else n) p).

(** The columns behind the name: the node, or [None] when the minor numbers
    cannot be read, with the text the search goes on in. *)
Definition driver_numbers (devfs : bool) (name p : bytes) : option tty_map_node * bytes :=
  let p := skip_blank p in
  let major := wrap_u 16 (atoi p) in
  let p := skip_blank (span_digits p).2 in
  match sscanf [DU; DLit 45; DU] p with
  | [VI a; VI b] => (Some (Node devfs major a b name), p)
  | [VI a] => (Some (Node devfs major a a name), p)
  | _ => (None, p)
  end.

Definition node_size : Z := 40.

(** The loop over the occurrences of the second column; newest node first. *)
Fixpoint load_loop {G} (fuel : nat) (s : bytes) (m : list tty_map_node) : M G (list tty_map_node) :=
  match fuel with
  | O => nofuel
  | S f =>
      match strstr s (bs " /dev/") with
      | None => mret m
      | Some i =>
          let p := drop (i + 6) s in
          match strchr p 32 with
          | None => load_loop f p m
          | Some len =>
              a ← sys (CMalloc node_size);
              if r_val a <? 0 then mret m else
              let '(devfs, name) := devfs_name p len in
              let '(node, p) := driver_numbers devfs name (drop len p) in
              load_loop f p (match node with Some n => n :: m | None => m end)
          end
      end
  end.

Definition DRIVERS : bytes := bs "/proc/tty/drivers".

Definition load_drivers {G} : M G tty_map_t :=
  f ← sys (COpen DRIVERS 0 0);
  if r_val f <? 0 then mret Absent else
  n ← sys (CRead (r_val f) 9999);
  m ← (if r_val n <? 0 then mret [] else
       if 9999 <? r_val n then undef else
       s ← deref (cstr (take (Z.to_nat (r_val n)) (r_data n) ++ [0]));
       load_loop (S (length s)) s []);
  _ ← sys (CClose (r_val f));
  mret (match m with [] => Absent | _ => Loaded m end).

(** ** Candidates

    A candidate is returned when a device of these numbers has that name. *)

Definition same_device (maj min : Z) (r : ret) : bool :=
  (min =? MINOR_OF (r_rdev r)) && (maj =? MAJOR_OF (r_rdev r)).

Definition owns (maj min : Z) (n : tty_map_node) : bool :=
  (major_number n =? maj) && (minor_first n <=? min) && (min <=? minor_last n).

(** The name among the three forms that exists, with its status. *)
Definition driver_path {G} (tmn : tty_map_node) (min : Z) : M G (option (bytes * ret)) :=
  let b1 := bs "/dev/" ++ node_name tmn ++ fmt_d min in
  r1 ← sys (CStat b1);
  if negb (r_val r1 <? 0) then mret (Some (b1, r1)) else
  let b2 := bs "/dev/" ++ node_name tmn ++ bs "/" ++ fmt_d min in
  r2 ← sys (CStat b2);
  if negb (r_val r2 <? 0) then mret (Some (b2, r2)) else
  if devfs_type tmn then mret None else
  let b3 := bs "/dev/" ++ node_name tmn in
  r3 ← sys (CStat b3);
  if r_val r3 <? 0 then mret None else mret (Some (b3, r3)).

Definition driver_name {G} (map : tty_map_t) (maj min : Z) : M G (option bytes * tty_map_t) :=
  map ← (match map with Unloaded => load_drivers | _ => mret map end);
  match map with
  | Loaded l =>
      match list_find (fun n => owns maj min n = true) l with
      | None => mret (None, map)
      | Some (_, tmn) =>
          c ← driver_path tmn min;
          mret (match c with
                | Some (buf, r) => if same_device maj min r then Some buf else None
                | None => None
                end, map)
      end
  | _ => mret (None, map)
  end.

(** Six bytes each: the longest names have no NUL. *)
Definition low_density_names : list bytes :=
  map bs
  ["LU0"; "LU1"; "LU2"; "LU3"; "FB0"; "SA0"; "SA1"; "SA2"; "SC0"; "SC1"; "SC2"; "SC3";
   "FW0"; "FW1"; "FW2"; "FW3"; "AM0"; "AM1"; "AM2"; "AM3"; "AM4"; "AM5"; "AM6"; "AM7";
   "AM8"; "AM9"; "AM10"; "AM11"; "AM12"; "AM13"; "AM14"; "AM15"; "DB0"; "DB1"; "DB2"; "DB3";
   "DB4"; "DB5"; "DB6"; "DB7"; "SG0"; "SMX0"; "SMX1"; "SMX2"; "MM0"; "MM1";
   "CPM0"; "CPM1"; "CPM2"; "CPM3";
   "IOC0"; "IOC1"; "IOC2"; "IOC3"; "IOC4"; "IOC5"; "IOC6"; "IOC7"; "IOC8"; "IOC9"; "IOC10";
   "IOC11"; "IOC12"; "IOC13"; "IOC14"; "IOC15"; "IOC16"; "IOC17"; "IOC18"; "IOC19"; "IOC20";
   "IOC21"; "IOC22"; "IOC23"; "IOC24"; "IOC25"; "IOC26"; "IOC27"; "IOC28"; "IOC29"; "IOC30";
   "IOC31"; "VR0"; "VR1";
   "IOC84"; "IOC85"; "IOC86"; "IOC87"; "IOC88"; "IOC89"; "IOC90"; "IOC91"; "IOC92"; "IOC93";
   "IOC94"; "IOC95"; "IOC96"; "IOC97"; "IOC98"; "IOC99"; "IOC100"; "IOC101"; "IOC102";
   "IOC103"; "IOC104"; "IOC105"; "IOC106"; "IOC107"; "IOC108"; "IOC109"; "IOC110"; "IOC111";
   "IOC112"; "IOC113"; "IOC114"; "IOC115";
   "SIOC0"; "SIOC1"; "SIOC2"; "SIOC3"; "SIOC4"; "SIOC5"; "SIOC6"; "SIOC7"; "SIOC8"; "SIOC9";
   "SIOC10"; "SIOC11"; "SIOC12"; "SIOC13"; "SIOC14"; "SIOC15"; "SIOC16"; "SIOC17"; "SIOC18";
   "SIOC19"; "SIOC20"; "SIOC21"; "SIOC22"; "SIOC23"; "SIOC24"; "SIOC25"; "SIOC26"; "SIOC27";
   "SIOC28"; "SIOC29"; "SIOC30"; "SIOC31";
   "PSC0"; "PSC1"; "PSC2"; "PSC3"; "PSC4"; "PSC5";
   "AT0"; "AT1"; "AT2"; "AT3"; "AT4"; "AT5"; "AT6"; "AT7"; "AT8"; "AT9"; "AT10"; "AT11";
   "AT12"; "AT13"; "AT14"; "AT15";
   "NX0"; "NX1"; "NX2"; "NX3"; "NX4"; "NX5"; "NX6"; "NX7"; "NX8"; "NX9"; "NX10"; "NX11";
   "NX12"; "NX13"; "NX14"; "NX15";
   "J0"; "UL0"; "UL1"; "UL2"; "UL3"; "xvc0"; "PZ0"; "PZ1"; "PZ2"; "PZ3";
   "TX0"; "TX1"; "TX2"; "TX3"; "TX4"; "TX5"; "TX6"; "TX7"; "SC0"; "SC1"; "SC2"; "SC3";
   "MAX0"; "MAX1"; "MAX2"; "MAX3"]%string.

(** The majors whose terminals are a prefix and the minor number. *)
Definition plain_prefixes : list (Z * string) :=
  [(11, "B"); (17, "H"); (19, "C"); (22, "D"); (23, "D"); (24, "E"); (32, "X"); (43, "I");
   (46, "R"); (48, "L"); (57, "P"); (71, "F"); (75, "W"); (78, "M"); (105, "V"); (112, "M");
   (148, "T"); (154, "SR"); (164, "CH"); (166, "ACM"); (172, "MX"); (174, "SI"); (188, "USB");
   (208, "U"); (216, "UB"); (224, "Y"); (256, "EQ")]%string.

(** The switch of [guess_name]. *)
Definition guess_path (maj min : Z) : option bytes :=
  if maj =? 3 then
    if 255 <? min then None else
    t0 ← bs "pqrstuvwxyzabcde" !! Z.to_nat (Z.shiftr min 4);
    t1 ← bs "0123456789abcdef" !! Z.to_nat (Z.land min 15);
    Some (bs "/dev/tty" ++ [t0; t1])
  else if maj =? 4 then
    Some (if min <? 64 then bs "/dev/tty" ++ fmt_d min else bs "/dev/ttyS" ++ fmt_d (min - 64))
  else if (136 <=? maj) && (maj <=? 143) then Some (bs "/dev/pts/" ++ fmt_d (min + (maj - 136) * 256))
  else if maj =? 156 then Some (bs "/dev/ttySR" ++ fmt_d (min + 256))
  else if maj =? 204 then n ← low_density_names !! Z.to_nat min; Some (bs "/dev/tty" ++ n)
  else if maj =? 227 then Some (bs "/dev/3270/tty" ++ fmt_d min)
  else if maj =? 229 then Some (bs "/dev/iseries/vtty" ++ fmt_d min)
  else
    match list_find (fun e => e.1 = maj) plain_prefixes with
    | Some (_, (_, s)) => Some (bs "/dev/tty" ++ bs s ++ fmt_d min)
    | None => None
    end.

Definition guess_name {G} (maj min : Z) : M G (option bytes) :=
  match guess_path maj min with
  | None => mret None
  | Some buf =>
      r ← sys (CStat buf);
      mret (if r_val r <? 0 then None else if same_device maj min r then Some buf else None)
  end.

(** [path] has 32 bytes. *)
Definition link_name {G} (maj min pid : Z) (name : bytes) : M G (option bytes) :=
  let path := bs "/proc/" ++ fmt_d pid ++ bs "/" ++ name in
  if 32 <=? Z.of_nat (length path) then mret None else
  count ← sys (CReadlink path (TTY_NAME_SIZE - 1));
  if (r_val count <=? 0) || (TTY_NAME_SIZE - 1 <=? r_val count) then mret None else
  buf ← deref (cstr (take (Z.to_nat (r_val count)) (r_data count) ++ [0]));
  r ← sys (CStat buf);
  mret (if r_val r <? 0 then None else if same_device maj min r then Some buf else None).

(** ** dev_to_tty *)

(** [if ((flags & bit) && !strncmp(tmp, prefix, n) && tmp[n]) tmp += n] *)
Definition abbreviate (flags bit : Z) (prefix tmp : bytes) : bytes :=
  if negb (Z.land flags bit =? 0) && prefixb prefix tmp && (length prefix <? length tmp)%nat
  then drop (length prefix) tmp else tmp.

Definition abbreviated (flags : Z) (buf : bytes) : bytes :=
  abbreviate flags ABBREV_PTS (bs "pts/")
    (abbreviate flags ABBREV_TTY (bs "tty") (abbreviate flags ABBREV_DEV (bs "/dev/") buf)).

Definition sanitize (c : Z) : Z := if (c <=? 32) || (126 <? c) then 63 else c.

(** The string [text] with its NUL at the start of a buffer. *)
Definition put (ret text : bytes) : option bytes :=
  if (length ret <? length text + 1)%nat then None else Some (text ++ 0 :: drop (length text + 1) ret).

(** The text for the name [buf], at most [chop] characters. *)
Definition tty_text (chop flags : Z) (buf : bytes) : bytes :=
  map sanitize (take (Z.to_nat chop) (abbreviated flags buf)).

(** The first candidate, in the order of the calls. *)
Definition find_name {G} (map : tty_map_t) (dev pid : Z) : M G (option bytes * tty_map_t) :=
  let maj := MAJOR_OF dev in
  let min := MINOR_OF dev in
  '(c, map) ← driver_name map maj min;
  match c with
  | Some _ => mret (c, map)
  | None =>
      c ← link_name maj min pid (bs "fd/2");
      match c with
      | Some _ => mret (c, map)
      | None =>
          c ← guess_name maj min;
          match c with
          | Some _ => mret (c, map)
          | None => c ← link_name maj min pid (bs "fd/255"); mret (c, map)
          end
      end
  end.

(** The number of characters, the caller's buffer and the table.  The text and
    its NUL take one byte more than [chop] when the name is long. *)
Definition dev_to_tty {G} (ret : bytes) (chop dev_t_dev pid flags : Z) (map : tty_map_t) :
    M G (Z * bytes * tty_map_t) :=
  let dev := u32 dev_t_dev in
  '(c, map) ← (if dev =? 0 then mret (None, map) else find_name map dev pid);
  match c with
  | None => ret ← deref (put ret (if 1 <=? chop then bs "?" else [])); mret (1, ret, map)
  | Some buf =>
      let text := tty_text chop flags buf in
      ret ← deref (put ret text);
      mret (Z.of_nat (length text), ret, map)
  end.

(** ** Device numbers *)

(** The encoding of a device number for user space. *)
Definition new_encode_dev (maj min : Z) : Z :=
  Z.lor (Z.lor (Z.land min 255) (Z.shiftl maj 8)) (Z.shiftl (Z.land min 1048320) 12).

Lemma bits_above n x k : 0 <= x < 2 ^ n -> 0 <= n <= k -> Z.testbit x k = false.
Proof. intros Hx Hk. rewrite <- (Z.mod_small x (2 ^ n)) by lia. apply Z.mod_pow2_bits_high. lia. Qed.

(** A bit of a composed number, in terms of the bits of its parts. *)
Ltac bits_tac := repeat match goal with
  | |- context [Z.testbit ?a ?k] => rewrite (Z.testbit_neg_r a k) by lia
  | |- context [Z.testbit (Z.land ?a ?b) ?k] => rewrite (Z.land_spec a b k)
  | |- context [Z.testbit (Z.lor ?a ?b) ?k] => rewrite (Z.lor_spec a b k)
  | |- context [Z.testbit (Z.shiftr ?a ?n) ?k] => rewrite (Z.shiftr_spec a n k) by lia
  | |- context [Z.testbit (Z.shiftl ?a ?n) ?k] => rewrite (Z.shiftl_spec a n k) by lia
  | |- context [Z.testbit (?a mod 2 ^ ?n) ?k] => rewrite (Z.testbit_mod_pow2 a n k) by lia
  | |- context [Z.testbit (Z.ones ?n) ?k] => rewrite (Z.testbit_ones n k) by lia
  | H : forall k, ?n <= k -> Z.testbit ?a k = false |- context [Z.testbit ?a ?k] => rewrite (H k) by lia
  end.

(** The numbers that are taken out of an encoded device number are the ones
    that were put in. *)
Theorem device_numbers maj min : 0 <= maj < 4096 -> 0 <= min < 1048576 ->
  MAJOR_OF (new_encode_dev maj min) = maj /\ MINOR_OF (new_encode_dev maj min) = min.
Proof.
  intros Ha Hi. unfold MAJOR_OF, MINOR_OF, new_encode_dev, wrap_u.
  change 255 with (Z.ones 8). change 4095 with (Z.ones 12).
  change 4293918720 with (Z.shiftl (Z.ones 12) 20). change 1048320 with (Z.shiftl (Z.ones 12) 8).
  assert (Hm : forall k, 12 <= k -> Z.testbit maj k = false) by (intros; by apply (bits_above 12)).
  assert (Hn : forall k, 20 <= k -> Z.testbit min k = false) by (intros; by apply (bits_above 20)).
  split; apply Z.bits_inj'; intros k Hk;
    destruct (Z.lt_ge_cases k 4), (Z.lt_ge_cases k 8), (Z.lt_ge_cases k 12), (Z.lt_ge_cases k 20); try lia; bits_tac;
    zcase; rewrite ?andb_true_r, ?andb_false_r, ?orb_false_r, ?orb_false_l; try done;
    f_equal; lia.
Qed.

(** ** Loading *)

Lemma strstr_lt s p i : strstr s p = Some i -> (i + length p <= length s)%nat.
Proof.
  assert (Hpre : forall p s, prefixb p s = true -> (length p <= length s)%nat).
  { induction p0 as [|x p0 IH]; intros [|y t]; cbn; try done; try lia.
    intros [_ H]%andb_true_iff. apply IH in H. lia. }
  revert i. induction s as [|c s IH]; intros i; cbn [strstr]; destruct (prefixb p _) eqn:E.
  - intros [= <-]. apply Hpre in E. cbn in *. lia.
  - done.
  - intros [= <-]. apply Hpre in E. cbn in *. lia.
  - destruct (strstr s p) as [k|]; [|done]. intros [= <-]. specialize (IH k eq_refl). cbn. lia.
Qed.

Lemma skip_blank_le s : (length (skip_blank s) <= length s)%nat.
Proof. induction s as [|c s IH]; cbn [skip_blank]; [done|]. zcase; cbn; lia. Qed.

Lemma span_digits_le s : (length (span_digits s).2 <= length s)%nat.
Proof.
  induction s as [|c s IH]; cbn [span_digits]; [done|]. destruct (isdigit c); [|done].
  destruct (span_digits s) as [d t]. cbn in *. lia.
Qed.

Lemma driver_numbers_le devfs name p : (length (driver_numbers devfs name p).2 <= length p)%nat.
Proof.
  unfold driver_numbers.
  set (q := skip_blank (span_digits (skip_blank p)).2).
  assert (length q <= length p)%nat.
  { unfold q. etrans; [apply skip_blank_le|]. etrans; [apply span_digits_le|]. apply skip_blank_le. }
  generalize (sscanf [DU; DLit 45; DU] q). intros l. repeat (case_match; try done).
Qed.

(** The fuel is enough: every round drops at least the column mark. *)
Lemma load_loop_wp {G} o fuel : forall s m (w : world G), (length s < fuel)%nat ->
  wp (load_loop fuel s m) o w (fun _ _ => True).
Proof.
  induction fuel as [|f IH]; intros s m w Hl; [lia|]. cbn [load_loop].
  destruct (strstr s (bs " /dev/")) as [i|] eqn:E; [|by apply wp_ret].
  apply strstr_lt in E. change (length (bs " /dev/")) with 6%nat in E.
  destruct (strchr _ 32) as [len|].
  - wstep. wsys a Ha. destruct (r_val a <? 0); [by apply wp_ret|].
    destruct (devfs_name _ _) as [d n].
    pose proof (driver_numbers_le d n (drop len (drop (i + 6) s))) as Hd.
    destruct (driver_numbers d n _) as [node q]. cbn [snd] in Hd. apply IH.
    rewrite !length_drop in Hd. lia.
  - apply IH. rewrite length_drop. lia.
Qed.

Lemma load_drivers_wp {G} o `{!Kernel o} (w : world G) : wp load_drivers o w (fun _ _ => True).
Proof.
  unfold load_drivers. wstep. wsys f Hf. destruct (r_val f <? 0); [by apply wp_ret|].
  wstep. wsys n Hn. pose proof (k_read (w_tr w) (r_val f) 9999) as _.
  assert (r_val n <= 9999) by (subst n; apply k_read; lia). wstep.
  apply (wp_mono _ _ _ (fun _ _ => True)).
  - destruct (r_val n <? 0); [by apply wp_ret|]. zcase. wstep.
    destruct (cstr_line (take (Z.to_nat (r_val n)) (r_data n))) as (t & -> & _). apply wp_ret.
    apply load_loop_wp. lia.
  - intros m w' _. wstep. wsys c Hc. by apply wp_ret.
Qed.

(** *** Accounting *)

Lemma gains_load_loop {G} fuel : forall s m, gains (load_loop (G:=G) fuel s m) (fun _ _ => 0).
Proof.
  induction fuel as [|f IH]; intros s m; cbn [load_loop]; [apply gains_nofuel|].
  destruct (strstr _ _); [|by apply gains_ret]. destruct (strchr _ _); [|apply IH].
  eapply gains_bind; [apply gains_sys|]. intros a. destruct (_ <? _); [apply gains_ret; fd_leaf|].
  destruct (devfs_name _ _) as [d nm]. destruct (driver_numbers _ _ _) as [node q].
  eapply gains_mono; [apply IH|fd_leaf].
Qed.
#[local] Hint Resolve gains_load_loop : gdb.

Lemma gains_load_drivers {G} : gains (load_drivers (G:=G)) (fun _ _ => 0).
Proof. unfold load_drivers. gains_zero. Qed.
#[local] Hint Resolve gains_load_drivers : gdb.

Lemma gains_find_name {G} map dev pid : gains (find_name (G:=G) map dev pid) (fun _ _ => 0).
Proof. unfold find_name, driver_name, driver_path, link_name, guess_name. gains_zero. Qed.
#[local] Hint Resolve gains_find_name : gdb.

Lemma gains_dev_to_tty {G} ret chop dev pid flags map :
  gains (dev_to_tty (G:=G) ret chop dev pid flags map) (fun _ _ => 0).
Proof. unfold dev_to_tty. gains_zero. Qed.

(** ** The name found *)

(** The system was asked about this name and answered with the device. *)
Definition genuine (t : trace) (dev : Z) (buf : bytes) : Prop := exists r,
  (CStat buf, r) ∈ t /\ 0 <= r_val r /\ MAJOR_OF (r_rdev r) = MAJOR_OF dev /\ MINOR_OF (r_rdev r) = MINOR_OF dev.

Definition candidate (t : trace) (dev : Z) (c : option bytes) : Prop :=
  match c with Some buf => genuine t dev buf | None => True end.

Lemma candidate_stat t dev buf r : (CStat buf, r) ∈ t -> (r_val r <? 0) = false ->
  candidate t dev (if same_device (MAJOR_OF dev) (MINOR_OF dev) r then Some buf else None).
Proof.
  intros Hr Hv. unfold same_device. destruct (_ && _) eqn:E; [|done]. apply andb_true_iff in E as [E1 E2].
  exists r. split; [done|]. lia.
Qed.

Lemma driver_name_wp {G} o `{!Kernel o} map dev (w : world G) :
  wp (driver_name map (MAJOR_OF dev) (MINOR_OF dev)) o w (fun r w' => candidate (w_tr w') dev r.1).
Proof.
  unfold driver_name. wstep. apply (wp_mono _ _ _ (fun _ _ => True)).
  { destruct map; [by apply load_drivers_wp|by apply wp_ret..]. }
  intros m w1 _. destruct m as [| |l]; [by apply wp_ret..|]. destruct (list_find _ l) as [[i n]|]; [|by apply wp_ret].
  unfold driver_path. wstep. wstep. wsys r1 E1. destruct (r_val r1 <? 0) eqn:V1; cbn [negb].
  2:{ apply wp_ret, wp_ret. apply candidate_stat; [by left|done]. }
  wstep. wsys r2 E2. destruct (r_val r2 <? 0) eqn:V2; cbn [negb].
  2:{ apply wp_ret, wp_ret. apply candidate_stat; [by left|done]. }
  destruct (devfs_type n); [by apply wp_ret, wp_ret|].
  wstep. wsys r3 E3. destruct (r_val r3 <? 0) eqn:V3; [by apply wp_ret, wp_ret|].
  apply wp_ret, wp_ret. apply candidate_stat; [by left|done].
Qed.

Lemma guess_name_wp {G} o dev (w : world G) :
  wp (guess_name (MAJOR_OF dev) (MINOR_OF dev)) o w (fun r w' => candidate (w_tr w') dev r).
Proof.
  unfold guess_name. destruct (guess_path _ _) as [b|]; [|by apply wp_ret]. wstep. wsys r E. apply wp_ret.
  destruct (r_val r <? 0) eqn:V; [done|]. apply candidate_stat; [by left|done].
Qed.

Lemma link_name_wp {G} o dev pid name (w : world G) :
  wp (link_name (MAJOR_OF dev) (MINOR_OF dev) pid name) o w (fun r w' => candidate (w_tr w') dev r).
Proof.
  unfold link_name. destruct (_ <=? _); [by apply wp_ret|]. wstep. wsys c Ec.
  destruct (_ || _); [by apply wp_ret|]. wstep.
  destruct (cstr_line (take (Z.to_nat (r_val c)) (r_data c))) as (t & -> & _). apply wp_ret.
  wstep. wsys r E. apply wp_ret. destruct (r_val r <? 0) eqn:V; [done|]. apply candidate_stat; [by left|done].
Qed.

Lemma find_name_wp {G} o `{!Kernel o} map dev pid (w : world G) :
  wp (find_name map dev pid) o w (fun r w' => candidate (w_tr w') dev r.1).
Proof.
  unfold find_name. wstep. eapply wp_mono; [by apply driver_name_wp|]. intros [[b|] m] w1 H1; [by apply wp_ret|].
  wstep. eapply wp_mono; [apply link_name_wp|]. intros [b|] w2 H2; [by apply wp_ret|].
  wstep. eapply wp_mono; [apply guess_name_wp|]. intros [b|] w3 H3; [by apply wp_ret|].
  wstep. eapply wp_mono; [apply link_name_wp|]. intros c w4 H4. by apply wp_ret.
Qed.

Lemma sanitize_not_nul c : sanitize c <> 0.
Proof. unfold sanitize. destruct (_ || _) eqn:E; [done|]. apply orb_false_iff in E. lia. Qed.

Lemma put_ok ret text : (length text < length ret)%nat -> Forall (fun c => c <> 0) text ->
  exists ret', put ret text = Some ret' /\ length ret' = length ret /\ cstr ret' = Some text.
Proof.
  intros Hl Hn. unfold put. destruct (Nat.ltb_spec (length ret) (length text + 1)); [lia|].
  eexists. split; [done|]. split; [rewrite length_app; cbn; rewrite length_drop; lia|by apply cstr_app].
Qed.

Lemma tty_text_ok chop flags buf : 0 <= chop ->
  Z.of_nat (length (tty_text chop flags buf)) <= chop /\ Forall (fun c => c <> 0) (tty_text chop flags buf).
Proof.
  intros Hc. unfold tty_text. split; [rewrite length_map, length_take; lia|].
  apply Forall_fmap, Forall_true. intros. apply sanitize_not_nul.
Qed.

(** With a buffer of more than [chop] bytes, dev_to_tty leaves a string in
    it whatever the system answers: either a question mark, or the abbreviation
    of a name that, by the system's own answer, belongs to a device with the
    major and minor number asked for; no descriptor stays open. *)
Theorem dev_to_tty_genuine {G} o `{!Kernel o} ret chop dev pid flags map (w : world G) :
  1 <= chop < Z.of_nat (length ret) ->
  wp (dev_to_tty ret chop dev pid flags map) o w (fun r w' =>
    exists text, cstr r.1.2 = Some text /\ length r.1.2 = length ret /\ r.1.1 = Z.of_nat (length text) /\ r.1.1 <= chop /\
      (text = bs "?" \/ exists buf, genuine (w_tr w') (u32 dev) buf /\ text = tty_text chop flags buf) /\
      forall h, 0 <= handle_val h -> net h (w_tr w') = net h (w_tr w)).
Proof.
  intros Hc.
  assert (Hw : wp (dev_to_tty ret chop dev pid flags map) o w (fun r w' =>
    exists text, cstr r.1.2 = Some text /\ length r.1.2 = length ret /\ r.1.1 = Z.of_nat (length text) /\ r.1.1 <= chop /\
      (text = bs "?" \/ exists buf, genuine (w_tr w') (u32 dev) buf /\ text = tty_text chop flags buf))).
  { unfold dev_to_tty. wstep. apply (wp_mono _ _ _ (fun r w' => candidate (w_tr w') (u32 dev) r.1)).
    { destruct (_ =? _); [by apply wp_ret|by apply find_name_wp]. }
    intros [[buf|] m] w1 Hg; cbn [candidate fst] in Hg.
    - destruct (tty_text_ok chop flags buf ltac:(lia)) as [Hl Hn].
      destruct (put_ok ret (tty_text chop flags buf)) as (ret' & -> & E1 & E2); [lia|done|].
      wstep. apply wp_ret, wp_ret. exists (tty_text chop flags buf). repeat split; try done. right. by exists buf.
    - zcase. destruct (put_ok ret (bs "?")) as (ret' & -> & E1 & E2); [cbn; lia|by repeat constructor|].
      wstep. apply wp_ret, wp_ret. exists (bs "?"). repeat split; try done; try (cbn; lia); by left. }
  eapply wp_mono; [eapply wp_gains; [exact Hw|apply gains_dev_to_tty]|].
  intros [[n r] m] w' [(t & H1 & H2 & H3 & H4 & H5) [_ Hn]]. exists t. repeat split; try done.
  intros h Hh. rewrite Hn by done. lia.
Qed.

(** With a buffer of just [chop] bytes, as the process interface calls it, the
    NUL behind a name that fills it is written outside. *)
Lemma put_overflow ret text : length ret = length text -> put ret text = None.
Proof. intros H. unfold put. rewrite H. by destruct (Nat.ltb_spec (length text) (length text + 1)); [|lia]. Qed.

Lemma dev_to_tty_overflow {G} o ret dev pid flags map (w : world G) buf m w1 :
  u32 dev <> 0 -> find_name map (u32 dev) pid o w = Done (Some buf, m) w1 ->
  (length ret <= length (abbreviated flags buf))%nat ->
  dev_to_tty ret (Z.of_nat (length ret)) dev pid flags map o w = Undef w1.
Proof.
  intros Hd Hf Hl. unfold dev_to_tty. destruct (Z.eqb_spec (u32 dev) 0); [done|]. unfold mbind at 1, M_bind at 1. rewrite Hf. cbn beta iota.
  rewrite put_overflow; [done|]. unfold tty_text. rewrite length_map, Nat2Z.id, length_take. lia.
Qed.

(** ** The table of drivers is read back *)

(** A line of /proc/tty/drivers: the driver, the name of its devices, the
    numbers and the type. *)
Record driver := Driver { d_driver : bytes; d_name : bytes; d_major : Z; d_first : Z; d_last : Z; d_type : bytes }.

Definition pad (n : nat) (s : bytes) : bytes := s ++ replicate (n - length s) 32.
Definition pad_left (n : nat) (s : bytes) : bytes := replicate (n - length s) 32 ++ s.

Definition minors (d : driver) : bytes :=
  if d_first d <? d_last d then dec (d_first d) ++ 45 :: dec (d_last d) else pad_left 7 (dec (d_first d)).

Definition driver_line (d : driver) : bytes :=
  pad 20 (d_driver d) ++ bs " /dev/" ++ pad 8 (d_name d) ++ 32 :: pad_left 3 (dec (d_major d)) ++ 32 ::
  minors d ++ 32 :: d_type d ++ [10].

Definition no_blank (s : bytes) : Prop := Forall (fun c => c <> 32) s.

(** What the kernel's drivers satisfy: no blanks in the columns, a type that is
    no path, a short name that is not a number format, numbers of their width. *)
Definition driver_ok (d : driver) : Prop :=
  no_blank (d_driver d) /\ no_blank (d_name d) /\ no_blank (d_type d) /\
  (exists c t, d_type d = c :: t /\ c <> 47) /\
  (length (d_name d) <= 15)%nat /\ drop (length (d_name d) - 2) (d_name d) <> bs "%d" /\
  0 <= d_major d < 65536 /\ 0 <= d_first d <= d_last d /\ d_last d < 2 ^ 32.

Definition driver_node (d : driver) : tty_map_node :=
  Node false (d_major d) (d_first d) (d_last d) (d_name d).

(** No blank is followed by a slash. *)
Fixpoint quiet (s : bytes) : Prop :=
  match s with [] => True | c :: r => (c = 32 -> head r <> Some 47) /\ quiet r end.

Lemma quiet_no_blank a b : no_blank a -> quiet b -> quiet (a ++ b).
Proof. intros Ha Hb. induction Ha as [|c a Hc Ha IH]; cbn; [done|]. by split. Qed.

Lemma quiet_blanks k : quiet (replicate k 32 ++ [32]).
Proof. induction k as [|k IH]; cbn; [done|]. split; [|done]. by destruct k. Qed.

(** The first mark is found, and none where there is none. *)
Lemma strstr_mark a r : quiet (a ++ [32]) -> strstr (a ++ bs " /dev/" ++ r) (bs " /dev/") = Some (length a).
Proof.
  induction a as [|c a IH]; cbn [app].
  - intros _. change (bs " /dev/" ++ r) with (32 :: 47 :: 100 :: 101 :: 118 :: 47 :: r). done.
  - intros [Hc Hq]. cbn [strstr]. rewrite (IH Hq). 
    change (bs " /dev/") with ([32; 47; 100; 101; 118; 47] : bytes) in *.
    destruct (prefixb _ (c :: _)) eqn:E; [|done]. exfalso.
    cbn [prefixb] in E. apply andb_true_iff in E as [E1 E2]. apply Z.eqb_eq in E1. specialize (Hc (eq_sym E1)).
    destruct a as [|d a]; [done|]. cbn [app head prefixb] in *. apply andb_true_iff in E2 as [E2 _].
    apply Z.eqb_eq in E2. congruence.
Qed.

Lemma strstr_quiet s : quiet s -> strstr s (bs " /dev/") = None.
Proof.
  induction s as [|c s IH]; [done|]. intros [Hc Hq]. cbn [strstr]. rewrite (IH Hq).
  change (bs " /dev/") with ([32; 47; 100; 101; 118; 47] : bytes) in *.
  destruct (prefixb _ (c :: s)) eqn:E; [|done]. exfalso.
  cbn [prefixb] in E. apply andb_true_iff in E as [E1 E2]. apply Z.eqb_eq in E1. specialize (Hc (eq_sym E1)).
  destruct s as [|d s]; [done|]. apply andb_true_iff in E2 as [E2 _]. apply Z.eqb_eq in E2. cbn in Hc. congruence.
Qed.

Lemma skip_blank_replicate k s : head s <> Some 32 -> skip_blank (replicate k 32 ++ s) = s.
Proof.
  intros Hs. induction k as [|k IH]; cbn [replicate app skip_blank]; [|done].
  destruct s as [|c s]; [done|]. cbn [skip_blank]. destruct (Z.eqb_spec c 32); [by subst|done].
Qed.

Lemma dec_not_blank n r : 0 <= n -> head (dec n ++ r) <> Some 32.
Proof. intros Hn. destruct (dec_head n Hn) as (c & t & -> & Hc%isdigit_spec). cbn. intros [= ->]. lia. Qed.

Lemma dec_no_blank n : 0 <= n -> no_blank (dec n).
Proof. intros Hn. eapply Forall_impl; [by apply dec_digits|]. cbn. intros c Hc%isdigit_spec. lia. Qed.

(** The minor numbers without the padding. *)
Definition minors_text (d : driver) : bytes :=
  if d_first d <? d_last d then dec (d_first d) ++ 45 :: dec (d_last d) else dec (d_first d).

Lemma minors_text_ok d : driver_ok d -> no_blank (minors_text d) /\ head (minors_text d ++ [32]) <> Some 32.
Proof.
  intros (_ & _ & _ & _ & _ & _ & _ & Hf & _). unfold minors_text. destruct (_ <? _).
  - split; [|rewrite <- app_assoc; apply dec_not_blank; lia]. unfold no_blank. rewrite Forall_app, Forall_cons.
    repeat split; [|done|]; apply dec_no_blank; lia.
  - split; [apply dec_no_blank|apply dec_not_blank]; lia.
Qed.

Lemma skip_minors d r : driver_ok d -> skip_blank (32 :: minors d ++ r) = minors_text d ++ r.
Proof.
  intros (_ & _ & _ & _ & _ & _ & _ & Hf & _). cbn [skip_blank]. change (32 =? 32) with true. cbv iota.
  unfold minors, minors_text. destruct (_ <? _).
  - rewrite <- !app_assoc. apply (skip_blank_replicate 0). apply dec_not_blank. lia.
  - unfold pad_left. rewrite <- app_assoc. apply skip_blank_replicate, dec_not_blank. lia.
Qed.

Lemma sscanf_minors d r : driver_ok d ->
  sscanf [DU; DLit 45; DU] (minors_text d ++ 32 :: r) =
  if d_first d <? d_last d then [VI (d_first d); VI (d_last d)] else [VI (d_first d)].
Proof.
  intros (_ & _ & _ & _ & _ & _ & _ & Hf & Hl). unfold minors_text. destruct (Z.ltb_spec (d_first d) (d_last d)).
  - rewrite <- app_assoc. cbn [app]. rewrite sscanf_dec, sscanf_cons_DLit, sscanf_dec by (done || lia). done.
  - rewrite sscanf_dec by (done || lia). done.
Qed.

Lemma driver_numbers_ok d name k r : driver_ok d ->
  driver_numbers false name (replicate k 32 ++ dec (d_major d) ++ 32 :: minors d ++ 32 :: r) =
  (Some (Node false (d_major d) (d_first d) (d_last d) name), minors_text d ++ 32 :: r).
Proof.
  intros Hd. pose proof Hd as (_ & _ & _ & _ & _ & _ & Hm & Hf & Hl). unfold driver_numbers.
  rewrite skip_blank_replicate by (apply dec_not_blank; lia).
  rewrite span_digits_app by (try apply dec_digits; done || lia). cbn [snd]. rewrite skip_minors by done.
  rewrite sscanf_minors by done.
  assert (atoi (dec (d_major d) ++ 32 :: minors d ++ 32 :: r) = d_major d) as ->.
  { rewrite <- (atoi_fmt_d (d_major d) (32 :: minors d ++ 32 :: r)) at 2 by (done || unfold INT_MIN, INT_MAX; lia).
    unfold fmt_d. by destruct (Z.ltb_spec (d_major d) 0); [lia|]. }
  rewrite wrap_u_small by (change (2 ^ 16) with 65536; lia).
  destruct (Z.ltb_spec (d_first d) (d_last d)); [done|]. do 3 f_equal; lia.
Qed.

Lemma devfs_name_ok d r : driver_ok d -> devfs_name (d_name d ++ 32 :: r) (length (d_name d)) = (false, d_name d).
Proof.
  intros (_ & _ & _ & _ & Hl & Hp & _). unfold devfs_name.
  assert (((3 <=? length (d_name d))%nat && streq (take 2 (drop (length (d_name d) - 2) (d_name d ++ 32 :: r))) (bs "%d")) = false) as ->.
  { destruct (Nat.leb_spec 3 (length (d_name d))); [|done]. cbn [andb].
    rewrite drop_app_le by lia. rewrite take_app_le by (rewrite length_drop; lia).
    rewrite take_ge by (rewrite length_drop; lia). unfold streq. by apply bool_decide_eq_false. }
  destruct (Nat.leb_spec 16 (length (d_name d))); [lia|]. by rewrite take_app_length.
Qed.

(** What a line leaves of itself to the next search. *)
Definition leftover (d : driver) : bytes := minors_text d ++ 32 :: d_type d ++ [10].

Lemma leftover_quiet d s : driver_ok d -> quiet s -> quiet (leftover d ++ s).
Proof.
  intros Hd Hs. pose proof (minors_text_ok d Hd) as [Hm _]. destruct Hd as (_ & _ & Ht & (c & t & Et & Hc) & _).
  unfold leftover. rewrite <- app_assoc. apply quiet_no_blank; [done|]. cbn [app quiet]. split.
  - intros _. rewrite Et. cbn. congruence.
  - rewrite <- app_assoc. apply quiet_no_blank; [done|]. by split.
Qed.

Lemma name_column d r :
  pad 8 (d_name d) ++ 32 :: r = d_name d ++ replicate (S (8 - length (d_name d))) 32 ++ r.
Proof.
  unfold pad. rewrite <- app_assoc. f_equal. generalize (8 - length (d_name d))%nat. intros k.
  induction k as [|k IH]; cbn in *; [done|]. by rewrite IH.
Qed.

Lemma load_loop_ok {G} o ds : memory o -> Forall driver_ok ds -> forall fuel j m (w : world G),
  (forall s, quiet s -> quiet (j ++ s)) -> (length ds < fuel)%nat ->
  wp (load_loop fuel (j ++ concat (map driver_line ds)) m) o w (fun r _ => r = reverse (map driver_node ds) ++ m).
Proof.
  intros Hm Hds. induction Hds as [|d ds Hd Hds IH]; intros fuel j m w Hj Hf;
    (destruct fuel as [|f]; [cbn in Hf; lia|]); cbn [map concat load_loop].
  { rewrite strstr_quiet by by apply Hj. by apply wp_ret. }
  pose proof Hd as (Hdr & Hn & _). set (rest := concat (map driver_line ds)).
  set (a := j ++ pad 20 (d_driver d)).
  set (k := (8 - length (d_name d))%nat). set (k2 := (3 - length (dec (d_major d)))%nat).
  assert (Et : j ++ driver_line d ++ rest = a ++ bs " /dev/" ++ d_name d ++ 32 ::
    replicate (k + k2) 32 ++ dec (d_major d) ++ 32 :: minors d ++ 32 :: (d_type d ++ [10]) ++ rest).
  { unfold driver_line, a. rewrite name_column. unfold pad_left. fold k k2. rewrite replicate_add.
    rewrite <- !app_assoc. cbn [replicate app]. rewrite <- !app_assoc. cbn [app]. by rewrite <- !app_assoc. }
  rewrite Et, strstr_mark.
  2:{ unfold a, pad. rewrite <- !app_assoc. apply Hj, quiet_no_blank; [done|]. apply quiet_blanks. }
  assert (Edrop : forall s, drop (length a + 6) (a ++ bs " /dev/" ++ s) = s).
  { intros s. rewrite app_assoc. apply drop_app_length'. by rewrite length_app. }
  rewrite Edrop, strchr_app by done.
  wstep. wsys al Ha. pose proof (Hm (w_tr w) node_size). rewrite <- Ha in H. zcase.
  rewrite devfs_name_ok by done. rewrite drop_app_length.
  change (32 :: replicate (k + k2) 32 ++ ?s) with (replicate (S (k + k2)) 32 ++ s).
  rewrite driver_numbers_ok by done.
  assert (El : minors_text d ++ 32 :: (d_type d ++ [10]) ++ rest = leftover d ++ rest) by (unfold leftover; rewrite <- (app_assoc (minors_text d)); done).
  rewrite El.
  eapply wp_mono; [apply IH; [intros s Hs; by apply leftover_quiet|cbn in Hf; lia]|].
  intros r w' ->. rewrite reverse_cons, <- app_assoc. done.
Qed.

(** The table of drivers the kernel prints is read back entry by entry: its
    second column names the devices, the numbers keep their range. *)
Theorem load_drivers_ok {G} o ds (w : world G) fd :
  memory o -> Forall driver_ok ds -> ds <> [] -> 0 <= fd ->
  (forall t, r_val (o t (COpen DRIVERS 0 0)) = fd) ->
  Forall (fun c => c <> 0) (concat (map driver_line ds)) ->
  Z.of_nat (length (concat (map driver_line ds))) <= 9999 ->
  (forall t, o t (CRead fd 9999) = rdata (Z.of_nat (length (concat (map driver_line ds)))) (concat (map driver_line ds))) ->
  wp load_drivers o w (fun m w' => m = Loaded (reverse (map driver_node ds)) /\
    forall h, 0 <= handle_val h -> net h (w_tr w') = net h (w_tr w)).
Proof.
  intros Hm Hds Hne Hfd Ho Hnul Hlen Hr. set (text := concat (map driver_line ds)) in *.
  assert (Hw : wp load_drivers o w (fun m _ => m = Loaded (reverse (map driver_node ds)))).
  { unfold load_drivers. wstep. wsys f Ef. assert (r_val f = fd) as E by (subst f; apply Ho). rewrite !E. zcase.
    wstep. wsys n En. rewrite Hr in En. subst n. cbn [r_val r_data rdata]. zcase.
    rewrite Nat2Z.id, firstn_all, cstr_app by done. wstep. wstep. cbn [deref]. apply wp_ret.
    eapply wp_mono; [apply (load_loop_ok o ds Hm Hds (S (length text)) [] []); [done|]|].
    { enough (length ds <= length text)%nat by lia. unfold text. clear. induction ds as [|d ds IH]; [done|].
      cbn [map concat length]. rewrite length_app. unfold driver_line at 1. rewrite length_app. cbn [app length]. 
      rewrite !length_app. cbn [length]. lia. }
    intros m w' ->. wstep. wsys c Ec. apply wp_ret. rewrite app_nil_r.
    destruct (reverse (map driver_node ds)) eqn:E2; [|done].
    apply (f_equal length) in E2. rewrite length_reverse, length_map in E2. by destruct ds. }
  eapply wp_mono; [eapply wp_gains; [exact Hw|apply gains_load_drivers]|].
  intros m w' [-> [_ Hn]]. split; [done|]. intros h Hh. rewrite Hn by done. lia.
Qed.

(** ** Witnesses *)

(** Two drivers, and a system with them and the device of /dev/pts/7. *)
Definition two_drivers : list driver :=
  [Driver (bs "/dev/tty") (bs "tty") 5 0 0 (bs "system:/dev/tty");
   Driver (bs "pty_slave") (bs "pts") 136 0 1048575 (bs "pty:slave")].

Definition tty_os : os := fun _ c =>
  match c with
  | COpen _ _ _ => rok 4
  | CRead _ n => let d := take (Z.to_nat n) (concat (map driver_line two_drivers)) in rdata (Z.of_nat (length d)) d
  | CStat p => if streq p (bs "/dev/pts/7") then Ret 0 0 [] 0 0 false 0 0 0 34823 else rerr 2
  | _ => rok 0
  end.

Lemma load_drivers_witness :
  wp load_drivers tty_os (World [] 0 tt) (fun m w' => m = Loaded (reverse (map driver_node two_drivers)) /\
    forall h, 0 <= handle_val h -> net h (w_tr w') = net h []).
Proof.
  apply (load_drivers_ok tty_os two_drivers (World [] 0 tt) 4); try done; try lia.
  - repeat constructor; cbn; try lia; try done; eexists _, _; split; done.
  - apply (bool_decide_unpack _). by vm_compute.
Defined.

#[local] Instance tty_os_kernel : Kernel tty_os.
Proof.
  split; intros; cbn [tty_os r_val r_data rdata rok]; [|cbn; lia..].
  rewrite length_take. split; lia.
Qed.

Lemma dev_to_tty_genuine_witness :
  wp (dev_to_tty (replicate 64 0) 63 34823 1 ABBREV_DEV Unloaded) tty_os (World [] 0 tt) (fun r w' =>
    exists text, cstr r.1.2 = Some text /\ length r.1.2 = length (replicate 64 0) /\
      r.1.1 = Z.of_nat (length text) /\ r.1.1 <= 63 /\
      (text = bs "?" \/ exists buf, genuine (w_tr w') (u32 34823) buf /\ text = tty_text 63 ABBREV_DEV buf) /\
      forall h, 0 <= handle_val h -> net h (w_tr w') = net h []).
Proof. apply (dev_to_tty_genuine tty_os (replicate 64 0) 63 34823 1 ABBREV_DEV Unloaded (World [] 0 tt)). cbn. lia. Defined.

(** The name of the terminal 136:7, abbreviated. *)
Example tty_name_pts : exists m w, dev_to_tty (replicate 64 0) 63 34823 1 (ABBREV_DEV) Unloaded tty_os (World [] 0 tt)
  = Done (5, bs "pts/7" ++ replicate 59 0, m) w.
Proof. vm_compute. by eexists _, _. Qed.
End Devname.
