(* ===== verification/Keyfile.v ===== *)
(** * procps/linux: files of keys and numbers

    meminfo.c and proc_vmstat.c repeat the same code for a file whose lines are a
    key and a number: a hash table from the keys to the fields of a structure, a
    read that keeps the previous values as history, and the functions of the
    interface.  It is modelled once here, for what differs between the two
    (class [KeyFile]); the hash table of [hsearch_r] is the list of the keys
    entered in it, each with the field its data points to. *)

From stdpp Require Import base numbers list strings sets.
From S2P Require Import Prelude Libc Posix Stacks.
Open Scope Z_scope.

Module Keyfile.

(** ** What differs *)

(** The structure with the numbers, and the current and the previous one. *)
Abbreviation data F := (F -> Z).
Record hist_of (F : Type) := Hist { h_new : data F; h_old : data F }.
Arguments Hist {F}.
Arguments h_new {F}.
Arguments h_old {F}.

Definition upd {F} `{EqDecision F} (d : data F) (f : F) (v : Z) : data F :=
  fun g => if decide (g = f) then v else d g.

Lemma upd_same {F} `{EqDecision F} (d : data F) f v : upd d f v f = v.
Proof. unfold upd. by rewrite decide_True. Qed.
Lemma upd_other {F} `{EqDecision F} (d : data F) f g v : g <> f -> upd d f v g = d g.
Proof. intros. unfold upd. by rewrite decide_False. Qed.

(** The fields, the file, the byte behind a key, the keys, what is computed
    behind the last line, the setters of the items and their types. *)
Class KeyFile (F : Type) := {
  kf_all : list F;
  kf_file : bytes;
  kf_sep : Z;
  kf_keys : list (bytes * F);
  kf_derive : data F -> data F;
  kf_table : list (uval -> hist_of F -> uval);
  kf_types : list (option utype)
}.

Section keyfile.
Context {F : Type} {EF : EqDecision F} {KF : KeyFile F}.

Definition zero : data F := fun _ => 0.
(** ** The context *)

Record kinfo := KInfo {
  refcount : Z;
  info_fd : Z;
  hist : hist_of F;
  ext : ext_support;            (* numitems, items and extents *)
  get_this : result;
  sav_secs : Z
}.

Definition set_hist h i := KInfo (refcount i) (info_fd i) h (ext i) (get_this i) (sav_secs i).
Definition set_fd fd i := KInfo (refcount i) fd (hist i) (ext i) (get_this i) (sav_secs i).
Definition set_refcount n i := KInfo n (info_fd i) (hist i) (ext i) (get_this i) (sav_secs i).
Definition set_ext x i := KInfo (refcount i) (info_fd i) (hist i) x (get_this i) (sav_secs i).
Definition set_get r i := KInfo (refcount i) (info_fd i) (hist i) (ext i) r (sav_secs i).
Definition set_secs s i := KInfo (refcount i) (info_fd i) (hist i) (ext i) (get_this i) s.

Definition EINTR : Z := 4.
Definition EIO : Z := 5.
Definition EAGAIN : Z := 11.
Definition ENOMEM : Z := 12.
Definition EINVAL : Z := 22.
Definition BUFF : Z := 8192.

(** ** Reading the file *)

(** [hsearch_r(FIND)] *)
Fixpoint hash_find (keys : list (bytes * F)) (k : bytes) : option F :=
  match keys with
  | [] => None
  | (x, f) :: r => if streq x k then Some f else hash_find r k
  end.

(** The line loop.  Each round passes a separator, so the length of the text
    bounds the rounds ([parse_fuel]). *)
Fixpoint parse_loop (fuel : nat) (head : bytes) (d : data F) : data F :=
  match fuel with
  | O => d
  | S fuel' =>
      match strchr head kf_sep with
      | None => d
      | Some i =>
          let key := take i head in
          let head := drop (S i) head in
          let d := match hash_find kf_keys key with
                   | Some f => upd d f (st_val (strtoul head))
                   | None => d
                   end in
          match strchr head 10 with
          | None => d
          | Some j => parse_loop fuel' (drop (S j) head) d
          end
      end
  end.

Definition parse_file (buf : bytes) (d : data F) : data F :=
  parse_loop (S (length buf)) buf d.

(** The [read] loop: interrupted reads are repeated. *)
Fixpoint read_retry (fuel : nat) (fd : Z) : M unit ret :=
  match fuel with
  | O => nofuel
  | S f =>
      r ← sys (CRead fd (BUFF - 1));
      e ← get_errno;
      if (r_val r <? 0) && ((e =? EINTR) || (e =? EAGAIN)) then read_retry f fd else mret r
  end.

(** Returns 1 on failure. *)
Definition read_failed (fuel : nat) (info : kinfo) : M unit (Z * kinfo) :=
  let info := set_hist (Hist zero (h_new (hist info))) info in
  info ← (if info_fd info =? -1
          then f ← sys (COpen kf_file 0 0); mret (set_fd (r_val f) info)
          else mret info);
  if info_fd info =? -1 then mret (1, info) else
  l ← sys (CLseek (info_fd info) 0);
  if r_val l =? -1 then mret (1, info) else
  r ← read_retry fuel (info_fd info);
  if r_val r <? 0 then mret (1, info) else
  if r_val r =? 0 then _ ← set_errno EIO; mret (1, info) else
  if BUFF <=? r_val r then undef else
  buf ← deref (cstr (r_data r ++ [0]));
  let d := kf_derive (parse_file buf (h_new (hist info))) in
  mret (0, set_hist (Hist d (h_old (hist info))) info).

(** ** Public functions *)

(** [hcreate_r] with room for the fields and a quarter more; the entries
    cannot fail while there is room. *)
Definition hash_room : Z := Z.of_nat (length kf_all) + Z.of_nat (length kf_all) / 4.
Definition make_hash_failed : M unit bool :=
  r ← sys (CMalloc hash_room);
  mret ((r_val r <? 0) || (hash_room <? Z.of_nat (length kf_keys))).

(** [None]: the context was freed. *)
Definition procps_unref (info : option kinfo) : M unit (Z * option kinfo) :=
  match info with
  | None => mret (- EINVAL, None)
  | Some info =>
      let info := set_refcount (refcount info - 1) info in
      if refcount info <? 1 then mret (0, None) else mret (refcount info, Some info)
  end.

Definition procps_ref (info : option kinfo) : Z * option kinfo :=
  match info with
  | None => (- EINVAL, None)
  | Some info => let info := set_refcount (refcount info + 1) info in (refcount info, Some info)
  end.

(** [slot]: whether [*info] already holds a context. *)
Definition procps_new (fuel : nat) (slot : option kinfo)
  : M unit (Z * option kinfo) :=
  match slot with
  | Some _ => mret (- EINVAL, slot)
  | None =>
      c ← sys (CMalloc 1);
      if r_val c <? 0 then mret (- ENOMEM, None) else
      let p := KInfo 1 (-1) (Hist zero zero) ext_empty (Result 0 (U64 0)) 0 in
      failed ← make_hash_failed;
      if failed : bool then e ← get_errno; mret (- e, None) else
      '(rc, p) ← read_failed fuel p;
      if negb (rc =? 0) then
        _ ← procps_unref (Some p);
        e ← get_errno; mret (- e, None)
      else mret (0, Some p)
  end.

(** The result and the context; NULL is [None]. *)
Definition procps_get (fuel : nat) (info : option kinfo) (item : Z)
  : M unit (option result * option kinfo) :=
  _ ← set_errno EINVAL;
  match info with
  | None => mret (None, None)
  | Some info =>
      if (item <? 0) || ((logical_end kf_table) <=? item) then mret (None, Some info) else
      _ ← set_errno 0;
      t ← sys CTime;
      let cur_secs := r_val t in
      '(rc, info) ← (if 1 <=? cur_secs - sav_secs info then
                       '(rc, info) ← read_failed fuel info;
                       if negb (rc =? 0) then mret (1, info) else mret (0, set_secs cur_secs info)
                     else mret (0, info));
      if negb (rc =? 0) then mret (None, Some info) else
      set ← deref (kf_table !! Z.to_nat item);
      let r := Result item (set (U64 0) (hist info)) in
      mret (Some r, Some (set_get r info))
  end.

(** [addr] and [items]: the caller's array. *)
Definition procps_select (fuel : nat) (info : option kinfo)
    (addr : Z) (items : list Z) (numitems : Z) : M unit (option stack * option kinfo) :=
  _ ← set_errno EINVAL;
  match info with
  | None => mret (None, None)
  | Some info =>
      if addr =? 0 then mret (None, Some info) else
      bad ← deref (items_check_failed kf_table numitems addr items);
      if bad : bool then mret (None, Some info) else
      _ ← set_errno 0;
      '(rc, x) ← reconfig kf_table (ext info) items numitems;
      let info := set_ext x info in
      if rc <? 0 then mret (None, Some info) else
      '(ok, x) ← (match x_extents x with
                  | [] => '(b, x) ← stacks_alloc x 1; mret (bool_decide (b <> None), x)
                  | _ => mret (true, x)
                  end);
      let info := set_ext x info in
      if negb ok then mret (None, Some info) else
      '(rc, info) ← read_failed fuel info;
      if negb (rc =? 0) then mret (None, Some info) else
      b ← deref (head (x_extents (ext info)));
      let p := (b_id b, 0%nat) in
      s ← deref (load (ext info) p);
      s ← deref (assign_results kf_table s (hist info));
      mret (Some s, Some (set_ext (store (ext info) p s) info))
  end.

(** The debugging interface; the flag says whether a message is printed. *)
Definition xtra_info_get (fuel : nat) (info : option kinfo) (item : Z) (typestr : option utype)
  : M unit (option result * option kinfo * bool) :=
  '(r, info) ← procps_get fuel info item;
  mret (r, info, xtra_get kf_table kf_types typestr item r).

Definition xtra_info_val := xtra_val kf_table kf_types.

(** ** Parsing *)

(** The fuel given to the line loop is enough. *)
Lemma parse_fuel f head d : (length head < f)%nat -> parse_loop f head d = parse_loop (S f) head d.
Proof.
  revert head d. induction f as [|f IH]; intros head d Hf; [lia|].
  cbn [parse_loop]. destruct (strchr head kf_sep) as [i|] eqn:Hi; [|done].
  destruct (strchr (drop (S i) head) 10) as [j|] eqn:Hj; [|done].
  rewrite IH; [done|]. apply strchr_lt in Hi, Hj. rewrite !length_drop in *. lia.
Qed.

(** A line as the kernel prints it. *)
Record mline := MLine { l_key : bytes; l_pad : nat; l_val : Z; l_unit : bytes }.

Definition print_line (l : mline) : bytes :=
  l_key l ++ kf_sep :: replicate (l_pad l) 32 ++ dec (l_val l) ++ l_unit l ++ [10].

Definition line_ok (l : mline) : Prop :=
  Forall (fun c => c <> kf_sep) (l_key l) /\ 0 <= l_val l <= ULONG_MAX /\
  Forall (fun c => c <> 10) (l_unit l) /\ stops (l_unit l).

(** What a file of lines says about the fields: the last line of a key counts. *)
Definition line_value (d : data F) (l : mline) : data F :=
  match hash_find kf_keys (l_key l) with Some f => upd d f (l_val l) | None => d end.

Lemma stops_app s r : stops s -> stops (10 :: r) -> stops (s ++ 10 :: r).
Proof. by destruct s. Qed.

Lemma Forall_not_in_digits (c : Z) n : 0 <= n -> isdigit c = false -> Forall (fun x => x <> c) (dec n).
Proof.
  intros Hn Hc. eapply Forall_impl; [by apply dec_digits|]. cbn. intros x Hx ->. congruence.
Qed.

Lemma parse_lines fuel ls d : Forall line_ok ls -> (length ls < fuel)%nat ->
  parse_loop fuel (concat (map print_line ls)) d = foldl line_value d ls.
Proof.
  intros Hl. revert fuel d. induction Hl as [|l ls (Hk & Hv & Hu & Hs) _ IH]; intros fuel d Hf;
    (destruct fuel as [|fuel]; [cbn in Hf; lia|]).
  - done.
  - cbn [map concat foldl]. unfold print_line at 1. set (tail := concat (map print_line ls)) in *.
    rewrite <- app_assoc, <- app_comm_cons. cbn [parse_loop].
    rewrite strchr_app by done. rewrite take_app_length.
    rewrite drop_past.
    assert (Hbody : (replicate (l_pad l) 32 ++ dec (l_val l) ++ l_unit l ++ [10]) ++ tail
      = (replicate (l_pad l) 32 ++ dec (l_val l) ++ l_unit l) ++ 10 :: tail)
      by (by rewrite <- !app_assoc).
    rewrite Hbody. rewrite strchr_app.
    2:{ rewrite !Forall_app. split; [by apply Forall_replicate|]. split; [|done].
        apply Forall_not_in_digits; [lia|done]. }
    rewrite drop_past.
    rewrite <- app_assoc, <- app_assoc, strtoul_padded by (try lia; by apply stops_app).
    cbn [st_val length] in *. by rewrite IH by lia.
Qed.

Lemma parse_file_lines ls d : Forall line_ok ls ->
  parse_file (concat (map print_line ls)) d = foldl line_value d ls.
Proof.
  intros Hl. apply parse_lines; [done|].
  assert (H : (length ls <= length (concat (map print_line ls)))%nat); [|lia].
  clear Hl. induction ls as [|l ls IH]; cbn [map concat length]; [lia|].
  unfold print_line at 1. rewrite !length_app. cbn [length]. lia.
Qed.

(** ** Reading the file *)

(** A read that is to be repeated, and how many such reads of a descriptor the
    history ends with. *)
Definition interrupted (r : ret) : bool :=
  (r_val r <? 0) && ((r_errno r =? EINTR) || (r_errno r =? EAGAIN)).

Fixpoint streak (fd : Z) (t : trace) : nat :=
  match t with
  | (CRead f _, r) :: t' => if (f =? fd) && interrupted r then S (streak fd t') else 0
  | _ => 0
  end.

(** No read is interrupted more than [n] times in a row. *)
Definition calm (o : os) (n : nat) : Prop := forall t fd k,
  (n <= streak fd t)%nat -> interrupted (o t (CRead fd k)) = false.

Lemma read_retry_ok o n fuel fd : calm o n -> forall w,
  (streak fd (w_tr w) <= n < fuel + streak fd (w_tr w))%nat ->
  wp (read_retry fuel fd) o w (fun r w' =>
    exists t, w_tr w' = (CRead fd (BUFF - 1), r) :: t /\ r = o t (CRead fd (BUFF - 1)) /\
    forall h, net h t = net h (w_tr w)).
Proof.
  intros Hc. induction fuel as [|fuel IH]; intros w Hf; [lia|]. cbn [read_retry].
  wstep. apply wp_sys_errno. intros r Hr. wstep. cbn [wp get_errno w_errno].
  assert (He : ((r_val r <? 0) && (((if r_val r <? 0 then r_errno r else w_errno w) =? EINTR)
      || ((if r_val r <? 0 then r_errno r else w_errno w) =? EAGAIN))) = interrupted r)
    by (unfold interrupted; by destruct (r_val r <? 0)).
  unfold wp at 1. cbn [get_errno w_errno]. rewrite He. destruct (interrupted r) eqn:Hi; [|cbn; by eexists].
  assert (Hs : (streak fd (w_tr w) < n)%nat).
  { destruct (decide (n <= streak fd (w_tr w))%nat) as [Hn|]; [|lia].
    specialize (Hc (w_tr w) fd (BUFF - 1) Hn). rewrite <- Hr in Hc. congruence. }
  eapply wp_mono; [apply IH|].
  - cbn [w_tr streak]. rewrite Z.eqb_refl, Hi. cbn [andb]. lia.
  - intros r' w' (t & H1 & H2 & H3). exists t. split; [done|]. split; [done|].
    intros h. rewrite H3. cbn [w_tr]. destruct h; unfold net; cbn [foldr effect]; lia.
Qed.

(** The text a successful read delivered. *)
Definition read_text (fd : Z) (t : trace) (buf : bytes) : Prop :=
  exists r t', t = (CRead fd (BUFF - 1), r) :: t' /\ 0 < r_val r /\
    cstr (r_data r ++ [0]) = Some buf.

(** The references an information block holds. *)
Definition held (fd : Z) (h : handle) : Z :=
  match h with HFd v => if (0 <=? fd) && (fd =? v) then 1 else 0 | _ => 0 end.

Definition same_but_hist (a b : kinfo) : Prop :=
  refcount b = refcount a /\ ext b = ext a /\ get_this b = get_this a /\ sav_secs b = sav_secs a.

Lemma net_cons h c r t : net h ((c, r) :: t) = effect h (c, r) + net h t.
Proof. done. Qed.

Lemma cstr_buf_total s : exists buf, cstr (s ++ [0]) = Some buf.
Proof. destruct (cstr_line s) as (buf & H & _). eauto. Qed.

Lemma read_failed_ok o n fuel info w : Kernel o -> calm o n -> (n < fuel)%nat ->
  wp (read_failed fuel info) o w (fun res w' =>
    same_but_hist info res.2 /\ h_old (hist res.2) = h_new (hist info) /\
    (res.1 = 0 \/ res.1 = 1 /\ h_new (hist res.2) = zero) /\
    (res.1 = 0 -> exists buf, read_text (info_fd res.2) (w_tr w') buf /\
       h_new (hist res.2) = kf_derive (parse_file buf zero)) /\
    forall h, 0 <= handle_val h ->
      net h (w_tr w') - held (info_fd res.2) h = net h (w_tr w) - held (info_fd info) h).
Proof.
  intros HK Hc Hn. unfold read_failed.
  set (i1 := set_hist (Hist zero (h_new (hist info))) info). wstep.
  assert (H1 : wp (if info_fd i1 =? -1
            then f ← sys (COpen kf_file 0 0); mret (set_fd (r_val f) i1)
            else mret i1) o w (fun i2 w1 => same_but_hist info i2 /\ hist i2 = hist i1 /\
      forall h, 0 <= handle_val h ->
        net h (w_tr w1) - held (info_fd i2) h = net h (w_tr w) - held (info_fd info) h)).
  { change (info_fd i1) with (info_fd info).
    destruct (Z.eqb_spec (info_fd info) (-1)) as [E|E]; [|done].
    wstep. wsys f Hf. apply wp_ret. split; [done|]. split; [done|]. rewrite E. cbn [w_tr].
    intros [v|v|v] Hv; rewrite net_cons; cbn [effect held]; unfold opened; fd_leaf. }
  eapply wp_mono; [apply H1|]. clear H1. intros i2 w1 (Hs & Hh & Hnet).
  destruct (Z.eqb_spec (info_fd i2) (-1)) as [E|E].
  { unfold wp; cbn [mret M_ret mbind M_bind set_errno fst snd w_tr]. rewrite Hh. split; [done|]. split; [done|]. split; [by right|]. by split. }
  wstep. wsys l Hl.
  assert (Hnl : forall h, net h ((CLseek (info_fd i2) 0, l) :: w_tr w1) = net h (w_tr w1))
    by (intros []; rewrite net_cons; cbn [effect]; lia).
  destruct (Z.eqb_spec (r_val l) (-1)).
  { unfold wp; cbn [mret M_ret mbind M_bind set_errno fst snd w_tr]. rewrite Hh. split; [done|]. split; [done|]. split; [by right|]. split; [done|].
    intros h Hhv. rewrite Hnl. by apply Hnet. }
  wstep. eapply wp_mono; [apply (read_retry_ok o n fuel (info_fd i2) Hc); cbn; lia|].
  intros r w2 (t & Ht & Hr & Hn2). cbn [w_tr] in Hn2.
  assert (Hn3 : forall h, 0 <= handle_val h ->
    net h (w_tr w2) - held (info_fd i2) h = net h (w_tr w) - held (info_fd info) h).
  { intros h Hhv. rewrite Ht, net_cons, Hn2, Hnl. rewrite <- Hnet by done. destruct h; cbn [effect]; lia. }
  destruct (Z.ltb_spec (r_val r) 0).
  { unfold wp; cbn [mret M_ret mbind M_bind set_errno fst snd w_tr]. rewrite Hh. split; [done|]. split; [done|]. split; [by right|]. by split. }
  destruct (Z.eqb_spec (r_val r) 0).
  { wstep. unfold wp at 1. cbn [set_errno]. apply wp_ret. cbn [fst snd w_tr]. rewrite Hh. split; [done|]. split; [done|]. split; [by right|]. by split. }
  destruct (Z.leb_spec BUFF (r_val r)) as [Hb|Hb].
  { destruct (k_read t (info_fd i2) (BUFF - 1) ltac:(done)) as [Hk _].
    rewrite <- Hr in Hk. lia. }
  destruct (cstr_buf_total (r_data r)) as [buf Hbuf]. wstep. rewrite Hbuf.
  unfold wp; cbn [mret M_ret deref set_hist hist h_new h_old info_fd fst snd w_tr]. rewrite Hh.
  split; [done|]. split; [done|]. split; [by left|]. split; [|done].
  intros _. exists buf. split; [|done]. exists r, t. split; [done|]. split; [lia|done].
Qed.

(** ** Selecting *)

Definition info_inv (info : kinfo) : Prop := ext_inv kf_table (ext info).

(** malloc, calloc and realloc never fail. *)
Definition memory (o : os) : Prop := forall t sz, 0 <= r_val (o t (CMalloc sz)).

(** The second step of select: make sure there is a stack. *)
Lemma ensure_stack_ok o (w : world unit) x its : memory o -> ext_ok kf_table x its ->
  wp (match x_extents x with
      | [] => '(b, x) ← stacks_alloc x 1; mret (bool_decide (b <> None), x)
      | _ => mret (true, x)
      end) o w (fun res w' => res.1 = true /\ ext_ok kf_table res.2 its /\ x_extents res.2 <> []).
Proof.
  intros Hm Hx. destruct (x_extents x) as [|b r] eqn:E.
  - wstep. eapply wp_mono.
    { apply (stacks_alloc_full kf_table o w x its 1 Hm Hx); lia. }
    intros res w' (b & -> & _ & _ & H1 & _). apply wp_ret. cbn [fst snd] in *.
    split; [done|]. by split.
  - apply wp_ret. cbn [fst snd]. split; [done|]. split; [done|]. by rewrite E.
Qed.


(** What a stack shows: the items asked for, each set by its own setter. *)
Definition selected (info : kinfo) (its : list Z) (s : stack) : Prop :=
  primed kf_table its s /\
  forall i item f, its !! i = Some item -> kf_table !! Z.to_nat item = Some f ->
    exists u, s !! i = Some (Result item (f u (hist info))).

Lemma assign_selected info its s0 : Forall (valid_item kf_table) its -> primed kf_table its s0 ->
  exists s, assign_results kf_table s0 (hist info) = Some s /\ selected info its s.
Proof.
  intros Hv Hp. destruct (assign_results_ok kf_table its s0 (hist info) Hv Hp) as (s & Hs & Hp' & Ha).
  exists s. split; [done|]. split; [done|]. intros i item f Hi Hr.
  apply primed_split in Hp as (rs & e & -> & Hrs & _). subst its.
  rewrite list_lookup_fmap in Hi. destruct (rs !! i) as [r|] eqn:Er; [|done]. cbn in Hi. simplify_eq.
  exists (r_result r). rewrite (Ha i r).
  - unfold assigned. by rewrite Hr.
  - by apply lookup_app_l_Some.
  - rewrite Forall_forall in Hv. apply Hv. apply list_elem_of_fmap. exists r.
    split; [done|]. by eapply list_elem_of_lookup_2.
Qed.

(** What a call of select returns and leaves. *)
Definition select_post (info : kinfo) (its : list Z)
    (res : option stack * option kinfo) (w' : world unit) : Prop :=
  exists info', res.2 = Some info' /\ info_inv info' /\ refcount info' = refcount info /\
    h_old (hist info') = h_new (hist info) /\
    match res.1 with
    | Some s => selected info' its s /\
        exists buf, read_text (info_fd info') (w_tr w') buf /\
          h_new (hist info') = kf_derive (parse_file buf zero)
    | None => h_new (hist info') = zero
    end.

Lemma logical_end_pos its : Forall (valid_item kf_table) its -> (0 < length its)%nat -> 0 < logical_end kf_table.
Proof. intros [|i l Hi _] Hl; [cbn in Hl; lia|]. unfold valid_item in Hi. lia. Qed.

Lemma select_ok o n fuel info addr items numitems w :
  Kernel o -> calm o n -> (n < fuel)%nat -> memory o -> info_inv info ->
  2 * (logical_end kf_table) <= addr -> 1 <= numitems <= Z.of_nat (length items) ->
  Forall (valid_item kf_table) (take (Z.to_nat numitems) items) ->
  wp (procps_select fuel (Some info) addr items numitems) o w
    (select_post info (take (Z.to_nat numitems) items)).
Proof.
  intros HK Hc Hn Hm Hinv Ha Hnum Hv. set (its := take (Z.to_nat numitems) items) in *.
  unfold procps_select. wstep. unfold wp at 1. cbn [set_errno].
  destruct (Z.eqb_spec addr 0) as [E|_].
  { pose proof (logical_end_pos _ Hv ltac:(subst its; rewrite length_take; lia)). lia. }
  assert (Hbad : items_check_failed kf_table numitems addr items = Some false).
  { unfold items_check_failed.
    zcase. apply items_bad_ok; [lia|done]. }
  rewrite Hbad. wstep. unfold wp at 1. cbn [deref mret M_ret]. wstep. unfold wp at 1. cbn [set_errno].
  wstep. eapply wp_mono.
  { apply (reconfig_ok kf_table o _ (ext info) items numitems); try done; lia. }
  intros [rc x] w1 (Hok & _ & _ & _ & _ & Hrc). cbn [fst snd] in *.
  specialize (Hrc Hm). specialize (Hok Hrc). fold its in Hok.
  destruct (Z.ltb_spec rc 0); [lia|]. wstep.
  eapply wp_mono; [by apply (ensure_stack_ok o w1 x its)|]. intros [ok x2] w2. cbn [fst snd].
  intros (-> & Hx2 & Hne). cbn [negb]. wstep.
  eapply wp_mono; [by apply (read_failed_ok o n fuel)|].
  intros [rc2 info2] w3 ((Hr1 & Hr2 & _) & Hold & Hres & Hread & _). cbn [fst snd] in *.
  cbn [set_ext refcount ext hist] in Hr1, Hr2, Hold.
  destruct (Z.eqb_spec rc2 0) as [->|Hne2]; cbn [negb].
  2:{ apply wp_ret. exists info2. destruct Hres as [?|[_ Hz]]; [lia|].
      repeat split; try done. right. exists its. by rewrite Hr2. }
  rewrite Hr2. destruct (x_extents x2) as [|b r] eqn:Ex; [done|]. cbn [head].
  destruct (load_head kf_table x2 its b r Hx2 Ex) as [s0 Hs0].
  pose proof (load_primed kf_table x2 its _ s0 Hx2 Hs0) as Hp0.
  destruct (assign_selected info2 its s0 Hv Hp0) as (s & Hs & Hsel).
  wstep. unfold wp at 1. cbn [deref mret M_ret]. wstep. rewrite Hs0. unfold wp at 1. cbn [deref mret M_ret].
  wstep. rewrite Hs. unfold wp at 1. cbn [deref mret M_ret]. apply wp_ret. cbn [fst snd].
  eexists. split; [done|]. split; [|split; [done|split; [done|split; [|by apply Hread]]]].
  - right. exists its. apply (store_ok kf_table x2 its _ s s0); try done. apply Hsel.
  - apply Hsel.
Qed.

(** ** Creating and releasing *)

Lemma new_ok o n fuel w : Kernel o -> calm o n -> (n < fuel)%nat ->
  wp (procps_new fuel None) o w (fun res w' =>
    match res.2 with
    | Some info => res.1 = 0 /\ refcount info = 1 /\ info_inv info /\
        (exists buf, read_text (info_fd info) (w_tr w') buf /\
           h_new (hist info) = kf_derive (parse_file buf zero)) /\
        forall h, 0 <= handle_val h -> net h (w_tr w') = net h (w_tr w) + held (info_fd info) h
    | None => True
    end).
Proof.
  intros HK Hc Hn. unfold procps_new. wstep. wsys c Hc0.
  destruct (Z.ltb_spec (r_val c) 0); [done|]. wstep. unfold make_hash_failed.
  wstep. wsys k Hk. apply wp_ret. destruct ((_ <? 0) || _).
  { wstep. done. }
  wstep. eapply wp_mono; [by apply (read_failed_ok o n fuel)|].
  intros [rc p] w1 ((Hr1 & Hr2 & _) & _ & _ & Hread & Hnet). cbn [fst snd] in *.
  destruct (Z.eqb_spec rc 0) as [->|]; cbn [negb].
  - apply wp_ret. cbn [fst snd]. split; [done|]. split; [done|].
    split; [left; by rewrite Hr2|]. split; [by apply Hread|].
    intros h Hh. specialize (Hnet h Hh). cbn [w_tr] in Hnet. rewrite !net_cons in Hnet.
    destruct h; cbn in Hnet |- *; lia.
  - unfold procps_unref. cbv zeta. wstep. unfold wp at 1.
    destruct (refcount _ <? 1); cbn; done.
Qed.

Lemma unref_leaks o n fuel w w1 w2 info rc slot :
  Kernel o -> calm o n -> (n < fuel)%nat ->
  procps_new fuel None o w = Done (0, Some info) w1 -> 0 <= info_fd info ->
  procps_unref (Some info) o w1 = Done (rc, slot) w2 ->
  rc = 0 /\ slot = None /\
  net (HFd (info_fd info)) (w_tr w2) = net (HFd (info_fd info)) (w_tr w) + 1.
Proof.
  intros HK Hc Hn Hnew Hfd Hun. pose proof (new_ok o n fuel w HK Hc Hn) as H.
  unfold wp in H. rewrite Hnew in H. cbn [fst snd] in H. destruct H as (_ & Hr & _ & _ & Hnet).
  unfold procps_unref in Hun. cbn [set_refcount refcount] in Hun. rewrite Hr in Hun.
  cbn in Hun. injection Hun as <- <- <-. split; [done|]. split; [done|].
  rewrite Hnet by done. cbn [held]. zcase. done.
Qed.

(** Likewise, a failed reallocation of the items. *)
Lemma select_enomem o fuel info addr items numitems its w :
  ext_ok kf_table (ext info) its -> Z.of_nat (length its) = numitems -> take (Z.to_nat numitems) items <> its ->
  2 * (logical_end kf_table) <= addr -> 1 <= numitems <= Z.of_nat (length items) ->
  Forall (valid_item kf_table) (take (Z.to_nat numitems) items) ->
  r_val (o (w_tr w) (CMalloc (4 * (numitems + 1)))) < 0 ->
  exists info1 w1,
    procps_select fuel (Some info) addr items numitems o w = Done (None, Some info1) w1 /\
    forall o' w', exists w2, procps_select fuel (Some info1) addr items numitems o' w' = Undef w2.
Proof.
  intros Hok Hlen Hdiff Ha Hnum Hv Hm.
  assert (Hbad : items_check_failed kf_table numitems addr items = Some false).
  { unfold items_check_failed.
    zcase. apply items_bad_ok; [lia|done]. }
  pose proof (logical_end_pos _ Hv ltac:(rewrite length_take; lia)). pose proof Hok as (_ & Hi & Hn & _).
  assert (Hch : items_changed (ext info) items numitems = Some true).
  { unfold items_changed. rewrite Hn, Hi, Hlen, Z.eqb_refl. cbn [negb mbind option_bind].
    rewrite <- Hlen, Nat2Z.id, take_app_length. f_equal. apply negb_true_iff, bool_decide_eq_false.
    intros E. apply Hdiff. rewrite <- Hlen, Nat2Z.id. done. }
  set (info1 := set_ext (Ext (numitems + 1) None (x_extents (ext info)) (x_next (ext info))) info).
  assert (H1 : wp (procps_select fuel (Some info) addr items numitems) o w
                  (fun res _ => res = (None, Some info1))).
  { unfold procps_select. wstep. unfold wp at 1. cbn [set_errno]. zcase.
    rewrite Hbad. wstep. unfold wp at 1. cbn [deref mret M_ret]. wstep. unfold wp at 1. cbn [set_errno].
    wstep. unfold reconfig. rewrite Hch. wstep. unfold wp at 1. cbn [deref mret M_ret].
    wstep. unfold wp at 1. cbn [sys w_tr]. zcase. apply wp_ret. change (-1 <? 0) with true.
    subst info1. by rewrite Hn, Hlen. }
  apply wp_done in H1 as (res & w1 & Hrun & ->). exists info1, w1. split; [done|].
  intros o' w'. unfold procps_select. cbn [mbind M_bind set_errno]. zcase.
    rewrite Hbad. cbn [mbind M_bind deref mret M_ret set_errno]. unfold reconfig, items_changed.
    cbn [info1 set_ext ext x_numitems x_items]. rewrite Z.eqb_refl. cbn [negb mbind option_bind deref M_bind].
    by eexists.
Qed.

End keyfile.
Arguments kinfo : clear implicits.
End Keyfile.
