(* ===== verification/Meminfo.v ===== *)
(** * procps/linux/meminfo.c: memory and swap statistics

    The tables are transcribed from the source and the header; the code is the
    one of Keyfile for these tables, the separator and the derived figures. *)

From stdpp Require Import base numbers list strings sets.
From S2P Require Import Prelude Libc Posix Stacks Keyfile.
Open Scope Z_scope.

Module Meminfo.
Import Keyfile.

(** The fields of [struct meminfo_data], in its order. *)
Inductive mfield :=
| Active | Active_anon | Active_file | AnonHugePages | AnonPages | Bounce | Buffers | Cached
| CmaFree | CmaTotal | CommitLimit | Committed_AS | DirectMap1G | DirectMap2M | DirectMap4M
| DirectMap4k | Dirty | FileHugePages | FilePmdMapped | HardwareCorrupted | HighFree | HighTotal
| HugePages_Free | HugePages_Rsvd | HugePages_Surp | HugePages_Total | Hugepagesize | Hugetlb
| Inactive | Inactive_anon | Inactive_file | KReclaimable | KernelStack | LowFree | LowTotal
| Mapped | MemAvailable | MemFree | MemTotal | Mlocked | MmapCopy | NFS_Unstable | PageTables
| Percpu | SReclaimable | SUnreclaim | ShadowCallStack | Shmem | ShmemHugePages | ShmemPmdMapped
| Slab | SwapCached | SwapFree | SwapTotal | Unevictable | VmallocChunk | VmallocTotal
| VmallocUsed | Writeback | WritebackTmp | derived_mem_cached | derived_mem_hi_used
| derived_mem_lo_used | derived_mem_used | derived_swap_used.

(** All of them. *)
Definition mfields : list mfield :=
  [Active; Active_anon; Active_file; AnonHugePages; AnonPages; Bounce; Buffers; Cached; CmaFree;
   CmaTotal; CommitLimit; Committed_AS; DirectMap1G; DirectMap2M; DirectMap4M; DirectMap4k;
   Dirty; FileHugePages; FilePmdMapped; HardwareCorrupted; HighFree; HighTotal; HugePages_Free;
   HugePages_Rsvd; HugePages_Surp; HugePages_Total; Hugepagesize; Hugetlb; Inactive;
   Inactive_anon; Inactive_file; KReclaimable; KernelStack; LowFree; LowTotal; Mapped;
   MemAvailable; MemFree; MemTotal; Mlocked; MmapCopy; NFS_Unstable; PageTables; Percpu;
   SReclaimable; SUnreclaim; ShadowCallStack; Shmem; ShmemHugePages; ShmemPmdMapped; Slab;
   SwapCached; SwapFree; SwapTotal; Unevictable; VmallocChunk; VmallocTotal; VmallocUsed;
   Writeback; WritebackTmp; derived_mem_cached; derived_mem_hi_used; derived_mem_lo_used;
   derived_mem_used; derived_swap_used].

(** The setters of the Results 'Set' Support: what a setter stores in the
    result of the item it is named after. *)
Inductive msetter := MNoop | MExtra | MEM_set (t : utype) (f : mfield) | HST_set (t : utype) (f : mfield).

Definition setters : list (string * msetter) :=
  [("noop", MNoop); ("extra", MExtra); ("MEM_ACTIVE", MEM_set ul_int Active);
   ("MEM_ACTIVE_ANON", MEM_set ul_int Active_anon);
   ("MEM_ACTIVE_FILE", MEM_set ul_int Active_file); ("MEM_ANON", MEM_set ul_int AnonPages);
   ("MEM_AVAILABLE", MEM_set ul_int MemAvailable); ("MEM_BOUNCE", MEM_set ul_int Bounce);
   ("MEM_BUFFERS", MEM_set ul_int Buffers); ("MEM_CACHED", MEM_set ul_int Cached);
   ("MEM_CACHED_ALL", MEM_set ul_int derived_mem_cached);
   ("MEM_CMA_FREE", MEM_set ul_int CmaFree); ("MEM_CMA_TOTAL", MEM_set ul_int CmaTotal);
   ("MEM_COMMITTED_AS", MEM_set ul_int Committed_AS);
   ("MEM_COMMIT_LIMIT", MEM_set ul_int CommitLimit);
   ("MEM_DIRECTMAP_1G", MEM_set ul_int DirectMap1G);
   ("MEM_DIRECTMAP_2M", MEM_set ul_int DirectMap2M);
   ("MEM_DIRECTMAP_4K", MEM_set ul_int DirectMap4k);
   ("MEM_DIRECTMAP_4M", MEM_set ul_int DirectMap4M); ("MEM_DIRTY", MEM_set ul_int Dirty);
   ("MEM_FILE_HUGEPAGES", MEM_set ul_int FileHugePages);
   ("MEM_FILE_PMDMAPPED", MEM_set ul_int FilePmdMapped); ("MEM_FREE", MEM_set ul_int MemFree);
   ("MEM_HARD_CORRUPTED", MEM_set ul_int HardwareCorrupted);
   ("MEM_HIGH_FREE", MEM_set ul_int HighFree); ("MEM_HIGH_TOTAL", MEM_set ul_int HighTotal);
   ("MEM_HIGH_USED", MEM_set ul_int derived_mem_hi_used);
   ("MEM_HUGETBL", MEM_set ul_int Hugetlb); ("MEM_HUGE_ANON", MEM_set ul_int AnonHugePages);
   ("MEM_HUGE_FREE", MEM_set ul_int HugePages_Free);
   ("MEM_HUGE_RSVD", MEM_set ul_int HugePages_Rsvd);
   ("MEM_HUGE_SIZE", MEM_set ul_int Hugepagesize);
   ("MEM_HUGE_SURPLUS", MEM_set ul_int HugePages_Surp);
   ("MEM_HUGE_TOTAL", MEM_set ul_int HugePages_Total); ("MEM_INACTIVE", MEM_set ul_int Inactive);
   ("MEM_INACTIVE_ANON", MEM_set ul_int Inactive_anon);
   ("MEM_INACTIVE_FILE", MEM_set ul_int Inactive_file);
   ("MEM_KERNEL_RECLAIM", MEM_set ul_int KReclaimable);
   ("MEM_KERNEL_STACK", MEM_set ul_int KernelStack); ("MEM_LOCKED", MEM_set ul_int Mlocked);
   ("MEM_LOW_FREE", MEM_set ul_int LowFree); ("MEM_LOW_TOTAL", MEM_set ul_int LowTotal);
   ("MEM_LOW_USED", MEM_set ul_int derived_mem_lo_used); ("MEM_MAPPED", MEM_set ul_int Mapped);
   ("MEM_MAP_COPY", MEM_set ul_int MmapCopy); ("MEM_NFS_UNSTABLE", MEM_set ul_int NFS_Unstable);
   ("MEM_PAGE_TABLES", MEM_set ul_int PageTables); ("MEM_PER_CPU", MEM_set ul_int Percpu);
   ("MEM_SHADOWCALLSTACK", MEM_set ul_int ShadowCallStack); ("MEM_SHARED", MEM_set ul_int Shmem);
   ("MEM_SHMEM_HUGE", MEM_set ul_int ShmemHugePages);
   ("MEM_SHMEM_HUGE_MAP", MEM_set ul_int ShmemPmdMapped); ("MEM_SLAB", MEM_set ul_int Slab);
   ("MEM_SLAB_RECLAIM", MEM_set ul_int SReclaimable);
   ("MEM_SLAB_UNRECLAIM", MEM_set ul_int SUnreclaim); ("MEM_TOTAL", MEM_set ul_int MemTotal);
   ("MEM_UNEVICTABLE", MEM_set ul_int Unevictable);
   ("MEM_USED", MEM_set ul_int derived_mem_used);
   ("MEM_VM_ALLOC_CHUNK", MEM_set ul_int VmallocChunk);
   ("MEM_VM_ALLOC_TOTAL", MEM_set ul_int VmallocTotal);
   ("MEM_VM_ALLOC_USED", MEM_set ul_int VmallocUsed);
   ("MEM_WRITEBACK", MEM_set ul_int Writeback);
   ("MEM_WRITEBACK_TMP", MEM_set ul_int WritebackTmp); ("DELTA_ACTIVE", HST_set s_int Active);
   ("DELTA_ACTIVE_ANON", HST_set s_int Active_anon);
   ("DELTA_ACTIVE_FILE", HST_set s_int Active_file); ("DELTA_ANON", HST_set s_int AnonPages);
   ("DELTA_AVAILABLE", HST_set s_int MemAvailable); ("DELTA_BOUNCE", HST_set s_int Bounce);
   ("DELTA_BUFFERS", HST_set s_int Buffers); ("DELTA_CACHED", HST_set s_int Cached);
   ("DELTA_CACHED_ALL", HST_set s_int derived_mem_cached);
   ("DELTA_CMA_FREE", HST_set s_int CmaFree); ("DELTA_CMA_TOTAL", HST_set s_int CmaTotal);
   ("DELTA_COMMITTED_AS", HST_set s_int Committed_AS);
   ("DELTA_COMMIT_LIMIT", HST_set s_int CommitLimit);
   ("DELTA_DIRECTMAP_1G", HST_set s_int DirectMap1G);
   ("DELTA_DIRECTMAP_2M", HST_set s_int DirectMap2M);
   ("DELTA_DIRECTMAP_4K", HST_set s_int DirectMap4k);
   ("DELTA_DIRECTMAP_4M", HST_set s_int DirectMap4M); ("DELTA_DIRTY", HST_set s_int Dirty);
   ("DELTA_FILE_HUGEPAGES", HST_set s_int FileHugePages);
   ("DELTA_FILE_PMDMAPPED", HST_set s_int FilePmdMapped); ("DELTA_FREE", HST_set s_int MemFree);
   ("DELTA_HARD_CORRUPTED", HST_set s_int HardwareCorrupted);
   ("DELTA_HIGH_FREE", HST_set s_int HighFree); ("DELTA_HIGH_TOTAL", HST_set s_int HighTotal);
   ("DELTA_HIGH_USED", HST_set s_int derived_mem_hi_used);
   ("DELTA_HUGETBL", HST_set s_int Hugetlb); ("DELTA_HUGE_ANON", HST_set s_int AnonHugePages);
   ("DELTA_HUGE_FREE", HST_set s_int HugePages_Free);
   ("DELTA_HUGE_RSVD", HST_set s_int HugePages_Rsvd);
   ("DELTA_HUGE_SIZE", HST_set s_int Hugepagesize);
   ("DELTA_HUGE_SURPLUS", HST_set s_int HugePages_Surp);
   ("DELTA_HUGE_TOTAL", HST_set s_int HugePages_Total);
   ("DELTA_INACTIVE", HST_set s_int Inactive);
   ("DELTA_INACTIVE_ANON", HST_set s_int Inactive_anon);
   ("DELTA_INACTIVE_FILE", HST_set s_int Inactive_file);
   ("DELTA_KERNEL_RECLAIM", HST_set s_int KReclaimable);
   ("DELTA_KERNEL_STACK", HST_set s_int KernelStack); ("DELTA_LOCKED", HST_set s_int Mlocked);
   ("DELTA_LOW_FREE", HST_set s_int LowFree); ("DELTA_LOW_TOTAL", HST_set s_int LowTotal);
   ("DELTA_LOW_USED", HST_set s_int derived_mem_lo_used); ("DELTA_MAPPED", HST_set s_int Mapped);
   ("DELTA_MAP_COPY", HST_set s_int MmapCopy);
   ("DELTA_NFS_UNSTABLE", HST_set s_int NFS_Unstable);
   ("DELTA_PAGE_TABLES", HST_set s_int PageTables); ("DELTA_PER_CPU", HST_set s_int Percpu);
   ("DELTA_SHADOWCALLSTACK", HST_set s_int ShadowCallStack);
   ("DELTA_SHARED", HST_set s_int Shmem); ("DELTA_SHMEM_HUGE", HST_set s_int ShmemHugePages);
   ("DELTA_SHMEM_HUGE_MAP", HST_set s_int ShmemPmdMapped); ("DELTA_SLAB", HST_set s_int Slab);
   ("DELTA_SLAB_RECLAIM", HST_set s_int SReclaimable);
   ("DELTA_SLAB_UNRECLAIM", HST_set s_int SUnreclaim); ("DELTA_TOTAL", HST_set s_int MemTotal);
   ("DELTA_UNEVICTABLE", HST_set s_int Unevictable);
   ("DELTA_USED", HST_set s_int derived_mem_used);
   ("DELTA_VM_ALLOC_CHUNK", HST_set s_int VmallocChunk);
   ("DELTA_VM_ALLOC_TOTAL", HST_set s_int VmallocTotal);
   ("DELTA_VM_ALLOC_USED", HST_set s_int VmallocUsed);
   ("DELTA_WRITEBACK", HST_set s_int Writeback);
   ("DELTA_WRITEBACK_TMP", HST_set s_int WritebackTmp);
   ("SWAP_CACHED", MEM_set ul_int SwapCached); ("SWAP_FREE", MEM_set ul_int SwapFree);
   ("SWAP_TOTAL", MEM_set ul_int SwapTotal); ("SWAP_USED", MEM_set ul_int derived_swap_used);
   ("SWAP_DELTA_CACHED", HST_set s_int SwapCached); ("SWAP_DELTA_FREE", HST_set s_int SwapFree);
   ("SWAP_DELTA_TOTAL", HST_set s_int SwapTotal);
   ("SWAP_DELTA_USED", HST_set s_int derived_swap_used)]%string.

(** [Item_table]: the setter named by [RS] and the type named by [TS]. *)
Definition Item_rows : list (string * option utype) :=
  [("noop", None); ("extra", None); ("MEM_ACTIVE", Some ul_int);
   ("MEM_ACTIVE_ANON", Some ul_int); ("MEM_ACTIVE_FILE", Some ul_int); ("MEM_ANON", Some ul_int);
   ("MEM_AVAILABLE", Some ul_int); ("MEM_BOUNCE", Some ul_int); ("MEM_BUFFERS", Some ul_int);
   ("MEM_CACHED", Some ul_int); ("MEM_CACHED_ALL", Some ul_int); ("MEM_CMA_FREE", Some ul_int);
   ("MEM_CMA_TOTAL", Some ul_int); ("MEM_COMMITTED_AS", Some ul_int);
   ("MEM_COMMIT_LIMIT", Some ul_int); ("MEM_DIRECTMAP_1G", Some ul_int);
   ("MEM_DIRECTMAP_2M", Some ul_int); ("MEM_DIRECTMAP_4K", Some ul_int);
   ("MEM_DIRECTMAP_4M", Some ul_int); ("MEM_DIRTY", Some ul_int);
   ("MEM_FILE_HUGEPAGES", Some ul_int); ("MEM_FILE_PMDMAPPED", Some ul_int);
   ("MEM_FREE", Some ul_int); ("MEM_HARD_CORRUPTED", Some ul_int);
   ("MEM_HIGH_FREE", Some ul_int); ("MEM_HIGH_TOTAL", Some ul_int);
   ("MEM_HIGH_USED", Some ul_int); ("MEM_HUGETBL", Some ul_int); ("MEM_HUGE_ANON", Some ul_int);
   ("MEM_HUGE_FREE", Some ul_int); ("MEM_HUGE_RSVD", Some ul_int);
   ("MEM_HUGE_SIZE", Some ul_int); ("MEM_HUGE_SURPLUS", Some ul_int);
   ("MEM_HUGE_TOTAL", Some ul_int); ("MEM_INACTIVE", Some ul_int);
   ("MEM_INACTIVE_ANON", Some ul_int); ("MEM_INACTIVE_FILE", Some ul_int);
   ("MEM_KERNEL_RECLAIM", Some ul_int); ("MEM_KERNEL_STACK", Some ul_int);
   ("MEM_LOCKED", Some ul_int); ("MEM_LOW_FREE", Some ul_int); ("MEM_LOW_TOTAL", Some ul_int);
   ("MEM_LOW_USED", Some ul_int); ("MEM_MAPPED", Some ul_int); ("MEM_MAP_COPY", Some ul_int);
   ("MEM_NFS_UNSTABLE", Some ul_int); ("MEM_PAGE_TABLES", Some ul_int);
   ("MEM_PER_CPU", Some ul_int); ("MEM_SHADOWCALLSTACK", Some ul_int);
   ("MEM_SHARED", Some ul_int); ("MEM_SHMEM_HUGE", Some ul_int);
   ("MEM_SHMEM_HUGE_MAP", Some ul_int); ("MEM_SLAB", Some ul_int);
   ("MEM_SLAB_RECLAIM", Some ul_int); ("MEM_SLAB_UNRECLAIM", Some ul_int);
   ("MEM_TOTAL", Some ul_int); ("MEM_UNEVICTABLE", Some ul_int); ("MEM_USED", Some ul_int);
   ("MEM_VM_ALLOC_CHUNK", Some ul_int); ("MEM_VM_ALLOC_TOTAL", Some ul_int);
   ("MEM_VM_ALLOC_USED", Some ul_int); ("MEM_WRITEBACK", Some ul_int);
   ("MEM_WRITEBACK_TMP", Some ul_int); ("DELTA_ACTIVE", Some s_int);
   ("DELTA_ACTIVE_ANON", Some s_int); ("DELTA_ACTIVE_FILE", Some s_int);
   ("DELTA_ANON", Some s_int); ("DELTA_AVAILABLE", Some s_int); ("DELTA_BOUNCE", Some s_int);
   ("DELTA_BUFFERS", Some s_int); ("DELTA_CACHED", Some s_int); ("DELTA_CACHED_ALL", Some s_int);
   ("DELTA_CMA_FREE", Some s_int); ("DELTA_CMA_TOTAL", Some s_int);
   ("DELTA_COMMITTED_AS", Some s_int); ("DELTA_COMMIT_LIMIT", Some s_int);
   ("DELTA_DIRECTMAP_1G", Some s_int); ("DELTA_DIRECTMAP_2M", Some s_int);
   ("DELTA_DIRECTMAP_4K", Some s_int); ("DELTA_DIRECTMAP_4M", Some s_int);
   ("DELTA_DIRTY", Some s_int); ("DELTA_FILE_HUGEPAGES", Some s_int);
   ("DELTA_FILE_PMDMAPPED", Some s_int); ("DELTA_FREE", Some s_int);
   ("DELTA_HARD_CORRUPTED", Some s_int); ("DELTA_HIGH_FREE", Some s_int);
   ("DELTA_HIGH_TOTAL", Some s_int); ("DELTA_HIGH_USED", Some s_int);
   ("DELTA_HUGETBL", Some s_int); ("DELTA_HUGE_ANON", Some s_int);
   ("DELTA_HUGE_FREE", Some s_int); ("DELTA_HUGE_RSVD", Some s_int);
   ("DELTA_HUGE_SIZE", Some s_int); ("DELTA_HUGE_SURPLUS", Some s_int);
   ("DELTA_HUGE_TOTAL", Some s_int); ("DELTA_INACTIVE", Some s_int);
   ("DELTA_INACTIVE_ANON", Some s_int); ("DELTA_INACTIVE_FILE", Some s_int);
   ("DELTA_KERNEL_RECLAIM", Some s_int); ("DELTA_KERNEL_STACK", Some s_int);
   ("DELTA_LOCKED", Some s_int); ("DELTA_LOW_FREE", Some s_int); ("DELTA_LOW_TOTAL", Some s_int);
   ("DELTA_LOW_USED", Some s_int); ("DELTA_MAPPED", Some s_int); ("DELTA_MAP_COPY", Some s_int);
   ("DELTA_NFS_UNSTABLE", Some s_int); ("DELTA_PAGE_TABLES", Some s_int);
   ("DELTA_PER_CPU", Some s_int); ("DELTA_SHADOWCALLSTACK", Some s_int);
   ("DELTA_SHARED", Some s_int); ("DELTA_SHMEM_HUGE", Some s_int);
   ("DELTA_SHMEM_HUGE_MAP", Some s_int); ("DELTA_SLAB", Some s_int);
   ("DELTA_SLAB_RECLAIM", Some s_int); ("DELTA_SLAB_UNRECLAIM", Some s_int);
   ("DELTA_TOTAL", Some s_int); ("DELTA_UNEVICTABLE", Some s_int); ("DELTA_USED", Some s_int);
   ("DELTA_VM_ALLOC_CHUNK", Some s_int); ("DELTA_VM_ALLOC_TOTAL", Some s_int);
   ("DELTA_VM_ALLOC_USED", Some s_int); ("DELTA_WRITEBACK", Some s_int);
   ("DELTA_WRITEBACK_TMP", Some s_int); ("SWAP_CACHED", Some ul_int); ("SWAP_FREE", Some ul_int);
   ("SWAP_TOTAL", Some ul_int); ("SWAP_USED", Some ul_int); ("SWAP_DELTA_CACHED", Some s_int);
   ("SWAP_DELTA_FREE", Some s_int); ("SWAP_DELTA_TOTAL", Some s_int);
   ("SWAP_DELTA_USED", Some s_int)]%string.

(** [enum meminfo_item] of the header, in order, without the prefix. *)
Definition meminfo_item : list string :=
  ["noop"; "extra"; "MEM_ACTIVE"; "MEM_ACTIVE_ANON"; "MEM_ACTIVE_FILE"; "MEM_ANON";
   "MEM_AVAILABLE"; "MEM_BOUNCE"; "MEM_BUFFERS"; "MEM_CACHED"; "MEM_CACHED_ALL"; "MEM_CMA_FREE";
   "MEM_CMA_TOTAL"; "MEM_COMMITTED_AS"; "MEM_COMMIT_LIMIT"; "MEM_DIRECTMAP_1G";
   "MEM_DIRECTMAP_2M"; "MEM_DIRECTMAP_4K"; "MEM_DIRECTMAP_4M"; "MEM_DIRTY"; "MEM_FILE_HUGEPAGES";
   "MEM_FILE_PMDMAPPED"; "MEM_FREE"; "MEM_HARD_CORRUPTED"; "MEM_HIGH_FREE"; "MEM_HIGH_TOTAL";
   "MEM_HIGH_USED"; "MEM_HUGETBL"; "MEM_HUGE_ANON"; "MEM_HUGE_FREE"; "MEM_HUGE_RSVD";
   "MEM_HUGE_SIZE"; "MEM_HUGE_SURPLUS"; "MEM_HUGE_TOTAL"; "MEM_INACTIVE"; "MEM_INACTIVE_ANON";
   "MEM_INACTIVE_FILE"; "MEM_KERNEL_RECLAIM"; "MEM_KERNEL_STACK"; "MEM_LOCKED"; "MEM_LOW_FREE";
   "MEM_LOW_TOTAL"; "MEM_LOW_USED"; "MEM_MAPPED"; "MEM_MAP_COPY"; "MEM_NFS_UNSTABLE";
   "MEM_PAGE_TABLES"; "MEM_PER_CPU"; "MEM_SHADOWCALLSTACK"; "MEM_SHARED"; "MEM_SHMEM_HUGE";
   "MEM_SHMEM_HUGE_MAP"; "MEM_SLAB"; "MEM_SLAB_RECLAIM"; "MEM_SLAB_UNRECLAIM"; "MEM_TOTAL";
   "MEM_UNEVICTABLE"; "MEM_USED"; "MEM_VM_ALLOC_CHUNK"; "MEM_VM_ALLOC_TOTAL";
   "MEM_VM_ALLOC_USED"; "MEM_WRITEBACK"; "MEM_WRITEBACK_TMP"; "DELTA_ACTIVE";
   "DELTA_ACTIVE_ANON"; "DELTA_ACTIVE_FILE"; "DELTA_ANON"; "DELTA_AVAILABLE"; "DELTA_BOUNCE";
   "DELTA_BUFFERS"; "DELTA_CACHED"; "DELTA_CACHED_ALL"; "DELTA_CMA_FREE"; "DELTA_CMA_TOTAL";
   "DELTA_COMMITTED_AS"; "DELTA_COMMIT_LIMIT"; "DELTA_DIRECTMAP_1G"; "DELTA_DIRECTMAP_2M";
   "DELTA_DIRECTMAP_4K"; "DELTA_DIRECTMAP_4M"; "DELTA_DIRTY"; "DELTA_FILE_HUGEPAGES";
   "DELTA_FILE_PMDMAPPED"; "DELTA_FREE"; "DELTA_HARD_CORRUPTED"; "DELTA_HIGH_FREE";
   "DELTA_HIGH_TOTAL"; "DELTA_HIGH_USED"; "DELTA_HUGETBL"; "DELTA_HUGE_ANON"; "DELTA_HUGE_FREE";
   "DELTA_HUGE_RSVD"; "DELTA_HUGE_SIZE"; "DELTA_HUGE_SURPLUS"; "DELTA_HUGE_TOTAL";
   "DELTA_INACTIVE"; "DELTA_INACTIVE_ANON"; "DELTA_INACTIVE_FILE"; "DELTA_KERNEL_RECLAIM";
   "DELTA_KERNEL_STACK"; "DELTA_LOCKED"; "DELTA_LOW_FREE"; "DELTA_LOW_TOTAL"; "DELTA_LOW_USED";
   "DELTA_MAPPED"; "DELTA_MAP_COPY"; "DELTA_NFS_UNSTABLE"; "DELTA_PAGE_TABLES"; "DELTA_PER_CPU";
   "DELTA_SHADOWCALLSTACK"; "DELTA_SHARED"; "DELTA_SHMEM_HUGE"; "DELTA_SHMEM_HUGE_MAP";
   "DELTA_SLAB"; "DELTA_SLAB_RECLAIM"; "DELTA_SLAB_UNRECLAIM"; "DELTA_TOTAL";
   "DELTA_UNEVICTABLE"; "DELTA_USED"; "DELTA_VM_ALLOC_CHUNK"; "DELTA_VM_ALLOC_TOTAL";
   "DELTA_VM_ALLOC_USED"; "DELTA_WRITEBACK"; "DELTA_WRITEBACK_TMP"; "SWAP_CACHED"; "SWAP_FREE";
   "SWAP_TOTAL"; "SWAP_USED"; "SWAP_DELTA_CACHED"; "SWAP_DELTA_FREE"; "SWAP_DELTA_TOTAL";
   "SWAP_DELTA_USED"]%string.

(** The keys entered by [meminfo_make_hash_failed] and where they point. *)
Definition hash_keys : list (bytes * mfield) :=
  [(bs "Active", Active); (bs "Active(anon)", Active_anon); (bs "Active(file)", Active_file);
   (bs "AnonHugePages", AnonHugePages); (bs "AnonPages", AnonPages); (bs "Bounce", Bounce);
   (bs "Buffers", Buffers); (bs "Cached", Cached); (bs "CmaFree", CmaFree);
   (bs "CmaTotal", CmaTotal); (bs "CommitLimit", CommitLimit); (bs "Committed_AS", Committed_AS);
   (bs "DirectMap1G", DirectMap1G); (bs "DirectMap2M", DirectMap2M);
   (bs "DirectMap4M", DirectMap4M); (bs "DirectMap4k", DirectMap4k); (bs "Dirty", Dirty);
   (bs "FileHugePages", FileHugePages); (bs "FilePmdMapped", FilePmdMapped);
   (bs "HardwareCorrupted", HardwareCorrupted); (bs "HighFree", HighFree);
   (bs "HighTotal", HighTotal); (bs "HugePages_Free", HugePages_Free);
   (bs "HugePages_Rsvd", HugePages_Rsvd); (bs "HugePages_Surp", HugePages_Surp);
   (bs "HugePages_Total", HugePages_Total); (bs "Hugepagesize", Hugepagesize);
   (bs "Hugetlb", Hugetlb); (bs "Inactive", Inactive); (bs "Inactive(anon)", Inactive_anon);
   (bs "Inactive(file)", Inactive_file); (bs "KReclaimable", KReclaimable);
   (bs "KernelStack", KernelStack); (bs "LowFree", LowFree); (bs "LowTotal", LowTotal);
   (bs "Mapped", Mapped); (bs "MemAvailable", MemAvailable); (bs "MemFree", MemFree);
   (bs "MemTotal", MemTotal); (bs "Mlocked", Mlocked); (bs "MmapCopy", MmapCopy);
   (bs "NFS_Unstable", NFS_Unstable); (bs "PageTables", PageTables); (bs "Percpu", Percpu);
   (bs "SReclaimable", SReclaimable); (bs "SUnreclaim", SUnreclaim);
   (bs "ShadowCallStack", ShadowCallStack); (bs "Shmem", Shmem);
   (bs "ShmemHugePages", ShmemHugePages); (bs "ShmemPmdMapped", ShmemPmdMapped);
   (bs "Slab", Slab); (bs "SwapCached", SwapCached); (bs "SwapFree", SwapFree);
   (bs "SwapTotal", SwapTotal); (bs "Unevictable", Unevictable);
   (bs "VmallocChunk", VmallocChunk); (bs "VmallocTotal", VmallocTotal);
   (bs "VmallocUsed", VmallocUsed); (bs "Writeback", Writeback);
   (bs "WritebackTmp", WritebackTmp)].
#[export] Instance mfield_eq_dec : EqDecision mfield.
Proof. solve_decision. Defined.

(** ** Data and history *)

(** [struct meminfo_data] *)
Definition meminfo_data : Type := data mfield.

(** [struct mem_hist] *)
Definition mem_hist : Type := hist_of mfield.

(** ** Setters and table *)

Definition run_setter (s : msetter) (u : uval) (h : mem_hist) : uval :=
  match s with
  | MNoop => u
  | MExtra => set_ul_int u 0
  | MEM_set t f => set_as t u (h_new h f)
  | HST_set t f => set_as t u (u64 (h_new h f - h_old h f))
  end.

Definition setter_of (name : string) : msetter := default MNoop (assoc name setters).

(** The [setsfunc] column. *)
Definition Item_table : list (uval -> mem_hist -> uval) :=
  map (fun row => run_setter (setter_of row.1)) Item_rows.
Arguments Item_table : simpl never.

(** The derived fields and the corrections behind the loop, one statement each. *)
Definition default_available (d : meminfo_data) : meminfo_data :=
  if d MemAvailable =? 0 then upd d MemAvailable (d MemFree) else d.
Definition derive_cached (d : meminfo_data) : meminfo_data :=
  upd d derived_mem_cached (u64 (d Cached + d SReclaimable)).
Definition limit_available (d : meminfo_data) : meminfo_data :=
  if d MemTotal <? d MemAvailable then upd d MemAvailable (d MemFree) else d.
Definition derive_used (d : meminfo_data) : meminfo_data :=
  let mem_used := i64 (d MemTotal - d MemFree - d derived_mem_cached - d Buffers) in
  let mem_used := if mem_used <? 0 then i64 (d MemTotal - d MemFree) else mem_used in
  upd d derived_mem_used (u64 mem_used).
Definition derive_hi_used (d : meminfo_data) : meminfo_data :=
  if d HighFree <? d HighTotal
  then upd d derived_mem_hi_used (u64 (d HighTotal - d HighFree)) else d.
Definition default_low (d : meminfo_data) : meminfo_data :=
  if d LowTotal =? 0 then upd (upd d LowTotal (d MemTotal)) LowFree (d MemFree) else d.
Definition derive_lo_used (d : meminfo_data) : meminfo_data :=
  if d LowFree <? d LowTotal
  then upd d derived_mem_lo_used (u64 (d LowTotal - d LowFree)) else d.
Definition derive_swap_used (d : meminfo_data) : meminfo_data :=
  if d SwapFree <? d SwapTotal
  then upd d derived_swap_used (u64 (d SwapTotal - d SwapFree)) else upd d derived_swap_used 0.

Definition derive (d : meminfo_data) : meminfo_data :=
  derive_swap_used (derive_lo_used (default_low (derive_hi_used (derive_used
    (limit_available (derive_cached (default_available d))))))).


(** ** The functions of meminfo.c *)

#[export] Instance meminfo_file : KeyFile mfield := {
  kf_all := mfields;
  kf_file := bs "/proc/meminfo";
  kf_sep := 58;
  kf_keys := hash_keys;
  kf_derive := derive;
  kf_table := Item_table;
  kf_types := map snd Item_rows
}.

Definition meminfo_info : Type := kinfo mfield.
Definition MEMINFO_logical_end : Z := logical_end Item_table.

Definition meminfo_assign_results := assign_results Item_table.
Definition meminfo_items_check_failed := items_check_failed Item_table.
Definition meminfo_itemize_stack := itemize_stack.
Definition meminfo_extents_free_all := extents_free_all.
Definition meminfo_stacks_alloc := stacks_alloc (G := unit).

Definition parse_meminfo : bytes -> meminfo_data -> meminfo_data := parse_file.
Definition meminfo_make_hash_failed : M unit bool := make_hash_failed (F := mfield).
Definition meminfo_read_failed : nat -> meminfo_info -> M unit (Z * meminfo_info) := read_failed.
Definition procps_meminfo_new : nat -> option meminfo_info -> M unit (Z * option meminfo_info) := procps_new.
Definition procps_meminfo_ref : option meminfo_info -> Z * option meminfo_info := procps_ref.
Definition procps_meminfo_unref : option meminfo_info -> M unit (Z * option meminfo_info) := procps_unref.
Definition procps_meminfo_get : nat -> option meminfo_info -> Z -> M unit (option result * option meminfo_info) :=
  procps_get.
Definition procps_meminfo_select : nat -> option meminfo_info -> Z -> list Z -> Z ->
    M unit (option stack * option meminfo_info) := procps_select.
Definition xtra_meminfo_get : nat -> option meminfo_info -> Z -> option utype ->
    M unit (option result * option meminfo_info * bool) := xtra_info_get.
Definition xtra_meminfo_val := xtra_info_val (F := mfield).

(** ** The tables *)

(** What the type column must say of a setter. *)
Definition setter_type (s : msetter) : option utype :=
  match s with MNoop | MExtra => None | MEM_set t _ | HST_set t _ => Some t end.

(** An item and the item for its change since the last read. *)
Definition delta_name (s : string) : option string :=
  if String.prefix "MEM_" s then Some ("DELTA_" ++ String.substring 4 (String.length s - 4) s)%string
  else if String.prefix "SWAP_" s && negb (String.prefix "SWAP_DELTA_" s)
  then Some ("SWAP_DELTA_" ++ String.substring 5 (String.length s - 5) s)%string else None.

Definition delta_ok (row : string * option utype) : bool :=
  match delta_name row.1, assoc row.1 setters with
  | Some d, Some (MEM_set ul_int f) =>
      match assoc d setters with Some (HST_set s_int g) => bool_decide (f = g) | _ => false end
  | None, _ => true
  | _, _ => false
  end.

(** The controlling table is in the order of the enumerators, its type
    column agrees with the union member each setter writes, every MEM and SWAP
    item has a DELTA item over the same field, and every field of the file has
    a key and an item. *)
Theorem item_table_consistent :
  map fst Item_rows = meminfo_item /\
  Forall (fun row => exists s, assoc row.1 setters = Some s /\ row.2 = setter_type s) Item_rows /\
  Forall (fun row => delta_ok row = true) Item_rows /\
  Forall (fun f => exists row, row ∈ Item_rows /\ setter_of row.1 = MEM_set ul_int f) mfields.
Proof.
  split; [reflexivity|]. split; [|split].
  - repeat (constructor; [eexists; split; reflexivity|]). constructor.
  - repeat (constructor; [reflexivity|]). constructor.
  - apply Forall_forall. intros f _.
    assert (H : existsb (fun row => bool_decide (setter_type (setter_of row.1) = Some ul_int)
        && match setter_of row.1 with MEM_set _ g => bool_decide (g = f) | _ => false end) Item_rows = true)
      by (destruct f; reflexivity).
    apply existsb_exists in H as (row & Hin & H). exists row.
    split; [by apply list_elem_of_In|]. apply andb_true_iff in H as [H1 H2].
    destruct (setter_of row.1) as [| |t g|t g]; try done.
    apply bool_decide_eq_true in H1, H2. cbn in H1. by simplify_eq.
Qed.

(** A file of lines as the kernel prints them is read back exactly: each
    known key sets its field to the number of its last line, and no other line
    or field is touched. *)
Theorem parse_meminfo_lines (ls : list mline) (d : meminfo_data) : Forall line_ok ls ->
  parse_meminfo (concat (map print_line ls)) d = foldl line_value d ls.
Proof. apply parse_file_lines. Qed.

(** ** The derived fields *)

(** Each step changes only its own field. *)
Definition keeps (step : meminfo_data -> meminfo_data) (fs : list mfield) : Prop :=
  forall d g, g ∉ fs -> step d g = d g.

Ltac keeps_tac := intros d g Hg; cbv zeta; repeat case_match; rewrite ?upd_other by set_solver; done.

Lemma keeps_default_available : keeps default_available [MemAvailable].
Proof. unfold default_available. keeps_tac. Qed.
Lemma keeps_derive_cached : keeps derive_cached [derived_mem_cached].
Proof. unfold derive_cached. keeps_tac. Qed.
Lemma keeps_limit_available : keeps limit_available [MemAvailable].
Proof. unfold limit_available. keeps_tac. Qed.
Lemma keeps_derive_used : keeps derive_used [derived_mem_used].
Proof. unfold derive_used. keeps_tac. Qed.
Lemma keeps_derive_hi_used : keeps derive_hi_used [derived_mem_hi_used].
Proof. unfold derive_hi_used. keeps_tac. Qed.
Lemma keeps_default_low : keeps default_low [LowTotal; LowFree].
Proof. unfold default_low. keeps_tac. Qed.
Lemma keeps_derive_lo_used : keeps derive_lo_used [derived_mem_lo_used].
Proof. unfold derive_lo_used. keeps_tac. Qed.
Lemma keeps_derive_swap_used : keeps derive_swap_used [derived_swap_used].
Proof. unfold derive_swap_used. keeps_tac. Qed.

(** Reading a field through the steps that do not touch it. *)
Ltac not_in := apply (bool_decide_unpack _); exact I.
Ltac through := repeat first
  [ rewrite keeps_default_available by not_in | rewrite keeps_derive_cached by not_in
  | rewrite keeps_limit_available by not_in | rewrite keeps_derive_used by not_in
  | rewrite keeps_derive_hi_used by not_in | rewrite keeps_default_low by not_in
  | rewrite keeps_derive_lo_used by not_in | rewrite keeps_derive_swap_used by not_in ].

Lemma derived_swap d :
  derive d derived_swap_used =
  if d SwapFree <? d SwapTotal then u64 (d SwapTotal - d SwapFree) else 0.
Proof.
  unfold derive. unfold derive_swap_used at 1. through.
  case_match; apply upd_same.
Qed.

Lemma derived_cached d : derive d derived_mem_cached = u64 (d Cached + d SReclaimable).
Proof. unfold derive. through. unfold derive_cached. rewrite upd_same. by through. Qed.

Lemma derived_available d :
  derive d MemAvailable =
  let a := if d MemAvailable =? 0 then d MemFree else d MemAvailable in
  if d MemTotal <? a then d MemFree else a.
Proof.
  unfold derive. through. unfold limit_available at 1. through.
  assert (Ha : default_available d MemAvailable =
    if d MemAvailable =? 0 then d MemFree else d MemAvailable)
    by (unfold default_available; case_match; [apply upd_same|done]).
  rewrite Ha. cbv zeta. destruct (d MemTotal <? _); [rewrite upd_same; by through|]. through. apply Ha.
Qed.

Lemma derived_used d :
  derive d derived_mem_used =
  let used := i64 (d MemTotal - d MemFree - u64 (d Cached + d SReclaimable) - d Buffers) in
  u64 (if used <? 0 then i64 (d MemTotal - d MemFree) else used).
Proof.
  unfold derive. through. unfold derive_used. rewrite upd_same. through.
  assert (Hc : derive_cached (default_available d) derived_mem_cached = u64 (d Cached + d SReclaimable))
    by (unfold derive_cached; rewrite upd_same; by through).
  rewrite Hc. by through.
Qed.

(** The derived memory figures: with every figure below 2^60 KiB, nothing
    wraps, cached is the page cache plus the reclaimable slab, used is total
    minus free, cached and buffers where that is not negative and total minus
    free otherwise, swap used is never negative, and available is never above
    total while free is not. *)
Theorem derive_spec d :
  (forall f, 0 <= d f < 2 ^ 60) -> d MemFree <= d MemTotal ->
  let cached := d Cached + d SReclaimable in
  let used := d MemTotal - d MemFree - cached - d Buffers in
  derive d derived_mem_cached = cached /\
  derive d derived_mem_used = (if used <? 0 then d MemTotal - d MemFree else used) /\
  0 <= derive d derived_mem_used <= d MemTotal /\
  derive d derived_swap_used = Z.max 0 (d SwapTotal - d SwapFree) /\
  0 <= derive d MemAvailable <= d MemTotal.
Proof.
  intros Hd Hf cached used.
  pose proof (Hd MemTotal). pose proof (Hd MemFree). pose proof (Hd Cached).
  pose proof (Hd SReclaimable). pose proof (Hd Buffers). pose proof (Hd SwapTotal).
  pose proof (Hd SwapFree). pose proof (Hd MemAvailable).
  assert (Hc : u64 (d Cached + d SReclaimable) = cached) by (apply wrap_u_small; lia).
  assert (Hu : i64 used = used) by (apply wrap_s_small; lia).
  assert (Ht : i64 (d MemTotal - d MemFree) = d MemTotal - d MemFree) by (apply wrap_s_small; lia).
  assert (Hm : derive d derived_mem_used = if used <? 0 then d MemTotal - d MemFree else used).
  { rewrite derived_used. cbv zeta. rewrite Hc. fold used. rewrite Hu, Ht.
    apply wrap_u_small. zcase; lia. }
  split; [by rewrite derived_cached|]. split; [done|]. split; [rewrite Hm; zcase; lia|].
  split; [|rewrite derived_available; cbv zeta; zcase; lia].
  rewrite derived_swap. zcase; [rewrite wrap_u_small|]; lia.
Qed.

(** ** Selecting *)

Lemma logical_end_132 : MEMINFO_logical_end = 132.
Proof. reflexivity. Qed.

(** The rows of the stack a call of select returns. *)
Definition shows_rows (info : meminfo_info) (its : list Z) (s : stack) : Prop :=
  primed Item_table its s /\
  forall i item row, its !! i = Some item -> Item_rows !! Z.to_nat item = Some row ->
    exists u, s !! i = Some (Result item (run_setter (setter_of row.1) u (hist info))).

Definition meminfo_post (info : meminfo_info) (its : list Z)
    (res : option stack * option meminfo_info) (w' : world unit) : Prop :=
  exists info', res.2 = Some info' /\ info_inv info' /\ refcount info' = refcount info /\
    h_old (hist info') = h_new (hist info) /\
    match res.1 with
    | Some s => shows_rows info' its s /\
        exists buf, read_text (info_fd info') (w_tr w') buf /\
          h_new (hist info') = derive (parse_meminfo buf zero)
    | None => h_new (hist info') = zero
    end.

Lemma derive_eq : kf_derive (F := mfield) = derive.
Proof. reflexivity. Qed.

Lemma selected_rows info its s : selected info its s -> shows_rows info its s.
Proof.
  intros [Hp Hs]. split; [done|]. intros i item row Hi Hr. apply (Hs i item); [done|].
  cbn [kf_table meminfo_file]. unfold Item_table. by rewrite list_lookup_fmap, Hr.
Qed.


(** What a caller reads from the union after a setter ran. *)
Lemma run_setter_mem u h f : get_ul_int (run_setter (MEM_set ul_int f) u h) = u64 (h_new h f).
Proof. done. Qed.

Lemma run_setter_delta u h f :
  get_s_int (run_setter (HST_set s_int f) u h) = i32 (h_new h f - h_old h f).
Proof.
  cbn [run_setter set_as]. by rewrite get_set_s_int, i32_u64.
Qed.

(** Releasing the only reference frees the context but never closes the
    descriptor of /proc/meminfo that creating it opened. *)
Theorem meminfo_unref_leaks o n fuel w w1 w2 info rc slot :
  Kernel o -> calm o n -> (n < fuel)%nat ->
  procps_meminfo_new fuel None o w = Done (0, Some info) w1 -> 0 <= info_fd info ->
  procps_meminfo_unref (Some info) o w1 = Done (rc, slot) w2 ->
  rc = 0 /\ slot = None /\
  net (HFd (info_fd info)) (w_tr w2) = net (HFd (info_fd info)) (w_tr w) + 1.
Proof. apply unref_leaks. Qed.

(** A select whose reallocation fails keeps the old number of items with
    no array: the next call with that number of items passes NULL to memcmp. *)
Theorem meminfo_select_enomem o fuel info addr items numitems its w :
  ext_ok Item_table (ext info) its -> Z.of_nat (length its) = numitems -> take (Z.to_nat numitems) items <> its ->
  2 * MEMINFO_logical_end <= addr -> 1 <= numitems <= Z.of_nat (length items) ->
  Forall (valid_item Item_table) (take (Z.to_nat numitems) items) ->
  r_val (o (w_tr w) (CMalloc (4 * (numitems + 1)))) < 0 ->
  exists info1 w1,
    procps_meminfo_select fuel (Some info) addr items numitems o w = Done (None, Some info1) w1 /\
    forall o' w', exists w2, procps_meminfo_select fuel (Some info1) addr items numitems o' w' = Undef w2.
Proof. exact (select_enomem (F := mfield) o fuel info addr items numitems its w). Qed.

(** ** Witnesses *)

(** A system with a small /proc/meminfo; [mem] tells whether malloc succeeds. *)
Definition sample_text : bytes :=
  bs "MemTotal:       100 kB" ++ [10] ++ bs "MemFree:         40 kB" ++ [10].
Definition sample_os (mem : bool) : os := fun t c =>
  match c with
  | COpen _ _ _ => rok 3
  | CRead _ n => if n <? Z.of_nat (length sample_text) then rdata 0 []
                 else rdata (Z.of_nat (length sample_text)) sample_text
  | CRecv _ _ => rdata 0 []
  | CMalloc _ => if mem then rok 1 else rerr ENOMEM
  | CWrite _ _ => rok 0
  | _ => rok 0
  end.
Definition sample_world : world unit := World [] 0 tt.
Definition sample_info : meminfo_info :=
  KInfo 1 (-1) (Hist zero zero) ext_empty (Result 0 (U64 0)) 0.
(** Primed with the single item MEMINFO_MEM_ACTIVE. *)
Definition primed_info : meminfo_info :=
  set_ext (Ext 2 (Some [2; 132]) [] 0) sample_info.

#[local] Instance sample_kernel mem : Kernel (sample_os mem).
Proof.
  split; intros; cbn -[Z.of_nat sample_text].
  - destruct (Z.ltb_spec n (Z.of_nat (length sample_text))); cbn -[Z.of_nat sample_text]; [lia|].
    split; [lia|]. by rewrite Nat2Z.id.
  - lia.
  - lia.
Qed.

Lemma sample_calm mem : calm (sample_os mem) 0.
Proof. intros t fd k _. cbn -[Z.of_nat sample_text]. by destruct (k <? _). Qed.

Lemma parse_meminfo_lines_witness :
  parse_meminfo (bs "MemFree: 40 kB" ++ [10] ++ bs "Nonsense:5" ++ [10]) zero =
  foldl line_value zero [MLine (bs "MemFree") 1 40 (bs " kB"); MLine (bs "Nonsense") 0 5 []].
Proof.
  apply (parse_meminfo_lines [MLine (bs "MemFree") 1 40 (bs " kB"); MLine (bs "Nonsense") 0 5 []] zero).
  repeat constructor; cbn; unfold ULONG_MAX; try lia; done.
Defined.

Definition sample_data : meminfo_data := fun f =>
  match f with MemTotal => 100 | MemFree => 40 | Cached => 30 | SwapTotal => 8 | SwapFree => 2 | _ => 0 end.

Lemma derive_spec_witness :
  derive sample_data derived_mem_cached = 30 /\ derive sample_data derived_mem_used = 30 /\
  0 <= derive sample_data derived_mem_used <= 100 /\ derive sample_data derived_swap_used = 6 /\
  0 <= derive sample_data MemAvailable <= 100.
Proof. apply (derive_spec sample_data); [intros []; cbn; lia|cbn; lia]. Defined.


Definition sample_run : outcome unit (Z * option meminfo_info) :=
  procps_meminfo_new 1 None (sample_os true) sample_world.
Definition new_info : meminfo_info :=
  match sample_run with Done (_, Some i) _ => i | _ => sample_info end.
Definition new_world : world unit := match sample_run with Done _ w => w | _ => sample_world end.

Lemma meminfo_unref_leaks_witness :
  procps_meminfo_new 1 None (sample_os true) sample_world = Done (0, Some new_info) new_world /\
  0 = 0 /\ @None meminfo_info = None /\
  net (HFd (info_fd new_info)) (w_tr new_world) = net (HFd (info_fd new_info)) (w_tr sample_world) + 1.
Proof.
  split; [reflexivity|].
  apply (meminfo_unref_leaks (sample_os true) 0 1 sample_world new_world new_world new_info 0 None);
    [apply sample_kernel|apply sample_calm|lia|reflexivity|vm_compute; discriminate|reflexivity].
Defined.

Lemma meminfo_select_enomem_witness :
  exists info1 w1,
    procps_meminfo_select 1 (Some primed_info) 4096 [3] 1 (sample_os false) sample_world
      = Done (None, Some info1) w1 /\
    forall o' w', exists w2, procps_meminfo_select 1 (Some info1) 4096 [3] 1 o' w' = Undef w2.
Proof.
  apply (meminfo_select_enomem (sample_os false) 1 primed_info 4096 [3] 1 [2] sample_world);
    [|reflexivity|done|rewrite logical_end_132; lia|cbn; lia| |reflexivity].
  - split; [repeat constructor; unfold logical_end; cbn; lia|]. repeat split; constructor.
  - repeat constructor; unfold logical_end; cbn; lia.
Defined.

End Meminfo.
