(* ===== verification/Vmstat.v ===== *)
(** * procps/linux/proc_vmstat.c: virtual memory statistics

    The tables are transcribed from the source and the header; the code is the
    one of Keyfile for these tables, with a blank behind the key and nothing
    derived. *)

From stdpp Require Import base numbers list strings.
From S2P Require Import Prelude Libc Posix Stacks Fetch Keyfile.
Open Scope Z_scope.

Module Vmstat.
Import Keyfile.

(** The fields of [struct vmstat_data], in its order. *)
Inductive vmfield :=
| allocstall_dma | allocstall_dma32 | allocstall_high | allocstall_movable | allocstall_normal
| balloon_deflate | balloon_inflate | balloon_migrate | compact_daemon_free_scanned
| compact_daemon_migrate_scanned | compact_daemon_wake | compact_fail | compact_free_scanned
| compact_isolated | compact_migrate_scanned | compact_stall | compact_success | drop_pagecache
| drop_slab | htlb_buddy_alloc_fail | htlb_buddy_alloc_success | kswapd_high_wmark_hit_quickly
| kswapd_inodesteal | kswapd_low_wmark_hit_quickly | nr_active_anon | nr_active_file
| nr_anon_pages | nr_anon_transparent_hugepages | nr_bounce | nr_dirtied | nr_dirty
| nr_dirty_background_threshold | nr_dirty_threshold | nr_file_hugepages | nr_file_pages
| nr_file_pmdmapped | nr_foll_pin_acquired | nr_foll_pin_released | nr_free_cma | nr_free_pages
| nr_inactive_anon | nr_inactive_file | nr_isolated_anon | nr_isolated_file
| nr_kernel_misc_reclaimable | nr_kernel_stack | nr_mapped | nr_mlock | nr_page_table_pages
| nr_shadow_call_stack | nr_shmem | nr_shmem_hugepages | nr_shmem_pmdmapped | nr_slab_reclaimable
| nr_slab_unreclaimable | nr_unevictable | nr_unstable | nr_vmscan_immediate_reclaim
| nr_vmscan_write | nr_writeback | nr_writeback_temp | nr_written | nr_zone_active_anon
| nr_zone_active_file | nr_zone_inactive_anon | nr_zone_inactive_file | nr_zone_unevictable
| nr_zone_write_pending | nr_zspages | numa_foreign | numa_hint_faults | numa_hint_faults_local
| numa_hit | numa_huge_pte_updates | numa_interleave | numa_local | numa_miss | numa_other
| numa_pages_migrated | numa_pte_updates | oom_kill | pageoutrun | pgactivate | pgalloc_dma
| pgalloc_dma32 | pgalloc_high | pgalloc_movable | pgalloc_normal | pgdeactivate | pgfault
| pgfree | pginodesteal | pglazyfree | pglazyfreed | pgmajfault | pgmigrate_fail
| pgmigrate_success | pgpgin | pgpgout | pgrefill | pgrotated | pgscan_anon | pgscan_direct
| pgscan_direct_throttle | pgscan_file | pgscan_kswapd | pgskip_dma | pgskip_dma32 | pgskip_high
| pgskip_movable | pgskip_normal | pgsteal_anon | pgsteal_direct | pgsteal_file | pgsteal_kswapd
| pswpin | pswpout | slabs_scanned | swap_ra | swap_ra_hit | thp_collapse_alloc
| thp_collapse_alloc_failed | thp_deferred_split_page | thp_fault_alloc | thp_fault_fallback
| thp_fault_fallback_charge | thp_file_alloc | thp_file_fallback | thp_file_fallback_charge
| thp_file_mapped | thp_split_page | thp_split_page_failed | thp_split_pmd | thp_split_pud
| thp_swpout | thp_swpout_fallback | thp_zero_page_alloc | thp_zero_page_alloc_failed
| unevictable_pgs_cleared | unevictable_pgs_culled | unevictable_pgs_mlocked
| unevictable_pgs_munlocked | unevictable_pgs_rescued | unevictable_pgs_scanned
| unevictable_pgs_stranded | workingset_activate | workingset_nodereclaim | workingset_nodes
| workingset_refault | workingset_restore | zone_reclaim_failed.

(** All of them. *)
Definition vmfields : list vmfield :=
  [allocstall_dma; allocstall_dma32; allocstall_high; allocstall_movable; allocstall_normal;
   balloon_deflate; balloon_inflate; balloon_migrate; compact_daemon_free_scanned;
   compact_daemon_migrate_scanned; compact_daemon_wake; compact_fail; compact_free_scanned;
   compact_isolated; compact_migrate_scanned; compact_stall; compact_success; drop_pagecache;
   drop_slab; htlb_buddy_alloc_fail; htlb_buddy_alloc_success; kswapd_high_wmark_hit_quickly;
   kswapd_inodesteal; kswapd_low_wmark_hit_quickly; nr_active_anon; nr_active_file;
   nr_anon_pages; nr_anon_transparent_hugepages; nr_bounce; nr_dirtied; nr_dirty;
   nr_dirty_background_threshold; nr_dirty_threshold; nr_file_hugepages; nr_file_pages;
   nr_file_pmdmapped; nr_foll_pin_acquired; nr_foll_pin_released; nr_free_cma; nr_free_pages;
   nr_inactive_anon; nr_inactive_file; nr_isolated_anon; nr_isolated_file;
   nr_kernel_misc_reclaimable; nr_kernel_stack; nr_mapped; nr_mlock; nr_page_table_pages;
   nr_shadow_call_stack; nr_shmem; nr_shmem_hugepages; nr_shmem_pmdmapped; nr_slab_reclaimable;
   nr_slab_unreclaimable; nr_unevictable; nr_unstable; nr_vmscan_immediate_reclaim;
   nr_vmscan_write; nr_writeback; nr_writeback_temp; nr_written; nr_zone_active_anon;
   nr_zone_active_file; nr_zone_inactive_anon; nr_zone_inactive_file; nr_zone_unevictable;
   nr_zone_write_pending; nr_zspages; numa_foreign; numa_hint_faults; numa_hint_faults_local;
   numa_hit; numa_huge_pte_updates; numa_interleave; numa_local; numa_miss; numa_other;
   numa_pages_migrated; numa_pte_updates; oom_kill; pageoutrun; pgactivate; pgalloc_dma;
   pgalloc_dma32; pgalloc_high; pgalloc_movable; pgalloc_normal; pgdeactivate; pgfault; pgfree;
   pginodesteal; pglazyfree; pglazyfreed; pgmajfault; pgmigrate_fail; pgmigrate_success; pgpgin;
   pgpgout; pgrefill; pgrotated; pgscan_anon; pgscan_direct; pgscan_direct_throttle; pgscan_file;
   pgscan_kswapd; pgskip_dma; pgskip_dma32; pgskip_high; pgskip_movable; pgskip_normal;
   pgsteal_anon; pgsteal_direct; pgsteal_file; pgsteal_kswapd; pswpin; pswpout; slabs_scanned;
   swap_ra; swap_ra_hit; thp_collapse_alloc; thp_collapse_alloc_failed; thp_deferred_split_page;
   thp_fault_alloc; thp_fault_fallback; thp_fault_fallback_charge; thp_file_alloc;
   thp_file_fallback; thp_file_fallback_charge; thp_file_mapped; thp_split_page;
   thp_split_page_failed; thp_split_pmd; thp_split_pud; thp_swpout; thp_swpout_fallback;
   thp_zero_page_alloc; thp_zero_page_alloc_failed; unevictable_pgs_cleared;
   unevictable_pgs_culled; unevictable_pgs_mlocked; unevictable_pgs_munlocked;
   unevictable_pgs_rescued; unevictable_pgs_scanned; unevictable_pgs_stranded;
   workingset_activate; workingset_nodereclaim; workingset_nodes; workingset_refault;
   workingset_restore; zone_reclaim_failed].

(** The position of a field in the structure. *)
Definition vmfield_code (f : vmfield) : nat :=
  match f with
  | allocstall_dma => 0 | allocstall_dma32 => 1 | allocstall_high => 2 | allocstall_movable => 3
  | allocstall_normal => 4 | balloon_deflate => 5 | balloon_inflate => 6 | balloon_migrate => 7
  | compact_daemon_free_scanned => 8 | compact_daemon_migrate_scanned => 9
  | compact_daemon_wake => 10 | compact_fail => 11 | compact_free_scanned => 12
  | compact_isolated => 13 | compact_migrate_scanned => 14 | compact_stall => 15
  | compact_success => 16 | drop_pagecache => 17 | drop_slab => 18 | htlb_buddy_alloc_fail => 19
  | htlb_buddy_alloc_success => 20 | kswapd_high_wmark_hit_quickly => 21
  | kswapd_inodesteal => 22 | kswapd_low_wmark_hit_quickly => 23 | nr_active_anon => 24
  | nr_active_file => 25 | nr_anon_pages => 26 | nr_anon_transparent_hugepages => 27
  | nr_bounce => 28 | nr_dirtied => 29 | nr_dirty => 30 | nr_dirty_background_threshold => 31
  | nr_dirty_threshold => 32 | nr_file_hugepages => 33 | nr_file_pages => 34
  | nr_file_pmdmapped => 35 | nr_foll_pin_acquired => 36 | nr_foll_pin_released => 37
  | nr_free_cma => 38 | nr_free_pages => 39 | nr_inactive_anon => 40 | nr_inactive_file => 41
  | nr_isolated_anon => 42 | nr_isolated_file => 43 | nr_kernel_misc_reclaimable => 44
  | nr_kernel_stack => 45 | nr_mapped => 46 | nr_mlock => 47 | nr_page_table_pages => 48
  | nr_shadow_call_stack => 49 | nr_shmem => 50 | nr_shmem_hugepages => 51
  | nr_shmem_pmdmapped => 52 | nr_slab_reclaimable => 53 | nr_slab_unreclaimable => 54
  | nr_unevictable => 55 | nr_unstable => 56 | nr_vmscan_immediate_reclaim => 57
  | nr_vmscan_write => 58 | nr_writeback => 59 | nr_writeback_temp => 60 | nr_written => 61
  | nr_zone_active_anon => 62 | nr_zone_active_file => 63 | nr_zone_inactive_anon => 64
  | nr_zone_inactive_file => 65 | nr_zone_unevictable => 66 | nr_zone_write_pending => 67
  | nr_zspages => 68 | numa_foreign => 69 | numa_hint_faults => 70 | numa_hint_faults_local => 71
  | numa_hit => 72 | numa_huge_pte_updates => 73 | numa_interleave => 74 | numa_local => 75
  | numa_miss => 76 | numa_other => 77 | numa_pages_migrated => 78 | numa_pte_updates => 79
  | oom_kill => 80 | pageoutrun => 81 | pgactivate => 82 | pgalloc_dma => 83
  | pgalloc_dma32 => 84 | pgalloc_high => 85 | pgalloc_movable => 86 | pgalloc_normal => 87
  | pgdeactivate => 88 | pgfault => 89 | pgfree => 90 | pginodesteal => 91 | pglazyfree => 92
  | pglazyfreed => 93 | pgmajfault => 94 | pgmigrate_fail => 95 | pgmigrate_success => 96
  | pgpgin => 97 | pgpgout => 98 | pgrefill => 99 | pgrotated => 100 | pgscan_anon => 101
  | pgscan_direct => 102 | pgscan_direct_throttle => 103 | pgscan_file => 104
  | pgscan_kswapd => 105 | pgskip_dma => 106 | pgskip_dma32 => 107 | pgskip_high => 108
  | pgskip_movable => 109 | pgskip_normal => 110 | pgsteal_anon => 111 | pgsteal_direct => 112
  | pgsteal_file => 113 | pgsteal_kswapd => 114 | pswpin => 115 | pswpout => 116
  | slabs_scanned => 117 | swap_ra => 118 | swap_ra_hit => 119 | thp_collapse_alloc => 120
  | thp_collapse_alloc_failed => 121 | thp_deferred_split_page => 122 | thp_fault_alloc => 123
  | thp_fault_fallback => 124 | thp_fault_fallback_charge => 125 | thp_file_alloc => 126
  | thp_file_fallback => 127 | thp_file_fallback_charge => 128 | thp_file_mapped => 129
  | thp_split_page => 130 | thp_split_page_failed => 131 | thp_split_pmd => 132
  | thp_split_pud => 133 | thp_swpout => 134 | thp_swpout_fallback => 135
  | thp_zero_page_alloc => 136 | thp_zero_page_alloc_failed => 137
  | unevictable_pgs_cleared => 138 | unevictable_pgs_culled => 139
  | unevictable_pgs_mlocked => 140 | unevictable_pgs_munlocked => 141
  | unevictable_pgs_rescued => 142 | unevictable_pgs_scanned => 143
  | unevictable_pgs_stranded => 144 | workingset_activate => 145 | workingset_nodereclaim => 146
  | workingset_nodes => 147 | workingset_refault => 148 | workingset_restore => 149
  | zone_reclaim_failed => 150
  end.

(** The setters of the Results 'Set' Support. *)
Inductive vsetter := VNoop | VExtra | REG_set (f : vmfield) | HST_set (f : vmfield).

(** The regular assignments. *)
Definition regular_setters : list (string * vsetter) :=
  [("noop", VNoop); ("extra", VExtra); ("ALLOCSTALL_DMA", REG_set allocstall_dma);
   ("ALLOCSTALL_DMA32", REG_set allocstall_dma32); ("ALLOCSTALL_HIGH", REG_set allocstall_high);
   ("ALLOCSTALL_MOVABLE", REG_set allocstall_movable);
   ("ALLOCSTALL_NORMAL", REG_set allocstall_normal);
   ("BALLOON_DEFLATE", REG_set balloon_deflate); ("BALLOON_INFLATE", REG_set balloon_inflate);
   ("BALLOON_MIGRATE", REG_set balloon_migrate);
   ("COMPACT_DAEMON_FREE_SCANNED", REG_set compact_daemon_free_scanned);
   ("COMPACT_DAEMON_MIGRATE_SCANNED", REG_set compact_daemon_migrate_scanned);
   ("COMPACT_DAEMON_WAKE", REG_set compact_daemon_wake); ("COMPACT_FAIL", REG_set compact_fail);
   ("COMPACT_FREE_SCANNED", REG_set compact_free_scanned);
   ("COMPACT_ISOLATED", REG_set compact_isolated);
   ("COMPACT_MIGRATE_SCANNED", REG_set compact_migrate_scanned);
   ("COMPACT_STALL", REG_set compact_stall); ("COMPACT_SUCCESS", REG_set compact_success);
   ("DROP_PAGECACHE", REG_set drop_pagecache); ("DROP_SLAB", REG_set drop_slab);
   ("HTLB_BUDDY_ALLOC_FAIL", REG_set htlb_buddy_alloc_fail);
   ("HTLB_BUDDY_ALLOC_SUCCESS", REG_set htlb_buddy_alloc_success);
   ("KSWAPD_HIGH_WMARK_HIT_QUICKLY", REG_set kswapd_high_wmark_hit_quickly);
   ("KSWAPD_INODESTEAL", REG_set kswapd_inodesteal);
   ("KSWAPD_LOW_WMARK_HIT_QUICKLY", REG_set kswapd_low_wmark_hit_quickly);
   ("NR_ACTIVE_ANON", REG_set nr_active_anon); ("NR_ACTIVE_FILE", REG_set nr_active_file);
   ("NR_ANON_PAGES", REG_set nr_anon_pages);
   ("NR_ANON_TRANSPARENT_HUGEPAGES", REG_set nr_anon_transparent_hugepages);
   ("NR_BOUNCE", REG_set nr_bounce); ("NR_DIRTIED", REG_set nr_dirtied);
   ("NR_DIRTY", REG_set nr_dirty);
   ("NR_DIRTY_BACKGROUND_THRESHOLD", REG_set nr_dirty_background_threshold);
   ("NR_DIRTY_THRESHOLD", REG_set nr_dirty_threshold);
   ("NR_FILE_HUGEPAGES", REG_set nr_file_hugepages); ("NR_FILE_PAGES", REG_set nr_file_pages);
   ("NR_FILE_PMDMAPPED", REG_set nr_file_pmdmapped);
   ("NR_FOLL_PIN_ACQUIRED", REG_set nr_foll_pin_acquired);
   ("NR_FOLL_PIN_RELEASED", REG_set nr_foll_pin_released); ("NR_FREE_CMA", REG_set nr_free_cma);
   ("NR_FREE_PAGES", REG_set nr_free_pages); ("NR_INACTIVE_ANON", REG_set nr_inactive_anon);
   ("NR_INACTIVE_FILE", REG_set nr_inactive_file);
   ("NR_ISOLATED_ANON", REG_set nr_isolated_anon);
   ("NR_ISOLATED_FILE", REG_set nr_isolated_file);
   ("NR_KERNEL_MISC_RECLAIMABLE", REG_set nr_kernel_misc_reclaimable);
   ("NR_KERNEL_STACK", REG_set nr_kernel_stack); ("NR_MAPPED", REG_set nr_mapped);
   ("NR_MLOCK", REG_set nr_mlock); ("NR_PAGE_TABLE_PAGES", REG_set nr_page_table_pages);
   ("NR_SHADOW_CALL_STACK", REG_set nr_shadow_call_stack); ("NR_SHMEM", REG_set nr_shmem);
   ("NR_SHMEM_HUGEPAGES", REG_set nr_shmem_hugepages);
   ("NR_SHMEM_PMDMAPPED", REG_set nr_shmem_pmdmapped);
   ("NR_SLAB_RECLAIMABLE", REG_set nr_slab_reclaimable);
   ("NR_SLAB_UNRECLAIMABLE", REG_set nr_slab_unreclaimable);
   ("NR_UNEVICTABLE", REG_set nr_unevictable); ("NR_UNSTABLE", REG_set nr_unstable);
   ("NR_VMSCAN_IMMEDIATE_RECLAIM", REG_set nr_vmscan_immediate_reclaim);
   ("NR_VMSCAN_WRITE", REG_set nr_vmscan_write); ("NR_WRITEBACK", REG_set nr_writeback);
   ("NR_WRITEBACK_TEMP", REG_set nr_writeback_temp); ("NR_WRITTEN", REG_set nr_written);
   ("NR_ZONE_ACTIVE_ANON", REG_set nr_zone_active_anon);
   ("NR_ZONE_ACTIVE_FILE", REG_set nr_zone_active_file);
   ("NR_ZONE_INACTIVE_ANON", REG_set nr_zone_inactive_anon);
   ("NR_ZONE_INACTIVE_FILE", REG_set nr_zone_inactive_file);
   ("NR_ZONE_UNEVICTABLE", REG_set nr_zone_unevictable);
   ("NR_ZONE_WRITE_PENDING", REG_set nr_zone_write_pending); ("NR_ZSPAGES", REG_set nr_zspages);
   ("NUMA_FOREIGN", REG_set numa_foreign); ("NUMA_HINT_FAULTS", REG_set numa_hint_faults);
   ("NUMA_HINT_FAULTS_LOCAL", REG_set numa_hint_faults_local); ("NUMA_HIT", REG_set numa_hit);
   ("NUMA_HUGE_PTE_UPDATES", REG_set numa_huge_pte_updates);
   ("NUMA_INTERLEAVE", REG_set numa_interleave); ("NUMA_LOCAL", REG_set numa_local);
   ("NUMA_MISS", REG_set numa_miss); ("NUMA_OTHER", REG_set numa_other);
   ("NUMA_PAGES_MIGRATED", REG_set numa_pages_migrated);
   ("NUMA_PTE_UPDATES", REG_set numa_pte_updates); ("OOM_KILL", REG_set oom_kill);
   ("PAGEOUTRUN", REG_set pageoutrun); ("PGACTIVATE", REG_set pgactivate);
   ("PGALLOC_DMA", REG_set pgalloc_dma); ("PGALLOC_DMA32", REG_set pgalloc_dma32);
   ("PGALLOC_HIGH", REG_set pgalloc_high); ("PGALLOC_MOVABLE", REG_set pgalloc_movable);
   ("PGALLOC_NORMAL", REG_set pgalloc_normal); ("PGDEACTIVATE", REG_set pgdeactivate);
   ("PGFAULT", REG_set pgfault); ("PGFREE", REG_set pgfree);
   ("PGINODESTEAL", REG_set pginodesteal); ("PGLAZYFREE", REG_set pglazyfree);
   ("PGLAZYFREED", REG_set pglazyfreed); ("PGMAJFAULT", REG_set pgmajfault);
   ("PGMIGRATE_FAIL", REG_set pgmigrate_fail); ("PGMIGRATE_SUCCESS", REG_set pgmigrate_success);
   ("PGPGIN", REG_set pgpgin); ("PGPGOUT", REG_set pgpgout); ("PGREFILL", REG_set pgrefill);
   ("PGROTATED", REG_set pgrotated); ("PGSCAN_ANON", REG_set pgscan_anon);
   ("PGSCAN_DIRECT", REG_set pgscan_direct);
   ("PGSCAN_DIRECT_THROTTLE", REG_set pgscan_direct_throttle);
   ("PGSCAN_FILE", REG_set pgscan_file); ("PGSCAN_KSWAPD", REG_set pgscan_kswapd);
   ("PGSKIP_DMA", REG_set pgskip_dma); ("PGSKIP_DMA32", REG_set pgskip_dma32);
   ("PGSKIP_HIGH", REG_set pgskip_high); ("PGSKIP_MOVABLE", REG_set pgskip_movable);
   ("PGSKIP_NORMAL", REG_set pgskip_normal); ("PGSTEAL_ANON", REG_set pgsteal_anon);
   ("PGSTEAL_DIRECT", REG_set pgsteal_direct); ("PGSTEAL_FILE", REG_set pgsteal_file);
   ("PGSTEAL_KSWAPD", REG_set pgsteal_kswapd); ("PSWPIN", REG_set pswpin);
   ("PSWPOUT", REG_set pswpout); ("SLABS_SCANNED", REG_set slabs_scanned);
   ("SWAP_RA", REG_set swap_ra); ("SWAP_RA_HIT", REG_set swap_ra_hit);
   ("THP_COLLAPSE_ALLOC", REG_set thp_collapse_alloc);
   ("THP_COLLAPSE_ALLOC_FAILED", REG_set thp_collapse_alloc_failed);
   ("THP_DEFERRED_SPLIT_PAGE", REG_set thp_deferred_split_page);
   ("THP_FAULT_ALLOC", REG_set thp_fault_alloc);
   ("THP_FAULT_FALLBACK", REG_set thp_fault_fallback);
   ("THP_FAULT_FALLBACK_CHARGE", REG_set thp_fault_fallback_charge);
   ("THP_FILE_ALLOC", REG_set thp_file_alloc); ("THP_FILE_FALLBACK", REG_set thp_file_fallback);
   ("THP_FILE_FALLBACK_CHARGE", REG_set thp_file_fallback_charge);
   ("THP_FILE_MAPPED", REG_set thp_file_mapped); ("THP_SPLIT_PAGE", REG_set thp_split_page);
   ("THP_SPLIT_PAGE_FAILED", REG_set thp_split_page_failed);
   ("THP_SPLIT_PMD", REG_set thp_split_pmd); ("THP_SPLIT_PUD", REG_set thp_split_pud);
   ("THP_SWPOUT", REG_set thp_swpout); ("THP_SWPOUT_FALLBACK", REG_set thp_swpout_fallback);
   ("THP_ZERO_PAGE_ALLOC", REG_set thp_zero_page_alloc);
   ("THP_ZERO_PAGE_ALLOC_FAILED", REG_set thp_zero_page_alloc_failed);
   ("UNEVICTABLE_PGS_CLEARED", REG_set unevictable_pgs_cleared);
   ("UNEVICTABLE_PGS_CULLED", REG_set unevictable_pgs_culled);
   ("UNEVICTABLE_PGS_MLOCKED", REG_set unevictable_pgs_mlocked);
   ("UNEVICTABLE_PGS_MUNLOCKED", REG_set unevictable_pgs_munlocked);
   ("UNEVICTABLE_PGS_RESCUED", REG_set unevictable_pgs_rescued);
   ("UNEVICTABLE_PGS_SCANNED", REG_set unevictable_pgs_scanned);
   ("UNEVICTABLE_PGS_STRANDED", REG_set unevictable_pgs_stranded);
   ("WORKINGSET_ACTIVATE", REG_set workingset_activate);
   ("WORKINGSET_NODERECLAIM", REG_set workingset_nodereclaim);
   ("WORKINGSET_NODES", REG_set workingset_nodes);
   ("WORKINGSET_REFAULT", REG_set workingset_refault);
   ("WORKINGSET_RESTORE", REG_set workingset_restore);
   ("ZONE_RECLAIM_FAILED", REG_set zone_reclaim_failed)].

(** The assignments of differences. *)
Definition delta_setters : list (string * vsetter) :=
  [("DELTA_ALLOCSTALL_DMA", HST_set allocstall_dma);
   ("DELTA_ALLOCSTALL_DMA32", HST_set allocstall_dma32);
   ("DELTA_ALLOCSTALL_HIGH", HST_set allocstall_high);
   ("DELTA_ALLOCSTALL_MOVABLE", HST_set allocstall_movable);
   ("DELTA_ALLOCSTALL_NORMAL", HST_set allocstall_normal);
   ("DELTA_BALLOON_DEFLATE", HST_set balloon_deflate);
   ("DELTA_BALLOON_INFLATE", HST_set balloon_inflate);
   ("DELTA_BALLOON_MIGRATE", HST_set balloon_migrate);
   ("DELTA_COMPACT_DAEMON_FREE_SCANNED", HST_set compact_daemon_free_scanned);
   ("DELTA_COMPACT_DAEMON_MIGRATE_SCANNED", HST_set compact_daemon_migrate_scanned);
   ("DELTA_COMPACT_DAEMON_WAKE", HST_set compact_daemon_wake);
   ("DELTA_COMPACT_FAIL", HST_set compact_fail);
   ("DELTA_COMPACT_FREE_SCANNED", HST_set compact_free_scanned);
   ("DELTA_COMPACT_ISOLATED", HST_set compact_isolated);
   ("DELTA_COMPACT_MIGRATE_SCANNED", HST_set compact_migrate_scanned);
   ("DELTA_COMPACT_STALL", HST_set compact_stall);
   ("DELTA_COMPACT_SUCCESS", HST_set compact_success);
   ("DELTA_DROP_PAGECACHE", HST_set drop_pagecache); ("DELTA_DROP_SLAB", HST_set drop_slab);
   ("DELTA_HTLB_BUDDY_ALLOC_FAIL", HST_set htlb_buddy_alloc_fail);
   ("DELTA_HTLB_BUDDY_ALLOC_SUCCESS", HST_set htlb_buddy_alloc_success);
   ("DELTA_KSWAPD_HIGH_WMARK_HIT_QUICKLY", HST_set kswapd_high_wmark_hit_quickly);
   ("DELTA_KSWAPD_INODESTEAL", HST_set kswapd_inodesteal);
   ("DELTA_KSWAPD_LOW_WMARK_HIT_QUICKLY", HST_set kswapd_low_wmark_hit_quickly);
   ("DELTA_NR_ACTIVE_ANON", HST_set nr_active_anon);
   ("DELTA_NR_ACTIVE_FILE", HST_set nr_active_file);
   ("DELTA_NR_ANON_PAGES", HST_set nr_anon_pages);
   ("DELTA_NR_ANON_TRANSPARENT_HUGEPAGES", HST_set nr_anon_transparent_hugepages);
   ("DELTA_NR_BOUNCE", HST_set nr_bounce); ("DELTA_NR_DIRTIED", HST_set nr_dirtied);
   ("DELTA_NR_DIRTY", HST_set nr_dirty);
   ("DELTA_NR_DIRTY_BACKGROUND_THRESHOLD", HST_set nr_dirty_background_threshold);
   ("DELTA_NR_DIRTY_THRESHOLD", HST_set nr_dirty_threshold);
   ("DELTA_NR_FILE_HUGEPAGES", HST_set nr_file_hugepages);
   ("DELTA_NR_FILE_PAGES", HST_set nr_file_pages);
   ("DELTA_NR_FILE_PMDMAPPED", HST_set nr_file_pmdmapped);
   ("DELTA_NR_FOLL_PIN_ACQUIRED", HST_set nr_foll_pin_acquired);
   ("DELTA_NR_FOLL_PIN_RELEASED", HST_set nr_foll_pin_released);
   ("DELTA_NR_FREE_CMA", HST_set nr_free_cma); ("DELTA_NR_FREE_PAGES", HST_set nr_free_pages);
   ("DELTA_NR_INACTIVE_ANON", HST_set nr_inactive_anon);
   ("DELTA_NR_INACTIVE_FILE", HST_set nr_inactive_file);
   ("DELTA_NR_ISOLATED_ANON", HST_set nr_isolated_anon);
   ("DELTA_NR_ISOLATED_FILE", HST_set nr_isolated_file);
   ("DELTA_NR_KERNEL_MISC_RECLAIMABLE", HST_set nr_kernel_misc_reclaimable);
   ("DELTA_NR_KERNEL_STACK", HST_set nr_kernel_stack); ("DELTA_NR_MAPPED", HST_set nr_mapped);
   ("DELTA_NR_MLOCK", HST_set nr_mlock);
   ("DELTA_NR_PAGE_TABLE_PAGES", HST_set nr_page_table_pages);
   ("DELTA_NR_SHADOW_CALL_STACK", HST_set nr_shadow_call_stack);
   ("DELTA_NR_SHMEM", HST_set nr_shmem);
   ("DELTA_NR_SHMEM_HUGEPAGES", HST_set nr_shmem_hugepages);
   ("DELTA_NR_SHMEM_PMDMAPPED", HST_set nr_shmem_pmdmapped);
   ("DELTA_NR_SLAB_RECLAIMABLE", HST_set nr_slab_reclaimable);
   ("DELTA_NR_SLAB_UNRECLAIMABLE", HST_set nr_slab_unreclaimable);
   ("DELTA_NR_UNEVICTABLE", HST_set nr_unevictable); ("DELTA_NR_UNSTABLE", HST_set nr_unstable);
   ("DELTA_NR_VMSCAN_IMMEDIATE_RECLAIM", HST_set nr_vmscan_immediate_reclaim);
   ("DELTA_NR_VMSCAN_WRITE", HST_set nr_vmscan_write);
   ("DELTA_NR_WRITEBACK", HST_set nr_writeback);
   ("DELTA_NR_WRITEBACK_TEMP", HST_set nr_writeback_temp);
   ("DELTA_NR_WRITTEN", HST_set nr_written);
   ("DELTA_NR_ZONE_ACTIVE_ANON", HST_set nr_zone_active_anon);
   ("DELTA_NR_ZONE_ACTIVE_FILE", HST_set nr_zone_active_file);
   ("DELTA_NR_ZONE_INACTIVE_ANON", HST_set nr_zone_inactive_anon);
   ("DELTA_NR_ZONE_INACTIVE_FILE", HST_set nr_zone_inactive_file);
   ("DELTA_NR_ZONE_UNEVICTABLE", HST_set nr_zone_unevictable);
   ("DELTA_NR_ZONE_WRITE_PENDING", HST_set nr_zone_write_pending);
   ("DELTA_NR_ZSPAGES", HST_set nr_zspages); ("DELTA_NUMA_FOREIGN", HST_set numa_foreign);
   ("DELTA_NUMA_HINT_FAULTS", HST_set numa_hint_faults);
   ("DELTA_NUMA_HINT_FAULTS_LOCAL", HST_set numa_hint_faults_local);
   ("DELTA_NUMA_HIT", HST_set numa_hit);
   ("DELTA_NUMA_HUGE_PTE_UPDATES", HST_set numa_huge_pte_updates);
   ("DELTA_NUMA_INTERLEAVE", HST_set numa_interleave); ("DELTA_NUMA_LOCAL", HST_set numa_local);
   ("DELTA_NUMA_MISS", HST_set numa_miss); ("DELTA_NUMA_OTHER", HST_set numa_other);
   ("DELTA_NUMA_PAGES_MIGRATED", HST_set numa_pages_migrated);
   ("DELTA_NUMA_PTE_UPDATES", HST_set numa_pte_updates); ("DELTA_OOM_KILL", HST_set oom_kill);
   ("DELTA_PAGEOUTRUN", HST_set pageoutrun); ("DELTA_PGACTIVATE", HST_set pgactivate);
   ("DELTA_PGALLOC_DMA", HST_set pgalloc_dma); ("DELTA_PGALLOC_DMA32", HST_set pgalloc_dma32);
   ("DELTA_PGALLOC_HIGH", HST_set pgalloc_high);
   ("DELTA_PGALLOC_MOVABLE", HST_set pgalloc_movable);
   ("DELTA_PGALLOC_NORMAL", HST_set pgalloc_normal);
   ("DELTA_PGDEACTIVATE", HST_set pgdeactivate); ("DELTA_PGFAULT", HST_set pgfault);
   ("DELTA_PGFREE", HST_set pgfree); ("DELTA_PGINODESTEAL", HST_set pginodesteal);
   ("DELTA_PGLAZYFREE", HST_set pglazyfree); ("DELTA_PGLAZYFREED", HST_set pglazyfreed);
   ("DELTA_PGMAJFAULT", HST_set pgmajfault); ("DELTA_PGMIGRATE_FAIL", HST_set pgmigrate_fail);
   ("DELTA_PGMIGRATE_SUCCESS", HST_set pgmigrate_success); ("DELTA_PGPGIN", HST_set pgpgin);
   ("DELTA_PGPGOUT", HST_set pgpgout); ("DELTA_PGREFILL", HST_set pgrefill);
   ("DELTA_PGROTATED", HST_set pgrotated); ("DELTA_PGSCAN_ANON", HST_set pgscan_anon);
   ("DELTA_PGSCAN_DIRECT", HST_set pgscan_direct);
   ("DELTA_PGSCAN_DIRECT_THROTTLE", HST_set pgscan_direct_throttle);
   ("DELTA_PGSCAN_FILE", HST_set pgscan_file); ("DELTA_PGSCAN_KSWAPD", HST_set pgscan_kswapd);
   ("DELTA_PGSKIP_DMA", HST_set pgskip_dma); ("DELTA_PGSKIP_DMA32", HST_set pgskip_dma32);
   ("DELTA_PGSKIP_HIGH", HST_set pgskip_high); ("DELTA_PGSKIP_MOVABLE", HST_set pgskip_movable);
   ("DELTA_PGSKIP_NORMAL", HST_set pgskip_normal); ("DELTA_PGSTEAL_ANON", HST_set pgsteal_anon);
   ("DELTA_PGSTEAL_DIRECT", HST_set pgsteal_direct);
   ("DELTA_PGSTEAL_FILE", HST_set pgsteal_file);
   ("DELTA_PGSTEAL_KSWAPD", HST_set pgsteal_kswapd); ("DELTA_PSWPIN", HST_set pswpin);
   ("DELTA_PSWPOUT", HST_set pswpout); ("DELTA_SLABS_SCANNED", HST_set slabs_scanned);
   ("DELTA_SWAP_RA", HST_set swap_ra); ("DELTA_SWAP_RA_HIT", HST_set swap_ra_hit);
   ("DELTA_THP_COLLAPSE_ALLOC", HST_set thp_collapse_alloc);
   ("DELTA_THP_COLLAPSE_ALLOC_FAILED", HST_set thp_collapse_alloc_failed);
   ("DELTA_THP_DEFERRED_SPLIT_PAGE", HST_set thp_deferred_split_page);
   ("DELTA_THP_FAULT_ALLOC", HST_set thp_fault_alloc);
   ("DELTA_THP_FAULT_FALLBACK", HST_set thp_fault_fallback);
   ("DELTA_THP_FAULT_FALLBACK_CHARGE", HST_set thp_fault_fallback_charge);
   ("DELTA_THP_FILE_ALLOC", HST_set thp_file_alloc);
   ("DELTA_THP_FILE_FALLBACK", HST_set thp_file_fallback);
   ("DELTA_THP_FILE_FALLBACK_CHARGE", HST_set thp_file_fallback_charge);
   ("DELTA_THP_FILE_MAPPED", HST_set thp_file_mapped);
   ("DELTA_THP_SPLIT_PAGE", HST_set thp_split_page);
   ("DELTA_THP_SPLIT_PAGE_FAILED", HST_set thp_split_page_failed);
   ("DELTA_THP_SPLIT_PMD", HST_set thp_split_pmd);
   ("DELTA_THP_SPLIT_PUD", HST_set thp_split_pud); ("DELTA_THP_SWPOUT", HST_set thp_swpout);
   ("DELTA_THP_SWPOUT_FALLBACK", HST_set thp_swpout_fallback);
   ("DELTA_THP_ZERO_PAGE_ALLOC", HST_set thp_zero_page_alloc);
   ("DELTA_THP_ZERO_PAGE_ALLOC_FAILED", HST_set thp_zero_page_alloc_failed);
   ("DELTA_UNEVICTABLE_PGS_CLEARED", HST_set unevictable_pgs_cleared);
   ("DELTA_UNEVICTABLE_PGS_CULLED", HST_set unevictable_pgs_culled);
   ("DELTA_UNEVICTABLE_PGS_MLOCKED", HST_set unevictable_pgs_mlocked);
   ("DELTA_UNEVICTABLE_PGS_MUNLOCKED", HST_set unevictable_pgs_munlocked);
   ("DELTA_UNEVICTABLE_PGS_RESCUED", HST_set unevictable_pgs_rescued);
   ("DELTA_UNEVICTABLE_PGS_SCANNED", HST_set unevictable_pgs_scanned);
   ("DELTA_UNEVICTABLE_PGS_STRANDED", HST_set unevictable_pgs_stranded);
   ("DELTA_WORKINGSET_ACTIVATE", HST_set workingset_activate);
   ("DELTA_WORKINGSET_NODERECLAIM", HST_set workingset_nodereclaim);
   ("DELTA_WORKINGSET_NODES", HST_set workingset_nodes);
   ("DELTA_WORKINGSET_REFAULT", HST_set workingset_refault);
   ("DELTA_WORKINGSET_RESTORE", HST_set workingset_restore);
   ("DELTA_ZONE_RECLAIM_FAILED", HST_set zone_reclaim_failed)]%string.

(** [Item_table]: the setter named by [RS] and the type named by [TS]; the rows of
    the values and those of the changes. *)
Definition regular_rows : list (string * option utype) :=
  [("noop", None); ("extra", None); ("ALLOCSTALL_DMA", Some ul_int);
   ("ALLOCSTALL_DMA32", Some ul_int); ("ALLOCSTALL_HIGH", Some ul_int);
   ("ALLOCSTALL_MOVABLE", Some ul_int); ("ALLOCSTALL_NORMAL", Some ul_int);
   ("BALLOON_DEFLATE", Some ul_int); ("BALLOON_INFLATE", Some ul_int);
   ("BALLOON_MIGRATE", Some ul_int); ("COMPACT_DAEMON_FREE_SCANNED", Some ul_int);
   ("COMPACT_DAEMON_MIGRATE_SCANNED", Some ul_int); ("COMPACT_DAEMON_WAKE", Some ul_int);
   ("COMPACT_FAIL", Some ul_int); ("COMPACT_FREE_SCANNED", Some ul_int);
   ("COMPACT_ISOLATED", Some ul_int); ("COMPACT_MIGRATE_SCANNED", Some ul_int);
   ("COMPACT_STALL", Some ul_int); ("COMPACT_SUCCESS", Some ul_int);
   ("DROP_PAGECACHE", Some ul_int); ("DROP_SLAB", Some ul_int);
   ("HTLB_BUDDY_ALLOC_FAIL", Some ul_int); ("HTLB_BUDDY_ALLOC_SUCCESS", Some ul_int);
   ("KSWAPD_HIGH_WMARK_HIT_QUICKLY", Some ul_int); ("KSWAPD_INODESTEAL", Some ul_int);
   ("KSWAPD_LOW_WMARK_HIT_QUICKLY", Some ul_int); ("NR_ACTIVE_ANON", Some ul_int);
   ("NR_ACTIVE_FILE", Some ul_int); ("NR_ANON_PAGES", Some ul_int);
   ("NR_ANON_TRANSPARENT_HUGEPAGES", Some ul_int); ("NR_BOUNCE", Some ul_int);
   ("NR_DIRTIED", Some ul_int); ("NR_DIRTY", Some ul_int);
   ("NR_DIRTY_BACKGROUND_THRESHOLD", Some ul_int); ("NR_DIRTY_THRESHOLD", Some ul_int);
   ("NR_FILE_HUGEPAGES", Some ul_int); ("NR_FILE_PAGES", Some ul_int);
   ("NR_FILE_PMDMAPPED", Some ul_int); ("NR_FOLL_PIN_ACQUIRED", Some ul_int);
   ("NR_FOLL_PIN_RELEASED", Some ul_int); ("NR_FREE_CMA", Some ul_int);
   ("NR_FREE_PAGES", Some ul_int); ("NR_INACTIVE_ANON", Some ul_int);
   ("NR_INACTIVE_FILE", Some ul_int); ("NR_ISOLATED_ANON", Some ul_int);
   ("NR_ISOLATED_FILE", Some ul_int); ("NR_KERNEL_MISC_RECLAIMABLE", Some ul_int);
   ("NR_KERNEL_STACK", Some ul_int); ("NR_MAPPED", Some ul_int); ("NR_MLOCK", Some ul_int);
   ("NR_PAGE_TABLE_PAGES", Some ul_int); ("NR_SHADOW_CALL_STACK", Some ul_int);
   ("NR_SHMEM", Some ul_int); ("NR_SHMEM_HUGEPAGES", Some ul_int);
   ("NR_SHMEM_PMDMAPPED", Some ul_int); ("NR_SLAB_RECLAIMABLE", Some ul_int);
   ("NR_SLAB_UNRECLAIMABLE", Some ul_int); ("NR_UNEVICTABLE", Some ul_int);
   ("NR_UNSTABLE", Some ul_int); ("NR_VMSCAN_IMMEDIATE_RECLAIM", Some ul_int);
   ("NR_VMSCAN_WRITE", Some ul_int); ("NR_WRITEBACK", Some ul_int);
   ("NR_WRITEBACK_TEMP", Some ul_int); ("NR_WRITTEN", Some ul_int);
   ("NR_ZONE_ACTIVE_ANON", Some ul_int); ("NR_ZONE_ACTIVE_FILE", Some ul_int);
   ("NR_ZONE_INACTIVE_ANON", Some ul_int); ("NR_ZONE_INACTIVE_FILE", Some ul_int);
   ("NR_ZONE_UNEVICTABLE", Some ul_int); ("NR_ZONE_WRITE_PENDING", Some ul_int);
   ("NR_ZSPAGES", Some ul_int); ("NUMA_FOREIGN", Some ul_int); ("NUMA_HINT_FAULTS", Some ul_int);
   ("NUMA_HINT_FAULTS_LOCAL", Some ul_int); ("NUMA_HIT", Some ul_int);
   ("NUMA_HUGE_PTE_UPDATES", Some ul_int); ("NUMA_INTERLEAVE", Some ul_int);
   ("NUMA_LOCAL", Some ul_int); ("NUMA_MISS", Some ul_int); ("NUMA_OTHER", Some ul_int);
   ("NUMA_PAGES_MIGRATED", Some ul_int); ("NUMA_PTE_UPDATES", Some ul_int);
   ("OOM_KILL", Some ul_int); ("PAGEOUTRUN", Some ul_int); ("PGACTIVATE", Some ul_int);
   ("PGALLOC_DMA", Some ul_int); ("PGALLOC_DMA32", Some ul_int); ("PGALLOC_HIGH", Some ul_int);
   ("PGALLOC_MOVABLE", Some ul_int); ("PGALLOC_NORMAL", Some ul_int);
   ("PGDEACTIVATE", Some ul_int); ("PGFAULT", Some ul_int); ("PGFREE", Some ul_int);
   ("PGINODESTEAL", Some ul_int); ("PGLAZYFREE", Some ul_int); ("PGLAZYFREED", Some ul_int);
   ("PGMAJFAULT", Some ul_int); ("PGMIGRATE_FAIL", Some ul_int);
   ("PGMIGRATE_SUCCESS", Some ul_int); ("PGPGIN", Some ul_int); ("PGPGOUT", Some ul_int);
   ("PGREFILL", Some ul_int); ("PGROTATED", Some ul_int); ("PGSCAN_ANON", Some ul_int);
   ("PGSCAN_DIRECT", Some ul_int); ("PGSCAN_DIRECT_THROTTLE", Some ul_int);
   ("PGSCAN_FILE", Some ul_int); ("PGSCAN_KSWAPD", Some ul_int); ("PGSKIP_DMA", Some ul_int);
   ("PGSKIP_DMA32", Some ul_int); ("PGSKIP_HIGH", Some ul_int); ("PGSKIP_MOVABLE", Some ul_int);
   ("PGSKIP_NORMAL", Some ul_int); ("PGSTEAL_ANON", Some ul_int);
   ("PGSTEAL_DIRECT", Some ul_int); ("PGSTEAL_FILE", Some ul_int);
   ("PGSTEAL_KSWAPD", Some ul_int); ("PSWPIN", Some ul_int); ("PSWPOUT", Some ul_int);
   ("SLABS_SCANNED", Some ul_int); ("SWAP_RA", Some ul_int); ("SWAP_RA_HIT", Some ul_int);
   ("THP_COLLAPSE_ALLOC", Some ul_int); ("THP_COLLAPSE_ALLOC_FAILED", Some ul_int);
   ("THP_DEFERRED_SPLIT_PAGE", Some ul_int); ("THP_FAULT_ALLOC", Some ul_int);
   ("THP_FAULT_FALLBACK", Some ul_int); ("THP_FAULT_FALLBACK_CHARGE", Some ul_int);
   ("THP_FILE_ALLOC", Some ul_int); ("THP_FILE_FALLBACK", Some ul_int);
   ("THP_FILE_FALLBACK_CHARGE", Some ul_int); ("THP_FILE_MAPPED", Some ul_int);
   ("THP_SPLIT_PAGE", Some ul_int); ("THP_SPLIT_PAGE_FAILED", Some ul_int);
   ("THP_SPLIT_PMD", Some ul_int); ("THP_SPLIT_PUD", Some ul_int); ("THP_SWPOUT", Some ul_int);
   ("THP_SWPOUT_FALLBACK", Some ul_int); ("THP_ZERO_PAGE_ALLOC", Some ul_int);
   ("THP_ZERO_PAGE_ALLOC_FAILED", Some ul_int); ("UNEVICTABLE_PGS_CLEARED", Some ul_int);
   ("UNEVICTABLE_PGS_CULLED", Some ul_int); ("UNEVICTABLE_PGS_MLOCKED", Some ul_int);
   ("UNEVICTABLE_PGS_MUNLOCKED", Some ul_int); ("UNEVICTABLE_PGS_RESCUED", Some ul_int);
   ("UNEVICTABLE_PGS_SCANNED", Some ul_int); ("UNEVICTABLE_PGS_STRANDED", Some ul_int);
   ("WORKINGSET_ACTIVATE", Some ul_int); ("WORKINGSET_NODERECLAIM", Some ul_int);
   ("WORKINGSET_NODES", Some ul_int); ("WORKINGSET_REFAULT", Some ul_int);
   ("WORKINGSET_RESTORE", Some ul_int); ("ZONE_RECLAIM_FAILED", Some ul_int)].

Definition delta_rows : list (string * option utype) :=
  [("DELTA_ALLOCSTALL_DMA", Some sl_int); ("DELTA_ALLOCSTALL_DMA32", Some sl_int);
   ("DELTA_ALLOCSTALL_HIGH", Some sl_int); ("DELTA_ALLOCSTALL_MOVABLE", Some sl_int);
   ("DELTA_ALLOCSTALL_NORMAL", Some sl_int); ("DELTA_BALLOON_DEFLATE", Some sl_int);
   ("DELTA_BALLOON_INFLATE", Some sl_int); ("DELTA_BALLOON_MIGRATE", Some sl_int);
   ("DELTA_COMPACT_DAEMON_FREE_SCANNED", Some sl_int);
   ("DELTA_COMPACT_DAEMON_MIGRATE_SCANNED", Some sl_int);
   ("DELTA_COMPACT_DAEMON_WAKE", Some sl_int); ("DELTA_COMPACT_FAIL", Some sl_int);
   ("DELTA_COMPACT_FREE_SCANNED", Some sl_int); ("DELTA_COMPACT_ISOLATED", Some sl_int);
   ("DELTA_COMPACT_MIGRATE_SCANNED", Some sl_int); ("DELTA_COMPACT_STALL", Some sl_int);
   ("DELTA_COMPACT_SUCCESS", Some sl_int); ("DELTA_DROP_PAGECACHE", Some sl_int);
   ("DELTA_DROP_SLAB", Some sl_int); ("DELTA_HTLB_BUDDY_ALLOC_FAIL", Some sl_int);
   ("DELTA_HTLB_BUDDY_ALLOC_SUCCESS", Some sl_int);
   ("DELTA_KSWAPD_HIGH_WMARK_HIT_QUICKLY", Some sl_int);
   ("DELTA_KSWAPD_INODESTEAL", Some sl_int); ("DELTA_KSWAPD_LOW_WMARK_HIT_QUICKLY", Some sl_int);
   ("DELTA_NR_ACTIVE_ANON", Some sl_int); ("DELTA_NR_ACTIVE_FILE", Some sl_int);
   ("DELTA_NR_ANON_PAGES", Some sl_int); ("DELTA_NR_ANON_TRANSPARENT_HUGEPAGES", Some sl_int);
   ("DELTA_NR_BOUNCE", Some sl_int); ("DELTA_NR_DIRTIED", Some sl_int);
   ("DELTA_NR_DIRTY", Some sl_int); ("DELTA_NR_DIRTY_BACKGROUND_THRESHOLD", Some sl_int);
   ("DELTA_NR_DIRTY_THRESHOLD", Some sl_int); ("DELTA_NR_FILE_HUGEPAGES", Some sl_int);
   ("DELTA_NR_FILE_PAGES", Some sl_int); ("DELTA_NR_FILE_PMDMAPPED", Some sl_int);
   ("DELTA_NR_FOLL_PIN_ACQUIRED", Some sl_int); ("DELTA_NR_FOLL_PIN_RELEASED", Some sl_int);
   ("DELTA_NR_FREE_CMA", Some sl_int); ("DELTA_NR_FREE_PAGES", Some sl_int);
   ("DELTA_NR_INACTIVE_ANON", Some sl_int); ("DELTA_NR_INACTIVE_FILE", Some sl_int);
   ("DELTA_NR_ISOLATED_ANON", Some sl_int); ("DELTA_NR_ISOLATED_FILE", Some sl_int);
   ("DELTA_NR_KERNEL_MISC_RECLAIMABLE", Some sl_int); ("DELTA_NR_KERNEL_STACK", Some sl_int);
   ("DELTA_NR_MAPPED", Some sl_int); ("DELTA_NR_MLOCK", Some sl_int);
   ("DELTA_NR_PAGE_TABLE_PAGES", Some sl_int); ("DELTA_NR_SHADOW_CALL_STACK", Some sl_int);
   ("DELTA_NR_SHMEM", Some sl_int); ("DELTA_NR_SHMEM_HUGEPAGES", Some sl_int);
   ("DELTA_NR_SHMEM_PMDMAPPED", Some sl_int); ("DELTA_NR_SLAB_RECLAIMABLE", Some sl_int);
   ("DELTA_NR_SLAB_UNRECLAIMABLE", Some sl_int); ("DELTA_NR_UNEVICTABLE", Some sl_int);
   ("DELTA_NR_UNSTABLE", Some sl_int); ("DELTA_NR_VMSCAN_IMMEDIATE_RECLAIM", Some sl_int);
   ("DELTA_NR_VMSCAN_WRITE", Some sl_int); ("DELTA_NR_WRITEBACK", Some sl_int);
   ("DELTA_NR_WRITEBACK_TEMP", Some sl_int); ("DELTA_NR_WRITTEN", Some sl_int);
   ("DELTA_NR_ZONE_ACTIVE_ANON", Some sl_int); ("DELTA_NR_ZONE_ACTIVE_FILE", Some sl_int);
   ("DELTA_NR_ZONE_INACTIVE_ANON", Some sl_int); ("DELTA_NR_ZONE_INACTIVE_FILE", Some sl_int);
   ("DELTA_NR_ZONE_UNEVICTABLE", Some sl_int); ("DELTA_NR_ZONE_WRITE_PENDING", Some sl_int);
   ("DELTA_NR_ZSPAGES", Some sl_int); ("DELTA_NUMA_FOREIGN", Some sl_int);
   ("DELTA_NUMA_HINT_FAULTS", Some sl_int); ("DELTA_NUMA_HINT_FAULTS_LOCAL", Some sl_int);
   ("DELTA_NUMA_HIT", Some sl_int); ("DELTA_NUMA_HUGE_PTE_UPDATES", Some sl_int);
   ("DELTA_NUMA_INTERLEAVE", Some sl_int); ("DELTA_NUMA_LOCAL", Some sl_int);
   ("DELTA_NUMA_MISS", Some sl_int); ("DELTA_NUMA_OTHER", Some sl_int);
   ("DELTA_NUMA_PAGES_MIGRATED", Some sl_int); ("DELTA_NUMA_PTE_UPDATES", Some sl_int);
   ("DELTA_OOM_KILL", Some sl_int); ("DELTA_PAGEOUTRUN", Some sl_int);
   ("DELTA_PGACTIVATE", Some sl_int); ("DELTA_PGALLOC_DMA", Some sl_int);
   ("DELTA_PGALLOC_DMA32", Some sl_int); ("DELTA_PGALLOC_HIGH", Some sl_int);
   ("DELTA_PGALLOC_MOVABLE", Some sl_int); ("DELTA_PGALLOC_NORMAL", Some sl_int);
   ("DELTA_PGDEACTIVATE", Some sl_int); ("DELTA_PGFAULT", Some sl_int);
   ("DELTA_PGFREE", Some sl_int); ("DELTA_PGINODESTEAL", Some sl_int);
   ("DELTA_PGLAZYFREE", Some sl_int); ("DELTA_PGLAZYFREED", Some sl_int);
   ("DELTA_PGMAJFAULT", Some sl_int); ("DELTA_PGMIGRATE_FAIL", Some sl_int);
   ("DELTA_PGMIGRATE_SUCCESS", Some sl_int); ("DELTA_PGPGIN", Some sl_int);
   ("DELTA_PGPGOUT", Some sl_int); ("DELTA_PGREFILL", Some sl_int);
   ("DELTA_PGROTATED", Some sl_int); ("DELTA_PGSCAN_ANON", Some sl_int);
   ("DELTA_PGSCAN_DIRECT", Some sl_int); ("DELTA_PGSCAN_DIRECT_THROTTLE", Some sl_int);
   ("DELTA_PGSCAN_FILE", Some sl_int); ("DELTA_PGSCAN_KSWAPD", Some sl_int);
   ("DELTA_PGSKIP_DMA", Some sl_int); ("DELTA_PGSKIP_DMA32", Some sl_int);
   ("DELTA_PGSKIP_HIGH", Some sl_int); ("DELTA_PGSKIP_MOVABLE", Some sl_int);
   ("DELTA_PGSKIP_NORMAL", Some sl_int); ("DELTA_PGSTEAL_ANON", Some sl_int);
   ("DELTA_PGSTEAL_DIRECT", Some sl_int); ("DELTA_PGSTEAL_FILE", Some sl_int);
   ("DELTA_PGSTEAL_KSWAPD", Some sl_int); ("DELTA_PSWPIN", Some sl_int);
   ("DELTA_PSWPOUT", Some sl_int); ("DELTA_SLABS_SCANNED", Some sl_int);
   ("DELTA_SWAP_RA", Some sl_int); ("DELTA_SWAP_RA_HIT", Some sl_int);
   ("DELTA_THP_COLLAPSE_ALLOC", Some sl_int); ("DELTA_THP_COLLAPSE_ALLOC_FAILED", Some sl_int);
   ("DELTA_THP_DEFERRED_SPLIT_PAGE", Some sl_int); ("DELTA_THP_FAULT_ALLOC", Some sl_int);
   ("DELTA_THP_FAULT_FALLBACK", Some sl_int); ("DELTA_THP_FAULT_FALLBACK_CHARGE", Some sl_int);
   ("DELTA_THP_FILE_ALLOC", Some sl_int); ("DELTA_THP_FILE_FALLBACK", Some sl_int);
   ("DELTA_THP_FILE_FALLBACK_CHARGE", Some sl_int); ("DELTA_THP_FILE_MAPPED", Some sl_int);
   ("DELTA_THP_SPLIT_PAGE", Some sl_int); ("DELTA_THP_SPLIT_PAGE_FAILED", Some sl_int);
   ("DELTA_THP_SPLIT_PMD", Some sl_int); ("DELTA_THP_SPLIT_PUD", Some sl_int);
   ("DELTA_THP_SWPOUT", Some sl_int); ("DELTA_THP_SWPOUT_FALLBACK", Some sl_int);
   ("DELTA_THP_ZERO_PAGE_ALLOC", Some sl_int); ("DELTA_THP_ZERO_PAGE_ALLOC_FAILED", Some sl_int);
   ("DELTA_UNEVICTABLE_PGS_CLEARED", Some sl_int); ("DELTA_UNEVICTABLE_PGS_CULLED", Some sl_int);
   ("DELTA_UNEVICTABLE_PGS_MLOCKED", Some sl_int);
   ("DELTA_UNEVICTABLE_PGS_MUNLOCKED", Some sl_int);
   ("DELTA_UNEVICTABLE_PGS_RESCUED", Some sl_int);
   ("DELTA_UNEVICTABLE_PGS_SCANNED", Some sl_int);
   ("DELTA_UNEVICTABLE_PGS_STRANDED", Some sl_int); ("DELTA_WORKINGSET_ACTIVATE", Some sl_int);
   ("DELTA_WORKINGSET_NODERECLAIM", Some sl_int); ("DELTA_WORKINGSET_NODES", Some sl_int);
   ("DELTA_WORKINGSET_REFAULT", Some sl_int); ("DELTA_WORKINGSET_RESTORE", Some sl_int);
   ("DELTA_ZONE_RECLAIM_FAILED", Some sl_int)]%string.

(** [enum vmstat_item] of the header, in order, without the prefix; the values and
    the changes. *)
Definition regular_items : list string :=
  ["noop"; "extra"; "ALLOCSTALL_DMA"; "ALLOCSTALL_DMA32"; "ALLOCSTALL_HIGH";
   "ALLOCSTALL_MOVABLE"; "ALLOCSTALL_NORMAL"; "BALLOON_DEFLATE"; "BALLOON_INFLATE";
   "BALLOON_MIGRATE"; "COMPACT_DAEMON_FREE_SCANNED"; "COMPACT_DAEMON_MIGRATE_SCANNED";
   "COMPACT_DAEMON_WAKE"; "COMPACT_FAIL"; "COMPACT_FREE_SCANNED"; "COMPACT_ISOLATED";
   "COMPACT_MIGRATE_SCANNED"; "COMPACT_STALL"; "COMPACT_SUCCESS"; "DROP_PAGECACHE"; "DROP_SLAB";
   "HTLB_BUDDY_ALLOC_FAIL"; "HTLB_BUDDY_ALLOC_SUCCESS"; "KSWAPD_HIGH_WMARK_HIT_QUICKLY";
   "KSWAPD_INODESTEAL"; "KSWAPD_LOW_WMARK_HIT_QUICKLY"; "NR_ACTIVE_ANON"; "NR_ACTIVE_FILE";
   "NR_ANON_PAGES"; "NR_ANON_TRANSPARENT_HUGEPAGES"; "NR_BOUNCE"; "NR_DIRTIED"; "NR_DIRTY";
   "NR_DIRTY_BACKGROUND_THRESHOLD"; "NR_DIRTY_THRESHOLD"; "NR_FILE_HUGEPAGES"; "NR_FILE_PAGES";
   "NR_FILE_PMDMAPPED"; "NR_FOLL_PIN_ACQUIRED"; "NR_FOLL_PIN_RELEASED"; "NR_FREE_CMA";
   "NR_FREE_PAGES"; "NR_INACTIVE_ANON"; "NR_INACTIVE_FILE"; "NR_ISOLATED_ANON";
   "NR_ISOLATED_FILE"; "NR_KERNEL_MISC_RECLAIMABLE"; "NR_KERNEL_STACK"; "NR_MAPPED"; "NR_MLOCK";
   "NR_PAGE_TABLE_PAGES"; "NR_SHADOW_CALL_STACK"; "NR_SHMEM"; "NR_SHMEM_HUGEPAGES";
   "NR_SHMEM_PMDMAPPED"; "NR_SLAB_RECLAIMABLE"; "NR_SLAB_UNRECLAIMABLE"; "NR_UNEVICTABLE";
   "NR_UNSTABLE"; "NR_VMSCAN_IMMEDIATE_RECLAIM"; "NR_VMSCAN_WRITE"; "NR_WRITEBACK";
   "NR_WRITEBACK_TEMP"; "NR_WRITTEN"; "NR_ZONE_ACTIVE_ANON"; "NR_ZONE_ACTIVE_FILE";
   "NR_ZONE_INACTIVE_ANON"; "NR_ZONE_INACTIVE_FILE"; "NR_ZONE_UNEVICTABLE";
   "NR_ZONE_WRITE_PENDING"; "NR_ZSPAGES"; "NUMA_FOREIGN"; "NUMA_HINT_FAULTS";
   "NUMA_HINT_FAULTS_LOCAL"; "NUMA_HIT"; "NUMA_HUGE_PTE_UPDATES"; "NUMA_INTERLEAVE";
   "NUMA_LOCAL"; "NUMA_MISS"; "NUMA_OTHER"; "NUMA_PAGES_MIGRATED"; "NUMA_PTE_UPDATES";
   "OOM_KILL"; "PAGEOUTRUN"; "PGACTIVATE"; "PGALLOC_DMA"; "PGALLOC_DMA32"; "PGALLOC_HIGH";
   "PGALLOC_MOVABLE"; "PGALLOC_NORMAL"; "PGDEACTIVATE"; "PGFAULT"; "PGFREE"; "PGINODESTEAL";
   "PGLAZYFREE"; "PGLAZYFREED"; "PGMAJFAULT"; "PGMIGRATE_FAIL"; "PGMIGRATE_SUCCESS"; "PGPGIN";
   "PGPGOUT"; "PGREFILL"; "PGROTATED"; "PGSCAN_ANON"; "PGSCAN_DIRECT"; "PGSCAN_DIRECT_THROTTLE";
   "PGSCAN_FILE"; "PGSCAN_KSWAPD"; "PGSKIP_DMA"; "PGSKIP_DMA32"; "PGSKIP_HIGH"; "PGSKIP_MOVABLE";
   "PGSKIP_NORMAL"; "PGSTEAL_ANON"; "PGSTEAL_DIRECT"; "PGSTEAL_FILE"; "PGSTEAL_KSWAPD"; "PSWPIN";
   "PSWPOUT"; "SLABS_SCANNED"; "SWAP_RA"; "SWAP_RA_HIT"; "THP_COLLAPSE_ALLOC";
   "THP_COLLAPSE_ALLOC_FAILED"; "THP_DEFERRED_SPLIT_PAGE"; "THP_FAULT_ALLOC";
   "THP_FAULT_FALLBACK"; "THP_FAULT_FALLBACK_CHARGE"; "THP_FILE_ALLOC"; "THP_FILE_FALLBACK";
   "THP_FILE_FALLBACK_CHARGE"; "THP_FILE_MAPPED"; "THP_SPLIT_PAGE"; "THP_SPLIT_PAGE_FAILED";
   "THP_SPLIT_PMD"; "THP_SPLIT_PUD"; "THP_SWPOUT"; "THP_SWPOUT_FALLBACK"; "THP_ZERO_PAGE_ALLOC";
   "THP_ZERO_PAGE_ALLOC_FAILED"; "UNEVICTABLE_PGS_CLEARED"; "UNEVICTABLE_PGS_CULLED";
   "UNEVICTABLE_PGS_MLOCKED"; "UNEVICTABLE_PGS_MUNLOCKED"; "UNEVICTABLE_PGS_RESCUED";
   "UNEVICTABLE_PGS_SCANNED"; "UNEVICTABLE_PGS_STRANDED"; "WORKINGSET_ACTIVATE";
   "WORKINGSET_NODERECLAIM"; "WORKINGSET_NODES"; "WORKINGSET_REFAULT"; "WORKINGSET_RESTORE";
   "ZONE_RECLAIM_FAILED"].

Definition delta_items : list string :=
  ["DELTA_ALLOCSTALL_DMA"; "DELTA_ALLOCSTALL_DMA32";
   "DELTA_ALLOCSTALL_HIGH"; "DELTA_ALLOCSTALL_MOVABLE"; "DELTA_ALLOCSTALL_NORMAL";
   "DELTA_BALLOON_DEFLATE"; "DELTA_BALLOON_INFLATE"; "DELTA_BALLOON_MIGRATE";
   "DELTA_COMPACT_DAEMON_FREE_SCANNED"; "DELTA_COMPACT_DAEMON_MIGRATE_SCANNED";
   "DELTA_COMPACT_DAEMON_WAKE"; "DELTA_COMPACT_FAIL"; "DELTA_COMPACT_FREE_SCANNED";
   "DELTA_COMPACT_ISOLATED"; "DELTA_COMPACT_MIGRATE_SCANNED"; "DELTA_COMPACT_STALL";
   "DELTA_COMPACT_SUCCESS"; "DELTA_DROP_PAGECACHE"; "DELTA_DROP_SLAB";
   "DELTA_HTLB_BUDDY_ALLOC_FAIL"; "DELTA_HTLB_BUDDY_ALLOC_SUCCESS";
   "DELTA_KSWAPD_HIGH_WMARK_HIT_QUICKLY"; "DELTA_KSWAPD_INODESTEAL";
   "DELTA_KSWAPD_LOW_WMARK_HIT_QUICKLY"; "DELTA_NR_ACTIVE_ANON"; "DELTA_NR_ACTIVE_FILE";
   "DELTA_NR_ANON_PAGES"; "DELTA_NR_ANON_TRANSPARENT_HUGEPAGES"; "DELTA_NR_BOUNCE";
   "DELTA_NR_DIRTIED"; "DELTA_NR_DIRTY"; "DELTA_NR_DIRTY_BACKGROUND_THRESHOLD";
   "DELTA_NR_DIRTY_THRESHOLD"; "DELTA_NR_FILE_HUGEPAGES"; "DELTA_NR_FILE_PAGES";
   "DELTA_NR_FILE_PMDMAPPED"; "DELTA_NR_FOLL_PIN_ACQUIRED"; "DELTA_NR_FOLL_PIN_RELEASED";
   "DELTA_NR_FREE_CMA"; "DELTA_NR_FREE_PAGES"; "DELTA_NR_INACTIVE_ANON";
   "DELTA_NR_INACTIVE_FILE"; "DELTA_NR_ISOLATED_ANON"; "DELTA_NR_ISOLATED_FILE";
   "DELTA_NR_KERNEL_MISC_RECLAIMABLE"; "DELTA_NR_KERNEL_STACK"; "DELTA_NR_MAPPED";
   "DELTA_NR_MLOCK"; "DELTA_NR_PAGE_TABLE_PAGES"; "DELTA_NR_SHADOW_CALL_STACK"; "DELTA_NR_SHMEM";
   "DELTA_NR_SHMEM_HUGEPAGES"; "DELTA_NR_SHMEM_PMDMAPPED"; "DELTA_NR_SLAB_RECLAIMABLE";
   "DELTA_NR_SLAB_UNRECLAIMABLE"; "DELTA_NR_UNEVICTABLE"; "DELTA_NR_UNSTABLE";
   "DELTA_NR_VMSCAN_IMMEDIATE_RECLAIM"; "DELTA_NR_VMSCAN_WRITE"; "DELTA_NR_WRITEBACK";
   "DELTA_NR_WRITEBACK_TEMP"; "DELTA_NR_WRITTEN"; "DELTA_NR_ZONE_ACTIVE_ANON";
   "DELTA_NR_ZONE_ACTIVE_FILE"; "DELTA_NR_ZONE_INACTIVE_ANON"; "DELTA_NR_ZONE_INACTIVE_FILE";
   "DELTA_NR_ZONE_UNEVICTABLE"; "DELTA_NR_ZONE_WRITE_PENDING"; "DELTA_NR_ZSPAGES";
   "DELTA_NUMA_FOREIGN"; "DELTA_NUMA_HINT_FAULTS"; "DELTA_NUMA_HINT_FAULTS_LOCAL";
   "DELTA_NUMA_HIT"; "DELTA_NUMA_HUGE_PTE_UPDATES"; "DELTA_NUMA_INTERLEAVE"; "DELTA_NUMA_LOCAL";
   "DELTA_NUMA_MISS"; "DELTA_NUMA_OTHER"; "DELTA_NUMA_PAGES_MIGRATED"; "DELTA_NUMA_PTE_UPDATES";
   "DELTA_OOM_KILL"; "DELTA_PAGEOUTRUN"; "DELTA_PGACTIVATE"; "DELTA_PGALLOC_DMA";
   "DELTA_PGALLOC_DMA32"; "DELTA_PGALLOC_HIGH"; "DELTA_PGALLOC_MOVABLE"; "DELTA_PGALLOC_NORMAL";
   "DELTA_PGDEACTIVATE"; "DELTA_PGFAULT"; "DELTA_PGFREE"; "DELTA_PGINODESTEAL";
   "DELTA_PGLAZYFREE"; "DELTA_PGLAZYFREED"; "DELTA_PGMAJFAULT"; "DELTA_PGMIGRATE_FAIL";
   "DELTA_PGMIGRATE_SUCCESS"; "DELTA_PGPGIN"; "DELTA_PGPGOUT"; "DELTA_PGREFILL";
   "DELTA_PGROTATED"; "DELTA_PGSCAN_ANON"; "DELTA_PGSCAN_DIRECT"; "DELTA_PGSCAN_DIRECT_THROTTLE";
   "DELTA_PGSCAN_FILE"; "DELTA_PGSCAN_KSWAPD"; "DELTA_PGSKIP_DMA"; "DELTA_PGSKIP_DMA32";
   "DELTA_PGSKIP_HIGH"; "DELTA_PGSKIP_MOVABLE"; "DELTA_PGSKIP_NORMAL"; "DELTA_PGSTEAL_ANON";
   "DELTA_PGSTEAL_DIRECT"; "DELTA_PGSTEAL_FILE"; "DELTA_PGSTEAL_KSWAPD"; "DELTA_PSWPIN";
   "DELTA_PSWPOUT"; "DELTA_SLABS_SCANNED"; "DELTA_SWAP_RA"; "DELTA_SWAP_RA_HIT";
   "DELTA_THP_COLLAPSE_ALLOC"; "DELTA_THP_COLLAPSE_ALLOC_FAILED";
   "DELTA_THP_DEFERRED_SPLIT_PAGE"; "DELTA_THP_FAULT_ALLOC"; "DELTA_THP_FAULT_FALLBACK";
   "DELTA_THP_FAULT_FALLBACK_CHARGE"; "DELTA_THP_FILE_ALLOC"; "DELTA_THP_FILE_FALLBACK";
   "DELTA_THP_FILE_FALLBACK_CHARGE"; "DELTA_THP_FILE_MAPPED"; "DELTA_THP_SPLIT_PAGE";
   "DELTA_THP_SPLIT_PAGE_FAILED"; "DELTA_THP_SPLIT_PMD"; "DELTA_THP_SPLIT_PUD";
   "DELTA_THP_SWPOUT"; "DELTA_THP_SWPOUT_FALLBACK"; "DELTA_THP_ZERO_PAGE_ALLOC";
   "DELTA_THP_ZERO_PAGE_ALLOC_FAILED"; "DELTA_UNEVICTABLE_PGS_CLEARED";
   "DELTA_UNEVICTABLE_PGS_CULLED"; "DELTA_UNEVICTABLE_PGS_MLOCKED";
   "DELTA_UNEVICTABLE_PGS_MUNLOCKED"; "DELTA_UNEVICTABLE_PGS_RESCUED";
   "DELTA_UNEVICTABLE_PGS_SCANNED"; "DELTA_UNEVICTABLE_PGS_STRANDED";
   "DELTA_WORKINGSET_ACTIVATE"; "DELTA_WORKINGSET_NODERECLAIM"; "DELTA_WORKINGSET_NODES";
   "DELTA_WORKINGSET_REFAULT"; "DELTA_WORKINGSET_RESTORE"; "DELTA_ZONE_RECLAIM_FAILED"]%string.

(** The keys entered by [vmstat_make_hash_failed] and where they point. *)
Definition hash_keys : list (bytes * vmfield) :=
  [(bs "allocstall_dma", allocstall_dma); (bs "allocstall_dma32", allocstall_dma32);
   (bs "allocstall_high", allocstall_high); (bs "allocstall_movable", allocstall_movable);
   (bs "allocstall_normal", allocstall_normal); (bs "balloon_deflate", balloon_deflate);
   (bs "balloon_inflate", balloon_inflate); (bs "balloon_migrate", balloon_migrate);
   (bs "compact_daemon_free_scanned", compact_daemon_free_scanned);
   (bs "compact_daemon_migrate_scanned", compact_daemon_migrate_scanned);
   (bs "compact_daemon_wake", compact_daemon_wake); (bs "compact_fail", compact_fail);
   (bs "compact_free_scanned", compact_free_scanned); (bs "compact_isolated", compact_isolated);
   (bs "compact_migrate_scanned", compact_migrate_scanned); (bs "compact_stall", compact_stall);
   (bs "compact_success", compact_success); (bs "drop_pagecache", drop_pagecache);
   (bs "drop_slab", drop_slab); (bs "htlb_buddy_alloc_fail", htlb_buddy_alloc_fail);
   (bs "htlb_buddy_alloc_success", htlb_buddy_alloc_success);
   (bs "kswapd_high_wmark_hit_quickly", kswapd_high_wmark_hit_quickly);
   (bs "kswapd_inodesteal", kswapd_inodesteal);
   (bs "kswapd_low_wmark_hit_quickly", kswapd_low_wmark_hit_quickly);
   (bs "nr_active_anon", nr_active_anon); (bs "nr_active_file", nr_active_file);
   (bs "nr_anon_pages", nr_anon_pages);
   (bs "nr_anon_transparent_hugepages", nr_anon_transparent_hugepages);
   (bs "nr_bounce", nr_bounce); (bs "nr_dirtied", nr_dirtied); (bs "nr_dirty", nr_dirty);
   (bs "nr_dirty_background_threshold", nr_dirty_background_threshold);
   (bs "nr_dirty_threshold", nr_dirty_threshold); (bs "nr_file_hugepages", nr_file_hugepages);
   (bs "nr_file_pages", nr_file_pages); (bs "nr_file_pmdmapped", nr_file_pmdmapped);
   (bs "nr_foll_pin_acquired", nr_foll_pin_acquired);
   (bs "nr_foll_pin_released", nr_foll_pin_released); (bs "nr_free_cma", nr_free_cma);
   (bs "nr_free_pages", nr_free_pages); (bs "nr_inactive_anon", nr_inactive_anon);
   (bs "nr_inactive_file", nr_inactive_file); (bs "nr_isolated_anon", nr_isolated_anon);
   (bs "nr_isolated_file", nr_isolated_file);
   (bs "nr_kernel_misc_reclaimable", nr_kernel_misc_reclaimable);
   (bs "nr_kernel_stack", nr_kernel_stack); (bs "nr_mapped", nr_mapped);
   (bs "nr_mlock", nr_mlock); (bs "nr_page_table_pages", nr_page_table_pages);
   (bs "nr_shadow_call_stack", nr_shadow_call_stack); (bs "nr_shmem", nr_shmem);
   (bs "nr_shmem_hugepages", nr_shmem_hugepages); (bs "nr_shmem_pmdmapped", nr_shmem_pmdmapped);
   (bs "nr_slab_reclaimable", nr_slab_reclaimable);
   (bs "nr_slab_unreclaimable", nr_slab_unreclaimable); (bs "nr_unevictable", nr_unevictable);
   (bs "nr_unstable", nr_unstable);
   (bs "nr_vmscan_immediate_reclaim", nr_vmscan_immediate_reclaim);
   (bs "nr_vmscan_write", nr_vmscan_write); (bs "nr_writeback", nr_writeback);
   (bs "nr_writeback_temp", nr_writeback_temp); (bs "nr_written", nr_written);
   (bs "nr_zone_active_anon", nr_zone_active_anon);
   (bs "nr_zone_active_file", nr_zone_active_file);
   (bs "nr_zone_inactive_anon", nr_zone_inactive_anon);
   (bs "nr_zone_inactive_file", nr_zone_inactive_file);
   (bs "nr_zone_unevictable", nr_zone_unevictable);
   (bs "nr_zone_write_pending", nr_zone_write_pending); (bs "nr_zspages", nr_zspages);
   (bs "numa_foreign", numa_foreign); (bs "numa_hint_faults", numa_hint_faults);
   (bs "numa_hint_faults_local", numa_hint_faults_local); (bs "numa_hit", numa_hit);
   (bs "numa_huge_pte_updates", numa_huge_pte_updates); (bs "numa_interleave", numa_interleave);
   (bs "numa_local", numa_local); (bs "numa_miss", numa_miss); (bs "numa_other", numa_other);
   (bs "numa_pages_migrated", numa_pages_migrated); (bs "numa_pte_updates", numa_pte_updates);
   (bs "oom_kill", oom_kill); (bs "pageoutrun", pageoutrun); (bs "pgactivate", pgactivate);
   (bs "pgalloc_dma", pgalloc_dma); (bs "pgalloc_dma32", pgalloc_dma32);
   (bs "pgalloc_high", pgalloc_high); (bs "pgalloc_movable", pgalloc_movable);
   (bs "pgalloc_normal", pgalloc_normal); (bs "pgdeactivate", pgdeactivate);
   (bs "pgfault", pgfault); (bs "pgfree", pgfree); (bs "pginodesteal", pginodesteal);
   (bs "pglazyfree", pglazyfree); (bs "pglazyfreed", pglazyfreed); (bs "pgmajfault", pgmajfault);
   (bs "pgmigrate_fail", pgmigrate_fail); (bs "pgmigrate_success", pgmigrate_success);
   (bs "pgpgin", pgpgin); (bs "pgpgout", pgpgout); (bs "pgrefill", pgrefill);
   (bs "pgrotated", pgrotated); (bs "pgscan_anon", pgscan_anon);
   (bs "pgscan_direct", pgscan_direct); (bs "pgscan_direct_throttle", pgscan_direct_throttle);
   (bs "pgscan_file", pgscan_file); (bs "pgscan_kswapd", pgscan_kswapd);
   (bs "pgskip_dma", pgskip_dma); (bs "pgskip_dma32", pgskip_dma32);
   (bs "pgskip_high", pgskip_high); (bs "pgskip_movable", pgskip_movable);
   (bs "pgskip_normal", pgskip_normal); (bs "pgsteal_anon", pgsteal_anon);
   (bs "pgsteal_direct", pgsteal_direct); (bs "pgsteal_file", pgsteal_file);
   (bs "pgsteal_kswapd", pgsteal_kswapd); (bs "pswpin", pswpin); (bs "pswpout", pswpout);
   (bs "slabs_scanned", slabs_scanned); (bs "swap_ra", swap_ra); (bs "swap_ra_hit", swap_ra_hit);
   (bs "thp_collapse_alloc", thp_collapse_alloc);
   (bs "thp_collapse_alloc_failed", thp_collapse_alloc_failed);
   (bs "thp_deferred_split_page", thp_deferred_split_page);
   (bs "thp_fault_alloc", thp_fault_alloc); (bs "thp_fault_fallback", thp_fault_fallback);
   (bs "thp_fault_fallback_charge", thp_fault_fallback_charge);
   (bs "thp_file_alloc", thp_file_alloc); (bs "thp_file_fallback", thp_file_fallback);
   (bs "thp_file_fallback_charge", thp_file_fallback_charge);
   (bs "thp_file_mapped", thp_file_mapped); (bs "thp_split_page", thp_split_page);
   (bs "thp_split_page_failed", thp_split_page_failed); (bs "thp_split_pmd", thp_split_pmd);
   (bs "thp_split_pud", thp_split_pud); (bs "thp_swpout", thp_swpout);
   (bs "thp_swpout_fallback", thp_swpout_fallback);
   (bs "thp_zero_page_alloc", thp_zero_page_alloc);
   (bs "thp_zero_page_alloc_failed", thp_zero_page_alloc_failed);
   (bs "unevictable_pgs_cleared", unevictable_pgs_cleared);
   (bs "unevictable_pgs_culled", unevictable_pgs_culled);
   (bs "unevictable_pgs_mlocked", unevictable_pgs_mlocked);
   (bs "unevictable_pgs_munlocked", unevictable_pgs_munlocked);
   (bs "unevictable_pgs_rescued", unevictable_pgs_rescued);
   (bs "unevictable_pgs_scanned", unevictable_pgs_scanned);
   (bs "unevictable_pgs_stranded", unevictable_pgs_stranded);
   (bs "workingset_activate", workingset_activate);
   (bs "workingset_nodereclaim", workingset_nodereclaim);
   (bs "workingset_nodes", workingset_nodes); (bs "workingset_refault", workingset_refault);
   (bs "workingset_restore", workingset_restore); (bs "zone_reclaim_failed", zone_reclaim_failed)].

(** The whole tables. *)
Definition vmstat_item : list string := regular_items ++ delta_items.
Definition Item_rows : list (string * option utype) := regular_rows ++ delta_rows.
Definition setters : list (string * vsetter) := regular_setters ++ delta_setters.

Lemma vmfield_code_inv f : vmfields !! vmfield_code f = Some f.
Proof. by destruct f. Qed.

#[export] Instance vmfield_eq_dec : EqDecision vmfield.
Proof.
  intros f g. destruct (decide (vmfield_code f = vmfield_code g)) as [E|E]; [left|right; congruence].
  pose proof (vmfield_code_inv f) as H. rewrite E, vmfield_code_inv in H. congruence.
Defined.

(** ** Setters and table *)

Definition vmstat_data : Type := data vmfield.
Definition vmstat_hist : Type := hist_of vmfield.

Definition run_setter (s : vsetter) (u : uval) (h : vmstat_hist) : uval :=
  match s with
  | VNoop => u
  | VExtra => set_as ul_int u 0
  | REG_set f => set_as ul_int u (h_new h f)
  | HST_set f => set_as sl_int u (u64 (h_new h f - h_old h f))
  end.

Definition setter_of (name : string) : vsetter := default VNoop (assoc name setters).

(** The [setsfunc] column. *)
Definition Item_table : list (uval -> vmstat_hist -> uval) :=
  map (fun row => run_setter (setter_of row.1)) Item_rows.
Arguments Item_table : simpl never.

(** ** The functions of proc_vmstat.c *)

#[export] Instance vmstat_file : KeyFile vmfield := {
  kf_all := vmfields;
  kf_file := bs "/proc/vmstat";
  kf_sep := 32;
  kf_keys := hash_keys;
  kf_derive := fun d => d;
  kf_table := Item_table;
  kf_types := map snd Item_rows
}.

Definition vmstat_info : Type := kinfo vmfield.
Definition VMSTAT_logical_end : Z := logical_end Item_table.

Definition vmstat_assign_results := assign_results Item_table.
Definition vmstat_items_check_failed := items_check_failed Item_table.
Definition vmstat_itemize_stack := itemize_stack.
Definition vmstat_extents_free_all := extents_free_all.
Definition vmstat_stacks_alloc := stacks_alloc (G := unit).

Definition parse_vmstat : bytes -> vmstat_data -> vmstat_data := parse_file.
Definition vmstat_make_hash_failed : M unit bool := make_hash_failed (F := vmfield).
Definition vmstat_read_failed : nat -> vmstat_info -> M unit (Z * vmstat_info) := read_failed.
Definition procps_vmstat_new : nat -> option vmstat_info -> M unit (Z * option vmstat_info) := procps_new.
Definition procps_vmstat_ref : option vmstat_info -> Z * option vmstat_info := procps_ref.
Definition procps_vmstat_unref : option vmstat_info -> M unit (Z * option vmstat_info) := procps_unref.
Definition procps_vmstat_get : nat -> option vmstat_info -> Z -> M unit (option result * option vmstat_info) :=
  procps_get.
Definition procps_vmstat_select : nat -> option vmstat_info -> Z -> list Z -> Z ->
    M unit (option stack * option vmstat_info) := procps_select.
Definition xtra_vmstat_get : nat -> option vmstat_info -> Z -> option utype ->
    M unit (option result * option vmstat_info * bool) := xtra_info_get.
Definition xtra_vmstat_val := xtra_info_val (F := vmfield).

(** ** The tables *)

#[export] Instance vsetter_eq_dec : EqDecision vsetter.
Proof. solve_decision. Defined.

(** The items of the [i]-th field: its value and its change. *)
Definition value_item (i : nat) : Z := 2 + Z.of_nat i.
Definition delta_item (i : nat) : Z := 153 + Z.of_nat i.

Definition field_row_ok (i : nat) (f : vmfield) : bool :=
  match Item_rows !! (2 + i)%nat, Item_rows !! (153 + i)%nat with
  | Some (n, t), Some (n', t') =>
      bool_decide (t = Some ul_int /\ t' = Some sl_int) && (n' =? "DELTA_" ++ n)%string &&
      bool_decide (setter_of n = REG_set f /\ setter_of n' = HST_set f)
  | _, _ => false
  end.

Fixpoint rows_ok (i : nat) (fs : list vmfield) : bool :=
  match fs with [] => true | f :: fs => field_row_ok i f && rows_ok (S i) fs end.

Lemma all_rows_ok : rows_ok 0 vmfields = true.
Proof. vm_compute. reflexivity. Qed.

Lemma rows_ok_lookup i fs k f : rows_ok i fs = true -> fs !! k = Some f -> field_row_ok (i + k) f = true.
Proof.
  revert i k. induction fs as [|g fs IH]; intros i [|k] H Hk; try done; cbn [rows_ok lookup list_lookup] in *;
    apply andb_true_iff in H as [H1 H2].
  - simplify_eq. by rewrite Nat.add_0_r.
  - rewrite Nat.add_succ_r. by apply (IH (S i)).
Qed.

Lemma field_rows i f : vmfields !! i = Some f -> exists n,
  Item_rows !! (2 + i)%nat = Some (n, Some ul_int) /\ setter_of n = REG_set f /\
  Item_rows !! (153 + i)%nat = Some (("DELTA_" ++ n)%string, Some sl_int) /\
  setter_of ("DELTA_" ++ n) = HST_set f.
Proof.
  intros Hi. pose proof (rows_ok_lookup 0 vmfields i f all_rows_ok Hi) as H.
  unfold field_row_ok in H. rewrite Nat.add_0_l in H.
  destruct (Item_rows !! (2 + i)%nat) as [[n t]|]; [|done].
  destruct (Item_rows !! (153 + i)%nat) as [[n' t']|]; [|done].
  apply andb_true_iff in H as [H H3]. apply andb_true_iff in H as [H1 H2].
  apply bool_decide_eq_true in H1 as [-> ->], H3 as [H3 H4]. apply String.eqb_eq in H2. subst n'. eauto.
Qed.

(** The tables of proc_vmstat.c agree: the controlling table is in the order of
    the enumerators and ends with them, each field of the structure has one
    key, its own name, and two items, one for its value and one, named DELTA_,
    for its change, whose setters and types are those of the field. *)
Theorem vmstat_tables_consistent :
  map fst Item_rows = vmstat_item /\ map snd hash_keys = vmfields /\ NoDup (map fst hash_keys) /\
  length Item_rows = (2 + 2 * length vmfields)%nat /\
  forall i f, vmfields !! i = Some f -> exists n,
    Item_rows !! (2 + i)%nat = Some (n, Some ul_int) /\ setter_of n = REG_set f /\
    Item_rows !! (153 + i)%nat = Some (("DELTA_" ++ n)%string, Some sl_int) /\
    setter_of ("DELTA_" ++ n) = HST_set f.
Proof.
  split; [vm_compute; reflexivity|]. split; [vm_compute; reflexivity|].
  split; [apply (bool_decide_unpack _); vm_compute; exact I|]. split; [vm_compute; reflexivity|].
  apply field_rows.
Qed.

(** ** Values *)

Lemma value_setter i f u h : vmfields !! i = Some f ->
  exists g, Item_table !! Z.to_nat (value_item i) = Some g /\ get_ul_int (g u h) = u64 (h_new h f).
Proof.
  intros (n & Hr & Hs & _)%field_rows. eexists. unfold Item_table, value_item.
  rewrite list_lookup_fmap, Z2Nat.inj_add, Nat2Z.id by lia. change (Z.to_nat 2) with 2%nat. rewrite Hr.
  split; [done|]. cbn [fst]. rewrite Hs. done.
Qed.

Lemma i64_u64 x : i64 (u64 x) = i64 x.
Proof. unfold wrap_s, wrap_u. f_equal. by rewrite Zplus_mod_idemp_l. Qed.

Lemma delta_setter i f u h : vmfields !! i = Some f ->
  exists g, Item_table !! Z.to_nat (delta_item i) = Some g /\ get_sl_int (g u h) = i64 (h_new h f - h_old h f).
Proof.
  intros (n & _ & _ & Hr & Hs)%field_rows. eexists. unfold Item_table, delta_item.
  rewrite list_lookup_fmap, Z2Nat.inj_add, Nat2Z.id by lia. change (Z.to_nat 153) with 153%nat. rewrite Hr.
  split; [done|]. cbn [fst]. rewrite Hs. cbn [run_setter set_as set_ul_int get_sl_int].
  by rewrite !i64_u64.
Qed.

(** What a stack shows of the field [f]: its value and its change. *)
Definition shows_field (old : vmstat_data) (new : vmstat_data) (its : list Z) (s : stack) : Prop :=
  forall i f k r, vmfields !! i = Some f -> s !! k = Some r ->
    (its !! k = Some (value_item i) -> get_ul_int (r_result r) = u64 (new f)) /\
    (its !! k = Some (delta_item i) -> get_sl_int (r_result r) = i64 (new f - old f)).

Lemma selected_fields info its s : selected info its s ->
  shows_field (h_old (hist info)) (h_new (hist info)) its s.
Proof.
  intros [_ Hs] i f k r Hf Hr. split; intros Hi.
  - destruct (value_setter i f (U64 0) (hist info) Hf) as (g & Hg & _).
    destruct (Hs k _ g Hi Hg) as [u Hu]. rewrite Hr in Hu. injection Hu as ->. cbn [r_result].
    destruct (value_setter i f u (hist info) Hf) as (g' & Hg' & Hv). rewrite Hg in Hg'. by injection Hg' as <-.
  - destruct (delta_setter i f (U64 0) (hist info) Hf) as (g & Hg & _).
    destruct (Hs k _ g Hi Hg) as [u Hu]. rewrite Hr in Hu. injection Hu as ->. cbn [r_result].
    destruct (delta_setter i f u (hist info) Hf) as (g' & Hg' & Hv). rewrite Hg in Hg'. by injection Hg' as <-.
Qed.

(** Procps_vmstat_select: with memory available, a call with valid items never
    has undefined behaviour; if the file could be read and holds lines of keys
    and numbers, the stack returned has the items asked for in order, each
    value being the last number printed for its key (0 without one) and each
    change the signed difference to the previous read; otherwise it returns
    NULL.  The context stays sound. *)
Theorem procps_vmstat_select_ok o n fuel info addr items numitems w :
  Kernel o -> calm o n -> (n < fuel)%nat -> memory o -> info_inv info ->
  2 * VMSTAT_logical_end <= addr -> 1 <= numitems <= Z.of_nat (length items) ->
  Forall (valid_item Item_table) (take (Z.to_nat numitems) items) ->
  wp (procps_vmstat_select fuel (Some info) addr items numitems) o w (fun res w' =>
    exists info', res.2 = Some info' /\ info_inv info' /\ refcount info' = refcount info /\
    forall s, res.1 = Some s ->
      primed Item_table (take (Z.to_nat numitems) items) s /\
      exists buf, read_text (info_fd info') (w_tr w') buf /\
        forall ls, Forall line_ok ls -> buf = concat (map print_line ls) ->
          shows_field (h_new (hist info)) (foldl line_value zero ls) (take (Z.to_nat numitems) items) s).
Proof.
  intros HK Hc Hn Hm Hinv Ha Hnum Hv. eapply wp_mono; [by apply (select_ok o n)|].
  intros [[s|] r] w' (i & H1 & H2 & H3 & H4 & H5); exists i; cbn [fst snd] in *; (split; [exact H1|]);
    (split; [exact H2|]); (split; [exact H3|]); [|done].
  destruct H5 as [Hs (buf & Hb & Hh)]. intros s' [= <-]. split; [apply Hs|]. exists buf. split; [done|].
  intros ls Hls ->. apply selected_fields in Hs. rewrite H4, Hh in Hs. cbn [kf_derive vmstat_file] in Hs.
  by rewrite parse_file_lines in Hs by done.
Qed.

(** ** Witnesses *)

Definition demo_lines : list mline := [MLine (bs "pgfault") 0 77 []; MLine (bs "nr_dirty") 0 5 []].
Definition demo_text : bytes := concat (map print_line demo_lines).
Definition demo_os : os := fun t c =>
  match c with
  | COpen _ _ _ => rok 3
  | CRead _ n => if n <? Z.of_nat (length demo_text) then rdata 0 []
                 else rdata (Z.of_nat (length demo_text)) demo_text
  | CRecv _ _ => rdata 0 []
  | CMalloc _ => rok 1
  | _ => rok 0
  end.
Definition demo_world : world unit := World [] 0 tt.
Definition demo_info : vmstat_info := KInfo 1 (-1) (Hist zero zero) ext_empty (Result 0 (U64 0)) 0.

Lemma demo_kernel : Kernel demo_os.
Proof.
  split; intros; cbn -[Z.of_nat demo_text].
  - destruct (Z.ltb_spec n (Z.of_nat (length demo_text))); cbn -[Z.of_nat demo_text]; [lia|].
    split; [lia|]. by rewrite Nat2Z.id.
  - lia.
  - lia.
Qed.

Lemma demo_calm : calm demo_os 0.
Proof. intros t fd k _. cbn -[Z.of_nat demo_text]. by destruct (k <? _). Qed.

Lemma procps_vmstat_select_ok_witness : exists s info' w',
  procps_vmstat_select 1 (Some demo_info) 4096 [value_item 88; delta_item 30] 2 demo_os demo_world
    = Done (Some s, Some info') w' /\ map r_item s = [90; 183; 304].
Proof.
  destruct (wp_done _ _ _ _ (procps_vmstat_select_ok demo_os 0 1 demo_info 4096 [value_item 88; delta_item 30] 2
    demo_world demo_kernel demo_calm ltac:(lia) ltac:(by intros t sz) ltac:(by left) ltac:(vm_compute; discriminate)
    ltac:(cbn; lia) ltac:(repeat constructor; vm_compute; (discriminate || reflexivity))))
    as ([[s|] r] & w' & E & info' & H1 & _ & _ & H2); cbn [fst snd] in *; subst r.
  - exists s, info', w'. split; [exact E|]. destruct (H2 s eq_refl) as [Hp _]. rewrite Hp. reflexivity.
  - exfalso. vm_compute in E. discriminate E.
Defined.
End Vmstat.
