(* ===== verification/Diskstats.v ===== *)
(** * procps/linux/diskstats.c: block device statistics

    The nodes of the devices seen, in the order of the list anchored at
    [info->nodes]; reading /proc/diskstats with the history each node keeps;
    get, select, reap and sort over the generic stacks. *)

From stdpp Require Import base numbers list strings sorting.
From S2P Require Import Prelude Libc Posix Stacks Fetch.
Open Scope Z_scope.

Module Diskstats.

(** [struct dev_data] *)
Record dev_data := DevData {
  reads : Z; reads_merged : Z; read_sectors : Z; read_time : Z;
  writes : Z; writes_merged : Z; write_sectors : Z; write_time : Z;
  io_inprogress : Z; io_time : Z; io_wtime : Z
}.

(** [struct dev_node], without the link. *)
Record dev_node := DevNode {
  name : bytes; type_ : Z; major : Z; minor : Z; stamped : Z;
  new : dev_data; old : dev_data
}.

Definition DISKSTATS_TYPE_DISK : Z := -11111.
Definition DISKSTATS_TYPE_PARTITION : Z := -22222.
Definition DISKSTATS_LINE_LEN : Z := 1024.
Definition DISKSTATS_NAME_LEN : nat := 34.
Definition STACKS_INCR : Z := 64.
Definition ENOMEM : Z := 12.
Definition EINVAL : Z := 22.
Definition ENXIO : Z := 6.
Definition ERANGE : Z := 34.

(** ** Setters and table *)

Inductive dsetter :=
| DNoop | DExtra | DEV_name | DEV_type | DEV_major | DEV_minor
| REG_set (t : utype) (f : dev_data -> Z) | HST_set (t : utype) (f : dev_data -> Z).

Definition run_setter (s : dsetter) (u : uval) (n : dev_node) : uval :=
  match s with
  | DNoop => u
  | DExtra => set_ul_int u 0
  | DEV_name => set_str u (name n)
  | DEV_type => set_as s_int u (type_ n)
  | DEV_major => set_as s_int u (major n)
  | DEV_minor => set_as s_int u (minor n)
  | REG_set t f => set_as t u (f (new n))
  | HST_set t f => set_as t u (u64 (f (new n) - f (old n)))
  end.

Definition setters : list (string * dsetter) :=
  [("noop", DNoop); ("extra", DExtra); ("NAME", DEV_name); ("TYPE", DEV_type);
   ("MAJOR", DEV_major); ("MINOR", DEV_minor); ("READS", REG_set ul_int reads);
   ("READS_MERGED", REG_set ul_int reads_merged); ("READ_SECTORS", REG_set ul_int read_sectors);
   ("READ_TIME", REG_set ul_int read_time); ("WRITES", REG_set ul_int writes);
   ("WRITES_MERGED", REG_set ul_int writes_merged);
   ("WRITE_SECTORS", REG_set ul_int write_sectors); ("WRITE_TIME", REG_set ul_int write_time);
   ("IO_TIME", REG_set ul_int io_time); ("WEIGHTED_TIME", REG_set ul_int io_wtime);
   ("IO_INPROGRESS", REG_set s_int io_inprogress); ("DELTA_READS", HST_set s_int reads);
   ("DELTA_READS_MERGED", HST_set s_int reads_merged);
   ("DELTA_READ_SECTORS", HST_set s_int read_sectors);
   ("DELTA_READ_TIME", HST_set s_int read_time); ("DELTA_WRITES", HST_set s_int writes);
   ("DELTA_WRITES_MERGED", HST_set s_int writes_merged);
   ("DELTA_WRITE_SECTORS", HST_set s_int write_sectors);
   ("DELTA_WRITE_TIME", HST_set s_int write_time); ("DELTA_IO_TIME", HST_set s_int io_time);
   ("DELTA_WEIGHTED_TIME", HST_set s_int io_wtime)]%string.

(** [Item_table]: the setter named by [RS], the comparison named by [QS] and the
    type named by [TS]. *)
Definition Item_rows : list (string * sortfunc * option utype) :=
  [("noop", sort_noop, None); ("extra", sort_ul_int, None); ("NAME", sort_str, Some str);
   ("TYPE", sort_s_int, Some s_int); ("MAJOR", sort_s_int, Some s_int);
   ("MINOR", sort_s_int, Some s_int); ("READS", sort_ul_int, Some ul_int);
   ("READS_MERGED", sort_ul_int, Some ul_int); ("READ_SECTORS", sort_ul_int, Some ul_int);
   ("READ_TIME", sort_ul_int, Some ul_int); ("WRITES", sort_ul_int, Some ul_int);
   ("WRITES_MERGED", sort_ul_int, Some ul_int); ("WRITE_SECTORS", sort_ul_int, Some ul_int);
   ("WRITE_TIME", sort_ul_int, Some ul_int); ("IO_TIME", sort_ul_int, Some ul_int);
   ("WEIGHTED_TIME", sort_ul_int, Some ul_int); ("IO_INPROGRESS", sort_s_int, Some s_int);
   ("DELTA_READS", sort_s_int, Some s_int); ("DELTA_READS_MERGED", sort_s_int, Some s_int);
   ("DELTA_READ_SECTORS", sort_s_int, Some s_int); ("DELTA_READ_TIME", sort_s_int, Some s_int);
   ("DELTA_WRITES", sort_s_int, Some s_int); ("DELTA_WRITES_MERGED", sort_s_int, Some s_int);
   ("DELTA_WRITE_SECTORS", sort_s_int, Some s_int); ("DELTA_WRITE_TIME", sort_s_int, Some s_int);
   ("DELTA_IO_TIME", sort_s_int, Some s_int); ("DELTA_WEIGHTED_TIME", sort_s_int, Some s_int)]%string.

(** [enum diskstats_item] of the header, in order, without the prefix. *)
Definition diskstats_item : list string :=
  ["noop"; "extra"; "NAME"; "TYPE"; "MAJOR"; "MINOR"; "READS"; "READS_MERGED"; "READ_SECTORS";
   "READ_TIME"; "WRITES"; "WRITES_MERGED"; "WRITE_SECTORS"; "WRITE_TIME"; "IO_TIME";
   "WEIGHTED_TIME"; "IO_INPROGRESS"; "DELTA_READS"; "DELTA_READS_MERGED"; "DELTA_READ_SECTORS";
   "DELTA_READ_TIME"; "DELTA_WRITES"; "DELTA_WRITES_MERGED"; "DELTA_WRITE_SECTORS";
   "DELTA_WRITE_TIME"; "DELTA_IO_TIME"; "DELTA_WEIGHTED_TIME"]%string.
Definition setter_of (n : string) : dsetter := default DNoop (assoc n setters).

(** The [setsfunc] and [sortfunc] columns. *)
Definition Item_table : list (uval -> dev_node -> uval) :=
  map (fun row => run_setter (setter_of row.1.1)) Item_rows.
Definition sort_table : list sortfunc := map (fun row => row.1.2) Item_rows.
Arguments Item_table : simpl never.
Arguments sort_table : simpl never.

Definition DISKSTATS_logical_end : Z := logical_end Item_table.

Definition diskstats_assign_results := assign_results Item_table.
Definition diskstats_extents_free_all := extents_free_all.
Definition diskstats_itemize_stack := itemize_stack.
Definition diskstats_items_check_failed := items_check_failed Item_table.
Definition diskstats_stacks_alloc := stacks_alloc (G := unit).
Definition diskstats_stacks_reconfig_maybe := reconfig_maybe (G := unit) Item_table.

(** ** The context *)

(** [diskstats_fp] is negative for NULL. *)
Record diskstats_info := DInfo {
  refcount : Z;
  diskstats_fp : Z;
  old_stamp : Z;
  new_stamp : Z;
  nodes : list dev_node;
  select_ext : ext_support;
  fetch_ext : ext_support;
  fetch : fetch_support;
  get_this : result
}.

Definition set_refcount n i := DInfo n (diskstats_fp i) (old_stamp i) (new_stamp i) (nodes i) (select_ext i) (fetch_ext i) (fetch i) (get_this i).
Definition set_fp fp i := DInfo (refcount i) fp (old_stamp i) (new_stamp i) (nodes i) (select_ext i) (fetch_ext i) (fetch i) (get_this i).
Definition set_stamps o n i := DInfo (refcount i) (diskstats_fp i) o n (nodes i) (select_ext i) (fetch_ext i) (fetch i) (get_this i).
Definition set_nodes ns i := DInfo (refcount i) (diskstats_fp i) (old_stamp i) (new_stamp i) ns (select_ext i) (fetch_ext i) (fetch i) (get_this i).
Definition set_select x i := DInfo (refcount i) (diskstats_fp i) (old_stamp i) (new_stamp i) (nodes i) x (fetch_ext i) (fetch i) (get_this i).
Definition set_fetch x f i := DInfo (refcount i) (diskstats_fp i) (old_stamp i) (new_stamp i) (nodes i) (select_ext i) x f (get_this i).
Definition set_get r i := DInfo (refcount i) (diskstats_fp i) (old_stamp i) (new_stamp i) (nodes i) (select_ext i) (fetch_ext i) (fetch i) r.

(** ** Nodes *)

Definition set_type t n := DevNode (name n) t (major n) (minor n) (stamped n) (new n) (old n).
Definition set_old d n := DevNode (name n) (type_ n) (major n) (minor n) (stamped n) (new n) d.

(** [node_add] without ALPHABETIC_NODES: to the end of the list. *)
Definition node_add (ns : list dev_node) (this : dev_node) : list dev_node := ns ++ [this].

(** The [readdir] loop of [node_classify]. *)
Fixpoint classify_scan (fuel : nat) (dirp : Z) (nm : bytes) : M unit bool :=
  match fuel with
  | O => nofuel
  | S f =>
      e ← sys (CReaddir dirp);
      if r_val e <? 0 then mret false
      else if streq nm (r_data e) then mret true else classify_scan f dirp nm
  end.

(** The type it sets. *)
Definition node_classify (fuel : nat) (nm : bytes) : M unit Z :=
  d ← sys (COpendir (bs "/sys/block"));
  if r_val d <? 0 then mret DISKSTATS_TYPE_DISK else
  found ← classify_scan fuel (r_val d) nm;
  _ ← sys (CClosedir (r_val d));
  mret (if found : bool then DISKSTATS_TYPE_DISK else DISKSTATS_TYPE_PARTITION).

(** The list without the first node of that name. *)
Fixpoint node_cut (ns : list dev_node) (nm : bytes) : list dev_node :=
  match ns with
  | [] => []
  | n :: r => if streq nm (name n) then r else n :: node_cut r nm
  end.

Fixpoint node_find (ns : list dev_node) (nm : bytes) : option dev_node :=
  match ns with
  | [] => None
  | n :: r => if streq nm (name n) then Some n else node_find r nm
  end.

Definition stale (info : diskstats_info) (n : dev_node) : bool :=
  negb (stamped n =? old_stamp info) && negb (stamped n =? new_stamp info).

Definition node_get (info : diskstats_info) (nm : bytes) : option dev_node * diskstats_info :=
  match node_find (nodes info) nm with
  | Some n =>
      if stale info n then (None, set_nodes (node_cut (nodes info) nm) info) else (Some n, info)
  | None => (None, info)
  end.

(** Overwriting the node of that name in place. *)
Fixpoint node_put (ns : list dev_node) (src : dev_node) : list dev_node :=
  match ns with
  | [] => []
  | n :: r => if streq (name src) (name n) then src :: r else n :: node_put r src
  end.

(** False when memory ran out. *)
Definition node_update (fuel : nat) (info : diskstats_info) (source : dev_node)
  : M unit (bool * diskstats_info) :=
  let '(target, info) := node_get info (name source) in
  match target with
  | None =>
      r ← sys (CMalloc 1);
      if r_val r <? 0 then mret (false, info) else
      t ← node_classify fuel (name source);
      mret (true, set_nodes (node_add (nodes info) (set_type t (set_old (new source) source))) info)
  | Some target =>
      let source := set_type (type_ target) (set_old (new target) source) in
      mret (true, set_nodes (node_put (nodes info) source) info)
  end.

(** ** Reading /proc/diskstats *)

Definition fmtstr : list directive :=
  [DD; DSpace; DD; DSpace; DS DISKSTATS_NAME_LEN; DSpace; DLU; DSpace; DLU; DSpace; DLU; DSpace; DLU;
   DSpace; DLU; DSpace; DLU; DSpace; DLU; DSpace; DLU; DSpace; DLU; DSpace; DLU; DSpace; DLU].

Definition zero_data : dev_data := DevData 0 0 0 0 0 0 0 0 0 0 0.

(** One line; [None] when fewer than 14 values were converted. *)
Definition parse_line (buf : bytes) (stamp : Z) : option dev_node :=
  match sscanf fmtstr buf with
  | [VI ma; VI mi; VS nm; VI v1; VI v2; VI v3; VI v4; VI v5; VI v6; VI v7; VI v8; VI v9; VI v10; VI v11] =>
      Some (DevNode nm 0 ma mi stamp (DevData v1 v2 v3 v4 v5 v6 v7 v8 v9 v10 v11) zero_data)
  | _ => None
  end.

Fixpoint read_lines (fuel : nat) (info : diskstats_info) : M unit (Z * diskstats_info) :=
  match fuel with
  | O => nofuel
  | S f =>
      l ← sys (CFgets (diskstats_fp info) DISKSTATS_LINE_LEN);
      if r_val l <? 0 then mret (0, info) else
      buf ← deref (cstr (r_data l ++ [0]));
      match parse_line buf (new_stamp info) with
      | None => _ ← set_errno ERANGE; mret (1, info)
      | Some node =>
          '(ok, info) ← node_update fuel info node;
          if negb ok then mret (1, info) else read_lines f info
      end
  end.

Definition diskstats_read_failed (fuel : nat) (info : diskstats_info) : M unit (Z * diskstats_info) :=
  info ← (if diskstats_fp info <? 0
          then f ← sys (CFopen (bs "/proc/diskstats")); mret (set_fp (r_val f) info)
          else mret info);
  if diskstats_fp info <? 0 then mret (1, info) else
  s ← sys (CFseek (diskstats_fp info) 0);
  if r_val s =? -1 then mret (1, info) else
  t ← sys CTime;
  read_lines fuel (set_stamps (new_stamp info) (r_val t) info).

(** ** Public functions *)

Definition diskstats_stacks_fetch (info : diskstats_info) : M unit (Z * diskstats_info) :=
  '(rc, x, f) ← stacks_fetch Item_table STACKS_INCR (- ENOMEM) (nodes info) (fetch_ext info) (fetch info);
  mret (rc, set_fetch x f info).

Definition procps_diskstats_unref (info : option diskstats_info) : M unit (Z * option diskstats_info) :=
  match info with
  | None => mret (- EINVAL, None)
  | Some info =>
      let info := set_refcount (refcount info - 1) info in
      if refcount info <? 1 then
        _ ← (if 0 <=? diskstats_fp info then _ ← sys (CFclose (diskstats_fp info)); mret tt else mret tt);
        mret (0, None)
      else mret (refcount info, Some info)
  end.

Definition procps_diskstats_ref (info : option diskstats_info) : Z * option diskstats_info :=
  match info with
  | None => (- EINVAL, None)
  | Some info => let info := set_refcount (refcount info + 1) info in (refcount info, Some info)
  end.

Definition procps_diskstats_new (fuel : nat) (slot : option diskstats_info)
  : M unit (Z * option diskstats_info) :=
  match slot with
  | Some _ => mret (- EINVAL, slot)
  | None =>
      c ← sys (CMalloc 1);
      if r_val c <? 0 then mret (- ENOMEM, None) else
      let p := DInfo 1 (-1) 0 0 [] ext_empty ext_empty fetch_empty (Result 0 (U64 0)) in
      '(rc, p) ← diskstats_read_failed fuel p;
      if negb (rc =? 0) then
        e ← get_errno;                       (* unref saves and restores errno *)
        _ ← procps_diskstats_unref (Some p);
        mret (- e, None)
      else mret (0, Some p)
  end.

Definition procps_diskstats_get (fuel : nat) (info : option diskstats_info) (nm : bytes) (item : Z)
  : M unit (option result * option diskstats_info) :=
  _ ← set_errno EINVAL;
  match info with
  | None => mret (None, None)
  | Some info =>
      if (item <? 0) || (DISKSTATS_logical_end <=? item) then mret (None, Some info) else
      _ ← set_errno 0;
      t ← sys CTime;
      '(rc, info) ← (if 1 <=? r_val t - new_stamp info
                     then diskstats_read_failed fuel info else mret (0, info));
      if negb (rc =? 0) then mret (None, Some info) else
      let info := set_get (Result item (U64 0)) info in
      let '(node, info) := node_get info nm in
      match node with
      | None => _ ← set_errno ENXIO; mret (None, Some info)
      | Some node =>
          set ← deref (Item_table !! Z.to_nat item);
          let r := Result item (set (U64 0) node) in
          mret (Some r, Some (set_get r info))
      end
  end.

(** The caller reads the stacks through the pointers of [fetch]. *)
Definition procps_diskstats_reap (fuel : nat) (info : option diskstats_info)
    (addr : Z) (items : list Z) (numitems : Z) : M unit (bool * option diskstats_info) :=
  _ ← set_errno EINVAL;
  match info with
  | None => mret (false, None)
  | Some info =>
      if addr =? 0 then mret (false, Some info) else
      '(rc, x) ← diskstats_stacks_reconfig_maybe (fetch_ext info) addr items numitems;
      let info := set_fetch x (fetch info) info in
      if rc <? 0 then mret (false, Some info) else
      _ ← set_errno 0;
      '(rc, info) ← diskstats_read_failed fuel info;
      if negb (rc =? 0) then mret (false, Some info) else
      '(rc, info) ← diskstats_stacks_fetch info;
      mret (negb (rc <? 0), Some info)
  end.

Definition procps_diskstats_select (fuel : nat) (info : option diskstats_info) (nm : bytes)
    (addr : Z) (items : list Z) (numitems : Z) : M unit (option stack * option diskstats_info) :=
  _ ← set_errno EINVAL;
  match info with
  | None => mret (None, None)
  | Some info =>
      if addr =? 0 then mret (None, Some info) else
      '(rc, x) ← diskstats_stacks_reconfig_maybe (select_ext info) addr items numitems;
      let info := set_select x info in
      if rc <? 0 then mret (None, Some info) else
      _ ← set_errno 0;
      '(ok, x) ← (match x_extents x with
                  | [] => '(b, x) ← diskstats_stacks_alloc x 1; mret (bool_decide (b <> None), x)
                  | _ => mret (true, x)
                  end);
      let info := set_select x info in
      if negb ok then mret (None, Some info) else
      '(rc, info) ← diskstats_read_failed fuel info;
      if negb (rc =? 0) then mret (None, Some info) else
      let '(node, info) := node_get info nm in
      match node with
      | None => _ ← set_errno ENXIO; mret (None, Some info)
      | Some node =>
          b ← deref (head (x_extents (select_ext info)));
          let p := (b_id b, 0%nat) in
          s ← deref (load (select_ext info) p);
          s ← deref (diskstats_assign_results s node);
          mret (Some s, Some (set_select (store (select_ext info) p s) info))
      end
  end.

(** [strverscmp] and [qsort_r] are parameters. *)
Definition procps_diskstats_sort (qsort : (stack -> stack -> Z) -> list stack -> list stack)
    (strverscmp : bytes -> bytes -> Z) (stacks : list stack) (sortitem order : Z) :=
  procps_sort qsort strverscmp sort_table stacks sortitem order.

(** The debugging interface; the flag says whether a message is printed. *)
Definition xtra_diskstats_get (fuel : nat) (info : option diskstats_info) (nm : bytes) (item : Z)
    (typestr : option utype) : M unit (option result * option diskstats_info * bool) :=
  '(r, info) ← procps_diskstats_get fuel info nm item;
  mret (r, info, xtra_get Item_table (map snd Item_rows) typestr item r).

Definition xtra_diskstats_val := xtra_val Item_table (map snd Item_rows).

(** ** The tables *)

Definition setter_type (s : dsetter) : option utype :=
  match s with
  | DNoop | DExtra => None
  | DEV_name => Some str
  | DEV_type | DEV_major | DEV_minor => Some s_int
  | REG_set t _ | HST_set t _ => Some t
  end.

(** The comparison that fits a type. *)
Definition type_sort (t : option utype) (k : sortfunc) : bool :=
  match t, k with
  | Some str, sort_str | Some s_int, sort_s_int | Some ul_int, sort_ul_int => true
  | None, (sort_noop | sort_ul_int) => true
  | _, _ => false
  end.

(** The table follows the enumerators, and its type and sort columns agree with
    what the setters write. *)
Lemma disk_table_consistent :
  map (fun row => row.1.1) Item_rows = diskstats_item /\
  Forall (fun row => (exists s, assoc row.1.1 setters = Some s /\ row.2 = setter_type s) /\
                     type_sort row.2 row.1.2 = true) Item_rows.
Proof.
  split; [reflexivity|].
  repeat (constructor; [split; [eexists; split; reflexivity|reflexivity]|]). constructor.
Qed.

(** ** Nodes: what an update does *)

Definition names (ns : list dev_node) : list bytes := map name ns.

(** [node_update] as a function of the list; [ty] is the class of a new node. *)
Definition merge (o_stamp n_stamp ty : Z) (ns : list dev_node) (src : dev_node) : list dev_node :=
  let fresh := set_type ty (set_old (new src) src) in
  match node_find ns (name src) with
  | Some n =>
      if negb (stamped n =? o_stamp) && negb (stamped n =? n_stamp)
      then node_add (node_cut ns (name src)) fresh
      else node_put ns (set_type (type_ n) (set_old (new n) src))
  | None => node_add ns fresh
  end.

Lemma node_find_app ns n nm : node_find ns nm = None ->
  node_find (ns ++ [n]) nm = if streq nm (name n) then Some n else None.
Proof.
  induction ns as [|m r IH]; cbn; [done|]. destruct (streq nm (name m)); [done|]. apply IH.
Qed.

Lemma node_find_app_other ns n nm : nm <> name n -> node_find (ns ++ [n]) nm = node_find ns nm.
Proof.
  intros Hn. induction ns as [|m r IH]; cbn.
  - destruct (streq nm (name n)) eqn:E; [|done]. by apply streq_spec in E.
  - destruct (streq nm (name m)); [done|]. apply IH.
Qed.

Lemma node_find_none ns nm : node_find ns nm = None <-> nm ∉ names ns.
Proof.
  induction ns as [|n r IH]; cbn; [split; [intros _; apply not_elem_of_nil|done]|].
  rewrite not_elem_of_cons, <- IH. destruct (streq nm (name n)) eqn:E.
  - apply streq_spec in E as ->. split; [done|by intros [? _]].
  - assert (nm <> name n) by (intros ->; unfold streq in E; by rewrite bool_decide_true in E). tauto.
Qed.

Lemma node_cut_other ns nm x : x <> nm -> node_find (node_cut ns nm) x = node_find ns x.
Proof.
  intros Hx. induction ns as [|n r IH]; cbn; [done|]. destruct (streq nm (name n)) eqn:E; cbn.
  - apply streq_spec in E as ->. destruct (streq x (name n)) eqn:E2; [|done].
    by apply streq_spec in E2.
  - destruct (streq x (name n)); [done|]. apply IH.
Qed.

Lemma node_cut_names ns nm : names (node_cut ns nm) ⊆ names ns.
Proof.
  induction ns as [|n r IH]; cbn; [done|]. destruct (streq nm (name n)); cbn.
  - by apply list_subseteq_cons.
  - by apply list_subseteq_skip.
Qed.

Lemma node_cut_nodup ns nm : NoDup (names ns) -> NoDup (names (node_cut ns nm)) /\ nm ∉ names (node_cut ns nm).
Proof.
  induction ns as [|n r IH]; cbn; [split; [done|apply not_elem_of_nil]|].
  intros [Hn Hr]%NoDup_cons. destruct (streq nm (name n)) eqn:E; cbn.
  - by apply streq_spec in E as ->.
  - destruct (IH Hr) as [H1 H2]. split.
    + apply NoDup_cons. split; [|done]. intros Hin. by apply Hn, (node_cut_names r nm).
    + rewrite not_elem_of_cons. split; [|done]. intros ->. unfold streq in E. by rewrite bool_decide_true in E.
Qed.

Lemma node_put_find ns src : name src ∈ names ns ->
  node_find (node_put ns src) (name src) = Some src.
Proof.
  induction ns as [|n r IH]; cbn; [by intros ?%not_elem_of_nil|]. intros Hin.
  destruct (streq (name src) (name n)) eqn:E; cbn.
  - unfold streq. by rewrite bool_decide_true.
  - rewrite E. apply IH. apply elem_of_cons in Hin as [Hin|]; [|done].
    rewrite Hin in E. unfold streq in E. by rewrite bool_decide_true in E.
Qed.

Lemma node_put_other ns src x : x <> name src -> node_find (node_put ns src) x = node_find ns x.
Proof.
  intros Hx. induction ns as [|n r IH]; cbn; [done|].
  destruct (streq (name src) (name n)) eqn:E; cbn.
  - apply streq_spec in E. destruct (streq x (name src)) eqn:E2; [by apply streq_spec in E2|].
    rewrite E in E2. by rewrite E2.
  - destruct (streq x (name n)); [done|]. apply IH.
Qed.

Lemma node_put_names ns src : names (node_put ns src) = names ns.
Proof.
  induction ns as [|n r IH]; cbn; [done|]. destruct (streq (name src) (name n)) eqn:E; cbn.
  - apply streq_spec in E. by rewrite E.
  - f_equal. apply IH.
Qed.

Lemma names_add ns n : names (node_add ns n) = names ns ++ [name n].
Proof. unfold names, node_add. by rewrite map_app. Qed.

(** The node of an updated device: current values from the source; the history
    is that of the node found, and the current values themselves (so that all
    changes are zero) when the device is new or its node was stale. *)
Definition updated (o_stamp n_stamp ty : Z) (ns : list dev_node) (src : dev_node) : dev_node :=
  match node_find ns (name src) with
  | Some n =>
      if negb (stamped n =? o_stamp) && negb (stamped n =? n_stamp)
      then set_type ty (set_old (new src) src) else set_type (type_ n) (set_old (new n) src)
  | None => set_type ty (set_old (new src) src)
  end.

Lemma merge_spec o_stamp n_stamp ty ns src : NoDup (names ns) ->
  let ns' := merge o_stamp n_stamp ty ns src in
  NoDup (names ns') /\
  node_find ns' (name src) = Some (updated o_stamp n_stamp ty ns src) /\
  forall x, x <> name src -> node_find ns' x = node_find ns x.
Proof.
  intros Hnd. unfold merge, updated. destruct (node_find ns (name src)) as [n|] eqn:E.
  - destruct (negb _ && negb _).
    + destruct (node_cut_nodup ns (name src) Hnd) as [H1 H2]. pose proof H2 as H3.
      apply node_find_none in H3. split; [|split].
      * rewrite names_add. apply NoDup_app. split; [done|]. split; [|apply NoDup_singleton].
        by intros y Hy ->%list_elem_of_singleton.
      * unfold node_add. rewrite node_find_app by done. cbn. unfold streq. by rewrite bool_decide_true.
      * intros x Hx. unfold node_add. rewrite node_find_app_other by done. by apply node_cut_other.
    + split; [by rewrite node_put_names|]. split.
      * apply (node_put_find ns (set_type (type_ n) (set_old (new n) src))). cbn.
        destruct (decide (name src ∈ names ns)) as [|Hn]; [done|]. apply node_find_none in Hn. congruence.
      * intros x Hx. by apply node_put_other.
  - split; [|split].
    + rewrite names_add. apply NoDup_app. split; [done|]. split; [|apply NoDup_singleton].
      apply node_find_none in E. by intros y Hy ->%list_elem_of_singleton.
    + unfold node_add. rewrite node_find_app by done. cbn. unfold streq. by rewrite bool_decide_true.
    + intros x Hx. unfold node_add. by rewrite node_find_app_other.
Qed.

(** ** Running an update *)

(** How many entries of the directory the history ends with having read. *)
Fixpoint dir_streak (d : Z) (t : trace) : nat :=
  match t with
  | (CReaddir f, _) :: t' => if f =? d then S (dir_streak d t') else 0
  | _ => 0
  end.

(** No directory has more than [n] entries. *)
Definition small_dirs (o : os) (n : nat) : Prop := forall t d,
  (n <= dir_streak d t)%nat -> r_val (o t (CReaddir d)) < 0.

(** What an update leaves alone in the history. *)
Definition quiet (t t' : trace) : Prop :=
  (forall h, 0 <= handle_val h -> net h t' = net h t) /\ forall fp, line_no fp t' = line_no fp t.

Lemma classify_scan_ok o n d nm : small_dirs o n -> forall fuel w,
  (dir_streak d (w_tr w) <= n < fuel + dir_streak d (w_tr w))%nat ->
  wp (classify_scan fuel d nm) o w (fun _ w' => quiet (w_tr w) (w_tr w')).
Proof.
  intros Hd. induction fuel as [|f IH]; intros w Hf; [lia|]. cbn [classify_scan].
  wstep. wsys en He.
  assert (Hq : quiet (w_tr w) ((CReaddir d, en) :: w_tr w))
    by (split; [intros [] _; unfold net; cbn [foldr effect]; lia|done]).
  destruct (Z.ltb_spec (r_val en) 0) as [Hlt|Hge]; [by apply wp_ret|].
  destruct (streq nm (r_data en)); [by apply wp_ret|].
  assert (Hs : (dir_streak d (w_tr w) < n)%nat).
  { destruct (decide (n <= dir_streak d (w_tr w))%nat) as [Hn|]; [|lia].
    specialize (Hd (w_tr w) d Hn). rewrite <- He in Hd. lia. }
  eapply wp_mono; [apply IH; cbn [w_tr dir_streak]; rewrite Z.eqb_refl; lia|].
  cbn [w_tr]. intros b w' [H1 H2]. destruct Hq as [Hq1 Hq2]. split; [intros h Hh; rewrite H1, Hq1 by done; done|].
  intros fp. by rewrite H2, Hq2.
Qed.

Lemma node_classify_ok o n fuel nm w : small_dirs o n -> (n < fuel)%nat ->
  wp (node_classify fuel nm) o w (fun t w' =>
    (t = DISKSTATS_TYPE_DISK \/ t = DISKSTATS_TYPE_PARTITION) /\ quiet (w_tr w) (w_tr w')).
Proof.
  intros Hd Hn. unfold node_classify. wstep. wsys d Hdir.
  destruct (Z.ltb_spec (r_val d) 0) as [Hlt|Hge].
  { apply wp_ret. split; [by left|]. cbn [w_tr]. split; [|done]. intros h Hh. unfold net; cbn [foldr]. fd_leaf. }
  wstep. eapply wp_mono; [apply (classify_scan_ok o n); [done|cbn; lia]|].
  intros b w1 [H1 H2]. cbn [w_tr] in *. wstep. wsys c Hc. apply wp_ret. cbn [w_tr].
  split; [destruct b; [by left|by right]|]. split.
  - intros h Hh. unfold net. cbn [foldr]. fold (net h (w_tr w1)). rewrite H1 by done.
    unfold net. cbn [foldr]. fd_leaf.
  - intros fp. cbn [line_no]. apply H2.
Qed.

Lemma node_update_ok o n fuel info src w : memory o -> small_dirs o n -> (n < fuel)%nat ->
  wp (node_update fuel info src) o w (fun res w' => exists ty,
    (ty = DISKSTATS_TYPE_DISK \/ ty = DISKSTATS_TYPE_PARTITION) /\
    res = (true, set_nodes (merge (old_stamp info) (new_stamp info) ty (nodes info) src) info) /\
    quiet (w_tr w) (w_tr w')).
Proof.
  intros Hm Hd Hn. unfold node_update, node_get, merge, stale.
  destruct (node_find (nodes info) (name src)) as [t|] eqn:E.
  - destruct (negb _ && negb _).
    + wstep. wsys r Hr. destruct (Z.ltb_spec (r_val r) 0) as [Hlt|_].
      { subst r. specialize (Hm (w_tr w) 1). lia. }
      wstep. eapply wp_mono; [by apply (node_classify_ok o n)|]. intros ty w1 (Hty & Hq1 & Hq2).
      apply wp_ret. exists ty. split; [done|]. split; [done|].
      split; [|done]. intros h Hh. rewrite Hq1 by done. destruct h; unfold net; cbn [w_tr foldr effect]; lia.
    + apply wp_ret. exists DISKSTATS_TYPE_DISK. split; [by left|]. split; [done|]. by split.
  - wstep. wsys r Hr. destruct (Z.ltb_spec (r_val r) 0) as [Hlt|_].
    { subst r. specialize (Hm (w_tr w) 1). lia. }
    wstep. eapply wp_mono; [by apply (node_classify_ok o n)|]. intros ty w1 (Hty & Hq1 & Hq2).
    apply wp_ret. exists ty. split; [done|]. split; [done|].
    split; [|done]. intros h Hh. rewrite Hq1 by done. destruct h; unfold net; cbn [w_tr foldr effect]; lia.
Qed.

(** Node_update: with memory and finite directories it always succeeds; it
    gives the device its new values, as history those of the last read or, for
    a new or stale device, the new values themselves; it leaves all other
    devices alone, keeps names unique, and closes the directory it opens. *)
Theorem node_update_history o n fuel info src w :
  memory o -> small_dirs o n -> (n < fuel)%nat -> NoDup (names (nodes info)) ->
  wp (node_update fuel info src) o w (fun res w' => exists ty,
    let info' := res.2 in res.1 = true /\ NoDup (names (nodes info')) /\
    node_find (nodes info') (name src) = Some (updated (old_stamp info) (new_stamp info) ty (nodes info) src) /\
    (forall x, x <> name src -> node_find (nodes info') x = node_find (nodes info) x) /\
    forall h, 0 <= handle_val h -> net h (w_tr w') = net h (w_tr w)).
Proof.
  intros Hm Hd Hn Hnd. eapply wp_mono; [by apply (node_update_ok o n)|].
  intros res w' (ty & _ & -> & Hq & _). exists ty. cbn [fst snd nodes set_nodes].
  destruct (merge_spec (old_stamp info) (new_stamp info) ty (nodes info) src Hnd) as (H1 & H2 & H3).
  by repeat split.
Qed.

(** ** Parsing *)

(** A line as the kernel prints it: padded numbers, the name and at least
    eleven counters. *)
Record dline := DLine { dl_pad1 : nat; dl_major : Z; dl_pad2 : nat; dl_minor : Z; dl_name : bytes;
  dl_data : dev_data; dl_more : bytes }.

Definition print_counter (v : Z) : bytes := 32 :: dec v.

Definition counters (d : dev_data) : list Z :=
  [reads d; reads_merged d; read_sectors d; read_time d; writes d; writes_merged d; write_sectors d;
   write_time d; io_inprogress d; io_time d; io_wtime d].

Definition print_dline (l : dline) : bytes :=
  replicate (dl_pad1 l) 32 ++ fmt_d (dl_major l) ++ replicate (S (dl_pad2 l)) 32 ++ fmt_d (dl_minor l)
  ++ 32 :: dl_name l ++ concat (map print_counter (counters (dl_data l))) ++ dl_more l.

Definition dline_ok (l : dline) : Prop :=
  INT_MIN <= dl_major l <= INT_MAX /\ INT_MIN <= dl_minor l <= INT_MAX /\
  dl_name l <> [] /\ (length (dl_name l) <= DISKSTATS_NAME_LEN)%nat /\
  Forall (fun c => isspace c = false) (dl_name l) /\
  Forall (fun v => 0 <= v <= ULONG_MAX) (counters (dl_data l)) /\ stops (dl_more l).

Lemma sscanf_DD k n r f : INT_MIN <= n <= INT_MAX -> stops r ->
  sscanf (DD :: f) (replicate k 32 ++ fmt_d n ++ r) = VI n :: sscanf f r.
Proof.
  intros Hn Hr. assert (LONG_MIN <= n <= LONG_MAX) by (unfold INT_MIN, INT_MAX, LONG_MIN, LONG_MAX in *; lia).
  cbn [sscanf]. rewrite strtol_blanks by (rewrite strtol_fmt_d; done).
  rewrite strtol_fmt_d by done. cbn [st_conv st_val st_rest]. by rewrite i32_small.
Qed.

Lemma sscanf_counter v r f : 0 <= v <= ULONG_MAX -> stops r ->
  sscanf (DSpace :: DLU :: f) (print_counter v ++ r) = VI v :: sscanf f r.
Proof.
  intros Hv Hr. cbn [sscanf print_counter app]. change (skip_spaces (32 :: dec v ++ r)) with (skip_spaces (dec v ++ r)).
  assert (He : skip_spaces (dec v ++ r) = dec v ++ r).
  { destruct (dec_head v ltac:(lia)) as (c & t & -> & Hc). by apply skip_spaces_digit. }
  rewrite He, strtoul_dec by done. done.
Qed.

Lemma stops_counters vs more : stops more -> stops (concat (map print_counter vs) ++ more).
Proof. by destruct vs. Qed.

Fixpoint fmt_counters (n : nat) : list directive :=
  match n with O => [] | S k => DSpace :: DLU :: fmt_counters k end.

Lemma sscanf_counters vs more : Forall (fun v => 0 <= v <= ULONG_MAX) vs -> stops more ->
  sscanf (fmt_counters (length vs)) (concat (map print_counter vs) ++ more) = map VI vs.
Proof.
  intros Hv Hm. induction Hv as [|v vs Hv _ IH]; cbn [length map fmt_counters concat]; [done|].
  rewrite <- app_assoc, sscanf_counter by (done || by apply stops_counters). by rewrite IH.
Qed.

Lemma sscanf_name nm c r f : nm <> [] -> Forall (fun c => isspace c = false) nm ->
  (length nm <= DISKSTATS_NAME_LEN)%nat -> isspace c = true ->
  sscanf (DSpace :: DS DISKSTATS_NAME_LEN :: f) (32 :: nm ++ c :: r) = VS nm :: sscanf f (c :: r).
Proof.
  intros Hne Hs Hl Hc. rewrite sscanf_DSpace.
  change (skip_spaces (32 :: nm ++ c :: r)) with (skip_spaces (nm ++ c :: r)).
  rewrite skip_spaces_name by done. cbn [sscanf]. rewrite skip_spaces_name by done.
  rewrite span_word_all by done. by destruct nm.
Qed.

(** A printed line is read back. *)
Lemma parse_line_print l stamp : dline_ok l ->
  parse_line (print_dline l) stamp =
  Some (DevNode (dl_name l) 0 (dl_major l) (dl_minor l) stamp (dl_data l) zero_data).
Proof.
  intros (Hma & Hmi & Hne & Hlen & Hsp & Hvs & Hmore). unfold parse_line, print_dline.
  change fmtstr with (DD :: DSpace :: DD :: DSpace :: DS DISKSTATS_NAME_LEN :: fmt_counters 11).
  rewrite sscanf_DD by done. rewrite sscanf_DSpace, skip_spaces_blanks, skip_spaces_fmt_d.
  set (tail := concat (map print_counter (counters (dl_data l))) ++ dl_more l).
  pose proof (fun r f => sscanf_DD 0 (dl_minor l) r f Hmi) as Hdd. cbn [replicate app] in Hdd.
  rewrite Hdd by done.
  assert (Ht : exists r, tail = 32 :: r) by (unfold tail; cbn; eauto). destruct Ht as [r Hr].
  rewrite Hr, sscanf_name by done. rewrite <- Hr. unfold tail.
  rewrite (sscanf_counters (counters (dl_data l))) by done. cbn [map counters].
  by destruct (dl_data l).
Qed.

(** ** Reading *)

Definition file_ok (lines : list dline) : Prop :=
  Forall (fun l => dline_ok l /\ Forall (fun c => c <> 0) (print_dline l)) lines.

Definition source_of (stamp : Z) (l : dline) : dev_node :=
  DevNode (dl_name l) 0 (dl_major l) (dl_minor l) stamp (dl_data l) zero_data.

Definition is_class (t : Z) : Prop := t = DISKSTATS_TYPE_DISK \/ t = DISKSTATS_TYPE_PARTITION.

(** The updates of a whole file, one line after the other. *)
Fixpoint merge_all (o_stamp n_stamp : Z) (ns : list dev_node) (lines : list dline) (tys : list Z)
  : list dev_node :=
  match lines, tys with
  | l :: ls, ty :: ts => merge_all o_stamp n_stamp (merge o_stamp n_stamp ty ns (source_of n_stamp l)) ls ts
  | _, _ => ns
  end.

Lemma read_lines_ok o n fp lines : memory o -> small_dirs o n ->
  serves o fp (map print_dline lines) -> file_ok lines ->
  forall rem fuel w info, diskstats_fp info = fp -> drop (line_no fp (w_tr w)) lines = rem ->
  (n + length rem < fuel)%nat ->
  wp (read_lines fuel info) o w (fun res w' => exists tys,
    length tys = length rem /\ Forall is_class tys /\
    res = (0, set_nodes (merge_all (old_stamp info) (new_stamp info) (nodes info) rem tys) info) /\
    forall h, 0 <= handle_val h -> net h (w_tr w') = net h (w_tr w)).
Proof.
  intros Hm Hd Hs Hf. induction rem as [|l rem IH]; intros fuel w info Hfp Hrem Hfuel;
    (destruct fuel as [|f]; [lia|]); cbn [read_lines]; wstep; wsys r Hr; rewrite Hfp in Hr; rewrite Hs in Hr;
    rewrite list_lookup_fmap in Hr; rewrite Hfp.
  - assert (Hn : lines !! line_no fp (w_tr w) = None).
    { apply lookup_ge_None. apply (f_equal length) in Hrem. rewrite length_drop in Hrem. cbn in Hrem. lia. }
    rewrite Hn in Hr. cbn in Hr. subst r. cbn [rerr r_val Z.ltb Z.compare]. apply wp_ret.
    exists []. do 2 (split; [done|]). split; [by destruct info|].
    intros [] _; unfold net; cbn [w_tr foldr effect]; lia.
  - set (k := line_no fp (w_tr w)) in *.
    assert (Hk : lines !! k = Some l).
    { rewrite <- (Nat.add_0_r k), <- lookup_drop, Hrem. done. }
    rewrite Hk in Hr. cbn in Hr. subst r. cbn [rdata r_val r_data Z.ltb Z.compare].
    destruct (proj1 (Forall_lookup _ _) Hf k l Hk) as [Hok Hnul].
    rewrite (cstr_app _ [] Hnul). wstep. unfold wp at 1. cbn [deref mret M_ret].
    rewrite parse_line_print by done. wstep.
    eapply wp_mono; [apply (node_update_ok o n); [done|done|lia]|].
    intros res w1 (ty & Hty & -> & Hq1 & Hq2). cbn [w_tr] in Hq1, Hq2. cbn [negb].
    fold (source_of (new_stamp info) l).
    assert (Hk1 : line_no fp (w_tr w1) = S k) by (rewrite Hq2; cbn [line_no]; by rewrite Z.eqb_refl).
    eapply wp_mono.
    { apply (IH f w1); [done| |cbn in Hfuel; lia]. rewrite Hk1.
      rewrite <- (Nat.add_1_r k), <- drop_drop, Hrem. done. }
    intros res w2 (tys & Hl & Hc & -> & Hnet). exists (ty :: tys). cbn [length].
    split; [lia|]. split; [by constructor|]. split; [done|].
    intros h Hh. rewrite Hnet, Hq1 by done. destruct h; unfold net; cbn [foldr effect]; lia.
Qed.

(** A system on which /proc/diskstats can be opened and read. *)
Record disk_system (o : os) (n : nat) (lines : list dline) : Prop := {
  ds_memory : memory o;
  ds_dirs : small_dirs o n;
  ds_open : forall t p, 0 <= r_val (o t (CFopen p));
  ds_seek : forall t fp, r_val (o t (CFseek fp 0)) <> -1;
  ds_file : forall fp, serves o fp (map print_dline lines);
  ds_lines : file_ok lines
}.

Definition read_post (info : diskstats_info) (lines : list dline) (w : world unit)
    (res : Z * diskstats_info) (w' : world unit) : Prop :=
  exists now tys, let info' := res.2 in
    res.1 = 0 /\ length tys = length lines /\ Forall is_class tys /\
    old_stamp info' = new_stamp info /\ new_stamp info' = now /\
    nodes info' = merge_all (new_stamp info) now (nodes info) lines tys /\
    refcount info' = refcount info /\ select_ext info' = select_ext info /\
    fetch_ext info' = fetch_ext info /\ fetch info' = fetch info /\ 0 <= diskstats_fp info' /\
    forall h, 0 <= handle_val h ->
      net h (w_tr w') - held (diskstats_fp info') h = net h (w_tr w) - held (diskstats_fp info) h.

Lemma disk_read_ok o n lines fuel info w : disk_system o n lines -> (n + length lines < fuel)%nat ->
  wp (diskstats_read_failed fuel info) o w (read_post info lines w).
Proof.
  intros [Hm Hd Ho Hsk Hs Hf] Hfuel. unfold diskstats_read_failed. wstep.
  assert (H1 : wp (if diskstats_fp info <? 0
      then f ← sys (CFopen (bs "/proc/diskstats")); mret (set_fp (r_val f) info)
      else mret info) o w (fun i w1 => exists fp, i = set_fp fp info /\ 0 <= fp /\
      forall h, 0 <= handle_val h ->
        net h (w_tr w1) - held fp h = net h (w_tr w) - held (diskstats_fp info) h)).
  { destruct (Z.ltb_spec (diskstats_fp info) 0) as [Hlt|Hge].
    - wstep. wsys f Hfo. apply wp_ret. exists (r_val f). split; [done|]. subst f. split; [apply Ho|].
      intros h Hh. unfold net. cbn [w_tr foldr]. specialize (Ho (w_tr w) (bs "/proc/diskstats")).
      destruct h; cbn [effect held]; unfold opened; zcase; cbn [andb]; lia.
    - apply wp_ret. exists (diskstats_fp info). split; [by destruct info|]. done. }
  eapply wp_mono; [apply H1|]. clear H1. intros i w1 (fp & -> & Hfp & Hnet). cbn [diskstats_fp set_fp].
  destruct (Z.ltb_spec fp 0); [lia|]. wstep. wsys sk Hsk1.
  destruct (Z.eqb_spec (r_val sk) (-1)) as [E|_]; [subst sk; by apply Hsk in E|].
  wstep. wsys tm Htm.
  eapply wp_mono.
  { apply (read_lines_ok o n fp lines Hm Hd (Hs fp) Hf lines); [done| |done].
    cbn [w_tr line_no]. by rewrite Z.eqb_refl, drop_0. }
  cbn [w_tr]. intros res w2 (tys & Hl & Hc & -> & Hnet2). exists (r_val tm), tys. cbn.
  do 11 (split; [done|]).
  intros h Hh. rewrite Hnet2 by done. rewrite <- Hnet by done.
  destruct h; unfold net; cbn [foldr effect]; lia.
Qed.

Lemma merge_all_nodup o_stamp n_stamp lines tys ns :
  NoDup (names ns) -> NoDup (names (merge_all o_stamp n_stamp ns lines tys)).
Proof.
  revert ns tys. induction lines as [|l ls IH]; intros ns [|ty tys] Hn; cbn [merge_all]; try done.
  apply IH. by apply merge_spec.
Qed.

(** ** Reaping *)

Definition disk_inv (info : diskstats_info) : Prop :=
  ext_inv Item_table (select_ext info) /\ ext_inv Item_table (fetch_ext info) /\
  anchor_ok (fetch_ext info) (fetch info) /\ results_ok (fetch info) /\ NoDup (names (nodes info)).

Lemma logical_end_27 : DISKSTATS_logical_end = 27.
Proof. reflexivity. Qed.

Definition reap_post (info : diskstats_info) (lines : list dline) (its : list Z) (w : world unit)
    (res : bool * option diskstats_info) (w' : world unit) : Prop :=
  exists info' now tys, res = (true, Some info') /\ disk_inv info' /\
    length tys = length lines /\ Forall is_class tys /\
    nodes info' = merge_all (new_stamp info) now (nodes info) lines tys /\
    new_stamp info' = now /\ refcount info' = refcount info /\ 0 <= diskstats_fp info' /\
    reaped Item_table its (fetch_ext info') (fetch info') (nodes info') /\
    forall h, 0 <= handle_val h ->
      net h (w_tr w') - held (diskstats_fp info') h = net h (w_tr w) - held (diskstats_fp info) h.

(** Procps_diskstats_reap: on a system where /proc/diskstats can be read, a
    call with valid items succeeds without undefined behaviour; the nodes are
    those before the call updated by the lines of the file in order; one stack
    per node is handed out, in node order and closed by a NULL, in which each
    requested item is set by its own setter from that node; the context stays
    sound and only its own stream stays open. *)
Theorem procps_diskstats_reap_ok o n lines fuel info addr items numitems w :
  disk_system o n lines -> (n + length lines < fuel)%nat -> disk_inv info ->
  2 * DISKSTATS_logical_end <= addr -> 1 <= numitems <= Z.of_nat (length items) ->
  Forall (valid_item Item_table) (take (Z.to_nat numitems) items) ->
  wp (procps_diskstats_reap fuel (Some info) addr items numitems) o w
    (reap_post info lines (take (Z.to_nat numitems) items) w).
Proof.
  intros Hsys Hfuel (Hs & Hfx & Ha & Hr & Hnd) Haddr Hnum Hv.
  pose proof (ds_memory _ _ _ Hsys) as Hm. set (its := take (Z.to_nat numitems) items) in *.
  unfold procps_diskstats_reap. wstep. unfold wp at 1. cbn [set_errno].
  destruct (Z.eqb_spec addr 0) as [E|_]; [rewrite logical_end_27 in Haddr; lia|].
  wstep. eapply wp_mono; [by apply (reconfig_maybe_ok Item_table o)|].
  intros [rc x] w1. cbn [fst snd w_tr]. intros (Hrc & Hx & Hxx & Hn1). fold its in Hx.
  destruct (Z.ltb_spec rc 0); [lia|]. wstep. unfold wp at 1. cbn [set_errno]. wstep.
  eapply wp_mono; [by apply (disk_read_ok o n lines)|].
  intros [rc2 info2] w2 (now & tys & Hrc2 & Hl & Hc & _ & Hst & Hns & Href & Hsel & Hfe & Hfs & Hfp & Hn2).
  cbn [fst snd] in *. subst rc2. cbn [Z.eqb negb]. cbn [set_fetch fetch_ext fetch select_ext nodes new_stamp diskstats_fp refcount w_tr] in *.
  wstep. unfold diskstats_stacks_fetch. wstep. rewrite Hfe, Hfs.
  eapply wp_mono.
  { apply (stacks_fetch_ok Item_table STACKS_INCR (- ENOMEM) o w2 its); try done.
    by apply (anchor_reconfig (fetch_ext info)). }
  intros res w3 (x3 & f3 & -> & Hx3 & Ha3 & Hr3 & Hreap & Hn3). apply wp_ret. apply wp_ret.
  eexists _, now, tys. cbn [fst snd].
  assert (Hge : (Z.of_nat (length (nodes info2)) <? 0) = false) by (apply Z.ltb_ge; lia).
  rewrite Hge. split; [done|].
  split; [|do 7 (split; [done|])].
  - split; [cbn; by rewrite Hsel|]. split; [right; by exists its|]. split; [done|]. split; [done|].
    cbn [nodes set_fetch]. rewrite Hns. by apply merge_all_nodup.
  - intros h Hh. cbn [diskstats_fp set_fetch]. rewrite Hn3, Hn2, Hn1 by done. done.
Qed.

(** Sorting reaped stacks by a counter orders them by its value, ascending
    or descending, and keeps all of them; the counter is looked up at the
    position of its item. *)
Theorem procps_diskstats_sort_ok qsort `{!QSort qsort} strverscmp stacks its item order i :
  Forall (valid_item Item_table) its -> Forall (primed Item_table its) stacks ->
  its !! i = Some item -> (forall j, (j < i)%nat -> its !! j <> Some item) ->
  sort_table !! Z.to_nat item = Some sort_ul_int ->
  order = 1 \/ order = -1 -> (2 <= length stacks)%nat ->
  exists l, procps_diskstats_sort qsort strverscmp stacks item order = Some (Some l) /\
    Permutation l stacks /\
    StronglySorted (fun a b => order * get_ul_int (at_offset i a) <= order * get_ul_int (at_offset i b)) l.
Proof.
  intros Hv Hp Hi Hf Hk Ho Hl.
  apply (procps_sort_ok Item_table qsort strverscmp sort_table stacks its item order sort_ul_int i); try done.
  auto.
Qed.

(** ** Witnesses *)

Definition sample_line : dline :=
  DLine 3 8 6 0 (bs "sda") (DevData 10 20 30 40 50 60 70 80 0 90 100) [10].

Definition sample_os : os := fun t c =>
  match c with
  | CFgets fp _ => match [print_dline sample_line] !! line_no fp t with Some l => rdata 1 l | None => rerr 0 end
  | CFopen _ => rok 5
  | CReaddir _ => rerr 0
  | CTime => rok 1000
  | _ => rok 1
  end.

Lemma sample_file_ok : file_ok [sample_line].
Proof.
  constructor; [|constructor]. split.
  - unfold dline_ok, INT_MIN, INT_MAX, ULONG_MAX. cbn. split; [lia|]. split; [lia|]. split; [done|].
    split; [unfold DISKSTATS_NAME_LEN; lia|]. split; [repeat (constructor; [done|]); constructor|].
    split; [|done]. unfold counters. cbn. repeat (apply Forall_cons; split; [lia|]). by apply Forall_nil.
  - unfold print_dline. vm_compute. repeat (constructor; [done|]). constructor.
Qed.

Lemma sample_disk_system : disk_system sample_os 0 [sample_line].
Proof.
  split; [by intros t sz|by intros t d _|by intros t p|by intros t fp|by intros fp t n|apply sample_file_ok].
Qed.

Definition sample_world : world unit := World [] 0 tt.
Definition sample_info : diskstats_info :=
  DInfo 1 (-1) 0 0 [] ext_empty ext_empty fetch_empty (Result 0 (U64 0)).

Lemma sample_inv : disk_inv sample_info.
Proof. split; [by left|]. split; [by left|]. split; [done|]. split; [done|constructor]. Qed.

Lemma node_update_history_witness :
  wp (node_update 1 sample_info (source_of 7 sample_line)) sample_os sample_world (fun res w' => exists ty,
    let info' := res.2 in res.1 = true /\ NoDup (names (nodes info')) /\
    node_find (nodes info') (bs "sda") = Some (updated 0 0 ty [] (source_of 7 sample_line)) /\
    (forall x, x <> bs "sda" -> node_find (nodes info') x = node_find [] x) /\
    forall h, 0 <= handle_val h -> net h (w_tr w') = net h []).
Proof.
  apply (node_update_history sample_os 0 1 sample_info (source_of 7 sample_line) sample_world);
    [by intros t sz|by intros t d _|lia|constructor].
Defined.

Lemma procps_diskstats_reap_ok_witness :
  wp (procps_diskstats_reap 2 (Some sample_info) 4096 [2; 6; 17] 3) sample_os sample_world
    (reap_post sample_info [sample_line] [2; 6; 17] sample_world).
Proof.
  apply (procps_diskstats_reap_ok sample_os 0 [sample_line] 2 sample_info 4096 [2; 6; 17] 3 sample_world);
    [apply sample_disk_system|cbn; lia|apply sample_inv|rewrite logical_end_27; lia|cbn; lia|].
  repeat constructor; unfold logical_end; cbn; lia.
Defined.

Definition sample_stack (v : Z) : stack := [Result 6 (U64 v); Result 27 (U64 0)].

Lemma procps_diskstats_sort_ok_witness :
  exists l, procps_diskstats_sort isort strcasecmp [sample_stack 1; sample_stack 5] 6 (-1) = Some (Some l) /\
    Permutation l [sample_stack 1; sample_stack 5] /\
    StronglySorted (fun a b => -1 * get_ul_int (at_offset 0 a) <= -1 * get_ul_int (at_offset 0 b)) l.
Proof.
  apply (procps_diskstats_sort_ok isort strcasecmp [sample_stack 1; sample_stack 5] [6] 6 (-1) 0);
    [repeat constructor; unfold logical_end; cbn; lia|by repeat constructor|reflexivity|lia|reflexivity|by right|cbn; lia].
Defined.
End Diskstats.
