(* ===== verification/Slabinfo.v ===== *)
(** * procps/linux/slabinfo.c: kernel slab cache statistics

    One node per cache of /proc/slabinfo, refilled at every read, the summary
    over all caches with its history, and get, select, reap and sort over the
    generic stacks.  Counters keep the width of their C type; the percentage is
    computed in IEEE binary32 as the source does. *)

From stdpp Require Import base numbers list strings sorting.
From Stdlib Require Import SpecFloat.
From S2P Require Import Prelude Libc Posix Stacks Fetch.
Open Scope Z_scope.

Module Slabinfo.

(** [struct slabs_summ] *)
Record slabs_summ := Summ {
  s_nr_objs : Z; s_nr_active_objs : Z; s_nr_pages : Z; s_nr_slabs : Z; s_nr_active_slabs : Z;
  s_nr_caches : Z; s_nr_active_caches : Z; s_avg_obj_size : Z; s_min_obj_size : Z;
  s_max_obj_size : Z; s_active_size : Z; s_total_size : Z
}.

(** [struct slabs_node] *)
Record slabs_node := Node {
  n_name : bytes; n_cache_size : Z; n_nr_objs : Z; n_nr_active_objs : Z; n_obj_size : Z;
  n_objs_per_slab : Z; n_pages_per_slab : Z; n_nr_slabs : Z; n_nr_active_slabs : Z; n_use : Z
}.

(** [struct slabs_hist] *)
Record slabs_hist := Hist { h_new : slabs_summ; h_old : slabs_summ }.

Definition summ_zero : slabs_summ := Summ 0 0 0 0 0 0 0 0 0 0 0 0.
Definition nul_node : slabs_node := Node [] 0 0 0 0 0 0 0 0 0.

Definition SLABINFO_LINE_LEN : Z := 2048.
Definition SLABINFO_NAME_LEN : nat := 128.
Definition STACKS_INCR : Z := 128.
Definition UINT_MAX : Z := 4294967295.
Definition ENOMEM : Z := 12.
Definition EINVAL : Z := 22.
Definition ERANGE : Z := 34.

(** ** Setters and table *)

Inductive ssetter :=
| SNoop | SExtra | NOD_name
| NOD_set (t : utype) (f : slabs_node -> Z)
| REG_set (t : utype) (f : slabs_summ -> Z)
| HST_set (t : utype) (f : slabs_summ -> Z).

(** A setter gets the summaries and a node. *)
Definition run_setter (s : ssetter) (u : uval) (c : slabs_hist * slabs_node) : uval :=
  match s with
  | SNoop => u
  | SExtra => set_ul_int u 0
  | NOD_name => set_str u (n_name c.2)
  | NOD_set t f => set_as t u (f c.2)
  | REG_set t f => set_as t u (f (h_new c.1))
  | HST_set t f => set_as t u (f (h_new c.1) - f (h_old c.1))
  end.

Definition setters : list (string * ssetter) :=
  [("SLABINFO_noop", SNoop); ("SLABINFO_extra", SExtra); ("SLAB_NAME", NOD_name);
   ("SLAB_NUM_OBJS", NOD_set u_int n_nr_objs);
   ("SLAB_ACTIVE_OBJS", NOD_set u_int n_nr_active_objs);
   ("SLAB_OBJ_SIZE", NOD_set u_int n_obj_size);
   ("SLAB_OBJ_PER_SLAB", NOD_set u_int n_objs_per_slab);
   ("SLAB_NUMS_SLABS", NOD_set u_int n_nr_slabs);
   ("SLAB_ACTIVE_SLABS", NOD_set u_int n_nr_active_slabs);
   ("SLAB_PAGES_PER_SLAB", NOD_set u_int n_pages_per_slab);
   ("SLAB_PERCENT_USED", NOD_set u_int n_use); ("SLAB_SIZE_TOTAL", NOD_set ul_int n_cache_size);
   ("SLABS_CACHES_TOTAL", REG_set u_int s_nr_caches);
   ("SLABS_CACHES_ACTIVE", REG_set u_int s_nr_active_caches);
   ("SLABS_NUM_OBJS", REG_set u_int s_nr_objs);
   ("SLABS_ACTIVE_OBJS", REG_set u_int s_nr_active_objs);
   ("SLABS_OBJ_SIZE_AVG", REG_set u_int s_avg_obj_size);
   ("SLABS_OBJ_SIZE_MIN", REG_set u_int s_min_obj_size);
   ("SLABS_OBJ_SIZE_MAX", REG_set u_int s_max_obj_size);
   ("SLABS_NUMS_SLABS", REG_set u_int s_nr_slabs);
   ("SLABS_ACTIVE_SLABS", REG_set u_int s_nr_active_slabs);
   ("SLABS_PAGES_TOTAL", REG_set u_int s_nr_pages);
   ("SLABS_SIZE_ACTIVE", REG_set ul_int s_active_size);
   ("SLABS_SIZE_TOTAL", REG_set ul_int s_total_size);
   ("SLABS_DELTA_CACHES_TOTAL", HST_set s_int s_nr_caches);
   ("SLABS_DELTA_CACHES_ACTIVE", HST_set s_int s_nr_active_caches);
   ("SLABS_DELTA_NUM_OBJS", HST_set s_int s_nr_objs);
   ("SLABS_DELTA_ACTIVE_OBJS", HST_set s_int s_nr_active_objs);
   ("SLABS_DELTA_OBJ_SIZE_AVG", HST_set s_int s_avg_obj_size);
   ("SLABS_DELTA_OBJ_SIZE_MIN", HST_set s_int s_min_obj_size);
   ("SLABS_DELTA_OBJ_SIZE_MAX", HST_set s_int s_max_obj_size);
   ("SLABS_DELTA_NUMS_SLABS", HST_set s_int s_nr_slabs);
   ("SLABS_DELTA_ACTIVE_SLABS", HST_set s_int s_nr_active_slabs);
   ("SLABS_DELTA_PAGES_TOTAL", HST_set s_int s_nr_pages);
   ("SLABS_DELTA_SIZE_ACTIVE", HST_set s_int s_active_size);
   ("SLABS_DELTA_SIZE_TOTAL", HST_set s_int s_total_size)]%string.

(** [Item_table]: the setter named by [RS], the comparison named by [QS] and the
    type named by [TS]. *)
Definition Item_rows : list (string * sortfunc * option utype) :=
  [("SLABINFO_noop", sort_noop, None); ("SLABINFO_extra", sort_ul_int, None);
   ("SLAB_NAME", sort_str, Some str); ("SLAB_NUM_OBJS", sort_u_int, Some u_int);
   ("SLAB_ACTIVE_OBJS", sort_u_int, Some u_int); ("SLAB_OBJ_SIZE", sort_u_int, Some u_int);
   ("SLAB_OBJ_PER_SLAB", sort_u_int, Some u_int); ("SLAB_NUMS_SLABS", sort_u_int, Some u_int);
   ("SLAB_ACTIVE_SLABS", sort_u_int, Some u_int);
   ("SLAB_PAGES_PER_SLAB", sort_u_int, Some u_int);
   ("SLAB_PERCENT_USED", sort_u_int, Some u_int); ("SLAB_SIZE_TOTAL", sort_ul_int, Some ul_int);
   ("SLABS_CACHES_TOTAL", sort_noop, Some u_int); ("SLABS_CACHES_ACTIVE", sort_noop, Some u_int);
   ("SLABS_NUM_OBJS", sort_noop, Some u_int); ("SLABS_ACTIVE_OBJS", sort_noop, Some u_int);
   ("SLABS_OBJ_SIZE_AVG", sort_noop, Some u_int); ("SLABS_OBJ_SIZE_MIN", sort_noop, Some u_int);
   ("SLABS_OBJ_SIZE_MAX", sort_noop, Some u_int); ("SLABS_NUMS_SLABS", sort_noop, Some u_int);
   ("SLABS_ACTIVE_SLABS", sort_noop, Some u_int); ("SLABS_PAGES_TOTAL", sort_noop, Some u_int);
   ("SLABS_SIZE_ACTIVE", sort_noop, Some ul_int); ("SLABS_SIZE_TOTAL", sort_noop, Some ul_int);
   ("SLABS_DELTA_CACHES_TOTAL", sort_noop, Some s_int);
   ("SLABS_DELTA_CACHES_ACTIVE", sort_noop, Some s_int);
   ("SLABS_DELTA_NUM_OBJS", sort_noop, Some s_int);
   ("SLABS_DELTA_ACTIVE_OBJS", sort_noop, Some s_int);
   ("SLABS_DELTA_OBJ_SIZE_AVG", sort_noop, Some s_int);
   ("SLABS_DELTA_OBJ_SIZE_MIN", sort_noop, Some s_int);
   ("SLABS_DELTA_OBJ_SIZE_MAX", sort_noop, Some s_int);
   ("SLABS_DELTA_NUMS_SLABS", sort_noop, Some s_int);
   ("SLABS_DELTA_ACTIVE_SLABS", sort_noop, Some s_int);
   ("SLABS_DELTA_PAGES_TOTAL", sort_noop, Some s_int);
   ("SLABS_DELTA_SIZE_ACTIVE", sort_noop, Some s_int);
   ("SLABS_DELTA_SIZE_TOTAL", sort_noop, Some s_int)]%string.

(** [enum slabinfo_item] of the header, in order. *)
Definition slabinfo_item : list string :=
  ["SLABINFO_noop"; "SLABINFO_extra"; "SLAB_NAME"; "SLAB_NUM_OBJS"; "SLAB_ACTIVE_OBJS";
   "SLAB_OBJ_SIZE"; "SLAB_OBJ_PER_SLAB"; "SLAB_NUMS_SLABS"; "SLAB_ACTIVE_SLABS";
   "SLAB_PAGES_PER_SLAB"; "SLAB_PERCENT_USED"; "SLAB_SIZE_TOTAL"; "SLABS_CACHES_TOTAL";
   "SLABS_CACHES_ACTIVE"; "SLABS_NUM_OBJS"; "SLABS_ACTIVE_OBJS"; "SLABS_OBJ_SIZE_AVG";
   "SLABS_OBJ_SIZE_MIN"; "SLABS_OBJ_SIZE_MAX"; "SLABS_NUMS_SLABS"; "SLABS_ACTIVE_SLABS";
   "SLABS_PAGES_TOTAL"; "SLABS_SIZE_ACTIVE"; "SLABS_SIZE_TOTAL"; "SLABS_DELTA_CACHES_TOTAL";
   "SLABS_DELTA_CACHES_ACTIVE"; "SLABS_DELTA_NUM_OBJS"; "SLABS_DELTA_ACTIVE_OBJS";
   "SLABS_DELTA_OBJ_SIZE_AVG"; "SLABS_DELTA_OBJ_SIZE_MIN"; "SLABS_DELTA_OBJ_SIZE_MAX";
   "SLABS_DELTA_NUMS_SLABS"; "SLABS_DELTA_ACTIVE_SLABS"; "SLABS_DELTA_PAGES_TOTAL";
   "SLABS_DELTA_SIZE_ACTIVE"; "SLABS_DELTA_SIZE_TOTAL"]%string.
Definition setter_of (n : string) : ssetter := default SNoop (assoc n setters).

Definition Item_table : list (uval -> slabs_hist * slabs_node -> uval) :=
  map (fun row => run_setter (setter_of row.1.1)) Item_rows.
Definition sort_table : list sortfunc := map (fun row => row.1.2) Item_rows.
Arguments Item_table : simpl never.
Arguments sort_table : simpl never.

Definition SLABINFO_logical_end : Z := logical_end Item_table.

Definition slabinfo_assign_results := assign_results Item_table.
Definition slabinfo_extents_free_all := extents_free_all.
Definition slabinfo_itemize_stack := itemize_stack.
Definition slabinfo_items_check_failed := items_check_failed Item_table.
Definition slabinfo_stacks_alloc := stacks_alloc (G := unit).
Definition slabinfo_stacks_reconfig_maybe := reconfig_maybe (G := unit) Item_table.

(** ** The context *)

(** [nodes] holds the [nodes_used] nodes in use; [slabinfo_fp] is negative for
    NULL.  The static [page_size] is what [getpagesize] returns. *)
Record slabinfo_info := SInfo {
  refcount : Z;
  slabinfo_fp : Z;
  nodes_alloc : Z;
  nodes : list slabs_node;
  slabs : slabs_hist;
  select_ext : ext_support;
  fetch_ext : ext_support;
  fetch : fetch_support;
  get_this : result;
  sav_secs : Z
}.

Definition nodes_used (i : slabinfo_info) : Z := Z.of_nat (length (nodes i)).

Definition set_refcount n i := SInfo n (slabinfo_fp i) (nodes_alloc i) (nodes i) (slabs i) (select_ext i) (fetch_ext i) (fetch i) (get_this i) (sav_secs i).
Definition set_fp fp i := SInfo (refcount i) fp (nodes_alloc i) (nodes i) (slabs i) (select_ext i) (fetch_ext i) (fetch i) (get_this i) (sav_secs i).
Definition set_nodes a ns i := SInfo (refcount i) (slabinfo_fp i) a ns (slabs i) (select_ext i) (fetch_ext i) (fetch i) (get_this i) (sav_secs i).
Definition set_slabs s i := SInfo (refcount i) (slabinfo_fp i) (nodes_alloc i) (nodes i) s (select_ext i) (fetch_ext i) (fetch i) (get_this i) (sav_secs i).
Definition set_select x i := SInfo (refcount i) (slabinfo_fp i) (nodes_alloc i) (nodes i) (slabs i) x (fetch_ext i) (fetch i) (get_this i) (sav_secs i).
Definition set_fetch x f i := SInfo (refcount i) (slabinfo_fp i) (nodes_alloc i) (nodes i) (slabs i) (select_ext i) x f (get_this i) (sav_secs i).
Definition set_get r i := SInfo (refcount i) (slabinfo_fp i) (nodes_alloc i) (nodes i) (slabs i) (select_ext i) (fetch_ext i) (fetch i) r (sav_secs i).
Definition set_secs s i := SInfo (refcount i) (slabinfo_fp i) (nodes_alloc i) (nodes i) (slabs i) (select_ext i) (fetch_ext i) (fetch i) (get_this i) s.

(** ** Node memory *)

Definition alloc_slabnodes (info : slabinfo_info) : M unit (bool * slabinfo_info) :=
  if nodes_used info <? nodes_alloc info then mret (true, info) else
  if INT_MAX <? nodes_alloc info * 5 then undef else
  let new_count := Z.quot (nodes_alloc info * 5) 4 + 30 in
  r ← sys (CMalloc new_count);
  if r_val r <? 0 then mret (false, info)
  else mret (true, set_nodes new_count (nodes info) info).

(** Room for one more node: false when memory ran out.  The node is then stored
    at index [nodes_used]. *)
Definition get_slabnode (info : slabinfo_info) : M unit (bool * slabinfo_info) :=
  if nodes_used info =? nodes_alloc info then alloc_slabnodes info else mret (true, info).

(** ** Parsing *)

(** [float] arithmetic, and the conversion to unsigned by truncation. *)
Definition f32_of (n : Z) : spec_float := binary_normalize 24 128 n 0 false.
Definition f32_trunc (f : spec_float) : Z :=
  match f with
  | S754_finite s m e => (if s then -1 else 1) * Z.shiftl (Zpos m) e
  | _ => 0
  end.
(** [(unsigned int)(100 * ((float)active / objs))] *)
Definition percent_used (active objs : Z) : Z :=
  f32_trunc (SFmul 24 128 (f32_of 100) (SFdiv 24 128 (f32_of active) (f32_of objs))).

Definition slab_fmt : list directive :=
  [DS SLABINFO_NAME_LEN; DU; DSpace; DU; DSpace; DU; DSpace; DU; DSpace; DU; DSpace; DLit 58; DSpace]
  ++ lits "tunables" ++ [DSpace; DSkipU; DSpace; DSkipU; DSpace; DSkipU; DSpace; DLit 58; DSpace]
  ++ lits "slabdata" ++ [DSpace; DU; DSpace; DU; DSpace; DSkipU].

(** The members of the node that [sscanf] stores, for a possibly incomplete
    scan; the node was cleared before. *)
Definition scanned_int (vs : list sval) (k : nat) : Z :=
  match vs !! k with Some (VI z) => z | _ => 0 end.
Definition scan_node (vs : list sval) : slabs_node :=
  Node (match vs with VS nm :: _ => nm | _ => [] end) 0
    (scanned_int vs 2) (scanned_int vs 1) (scanned_int vs 3) (scanned_int vs 4) (scanned_int vs 5)
    (scanned_int vs 7) (scanned_int vs 6) 0.

(** The members computed from them. *)
Definition finish_node (page_size : Z) (n : slabs_node) : slabs_node :=
  Node (match n_name n with [] => bs "unknown" | nm => nm end)
    (u64 (n_nr_slabs n * n_pages_per_slab n * page_size)) (n_nr_objs n) (n_nr_active_objs n)
    (n_obj_size n) (n_objs_per_slab n) (n_pages_per_slab n) (n_nr_slabs n) (n_nr_active_slabs n)
    (if negb (n_nr_objs n =? 0) then percent_used (n_nr_active_objs n) (n_nr_objs n) else 0).

(** What a node adds to the summary. *)
Definition add_node (s : slabs_summ) (n : slabs_node) : slabs_summ :=
  Summ (u32 (s_nr_objs s + n_nr_objs n)) (u32 (s_nr_active_objs s + n_nr_active_objs n))
    (u32 (s_nr_pages s + n_nr_slabs n * n_pages_per_slab n))
    (u32 (s_nr_slabs s + n_nr_slabs n)) (u32 (s_nr_active_slabs s + n_nr_active_slabs n))
    (u32 (s_nr_caches s + 1))
    (if negb (n_nr_objs n =? 0) then u32 (s_nr_active_caches s + 1) else s_nr_active_caches s)
    (s_avg_obj_size s)
    (if n_obj_size n <? s_min_obj_size s then n_obj_size n else s_min_obj_size s)
    (if s_max_obj_size s <? n_obj_size n then n_obj_size n else s_max_obj_size s)
    (u64 (s_active_size s + n_nr_active_objs n * n_obj_size n))
    (u64 (s_total_size s + n_nr_objs n * n_obj_size n)).

Definition set_min_max (s : slabs_summ) : slabs_summ :=
  Summ (s_nr_objs s) (s_nr_active_objs s) (s_nr_pages s) (s_nr_slabs s) (s_nr_active_slabs s)
    (s_nr_caches s) (s_nr_active_caches s) (s_avg_obj_size s) INT_MAX 0 (s_active_size s) (s_total_size s).

Definition set_average (s : slabs_summ) : slabs_summ :=
  if negb (s_nr_objs s =? 0) then
    Summ (s_nr_objs s) (s_nr_active_objs s) (s_nr_pages s) (s_nr_slabs s) (s_nr_active_slabs s)
      (s_nr_caches s) (s_nr_active_caches s) (u32 (s_total_size s / s_nr_objs s))
      (s_min_obj_size s) (s_max_obj_size s) (s_active_size s) (s_total_size s)
  else s.

Definition upd_new (f : slabs_summ -> slabs_summ) (i : slabinfo_info) : slabinfo_info :=
  set_slabs (Hist (f (h_new (slabs i))) (h_old (slabs i))) i.

Section read.
Variable page_size : Z.

Fixpoint slab_lines (fuel : nat) (info : slabinfo_info) : M unit (Z * slabinfo_info) :=
  match fuel with
  | O => nofuel
  | S f =>
      l ← sys (CFgets (slabinfo_fp info) SLABINFO_LINE_LEN);
      if r_val l <? 0 then mret (0, info) else
      buf ← deref (cstr (r_data l ++ [0]));
      if match buf with c :: _ => c =? 35 | [] => false end then slab_lines f info else
      '(ok, info) ← get_slabnode info;
      if negb ok then mret (1, info) else
      if nodes_alloc info <=? nodes_used info then undef else
      let vs := sscanf slab_fmt buf in
      let add n := set_nodes (nodes_alloc info) (nodes info ++ [n]) info in
      if (length vs <? 8)%nat then _ ← set_errno ERANGE; mret (1, add (scan_node vs)) else
      let n := finish_node page_size (scan_node vs) in
      if UINT_MAX <? n_use n then undef            (* conversion out of range *)
      else slab_lines f (upd_new (fun s => add_node s n) (add n))
  end.

Definition parse_slabinfo20 (fuel : nat) (info : slabinfo_info) : M unit (Z * slabinfo_info) :=
  '(rc, info) ← slab_lines fuel (upd_new set_min_max info);
  if negb (rc =? 0) then mret (rc, info) else mret (0, upd_new set_average info).

Definition version_fmt : list directive :=
  lits "slabinfo" ++ [DSpace] ++ lits "-" ++ [DSpace] ++ lits "version:" ++ [DSpace; DD; DLit 46; DD].

Definition slabinfo_read_failed (fuel : nat) (info : slabinfo_info) : M unit (Z * slabinfo_info) :=
  let info := set_slabs (Hist summ_zero (h_new (slabs info))) info in
  '(ok, info) ← alloc_slabnodes info;
  if negb ok then mret (1, info) else
  let info := set_nodes (nodes_alloc info) [] info in
  info ← (if slabinfo_fp info <? 0
          then f ← sys (CFopen (bs "/proc/slabinfo")); mret (set_fp (r_val f) info)
          else mret info);
  if slabinfo_fp info <? 0 then mret (1, info) else
  s ← sys (CFseek (slabinfo_fp info) 0);
  if r_val s <? 0 then mret (1, info) else
  l ← sys (CFgets (slabinfo_fp info) SLABINFO_LINE_LEN);
  if r_val l <? 0 then mret (1, info) else
  line ← deref (cstr (r_data l ++ [0]));
  match sscanf version_fmt line with
  | [VI major; VI minor] =>
      if negb (major =? 2) then _ ← set_errno ERANGE; mret (1, info) else parse_slabinfo20 fuel info
  | _ => _ ← set_errno ERANGE; mret (1, info)
  end.

(** ** Public functions *)

Definition slabinfo_stacks_fetch (info : slabinfo_info) : M unit (Z * slabinfo_info) :=
  '(rc, x, f) ← stacks_fetch Item_table STACKS_INCR (-1) (map (fun n => (slabs info, n)) (nodes info))
                  (fetch_ext info) (fetch info);
  mret (rc, set_fetch x f info).

Definition procps_slabinfo_unref (info : option slabinfo_info) : M unit (Z * option slabinfo_info) :=
  match info with
  | None => mret (- EINVAL, None)
  | Some info =>
      let info := set_refcount (refcount info - 1) info in
      if refcount info <? 1 then
        _ ← (if 0 <=? slabinfo_fp info then _ ← sys (CFclose (slabinfo_fp info)); mret tt else mret tt);
        mret (0, None)
      else mret (refcount info, Some info)
  end.

Definition procps_slabinfo_ref (info : option slabinfo_info) : Z * option slabinfo_info :=
  match info with
  | None => (- EINVAL, None)
  | Some info => let info := set_refcount (refcount info + 1) info in (refcount info, Some info)
  end.

Definition procps_slabinfo_new (fuel : nat) (slot : option slabinfo_info)
  : M unit (Z * option slabinfo_info) :=
  match slot with
  | Some _ => mret (- EINVAL, slot)
  | None =>
      c ← sys (CMalloc 1);
      if r_val c <? 0 then mret (- ENOMEM, None) else
      let p := SInfo 1 (-1) 0 [] (Hist summ_zero summ_zero) ext_empty ext_empty fetch_empty
                 (Result 0 (U64 0)) 0 in
      '(rc, p) ← slabinfo_read_failed fuel p;
      if negb (rc =? 0) then
        e ← get_errno;                       (* unref saves and restores errno *)
        _ ← procps_slabinfo_unref (Some p);
        mret (- e, None)
      else mret (0, Some p)
  end.

Definition procps_slabinfo_get (fuel : nat) (info : option slabinfo_info) (item : Z)
  : M unit (option result * option slabinfo_info) :=
  _ ← set_errno EINVAL;
  match info with
  | None => mret (None, None)
  | Some info =>
      if (item <? 0) || (SLABINFO_logical_end <=? item) then mret (None, Some info) else
      _ ← set_errno 0;
      t ← sys CTime;
      '(rc, info) ← (if 1 <=? r_val t - sav_secs info then
                       '(rc, info) ← slabinfo_read_failed fuel info;
                       if negb (rc =? 0) then mret (1, info) else mret (0, set_secs (r_val t) info)
                     else mret (0, info));
      if negb (rc =? 0) then mret (None, Some info) else
      set ← deref (Item_table !! Z.to_nat item);
      let r := Result item (set (U64 0) (slabs info, nul_node)) in
      mret (Some r, Some (set_get r info))
  end.

Definition procps_slabinfo_reap (fuel : nat) (info : option slabinfo_info)
    (addr : Z) (items : list Z) (numitems : Z) : M unit (bool * option slabinfo_info) :=
  _ ← set_errno EINVAL;
  match info with
  | None => mret (false, None)
  | Some info =>
      if addr =? 0 then mret (false, Some info) else
      '(rc, x) ← slabinfo_stacks_reconfig_maybe (fetch_ext info) addr items numitems;
      let info := set_fetch x (fetch info) info in
      if rc <? 0 then mret (false, Some info) else
      _ ← set_errno 0;
      '(rc, info) ← slabinfo_read_failed fuel info;
      if negb (rc =? 0) then mret (false, Some info) else
      '(rc, info) ← slabinfo_stacks_fetch info;
      mret (negb (rc <? 0), Some info)
  end.

Definition procps_slabinfo_select (fuel : nat) (info : option slabinfo_info)
    (addr : Z) (items : list Z) (numitems : Z) : M unit (option stack * option slabinfo_info) :=
  _ ← set_errno EINVAL;
  match info with
  | None => mret (None, None)
  | Some info =>
      if addr =? 0 then mret (None, Some info) else
      '(rc, x) ← slabinfo_stacks_reconfig_maybe (select_ext info) addr items numitems;
      let info := set_select x info in
      if rc <? 0 then mret (None, Some info) else
      _ ← set_errno 0;
      '(ok, x) ← (match x_extents x with
                  | [] => '(b, x) ← slabinfo_stacks_alloc x 1; mret (bool_decide (b <> None), x)
                  | _ => mret (true, x)
                  end);
      let info := set_select x info in
      if negb ok then mret (None, Some info) else
      '(rc, info) ← slabinfo_read_failed fuel info;
      if negb (rc =? 0) then mret (None, Some info) else
      b ← deref (head (x_extents (select_ext info)));
      let p := (b_id b, 0%nat) in
      s ← deref (load (select_ext info) p);
      s ← deref (slabinfo_assign_results s (slabs info, nul_node));
      mret (Some s, Some (set_select (store (select_ext info) p s) info))
  end.

(** The debugging interface; the flag says whether a message is printed. *)
Definition xtra_slabinfo_get (fuel : nat) (info : option slabinfo_info) (item : Z)
    (typestr : option utype) : M unit (option result * option slabinfo_info * bool) :=
  '(r, info) ← procps_slabinfo_get fuel info item;
  mret (r, info, xtra_get Item_table (map snd Item_rows) typestr item r).
End read.

Definition xtra_slabinfo_val := xtra_val Item_table (map snd Item_rows).

(** [strcoll] and [qsort_r] are parameters. *)
Definition procps_slabinfo_sort (qsort : (stack -> stack -> Z) -> list stack -> list stack)
    (strcoll : bytes -> bytes -> Z) (stacks : list stack) (sortitem order : Z) :=
  procps_sort qsort strcoll sort_table stacks sortitem order.

(** ** The tables *)

Definition setter_type (s : ssetter) : option utype :=
  match s with
  | SNoop | SExtra => None
  | NOD_name => Some str
  | NOD_set t _ | REG_set t _ | HST_set t _ => Some t
  end.

(** Only what belongs to one cache can be sorted on. *)
Definition sort_fits (s : ssetter) (k : sortfunc) : bool :=
  match s, k with
  | SNoop, sort_noop | SExtra, sort_ul_int | NOD_name, sort_str => true
  | NOD_set u_int _, sort_u_int | NOD_set ul_int _, sort_ul_int => true
  | REG_set _ _, sort_noop | HST_set _ _, sort_noop => true
  | _, _ => false
  end.

Lemma slab_table_consistent :
  map (fun row => row.1.1) Item_rows = slabinfo_item /\
  Forall (fun row => exists s, assoc row.1.1 setters = Some s /\ row.2 = setter_type s /\
                     sort_fits s row.1.2 = true) Item_rows.
Proof.
  split; [reflexivity|]. repeat (constructor; [eexists; split; [reflexivity|split; reflexivity]|]).
  constructor.
Qed.

(** ** The summary in closed form *)

Definition total (f : slabs_node -> Z) (ns : list slabs_node) : Z :=
  foldr (fun n a => f n + a) 0 ns.

Definition in_use (n : slabs_node) : Z := if negb (n_nr_objs n =? 0) then 1 else 0.

Definition summary_of (ns : list slabs_node) : slabs_summ :=
  Summ (u32 (total n_nr_objs ns)) (u32 (total n_nr_active_objs ns))
    (u32 (total (fun n => n_nr_slabs n * n_pages_per_slab n) ns))
    (u32 (total n_nr_slabs ns)) (u32 (total n_nr_active_slabs ns))
    (u32 (Z.of_nat (length ns))) (u32 (total in_use ns)) 0
    (foldl Z.min INT_MAX (map n_obj_size ns)) (foldl Z.max 0 (map n_obj_size ns))
    (u64 (total (fun n => n_nr_active_objs n * n_obj_size n) ns))
    (u64 (total (fun n => n_nr_objs n * n_obj_size n) ns)).

Lemma total_snoc f ns n : total f (ns ++ [n]) = total f ns + f n.
Proof. unfold total. induction ns as [|m ns IH]; cbn; [lia|]. rewrite IH. lia. Qed.

Lemma wrap_u_add w a b : wrap_u w (wrap_u w a + b) = wrap_u w (a + b).
Proof. unfold wrap_u. apply Zplus_mod_idemp_l. Qed.

(** Adding the nodes one by one sums up. *)
Lemma add_nodes_sum ns : foldl add_node (set_min_max summ_zero) ns = summary_of ns.
Proof.
  induction ns as [|n ns IH] using rev_ind; [reflexivity|].
  rewrite foldl_app. cbn [foldl]. rewrite IH. unfold add_node, summary_of.
  cbn [s_nr_objs s_nr_active_objs s_nr_pages s_nr_slabs s_nr_active_slabs s_nr_caches
    s_nr_active_caches s_avg_obj_size s_min_obj_size s_max_obj_size s_active_size s_total_size].
  rewrite !total_snoc, map_app, !foldl_app, length_app. cbn [map foldl length].
  rewrite !wrap_u_add. f_equal; try done; unfold in_use; zcase; try lia;
    rewrite ?Z.add_0_r; f_equal; lia.
Qed.

(** ** Lines as the kernel prints them *)

Record sline := SLine { sl_name : bytes; sl_active : Z; sl_objs : Z; sl_size : Z; sl_per : Z;
  sl_pages : Z; sl_batch : Z; sl_limit : Z; sl_shared : Z; sl_aslabs : Z; sl_nslabs : Z; sl_avail : Z }.

(** A blank and a number printed with a minimal width. *)
Definition field (width : nat) (v : Z) : bytes := replicate (S (width - length (dec v))) 32 ++ dec v.

Definition print_sline (l : sline) : bytes :=
  sl_name l ++ replicate (17 - length (sl_name l)) 32 ++ field 6 (sl_active l) ++ field 6 (sl_objs l)
  ++ field 6 (sl_size l) ++ field 4 (sl_per l) ++ field 4 (sl_pages l) ++ bs " : tunables"
  ++ field 4 (sl_batch l) ++ field 4 (sl_limit l) ++ field 4 (sl_shared l) ++ bs " : slabdata"
  ++ field 6 (sl_aslabs l) ++ field 6 (sl_nslabs l) ++ field 6 (sl_avail l) ++ [10].

Definition is_uint (v : Z) : Prop := 0 <= v < 2 ^ 32.

(** A name without white space, not read as a comment, counters that fit and a
    representable percentage. *)
Definition sline_ok (l : sline) : Prop :=
  sl_name l <> [] /\ head (sl_name l) <> Some 35 /\ (length (sl_name l) <= SLABINFO_NAME_LEN)%nat /\
  Forall (fun c => isspace c = false) (sl_name l) /\
  Forall is_uint [sl_active l; sl_objs l; sl_size l; sl_per l; sl_pages l; sl_batch l; sl_limit l;
                  sl_shared l; sl_aslabs l; sl_nslabs l; sl_avail l] /\
  (sl_objs l <> 0 -> percent_used (sl_active l) (sl_objs l) <= UINT_MAX).

Lemma stops_field w v r : stops (field w v ++ r).
Proof. done. Qed.

Lemma sscanf_field k w v r f : is_uint v -> stops r ->
  sscanf (DU :: f) (replicate k 32 ++ field w v ++ r) = VI v :: sscanf f r.
Proof.
  intros Hv Hr. unfold field. rewrite <- app_assoc, app_assoc, <- replicate_add. by apply sscanf_DU.
Qed.

Lemma sscanf_sp_field w v r f : is_uint v -> stops r ->
  sscanf (DSpace :: DU :: f) (field w v ++ r) = VI v :: sscanf f r.
Proof.
  intros Hv Hr. unfold field. rewrite <- app_assoc, sscanf_DSpace_dec by apply Hv.
  by apply (sscanf_DU 0).
Qed.

Lemma sscanf_skip_field w v r f : is_uint v -> stops r ->
  sscanf (DSpace :: DSkipU :: f) (field w v ++ r) = sscanf f r.
Proof.
  intros [H1 H2] Hr. unfold field. rewrite <- app_assoc, sscanf_DSpace_dec by done.
  apply (sscanf_DSkipU 0); [unfold ULONG_MAX; lia|done].
Qed.

(** [" : <word>"] of the format against the text. *)
Lemma sscanf_section (word : string) f r :
  sscanf (DSpace :: DLit 58 :: DSpace :: lits word ++ f) (bs " : " ++ bs word ++ r) =
  sscanf (lits word ++ f) (skip_spaces (bs word ++ r)).
Proof. done. Qed.

Ltac scan_fields :=
  repeat first [rewrite sscanf_sp_field by done | rewrite sscanf_skip_field by done].

Lemma sscanf_word w nm k w' v r f : nm <> [] -> Forall (fun c => isspace c = false) nm -> (length nm <= w)%nat ->
  sscanf (DS w :: f) (nm ++ replicate k 32 ++ field w' v ++ r) =
  VS nm :: sscanf f (replicate k 32 ++ field w' v ++ r).
Proof.
  intros Hne Hs Hl. cbn [sscanf]. rewrite skip_spaces_name by done. unfold field.
  destruct k as [|k]; cbn [replicate app]; rewrite span_word_all by done; by destruct nm.
Qed.

Definition values (l : sline) : list sval :=
  [VS (sl_name l); VI (sl_active l); VI (sl_objs l); VI (sl_size l); VI (sl_per l); VI (sl_pages l);
   VI (sl_aslabs l); VI (sl_nslabs l)].

(** A printed line is read back. *)
Lemma sscanf_print_sline l : sline_ok l -> sscanf slab_fmt (print_sline l) = values l.
Proof.
  intros (Hne & _ & Hlen & Hs & Hv & _). unfold print_sline.
  repeat match goal with H : Forall is_uint (_ :: _) |- _ =>
    let H1 := fresh "Hu" in apply Forall_cons in H as [H1 H] end.
  change slab_fmt with (DS SLABINFO_NAME_LEN :: DU :: DSpace :: DU :: DSpace :: DU :: DSpace :: DU ::
    DSpace :: DU :: DSpace :: DLit 58 :: DSpace :: lits "tunables" ++ DSpace :: DSkipU :: DSpace :: DSkipU ::
    DSpace :: DSkipU :: DSpace :: DLit 58 :: DSpace :: lits "slabdata" ++ [DSpace; DU; DSpace; DU; DSpace; DSkipU]).
  rewrite sscanf_word, sscanf_field by done. scan_fields.
  change (bs " : tunables") with (bs " : " ++ bs "tunables").
  change (bs " : slabdata") with (bs " : " ++ bs "slabdata").
  rewrite <- !app_assoc, sscanf_section.
  change (skip_spaces (bs "tunables" ++ ?r)) with (bs "tunables" ++ r).
  rewrite sscanf_lits. scan_fields. rewrite sscanf_section.
  change (skip_spaces (bs "slabdata" ++ ?r)) with (bs "slabdata" ++ r).
  rewrite sscanf_lits. scan_fields. done.
Qed.

(** ** Reading *)

(** The rows of the file: comments, without their [#], and caches. *)
Abbreviation row := (bytes + sline)%type.

Definition print_row (r : row) : bytes := match r with inl c => 35 :: c | inr l => print_sline l end.

Definition row_ok (r : row) : Prop :=
  Forall (fun c => c <> 0) (print_row r) /\ match r with inl _ => True | inr l => sline_ok l end.

Definition node_of_line (page_size : Z) (l : sline) : slabs_node :=
  finish_node page_size (scan_node (values l)).

Fixpoint nodes_of (page_size : Z) (rows : list row) : list slabs_node :=
  match rows with
  | [] => []
  | inl _ :: r => nodes_of page_size r
  | inr l :: r => node_of_line page_size l :: nodes_of page_size r
  end.

(** So many caches are counted without overflow of the [int] sizes. *)
Definition MAX_NODES : Z := 100000000.

Definition room (info : slabinfo_info) : Prop :=
  nodes_used info <= MAX_NODES /\ nodes_used info <= nodes_alloc info <= 5 * MAX_NODES / 4 + 30.

Lemma alloc_slabnodes_ok o w info : memory o -> room info ->
  wp (alloc_slabnodes info) o w (fun res w' => exists a,
    res = (true, set_nodes a (nodes info) info) /\
    nodes_used info < a <= 5 * MAX_NODES / 4 + 30 /\
    (forall fp, line_no fp (w_tr w') = line_no fp (w_tr w)) /\
    forall h, net h (w_tr w') = net h (w_tr w)).
Proof.
  intros Hm [H1 H2]. unfold alloc_slabnodes. destruct (Z.ltb_spec (nodes_used info) (nodes_alloc info)).
  { apply wp_ret. exists (nodes_alloc info). split; [by destruct info|]. split; [lia|done]. }
  assert (nodes_alloc info = nodes_used info) as E by lia. rewrite E.
  assert (0 <= nodes_used info) by (unfold nodes_used; lia). unfold MAX_NODES, INT_MAX in *.
  destruct (Z.ltb_spec 2147483647 (nodes_used info * 5)); [lia|].
  wstep. wsys r Hr. destruct (Z.ltb_spec (r_val r) 0) as [Hlt|_]; [subst r; specialize (Hm (w_tr w) (Z.quot (nodes_used info * 5) 4 + 30)); lia|].
  apply wp_ret. eexists. split; [done|].
  rewrite Z.quot_div_nonneg by lia.
  split; [|split; [done|intros []; unfold net; cbn [w_tr foldr effect]; lia]].
  change (5 * 100000000 / 4) with 125000000.
  pose proof (Z.div_le_mono (nodes_used info * 5) 500000000 4 ltac:(lia) ltac:(lia)) as Hd.
  change (500000000 / 4) with 125000000 in Hd.
  pose proof (Z.div_le_lower_bound (nodes_used info * 5) 4 (nodes_used info) ltac:(lia) ltac:(lia)). lia.
Qed.

Lemma get_slabnode_ok o w info : memory o -> room info ->
  wp (get_slabnode info) o w (fun res w' => exists a,
    res = (true, set_nodes a (nodes info) info) /\
    nodes_used info < a <= 5 * MAX_NODES / 4 + 30 /\
    (forall fp, line_no fp (w_tr w') = line_no fp (w_tr w)) /\
    forall h, net h (w_tr w') = net h (w_tr w)).
Proof.
  intros Hm Hr. unfold get_slabnode. destruct (Z.eqb_spec (nodes_used info) (nodes_alloc info)).
  - by apply alloc_slabnodes_ok.
  - apply wp_ret. exists (nodes_alloc info). destruct Hr as [H1 H2].
    split; [by destruct info|]. split; [lia|done].
Qed.

Lemma node_of_line_use ps l : sline_ok l -> n_use (node_of_line ps l) <= UINT_MAX.
Proof.
  intros (_ & _ & _ & _ & _ & H). unfold node_of_line, finish_node, scan_node, values. cbn [n_use n_nr_objs n_nr_active_objs].
  unfold scanned_int. cbn [lookup list_lookup].
  destruct (Z.eqb_spec (sl_objs l) 0); cbn [negb]; [done|]. by apply H.
Qed.

Lemma sline_not_comment l r : sline_ok l ->
  match print_sline l ++ r with c :: _ => c =? 35 | [] => false end = false.
Proof.
  intros (Hne & Hh & _). unfold print_sline. destruct (sl_name l) as [|c n]; [done|]. cbn in *.
  destruct (Z.eqb_spec c 35) as [->|]; done.
Qed.

(** The state after the rows were read. *)
Definition after_rows (ps : Z) (rows : list row) (a : Z) (info : slabinfo_info) : slabinfo_info :=
  upd_new (fun s => foldl add_node s (nodes_of ps rows)) (set_nodes a (nodes info ++ nodes_of ps rows) info).

Lemma after_rows_row ps l rows a a' info :
  after_rows ps (inr l :: rows) a' info =
  after_rows ps rows a' (upd_new (fun s => add_node s (node_of_line ps l))
    (set_nodes a (nodes info ++ [node_of_line ps l]) (set_nodes a (nodes info) info))).
Proof. unfold after_rows. cbn. by rewrite <- app_assoc. Qed.

Lemma slab_lines_ok o fp ps first rows : memory o ->
  serves o fp (first :: map print_row rows) -> Forall row_ok rows ->
  forall rem fuel w info, slabinfo_fp info = fp ->
  drop (line_no fp (w_tr w)) (first :: map print_row rows) = map print_row rem -> Forall row_ok rem ->
  (length rem < fuel)%nat -> nodes_used info + Z.of_nat (length rem) <= MAX_NODES -> room info ->
  wp (slab_lines ps fuel info) o w (fun res w' => exists a,
    let info' := after_rows ps rem a info in res = (0, info') /\ room info' /\
    forall h, net h (w_tr w') = net h (w_tr w)).
Proof.
  intros Hm Hs Hall. induction rem as [|r rem IH]; intros fuel w info Hfp Hrem Hok Hfuel Hmax Hroom;
    (destruct fuel as [|f]; [cbn in Hfuel; lia|]); cbn [slab_lines]; wstep; wsys l Hl;
    rewrite Hfp, Hs in Hl; rewrite Hfp; set (k := line_no fp (w_tr w)) in *.
  - assert (Hn : (first :: map print_row rows) !! k = None).
    { apply lookup_ge_None. apply (f_equal length) in Hrem. rewrite length_drop in Hrem. change (length (map print_row [])) with 0%nat in Hrem. lia. }
    rewrite Hn in Hl. subst l. cbn [rerr r_val Z.ltb Z.compare]. apply wp_ret. exists (nodes_alloc info).
    unfold after_rows. cbn [nodes_of foldl]. rewrite app_nil_r.
    split; [by destruct info as [? ? ? ? [] ? ? ? ? ?]|]. split; [done|].
    intros []; unfold net; cbn [w_tr foldr effect]; lia.
  - assert (Hk : (first :: map print_row rows) !! k = Some (print_row r)).
    { rewrite <- (Nat.add_0_r k), <- lookup_drop, Hrem. done. }
    assert (Hrem' : drop (S k) (first :: map print_row rows) = map print_row rem).
    { rewrite <- (Nat.add_1_r k), <- drop_drop, Hrem. done. }
    rewrite Hk in Hl. subst l. cbn [rdata r_val r_data Z.ltb Z.compare].
    apply Forall_cons in Hok as [[Hnul Hrow] Hok]. cbn [length] in Hmax, Hfuel.
    rewrite (cstr_app _ [] Hnul). wstep. unfold wp at 1. cbn [deref mret M_ret].
    destruct r as [c|l]; cbn [print_row nodes_of] in *.
    + rewrite Z.eqb_refl. eapply wp_mono.
      { apply (IH f); try done; [|lia|lia]. cbn [w_tr line_no]. by rewrite Z.eqb_refl. }
      intros res w' (a & -> & Hr & Hnet). exists a. split; [done|]. split; [done|].
      intros h. rewrite Hnet. destruct h; unfold net; cbn [w_tr foldr effect]; lia.
    + pose proof (sline_not_comment l [] Hrow) as Hc. rewrite app_nil_r in Hc. rewrite Hc. wstep.
      eapply wp_mono; [by apply (get_slabnode_ok o)|]. intros res w1 (a & -> & Ha & Hl1 & Hn1).
      cbn [negb]. destruct (Z.leb_spec (nodes_alloc (set_nodes a (nodes info) info))
        (nodes_used (set_nodes a (nodes info) info))) as [Hle|_]; [unfold nodes_used in *; cbn in Hle; lia|].
      rewrite sscanf_print_sline by done. cbn [length values Nat.ltb Nat.leb]. fold (values l).
      fold (node_of_line ps l). pose proof (node_of_line_use ps l Hrow).
      destruct (Z.ltb_spec UINT_MAX (n_use (node_of_line ps l))); [lia|].
      eapply wp_mono.
      { apply (IH f); try done; [|lia|..].
        - rewrite Hl1. cbn [w_tr line_no]. by rewrite Z.eqb_refl.
        - unfold nodes_used in *. cbn. rewrite length_app. cbn. lia.
        - unfold room, nodes_used in *. cbn. rewrite length_app. cbn. lia. }
      intros res w' (a' & -> & Hr & Hnet). exists a'.
      cbv zeta. rewrite (after_rows_row ps l rem a a' info). split; [done|]. split; [done|].
      intros h. rewrite Hnet, Hn1. destruct h; unfold net; cbn [w_tr foldr effect]; lia.
Qed.

Definition version_line : bytes := bs "slabinfo - version: 2.1" ++ [10].

(** A system on which /proc/slabinfo can be opened and read. *)
Record slab_system (o : os) (rows : list row) : Prop := {
  ss_memory : memory o;
  ss_open : forall t p, 0 <= r_val (o t (CFopen p));
  ss_seek : forall t fp, 0 <= r_val (o t (CFseek fp 0));
  ss_file : forall fp, serves o fp (version_line :: map print_row rows);
  ss_rows : Forall row_ok rows;
  ss_size : Z.of_nat (length rows) <= MAX_NODES
}.

Definition read_post (ps : Z) (rows : list row) (info : slabinfo_info) (w : world unit)
    (res : Z * slabinfo_info) (w' : world unit) : Prop :=
  let info' := res.2 in
    res.1 = 0 /\ nodes info' = nodes_of ps rows /\ room info' /\
    slabs info' = Hist (set_average (summary_of (nodes_of ps rows))) (h_new (slabs info)) /\
    refcount info' = refcount info /\ select_ext info' = select_ext info /\
    fetch_ext info' = fetch_ext info /\ fetch info' = fetch info /\
    forall h, 0 <= handle_val h ->
      net h (w_tr w') - held (slabinfo_fp info') h = net h (w_tr w) - held (slabinfo_fp info) h.

(** Opening the stream at the first read. *)
Lemma open_slabinfo o (w : world unit) info : (forall t p, 0 <= r_val (o t (CFopen p))) ->
  wp (if slabinfo_fp info <? 0
      then f ← sys (CFopen (bs "/proc/slabinfo")); mret (set_fp (r_val f) info)
      else mret info) o w (fun i w1 => exists fp, i = set_fp fp info /\ 0 <= fp /\
      forall h, 0 <= handle_val h ->
        net h (w_tr w1) - held fp h = net h (w_tr w) - held (slabinfo_fp info) h).
Proof.
  intros Ho. destruct (Z.ltb_spec (slabinfo_fp info) 0) as [Hlt|Hge].
  - wstep. wsys f Hfo. apply wp_ret. exists (r_val f). split; [done|]. subst f. split; [apply Ho|].
    intros h Hh. unfold net. cbn [w_tr foldr]. specialize (Ho (w_tr w) (bs "/proc/slabinfo")).
    destruct h; cbn [effect held]; unfold opened; zcase; cbn [andb]; lia.
  - apply wp_ret. exists (slabinfo_fp info). split; [by destruct info|]. done.
Qed.

Lemma slab_read_ok o ps rows fuel info w : slab_system o rows -> (length rows < fuel)%nat -> room info ->
  wp (slabinfo_read_failed ps fuel info) o w (read_post ps rows info w).
Proof.
  intros [Hm Ho Hsk Hs Hf Hsz] Hfuel Hroom. unfold slabinfo_read_failed. wstep.
  eapply wp_mono; [by apply (alloc_slabnodes_ok o)|]. intros res w0 (a & -> & Ha & _ & Hn0).
  cbn [negb]. wstep. eapply wp_mono; [by apply (open_slabinfo o)|].
  intros i w1 (fp & -> & Hfp & Hn1). cbn [slabinfo_fp set_fp].
  destruct (Z.ltb_spec fp 0); [lia|]. wstep. wsys sk Hsk1.
  destruct (Z.ltb_spec (r_val sk) 0) as [Hlt|_]; [subst sk; specialize (Hsk (w_tr w1) fp); lia|].
  wstep. wsys l Hl. rewrite Hs in Hl. cbn [line_no] in Hl. rewrite Z.eqb_refl in Hl. cbn [lookup list_lookup] in Hl.
  subst l. cbn [rdata r_val r_data Z.ltb Z.compare]. wstep.
  change (cstr (version_line ++ [0])) with (Some version_line). unfold wp at 1. cbn [deref mret M_ret].
  change (sscanf version_fmt version_line) with [VI 2; VI 1]. cbn [Z.eqb Pos.eqb negb].
  unfold parse_slabinfo20. wstep.
  eapply wp_mono.
  { apply (slab_lines_ok o fp ps version_line rows Hm (Hs fp) Hf rows); try done.
    - cbn [w_tr line_no]. by rewrite !Z.eqb_refl.
    - unfold room, nodes_used in *. cbn in *. lia. }
  cbn [w_tr]. intros res w2 (a' & -> & Hr & Hn2). cbn [Z.eqb negb]. apply wp_ret.
  unfold read_post. cbn [fst snd]. split; [done|]. split; [done|]. split; [done|].
  split; [by cbn; rewrite <- add_nodes_sum|]. do 4 (split; [done|]).
  intros h Hh. cbn [slabinfo_fp upd_new set_slabs after_rows set_nodes set_fp]. rewrite Hn2.
  specialize (Hn1 h Hh). rewrite Hn0 in Hn1. cbn [slabinfo_fp set_slabs set_nodes] in Hn1. rewrite <- Hn1.
  destruct h; unfold net; cbn [foldr effect]; lia.
Qed.

(** ** Reaping *)

Definition slab_inv (info : slabinfo_info) : Prop :=
  ext_inv Item_table (select_ext info) /\ ext_inv Item_table (fetch_ext info) /\
  anchor_ok (fetch_ext info) (fetch info) /\ results_ok (fetch info) /\ room info.

Lemma slab_logical_end : SLABINFO_logical_end = 36.
Proof. reflexivity. Qed.

Definition reap_post (ps : Z) (rows : list row) (its : list Z) (info : slabinfo_info) (w : world unit)
    (res : bool * option slabinfo_info) (w' : world unit) : Prop :=
  exists info', res = (true, Some info') /\ slab_inv info' /\ nodes info' = nodes_of ps rows /\
    slabs info' = Hist (set_average (summary_of (nodes_of ps rows))) (h_new (slabs info)) /\
    reaped Item_table its (fetch_ext info') (fetch info') (map (fun n => (slabs info', n)) (nodes info')) /\
    forall h, 0 <= handle_val h ->
      net h (w_tr w') - held (slabinfo_fp info') h = net h (w_tr w) - held (slabinfo_fp info) h.

(** C31: procps_slabinfo_reap: on a system where /proc/slabinfo can be read, a call
    with valid items succeeds without undefined behaviour; there is one node
    per cache line of the file with the values printed there; the summary is
    the sum (at the width of its counters), minimum, maximum and average over
    the nodes, and the summary before the call becomes the history; one stack
    per cache is handed out, in file order and closed by a NULL, in which each
    item is set by its own setter; the context stays sound, and only its own
    stream stays open. *)
Theorem procps_slabinfo_reap_ok o ps rows fuel info addr items numitems w :
  slab_system o rows -> (length rows < fuel)%nat -> slab_inv info ->
  2 * SLABINFO_logical_end <= addr -> 1 <= numitems <= Z.of_nat (length items) ->
  Forall (valid_item Item_table) (take (Z.to_nat numitems) items) ->
  wp (procps_slabinfo_reap ps fuel (Some info) addr items numitems) o w
    (reap_post ps rows (take (Z.to_nat numitems) items) info w).
Proof.
  intros Hsys Hfuel (Hs & Hfx & Ha & Hr & Hroom) Haddr Hnum Hv.
  pose proof (ss_memory _ _ Hsys) as Hm. set (its := take (Z.to_nat numitems) items) in *.
  unfold procps_slabinfo_reap. wstep. unfold wp at 1. cbn [set_errno].
  destruct (Z.eqb_spec addr 0) as [E|_]; [rewrite slab_logical_end in Haddr; lia|].
  wstep. eapply wp_mono; [by apply (reconfig_maybe_ok Item_table o)|].
  intros [rc x] w1. cbn [fst snd w_tr]. intros (Hrc & Hx & Hxx & Hn1). fold its in Hx.
  destruct (Z.ltb_spec rc 0); [lia|]. wstep. unfold wp at 1. cbn [set_errno]. wstep.
  eapply wp_mono; [by apply (slab_read_ok o ps rows)|].
  intros [rc2 info2] w2 (Hrc2 & Hns & Hroom2 & Hsl & _ & Hsel & Hfe & Hfs & Hn2).
  cbn [fst snd] in *. subst rc2. cbn [Z.eqb negb].
  cbn [set_fetch fetch_ext fetch select_ext slabs slabinfo_fp w_tr] in *.
  wstep. unfold slabinfo_stacks_fetch. wstep. rewrite Hfe, Hfs.
  eapply wp_mono.
  { apply (stacks_fetch_ok Item_table STACKS_INCR (-1) o w2 its); try done.
    by apply (anchor_reconfig (fetch_ext info)). }
  intros res w3 (x3 & f3 & -> & Hx3 & Ha3 & Hr3 & Hreap & Hn3). apply wp_ret. apply wp_ret.
  eexists. rewrite (proj2 (Z.ltb_ge _ 0)) by lia. split; [done|].
  split; [|split; [done|split; [done|split; [done|]]]].
  - split; [cbn; by rewrite Hsel|]. split; [right; by exists its|]. done.
  - intros h Hh. cbn [slabinfo_fp set_fetch]. rewrite Hn3, Hn2, Hn1 by done. done.
Qed.

(** ** Witnesses *)

Definition sample_rows : list row :=
  [inl (bs " name            <active_objs>");
   inr (SLine (bs "kmalloc-64") 96 128 64 64 1 120 60 8 2 2 0);
   inr (SLine (bs "dentry") 21 42 192 21 1 120 60 8 2 2 0)].

Definition sample_slab_os : os := fun t c =>
  match c with
  | CFgets fp _ => match (version_line :: map print_row sample_rows) !! line_no fp t with
                   | Some l => rdata 1 l | None => rerr 0 end
  | CFopen _ => rok 5
  | _ => rok 1
  end.

Lemma sample_rows_ok : Forall row_ok sample_rows.
Proof.
  constructor; [|constructor; [|apply Forall_singleton]].
  - split; [|done]. vm_compute. repeat (constructor; [done|]). constructor.
  - split; [vm_compute; repeat (constructor; [done|]); constructor|].
    split; [done|]. split; [done|]. split; [cbn; unfold SLABINFO_NAME_LEN; lia|].
    split; [repeat (constructor; [done|]); constructor|].
    split; [unfold is_uint; repeat (constructor; [cbn; lia|]); constructor|]. intros _. by vm_compute.
  - split; [vm_compute; repeat (constructor; [done|]); constructor|].
    split; [done|]. split; [done|]. split; [cbn; unfold SLABINFO_NAME_LEN; lia|].
    split; [repeat (constructor; [done|]); constructor|].
    split; [unfold is_uint; repeat (constructor; [cbn; lia|]); constructor|]. intros _. by vm_compute.
Qed.

Lemma sample_slab_system : slab_system sample_slab_os sample_rows.
Proof.
  split; [by intros t sz|by intros t p|by intros t fp|by intros fp t n|apply sample_rows_ok|].
  unfold MAX_NODES. cbn. lia.
Qed.

Definition sample_info : slabinfo_info :=
  SInfo 1 (-1) 0 [] (Hist summ_zero summ_zero) ext_empty ext_empty fetch_empty (Result 0 (U64 0)) 0.

Lemma sample_slab_inv : slab_inv sample_info.
Proof.
  split; [by left|]. split; [by left|]. split; [done|]. split; [done|].
  split; [by vm_compute|split; by vm_compute].
Qed.

Definition sample_world : world unit := World [] 0 tt.

Lemma procps_slabinfo_reap_ok_witness :
  wp (procps_slabinfo_reap 4096 4 (Some sample_info) 4096 [2; 3; 10] 3) sample_slab_os sample_world
    (reap_post 4096 sample_rows [2; 3; 10] sample_info sample_world).
Proof.
  apply (procps_slabinfo_reap_ok sample_slab_os 4096 sample_rows 4 sample_info 4096 [2; 3; 10] 3 sample_world);
    [apply sample_slab_system|cbn; lia|apply sample_slab_inv|rewrite slab_logical_end; lia|cbn; lia|].
  repeat constructor; unfold logical_end; cbn; lia.
Defined.

(** The summary of the sample. *)
Example sample_summary : set_average (summary_of (nodes_of 4096 sample_rows)) =
  Summ 170 117 4 4 4 2 2 95 64 192 10176 16256.
Proof. reflexivity. Qed.

Example percent_75 : percent_used 3 4 = 75. Proof. reflexivity. Qed.
Example percent_third : percent_used 1 3 = 33. Proof. reflexivity. Qed.
End Slabinfo.
