(* ===== verification/Stat.v ===== *)
(** * procps/linux/stat.c: processor and system statistics

    /proc/stat is read as a whole into a buffer that grows with it; its first
    line is the processor summary, the next lines one processor each, then come
    the counters of the system.  Processors can be added up per NUMA node.  Both
    kinds of rows are handed out like the nodes of the other modules (Fetch);
    the items of a reap are one array shared by the summary, the processors and
    the nodes ([struct item_support]), so the three supports are put together
    from that array and their own extents ([ext_of]). *)

From stdpp Require Import base numbers list strings.
From S2P Require Import Prelude Libc Posix Utils Stacks Fetch.
Open Scope Z_scope.

Module Stat.

Definition BUFFER_INCR : Z := 8192.
Definition STACKS_INCR : Z := 64.
Definition NEWOLD_INCR : Z := 64.
Definition STAT_SUMMARY_ID : Z := -11111.
Definition STAT_NODE_INVALID : Z := -22222.
Definition STAT_REAP_CPUS_ONLY : Z := 0.
Definition STAT_REAP_NUMA_NODES_TOO : Z := 1.
Definition EIO : Z := 5.
Definition ENOMEM : Z := 12.
Definition EINVAL : Z := 22.
Definition ERANGE : Z := 34.

(** ** Data *)

Record stat_jifs := Jifs {
  j_user : Z; j_nice : Z; j_system : Z; j_idle : Z; j_iowait : Z; j_irq : Z; j_sirq : Z;
  j_stolen : Z; j_guest : Z; j_gnice : Z;
  j_xusr : Z; j_xsys : Z; j_xidl : Z; j_xbsy : Z; j_xtot : Z
}.
Definition jifs_zero : stat_jifs := Jifs 0 0 0 0 0 0 0 0 0 0 0 0 0 0 0.

Record stat_data := SData {
  d_intr : Z; d_ctxt : Z; d_btime : Z; d_procs_created : Z; d_procs_blocked : Z; d_procs_running : Z
}.
Definition data_zero : stat_data := SData 0 0 0 0 0 0.

Record hist_sys := HSys { s_new : stat_data; s_old : stat_data }.
Record hist_tic := Tic { t_id : Z; t_node : Z; t_count : Z; t_new : stat_jifs; t_old : stat_jifs }.
Definition tic_zero : hist_tic := Tic 0 0 0 jifs_zero jifs_zero.

(** ** Results *)

(** The setters: [TIC_set] and [SYS_set] store a value, [TICsetH] and [SYSsetH]
    a difference. *)
Inductive tsetter :=
| TNoop | TExtra | TId | TNode | TCount
| TIC_set (t : utype) (x : stat_jifs -> Z)
| TICsetH (t : utype) (x : stat_jifs -> Z)
| SYS_set (t : utype) (x : stat_data -> Z)
| SYSsetH (t : utype) (x : stat_data -> Z).

(** The differences are those of unsigned 64-bit numbers; those of tics are
    stored as [long] and never shown below zero. *)
Definition run_setter (s : tsetter) (u : uval) (h : hist_sys * hist_tic) : uval :=
  let '(sy, ti) := h in
  match s with
  | TNoop => u
  | TExtra => set_ul_int u 0
  | TId => set_s_int u (t_id ti)
  | TNode => set_s_int u (t_node ti)
  | TCount => set_s_int u (t_count ti)
  | TIC_set t x => set_as t u (x (t_new ti))
  | TICsetH t x => let d := i64 (x (t_new ti) - x (t_old ti)) in set_as t u (if d <? 0 then 0 else d)
  | SYS_set t x => set_as t u (x (s_new sy))
  | SYSsetH t x => set_as t u (x (s_new sy) - x (s_old sy))
  end.

Definition setters : list (string * tsetter) :=
  [("noop", TNoop); ("extra", TExtra); ("TIC_ID", TId); ("TIC_NUMA_NODE", TNode);
   ("TIC_NUM_CONTRIBUTORS", TCount); ("TIC_USER", TIC_set ull_int j_user);
   ("TIC_NICE", TIC_set ull_int j_nice); ("TIC_SYSTEM", TIC_set ull_int j_system);
   ("TIC_IDLE", TIC_set ull_int j_idle); ("TIC_IOWAIT", TIC_set ull_int j_iowait);
   ("TIC_IRQ", TIC_set ull_int j_irq); ("TIC_SOFTIRQ", TIC_set ull_int j_sirq);
   ("TIC_STOLEN", TIC_set ull_int j_stolen); ("TIC_GUEST", TIC_set ull_int j_guest);
   ("TIC_GUEST_NICE", TIC_set ull_int j_gnice); ("TIC_DELTA_USER", TICsetH sl_int j_user);
   ("TIC_DELTA_NICE", TICsetH sl_int j_nice); ("TIC_DELTA_SYSTEM", TICsetH sl_int j_system);
   ("TIC_DELTA_IDLE", TICsetH sl_int j_idle); ("TIC_DELTA_IOWAIT", TICsetH sl_int j_iowait);
   ("TIC_DELTA_IRQ", TICsetH sl_int j_irq); ("TIC_DELTA_SOFTIRQ", TICsetH sl_int j_sirq);
   ("TIC_DELTA_STOLEN", TICsetH sl_int j_stolen); ("TIC_DELTA_GUEST", TICsetH sl_int j_guest);
   ("TIC_DELTA_GUEST_NICE", TICsetH sl_int j_gnice); ("TIC_SUM_USER", TIC_set ull_int j_xusr);
   ("TIC_SUM_SYSTEM", TIC_set ull_int j_xsys); ("TIC_SUM_IDLE", TIC_set ull_int j_xidl);
   ("TIC_SUM_BUSY", TIC_set ull_int j_xbsy); ("TIC_SUM_TOTAL", TIC_set ull_int j_xtot);
   ("TIC_SUM_DELTA_USER", TICsetH sl_int j_xusr);
   ("TIC_SUM_DELTA_SYSTEM", TICsetH sl_int j_xsys);
   ("TIC_SUM_DELTA_IDLE", TICsetH sl_int j_xidl); ("TIC_SUM_DELTA_BUSY", TICsetH sl_int j_xbsy);
   ("TIC_SUM_DELTA_TOTAL", TICsetH sl_int j_xtot); ("SYS_CTX_SWITCHES", SYS_set ul_int d_ctxt);
   ("SYS_INTERRUPTS", SYS_set ul_int d_intr);
   ("SYS_PROC_BLOCKED", SYS_set ul_int d_procs_blocked);
   ("SYS_PROC_CREATED", SYS_set ul_int d_procs_created);
   ("SYS_PROC_RUNNING", SYS_set ul_int d_procs_running);
   ("SYS_TIME_OF_BOOT", SYS_set ul_int d_btime);
   ("SYS_DELTA_CTX_SWITCHES", SYSsetH s_int d_ctxt);
   ("SYS_DELTA_INTERRUPTS", SYSsetH s_int d_intr);
   ("SYS_DELTA_PROC_BLOCKED", SYSsetH s_int d_procs_blocked);
   ("SYS_DELTA_PROC_CREATED", SYSsetH s_int d_procs_created);
   ("SYS_DELTA_PROC_RUNNING", SYSsetH s_int d_procs_running)]%string.

(** [Item_table]: the setter named by [RS], the comparison named by [QS] and the
    type named by [TS]. *)
Definition Item_rows : list (string * sortfunc * option utype) :=
  [("noop", sort_noop, None); ("extra", sort_ull_int, None); ("TIC_ID", sort_s_int, Some s_int);
   ("TIC_NUMA_NODE", sort_s_int, Some s_int); ("TIC_NUM_CONTRIBUTORS", sort_s_int, Some s_int);
   ("TIC_USER", sort_ull_int, Some ull_int); ("TIC_NICE", sort_ull_int, Some ull_int);
   ("TIC_SYSTEM", sort_ull_int, Some ull_int); ("TIC_IDLE", sort_ull_int, Some ull_int);
   ("TIC_IOWAIT", sort_ull_int, Some ull_int); ("TIC_IRQ", sort_ull_int, Some ull_int);
   ("TIC_SOFTIRQ", sort_ull_int, Some ull_int); ("TIC_STOLEN", sort_ull_int, Some ull_int);
   ("TIC_GUEST", sort_ull_int, Some ull_int); ("TIC_GUEST_NICE", sort_ull_int, Some ull_int);
   ("TIC_DELTA_USER", sort_sl_int, Some sl_int); ("TIC_DELTA_NICE", sort_sl_int, Some sl_int);
   ("TIC_DELTA_SYSTEM", sort_sl_int, Some sl_int); ("TIC_DELTA_IDLE", sort_sl_int, Some sl_int);
   ("TIC_DELTA_IOWAIT", sort_sl_int, Some sl_int); ("TIC_DELTA_IRQ", sort_sl_int, Some sl_int);
   ("TIC_DELTA_SOFTIRQ", sort_sl_int, Some sl_int);
   ("TIC_DELTA_STOLEN", sort_sl_int, Some sl_int); ("TIC_DELTA_GUEST", sort_sl_int, Some sl_int);
   ("TIC_DELTA_GUEST_NICE", sort_sl_int, Some sl_int);
   ("TIC_SUM_USER", sort_ull_int, Some ull_int); ("TIC_SUM_SYSTEM", sort_ull_int, Some ull_int);
   ("TIC_SUM_IDLE", sort_ull_int, Some ull_int); ("TIC_SUM_BUSY", sort_ull_int, Some ull_int);
   ("TIC_SUM_TOTAL", sort_ull_int, Some ull_int);
   ("TIC_SUM_DELTA_USER", sort_sl_int, Some sl_int);
   ("TIC_SUM_DELTA_SYSTEM", sort_sl_int, Some sl_int);
   ("TIC_SUM_DELTA_IDLE", sort_sl_int, Some sl_int);
   ("TIC_SUM_DELTA_BUSY", sort_sl_int, Some sl_int);
   ("TIC_SUM_DELTA_TOTAL", sort_sl_int, Some sl_int);
   ("SYS_CTX_SWITCHES", sort_ul_int, Some ul_int); ("SYS_INTERRUPTS", sort_ul_int, Some ul_int);
   ("SYS_PROC_BLOCKED", sort_ul_int, Some ul_int);
   ("SYS_PROC_CREATED", sort_ul_int, Some ul_int);
   ("SYS_PROC_RUNNING", sort_ul_int, Some ul_int);
   ("SYS_TIME_OF_BOOT", sort_ul_int, Some ul_int);
   ("SYS_DELTA_CTX_SWITCHES", sort_s_int, Some s_int);
   ("SYS_DELTA_INTERRUPTS", sort_s_int, Some s_int);
   ("SYS_DELTA_PROC_BLOCKED", sort_s_int, Some s_int);
   ("SYS_DELTA_PROC_CREATED", sort_s_int, Some s_int);
   ("SYS_DELTA_PROC_RUNNING", sort_s_int, Some s_int)]%string.

(** [enum stat_item] of the header, in order, without the prefix. *)
Definition stat_item : list string :=
  ["noop"; "extra"; "TIC_ID"; "TIC_NUMA_NODE"; "TIC_NUM_CONTRIBUTORS"; "TIC_USER"; "TIC_NICE";
   "TIC_SYSTEM"; "TIC_IDLE"; "TIC_IOWAIT"; "TIC_IRQ"; "TIC_SOFTIRQ"; "TIC_STOLEN"; "TIC_GUEST";
   "TIC_GUEST_NICE"; "TIC_DELTA_USER"; "TIC_DELTA_NICE"; "TIC_DELTA_SYSTEM"; "TIC_DELTA_IDLE";
   "TIC_DELTA_IOWAIT"; "TIC_DELTA_IRQ"; "TIC_DELTA_SOFTIRQ"; "TIC_DELTA_STOLEN";
   "TIC_DELTA_GUEST"; "TIC_DELTA_GUEST_NICE"; "TIC_SUM_USER"; "TIC_SUM_SYSTEM"; "TIC_SUM_IDLE";
   "TIC_SUM_BUSY"; "TIC_SUM_TOTAL"; "TIC_SUM_DELTA_USER"; "TIC_SUM_DELTA_SYSTEM";
   "TIC_SUM_DELTA_IDLE"; "TIC_SUM_DELTA_BUSY"; "TIC_SUM_DELTA_TOTAL"; "SYS_CTX_SWITCHES";
   "SYS_INTERRUPTS"; "SYS_PROC_BLOCKED"; "SYS_PROC_CREATED"; "SYS_PROC_RUNNING";
   "SYS_TIME_OF_BOOT"; "SYS_DELTA_CTX_SWITCHES"; "SYS_DELTA_INTERRUPTS";
   "SYS_DELTA_PROC_BLOCKED"; "SYS_DELTA_PROC_CREATED"; "SYS_DELTA_PROC_RUNNING"]%string.

Definition setter_of (n : string) : tsetter := default TNoop (assoc n setters).

Definition Item_table : list (uval -> hist_sys * hist_tic -> uval) :=
  map (fun row => run_setter (setter_of row.1.1)) Item_rows.
Definition sort_table : list sortfunc := map (fun row => row.1.2) Item_rows.
Arguments Item_table : simpl never.
Arguments sort_table : simpl never.

Definition STAT_logical_end : Z := logical_end Item_table.

(** The static variables of numa.c. *)
Abbreviation MS := (M Numa.nstate).

Definition stat_assign_results := assign_results Item_table.
Definition stat_extents_free_all := extents_free_all.
Definition stat_itemize_stack := itemize_stack.
Definition stat_items_check_failed := items_check_failed Item_table.
Definition stat_stacks_alloc := stacks_alloc (G := Numa.nstate).
Definition stat_stacks_reconfig_maybe := reconfig_maybe (G := Numa.nstate) Item_table.

(** ** The context *)

Record item_support := Items { i_num : Z; i_enums : option (list Z) }.
Record extents := Exts { e_list : list blob; e_next : nat }.

(** An [ext_support] is a pointer to items and extents of its own. *)
Definition ext_of (it : item_support) (e : extents) : ext_support :=
  Ext (i_num it) (i_enums it) (e_list e) (e_next e).
Definition exts (x : ext_support) : extents := Exts (x_extents x) (x_next x).
Definition items_of (x : ext_support) : item_support := Items (x_numitems x) (x_items x).
Definition exts_free (e : extents) : extents := Exts [] (e_next e).

(** [struct tic_support]; [None] is a NULL array. *)
Record tic_support := Tics { h_alloc : Z; h_inuse : Z; h_tics : option (list hist_tic) }.

(** [struct reap_support]; [rp_fetch] is the anchor with the result. *)
Record reap_support := Reap {
  rp_total : Z; rp_exts : extents; rp_hist : tic_support; rp_fetch : fetch_support }.

(** [stat_buf] is what was read last, [None] for NULL; [stat_fp] is negative for
    NULL; [summary] points into the extents of [cpu_summary]. *)
Record stat_info := StatInfo {
  refcount : Z;
  stat_fp : Z;
  stat_buf : option bytes;
  stat_buf_size : Z;
  sys_hist : hist_sys;
  cpu_hist : hist_tic;
  cpus : reap_support;
  nodes : reap_support;
  cpu_summary : extents;
  select : extents;
  summary : option sptr;
  get_this : result;
  reap_items : item_support;
  select_items : item_support;
  sav_secs : Z
}.

Definition set_refcount v i := StatInfo v (stat_fp i) (stat_buf i) (stat_buf_size i) (sys_hist i) (cpu_hist i) (cpus i) (nodes i) (cpu_summary i) (select i) (summary i) (get_this i) (reap_items i) (select_items i) (sav_secs i).
Definition set_fp v i := StatInfo (refcount i) v (stat_buf i) (stat_buf_size i) (sys_hist i) (cpu_hist i) (cpus i) (nodes i) (cpu_summary i) (select i) (summary i) (get_this i) (reap_items i) (select_items i) (sav_secs i).
Definition set_buf v i := StatInfo (refcount i) (stat_fp i) v (stat_buf_size i) (sys_hist i) (cpu_hist i) (cpus i) (nodes i) (cpu_summary i) (select i) (summary i) (get_this i) (reap_items i) (select_items i) (sav_secs i).
Definition set_buf_size v i := StatInfo (refcount i) (stat_fp i) (stat_buf i) v (sys_hist i) (cpu_hist i) (cpus i) (nodes i) (cpu_summary i) (select i) (summary i) (get_this i) (reap_items i) (select_items i) (sav_secs i).
Definition set_sys v i := StatInfo (refcount i) (stat_fp i) (stat_buf i) (stat_buf_size i) v (cpu_hist i) (cpus i) (nodes i) (cpu_summary i) (select i) (summary i) (get_this i) (reap_items i) (select_items i) (sav_secs i).
Definition set_cpu v i := StatInfo (refcount i) (stat_fp i) (stat_buf i) (stat_buf_size i) (sys_hist i) v (cpus i) (nodes i) (cpu_summary i) (select i) (summary i) (get_this i) (reap_items i) (select_items i) (sav_secs i).
Definition set_cpus v i := StatInfo (refcount i) (stat_fp i) (stat_buf i) (stat_buf_size i) (sys_hist i) (cpu_hist i) v (nodes i) (cpu_summary i) (select i) (summary i) (get_this i) (reap_items i) (select_items i) (sav_secs i).
Definition set_nodes v i := StatInfo (refcount i) (stat_fp i) (stat_buf i) (stat_buf_size i) (sys_hist i) (cpu_hist i) (cpus i) v (cpu_summary i) (select i) (summary i) (get_this i) (reap_items i) (select_items i) (sav_secs i).
Definition set_cpu_summary v i := StatInfo (refcount i) (stat_fp i) (stat_buf i) (stat_buf_size i) (sys_hist i) (cpu_hist i) (cpus i) (nodes i) v (select i) (summary i) (get_this i) (reap_items i) (select_items i) (sav_secs i).
Definition set_select v i := StatInfo (refcount i) (stat_fp i) (stat_buf i) (stat_buf_size i) (sys_hist i) (cpu_hist i) (cpus i) (nodes i) (cpu_summary i) v (summary i) (get_this i) (reap_items i) (select_items i) (sav_secs i).
Definition set_summary v i := StatInfo (refcount i) (stat_fp i) (stat_buf i) (stat_buf_size i) (sys_hist i) (cpu_hist i) (cpus i) (nodes i) (cpu_summary i) (select i) v (get_this i) (reap_items i) (select_items i) (sav_secs i).
Definition set_get v i := StatInfo (refcount i) (stat_fp i) (stat_buf i) (stat_buf_size i) (sys_hist i) (cpu_hist i) (cpus i) (nodes i) (cpu_summary i) (select i) (summary i) v (reap_items i) (select_items i) (sav_secs i).
Definition set_reap_items v i := StatInfo (refcount i) (stat_fp i) (stat_buf i) (stat_buf_size i) (sys_hist i) (cpu_hist i) (cpus i) (nodes i) (cpu_summary i) (select i) (summary i) (get_this i) v (select_items i) (sav_secs i).
Definition set_select_items v i := StatInfo (refcount i) (stat_fp i) (stat_buf i) (stat_buf_size i) (sys_hist i) (cpu_hist i) (cpus i) (nodes i) (cpu_summary i) (select i) (summary i) (get_this i) (reap_items i) v (sav_secs i).
Definition set_secs v i := StatInfo (refcount i) (stat_fp i) (stat_buf i) (stat_buf_size i) (sys_hist i) (cpu_hist i) (cpus i) (nodes i) (cpu_summary i) (select i) (summary i) (get_this i) (reap_items i) (select_items i) v.

Definition set_hist h r := Reap (rp_total r) (rp_exts r) h (rp_fetch r).
Definition set_total n r := Reap n (rp_exts r) (rp_hist r) (rp_fetch r).
Definition set_exts e r := Reap (rp_total r) e (rp_hist r) (rp_fetch r).
Definition set_rfetch f r := Reap (rp_total r) (rp_exts r) (rp_hist r) f.

(** ** Computed values *)

Definition set_new n (t : hist_tic) := Tic (t_id t) (t_node t) (t_count t) n (t_old t).
Definition set_told n (t : hist_tic) := Tic (t_id t) (t_node t) (t_count t) (t_new t) n.

Definition derive_sums (n : stat_jifs) : stat_jifs :=
  let xusr := u64 (j_user n + j_nice n) in
  let xsys := u64 (j_system n + j_irq n + j_sirq n) in
  let xidl := u64 (j_idle n + j_iowait n) in
  let xtot := u64 (xusr + xsys + xidl + j_stolen n + j_guest n + j_gnice n) in
  let xbsy := u64 (xtot - xidl) in
  Jifs (j_user n) (j_nice n) (j_system n) (j_idle n) (j_iowait n) (j_irq n) (j_sirq n)
    (j_stolen n) (j_guest n) (j_gnice n) xusr xsys xidl xbsy xtot.

(** Some sum went down since the last read. *)
Definition went_down (n o : stat_jifs) : bool :=
  (j_xusr n <? j_xusr o) || (j_xsys n <? j_xsys o) || (j_xidl n <? j_xidl o) ||
  (j_xbsy n <? j_xbsy o) || (j_xtot n <? j_xtot o).

Definition stat_derive_unique (t : hist_tic) : hist_tic :=
  let t := set_new (derive_sums (t_new t)) t in
  if went_down (t_new t) (t_old t) then set_told (t_new t) t else t.

(** ** Reading *)

(** Ten numbers with blanks between them. *)
Fixpoint llus (n : nat) : list directive :=
  match n with O => [] | 1%nat => [DLU] | S n => DLU :: DSpace :: llus n end.
Definition sum_fmt : list directive := lits "cpu" ++ DSpace :: llus 10.
Definition cpu_fmt : list directive := lits "cpu" ++ DD :: DSpace :: llus 10.

(** What [sscanf] stores: the members it did not reach keep their values. *)
Definition scanned (vs : list sval) (k : nat) (old : Z) : Z :=
  match vs !! k with Some (VI z) => z | _ => old end.
Definition scan_jifs (vs : list sval) (n : stat_jifs) : stat_jifs :=
  Jifs (scanned vs 0 (j_user n)) (scanned vs 1 (j_nice n)) (scanned vs 2 (j_system n))
    (scanned vs 3 (j_idle n)) (scanned vs 4 (j_iowait n)) (scanned vs 5 (j_irq n))
    (scanned vs 6 (j_sirq n)) (scanned vs 7 (j_stolen n)) (scanned vs 8 (j_guest n))
    (scanned vs 9 (j_gnice n)) (j_xusr n) (j_xsys n) (j_xidl n) (j_xbsy n) (j_xtot n).

(** The summary and a processor before their sums are derived. *)
Definition scan_summary (vs : list sval) (t : hist_tic) : hist_tic :=
  Tic STAT_SUMMARY_ID STAT_NODE_INVALID (t_count t) (scan_jifs vs (t_new t)) (t_new t).
Definition scan_cpu (vs : list sval) (t : hist_tic) : hist_tic :=
  Tic (scanned vs 0 (t_id t)) STAT_NODE_INVALID 1 (scan_jifs (drop 1 vs) (t_new t)) (t_new t).

Section stat.
(** What [realloc] leaves in the new elements of an array of [hist_tic]. *)
Variable garbage : nat -> hist_tic.
(** The libraries [dlopen] finds as libnuma.so and libnuma.so.1. *)
Variables so so1 : option Numa.libnuma.

(** The read loop: whether memory sufficed, the size of the buffer and what was
    read. *)
Fixpoint read_all (fuel : nat) (fp maxsiz : Z) (acc : bytes) : MS (bool * Z * bytes) :=
  match fuel with
  | O => nofuel
  | S f =>
      r ← sys (CFread fp (maxsiz - Z.of_nat (length acc)));
      if r_val r <=? 0 then mret (true, maxsiz, acc) else
      let acc := acc ++ r_data r in
      let tot_read := Z.of_nat (length acc) in
      if maxsiz <? tot_read then undef else
      if tot_read <? maxsiz then mret (true, maxsiz, acc) else
      if INT_MAX <? maxsiz + BUFFER_INCR then undef else
      m ← sys (CMalloc (maxsiz + BUFFER_INCR));
      if r_val m <? 0 then mret (false, maxsiz + BUFFER_INCR, acc)
      else read_all f fp (maxsiz + BUFFER_INCR) acc
  end.

(** Elements [n] to [m - 1] of a grown array. *)
Definition fresh_tics (n m : nat) : list hist_tic := map garbage (seq n (m - n)).

(** The processor lines, from the line before the first: the text from the first
    line that is no processor on and the number of processors; [None] when the
    array could not be grown.  Each round passes a newline, so the length of
    the text bounds the rounds. *)
Fixpoint cpu_loop (fuel : nat) (bp : bytes) (i : nat) (cs : tic_support)
  : MS (option (bytes * nat) * tic_support) :=
  match fuel with
  | O => nofuel
  | S f =>
      k ← deref (strchr bp 10);
      let bp := drop (S k) bp in
      tics ← deref (h_tics cs);
      c ← deref (tics !! i);
      let vs := sscanf cpu_fmt bp in
      let c := scan_cpu vs c in
      if (length vs <? 8)%nat then
        mret (Some (bp, i), Tics (h_alloc cs) (h_inuse cs) (Some (<[i := c]> tics)))
      else
        let tics := <[i := stat_derive_unique c]> tics in
        let i := S i in
        if Z.of_nat i <? h_alloc cs then cpu_loop f bp i (Tics (h_alloc cs) (h_inuse cs) (Some tics)) else
        let n := h_alloc cs + NEWOLD_INCR in
        m ← sys (CMalloc n);
        if r_val m <? 0 then mret (None, Tics n (h_inuse cs) None)
        else cpu_loop f bp i (Tics n (h_inuse cs) (Some (tics ++ fresh_tics (length tics) (Z.to_nat n))))
  end.

(** A counter of the system: [strstr] for the key and a blank, then [sscanf]. *)
Definition sys_value (bp : bytes) (key : string) : Z :=
  match strstr bp (bs key ++ [32]) with
  | Some i => match sscanf (lits key ++ [DSpace; DLU]) (drop i bp) with VI v :: _ => v | _ => 0 end
  | None => 0
  end.

Definition sys_values (bp : bytes) : stat_data :=
  SData (sys_value bp "intr") (sys_value bp "ctxt") (sys_value bp "btime")
    (sys_value bp "processes") (sys_value bp "procs_blocked") (sys_value bp "procs_running").

(** The first allocation of the processors. *)
Definition init_tics (cs : tic_support) : MS (bool * tic_support) :=
  if negb (h_alloc cs =? 0) then mret (true, cs) else
  r ← sys (CMalloc NEWOLD_INCR);
  if r_val r <? 0 then mret (false, Tics (h_alloc cs) (h_inuse cs) None)
  else mret (true, Tics NEWOLD_INCR 0 (Some (replicate (Z.to_nat NEWOLD_INCR) tic_zero))).

(** What is done with the text of the file. *)
Definition parse_stat (buf : bytes) (info : stat_info) : MS (Z * stat_info) :=
  let vs := sscanf sum_fmt buf in
  let info := set_cpu (scan_summary vs (cpu_hist info)) info in
  if (length vs <? 8)%nat then _ ← set_errno ERANGE; mret (1, info) else
  let info := set_cpu (stat_derive_unique (cpu_hist info)) info in
  '(res, cs) ← cpu_loop (S (length buf)) buf 0 (rp_hist (cpus info));
  let info := set_cpus (set_hist cs (cpus info)) info in
  match res with
  | None => mret (1, info)
  | Some (bp, i) =>
      let n := Z.of_nat i in
      let info := set_cpus (set_total n (set_hist (Tics (h_alloc cs) n (h_tics cs)) (cpus info))) info in
      let c := cpu_hist info in
      let info := set_cpu (Tic (t_id c) (t_node c) n (t_new c) (t_old c)) info in
      mret (0, set_sys (HSys (sys_values bp) (s_new (sys_hist info))) info)
  end.

(** [fflush] and [rewind] are one [CFseek]. *)
Definition stat_read_failed (fuel : nat) (info : stat_info) : MS (Z * stat_info) :=
  '(ok, cs) ← init_tics (rp_hist (cpus info));
  let info := set_cpus (set_hist cs (cpus info)) info in
  if negb ok then mret (1, info) else
  info ← (if stat_fp info <? 0
          then f ← sys (CFopen (bs "/proc/stat")); mret (set_fp (r_val f) info)
          else mret info);
  if stat_fp info <? 0 then mret (1, info) else
  _ ← sys (CFseek (stat_fp info) 0);
  _ ← deref (stat_buf info);
  '(ok, siz, text) ← read_all fuel (stat_fp info) (stat_buf_size info) [];
  let info := set_buf_size siz (set_buf (if ok : bool then Some text else None) info) in
  if negb ok then mret (1, info) else
  e ← sys (CFeof (stat_fp info));
  if r_val e =? 0 then _ ← set_errno EIO; mret (1, info) else
  if siz <=? Z.of_nat (length text) then undef else
  buf ← deref (cstr (text ++ [0]));
  parse_stat buf info.

(** ** NUMA nodes *)

Definition add_jifs (a b : stat_jifs) : stat_jifs :=
  Jifs (u64 (j_user a + j_user b)) (u64 (j_nice a + j_nice b)) (u64 (j_system a + j_system b)) (u64 (j_idle a + j_idle b)) (u64 (j_iowait a + j_iowait b)) (u64 (j_irq a + j_irq b)) (u64 (j_sirq a + j_sirq b)) (u64 (j_stolen a + j_stolen b)) (u64 (j_guest a + j_guest b)) (u64 (j_gnice a + j_gnice b)) (u64 (j_xusr a + j_xusr b)) (u64 (j_xsys a + j_xsys b)) (u64 (j_xidl a + j_xidl b)) (u64 (j_xbsy a + j_xbsy b)) (u64 (j_xtot a + j_xtot b)).

(** What a processor adds to its node. *)
Definition add_tic (node : Z) (n c : hist_tic) : hist_tic :=
  Tic (t_id n) node (t_count n + 1) (add_jifs (t_new n) (t_new c)) (add_jifs (t_old n) (t_old c)).

(** The loop over the processors: the processors with their nodes and the nodes;
    [None] when a node has no element. *)
Fixpoint numa_loop (node_of : Z -> Z) (cs ns : list hist_tic) : option (list hist_tic * list hist_tic) :=
  match cs with
  | [] => Some ([], ns)
  | c :: cs =>
      let node := node_of (t_id c) in
      if -1 <? node then
        n ← ns !! Z.to_nat node;
        '(cs', ns') ← numa_loop node_of cs (<[Z.to_nat node := add_tic node n c]> ns);
        Some (Tic (t_id c) node (t_count c) (t_new c) (t_old c) :: cs', ns')
      else
        '(cs', ns') ← numa_loop node_of cs ns;
        Some (c :: cs', ns')
  end.

(** The cleared nodes: numbered, without a processor. *)
Definition clear_nodes (total alloc : nat) : list hist_tic :=
  map (fun i => Tic (Z.of_nat i) STAT_NODE_INVALID 0 jifs_zero jifs_zero) (seq 0 total)
  ++ replicate (alloc - total) tic_zero.

Definition stat_make_numa_hist (info : stat_info) : MS (Z * stat_info) :=
  g ← getg;
  max ← deref (Numa.numa_max_node g);
  let total := i32 (max + 1) in
  let info := set_nodes (set_total total (nodes info)) info in
  if total =? 0 then mret (0, info) else
  let h := rp_hist (nodes info) in
  '(ok, h) ← (if (h_alloc h =? 0) || (h_alloc h <=? total) then
      let n := total + NEWOLD_INCR in
      r ← sys (CMalloc n);
      if r_val r <? 0 then mret (false, Tics n (h_inuse h) None)
      else mret (true, Tics n (h_inuse h) (Some (replicate (Z.to_nat n) tic_zero)))
    else mret (true, h));
  let info := set_nodes (set_hist h (nodes info)) info in
  if negb ok then mret (- ENOMEM, info) else
  _ ← deref (h_tics h);                                       (* cleared as a whole *)
  node_of ← deref (Numa.numa_node_of_cpu g);
  let c := rp_hist (cpus info) in
  tics ← deref (h_tics c);
  let inuse := Z.to_nat (h_inuse c) in
  '(cs, ns) ← deref (numa_loop node_of (take inuse tics) (clear_nodes (Z.to_nat total) (Z.to_nat (h_alloc h))));
  let info := set_cpus (set_hist (Tics (h_alloc c) (h_inuse c) (Some (cs ++ drop inuse tics))) (cpus info)) info in
  let info := set_nodes (set_hist (Tics (h_alloc h) total (Some ns)) (nodes info)) info in
  mret (total, info).

(** ** Stacks *)

(** For the processors or the nodes, with the items of a reap. *)
Definition stat_stacks_fetch (info : stat_info) (this : reap_support) : MS (Z * reap_support) :=
  tics ← (if h_inuse (rp_hist this) =? 0 then mret [] else deref (h_tics (rp_hist this)));
  '(rc, x, f) ← stacks_fetch Item_table STACKS_INCR (-1)
                  (map (pair (sys_hist info)) (take (Z.to_nat (h_inuse (rp_hist this))) tics))
                  (ext_of (reap_items info) (rp_exts this)) (rp_fetch this);
  mret (rc, set_rfetch f (set_exts (exts x) this)).

(** The stack is [None] when it could not be allocated; it is the first of the
    newest extent. *)
Definition stat_update_single_stack (info : stat_info) (x : ext_support) : MS (option sptr * ext_support) :=
  '(ok, x) ← (match x_extents x with
              | [] => '(b, x) ← stat_stacks_alloc x 1; mret (bool_decide (b <> None), x)
              | _ => mret (true, x)
              end);
  if negb ok then mret (None, x) else
  b ← deref (head (x_extents x));
  let p := (b_id b, 0%nat) in
  s ← deref (load x p);
  s ← deref (stat_assign_results s (sys_hist info, cpu_hist info));
  mret (Some p, store x p s).

(** ** Public functions *)

Definition procps_stat_unref (info : option stat_info) : MS (Z * option stat_info) :=
  match info with
  | None => mret (- EINVAL, None)
  | Some info =>
      let info := set_refcount (refcount info - 1) info in
      if refcount info <? 1 then
        _ ← (if 0 <=? stat_fp info then _ ← sys (CFclose (stat_fp info)); mret tt else mret tt);
        _ ← modg Numa.numa_uninit;
        mret (0, None)
      else mret (refcount info, Some info)
  end.

Definition procps_stat_ref (info : option stat_info) : Z * option stat_info :=
  match info with
  | None => (- EINVAL, None)
  | Some info => let info := set_refcount (refcount info + 1) info in (refcount info, Some info)
  end.

(** The context [calloc] and the first statements leave. *)
Definition no_exts : extents := Exts [] 0.
Definition reap_empty : reap_support := Reap 0 no_exts (Tics 0 0 None) fetch_empty.
Definition stat_empty : stat_info :=
  StatInfo 1 (-1) (Some []) BUFFER_INCR (HSys data_zero data_zero) tic_zero reap_empty reap_empty
    no_exts no_exts None (Result 0 (U64 0)) (Items 0 None) (Items 0 None) 0.

Definition procps_stat_new (fuel : nat) (slot : option stat_info) : MS (Z * option stat_info) :=
  match slot with
  | Some _ => mret (- EINVAL, slot)
  | None =>
      c ← sys (CMalloc 1);
      if r_val c <? 0 then mret (- ENOMEM, None) else
      b ← sys (CMalloc BUFFER_INCR);
      if r_val b <? 0 then mret (- ENOMEM, None) else
      _ ← modg (Numa.numa_init so so1);
      '(rc, p) ← stat_read_failed fuel stat_empty;
      if negb (rc =? 0) then
        e ← get_errno;                       (* unref saves and restores errno *)
        _ ← procps_stat_unref (Some p);
        mret (- e, None)
      else mret (0, Some p)
  end.

Definition procps_stat_get (fuel : nat) (info : option stat_info) (item : Z)
  : MS (option result * option stat_info) :=
  _ ← set_errno EINVAL;
  match info with
  | None => mret (None, None)
  | Some info =>
      if (item <? 0) || (STAT_logical_end <=? item) then mret (None, Some info) else
      _ ← set_errno 0;
      t ← sys CTime;
      '(rc, info) ← (if 1 <=? r_val t - sav_secs info then
                       '(rc, info) ← stat_read_failed fuel info;
                       if negb (rc =? 0) then mret (1, info) else mret (0, set_secs (r_val t) info)
                     else mret (0, info));
      if negb (rc =? 0) then mret (None, Some info) else
      set ← deref (Item_table !! Z.to_nat item);
      let r := Result item (set (U64 0) (sys_hist info, cpu_hist info)) in
      mret (Some r, Some (set_get r info))
  end.

(** The array of node stacks always has room for its NULL. *)
Definition nodes_none (f : fetch_support) : MS (bool * fetch_support) :=
  '(ok, f) ← (match f_stacks f with
              | Some _ => mret (true, f)
              | None =>
                  r ← sys (CMalloc 8);
                  if r_val r <? 0 then mret (false, f)
                  else mret (true, set_results (Some [None]) (f_saved f) (f_total f) f)
              end);
  if negb ok then mret (false, f) else
  st ← deref (f_stacks f);
  if (length st <? 1)%nat then undef else
  mret (true, set_results (Some (<[0%nat := None]> st)) (f_saved f) 0 f).

(** The two kinds of a reap. *)
Definition reap_cpus (info : stat_info) : MS (Z * stat_info) :=
  '(rc, r) ← stat_stacks_fetch info (cpus info); mret (rc, set_cpus r info).

Definition reap_nodes (info : stat_info) : MS (Z * stat_info) :=
  '(rc, info) ← stat_make_numa_hist info;
  if rc <? 0 then mret (rc, info) else
  '(rc, r) ← stat_stacks_fetch info (nodes info);
  let info := set_nodes r info in
  if rc <? 0 then mret (rc, info) else reap_cpus info.

(** The flag is whether the results are returned; false is NULL. *)
Definition procps_stat_reap (fuel : nat) (info : option stat_info) (what addr : Z) (items : list Z) (numitems : Z)
  : MS (bool * option stat_info) :=
  _ ← set_errno EINVAL;
  match info with
  | None => mret (false, None)
  | Some info =>
      if addr =? 0 then mret (false, Some info) else
      if negb (what =? STAT_REAP_CPUS_ONLY) && negb (what =? STAT_REAP_NUMA_NODES_TOO)
      then mret (false, Some info) else
      '(rc, x) ← stat_stacks_reconfig_maybe (ext_of (reap_items info) (cpu_summary info)) addr items numitems;
      let info := set_reap_items (items_of x) (set_cpu_summary (exts x) info) in
      if rc <? 0 then mret (false, Some info) else
      let info := if negb (rc =? 0) then
          set_nodes (set_exts (exts_free (rp_exts (nodes info))) (nodes info))
            (set_cpus (set_exts (exts_free (rp_exts (cpus info))) (cpus info)) info)
        else info in
      _ ← set_errno 0;
      '(rc, info) ← stat_read_failed fuel info;
      if negb (rc =? 0) then mret (false, Some info) else
      '(p, x) ← stat_update_single_stack info (ext_of (reap_items info) (cpu_summary info));
      let info := set_summary p (set_cpu_summary (exts x) info) in
      '(ok, f) ← nodes_none (rp_fetch (nodes info));
      let info := set_nodes (set_rfetch f (nodes info)) info in
      if negb ok then mret (false, Some info) else
      '(rc, info) ← (if what =? STAT_REAP_CPUS_ONLY then reap_cpus info else reap_nodes info);
      mret (negb (rc <? 0), Some info)
  end.

Definition procps_stat_select (fuel : nat) (info : option stat_info) (addr : Z) (items : list Z) (numitems : Z)
  : MS (option sptr * option stat_info) :=
  _ ← set_errno EINVAL;
  match info with
  | None => mret (None, None)
  | Some info =>
      if addr =? 0 then mret (None, Some info) else
      '(rc, x) ← stat_stacks_reconfig_maybe (ext_of (select_items info) (select info)) addr items numitems;
      let info := set_select_items (items_of x) (set_select (exts x) info) in
      if rc <? 0 then mret (None, Some info) else
      _ ← set_errno 0;
      '(rc, info) ← stat_read_failed fuel info;
      if negb (rc =? 0) then mret (None, Some info) else
      '(p, x) ← stat_update_single_stack info (ext_of (select_items info) (select info));
      mret (p, Some (set_select (exts x) info))
  end.

(** The debugging interface; the flag says whether a message is printed. *)
Definition xtra_stat_get (fuel : nat) (info : option stat_info) (item : Z) (typestr : option utype)
  : MS (option result * option stat_info * bool) :=
  '(r, info) ← procps_stat_get fuel info item;
  mret (r, info, xtra_get Item_table (map snd Item_rows) typestr item r).
End stat.

Definition xtra_stat_val := xtra_val Item_table (map snd Item_rows).

(** [qsort_r] is a parameter; no item of the table is a string. *)
Definition procps_stat_sort (qsort : (stack -> stack -> Z) -> list stack -> list stack)
    (stacks : list stack) (sortitem order : Z) :=
  procps_sort qsort (fun _ _ => 0) sort_table stacks sortitem order.

(** ** The tables *)

Definition setter_type (s : tsetter) : option utype :=
  match s with
  | TNoop | TExtra => None
  | TId | TNode | TCount => Some s_int
  | TIC_set t _ | TICsetH t _ | SYS_set t _ | SYSsetH t _ => Some t
  end.

(** The comparison of a row is the one of its type. *)
Definition sort_fits (t : option utype) (k : sortfunc) : bool :=
  match t, k with
  | None, (sort_noop | sort_ull_int) | Some s_int, sort_s_int | Some sl_int, sort_sl_int
  | Some ul_int, sort_ul_int | Some ull_int, sort_ull_int => true
  | _, _ => false
  end.

(** The rows are in the order of the enumerators, each has the type its setter
    stores and the comparison of that type. *)
Lemma stat_tables_consistent :
  map (fun row => row.1.1) Item_rows = stat_item /\
  map (fun row => setter_type (setter_of row.1.1)) Item_rows = map snd Item_rows /\
  forallb (fun row => sort_fits row.2 row.1.2) Item_rows = true.
Proof. by vm_compute. Qed.

(** ** Sums and differences *)

(** The five sums. *)
Definition sums : list (stat_jifs -> Z) := [j_xusr; j_xsys; j_xidl; j_xbsy; j_xtot].

Lemma went_down_false n o : went_down n o = false <-> Forall (fun x => x o <= x n) sums.
Proof.
  unfold went_down, sums. rewrite !orb_false_iff, !Z.ltb_ge, !Forall_cons, Forall_nil. tauto.
Qed.

Definition tics10 (n : stat_jifs) : Z :=
  j_user n + j_nice n + j_system n + j_idle n + j_iowait n + j_irq n + j_sirq n + j_stolen n + j_guest n + j_gnice n.

(** Ten counters that were printed from unsigned numbers and whose sum does not
    reach the width. *)
Definition jifs_ok (n : stat_jifs) : Prop :=
  Forall (fun x => 0 <= x n) [j_user; j_nice; j_system; j_idle; j_iowait; j_irq; j_sirq; j_stolen; j_guest; j_gnice]
  /\ tics10 n < 2 ^ 63.

Lemma derive_sums_exact n : jifs_ok n ->
  j_xusr (derive_sums n) = j_user n + j_nice n /\
  j_xsys (derive_sums n) = j_system n + j_irq n + j_sirq n /\
  j_xidl (derive_sums n) = j_idle n + j_iowait n /\
  j_xtot (derive_sums n) = tics10 n /\
  j_xbsy (derive_sums n) = tics10 n - (j_idle n + j_iowait n).
Proof.
  intros [Hp Hs]. rewrite !Forall_cons in Hp. destruct Hp as (?&?&?&?&?&?&?&?&?&?&_). unfold tics10 in *.
  assert (E1 : u64 (j_user n + j_nice n) = j_user n + j_nice n) by (apply wrap_u_small; lia).
  assert (E2 : u64 (j_system n + j_irq n + j_sirq n) = j_system n + j_irq n + j_sirq n) by (apply wrap_u_small; lia).
  assert (E3 : u64 (j_idle n + j_iowait n) = j_idle n + j_iowait n) by (apply wrap_u_small; lia).
  cbn [derive_sums j_xusr j_xsys j_xidl j_xtot j_xbsy]. rewrite E1, E2, E3.
  rewrite !wrap_u_small by lia. repeat split; lia.
Qed.

(** After [stat_derive_unique] no sum is below its history; the history is the
    one before unless some sum went down, then all differences are zero. *)
Lemma derive_history t :
  let d := stat_derive_unique t in
  t_new d = derive_sums (t_new t) /\ t_id d = t_id t /\ t_node d = t_node t /\ t_count d = t_count t /\
  Forall (fun x => x (t_old d) <= x (t_new d)) sums /\
  (t_old d = t_old t \/ t_old d = t_new d).
Proof.
  unfold stat_derive_unique. set (u := set_new (derive_sums (t_new t)) t).
  change (t_old u) with (t_old t). change (t_new u) with (derive_sums (t_new t)).
  destruct (went_down (derive_sums (t_new t)) (t_old t)) eqn:E; cbv zeta.
  - cbn. do 4 (split; [done|]). split; [|by right]. repeat constructor; lia.
  - cbn. do 4 (split; [done|]). split; [by apply went_down_false|by left].
Qed.

(** What the difference items show. *)
Lemma tic_delta_value t x u : 0 <= x (t_new t) < 2 ^ 63 -> 0 <= x (t_old t) < 2 ^ 63 -> forall sy,
  get_sl_int (run_setter (TICsetH sl_int x) u (sy, t)) = Z.max 0 (x (t_new t) - x (t_old t)).
Proof.
  intros Hn Ho sy. cbn [run_setter set_as set_ul_int get_sl_int].
  assert (E : i64 (x (t_new t) - x (t_old t)) = x (t_new t) - x (t_old t)) by (apply wrap_s_small; lia).
  rewrite E. destruct (Z.ltb_spec (x (t_new t) - x (t_old t)) 0).
  - rewrite Z.max_l by lia. reflexivity.
  - rewrite Z.max_r, wrap_u_small by lia. apply wrap_s_small; lia.
Qed.

(** Derived twice in a row, the sums of the second read are exact and so are the
    differences shown of them. *)
Lemma sum_delta_exact t x u sy : x ∈ sums -> jifs_ok (t_new t) ->
  Forall (fun x => 0 <= x (t_old t) < 2 ^ 63) sums ->
  get_sl_int (run_setter (TICsetH sl_int x) u (sy, stat_derive_unique t)) =
    x (t_new (stat_derive_unique t)) - x (t_old (stat_derive_unique t)) /\
  0 <= x (t_new (stat_derive_unique t)) - x (t_old (stat_derive_unique t)).
Proof.
  intros Hx Hok Hold. pose proof (derive_history t) as (Hn & _ & _ & _ & Hge & Ho).
  pose proof (derive_sums_exact (t_new t) Hok) as (E1 & E2 & E3 & E4 & E5). destruct Hok as [Hp Hs].
  rewrite !Forall_cons in Hp. destruct Hp as (?&?&?&?&?&?&?&?&?&?&_). unfold tics10 in *.
  assert (Hr : 0 <= x (derive_sums (t_new t)) < 2 ^ 63).
  { unfold sums in Hx. rewrite !elem_of_cons in Hx. destruct Hx as [->|[->|[->|[->|[->|Hx]]]]]; try lia. by inversion Hx. }
  rewrite Forall_forall in Hge, Hold. specialize (Hge _ Hx). specialize (Hold _ Hx). cbn beta in *.
  rewrite tic_delta_value; [lia|rewrite Hn; lia|]. destruct Ho as [->| ->]; [lia|]. rewrite Hn. lia.
Qed.

(** ** Nodes *)

(** The processors of a node. *)
Definition on_node (node_of : Z -> Z) (k : Z) (cs : list hist_tic) : list hist_tic :=
  filter (fun c => node_of (t_id c) = k) cs.

(** The node [k] with the processors [l] added to it. *)
Definition node_sum (k : Z) (n : hist_tic) (l : list hist_tic) : hist_tic := foldl (add_tic k) n l.

Lemma on_node_cons f k c cs : on_node f k (c :: cs) =
  if decide (f (t_id c) = k) then c :: on_node f k cs else on_node f k cs.
Proof. unfold on_node. by rewrite filter_cons. Qed.

Definition numbered (f : Z -> Z) (c : hist_tic) : hist_tic :=
  if -1 <? f (t_id c) then Tic (t_id c) (f (t_id c)) (t_count c) (t_new c) (t_old c) else c.

Lemma numa_loop_spec f cs ns : Forall (fun c => f (t_id c) < Z.of_nat (length ns)) cs ->
  exists ns', numa_loop f cs ns = Some (map (numbered f) cs, ns') /\ length ns' = length ns /\
    forall k n, ns !! k = Some n -> ns' !! k = Some (node_sum (Z.of_nat k) n (on_node f (Z.of_nat k) cs)).
Proof.
  intros H. revert ns H. induction cs as [|c cs IH]; intros ns H; cbn [numa_loop map].
  { by exists ns. }
  apply Forall_cons in H as [Hc H]. unfold numbered at 1. destruct (Z.ltb_spec (-1) (f (t_id c))) as [Hlt|Hge].
  - destruct (lookup_lt_is_Some_2 ns (Z.to_nat (f (t_id c))) ltac:(lia)) as [n0 Hn0]. rewrite Hn0.
    cbn [mbind option_bind]. set (ns1 := <[Z.to_nat (f (t_id c)) := add_tic (f (t_id c)) n0 c]> ns).
    destruct (IH ns1) as (ns' & -> & Hl & Hk).
    { unfold ns1. by rewrite length_insert. }
    exists ns'. split; [done|]. split; [unfold ns1 in Hl; by rewrite length_insert in Hl|].
    intros k n Hkn. rewrite on_node_cons. destruct (decide (f (t_id c) = Z.of_nat k)) as [E|E].
    + rewrite E, Nat2Z.id in *. simplify_eq. cbn [node_sum foldl]. apply Hk.
      unfold ns1. rewrite E, Nat2Z.id. apply list_lookup_insert_eq. by eapply lookup_lt_Some.
    + apply Hk. unfold ns1. rewrite list_lookup_insert_ne; [done|]. lia.
  - destruct (IH ns H) as (ns' & -> & Hl & Hk). cbn [mbind option_bind].
    exists ns'. split; [done|]. split; [done|]. intros k n Hkn. rewrite on_node_cons.
    rewrite decide_False by lia. by apply Hk.
Qed.

Lemma u64_add_l a b : u64 (u64 a + b) = u64 (a + b).
Proof. unfold wrap_u. by rewrite Zplus_mod_idemp_l. Qed.

(** Every counter, current and history. *)
Definition counters : list (stat_jifs -> Z) :=
  [j_user; j_nice; j_system; j_idle; j_iowait; j_irq; j_sirq; j_stolen; j_guest; j_gnice;
   j_xusr; j_xsys; j_xidl; j_xbsy; j_xtot].

Lemma add_jifs_counter x a b : x ∈ counters -> x (add_jifs a b) = u64 (x a + x b).
Proof. unfold counters. rewrite !elem_of_cons, elem_of_nil. intros. destruct_or!; subst; done. Qed.

Definition total (x : hist_tic -> Z) (l : list hist_tic) : Z := foldr (fun c s => x c + s) 0 l.

Lemma node_sum_fields k l : forall n,
  let r := node_sum k n l in
  t_id r = t_id n /\ t_count r = t_count n + Z.of_nat (length l) /\ t_node r = match l with [] => t_node n | _ => k end /\
  forall x, x ∈ counters -> 0 <= x (t_new n) < 2 ^ 64 -> 0 <= x (t_old n) < 2 ^ 64 ->
    x (t_new r) = u64 (x (t_new n) + total (fun c => x (t_new c)) l) /\
    x (t_old r) = u64 (x (t_old n) + total (fun c => x (t_old c)) l).
Proof.
  induction l as [|c l IH]; intros n; cbn [node_sum foldl length total foldr].
  - split; [done|]. split; [lia|]. split; [done|]. intros x _ Hn Ho. by rewrite !Z.add_0_r, !wrap_u_small.
  - destruct (IH (add_tic k n c)) as (H1 & H2 & H3 & H4). unfold node_sum in *. cbn [add_tic t_id t_count t_node t_new t_old] in *.
    split; [done|]. split; [rewrite H2; lia|]. split; [rewrite H3; by destruct l|].
    intros x Hx Hn Ho. destruct (H4 x Hx) as [H5 H6]; [rewrite add_jifs_counter by done; apply wrap_u_range; lia..|].
    rewrite H5, H6, !add_jifs_counter, !u64_add_l by done. unfold total. split; f_equal; lia.
Qed.

(** What the nodes show after the loop: node [k] is numbered, knows the number
    of its processors, is marked unless it has none, and every counter and its
    history is the sum over its processors. *)
Definition node_shows (node_of : Z -> Z) (cs : list hist_tic) (k : nat) (r : hist_tic) : Prop :=
  let l := on_node node_of (Z.of_nat k) cs in
  t_id r = Z.of_nat k /\ t_count r = Z.of_nat (length l) /\
  t_node r = match l with [] => STAT_NODE_INVALID | _ => Z.of_nat k end /\
  forall x, x ∈ counters ->
    x (t_new r) = u64 (total (fun c => x (t_new c)) l) /\ x (t_old r) = u64 (total (fun c => x (t_old c)) l).

Lemma counters_zero x : x ∈ counters -> x jifs_zero = 0.
Proof. unfold counters. rewrite !elem_of_cons, elem_of_nil. intros. destruct_or!; subst; done. Qed.

Lemma clear_nodes_lookup tot alloc k : (k < tot)%nat ->
  clear_nodes tot alloc !! k = Some (Tic (Z.of_nat k) STAT_NODE_INVALID 0 jifs_zero jifs_zero).
Proof.
  intros Hk. unfold clear_nodes. rewrite lookup_app_l by (by rewrite length_map, length_seq).
  by rewrite list_lookup_fmap, lookup_seq_lt.
Qed.

Lemma clear_nodes_length tot alloc : (tot <= alloc)%nat -> length (clear_nodes tot alloc) = alloc.
Proof. intros. unfold clear_nodes. rewrite length_app, length_map, length_seq, length_replicate. lia. Qed.

Lemma numa_nodes node_of cs tot alloc : (tot <= alloc)%nat ->
  Forall (fun c => node_of (t_id c) < Z.of_nat alloc) cs ->
  exists ns, numa_loop node_of cs (clear_nodes tot alloc) = Some (map (numbered node_of) cs, ns) /\
    length ns = alloc /\ forall k, (k < tot)%nat -> exists r, ns !! k = Some r /\ node_shows node_of cs k r.
Proof.
  intros Ht Hc. destruct (numa_loop_spec node_of cs (clear_nodes tot alloc)) as (ns & H1 & H2 & H3).
  { by rewrite clear_nodes_length. }
  exists ns. rewrite clear_nodes_length in H2 by done. do 2 (split; [done|]). intros k Hk.
  eexists. split; [apply H3; by apply clear_nodes_lookup|].
  destruct (node_sum_fields (Z.of_nat k) (on_node node_of (Z.of_nat k) cs)
    (Tic (Z.of_nat k) STAT_NODE_INVALID 0 jifs_zero jifs_zero)) as (G1 & G2 & G3 & G4).
  cbn [t_id t_count t_node t_new t_old] in *. unfold node_shows. split; [done|].
  split; [rewrite G2; lia|]. split; [done|]. intros x Hx. destruct (G4 x Hx) as [-> ->]; rewrite ?counters_zero by done; lia || done.
Qed.

End Stat.
