(* ===== verification/Statscan.v ===== *)
(** * procps/linux/stat.c: reading and reaping

    What stat.c makes of a /proc/stat as the kernel prints it, and the results
    it hands out. *)

From stdpp Require Import base numbers list strings.
From S2P Require Import Prelude Libc Posix Utils Stacks Fetch Stat.
Open Scope Z_scope.

Module Statscan.
Import Stat.

(** ** The file as a stream *)

(** How many bytes were read since the file was rewound, and whether a read
    since then came to the end. *)
Fixpoint fpos (fp : Z) (t : trace) : nat :=
  match t with
  | [] => 0
  | (CFseek f _, _) :: t' => if f =? fp then 0 else fpos fp t'
  | (CFread f _, r) :: t' => if f =? fp then fpos fp t' + length (r_data r) else fpos fp t'
  | _ :: t' => fpos fp t'
  end.

Fixpoint at_eof (fp : Z) (t : trace) : bool :=
  match t with
  | [] => false
  | (CFseek f _, _) :: t' => if f =? fp then false else at_eof fp t'
  | (CFread f n, r) :: t' =>
      if f =? fp then (Z.of_nat (length (r_data r)) <? n) || at_eof fp t' else at_eof fp t'
  | _ :: t' => at_eof fp t'
  end.

(** The stream [fp] delivers this text. *)
Definition chunk (text : bytes) (pos : nat) (n : Z) : bytes := take (Z.to_nat n) (drop pos text).
Definition streams (o : os) (fp : Z) (text : bytes) : Prop :=
  (forall t n, o t (CFread fp n) =
     rdata (Z.of_nat (length (chunk text (fpos fp t) n))) (chunk text (fpos fp t) n)) /\
  (forall t, o t (CFeof fp) = rok (if at_eof fp t then 1 else 0)).

Lemma stream_split text pos n : (pos <= length text)%nat ->
  take pos text ++ chunk text pos n = take (pos + Z.to_nat n) text.
Proof. intros Hp. unfold chunk. by rewrite take_take_drop. Qed.

(** The loop reads all of the text and leaves room for the final NUL. *)
Lemma read_all_ok o fp text : memory o -> streams o fp text ->
  Z.of_nat (length text) + BUFFER_INCR <= INT_MAX -> forall fuel maxsiz acc w,
  acc = take (length acc) text -> fpos fp (w_tr w) = length acc -> (length acc <= length text)%nat ->
  Z.of_nat (length acc) < maxsiz -> (length text < fuel + length acc)%nat ->
  wp (read_all fuel fp maxsiz acc) o w (fun res w' => exists siz, res = (true, siz, text) /\
    Z.of_nat (length text) < siz /\ maxsiz <= siz /\ at_eof fp (w_tr w') = true).
Proof.
  intros Hm [Hr He] Hsz. induction fuel as [|fuel IH]; intros maxsiz acc w Ha Hp Hl Hx Hf; [lia|].
  cbn [read_all]. wstep. wsys r Hr0. rewrite Hr, Hp in Hr0. set (n := maxsiz - Z.of_nat (length acc)) in *.
  set (d := chunk text (length acc) n) in *. subst r. cbn [rdata r_val r_data].
  assert (Hd : length d = Nat.min (Z.to_nat n) (length text - length acc))
    by (unfold d, chunk; by rewrite length_take, length_drop).
  assert (Hacc : acc ++ d = take (length acc + Z.to_nat n) text).
  { rewrite Ha at 1. by apply stream_split. }
  destruct (Z.leb_spec (Z.of_nat (length d)) 0) as [Hz|Hnz].
  - apply wp_ret. exists maxsiz. assert (length acc = length text) as El by lia.
    split; [rewrite Ha, El, take_ge by lia; done|]. split; [lia|]. split; [lia|].
    cbn [w_tr at_eof rdata r_data]. rewrite Z.eqb_refl. apply orb_true_iff. left. apply Z.ltb_lt. lia.
  - rewrite length_app. destruct (Z.ltb_spec maxsiz (Z.of_nat (length acc + length d))); [lia|].
    destruct (Z.ltb_spec (Z.of_nat (length acc + length d)) maxsiz) as [Hs|Hs].
    + apply wp_ret. exists maxsiz. split; [rewrite Hacc, take_ge by lia; done|]. split; [lia|]. split; [lia|].
      cbn [w_tr at_eof rdata r_data]. rewrite Z.eqb_refl. apply orb_true_iff. left. apply Z.ltb_lt. lia.
    + destruct (Z.ltb_spec INT_MAX (maxsiz + BUFFER_INCR)); [lia|]. wstep. wsys m Hm0.
      destruct (Z.ltb_spec (r_val m) 0) as [Hlt|_]; [subst m; match type of Hlt with r_val (o ?t ?c) < 0 =>
        match c with CMalloc ?s => specialize (Hm t s) end end; lia|].
      assert (Hla : length (acc ++ d) = (length acc + length d)%nat) by apply length_app.
      unfold BUFFER_INCR in *. eapply wp_mono.
      { apply (IH (maxsiz + 8192) (acc ++ d)); [|cbn [w_tr fpos rdata r_data]; rewrite Z.eqb_refl, Hp; by rewrite Hla|lia|lia|lia].
        rewrite Hla, Hacc. f_equal. lia. }
      intros res w' (siz & -> & H1 & H2 & H3). exists siz. split; [done|]. split; [done|]. split; [lia|done].
Qed.

(** ** The lines *)

Definition print_vals (vs : list Z) : bytes := concat (map (fun v => 32 :: dec v) vs).
Definition print_sum (vs : list Z) : bytes := bs "cpu " ++ print_vals vs ++ [10].

Record cpuline := CpuLine { c_id : Z; c_vals : list Z }.
Definition cpu_head (l : cpuline) : bytes := bs "cpu" ++ dec (c_id l) ++ print_vals (c_vals l).
Definition print_cpu (l : cpuline) : bytes := cpu_head l ++ [10].

Definition vals_ok (vs : list Z) : Prop := length vs = 10%nat /\ Forall (fun v => 0 <= v <= ULONG_MAX) vs.
Definition cpuline_ok (l : cpuline) : Prop := 0 <= c_id l <= INT_MAX /\ vals_ok (c_vals l).

Lemma scan_vals vs r : vs <> [] -> Forall (fun v => 0 <= v <= ULONG_MAX) vs -> stops r ->
  sscanf (DSpace :: llus (length vs)) (print_vals vs ++ r) = map VI vs.
Proof.
  intros Hne Hv Hr. induction Hv as [|v vs Hv1 Hv IH]; [done|]. cbn [length]. unfold print_vals. cbn [map concat].
  fold (print_vals vs). rewrite sscanf_DSpace. cbn [app]. rewrite <- app_assoc. cbn [skip_spaces]. change (isspace 32) with true.
  cbv iota. rewrite skip_spaces_dec by lia.
  destruct vs as [|v' vs].
  - cbn [length llus sscanf]. cbn [print_vals map concat app]. by rewrite strtoul_dec.
  - change (llus (S (length (v' :: vs)))) with (DLU :: DSpace :: llus (length (v' :: vs))).
    cbn [sscanf]. rewrite strtoul_dec by done. cbn [st_conv st_val st_rest map]. f_equal. by apply IH.
Qed.

Lemma llus_10 vs : vals_ok vs -> llus 10 = llus (length vs).
Proof. by intros [-> _]. Qed.

Lemma scan_sum vs r : vals_ok vs -> stops r -> sscanf sum_fmt (print_sum vs ++ r) = map VI vs.
Proof.
  intros Hv Hr. unfold sum_fmt, print_sum. rewrite (llus_10 vs Hv).
  change (bs "cpu ") with (bs "cpu" ++ [32]). rewrite <- !app_assoc, sscanf_lits.
  change (sscanf (DSpace :: llus (length vs)) ([32] ++ print_vals vs ++ [10] ++ r))
    with (sscanf (DSpace :: llus (length vs)) (print_vals vs ++ [10] ++ r)).
  destruct Hv as [Hl Hv]. apply scan_vals; [by intros ->|done|done].
Qed.

Lemma strtol_dec v r : 0 <= v <= LONG_MAX -> stops r -> strtol (dec v ++ r) = Strto v r true false.
Proof.
  intros Hv Hr. pose proof (strtol_fmt_d v r) as H. unfold fmt_d in H.
  destruct (Z.ltb_spec v 0); [lia|]. apply H; [unfold LONG_MIN, LONG_MAX in *; lia|done].
Qed.

Lemma scan_cpu_line l r : cpuline_ok l -> stops r ->
  sscanf cpu_fmt (cpu_head l ++ 10 :: r) = VI (c_id l) :: map VI (c_vals l).
Proof.
  intros [Hid Hv] Hr. unfold cpu_fmt, cpu_head. rewrite (llus_10 _ Hv), <- !app_assoc, sscanf_lits.
  cbn [sscanf]. destruct Hv as [Hl Hv]. destruct (c_vals l) as [|v vs] eqn:E; [done|].
  rewrite strtol_dec by (done || unfold INT_MAX, LONG_MAX in *; lia).
  cbn [st_conv st_val st_rest]. rewrite i32_small by (unfold INT_MIN in *; lia). f_equal.
  by apply (scan_vals (v :: vs)).
Qed.

(** No line feed before the end of a line. *)
Lemma print_vals_line vs : Forall (fun v => 0 <= v) vs -> Forall (fun c => c <> 10) (print_vals vs).
Proof.
  induction 1 as [|v vs Hv _ IH]; [constructor|]. unfold print_vals. cbn [map concat]. apply Forall_app. split; [|done].
  constructor; [done|]. eapply Forall_impl; [by apply dec_digits|]. cbn. intros c Hc%isdigit_spec. lia.
Qed.

Lemma vals_nonneg vs : vals_ok vs -> Forall (fun v => 0 <= v) vs.
Proof. intros [_ H]. eapply Forall_impl; [apply H|]. cbn. lia. Qed.

Lemma cpu_head_line l : cpuline_ok l -> Forall (fun c => c <> 10) (cpu_head l).
Proof.
  intros [Hid Hv]. unfold cpu_head. rewrite !Forall_app. split; [by repeat constructor|].
  split; [|apply print_vals_line, vals_nonneg; done].
  eapply Forall_impl; [apply dec_digits; lia|]. cbn. intros c Hc%isdigit_spec. lia.
Qed.

(** ** What a read does to the rows *)

(** The counters of a line, with their sums. *)
Definition jifs_of (vs : list Z) : stat_jifs := derive_sums (scan_jifs (map VI vs) jifs_zero).

(** The row of a processor after its line was read, from the row before. *)
Definition cpu_next (l : cpuline) (t : hist_tic) : hist_tic :=
  stat_derive_unique (scan_cpu (VI (c_id l) :: map VI (c_vals l)) t).
Definition sum_next (vs : list Z) (t : hist_tic) : hist_tic :=
  stat_derive_unique (scan_summary (map VI vs) t).

Lemma scan_jifs_all vs n : length vs = 10%nat -> derive_sums (scan_jifs (map VI vs) n) = jifs_of vs.
Proof. intros H. do 10 (destruct vs as [|? vs]; [done|]). by destruct vs. Qed.

(** The row has the id and the counters of its line, and the previous counters
    as history unless a sum went down. *)
Lemma cpu_next_values l t : cpuline_ok l ->
  t_id (cpu_next l t) = c_id l /\ t_node (cpu_next l t) = STAT_NODE_INVALID /\ t_count (cpu_next l t) = 1 /\
  t_new (cpu_next l t) = jifs_of (c_vals l) /\
  Forall (fun x => x (t_old (cpu_next l t)) <= x (t_new (cpu_next l t))) sums /\
  (t_old (cpu_next l t) = t_new t \/ t_old (cpu_next l t) = t_new (cpu_next l t)).
Proof.
  intros [_ [Hl _]]. unfold cpu_next. set (u := scan_cpu _ t).
  destruct (derive_history u) as (H1 & H2 & H3 & H4 & H5 & H6). rewrite H2, H3, H4.
  do 3 (split; [done|]). split; [rewrite H1; by apply scan_jifs_all|]. split; [done|]. done.
Qed.

Section scan.
Variable garbage : nat -> hist_tic.

(** The row a processor had before, or what the memory held. *)
Definition prev (tics : list hist_tic) (i : nat) : hist_tic := default (garbage i) (tics !! i).

Lemma prev_grown tics m i : prev (tics ++ fresh_tics garbage (length tics) m) i = prev tics i.
Proof.
  unfold prev. destruct (decide (i < length tics)%nat) as [H|H].
  - by rewrite lookup_app_l.
  - rewrite lookup_app_r, (lookup_ge_None_2 tics i) by lia. unfold fresh_tics. rewrite list_lookup_fmap.
    destruct (decide (i - length tics < m - length tics)%nat).
    + rewrite lookup_seq_lt by done. cbn. f_equal. lia.
    + by rewrite lookup_seq_ge by lia.
Qed.

(** The rows after the lines [ls] were read from row [i] on. *)
Definition rows_read (i : nat) (ls : list cpuline) (tics tics' : list hist_tic) : Prop :=
  (i + length ls < length tics')%nat /\ (length tics <= length tics')%nat /\
  (forall j l, ls !! j = Some l -> tics' !! (i + j)%nat = Some (cpu_next l (prev tics (i + j)))) /\
  (forall j, (j < i)%nat -> tics' !! j = tics !! j).

(** The lines that follow the processors. *)
Definition tail_ok (tail : bytes) : Prop := stops tail /\ (length (sscanf cpu_fmt tail) < 8)%nat.

Lemma stops_lines ls tail : stops tail -> stops (concat (map print_cpu ls) ++ tail).
Proof. by destruct ls. Qed.

Lemma cpu_loop_ok o u tail : memory o -> tail_ok tail -> forall ls fuel pre i tics w,
  Forall (fun c => c <> 10) pre -> Forall cpuline_ok ls -> (i < length tics)%nat -> (length ls < fuel)%nat ->
  wp (cpu_loop garbage fuel (pre ++ 10 :: concat (map print_cpu ls) ++ tail) i
        (Tics (Z.of_nat (length tics)) u (Some tics))) o w
    (fun res w' => exists tics', res = (Some (tail, (i + length ls)%nat), Tics (Z.of_nat (length tics')) u (Some tics')) /\
      rows_read i ls tics tics').
Proof.
  intros Hm [Hst Ht]. induction ls as [|l ls IH]; intros fuel pre i tics w Hpre Hls Hi Hf;
    (destruct fuel as [|fuel]; [cbn in Hf; lia|]); cbn [cpu_loop h_tics h_alloc h_inuse];
    wstep; rewrite strchr_app by done; unfold wp at 1; cbn [deref mret M_ret]; rewrite drop_past;
    wstep; unfold wp at 1; cbn [deref mret M_ret]; destruct (lookup_lt_is_Some_2 tics i Hi) as [c Hc];
    rewrite Hc; wstep; unfold wp at 1; cbn [deref mret M_ret map concat app].
  - destruct (Nat.ltb_spec (length (sscanf cpu_fmt tail)) 8); [|lia]. apply wp_ret.
    exists (<[i := scan_cpu (sscanf cpu_fmt tail) c]> tics). rewrite length_insert, Nat.add_0_r. split; [done|].
    unfold rows_read. rewrite length_insert. cbn [length]. split; [lia|]. split; [lia|]. split; [done|].
    intros j Hj. by rewrite list_lookup_insert_ne by lia.
  - apply Forall_cons in Hls as [Hl Hls]. 
    assert (Hline : (print_cpu l ++ concat (map print_cpu ls)) ++ tail = cpu_head l ++ 10 :: concat (map print_cpu ls) ++ tail)
      by (unfold print_cpu; by rewrite <- !app_assoc).
    rewrite !Hline, !scan_cpu_line by (done || by apply stops_lines).
    cbn [length]. rewrite length_map. pose proof Hl as [_ [H10 _]]. rewrite H10. cbn [Nat.ltb Nat.leb].
    fold (cpu_next l c). set (tics1 := <[i := cpu_next l c]> tics).
    assert (Hl1 : length tics1 = length tics) by apply length_insert.
    assert (Hp1 : forall k, (i < k)%nat -> prev tics1 k = prev tics k).
    { intros k Hk. unfold prev, tics1. by rewrite list_lookup_insert_ne by lia. }
    assert (Hc0 : prev tics i = c) by (unfold prev; by rewrite Hc).
    assert (Hstep : forall tics2 tics', (length tics <= length tics2)%nat ->
      (forall k, (i < k)%nat -> prev tics2 k = prev tics k) -> (forall k, (k < S i)%nat -> tics2 !! k = tics1 !! k) ->
      rows_read (S i) ls tics2 tics' -> rows_read i (l :: ls) tics tics').
    { intros tics2 tics' G1 G2 G3 (R1 & R2 & R3 & R4). unfold rows_read. cbn [length]. split; [lia|]. split; [lia|]. split.
      - intros [|j] l' Hj; cbn in Hj.
        + injection Hj as <-. rewrite Nat.add_0_r, R4, G3, Hc0 by lia. unfold tics1. by rewrite list_lookup_insert_eq by lia.
        + rewrite <- Nat.add_succ_comm, (R3 j l') by done. do 2 f_equal. apply G2. lia.
      - intros j Hj. rewrite R4, G3 by lia. unfold tics1. by rewrite list_lookup_insert_ne by lia. }
    destruct (Z.ltb_spec (Z.of_nat (S i)) (Z.of_nat (length tics))) as [Hlt|Hge].
    + rewrite <- Hl1. eapply wp_mono; [apply (IH fuel (cpu_head l) (S i) tics1); [by apply cpu_head_line|done|lia|cbn in Hf; lia]|].
      intros res w' (tics' & -> & Hrows). exists tics'. cbn [length]. rewrite Nat.add_succ_r. split; [done|].
      by apply (Hstep tics1); [lia|..].
    + wstep. wsys m Hm0. destruct (Z.ltb_spec (r_val m) 0) as [Hlt|_]; [subst m; match type of Hlt with
        r_val (o ?t (CMalloc ?s)) < 0 => specialize (Hm t s) end; lia|].
      set (n := Z.of_nat (length tics) + NEWOLD_INCR).
      set (tics2 := tics1 ++ fresh_tics garbage (length tics1) (Z.to_nat n)).
      assert (Hl2 : Z.of_nat (length tics2) = n).
      { unfold tics2, fresh_tics, n, NEWOLD_INCR. rewrite length_app, length_map, length_seq. lia. }
      rewrite <- Hl2. unfold NEWOLD_INCR in *.
      eapply wp_mono; [apply (IH fuel (cpu_head l) (S i) tics2); [by apply cpu_head_line|done|lia|cbn in Hf; lia]|].
      intros res w' (tics' & -> & Hrows). exists tics'. cbn [length]. rewrite Nat.add_succ_r. split; [done|].
      apply (Hstep tics2); [lia|..|done].
      * intros k Hk. unfold tics2. by rewrite prev_grown, Hp1.
      * intros k Hk. unfold tics2. by rewrite lookup_app_l by lia.
Qed.
End scan.

(** ** Reading the file *)

Definition stat_text (vs : list Z) (ls : list cpuline) (tail : bytes) : bytes :=
  print_sum vs ++ concat (map print_cpu ls) ++ tail.

Definition hist_ok (cs : tic_support) : Prop :=
  0 <= h_inuse cs /\ 0 <= h_alloc cs /\
  ((h_alloc cs = 0 /\ h_inuse cs = 0) \/
   exists tics, tics <> [] /\ h_tics cs = Some tics /\ h_alloc cs = Z.of_nat (length tics) /\
     h_inuse cs <= Z.of_nat (length tics)).

(** The rows a read starts from. *)
Definition rows_before (cs : tic_support) : list hist_tic :=
  if h_alloc cs =? 0 then replicate (Z.to_nat NEWOLD_INCR) tic_zero else default [] (h_tics cs).

Definition after_read (vs : list Z) (ls : list cpuline) (tail : bytes) (fp siz : Z) (tics : list hist_tic)
    (info : stat_info) : stat_info :=
  let n := Z.of_nat (length ls) in
  let c := sum_next vs (cpu_hist info) in
  set_sys (HSys (sys_values tail) (s_new (sys_hist info)))
    (set_cpu (Tic (t_id c) (t_node c) n (t_new c) (t_old c))
      (set_cpus (Reap n (rp_exts (cpus info)) (Tics (Z.of_nat (length tics)) n (Some tics)) (rp_fetch (cpus info)))
        (set_buf_size siz (set_buf (Some (stat_text vs ls tail)) (set_fp fp info))))).

(** A system on which /proc/stat can be opened and holds these lines. *)
Record stat_system (o : os) (vs : list Z) (ls : list cpuline) (tail : bytes) : Prop := {
  st_memory : memory o;
  st_open : forall t p, 0 <= r_val (o t (CFopen p));
  st_file : forall fp, streams o fp (stat_text vs ls tail);
  st_nul : Forall (fun c => c <> 0) (stat_text vs ls tail);
  st_vals : vals_ok vs;
  st_cpus : Forall cpuline_ok ls;
  st_tail : tail_ok tail;
  st_size : Z.of_nat (length (stat_text vs ls tail)) + BUFFER_INCR <= INT_MAX
}.

Section read.
Variable garbage : nat -> hist_tic.

Lemma lines_length ls : (length ls <= length (concat (map print_cpu ls)))%nat.
Proof.
  induction ls as [|l ls IH]; cbn [map concat length]; [lia|]. unfold print_cpu at 1. rewrite !length_app. cbn [length]. lia.
Qed.

Lemma parse_stat_ok o vs ls tail info tics u w : memory o -> vals_ok vs -> Forall cpuline_ok ls -> tail_ok tail ->
  rp_hist (cpus info) = Tics (Z.of_nat (length tics)) u (Some tics) -> tics <> [] ->
  stat_buf info = Some (stat_text vs ls tail) ->
  wp (parse_stat garbage (stat_text vs ls tail) info) o w (fun res w' => exists tics',
    res = (0, after_read vs ls tail (stat_fp info) (stat_buf_size info) tics' info) /\ rows_read garbage 0 ls tics tics').
Proof.
  intros Hm Hv Hl Ht Hh Hne Hb. unfold parse_stat.
  assert (Hscan : sscanf sum_fmt (stat_text vs ls tail) = map VI vs) by (apply scan_sum; [done|apply stops_lines, Ht]).
  rewrite !Hscan. rewrite length_map. pose proof Hv as [H10 _]. rewrite H10.
  cbn [Nat.ltb Nat.leb]. wstep. cbn [set_cpu cpus rp_hist]. rewrite Hh.
  assert (Htext : stat_text vs ls tail = (bs "cpu " ++ print_vals vs) ++ 10 :: concat (map print_cpu ls) ++ tail).
  { unfold stat_text, print_sum. by rewrite <- !app_assoc. }
  assert (Hlen : (length ls < S (length (stat_text vs ls tail)))%nat).
  { unfold stat_text. rewrite !length_app. pose proof (lines_length ls). lia. }
  eapply wp_mono.
  { rewrite Htext at 2. apply (cpu_loop_ok garbage o u tail Hm Ht ls); try done.
    - apply Forall_app. split; [vm_compute; by repeat constructor|]. by apply print_vals_line, vals_nonneg.
    - by destruct tics; [|cbn; lia]. }
  intros res w' (tics' & -> & Hr). apply wp_ret. exists tics'. split; [|done].
  unfold after_read. rewrite <- Hb. by destruct info.
Qed.

Lemma init_tics_ok o cs w : memory o -> hist_ok cs ->
  wp (init_tics cs) o w (fun res w' => exists u, res = (true, Tics (Z.of_nat (length (rows_before cs))) u (Some (rows_before cs)))
    /\ rows_before cs <> []).
Proof.
  intros Hm (_ & _ & Hcs). unfold init_tics, rows_before. destruct (Z.eqb_spec (h_alloc cs) 0) as [E|E]; cbn [negb].
  - wstep. wsys r Hr. destruct (Z.ltb_spec (r_val r) 0); [subst r; specialize (Hm (w_tr w) NEWOLD_INCR); lia|].
    apply wp_ret. eexists. split; [|done]. by rewrite length_replicate.
  - destruct Hcs as [[? _]|(tics & Hne & Ht & Ha & _)]; [done|]. apply wp_ret. exists (h_inuse cs). rewrite Ht.
    cbn [default from_option id]. split; [|done]. rewrite <- Ha, <- Ht. by destruct cs.
Qed.

Lemma open_stat o (w : world Numa.nstate) info : (forall t p, 0 <= r_val (o t (CFopen p))) ->
  wp (if stat_fp info <? 0 then f ← sys (CFopen (bs "/proc/stat")); mret (set_fp (r_val f) info) else mret info) o w
    (fun i w1 => exists fp, i = set_fp fp info /\ 0 <= fp).
Proof.
  intros Ho. destruct (Z.ltb_spec (stat_fp info) 0) as [Hlt|Hge].
  - wstep. wsys f Hf. apply wp_ret. exists (r_val f). split; [done|]. subst f. apply Ho.
  - apply wp_ret. exists (stat_fp info). split; [by destruct info|done].
Qed.

Lemma stat_read_ok o vs ls tail fuel info w : stat_system o vs ls tail ->
  (length (stat_text vs ls tail) < fuel)%nat -> hist_ok (rp_hist (cpus info)) ->
  stat_buf info <> None -> 0 < stat_buf_size info ->
  wp (stat_read_failed garbage fuel info) o w (fun res w' => exists tics fp siz,
    res = (0, after_read vs ls tail fp siz tics info) /\ 0 <= fp /\ 0 < siz /\
    rows_read garbage 0 ls (rows_before (rp_hist (cpus info))) tics).
Proof.
  intros [Hm Ho Hs Hnul Hv Hl Ht Hsz] Hfuel Hh Hb Hb0. unfold stat_read_failed. wstep.
  eapply wp_mono; [by apply (init_tics_ok o)|]. intros res w1 (u & -> & Hne). cbn [negb].
  set (tics0 := rows_before (rp_hist (cpus info))) in *. wstep.
  eapply wp_mono; [by apply (open_stat o)|]. intros i w2 (fp & -> & Hfp). cbn [stat_fp set_fp].
  destruct (Z.ltb_spec fp 0); [lia|]. wstep. wsys sk Hsk. wstep. cbn [stat_buf set_fp set_cpus].
  destruct (stat_buf info) as [b|]; [|done]. unfold wp at 1. cbn [deref mret M_ret]. wstep.
  cbn [stat_buf_size set_cpus set_fp]. eapply wp_mono.
  { apply (read_all_ok o fp (stat_text vs ls tail) Hm (Hs fp) Hsz fuel (stat_buf_size info) []); try done;
      cbn [w_tr fpos length]; [by rewrite Z.eqb_refl|lia|lia]. }
  intros res w3 (siz & -> & Hsiz & _ & Heof). cbn [negb]. wstep. wsys eo He. rewrite (proj2 (Hs fp)), Heof in He. subst eo.
  cbn [rok r_val Z.eqb]. destruct (Z.leb_spec siz (Z.of_nat (length (stat_text vs ls tail)))); [lia|].
  wstep. rewrite (cstr_app _ [] Hnul). unfold wp at 1. cbn [deref mret M_ret].
  eapply wp_mono; [by apply (parse_stat_ok o vs ls tail _ tics0 u)|].
  intros res w4 (tics & -> & Hr). exists tics, fp, siz. split; [done|]. split; [done|]. split; [lia|done].
Qed.
End read.

(** ** The nodes *)

(** What is found of libnuma: [numa_max_node] returns [m], -1 without the library. *)
Definition numa_ready (g : Numa.nstate) (m : Z) (f : Z -> Z) : Prop :=
  Numa.numa_max_node g = Some m /\ Numa.numa_node_of_cpu g = Some f /\
  -1 <= m < INT_MAX - NEWOLD_INCR /\ forall id, f id <= m.

Definition all_nodes (f : Z -> Z) (cs : list hist_tic) (m : Z) (ns : list hist_tic) : Prop :=
  Z.of_nat (length ns) = m + 1 /\ forall k r, ns !! k = Some r -> node_shows f cs k r.

(** The node rows the reap then takes. *)
Definition rows_of (h : tic_support) : list hist_tic := take (Z.to_nat (h_inuse h)) (default [] (h_tics h)).

Lemma rows_of_take a n tics : rows_of (Tics a (Z.of_nat n) (Some tics)) = take n tics.
Proof. unfold rows_of. cbn. by rewrite Nat2Z.id. Qed.

Lemma numa_hist_ok o info tics n a m f w : memory o -> numa_ready (w_g w) m f ->
  rp_hist (cpus info) = Tics a (Z.of_nat n) (Some tics) -> (n <= length tics)%nat ->
  hist_ok (rp_hist (nodes info)) -> (m = -1 -> h_inuse (rp_hist (nodes info)) = 0) ->
  wp (stat_make_numa_hist info) o w (fun res w' => exists h cs,
    res = (m + 1, set_nodes (set_hist h (set_total (m + 1) (nodes info)))
      (set_cpus (set_hist (Tics a (Z.of_nat n) (Some (cs ++ drop n tics))) (cpus info)) info)) /\
    hist_ok h /\ all_nodes f (take n tics) m (rows_of h) /\
    cs = (if m =? -1 then take n tics else map (numbered f) (take n tics))).
Proof.
  intros Hm (Hg1 & Hg2 & Hrange & Hf) Hc Hn Hh H0. pose proof Hh as (Hi & Ha & Hcase).
  unfold stat_make_numa_hist. wstep. unfold wp at 1. cbn [getg]. wstep. rewrite Hg1. unfold wp at 1. cbn [deref mret M_ret].
  rewrite i32_small by (unfold INT_MIN, INT_MAX, NEWOLD_INCR in *; lia).
  destruct (Z.eqb_spec (m + 1) 0) as [E|E].
  { apply wp_ret. assert (m = -1) by lia. specialize (H0 H). exists (rp_hist (nodes info)), (take n tics).
    rewrite E, H. cbn [Z.eqb Pos.eqb]. rewrite take_drop, <- Hc. split; [by destruct info as [? ? ? ? ? ? [] [] ? ? ? ? ? ? ?]|].
    split; [done|]. split; [|done]. unfold all_nodes, rows_of. rewrite H0. cbn. split; [done|]. by intros k r. }
  cbn [nodes set_nodes set_total rp_hist]. wstep. set (h0 := rp_hist (nodes info)) in *.
  assert (Hgrow : wp (if (h_alloc h0 =? 0) || (h_alloc h0 <=? m + 1) then
      r ← sys (CMalloc (m + 1 + NEWOLD_INCR));
      if r_val r <? 0 then mret (false, Tics (m + 1 + NEWOLD_INCR) (h_inuse h0) None)
      else mret (true, Tics (m + 1 + NEWOLD_INCR) (h_inuse h0) (Some (replicate (Z.to_nat (m + 1 + NEWOLD_INCR)) tic_zero)))
    else mret (true, h0)) o w (fun res w' => exists al ol, res = (true, Tics al (h_inuse h0) (Some ol)) /\ m + 1 < al)).
  { destruct (Z.eqb_spec (h_alloc h0) 0), (Z.leb_spec (h_alloc h0) (m + 1)); cbn [orb];
      try (wstep; wsys r Hr; destruct (Z.ltb_spec (r_val r) 0);
        [subst r; specialize (Hm (w_tr w) (m + 1 + NEWOLD_INCR)); lia|];
        apply wp_ret; eexists _, _; split; [done|unfold NEWOLD_INCR; lia]).
    apply wp_ret. destruct Hcase as [[? _]|(ol & _ & Hol & _)]; [done|]. exists (h_alloc h0), ol. rewrite <- Hol. by destruct h0. }
  eapply wp_mono; [apply Hgrow|]. intros res w1 (al & ol & -> & Hal). cbn [negb h_tics h_alloc].
  wstep. unfold wp at 1. cbn [deref mret M_ret]. wstep. rewrite Hg2. unfold wp at 1. cbn [deref mret M_ret].
  cbn [cpus set_nodes]. rewrite Hc. cbn [h_tics h_inuse h_alloc]. wstep. unfold wp at 1. cbn [deref mret M_ret].
  rewrite Nat2Z.id. wstep.
  destruct (numa_nodes f (take n tics) (Z.to_nat (m + 1)) (Z.to_nat al) ltac:(lia)) as (ns & -> & Hlen & Hshow).
  { apply Forall_forall. intros c _. specialize (Hf (t_id c)). lia. }
  unfold wp at 1. cbn [deref mret M_ret]. apply wp_ret.
  exists (Tics al (m + 1) (Some ns)), (map (numbered f) (take n tics)). split; [by destruct info|].
  split; [|split; [|by destruct (Z.eqb_spec m (-1)); [lia|]]].
  - split; [cbn; lia|]. split; [cbn; lia|]. right. exists ns. cbn [h_tics h_alloc h_inuse].
    split; [intros ->; cbn in Hlen; lia|]. split; [done|]. lia.
  - unfold all_nodes, rows_of. cbn [h_tics h_inuse default from_option id]. rewrite length_take. split; [lia|].
    intros k r [Hk Hlt]%lookup_take_Some. destruct (Hshow k Hlt) as (r' & Hr' & Hs). rewrite Hk in Hr'. by injection Hr' as <-.
Qed.

(** ** Results *)

Definition fits (it : item_support) (its : list Z) (e : extents) : Prop := ext_ok Item_table (ext_of it e) its.

(** The three supports of a reap share their items. *)
Definition shared (it : item_support) (es : list extents) : Prop :=
  (i_num it = 0 /\ i_enums it = None /\ Forall (fun e => e_list e = []) es) \/ exists its, Forall (fits it its) es.

Record stat_inv (info : stat_info) : Prop := {
  si_buf : stat_buf info <> None;
  si_size : 0 < stat_buf_size info;
  si_cpus : hist_ok (rp_hist (cpus info));
  si_nodes : hist_ok (rp_hist (nodes info));
  si_select : ext_inv Item_table (ext_of (select_items info) (select info));
  si_reap : shared (reap_items info) [cpu_summary info; rp_exts (cpus info); rp_exts (nodes info)];
  si_canchor : anchor_ok (ext_of (reap_items info) (rp_exts (cpus info))) (rp_fetch (cpus info));
  si_cresults : results_ok (rp_fetch (cpus info));
  si_nanchor : anchor_ok (ext_of (reap_items info) (rp_exts (nodes info))) (rp_fetch (nodes info));
  si_nresults : results_ok (rp_fetch (nodes info));
  si_nstacks : forall st, f_stacks (rp_fetch (nodes info)) = Some st -> st <> []
}.

Lemma ext_of_exts x : ext_of (items_of x) (exts x) = x.
Proof. by destruct x. Qed.

Lemma items_of_ext it e : items_of (ext_of it e) = it.
Proof. by destruct it. Qed.

Lemma shared_inv it e es : shared it (e :: es) -> ext_inv Item_table (ext_of it e).
Proof.
  intros [(H1 & H2 & H3)|[its H]].
  - left. apply Forall_cons in H3 as [H3 _]. done.
  - right. exists its. by apply Forall_cons in H as [H _].
Qed.

(** After a reconfiguration all three fit the new items. *)
Lemma shared_reconfig it e es x its rc : shared it (e :: es) -> ext_ok Item_table x its ->
  rc = 0 /\ x = ext_of it e \/ rc = 1 /\ x_extents x = [] ->
  Forall (fits (items_of x) its) (if negb (rc =? 0) then map exts_free es else es).
Proof.
  intros Hsh Hx [[-> ->]|[-> _]]; cbn [Z.eqb negb Pos.eqb].
  - destruct Hsh as [(H1 & _)|[its' H]].
    { destruct Hx as (_ & _ & Hn & _). cbn in Hn. lia. }
    apply Forall_cons in H as [He Hes]. assert (its = its') as ->; [|by apply Hes].
    destruct He as (_ & Hi' & _), Hx as (_ & Hi & _). rewrite Hi in Hi'. injection Hi' as Hi'. by apply app_inj_tail in Hi' as [-> _].
  - apply Forall_map, Forall_forall. intros e' _. destruct Hx as (H1 & H2 & H3 & _).
    split; [done|]. split; [done|]. split; [done|]. cbn. split; constructor.
Qed.

Lemma anchor_freed it it' e f : anchor_ok (ext_of it e) f -> anchor_ok (ext_of it' (exts_free e)) f.
Proof. intros H. apply (anchor_reconfig (ext_of it e)); [done|by right]. Qed.

(** The anchor only looks at the extents. *)
Lemma anchor_items it it' e f : anchor_ok (ext_of it e) f -> anchor_ok (ext_of it' e) f.
Proof. done. Qed.

Lemma update_single_ok o info x its w : memory o -> ext_ok Item_table x its ->
  wp (stat_update_single_stack info x) o w (fun res w' => exists p s,
    res.1 = Some p /\ ext_ok Item_table res.2 its /\ load res.2 p = Some s /\
    shows Item_table its (sys_hist info, cpu_hist info) s /\ items_of res.2 = items_of x).
Proof.
  intros Hm Hx. unfold stat_update_single_stack. wstep.
  assert (H1 : wp (match x_extents x with
      | [] => '(b, x) ← stat_stacks_alloc x 1; mret (bool_decide (b <> None), x)
      | _ => mret (true, x) end) o w (fun res w' => res.1 = true /\ ext_ok Item_table res.2 its /\
        x_extents res.2 <> [] /\ items_of res.2 = items_of x)).
  { destruct (x_extents x) as [|b bl] eqn:E; [|apply wp_ret; cbn; by rewrite E].
    wstep. eapply wp_mono; [by apply (stacks_alloc_full Item_table o w x its 1)|].
    intros res w1 (b & -> & _ & _ & Hok & _). apply wp_ret. cbn [fst snd]. by rewrite bool_decide_true. }
  eapply wp_mono; [apply H1|]. intros [ok x1] w1. cbn [fst snd]. intros (-> & Hx1 & Hne & Hit). cbn [negb].
  destruct (x_extents x1) as [|b bl] eqn:E; [done|]. cbn [head]. wstep. unfold wp at 1. cbn [deref mret M_ret].
  destruct (load_head Item_table x1 its b bl Hx1 E) as [s0 Hs0]. wstep. rewrite Hs0. unfold wp at 1. cbn [deref mret M_ret].
  destruct (assign_shows Item_table its s0 (sys_hist info, cpu_hist info) (proj1 Hx1) (load_primed Item_table x1 its _ s0 Hx1 Hs0))
    as (s & Hs & Hshow).
  unfold stat_assign_results. wstep. rewrite Hs. unfold wp at 1. cbn [deref mret M_ret]. apply wp_ret. cbn [fst snd].
  exists (b_id b, 0%nat), s. destruct (store_ok Item_table x1 its _ s s0 Hx1 Hs0 (proj1 Hshow)) as [H2 H3]. done.
Qed.

(** The items of a sound support are determined. *)
Lemma same_items it its e x : fits it its e -> ext_ok Item_table x its -> ext_of it (exts x) = x.
Proof.
  intros (_ & H1 & H2 & _) (_ & H3 & H4 & _). destruct it as [n en], x as [n' en' l k].
  cbn [x_items x_numitems i_num i_enums ext_of exts x_extents x_next e_list e_next] in *. by subst.
Qed.

Lemma stacks_fetch_rows o info this its tics w : memory o -> fits (reap_items info) its (rp_exts this) ->
  anchor_ok (ext_of (reap_items info) (rp_exts this)) (rp_fetch this) -> results_ok (rp_fetch this) ->
  h_tics (rp_hist this) = Some tics \/ h_inuse (rp_hist this) = 0 ->
  wp (stat_stacks_fetch info this) o w (fun res w' => exists e f, res.2 = set_rfetch f (set_exts e this) /\ 0 <= res.1 /\
    fits (reap_items info) its e /\ anchor_ok (ext_of (reap_items info) e) f /\ results_ok f /\
    reaped Item_table its (ext_of (reap_items info) e) f (map (pair (sys_hist info)) (rows_of (rp_hist this)))).
Proof.
  intros Hm Hx Ha Hr Ht. unfold stat_stacks_fetch. wstep.
  assert (H1 : wp (if h_inuse (rp_hist this) =? 0 then mret [] else deref (h_tics (rp_hist this))) o w
    (fun l w' => take (Z.to_nat (h_inuse (rp_hist this))) l = rows_of (rp_hist this))).
  { unfold rows_of. destruct (Z.eqb_spec (h_inuse (rp_hist this)) 0) as [E|E].
    - apply wp_ret. by rewrite E.
    - destruct Ht as [->|?]; [|done]. cbn [deref mret M_ret]. by apply wp_ret. }
  eapply wp_mono; [apply H1|]. intros l w1 ->. wstep.
  eapply wp_mono; [by apply (stacks_fetch_ok Item_table STACKS_INCR (-1) o w1 its)|].
  intros res w2 (x & f & -> & Hx' & Ha' & Hr' & Hreap & _). apply wp_ret. cbn [fst snd].
  exists (exts x), f. rewrite !(same_items _ its (rp_exts this) x) by done. split; [done|]. split; [lia|].
  unfold fits. by rewrite !(same_items _ its (rp_exts this) x) by done.
Qed.

Lemma nodes_none_ok o f w : memory o -> results_ok f -> (forall st, f_stacks f = Some st -> st <> []) ->
  wp (nodes_none f) o w (fun res w' => exists st, res = (true, set_results (Some (None :: st)) (f_saved f) 0 f) /\
    results_ok (set_results (Some (None :: st)) (f_saved f) 0 f)).
Proof.
  intros Hm Hr Hne. unfold nodes_none, results_ok in *. wstep. destruct (f_stacks f) as [[|p st]|] eqn:E.
  - by destruct (Hne []).
  - apply wp_ret. cbn [negb]. wstep. rewrite E. unfold wp at 1. cbn [deref mret M_ret length Nat.ltb Nat.leb].
    apply wp_ret. by exists st.
  - wstep. wsys r Hr0. destruct (Z.ltb_spec (r_val r) 0); [subst r; specialize (Hm (w_tr w) 8); lia|]. apply wp_ret. cbn [negb].
    wstep. unfold wp at 1. cbn [f_stacks set_results deref mret M_ret length Nat.ltb Nat.leb]. apply wp_ret. exists [].
    split; [done|]. cbn. rewrite Hr. lia.
Qed.

(** *** What a reap leaves *)

(** The state in the middle of a reap: everything but the stacks of the rows. *)
Record mid_inv (its : list Z) (info : stat_info) : Prop := {
  mi_buf : stat_buf info <> None;
  mi_size : 0 < stat_buf_size info;
  mi_select : ext_inv Item_table (ext_of (select_items info) (select info));
  mi_reap : Forall (fits (reap_items info) its) [cpu_summary info; rp_exts (cpus info); rp_exts (nodes info)];
  mi_canchor : anchor_ok (ext_of (reap_items info) (rp_exts (cpus info))) (rp_fetch (cpus info));
  mi_cresults : results_ok (rp_fetch (cpus info));
  mi_nanchor : anchor_ok (ext_of (reap_items info) (rp_exts (nodes info))) (rp_fetch (nodes info));
  mi_nresults : results_ok (rp_fetch (nodes info));
  mi_nstacks : forall st, f_stacks (rp_fetch (nodes info)) = Some st -> st <> [];
  mi_cpus : hist_ok (rp_hist (cpus info));
  mi_nodes : hist_ok (rp_hist (nodes info))
}.

Lemma mid_stat_inv its info : mid_inv its info -> stat_inv info.
Proof. intros []. split; try done. right. by exists its. Qed.

(** The stacks of one kind of rows. *)
Definition hands_out (its : list Z) (info : stat_info) (this : reap_support) (rows : list hist_tic) : Prop :=
  reaped Item_table its (ext_of (reap_items info) (rp_exts this)) (rp_fetch this) (map (pair (sys_hist info)) rows).

Lemma hist_tics h : hist_ok h -> exists tics, h_tics h = Some tics \/ h_inuse h = 0.
Proof. intros (_ & _ & [[_ H]|(tics & _ & H & _)]); [exists []; by right|exists tics; by left]. Qed.

Lemma reap_cpus_ok o its info w : memory o -> mid_inv its info ->
  wp (reap_cpus info) o w (fun res w' => exists e f, let info' := set_cpus (set_rfetch f (set_exts e (cpus info))) info in
    res.2 = info' /\ 0 <= res.1 /\ mid_inv its info' /\ hands_out its info' (cpus info') (rows_of (rp_hist (cpus info)))).
Proof.
  intros Hm [H1 H2 H3 H4 H5 H6 H7 H8 H9 H10 H11]. rewrite !Forall_cons in H4. destruct H4 as (H4a & H4b & H4c & _).
  unfold reap_cpus. wstep. destruct (hist_tics _ H10) as [tics Ht].
  eapply wp_mono; [by apply (stacks_fetch_rows o info (cpus info) its tics)|].
  intros [rc r] w' (e & f & Hr & Hrc & G1 & G2 & G3 & G4). cbn [fst snd] in *. subst r. apply wp_ret. cbn [fst snd].
  exists e, f. split; [done|]. split; [done|]. split; [|done].
  split; try done. by do 3 (apply Forall_cons_2; [done|]).
Qed.

Lemma set_nodes_mid its info h : mid_inv its info -> hist_ok h ->
  mid_inv its (set_nodes (set_hist h (nodes info)) info).
Proof. intros []. by split. Qed.

Lemma nodes_fetch_ok o its info w : memory o -> mid_inv its info ->
  wp (stat_stacks_fetch info (nodes info)) o w (fun res w' => exists e f,
    let info' := set_nodes (set_rfetch f (set_exts e (nodes info))) info in
    res.2 = set_rfetch f (set_exts e (nodes info)) /\ 0 <= res.1 /\ mid_inv its info' /\
    hands_out its info' (nodes info') (rows_of (rp_hist (nodes info)))).
Proof.
  intros Hm [H1 H2 H3 H4 H5 H6 H7 H8 H9 H10 H11]. rewrite !Forall_cons in H4. destruct H4 as (H4a & H4b & H4c & _).
  destruct (hist_tics _ H11) as [tics Ht].
  eapply wp_mono; [by apply (stacks_fetch_rows o info (nodes info) its tics)|].
  intros [rc r] w' (e & f & Hr & Hrc & G1 & G2 & G3 & G4). cbn [fst snd] in *. subst r.
  exists e, f. split; [done|]. split; [done|]. split; [|done].
  split; try done; [by do 3 (apply Forall_cons_2; [done|])|]. intros st Hst ->. destruct G4 as (_ & st' & Hst' & Hn & _).
  cbn [nodes set_nodes rp_fetch set_rfetch] in Hst. rewrite Hst' in Hst. injection Hst as ->. done.
Qed.

Definition same_front (a b : stat_info) : Prop :=
  sys_hist b = sys_hist a /\ cpu_hist b = cpu_hist a /\ summary b = summary a /\ cpu_summary b = cpu_summary a /\
  reap_items b = reap_items a.

(** The processors as they are handed out with the nodes. *)
Definition cpu_rows (m : Z) (f : Z -> Z) (cs : list hist_tic) : list hist_tic :=
  if m =? -1 then cs else map (numbered f) cs.

Lemma reap_nodes_ok o its info tics n a m f w : memory o -> mid_inv its info -> numa_ready (w_g w) m f ->
  rp_hist (cpus info) = Tics a (Z.of_nat n) (Some tics) -> (n <= length tics)%nat -> a = Z.of_nat (length tics) ->
  tics <> [] -> (m = -1 -> h_inuse (rp_hist (nodes info)) = 0) ->
  wp (reap_nodes info) o w (fun res w' => 0 <= res.1 /\ mid_inv its res.2 /\ same_front info res.2 /\
    hands_out its res.2 (cpus res.2) (cpu_rows m f (take n tics)) /\
    exists ns, all_nodes f (take n tics) m ns /\ hands_out its res.2 (nodes res.2) ns).
Proof.
  intros Hm Hmid Hg Hc Hn Ha Hne H0. unfold reap_nodes. wstep.
  eapply wp_mono; [by apply (numa_hist_ok o info tics n a m f); try done; apply Hmid|].
  intros res w1 (h & cs & -> & Hh & Hall & Hcs). fold (cpu_rows m f (take n tics)) in Hcs.
  destruct (Z.ltb_spec (m + 1) 0); [destruct Hg as (_ & _ & ? & _); lia|].
  assert (Hlen : length cs = n).
  { rewrite Hcs. unfold cpu_rows. destruct (m =? -1); rewrite ?length_map, length_take; lia. }
  set (info1 := set_nodes _ _). assert (Hmid1 : mid_inv its info1).
  { destruct Hmid as [H1 H2 H3 H4 H5 H6 H7 H8 H9 H10 H11]. split; try done.
    split; [cbn; lia|]. split; [cbn; lia|]. right. exists (cs ++ drop n tics). cbn [cpus info1 set_nodes set_cpus rp_hist set_hist h_tics h_alloc h_inuse].
    split; [|split; [done|]].
    - intros E. apply (f_equal length) in E. rewrite length_app, length_drop in E. cbn in E. destruct tics; [done|cbn in *; lia].
    - rewrite length_app, length_drop. lia. }
  wstep. eapply wp_mono; [by apply (nodes_fetch_ok o its info1)|].
  intros [rc r] w2 (e & ff & Hr & Hrc & Hmid2 & Hout). cbn [fst snd] in *. subst r. destruct (Z.ltb_spec rc 0); [lia|].
  eapply wp_mono; [by apply (reap_cpus_ok o its)|]. intros [rc2 i2] w3 (e2 & f2 & Hi2 & Hrc2 & Hmid3 & Hout2).
  cbn [fst snd] in *. subst i2. split; [done|]. split; [done|]. split; [done|]. split.
  - replace (cpu_rows m f (take n tics)) with (rows_of (Tics a (Z.of_nat n) (Some (cs ++ drop n tics)))); [exact Hout2|].
    rewrite rows_of_take, take_app_le, take_ge by lia. done.
  - exists (rows_of h). split; [done|]. exact Hout.
Qed.

(** ** Accounting *)

(** The stream a context holds. *)
Definition keeps_fp (info : stat_info) (info' : stat_info) (h : handle) : Z :=
  held (stat_fp info') h - held (stat_fp info) h.

(** Reduces the stream of an updated context. *)
Ltac fp_leaf := intros; unfold keeps_fp; cbn [stat_fp set_refcount set_fp set_buf set_buf_size set_sys set_cpu set_cpus
  set_nodes set_cpu_summary set_select set_summary set_get set_reap_items set_select_items set_secs fst snd]; try lia.

Section accounting.
Variable garbage : nat -> hist_tic.

Lemma gains_read_all fuel : forall fp maxsiz acc, gains (read_all fuel fp maxsiz acc) (fun _ _ => 0).
Proof. induction fuel as [|f IH]; intros fp maxsiz acc; cbn [read_all]; gains_tac. Qed.

Lemma gains_cpu_loop fuel : forall bp i cs, gains (cpu_loop garbage fuel bp i cs) (fun _ _ => 0).
Proof.
  induction fuel as [|f IH]; intros bp i cs; cbn [cpu_loop]; [apply gains_nofuel|].
  eapply gains_bind; [apply gains_deref|]. intros k. eapply gains_bind; [apply gains_deref|]. intros tics.
  eapply gains_bind; [apply gains_deref|]. intros c. generalize (sscanf cpu_fmt (drop (S k) bp)). intros vs.
  destruct (length vs <? 8)%nat; [by apply gains_ret|]. destruct (_ <? h_alloc cs); [apply IH|].
  eapply gains_bind; [apply gains_sys|]. intros r. destruct (r_val r <? 0).
  - apply gains_ret. intros [] _; done.
  - eapply gains_mono; [apply IH|]. intros a [] _; done.
Qed.

Lemma gains_init_tics cs : gains (init_tics cs) (fun _ _ => 0).
Proof. unfold init_tics. gains_tac. Qed.
#[local] Hint Resolve gains_read_all gains_cpu_loop gains_init_tics : gdb.

Lemma gains_parse_stat buf info : gains (parse_stat garbage buf info) (fun res => keeps_fp info res.2).
Proof.
  unfold parse_stat. destruct (_ <? 8)%nat.
  - eapply gains_bind; [apply gains_set_errno|]. intros ?. apply gains_ret. fp_leaf.
  - eapply gains_bind; [apply gains_cpu_loop|]. intros [[[bp i]|] cs]; apply gains_ret; fp_leaf.
Qed.

Lemma gains_open_stat (info : stat_info) : gains (G := Numa.nstate)
  (if stat_fp info <? 0 then f ← sys (CFopen (bs "/proc/stat")); mret (set_fp (r_val f) info) else mret info)
  (fun i => keeps_fp info i).
Proof.
  destruct (Z.ltb_spec (stat_fp info) 0).
  - eapply gains_bind; [apply gains_sys|]. intros r. apply gains_ret. fp_leaf.
    destruct h; cbn [effect held]; unfold opened; zcase; cbn [andb]; lia.
  - apply gains_ret. fp_leaf.
Qed.

Lemma gains_read fuel info : gains (stat_read_failed garbage fuel info) (fun res => keeps_fp info res.2).
Proof.
  unfold stat_read_failed. eapply gains_bind; [apply gains_init_tics|]. intros [ok cs]. destruct ok; cbn [negb].
  2:{ apply gains_ret. fp_leaf. }
  eapply gains_bind; [apply gains_open_stat|]. intros i1. destruct (stat_fp i1 <? 0).
  { apply gains_ret. fp_leaf. }
  eapply gains_bind; [apply gains_sys|]. intros r1. eapply gains_bind; [apply gains_deref|]. intros ?.
  eapply gains_bind; [apply gains_read_all|]. intros [[ok siz] text]. destruct ok; cbn [negb].
  2:{ apply gains_ret. fp_leaf. destruct h; cbn [effect]; lia. }
  eapply gains_bind; [apply gains_sys|]. intros r2. destruct (r_val r2 =? 0).
  { eapply gains_bind; [apply gains_set_errno|]. intros ?. apply gains_ret. fp_leaf. destruct h; cbn [effect]; lia. }
  destruct (siz <=? _); [apply gains_undef|]. eapply gains_bind; [apply gains_deref|]. intros buf.
  eapply gains_mono; [apply gains_parse_stat|]. fp_leaf. destruct h; cbn [effect]; lia.
Qed.
End accounting.

Section reap.
Variable garbage : nat -> hist_tic.

(** What is handed out: the summary, one stack per processor and, when asked
    for, one per node. *)
Definition reap_post (vs : list Z) (ls : list cpuline) (tail : bytes) (its : list Z) (what m : Z) (f : Z -> Z)
    (info : stat_info) (res : bool * option stat_info) : Prop :=
  exists info' tics c, res = (true, Some info') /\ stat_inv info' /\
    rows_read garbage 0 ls (rows_before (rp_hist (cpus info))) tics /\
    c = sum_next vs (cpu_hist info) /\
    sys_hist info' = HSys (sys_values tail) (s_new (sys_hist info)) /\
    cpu_hist info' = Tic (t_id c) (t_node c) (Z.of_nat (length ls)) (t_new c) (t_old c) /\
    (exists p s, summary info' = Some p /\ load (ext_of (reap_items info') (cpu_summary info')) p = Some s /\
       shows Item_table its (sys_hist info', cpu_hist info') s) /\
    let rows := take (length ls) tics in
    if what =? STAT_REAP_CPUS_ONLY then
      hands_out its info' (cpus info') rows /\
      f_total (rp_fetch (nodes info')) = 0 /\ exists st, f_stacks (rp_fetch (nodes info')) = Some (None :: st)
    else
      hands_out its info' (cpus info') (cpu_rows m f rows) /\
      exists ns, all_nodes f rows m ns /\ hands_out its info' (nodes info') ns.

Lemma stat_logical_end : STAT_logical_end = 46.
Proof. reflexivity. Qed.

(** The state behind the reading of the file: all but the summary and the stacks. *)
Lemma after_read_mid its vs ls tail fp siz tics info x rc :
  stat_inv info -> ext_ok Item_table x its -> rows_read garbage 0 ls (rows_before (rp_hist (cpus info))) tics -> 0 < siz ->
  rc = 0 /\ x = ext_of (reap_items info) (cpu_summary info) \/ rc = 1 /\ x_extents x = [] ->
  let info1 := set_reap_items (items_of x) (set_cpu_summary (exts x) info) in
  let info2 := if negb (rc =? 0) then
      set_nodes (set_exts (exts_free (rp_exts (nodes info1))) (nodes info1))
        (set_cpus (set_exts (exts_free (rp_exts (cpus info1))) (cpus info1)) info1) else info1 in
  mid_inv its (after_read vs ls tail fp siz tics info2).
Proof.
  intros [H1 H2 H3 H4 H5 H6 H7 H8 H9 H10 H11] Hx (R1 & R2 & _) Hsiz Hrc info1 info2.
  pose proof (shared_reconfig _ _ _ _ _ _ H6 Hx Hrc) as Hfit.
  assert (Hhist : hist_ok (Tics (Z.of_nat (length tics)) (Z.of_nat (length ls)) (Some tics))).
  { split; [cbn; lia|]. split; [cbn; lia|]. right. exists tics. cbn [h_tics h_alloc h_inuse].
    split; [intros ->; cbn in R1; lia|]. split; [done|]. lia. }
  unfold info2, info1. clear info2 info1. destruct Hrc as [[-> ->]|[-> Hxe]]; cbn [Z.eqb Pos.eqb negb map] in *.
  - apply Forall_cons in Hfit as [F1 Hfit]. apply Forall_cons in Hfit as [F2 _].
    split; try done. by do 3 (apply Forall_cons_2; [done|]).
  - apply Forall_cons in Hfit as [F1 Hfit]. apply Forall_cons in Hfit as [F2 _].
    split; try done; [|by apply (anchor_freed (reap_items info))..].
    apply Forall_cons_2; [|by do 2 (apply Forall_cons_2; [done|])]. unfold fits.
    cbn [cpu_summary reap_items after_read set_sys set_cpu set_cpus set_buf_size set_buf set_fp set_nodes set_reap_items set_cpu_summary].
    by rewrite ext_of_exts.
Qed.

(** Adding the summary and the empty array of the nodes. *)
Lemma mid_summary its info x p st : mid_inv its info -> ext_ok Item_table x its -> items_of x = reap_items info ->
  results_ok (set_results (Some (None :: st)) (f_saved (rp_fetch (nodes info))) 0 (rp_fetch (nodes info))) ->
  let info1 := set_summary p (set_cpu_summary (exts x) info) in
  mid_inv its (set_nodes (set_rfetch (set_results (Some (None :: st)) (f_saved (rp_fetch (nodes info1))) 0
    (rp_fetch (nodes info1))) (nodes info1)) info1).
Proof.
  intros [H1 H2 H3 H4 H5 H6 H7 H8 H9 H10 H11] Hx Hit Hr info1. rewrite !Forall_cons in H4. destruct H4 as (_ & F1 & F2 & _).
  split; try done.
  - apply Forall_cons_2; [|by do 2 (apply Forall_cons_2; [done|])]. unfold fits. cbn [reap_items cpu_summary info1 set_nodes set_summary set_cpu_summary].
    by rewrite <- Hit, ext_of_exts.
  - cbn [nodes set_nodes info1 rp_fetch set_rfetch f_stacks set_results]. by intros ? [= <-].
Qed.


Lemma gains_single info x : gains (stat_update_single_stack info x) (fun _ _ => 0).
Proof. unfold stat_update_single_stack, stat_stacks_alloc. gains_zero. Qed.

Lemma gains_nodes_none f : gains (nodes_none f) (fun _ _ => 0).
Proof. unfold nodes_none. gains_zero. Qed.

(** The freeing of the extents that follows a change of the items. *)
Definition refreshed (x : ext_support) (rc : Z) (info : stat_info) : stat_info :=
  let info1 := set_reap_items (items_of x) (set_cpu_summary (exts x) info) in
  if negb (rc =? 0) then
    set_nodes (set_exts (exts_free (rp_exts (nodes info1))) (nodes info1))
      (set_cpus (set_exts (exts_free (rp_exts (cpus info1))) (cpus info1)) info1) else info1.

Lemma refreshed_frame x rc info :
  stat_buf (refreshed x rc info) = stat_buf info /\ stat_buf_size (refreshed x rc info) = stat_buf_size info /\
  rp_hist (cpus (refreshed x rc info)) = rp_hist (cpus info) /\
  rp_hist (nodes (refreshed x rc info)) = rp_hist (nodes info) /\
  sys_hist (refreshed x rc info) = sys_hist info /\ cpu_hist (refreshed x rc info) = cpu_hist info.
Proof. unfold refreshed. by destruct (negb (rc =? 0)). Qed.

(** The last part of a reap. *)
Lemma reap_rows_ok o its info tics n what m f w : memory o -> mid_inv its info -> numa_ready (w_g w) m f ->
  what = STAT_REAP_CPUS_ONLY \/ what = STAT_REAP_NUMA_NODES_TOO ->
  rp_hist (cpus info) = Tics (Z.of_nat (length tics)) (Z.of_nat n) (Some tics) -> (n < length tics)%nat ->
  (m = -1 -> h_inuse (rp_hist (nodes info)) = 0) -> f_total (rp_fetch (nodes info)) = 0 ->
  (exists st, f_stacks (rp_fetch (nodes info)) = Some (None :: st)) ->
  wp (if what =? STAT_REAP_CPUS_ONLY then reap_cpus info else reap_nodes info) o w (fun res w' =>
    0 <= res.1 /\ mid_inv its res.2 /\ same_front info res.2 /\
    let rows := take n tics in
    if what =? STAT_REAP_CPUS_ONLY then
      hands_out its res.2 (cpus res.2) rows /\
      f_total (rp_fetch (nodes res.2)) = 0 /\ exists st, f_stacks (rp_fetch (nodes res.2)) = Some (None :: st)
    else
      hands_out its res.2 (cpus res.2) (cpu_rows m f rows) /\
      exists ns, all_nodes f rows m ns /\ hands_out its res.2 (nodes res.2) ns).
Proof.
  intros Hm Hmid Hg Hwhat Hc Hn H0 Ht Hst. destruct (what =? STAT_REAP_CPUS_ONLY).
  - eapply wp_mono; [by apply (reap_cpus_ok o its)|]. intros [rc i] w' (e & ff & Hi & Hrc & Hmid' & Hout).
    cbn [fst snd] in *. subst i. do 3 (split; [done|]). split; [|done].
    rewrite Hc, rows_of_take in Hout. exact Hout.
  - apply (reap_nodes_ok o its info tics n (Z.of_nat (length tics)) m f); try done; [lia|intros ->; cbn in Hn; lia].
Qed.

Lemma reap_ok o vs ls tail fuel info what m f addr items numitems w :
  stat_system o vs ls tail -> (length (stat_text vs ls tail) < fuel)%nat -> stat_inv info ->
  what = STAT_REAP_CPUS_ONLY \/ what = STAT_REAP_NUMA_NODES_TOO ->
  numa_ready (w_g w) m f -> (m = -1 -> h_inuse (rp_hist (nodes info)) = 0) ->
  2 * STAT_logical_end <= addr -> 1 <= numitems <= Z.of_nat (length items) ->
  Forall (valid_item Item_table) (take (Z.to_nat numitems) items) ->
  wp (procps_stat_reap garbage fuel (Some info) what addr items numitems) o w (fun res _ =>
    reap_post vs ls tail (take (Z.to_nat numitems) items) what m f info res).
Proof.
  intros Hsys Hfuel Hinv Hwhat Hg H0 Haddr Hnum Hv. pose proof (st_memory _ _ _ _ Hsys) as Hm.
  set (its := take (Z.to_nat numitems) items) in *. unfold procps_stat_reap. wstep. unfold wp at 1. cbn [set_errno].
  destruct (Z.eqb_spec addr 0) as [E|_]; [rewrite stat_logical_end in Haddr; lia|].
  assert (negb (what =? STAT_REAP_CPUS_ONLY) && negb (what =? STAT_REAP_NUMA_NODES_TOO) = false) as ->
    by (destruct Hwhat as [->| ->]; done).
  wstep. eapply wp_mono.
  { eapply wp_gains; [|apply gains_reconfig_maybe]. apply (reconfig_maybe_full Item_table o); try done. eapply shared_inv, Hinv. }
  intros [rc x] w1 [(Hx & Hrc & _) [Hg1 _]]. cbn [fst snd w_g] in *. fold its in Hx.
  destruct (Z.ltb_spec rc 0); [lia|]. fold (refreshed x rc info). wstep. unfold wp at 1. cbn [set_errno].
  pose proof (refreshed_frame x rc info) as (F1 & F2 & F3 & F4 & F5 & F6). wstep. eapply wp_mono.
  { eapply wp_gains; [|apply gains_read]. apply (stat_read_ok garbage o vs ls tail); try done; rewrite ?F1, ?F2, ?F3; apply Hinv. }
  intros res w2 [(tics & fp & siz & -> & Hfp & Hsiz & Hrows) [Hg2 _]]. rewrite F3 in Hrows. cbn [w_g] in *. cbn [Z.eqb negb].
  pose proof (after_read_mid its vs ls tail fp siz tics info x rc Hinv Hx Hrows Hsiz Hrc) as Hmid. cbv zeta in Hmid.
  fold (refreshed x rc info) in Hmid. set (info2 := after_read _ _ _ _ _ _ _) in *.
  assert (Hi2 : sys_hist info2 = HSys (sys_values tail) (s_new (sys_hist info)) /\
    cpu_hist info2 = (let c := sum_next vs (cpu_hist info) in Tic (t_id c) (t_node c) (Z.of_nat (length ls)) (t_new c) (t_old c))
    /\ rp_hist (cpus info2) = Tics (Z.of_nat (length tics)) (Z.of_nat (length ls)) (Some tics)
    /\ rp_hist (nodes info2) = rp_hist (nodes info)).
  { rewrite <- F4. unfold info2. cbn [after_read sys_hist cpu_hist cpus nodes rp_hist set_sys set_cpu set_cpus set_buf_size set_buf set_fp].
    by rewrite F5, F6. }
  destruct Hi2 as (S1 & S2 & S3 & S4). clearbody info2. wstep.
  pose proof (mi_reap _ _ Hmid) as Hfits. apply Forall_cons in Hfits as [Hfit _].
  eapply wp_mono; [eapply wp_gains; [by apply (update_single_ok o info2 _ its)|apply gains_single]|].
  intros [p x3] w3 [(p' & s & Hp & Hx3 & Hs & Hshow & Hit) [Hg3 _]]. cbn [fst snd] in *. subst p. rewrite items_of_ext in Hit. wstep.
  eapply wp_mono; [eapply wp_gains; [apply (nodes_none_ok o); [done|apply Hmid|apply Hmid]|apply gains_nodes_none]|].
  intros res w4 [(st & -> & Hr4) [Hg4 _]]. cbn [negb]. wstep.
  pose proof (mid_summary its info2 x3 (Some p') st Hmid Hx3 Hit Hr4) as Hmid4. cbv zeta in Hmid4.
  set (info4 := set_nodes _ _) in *. eapply wp_mono.
  { apply (reap_rows_ok o its info4 tics (length ls) what m f); try done.
    - rewrite Hg4, Hg3, Hg2, Hg1. done.
    - apply Hrows.
    - cbn [info4 nodes set_nodes rp_hist set_rfetch set_summary set_cpu_summary]. by rewrite S4.
    - by eexists. }
  intros [rc5 info5] w5 (Hrc5 & Hmid5 & (Q1 & Q2 & Q3 & Q4 & Q5) & Hout). cbn [fst snd] in *. apply wp_ret.
  exists info5, tics, (sum_next vs (cpu_hist info)). destruct (Z.ltb_spec rc5 0); [lia|].
  split; [done|]. split; [by eapply mid_stat_inv|]. split; [done|]. split; [done|].
  split; [rewrite Q1; exact S1|]. split; [rewrite Q2; exact S2|]. split; [|exact Hout].
  exists p', s. rewrite Q1, Q2, Q3, Q4, Q5. cbn [info4 reap_items cpu_summary summary sys_hist cpu_hist set_nodes set_summary set_cpu_summary].
  split; [done|]. split; [|done]. by rewrite <- Hit, ext_of_exts.
Qed.

End reap.

(** ** Sessions *)

(** The calls a client makes on a context. *)
Inductive stat_op :=
| SGet (item : Z) | SSelect (addr : Z) (items : list Z) (n : Z) | SReap (what addr : Z) (items : list Z) (n : Z)
| SRef | SUnref.

(** The stream of a context that may have been freed. *)
Definition open_fp (info : option stat_info) (h : handle) : Z :=
  match info with Some i => held (stat_fp i) h | None => 0 end.

Section session.
Variable garbage : nat -> hist_tic.
Variables so so1 : option Numa.libnuma.

Definition run_op (fuel : nat) (op : stat_op) (info : option stat_info) : MS (option stat_info) :=
  match op with
  | SGet item => '(_, i) ← procps_stat_get garbage fuel info item; mret i
  | SSelect addr items n => '(_, i) ← procps_stat_select garbage fuel info addr items n; mret i
  | SReap what addr items n => '(_, i) ← procps_stat_reap garbage fuel info what addr items n; mret i
  | SRef => mret (snd (procps_stat_ref info))
  | SUnref => '(_, i) ← procps_stat_unref info; mret i
  end.

Fixpoint run_ops (fuel : nat) (ops : list stat_op) (info : option stat_info) : MS (option stat_info) :=
  match ops with [] => mret info | op :: r => i ← run_op fuel op info; run_ops fuel r i end.

Definition session (fuel : nat) (ops : list stat_op) : MS (option stat_info) :=
  '(_, i) ← procps_stat_new garbage so so1 fuel None; run_ops fuel ops i.

(** [m] gives back a context for [info] and accounts for its stream. *)
Definition tracks {A} (m : MS (A * option stat_info)) (info : option stat_info) : Prop :=
  gains m (fun res h => open_fp res.2 h - open_fp info h).

Lemma tracks_ret {A} (a : A) i info : (forall h, open_fp i h = open_fp info h) -> tracks (mret (a, i)) info.
Proof. intros H. apply gains_ret. intros h _. cbn [snd]. rewrite H. lia. Qed.

Lemma tracks_fail {A} (a : A) info i : stat_fp i = stat_fp info -> tracks (mret (a, Some i)) (Some info).
Proof. intros H. apply tracks_ret. intros h. cbn [open_fp]. by rewrite H. Qed.

(** A part that does not touch the context. *)
Lemma tracks_bind {A B} (m : MS B) (k : B -> MS (A * option stat_info)) info :
  gains m (fun _ _ => 0) -> (forall b, tracks (k b) info) -> tracks (m ≫= k) info.
Proof.
  intros Hm Hk. eapply gains_bind; [apply Hm|]. intros b. eapply gains_mono; [apply Hk|]. intros; cbn beta; lia.
Qed.

(** Reading the file, then the rest. *)
Lemma tracks_read {A} fuel info (k : Z * stat_info -> MS (A * option stat_info)) :
  (forall rc i, tracks (k (rc, i)) (Some i)) -> tracks (stat_read_failed garbage fuel info ≫= k) (Some info).
Proof.
  intros Hk. eapply gains_bind; [apply gains_read|]. intros [rc i]. eapply gains_mono; [apply Hk|].
  intros; unfold keeps_fp, open_fp; cbn [snd]; lia.
Qed.

(** The context is updated, with the same stream. *)
Lemma tracks_same {A} (m : MS (A * option stat_info)) i info :
  stat_fp i = stat_fp info -> tracks m (Some i) -> tracks m (Some info).
Proof. intros H Hm. eapply gains_mono; [apply Hm|]. intros a h _. unfold open_fp. by rewrite H. Qed.

Lemma tracks_get fuel info item : tracks (procps_stat_get garbage fuel info item) info.
Proof.
  unfold procps_stat_get. apply tracks_bind; [apply gains_set_errno|]. intros _. destruct info as [info|]; [|by apply tracks_ret].
  destruct (_ || _); [by apply tracks_ret|]. apply tracks_bind; [apply gains_set_errno|]. intros _.
  apply tracks_bind; [eapply gains_mono; [apply gains_sys|]; by intros ? [] _|]. intros t.
  assert (Hgo : forall rc i, tracks (if negb (rc =? 0) then mret (None, Some i) else
      set ← deref (Item_table !! Z.to_nat item);
      let r := Result item (set (U64 0) (sys_hist i, cpu_hist i)) in mret (Some r, Some (set_get r i))) (Some i)).
  { intros rc i. destruct (negb (rc =? 0)); [by apply tracks_ret|]. apply tracks_bind; [apply gains_deref|]. intros set.
    by apply tracks_fail. }
  destruct (1 <=? _).
  - eapply gains_bind.
    + apply (gains_bind _ _ (fun res => keeps_fp info res.2) (fun res => keeps_fp info res.2)); [apply gains_read|].
      intros [rc i]. destruct (negb (rc =? 0)); apply gains_ret; fp_leaf.
    + intros [rc i]. eapply gains_mono; [apply Hgo|]. intros; unfold keeps_fp, open_fp; cbn [snd]; lia.
  - exact (Hgo 0 info).
Qed.

Lemma tracks_select fuel info addr items n : tracks (procps_stat_select garbage fuel info addr items n) info.
Proof.
  unfold procps_stat_select. apply tracks_bind; [apply gains_set_errno|]. intros _. destruct info as [info|]; [|by apply tracks_ret].
  destruct (addr =? 0); [by apply tracks_ret|]. apply tracks_bind; [apply gains_reconfig_maybe|]. intros [rc x].
  destruct (rc <? 0); [by apply tracks_fail|]. apply tracks_bind; [apply gains_set_errno|]. intros _.
  apply (tracks_same _ (set_select_items (items_of x) (set_select (exts x) info))); [done|].
  apply tracks_read. intros rc2 i. destruct (negb (rc2 =? 0)); [by apply tracks_ret|].
  apply tracks_bind; [apply gains_single|]. intros [p x2]. by apply tracks_fail.
Qed.

Lemma gains_fetch_rows info this : gains (stat_stacks_fetch info this) (fun _ _ => 0).
Proof. unfold stat_stacks_fetch. gains_zero. Qed.

Lemma gains_reap_cpus info : gains (reap_cpus info) (fun res => keeps_fp info res.2).
Proof.
  unfold reap_cpus. eapply gains_bind; [apply gains_fetch_rows|]. intros [rc r]. apply gains_ret. fp_leaf.
Qed.

Lemma gains_numa_hist info : gains (stat_make_numa_hist info) (fun res => keeps_fp info res.2).
Proof.
  unfold stat_make_numa_hist. eapply gains_bind; [apply gains_getg|]. intros g. eapply gains_bind; [apply gains_deref|]. intros mx.
  destruct (_ =? 0); [apply gains_ret; fp_leaf|]. apply (gains_bind _ _ (fun _ _ => 0)).
  { destruct (_ || _); [|by apply gains_ret]. eapply gains_bind; [apply gains_sys|]. intros r.
    destruct (r_val r <? 0); apply gains_ret; by intros []. }
  intros [ok h]. destruct ok; cbn [negb]; [|apply gains_ret; fp_leaf]. eapply gains_bind; [apply gains_deref|]. intros t1.
  eapply gains_bind; [apply gains_deref|]. intros nf. eapply gains_bind; [apply gains_deref|]. intros t2.
  eapply gains_bind; [apply gains_deref|]. intros [cs ns]. apply gains_ret. fp_leaf.
Qed.

Lemma gains_reap_nodes info : gains (reap_nodes info) (fun res => keeps_fp info res.2).
Proof.
  unfold reap_nodes. eapply gains_bind; [apply gains_numa_hist|]. intros [rc i]. destruct (rc <? 0); [apply gains_ret; fp_leaf|].
  eapply gains_bind; [apply gains_fetch_rows|]. intros [rc2 r]. destruct (rc2 <? 0); [apply gains_ret; fp_leaf|].
  eapply gains_mono; [apply gains_reap_cpus|]. fp_leaf.
Qed.

Lemma tracks_reap fuel info what addr items n : tracks (procps_stat_reap garbage fuel info what addr items n) info.
Proof.
  unfold procps_stat_reap. apply tracks_bind; [apply gains_set_errno|]. intros _. destruct info as [info|]; [|by apply tracks_ret].
  destruct (addr =? 0); [by apply tracks_ret|]. destruct (_ && _); [by apply tracks_ret|].
  apply tracks_bind; [apply gains_reconfig_maybe|]. intros [rc x]. destruct (rc <? 0); [by apply tracks_fail|].
  fold (refreshed x rc info). apply (tracks_same _ (refreshed x rc info)).
  { unfold refreshed. by destruct (negb (rc =? 0)). }
  apply tracks_bind; [apply gains_set_errno|]. intros _. apply tracks_read. intros rc2 i.
  destruct (negb (rc2 =? 0)); [by apply tracks_ret|]. apply tracks_bind; [apply gains_single|]. intros [p x2].
  apply tracks_bind; [apply gains_nodes_none|]. intros [ok f]. destruct ok; cbn [negb]; [|by apply tracks_fail].
  eapply gains_bind.
  - destruct (what =? _); [apply gains_reap_cpus|apply gains_reap_nodes].
  - intros [rc3 i3]. apply gains_ret. fp_leaf. unfold open_fp. lia.
Qed.

Lemma tracks_unref info : tracks (procps_stat_unref info) info.
Proof.
  unfold procps_stat_unref. destruct info as [info|]; [|by apply tracks_ret]. cbn [refcount set_refcount].
  destruct (_ <? 1); [|by apply tracks_fail]. cbn [stat_fp set_refcount].
  apply (gains_bind _ _ (fun _ h => - held (stat_fp info) h)).
  - destruct (Z.leb_spec 0 (stat_fp info)).
    + eapply gains_bind; [apply gains_sys|]. intros r. apply gains_ret. intros h Hh.
      destruct h; cbn [effect held]; unfold closed; zcase; cbn [andb]; lia.
    + apply gains_ret. intros h Hh. destruct h; cbn [held]; zcase; cbn [andb]; lia.
  - intros _. apply (gains_bind _ _ (fun _ _ => 0)).
    + intros o w. unfold wlp. cbn [modg w_g w_tr]. split; [done|]. intros h Hh. lia.
    + intros _. apply gains_ret. intros h Hh. cbn [snd open_fp]. lia.
Qed.

Lemma gains_op fuel op info : gains (run_op fuel op info) (fun i h => open_fp i h - open_fp info h).
Proof.
  destruct op; cbn [run_op];
    try (eapply gains_bind; [apply tracks_get || apply tracks_select || apply tracks_reap || apply tracks_unref|];
         intros [a i]; apply gains_ret; intros h Hh; cbn [snd]; lia).
  apply gains_ret. intros h Hh. destruct info; unfold procps_stat_ref; cbn [snd open_fp stat_fp set_refcount]; lia.
Qed.

Lemma gains_ops fuel ops : forall info, gains (run_ops fuel ops info) (fun i h => open_fp i h - open_fp info h).
Proof.
  induction ops as [|op ops IH]; intros info; cbn [run_ops]; [apply gains_ret; intros; cbn beta; lia|].
  eapply gains_bind; [apply gains_op|]. intros i. eapply gains_mono; [apply IH|]. intros; cbn beta; lia.
Qed.

(** A read leaves the number of references alone. *)
Lemma read_refcount fuel info o w :
  wlp (stat_read_failed garbage fuel info) o w (fun res _ => refcount res.2 = refcount info).
Proof.
  unfold stat_read_failed, parse_stat. apply wlp_bind, wlp_any. intros [ok cs] w1. destruct ok; [|done]. cbn [negb].
  apply wlp_bind. apply (wlp_mono _ _ _ (fun i _ => refcount i = refcount info)).
  { destruct (_ <? 0); [|done]. apply wlp_bind, wlp_any. by intros r w2. }
  intros i w2 Hi. destruct (_ <? 0); [done|]. apply wlp_bind, wlp_any. intros r w3. apply wlp_bind, wlp_any. intros b w4.
  apply wlp_bind, wlp_any. intros [[ok siz] text] w5. destruct ok; [|done]. cbn [negb]. apply wlp_bind, wlp_any. intros e w6.
  destruct (_ =? 0); [apply wlp_bind, wlp_any; by intros|]. destruct (_ <=? _); [done|]. apply wlp_bind, wlp_any. intros buf w7.
  generalize (sscanf sum_fmt buf). intros vs. destruct (_ <? 8)%nat; [apply wlp_bind, wlp_any; by intros|].
  apply wlp_bind, wlp_any. by intros [[[bp k]|] cs2] w8.
Qed.

Lemma new_balanced fuel o w :
  wlp (procps_stat_new garbage so so1 fuel None) o w (fun res w' => forall h, 0 <= handle_val h ->
    net h (w_tr w') = net h (w_tr w) + open_fp res.2 h).
Proof.
  unfold procps_stat_new. apply wlp_bind. wsys c Hc. destruct (r_val c <? 0).
  { intros h _. destruct h; unfold net; cbn [w_tr foldr effect snd open_fp]; lia. }
  apply wlp_bind. wsys b Hb. destruct (r_val b <? 0).
  { intros h _. destruct h; unfold net; cbn [w_tr foldr effect snd open_fp]; lia. }
  apply wlp_bind. unfold wlp at 1. cbn [modg w_tr w_errno w_g]. apply wlp_bind.
  eapply wlp_mono; [apply wlp_and; [apply gains_read|apply read_refcount]|].
  intros [rc p] w1 [[_ Hn] Hrc]. cbn [snd] in *. assert (Hn' : forall h, 0 <= handle_val h ->
      net h (w_tr w1) = net h (w_tr w) + held (stat_fp p) h).
  { intros h Hh. rewrite Hn by done. unfold keeps_fp. cbn [w_tr]. unfold net at 1. cbn [foldr]. fold (net h (w_tr w)).
    destruct h; cbn [effect held stat_fp stat_empty andb Z.leb Z.compare]; lia. }
  destruct (negb (rc =? 0)); [|exact Hn'].
  apply wlp_bind. unfold wlp at 1. cbn [get_errno]. apply wlp_bind.
  eapply wlp_mono; [apply wlp_and; [apply tracks_unref|]|].
  { instantiate (1 := fun res _ => res.2 = None). unfold procps_stat_unref. cbn [refcount set_refcount]. rewrite Hrc.
    cbn [refcount stat_empty Z.sub Z.ltb]. apply wlp_bind, wlp_any. intros ? ?. apply wlp_bind, wlp_any. by intros. }
  intros [rc2 i] w2 [[_ H2] Hi] h Hh. cbn [snd] in *. subst i. rewrite H2, Hn' by done. cbn [open_fp]. lia.
Qed.

(** A session with stat.c, procps_stat_new followed by any sequence of get,
    select, reap, ref and unref, whatever the system answers and whatever the
    memory holds: if it finishes, the only stream opened is the one of the
    context that is left, and none when the context was freed or never made. *)
Theorem stat_session_balanced fuel ops o w :
  wlp (session fuel ops) o w (fun info w' => forall h, 0 <= handle_val h ->
    net h (w_tr w') = net h (w_tr w) + open_fp info h).
Proof.
  unfold session. apply wlp_bind. eapply wlp_mono; [apply new_balanced|]. intros [rc i] w1 H1. cbn [snd] in *.
  eapply wlp_mono; [apply gains_ops|]. intros i2 w2 [_ H2] h Hh. rewrite H2, H1 by done. lia.
Qed.
End session.

(** ** Theorems *)


(** Stat_make_numa_hist: every node of the library has a row with its number,
    the number of its processors and, for each of the fifteen counters and its
    history, the sum over its processors at the width of the counter; a node
    without processors stays marked invalid; the processors get their node and
    keep everything else. *)
Theorem stat_make_numa_hist_sums o info tics n a m f w : memory o -> numa_ready (w_g w) m f -> 0 <= m ->
  rp_hist (cpus info) = Tics a (Z.of_nat n) (Some tics) -> (n <= length tics)%nat ->
  hist_ok (rp_hist (nodes info)) ->
  wp (stat_make_numa_hist info) o w (fun res w' =>
    res.1 = m + 1 /\ all_nodes f (take n tics) m (rows_of (rp_hist (nodes res.2))) /\
    rows_of (rp_hist (cpus res.2)) = map (numbered f) (take n tics)).
Proof.
  intros Hm Hg H0 Hc Hn Hh. eapply wp_mono; [by apply (numa_hist_ok o info tics n a m f); try done; lia|].
  intros res w' (h & cs & -> & _ & Hall & Hcs). split; [done|]. split; [exact Hall|].
  cbn [snd cpus set_nodes set_cpus rp_hist set_hist]. rewrite rows_of_take.
  destruct (Z.eqb_spec m (-1)); [lia|]. rewrite Hcs, take_app_le, take_ge; rewrite ?length_map, ?length_take; try lia. done.
Qed.

(** The differences stat.c shows of the five sums: for counters whose sum
    fits, what SUM_DELTA items show after a read is the exact difference of the
    sums to their history and never negative, and the sums are those of the ten
    counters; busy is total without idle. *)
Theorem sum_delta_shown t x u sy : x ∈ sums -> jifs_ok (t_new t) ->
  Forall (fun x => 0 <= x (t_old t) < 2 ^ 63) sums ->
  let d := stat_derive_unique t in
  get_sl_int (run_setter (TICsetH sl_int x) u (sy, d)) = x (t_new d) - x (t_old d) /\ 0 <= x (t_new d) - x (t_old d) /\
  j_xtot (t_new d) = tics10 (t_new t) /\ j_xbsy (t_new d) = j_xtot (t_new d) - j_xidl (t_new d) /\
  j_xidl (t_new d) = j_idle (t_new t) + j_iowait (t_new t).
Proof.
  intros Hx Hok Hold d. destruct (sum_delta_exact t x u sy Hx Hok Hold) as [H1 H2].
  destruct (derive_history t) as (Hn & _). destruct (derive_sums_exact _ Hok) as (E1 & E2 & E3 & E4 & E5).
  split; [done|]. split; [done|]. unfold d. rewrite Hn. lia.
Qed.

(** ** Witnesses *)

Definition demo_vals : list Z := [10; 20; 30; 40; 50; 60; 70; 80; 90; 100].
Definition demo_cpus : list cpuline :=
  [CpuLine 0 [4; 9; 10; 20; 25; 30; 30; 40; 45; 50]; CpuLine 1 [6; 11; 20; 20; 25; 30; 40; 40; 45; 50]].
Definition demo_tail : bytes :=
  bs "intr 5 0" ++ [10] ++ bs "ctxt 7" ++ [10] ++ bs "btime 100" ++ [10] ++ bs "processes 3" ++ [10]
  ++ bs "procs_running 2" ++ [10] ++ bs "procs_blocked 1" ++ [10].
Definition demo_text : bytes := stat_text demo_vals demo_cpus demo_tail.

Definition demo_os : os := fun t c =>
  match c with
  | CFread fp n => rdata (Z.of_nat (length (chunk demo_text (fpos fp t) n))) (chunk demo_text (fpos fp t) n)
  | CFeof fp => rok (if at_eof fp t then 1 else 0)
  | CFopen _ => rok 5
  | _ => rok 1
  end.

Lemma demo_vals_ok vs : length vs = 10%nat -> forallb (fun v => (0 <=? v) && (v <=? ULONG_MAX)) vs = true -> vals_ok vs.
Proof.
  intros Hl H. split; [done|]. apply Forall_forall. intros v Hv. rewrite forallb_forall in H.
  specialize (H v ltac:(by apply list_elem_of_In)). lia.
Qed.

Lemma demo_stat_system : stat_system demo_os demo_vals demo_cpus demo_tail.
Proof.
  split.
  - by intros t sz.
  - by intros t p.
  - intros fp. by split.
  - apply (bool_decide_unpack _). by vm_compute.
  - by apply demo_vals_ok.
  - do 2 (constructor; [split; [by vm_compute|by apply demo_vals_ok]|]). constructor.
  - split; [done|]. vm_compute; lia.
  - by vm_compute.
Qed.

(** A fresh context on a machine with two nodes. *)
Definition demo_info : stat_info := stat_empty.
Definition demo_node_of (id : Z) : Z := if id =? 1 then 1 else 0.
Definition demo_world : world Numa.nstate := World [] 0 (Numa.NState true true (Some 1) (Some demo_node_of)).

Lemma demo_inv : stat_inv demo_info.
Proof.
  split; try done.
  - split; [done|]. split; [done|]. by left.
  - split; [done|]. split; [done|]. by left.
  - by left.
  - left. split; [done|]. split; [done|]. by repeat constructor.
Qed.

Lemma demo_ready : numa_ready (w_g demo_world) 1 demo_node_of.
Proof.
  split; [done|]. split; [done|]. split; [by vm_compute|]. intros id. unfold demo_node_of. by destruct (id =? 1).
Qed.


Definition demo_rows : list hist_tic :=
  [Tic 0 STAT_NODE_INVALID 1 (jifs_of demo_vals) jifs_zero; Tic 1 STAT_NODE_INVALID 1 (jifs_of demo_vals) jifs_zero;
   Tic 2 STAT_NODE_INVALID 1 (jifs_of demo_vals) jifs_zero; tic_zero].
Definition demo_numa : stat_info := set_cpus (Reap 3 no_exts (Tics 4 3 (Some demo_rows)) fetch_empty) stat_empty.

Lemma stat_make_numa_hist_sums_witness : exists info w',
  stat_make_numa_hist demo_numa demo_os demo_world = Done (2, info) w' /\
  exists r, rows_of (rp_hist (nodes info)) !! 0%nat = Some r /\ t_count r = 2 /\ j_xtot (t_new r) = 1100.
Proof.
  destruct (wp_done _ _ _ _ (stat_make_numa_hist_sums demo_os demo_numa demo_rows 3 4 1 demo_node_of demo_world
    ltac:(by intros t sz) demo_ready ltac:(lia) ltac:(done) ltac:(cbn; lia)
    ltac:(split; [done|]; split; [done|]; by left))) as ([rc info] & w' & E & Hrc & [Hl Hall] & _).
  cbn [fst snd] in *. subst rc. exists info, w'. split; [exact E|].
  destruct (lookup_lt_is_Some_2 (rows_of (rp_hist (nodes info))) 0 ltac:(lia)) as [r Hr]. exists r. split; [done|].
  destruct (Hall 0%nat r Hr) as (_ & H1 & _ & H2). split; [by rewrite H1|].
  destruct (H2 j_xtot ltac:(unfold counters; rewrite !elem_of_cons; tauto)) as [-> _]. by vm_compute.
Defined.

Lemma sum_delta_shown_witness :
  get_sl_int (run_setter (TICsetH sl_int j_xtot) (U64 0)
    (HSys data_zero data_zero, stat_derive_unique (Tic 0 0 1 (scan_jifs (map VI demo_vals) jifs_zero) (jifs_of (replicate 10 1))))) = 540.
Proof.
  destruct (sum_delta_shown (Tic 0 0 1 (scan_jifs (map VI demo_vals) jifs_zero) (jifs_of (replicate 10 1))) j_xtot (U64 0)
    (HSys data_zero data_zero) ltac:(unfold sums; rewrite !elem_of_cons; tauto)
    ltac:(split; [by repeat constructor|by vm_compute]) ltac:(repeat constructor; by vm_compute)) as [H _].
  rewrite H. by vm_compute.
Defined.
End Statscan.
