(* ===== verification/Procdata.v ===== *)
(** * procps/linux/readproc.c: the process record and its parsers

    [proc_t] with the parsers of the files under /proc/#: stat, statm, io,
    status, smaps_rollup and the small ones.  A buffer is the list of all its
    bytes, so that copies behind the end of a text are visible. *)

From stdpp Require Import base numbers list strings.
From S2P Require Import Prelude Libc Posix Escape Utils Stacks Fetch.
Open Scope Z_scope.

Module Procdata.

(** ** The members *)

Inductive nfield :=
  | p_tid | p_ppid | p_state | p_utime | p_stime | p_cutime | p_cstime | p_start_time
  | p_blkio_tics | p_gtime | p_cgtime | p_pcpu | p_maj_delta | p_min_delta | p_start_code
  | p_end_code | p_start_stack | p_kstk_esp | p_kstk_eip | p_wchan | p_rss | p_alarm
  | p_priority | p_nice | p_size | p_resident | p_share | p_trs | p_lrs | p_drs | p_dt
  | p_vm_size | p_vm_lock | p_vm_rss | p_vm_rss_anon | p_vm_rss_file | p_vm_rss_shared
  | p_vm_data | p_vm_stack | p_vm_swap | p_vm_exe | p_vm_lib | p_vsize | p_rss_rlim | p_flags
  | p_min_flt | p_maj_flt | p_cmin_flt | p_cmaj_flt | p_rchar | p_wchar | p_syscr | p_syscw
  | p_read_bytes | p_write_bytes | p_cancelled_write_bytes | p_smap_Rss | p_smap_Pss
  | p_smap_Pss_Anon | p_smap_Pss_File | p_smap_Pss_Shmem | p_smap_Shared_Clean
  | p_smap_Shared_Dirty | p_smap_Private_Clean | p_smap_Private_Dirty | p_smap_Referenced
  | p_smap_Anonymous | p_smap_LazyFree | p_smap_AnonHugePages | p_smap_ShmemPmdMapped
  | p_smap_FilePmdMapped | p_smap_Shared_Hugetlb | p_smap_Private_Hugetlb | p_smap_Swap
  | p_smap_SwapPss | p_smap_Locked | p_rtprio | p_sched | p_pgrp | p_session | p_nlwp | p_tgid
  | p_tty | p_euid | p_egid | p_ruid | p_rgid | p_suid | p_sgid | p_fuid | p_fgid | p_tpgid
  | p_exit_signal | p_processor | p_oom_score | p_oom_adj | p_luid | p_autogrp_id
  | p_autogrp_nice.

Definition nfields : list nfield :=
  [p_tid; p_ppid; p_state; p_utime; p_stime; p_cutime; p_cstime; p_start_time; p_blkio_tics;
  p_gtime; p_cgtime; p_pcpu; p_maj_delta; p_min_delta; p_start_code; p_end_code; p_start_stack;
  p_kstk_esp; p_kstk_eip; p_wchan; p_rss; p_alarm; p_priority; p_nice; p_size; p_resident;
  p_share; p_trs; p_lrs; p_drs; p_dt; p_vm_size; p_vm_lock; p_vm_rss; p_vm_rss_anon;
  p_vm_rss_file; p_vm_rss_shared; p_vm_data; p_vm_stack; p_vm_swap; p_vm_exe; p_vm_lib;
  p_vsize; p_rss_rlim; p_flags; p_min_flt; p_maj_flt; p_cmin_flt; p_cmaj_flt; p_rchar; p_wchar;
  p_syscr; p_syscw; p_read_bytes; p_write_bytes; p_cancelled_write_bytes; p_smap_Rss;
  p_smap_Pss; p_smap_Pss_Anon; p_smap_Pss_File; p_smap_Pss_Shmem; p_smap_Shared_Clean;
  p_smap_Shared_Dirty; p_smap_Private_Clean; p_smap_Private_Dirty; p_smap_Referenced;
  p_smap_Anonymous; p_smap_LazyFree; p_smap_AnonHugePages; p_smap_ShmemPmdMapped;
  p_smap_FilePmdMapped; p_smap_Shared_Hugetlb; p_smap_Private_Hugetlb; p_smap_Swap;
  p_smap_SwapPss; p_smap_Locked; p_rtprio; p_sched; p_pgrp; p_session; p_nlwp; p_tgid; p_tty;
  p_euid; p_egid; p_ruid; p_rgid; p_suid; p_sgid; p_fuid; p_fgid; p_tpgid; p_exit_signal;
  p_processor; p_oom_score; p_oom_adj; p_luid; p_autogrp_id; p_autogrp_nice].

Definition nfield_code (f : nfield) : nat :=
  match f with
  | p_tid => 0 | p_ppid => 1 | p_state => 2 | p_utime => 3 | p_stime => 4 | p_cutime => 5
  | p_cstime => 6 | p_start_time => 7 | p_blkio_tics => 8 | p_gtime => 9 | p_cgtime => 10
  | p_pcpu => 11 | p_maj_delta => 12 | p_min_delta => 13 | p_start_code => 14
  | p_end_code => 15 | p_start_stack => 16 | p_kstk_esp => 17 | p_kstk_eip => 18
  | p_wchan => 19 | p_rss => 20 | p_alarm => 21 | p_priority => 22 | p_nice => 23
  | p_size => 24 | p_resident => 25 | p_share => 26 | p_trs => 27 | p_lrs => 28 | p_drs => 29
  | p_dt => 30 | p_vm_size => 31 | p_vm_lock => 32 | p_vm_rss => 33 | p_vm_rss_anon => 34
  | p_vm_rss_file => 35 | p_vm_rss_shared => 36 | p_vm_data => 37 | p_vm_stack => 38
  | p_vm_swap => 39 | p_vm_exe => 40 | p_vm_lib => 41 | p_vsize => 42 | p_rss_rlim => 43
  | p_flags => 44 | p_min_flt => 45 | p_maj_flt => 46 | p_cmin_flt => 47 | p_cmaj_flt => 48
  | p_rchar => 49 | p_wchar => 50 | p_syscr => 51 | p_syscw => 52 | p_read_bytes => 53
  | p_write_bytes => 54 | p_cancelled_write_bytes => 55 | p_smap_Rss => 56 | p_smap_Pss => 57
  | p_smap_Pss_Anon => 58 | p_smap_Pss_File => 59 | p_smap_Pss_Shmem => 60
  | p_smap_Shared_Clean => 61 | p_smap_Shared_Dirty => 62 | p_smap_Private_Clean => 63
  | p_smap_Private_Dirty => 64 | p_smap_Referenced => 65 | p_smap_Anonymous => 66
  | p_smap_LazyFree => 67 | p_smap_AnonHugePages => 68 | p_smap_ShmemPmdMapped => 69
  | p_smap_FilePmdMapped => 70 | p_smap_Shared_Hugetlb => 71 | p_smap_Private_Hugetlb => 72
  | p_smap_Swap => 73 | p_smap_SwapPss => 74 | p_smap_Locked => 75 | p_rtprio => 76
  | p_sched => 77 | p_pgrp => 78 | p_session => 79 | p_nlwp => 80 | p_tgid => 81 | p_tty => 82
  | p_euid => 83 | p_egid => 84 | p_ruid => 85 | p_rgid => 86 | p_suid => 87 | p_sgid => 88
  | p_fuid => 89 | p_fgid => 90 | p_tpgid => 91 | p_exit_signal => 92 | p_processor => 93
  | p_oom_score => 94 | p_oom_adj => 95 | p_luid => 96 | p_autogrp_id => 97
  | p_autogrp_nice => 98
  end.

Lemma nfield_code_inv f : nfields !! nfield_code f = Some f.
Proof. by destruct f. Qed.

#[export] Instance nfield_eq_dec : EqDecision nfield.
Proof.
  intros f g. destruct (decide (nfield_code f = nfield_code g)) as [E|E]; [left|right; congruence].
  pose proof (nfield_code_inv f) as H. rewrite E, nfield_code_inv in H. congruence.
Defined.

Inductive sfield :=
  | p_environ | p_cmdline | p_cgroup | p_cgname | p_supgid | p_supgrp | p_euser | p_ruser
  | p_suser | p_fuser | p_rgroup | p_egroup | p_sgroup | p_fgroup | p_cmd | p_sd_mach
  | p_sd_ouid | p_sd_seat | p_sd_sess | p_sd_slice | p_sd_unit | p_sd_uunit | p_lxcname | p_exe.

Definition sfields : list sfield :=
  [p_environ; p_cmdline; p_cgroup; p_cgname; p_supgid; p_supgrp; p_euser; p_ruser; p_suser;
  p_fuser; p_rgroup; p_egroup; p_sgroup; p_fgroup; p_cmd; p_sd_mach; p_sd_ouid; p_sd_seat;
  p_sd_sess; p_sd_slice; p_sd_unit; p_sd_uunit; p_lxcname; p_exe].

Definition sfield_code (f : sfield) : nat :=
  match f with
  | p_environ => 0 | p_cmdline => 1 | p_cgroup => 2 | p_cgname => 3 | p_supgid => 4
  | p_supgrp => 5 | p_euser => 6 | p_ruser => 7 | p_suser => 8 | p_fuser => 9 | p_rgroup => 10
  | p_egroup => 11 | p_sgroup => 12 | p_fgroup => 13 | p_cmd => 14 | p_sd_mach => 15
  | p_sd_ouid => 16 | p_sd_seat => 17 | p_sd_sess => 18 | p_sd_slice => 19 | p_sd_unit => 20
  | p_sd_uunit => 21 | p_lxcname => 22 | p_exe => 23
  end.

Lemma sfield_code_inv f : sfields !! sfield_code f = Some f.
Proof. by destruct f. Qed.

#[export] Instance sfield_eq_dec : EqDecision sfield.
Proof.
  intros f g. destruct (decide (sfield_code f = sfield_code g)) as [E|E]; [left|right; congruence].
  pose proof (sfield_code_inv f) as H. rewrite E, sfield_code_inv in H. congruence.
Defined.

Inductive afield :=
  | p_signal | p_blocked | p_sigignore | p_sigcatch | p_sigpnd.

Definition afields : list afield :=
  [p_signal; p_blocked; p_sigignore; p_sigcatch; p_sigpnd].

Definition afield_code (f : afield) : nat :=
  match f with
  | p_signal => 0 | p_blocked => 1 | p_sigignore => 2 | p_sigcatch => 3 | p_sigpnd => 4
  end.

Lemma afield_code_inv f : afields !! afield_code f = Some f.
Proof. by destruct f. Qed.

#[export] Instance afield_eq_dec : EqDecision afield.
Proof.
  intros f g. destruct (decide (afield_code f = afield_code g)) as [E|E]; [left|right; congruence].
  pose proof (afield_code_inv f) as H. rewrite E, afield_code_inv in H. congruence.
Defined.

Inductive vfield :=
  | p_environ_v | p_cmdline_v | p_cgroup_v.

Definition vfields : list vfield :=
  [p_environ_v; p_cmdline_v; p_cgroup_v].

Definition vfield_code (f : vfield) : nat :=
  match f with
  | p_environ_v => 0 | p_cmdline_v => 1 | p_cgroup_v => 2
  end.

Lemma vfield_code_inv f : vfields !! vfield_code f = Some f.
Proof. by destruct f. Qed.

#[export] Instance vfield_eq_dec : EqDecision vfield.
Proof.
  intros f g. destruct (decide (vfield_code f = vfield_code g)) as [E|E]; [left|right; congruence].
  pose proof (vfield_code_inv f) as H. rewrite E, vfield_code_inv in H. congruence.
Defined.

(** ** The process record *)

(** [proc_t]: the numeric members, the strings, the 18-byte signal masks, the
    string vectors and the namespaces. *)
Record proc_t := Proc {
  num : nfield -> Z;
  str : sfield -> option bytes;
  arr : afield -> bytes;
  vec : vfield -> option (list bytes);
  nss : list Z
}.

Definition proc_zero : proc_t :=
  Proc (fun _ => 0) (fun _ => None) (fun _ => replicate 18 0) (fun _ => None) (replicate 6 0).

Definition set_num (f : nfield) (v : Z) (p : proc_t) : proc_t :=
  Proc (fun g => if decide (g = f) then v else num p g) (str p) (arr p) (vec p) (nss p).
Definition set_str (f : sfield) (v : option bytes) (p : proc_t) : proc_t :=
  Proc (num p) (fun g => if decide (g = f) then v else str p g) (arr p) (vec p) (nss p).
Definition set_arr (f : afield) (v : bytes) (p : proc_t) : proc_t :=
  Proc (num p) (str p) (fun g => if decide (g = f) then v else arr p g) (vec p) (nss p).
Definition set_vec (f : vfield) (v : option (list bytes)) (p : proc_t) : proc_t :=
  Proc (num p) (str p) (arr p) (fun g => if decide (g = f) then v else vec p g) (nss p).
Definition set_ns (v : list Z) (p : proc_t) : proc_t := Proc (num p) (str p) (arr p) (vec p) v.

(** [free_acquired]: the strings it frees were copies of the caller; the record
    is cleared. *)
Definition free_acquired (p : proc_t) : proc_t := proc_zero.

(** What a [sscanf] into members stores: a scan that ends early leaves the
    remaining members alone. *)
Fixpoint store_scan (fs : list nfield) (vs : list sval) (p : proc_t) : proc_t :=
  match fs, vs with
  | f :: fs, VI v :: vs => store_scan fs vs (set_num f v p)
  | _, _ => p
  end.

(** ** Static storage *)

(** [struct utlbuf_s]: the buffer, whose length is [siz]. *)
Abbreviation utlbuf := (option bytes).

(** The static variables of readproc.c, escape.c and pwcache.c. *)
Record rstate := RState {
  utf_sw : Z;
  src_buffer : option bytes;
  dst_buffer : option bytes;
  ub_lxc : utlbuf;                              (* of [lxc_containers] *)
  lxc_names : list bytes;                       (* its [anchor] list *)
  users : Pwcache.pwhash;
  groups : Pwcache.pwhash
}.

Definition set_utf v g := RState v (src_buffer g) (dst_buffer g) (ub_lxc g) (lxc_names g) (users g) (groups g).
Definition set_src v g := RState (utf_sw g) v (dst_buffer g) (ub_lxc g) (lxc_names g) (users g) (groups g).
Definition set_dst v g := RState (utf_sw g) (src_buffer g) v (ub_lxc g) (lxc_names g) (users g) (groups g).
Definition set_lxc u l g := RState (utf_sw g) (src_buffer g) (dst_buffer g) u l (users g) (groups g).
Definition set_users v g := RState (utf_sw g) (src_buffer g) (dst_buffer g) (ub_lxc g) (lxc_names g) v (groups g).
Definition set_groups v g := RState (utf_sw g) (src_buffer g) (dst_buffer g) (ub_lxc g) (lxc_names g) (users g) v.

Abbreviation R := (M rstate).

Definition MAX_BUFSZ : Z := 131072.
Definition PROCPATHLEN : Z := 64.

(** ** Tables *)

Definition nul : string := EmptyString.

(** [asso]: the gperf weights. *)
Definition asso : list Z :=
  [101; 101; 101; 101; 101; 101; 101; 101; 101; 101; 101; 101; 101; 101; 101; 101; 101; 101;
  101; 101; 101; 101; 101; 101; 101; 101; 101; 101; 101; 101; 101; 101; 101; 101; 101; 101;
  101; 101; 101; 101; 101; 101; 101; 101; 101; 101; 101; 101; 101; 101; 101; 101; 101; 101;
  101; 101; 101; 101; 6; 101; 101; 101; 101; 101; 101; 45; 55; 25; 31; 50; 50; 10; 0; 35; 101;
  101; 21; 101; 30; 101; 20; 36; 0; 5; 0; 40; 0; 0; 101; 101; 101; 101; 101; 101; 101; 101;
  101; 30; 101; 15; 0; 1; 101; 10; 101; 10; 101; 101; 101; 25; 101; 40; 0; 101; 0; 50; 6; 40;
  101; 1; 35; 101; 101; 101; 101; 101; 101; 101].

(** [table]: the names at their hash; an empty name is a NUL entry, as are the
    entries behind the last name. *)
Definition table : list string :=
  ["VmHWM"; "Threads"; nul; nul; nul; "VmRSS"; "VmSwap"; nul; nul; nul; "Tgid"; "VmStk"; nul;
  nul; nul; "VmSize"; "Gid"; nul; nul; nul; "VmPTE"; "VmPeak"; nul; nul; nul; "ShdPnd"; "Pid";
  nul; nul; nul; "PPid"; "VmLib"; nul; nul; nul; "SigPnd"; "VmLck"; nul; nul; nul; "SigCgt";
  "State"; nul; nul; nul; "CapPrm"; "Uid"; nul; nul; nul; "SigIgn"; "SigQ"; nul; nul; nul;
  "RssShmem"; "Name"; nul; nul; nul; "CapInh"; "VmData"; nul; nul; nul; "FDSize"; nul; nul;
  nul; nul; "SigBlk"; nul; nul; nul; nul; "CapEff"; nul; nul; nul; nul; "CapBnd"; nul; nul;
  nul; nul; "VmExe"; nul; nul; nul; nul; "Groups"; nul; nul; nul; nul; "RssAnon"; nul; nul;
  nul; nul; "RssFile"]%string.

Definition smaptab : list (string * nfield) :=
  [("Rss:", p_smap_Rss); ("Pss:", p_smap_Pss); ("Pss_Anon:", p_smap_Pss_Anon);
  ("Pss_File:", p_smap_Pss_File); ("Pss_Shmem:", p_smap_Pss_Shmem);
  ("Shared_Clean:", p_smap_Shared_Clean); ("Shared_Dirty:", p_smap_Shared_Dirty);
  ("Private_Clean:", p_smap_Private_Clean); ("Private_Dirty:", p_smap_Private_Dirty);
  ("Referenced:", p_smap_Referenced); ("Anonymous:", p_smap_Anonymous);
  ("LazyFree:", p_smap_LazyFree); ("AnonHugePages:", p_smap_AnonHugePages);
  ("ShmemPmdMapped:", p_smap_ShmemPmdMapped); ("FilePmdMapped:", p_smap_FilePmdMapped);
  ("Shared_Hugetlb:", p_smap_Shared_Hugetlb); ("Private_Hugetlb:", p_smap_Private_Hugetlb);
  ("Swap:", p_smap_Swap); ("SwapPss:", p_smap_SwapPss); ("Locked:", p_smap_Locked)]%string.

Section parse.
(** The signedness of [char] and the codeset for [escape_str]; the user and
    group databases. *)
Variable cs : bool.
Variable enc : option bytes.
Variable getpwuid getgrgid : Z -> option bytes.

(** [strdup]: [None] when memory ran out. *)
Definition strdup (s : bytes) : R (option bytes) :=
  r ← sys (CMalloc (Z.of_nat (length s) + 1));
  mret (if r_val r <? 0 then None else Some s).

(** The contribution of an allocation to the value returned. *)
Definition failed {A} (r : option A) : Z := match r with Some _ => 0 | None => 1 end.

(** [escape_str(dst, src, size)]: the value returned and the destination. *)
Definition escape_to (dst src : bytes) (size : Z) : R (Z * bytes) :=
  g ← getg;
  '(n, dst, sw) ← deref (Escape.escape_str cs enc (utf_sw g) dst src size);
  _ ← modg (set_utf sw);
  mret (n, dst).

(** [char buf[64]; escape_str(buf, raw, sizeof(buf)); strdup(buf)] into
    [P->cmd]; the value is the one to return, 1 when memory ran out. *)
Definition set_cmd (raw : bytes) (p : proc_t) : R (Z * proc_t) :=
  '(_, buf) ← escape_to (replicate 64 0) raw 64;
  text ← deref (cstr buf);
  c ← strdup text;
  mret (failed c, set_str p_cmd c p).

(** ** /proc/#/stat *)

Fixpoint spaced (ds : list directive) : list directive :=
  match ds with
  | [] => []
  | [d] => [d]
  | d :: r => d :: DSpace :: spaced r
  end.

Definition stat_fmt : list directive := spaced
  ([DC; DD; DD; DD; DD; DD; DLU; DLU; DLU; DLU; DLU; DLU; DLU; DLU; DLU; DD; DD; DD; DLU; DLU; DLU; DLU;
    DLU; DLU; DLU; DLU; DLU; DLU; DSkipS; DSkipS; DSkipS; DSkipS; DLU; DSkipU; DSkipU; DD; DD; DD; DD;
    DLU; DLU; DLU]).

Definition stat_fields : list nfield :=
  [p_state; p_ppid; p_pgrp; p_session; p_tty; p_tpgid; p_flags; p_min_flt; p_cmin_flt; p_maj_flt;
   p_cmaj_flt; p_utime; p_stime; p_cutime; p_cstime; p_priority; p_nice; p_nlwp; p_alarm;
   p_start_time; p_vsize; p_rss; p_rss_rlim; p_start_code; p_end_code; p_start_stack; p_kstk_esp;
   p_kstk_eip; p_wchan; p_exit_signal; p_processor; p_rtprio; p_sched; p_blkio_tics; p_gtime; p_cgtime].

Definition stat_defaults (p : proc_t) : proc_t :=
  set_num p_nlwp 0 (set_num p_sched (-1) (set_num p_rtprio (-1) (set_num p_processor 0 p))).

(** [raw] has 64 bytes: a longer name is copied past its end. *)
Definition stat2proc (buf : bytes) (p : proc_t) : R (Z * proc_t) :=
  let p := stat_defaults p in
  s ← deref (cstr buf);
  match strchr s 40 with
  | None => mret (0, p)
  | Some i =>
      let s := drop (S i) s in
      match strrchr s 41 with
      | None => mret (0, p)
      | Some tmp =>
          match s !! S tmp with
          | None => mret (0, p)
          | Some _ =>
              '(rc, p) ← (match str p p_cmd with
                          | Some _ => mret (0, p)
                          | None => if (63 <? tmp)%nat then undef else set_cmd (take tmp s) p
                          end);
              if negb (rc =? 0) then mret (rc, p) else
              let p := store_scan stat_fields (sscanf stat_fmt (drop (tmp + 2) s)) p in
              mret (0, if num p p_nlwp =? 0 then set_num p_nlwp 1 p else p)
          end
      end
  end.

(** ** The other formatted files *)

Definition statm2proc (s : bytes) (p : proc_t) : proc_t :=
  store_scan [p_size; p_resident; p_share; p_trs; p_lrs; p_drs; p_dt]
    (sscanf (spaced [DLU; DLU; DLU; DLU; DLU; DLU; DLU]) s) p.

Definition io_part (key : string) : list directive := lits key ++ [DSpace; DLU].

Definition io_fmt : list directive :=
  io_part "rchar:" ++ DSpace :: io_part "wchar:" ++ DSpace :: io_part "syscr:" ++ DSpace ::
  io_part "syscw:" ++ DSpace :: io_part "read_bytes:" ++ DSpace :: io_part "write_bytes:" ++
  DSpace :: io_part "cancelled_write_bytes:".

Definition io2proc (s : bytes) (p : proc_t) : proc_t :=
  store_scan [p_rchar; p_wchar; p_syscr; p_syscw; p_read_bytes; p_write_bytes; p_cancelled_write_bytes]
    (sscanf io_fmt s) p.

Definition oomscore2proc (s : bytes) (p : proc_t) : proc_t := store_scan [p_oom_score] (sscanf [DD] s) p.
Definition oomadj2proc (s : bytes) (p : proc_t) : proc_t := store_scan [p_oom_adj] (sscanf [DD] s) p.

(** Each search goes on behind the number found last. *)
Fixpoint smaps_loop (tab : list (string * nfield)) (s : bytes) (p : proc_t) : proc_t :=
  match tab with
  | [] => p
  | (item, f) :: tab =>
      match strstr s (bs item) with
      | None => smaps_loop tab s p
      | Some i =>
          let t := strtoul (drop (i + length (bs item)) s) in
          smaps_loop tab (st_rest t) (set_num f (st_val t) p)
      end
  end.

Definition smaps2proc (s : bytes) (p : proc_t) : proc_t := smaps_loop smaptab s p.

(** ** /proc/#/status *)

(** The entry of the hash table for the bytes 0, 2 and 3 of a line. *)
Definition weight (c : Z) : Z := nth (Z.to_nat (Z.land c 127)) asso 0.
Definition hash_entry (c0 c2 c3 : Z) : string :=
  nth (Z.to_nat (Z.land 127 (weight c3 + weight c2 + weight c0))) table nul.

(** [strtol(S, &S, 10)] on a buffer. *)
Definition strtol_at (b : bytes) : option (Z * bytes) :=
  s ← cstr b;
  let t := strtol s in
  Some (st_val t, drop (length s - length (st_rest t)) b).

(** The locals and the record while the lines are read. *)
Record sstate := SState { Threads : Z; Tgid : Z; Pid : Z; P : proc_t }.

Definition with_p (st : sstate) (p : proc_t) : sstate := SState (Threads st) (Tgid st) (Pid st) p.

(** The unescaping loop of [case_Name], with [n] bytes of room left: the raw
    name and how many bytes were consumed. *)
Fixpoint name_loop (n : nat) (b : bytes) : option (bytes * nat) :=
  match n with
  | O => Some ([], 0%nat)
  | S n =>
      c ← b !! 0%nat;
      if (c =? 10) || (c =? 0) then Some ([], 1%nat)
      else if c =? 92 then
        d ← b !! 1%nat;
        if (d =? 10) || (d =? 0) then Some ([], 2%nat)
        else '(raw, k) ← name_loop n (drop 2 b); Some ((if d =? 110 then 10 else d) :: raw, (2 + k)%nat)
      else '(raw, k) ← name_loop n (drop 1 b); Some (c :: raw, (1 + k)%nat)
  end.

(** [memcpy(dst, S, 16); dst[16] = '\0'] into one of the 18-byte masks. *)
Definition copy_mask (b old : bytes) : option bytes :=
  if (length b <? 16)%nat then None else Some (take 16 b ++ 0 :: drop 17 old).

Fixpoint skip_blanks (s : bytes) : bytes :=
  match s with c :: r => if (c =? 32) || (c =? 9) then skip_blanks r else s | [] => [] end.

(** The text left in [supgid] for the [j] bytes of the line: a trailing blank is
    dropped, the others but one at the start become commas. *)
Definition supgid_text (t : bytes) : bytes :=
  let t := match last t with Some c => if c =? 32 then take (length t - 1) t else t | None => t end in
  take 1 t ++ map (fun c => if c =? 32 then 44 else c) (drop 1 t).

(** [case_Groups]: false when memory ran out. *)
Definition groups_case (b : bytes) (p : proc_t) : R (bool * proc_t) :=
  s ← deref (cstr b);
  let ss := skip_blanks s in
  match strchr s 10 with
  | None => mret (true, p)                       (* [ss >= NULL] *)
  | Some nl =>
      let j := (nl - (length s - length ss))%nat in
      if (nl <=? length s - length ss)%nat then mret (true, p) else
      if INT_MAX <=? Z.of_nat j then mret (true, p) else
      r ← sys (CMalloc (Z.of_nat j + 1));
      if r_val r <? 0 then mret (false, set_str p_supgid None p)
      else mret (true, set_str p_supgid (Some (supgid_text (take j ss))) p)
  end.

(** The fields that take one number: the member and the conversion. *)
Definition vm_cases : list (string * nfield) :=
  [("VmData", p_vm_data); ("VmExe", p_vm_exe); ("VmLck", p_vm_lock); ("VmLib", p_vm_lib);
   ("VmRSS", p_vm_rss); ("RssAnon", p_vm_rss_anon); ("RssFile", p_vm_rss_file);
   ("RssShmem", p_vm_rss_shared); ("VmSize", p_vm_size); ("VmStk", p_vm_stack);
   ("VmSwap", p_vm_swap)]%string.

Definition mask_cases : list (string * afield) :=
  [("ShdPnd", p_signal); ("SigBlk", p_blocked); ("SigCgt", p_sigcatch); ("SigIgn", p_sigignore);
   ("SigPnd", p_sigpnd)]%string.

Definition id_cases : list (string * list nfield) :=
  [("Uid", [p_ruid; p_euid; p_suid; p_fuid]); ("Gid", [p_rgid; p_egid; p_sgid; p_fgid])]%string.

(** Four numbers in a row. *)
Fixpoint ids_loop (fs : list nfield) (b : bytes) (p : proc_t) : option (bytes * proc_t) :=
  match fs with
  | [] => Some (b, p)
  | f :: fs => '(v, b) ← strtol_at b; ids_loop fs b (set_num f (u32 v) p)
  end.

(** The code behind the label of a name, at the text behind the tab; false
    returns 1 for want of memory. *)
Definition run_case (name : string) (b : bytes) (st : sstate) : R (bool * sstate * bytes) :=
  let p := P st in
  match assoc name vm_cases, assoc name mask_cases, assoc name id_cases with
  | Some f, _, _ => '(v, b) ← deref (strtol_at b); mret (true, with_p st (set_num f (u64 v) p), b)
  | _, Some f, _ => m ← deref (copy_mask b (arr p f)); mret (true, with_p st (set_arr f m p), b)
  | _, _, Some fs => '(b, p) ← deref (ids_loop fs b p); mret (true, with_p st p, b)
  | None, None, None =>
      if (name =? "Name")%string then
        '(raw, k) ← deref (name_loop 63 b);
        '(rc, p) ← (match str p p_cmd with Some _ => mret (0, p) | None => set_cmd raw p end);
        mret (rc =? 0, with_p st p, drop (k - 1) b)
      else if (name =? "State")%string then
        c ← deref (b !! 0%nat); mret (true, with_p st (set_num p_state c p), b)
      else if (name =? "Tgid")%string then
        '(v, b) ← deref (strtol_at b); mret (true, SState (Threads st) v (Pid st) p, b)
      else if (name =? "Pid")%string then
        '(v, b) ← deref (strtol_at b); mret (true, SState (Threads st) (Tgid st) v p, b)
      else if (name =? "PPid")%string then
        '(v, b) ← deref (strtol_at b); mret (true, with_p st (set_num p_ppid (i32 v) p), b)
      else if (name =? "Threads")%string then
        '(v, b) ← deref (strtol_at b); mret (true, SState v (Tgid st) (Pid st) p, b)
      else if (name =? "Groups")%string then
        '(ok, p) ← groups_case b p; mret (ok, with_p st p, b)
      else mret (true, st, b)
  end.

(** The lines from the label [base] on; false returns 1. *)
Fixpoint status_loop (fuel : nat) (b : bytes) (st : sstate) : R (bool * sstate) :=
  match fuel with
  | O => nofuel
  | S fuel =>
      let next b st :=                                   (* advance to next line *)
        s ← deref (cstr b);
        match strchr s 10 with
        | None => mret (true, st)
        | Some i => status_loop fuel (drop (S i) b) st
        end in
      s ← deref (cstr b);
      match s with
      | c0 :: c1 :: c2 :: c3 :: _ =>
          let name := hash_entry c0 c2 c3 in
          match strchr s 58 with
          | None => mret (true, st)
          | Some colon =>
              if negb (bool_decide (s !! S colon = Some 9)) then mret (true, st)
              else if negb (colon =? length (bs name))%nat then next b st
              else if negb (streq (take colon s) (bs name)) then next b st
              else if (length (bs name) =? 0)%nat then undef       (* jump to a NUL entry *)
              else
                '(ok, st, b) ← run_case name (drop (colon + 2) b) st;
                if negb ok then mret (false, st) else next b st
          end
      | _ => mret (true, st)
      end
  end.

Definition status2proc (fuel : nat) (b : bytes) (p : proc_t) (is_proc : bool) : R (Z * proc_t) :=
  '(ok, st) ← status_loop fuel b (SState 0 0 0 p);
  if negb ok then mret (1, P st) else
      let p := P st in
      let p := if negb is_proc || (nth 0 (arr p p_signal) 0 =? 0)
               then set_arr p_signal (take 16 (arr p p_sigpnd) ++ 0 :: drop 17 (arr p p_signal)) p
               else p in
      let p := if negb (Threads st =? 0)
               then set_num p_tid (i32 (Pid st)) (set_num p_tgid (i32 (Tgid st)) (set_num p_nlwp (i32 (Threads st)) p))
               else set_num p_tid (i32 (Pid st)) (set_num p_tgid (i32 (Pid st)) (set_num p_nlwp 1 p)) in
      match str p p_supgid with
      | Some _ => mret (0, p)
      | None =>
          d ← strdup (bs "-");
          mret (failed d, set_str p_supgid d p)
      end.
End parse.

(** ** The hash of the status names *)

Definition status_names : list string :=
  filter (fun n => n <> nul) table.

(** The line of a key in which [hash_entry] looks. *)
Definition hash_line (s : bytes) : string :=
  match s with c0 :: _ :: c2 :: c3 :: _ => hash_entry c0 c2 c3 | _ => nul end.

Definition name_ok (n : string) : bool :=
  (hash_line (bs n ++ [58]) =? n)%string && (3 <=? length (bs n))%nat &&
  forallb (fun c => negb (c =? 58) && negb (c =? 0) && negb (c =? 10)) (bs n).

Lemma names_ok : forallb name_ok status_names = true.
Proof. vm_compute. reflexivity. Qed.

Lemma hash_line_more s t : (4 <= length s)%nat -> hash_line (s ++ t) = hash_line s.
Proof. by destruct s as [|? [|? [|? [|? ?]]]]; cbn; intros; try lia. Qed.

Lemma bs_inj a b : bs a = bs b -> a = b.
Proof.
  unfold bs. intros H. rewrite <- (String.string_of_list_ascii_of_string a), <- (String.string_of_list_ascii_of_string b).
  f_equal. revert H. generalize (String.list_ascii_of_string a) (String.list_ascii_of_string b).
  induction l as [|x l IH]; intros [|y l'] H; cbn in H; try done. injection H as Hx Hl.
  f_equal; [|by apply IH]. apply (f_equal Z.to_N) in Hx. rewrite !N2Z.id in Hx.
  rewrite <- (Ascii.ascii_N_embedding x), <- (Ascii.ascii_N_embedding y). by f_equal.
Qed.

Lemma hash_entry_in c0 c2 c3 : hash_entry c0 c2 c3 = nul \/ hash_entry c0 c2 c3 ∈ status_names.
Proof.
  unfold hash_entry. set (i := Z.to_nat _).
  destruct (decide (nth i table nul = nul)) as [|Hn]; [by left|]. right.
  apply list_elem_of_filter. split; [done|]. apply list_elem_of_In.
  destruct (decide (i < length table)%nat) as [Hi|Hi]; [by apply nth_In|].
  by rewrite nth_overflow in Hn by lia.
Qed.

Lemma name_facts n : n ∈ status_names ->
  (forall t, hash_line (bs n ++ 58 :: t) = n) /\ (3 <= length (bs n))%nat /\
  Forall (fun c => c <> 58 /\ c <> 0 /\ c <> 10) (bs n).
Proof.
  intros Hn%list_elem_of_In. pose proof (proj1 (forallb_forall _ _) names_ok n Hn) as H. unfold name_ok in H.
  apply andb_true_iff in H as [[H1 H2]%andb_true_iff H3]. apply Nat.leb_le in H2. split; [|split; [done|]].
  - intros t. apply String.eqb_eq in H1. rewrite <- H1 at 2.
    change (58 :: t) with ([58] ++ t). rewrite app_assoc. apply hash_line_more.
    rewrite length_app. cbn. lia.
  - apply Forall_forall. intros c Hc. rewrite forallb_forall in H3. apply list_elem_of_In in Hc.
    specialize (H3 c Hc). apply andb_true_iff in H3 as [[? ?]%andb_true_iff ?]. lia.
Qed.

(** C37: the perfect hash of status2proc: comparing a field name only with the
    entry at its hash accepts exactly the names of the table, and the entry is
    then that name. *)
Theorem status_hash_perfect key t : key <> [] -> (3 <= length key)%nat ->
  bs (hash_line (key ++ 58 :: t)) = key <-> exists n, n ∈ status_names /\ bs n = key.
Proof.
  intros Hne Hl. split.
  - intros H. exists (hash_line (key ++ 58 :: t)). split; [|done].
    destruct key as [|c0 [|c1 [|c2 r]]]; cbn in Hl; try lia.
    assert (exists c3 r', r ++ 58 :: t = c3 :: r') as (c3 & r' & E) by (destruct r; cbn; eauto).
    cbn [app hash_line] in *. rewrite E in *. destruct (hash_entry_in c0 c2 c3) as [Hn|]; [|done].
    rewrite Hn in H. done.
  - intros (n & Hn & <-). f_equal. by apply name_facts.
Qed.

(** ** One line of the file *)

Definition text (v : bytes) : Prop := Forall (fun c => c <> 0 /\ c <> 10) v.

Lemma text_nonul v : text v -> Forall (fun c => c <> 0) v.
Proof. intros H. eapply Forall_impl; [apply H|]. by intros c []. Qed.
Lemma text_noeol v : text v -> Forall (fun c => c <> 10) v.
Proof. intros H. eapply Forall_impl; [apply H|]. by intros c []. Qed.

Lemma cstr_text_line v tl t : text v -> cstr tl = Some t -> cstr (v ++ 10 :: tl) = Some (v ++ 10 :: t).
Proof. intros Hv Ht. rewrite cstr_prefix by by apply text_nonul. cbn [cstr]. by rewrite Ht. Qed.

Section lines.
Variable cs : bool.
Variable enc : option bytes.

Lemma line_chars s : (4 <= length s)%nat ->
  exists c0 c1 c2 c3 r, s = c0 :: c1 :: c2 :: c3 :: r /\ hash_entry c0 c2 c3 = hash_line s.
Proof. destruct s as [|c0 [|c1 [|c2 [|c3 r]]]]; cbn; intros; try lia. by exists c0, c1, c2, c3, r. Qed.

Lemma key_line key v t tl :
  Forall (fun c => c <> 58 /\ c <> 0 /\ c <> 10) key -> (3 <= length key)%nat -> text v -> cstr tl = Some t ->
  let s := key ++ 58 :: 9 :: v ++ 10 :: t in
  cstr (key ++ 58 :: 9 :: v ++ 10 :: tl) = Some s /\ strchr s 58 = Some (length key) /\
  s !! S (length key) = Some 9 /\ take (length key) s = key /\ hash_line s = hash_line (key ++ [58]).
Proof.
  intros Hk Hl Hv Ht s. split; [|split; [|split; [|split]]].
  - rewrite cstr_prefix by (eapply Forall_impl; [apply Hk|]; by intros c (_ & ? & _)).
    cbn [cstr]. by rewrite (cstr_text_line v tl t).
  - apply strchr_app. eapply Forall_impl; [apply Hk|]. by intros c [? _].
  - unfold s. rewrite lookup_app_r by lia. by replace (S (length key) - length key)%nat with 1%nat by lia.
  - apply take_app_length.
  - unfold s. change (58 :: 9 :: v ++ 10 :: t) with ([58] ++ 9 :: v ++ 10 :: t). rewrite app_assoc.
    apply hash_line_more. rewrite length_app. cbn. lia.
Qed.

Lemma eol_next v tl t : text v -> cstr tl = Some t ->
  cstr (v ++ 10 :: tl) = Some (v ++ 10 :: t) /\ strchr (v ++ 10 :: t) 10 = Some (length v) /\
  drop (S (length v)) (v ++ 10 :: tl) = tl.
Proof.
  intros Hv Ht. split; [by apply cstr_text_line|]. split; [by apply strchr_app, text_noeol|].
  rewrite cons_middle, app_assoc. apply drop_app_length'. rewrite length_app. cbn. lia.
Qed.

(** A line of a field the code knows: its code runs on the value and leaves the
    text somewhere in the line. *)
Lemma status_known o w f n v t tl st Q : n ∈ status_names -> text v -> cstr tl = Some t ->
  wp (run_case cs enc n (v ++ 10 :: tl) st) o w (fun r w' => exists st' v',
    r = (true, st', v' ++ 10 :: tl) /\ text v' /\ wp (status_loop cs enc f tl st') o w' Q) ->
  wp (status_loop cs enc (S f) (bs n ++ 58 :: 9 :: v ++ 10 :: tl) st) o w Q.
Proof.
  intros Hn Hv Ht Hrun. destruct (name_facts n Hn) as (Hh & Hl & Hk).
  destruct (key_line (bs n) v t tl Hk Hl Hv Ht) as (H1 & H2 & H3 & H4 & H5). rewrite (Hh []) in H5.
  set (s := bs n ++ 58 :: 9 :: v ++ 10 :: t) in *. set (b := bs n ++ 58 :: 9 :: v ++ 10 :: tl) in *.
  destruct (line_chars s) as (c0 & c1 & c2 & c3 & r & Hs & Hc); [unfold s; rewrite length_app; cbn; lia|].
  cbn [status_loop]. wstep. rewrite H1. cbn [deref]. apply wp_ret. rewrite Hs. rewrite Hc. rewrite <- Hs, H2, H3, H5.
  rewrite bool_decide_true by done. cbv zeta. cbn [negb]. rewrite Nat.eqb_refl. cbn [negb]. rewrite H4.
  unfold streq. rewrite bool_decide_true by done. cbn [negb].
  destruct (Nat.eqb_spec (length (bs n)) 0) as [E|_]; [lia|].
  assert (Hd : drop (length (bs n) + 2) b = v ++ 10 :: tl).
  { unfold b. rewrite drop_app_add. done. }
  rewrite Hd. wstep. eapply wp_mono; [apply Hrun|]. intros res w' (st' & v' & -> & Hv' & HQ).
  cbn [negb]. destruct (eol_next v' tl t Hv' Ht) as (E1 & E2 & E3). wstep. rewrite E1. apply wp_ret.
  by rewrite E2, E3.
Qed.

(** A line of another field is skipped. *)
Lemma status_unknown o w f key v t tl st Q :
  Forall (fun c => c <> 58 /\ c <> 0 /\ c <> 10) key -> (3 <= length key)%nat ->
  (forall n, n ∈ status_names -> bs n <> key) -> text v -> cstr tl = Some t ->
  wp (status_loop cs enc f tl st) o w Q ->
  wp (status_loop cs enc (S f) (key ++ 58 :: 9 :: v ++ 10 :: tl) st) o w Q.
Proof.
  intros Hk Hl Hu Hv Ht HQ.
  destruct (key_line key v t tl Hk Hl Hv Ht) as (H1 & H2 & H3 & H4 & H5).
  set (s := key ++ 58 :: 9 :: v ++ 10 :: t) in *. set (b := key ++ 58 :: 9 :: v ++ 10 :: tl) in *.
  destruct (line_chars s) as (c0 & c1 & c2 & c3 & r & Hs & Hc); [unfold s; rewrite length_app; cbn; lia|].
  assert (Hne : streq key (bs (hash_line s)) = false).
  { unfold streq. apply bool_decide_eq_false. intros E. rewrite <- Hc in E.
    destruct (hash_entry_in c0 c2 c3) as [Hn|Hn]; [rewrite Hn in E; by rewrite E in Hl; cbn in Hl; lia|].
    by apply (Hu _ Hn). }
  assert (Hnext : wp (s ← deref (cstr b); match strchr s 10 with
      | None => mret (true, st) | Some i => status_loop cs enc f (drop (S i) b) st end) o w Q).
  { assert (Htx : text (key ++ 58 :: 9 :: v)).
    { apply Forall_app. split; [eapply Forall_impl; [apply Hk|]; by intros c (? & ? & ?)|].
      by repeat (apply Forall_cons; split; [lia|]). }
    destruct (eol_next (key ++ 58 :: 9 :: v) tl t Htx Ht) as (E1 & E2 & E3).
    replace b with ((key ++ 58 :: 9 :: v) ++ 10 :: tl) by (unfold b; by rewrite <- app_assoc).
    wstep. rewrite E1. apply wp_ret. by rewrite E2, E3. }
  cbn [status_loop]. wstep. rewrite H1. cbn [deref]. apply wp_ret. rewrite Hs, Hc, <- Hs, H2, H3.
  rewrite bool_decide_true by done. cbv zeta. cbn [negb]. rewrite H4, Hne. cbn [negb].
  rewrite H1 in Hnext. cbn [deref] in Hnext. by destruct (_ =? _)%nat.
Qed.
End lines.

(** ** The lines the kernel prints *)

(** The kernel escapes newlines and backslashes of a name. *)
Definition esc_name (raw : bytes) : bytes :=
  concat (map (fun c => if c =? 10 then [92; 110] else if c =? 92 then [92; 92] else [c]) raw).

Inductive stline :=
| LName (raw : bytes)
| LState (c : Z) (rest : bytes)
| LTgid (n : Z) | LPid (n : Z) | LPPid (n : Z) | LThreads (n : Z)
| LUid (r e s f : Z) | LGid (r e s f : Z)
| LVm (entry : string * nfield) (pad : nat) (n : Z)
| LMask (entry : string * afield) (hex : bytes)
| LGroups (gs : list Z)
| LOther (key v : bytes).

Definition line_key (l : stline) : bytes :=
  match l with
  | LName _ => bs "Name" | LState _ _ => bs "State" | LTgid _ => bs "Tgid" | LPid _ => bs "Pid"
  | LPPid _ => bs "PPid" | LThreads _ => bs "Threads" | LUid _ _ _ _ => bs "Uid"
  | LGid _ _ _ _ => bs "Gid" | LVm e _ _ => bs e.1 | LMask e _ => bs e.1
  | LGroups _ => bs "Groups" | LOther k _ => k
  end.

Definition tabbed (a b c d : Z) : bytes := dec a ++ 9 :: dec b ++ 9 :: dec c ++ 9 :: dec d.

Definition line_val (l : stline) : bytes :=
  match l with
  | LName raw => esc_name raw
  | LState c rest => c :: rest
  | LTgid n | LPid n | LPPid n | LThreads n => dec n
  | LUid a b c d | LGid a b c d => tabbed a b c d
  | LVm _ pad n => replicate pad 32 ++ dec n ++ bs " kB"
  | LMask _ hex => hex
  | LGroups gs => concat (map (fun g => dec g ++ [32]) gs)
  | LOther _ v => v
  end.

Definition print_line (l : stline) : bytes := line_key l ++ 58 :: 9 :: line_val l ++ [10].

Definition is_pid (n : Z) : Prop := 0 <= n <= INT_MAX.
Definition is_id (n : Z) : Prop := 0 <= n < 2 ^ 32.

Definition stline_ok (l : stline) : Prop :=
  match l with
  | LName raw => Forall (fun c => c <> 0) raw /\ (length raw <= 62)%nat
  | LState c rest => text (c :: rest)
  | LTgid n | LPid n | LPPid n | LThreads n => is_pid n
  | LUid a b c d | LGid a b c d => Forall is_id [a; b; c; d]
  | LVm e _ n => e ∈ vm_cases /\ 0 <= n <= LONG_MAX
  | LMask e hex => e ∈ mask_cases /\ text hex /\ length hex = 16%nat
  | LGroups gs => Forall is_id gs /\ Z.of_nat (length (line_val l)) < INT_MAX
  | LOther k v => Forall (fun c => c <> 58 /\ c <> 0 /\ c <> 10) k /\ (3 <= length k)%nat /\
      (forall n, n ∈ status_names -> bs n <> k) /\ text v
  end.

(** The numbers of the groups, separated by commas. *)
Fixpoint commas (gs : list Z) : bytes :=
  match gs with
  | [] => []
  | [g] => dec g
  | g :: r => dec g ++ 44 :: commas r
  end.

(** What a line means. *)
Definition line_eff (cs : bool) (sw : Z) (st : sstate) (l : stline) : sstate :=
  let p := P st in
  match l with
  | LName raw => with_p st (match str p p_cmd with
                            | Some _ => p
                            | None => set_str p_cmd (Some (Escape.escaped cs sw raw 64)) p
                            end)
  | LState c _ => with_p st (set_num p_state c p)
  | LTgid n => SState (Threads st) n (Pid st) p
  | LPid n => SState (Threads st) (Tgid st) n p
  | LPPid n => with_p st (set_num p_ppid n p)
  | LThreads n => SState n (Tgid st) (Pid st) p
  | LUid a b c d => with_p st (set_num p_fuid d (set_num p_suid c (set_num p_euid b (set_num p_ruid a p))))
  | LGid a b c d => with_p st (set_num p_fgid d (set_num p_sgid c (set_num p_egid b (set_num p_rgid a p))))
  | LVm e _ n => with_p st (set_num e.2 n p)
  | LMask e hex => with_p st (set_arr e.2 (hex ++ 0 :: drop 17 (arr p e.2)) p)
  | LGroups [] => st
  | LGroups gs => with_p st (set_str p_supgid (Some (commas gs)) p)
  | LOther _ _ => st
  end.

(** *** Numbers in a line *)

Lemma strtol_spaces sp s : Forall (fun c => isspace c = true) sp -> st_conv (strtol s) = true ->
  strtol (sp ++ s) = strtol s.
Proof.
  intros Hsp. assert (H : skip_spaces (sp ++ s) = skip_spaces s)
    by (induction Hsp as [|c sp Hc _ IH]; cbn [app skip_spaces]; [done|by rewrite Hc]).
  unfold strtol. rewrite H. destruct (scan_sign _) as [neg s1]. destruct (span_digits s1) as [[|] r]; done.
Qed.

Lemma dec_text n : 0 <= n -> text (dec n).
Proof. intros Hn. eapply Forall_impl; [by apply dec_digits|]. intros c Hc. by split; intros ->. Qed.

Definition blank (sp : bytes) : Prop := Forall (fun c => c = 32 \/ c = 9) sp.

Lemma strtol_dec_at sp n r tl t : blank sp -> 0 <= n <= LONG_MAX -> stops r -> text r -> cstr tl = Some t ->
  strtol_at (sp ++ dec n ++ r ++ 10 :: tl) = Some (n, r ++ 10 :: tl).
Proof.
  intros Hb Hn Hs Hr Ht. unfold strtol_at.
  assert (Hnn : Forall (fun c => c <> 0) (sp ++ dec n)).
  { apply Forall_app. split; [eapply Forall_impl; [apply Hb|]; cbn; lia|]. apply text_nonul, dec_text. lia. }
  rewrite app_assoc, cstr_prefix by done. rewrite (cstr_text_line r tl t) by done.
  cbn [fmap option_fmap option_map mbind option_bind].
  assert (Hf : fmt_d n = dec n) by (unfold fmt_d; by destruct (Z.ltb_spec n 0); [lia|]).
  assert (H1 : strtol (fmt_d n ++ r ++ 10 :: t) = Strto n (r ++ 10 :: t) true false).
  { apply strtol_fmt_d; [unfold LONG_MIN; lia|]. by destruct r. }
  assert (H2 : strtol ((sp ++ dec n) ++ r ++ 10 :: t) = Strto n (r ++ 10 :: t) true false).
  { rewrite <- app_assoc, <- Hf. rewrite strtol_spaces; rewrite ?H1; try done.
    eapply Forall_impl; [apply Hb|]. cbn. by intros c [->| ->]. }
  rewrite H2. cbn [st_val st_rest]. do 2 f_equal. rewrite (length_app (sp ++ dec n)).
  apply drop_app_length'. lia.
Qed.

Lemma blank_nil : blank [].
Proof. constructor. Qed.
Lemma blank_tab : blank [9].
Proof. apply Forall_singleton. by right. Qed.
Lemma blank_pad k : blank (replicate k 32).
Proof. apply Forall_replicate. by left. Qed.
Lemma text_nil : text [].
Proof. constructor. Qed.
#[local] Hint Resolve blank_nil blank_tab blank_pad text_nil : cdb.

(** Four numbers with tabs between them. *)
Lemma ids_tabbed f1 f2 f3 f4 a b c d tl t p : Forall is_id [a; b; c; d] -> cstr tl = Some t ->
  ids_loop [f1; f2; f3; f4] (tabbed a b c d ++ 10 :: tl) p =
  Some (10 :: tl, set_num f4 d (set_num f3 c (set_num f2 b (set_num f1 a p)))).
Proof.
  intros (Ha & (Hb & (Hc & (Hd & _)%Forall_cons)%Forall_cons)%Forall_cons)%Forall_cons Ht.
  unfold is_id in *. unfold tabbed.
  assert (Hl : forall n, 0 <= n < 2 ^ 32 -> 0 <= n <= LONG_MAX) by (unfold LONG_MAX; lia).
  assert (Hx : forall n r, 0 <= n < 2 ^ 32 -> text r -> text (9 :: dec n ++ r)).
  { intros n r Hn Hr. apply Forall_cons. split; [lia|]. apply Forall_app. split; [apply dec_text; lia|done]. }
  assert (Hd0 : text (9 :: dec d)) by (rewrite <- (app_nil_r (dec d)); auto with cdb).
  assert (Hc0 : text (9 :: dec c ++ 9 :: dec d)) by auto.
  assert (Hb0 : text (9 :: dec b ++ 9 :: dec c ++ 9 :: dec d)) by auto.
  assert (E1 : forall sp n r, blank sp -> 0 <= n < 2 ^ 32 -> text (9 :: r) ->
    strtol_at (sp ++ dec n ++ (9 :: r) ++ 10 :: tl) = Some (n, [9] ++ r ++ 10 :: tl))
    by (intros; apply (strtol_dec_at _ _ (9 :: _) tl t); auto; done).
  assert (E2 : strtol_at ([9] ++ dec d ++ [] ++ 10 :: tl) = Some (d, 10 :: tl))
    by (apply (strtol_dec_at [9] d [] tl t); auto with cdb; done).
  assert (Hw : forall n, 0 <= n < 2 ^ 32 -> u32 n = n) by (intros; by apply wrap_u_small).
  pose proof (E1 []) as Ea. pose proof (E1 [9]) as Et. cbn [app] in Ea, Et, E2.
  cbn [ids_loop]. rewrite <- app_assoc. cbn [app].
  rewrite Ea by auto with cdb. cbn [mbind option_bind]. rewrite <- app_assoc. cbn [app].
  rewrite Et by auto with cdb. cbn [mbind option_bind]. rewrite <- app_assoc. cbn [app].
  rewrite Et by auto with cdb. cbn [mbind option_bind].
  rewrite E2. cbn [mbind option_bind]. by rewrite !Hw.
Qed.

(** *** Names *)

Lemma name_loop_esc raw n tl : Forall (fun c => c <> 0) raw -> (length raw < n)%nat ->
  name_loop n (esc_name raw ++ 10 :: tl) = Some (raw, S (length (esc_name raw))).
Proof.
  intros Hr. revert n. induction Hr as [|c raw Hc _ IH]; intros [|n] Hn; cbn [length] in Hn; try lia; [done|].
  unfold esc_name in *. cbn [map concat]. set (rest := concat _) in *.
  destruct (Z.eqb_spec c 10) as [->|Hc10].
  - cbn [app name_loop lookup list_lookup mbind option_bind Z.eqb Pos.eqb orb drop].
    rewrite ?drop_0, (IH n) by lia. done.
  - destruct (Z.eqb_spec c 92) as [->|Hc92].
    + cbn [app name_loop lookup list_lookup mbind option_bind Z.eqb Pos.eqb orb drop].
      rewrite ?drop_0, (IH n) by lia. done.
    + cbn [app name_loop lookup list_lookup mbind option_bind drop]. zcase. rewrite ?drop_0, (IH n) by lia. done.
Qed.

Lemma esc_name_text raw : Forall (fun c => c <> 0) raw -> text (esc_name raw).
Proof.
  unfold esc_name. induction 1 as [|c raw Hc _ IH]; cbn [map concat]; [constructor|].
  apply Forall_app. split; [|done]. destruct (Z.eqb_spec c 10), (Z.eqb_spec c 92);
    repeat (apply Forall_cons; split; [lia|]); constructor.
Qed.

(** *** Groups *)

Fixpoint blanks (gs : list Z) : bytes :=
  match gs with
  | [] => []
  | [g] => dec g
  | g :: r => dec g ++ 32 :: blanks r
  end.

Lemma groups_blanks gs : gs <> [] -> concat (map (fun g => dec g ++ [32]) gs) = blanks gs ++ [32].
Proof.
  induction gs as [|g [|g' r] IH]; intros Hne; [done|by cbn; rewrite app_nil_r|].
  cbn [map concat]. cbn [map concat] in IH. rewrite IH by done. cbn [blanks]. by rewrite <- !app_assoc.
Qed.

Definition to_comma (c : Z) : Z := if c =? 32 then 44 else c.

Lemma to_comma_digits ds : all_digits ds -> map to_comma ds = ds.
Proof.
  induction 1 as [|c ds Hc _ IH]; cbn; [done|]. rewrite IH. unfold to_comma.
  destruct (Z.eqb_spec c 32); [subst; done|done].
Qed.

Lemma blanks_commas gs : Forall is_id gs -> map to_comma (blanks gs) = commas gs.
Proof.
  induction 1 as [|g [|g' r] [Hg _] _ IH]; [done|by cbn; apply to_comma_digits, dec_digits|].
  change (blanks (g :: g' :: r)) with (dec g ++ 32 :: blanks (g' :: r)).
  change (commas (g :: g' :: r)) with (dec g ++ 44 :: commas (g' :: r)).
  rewrite map_app, to_comma_digits by by apply dec_digits. rewrite map_cons. by rewrite IH.
Qed.

Lemma blanks_head gs : Forall is_id gs -> gs <> [] -> exists c r, blanks gs = c :: r /\ isdigit c = true.
Proof.
  intros H Hne. destruct H as [|g r [Hg _] _]; [done|]. destruct (dec_head g Hg) as (c & t & E & Hc).
  exists c. destruct r; cbn [blanks]; rewrite E; cbn [app]; eauto.
Qed.

Lemma supgid_text_groups gs : Forall is_id gs -> gs <> [] ->
  supgid_text (concat (map (fun g => dec g ++ [32]) gs)) = commas gs.
Proof.
  intros Hg Hne. rewrite groups_blanks by done. unfold supgid_text. rewrite last_snoc. cbn [Z.eqb Pos.eqb].
  rewrite length_app, Nat.add_sub, take_app_length. rewrite <- blanks_commas by done.
  destruct (blanks_head gs Hg Hne) as (c & r & -> & Hc). cbn [take drop map app]. unfold to_comma.
  destruct (Z.eqb_spec c 32); [subst; done|done].
Qed.

Lemma blanks_text gs : Forall is_id gs -> text (blanks gs).
Proof.
  induction 1 as [|g [|g' r] [Hg _] _ IH]; [constructor|by apply dec_text|].
  change (blanks (g :: g' :: r)) with (dec g ++ 32 :: blanks (g' :: r)). apply Forall_app. split; [by apply dec_text|]. apply Forall_cons. split; [lia|done].
Qed.

Lemma groups_text gs : Forall is_id gs -> text (concat (map (fun g => dec g ++ [32]) gs)).
Proof.
  intros H. destruct (decide (gs = [])) as [->|Hne]; [constructor|]. rewrite groups_blanks by done.
  apply Forall_app. split; [by apply blanks_text|]. apply Forall_singleton. lia.
Qed.

(** *** The tables of the cases *)

Lemma vm_facts e : e ∈ vm_cases -> e.1 ∈ status_names /\ assoc e.1 vm_cases = Some e.2.
Proof.
  assert (H : forallb (fun e => bool_decide (e.1 ∈ status_names) && bool_decide (assoc e.1 vm_cases = Some e.2))
    vm_cases = true) by (vm_compute; reflexivity).
  rewrite forallb_forall in H. intros [H1 H2]%list_elem_of_In%H%andb_true_iff. by apply bool_decide_eq_true in H1, H2.
Qed.

Lemma mask_facts e : e ∈ mask_cases ->
  e.1 ∈ status_names /\ assoc e.1 vm_cases = None /\ assoc e.1 mask_cases = Some e.2.
Proof.
  assert (H : forallb (fun e => bool_decide (e.1 ∈ status_names) && bool_decide (assoc e.1 vm_cases = None)
    && bool_decide (assoc e.1 mask_cases = Some e.2)) mask_cases = true) by (vm_compute; reflexivity).
  rewrite forallb_forall in H. intros [[H1 H2]%andb_true_iff H3]%list_elem_of_In%H%andb_true_iff.
  by apply bool_decide_eq_true in H1, H2, H3.
Qed.

Lemma in_names (n : string) : bool_decide (n ∈ status_names) = true -> n ∈ status_names.
Proof. by intros H%bool_decide_eq_true. Qed.

Section step.
Variable cs : bool.
Variable enc : option bytes.

(** What the parsers keep: handles, and the static variables up to the cached
    codeset test. *)
Definition same (w w' : world rstate) : Prop :=
  Escape.utf_switch (utf_sw (w_g w')) enc = Escape.utf_switch (utf_sw (w_g w)) enc /\
  w_g w' = set_utf (utf_sw (w_g w')) (w_g w) /\ forall h, net h (w_tr w') = net h (w_tr w).

Lemma same_refl w : same w w.
Proof. split; [done|]. split; [by destruct w as [? ? []]|done]. Qed.

Lemma same_trans w1 w2 w3 : same w1 w2 -> same w2 w3 -> same w1 w3.
Proof.
  intros (A1 & A2 & A3) (B1 & B2 & B3). split; [congruence|].
  split; [rewrite B2, A2; by destruct (w_g w1)|]. intros h. by rewrite B3.
Qed.

Lemma utf_switch_idem sw : Escape.utf_switch (Escape.utf_switch sw enc) enc = Escape.utf_switch sw enc.
Proof.
  unfold Escape.utf_switch. destruct (sw =? 0) eqn:E; [|by rewrite E].
  destruct enc as [e|]; [by destruct (strcasecmp e (bs "UTF-8") =? 0)|done].
Qed.

(** An allocation keeps everything. *)
Lemma malloc_same o n (w : world rstate) : memory o ->
  wp (sys (CMalloc n)) o w (fun r w' => 0 <= r_val r /\ same w w').
Proof.
  intros Hm. wsys r Hr. subst r. split; [apply Hm|]. split; [done|].
  split; [by destruct w as [? ? []]|]. intros []; unfold net; cbn [w_tr foldr effect]; lia.
Qed.

Lemma strdup_same o s w : memory o -> wp (strdup s) o w (fun r w' => r = Some s /\ same w w').
Proof.
  intros Hm. unfold strdup. wstep. eapply wp_mono; [by apply malloc_same|]. intros r w' [Hr Hs].
  apply wp_ret. by destruct (Z.ltb_spec (r_val r) 0); [lia|].
Qed.

Lemma set_cmd_ok o raw p w : memory o -> Forall (fun c => c <> 0) raw -> Z.of_nat (length raw) <= INT_MAX ->
  wp (set_cmd cs enc raw p) o w (fun res w' =>
    res = (0, set_str p_cmd (Some (Escape.escaped cs (Escape.utf_switch (utf_sw (w_g w)) enc) raw 64)) p) /\
    same w w').
Proof.
  intros Hm Hr Hl. unfold set_cmd, escape_to. wstep. wstep. unfold wp at 1. cbn [getg]. wstep.
  rewrite (Escape.escape_str_eq cs enc) by (done || (unfold INT_MAX; lia) || (rewrite length_replicate; lia)).
  cbn [deref]. apply wp_ret. wstep. unfold wp at 1. cbn [modg]. apply wp_ret. wstep.
  rewrite cstr_app by by apply Escape.escaped_nonul. apply wp_ret. wstep.
  eapply wp_mono; [by apply strdup_same|]. intros r w' [-> Hs]. apply wp_ret. split; [done|].
  eapply same_trans; [|apply Hs]. split; [apply utf_switch_idem|done].
Qed.

Lemma groups_case_ok o gs tl t p w : memory o -> Forall is_id gs ->
  Z.of_nat (length (line_val (LGroups gs))) < INT_MAX -> cstr tl = Some t ->
  wp (groups_case (line_val (LGroups gs) ++ 10 :: tl) p) o w (fun res w' =>
    res = (true, match gs with [] => p | _ => set_str p_supgid (Some (commas gs)) p end) /\ same w w').
Proof.
  intros Hm Hg Hl Ht. unfold groups_case. cbn [line_val] in *. set (v := concat _) in *.
  destruct (eol_next v tl t (groups_text gs Hg) Ht) as (E1 & E2 & _).
  wstep. rewrite E1. apply wp_ret. rewrite E2. destruct (decide (gs = [])) as [->|Hne].
  { unfold v. cbn [map concat app skip_blanks Z.eqb Pos.eqb orb length Nat.leb]. apply wp_ret. split; [done|apply same_refl]. }
  assert (Hb : skip_blanks (v ++ 10 :: t) = v ++ 10 :: t).
  { unfold v. rewrite groups_blanks by done. destruct (blanks_head gs Hg Hne) as (c & r & -> & Hc).
    cbn [app skip_blanks]. apply isdigit_spec in Hc. by zcase. }
  rewrite Hb, Nat.sub_diag, Nat.sub_0_r.
  assert (Hv : (0 < length v)%nat).
  { unfold v. rewrite groups_blanks by done. rewrite length_app. cbn. lia. }
  destruct (Nat.leb_spec (length v) 0); [lia|]. destruct (Z.leb_spec INT_MAX (Z.of_nat (length v))); [lia|].
  wstep. eapply wp_mono; [by apply malloc_same|]. intros r w' [Hr Hs].
  destruct (Z.ltb_spec (r_val r) 0); [lia|]. apply wp_ret. rewrite take_app_length.
  unfold v. rewrite supgid_text_groups by done. by destruct gs.
Qed.

(** The number cases. *)
Lemma number_case o w f (n : string) v tl t st st' Q :
  n ∈ status_names -> 0 <= v <= LONG_MAX -> cstr tl = Some t ->
  (forall b, run_case cs enc n b st = ('(x, b) ← deref (strtol_at b); mret (true, st' x, b))) ->
  wp (status_loop cs enc f tl (st' v)) o w Q ->
  wp (status_loop cs enc (S f) (bs n ++ 58 :: 9 :: dec v ++ 10 :: tl) st) o w Q.
Proof.
  intros Hn Hv Ht Hrun HQ. apply (status_known cs enc o w f n _ t); [done|apply dec_text; lia|done|].
  rewrite Hrun. wstep. pose proof (strtol_dec_at [] v [] tl t) as E. cbn [app] in E.
  rewrite E by (auto with cdb; done). apply wp_ret. apply wp_ret.
  exists (st' v), []. split; [done|]. split; [constructor|done].
Qed.

Ltac case_tac := intros; unfold run_case; cbn [assoc vm_cases mask_cases id_cases String.eqb Ascii.eqb Bool.eqb]; reflexivity.

Lemma tabbed_text a b c d : Forall is_id [a; b; c; d] -> text (tabbed a b c d).
Proof.
  intros H. unfold tabbed. repeat match goal with H : Forall is_id (_ :: _) |- _ =>
    let H1 := fresh in apply Forall_cons in H as [[H1 _] H] end.
  repeat first [apply Forall_app; split; [by apply dec_text|] | apply Forall_cons; split; [lia|]].
  by apply dec_text.
Qed.

Lemma id_case o w f (n : string) f1 f2 f3 f4 a b c d tl t st Q :
  n ∈ status_names -> Forall is_id [a; b; c; d] -> cstr tl = Some t ->
  (forall x, run_case cs enc n x st =
     ('(x, p) ← deref (ids_loop [f1; f2; f3; f4] x (P st)); mret (true, with_p st p, x))) ->
  wp (status_loop cs enc f tl
    (with_p st (set_num f4 d (set_num f3 c (set_num f2 b (set_num f1 a (P st))))))) o w Q ->
  wp (status_loop cs enc (S f) (bs n ++ 58 :: 9 :: tabbed a b c d ++ 10 :: tl) st) o w Q.
Proof.
  intros Hn Hv Ht Hrun HQ. apply (status_known cs enc o w f n _ t); [done|by apply tabbed_text|done|].
  rewrite Hrun. wstep. rewrite (ids_tabbed _ _ _ _ a b c d tl t) by done. apply wp_ret. apply wp_ret.
  eexists _, []. split; [done|]. split; [constructor|done].
Qed.

Lemma name_case o w f raw tl t st Q : memory o -> Forall (fun c => c <> 0) raw -> (length raw <= 62)%nat ->
  cstr tl = Some t ->
  (forall w', same w w' -> wp (status_loop cs enc f tl
     (line_eff cs (Escape.utf_switch (utf_sw (w_g w)) enc) st (LName raw))) o w' Q) ->
  wp (status_loop cs enc (S f) (bs "Name" ++ 58 :: 9 :: esc_name raw ++ 10 :: tl) st) o w Q.
Proof.
  intros Hm Hr Hlr Ht HQ. pose proof (HQ w (same_refl w)) as HQ0. cbn [line_eff] in *.
  apply (status_known cs enc o w f "Name" _ t); [by apply in_names|by apply esc_name_text|done|].
  unfold run_case. cbn [assoc vm_cases mask_cases id_cases String.eqb Ascii.eqb Bool.eqb].
  wstep. rewrite name_loop_esc by (done || lia). cbn [deref]. apply wp_ret.
  assert (Hd : drop (S (length (esc_name raw)) - 1) (esc_name raw ++ 10 :: tl) = 10 :: tl)
    by (rewrite Nat.sub_succ, Nat.sub_0_r; apply drop_app_length).
  rewrite Hd. wstep. destruct (str (P st) p_cmd) as [cmd|].
  + apply wp_ret. apply wp_ret. eexists _, []. split; [done|]. split; [constructor|done].
  + eapply wp_mono; [apply set_cmd_ok; try done; unfold INT_MAX; lia|]. intros res w' [-> Hs].
    apply wp_ret. eexists _, []. split; [done|]. split; [constructor|by apply HQ].
Qed.

Lemma vm_case o w f e pad n tl t st Q : e ∈ vm_cases -> 0 <= n <= LONG_MAX -> cstr tl = Some t ->
  wp (status_loop cs enc f tl (with_p st (set_num e.2 n (P st)))) o w Q ->
  wp (status_loop cs enc (S f) (bs e.1 ++ 58 :: 9 :: (replicate pad 32 ++ dec n ++ bs " kB") ++ 10 :: tl) st) o w Q.
Proof.
  intros He Hn Ht HQ. destruct (vm_facts e He) as [H1 H2].
  assert (Hkb : text (bs " kB")) by (repeat (apply Forall_cons; split; [done|]); constructor).
  apply (status_known cs enc o w f e.1 _ t); [done| |done|].
  { apply Forall_app. split; [by apply Forall_replicate|]. apply Forall_app.
    split; [apply dec_text; lia|done]. }
  unfold run_case. rewrite H2. wstep. rewrite <- !app_assoc.
  rewrite (strtol_dec_at (replicate pad 32) n (bs " kB") tl t) by (done || auto with cdb).
  apply wp_ret. apply wp_ret. rewrite wrap_u_small by (unfold LONG_MAX in *; lia).
  eexists _, (bs " kB"). by split.
Qed.

Lemma mask_case o w f e hex tl t st Q : e ∈ mask_cases -> text hex -> length hex = 16%nat -> cstr tl = Some t ->
  wp (status_loop cs enc f tl (with_p st (set_arr e.2 (hex ++ 0 :: drop 17 (arr (P st) e.2)) (P st)))) o w Q ->
  wp (status_loop cs enc (S f) (bs e.1 ++ 58 :: 9 :: hex ++ 10 :: tl) st) o w Q.
Proof.
  intros He Hh Hl Ht HQ. destruct (mask_facts e He) as (H1 & H2 & H3).
  apply (status_known cs enc o w f e.1 _ t); [done..|].
  unfold run_case. rewrite H2, H3. wstep. unfold copy_mask. rewrite length_app, Hl. cbn [Nat.add Nat.ltb Nat.leb].
  rewrite take_app_length' by done. apply wp_ret. apply wp_ret. eexists _, hex. by split.
Qed.

(** A line of the kernel does to the record what it means. *)
Lemma status_step o w f l tl t st Q : memory o -> stline_ok l -> cstr tl = Some t ->
  (forall w', same w w' -> wp (status_loop cs enc f tl
     (line_eff cs (Escape.utf_switch (utf_sw (w_g w)) enc) st l)) o w' Q) ->
  wp (status_loop cs enc (S f) (print_line l ++ tl) st) o w Q.
Proof.
  intros Hm Hok Ht HQ. unfold print_line. rewrite <- app_assoc. cbn [app]. rewrite <- app_assoc. cbn [app].
  pose proof (HQ w (same_refl w)) as HQ0.
  assert (Hpid : forall n, is_pid n -> 0 <= n <= LONG_MAX) by (unfold is_pid, INT_MAX, LONG_MAX; lia).
  destruct l as [raw|c rest|n|n|n|n|a b c d|a b c d|e pad n|e hex|gs|key v];
    [destruct Hok; by apply (name_case o w f raw tl t)|..]; cbn [line_key line_val stline_ok line_eff] in *.
  - apply (status_known cs enc o w f "State" _ t); [by apply in_names|done|done|].
    unfold run_case. cbn [assoc vm_cases mask_cases id_cases String.eqb Ascii.eqb Bool.eqb app].
    wstep. cbn [lookup list_lookup deref]. apply wp_ret. apply wp_ret.
    eexists _, (c :: rest). by split.
  - apply (number_case o w f "Tgid" n tl t st (fun v => SState (Threads st) v (Pid st) (P st)));
      [by apply in_names|auto|done|case_tac|done].
  - apply (number_case o w f "Pid" n tl t st (fun v => SState (Threads st) (Tgid st) v (P st)));
      [by apply in_names|auto|done|case_tac|done].
  - apply (number_case o w f "PPid" n tl t st (fun v => with_p st (set_num p_ppid (i32 v) (P st))));
      [by apply in_names|auto|done|case_tac|].
    by rewrite i32_small by (unfold is_pid, INT_MIN in *; lia).
  - apply (number_case o w f "Threads" n tl t st (fun v => SState v (Tgid st) (Pid st) (P st)));
      [by apply in_names|auto|done|case_tac|done].
  - apply (id_case o w f "Uid" p_ruid p_euid p_suid p_fuid a b c d tl t); [by apply in_names|done|done|case_tac|done].
  - apply (id_case o w f "Gid" p_rgid p_egid p_sgid p_fgid a b c d tl t); [by apply in_names|done|done|case_tac|done].
  - destruct Hok. by apply (vm_case o w f e pad n tl t).
  - destruct Hok as (? & ? & ?). by apply (mask_case o w f e hex tl t).
  - destruct Hok as [Hg Hl].
    apply (status_known cs enc o w f "Groups" _ t); [by apply in_names|by apply groups_text|done|].
    unfold run_case. cbn [assoc vm_cases mask_cases id_cases String.eqb Ascii.eqb Bool.eqb].
    wstep. eapply wp_mono; [by apply (groups_case_ok o gs tl t)|]. intros res w' [-> Hs]. apply wp_ret.
    eexists _, _. split; [done|]. split; [by apply groups_text|]. apply HQ in Hs. destruct gs; [by destruct st|done].
  - destruct Hok as (? & ? & ? & ?). by apply (status_unknown cs enc o w f key v t).
Qed.
End step.

(** ** The whole file *)

Lemma line_val_text l : stline_ok l -> text (line_val l).
Proof.
  destruct l as [raw|c rest|n|n|n|n|a b c d|a b c d|e pad n|e hex|gs|key v]; cbn [line_val stline_ok].
  - intros []. by apply esc_name_text.
  - done.
  - intros [? _]. by apply dec_text.
  - intros [? _]. by apply dec_text.
  - intros [? _]. by apply dec_text.
  - intros [? _]. by apply dec_text.
  - apply tabbed_text.
  - apply tabbed_text.
  - intros [_ ?]. apply Forall_app. split; [by apply Forall_replicate|]. apply Forall_app.
    split; [apply dec_text; lia|]. repeat (apply Forall_cons; split; [done|]). constructor.
  - by intros (_ & ? & _).
  - intros [? _]. by apply groups_text.
  - by intros (_ & _ & _ & ?).
Qed.

Lemma known_key_nonul (n : string) : n ∈ status_names -> Forall (fun c => c <> 0) (bs n).
Proof. intros (_ & _ & H)%name_facts. eapply Forall_impl; [apply H|]. by intros c (_ & ? & _). Qed.

Lemma line_key_nonul l : stline_ok l -> Forall (fun c => c <> 0) (line_key l).
Proof.
  destruct l as [raw|c rest|n|n|n|n|a b c d|a b c d|e pad n|e hex|gs|key v]; cbn [line_key stline_ok]; intros H;
    try (apply known_key_nonul, in_names; reflexivity).
  - apply known_key_nonul, vm_facts, H.
  - apply known_key_nonul, mask_facts, H.
  - eapply Forall_impl; [apply H|]. by intros c (_ & ? & _).
Qed.

Lemma print_line_nonul l : stline_ok l -> Forall (fun c => c <> 0) (print_line l).
Proof.
  intros H. unfold print_line. apply Forall_app. split; [by apply line_key_nonul|].
  do 2 (apply Forall_cons; split; [lia|]). apply Forall_app. split; [by apply text_nonul, line_val_text|].
  apply Forall_singleton. lia.
Qed.

Definition print_status (ls : list stline) : bytes := concat (map print_line ls).

Lemma print_status_nonul ls : Forall stline_ok ls -> Forall (fun c => c <> 0) (print_status ls).
Proof.
  unfold print_status. induction 1 as [|l ls Hl _ IH]; cbn [map concat]; [constructor|].
  apply Forall_app. split; [by apply print_line_nonul|done].
Qed.

Section whole.
Variable cs : bool.
Variable enc : option bytes.

Lemma status_lines_ok o sw junk : memory o -> forall ls fuel w st,
  Escape.utf_switch (utf_sw (w_g w)) enc = sw -> Forall stline_ok ls -> (length ls < fuel)%nat ->
  wp (status_loop cs enc fuel (print_status ls ++ 0 :: junk) st) o w (fun r w' =>
    r = (true, foldl (line_eff cs sw) st ls) /\ same enc w w').
Proof.
  intros Hm. induction ls as [|l ls IH]; intros [|f] w st Hsw Hok Hf; cbn [length] in Hf; try lia.
  - cbn. split; [done|apply same_refl].
  - apply Forall_cons in Hok as [Hl Hok]. unfold print_status. cbn [map concat]. rewrite <- app_assoc.
    apply (status_step cs enc o w f l _ (print_status ls)); [done|done|by apply cstr_app, print_status_nonul|].
    intros w1 Hs1. rewrite Hsw. eapply wp_mono; [apply (IH f w1); [destruct Hs1; congruence|done|lia]|].
    intros r w2 [-> Hs2]. split; [done|]. by eapply same_trans.
Qed.

(** What the lines leave in the record. *)
Record status_result (is_proc : bool) (st : sstate) (p : proc_t) : Prop := {
  sr_tid : num p p_tid = i32 (Pid st);
  sr_tgid : num p p_tgid = i32 (if Threads st =? 0 then Pid st else Tgid st);
  sr_nlwp : num p p_nlwp = i32 (if Threads st =? 0 then 1 else Threads st);
  sr_num : forall f, f <> p_tid -> f <> p_tgid -> f <> p_nlwp -> num p f = num (P st) f;
  sr_supgid : str p p_supgid = Some (default (bs "-") (str (P st) p_supgid));
  sr_str : forall f, f <> p_supgid -> str p f = str (P st) f;
  sr_signal : take 16 (arr p p_signal) =
    take 16 (arr (P st) (if negb is_proc || (nth 0 (arr (P st) p_signal) 0 =? 0) then p_sigpnd else p_signal));
  sr_arr : forall f, f <> p_signal -> arr p f = arr (P st) f
}.

Lemma take_masked a b : (16 <= length a)%nat -> take 16 (take 16 a ++ 0 :: b) = take 16 a.
Proof. intros H. apply take_app_length'. rewrite length_take. lia. Qed.

Definition masks_ok (p : proc_t) : Prop := forall f, length (arr p f) = 18%nat.

Lemma line_eff_masks sw st l : stline_ok l -> masks_ok (P st) -> masks_ok (P (line_eff cs sw st l)).
Proof.
  destruct l as [raw|c rest|n|n|n|n|a b c d|a b c d|e pad n|e hex|gs|key v]; cbn [line_eff stline_ok]; intros Hl Hp; try done.
  - by destruct (str (P st) p_cmd).
  - destruct Hl as (_ & _ & Hh). intros g. cbn. case_decide; [|done].
    rewrite length_app, Hh. cbn [length]. rewrite length_drop, Hp. done.
  - by destruct gs.
Qed.

Lemma lines_masks sw ls st : Forall stline_ok ls -> masks_ok (P st) ->
  masks_ok (P (foldl (line_eff cs sw) st ls)).
Proof.
  intros H. revert st. induction H as [|l ls Hl _ IH]; intros st Hp; [done|].
  cbn [foldl]. by apply IH, line_eff_masks.
Qed.

(** The end of [status2proc], as it leaves pending signals and numbers. *)
Definition end_signal (is_proc : bool) (p : proc_t) : proc_t :=
  if negb is_proc || (nth 0 (arr p p_signal) 0 =? 0)
  then set_arr p_signal (take 16 (arr p p_sigpnd) ++ 0 :: drop 17 (arr p p_signal)) p else p.
Definition end_ids (st : sstate) (p : proc_t) : proc_t :=
  if negb (Threads st =? 0)
  then set_num p_tid (i32 (Pid st)) (set_num p_tgid (i32 (Tgid st)) (set_num p_nlwp (i32 (Threads st)) p))
  else set_num p_tid (i32 (Pid st)) (set_num p_tgid (i32 (Pid st)) (set_num p_nlwp 1 p)).

Lemma end_str is_proc st f : str (end_ids st (end_signal is_proc (P st))) f = str (P st) f.
Proof. unfold end_ids, end_signal. by destruct (Threads st =? 0), (_ || _). Qed.

Lemma end_result is_proc st q : masks_ok (P st) ->
  let p := end_ids st (end_signal is_proc (P st)) in
  num q = num p -> arr q = arr p -> (forall f, f <> p_supgid -> str q f = str p f) ->
  str q p_supgid = Some (default (bs "-") (str (P st) p_supgid)) -> status_result is_proc st q.
Proof.
  intros Hmk p Hn Ha Hs Hg.
  assert (Hap : arr p = arr (end_signal is_proc (P st))) by (unfold p, end_ids; by destruct (Threads st =? 0)).
  split; try done; try (rewrite Hn; unfold p, end_ids; by destruct (Threads st =? 0)).
  - intros f H1 H2 H3. rewrite Hn. unfold p, end_ids.
    assert (num (end_signal is_proc (P st)) f = num (P st) f) as <- by (unfold end_signal; by destruct (_ || _)).
    destruct (Threads st =? 0); cbn [negb num set_num]; by rewrite !decide_False.
  - intros f Hf. rewrite Hs by done. apply end_str.
  - rewrite Ha, Hap. unfold end_signal. destruct (_ || _); [|done]. cbn [arr set_arr].
    rewrite decide_True by done. apply take_masked. rewrite Hmk. lia.
  - intros f Hf. rewrite Ha, Hap. unfold end_signal. destruct (_ || _); [|done]. cbn [arr set_arr].
    by rewrite decide_False.
Qed.

End whole.

(** ** Scanning separated values *)

Definition is_token (c : Z) : Prop := isspace c = false /\ c <> 41 /\ c <> 0.

(** A value a directive scans, as its number (the character of [%c]). *)
Definition tok_ok (d : directive) (v : Z) : Prop :=
  match d with
  | DC => is_token v
  | DD => INT_MIN <= v <= INT_MAX
  | DLU | DSkipU => 0 <= v <= ULONG_MAX
  | DSkipS => 0 <= v
  | _ => False
  end.

Definition print_tok (d : directive) (v : Z) : bytes := match d with DC => [v] | _ => fmt_d v end.

Fixpoint print_toks (ds : list directive) (vs : list Z) : bytes :=
  match ds, vs with
  | [d], [v] => print_tok d v
  | d :: ds, v :: vs => print_tok d v ++ 32 :: print_toks ds vs
  | _, _ => []
  end.

Fixpoint stored (ds : list directive) (vs : list Z) : list Z :=
  match ds, vs with
  | d :: ds, v :: vs => match d with DSkipS | DSkipU => stored ds vs | _ => v :: stored ds vs end
  | _, _ => []
  end.

Lemma fmt_d_chars n : Forall is_token (fmt_d n).
Proof.
  assert (H : forall m, 0 <= m -> Forall is_token (dec m)).
  { intros m Hm. eapply Forall_impl; [by apply dec_digits|]. intros c Hc.
    split; [by apply isdigit_not_space|]. split; intros ->; done. }
  unfold fmt_d. destruct (Z.ltb_spec n 0); [|by apply H]. apply Forall_cons. split; [done|apply H; lia].
Qed.

Lemma print_tok_chars d v : tok_ok d v -> Forall is_token (print_tok d v) /\ print_tok d v <> [].
Proof.
  assert (H : Forall is_token (fmt_d v) /\ fmt_d v <> []).
  { split; [apply fmt_d_chars|]. unfold fmt_d. destruct (v <? 0); [done|apply dec_nonnil]. }
  destruct d; cbn [tok_ok print_tok]; intros Hv; try done. split; [by apply Forall_singleton|done].
Qed.

Lemma fmt_d_nonneg v : 0 <= v -> fmt_d v = dec v.
Proof. intros Hv. unfold fmt_d. by destruct (Z.ltb_spec v 0); [lia|]. Qed.

(** One value, followed by something that is no digit. *)
Lemma sscanf_tok d v c r f : tok_ok d v -> isspace c = true ->
  sscanf (d :: f) (print_tok d v ++ c :: r) =
  match d with DSkipS | DSkipU => sscanf f (c :: r) | _ => VI v :: sscanf f (c :: r) end.
Proof.
  intros Hv Hc. assert (Hs : stops (c :: r)).
  { cbn. destruct (isdigit c) eqn:E; [|done]. apply isdigit_not_space in E. congruence. }
  destruct d as [|x| | | | | | |w]; cbn [tok_ok print_tok] in *; try done.
  - cbn [sscanf]. rewrite strtol_fmt_d by (unfold INT_MIN, INT_MAX, LONG_MIN, LONG_MAX in *; lia || done).
    cbn [st_conv st_val st_rest]. by rewrite i32_small.
  - cbn [sscanf]. by rewrite fmt_d_nonneg, strtoul_dec by (lia || done).
  - cbn [sscanf]. by rewrite fmt_d_nonneg, strtoul_dec by (lia || done).
  - assert (Hch : Forall (fun c => isspace c = false) (fmt_d v))
      by (eapply Forall_impl; [apply fmt_d_chars|]; by intros x []).
    assert (Hne : fmt_d v <> []) by (apply (print_tok_chars DSkipS v Hv)).
    cbn [sscanf]. rewrite skip_spaces_name by done.
    rewrite span_word_all by (done || rewrite length_app; lia). by destruct (fmt_d v).
Qed.

Lemma sscanf_skip_tok d v r f : tok_ok d v ->
  sscanf (DSpace :: f) (32 :: print_tok d v ++ r) = sscanf f (print_tok d v ++ r).
Proof.
  intros Hv. destruct (print_tok_chars d v Hv) as [H Hne]. rewrite sscanf_DSpace. cbn [skip_spaces isspace].
  change (isspace 32) with true. cbn. rewrite skip_spaces_name; [done|done|].
  eapply Forall_impl; [apply H|]. by intros c [].
Qed.

Lemma sscanf_toks ds vs c r : Forall2 tok_ok ds vs -> isspace c = true ->
  sscanf (spaced ds) (print_toks ds vs ++ c :: r) = map VI (stored ds vs).
Proof.
  intros H Hc. induction H as [|d v ds vs Hd H IH]; [done|].
  destruct H as [|d' v' ds vs Hd' H].
  - cbn [print_toks spaced stored]. rewrite sscanf_tok by done. by destruct d.
  - change (spaced (d :: d' :: ds)) with (d :: DSpace :: spaced (d' :: ds)).
    change (print_toks (d :: d' :: ds) (v :: v' :: vs)) with (print_tok d v ++ 32 :: print_toks (d' :: ds) (v' :: vs)).
    rewrite <- app_assoc. cbn [app]. rewrite sscanf_tok by done.
    assert (E : exists s, print_toks (d' :: ds) (v' :: vs) ++ c :: r = print_tok d' v' ++ s).
    { destruct H; cbn [print_toks]; [by eexists|]. rewrite <- app_assoc. by eexists. }
    destruct E as [s E]. rewrite E, sscanf_skip_tok by done. rewrite <- E, IH. by destruct d.
Qed.

Lemma store_scan_other fs vs p f : f ∉ fs -> num (store_scan fs vs p) f = num p f.
Proof.
  revert vs p. induction fs as [|g fs IH]; intros [|[v|t] vs] p Hf; cbn [store_scan]; try done.
  apply not_elem_of_cons in Hf as [H1 H2]. rewrite IH by done. cbn [num set_num]. by rewrite decide_False.
Qed.

Lemma store_scan_str fs vs p : str (store_scan fs vs p) = str p.
Proof. revert vs p. induction fs as [|g fs IH]; intros [|[v|t] vs] p; cbn [store_scan]; try done. by rewrite IH. Qed.

Lemma store_scan_lookup fs vs p i f v : NoDup fs -> fs !! i = Some f -> vs !! i = Some v ->
  num (store_scan fs (map VI vs) p) f = v.
Proof.
  intros Hnd. revert vs p i. induction Hnd as [|g fs Hg _ IH]; intros [|x vs] p [|i] Hf Hv; try done;
    cbn [lookup list_lookup map store_scan] in *.
  - simplify_eq. rewrite store_scan_other by done. cbn [num set_num]. by rewrite decide_True.
  - by apply (IH vs _ i).
Qed.

Lemma stat_fields_nodup : NoDup stat_fields.
Proof. apply (bool_decide_eq_true (NoDup stat_fields)). vm_compute. reflexivity. Qed.

(** ** /proc/#/stat, printed and read back *)

Definition stat_dirs : list directive :=
  [DC; DD; DD; DD; DD; DD; DLU; DLU; DLU; DLU; DLU; DLU; DLU; DLU; DLU; DD; DD; DD; DLU; DLU; DLU; DLU;
   DLU; DLU; DLU; DLU; DLU; DLU; DSkipS; DSkipS; DSkipS; DSkipS; DLU; DSkipU; DSkipU; DD; DD; DD; DD;
   DLU; DLU; DLU].

Definition print_stat (pid : Z) (comm : bytes) (vs : list Z) : bytes :=
  dec pid ++ 32 :: 40 :: comm ++ 41 :: 32 :: print_toks stat_dirs vs ++ [10].

Lemma print_toks_chars ds vs : Forall2 tok_ok ds vs ->
  Forall (fun c => c <> 41 /\ c <> 0) (print_toks ds vs).
Proof.
  induction 1 as [|d v ds vs Hd H IH]; [constructor|]. destruct (print_tok_chars d v Hd) as [Hc _].
  assert (Hc' : Forall (fun c => c <> 41 /\ c <> 0) (print_tok d v))
    by (eapply Forall_impl; [apply Hc|]; by intros c (_ & ? & ?)).
  destruct H as [|d' v' ds vs Hd' H]; [done|].
  change (print_toks (d :: d' :: ds) (v :: v' :: vs)) with (print_tok d v ++ 32 :: print_toks (d' :: ds) (v' :: vs)).
  apply Forall_app. split; [done|]. apply Forall_cons. split; [done|done].
Qed.

Section stat.
Variable cs : bool.
Variable enc : option bytes.

(** Where the name starts and ends. *)
Lemma stat_split pid comm vs junk : 0 <= pid -> Forall (fun c => c <> 0) comm -> Forall2 tok_ok stat_dirs vs ->
  let rest := print_toks stat_dirs vs ++ [10] in
  let s := comm ++ 41 :: 32 :: rest in
  cstr (print_stat pid comm vs ++ 0 :: junk) = Some (print_stat pid comm vs) /\
  strchr (print_stat pid comm vs) 40 = Some (S (length (dec pid))) /\
  drop (S (S (length (dec pid)))) (print_stat pid comm vs) = s /\
  strrchr s 41 = Some (length comm) /\ s !! S (length comm) = Some 32 /\
  take (length comm) s = comm /\ drop (length comm + 2) s = rest.
Proof.
  intros Hp Hc Hv rest s. pose proof (print_toks_chars _ _ Hv) as Hch.
  assert (Hd : Forall (fun c => c <> 0 /\ c <> 40) (dec pid)).
  { eapply Forall_impl; [by apply dec_digits|]. intros c Hi. split; intros ->; done. }
  assert (Hr : Forall (fun c => c <> 41 /\ c <> 0) (32 :: rest)).
  { apply Forall_cons. split; [done|]. apply Forall_app. split; [done|by apply Forall_singleton]. }
  assert (Hs : print_stat pid comm vs = (dec pid ++ [32]) ++ 40 :: s)
    by (unfold print_stat, s, rest; by rewrite <- app_assoc).
  assert (Hl : length (dec pid ++ [32]) = S (length (dec pid))) by (rewrite length_app; cbn; lia).
  split; [|split; [|split; [|split; [|split; [|split]]]]].
  - apply cstr_app. rewrite Hs. apply Forall_app. split.
    + apply Forall_app. split; [eapply Forall_impl; [apply Hd|]; by intros c []|by apply Forall_singleton].
    + apply Forall_cons. split; [done|]. apply Forall_app. split; [done|]. apply Forall_cons. split; [done|].
      eapply Forall_impl; [apply Hr|]. by intros c [].
  - rewrite Hs, strchr_app; [by rewrite Hl|]. apply Forall_app. split; [|by apply Forall_singleton].
    eapply Forall_impl; [apply Hd|]. by intros c [].
  - rewrite Hs, cons_middle, app_assoc. apply drop_app_length'. rewrite length_app, Hl. cbn. lia.
  - apply strrchr_last. eapply Forall_impl; [apply Hr|]. by intros c [].
  - unfold s. rewrite lookup_app_r by lia. by replace (S (length comm) - length comm)%nat with 1%nat by lia.
  - apply take_app_length.
  - unfold s. by rewrite drop_app_add.
Qed.

(** What [stat2proc] makes of a line: the members it prints, and the name unless
    there is one already. *)
Definition stat_result (sw : Z) (comm : bytes) (vs : list Z) (p q : proc_t) : Prop :=
  str q p_cmd = Some (match str p p_cmd with Some c => c | None => Escape.escaped cs sw comm 64 end) /\
  (forall i f v, stat_fields !! i = Some f -> stored stat_dirs vs !! i = Some v ->
     num q f = if decide (f = p_nlwp /\ v = 0) then 1 else v) /\
  (forall f, f ∉ stat_fields -> num q f = num p f).

Lemma stat_stored vs p q : Forall2 tok_ok stat_dirs vs ->
  (forall f, f ∉ stat_fields -> num q f = num p f) ->
  let r := store_scan stat_fields (map VI (stored stat_dirs vs)) q in
  let r' := if num r p_nlwp =? 0 then set_num p_nlwp 1 r else r in
  str r' = str q /\
  (forall i f v, stat_fields !! i = Some f -> stored stat_dirs vs !! i = Some v ->
     num r' f = if decide (f = p_nlwp /\ v = 0) then 1 else v) /\
  (forall f, f ∉ stat_fields -> num r' f = num p f).
Proof.
  intros Hv Hq r r'.
  assert (Hr : forall i f v, stat_fields !! i = Some f -> stored stat_dirs vs !! i = Some v -> num r f = v)
    by (intros; by eapply store_scan_lookup; [apply stat_fields_nodup|..]).
  assert (Ho : forall f, f ∉ stat_fields -> num r f = num p f)
    by (intros f Hf; unfold r; rewrite store_scan_other by done; by apply Hq).
  assert (Hrc : str r = str q) by (unfold r; by rewrite store_scan_str).
  unfold r'. split; [by destruct (num r p_nlwp =? 0)|]. split.
  - intros i f v Hi Hvi. specialize (Hr i f v Hi Hvi). destruct (Z.eqb_spec (num r p_nlwp) 0) as [E|E].
    + cbn [num set_num]. repeat case_decide; intuition congruence.
    + case_decide; intuition congruence.
  - intros f Hf. destruct (num r p_nlwp =? 0); [|by apply Ho]. cbn [num set_num].
    rewrite decide_False; [by apply Ho|]. intros ->. apply Hf. apply (bool_decide_unpack _); by vm_compute.
Qed.

Lemma defaults_other p f : f ∉ stat_fields -> num (stat_defaults p) f = num p f.
Proof.
  intros Hf. cbn [num stat_defaults set_num].
  rewrite !decide_False; try done; intros ->; apply Hf; apply (bool_decide_unpack _); by vm_compute.
Qed.

Lemma stat2proc_line o pid comm vs junk p w :
  memory o -> 0 <= pid -> Forall (fun c => c <> 0) comm ->
  (str p p_cmd = None -> (length comm <= 63)%nat) -> Forall2 tok_ok stat_dirs vs ->
  wp (stat2proc cs enc (print_stat pid comm vs ++ 0 :: junk) p) o w (fun res w' =>
    res.1 = 0 /\ stat_result (Escape.utf_switch (utf_sw (w_g w)) enc) comm vs p res.2 /\ same enc w w').
Proof.
  intros Hm Hp Hc Hl Hv.
  destruct (stat_split pid comm vs junk Hp Hc Hv) as (H1 & H2 & H3 & H4 & H5 & H6 & H7).
  unfold stat2proc. wstep. rewrite H1. apply wp_ret. rewrite H2, H3, H4, H5. wstep.
  change (str (stat_defaults p) p_cmd) with (str p p_cmd). unfold stat_result.
  destruct (str p p_cmd) as [c0|] eqn:Ec.
  - apply wp_ret. cbn [Z.eqb negb]. rewrite H7. change stat_fmt with (spaced stat_dirs).
    rewrite sscanf_toks by done. apply wp_ret. cbn [fst snd].
    destruct (stat_stored vs p (stat_defaults p) Hv (defaults_other p)) as (-> & Hn).
    split; [done|]. split; [by split|apply same_refl].
  - specialize (Hl eq_refl). destruct (Nat.ltb_spec 63 (length comm)); [lia|]. rewrite H6.
    eapply wp_mono; [apply set_cmd_ok; try done; unfold INT_MAX; lia|]. intros res w' [-> Hs].
    cbn [Z.eqb negb]. rewrite H7. change stat_fmt with (spaced stat_dirs).
    rewrite sscanf_toks by done. apply wp_ret. cbn [fst snd].
    set (q := set_str p_cmd _ _).
    destruct (stat_stored vs p q Hv (fun f Hf => defaults_other p f Hf)) as (-> & Hn).
    split; [done|]. split; [by split|done].
Qed.


(** A name of more than 63 bytes in /proc/#/stat overflows the local array
    [raw] of stat2proc. *)
Theorem stat2proc_long_name o pid comm vs junk p w :
  0 <= pid -> Forall (fun c => c <> 0) comm -> (63 < length comm)%nat ->
  Forall2 tok_ok stat_dirs vs -> str p p_cmd = None ->
  stat2proc cs enc (print_stat pid comm vs ++ 0 :: junk) p o w = Undef w.
Proof.
  intros Hp Hc Hl Hv Hcmd.
  destruct (stat_split pid comm vs junk Hp Hc Hv) as (H1 & H2 & H3 & H4 & H5 & H6 & H7).
  unfold stat2proc. cbv zeta. rewrite H1. unfold mbind, M_bind, deref. cbn [mret M_ret].
  rewrite H2, H3, H4, H5. assert (Hd : str (stat_defaults p) p_cmd = None) by done. rewrite Hd.
  by destruct (Nat.ltb_spec 63 (length comm)); [|lia].
Qed.
End stat.

(** ** Witnesses *)

Definition sample_rstate : rstate := RState 0 None None None [] [] [].
Definition sample_world : world rstate := World [] 0 sample_rstate.
Definition sample_os : os := fun _ _ => rok 1.

Lemma sample_memory : memory sample_os.
Proof. by intros t sz. Qed.

Lemma status_hash_perfect_witness :
  bs (hash_line (bs "VmRSS" ++ 58 :: [9])) = bs "VmRSS" <-> exists n, n ∈ status_names /\ bs n = bs "VmRSS".
Proof. apply (status_hash_perfect (bs "VmRSS") [9]); [done|cbn; lia]. Defined.

Definition sample_status : list stline :=
  [LName (bs "java (main)"); LOther (bs "Umask") (bs "0022"); LState 83 (bs " (sleeping)"); LTgid 4321; LPid 4321;
   LPPid 1; LUid 1000 1000 1000 1000; LGid 1000 1000 1000 1000; LGroups [4; 24; 1000];
   LVm ("VmRSS"%string, p_vm_rss) 2 123456; LThreads 42;
   LMask ("SigPnd"%string, p_sigpnd) (bs "0000000000000000"); LMask ("SigCgt"%string, p_sigcatch) (bs "2000000181005ccf")].

Lemma sample_status_ok : Forall stline_ok sample_status.
Proof.
  assert (Hid : Forall is_id [1000; 1000; 1000; 1000]) by (repeat (constructor; [unfold is_id; lia|]); constructor).
  assert (Hgs : Forall is_id [4; 24; 1000]) by (repeat (constructor; [unfold is_id; lia|]); constructor).
  assert (Hk : forall n, n ∈ status_names -> bs n <> bs "Umask").
  { assert (H : forallb (fun n => negb (bool_decide (bs n = bs "Umask"))) status_names = true)
      by (vm_compute; reflexivity).
    rewrite forallb_forall in H. intros n Hn%list_elem_of_In%H. by apply negb_true_iff, bool_decide_eq_false in Hn. }
  repeat (apply Forall_cons; split); [..|constructor]; cbn [stline_ok]; unfold is_pid, INT_MAX, text; try lia; try done.
  - split; [repeat (constructor; [done|]); constructor|cbn; lia].
  - split; [repeat (constructor; [done|]); constructor|]. split; [cbn; lia|].
    split; [done|repeat (constructor; [done|]); constructor].
  - split; [apply (bool_decide_unpack _); by vm_compute|unfold LONG_MAX; lia].
  - split; [apply (bool_decide_unpack _); by vm_compute|]. split; [repeat (constructor; [done|]); constructor|done].
  - split; [apply (bool_decide_unpack _); by vm_compute|]. split; [repeat (constructor; [done|]); constructor|done].
Qed.


Definition sample_stat : list Z :=
  [83; 1; 4321; 4321; 0; -1; 1077936128; 5000; 0; 12; 0; 700; 300; 0; 0; 20; 0; 42; 0; 123456; 5000000000;
   30000; 18446744073709551615; 4194304; 4195000; 140722; 0; 0; 0; 0; 0; 1; 0; 0; 0; 17; 3; 0; 0; 5; 0; 0].

Lemma sample_stat_ok : Forall2 tok_ok stat_dirs sample_stat.
Proof.
  unfold stat_dirs, sample_stat. repeat (constructor; [cbn [tok_ok];
    solve [unfold INT_MIN, INT_MAX, ULONG_MAX; lia | by split]|]). constructor.
Qed.


Lemma stat2proc_long_name_witness :
  stat2proc true None (print_stat 1 (replicate 64 65) sample_stat ++ 0 :: []) proc_zero sample_os sample_world =
  Undef sample_world.
Proof.
  apply (stat2proc_long_name true None sample_os 1 (replicate 64 65) sample_stat [] proc_zero sample_world);
    [lia|by apply Forall_replicate|rewrite length_replicate; lia|apply sample_stat_ok|done].
Defined.

End Procdata.
