(* ===== verification/Procfiles.v ===== *)
(** * procps/linux/readproc.c: reading the files of a process

    [file2str], [file2strvec] and [read_unvectored] with their buffers, and the
    functions that fill the remaining members of [proc_t] from them. *)

From stdpp Require Import base numbers list strings.
From S2P Require Import Prelude Libc Posix Escape Utils Stacks Fetch Procdata.
Open Scope Z_scope.

Module Procfiles.
Import Procdata.

Definition O_RDONLY : Z := 0.
Definition EINTR : Z := 4.
Definition buffGRW : Z := 1024.
Definition ESC_ALL : Z := Escape.ESC_BRACKETS + Escape.ESC_DEFUNCT.

(** [memcpy(buf + off, data, n)]: [None] when it leaves the buffer. *)
Definition blit (buf : bytes) (off : nat) (data : bytes) : option bytes :=
  if (off + length data <=? length buf)%nat
  then Some (take off buf ++ data ++ drop (off + length data) buf) else None.

(** [snprintf(path, PROCPATHLEN, "%s/%s", dir, what)]: [None] when it is cut. *)
Definition join_path (dir what : bytes) : option bytes :=
  let p := dir ++ 47 :: what in
  if PROCPATHLEN <=? Z.of_nat (length p) then None else Some p.

(** ** file2str *)

(** The loop: the buffer and [tot_read], or [None] when growing failed. *)
Fixpoint read_grow (fuel : nat) (fd : Z) (buf : bytes) (tot : Z) : R (option (bytes * Z)) :=
  match fuel with
  | O => nofuel
  | S f =>
      let siz := Z.of_nat (length buf) in
      r ← sys (CRead fd (siz - tot));
      if r_val r <=? 0 then mret (Some (buf, tot)) else
      buf ← deref (blit buf (Z.to_nat tot) (r_data r));
      let tot := tot + r_val r in
      if tot <? siz then mret (Some (buf, tot)) else
      if INT_MAX - buffGRW <=? siz then mret (Some (buf, tot - 1)) else
      m ← sys (CMalloc (siz + buffGRW));
      if r_val m <? 0 then mret None
      else read_grow f fd (buf ++ replicate (Z.to_nat buffGRW) 0) tot
  end.

(** The buffer on entry: emptied, or allocated. *)
Definition ready_ub (ub : utlbuf) : R utlbuf :=
  match ub with
  | Some b => b ← deref (Escape.poke b 0 0); mret (Some b)
  | None =>
      m ← sys (CMalloc buffGRW);
      mret (if r_val m <? 0 then None else Some (replicate (Z.to_nat buffGRW) 0))
  end.

(** The number of bytes read or -1, and the buffer. *)
Definition file2str (fuel : nat) (directory what : bytes) (ub : utlbuf) : R (Z * utlbuf) :=
  b ← ready_ub ub;
  match b with
  | None => mret (-1, None)
  | Some b =>
      match join_path directory what with
      | None => mret (-1, Some b)
      | Some path =>
          fd ← sys (COpen path O_RDONLY 0);
          if r_val fd =? -1 then mret (-1, Some b) else
          r ← read_grow fuel (r_val fd) b 0;
          match r with
          | None => _ ← sys (CClose (r_val fd)); mret (-1, None)
          | Some (b, tot) =>
              b ← deref (Escape.poke b tot 0);
              _ ← sys (CClose (r_val fd));
              mret (if tot <? 1 then -1 else tot, Some b)
          end
      end
  end.

(** ** file2strvec *)

Inductive vread := VAlloc | VRead (n : Z) (rbuf : bytes).

(** The loop, with [rbuf] of [tot] bytes read so far (NULL when empty). *)
Fixpoint vec_read (fuel : nat) (fd : Z) (rbuf : bytes) : R vread :=
  match fuel with
  | O => nofuel
  | S f =>
      r ← sys (CRead fd 2047);
      let n := r_val r in
      let tot := Z.of_nat (length rbuf) in
      if n <? 0 then mret (VRead n rbuf) else
      let eof := n <? 2047 in
      if (n <=? 0) && (tot <=? 0) then mret (VRead n rbuf) else
      let '(eof, n, buf) := if 1908874304 - n <=? tot then (true, 0, []) else (eof, n, r_data r) in
      let open_end := match last buf with
                      | Some c => negb (c =? 0)
                      | None => match last rbuf with Some c => negb (c =? 0) | None => false end
                      end in
      let '(n, buf) := if eof && open_end then (n + 1, buf ++ [0]) else (n, buf) in
      if n <=? 0 then mret (VRead n rbuf) else
      m ← sys (CMalloc (tot + n));
      if r_val m <? 0 then mret VAlloc else
      if eof : bool then mret (VRead n (rbuf ++ buf)) else vec_read f fd (rbuf ++ buf)
  end.

(** The first walk: room [c] for the pointers, and newlines become NULs. *)
Fixpoint count_ptrs (limit c : Z) (b : bytes) : Z * bytes :=
  match b with
  | [] => (c, [])
  | x :: r =>
      if (x =? 0) || (x =? 10) then
        if limit <=? c then (c, b)
        else let '(c', r') := count_ptrs limit (c + 8) r in (c', 0 :: r')
      else let '(c', r') := count_ptrs limit c r in (c', x :: r')
  end.

(** The second walk: the strings the pointers point to; [cur] is the one being
    read. *)
Fixpoint build_ptrs (c : Z) (cur b : bytes) : list bytes :=
  match b with
  | [] => []
  | x :: r =>
      if x =? 0 then
        if c <? 16 then [] else cur :: build_ptrs (c - 8) [] r
      else build_ptrs c (cur ++ [x]) r
  end.

(** The strings of the vector and the size of the block that holds them. *)
Definition strvec (rbuf : bytes) : Z * list bytes :=
  let tot := Z.of_nat (length rbuf) in
  let rbuf := take (length rbuf - 1) rbuf ++ [0] in
  let align := 7 - Z.land (tot + 7) 7 in
  let '(c, b) := count_ptrs (INT_MAX - (tot + 8 + align)) 8 rbuf in
  (tot + c + align, build_ptrs c [] b).

Definition file2strvec (fuel : nat) (directory what : bytes) : R (option (list bytes)) :=
  let path := directory ++ 47 :: what in
  if 2048 <=? Z.of_nat (length path) then mret None else
  fd ← sys (COpen path O_RDONLY 0);
  if r_val fd =? -1 then mret None else
  v ← vec_read fuel (r_val fd) [];
  _ ← sys (CClose (r_val fd));
  match v with
  | VAlloc => mret None
  | VRead n rbuf =>
      if (n <? 0) || (length rbuf =? 0)%nat then mret None else
      let '(size, v) := strvec rbuf in
      m ← sys (CMalloc size);
      mret (if r_val m <? 0 then None else Some v)
  end.

(** ** read_unvectored *)

(** The loop: the buffer and [n]. *)
Fixpoint unvec_read (fuel : nat) (fd : Z) (dst : bytes) (sz n : Z) : R (bytes * Z) :=
  match fuel with
  | O => nofuel
  | S f =>
      r ← sys (CRead fd (sz - n));
      if r_val r =? -1 then
        e ← get_errno;
        if e =? EINTR then unvec_read f fd dst sz n else mret (dst, n)
      else if r_val r <=? 0 then mret (dst, n) else
      dst ← deref (blit dst (Z.to_nat n) (r_data r));
      let n := n + r_val r in
      if n =? sz then mret (dst, n - 1) else unvec_read f fd dst sz n
  end.

(** How many bytes are left without the trailing zeroes. *)
Fixpoint no_zeroes (b : bytes) : nat :=
  match b with
  | [] => 0
  | c :: r => match no_zeroes r with O => if c =? 0 then 0%nat else 1%nat | S k => S (S k) end
  end.

(** The separators put into the [n] bytes read. *)
Definition separate (sep : Z) (b : bytes) : bytes :=
  let k := no_zeroes b in
  let b := map (fun c => if (c =? 10) || (c =? 0) then sep else c) (take k b) ++ drop k b in
  match last b with
  | Some c => if c =? 32 then take (length b - 1) b ++ [0] else b
  | None => b
  end.

Definition read_unvectored (fuel : nat) (dst : bytes) (sz : Z) (whom what : bytes) (sep : Z) : R (Z * bytes) :=
  if sz <=? 0 then mret (0, dst) else
  let sz := if INT_MAX <=? sz then INT_MAX - 1 else sz in
  dst ← deref (Escape.poke dst 0 0);
  match join_path whom what with
  | None => mret (0, dst)
  | Some path =>
      fd ← sys (COpen path O_RDONLY 0);
      if r_val fd =? -1 then mret (0, dst) else
      '(dst, n) ← unvec_read fuel (r_val fd) dst sz 0;
      _ ← sys (CClose (r_val fd));
      let k := Z.to_nat n in
      dst ← deref (Escape.poke (separate sep (take k dst) ++ drop k dst) n 0);
      mret (n, dst)
  end.

(** [vectorize_this_str]: one string. *)
Definition vectorize_this_str (src : bytes) : R (option (list bytes)) :=
  let tot := Z.of_nat (length src) + 1 in
  let tot := if (tot <? 1) || (INT_MAX <=? tot) then INT_MAX - 1 else tot in
  let adj := 7 - Z.land (tot + 7) 7 in
  m ← sys (CMalloc (tot + adj + 16));
  mret (if r_val m <? 0 then None else Some [snprintf tot src]).

Definition vectorize_dash_rc : R (Z * option (list bytes)) :=
  v ← vectorize_this_str (bs "-"); mret (failed v, v).

Section fill.
Variable cs : bool.
Variable enc : option bytes.
Variable getpwuid getgrgid : Z -> option bytes.

(** ** Names of users and groups *)

(** Whether the id is cached already; a miss allocates an entry. *)
Definition hit (h : Pwcache.pwhash) (id : Z) : bool :=
  existsb (fun e => Pwcache.pw_id e =? id) (nth (Z.to_nat (Pwcache.HASH id)) h []).

Definition entry_alloc (h : Pwcache.pwhash) (id : Z) : R bool :=
  if hit h id then mret true else m ← sys (CMalloc 48); mret (0 <=? r_val m).

Definition get_user (uid : Z) : R bytes :=
  g ← getg;
  a ← entry_alloc (users g) uid;
  let '(n, h) := Pwcache.pwcache_get_user getpwuid a (users g) uid in
  _ ← modg (set_users h); mret n.

Definition get_group (gid : Z) : R bytes :=
  g ← getg;
  a ← entry_alloc (groups g) gid;
  let '(n, h) := Pwcache.pwcache_get_group getgrgid a (groups g) gid in
  _ ← modg (set_groups h); mret n.

(** ** Supplementary groups *)

Fixpoint skip_commas (s : bytes) : bytes :=
  match s with c :: r => if c =? 44 then skip_commas r else s | [] => [] end.

(** The loop; [acc] is the text in [supgrp] ([None] for NULL), of which the first
    [t] bytes are kept.  The value is 1 when memory ran out. *)
Fixpoint supgrps_loop (fuel : nat) (s : bytes) (acc : option bytes) (t : Z) : R (Z * option bytes) :=
  match fuel with
  | O => nofuel
  | S f =>
      let max := Pwcache.P_G_SZ + 2 in
      let s := skip_commas s in
      let e := strtol s in
      if negb (st_conv e) then mret (0, acc) else
      g ← get_group (u32 (st_val e));
      let text := take (Z.to_nat t) (default [] acc) in
      if INT_MAX - max <=? t then mret (1, acc) else
      m ← sys (CMalloc (t + max));
      if r_val m <? 0 then mret (1, None) else
      let piece := (if t =? 0 then [] else [44]) ++ g in
      let text := text ++ snprintf max piece in
      match st_rest e with
      | [] => mret (0, Some text)
      | s => supgrps_loop f s (Some text) (Z.of_nat (length text))
      end
  end.

Definition supgrps_from_supgids (fuel : nat) (p : proc_t) : R (Z * proc_t) :=
  '(rc, acc) ← (match str p p_supgid with
                | None => mret (0, str p p_supgrp)
                | Some s => if bool_decide (head s = Some 45) then mret (0, str p p_supgrp)
                            else supgrps_loop fuel s (str p p_supgrp) 0
                end);
  if negb (rc =? 0) then mret (1, set_str p_supgrp acc p) else
  match acc with
  | Some _ => mret (0, set_str p_supgrp acc p)
  | None => d ← strdup (bs "-"); mret (failed d, set_str p_supgrp d p)
  end.

(** ** systemd: not configured *)

Fixpoint dup_all (fs : list sfield) (p : proc_t) : R (Z * proc_t) :=
  match fs with
  | [] => mret (0, p)
  | f :: fs =>
      d ← strdup (bs "?");
      let p := set_str f d p in
      match d with None => mret (1, p) | Some _ => dup_all fs p end
  end.

Definition sd2proc (p : proc_t) : R (Z * proc_t) :=
  dup_all [p_sd_mach; p_sd_ouid; p_sd_seat; p_sd_sess; p_sd_slice; p_sd_unit; p_sd_uunit] p.

(** ** cgroup, cmdline and environ as one string *)

(** The static buffers exist behind [openproc]. *)
Definition take_src : R bytes := g ← getg; deref (src_buffer g).
Definition take_dst : R bytes := g ← getg; deref (dst_buffer g).
Definition put_src (b : bytes) : R unit := modg (set_src (Some b)).
Definition put_dst (b : bytes) : R unit := modg (set_dst (Some b)).

Definition read_src (fuel : nat) (directory what : bytes) (sep : Z) : R Z :=
  b ← take_src;
  '(n, b) ← read_unvectored fuel b MAX_BUFSZ directory what sep;
  _ ← put_src b; mret n.

(** The loop over the lines in [src], [tot] bytes of it left to look at; [d] is
    [dst - dst_buffer]. *)
Fixpoint cgroup_loop (fuel : nat) (src : bytes) (tot : Z) (dst : bytes) (d : Z) : R bytes :=
  match fuel with
  | O => nofuel
  | S f =>
      if tot <=? 0 then mret dst else
      grp ← deref (cstr src);
      match grp with
      | [] => cgroup_loop f (drop 1 src) (tot - 1) dst d
      | _ =>
          let x := Z.of_nat (length grp) in
          let next := cgroup_loop f (drop (length grp) src) (tot - x) in
          if bool_decide (last grp = Some 47) then next dst d else
          let vMAX := MAX_BUFSZ - d in
          if vMAX <=? 1 then mret dst else
          let sep := if 0 <? d then [44] else [] in
          let len := Z.of_nat (length sep) in
          dst ← deref (blit dst (Z.to_nat d) (snprintf vMAX sep ++ [0]));
          if vMAX <=? len then mret dst else
          let d := d + len in
          '(n, tail) ← escape_to cs enc (drop (Z.to_nat d) dst) grp (MAX_BUFSZ - d);
          next (take (Z.to_nat d) dst ++ tail) (d + n)
      end
  end.

Definition fill_cgroup_cvt (fuel : nat) (directory : bytes) (p : proc_t) : R (Z * proc_t) :=
  dst ← take_dst;
  dst ← deref (Escape.poke dst 0 0);
  tot ← read_src fuel directory (bs "cgroup") 0;
  src ← take_src;
  dst ← cgroup_loop fuel src tot dst 0;
  _ ← put_dst dst;
  s ← deref (cstr dst);
  d ← strdup (match s with [] => bs "-" | _ => s end);
  let p := set_str p_cgroup d p in
  match d with
  | None => mret (1, p)
  | Some cg =>
      let name := match strstr cg (bs ":name=") with
                  | Some i => match drop (i + 6) cg with [] => cg | n => n end
                  | None => cg
                  end in
      n ← strdup name;
      mret (failed n, set_str p_cgname n p)
  end.

(** [escape_str(dst_buffer, src_buffer, MAX_BUFSZ)] *)
Definition escape_src (dst : bytes) : R bytes :=
  src ← take_src;
  s ← deref (cstr src);
  '(_, dst) ← escape_to cs enc dst s MAX_BUFSZ; mret dst.

Definition escape_cmd (dst : bytes) (p : proc_t) : R bytes :=
  cmd ← deref (str p p_cmd);
  g ← getg;
  '(_, dst, sw) ← deref (Escape.escape_command cs enc (utf_sw g) dst
                           (Escape.EProc (num p p_state) cmd) MAX_BUFSZ ESC_ALL);
  _ ← modg (set_utf sw); mret dst.

Definition fill_cmdline_cvt (fuel : nat) (directory : bytes) (p : proc_t) : R (Z * proc_t) :=
  n ← read_src fuel directory (bs "cmdline") 32;
  dst ← take_dst;
  dst ← (if negb (n =? 0) then escape_src dst else escape_cmd dst p);
  _ ← put_dst dst;
  s ← deref (cstr dst);
  d ← strdup (match s with [] => bs "?" | _ => s end);
  mret (failed d, set_str p_cmdline d p).

Definition fill_environ_cvt (fuel : nat) (directory : bytes) (p : proc_t) : R (Z * proc_t) :=
  dst ← take_dst;
  dst ← deref (Escape.poke dst 0 0);
  n ← read_src fuel directory (bs "environ") 32;
  dst ← (if negb (n =? 0) then escape_src dst else mret dst);
  _ ← put_dst dst;
  s ← deref (cstr dst);
  d ← strdup (match s with [] => bs "-" | _ => s end);
  mret (failed d, set_str p_environ d p).

(** ** Containers *)

(** The text behind the last delimiter; [p1] starts at a delimiter. *)
Fixpoint lxc_last (fuel : nat) (delim p1 : bytes) : bytes :=
  let p2 := drop (length delim) p1 in
  match fuel with
  | O => p2
  | S f => match strstr p2 delim with None => p2 | Some i => lxc_last f delim (drop i p2) end
  end.

Fixpoint lxc_find (s : bytes) (delims : list bytes) : option (bytes * bytes) :=
  match delims with
  | [] => None
  | d :: r => match strstr s d with Some i => Some (d, drop i s) | None => lxc_find s r end
  end.

(** [strchr(s, c)] and a NUL there. *)
Definition cut_at (s : bytes) (c : Z) : bytes := match strchr s c with Some i => take i s | None => s end.

Definition lxc_delims : list bytes := [bs "lxc.payload."; bs "lxc.payload/"; bs "lxc/"].

(** The names found are kept for reuse.  The NULs put into the buffer are not
    modelled: it is filled anew before the next use. *)
Definition lxc_containers (fuel : nat) (path : bytes) : R bytes :=
  g ← getg;
  '(n, ub) ← file2str fuel path (bs "cgroup") (ub_lxc g);
  _ ← modg (fun g => set_lxc ub (lxc_names g) g);
  if negb (0 <? n) then mret (bs "-") else
  b ← deref ub;
  s ← deref (cstr b);
  match lxc_find s lxc_delims with
  | None => mret (bs "-")
  | Some (delim, p1) =>
      let p1 := cut_at p1 10 in
      let name := cut_at (lxc_last (length p1) delim p1) 47 in
      g ← getg;
      if existsb (streq name) (lxc_names g) then mret name else
      m ← sys (CMalloc 16);
      if r_val m <? 0 then mret (bs "?") else
      d ← strdup name;
      match d with
      | None => mret (bs "?")
      | Some name => _ ← modg (fun g => set_lxc (ub_lxc g) (name :: lxc_names g) g); mret name
      end
  end.

(** ** Small files *)

(** Reading at most 63 bytes of a file, as text. *)
Definition read_small (path : bytes) : R (option bytes) :=
  fd ← sys (COpen (snprintf PROCPATHLEN path) O_RDONLY 0);
  if r_val fd =? -1 then mret None else
  r ← sys (CRead (r_val fd) (PROCPATHLEN - 1));
  _ ← sys (CClose (r_val fd));
  if 0 <? r_val r then s ← deref (cstr (r_data r ++ [0])); mret (Some s) else mret None.

Definition login_uid (path : bytes) : R Z :=
  t ← read_small (path ++ bs "/loginuid");
  mret (match t with Some s => atoi s | None => -1 end).

Definition autogroup_fill (path : bytes) (p : proc_t) : R proc_t :=
  let p := set_num p_autogrp_id (-1) p in
  t ← read_small (path ++ bs "/autogroup");
  mret (match t with
        | Some s => store_scan [p_autogrp_id; p_autogrp_nice]
                      (sscanf (lits "/autogroup-" ++ DD :: DSpace :: lits "nice" ++ [DSpace; DD]) s) p
        | None => p
        end).

Definition readlink_exe (path : bytes) : R (option bytes) :=
  r ← sys (CReadlink (snprintf PROCPATHLEN (path ++ bs "/exe")) (MAX_BUFSZ - 1));
  let n := i32 (r_val r) in
  if 0 <? n then
    src ← take_src;
    src ← deref (blit src 0 (r_data r ++ [0]));
    _ ← put_src src;
    s ← deref (cstr src);
    dst ← take_dst;
    '(_, dst) ← escape_to cs enc dst s MAX_BUFSZ;
    _ ← put_dst dst;
    t ← deref (cstr dst);
    strdup t
  else strdup (bs "-").
End fill.

(** ** A file system behind the calls

    [fs path] is the contents of the file at [path]; a path without one cannot be
    opened. *)

(** The path a descriptor was last opened on and how far it has been read. *)
Fixpoint cursor (fd : Z) (t : trace) : option (bytes * nat) :=
  match t with
  | [] => None
  | (COpen p _ _, r) :: t' => if r_val r =? fd then Some (p, 0%nat) else cursor fd t'
  | (CRead f _, r) :: t' =>
      if f =? fd then '(p, k) ← cursor fd t'; Some (p, (k + Z.to_nat (r_val r))%nat) else cursor fd t'
  | _ :: t' => cursor fd t'
  end.

Class Files (o : os) (fs : bytes -> option bytes) : Prop := {
  fs_open : forall t p, match fs p with
    | Some _ => 0 <= r_val (o t (COpen p O_RDONLY 0))
    | None => r_val (o t (COpen p O_RDONLY 0)) = -1 end;
  fs_read : forall t fd n p k body, 0 <= n -> cursor fd t = Some (p, k) -> fs p = Some body ->
    let d := take (Z.to_nat n) (drop k body) in
    o t (CRead fd n) = rdata (Z.of_nat (length d)) d
}.

Lemma blit_ok buf off d : (off + length d <= length buf)%nat ->
  blit buf off d = Some (take off buf ++ d ++ drop (off + length d) buf).
Proof. intros. unfold blit. by destruct (Nat.leb_spec (off + length d) (length buf)); [|lia]. Qed.

Lemma chunk_split n (l : bytes) : l = take n l ++ drop (length (take n l)) l.
Proof.
  rewrite length_take. destruct (decide (n <= length l)%nat).
  - rewrite Nat.min_l by done. by rewrite take_drop.
  - rewrite Nat.min_r, drop_all, app_nil_r by lia. by rewrite take_ge by lia.
Qed.

Lemma net_read h fd n r t : net h ((CRead fd n, r) :: t) = net h t.
Proof. by destruct h. Qed.
Lemma net_malloc h n r t : net h ((CMalloc n, r) :: t) = net h t.
Proof. by destruct h. Qed.

(** What opening, reading and closing a file again leaves. *)
Lemma net_file h fd r c r' p t : r_val r = fd -> 0 <= fd ->
  net h t = net h ((COpen p O_RDONLY 0, r) :: c) -> net h ((CClose fd, r') :: t) = net h c.
Proof.
  intros Hr Hf E. unfold net in *. cbn [foldr]. rewrite E. destruct h; cbn [effect foldr]; try lia.
  unfold opened, closed. rewrite Hr. rewrite (Z.eqb_sym fd).
  destruct (Z.leb_spec 0 fd); [|lia]. destruct (_ =? _); cbn [andb]; lia.
Qed.

Section reading.
Context (o : os) (fs : bytes -> option bytes) `{!Files o fs}.
Hypothesis Hmem : memory o.

Lemma alloc_ok t n m : m = o t (CMalloc n) -> 0 <= r_val m.
Proof. intros ->. apply Hmem. Qed.

(** The reading loop of [file2str]: [done] is read already. *)
Lemma read_grow_ok fd path body : fs path = Some body -> Z.of_nat (length body) < INT_MAX - buffGRW ->
  forall fuel done rest buf w, body = done ++ rest -> take (length done) buf = done ->
  (length done < length buf)%nat -> cursor fd (w_tr w) = Some (path, length done) ->
  (length rest < fuel)%nat ->
  wp (read_grow fuel fd buf (Z.of_nat (length done))) o w (fun r w' =>
    (exists buf', r = Some (buf', Z.of_nat (length body)) /\ take (length body) buf' = body /\
       (length body < length buf')%nat) /\
    w_g w' = w_g w /\ forall h, net h (w_tr w') = net h (w_tr w)).
Proof.
  intros Hfs Hlen. induction fuel as [|f IH]; intros dn rest buf w Hb Ht Hl Hc Hf; [lia|].
  cbn [read_grow]. wstep. wsys r Hr.
  rewrite (fs_read _ fd _ path (length dn) body) in Hr by (lia || done).
  rewrite Hb, drop_app_length in Hr.
  replace (Z.to_nat (Z.of_nat (length buf) - Z.of_nat (length dn))) with (length buf - length dn)%nat in Hr by lia.
  set (d := take (length buf - length dn) rest) in *. subst r. cbn [r_val r_data rdata].
  assert (Hd : length d = Nat.min (length buf - length dn) (length rest)) by apply length_take.
  assert (Hbl : length body = (length dn + length rest)%nat) by (rewrite Hb; apply length_app).
  destruct (Z.leb_spec (Z.of_nat (length d)) 0).
  { assert (rest = []) as -> by (destruct rest; [done|cbn [length] in *; lia]).
    rewrite app_nil_r in Hb. subst dn. apply wp_ret. split; [by exists buf|]. split; [done|].
    intros h. apply net_read. }
  wstep. rewrite Nat2Z.id, blit_ok by lia. apply wp_ret. rewrite Ht.
  destruct (Z.ltb_spec (Z.of_nat (length dn) + Z.of_nat (length d)) (Z.of_nat (length buf))).
  { assert (d = rest) as Hdr by (apply take_ge; lia). apply wp_ret.
    rewrite Hdr in *. split; [|split; [done|intros h; apply net_read]].
    eexists. split; [f_equal; f_equal; lia|].
    rewrite app_assoc, <- Hb, !length_app, length_drop. split; [apply take_app_length|lia]. }
  destruct (Z.leb_spec (INT_MAX - buffGRW) (Z.of_nat (length buf))); [lia|].
  wstep. wsys m Hm. pose proof (alloc_ok _ _ _ Hm).
  destruct (Z.ltb_spec (r_val m) 0); [lia|].
  replace (Z.of_nat (length dn) + Z.of_nat (length d)) with (Z.of_nat (length (dn ++ d))) by (rewrite length_app; lia).
  eapply wp_mono; [apply (IH (dn ++ d) (drop (length d) rest))|].
  - rewrite Hb, <- app_assoc. f_equal. apply chunk_split.
  - rewrite <- !app_assoc, app_assoc. apply take_app_length.
  - rewrite !length_app, length_drop, length_replicate. unfold buffGRW. lia.
  - cbn [w_tr cursor]. rewrite Z.eqb_refl. rewrite Hc. cbn. rewrite Nat2Z.id, length_app. done.
  - rewrite length_drop. lia.
  - intros a w' (Ha & Hg & Hn). split; [done|]. split; [by rewrite Hg|]. intros h. rewrite Hn.
    cbn [w_tr]. by rewrite net_malloc, net_read.
Qed.

(** A buffer as the callers keep it: absent, or of at least one byte. *)
Definition ub_ok (ub : utlbuf) : Prop := match ub with Some b => b <> [] | None => True end.

Lemma ub_ready ub w : ub_ok ub ->
  wp (ready_ub ub) o w (fun r w' => (exists b, r = Some (0 :: b)) /\ w_g w' = w_g w /\
    (forall h, net h (w_tr w') = net h (w_tr w))).
Proof.
  intros Hu. destruct ub as [b|]; cbn [ready_ub].
  - destruct b as [|c b]; [done|]. wstep. rewrite Escape.poke_head by (cbn; lia). apply wp_ret. apply wp_ret.
    split; [by eexists|done].
  - wstep. wsys m Hm. pose proof (alloc_ok _ _ _ Hm). destruct (Z.ltb_spec (r_val m) 0); [lia|]. apply wp_ret.
    split; [by exists (replicate 1023 0)|]. split; [done|]. intros h. apply net_malloc.
Qed.

(** [file2str] on a file: its length, and the buffer holds its bytes, ended. *)
Lemma file2str_file fuel dir what path body ub w :
  ub_ok ub -> join_path dir what = Some path -> fs path = Some body ->
  Z.of_nat (length body) < INT_MAX - buffGRW -> (length body < fuel)%nat ->
  wp (file2str fuel dir what ub) o w (fun r w' =>
    (exists tl, r = (if Z.of_nat (length body) <? 1 then -1 else Z.of_nat (length body), Some (body ++ 0 :: tl))) /\
    w_g w' = w_g w /\ forall h, net h (w_tr w') = net h (w_tr w)).
Proof.
  intros Hu Hj Hfs Hl Hf. unfold file2str. wstep. eapply wp_mono; [by apply ub_ready|].
  intros r w1 ((b & ->) & Hg1 & Hn1). rewrite Hj. wstep. wsys fd Hfd.
  pose proof (fs_open (w_tr w1) path) as Ho. rewrite Hfs, <- Hfd in Ho.
  destruct (Z.eqb_spec (r_val fd) (-1)); [lia|]. wstep.
  eapply wp_mono; [apply (read_grow_ok (r_val fd) path body Hfs Hl fuel [] body)|]; try done.
  - cbn. lia.
  - cbn [w_tr cursor]. by rewrite Z.eqb_refl.
  - intros a w2 ((b' & -> & Ht & Hl') & Hg2 & Hn2). wstep.
    assert (Hb' : b' = body ++ drop (length body) b') by (rewrite <- Ht at 1; by rewrite take_drop).
    destruct (drop (length body) b') as [|x tl] eqn:Ed; [apply (f_equal length) in Ed; rewrite length_drop in Ed; cbn in Ed; lia|].
    rewrite Hb', Escape.poke_middle. apply wp_ret. wstep. wsys c Hc. apply wp_ret.
    split; [by exists tl|]. split; [cbn [w_g] in *; congruence|]. intros h.
    cbn [w_tr]. erewrite net_file; [apply Hn1|done|done|apply Hn2].
Qed.

Lemma file2str_none fuel dir what path ub w :
  ub_ok ub -> join_path dir what = Some path -> fs path = None ->
  wp (file2str fuel dir what ub) o w (fun r w' =>
    (exists tl, r = (-1, Some (0 :: tl))) /\
    w_g w' = w_g w /\ forall h, 0 <= handle_val h -> net h (w_tr w') = net h (w_tr w)).
Proof.
  intros Hu Hj Hfs. unfold file2str. wstep. eapply wp_mono; [by apply ub_ready|].
  intros r w1 ((b & ->) & Hg1 & Hn1). rewrite Hj. wstep. wsys fd Hfd.
  pose proof (fs_open (w_tr w1) path) as Ho. rewrite Hfs, <- Hfd in Ho. rewrite Ho, Z.eqb_refl.
  apply wp_ret. split; [by exists b|]. split; [done|]. intros h Hh. unfold net in *. cbn [w_tr foldr].
  rewrite Hn1. destruct h; cbn [effect handle_val] in *; unfold opened; rewrite ?Ho; cbn; lia.
Qed.

(** The reading loop of [file2strvec]: the file, ended by a NUL. *)
Definition ended (b : bytes) : bytes := if bool_decide (last b = Some 0) then b else b ++ [0].

Lemma last_read (a b : bytes) : last (a ++ b) = match last b with Some c => Some c | None => last a end.
Proof. rewrite last_app. by destruct (last b). Qed.

Lemma open_end_last (a b : bytes) : a ++ b <> [] ->
  match last b with
  | Some c => negb (c =? 0)
  | None => match last a with Some c => negb (c =? 0) | None => false end
  end = bool_decide (last (a ++ b) <> Some 0).
Proof.
  intros Hne. rewrite last_read. symmetry. destruct (last b) as [c|] eqn:Eb; [|destruct (last a) as [c|] eqn:Ea].
  1,2: destruct (Z.eqb_spec c 0); [apply bool_decide_eq_false|apply bool_decide_eq_true]; naive_solver.
  apply last_None in Ea, Eb. naive_solver.
Qed.

Lemma vec_read_ok fd path body : fs path = Some body -> body <> [] ->
  Z.of_nat (length body) < 1908872000 ->
  forall fuel dn rest w, body = dn ++ rest -> (dn = [] -> rest <> []) ->
  cursor fd (w_tr w) = Some (path, length dn) -> (length rest < fuel)%nat ->
  wp (vec_read fuel fd dn) o w (fun r w' =>
    (exists n, 0 <= n /\ r = VRead n (ended body)) /\
    w_g w' = w_g w /\ forall h, net h (w_tr w') = net h (w_tr w)).
Proof.
  intros Hfs Hne Hlen. induction fuel as [|f IH]; intros dn rest w Hb Hd0 Hc Hf; [lia|].
  cbn [vec_read]. wstep. wsys r Hr.
  rewrite (fs_read _ fd _ path (length dn) body) in Hr by (lia || done).
  rewrite Hb, drop_app_length in Hr. change (Z.to_nat 2047) with 2047%nat in Hr.
  set (d := take 2047 rest) in *. subst r. cbn [r_val r_data rdata].
  assert (Hd : length d = Nat.min 2047 (length rest)) by apply length_take.
  assert (Hbl : length body = (length dn + length rest)%nat) by (rewrite Hb; apply length_app).
  destruct (Z.ltb_spec (Z.of_nat (length d)) 0); [lia|].
  replace ((Z.of_nat (length d) <=? 0) && (Z.of_nat (length dn) <=? 0)) with false.
  2:{ symmetry. apply andb_false_iff. destruct dn; [left|right]; apply Z.leb_gt; [|cbn [length]; lia].
      destruct rest; [by specialize (Hd0 eq_refl)|cbn [length] in *; lia]. }
  destruct (Z.leb_spec (1908874304 - Z.of_nat (length d)) (Z.of_nat (length dn))); [lia|].
  destruct (Z.ltb_spec (Z.of_nat (length d)) 2047) as [Hs|Hs].
  - assert (d = rest) as Hdr by (apply take_ge; lia). rewrite Hdr in *. cbn [andb].
    rewrite (open_end_last dn rest), <- Hb by (rewrite <- Hb; done). unfold ended. case_bool_decide as H1; case_bool_decide as H2; try done; try tauto.
    + destruct (Z.leb_spec (Z.of_nat (length rest) + 1) 0); [lia|].
      wstep. wsys m Hm. pose proof (alloc_ok _ _ _ Hm). destruct (Z.ltb_spec (r_val m) 0); [lia|].
      apply wp_ret. split; [eexists; split; [|rewrite Hb, <- app_assoc; reflexivity]; lia|].
      split; [done|]. intros h. cbn [w_tr]. by rewrite net_malloc, net_read.
    + destruct (Z.leb_spec (Z.of_nat (length rest)) 0) as [Hz|Hz].
      * assert (rest = []) as Hrn by (destruct rest; [done|cbn [length] in *; lia]).
        apply wp_ret. split; [|split; [done|intros h; apply net_read]].
        rewrite Hb, Hrn, app_nil_r. eexists. split; [|reflexivity]. lia.
      * wstep. wsys m Hm. pose proof (alloc_ok _ _ _ Hm). destruct (Z.ltb_spec (r_val m) 0); [lia|].
        apply wp_ret. split; [eexists; split; [|rewrite Hb; reflexivity]; lia|].
        split; [done|]. intros h. cbn [w_tr]. by rewrite net_malloc, net_read.
  - cbn [andb]. destruct (Z.leb_spec (Z.of_nat (length d)) 0); [lia|].
    wstep. wsys m Hm. pose proof (alloc_ok _ _ _ Hm). destruct (Z.ltb_spec (r_val m) 0); [lia|].
    eapply wp_mono; [apply (IH (dn ++ d) (drop 2047 rest))|].
    + rewrite Hb, <- app_assoc. f_equal. symmetry. apply take_drop.
    + intros [_ Hd']%app_nil. rewrite Hd' in Hs. cbn in Hs. lia.
    + cbn [w_tr cursor]. rewrite Z.eqb_refl, Hc. cbn. by rewrite Nat2Z.id, length_app.
    + rewrite length_drop. lia.
    + intros a w' (Ha & Hg & Hn). split; [done|]. split; [by rewrite Hg|]. intros h. rewrite Hn.
      cbn [w_tr]. by rewrite net_malloc, net_read.
Qed.

(** Strings with the bytes that end them. *)
Definition joined (l : list (bytes * Z)) : bytes := concat (map (fun '(a, c) => a ++ [c]) l).

Lemma count_ptrs_joined limit l : Forall (fun '(a, c) => text a /\ (c = 0 \/ c = 10)) l -> forall c0,
  c0 + 8 * Z.of_nat (length l) <= limit ->
  count_ptrs limit c0 (joined l) = (c0 + 8 * Z.of_nat (length l), joined (map (fun '(a, _) => (a, 0)) l)).
Proof.
  induction 1 as [|[a c] l [Ha Hc] _ IH]; intros c0 Hl; [cbn; f_equal; lia|].
  unfold joined in *. cbn [map concat]. cbn [length] in Hl. rewrite <- !app_assoc.
  induction Ha as [|x a [Hx0 Hx1] _ IHa]; cbn [app count_ptrs] in *.
  - replace ((c =? 0) || (c =? 10)) with true by (destruct Hc as [-> | ->]; done).
    destruct (Z.leb_spec limit c0); [lia|]. rewrite IH by lia. cbn [length]. f_equal. lia.
  - destruct (Z.eqb_spec x 0); [done|]. destruct (Z.eqb_spec x 10); [done|]. cbn [orb]. by rewrite IHa.
Qed.

Lemma build_ptrs_joined l : Forall text l -> forall c cur, 16 + 8 * (Z.of_nat (length l) - 1) <= c ->
  build_ptrs c cur (joined (map (fun a => (a, 0)) l)) =
  match l with [] => [] | a :: l => (cur ++ a) :: l end.
Proof.
  induction 1 as [|a l Ha Hl IH]; intros c cur Hc; [done|].
  unfold joined in *. cbn [map concat]. rewrite <- app_assoc. cbn [length] in Hc.
  revert cur. induction Ha as [|x a [Hx _] _ IHa]; intros cur; cbn [app build_ptrs] in *.
  - cbn. destruct (Z.ltb_spec c 16); [lia|]. rewrite app_nil_r. f_equal.
    rewrite IH by lia. by destruct l.
  - destruct (Z.eqb_spec x 0); [done|]. rewrite IHa. by rewrite <- app_assoc.
Qed.

Lemma joined_last l : last (joined l) = snd <$> last l.
Proof.
  induction l as [|[a c] l IH] using rev_ind; [done|]. unfold joined.
  rewrite map_app, concat_app, last_snoc. cbn [map concat]. rewrite app_nil_r, app_assoc. by rewrite last_snoc.
Qed.

Lemma joined_length l : (length l <= length (joined l))%nat.
Proof.
  induction l as [|[a c] l IH]; [done|]. unfold joined in *. cbn [map concat length].
  rewrite !length_app. cbn [length]. lia.
Qed.

(** The vector of a file whose strings end in NULs or newlines. *)
Lemma strvec_joined l : Forall (fun '(a, c) => text a /\ (c = 0 \/ c = 10)) l -> snd <$> last l = Some 0 ->
  9 * Z.of_nat (length (joined l)) < INT_MAX - 32 -> exists sz, strvec (joined l) = (sz, map fst l).
Proof.
  intros Hl Hlast Hb. unfold strvec. pose proof (joined_length l).
  rewrite <- joined_last in Hlast. apply last_Some in Hlast as (b & Hb').
  assert (E : take (length (joined l) - 1) (joined l) ++ [0] = joined l).
  { rewrite Hb', length_app. cbn [length]. by rewrite Nat.add_sub, take_app_length. }
  rewrite E.
  pose proof (Z.land_nonneg (Z.of_nat (length (joined l)) + 7) 7) as Hn.
  assert (0 <= Z.land (Z.of_nat (length (joined l)) + 7) 7) by (apply Hn; lia).
  rewrite count_ptrs_joined by (done || lia). eexists. f_equal.
  replace (map (fun '(a, _) => (a, 0)) l) with (map (fun a : bytes => (a, 0)) (map fst l))
    by (rewrite map_map; apply map_ext; by intros [? ?]).
  rewrite build_ptrs_joined.
  - by destruct l as [|[? ?] ?].
  - apply Forall_map. eapply Forall_impl; [apply Hl|]. by intros [? ?] [? _].
  - rewrite length_map. lia.
Qed.

Lemma ended_nonempty b : b <> [] -> ended b <> [].
Proof. unfold ended. case_bool_decide; [done|]. by destruct b. Qed.

Lemma ended_last b : last (ended b) = Some 0.
Proof. unfold ended. case_bool_decide; [done|]. by rewrite last_snoc. Qed.

Lemma ended_length b : (length b <= length (ended b) <= length b + 1)%nat.
Proof. unfold ended. case_bool_decide; [|rewrite length_app; cbn [length]]; lia. Qed.

(** [file2strvec] on a file of strings, each ended by a NUL or a newline and
    the last one possibly by the end of the file, is the vector of these
    strings; the file is closed again. *)
Theorem file2strvec_strings fuel dir what body l w :
  Z.of_nat (length (dir ++ 47 :: what)) < 2048 -> fs (dir ++ 47 :: what) = Some body -> body <> [] ->
  ended body = joined l -> Forall (fun '(a, c) => text a /\ (c = 0 \/ c = 10)) l ->
  9 * Z.of_nat (length body) < INT_MAX - 64 -> (length body < fuel)%nat ->
  wp (file2strvec fuel dir what) o w (fun r w' =>
    r = Some (map fst l) /\ w_g w' = w_g w /\ forall h, net h (w_tr w') = net h (w_tr w)).
Proof.
  intros Hp Hfs Hne He Hl Hb Hf. unfold file2strvec.
  destruct (Z.leb_spec 2048 (Z.of_nat (length (dir ++ 47 :: what)))); [lia|].
  wstep. wsys fd Hfd. pose proof (fs_open (w_tr w) (dir ++ 47 :: what)) as Ho.
  rewrite Hfs, <- Hfd in Ho. destruct (Z.eqb_spec (r_val fd) (-1)); [lia|]. wstep.
  eapply wp_mono; [eapply (vec_read_ok (r_val fd) _ body Hfs Hne) with (dn := [])|]; try done.
  { unfold INT_MAX in Hb. lia. }
  { cbn [w_tr cursor]. by rewrite Z.eqb_refl. }
  intros a w1 ((k & Hk & ->) & Hg & Hnet). wstep. wsys c Hc. destruct (Z.ltb_spec k 0); [lia|]. cbn [orb].
  pose proof (ended_nonempty body Hne). pose proof (ended_length body).
  destruct (Nat.eqb_spec (length (ended body)) 0) as [E|_]; [by destruct (ended body)|].
  rewrite He. destruct (strvec_joined l Hl) as (sz & ->).
  { rewrite <- joined_last, <- He. apply ended_last. }
  { rewrite <- He. unfold INT_MAX in *. lia. }
  wstep. wsys m Hm. pose proof (alloc_ok _ _ _ Hm). destruct (Z.ltb_spec (r_val m) 0); [lia|].
  apply wp_ret. split; [done|]. split; [by rewrite Hg|]. intros h. cbn [w_tr]. rewrite net_malloc.
  by erewrite net_file; [|done|done|apply Hnet].
Qed.

(** The loop of [read_unvectored]: as much of the file as there is room for. *)
Lemma unvec_read_ok fd path body sz : fs path = Some body ->
  forall fuel dn rest dst w, body = dn ++ rest -> take (length dn) dst = dn ->
  Z.of_nat (length dn) < sz <= Z.of_nat (length dst) -> cursor fd (w_tr w) = Some (path, length dn) ->
  (length rest < fuel)%nat ->
  wp (unvec_read fuel fd dst sz (Z.of_nat (length dn))) o w (fun r w' =>
    let n := Z.min (Z.of_nat (length body)) (sz - 1) in
    (exists dst', r = (dst', n) /\ take (Z.to_nat n) dst' = take (Z.to_nat n) body /\ length dst' = length dst) /\
    w_g w' = w_g w /\ forall h, net h (w_tr w') = net h (w_tr w)).
Proof.
  intros Hfs. induction fuel as [|f IH]; intros dn rest dst w Hb Ht Hl Hc Hf; [lia|].
  cbn [unvec_read]. wstep. wsys r Hr.
  rewrite (fs_read _ fd _ path (length dn) body) in Hr by (lia || done).
  rewrite Hb, drop_app_length in Hr. set (d := take (Z.to_nat (sz - Z.of_nat (length dn))) rest) in *.
  subst r. cbn [r_val r_data rdata].
  assert (Hd : length d = Nat.min (Z.to_nat (sz - Z.of_nat (length dn))) (length rest)) by apply length_take.
  assert (Hbl : length body = (length dn + length rest)%nat) by (rewrite Hb; apply length_app).
  destruct (Z.eqb_spec (Z.of_nat (length d)) (-1)); [lia|].
  destruct (Z.leb_spec (Z.of_nat (length d)) 0).
  { assert (rest = []) as -> by (destruct rest; [done|cbn [length] in *; lia]).
    rewrite app_nil_r in Hb. subst dn. apply wp_ret. split; [|split; [done|intros h; apply net_read]].
    exists dst. rewrite Z.min_l by lia. rewrite Nat2Z.id, Ht. by rewrite take_ge by lia. }
  wstep. rewrite Nat2Z.id, blit_ok by lia. apply wp_ret. rewrite Ht.
  replace (Z.of_nat (length dn) + Z.of_nat (length d)) with (Z.of_nat (length (dn ++ d))) by (rewrite length_app; lia).
  set (dst' := dn ++ d ++ drop (length dn + length d) dst).
  assert (Hl' : length dst' = length dst) by (subst dst'; rewrite !length_app, length_drop; lia).
  assert (Ht' : take (length (dn ++ d)) dst' = dn ++ d) by (subst dst'; rewrite app_assoc; apply take_app_length).
  pose proof (chunk_split (Z.to_nat (sz - Z.of_nat (length dn))) rest) as Hdr. fold d in Hdr.
  destruct (Z.eqb_spec (Z.of_nat (length (dn ++ d))) sz) as [E|E].
  { apply wp_ret. split; [|split; [done|intros h; apply net_read]]. exists dst'.
    rewrite Z.min_r by (rewrite length_app in *; lia). rewrite E. split; [done|]. split; [|done].
    assert (Htk : forall l : bytes, take (Z.to_nat (sz - 1)) l = take (Z.to_nat (sz - 1)) (take (length (dn ++ d)) l))
      by (intros l; rewrite take_take; f_equal; lia).
    rewrite Htk, Ht', (Htk body), Hb.
    replace (dn ++ rest) with ((dn ++ d) ++ drop (length d) rest) by (rewrite <- app_assoc; by f_equal).
    by rewrite take_app_length. }
  eapply wp_mono; [apply (IH (dn ++ d) (drop (length d) rest) dst')|].
  - rewrite Hb, <- app_assoc. by f_equal.
  - done.
  - rewrite length_app in *. lia.
  - cbn [w_tr cursor]. rewrite Z.eqb_refl, Hc. cbn. by rewrite Nat2Z.id, length_app.
  - rewrite length_drop. lia.
  - cbn zeta. rewrite Hl'. intros a w' (Ha & Hg & Hn). split; [done|]. split; [by rewrite Hg|].
    intros h. rewrite Hn. apply net_read.
Qed.

Lemma separate_length sep b : length (separate sep b) = length b.
Proof.
  unfold separate. set (k := no_zeroes b).
  assert (Hk : length (map (fun c => if (c =? 10) || (c =? 0) then sep else c) (take k b) ++ drop k b) = length b)
    by (rewrite length_app, length_map, <- length_app; by rewrite take_drop).
  destruct (last _) as [c|] eqn:E; [|done]. destruct (c =? 32); [|done].
  apply last_Some in E as (l & E). rewrite E in Hk |- *. rewrite !length_app in *. cbn [length] in *.
  rewrite length_take, length_app. cbn [length]. lia.
Qed.

(** [read_unvectored] on a file: the bytes read, with the separators, then a NUL. *)
Lemma read_unvectored_file fuel dst sz dir what path body sep w :
  join_path dir what = Some path -> fs path = Some body ->
  0 < sz < INT_MAX -> sz <= Z.of_nat (length dst) -> (length body < fuel)%nat ->
  wp (read_unvectored fuel dst sz dir what sep) o w (fun r w' =>
    let n := Z.min (Z.of_nat (length body)) (sz - 1) in
    (exists tl, r = (n, separate sep (take (Z.to_nat n) body) ++ 0 :: tl) /\
       length (r.2) = length dst) /\
    w_g w' = w_g w /\ forall h, net h (w_tr w') = net h (w_tr w)).
Proof.
  intros Hj Hfs Hsz Hdst Hf. unfold read_unvectored.
  destruct (Z.leb_spec sz 0); [lia|]. destruct (Z.leb_spec INT_MAX sz); [lia|].
  wstep. rewrite Escape.poke_head by lia. apply wp_ret. rewrite Hj. wstep. wsys fd Hfd.
  pose proof (fs_open (w_tr w) path) as Ho. rewrite Hfs, <- Hfd in Ho.
  destruct (Z.eqb_spec (r_val fd) (-1)) as [?|_]; [lia|]. wstep.
  assert (Hdl : length (0 :: drop 1 dst) = length dst) by (cbn [length]; rewrite length_drop; lia).
  eapply wp_mono; [eapply (unvec_read_ok (r_val fd) path body sz Hfs fuel [] body); try done|].
  { cbn [length] in *. lia. }
  { cbn [w_tr cursor]. by rewrite Z.eqb_refl. }
  cbn zeta. rewrite Hdl. set (n := Z.min _ _).
  intros a w1 ((dst' & -> & Ht & Hl) & Hg & Hn). wstep. wsys c Hc. wstep.
  assert (Hsl : length (separate sep (take (Z.to_nat n) dst')) = Z.to_nat n)
    by (rewrite separate_length, length_take; lia).
  destruct (drop (Z.to_nat n) dst') as [|x tl] eqn:Ed.
  { apply (f_equal length) in Ed. rewrite length_drop in Ed. cbn [length] in Ed. lia. }
  assert (Hn0 : n = Z.of_nat (length (separate sep (take (Z.to_nat n) dst')))) by lia.
  replace (Escape.poke (separate sep (take (Z.to_nat n) dst') ++ x :: tl) n 0)
    with (Some (separate sep (take (Z.to_nat n) dst') ++ 0 :: tl))
    by (symmetry; rewrite Hn0 at 2; apply Escape.poke_middle).
  apply wp_ret. apply wp_ret. split.
  { exists tl. rewrite Ht. split; [done|]. cbn [snd]. rewrite <- Ht, length_app, Hsl. cbn [length].
    apply (f_equal length) in Ed. rewrite length_drop in Ed. cbn [length] in Ed. lia. }
  split; [by rewrite Hg|]. intros h. cbn [w_tr]. by erewrite net_file; [|done|done|apply Hn].
Qed.
End reading.

(** ** Strings with separators between them *)

Fixpoint sjoin (sep : Z) (args : list bytes) : bytes :=
  match args with
  | [] => []
  | [a] => a
  | a :: r => a ++ sep :: sjoin sep r
  end.

(** Arguments as a process has them: the last one is not empty. *)
Definition args_ok (args : list bytes) : Prop :=
  Forall text args /\ exists a, last args = Some a /\ a <> [].

Definition nul_ended (args : list bytes) : bytes := joined (map (fun a => (a, 0)) args).

Lemma nul_ended_sjoin args : args <> [] -> nul_ended args = sjoin 0 args ++ [0].
Proof.
  unfold nul_ended, joined. induction args as [|a [|b r] IH]; [done| |]; intros _.
  - cbn. by rewrite app_nil_r.
  - cbn [map concat sjoin] in *. rewrite IH by done. by rewrite <- !app_assoc.
Qed.

Lemma sjoin_last sep args a : last args = Some a -> a <> [] -> last (sjoin sep args) = last a.
Proof.
  intros Ha Hn. induction args as [|b [|c r] IH]; [done|cbn in *; by simplify_eq|].
  change (sjoin sep (b :: c :: r)) with (b ++ sep :: sjoin sep (c :: r)).
  rewrite last_app_cons, last_cons, IH by done. destruct (last a) eqn:E; [done|]. by apply last_None in E.
Qed.

Lemma sjoin_map sep args : Forall text args ->
  map (fun c => if (c =? 10) || (c =? 0) then sep else c) (sjoin 0 args) = sjoin sep args.
Proof.
  assert (Ht : forall a, text a -> map (fun c => if (c =? 10) || (c =? 0) then sep else c) a = a).
  { intros a Ha. rewrite <- (map_id a) at 2. apply map_ext_Forall. eapply Forall_impl; [apply Ha|].
    intros c [? ?]. destruct (Z.eqb_spec c 10), (Z.eqb_spec c 0); done. }
  induction 1 as [|a [|b r] Ha Hr IH]; [done|by apply Ht|].
  change (sjoin ?s (a :: b :: r)) with (a ++ s :: sjoin s (b :: r)).
  rewrite map_app, map_cons, IH, Ht by done. done.
Qed.

Lemma no_zeroes_snoc b c : c <> 0 -> no_zeroes (b ++ [c]) = S (length b).
Proof.
  intros Hc. induction b as [|x b IH]; cbn [app no_zeroes]; [by destruct (Z.eqb_spec c 0)|].
  by rewrite IH.
Qed.

Lemma no_zeroes_zero b : no_zeroes (b ++ [0]) = no_zeroes b.
Proof. induction b as [|x b IH]; cbn [app no_zeroes]; [done|]. by rewrite IH. Qed.

Lemma sjoin_text sep args : sep <> 0 -> Forall text args -> Forall (fun c => c <> 0) (sjoin sep args).
Proof.
  intros Hs. induction 1 as [|a [|b r] Ha Hr IH]; [constructor|by apply text_nonul|].
  change (sjoin sep (a :: b :: r)) with (a ++ sep :: sjoin sep (b :: r)).
  apply Forall_app. split; [by apply text_nonul|]. by constructor.
Qed.

(** The separators end up between the arguments. *)
Lemma separate_args sep args : args_ok args ->
  separate sep (nul_ended args) = sjoin sep args ++ [0].
Proof.
  intros (Ht & a & Ha & Hn). assert (args <> []) by by intros ->.
  rewrite nul_ended_sjoin by done. unfold separate.
  assert (Hk : no_zeroes (sjoin 0 args ++ [0]) = length (sjoin 0 args)).
  { rewrite no_zeroes_zero. destruct (last a) as [c|] eqn:E; [|by apply last_None in E].
    pose proof (sjoin_last 0 args a Ha Hn) as Hl. rewrite E in Hl.
    apply last_Some in Hl as (l & ->). rewrite no_zeroes_snoc; [rewrite length_app; cbn; lia|].
    assert (Hta : text a) by (apply (proj1 (Forall_forall _ _) Ht); by apply last_Some_elem_of).
    apply last_Some in E as (l' & ->). apply Forall_app in Hta as [_ Hta]. by inversion Hta as [|? ? [? ?]]. }
  rewrite Hk, take_app_length, drop_app_length, sjoin_map by done. rewrite last_snoc. done.
Qed.

Lemma sjoin_length sep args : args <> [] -> length (sjoin sep args) = (length (nul_ended args) - 1)%nat.
Proof.
  intros Hn. rewrite nul_ended_sjoin, length_app by done. cbn [length]. rewrite Nat.add_sub. clear Hn.
  induction args as [|a [|b r] IH]; [done|done|].
  change (sjoin ?s (a :: b :: r)) with (a ++ s :: sjoin s (b :: r)). rewrite !length_app. cbn [length].
  by rewrite IH.
Qed.

(** ** The command line *)

(** The buffers [openproc] allocated. *)
Definition buffer_ok (b : option bytes) : Prop := exists s, b = Some s /\ length s = Z.to_nat MAX_BUFSZ.

Definition bufs_ok (g : rstate) : Prop := buffer_ok (src_buffer g) /\ buffer_ok (dst_buffer g).

Section cmdline.
Context (cs : bool) (enc : option bytes) (o : os) (fs : bytes -> option bytes) `{!Files o fs}.
Hypothesis Hmem : memory o.

Lemma getg_ok (w : world rstate) Q : Q (w_g w) w -> wp getg o w Q.
Proof. done. Qed.

Lemma modg_ok (f : rstate -> rstate) (w : world rstate) Q :
  Q tt (World (w_tr w) (w_errno w) (f (w_g w))) -> wp (modg f) o w Q.
Proof. done. Qed.

Lemma escape_to_ok dst src size w Q : Forall (fun c => c <> 0) src -> Z.of_nat (length src) <= INT_MAX ->
  0 < size < INT_MAX -> size <= Z.of_nat (length dst) ->
  (let sw := Escape.utf_switch (utf_sw (w_g w)) enc in
   let t := Escape.escaped cs sw src size in
   Q (Z.of_nat (length t), t ++ 0 :: drop (S (length t)) dst)
     (World (w_tr w) (w_errno w) (set_utf sw (w_g w)))) ->
  wp (escape_to cs enc dst src size) o w Q.
Proof.
  intros Hs Hl Hsz Hd HQ. unfold escape_to. wstep. apply getg_ok. wstep.
  rewrite Escape.escape_str_eq by done. apply wp_ret. wstep. apply modg_ok. by apply wp_ret.
Qed.

(** The command line of a process: its arguments with blanks between them, or,
    when it has none, its name in brackets. *)
Definition cmdline_text (sw : Z) (args : list bytes) (p : proc_t) : bytes :=
  match args with
  | [] => Escape.decorated ESC_ALL (num p p_state)
            (Escape.escaped cs sw (default [] (str p p_cmd)) (MAX_BUFSZ - Escape.overhead ESC_ALL (num p p_state)))
  | _ => Escape.escaped cs sw (sjoin 32 args) MAX_BUFSZ
  end.

(** [read_src] of a file. *)
Lemma read_src_ok fuel dir what path body sep w : bufs_ok (w_g w) ->
  join_path dir what = Some path -> fs path = Some body -> (length body < fuel)%nat ->
  Z.of_nat (length body) < MAX_BUFSZ ->
  wp (read_src fuel dir what sep) o w (fun n w' => n = Z.of_nat (length body) /\
    (exists tl, src_buffer (w_g w') = Some (separate sep body ++ 0 :: tl) /\
       length (separate sep body ++ 0 :: tl) = Z.to_nat MAX_BUFSZ) /\
    w_g w' = set_src (src_buffer (w_g w')) (w_g w) /\ forall h, net h (w_tr w') = net h (w_tr w)).
Proof.
  intros [(sb & Hs & Hsl) Hdb] Hj Hfs Hf Hl. unfold read_src, take_src. wstep. wstep. apply getg_ok.
  rewrite Hs. apply wp_ret. wstep.
  eapply wp_mono; [eapply (read_unvectored_file o fs fuel sb); try done|].
  { rewrite Hsl. unfold MAX_BUFSZ. lia. }
  cbn zeta. intros r w1 ((tl & -> & Hr) & Hg & Hn).
  rewrite Z.min_l, Nat2Z.id, take_ge in * by lia. cbn [snd] in Hr.
  wstep. unfold put_src. apply modg_ok. apply wp_ret. cbn [w_g w_tr set_src src_buffer].
  split; [done|]. split; [exists tl; split; [done|congruence]|]. split; [by rewrite Hg|done].
Qed.

(** The common end: the text in the buffer becomes the member [f]. *)
Lemma store_text f (dash t dst tl : bytes) p (w : world rstate) :
  dst = t ++ 0 :: tl -> length dst = Z.to_nat MAX_BUFSZ -> Forall (fun c => c <> 0) t -> t <> [] ->
  buffer_ok (src_buffer (w_g w)) ->
  wp (_ ← put_dst dst;
      s ← deref (cstr dst);
      d ← strdup (match s with [] => dash | _ => s end);
      mret (failed d, set_str f d p)) o w (fun r w' =>
    r = (0, set_str f (Some t) p) /\ bufs_ok (w_g w') /\ forall h, net h (w_tr w') = net h (w_tr w)).
Proof.
  intros -> Hl Ht Hn Hs. wstep. apply modg_ok. wstep. rewrite cstr_app by done. apply wp_ret. wstep.
  destruct t as [|c t]; [done|].
  eapply wp_mono; [by apply (strdup_same enc)|]. intros r w1 (-> & _ & Hg & Hn1). apply wp_ret.
  split; [done|]. split; [|done]. rewrite Hg. split; [done|]. by eexists.
Qed.

Lemma escaped_nonempty sw s size : s <> [] -> 1 < size -> Escape.escaped cs sw s size <> [].
Proof.
  intros Hs Hz E. pose proof (Escape.escaped_length cs sw s size ltac:(lia)) as Hl. rewrite E in Hl.
  destruct s; [done|]. cbn [length] in Hl. lia.
Qed.

Lemma escape_len t (dst : bytes) : (length t < length dst)%nat ->
  length (t ++ 0 :: drop (S (length t)) dst) = length dst.
Proof. intros. rewrite length_app. cbn [length]. rewrite length_drop. lia. Qed.

(** The text the escaping leaves in [db]. *)
Definition leaves (m : R bytes) (t db : bytes) (w : world rstate) : Prop :=
  wp m o w (fun r w' => (exists tl, r = t ++ 0 :: tl /\ length r = length db) /\
    src_buffer (w_g w') = src_buffer (w_g w) /\ w_tr w' = w_tr w).

Lemma escape_src_args args db tl (w : world rstate) :
  args_ok args -> Z.of_nat (length (nul_ended args)) < MAX_BUFSZ -> length db = Z.to_nat MAX_BUFSZ ->
  src_buffer (w_g w) = Some (separate 32 (nul_ended args) ++ 0 :: tl) ->
  leaves (escape_src cs enc db)
    (Escape.escaped cs (Escape.utf_switch (utf_sw (w_g w)) enc) (sjoin 32 args) MAX_BUFSZ) db w.
Proof.
  intros Ha Hl Hdb Hs. rewrite separate_args, <- app_assoc in Hs by done.
  unfold leaves, escape_src, take_src. wstep. wstep. apply getg_ok. rewrite Hs. apply wp_ret. wstep.
  destruct Ha as (Ht & a & Ha & Hne). assert (Hn : args <> []) by by intros ->.
  pose proof (sjoin_length 32 args Hn).
  cbn [app]. rewrite cstr_app by by apply sjoin_text. apply wp_ret. wstep.
  apply escape_to_ok; [by apply sjoin_text|unfold INT_MAX, MAX_BUFSZ in *; lia|by unfold MAX_BUFSZ, INT_MAX|lia|].
  cbn zeta. apply wp_ret. split; [|by split]. eexists. split; [done|]. apply escape_len.
  rewrite <- Nat2Z.id at 1. rewrite Escape.escaped_length by done. unfold MAX_BUFSZ in *. lia.
Qed.

Lemma escape_cmd_name cmd db p (w : world rstate) :
  str p p_cmd = Some cmd -> Forall (fun c => c <> 0) cmd -> Z.of_nat (length cmd) <= INT_MAX ->
  length db = Z.to_nat MAX_BUFSZ ->
  leaves (escape_cmd cs enc db p) (cmdline_text (Escape.utf_switch (utf_sw (w_g w)) enc) [] p) db w.
Proof.
  intros Hc Hn Hl Hdb. unfold leaves, escape_cmd. rewrite Hc. wstep. apply wp_ret. wstep. apply getg_ok. wstep.
  assert (Ho : 0 <= Escape.overhead ESC_ALL (num p p_state) <= 12).
  { rewrite Escape.overhead_cases. repeat case_match; lia. }
  destruct (Escape.escape_command_eq cs enc (utf_sw (w_g w)) db (Escape.EProc (num p p_state) cmd) MAX_BUFSZ ESC_ALL)
    as [-> Hlt]; [done|done|unfold MAX_BUFSZ, INT_MAX; cbn [Escape.e_state]; lia|unfold MAX_BUFSZ in *; lia|].
  apply wp_ret. wstep. apply modg_ok. apply wp_ret. split; [|done]. unfold cmdline_text. rewrite Hc.
  eexists. split; [done|]. apply escape_len. cbn [Escape.e_state Escape.e_cmd] in *. unfold MAX_BUFSZ in *. lia.
Qed.

Lemma cmdline_text_ok sw args p : args = [] \/ args_ok args ->
  (args = [] -> exists cmd, str p p_cmd = Some cmd /\ Forall (fun c => c <> 0) cmd) ->
  cmdline_text sw args p <> [] /\ Forall (fun c => c <> 0) (cmdline_text sw args p).
Proof.
  intros Ha Hc. destruct args as [|a0 args0].
  - destruct (Hc eq_refl) as (cmd & Hcmd & Hn). unfold cmdline_text, Escape.decorated. rewrite Hcmd.
    split; [done|]. repeat (apply Forall_app; split); try (repeat case_match; by repeat constructor).
    by apply Escape.escaped_nonul.
  - destruct Ha as [|(Ht & a & Hl & Hne)]; [done|]. split; [|by apply Escape.escaped_nonul, sjoin_text].
    apply escaped_nonempty; [|by unfold MAX_BUFSZ]. intros E.
    pose proof (sjoin_last 32 _ a Hl Hne) as Hlast. rewrite E in Hlast. destruct a using rev_ind; [done|].
    by rewrite last_snoc in Hlast.
Qed.

(** A process whose cmdline file holds [args] gets the arguments with single
    blanks between them, escaped, as its command line; a process with an empty
    one gets its name in brackets, marked when it is a zombie.  The file is
    closed and the buffers stay usable. *)
Theorem fill_cmdline_cvt_text fuel dir path args p w :
  bufs_ok (w_g w) -> join_path dir (bs "cmdline") = Some path -> fs path = Some (nul_ended args) ->
  args = [] \/ args_ok args -> Z.of_nat (length (nul_ended args)) < MAX_BUFSZ ->
  (length (nul_ended args) < fuel)%nat ->
  (args = [] -> exists cmd, str p p_cmd = Some cmd /\ Forall (fun c => c <> 0) cmd /\ Z.of_nat (length cmd) <= INT_MAX) ->
  wp (fill_cmdline_cvt cs enc fuel dir p) o w (fun r w' =>
    r = (0, set_str p_cmdline (Some (cmdline_text (Escape.utf_switch (utf_sw (w_g w)) enc) args p)) p) /\
    bufs_ok (w_g w') /\ forall h, net h (w_tr w') = net h (w_tr w)).
Proof.
  intros Hb Hj Hfs Ha Hl Hf Hc. unfold fill_cmdline_cvt. wstep.
  eapply wp_mono; [by eapply read_src_ok|]. intros n w1 (-> & (tl & Hs & Hsl) & Hg & Hn).
  pose proof Hb as [_ (db & Hd & Hdl)]. unfold take_dst. wstep. wstep. apply getg_ok.
  replace (dst_buffer (w_g w1)) with (Some db) by by rewrite Hg. apply wp_ret. wstep.
  assert (Hsw : utf_sw (w_g w1) = utf_sw (w_g w)) by by rewrite Hg.
  set (t := cmdline_text (Escape.utf_switch (utf_sw (w_g w)) enc) args p).
  assert (Hlv : leaves (if negb (Z.of_nat (length (nul_ended args)) =? 0)
                        then escape_src cs enc db else escape_cmd cs enc db p) t db w1).
  { destruct args as [|a0 args0].
    - destruct (Hc eq_refl) as (cmd & Hcmd & Hn0 & Hl0). cbn. subst t. rewrite <- Hsw. by eapply escape_cmd_name.
    - destruct (Z.eqb_spec (Z.of_nat (length (nul_ended (a0 :: args0)))) 0) as [E|_].
      { rewrite nul_ended_sjoin, length_app in E by done. cbn [length] in E. lia. }
      subst t. rewrite <- Hsw. destruct Ha; [done|]. by eapply escape_src_args. }
  eapply wp_mono; [apply Hlv|]. intros r w2 ((tl2 & -> & Hrl) & Hs2 & Hw2).
  destruct (cmdline_text_ok (Escape.utf_switch (utf_sw (w_g w)) enc) args p Ha) as [Hne Hnn].
  { intros E. destruct (Hc E) as (cmd & ? & ? & _). eauto. }
  eapply wp_mono; [eapply store_text; [done|congruence|done|done|rewrite Hs2, Hs; by eexists]|].
  intros r w3 (-> & Hb3 & Hn3). split; [done|]. split; [done|]. intros h. by rewrite Hn3, Hw2.
Qed.
End cmdline.

(** [file2str] returns the length of a file and leaves all its bytes in the
    buffer, whatever was there before, ended by a NUL; for a file that cannot be
    opened or is empty it returns -1 and leaves an empty text.  The file is
    closed again. *)
Theorem file2str_reads o fs fuel dir what path ub w : Files o fs -> memory o ->
  ub_ok ub -> join_path dir what = Some path ->
  (forall body, fs path = Some body ->
     Z.of_nat (length body) < INT_MAX - buffGRW /\ (length body < fuel)%nat) ->
  wp (file2str fuel dir what ub) o w (fun r w' =>
    (exists tl, r = (match fs path with
                     | Some (c :: b) => Z.of_nat (length (c :: b))
                     | _ => -1 end, Some (default [] (fs path) ++ 0 :: tl))) /\
    w_g w' = w_g w /\ forall h, 0 <= handle_val h -> net h (w_tr w') = net h (w_tr w)).
Proof.
  intros Hfs Hm Hu Hj Hb. destruct (fs path) as [body|] eqn:E.
  - destruct (Hb body eq_refl) as [Hl Hf].
    eapply wp_mono; [by eapply file2str_file|]. intros r w' ((tl & ->) & Hg & Hn).
    split; [|split; [done|by intros h _]]. exists tl. f_equal. destruct body as [|c b]; [done|].
    destruct (Z.ltb_spec (Z.of_nat (length (c :: b))) 1); [|done]. cbn [length] in *. lia.
  - eapply wp_mono; [by eapply file2str_none|]. intros r w' ((tl & ->) & Hg & Hn).
    split; [by exists tl|done].
Qed.

(** ** Witnesses *)

(** A system that serves the files [fs] and never runs out of memory. *)
Definition served (fs : bytes -> option bytes) : os := fun t c =>
  match c with
  | COpen p _ _ => match fs p with Some _ => rok 3 | None => rerr 2 end
  | CRead fd n =>
      match cursor fd t with
      | Some (p, k) =>
          let d := take (Z.to_nat n) (drop k (default [] (fs p))) in rdata (Z.of_nat (length d)) d
      | None => rerr 9
      end
  | _ => rok 1
  end.

Lemma served_files fs : Files (served fs) fs.
Proof.
  split; [intros t p; cbn; by destruct (fs p)|].
  intros t fd n p k body Hn Hc Hfs. cbn. by rewrite Hc, Hfs.
Qed.

Lemma served_memory fs : memory (served fs).
Proof. by intros t n. Qed.

Definition one_file (path body : bytes) : bytes -> option bytes := fun p =>
  if decide (p = path) then Some body else None.

Lemma one_file_eq path body : one_file path body path = Some body.
Proof. unfold one_file. by destruct (decide (path = path)). Qed.

Definition sample_args : list (bytes * Z) := [(bs "sh", 0); (bs "-c", 10); (bs "ls", 0)].

Lemma file2strvec_strings_witness : exists w',
  file2strvec 20 (bs "/proc/7") (bs "cmdline")
    (served (one_file (bs "/proc/7/cmdline") (joined sample_args))) sample_world
  = Done (Some [bs "sh"; bs "-c"; bs "ls"]) w'.
Proof.
  edestruct (wp_done _ _ _ _ (file2strvec_strings _ _ (Files0 := served_files _) (served_memory _)
    20 (bs "/proc/7") (bs "cmdline") (joined sample_args) sample_args sample_world
    ltac:(done) (one_file_eq _ _) ltac:(done) ltac:(vm_compute; reflexivity)
    ltac:(repeat (constructor; [split; [repeat (constructor; [split; discriminate|]); constructor|by (left + right)]|]); constructor)
    ltac:(done) ltac:(cbn; lia))) as (r & w' & E & -> & _).
  exists w'. exact E.
Defined.

Lemma file2str_reads_witness : exists tl w',
  file2str 20 (bs "/proc/7") (bs "statm") None (served (one_file (bs "/proc/7/statm") (bs "12 3"))) sample_world
  = Done (4, Some (bs "12 3" ++ 0 :: tl)) w'.
Proof.
  edestruct (wp_done _ _ _ _ (file2str_reads _ (one_file (bs "/proc/7/statm") (bs "12 3")) 20
    (bs "/proc/7") (bs "statm") (bs "/proc/7/statm") None sample_world (served_files _) (served_memory _)
    I ltac:(vm_compute; reflexivity)
    ltac:(rewrite one_file_eq; intros b [= <-]; split; [done|cbn; lia]))) as (r & w' & E & (tl & Hr) & _).
  exists tl, w'. rewrite E, Hr, one_file_eq. reflexivity.
Defined.

Definition sample_bufs : world rstate :=
  World [] 0 (RState (-1) (Some (replicate (Z.to_nat MAX_BUFSZ) 0)) (Some (replicate (Z.to_nat MAX_BUFSZ) 0)) None [] [] []).

Lemma sample_bufs_ok : bufs_ok (w_g sample_bufs).
Proof. split; eexists; (split; [reflexivity|apply length_replicate]). Qed.

Definition sample_cmdline : bytes -> option bytes :=
  one_file (bs "/proc/7/cmdline") (nul_ended [bs "ls"; bs "-l"]).

Lemma fill_cmdline_cvt_text_witness : exists w',
  fill_cmdline_cvt true None 20 (bs "/proc/7") proc_zero (served sample_cmdline) sample_bufs
  = Done (0, set_str p_cmdline (Some (bs "ls -l")) proc_zero) w'.
Proof.
  edestruct (wp_done _ _ _ _ (fill_cmdline_cvt_text true None (served sample_cmdline) sample_cmdline
    (Files0 := served_files _) (served_memory _) 20 (bs "/proc/7") (bs "/proc/7/cmdline") [bs "ls"; bs "-l"]
    proc_zero sample_bufs sample_bufs_ok ltac:(vm_compute; reflexivity) (one_file_eq _ _)
    ltac:(right; split; [repeat (constructor; [repeat (constructor; [split; discriminate|]); constructor|]); constructor|by eexists])
    ltac:(done) ltac:(cbn; lia) ltac:(done))) as (r & w' & E & -> & _).
  exists w'. rewrite E. do 2 f_equal.
Defined.
End Procfiles.
