(* ===== verification/Readproc.v ===== *)
(** * procps/linux/readproc.c: the process table scan

    [openproc], [readproc], [readeither] and [closeproc] with the functions they
    call through the table.  The thread-local variables of these functions are
    the record [statics], passed along and returned; the table is the record
    [PROCTAB].  A pointer to a freed block is a block without bytes, so that
    every access to it is undefined. *)

From stdpp Require Import base numbers list strings.
From S2P Require Import Prelude Libc Posix Escape Utils Stacks Fetch Procdata Procfiles.
Open Scope Z_scope.

Module Readproc.
Import Procdata Procfiles.

(** ** Flags *)

Definition PROC_FILLMEM : Z := 1.
Definition PROC_FILLARG : Z := 2.
Definition PROC_FILLENV : Z := 4.
Definition PROC_FILLUSR : Z := 8.
Definition PROC_FILLGRP : Z := 16.
Definition PROC_FILLSTATUS : Z := 32.
Definition PROC_FILLSTAT : Z := 64.
Definition PROC_FILLCGROUP : Z := 128.
Definition PROC_FILLOOM : Z := 256.
Definition PROC_FILLNS : Z := 512.
Definition PROC_FILLSYSTEMD : Z := 1024.
Definition PROC_FILL_LXC : Z := 2048.
Definition PROC_FILL_LUID : Z := 4096.
Definition PROC_FILL_EXE : Z := 8192.
Definition PROC_FILLIO : Z := 16384.
Definition PROC_FILLSMAPS : Z := 32768.
Definition PROC_PID : Z := 65536.
Definition PROC_UID : Z := 131072.
Definition PROC_EDITCGRPCVT : Z := 262144.
Definition PROC_EDITCMDLCVT : Z := 524288.
Definition PROC_EDITENVRCVT : Z := 1048576.
Definition PROC_FILL_OUSERS : Z := Z.lor 2097152 PROC_FILLSTATUS.
Definition PROC_FILL_OGROUPS : Z := Z.lor 4194304 PROC_FILLSTATUS.
Definition PROC_FILL_SUPGRP : Z := Z.lor 8388608 PROC_FILLSTATUS.
Definition PROC_FILLAUTOGRP : Z := 16777216.

Definition has (flags bits : Z) : bool := negb (Z.land flags bits =? 0).

Definition ENOMEM : Z := 12.
Definition ERANGE : Z := 34.

(** ** State *)

Inductive finder_t := simple_finder | listed_finder.

(** The members that are used; the reader and the functions for tasks are
    always the same ones.  [pids] is the part of the list not yet read. *)
Record PROCTAB := Proctab {
  procfs : option Z;
  taskdir : option Z;
  taskdir_user : Z;
  finder : finder_t;
  pids : list Z;
  uids : list Z;
  nuid : Z;
  hide_k : bool;
  pt_flags : Z;
  pt_path : bytes
}.

Definition set_path (b : bytes) (PT : PROCTAB) : PROCTAB :=
  Proctab (procfs PT) (taskdir PT) (taskdir_user PT) (finder PT) (pids PT) (uids PT) (nuid PT) (hide_k PT) (pt_flags PT) b.
Definition set_task (d : option Z) (u : Z) (PT : PROCTAB) : PROCTAB :=
  Proctab (procfs PT) d u (finder PT) (pids PT) (uids PT) (nuid PT) (hide_k PT) (pt_flags PT) (pt_path PT).
Definition set_pids (l : list Z) (PT : PROCTAB) : PROCTAB :=
  Proctab (procfs PT) (taskdir PT) (taskdir_user PT) (finder PT) l (uids PT) (nuid PT) (hide_k PT) (pt_flags PT) (pt_path PT).

(** [new_p] points to the caller's record or is NULL. *)
Record statics := Statics {
  ub_proc : utlbuf;                             (* of [simple_readproc] *)
  ub_task : utlbuf;                             (* of [simple_readtask] *)
  ub_listed : utlbuf;                           (* of [listed_nextpid] *)
  task_dir_missing : Z;
  did_stat : bool;
  hide_kernel : Z;
  skel_p : proc_t;
  new_p : bool;
  canary : Z;
  leader : Z
}.

Definition statics_init : statics := Statics None None None 0 false (-1) proc_zero false 0 0.

Definition set_ub_proc u s := Statics u (ub_task s) (ub_listed s) (task_dir_missing s) (did_stat s)
  (hide_kernel s) (skel_p s) (new_p s) (canary s) (leader s).
Definition set_ub_task u s := Statics (ub_proc s) u (ub_listed s) (task_dir_missing s) (did_stat s)
  (hide_kernel s) (skel_p s) (new_p s) (canary s) (leader s).
Definition set_ub_listed u s := Statics (ub_proc s) (ub_task s) u (task_dir_missing s) (did_stat s)
  (hide_kernel s) (skel_p s) (new_p s) (canary s) (leader s).
Definition set_env m d h s := Statics (ub_proc s) (ub_task s) (ub_listed s) m d h (skel_p s) (new_p s) (canary s) (leader s).
Definition set_skel p s := Statics (ub_proc s) (ub_task s) (ub_listed s) (task_dir_missing s) (did_stat s)
  (hide_kernel s) p (new_p s) (canary s) (leader s).
Definition set_new n c s := Statics (ub_proc s) (ub_task s) (ub_listed s) (task_dir_missing s) (did_stat s)
  (hide_kernel s) (skel_p s) n c (leader s).
Definition set_leader l s := Statics (ub_proc s) (ub_task s) (ub_listed s) (task_dir_missing s) (did_stat s)
  (hide_kernel s) (skel_p s) (new_p s) (canary s) l.

Section readers.
Variable cs : bool.
Variable enc : option bytes.
Variable getpwuid getgrgid : Z -> option bytes.
Variable fuel : nat.

(** What a reader works on: [rc], the buffer and the record. *)
Record fill := Fill { rc : Z; ub : utlbuf; pr : proc_t }.

Definition with_pr (p : proc_t) (s : fill) : fill := Fill (rc s) (ub s) p.

Definition when (b : bool) (f : fill -> R fill) (s : fill) : R fill := if b then f s else mret s.

(** [rc += f(p)] *)
Definition add_rc (f : proc_t -> R (Z * proc_t)) (s : fill) : R fill :=
  '(r, p) ← f (pr s); mret (Fill (rc s + r) (ub s) p).

Definition setting (f : proc_t -> R proc_t) (s : fill) : R fill := p ← f (pr s); mret (with_pr p s).

(** [if (file2str(path, what, &ub) != -1) f(ub.buf, p)] *)
Definition reading (path : bytes) (what : string) (f : bytes -> fill -> R fill) (s : fill) : R fill :=
  '(n, u) ← file2str fuel path (bs what) (ub s);
  let s := Fill (rc s) u (pr s) in
  if n =? -1 then mret s else b ← deref u; f b s.

(** A parser of the text in the buffer. *)
Definition parsing (f : bytes -> proc_t -> proc_t) (b : bytes) (s : fill) : R fill :=
  t ← deref (cstr b); mret (with_pr (f t (pr s)) s).

(** The vector [f] of the file [what], or the vector of a dash. *)
Definition vector (path : bytes) (what : string) (f : vfield) (s : fill) : R fill :=
  v ← file2strvec fuel path (bs what);
  match v with
  | Some _ => mret (with_pr (set_vec f v (pr s)) s)
  | None => '(r, v) ← vectorize_dash_rc; mret (Fill (rc s + r) (ub s) (set_vec f v (pr s)))
  end.

Definition user_name (id : nfield) (f : sfield) (p : proc_t) : R proc_t :=
  n ← get_user getpwuid (num p id); mret (set_str f (Some n) p).
Definition group_name (id : nfield) (f : sfield) (p : proc_t) : R proc_t :=
  n ← get_group getgrgid (num p id); mret (set_str f (Some n) p).

(** The block for /proc/#/status, the same for processes and tasks. *)
Definition fill_status (flags : Z) (path : bytes) (is_proc : bool) : fill -> R fill :=
  reading path "status" (fun b s =>
    s ← add_rc (fun p => status2proc cs enc fuel b p is_proc) s;
    s ← when (has flags (Z.land PROC_FILL_SUPGRP (Z.lnot PROC_FILLSTATUS)))
          (add_rc (supgrps_from_supgids getgrgid fuel)) s;
    s ← when (has flags (Z.land PROC_FILL_OUSERS (Z.lnot PROC_FILLSTATUS)))
          (setting (fun p =>
             p ← user_name p_ruid p_ruser p; p ← user_name p_suid p_suser p; user_name p_fuid p_fuser p)) s;
    when (has flags (Z.land PROC_FILL_OGROUPS (Z.lnot PROC_FILLSTATUS)))
      (setting (fun p =>
         p ← group_name p_rgid p_rgroup p; p ← group_name p_sgid p_sgroup p; group_name p_fgid p_fgroup p)) s).

Definition fill_oom (path : bytes) (s : fill) : R fill :=
  s ← reading path "oom_score" (parsing oomscore2proc) s;
  reading path "oom_score_adj" (parsing oomadj2proc) s.

Definition fill_exe (path : bytes) (s : fill) : R fill :=
  e ← readlink_exe cs enc path;
  mret (Fill (rc s + failed e) (ub s) (set_str p_exe e (pr s))).

Definition fill_ns (p : proc_t) : R proc_t :=
  '(r, ns) ← Namespace.procps_ns_read_pid (num p p_tid) true;
  mret (if r =? 0 then set_ns ns p else p).

(** The list [l] of [n] elements: [None] when the search leaves it. *)
Fixpoint XinLN (x : Z) (l : list Z) (n : nat) : option bool :=
  match n, l with
  | O, _ => Some false
  | S n, y :: l => if y =? x then Some true else XinLN x l n
  | S _, [] => None
  end.

(** The first blocks, up to and including [status]; [false] for the jump to the
    end when there is no stat file. *)
Definition fill_first (flags : Z) (path : bytes) (is_proc : bool) (s : fill) : R (bool * fill) :=
  '(ok, s) ← (if has flags PROC_FILLSTAT then
                '(n, u) ← file2str fuel path (bs "stat") (ub s);
                let s := Fill (rc s) u (pr s) in
                if n =? -1 then mret (false, s)
                else b ← deref u; s ← add_rc (stat2proc cs enc b) s; mret (true, s)
              else mret (true, s));
  if negb ok then mret (false, s) else
  s ← when (has flags PROC_FILLIO) (reading path "io" (parsing io2proc)) s;
  s ← when (has flags PROC_FILLSMAPS) (reading path "smaps_rollup" (parsing smaps2proc)) s;
  s ← when (has flags PROC_FILLMEM) (reading path "statm" (parsing statm2proc)) s;
  s ← when (has flags PROC_FILLSTATUS) (fill_status flags path is_proc) s;
  mret (true, s).

Definition fill_environ (flags : Z) (path : bytes) (s : fill) : R fill :=
  s ← when (has flags PROC_FILLENV) (vector path "environ" p_environ_v) s;
  when (has flags PROC_EDITENVRCVT) (add_rc (fill_environ_cvt cs enc fuel path)) s.
Definition fill_cmdline (flags : Z) (path : bytes) (s : fill) : R fill :=
  s ← when (has flags PROC_FILLARG) (vector path "cmdline" p_cmdline_v) s;
  when (has flags PROC_EDITCMDLCVT) (add_rc (fill_cmdline_cvt cs enc fuel path)) s.
Definition fill_cgroup (flags : Z) (path : bytes) (s : fill) : R fill :=
  s ← when (has flags PROC_FILLCGROUP) (vector path "cgroup" p_cgroup_v) s;
  when (has flags PROC_EDITCGRPCVT) (add_rc (fill_cgroup_cvt cs enc fuel path)) s.

Definition fill_names (flags : Z) (s : fill) : R fill :=
  s ← when (has flags PROC_FILLUSR) (setting (user_name p_euid p_euser)) s;
  when (has flags PROC_FILLGRP) (setting (group_name p_egid p_egroup)) s.

Definition fill_lxc (path : bytes) (p : proc_t) : R proc_t :=
  n ← lxc_containers fuel path; mret (set_str p_lxcname (Some n) p).
Definition fill_luid (path : bytes) (p : proc_t) : R proc_t :=
  n ← login_uid path; mret (set_num p_luid n p).

(** *** simple_readproc *)

Definition fill_proc (flags : Z) (path : bytes) (s : fill) : R fill :=
  let s := if 1 <? num (pr s) p_nlwp then with_pr (set_num p_wchan ULONG_MAX (pr s)) s else s in
  s ← fill_names flags s;
  s ← fill_environ flags path s;
  s ← fill_cmdline flags path s;
  s ← fill_cgroup flags path s;
  s ← when (has flags PROC_FILLOOM) (fill_oom path) s;
  s ← when (has flags PROC_FILLNS) (setting fill_ns) s;
  s ← when (has flags PROC_FILLSYSTEMD) (add_rc sd2proc) s;
  s ← when (has flags PROC_FILL_LXC) (setting (fill_lxc path)) s;
  s ← when (has flags PROC_FILL_LUID) (setting (fill_luid path)) s;
  s ← when (has flags PROC_FILL_EXE) (fill_exe path) s;
  when (has flags PROC_FILLAUTOGRP) (setting (autogroup_fill path)) s.

(** Whether [p] is returned rather than NULL; [p] is written to in both cases. *)
Definition simple_readproc (PT : PROCTAB) (st : statics) (p : proc_t) : R (bool * statics * proc_t) :=
  let path := pt_path PT in
  let flags := pt_flags PT in
  sb ← sys (CStat path);
  if r_val sb =? -1 then mret (false, st, p) else
  wanted ← (if has flags PROC_UID then deref (XinLN (r_uid sb) (uids PT) (Z.to_nat (nuid PT))) else mret true);
  if negb wanted then mret (false, st, p) else
  let p := set_num p_egid (r_gid sb) (set_num p_euid (r_uid sb) p) in
  '(ok, s) ← fill_first flags path true (Fill 0 (ub_proc st) p);
  if negb ok then mret (false, set_ub_proc (ub s) st, pr s) else
  s ← fill_proc flags path s;
  let st := set_ub_proc (ub s) st in
  if rc s =? 0 then
    mret (negb (hide_k PT && ((num (pr s) p_ppid =? 2) || (num (pr s) p_tid =? 2))), st, pr s)
  else _ ← set_errno ENOMEM; mret (false, st, pr s).

(** *** simple_readtask *)

Definition fill_task (flags : Z) (path : bytes) (s : fill) : R fill :=
  s ← fill_names flags s;
  s ← fill_cmdline flags path s;
  s ← fill_environ flags path s;
  s ← fill_cgroup flags path s;
  s ← when (has flags PROC_FILLSYSTEMD) (add_rc sd2proc) s;
  s ← when (has flags PROC_FILL_EXE) (fill_exe path) s;
  s ← when (has flags PROC_FILLOOM) (fill_oom path) s;
  s ← when (has flags PROC_FILLNS) (setting fill_ns) s;
  s ← when (has flags PROC_FILL_LXC) (setting (fill_lxc path)) s;
  s ← when (has flags PROC_FILL_LUID) (setting (fill_luid path)) s;
  when (has flags PROC_FILLAUTOGRP) (setting (autogroup_fill path)) s.

Definition simple_readtask (PT : PROCTAB) (st : statics) (t : proc_t) (path : bytes) : R (bool * statics * proc_t) :=
  let flags := pt_flags PT in
  sb ← sys (CStat path);
  if r_val sb =? -1 then mret (false, st, t) else
  let t := set_num p_egid (r_gid sb) (set_num p_euid (r_uid sb) t) in
  '(ok, s) ← fill_first flags path false (Fill 0 (ub_task st) t);
  if negb ok then mret (false, set_ub_task (ub s) st, pr s) else
  s ← fill_task flags path s;
  let st := set_ub_task (ub s) st in
  if rc s =? 0 then mret (true, st, pr s)
  else _ ← set_errno ENOMEM; mret (false, st, pr s).

(** ** Finding processes and tasks *)

(** A name that starts with a digit other than 0. *)
Definition numeric (name : bytes) : bool :=
  match name with c :: _ => (48 <? c) && (c <=? 57) | [] => false end.

Definition proc_path (n : Z) : bytes := bs "/proc/" ++ fmt_d n.

(** The loop over the directory. *)
Fixpoint nextpid_loop (fl : nat) (dir : Z) (PT : PROCTAB) (p : proc_t) : R (Z * PROCTAB * proc_t) :=
  match fl with
  | O => nofuel
  | S f =>
      e ← sys (CReaddir dir);
      if (r_val e <? 0) || bool_decide (r_data e = []) then mret (0, PT, p) else
      if numeric (r_data e) then
        let v := strtoul (r_data e) in
        _ ← set_errno (if st_range v then ERANGE else 0);
        let p := set_num p_tgid (i32 (st_val v)) p in
        if st_range v then nextpid_loop f dir PT p else
        mret (1, set_path (snprintf PROCPATHLEN (proc_path (num p p_tgid))) PT, set_num p_tid (num p p_tgid) p)
      else nextpid_loop f dir PT p
  end.

Definition simple_nextpid (PT : PROCTAB) (p : proc_t) : R (Z * PROCTAB * proc_t) :=
  dir ← deref (procfs PT); nextpid_loop fuel dir PT p.

Definition task_path (n : Z) : bytes := proc_path n ++ bs "/task".

(** The name of the next numeric entry, or [None]. *)
Fixpoint nexttid_loop (fl : nat) (dir : Z) : R (option bytes) :=
  match fl with
  | O => nofuel
  | S f =>
      e ← sys (CReaddir dir);
      if (r_val e <? 0) || bool_decide (r_data e = []) then mret None else
      if numeric (r_data e) then mret (Some (r_data e)) else nexttid_loop f dir
  end.

(** The directory of the tasks of [p]: opened when it is another one. *)
Definition task_dir (PT : PROCTAB) (tgid : Z) : R (bool * PROCTAB) :=
  if taskdir_user PT =? tgid then mret (true, PT) else
  _ ← (match taskdir PT with Some d => _ ← sys (CClosedir d); mret tt | None => mret tt end);
  d ← sys (COpendir (snprintf PROCPATHLEN (task_path tgid)));
  if r_val d <? 0 then mret (false, set_task None (taskdir_user PT) PT)
  else mret (true, set_task (Some (r_val d)) tgid PT).

(** 0, or 1 with the path of the task; the caller uses the path in that case
    only. *)
Definition simple_nexttid (PT : PROCTAB) (p t : proc_t) : R (Z * PROCTAB * proc_t * bytes) :=
  let tgid := num p p_tgid in
  '(ok, PT) ← task_dir PT tgid;
  if negb ok then mret (0, PT, t, []) else
  dir ← deref (taskdir PT);
  e ← nexttid_loop fuel dir;
  match e with
  | None => mret (0, PT, t, [])
  | Some name =>
      let t := set_num p_tgid tgid (set_num p_tid (i32 (st_val (strtoul name))) t) in
      mret (1, PT, t, snprintf PROCPATHLEN (task_path tgid ++ 47 :: take 10 name))
  end.

Definition listed_nextpid (PT : PROCTAB) (st : statics) (p : proc_t) : R (Z * PROCTAB * statics * proc_t) :=
  match pids PT with
  | [] => undef
  | pid :: rest =>
      let PT := set_pids rest PT in
      if pid =? 0 then mret (0, PT, st, p) else
      let path := snprintf PROCPATHLEN (proc_path pid) in
      let p := set_num p_tid pid (set_num p_tgid pid p) in
      '(n, u) ← file2str fuel path (bs "status") (ub_listed st);
      let PT := set_path path PT in
      let st := set_ub_listed u st in
      if n =? -1 then mret (pid, PT, st, p) else
      b ← deref u; s ← deref (cstr b);
      let p := match strstr s (bs "Tgid:") with
               | Some i => set_num p_tgid (atoi (drop (i + 5) s)) p
               | None => p
               end in
      mret (pid, PT, st, p)
  end.

(** [PT->finder(PT, p)] *)
Definition find_pid (PT : PROCTAB) (st : statics) (p : proc_t) : R (Z * PROCTAB * statics * proc_t) :=
  match finder PT with
  | simple_finder => '(n, PT, p) ← simple_nextpid PT p; mret (n, PT, st, p)
  | listed_finder => listed_nextpid PT st p
  end.

(** ** readproc and readeither *)

Fixpoint readproc_loop (fl : nat) (PT : PROCTAB) (st : statics) (p : proc_t) : R (bool * PROCTAB * statics * proc_t) :=
  match fl with
  | O => nofuel
  | S f =>
      e ← get_errno;
      if e =? ENOMEM then mret (false, PT, st, p) else
      '(n, PT, st, p) ← find_pid PT st p;
      if n =? 0 then mret (false, PT, st, p) else
      '(got, st, p) ← simple_readproc PT st p;
      if got : bool then mret (true, PT, st, p) else readproc_loop f PT st p
  end.

Definition readproc (PT : PROCTAB) (st : statics) (p : proc_t) : R (bool * PROCTAB * statics * proc_t) :=
  readproc_loop fuel PT st (free_acquired p).

(** The loop behind [next_proc]: [Some true] when a process was read without its
    tasks, [Some false] when its tasks are next, [None] at the end. *)
Fixpoint next_proc (fl : nat) (PT : PROCTAB) (st : statics) (x : proc_t) : R (option bool * PROCTAB * statics * proc_t) :=
  match fl with
  | O => nofuel
  | S f =>
      e ← get_errno;
      if e =? ENOMEM then mret (None, PT, st, x) else
      '(n, PT, st, sk) ← find_pid PT st (skel_p st);
      let st := set_skel sk st in
      if n =? 0 then mret (None, PT, st, x) else
      let st := set_leader (num sk p_tid) st in
      if task_dir_missing st =? 0 then mret (Some false, PT, st, x) else
      '(got, st, x) ← simple_readproc PT st x;
      if got : bool then mret (Some true, PT, st, x) else next_proc f PT st x
  end.

(** From [next_task] on when [tasks] is set, else from [next_proc] on. *)
Fixpoint either_loop (fl : nat) (tasks : bool) (PT : PROCTAB) (st : statics) (x : proc_t)
    : R (bool * PROCTAB * statics * proc_t) :=
  match fl with
  | O => nofuel
  | S f =>
      '(r, PT, st, x) ← (if tasks then mret (Some false, PT, st, x)
                         else next_proc fuel PT (set_new false (canary st) st) x);
      match r with
      | None => mret (false, PT, st, x)
      | Some true => mret (true, PT, st, x)
      | Some false =>
          '(n, PT, x, path) ← simple_nexttid PT (skel_p st) x;
          if n =? 0 then either_loop f false PT st x else
          '(got, st, x) ← (if num x p_tid =? leader st then simple_readproc PT st x
                           else simple_readtask PT st x path);
          if negb got then either_loop f false PT st x else
          mret (true, PT, if new_p st then st else set_new true (num x p_tid) st, x)
      end
  end.

(** [x] is the same record in all calls, so that [new_p] points to it. *)
Definition readeither (PT : PROCTAB) (st : statics) (x : proc_t) : R (bool * PROCTAB * statics * proc_t) :=
  let x := free_acquired x in
  let st1 := if negb (num x p_tid =? canary st) then set_new false (canary st) st else st in
  if new_p st then either_loop fuel true PT st1 x else either_loop fuel false PT st x.

(** ** openproc and closeproc *)

(** [closedir(PT->procfs)], which must not be NULL. *)
Definition close_procfs (d : option Z) : R unit :=
  d ← deref d; _ ← sys (CClosedir d); mret tt.

(** The static buffers: false when memory ran out, behind the clean-up. *)
Definition alloc_buffers (PT : PROCTAB) : R bool :=
  g ← getg;
  ok ← (match src_buffer g with
        | Some _ => mret true
        | None =>
            m ← sys (CMalloc MAX_BUFSZ);
            if r_val m <? 0 then _ ← close_procfs (procfs PT); mret false
            else _ ← put_src (replicate (Z.to_nat MAX_BUFSZ) 0); mret true
        end);
  if negb ok then mret false else
  match dst_buffer g with
  | Some _ => mret true
  | None =>
      m ← sys (CMalloc MAX_BUFSZ);
      if r_val m <? 0 then
        _ ← close_procfs (procfs PT);
        _ ← put_src [];
        mret false
      else _ ← put_dst (replicate (Z.to_nat MAX_BUFSZ) 0); mret true
  end.

(** What is found out once. *)
Definition learn (st : statics) : R statics :=
  h ← (if hide_kernel st <? 0 then
         e ← sys (CGetenv (bs "LIBPROC_HIDE_KERNEL")); mret (if r_val e <? 0 then 0 else 1)
       else mret (hide_kernel st));
  if did_stat st then mret (set_env (task_dir_missing st) true h st)
  else t ← sys (CStat (bs "/proc/self/task")); mret (set_env (r_val t) true h st).

(** [pidl] and [uidl], [n] are the variable arguments. *)
Definition openproc (flags : Z) (pidl uidl : list Z) (n : Z) (st : statics) : R (option PROCTAB * statics) :=
  m ← sys (CMalloc 176);
  if r_val m <? 0 then mret (None, st) else
  st ← learn st;
  d ← (if has flags PROC_PID then mret (Some None) else
       d ← sys (COpendir (bs "/proc"));
       mret (if r_val d <? 0 then None else Some (Some (r_val d))));
  match d with
  | None => mret (None, st)
  | Some d =>
      let byuid := negb (has flags PROC_PID) && has flags PROC_UID in
      let hide := 0 <? hide_kernel st in
      let fl := if hide && negb (has flags (Z.lor PROC_FILLSTAT PROC_FILLSTATUS))
                then Z.lor flags PROC_FILLSTAT else flags in
      let PT := Proctab d None (-1) (if has flags PROC_PID then listed_finder else simple_finder)
                  (if has flags PROC_PID then pidl else []) (if byuid then uidl else [])
                  (if byuid then n else 0) hide fl [] in
      ok ← alloc_buffers PT;
      mret (if ok : bool then Some PT else None, st)
  end.

Definition closeproc (PT : PROCTAB) : R unit :=
  _ ← (match procfs PT with Some d => _ ← sys (CClosedir d); mret tt | None => mret tt end);
  match taskdir PT with Some d => _ ← sys (CClosedir d); mret tt | None => mret tt end.

Definition exit_with {A} (code : Z) : R A := fun _ w => Exit code w.

(** 1 on success. *)
Definition look_up_our_self (p : proc_t) : R (Z * proc_t) :=
  '(n, u) ← file2str fuel (bs "/proc/self") (bs "stat") None;
  if n =? -1 then
    _ ← stderr (bs "Error, do this: mount -t proc proc /proc" ++ [10]);
    exit_with 47
  else
    b ← deref u;
    '(r, p) ← stat2proc cs enc b p;
    mret (if r =? 0 then 1 else 0, p).
End readers.

(** ** Directory streams and descriptors

    [acct m D]: if [m] finishes with [a], the number of references to each handle
    [h] has changed by [D a h]. *)

Definition acct {A} (m : R A) (D : A -> handle -> Z) : Prop := forall o w,
  wlp m o w (fun a w' => forall h, 0 <= handle_val h -> net h (w_tr w') = net h (w_tr w) + D a h).

Definition none {A} : A -> handle -> Z := fun _ _ => 0.

Lemma acct_ret {A} (a : A) D : (forall h, 0 <= handle_val h -> D a h = 0) -> acct (mret a) D.
Proof. intros H o w h Hh. cbn. rewrite H by done. lia. Qed.

Lemma acct_bind {A B} (m : R A) (f : A -> R B) D1 D :
  acct m D1 -> (forall a, acct (f a) (fun b h => D b h - D1 a h)) -> acct (m ≫= f) D.
Proof.
  intros Hm Hf o w. apply wlp_bind. eapply wlp_mono; [apply Hm|]. intros a w1 H1.
  eapply wlp_mono; [apply Hf|]. intros b w2 H2 h Hh. rewrite H2, H1 by done. lia.
Qed.

Lemma acct_mono {A} (m : R A) D1 D :
  acct m D1 -> (forall a h, 0 <= handle_val h -> D1 a h = D a h) -> acct m D.
Proof.
  intros Hm HD o w. eapply wlp_mono; [apply Hm|]. intros a w1 H1 h Hh. by rewrite H1, HD.
Qed.

Lemma acct_gains {A} (m : R A) D : gains m D -> acct m D.
Proof. intros Hm o w. eapply wlp_mono; [apply Hm|]. by intros a w' [_ H]. Qed.

Lemma acct_undef {A} (D : A -> handle -> Z) : acct undef D.
Proof. by intros o w. Qed.
Lemma acct_nofuel {A} (D : A -> handle -> Z) : acct nofuel D.
Proof. by intros o w. Qed.
Lemma acct_modg f : acct (modg f) none.
Proof. intros o w. unfold wlp, modg, none. intros h Hh. cbn [w_tr]. lia. Qed.

Create HintDb adb.
#[export] Hint Resolve acct_modg : adb.
#[export] Hint Extern 5 (acct _ _) => apply acct_gains; solve [auto with gdb] : adb.

(** Syntax-directed proof of an [acct] goal. *)
Ltac acct_leaf := unfold none in *; fd_leaf.
Ltac acct_step :=
  match goal with
  | |- acct (mret _) _ => apply acct_ret; acct_leaf
  | |- acct undef _ => apply acct_undef
  | |- acct nofuel _ => apply acct_nofuel
  | |- acct (mbind _ _) _ =>
      first [eapply acct_bind; [solve [eauto with adb] | intros ?; cbn beta]
            |eapply (acct_bind _ _ none); [solve [repeat acct_step] | intros ?; cbn beta]]
  | |- acct (if ?b then _ else _) _ => destruct b eqn:?
  | |- acct (match ?x with _ => _ end) _ => destruct x eqn:?
  | |- acct _ _ => eapply acct_mono; [solve [eauto with adb] | acct_leaf]
  end.
Ltac acct_tac := repeat acct_step.

(** *** Reading a file opens and closes it *)

Lemma read_grow_acct fuel fd buf tot : acct (read_grow fuel fd buf tot) none.
Proof.
  revert buf tot. induction fuel as [|f IH]; intros; cbn [read_grow]; [apply acct_nofuel|]. acct_tac.
Qed.
#[local] Hint Resolve read_grow_acct : adb.

Lemma ready_ub_acct u : acct (ready_ub u) none.
Proof. unfold ready_ub. acct_tac. Qed.
#[local] Hint Resolve ready_ub_acct : adb.

Lemma file2str_acct fuel dir what u : acct (file2str fuel dir what u) none.
Proof. unfold file2str. acct_tac. Qed.
#[local] Hint Resolve file2str_acct : adb.

Lemma vec_read_acct fuel fd buf : acct (vec_read fuel fd buf) none.
Proof. revert buf. induction fuel as [|f IH]; intros; cbn [vec_read]; [apply acct_nofuel|]. acct_tac. Qed.
#[local] Hint Resolve vec_read_acct : adb.

Lemma file2strvec_acct fuel dir what : acct (file2strvec fuel dir what) none.
Proof. unfold file2strvec. acct_tac. Qed.
#[local] Hint Resolve file2strvec_acct : adb.

Lemma unvec_read_acct fuel fd dst sz n : acct (unvec_read fuel fd dst sz n) none.
Proof. revert dst n. induction fuel as [|f IH]; intros; cbn [unvec_read]; [apply acct_nofuel|]. acct_tac. Qed.
#[local] Hint Resolve unvec_read_acct : adb.

Lemma read_unvectored_acct fuel dst sz dir what sep : acct (read_unvectored fuel dst sz dir what sep) none.
Proof. unfold read_unvectored. acct_tac. Qed.
#[local] Hint Resolve read_unvectored_acct : adb.

Lemma strdup_acct s : acct (strdup s) none.
Proof. unfold strdup. acct_tac. Qed.
#[local] Hint Resolve strdup_acct : adb.

Lemma read_small_acct path : acct (read_small path) none.
Proof. unfold read_small. acct_tac. Qed.
#[local] Hint Resolve read_small_acct : adb.

Lemma vectorize_dash_acct : acct vectorize_dash_rc none.
Proof.
  unfold vectorize_dash_rc. eapply acct_bind with (D1 := none); [unfold vectorize_this_str; acct_tac|].
  intros; acct_tac.
Qed.
#[local] Hint Resolve vectorize_dash_acct : adb.

Section readers_acct.
Context (cs : bool) (enc : option bytes) (getpwuid getgrgid : Z -> option bytes) (fuel : nat).

Lemma escape_to_acct dst src size : acct (escape_to cs enc dst src size) none.
Proof. unfold escape_to. acct_tac. Qed.
#[local] Hint Resolve escape_to_acct : adb.

Lemma set_cmd_acct raw p : acct (set_cmd cs enc raw p) none.
Proof. unfold set_cmd. acct_tac. Qed.
#[local] Hint Resolve set_cmd_acct : adb.

Lemma stat2proc_acct b p : acct (stat2proc cs enc b p) none.
Proof. unfold stat2proc. acct_tac. Qed.
#[local] Hint Resolve stat2proc_acct : adb.

Lemma groups_case_acct b p : acct (groups_case b p) none.
Proof. unfold groups_case. acct_tac. Qed.
#[local] Hint Resolve groups_case_acct : adb.

Lemma run_case_acct n b st : acct (run_case cs enc n b st) none.
Proof. unfold run_case. acct_tac. Qed.
#[local] Hint Resolve run_case_acct : adb.

Lemma status_loop_acct f b st : acct (status_loop cs enc f b st) none.
Proof. revert b st. induction f as [|f IH]; intros; cbn [status_loop]; [apply acct_nofuel|]. acct_tac. Qed.
#[local] Hint Resolve status_loop_acct : adb.

Lemma status2proc_acct b p i : acct (status2proc cs enc fuel b p i) none.
Proof. unfold status2proc. acct_tac. Qed.
#[local] Hint Resolve status2proc_acct : adb.

Lemma get_user_acct u : acct (get_user getpwuid u) none.
Proof. unfold get_user, entry_alloc. acct_tac. Qed.
Lemma get_group_acct u : acct (get_group getgrgid u) none.
Proof. unfold get_group, entry_alloc. acct_tac. Qed.
#[local] Hint Resolve get_user_acct get_group_acct : adb.

Lemma supgrps_loop_acct f s acc t : acct (supgrps_loop getgrgid f s acc t) none.
Proof. revert s acc t. induction f as [|f IH]; intros; cbn [supgrps_loop]; [apply acct_nofuel|]. acct_tac. Qed.
#[local] Hint Resolve supgrps_loop_acct : adb.

Lemma supgrps_acct p : acct (supgrps_from_supgids getgrgid fuel p) none.
Proof. unfold supgrps_from_supgids. acct_tac. Qed.

Lemma dup_all_acct fs p : acct (dup_all fs p) none.
Proof. revert p. induction fs as [|f fs IH]; intros; cbn [dup_all]; acct_tac. Qed.

Lemma take_src_acct : acct take_src none.
Proof. unfold take_src. acct_tac. Qed.
Lemma take_dst_acct : acct take_dst none.
Proof. unfold take_dst. acct_tac. Qed.
Lemma put_src_acct b : acct (put_src b) none.
Proof. apply acct_modg. Qed.
Lemma put_dst_acct b : acct (put_dst b) none.
Proof. apply acct_modg. Qed.
#[local] Hint Resolve supgrps_acct dup_all_acct take_src_acct take_dst_acct put_src_acct put_dst_acct : adb.

Lemma read_src_acct dir what sep : acct (read_src fuel dir what sep) none.
Proof. unfold read_src. acct_tac. Qed.
Lemma escape_src_acct dst : acct (escape_src cs enc dst) none.
Proof. unfold escape_src. acct_tac. Qed.
Lemma escape_cmd_acct dst p : acct (escape_cmd cs enc dst p) none.
Proof. unfold escape_cmd. acct_tac. Qed.
Lemma cgroup_loop_acct f src tot dst d : acct (cgroup_loop cs enc f src tot dst d) none.
Proof.
  revert src tot dst d. induction f as [|f IH]; intros; cbn [cgroup_loop]; [apply acct_nofuel|]. acct_tac.
Qed.
#[local] Hint Resolve read_src_acct escape_src_acct escape_cmd_acct cgroup_loop_acct : adb.

Lemma fill_cgroup_cvt_acct dir p : acct (fill_cgroup_cvt cs enc fuel dir p) none.
Proof. unfold fill_cgroup_cvt. acct_tac. Qed.
Lemma fill_cmdline_cvt_acct dir p : acct (fill_cmdline_cvt cs enc fuel dir p) none.
Proof. unfold fill_cmdline_cvt. acct_tac. Qed.
Lemma fill_environ_cvt_acct dir p : acct (fill_environ_cvt cs enc fuel dir p) none.
Proof. unfold fill_environ_cvt. acct_tac. Qed.
Lemma lxc_containers_acct path : acct (lxc_containers fuel path) none.
Proof. unfold lxc_containers. acct_tac. Qed.
Lemma readlink_exe_acct path : acct (readlink_exe cs enc path) none.
Proof. unfold readlink_exe. acct_tac. Qed.
Lemma ns_stat_acct pid l : acct (Namespace.ns_stat pid l) none.
Proof. induction l as [|n l IH]; cbn [Namespace.ns_stat]; acct_tac. Qed.
#[local] Hint Resolve fill_cgroup_cvt_acct fill_cmdline_cvt_acct fill_environ_cvt_acct lxc_containers_acct
  readlink_exe_acct ns_stat_acct : adb.

(** *** The steps of the readers *)

Lemma when_acct b f s : (forall s, acct (f s) none) -> acct (when b f s) none.
Proof. intros Hf. unfold when. acct_tac. Qed.
Lemma add_rc_acct f s : (forall p, acct (f p) none) -> acct (add_rc f s) none.
Proof. intros Hf. unfold add_rc. acct_tac. Qed.
Lemma setting_acct f s : (forall p, acct (f p) none) -> acct (setting f s) none.
Proof. intros Hf. unfold setting. acct_tac. Qed.
Lemma reading_acct path what f s : (forall b s, acct (f b s) none) -> acct (reading fuel path what f s) none.
Proof. intros Hf. unfold reading. acct_tac. Qed.
#[local] Hint Resolve when_acct add_rc_acct setting_acct reading_acct : adb.

Lemma parsing_acct f b s : acct (parsing f b s) none.
Proof. unfold parsing. acct_tac. Qed.
Lemma vector_acct path what f s : acct (vector fuel path what f s) none.
Proof. unfold vector. acct_tac. Qed.
Lemma user_name_acct i f p : acct (user_name getpwuid i f p) none.
Proof. unfold user_name. acct_tac. Qed.
Lemma group_name_acct i f p : acct (group_name getgrgid i f p) none.
Proof. unfold group_name. acct_tac. Qed.
#[local] Hint Resolve parsing_acct vector_acct user_name_acct group_name_acct : adb.

Lemma fill_status_acct flags path i s : acct (fill_status cs enc getpwuid getgrgid fuel flags path i s) none.
Proof.
  unfold fill_status. apply reading_acct. intros b s0.
  repeat (eapply (acct_bind _ _ none);
    [solve [eauto with adb | apply when_acct; intros; apply setting_acct; intros; acct_tac]|intros ?; cbn beta]).
  eapply acct_mono; [apply when_acct; intros; apply setting_acct; intros; acct_tac|acct_leaf].
Qed.
#[local] Hint Resolve fill_status_acct : adb.

Lemma fill_first_acct flags path i s : acct (fill_first cs enc getpwuid getgrgid fuel flags path i s) none.
Proof. unfold fill_first. acct_tac. Qed.
Lemma fill_environ_acct flags path s : acct (fill_environ cs enc fuel flags path s) none.
Proof. unfold fill_environ. acct_tac. Qed.
Lemma fill_cmdline_acct flags path s : acct (fill_cmdline cs enc fuel flags path s) none.
Proof. unfold fill_cmdline. acct_tac. Qed.
Lemma fill_cgroup_acct flags path s : acct (fill_cgroup cs enc fuel flags path s) none.
Proof. unfold fill_cgroup. acct_tac. Qed.
Lemma fill_names_acct flags s : acct (fill_names getpwuid getgrgid flags s) none.
Proof. unfold fill_names. acct_tac. Qed.
Lemma fill_oom_acct path s : acct (fill_oom fuel path s) none.
Proof. unfold fill_oom. acct_tac. Qed.
Lemma fill_exe_acct path s : acct (fill_exe cs enc path s) none.
Proof. unfold fill_exe. acct_tac. Qed.
Lemma fill_ns_acct p : acct (fill_ns p) none.
Proof. unfold fill_ns, Namespace.procps_ns_read_pid. acct_tac. Qed.
Lemma sd2proc_acct p : acct (sd2proc p) none.
Proof. apply dup_all_acct. Qed.
Lemma fill_lxc_acct path p : acct (fill_lxc fuel path p) none.
Proof. unfold fill_lxc. acct_tac. Qed.
Lemma fill_luid_acct path p : acct (fill_luid path p) none.
Proof. unfold fill_luid, login_uid. acct_tac. Qed.
Lemma autogroup_acct path p : acct (autogroup_fill path p) none.
Proof. unfold autogroup_fill. acct_tac. Qed.
#[local] Hint Resolve fill_first_acct fill_environ_acct fill_cmdline_acct fill_cgroup_acct fill_names_acct
  fill_oom_acct fill_exe_acct fill_ns_acct sd2proc_acct fill_lxc_acct fill_luid_acct autogroup_acct : adb.

Lemma simple_readproc_acct PT st p : acct (simple_readproc cs enc getpwuid getgrgid fuel PT st p) none.
Proof. unfold simple_readproc, fill_proc. acct_tac. Qed.
Lemma simple_readtask_acct PT st p path : acct (simple_readtask cs enc getpwuid getgrgid fuel PT st p path) none.
Proof. unfold simple_readtask, fill_task. acct_tac. Qed.
#[local] Hint Resolve simple_readproc_acct simple_readtask_acct : adb.

(** *** The streams a table holds *)

Definition hold (d : option Z) (h : handle) : Z :=
  match d with
  | Some x => match h with HDir v => if x =? v then 1 else 0 | _ => 0 end
  | None => 0
  end.
#[local] Arguments hold : simpl never.

Definition held_by (PT : PROCTAB) (h : handle) : Z := hold (procfs PT) h + hold (taskdir PT) h.

Lemma hold_None h : hold None h = 0.
Proof. done. Qed.

Lemma opendir_acct path : acct (sys (COpendir path))
  (fun r h => if r_val r <? 0 then 0 else hold (Some (r_val r)) h).
Proof.
  eapply acct_mono; [eapply acct_gains, gains_sys|]. unfold hold. acct_leaf.
Qed.
Lemma closedir_acct d : acct (_ ← sys (CClosedir d); mret tt) (fun _ h => - hold (Some d) h).
Proof.
  eapply acct_mono; [eapply (acct_bind _ _ (fun _ h => - hold (Some d) h) (fun _ h => - hold (Some d) h))|done].
  - eapply acct_mono; [eapply acct_gains, gains_sys|]. unfold hold. acct_leaf.
  - intros r. apply acct_ret. intros h Hh. lia.
Qed.
Lemma close_opt_acct d :
  acct (match d with Some d => _ ← sys (CClosedir d); mret tt | None => mret tt end) (fun _ h => - hold d h).
Proof. destruct d; [apply closedir_acct|by apply acct_ret]. Qed.

Lemma nextpid_loop_acct f dir PT p :
  acct (nextpid_loop f dir PT p) (fun r h => held_by r.1.2 h - held_by PT h).
Proof.
  revert p. induction f as [|f IH]; intros; cbn [nextpid_loop]; [apply acct_nofuel|].
  eapply (acct_bind _ _ none); [eauto with adb|]. intros e.
  destruct (_ || _); [apply acct_ret; intros h Hh; unfold none; cbn; lia|].
  destruct (numeric _).
  - eapply (acct_bind _ _ none); [eauto with adb|]. intros u. destruct (st_range _).
    + eapply acct_mono; [apply IH|]. intros; unfold none; lia.
    + apply acct_ret; intros h Hh; unfold none, held_by; cbn [fst snd procfs taskdir set_path]; lia.
  - eapply acct_mono; [apply IH|]. intros; unfold none; lia.
Qed.

Lemma nexttid_loop_acct f dir : acct (nexttid_loop f dir) none.
Proof. induction f as [|f IH]; cbn [nexttid_loop]; [apply acct_nofuel|]. acct_tac. Qed.

Lemma task_dir_acct PT tgid : acct (task_dir PT tgid) (fun r h => held_by r.2 h - held_by PT h).
Proof.
  unfold task_dir. destruct (_ =? _); [apply acct_ret; intros; cbn; lia|].
  eapply (acct_bind _ _ (fun _ h => - hold (taskdir PT) h)); [apply close_opt_acct|]. intros u.
  eapply acct_bind; [apply opendir_acct|]. intros d. cbn beta.
  destruct (r_val d <? 0); apply acct_ret; intros h Hh; unfold held_by;
    cbn [fst snd procfs taskdir set_task]; rewrite ?hold_None; lia.
Qed.

Lemma nexttid_acct PT p t : acct (simple_nexttid fuel PT p t) (fun r h => held_by r.1.1.2 h - held_by PT h).
Proof.
  unfold simple_nexttid. eapply acct_bind; [apply task_dir_acct|]. intros [ok PT']. cbn [snd].
  destruct ok; [|apply acct_ret; intros; cbn; lia]. cbn [negb].
  eapply (acct_bind _ _ none); [eauto with adb|]. intros dir.
  eapply (acct_bind _ _ none); [apply nexttid_loop_acct|]. intros [e|]; apply acct_ret; intros; unfold none; cbn; lia.
Qed.

Lemma find_pid_acct PT st p : acct (find_pid fuel PT st p) (fun r h => held_by r.1.1.2 h - held_by PT h).
Proof.
  unfold find_pid. destruct (finder PT).
  - eapply acct_bind; [unfold simple_nextpid; eapply (acct_bind _ _ none); [eauto with adb|];
      intros d; eapply acct_mono; [apply nextpid_loop_acct|]; intros a h Hh; unfold none;
      instantiate (1 := fun a h => held_by a.1.2 h - held_by PT h); cbn beta; lia|].
    intros [[n PT'] p']. apply acct_ret. intros; cbn; lia.
  - unfold listed_nextpid. destruct (pids PT) as [|pid rest]; [apply acct_undef|].
    destruct (pid =? 0); [apply acct_ret; intros; unfold held_by; cbn; lia|].
    eapply (acct_bind _ _ none); [eauto with adb|]. intros [n u]. destruct (n =? -1).
    + apply acct_ret; intros; unfold none, held_by; cbn; lia.
    + do 2 (eapply (acct_bind _ _ none); [eauto with adb|]; intros ?).
      apply acct_ret; intros; unfold none, held_by; cbn; lia.
Qed.

Lemma readproc_loop_acct f PT st p :
  acct (readproc_loop cs enc getpwuid getgrgid fuel f PT st p) (fun r h => held_by r.1.1.2 h - held_by PT h).
Proof.
  revert PT st p. induction f as [|f IH]; intros; cbn [readproc_loop]; [apply acct_nofuel|].
  eapply (acct_bind _ _ none); [eauto with adb|]. intros e.
  destruct (_ =? _); [apply acct_ret; intros; unfold none; cbn; lia|].
  eapply acct_bind; [apply find_pid_acct|]. intros [[[n PT'] st'] p']. cbn [fst snd].
  destruct (_ =? _); [apply acct_ret; intros; unfold none; cbn; lia|].
  eapply (acct_bind _ _ none); [eauto with adb|]. intros [[[] st2] p2].
  - apply acct_ret; intros; unfold none; cbn; lia.
  - eapply acct_mono; [apply IH|]. intros; unfold none; lia.
Qed.

Lemma next_proc_acct f PT st p :
  acct (next_proc cs enc getpwuid getgrgid fuel f PT st p) (fun r h => held_by r.1.1.2 h - held_by PT h).
Proof.
  revert PT st p. induction f as [|f IH]; intros; cbn [next_proc]; [apply acct_nofuel|].
  eapply (acct_bind _ _ none); [eauto with adb|]. intros e.
  destruct (_ =? _); [apply acct_ret; intros; unfold none; cbn; lia|].
  eapply acct_bind; [apply find_pid_acct|]. intros [[[n PT'] st'] p']. cbn [fst snd].
  destruct (_ =? _); [apply acct_ret; intros; unfold none; cbn; lia|].
  destruct (_ =? _); [apply acct_ret; intros; unfold none; cbn; lia|].
  eapply (acct_bind _ _ none); [eauto with adb|]. intros [[[] st2] p2].
  - apply acct_ret; intros; unfold none; cbn; lia.
  - eapply acct_mono; [apply IH|]. intros; unfold none; lia.
Qed.

Lemma either_loop_acct f tasks PT st p :
  acct (either_loop cs enc getpwuid getgrgid fuel f tasks PT st p) (fun r h => held_by r.1.1.2 h - held_by PT h).
Proof.
  revert tasks PT st p. induction f as [|f IH]; intros; cbn [either_loop]; [apply acct_nofuel|].
  eapply (acct_bind _ _ (fun r h => held_by r.1.1.2 h - held_by PT h)).
  { destruct tasks; [apply acct_ret; intros; cbn; lia|apply next_proc_acct]. }
  intros [[[[[]|] PT1] st1] p1]; cbn [fst snd]; [apply acct_ret; intros; cbn; lia| |apply acct_ret; intros; cbn; lia].
  eapply acct_bind; [apply nexttid_acct|]. intros [[[n PT2] p2] path]. cbn [fst snd].
  destruct (_ =? _); [eapply acct_mono; [apply IH|]; intros; cbn beta; lia|].
  eapply (acct_bind _ _ none); [destruct (_ =? _); eauto with adb|]. intros [[[] st2] p3]; cbn [negb].
  - apply acct_ret; intros; unfold none; cbn; lia.
  - eapply acct_mono; [apply IH|]. intros; unfold none; lia.
Qed.

Lemma close_procfs_acct d : acct (close_procfs d) (fun _ h => - hold d h).
Proof. unfold close_procfs. destruct d as [d|]; [apply (closedir_acct d)|apply acct_undef]. Qed.

Lemma alloc_buffers_acct PT : acct (alloc_buffers PT) (fun b h => if b : bool then 0 else - hold (procfs PT) h).
Proof.
  unfold alloc_buffers. eapply (acct_bind _ _ none); [eauto with adb|]. intros g.
  eapply (acct_bind _ _ (fun b h => if b : bool then 0 else - hold (procfs PT) h)).
  - destruct (src_buffer g); [by apply acct_ret|].
    eapply (acct_bind _ _ none); [eauto with adb|]. intros m. destruct (_ <? _).
    + eapply acct_bind; [apply close_procfs_acct|]. intros u. apply acct_ret. intros; unfold none; cbn beta; lia.
    + eapply (acct_bind _ _ none); [eauto with adb|]. intros u. by apply acct_ret.
  - intros [|]; cbn [negb]; [|apply acct_ret; intros; unfold none; lia].
    destruct (dst_buffer g); [by apply acct_ret|].
    eapply (acct_bind _ _ none); [eauto with adb|]. intros m. destruct (_ <? _).
    + eapply acct_bind; [apply close_procfs_acct|]. intros u.
      eapply (acct_bind _ _ none); [eauto with adb|]. intros u'. apply acct_ret. intros; unfold none; cbn beta; lia.
    + eapply (acct_bind _ _ none); [eauto with adb|]. intros u. by apply acct_ret.
Qed.

Lemma learn_acct st : acct (learn st) none.
Proof. unfold learn. acct_tac. Qed.

Lemma openproc_acct flags pidl uidl n st : acct (openproc flags pidl uidl n st)
  (fun r h => match r.1 with Some PT => held_by PT h | None => 0 end).
Proof.
  unfold openproc. eapply (acct_bind _ _ none); [eauto with adb|]. intros m.
  destruct (_ <? _); [by apply acct_ret|].
  eapply (acct_bind _ _ none); [apply learn_acct|]. intros st'.
  eapply (acct_bind _ _ (fun d h => match d with Some d => hold d h | None => 0 end)).
  - destruct (has _ _); [by apply acct_ret|]. eapply acct_bind; [apply opendir_acct|]. intros d.
    destruct (r_val d <? 0) eqn:E; apply acct_ret; intros; rewrite ?E; lia.
  - intros [d|]; [|by apply acct_ret].
    eapply acct_bind; [apply alloc_buffers_acct|]. intros [|]; apply acct_ret; intros h Hh;
      unfold none, held_by; cbn [fst procfs taskdir]; rewrite ?hold_None; lia.
Qed.

Lemma closeproc_acct PT : acct (closeproc PT) (fun _ h => - held_by PT h).
Proof.
  unfold closeproc. eapply (acct_bind _ _ (fun _ h => - hold (procfs PT) h)); [apply close_opt_acct|]. intros u.
  eapply acct_mono; [apply close_opt_acct|]. intros; unfold held_by; cbn beta; lia.
Qed.

(** A scan of the table: a call for each element, of [readeither] where it is
    true. *)
Fixpoint scan (rs : list bool) (PT : PROCTAB) (st : statics) (p : proc_t) : R (PROCTAB * statics * proc_t) :=
  match rs with
  | [] => mret (PT, st, p)
  | e :: rs =>
      '(_, PT, st, p) ← (if e : bool then readeither cs enc getpwuid getgrgid fuel PT st p
                         else readproc cs enc getpwuid getgrgid fuel PT st p);
      scan rs PT st p
  end.

Definition session (flags : Z) (pidl uidl : list Z) (n : Z) (rs : list bool) (st : statics) (p : proc_t) : R statics :=
  '(PT, st) ← openproc flags pidl uidl n st;
  match PT with
  | None => mret st
  | Some PT => '(PT, st, _) ← scan rs PT st p; _ ← closeproc PT; mret st
  end.

Lemma readeither_acct PT st p :
  acct (readeither cs enc getpwuid getgrgid fuel PT st p) (fun r h => held_by r.1.1.2 h - held_by PT h).
Proof. unfold readeither. destruct (new_p st); apply either_loop_acct. Qed.

Lemma scan_acct rs PT st p : acct (scan rs PT st p) (fun r h => held_by r.1.1 h - held_by PT h).
Proof.
  revert PT st p. induction rs as [|e rs IH]; intros; cbn [scan]; [apply acct_ret; intros; cbn; lia|].
  eapply (acct_bind _ _ (fun r h => held_by r.1.1.2 h - held_by PT h)).
  { destruct e; [apply readeither_acct|apply readproc_loop_acct]. }
  intros [[[b PT1] st1] p1]. cbn [fst snd]. eapply acct_mono; [apply IH|]. intros; cbn beta; lia.
Qed.

(** C26: a table opened with openproc, read with any calls of readproc and
    readeither and closed with closeproc leaves no descriptor and no directory
    stream open, and closes none that was not its own, whatever the system
    answers; the same when openproc fails. *)
Theorem session_balanced flags pidl uidl n rs st p o w :
  wlp (session flags pidl uidl n rs st p) o w (fun _ w' =>
    forall h, 0 <= handle_val h -> net h (w_tr w') = net h (w_tr w)).
Proof.
  assert (H : acct (session flags pidl uidl n rs st p) none).
  { unfold session. eapply acct_bind; [apply openproc_acct|]. intros [[PT|] st1]; cbn [fst]; [|by apply acct_ret].
    eapply acct_bind; [apply scan_acct|]. intros [[PT2 st2] p2]. cbn [fst snd].
    eapply acct_bind; [apply closeproc_acct|]. intros u. apply acct_ret. intros; unfold none; cbn beta; lia. }
  eapply wlp_mono; [apply H|]. intros a w' Hn h Hh. rewrite Hn by done. unfold none. lia.
Qed.
End readers_acct.
End Readproc.
