(* ===== verification/Procscan.v ===== *)
(** * procps/linux/readproc.c: what a scan of the process table returns

    The scan over a directory of /proc and the stat files in it: which processes
    [readproc] returns, with which data, and where it fails. *)

From stdpp Require Import base numbers list strings.
From S2P Require Import Prelude Libc Posix Escape Utils Stacks Fetch Procdata Procfiles Readproc.
Open Scope Z_scope.

Module Procscan.
Import Procdata Procfiles Readproc.

(** ** What reading a process leaves alone

    The position in a directory, and an [errno] that is not ENOMEM when no call
    runs out of memory. *)

Fixpoint readdirs (d : Z) (t : trace) : nat :=
  match t with
  | [] => 0
  | (CReaddir x, _) :: t' => if x =? d then S (readdirs d t') else readdirs d t'
  | _ :: t' => readdirs d t'
  end.

Definition roomy (o : os) : Prop := forall t c, r_errno (o t c) <> ENOMEM.

Definition quiet {A} (m : R A) : Prop := forall o w, roomy o ->
  wlp m o w (fun _ w' => (forall d, readdirs d (w_tr w') = readdirs d (w_tr w)) /\
    (w_errno w <> ENOMEM -> w_errno w' <> ENOMEM)).

Lemma quiet_ret {A} (a : A) : quiet (mret a).
Proof. by intros o w Ho. Qed.
Lemma quiet_undef {A} : quiet (A := A) undef.
Proof. by intros o w Ho. Qed.
Lemma quiet_nofuel {A} : quiet (A := A) nofuel.
Proof. by intros o w Ho. Qed.
Lemma quiet_deref {A} (x : option A) : quiet (deref x).
Proof. by destruct x. Qed.
Lemma quiet_getg : quiet getg.
Proof. by intros o w Ho. Qed.
Lemma quiet_modg f : quiet (modg f).
Proof. by intros o w Ho. Qed.
Lemma quiet_get_errno : quiet get_errno.
Proof. by intros o w Ho. Qed.

Definition no_readdir (c : call) : bool := match c with CReaddir _ => false | _ => true end.

Lemma quiet_sys c : no_readdir c = true -> quiet (sys c).
Proof.
  intros Hc o w Ho. split; [by destruct c|]. cbn. intros He. case_match; [apply Ho|done].
Qed.

Lemma quiet_bind {A B} (m : R A) (f : A -> R B) : quiet m -> (forall a, quiet (f a)) -> quiet (m ≫= f).
Proof.
  intros Hm Hf o w Ho. apply wlp_bind. eapply wlp_mono; [by apply Hm|]. intros a w1 [H1 H2].
  eapply wlp_mono; [by apply Hf|]. intros b w2 [H3 H4]. split; [intros d; by rewrite H3|auto].
Qed.

Create HintDb qdb.
#[local] Hint Resolve quiet_ret quiet_undef quiet_nofuel quiet_deref quiet_getg quiet_modg quiet_get_errno : qdb.
#[local] Hint Extern 1 (quiet (sys _)) => apply quiet_sys; reflexivity : qdb.

Ltac quiet_tac := repeat
  match goal with
  | |- quiet (mbind _ _) => apply quiet_bind; [|intros ?]
  | |- quiet (if ?b then _ else _) => destruct b
  | |- quiet (match ?x with _ => _ end) => destruct x
  | |- quiet _ => solve [auto with qdb]
  end.

Lemma quiet_read_grow f fd b t : quiet (read_grow f fd b t).
Proof. revert b t. induction f as [|f IH]; intros; cbn [read_grow]; quiet_tac; apply IH. Qed.
Lemma quiet_ready_ub u : quiet (ready_ub u).
Proof. unfold ready_ub. quiet_tac. Qed.
#[local] Hint Resolve quiet_read_grow quiet_ready_ub : qdb.
Lemma quiet_file2str f d what u : quiet (file2str f d what u).
Proof. unfold file2str. quiet_tac. Qed.
Lemma quiet_strdup s : quiet (strdup s).
Proof. unfold strdup. quiet_tac. Qed.
#[local] Hint Resolve quiet_strdup : qdb.
Lemma quiet_set_cmd cs enc raw p : quiet (set_cmd cs enc raw p).
Proof. unfold set_cmd, escape_to. quiet_tac. Qed.
#[local] Hint Resolve quiet_set_cmd : qdb.
Lemma quiet_stat2proc cs enc b p : quiet (stat2proc cs enc b p).
Proof. unfold stat2proc. quiet_tac. Qed.

Lemma wp_wlp_and {A} (m : R A) o w Q1 Q2 : wp m o w Q1 -> wlp m o w Q2 ->
  wp m o w (fun a w' => Q1 a w' /\ Q2 a w').
Proof. unfold wp, wlp. by destruct (m o w). Qed.

(** ** Names of process directories *)

Lemma dec_int_length n : 0 <= n <= INT_MAX -> (length (dec n) <= 10)%nat.
Proof.
  intros Hn. apply dec_length; [|lia]. change (10 ^ Z.of_nat 10) with 10000000000. unfold INT_MAX in Hn. lia.
Qed.

Lemma dec_go_head fuel : forall n acc, 0 < n < 2 ^ Z.of_nat fuel ->
  exists c r, dec_go fuel n acc = c :: r /\ 49 <= c <= 57.
Proof.
  induction fuel as [|f IH]; intros n acc Hn; [change (2 ^ Z.of_nat 0) with 1 in Hn; lia|].
  cbn [dec_go]. destruct (Z.ltb_spec n 10); [exists (48 + n), acc; split; [done|lia]|].
  apply IH. rewrite Nat2Z.inj_succ, Z.pow_succ_r in Hn by lia. split.
  - apply Z.div_str_pos. lia.
  - apply Z.div_lt_upper_bound; lia.
Qed.

Lemma dec_numeric n : 0 < n -> numeric (dec n) = true.
Proof.
  intros Hn. destruct (dec_go_head (S (Z.to_nat (Z.log2 n))) n []) as (c & r & E & Hc).
  { pose proof (dec_fuel n ltac:(lia)). lia. }
  unfold dec, numeric. rewrite E. apply andb_true_iff. split; [apply Z.ltb_lt|apply Z.leb_le]; lia.
Qed.

Definition is_proc_id (n : Z) : Prop := 0 < n <= INT_MAX.

Lemma proc_path_short n : is_proc_id n -> (length (proc_path n) <= 16)%nat.
Proof.
  intros [H1 H2]. unfold proc_path. rewrite length_app, fmt_d_nonneg by lia.
  pose proof (dec_int_length n ltac:(lia)). cbn [length bs]. cbn. lia.
Qed.

Lemma proc_path_fits n : is_proc_id n -> snprintf PROCPATHLEN (proc_path n) = proc_path n.
Proof. intros Hn%proc_path_short. unfold snprintf, PROCPATHLEN. apply take_ge. lia. Qed.

Lemma join_proc n (what : string) : is_proc_id n -> (String.length what <= 40)%nat ->
  join_path (proc_path n) (bs what) = Some (proc_path n ++ 47 :: bs what).
Proof.
  intros Hn%proc_path_short Hw. unfold join_path. rewrite length_app. cbn [length].
  assert (length (bs what) = String.length what) as ->.
  { clear. unfold bs. rewrite length_map. induction what; cbn; [done|]. by f_equal. }
  unfold PROCPATHLEN. by destruct (Z.leb_spec 64 (Z.of_nat (length (proc_path n) + S (String.length what)))); [lia|].
Qed.

Lemma strtoul_pid n : is_proc_id n -> strtoul (dec n) = Strto n [] true false.
Proof.
  intros [H1 H2]. rewrite <- (app_nil_r (dec n)). apply strtoul_dec; [|done].
  unfold INT_MAX, ULONG_MAX in *. lia.
Qed.

(** ** A process system: files, directories and their listing *)

Record ProcSystem (o : os) (fs : bytes -> option bytes) (sts : bytes -> ret) (d : Z) (k : nat) (es : list bytes) : Prop := {
  ps_files : Files o fs;
  ps_memory : memory o;
  ps_roomy : roomy o;
  ps_stat : forall t p, o t (CStat p) = sts p;
  ps_dir : forall t, o t (CReaddir d) =
    match es !! (readdirs d t - k)%nat with Some e => rdata 1 e | None => rerr 0 end
}.

Section scan.
Context (cs : bool) (enc : option bytes) (getpwuid getgrgid : Z -> option bytes) (fuel : nat).
Context (o : os) (fs : bytes -> option bytes) (sts : bytes -> ret) (d : Z) (k : nat) (es : list bytes).
Hypothesis Hsys : ProcSystem o fs sts d k es.

Abbreviation sw_of w := (Escape.utf_switch (utf_sw (w_g w)) enc).

Definition wchan_fix (p : proc_t) : proc_t :=
  if 1 <? num p p_nlwp then set_num p_wchan ULONG_MAX p else p.

(** Only the stat file is asked for; the bit 0x10000000 means nothing to the
    reader. *)
Definition stat_only (flags : Z) : Prop := flags = PROC_FILLSTAT \/ flags = Z.lor 268435456 PROC_FILLSTAT.

Lemma fill_proc_stat flags path s : stat_only flags ->
  fill_proc cs enc getpwuid getgrgid fuel flags path s = mret (with_pr (wchan_fix (pr s)) s).
Proof. intros [->| ->]; unfold wchan_fix; destruct s as [r u p]; cbn [pr]; unfold fill_proc; cbn [pr]; by destruct (1 <? num p p_nlwp). Qed.

(** A process that is there: its stat file. *)
Record alive (pid : Z) (comm : bytes) (vs : list Z) : Prop := {
  al_id : is_proc_id pid;
  al_stat : r_val (sts (proc_path pid)) = 0;
  al_file : fs (proc_path pid ++ 47 :: bs "stat") = Some (print_stat pid comm vs);
  al_comm : Forall (fun c => c <> 0) comm;
  al_vals : Forall2 tok_ok stat_dirs vs;
  al_len : Z.of_nat (length (print_stat pid comm vs)) < INT_MAX - buffGRW;
  al_fuel : (length (print_stat pid comm vs) < fuel)%nat
}.

Lemma print_stat_nonempty pid comm vs : exists c r, print_stat pid comm vs = c :: r.
Proof. unfold print_stat. destruct (dec pid) as [|c r] eqn:E; [by apply dec_nonnil in E|]. by eexists _, _. Qed.

(** What the scan keeps from process to process. *)
Definition steady (w w' : world rstate) : Prop :=
  sw_of w' = sw_of w /\ (forall h, net h (w_tr w') = net h (w_tr w)) /\
  (forall x, readdirs x (w_tr w') = readdirs x (w_tr w)) /\ (w_errno w <> ENOMEM -> w_errno w' <> ENOMEM).

Lemma steady_stat path r (w : world rstate) : r = o (w_tr w) (CStat path) ->
  steady w (World ((CStat path, r) :: w_tr w) (if r_val r <? 0 then r_errno r else w_errno w) (w_g w)).
Proof.
  intros Hr. split; [done|]. split; [by intros []|]. split; [done|]. cbn. intros He.
  case_match; [subst r; apply (ps_roomy _ _ _ _ _ _ Hsys)|done].
Qed.

Lemma steady_trans w1 w2 w3 : steady w1 w2 -> steady w2 w3 -> steady w1 w3.
Proof.
  intros (A1 & A2 & A3 & A4) (B1 & B2 & B3 & B4). split; [congruence|].
  split; [intros h; by rewrite B2|]. split; [intros x; by rewrite B3|auto].
Qed.

Lemma read_stat_file flags pid comm vs s (w : world rstate) : stat_only flags ->
  alive pid comm vs -> ub_ok (ub s) -> (str (pr s) p_cmd = None -> (length comm <= 63)%nat) ->
  wp (fill_first cs enc getpwuid getgrgid fuel flags (proc_path pid) true s) o w (fun r w' =>
    r.1 = true /\ rc r.2 = rc s /\ ub_ok (ub r.2) /\ stat_result cs (sw_of w) comm vs (pr s) (pr r.2) /\ steady w w').
Proof.
  intros Hfl Ha Hu Hl. destruct Hsys as [Hf Hm Hr _ _].
  unfold fill_first.
  assert (has flags PROC_FILLSTAT = true /\ has flags PROC_FILLIO = false /\ has flags PROC_FILLSMAPS = false /\
          has flags PROC_FILLMEM = false /\ has flags PROC_FILLSTATUS = false) as (-> & -> & -> & -> & ->)
    by (by destruct Hfl as [->| ->]).
  wstep. wstep.
  eapply wp_mono; [apply wp_wlp_and; [eapply (file2str_file o fs Hm fuel (proc_path pid) (bs "stat"));
    [done|apply join_proc; [apply Ha|cbn; lia]|apply Ha|apply Ha|apply Ha]|by apply quiet_file2str]|].
  intros [n u] w1 [((tl & E) & Hg & Hn) [Hd He]]. injection E as -> ->.
  destruct (print_stat_nonempty pid comm vs) as (c & r & Ec).
  destruct (Z.ltb_spec (Z.of_nat (length (print_stat pid comm vs))) 1) as [H1|_]; [rewrite Ec in H1; cbn [length] in H1; lia|].
  destruct (Z.eqb_spec (Z.of_nat (length (print_stat pid comm vs))) (-1)); [lia|].
  wstep. apply wp_ret. wstep. unfold add_rc. cbn [pr]. wstep.
  destruct Ha as [Hid Hst Hfile Hcm Hv Hlen Hfuel].
  eapply wp_mono; [apply wp_wlp_and; [apply (stat2proc_line cs enc o pid comm vs tl (pr s)); try done; destruct Hid; lia|by apply quiet_stat2proc]|].
  intros [r0 p'] w2 [(H0 & Hres & Hsame) [Hd2 He2]]. cbn [fst snd] in *. subst r0.
  do 2 apply wp_ret. cbn [negb]. do 4 (wstep; apply wp_ret). apply wp_ret. cbn [fst snd rc ub pr]. split; [done|]. split; [lia|]. split; [cbn; by rewrite Ec|].
  rewrite Hg in Hres. split; [done|]. destruct Hsame as (Hs1 & _ & Hs3). unfold steady.
  split; [rewrite Hs1; by rewrite Hg|]. split; [intros h; by rewrite Hs3|]. split; [intros x; by rewrite Hd2|auto].
Qed.

(** The ids the reader takes from the directory. *)
Definition with_owner (pid : Z) (p : proc_t) : proc_t :=
  set_num p_egid (r_gid (sts (proc_path pid))) (set_num p_euid (r_uid (sts (proc_path pid))) p).

Lemma readproc_alive PT st p pid comm vs (w : world rstate) :
  alive pid comm vs -> stat_only (pt_flags PT) -> pt_path PT = proc_path pid -> ub_ok (ub_proc st) ->
  (str p p_cmd = None -> (length comm <= 63)%nat) ->
  wp (simple_readproc cs enc getpwuid getgrgid fuel PT st p) o w (fun r w' =>
    (exists q, r.2 = wchan_fix q /\ stat_result cs (sw_of w) comm vs (with_owner pid p) q) /\
    r.1.1 = negb (hide_k PT && ((num r.2 p_ppid =? 2) || (num r.2 p_tid =? 2))) /\
    (exists u, r.1.2 = set_ub_proc u st /\ ub_ok u) /\ steady w w').
Proof.
  intros Ha Hfl Hp Hu Hl. unfold simple_readproc. rewrite Hp. set (flags := pt_flags PT) in *. wstep. apply wp_sys_errno. intros sb Hsb.
  pose proof (steady_stat (proc_path pid) sb w Hsb) as Hst. set (w1 := World _ _ _) in *.
  rewrite (ps_stat _ _ _ _ _ _ Hsys) in Hsb. pose proof (al_stat _ _ _ Ha) as H0. rewrite <- Hsb in H0.
  rewrite H0. cbn [Z.eqb]. assert (has flags PROC_UID = false) as -> by (by destruct Hfl as [->| ->]). wstep. apply wp_ret. cbn [negb]. wstep.
  replace (set_num p_egid (r_gid sb) (set_num p_euid (r_uid sb) p)) with (with_owner pid p) by by rewrite Hsb.
  eapply wp_mono; [by apply (read_stat_file flags pid comm vs (Fill 0 (ub_proc st) (with_owner pid p)))|].
  intros [ok s] w2 (Hok & Hrc & Hub & Hres & Hst2). cbn [fst snd rc pr ub] in *. subst ok. cbn [negb].
  wstep. rewrite fill_proc_stat by done. apply wp_ret. destruct s as [r u q]. cbn [rc with_pr pr ub] in *. subst r.
  cbn [Z.eqb]. apply wp_ret. cbn [fst snd].
  assert (sw_of w1 = sw_of w) as <- by apply Hst.
  split; [by exists q|]. split; [done|]. split; [by exists u|]. by eapply steady_trans.
Qed.

(** The entries of /proc: files and directories that are no processes, processes
    that are gone when they are looked at, and processes. *)
Inductive entry := Other (name : bytes) | Gone (pid : Z) | Live (pid : Z) (comm : bytes) (vs : list Z).

Definition entry_name (e : entry) : bytes :=
  match e with Other n => n | Gone pid | Live pid _ _ => dec pid end.

Definition entry_ok (e : entry) : Prop :=
  match e with
  | Other n => n <> [] /\ numeric n = false
  | Gone pid => is_proc_id pid /\ r_val (sts (proc_path pid)) = -1
  | Live pid comm vs => alive pid comm vs /\ (length comm <= 63)%nat
  end.

(** The directory is read up to [ents]. *)
Definition at_entries (w : world rstate) (ents : list entry) : Prop :=
  (k <= readdirs d (w_tr w))%nat /\ drop (readdirs d (w_tr w) - k) es = map entry_name ents.

Fixpoint next_num (ents : list entry) : option (entry * list entry) :=
  match ents with
  | [] => None
  | Other _ :: r => next_num r
  | e :: r => Some (e, r)
  end.

Definition entry_id (e : entry) : Z := match e with Other _ => 0 | Gone pid | Live pid _ _ => pid end.

Lemma readdir_at ents (w : world rstate) : at_entries w ents ->
  o (w_tr w) (CReaddir d) = match ents with e :: _ => rdata 1 (entry_name e) | [] => rerr 0 end.
Proof.
  intros [Hk Hd]. rewrite (ps_dir _ _ _ _ _ _ Hsys). rewrite <- (Nat.add_0_r (readdirs d (w_tr w) - k)).
  rewrite <- lookup_drop, Hd. by destruct ents.
Qed.

Lemma at_next ents e g (w : world rstate) r : at_entries w ents ->
  at_entries (World ((CReaddir d, r) :: w_tr w) e g) (tl ents).
Proof.
  intros [Hk Hd]. unfold at_entries. cbn [w_tr readdirs]. rewrite Z.eqb_refl. split; [lia|].
  replace (S (readdirs d (w_tr w)) - k)%nat with ((readdirs d (w_tr w) - k) + 1)%nat by lia.
  rewrite <- drop_drop, Hd. by destruct ents.
Qed.

Definition found (pid : Z) (p : proc_t) : proc_t := set_num p_tid pid (set_num p_tgid pid p).

Definition found_post (ents : list entry) (PT : PROCTAB) (p : proc_t) (w : world rstate)
    (r : Z * PROCTAB * proc_t) (w' : world rstate) : Prop :=
  w_g w' = w_g w /\ (forall h, net h (w_tr w') = net h (w_tr w)) /\ w_errno w' = 0 /\
  match next_num ents with
  | Some (e, rest) => r = (1, set_path (proc_path (entry_id e)) PT, found (entry_id e) p) /\ at_entries w' rest
  | None => r = (0, PT, p) /\ at_entries w' []
  end.

Lemma nextpid_number pid rest PT p (w : world rstate) f e :
  is_proc_id pid -> e = Gone pid \/ (exists comm vs, e = Live pid comm vs) -> at_entries w (e :: rest) ->
  wp (nextpid_loop (S f) d PT p) o w (found_post (e :: rest) PT p w).
Proof.
  intros Hid He Hat. cbn [nextpid_loop]. wstep. wsys r Hr. rewrite (readdir_at _ w Hat) in Hr. subst r.
  assert (entry_name e = dec pid /\ entry_id e = pid /\ next_num (e :: rest) = Some (e, rest)) as (En & Ei & Enn)
    by (destruct He as [->|(? & ? & ->)]; done).
  cbn [r_val r_data rdata]. rewrite En.
  rewrite bool_decide_eq_false_2 by apply dec_nonnil. cbn [Z.ltb Z.compare orb].
  rewrite dec_numeric by apply Hid. rewrite strtoul_pid by done. cbn [st_range st_val]. wstep.
  unfold wp at 1. cbn [set_errno]. apply wp_ret. unfold found_post. rewrite Enn, Ei.
  split; [done|]. split; [by intros []|]. split; [done|]. split; [|by apply (at_next (e :: rest))].
  assert (i32 pid = pid) as E by (apply i32_small; destruct Hid; unfold INT_MIN, INT_MAX in *; lia).
  rewrite E. unfold found. cbn [num set_num]. rewrite decide_True by done. by rewrite proc_path_fits.
Qed.

Lemma nextpid_ok PT p : forall ents fl (w : world rstate),
  Forall entry_ok ents -> at_entries w ents -> (length ents < fl)%nat ->
  wp (nextpid_loop fl d PT p) o w (found_post ents PT p w).
Proof.
  induction ents as [|e ents IH]; intros [|f] w Hok Hat Hf; cbn [length] in Hf; try lia.
  - cbn [nextpid_loop]. wstep. apply wp_sys_errno. intros r Hr. rewrite (readdir_at _ w Hat) in Hr. subst r. cbn.
    split; [done|]. split; [by intros []|]. split; [done|]. split; [done|by apply (at_next [])].
  - inversion Hok as [|? ? He Hok']; subst. destruct e as [n|pid|pid comm vs].
    + destruct He as [Hn Hnum]. cbn [nextpid_loop]. wstep. apply wp_sys_errno. intros r Hr.
      rewrite (readdir_at _ w Hat) in Hr. subst r. cbn [r_val r_data rdata entry_name].
      rewrite bool_decide_eq_false_2 by done. cbn [Z.ltb Z.compare orb]. rewrite Hnum.
      eapply wp_mono; [apply IH; [done|by apply (at_next (Other n :: ents))|lia]|].
      intros r w' (H1 & H2 & H3 & H4). split; [done|]. split; [|done]. intros h. rewrite H2. by destruct h.
    + apply (nextpid_number pid); [apply He|by left|done].
    + apply (nextpid_number pid); [apply He|right; by eexists _, _|done].
Qed.

(** ** readproc on the entries *)

Fixpoint next_live (ents : list entry) : option (Z * bytes * list Z * list entry) :=
  match ents with
  | [] => None
  | Live pid comm vs :: r => Some (pid, comm, vs, r)
  | _ :: r => next_live r
  end.

Lemma next_live_num ents : next_live ents =
  match next_num ents with
  | None => None
  | Some (Live pid comm vs, r) => Some (pid, comm, vs, r)
  | Some (_, r) => next_live r
  end.
Proof. induction ents as [|[] ents IH]; done. Qed.

Lemma next_num_ok ents : Forall entry_ok ents -> match next_num ents with
  | None => True
  | Some (e, r) => entry_ok e /\ Forall entry_ok r /\ (length r < length ents)%nat /\ (forall n, e <> Other n)
  end.
Proof.
  induction 1 as [|[n|pid|pid comm vs] ents He Hents IH]; cbn [next_num length]; [done|..].
  - destruct (next_num ents) as [[e r]|]; [|done]. destruct IH as (? & ? & ? & ?). split; [done|]. split; [done|]. split; [lia|done].
  - split; [done|]. split; [done|]. split; [lia|done].
  - split; [done|]. split; [done|]. split; [lia|done].
Qed.

(** The data of a process, as [readproc] hands them out. *)
Record reads_as (sw : Z) (pid : Z) (comm : bytes) (vs : list Z) (p : proc_t) : Prop := {
  ra_tid : num p p_tid = pid;
  ra_tgid : num p p_tgid = pid;
  ra_euid : num p p_euid = r_uid (sts (proc_path pid));
  ra_egid : num p p_egid = r_gid (sts (proc_path pid));
  ra_cmd : str p p_cmd = Some (Escape.escaped cs sw comm 64);
  ra_fields : forall i f v, stat_fields !! i = Some f -> stored stat_dirs vs !! i = Some v -> f <> p_wchan ->
    num p f = if decide (f = p_nlwp /\ v = 0) then 1 else v;
  ra_wchan : 1 < num p p_nlwp -> num p p_wchan = ULONG_MAX
}.

Lemma wchan_fix_num p f : f <> p_wchan -> num (wchan_fix p) f = num p f.
Proof.
  intros Hf. unfold wchan_fix. destruct (1 <? _); [|done]. cbn [num set_num]. by rewrite decide_False by done.
Qed.

Lemma stat_reads sw pid comm vs p q : str p p_cmd = None ->
  stat_result cs sw comm vs (with_owner pid (found pid p)) q -> reads_as sw pid comm vs (wchan_fix q).
Proof.
  intros Hc (H1 & H2 & H3).
  assert (Ho : forall f, f ∉ stat_fields -> f <> p_wchan -> num (wchan_fix q) f = num (with_owner pid (found pid p)) f)
    by (intros f Hf Hw; rewrite wchan_fix_num by done; by apply H3).
  assert (Hn : forall f, bool_decide (f ∉ stat_fields) = true -> f ∉ stat_fields) by (intros f Hf; by eapply bool_decide_eq_true_1).
  split.
  1-4: rewrite Ho by (done || (apply Hn; by vm_compute)); done.
  - unfold wchan_fix. cbn [str with_owner found set_num] in H1. rewrite Hc in H1. by destruct (1 <? _).
  - intros i f v Hi Hv Hw. rewrite wchan_fix_num by done. by apply (H2 i).
  - intros Hl. unfold wchan_fix in *. destruct (Z.ltb_spec 1 (num q p_nlwp)); [done|lia].
Qed.

(** A table opened for all processes and their stat files. *)
Definition table_ok (PT : PROCTAB) : Prop :=
  procfs PT = Some d /\ finder PT = simple_finder /\ stat_only (pt_flags PT) /\ hide_k PT = false.

Definition calm (w w' : world rstate) : Prop :=
  sw_of w' = sw_of w /\ (forall h, net h (w_tr w') = net h (w_tr w)) /\ w_errno w' <> ENOMEM.

Lemma calm_trans w1 w2 w3 : calm w1 w2 -> calm w2 w3 -> calm w1 w3.
Proof. intros (A1 & A2 & _) (B1 & B2 & B3). split; [congruence|]. split; [intros h; by rewrite B2|done]. Qed.

Lemma steady_calm w w' : w_errno w <> ENOMEM -> steady w w' -> calm w w'.
Proof. intros He (A1 & A2 & _ & A4). split; [done|]. split; [done|auto]. Qed.

Lemma steady_at w w' ents : steady w w' -> at_entries w ents -> at_entries w' ents.
Proof. intros (_ & _ & A3 & _) [H1 H2]. unfold at_entries. by rewrite A3. Qed.

Lemma readproc_gone PT st p pid (w : world rstate) :
  pt_path PT = proc_path pid -> r_val (sts (proc_path pid)) = -1 ->
  wp (simple_readproc cs enc getpwuid getgrgid fuel PT st p) o w (fun r w' => r = (false, st, p) /\ steady w w').
Proof.
  intros Hp Hg. unfold simple_readproc. rewrite Hp. wstep. apply wp_sys_errno. intros sb Hsb.
  pose proof (steady_stat (proc_path pid) sb w Hsb) as Hst.
  rewrite (ps_stat _ _ _ _ _ _ Hsys) in Hsb. subst sb. rewrite Hg in *. by apply wp_ret.
Qed.

Definition read_post (ents : list entry) (w : world rstate)
    (r : bool * PROCTAB * statics * proc_t) (w' : world rstate) : Prop :=
  table_ok r.1.1.2 /\ ub_ok (ub_proc r.1.2) /\ calm w w' /\
  match next_live ents with
  | Some (pid, comm, vs, rest) =>
      r.1.1.1 = true /\ reads_as (sw_of w) pid comm vs r.2 /\ at_entries w' rest
  | None => r.1.1.1 = false /\ at_entries w' []
  end.

Lemma readproc_loop_ok : forall fl ents PT st p (w : world rstate),
  table_ok PT -> ub_ok (ub_proc st) -> Forall entry_ok ents -> at_entries w ents ->
  w_errno w <> ENOMEM -> str p p_cmd = None -> (length ents < fl)%nat -> (length ents < fuel)%nat ->
  wp (readproc_loop cs enc getpwuid getgrgid fuel fl PT st p) o w (read_post ents w).
Proof.
  induction fl as [|f IH]; intros ents PT st p w (Ht1 & Ht2 & Ht3 & Ht4) Hu Hok Hat He Hc Hf1 Hf2; [lia|].
  cbn [readproc_loop]. wstep. unfold wp at 1. cbn [get_errno].
  destruct (Z.eqb_spec (w_errno w) ENOMEM); [done|]. wstep. unfold find_pid. rewrite Ht2. wstep.
  unfold simple_nextpid. rewrite Ht1. wstep. apply wp_ret.
  eapply wp_mono; [by apply (nextpid_ok PT p ents fuel w)|].
  intros r w1 (Hg1 & Hn1 & He1 & Hr). unfold read_post. rewrite next_live_num.
  assert (Hcalm : calm w w1) by (split; [by rewrite Hg1|split; [done|by rewrite He1]]).
  pose proof (next_num_ok ents Hok) as Hnn. destruct (next_num ents) as [[e rest]|].
  2:{ destruct Hr as [-> Hat1]. apply wp_ret. by apply wp_ret. }
  destruct Hnn as (Hoke & Hokr & Hlen & Hno). destruct Hr as [-> Hat1]. apply wp_ret. cbn [Z.eqb]. wstep.
  assert (He1' : w_errno w1 <> ENOMEM) by by rewrite He1.
  assert (Hsw : sw_of w1 = sw_of w) by by rewrite Hg1.
  destruct e as [n0|pid|pid comm vs]; [by destruct (Hno n0)| |]; cbn [entry_id].
  - eapply wp_mono; [by apply (readproc_gone _ st _ pid); [|apply Hoke]|]. intros r w2 [-> Hst].
    eapply wp_mono; [apply IH; try done; [by eapply steady_at|by apply Hst|lia|lia]|].
    intros r w3 (H1 & H2 & H3 & H4). split; [done|]. split; [done|].
    assert (Hc2 : calm w w2) by (eapply calm_trans; [done|by apply steady_calm]).
    split; [by eapply calm_trans|]. destruct Hc2 as (<- & _). done.
  - destruct Hoke as [Ha Hl].
    eapply wp_mono; [by apply (readproc_alive _ st _ pid comm vs)|].
    intros [[got st'] p'] w2 ((q & Hq & Hres) & Hgot & (u & Hu' & Huu) & Hst). cbn [fst snd] in *. subst st'.
    cbn [hide_k set_path] in Hgot. rewrite Ht4 in Hgot. cbn [andb negb] in Hgot. subst got.
    apply wp_ret. cbn [fst snd]. split; [done|]. split; [done|].
    split; [eapply calm_trans; [done|by apply steady_calm]|]. split; [done|].
    rewrite Hsw in Hres. subst p'. split; [by eapply stat_reads|by eapply steady_at].
Qed.

(** Reading the whole table: the records until NULL. *)
Fixpoint read_all (fl : nat) (PT : PROCTAB) (st : statics) (p : proc_t) : R (list proc_t) :=
  match fl with
  | O => nofuel
  | S f =>
      '(got, PT, st, p) ← readproc cs enc getpwuid getgrgid fuel PT st p;
      if got : bool then ps ← read_all f PT st p; mret (p :: ps) else mret []
  end.

Fixpoint lives (ents : list entry) : list (Z * bytes * list Z) :=
  match ents with
  | [] => []
  | Live pid comm vs :: r => (pid, comm, vs) :: lives r
  | _ :: r => lives r
  end.

Lemma lives_next ents : lives ents =
  match next_live ents with Some (pid, comm, vs, r) => (pid, comm, vs) :: lives r | None => [] end.
Proof. induction ents as [|[] ents IH]; done. Qed.

Lemma next_live_ok ents : Forall entry_ok ents ->
  match next_live ents with Some (_, _, _, r) => Forall entry_ok r /\ (length r < length ents)%nat | None => True end.
Proof.
  induction 1 as [|[n|pid|pid comm vs] ents He Hents IH]; cbn [next_live length]; [done|..|split; [done|lia]];
    destruct (next_live ents) as [[[[? ?] ?] ?]|]; try done; destruct IH; (split; [done|lia]).
Qed.

(** C4: reading the table with PROC_FILLSTAT until NULL returns exactly the
    processes of the directory, in its order and each once: entries that are
    no processes and processes that are gone by the time they are looked at
    are passed over, and each record holds the ids, the owner, the printable
    name and every number of the stat file.  It needs no more steps than the
    directory has entries and leaves nothing open. *)
Theorem readproc_lists_processes fl ents PT st p w :
  table_ok PT -> ub_ok (ub_proc st) -> Forall entry_ok ents -> at_entries w ents -> w_errno w <> ENOMEM ->
  (length ents < fl)%nat -> (length ents < fuel)%nat ->
  wp (read_all fl PT st p) o w (fun ps w' =>
    Forall2 (fun '(pid, comm, vs) q => reads_as (sw_of w) pid comm vs q) (lives ents) ps /\
    forall h, net h (w_tr w') = net h (w_tr w)).
Proof.
  revert ents PT st p w. induction fl as [|f IH]; intros ents PT st p w Ht Hu Hok Hat He Hf1 Hf2; [lia|].
  cbn [read_all]. wstep. unfold readproc.
  eapply wp_mono; [by apply (readproc_loop_ok fuel ents PT st (free_acquired p) w)|].
  intros [[[got PT'] st'] p'] w1 (Ht' & Hu' & Hcalm & Hr). cbn [fst snd] in *.
  rewrite lives_next. pose proof (next_live_ok ents Hok) as Hn. destruct Hcalm as (Hsw & Hnet & He1).
  destruct (next_live ents) as [[[[pid comm] vs] rest]|]; destruct Hr as [-> Hr].
  - destruct Hr as [Hra Hat1]. destruct Hn as [Hokr Hlen]. wstep.
    eapply wp_mono; [apply (IH rest PT' st' p' w1); try done; lia|]. intros ps w2 [Hps Hnet2]. apply wp_ret.
    split; [|intros h; by rewrite Hnet2]. rewrite Hsw in Hps. by constructor.
  - apply wp_ret. by split; [constructor|].
Qed.

(** One round of [readproc] that finds a process. *)
Lemma readproc_round PT st p (w : world rstate) f pid comm vs rest Q :
  procfs PT = Some d -> finder PT = simple_finder -> stat_only (pt_flags PT) -> ub_ok (ub_proc st) ->
  w_errno w <> ENOMEM -> (0 < fuel)%nat -> alive pid comm vs -> (str p p_cmd = None -> (length comm <= 63)%nat) ->
  at_entries w (Live pid comm vs :: rest) ->
  (forall q u w', let p' := wchan_fix q in let PT' := set_path (proc_path pid) PT in
     stat_result cs (sw_of w) comm vs (with_owner pid (found pid p)) q -> ub_ok u -> calm w w' -> at_entries w' rest ->
     wp (if negb (hide_k PT && ((num p' p_ppid =? 2) || (num p' p_tid =? 2)))
         then mret (true, PT', set_ub_proc u st, p')
         else readproc_loop cs enc getpwuid getgrgid fuel f PT' (set_ub_proc u st) p') o w' Q) ->
  wp (readproc_loop cs enc getpwuid getgrgid fuel (S f) PT st p) o w Q.
Proof.
  intros H1 H2 H3 Hu He Hf Ha Hl Hat HQ. cbn [readproc_loop]. wstep. unfold wp at 1. cbn [get_errno].
  destruct (Z.eqb_spec (w_errno w) ENOMEM); [done|]. wstep. unfold find_pid. rewrite H2. wstep.
  unfold simple_nextpid. rewrite H1. wstep. apply wp_ret.
  assert (Hid : is_proc_id pid) by apply Ha.
  assert (Hfs : exists fu, fuel = S fu) by (destruct fuel; [lia|by eexists]). destruct Hfs as [fu Hfu].
  eapply wp_mono; [rewrite Hfu; apply (nextpid_number pid rest PT p w fu (Live pid comm vs)); [done|right; by eexists _, _|done]|].
  intros r w1 (Hg1 & Hn1 & He1 & Hr). cbn [next_num entry_id] in Hr. destruct Hr as [-> Hat1].
  apply wp_ret. cbn [Z.eqb]. wstep.
  eapply wp_mono; [by apply (readproc_alive _ st _ pid comm vs)|].
  intros [[got st'] p'] w2 ((q & Hq & Hres) & Hgot & (u & Hu' & Huu) & Hst). cbn [fst snd hide_k set_path] in *.
  subst st' p' got. apply HQ; [by rewrite <- Hg1|done| |by eapply steady_at].
  eapply calm_trans; [split; [by rewrite Hg1|split; [exact Hn1|by rewrite He1]]|].
  apply steady_calm; [by rewrite He1|done].
Qed.

(** A hidden kernel thread leaves its name in the record: with
    LIBPROC_HIDE_KERNEL set, the process after kthreadd is returned with its
    own id but under the name of kthreadd. *)
Theorem readproc_hidden_name comm1 vs1 pid comm2 vs2 rest PT st p w :
  procfs PT = Some d -> finder PT = simple_finder -> stat_only (pt_flags PT) -> hide_k PT = true ->
  ub_ok (ub_proc st) -> w_errno w <> ENOMEM -> (2 < fuel)%nat ->
  alive 2 comm1 vs1 -> (length comm1 <= 63)%nat -> alive pid comm2 vs2 -> pid <> 2 ->
  (exists v, stored stat_dirs vs2 !! 1%nat = Some v /\ v <> 2) ->
  at_entries w (Live 2 comm1 vs1 :: Live pid comm2 vs2 :: rest) ->
  wp (readproc cs enc getpwuid getgrgid fuel PT st p) o w (fun r w' =>
    r.1.1.1 = true /\ num r.2 p_tid = pid /\ str r.2 p_cmd = Some (Escape.escaped cs (sw_of w) comm1 64)).
Proof.
  intros H1 H2 H3 H4 Hu He Hf Ha1 Hl1 Ha2 Hp2 (v & Hv & Hv2) Hat. unfold readproc.
  assert (Hfs : exists fu, fuel = S (S fu)) by (destruct fuel as [|[|fu]]; [lia..|by eexists]).
  destruct Hfs as [fu Hfu]. rewrite Hfu at 2.
  assert (Htid : forall n q p0 sw c vs', stat_result cs sw c vs' (with_owner n (found n p0)) q -> num (wchan_fix q) p_tid = n).
  { intros n q p0 sw c vs' (_ & _ & Hq). rewrite wchan_fix_num, Hq; [done| |done].
    apply (bool_decide_unpack _); by vm_compute. }
  assert (Hcmd : forall q, str (wchan_fix q) = str q) by (intros q; unfold wchan_fix; by destruct (1 <? _)).
  eapply readproc_round; [done|done|done|done|done|lia|exact Ha1|done|done|]. cbn zeta. intros q u w1 Hq Huu Hc Hat1.
  rewrite H4, (Htid _ _ _ _ _ _ Hq), orb_true_r. cbn [andb negb].
  destruct Hc as (Hsw & Hnet & He1).
  assert (Hq1 : str (wchan_fix q) p_cmd = Some (Escape.escaped cs (sw_of w) comm1 64)) by (rewrite Hcmd; apply Hq).
  eapply readproc_round; [done|done|done|done|done|lia|exact Ha2|by rewrite Hq1|done|]. cbn zeta.
  intros q2 u2 w2 Hqq Huu2 Hc2 Hat2. cbn [hide_k set_path]. rewrite H4, (Htid _ _ _ _ _ _ Hqq).
  assert (Hpp : num (wchan_fix q2) p_ppid = v).
  { rewrite wchan_fix_num by done. destruct Hqq as (_ & Hfld & _). rewrite (Hfld 1%nat p_ppid v) by done.
    by rewrite decide_False by (by intros [? _]). }
  rewrite Hpp. destruct (Z.eqb_spec v 2); [done|]. destruct (Z.eqb_spec pid 2); [done|]. cbn [orb andb negb].
  apply wp_ret. cbn [fst snd]. split; [done|]. split; [by eapply Htid|].
  rewrite Hcmd. destruct Hqq as (Hc0 & _). rewrite Hc0. cbn [str with_owner found set_num]. by rewrite Hq1.
Qed.
End scan.

(** ** openproc without memory *)

Section buffers.
Context (cs : bool) (enc : option bytes) (fuel : nat).

(** The buffers behind an [openproc] that ran out of memory. *)
Lemma alloc_buffers_failed PT o (w : world rstate) :
  wlp (alloc_buffers PT) o w (fun ok w' => ok = false ->
    (dst_buffer (w_g w') = dst_buffer (w_g w)) /\
    (src_buffer (w_g w') = None \/ dst_buffer (w_g w') = None /\ src_buffer (w_g w') = Some [])).
Proof.
  assert (Hcl : forall w0 (Q : unit -> world rstate -> Prop), (forall t e, Q tt (World t e (w_g w0))) ->
    wlp (close_procfs (procfs PT)) o w0 Q).
  { intros w0 Q HQ. unfold close_procfs. destruct (procfs PT); [|done]. do 2 apply wlp_bind. wsys r Hr. apply HQ. }
  unfold alloc_buffers. apply wlp_bind. unfold wlp at 1. cbn [getg]. apply wlp_bind.
  assert (Hdst : forall w1 : world rstate, dst_buffer (w_g w1) = dst_buffer (w_g w) ->
    wlp (match dst_buffer (w_g w) with
         | Some _ => mret true
         | None => m ← sys (CMalloc MAX_BUFSZ);
             if r_val m <? 0 then _ ← close_procfs (procfs PT); _ ← put_src []; mret false
             else _ ← put_dst (replicate (Z.to_nat MAX_BUFSZ) 0); mret true
         end) o w1 (fun ok w' => ok = false ->
      dst_buffer (w_g w') = dst_buffer (w_g w) /\
      (src_buffer (w_g w') = None \/ dst_buffer (w_g w') = None /\ src_buffer (w_g w') = Some []))).
  { intros w1 Hw1. destruct (dst_buffer (w_g w)); [done|]. apply wlp_bind. wsys m Hm. destruct (_ <? _); [|done].
    apply wlp_bind. apply Hcl. intros t e' _. split; [exact Hw1|]. right. by split. }
  destruct (src_buffer (w_g w)) eqn:E; [by apply Hdst|]. apply wlp_bind. wsys m Hm.
  destruct (_ <? _); [|by apply (Hdst (World _ _ _))].
  apply wlp_bind. apply Hcl. intros t e'. cbn. intros _. split; [done|]. by left.
Qed.

(** An openproc that gets the first buffer and not the second frees the
    first one and keeps the pointer: the next openproc succeeds with it, and
    reading a command line then writes to freed memory. *)
Theorem openproc_dangling_buffer PT PT2 o1 o2 w w1 dir p :
  alloc_buffers PT o1 w = Done false w1 -> src_buffer (w_g w1) <> None -> memory o2 ->
  wp (alloc_buffers PT2) o2 w1 (fun ok w2 => ok = true /\
    fill_cmdline_cvt cs enc fuel dir p o2 w2 = Undef w2).
Proof.
  intros Hf Hs Hm. pose proof (wlp_done _ _ _ _ _ _ Hf (alloc_buffers_failed PT o1 w)) as H.
  destruct (H eq_refl) as [_ [|[Hd Hsrc]]]; [done|]. unfold alloc_buffers. wstep. unfold wp at 1. cbn [getg].
  rewrite Hsrc, Hd. wstep. apply wp_ret. cbn [negb]. wstep. wsys m Hmm.
  destruct (Z.ltb_spec (r_val m) 0); [subst m; specialize (Hm (w_tr w1) MAX_BUFSZ); lia|].
  wstep. unfold wp at 1, put_dst. cbn [modg]. apply wp_ret. split; [done|].
  unfold fill_cmdline_cvt, read_src, take_src, mbind, M_bind, getg. cbn [w_g src_buffer set_dst].
  rewrite Hsrc. done.
Qed.
End buffers.

(** ** Witnesses *)

(** A system with the files [fs] and one directory [d]. *)
Definition proc_os (fs : bytes -> option bytes) (sts : bytes -> ret) (d : Z) (es : list bytes) : os := fun t c =>
  match c with
  | CStat p => sts p
  | CReaddir x =>
      if x =? d then match es !! (readdirs d t)%nat with Some e => rdata 1 e | None => rerr 0 end else rerr 0
  | _ => served fs t c
  end.

Lemma proc_os_system fs sts d es : (forall p, r_errno (sts p) <> ENOMEM) ->
  ProcSystem (proc_os fs sts d es) fs sts d 0 es.
Proof.
  intros Hs. split; [|done| |done|].
  - split; [apply served_files|]. intros t fd n p k body. apply served_files.
  - intros t [] ; cbn; try done; repeat case_match; try done; apply Hs.
  - intros t. cbn. by rewrite Z.eqb_refl, Nat.sub_0_r.
Qed.

Definition demo_comm : bytes := bs "a) (b".

(** /proc/7 is gone, /proc/2 and /proc/9 are processes. *)
Definition demo_entries : list entry :=
  [Other (bs "self"); Live 2 (bs "kthreadd") sample_stat; Gone 7; Other (bs "0x"); Live 9 demo_comm sample_stat].
Definition demo_fs : bytes -> option bytes := fun p =>
  if decide (p = bs "/proc/2/stat") then Some (print_stat 2 (bs "kthreadd") sample_stat) else
  if decide (p = bs "/proc/9/stat") then Some (print_stat 9 demo_comm sample_stat) else None.
Definition demo_sts : bytes -> ret := fun p => if decide (p = bs "/proc/7") then rerr 2 else rok 0.
Definition demo_os : os := proc_os demo_fs demo_sts 5 (map entry_name demo_entries).

Lemma demo_system : ProcSystem demo_os demo_fs demo_sts 5 0 (map entry_name demo_entries).
Proof. apply proc_os_system. intros p. unfold demo_sts. by destruct (decide _). Qed.

Lemma demo_alive2 : alive 400 demo_fs demo_sts 2 (bs "kthreadd") sample_stat.
Proof.
  split; [by split|vm_compute; reflexivity|vm_compute; reflexivity| |apply sample_stat_ok| |].
  - repeat (constructor; [done|]); constructor.
  - apply Z.ltb_lt. vm_compute. reflexivity.
  - apply Nat.ltb_lt. vm_compute. reflexivity.
Qed.

Lemma demo_alive9 : alive 400 demo_fs demo_sts 9 demo_comm sample_stat.
Proof.
  split; [by split|vm_compute; reflexivity|vm_compute; reflexivity| |apply sample_stat_ok| |].
  - repeat (constructor; [done|]); constructor.
  - apply Z.ltb_lt. vm_compute. reflexivity.
  - apply Nat.ltb_lt. vm_compute. reflexivity.
Qed.

Lemma demo_entries_ok : Forall (entry_ok 400 demo_fs demo_sts) demo_entries.
Proof.
  repeat (apply Forall_cons; split); [..|constructor]; cbn [entry_ok].
  - by split.
  - split; [apply demo_alive2|cbn; lia].
  - split; [by split|by vm_compute].
  - by split.
  - split; [apply demo_alive9|cbn; lia].
Qed.

Definition demo_table (hide : bool) : PROCTAB := Proctab (Some 5) None (-1) simple_finder [] [] 0 hide PROC_FILLSTAT [].

Lemma readproc_lists_processes_witness : exists ps w',
  read_all true None (fun _ => None) (fun _ => None) 400 10 (demo_table false) statics_init proc_zero demo_os sample_world
    = Done ps w' /\
  map (fun q => (num q p_tid, str q p_cmd)) ps = [(2, Some (bs "kthreadd")); (9, Some demo_comm)].
Proof.
  destruct (wp_done _ _ _ _ (readproc_lists_processes true None (fun _ => None) (fun _ => None) 400 demo_os demo_fs
    demo_sts 5 0 (map entry_name demo_entries) demo_system 10 demo_entries (demo_table false) statics_init proc_zero
    sample_world (conj eq_refl (conj eq_refl (conj (or_introl eq_refl) eq_refl))) I demo_entries_ok ltac:(done) ltac:(done) ltac:(cbn; lia) ltac:(cbn; lia)))
    as (ps & w' & E & Hps & _).
  exists ps, w'. split; [exact E|]. cbn [lives demo_entries] in Hps.
  inversion Hps as [|? q1 ? ? H1 Hps1]; subst. inversion Hps1 as [|? q2 ? ? H2 Hps2]; subst.
  inversion Hps2; subst. cbn [map]. by rewrite (ra_tid _ _ _ _ _ _ _ H1), (ra_tid _ _ _ _ _ _ _ H2),
    (ra_cmd _ _ _ _ _ _ _ H1), (ra_cmd _ _ _ _ _ _ _ H2).
Defined.

(** kthreadd and the process behind it. *)
Definition two_entries : list entry := [Live 2 (bs "kthreadd") sample_stat; Live 9 demo_comm sample_stat].
Definition two_os : os := proc_os demo_fs demo_sts 5 (map entry_name two_entries).

Lemma two_system : ProcSystem two_os demo_fs demo_sts 5 0 (map entry_name two_entries).
Proof. apply proc_os_system. intros p. unfold demo_sts. by destruct (decide _). Qed.

Lemma readproc_hidden_name_witness : exists r w',
  readproc true None (fun _ => None) (fun _ => None) 400 (demo_table true) statics_init proc_zero two_os sample_world
    = Done r w' /\ num r.2 p_tid = 9 /\ str r.2 p_cmd = Some (bs "kthreadd").
Proof.
  destruct (wp_done _ _ _ _ (readproc_hidden_name true None (fun _ => None) (fun _ => None) 400 two_os demo_fs
    demo_sts 5 0 (map entry_name two_entries) two_system (bs "kthreadd") sample_stat 9 demo_comm sample_stat []
    (demo_table true) statics_init proc_zero sample_world eq_refl eq_refl (or_introl eq_refl) eq_refl I ltac:(done) ltac:(cbn; lia)
    demo_alive2 ltac:(cbn; lia) demo_alive9 ltac:(done) ltac:(by exists 1) ltac:(done)))
    as (r & w' & E & _ & H1 & H2).
  exists r, w'. split; [exact E|]. split; [exact H1|]. rewrite H2. reflexivity.
Defined.

(** Memory for one buffer only. *)
Definition tight_os : os := fun t c =>
  match c with CMalloc _ => match t with [] => rok 1 | _ => rerr 12 end | _ => rok 1 end.

Lemma openproc_dangling_buffer_witness : exists w1 w2 ,
  alloc_buffers (demo_table false) tight_os sample_world = Done false w1 /\
  alloc_buffers (demo_table false) (served demo_fs) w1 = Done true w2 /\
  fill_cmdline_cvt true None 9 (bs "/proc/9") proc_zero (served demo_fs) w2 = Undef w2.
Proof.
  eexists. edestruct (wp_done _ _ _ _ (openproc_dangling_buffer true None 9 (demo_table false) (demo_table false)
    tight_os (served demo_fs) sample_world _ (bs "/proc/9") proc_zero eq_refl ltac:(done) (served_memory _)))
    as (ok & w2 & E & -> & H).
  exists w2. split; [reflexivity|]. split; [exact E|exact H].
Defined.
End Procscan.
