(* ===== verification/Pidhist.v ===== *)
(** * procps/linux/pids.c: the history of processes

    What was seen of each process in the last two frames: two arrays of entries
    and two hash tables over them, which change places at every frame.  An
    array is a list of entries, [None] where it was never written; a pointer to
    an array is [None] when it is NULL.  The two hash tables are members of the
    context, and which of them is the old one is a flag. *)

From stdpp Require Import base numbers list strings gmap.
From S2P Require Import Prelude Libc Posix Escape Utils Stacks Fetch Procdata.
Open Scope Z_scope.

Module Pidhist.
Import Procdata.

Definition NEWOLD_INIT : Z := 1024.
Definition NEWOLD_GROW : Z := 128.
Definition HHASH_SIZE : Z := 4096.
Definition HASH_PID (k : Z) : Z := Z.land k (HHASH_SIZE - 1).

(** ** Data *)

Record HST_t := HST { h_tics : Z; h_maj : Z; h_min : Z; h_pid : Z; h_lnk : Z }.

Definition HST_size : Z := 32.

Record history_info := History {
  num_tasks : Z;
  HHist_siz : Z;
  PHist_sav : option (list (option HST_t));
  PHist_new : option (list (option HST_t));
  HHash_one : list Z;
  HHash_two : list Z;
  HHash_nul : list Z;
  sav_is_one : bool                      (* PHash_sav is HHash_one, PHash_new is HHash_two *)
}.

Definition PHash_sav (h : history_info) : list Z := if sav_is_one h then HHash_one h else HHash_two h.
Definition PHash_new (h : history_info) : list Z := if sav_is_one h then HHash_two h else HHash_one h.

Definition set_PHash_new (l : list Z) (h : history_info) : history_info :=
  History (num_tasks h) (HHist_siz h) (PHist_sav h) (PHist_new h)
    (if sav_is_one h then HHash_one h else l) (if sav_is_one h then l else HHash_two h) (HHash_nul h) (sav_is_one h).
Definition set_PHist_new (a : option (list (option HST_t))) (h : history_info) : history_info :=
  History (num_tasks h) (HHist_siz h) (PHist_sav h) a (HHash_one h) (HHash_two h) (HHash_nul h) (sav_is_one h).
Definition set_tasks (n : Z) (h : history_info) : history_info :=
  History n (HHist_siz h) (PHist_sav h) (PHist_new h) (HHash_one h) (HHash_two h) (HHash_nul h) (sav_is_one h).
Definition set_arrays (siz : Z) (sav new : option (list (option HST_t))) (h : history_info) : history_info :=
  History (num_tasks h) siz sav new (HHash_one h) (HHash_two h) (HHash_nul h) (sav_is_one h).

(** ** Operations *)

Definition pids_config_history (h : history_info) : history_info :=
  let nul := replicate (Z.to_nat HHASH_SIZE) (-1) in
  History (num_tasks h) (HHist_siz h) (PHist_sav h) (PHist_new h) nul nul nul true.

(** The loop along a chain of the old entries. *)
Fixpoint hist_chain {G} (fuel : nat) (a : list (option HST_t)) (pid V : Z) : M G (option HST_t) :=
  if -1 <? V then
    match fuel with
    | O => nofuel
    | S f =>
        e ← deref (mjoin (a !! Z.to_nat V));
        if h_pid e =? pid then mret (Some e) else hist_chain f a pid (h_lnk e)
    end
  else mret None.

Definition pids_histget {G} (h : history_info) (pid : Z) : M G (option HST_t) :=
  V ← deref (PHash_sav h !! Z.to_nat (HASH_PID pid));
  if -1 <? V then a ← deref (PHist_sav h); hist_chain (length a) a pid V else mret None.

(** The entry [this], all but whose link was just written. *)
Definition pids_histput {G} (h : history_info) (e : HST_t) (this : Z) : M G history_info :=
  let V := Z.to_nat (HASH_PID (h_pid e)) in
  head ← deref (PHash_new h !! V);
  a ← deref (PHist_new h);
  if (length a <=? Z.to_nat this)%nat then undef else
  let h := set_PHist_new (Some (<[Z.to_nat this := Some (HST (h_tics e) (h_maj e) (h_min e) (h_pid e) head)]> a)) h in
  mret (set_PHash_new (<[V := this]> (PHash_new h)) h).

(** [realloc] of an array to [siz] entries; NULL when memory ran out (the old
    block is lost then). *)
Definition regrow {G} (siz : Z) (a : option (list (option HST_t))) : M G (option (list (option HST_t))) :=
  r ← sys (CMalloc (HST_size * siz));
  mret (if r_val r <? 0 then None
        else let l := default [] a in Some (l ++ replicate (Z.to_nat siz - length l) None)).

Definition is_none {A} (x : option A) : bool := match x with None => true | Some _ => false end.

Definition grow_hist {G} (h : history_info) : M G (bool * history_info) :=
  if num_tasks h + 1 >=? HHist_siz h then
    let siz := HHist_siz h + NEWOLD_GROW in
    sav ← regrow siz (PHist_sav h);
    new ← regrow siz (PHist_new h);
    mret (negb (is_none sav || is_none new), set_arrays siz sav new h)
  else mret (true, h).

Definition proc_tics (p : proc_t) : Z := u64 (num p p_utime + num p p_stime).

(** What is stored in the process for what was seen of it before. *)
Definition with_history (old : option HST_t) (p : proc_t) : proc_t :=
  match old with
  | Some e =>
      set_num p_pcpu (i32 (u64 (proc_tics p - h_tics e)))
        (set_num p_min_delta (i32 (u64 (num p p_min_flt - h_min e)))
           (set_num p_maj_delta (i32 (u64 (num p p_maj_flt - h_maj e))) p))
  | None => set_num p_pcpu (i32 (proc_tics p)) p
  end.

(** 1, or 0 when memory ran out. *)
Definition pids_make_hist {G} (h : history_info) (p : proc_t) : M G (Z * history_info * proc_t) :=
  let slot := num_tasks h in
  '(ok, h) ← grow_hist h;
  if negb ok then mret (0, h, p) else
  h ← pids_histput h (HST (proc_tics p) (num p p_maj_flt) (num p p_min_flt) (num p p_tid) 0) slot;
  old ← pids_histget h (num p p_tid);
  mret (1, set_tasks (num_tasks h + 1) h, with_history old p).

Definition pids_toggle_history (h : history_info) : history_info :=
  let h := History (num_tasks h) (HHist_siz h) (PHist_new h) (PHist_sav h)
             (HHash_one h) (HHash_two h) (HHash_nul h) (negb (sav_is_one h)) in
  set_tasks 0 (set_PHash_new (HHash_nul h) h).

(** ** Refinement

    The abstract history of a frame maps a process to its last counters: tics,
    major and minor faults.  Entries are listed newest first. *)

Record seen := Seen { s_pid : Z; s_tics : Z; s_maj : Z; s_min : Z }.

Definition saw (p : proc_t) : seen := Seen (num p p_tid) (proc_tics p) (num p p_maj_flt) (num p p_min_flt).

Definition frame (es : list seen) : gmap Z seen := list_to_map (map (fun e => (s_pid e, e)) es).

(** The newest entry of a bucket, by its index, or -1. *)
Fixpoint top (es : list seen) (b : Z) : Z :=
  match es with
  | [] => -1
  | e :: r => if HASH_PID (s_pid e) =? b then Z.of_nat (length r) else top r b
  end.

Definition entry (e : seen) (lnk : Z) : HST_t := HST (s_tics e) (s_maj e) (s_min e) (s_pid e) lnk.

(** The array holds the entries, each linked to the next older of its bucket. *)
Fixpoint array_ok (a : list (option HST_t)) (es : list seen) : Prop :=
  match es with
  | [] => True
  | e :: r => a !! length r = Some (Some (entry e (top r (HASH_PID (s_pid e))))) /\ array_ok a r
  end.

Definition table_ok (t : list Z) (es : list seen) : Prop :=
  length t = Z.to_nat HHASH_SIZE /\ forall b, 0 <= b < HHASH_SIZE -> t !! Z.to_nat b = Some (top es b).

(** The context holds the previous frame [prev] and the current one [cur]. *)
Definition hist_ok (h : history_info) (prev cur : list seen) : Prop :=
  (exists a, PHist_sav h = Some a /\ Z.of_nat (length a) = HHist_siz h /\ array_ok a prev) /\
  (exists a, PHist_new h = Some a /\ Z.of_nat (length a) = HHist_siz h /\ array_ok a cur) /\
  table_ok (PHash_sav h) prev /\ table_ok (PHash_new h) cur /\ table_ok (HHash_nul h) [] /\
  num_tasks h = Z.of_nat (length cur) /\ (length prev < Z.to_nat (HHist_siz h))%nat /\ num_tasks h < HHist_siz h.

(** What a frame reports of a process: the growth of its counters since the
    previous frame, or all its tics when it was not there. *)
Definition report (prev : gmap Z seen) (p : proc_t) : proc_t :=
  with_history ((fun e => entry e 0) <$> prev !! num p p_tid) p.

Lemma HASH_PID_range k : 0 <= HASH_PID k < HHASH_SIZE.
Proof.
  unfold HASH_PID, HHASH_SIZE. change (4096 - 1) with (Z.ones 12). rewrite Z.land_ones by lia.
  apply Z.mod_pos_bound. lia.
Qed.

Lemma top_range es b : -1 <= top es b < Z.of_nat (length es).
Proof. induction es as [|e r IH]; cbn [top length]; [lia|]. zcase; lia. Qed.

(** The search along the chain of a bucket finds the newest entry of the
    process, whatever the order of the others. *)
Lemma hist_chain_ok {G} o a pid es : array_ok a es -> forall fuel (w : world G), (length es <= fuel)%nat ->
  wp (hist_chain fuel a pid (top es (HASH_PID pid))) o w (fun r w' => w' = w /\
    (fun e => (h_tics e, h_maj e, h_min e)) <$> r =
    (fun e => (s_tics e, s_maj e, s_min e)) <$> frame es !! pid).
Proof.
  induction es as [|e r IH]; intros Ha fuel w Hf.
  { destruct fuel; (split; [done|]); unfold frame; cbn; by rewrite lookup_empty. }
  destruct Ha as [He Ha]. cbn [top]. destruct (Z.eqb_spec (HASH_PID (s_pid e)) (HASH_PID pid)) as [Eh|Eh].
  - destruct fuel as [|f]; [cbn in Hf; lia|]. cbn [hist_chain]. zcase.
    rewrite Nat2Z.id, He. cbn [mjoin option_join]. wstep. cbn [deref]. apply wp_ret. cbn [h_pid h_lnk entry].
    unfold frame. cbn [map list_to_map foldr fst snd]. destruct (Z.eqb_spec (s_pid e) pid) as [Ep|Ep].
    + split; [done|]. by rewrite Ep, lookup_insert_eq.
    + rewrite lookup_insert_ne by done. rewrite Eh. apply IH; [done|]. cbn in Hf. lia.
  - assert (s_pid e <> pid) by congruence.
    unfold frame. cbn [map list_to_map foldr fst snd]. rewrite lookup_insert_ne by done. apply IH; [done|]. cbn in Hf. lia.
Qed.

Lemma array_ok_insert a es i x : array_ok a es -> (length es <= i)%nat -> array_ok (<[i := x]> a) es.
Proof.
  induction es as [|e r IH]; [done|]. intros [He Ha] Hi. cbn [length] in Hi.
  split; [|apply IH; [done|lia]]. rewrite list_lookup_insert_ne by lia. done.
Qed.

Lemma array_ok_app a b es : array_ok a es -> array_ok (a ++ b) es.
Proof.
  induction es as [|e r IH]; [done|]. intros [He Ha]. split; [|by apply IH].
  rewrite lookup_app_l; [done|]. by eapply lookup_lt_Some.
Qed.

Lemma array_ok_length a es : array_ok a es -> (length es <= length a)%nat.
Proof. destruct es as [|e r]; [cbn; lia|]. intros [He _]. apply lookup_lt_Some in He. cbn. lia. Qed.

Lemma table_ok_insert t es e : table_ok t es ->
  table_ok (<[Z.to_nat (HASH_PID (s_pid e)) := Z.of_nat (length es)]> t) (e :: es).
Proof.
  intros [Hl Ht]. split; [by rewrite length_insert|]. intros b Hb. cbn [top].
  pose proof (HASH_PID_range (s_pid e)).
  destruct (Z.eqb_spec (HASH_PID (s_pid e)) b) as [<-|E].
  - apply list_lookup_insert_eq. rewrite Hl. apply Z2Nat.inj_lt; lia.
  - rewrite list_lookup_insert_ne by (intros E'; apply E; lia). by apply Ht.
Qed.

Lemma table_nul : table_ok (replicate (Z.to_nat HHASH_SIZE) (-1)) [].
Proof.
  split; [apply length_replicate|]. intros b Hb. apply lookup_replicate_2. apply Z2Nat.inj_lt; lia.
Qed.

(** *** The operations keep the correspondence *)

Lemma pids_toggle_history_ok h prev cur : hist_ok h prev cur -> hist_ok (pids_toggle_history h) cur [].
Proof.
  intros ((a & Ea & La & Ha) & (b & Eb & Lb & Hb) & Hs & Hn & H0 & Ht & Hp & Hr).
  assert (Esav : PHash_sav (pids_toggle_history h) = PHash_new h)
    by (unfold pids_toggle_history, PHash_sav, PHash_new; cbn; by destruct (sav_is_one h)).
  assert (Enew : PHash_new (pids_toggle_history h) = HHash_nul h)
    by (unfold pids_toggle_history, PHash_new; cbn; by destruct (sav_is_one h)).
  unfold hist_ok. rewrite Esav, Enew. cbn [pids_toggle_history set_tasks set_PHash_new PHist_sav PHist_new HHist_siz num_tasks HHash_nul].
  split; [by exists b|]. split; [by exists a|]. repeat split; try apply Hn; try apply H0; try done; lia.
Qed.

Lemma grow_hist_ok {G} o h prev cur (w : world G) : memory o -> hist_ok h prev cur ->
  wp (grow_hist h) o w (fun r w' => exists h', r = (true, h') /\ hist_ok h' prev cur /\
    num_tasks h' = num_tasks h /\ num_tasks h' + 1 < HHist_siz h' /\ forall x, net x (w_tr w') = net x (w_tr w)).
Proof.
  intros Hm Hok. pose proof Hok as ((a & Ea & La & Ha) & (b & Eb & Lb & Hb) & Hs & Hn & H0 & Ht & Hp & Hr).
  unfold grow_hist. rewrite Z.geb_leb. destruct (Z.leb_spec (HHist_siz h) (num_tasks h + 1)).
  2:{ apply wp_ret. exists h. repeat (split; [done|]). done. }
  unfold regrow. wstep. wstep. wsys r1 E1. apply wp_ret. wstep. wstep. wsys r2 E2. apply wp_ret.
  pose proof (Hm (w_tr w) (HST_size * (HHist_siz h + NEWOLD_GROW))) as M1. rewrite <- E1 in M1.
  assert (M2 : 0 <= r_val r2) by (rewrite E2; apply Hm). zcase. apply wp_ret. rewrite Ea, Eb. cbn [is_none orb negb].
  eexists. split; [done|]. unfold NEWOLD_GROW.
  split; [|split; [done|split; [cbn [set_arrays num_tasks HHist_siz]; lia|intros x; unfold net; cbn [w_tr foldr]; fd_leaf]]].
  unfold hist_ok, set_arrays, PHash_sav, PHash_new in *. cbn [PHist_sav PHist_new HHist_siz num_tasks HHash_nul HHash_one HHash_two sav_is_one] in *.
  split.
  { eexists. split; [done|]. split; [rewrite length_app, length_replicate; cbn; lia|by apply array_ok_app]. }
  split.
  { eexists. split; [done|]. split; [rewrite length_app, length_replicate; cbn; lia|by apply array_ok_app]. }
  repeat (split; [done|]). split; lia.
Qed.

Lemma pids_histput_ok {G} o h prev cur e (w : world G) : hist_ok h prev cur -> num_tasks h + 1 < HHist_siz h ->
  wp (pids_histput h (entry e 0) (num_tasks h)) o w (fun h' w' => w' = w /\
    hist_ok (set_tasks (num_tasks h' + 1) h') prev (e :: cur) /\ num_tasks h' = num_tasks h /\
    PHist_sav h' = PHist_sav h /\ PHash_sav h' = PHash_sav h).
Proof.
  intros ((a & Ea & La & Ha) & (b & Eb & Lb & Hb) & Hs & Hn & H0 & Ht & Hp & Hr) Hlt.
  pose proof Hn as [Hnl Hnt]. pose proof (HASH_PID_range (s_pid e)) as Hh.
  unfold pids_histput. cbn [entry h_pid h_tics h_maj h_min]. rewrite Hnt by done. wstep. cbn [deref]. apply wp_ret.
  rewrite Eb. wstep. cbn [deref]. apply wp_ret. rewrite Ht, Nat2Z.id.
  destruct (Nat.leb_spec (length b) (length cur)); [lia|]. apply wp_ret. split; [done|].
  set (b' := <[length cur := _]> b). set (t' := <[_ := Z.of_nat (length cur)]> _).
  set (h' := set_PHash_new t' (set_PHist_new (Some b') h)).
  assert (Esav : PHash_sav h' = PHash_sav h) by (unfold h', PHash_sav, set_PHash_new; cbn; by destruct (sav_is_one h)).
  assert (Enew : PHash_new h' = t') by (unfold h', PHash_new, set_PHash_new; cbn; by destruct (sav_is_one h)).
  split; [|done]. unfold hist_ok.
  change (PHash_sav (set_tasks _ h')) with (PHash_sav h'). change (PHash_new (set_tasks _ h')) with (PHash_new h').
  rewrite Esav, Enew. cbn [set_tasks PHist_sav PHist_new HHist_siz num_tasks HHash_nul set_PHash_new set_PHist_new h'].
  split; [by exists a|]. split.
  { exists b'. split; [done|]. split; [by unfold b'; rewrite length_insert|].
    split; [by apply list_lookup_insert_eq|]. apply array_ok_insert; [done|lia]. }
  split; [done|]. split; [by apply table_ok_insert|]. split; [done|]. split; [cbn [length]; lia|]. split; [done|lia].
Qed.

Lemma with_history_ext x y p :
  (fun e => (h_tics e, h_maj e, h_min e)) <$> x = (fun e => (s_tics e, s_maj e, s_min e)) <$> y ->
  with_history x p = with_history ((fun e => entry e 0) <$> y) p.
Proof. destruct x as [[]|], y as [[]|]; cbn; try done. by intros [= -> -> ->]. Qed.

Lemma pids_make_hist_ok {G} o h prev cur p (w : world G) : memory o -> hist_ok h prev cur ->
  wp (pids_make_hist h p) o w (fun r w' => exists h', r = (1, h', report (frame prev) p) /\
    hist_ok h' prev (saw p :: cur) /\ forall x, net x (w_tr w') = net x (w_tr w)).
Proof.
  intros Hm Hok. unfold pids_make_hist. wstep.
  eapply wp_mono; [by apply (grow_hist_ok o h prev cur)|]. intros r w1 (h1 & -> & Hok1 & E1 & Hlt & Hn1). cbn [negb].
  wstep. eapply wp_mono; [rewrite <- E1; by apply (pids_histput_ok o h1 prev cur (saw p))|].
  intros h2 w2 (-> & Hok2 & E2 & Esav & Ehash). wstep. unfold pids_histget.
  destruct Hok1 as ((a & Ea & La & Ha) & _ & [_ Hs] & _). rewrite Ehash, Hs by apply HASH_PID_range.
  apply (wp_mono _ _ _ (fun r w' => w' = w1 /\ (fun e => (h_tics e, h_maj e, h_min e)) <$> r =
    (fun e => (s_tics e, s_maj e, s_min e)) <$> frame prev !! num p p_tid)).
  - wstep. cbn [deref]. apply wp_ret. rewrite Esav, Ea.
    pose proof (hist_chain_ok o a (num p p_tid) prev Ha (length a) w1 (array_ok_length _ _ Ha)) as Hc.
    destruct (-1 <? top prev (HASH_PID (num p p_tid))) eqn:Et.
    + wstep. cbn [deref]. by apply wp_ret.
    + apply wp_ret. revert Hc. destruct (length a); cbn [hist_chain]; rewrite Et; done.
  - intros old w3 (-> & Eold). apply wp_ret. eexists. split; [|split; [exact Hok2|done]].
    unfold report. by rewrite (with_history_ext _ _ _ Eold).
Qed.

(** *** Frames *)

(** The processes of a frame one after another, as the fetch tallies them. *)
Fixpoint make_frame {G} (h : history_info) (ps : list proc_t) : M G (list proc_t * history_info) :=
  match ps with
  | [] => mret ([], h)
  | p :: r =>
      '(_, h, p) ← pids_make_hist h p;
      '(qs, h) ← make_frame h r;
      mret (p :: qs, h)
  end.

Lemma make_frame_ok {G} o prev ps : memory o -> forall h cur (w : world G), hist_ok h prev cur ->
  wp (make_frame h ps) o w (fun r w' => r.1 = map (report (frame prev)) ps /\
    hist_ok r.2 prev (reverse (map saw ps) ++ cur) /\ forall x, net x (w_tr w') = net x (w_tr w)).
Proof.
  intros Hm. induction ps as [|p r IH]; intros h cur w Hok; cbn [make_frame]; [by apply wp_ret|].
  wstep. eapply wp_mono; [by apply (pids_make_hist_ok o h prev cur)|]. intros x w1 (h1 & -> & Hok1 & Hn1).
  wstep. eapply wp_mono; [by apply (IH h1 (saw p :: cur))|]. intros [qs h2] w2 (E & Hok2 & Hn2). apply wp_ret.
  cbn [fst snd] in *. subst qs. split; [done|]. split; [|intros y; by rewrite Hn2, Hn1].
  cbn [map]. rewrite reverse_cons, <- app_assoc. done.
Qed.

(** C5: the two hash tables of the history implement a map from processes to
    their last counters.  After any frame, the next one reports of every
    process the growth of its tics and faults since its last occurrence in the
    frame before, or all its tics when it was not there; the context then holds
    the new frame, however many processes there were. *)
Theorem history_refines_map {G} o h prev cur ps (w : world G) : memory o -> hist_ok h prev cur ->
  wp (make_frame (pids_toggle_history h) ps) o w (fun r w' =>
    r.1 = map (report (frame cur)) ps /\ hist_ok r.2 cur (reverse (map saw ps)) /\
    forall x, net x (w_tr w') = net x (w_tr w)).
Proof.
  intros Hm Hok. eapply wp_mono; [apply (make_frame_ok o cur ps Hm _ []); by apply pids_toggle_history_ok in Hok|].
  intros r w'. by rewrite app_nil_r.
Qed.

(** ** Start and failure *)

(** The history of a new context. *)
Definition new_history : history_info :=
  let a := Some (replicate (Z.to_nat NEWOLD_INIT) (Some (HST 0 0 0 0 0))) in
  pids_config_history (History 0 NEWOLD_INIT a a [] [] [] true).

Lemma new_history_ok : hist_ok new_history [] [].
Proof.
  split; [eexists; split; [done|]; split; [by rewrite length_replicate|done]|].
  split; [eexists; split; [done|]; split; [by rewrite length_replicate|done]|].
  do 3 (split; [apply table_nul|]). split; [done|]. unfold NEWOLD_INIT. cbn [new_history pids_config_history HHist_siz num_tasks length]. unfold NEWOLD_INIT. lia.
Qed.

(** The arrays are replaced before the failure is noticed: with the new array
    gone, the next process that is tallied is stored through a NULL pointer. *)
Lemma make_hist_lost {G} o h p (w : world G) : PHist_new h = None -> num_tasks h + 1 < HHist_siz h ->
  length (PHash_new h) = Z.to_nat HHASH_SIZE -> pids_make_hist h p o w = Undef w.
Proof.
  intros Hn Hs Hl. unfold pids_make_hist, grow_hist. rewrite Z.geb_leb. zcase. unfold pids_histput. cbn [h_pid].
  pose proof (HASH_PID_range (num p p_tid)).
  destruct (lookup_lt_is_Some_2 (PHash_new h) (Z.to_nat (HASH_PID (num p p_tid)))) as [x Hx];
    [rewrite Hl; apply Z2Nat.inj_lt; lia|].
  unfold mbind, M_bind. cbn [mret M_ret negb]. rewrite Hx. cbn [deref mret M_ret]. by rewrite Hn.
Qed.

(** Two processes of one bucket, seen twice. *)
Definition counted_proc (pid tics : Z) : proc_t := set_num p_utime tics (set_num p_tid pid proc_zero).

Lemma history_refines_map_witness :
  wp (make_frame (pids_toggle_history new_history) [counted_proc 7 50; counted_proc 4103 60]) (fun _ _ => rok 1)
    (World [] 0 tt) (fun r w' =>
    r.1 = map (report (frame [])) [counted_proc 7 50; counted_proc 4103 60] /\
    hist_ok r.2 [] (reverse (map saw [counted_proc 7 50; counted_proc 4103 60])) /\
    forall x, net x (w_tr w') = net x []).
Proof.
  apply (history_refines_map (fun _ _ => rok 1) new_history [] []); [by intros ? ?|apply new_history_ok].
Defined.

Example second_frame : exists qs w,
  (let h := pids_toggle_history new_history in
   '(_, h) ← make_frame h [counted_proc 7 50; counted_proc 4103 60];
   '(qs, _) ← make_frame (pids_toggle_history h) [counted_proc 4103 75; counted_proc 9 5; counted_proc 7 50];
   mret qs) (fun _ _ => rok 1) (World [] 0 tt) = Done qs w /\ map (fun p => num p p_pcpu) qs = [15; 5; 0].
Proof. eexists _, _. split; [vm_compute; reflexivity|vm_compute; reflexivity]. Qed.
End Pidhist.
