(* ===== verification/Piditems.v ===== *)
(** * procps/linux/pids.c: items of a process

    The results of the process interface: the setters that fill a result from
    the process record, the functions that free and compare results, and the
    table that ties them to the items.  A setter that takes a string over from
    the record leaves NULL behind in it, as the code does, so that a string has
    one owner at any time. *)

From stdpp Require Import base numbers list strings.
From S2P Require Import Prelude Libc Posix Escape Utils Stacks Fetch Real Sysinfo Devname Procdata Procfiles Readproc.
Open Scope Z_scope.

Module Piditems.
Import Procdata Procfiles Readproc Real Devname.

(** ** Results *)

(** The members of the union, by their names. *)
Inductive ptype := s_ch | s_int | u_int | ul_int | ull_int | str | strv | real.

#[export] Instance ptype_eq_dec : EqDecision ptype.
Proof. solve_decision. Defined.

(** What the union holds: its eight bytes as a number, of which 0 is also the
    NULL pointer; a string; a vector of strings; a [double] (of [Real]). *)
Inductive pval := PNum (raw : Z) | PStr (s : bytes) | PStrv (v : list bytes) | PReal (x : Z).

#[export] Instance pval_eq_dec : EqDecision pval.
Proof. solve_decision. Defined.

Definition NULL : pval := PNum 0.

Definition bits (v : pval) : Z := match v with PNum raw => raw | _ => 0 end.

(** Storing a number through a member: a narrow one keeps the other bytes (of a
    pointer or a [double], which no reader looks at, they are taken as 0). *)
Definition put_num (t : ptype) (old : pval) (v : Z) : pval :=
  match t with
  | s_ch => PNum (bits old / 2 ^ 8 * 2 ^ 8 + wrap_u 8 v)
  | s_int | u_int => PNum (bits old / 2 ^ 32 * 2 ^ 32 + u32 v)
  | _ => PNum (u64 v)
  end.

Record presult := PResult { pr_item : Z; pr_result : pval }.
Abbreviation pstack := (list presult).

(** ** Freeing *)

Inductive freefunc := free_str | free_strv.

(** [free_pids_str] and [free_pids_strv]: undefined when the union does not
    hold what is to be freed. *)
Definition run_free (f : freefunc) (v : pval) : R unit :=
  match f, v with
  | _, PNum raw => if raw =? 0 then mret tt else undef
  | _, PReal x => if x =? 0 then mret tt else undef
  | free_str, PStr _ => mret tt
  | free_strv, PStrv _ => mret tt
  | _, _ => undef
  end.

(** ** Setters *)

Inductive psetter :=
| SNoop
| SExtra
| SReg (t : ptype) (f : nfield)
| SBorrow (f : sfield)
| SNs (i : nat)
| SCvt (f : nfield)
| SDup (f : afield)
| SStr (name : string) (f : sfield)
| SVec (name : string) (f : vfield)
| SSum (t : ptype) (fs : list nfield)
| SNode
| STimeAll (fs : list nfield)
| STimeElapsed
| STimeStart
| STty (flags : Z)
| SUtil (fs : list nfield)
| SWchan.

(** What the setters use of the context. *)
Record senv := SEnv { e_hertz : Z; e_boot : Z; e_shift : Z }.

(** The static variables of the other files that are used. *)
Record lib := Lib {
  rp : Readproc.statics;
  tty_map : tty_map_t;
  numa : Numa.nstate;
  self : proc_t                          (* of [fatal_proc_unmounted] *)
}.

Definition set_rp v l := Lib v (tty_map l) (numa l) (self l).
Definition set_tty v l := Lib (rp l) v (numa l) (self l).
Definition set_numa v l := Lib (rp l) (tty_map l) v (self l).
Definition set_self v l := Lib (rp l) (tty_map l) (numa l) v.

(** What a setter leaves: the union, the record, whether memory ran out, and
    the static variables. *)
Record sres := SRes { s_val : pval; s_proc : proc_t; s_err : bool; s_lib : lib }.

Definition plain (v : pval) (p : proc_t) (l : lib) : R sres := mret (SRes v p false l).

(** A copy of a string, or NULL and the error mark. *)
Definition dup_val (s : bytes) (p : proc_t) (l : lib) : R sres :=
  c ← strdup s;
  mret (match c with Some s => SRes (PStr s) p false l | None => SRes NULL p true l end).

Definition duplicate (name : string) : bytes := bs "[ duplicate " ++ bs name ++ bs " ]".

(** The sum of members, in [unsigned long] (which is as wide as [unsigned long
    long]). *)
Definition sum_of (fs : list nfield) (p : proc_t) : Z := u64 (foldr (fun f n => num p f + n) 0 fs).

(** [((double) P->utime + ...) / I->hertz], the summands converted one by one. *)
Definition time_all (e : senv) (fs : list nfield) (p : proc_t) : Z :=
  fdiv (foldl (fun x f => fadd x (of_int (num p f))) (of_int (num p p_utime)) fs) (of_int (e_hertz e)).

Definition time_start (e : senv) (p : proc_t) : Z := fdiv (of_int (num p p_start_time)) (of_int (e_hertz e)).

(** The product with [100.0f] and the division by [hertz] are done in [float]. *)
Definition utilization (e : senv) (fs : list nfield) (p : proc_t) : option Z :=
  if 0 <? e_boot e then
    let t := fsub (e_boot e) (time_start e p) in
    if 0 <? t then
      Some (fdiv (fdivf (fmulf (of_intf (sum_of fs p)) (of_intf 100)) (of_intf (e_hertz e))) t)
    else None
  else None.

Definition run_setter (s : psetter) (e : senv) (old : pval) (p : proc_t) (l : lib) : R sres :=
  match s with
  | SNoop => plain old p l
  | SExtra => plain (PNum 0) p l
  | SReg t f => plain (put_num t old (num p f)) p l
  | SBorrow f => plain (match Procdata.str p f with Some t => PStr t | None => NULL end) p l
  | SNs i => v ← deref (nss p !! i); plain (put_num ul_int old v) p l
  | SCvt f => plain (put_num ul_int old (i64 (num p f) * 2 ^ e_shift e)) p l
  | SDup f => _ ← run_free free_str old; t ← deref (cstr (arr p f)); dup_val t p l
  | SStr name f =>
      _ ← run_free free_str old;
      match Procdata.str p f with
      | Some t => plain (PStr t) (Procdata.set_str f None p) l
      | None => dup_val (duplicate name) p l
      end
  | SVec name f =>
      _ ← run_free free_strv old;
      match vec p f with
      | Some v => plain (PStrv v) (set_vec f None p) l
      | None =>
          v ← vectorize_this_str (duplicate name);
          mret (match v with Some v => SRes (PStrv v) p false l | None => SRes NULL p true l end)
      end
  | SSum t fs => plain (put_num t old (sum_of fs p)) p l
  | SNode => node ← deref (Numa.numa_node_of_cpu (numa l)); plain (put_num s_int old (node (num p p_processor))) p l
  | STimeAll fs => plain (PReal (time_all e fs p)) p l
  | STimeElapsed =>
      let t := time_start e p in
      plain (PReal (if t <? e_boot e then fsub (e_boot e) t else 0)) p l
  | STimeStart => plain (PReal (time_start e p)) p l
  | STty flags =>
      _ ← run_free free_str old;
      '(_, buf, m) ← dev_to_tty (replicate 64 0) 64 (num p p_tty) (num p p_tid) flags (tty_map l);
      t ← deref (cstr buf);
      dup_val t p (set_tty m l)
  | SUtil fs => plain (match utilization e fs p with Some x => PReal x | None => old end) p l
  | SWchan => _ ← run_free free_str old; t ← Wchan.lookup_wchan (num p p_tid); dup_val t p l
  end.

(** ** Sorting *)

Inductive psort := sort_noop | sort_s_ch | sort_s_int | sort_u_int | sort_ul_int | sort_ull_int | sort_real
  | sort_str | sort_strv | sort_strvers.

Definition get_real (v : pval) : Z := match v with PReal x => x | _ => 0 end.

(** The comparison of two unions; [None] where a NULL or other non-pointer would
    be followed. *)
Definition compare_pvals (strcoll strverscmp : bytes -> bytes -> Z) (k : psort) (order : Z) (a b : pval) : option Z :=
  match k with
  | sort_noop => Some 0
  | sort_s_ch => Some (i32 (order * (wrap_s 8 (bits a) - wrap_s 8 (bits b))))
  | sort_s_int => Some (i32 (order * i32 (i32 (bits a) - i32 (bits b))))
  | sort_u_int => Some (three_way order (u32 (bits a)) (u32 (bits b)))
  | sort_ul_int | sort_ull_int => Some (three_way order (bits a) (bits b))
  | sort_real => Some (three_way order (get_real a) (get_real b))
  | sort_str => match a, b with PStr x, PStr y => Some (i32 (order * strcoll x y)) | _, _ => None end
  | sort_strvers => match a, b with PStr x, PStr y => Some (i32 (order * strverscmp x y)) | _, _ => None end
  | sort_strv =>
      match a, b with
      | PStrv (x :: _), PStrv (y :: _) => Some (i32 (order * strcoll x y))
      | PStrv _, PStrv _ => None
      | PNum 0, (PNum 0 | PStrv _) | PStrv _, PNum 0 => Some 0
      | _, _ => None
      end
  end.

(** ** The table *)

Definition PROC_SPARE_1 : Z := 268435456.

Record row := Row {
  oldflags : Z; rfree : option freefunc; rsort : psort; needhist : Z; type2str : option ptype }.

(** The flags by their names in the table. *)
Definition f_either : Z := PROC_SPARE_1.
Definition f_exe : Z := PROC_FILL_EXE.
Definition f_grp : Z := PROC_FILLGRP.
Definition f_io : Z := PROC_FILLIO.
Definition f_login : Z := PROC_FILL_LUID.
Definition f_lxc : Z := PROC_FILL_LXC.
Definition f_ns : Z := PROC_FILLNS.
Definition f_oom : Z := PROC_FILLOOM.
Definition f_smaps : Z := PROC_FILLSMAPS.
Definition f_stat : Z := PROC_FILLSTAT.
Definition f_statm : Z := PROC_FILLMEM.
Definition f_status : Z := PROC_FILLSTATUS.
Definition f_systemd : Z := PROC_FILLSYSTEMD.
Definition f_usr : Z := PROC_FILLUSR.
Definition v_arg : Z := PROC_FILLARG.
Definition v_cgroup : Z := PROC_FILLCGROUP.
Definition v_env : Z := PROC_FILLENV.
Definition x_cgroup : Z := PROC_EDITCGRPCVT.
Definition x_cmdline : Z := PROC_EDITCMDLCVT.
Definition x_environ : Z := PROC_EDITENVRCVT.
Definition x_ogroup : Z := PROC_FILL_OGROUPS.
Definition x_ouser : Z := PROC_FILL_OUSERS.
Definition x_supgrp : Z := PROC_FILL_SUPGRP.
Definition z_autogrp : Z := PROC_FILLAUTOGRP.

Definition setters : list (string * psetter) :=
  [("noop", SNoop); ("extra", SExtra); ("ADDR_CODE_END", SReg ul_int p_end_code);
   ("ADDR_CODE_START", SReg ul_int p_start_code); ("ADDR_CURR_EIP", SReg ul_int p_kstk_eip);
   ("ADDR_CURR_ESP", SReg ul_int p_kstk_esp); ("ADDR_STACK_START", SReg ul_int p_start_stack);
   ("AUTOGRP_ID", SReg s_int p_autogrp_id); ("AUTOGRP_NICE", SReg s_int p_autogrp_nice);
   ("CGNAME", SStr "CGNAME" p_cgname); ("CGROUP", SStr "CGROUP" p_cgroup);
   ("CGROUP_V", SVec "CGROUP_V" p_cgroup_v); ("CMD", SStr "CMD" p_cmd);
   ("CMDLINE", SStr "CMDLINE" p_cmdline); ("CMDLINE_V", SVec "CMDLINE_V" p_cmdline_v);
   ("ENVIRON", SStr "ENVIRON" p_environ); ("ENVIRON_V", SVec "ENVIRON_V" p_environ_v);
   ("EXE", SStr "EXE" p_exe); ("EXIT_SIGNAL", SReg s_int p_exit_signal);
   ("FLAGS", SReg ul_int p_flags); ("FLT_MAJ", SReg ul_int p_maj_flt);
   ("FLT_MAJ_C", SSum ul_int [p_maj_flt; p_cmaj_flt]); ("FLT_MAJ_DELTA", SReg s_int p_maj_delta);
   ("FLT_MIN", SReg ul_int p_min_flt); ("FLT_MIN_C", SSum ul_int [p_min_flt; p_cmin_flt]);
   ("FLT_MIN_DELTA", SReg s_int p_min_delta); ("ID_EGID", SReg u_int p_egid);
   ("ID_EGROUP", SBorrow p_egroup); ("ID_EUID", SReg u_int p_euid); ("ID_EUSER", SBorrow p_euser);
   ("ID_FGID", SReg u_int p_fgid); ("ID_FGROUP", SBorrow p_fgroup); ("ID_FUID", SReg u_int p_fuid);
   ("ID_FUSER", SBorrow p_fuser); ("ID_LOGIN", SReg s_int p_luid); ("ID_PGRP", SReg s_int p_pgrp);
   ("ID_PID", SReg s_int p_tid); ("ID_PPID", SReg s_int p_ppid); ("ID_RGID", SReg u_int p_rgid);
   ("ID_RGROUP", SBorrow p_rgroup); ("ID_RUID", SReg u_int p_ruid); ("ID_RUSER", SBorrow p_ruser);
   ("ID_SESSION", SReg s_int p_session); ("ID_SGID", SReg u_int p_sgid);
   ("ID_SGROUP", SBorrow p_sgroup); ("ID_SUID", SReg u_int p_suid); ("ID_SUSER", SBorrow p_suser);
   ("ID_TGID", SReg s_int p_tgid); ("ID_TID", SReg s_int p_tid); ("ID_TPGID", SReg s_int p_tpgid);
   ("IO_READ_BYTES", SReg ul_int p_read_bytes); ("IO_READ_CHARS", SReg ul_int p_rchar);
   ("IO_READ_OPS", SReg ul_int p_syscr); ("IO_WRITE_BYTES", SReg ul_int p_write_bytes);
   ("IO_WRITE_CBYTES", SReg ul_int p_cancelled_write_bytes);
   ("IO_WRITE_CHARS", SReg ul_int p_wchar); ("IO_WRITE_OPS", SReg ul_int p_syscw);
   ("LXCNAME", SBorrow p_lxcname); ("MEM_CODE", SCvt p_trs); ("MEM_CODE_PGS", SReg ul_int p_trs);
   ("MEM_DATA", SCvt p_drs); ("MEM_DATA_PGS", SReg ul_int p_drs); ("MEM_RES", SCvt p_resident);
   ("MEM_RES_PGS", SReg ul_int p_resident); ("MEM_SHR", SCvt p_share);
   ("MEM_SHR_PGS", SReg ul_int p_share); ("MEM_VIRT", SCvt p_size);
   ("MEM_VIRT_PGS", SReg ul_int p_size); ("NICE", SReg s_int p_nice); ("NLWP", SReg s_int p_nlwp);
   ("NS_IPC", SNs 0); ("NS_MNT", SNs 1); ("NS_NET", SNs 2); ("NS_PID", SNs 3); ("NS_USER", SNs 4);
   ("NS_UTS", SNs 5); ("OOM_ADJ", SReg s_int p_oom_adj); ("OOM_SCORE", SReg s_int p_oom_score);
   ("PRIORITY", SReg s_int p_priority); ("PRIORITY_RT", SReg s_int p_rtprio);
   ("PROCESSOR", SReg s_int p_processor); ("PROCESSOR_NODE", SNode); ("RSS", SReg ul_int p_rss);
   ("RSS_RLIM", SReg ul_int p_rss_rlim); ("SCHED_CLASS", SReg s_int p_sched);
   ("SD_MACH", SStr "SD_MACH" p_sd_mach); ("SD_OUID", SStr "SD_OUID" p_sd_ouid);
   ("SD_SEAT", SStr "SD_SEAT" p_sd_seat); ("SD_SESS", SStr "SD_SESS" p_sd_sess);
   ("SD_SLICE", SStr "SD_SLICE" p_sd_slice); ("SD_UNIT", SStr "SD_UNIT" p_sd_unit);
   ("SD_UUNIT", SStr "SD_UUNIT" p_sd_uunit); ("SIGBLOCKED", SDup p_blocked);
   ("SIGCATCH", SDup p_sigcatch); ("SIGIGNORE", SDup p_sigignore); ("SIGNALS", SDup p_signal);
   ("SIGPENDING", SDup p_sigpnd); ("SMAP_ANONYMOUS", SReg ul_int p_smap_Anonymous);
   ("SMAP_HUGE_ANON", SReg ul_int p_smap_AnonHugePages);
   ("SMAP_HUGE_FILE", SReg ul_int p_smap_FilePmdMapped);
   ("SMAP_HUGE_SHMEM", SReg ul_int p_smap_ShmemPmdMapped);
   ("SMAP_HUGE_TLBPRV", SReg ul_int p_smap_Private_Hugetlb);
   ("SMAP_HUGE_TLBSHR", SReg ul_int p_smap_Shared_Hugetlb);
   ("SMAP_LAZY_FREE", SReg ul_int p_smap_LazyFree); ("SMAP_LOCKED", SReg ul_int p_smap_Locked);
   ("SMAP_PRV_CLEAN", SReg ul_int p_smap_Private_Clean);
   ("SMAP_PRV_DIRTY", SReg ul_int p_smap_Private_Dirty);
   ("SMAP_PRV_TOTAL", SSum ul_int [p_smap_Private_Clean; p_smap_Private_Dirty]);
   ("SMAP_PSS", SReg ul_int p_smap_Pss); ("SMAP_PSS_ANON", SReg ul_int p_smap_Pss_Anon);
   ("SMAP_PSS_FILE", SReg ul_int p_smap_Pss_File);
   ("SMAP_PSS_SHMEM", SReg ul_int p_smap_Pss_Shmem);
   ("SMAP_REFERENCED", SReg ul_int p_smap_Referenced); ("SMAP_RSS", SReg ul_int p_smap_Rss);
   ("SMAP_SHR_CLEAN", SReg ul_int p_smap_Shared_Clean);
   ("SMAP_SHR_DIRTY", SReg ul_int p_smap_Shared_Dirty); ("SMAP_SWAP", SReg ul_int p_smap_Swap);
   ("SMAP_SWAP_PSS", SReg ul_int p_smap_SwapPss); ("STATE", SReg s_ch p_state);
   ("SUPGIDS", SStr "SUPGIDS" p_supgid); ("SUPGROUPS", SStr "SUPGROUPS" p_supgrp);
   ("TICS_ALL", SSum ull_int [p_utime; p_stime]);
   ("TICS_ALL_C", SSum ull_int [p_utime; p_stime; p_cutime; p_cstime]);
   ("TICS_ALL_DELTA", SReg u_int p_pcpu); ("TICS_BEGAN", SReg ull_int p_start_time);
   ("TICS_BLKIO", SReg ull_int p_blkio_tics); ("TICS_GUEST", SReg ull_int p_gtime);
   ("TICS_GUEST_C", SSum ull_int [p_gtime; p_cgtime]); ("TICS_SYSTEM", SReg ull_int p_stime);
   ("TICS_SYSTEM_C", SSum ull_int [p_stime; p_cstime]); ("TICS_USER", SReg ull_int p_utime);
   ("TICS_USER_C", SSum ull_int [p_utime; p_cutime]); ("TIME_ALL", STimeAll [p_stime]);
   ("TIME_ALL_C", STimeAll [p_stime; p_cutime; p_cstime]); ("TIME_ELAPSED", STimeElapsed);
   ("TIME_START", STimeStart); ("TTY", SReg s_int p_tty); ("TTY_NAME", STty ABBREV_DEV);
   ("TTY_NUMBER", STty (Z.lor (Z.lor ABBREV_DEV ABBREV_TTY) ABBREV_PTS));
   ("UTILIZATION", SUtil [p_utime; p_stime]);
   ("UTILIZATION_C", SUtil [p_utime; p_stime; p_cutime; p_cstime]);
   ("VM_DATA", SReg ul_int p_vm_data); ("VM_EXE", SReg ul_int p_vm_exe);
   ("VM_LIB", SReg ul_int p_vm_lib); ("VM_RSS", SReg ul_int p_vm_rss);
   ("VM_RSS_ANON", SReg ul_int p_vm_rss_anon); ("VM_RSS_FILE", SReg ul_int p_vm_rss_file);
   ("VM_RSS_LOCKED", SReg ul_int p_vm_lock); ("VM_RSS_SHARED", SReg ul_int p_vm_rss_shared);
   ("VM_SIZE", SReg ul_int p_vm_size); ("VM_STACK", SReg ul_int p_vm_stack);
   ("VM_SWAP", SReg ul_int p_vm_swap); ("VM_USED", SSum ul_int [p_vm_swap; p_vm_rss]);
   ("VSIZE_PGS", SReg ul_int p_vsize); ("WCHAN_NAME", SWchan)]%string.

Definition item_rows : list (string * row) :=
  [("noop", Row 0 None sort_noop 0 None); ("extra", Row 0 None sort_ull_int 0 None);
   ("ADDR_CODE_END", Row f_stat None sort_ul_int 0 (Some ul_int));
   ("ADDR_CODE_START", Row f_stat None sort_ul_int 0 (Some ul_int));
   ("ADDR_CURR_EIP", Row f_stat None sort_ul_int 0 (Some ul_int));
   ("ADDR_CURR_ESP", Row f_stat None sort_ul_int 0 (Some ul_int));
   ("ADDR_STACK_START", Row f_stat None sort_ul_int 0 (Some ul_int));
   ("AUTOGRP_ID", Row z_autogrp None sort_s_int 0 (Some s_int));
   ("AUTOGRP_NICE", Row z_autogrp None sort_s_int 0 (Some s_int));
   ("CGNAME", Row x_cgroup (Some free_str) sort_str 0 (Some str));
   ("CGROUP", Row x_cgroup (Some free_str) sort_str 0 (Some str));
   ("CGROUP_V", Row v_cgroup (Some free_strv) sort_strv 0 (Some strv));
   ("CMD", Row f_either (Some free_str) sort_str 0 (Some str));
   ("CMDLINE", Row x_cmdline (Some free_str) sort_str 0 (Some str));
   ("CMDLINE_V", Row v_arg (Some free_strv) sort_strv 0 (Some strv));
   ("ENVIRON", Row x_environ (Some free_str) sort_str 0 (Some str));
   ("ENVIRON_V", Row v_env (Some free_strv) sort_strv 0 (Some strv));
   ("EXE", Row f_exe (Some free_str) sort_str 0 (Some str));
   ("EXIT_SIGNAL", Row f_stat None sort_s_int 0 (Some s_int));
   ("FLAGS", Row f_stat None sort_ul_int 0 (Some ul_int));
   ("FLT_MAJ", Row f_stat None sort_ul_int 0 (Some ul_int));
   ("FLT_MAJ_C", Row f_stat None sort_ul_int 0 (Some ul_int));
   ("FLT_MAJ_DELTA", Row f_stat None sort_s_int 1 (Some s_int));
   ("FLT_MIN", Row f_stat None sort_ul_int 0 (Some ul_int));
   ("FLT_MIN_C", Row f_stat None sort_ul_int 0 (Some ul_int));
   ("FLT_MIN_DELTA", Row f_stat None sort_s_int 1 (Some s_int));
   ("ID_EGID", Row 0 None sort_u_int 0 (Some u_int));
   ("ID_EGROUP", Row f_grp None sort_str 0 (Some str));
   ("ID_EUID", Row 0 None sort_u_int 0 (Some u_int));
   ("ID_EUSER", Row f_usr None sort_str 0 (Some str));
   ("ID_FGID", Row f_status None sort_u_int 0 (Some u_int));
   ("ID_FGROUP", Row x_ogroup None sort_str 0 (Some str));
   ("ID_FUID", Row f_status None sort_u_int 0 (Some u_int));
   ("ID_FUSER", Row x_ouser None sort_str 0 (Some str));
   ("ID_LOGIN", Row f_login None sort_s_int 0 (Some s_int));
   ("ID_PGRP", Row f_stat None sort_s_int 0 (Some s_int));
   ("ID_PID", Row 0 None sort_s_int 0 (Some s_int));
   ("ID_PPID", Row f_either None sort_s_int 0 (Some s_int));
   ("ID_RGID", Row f_status None sort_u_int 0 (Some u_int));
   ("ID_RGROUP", Row x_ogroup None sort_str 0 (Some str));
   ("ID_RUID", Row f_status None sort_u_int 0 (Some u_int));
   ("ID_RUSER", Row x_ouser None sort_str 0 (Some str));
   ("ID_SESSION", Row f_stat None sort_s_int 0 (Some s_int));
   ("ID_SGID", Row f_status None sort_u_int 0 (Some u_int));
   ("ID_SGROUP", Row x_ogroup None sort_str 0 (Some str));
   ("ID_SUID", Row f_status None sort_u_int 0 (Some u_int));
   ("ID_SUSER", Row x_ouser None sort_str 0 (Some str));
   ("ID_TGID", Row 0 None sort_s_int 0 (Some s_int));
   ("ID_TID", Row 0 None sort_s_int 0 (Some s_int));
   ("ID_TPGID", Row f_stat None sort_s_int 0 (Some s_int));
   ("IO_READ_BYTES", Row f_io None sort_ul_int 0 (Some ul_int));
   ("IO_READ_CHARS", Row f_io None sort_ul_int 0 (Some ul_int));
   ("IO_READ_OPS", Row f_io None sort_ul_int 0 (Some ul_int));
   ("IO_WRITE_BYTES", Row f_io None sort_ul_int 0 (Some ul_int));
   ("IO_WRITE_CBYTES", Row f_io None sort_ul_int 0 (Some ul_int));
   ("IO_WRITE_CHARS", Row f_io None sort_ul_int 0 (Some ul_int));
   ("IO_WRITE_OPS", Row f_io None sort_ul_int 0 (Some ul_int));
   ("LXCNAME", Row f_lxc None sort_str 0 (Some str));
   ("MEM_CODE", Row f_statm None sort_ul_int 0 (Some ul_int));
   ("MEM_CODE_PGS", Row f_statm None sort_ul_int 0 (Some ul_int));
   ("MEM_DATA", Row f_statm None sort_ul_int 0 (Some ul_int));
   ("MEM_DATA_PGS", Row f_statm None sort_ul_int 0 (Some ul_int));
   ("MEM_RES", Row f_statm None sort_ul_int 0 (Some ul_int));
   ("MEM_RES_PGS", Row f_statm None sort_ul_int 0 (Some ul_int));
   ("MEM_SHR", Row f_statm None sort_ul_int 0 (Some ul_int));
   ("MEM_SHR_PGS", Row f_statm None sort_ul_int 0 (Some ul_int));
   ("MEM_VIRT", Row f_statm None sort_ul_int 0 (Some ul_int));
   ("MEM_VIRT_PGS", Row f_statm None sort_ul_int 0 (Some ul_int));
   ("NICE", Row f_stat None sort_s_int 0 (Some s_int));
   ("NLWP", Row f_either None sort_s_int 0 (Some s_int));
   ("NS_IPC", Row f_ns None sort_ul_int 0 (Some ul_int));
   ("NS_MNT", Row f_ns None sort_ul_int 0 (Some ul_int));
   ("NS_NET", Row f_ns None sort_ul_int 0 (Some ul_int));
   ("NS_PID", Row f_ns None sort_ul_int 0 (Some ul_int));
   ("NS_USER", Row f_ns None sort_ul_int 0 (Some ul_int));
   ("NS_UTS", Row f_ns None sort_ul_int 0 (Some ul_int));
   ("OOM_ADJ", Row f_oom None sort_s_int 0 (Some s_int));
   ("OOM_SCORE", Row f_oom None sort_s_int 0 (Some s_int));
   ("PRIORITY", Row f_stat None sort_s_int 0 (Some s_int));
   ("PRIORITY_RT", Row f_stat None sort_s_int 0 (Some s_int));
   ("PROCESSOR", Row f_stat None sort_s_int 0 (Some s_int));
   ("PROCESSOR_NODE", Row f_stat None sort_s_int 0 (Some s_int));
   ("RSS", Row f_stat None sort_ul_int 0 (Some ul_int));
   ("RSS_RLIM", Row f_stat None sort_ul_int 0 (Some ul_int));
   ("SCHED_CLASS", Row f_stat None sort_s_int 0 (Some s_int));
   ("SD_MACH", Row f_systemd (Some free_str) sort_str 0 (Some str));
   ("SD_OUID", Row f_systemd (Some free_str) sort_str 0 (Some str));
   ("SD_SEAT", Row f_systemd (Some free_str) sort_str 0 (Some str));
   ("SD_SESS", Row f_systemd (Some free_str) sort_str 0 (Some str));
   ("SD_SLICE", Row f_systemd (Some free_str) sort_str 0 (Some str));
   ("SD_UNIT", Row f_systemd (Some free_str) sort_str 0 (Some str));
   ("SD_UUNIT", Row f_systemd (Some free_str) sort_str 0 (Some str));
   ("SIGBLOCKED", Row f_status (Some free_str) sort_str 0 (Some str));
   ("SIGCATCH", Row f_status (Some free_str) sort_str 0 (Some str));
   ("SIGIGNORE", Row f_status (Some free_str) sort_str 0 (Some str));
   ("SIGNALS", Row f_status (Some free_str) sort_str 0 (Some str));
   ("SIGPENDING", Row f_status (Some free_str) sort_str 0 (Some str));
   ("SMAP_ANONYMOUS", Row f_smaps None sort_ul_int 0 (Some ul_int));
   ("SMAP_HUGE_ANON", Row f_smaps None sort_ul_int 0 (Some ul_int));
   ("SMAP_HUGE_FILE", Row f_smaps None sort_ul_int 0 (Some ul_int));
   ("SMAP_HUGE_SHMEM", Row f_smaps None sort_ul_int 0 (Some ul_int));
   ("SMAP_HUGE_TLBPRV", Row f_smaps None sort_ul_int 0 (Some ul_int));
   ("SMAP_HUGE_TLBSHR", Row f_smaps None sort_ul_int 0 (Some ul_int));
   ("SMAP_LAZY_FREE", Row f_smaps None sort_ul_int 0 (Some ul_int));
   ("SMAP_LOCKED", Row f_smaps None sort_ul_int 0 (Some ul_int));
   ("SMAP_PRV_CLEAN", Row f_smaps None sort_ul_int 0 (Some ul_int));
   ("SMAP_PRV_DIRTY", Row f_smaps None sort_ul_int 0 (Some ul_int));
   ("SMAP_PRV_TOTAL", Row f_smaps None sort_ul_int 0 (Some ul_int));
   ("SMAP_PSS", Row f_smaps None sort_ul_int 0 (Some ul_int));
   ("SMAP_PSS_ANON", Row f_smaps None sort_ul_int 0 (Some ul_int));
   ("SMAP_PSS_FILE", Row f_smaps None sort_ul_int 0 (Some ul_int));
   ("SMAP_PSS_SHMEM", Row f_smaps None sort_ul_int 0 (Some ul_int));
   ("SMAP_REFERENCED", Row f_smaps None sort_ul_int 0 (Some ul_int));
   ("SMAP_RSS", Row f_smaps None sort_ul_int 0 (Some ul_int));
   ("SMAP_SHR_CLEAN", Row f_smaps None sort_ul_int 0 (Some ul_int));
   ("SMAP_SHR_DIRTY", Row f_smaps None sort_ul_int 0 (Some ul_int));
   ("SMAP_SWAP", Row f_smaps None sort_ul_int 0 (Some ul_int));
   ("SMAP_SWAP_PSS", Row f_smaps None sort_ul_int 0 (Some ul_int));
   ("STATE", Row f_either None sort_s_ch 0 (Some s_ch));
   ("SUPGIDS", Row f_status (Some free_str) sort_str 0 (Some str));
   ("SUPGROUPS", Row x_supgrp (Some free_str) sort_str 0 (Some str));
   ("TICS_ALL", Row f_stat None sort_ull_int 0 (Some ull_int));
   ("TICS_ALL_C", Row f_stat None sort_ull_int 0 (Some ull_int));
   ("TICS_ALL_DELTA", Row f_stat None sort_u_int 1 (Some u_int));
   ("TICS_BEGAN", Row f_stat None sort_ull_int 0 (Some ull_int));
   ("TICS_BLKIO", Row f_stat None sort_ull_int 0 (Some ull_int));
   ("TICS_GUEST", Row f_stat None sort_ull_int 0 (Some ull_int));
   ("TICS_GUEST_C", Row f_stat None sort_ull_int 0 (Some ull_int));
   ("TICS_SYSTEM", Row f_stat None sort_ull_int 0 (Some ull_int));
   ("TICS_SYSTEM_C", Row f_stat None sort_ull_int 0 (Some ull_int));
   ("TICS_USER", Row f_stat None sort_ull_int 0 (Some ull_int));
   ("TICS_USER_C", Row f_stat None sort_ull_int 0 (Some ull_int));
   ("TIME_ALL", Row f_stat None sort_real 0 (Some real));
   ("TIME_ALL_C", Row f_stat None sort_real 0 (Some real));
   ("TIME_ELAPSED", Row f_stat None sort_real 0 (Some real));
   ("TIME_START", Row f_stat None sort_real 0 (Some real));
   ("TTY", Row f_stat None sort_s_int 0 (Some s_int));
   ("TTY_NAME", Row f_stat (Some free_str) sort_strvers 0 (Some str));
   ("TTY_NUMBER", Row f_stat (Some free_str) sort_strvers 0 (Some str));
   ("UTILIZATION", Row f_stat None sort_real 0 (Some real));
   ("UTILIZATION_C", Row f_stat None sort_real 0 (Some real));
   ("VM_DATA", Row f_status None sort_ul_int 0 (Some ul_int));
   ("VM_EXE", Row f_status None sort_ul_int 0 (Some ul_int));
   ("VM_LIB", Row f_status None sort_ul_int 0 (Some ul_int));
   ("VM_RSS", Row f_status None sort_ul_int 0 (Some ul_int));
   ("VM_RSS_ANON", Row f_status None sort_ul_int 0 (Some ul_int));
   ("VM_RSS_FILE", Row f_status None sort_ul_int 0 (Some ul_int));
   ("VM_RSS_LOCKED", Row f_status None sort_ul_int 0 (Some ul_int));
   ("VM_RSS_SHARED", Row f_status None sort_ul_int 0 (Some ul_int));
   ("VM_SIZE", Row f_status None sort_ul_int 0 (Some ul_int));
   ("VM_STACK", Row f_status None sort_ul_int 0 (Some ul_int));
   ("VM_SWAP", Row f_status None sort_ul_int 0 (Some ul_int));
   ("VM_USED", Row f_status None sort_ul_int 0 (Some ul_int));
   ("VSIZE_PGS", Row f_stat None sort_ul_int 0 (Some ul_int));
   ("WCHAN_NAME", Row 0 (Some free_str) sort_str 0 (Some str))]%string.

(** [enum pids_item] *)
Definition pids_item : list string :=
  ["noop"; "extra"; "ADDR_CODE_END"; "ADDR_CODE_START"; "ADDR_CURR_EIP"; "ADDR_CURR_ESP";
   "ADDR_STACK_START"; "AUTOGRP_ID"; "AUTOGRP_NICE"; "CGNAME"; "CGROUP"; "CGROUP_V"; "CMD";
   "CMDLINE"; "CMDLINE_V"; "ENVIRON"; "ENVIRON_V"; "EXE"; "EXIT_SIGNAL"; "FLAGS"; "FLT_MAJ";
   "FLT_MAJ_C"; "FLT_MAJ_DELTA"; "FLT_MIN"; "FLT_MIN_C"; "FLT_MIN_DELTA"; "ID_EGID"; "ID_EGROUP";
   "ID_EUID"; "ID_EUSER"; "ID_FGID"; "ID_FGROUP"; "ID_FUID"; "ID_FUSER"; "ID_LOGIN"; "ID_PGRP";
   "ID_PID"; "ID_PPID"; "ID_RGID"; "ID_RGROUP"; "ID_RUID"; "ID_RUSER"; "ID_SESSION"; "ID_SGID";
   "ID_SGROUP"; "ID_SUID"; "ID_SUSER"; "ID_TGID"; "ID_TID"; "ID_TPGID"; "IO_READ_BYTES";
   "IO_READ_CHARS"; "IO_READ_OPS"; "IO_WRITE_BYTES"; "IO_WRITE_CBYTES"; "IO_WRITE_CHARS";
   "IO_WRITE_OPS"; "LXCNAME"; "MEM_CODE"; "MEM_CODE_PGS"; "MEM_DATA"; "MEM_DATA_PGS"; "MEM_RES";
   "MEM_RES_PGS"; "MEM_SHR"; "MEM_SHR_PGS"; "MEM_VIRT"; "MEM_VIRT_PGS"; "NICE"; "NLWP"; "NS_IPC";
   "NS_MNT"; "NS_NET"; "NS_PID"; "NS_USER"; "NS_UTS"; "OOM_ADJ"; "OOM_SCORE"; "PRIORITY";
   "PRIORITY_RT"; "PROCESSOR"; "PROCESSOR_NODE"; "RSS"; "RSS_RLIM"; "SCHED_CLASS"; "SD_MACH";
   "SD_OUID"; "SD_SEAT"; "SD_SESS"; "SD_SLICE"; "SD_UNIT"; "SD_UUNIT"; "SIGBLOCKED"; "SIGCATCH";
   "SIGIGNORE"; "SIGNALS"; "SIGPENDING"; "SMAP_ANONYMOUS"; "SMAP_HUGE_ANON"; "SMAP_HUGE_FILE";
   "SMAP_HUGE_SHMEM"; "SMAP_HUGE_TLBPRV"; "SMAP_HUGE_TLBSHR"; "SMAP_LAZY_FREE"; "SMAP_LOCKED";
   "SMAP_PRV_CLEAN"; "SMAP_PRV_DIRTY"; "SMAP_PRV_TOTAL"; "SMAP_PSS"; "SMAP_PSS_ANON";
   "SMAP_PSS_FILE"; "SMAP_PSS_SHMEM"; "SMAP_REFERENCED"; "SMAP_RSS"; "SMAP_SHR_CLEAN";
   "SMAP_SHR_DIRTY"; "SMAP_SWAP"; "SMAP_SWAP_PSS"; "STATE"; "SUPGIDS"; "SUPGROUPS"; "TICS_ALL";
   "TICS_ALL_C"; "TICS_ALL_DELTA"; "TICS_BEGAN"; "TICS_BLKIO"; "TICS_GUEST"; "TICS_GUEST_C";
   "TICS_SYSTEM"; "TICS_SYSTEM_C"; "TICS_USER"; "TICS_USER_C"; "TIME_ALL"; "TIME_ALL_C";
   "TIME_ELAPSED"; "TIME_START"; "TTY"; "TTY_NAME"; "TTY_NUMBER"; "UTILIZATION"; "UTILIZATION_C";
   "VM_DATA"; "VM_EXE"; "VM_LIB"; "VM_RSS"; "VM_RSS_ANON"; "VM_RSS_FILE"; "VM_RSS_LOCKED";
   "VM_RSS_SHARED"; "VM_SIZE"; "VM_STACK"; "VM_SWAP"; "VM_USED"; "VSIZE_PGS"; "WCHAN_NAME"]%string.

(** The rows with their setters. *)
Definition Item_table : list (psetter * row) :=
  omap (fun r => s ← assoc r.1 setters; Some (s, r.2)) item_rows.

Definition PIDS_logical_end : Z := Z.of_nat (length Item_table).
Definition setsfunc (i : Z) : option psetter := fst <$> Item_table !! Z.to_nat i.
Definition item_row (i : Z) : option row := snd <$> Item_table !! Z.to_nat i.
End Piditems.
