(* ===== verification/Pids.v ===== *)
(** * procps/linux/pids.c: the process interface

    The context with its result stacks, and the operations on it.  Extents are
    blobs of stacks with an identity; a stack pointer is a blob and a position
    in it, so that a pointer into a freed extent is visible.  Each stack is the
    list of all its [maxitems] results. *)

From stdpp Require Import base numbers list strings.
From S2P Require Import Prelude Libc Posix Escape Utils Stacks Fetch Real Sysinfo Devname Procdata Procfiles Readproc Pidhist Piditems.
Open Scope Z_scope.

Module Pids.
Import Procdata Procfiles Readproc Real Devname Pidhist Piditems.

Definition EINVAL : Z := 22.
Definition EADDRNOTAVAIL : Z := 99.
Definition FILL_ID_MAX : Z := 255.
Definition STACKS_INIT : Z := 1024.
Definition STACKS_GROW : Z := 128.

(** ** Data *)

Record extent := Extent { x_id : nat; x_stacks : list pstack }.

Record pids_counts := Counts { total : Z; running : Z; sleeping : Z; stopped : Z; zombied : Z; other : Z }.

Definition no_counts : pids_counts := Counts 0 0 0 0 0 0.

Record fetch_support := Fetch {
  anchor : option (list (option sptr));
  n_alloc : Z;
  n_inuse : Z;
  n_saved : Z;                           (* n_alloc_save *)
  res_stacks : option (list (option sptr));
  counts : pids_counts }.

(** [get_ext] is the identity of an extent; [read_something] tells readeither
    from readproc; pointers are [None] when NULL. *)
Record pids_info := Info {
  refcount : Z;
  maxitems : Z;
  curitems : Z;
  items : option (list Z);
  extents : list extent;
  otherexts : list extent;
  fetch : fetch_support;
  history_yes : Z;
  hist : history_info;
  read_something : option bool;
  pgs2k_shift : Z;
  oldflags : Z;
  fetch_PT : option PROCTAB;
  hertz : Z;
  boot_seconds : Z;
  get_PT : option PROCTAB;
  get_ext : option nat;
  get_type : Z;
  seterr : bool;
  get_proc : proc_t;
  fetch_proc : proc_t;
  next_id : nat                          (* the identity of the next extent *)
}.

(** Updates of one member, or of a few that change together. *)
Definition set_refcount v0 (i : pids_info) : pids_info :=
  Info v0 (maxitems i) (curitems i) (items i) (extents i) (otherexts i) (fetch i) (history_yes i) (hist i)
    (read_something i) (pgs2k_shift i) (oldflags i) (fetch_PT i) (hertz i) (boot_seconds i) (get_PT i)
    (get_ext i) (get_type i) (seterr i) (get_proc i) (fetch_proc i) (next_id i).
Definition set_items v0 v1 v2 (i : pids_info) : pids_info :=
  Info (refcount i) v0 v1 v2 (extents i) (otherexts i) (fetch i) (history_yes i) (hist i) (read_something i)
    (pgs2k_shift i) (oldflags i) (fetch_PT i) (hertz i) (boot_seconds i) (get_PT i) (get_ext i) (get_type i)
    (seterr i) (get_proc i) (fetch_proc i) (next_id i).
Definition set_extents v0 v1 (i : pids_info) : pids_info :=
  Info (refcount i) (maxitems i) (curitems i) (items i) v0 (otherexts i) (fetch i) (history_yes i) (hist i)
    (read_something i) (pgs2k_shift i) (oldflags i) (fetch_PT i) (hertz i) (boot_seconds i) (get_PT i)
    (get_ext i) (get_type i) (seterr i) (get_proc i) (fetch_proc i) v1.
Definition set_otherexts v0 (i : pids_info) : pids_info :=
  Info (refcount i) (maxitems i) (curitems i) (items i) (extents i) v0 (fetch i) (history_yes i) (hist i)
    (read_something i) (pgs2k_shift i) (oldflags i) (fetch_PT i) (hertz i) (boot_seconds i) (get_PT i)
    (get_ext i) (get_type i) (seterr i) (get_proc i) (fetch_proc i) (next_id i).
Definition set_fetch v0 (i : pids_info) : pids_info :=
  Info (refcount i) (maxitems i) (curitems i) (items i) (extents i) (otherexts i) v0 (history_yes i) (hist i)
    (read_something i) (pgs2k_shift i) (oldflags i) (fetch_PT i) (hertz i) (boot_seconds i) (get_PT i)
    (get_ext i) (get_type i) (seterr i) (get_proc i) (fetch_proc i) (next_id i).
Definition set_libflags v0 v1 (i : pids_info) : pids_info :=
  Info (refcount i) (maxitems i) (curitems i) (items i) (extents i) (otherexts i) (fetch i) v0 (hist i)
    (read_something i) (pgs2k_shift i) v1 (fetch_PT i) (hertz i) (boot_seconds i) (get_PT i) (get_ext i)
    (get_type i) (seterr i) (get_proc i) (fetch_proc i) (next_id i).
Definition set_hist v0 (i : pids_info) : pids_info :=
  Info (refcount i) (maxitems i) (curitems i) (items i) (extents i) (otherexts i) (fetch i) (history_yes i) v0
    (read_something i) (pgs2k_shift i) (oldflags i) (fetch_PT i) (hertz i) (boot_seconds i) (get_PT i)
    (get_ext i) (get_type i) (seterr i) (get_proc i) (fetch_proc i) (next_id i).
Definition set_reader v0 (i : pids_info) : pids_info :=
  Info (refcount i) (maxitems i) (curitems i) (items i) (extents i) (otherexts i) (fetch i) (history_yes i)
    (hist i) v0 (pgs2k_shift i) (oldflags i) (fetch_PT i) (hertz i) (boot_seconds i) (get_PT i) (get_ext i)
    (get_type i) (seterr i) (get_proc i) (fetch_proc i) (next_id i).
Definition set_fetch_PT v0 (i : pids_info) : pids_info :=
  Info (refcount i) (maxitems i) (curitems i) (items i) (extents i) (otherexts i) (fetch i) (history_yes i)
    (hist i) (read_something i) (pgs2k_shift i) (oldflags i) v0 (hertz i) (boot_seconds i) (get_PT i)
    (get_ext i) (get_type i) (seterr i) (get_proc i) (fetch_proc i) (next_id i).
Definition set_boot v0 (i : pids_info) : pids_info :=
  Info (refcount i) (maxitems i) (curitems i) (items i) (extents i) (otherexts i) (fetch i) (history_yes i)
    (hist i) (read_something i) (pgs2k_shift i) (oldflags i) (fetch_PT i) (hertz i) v0 (get_PT i) (get_ext i)
    (get_type i) (seterr i) (get_proc i) (fetch_proc i) (next_id i).
Definition set_get_PT v0 (i : pids_info) : pids_info :=
  Info (refcount i) (maxitems i) (curitems i) (items i) (extents i) (otherexts i) (fetch i) (history_yes i)
    (hist i) (read_something i) (pgs2k_shift i) (oldflags i) (fetch_PT i) (hertz i) (boot_seconds i) v0
    (get_ext i) (get_type i) (seterr i) (get_proc i) (fetch_proc i) (next_id i).
Definition set_get_ext v0 (i : pids_info) : pids_info :=
  Info (refcount i) (maxitems i) (curitems i) (items i) (extents i) (otherexts i) (fetch i) (history_yes i)
    (hist i) (read_something i) (pgs2k_shift i) (oldflags i) (fetch_PT i) (hertz i) (boot_seconds i)
    (get_PT i) v0 (get_type i) (seterr i) (get_proc i) (fetch_proc i) (next_id i).
Definition set_get_type v0 (i : pids_info) : pids_info :=
  Info (refcount i) (maxitems i) (curitems i) (items i) (extents i) (otherexts i) (fetch i) (history_yes i)
    (hist i) (read_something i) (pgs2k_shift i) (oldflags i) (fetch_PT i) (hertz i) (boot_seconds i)
    (get_PT i) (get_ext i) v0 (seterr i) (get_proc i) (fetch_proc i) (next_id i).
Definition set_seterr v0 (i : pids_info) : pids_info :=
  Info (refcount i) (maxitems i) (curitems i) (items i) (extents i) (otherexts i) (fetch i) (history_yes i)
    (hist i) (read_something i) (pgs2k_shift i) (oldflags i) (fetch_PT i) (hertz i) (boot_seconds i)
    (get_PT i) (get_ext i) (get_type i) v0 (get_proc i) (fetch_proc i) (next_id i).
Definition set_get_proc v0 (i : pids_info) : pids_info :=
  Info (refcount i) (maxitems i) (curitems i) (items i) (extents i) (otherexts i) (fetch i) (history_yes i)
    (hist i) (read_something i) (pgs2k_shift i) (oldflags i) (fetch_PT i) (hertz i) (boot_seconds i)
    (get_PT i) (get_ext i) (get_type i) (seterr i) v0 (fetch_proc i) (next_id i).
Definition set_fetch_proc v0 (i : pids_info) : pids_info :=
  Info (refcount i) (maxitems i) (curitems i) (items i) (extents i) (otherexts i) (fetch i) (history_yes i)
    (hist i) (read_something i) (pgs2k_shift i) (oldflags i) (fetch_PT i) (hertz i) (boot_seconds i)
    (get_PT i) (get_ext i) (get_type i) (seterr i) (get_proc i) v0 (next_id i).

Definition set_anchor a n f := Fetch a n (n_inuse f) (n_saved f) (res_stacks f) (counts f).
Definition set_inuse n f := Fetch (anchor f) (n_alloc f) n (n_saved f) (res_stacks f) (counts f).
Definition set_results n s f := Fetch (anchor f) (n_alloc f) (n_inuse f) n s (counts f).
Definition set_counts c f := Fetch (anchor f) (n_alloc f) (n_inuse f) (n_saved f) (res_stacks f) c.

(** ** Stacks *)

Fixpoint find_extent (l : list extent) (id : nat) : option extent :=
  match l with
  | [] => None
  | x :: r => if (x_id x =? id)%nat then Some x else find_extent r id
  end.

(** The stack a pointer leads to, and the extents with it replaced. *)
Definition load (l : list extent) (p : sptr) : option pstack := x ← find_extent l p.1; x_stacks x !! p.2.
Definition store (l : list extent) (p : sptr) (s : pstack) : list extent :=
  map (fun x => if (x_id x =? p.1)%nat then Extent (x_id x) (<[p.2 := s]> (x_stacks x)) else x) l.

Definition env_of (i : pids_info) : senv := SEnv (hertz i) (boot_seconds i) (pgs2k_shift i).

(** The loop of [pids_assign_results]; it ends at the logical end and is
    undefined when it leaves the stack. *)
Fixpoint assign_loop (e : senv) (s : pstack) (p : proc_t) (err : bool) (l : lib) : R (pstack * proc_t * bool * lib) :=
  match s with
  | [] => undef
  | r :: t =>
      if PIDS_logical_end <=? pr_item r then mret (s, p, err, l) else
      f ← deref (setsfunc (pr_item r));
      x ← run_setter f e (pr_result r) p l;
      '(t, p, err, l) ← assign_loop e t (s_proc x) (err || s_err x) (s_lib x);
      mret (PResult (pr_item r) (s_val x) :: t, p, err, l)
  end.

(** Whether no error was met, with the stack and the record. *)
Definition pids_assign_results (i : pids_info) (s : pstack) (p : proc_t) (l : lib) :
    R (bool * pids_info * pstack * proc_t * lib) :=
  '(s, p, err, l) ← assign_loop (env_of i) s p false l;
  mret (negb err, set_seterr err i, s, p, l).

Fixpoint pids_cleanup_stack (s : pstack) : R pstack :=
  match s with
  | [] => undef
  | r :: t =>
      if PIDS_logical_end <=? pr_item r then mret s else
      row ← deref (item_row (pr_item r));
      _ ← (match rfree row with Some f => run_free f (pr_result r) | None => mret tt end);
      t ← pids_cleanup_stack t;
      mret (PResult (pr_item r) (PNum 0) :: t)
  end.

Fixpoint mapR {A B} (f : A -> R B) (l : list A) : R (list B) :=
  match l with [] => mret [] | a :: r => b ← f a; bs ← mapR f r; mret (b :: bs) end.

Definition cleanup_extent (x : extent) : R extent :=
  ss ← mapR pids_cleanup_stack (x_stacks x); mret (Extent (x_id x) ss).

Definition pids_cleanup_stacks_all (i : pids_info) : R pids_info :=
  xs ← mapR cleanup_extent (extents i); mret (set_extents xs (next_id i) i).

(** The extent unlinked, or [None]. *)
Fixpoint cut_from (l : list extent) (id : nat) : option (extent * list extent) :=
  match l with
  | [] => None
  | x :: r => if (x_id x =? id)%nat then Some (x, r) else '(y, r) ← cut_from r id; Some (y, x :: r)
  end.

Definition pids_extent_cut (i : pids_info) (id : nat) : option (extent * pids_info) :=
  '(x, l) ← cut_from (extents i) id; Some (x, set_extents l (next_id i) i).

(** [pids_itemize_stack]: [None] when [depth] is beyond either array. *)
Definition pids_itemize_stack (s : pstack) (depth : Z) (its : list Z) : option pstack :=
  let n := Z.to_nat depth in
  if (length its <? n)%nat || (length s <? n)%nat then None
  else Some (zip_with (fun it r => PResult it (pr_result r)) (take n its) (take n s) ++ drop n s).

Definition pids_itemize_stacks_all (i : pids_info) : option pids_info :=
  match extents i with
  | [] => Some i
  | _ =>
      its ← items i;
      xs ← mapM (fun x => ss ← mapM (fun s => pids_itemize_stack s (curitems i) its) (x_stacks x);
                          Some (Extent (x_id x) ss)) (extents i);
      Some (set_extents xs (next_id i) i)
  end.

(** ** Items *)

Fixpoint items_bad (n : nat) (its : list Z) : option bool :=
  match n, its with
  | O, _ => Some false
  | S n, it :: r => if (it <? 0) || (PIDS_logical_end <=? it) then Some true else items_bad n r
  | S _, [] => None
  end.

(** [addr] is the address of the array. *)
Definition pids_items_check_failed (addr : Z) (its : list Z) (numitems : Z) : option bool :=
  if (numitems <? 1) || (addr <? 32768) then Some true else items_bad (Z.to_nat numitems) its.

(** The loop over the current items: flags and history so far. *)
Fixpoint flags_loop (n : nat) (its : list Z) (fl hy : Z) : option (Z * Z) :=
  match n, its with
  | O, _ => Some (fl, hy)
  | S n, e :: r =>
      if PIDS_logical_end <=? e then Some (fl, hy) else
      row ← item_row e;
      flags_loop n r (Z.lor fl (Piditems.oldflags row)) (Z.lor hy (needhist row))
  | S _, [] => None
  end.

Definition resolve_either (fl : Z) : Z :=
  if has fl f_either && negb (has fl (Z.lor f_stat f_status)) then Z.lor fl f_stat else fl.

Definition pids_libflags_set (i : pids_info) : option pids_info :=
  '(fl, hy) ← (if curitems i <? 1 then Some (0, 0) else its ← items i; flags_loop (Z.to_nat (curitems i)) its 0 0);
  Some (set_libflags hy (resolve_either fl) i).

(** ** The process table *)

Section ops.
Variable cs : bool.
Variable enc : option bytes.
Variable getpwuid getgrgid : Z -> option bytes.
Variable fuel : nat.

(** Closing keeps [errno]. *)
Definition pids_oldproc_close (PT : option PROCTAB) : R (option PROCTAB) :=
  match PT with
  | Some PT => e ← get_errno; _ ← closeproc PT; _ ← set_errno e; mret None
  | None => mret None
  end.

Definition pids_oldproc_open (PT : option PROCTAB) (flags : Z) (ids : list Z) (n : Z) (l : lib) :
    R (bool * option PROCTAB * lib) :=
  match PT with
  | Some _ => mret (true, PT, l)
  | None => '(PT, st) ← openproc flags ids ids n (rp l); mret (negb (is_none PT), PT, set_rp st l)
  end.

(** [info->read_something(PT, p)] *)
Definition read_next (how : option bool) (PT : option PROCTAB) (p : proc_t) (l : lib) :
    R (bool * PROCTAB * proc_t * lib) :=
  threads ← deref how;
  PT ← deref PT;
  '(got, PT, st, p) ← (if threads : bool then readeither cs enc getpwuid getgrgid fuel PT (rp l) p
                       else readproc cs enc getpwuid getgrgid fuel PT (rp l) p);
  mret (got, PT, p, set_rp st l).

Definition tally_state (st : Z) (c : pids_counts) : pids_counts :=
  if st =? 82 then Counts (total c + 1) (running c + 1) (sleeping c) (stopped c) (zombied c) (other c)
  else if (st =? 68) || (st =? 83) then Counts (total c + 1) (running c) (sleeping c + 1) (stopped c) (zombied c) (other c)
  else if (st =? 116) || (st =? 84) then Counts (total c + 1) (running c) (sleeping c) (stopped c + 1) (zombied c) (other c)
  else if st =? 90 then Counts (total c + 1) (running c) (sleeping c) (stopped c) (zombied c + 1) (other c)
  else Counts (total c + 1) (running c) (sleeping c) (stopped c) (zombied c) (other c + 1).

(** 1, or 0 when the history ran out of memory. *)
Definition pids_proc_tally (i : pids_info) (p : proc_t) : R (Z * pids_info * proc_t) :=
  let i := set_fetch (set_counts (tally_state (num p p_state) (counts (fetch i))) (fetch i)) i in
  if negb (history_yes i =? 0) then
    '(rc, h, p) ← pids_make_hist (hist i) p; mret (rc, set_hist h i, p)
  else mret (1, i, p).

(** ** Extents *)

Definition blob_size (i : pids_info) (maxstacks : Z) : Z :=
  24 + (8 * maxstacks + 8) + 8 * maxstacks + 16 * maxitems i * maxstacks.

(** The new extent, which is linked first; [None] when memory ran out. *)
Definition pids_stacks_alloc (i : pids_info) (maxstacks : Z) : R (option extent * pids_info) :=
  r ← sys (CMalloc (blob_size i maxstacks));
  if r_val r <? 0 then mret (None, i) else
  its ← deref (items i);
  s ← deref (pids_itemize_stack (replicate (Z.to_nat (maxitems i)) (PResult 0 (PNum 0))) (curitems i) its);
  let x := Extent (next_id i) (replicate (Z.to_nat maxstacks) s) in
  mret (Some x, set_extents (x :: extents i) (S (next_id i)) i).

Definition extent_ptrs (x : extent) : list (option sptr) :=
  map (fun k => Some (x_id x, k)) (seq 0 (length (x_stacks x))).

(** ** pids_stacks_fetch *)

(** The anchor with its first stacks. *)
Definition fetch_init (i : pids_info) : R (bool * pids_info) :=
  match anchor (fetch i) with
  | Some _ => mret (true, i)
  | None =>
      r ← sys (CMalloc (8 * STACKS_INIT));
      if r_val r <? 0 then mret (false, i) else
      let i := set_fetch (set_anchor (Some (replicate (Z.to_nat STACKS_INIT) None)) (n_alloc (fetch i)) (fetch i)) i in
      '(x, i) ← pids_stacks_alloc i STACKS_INIT;
      match x with
      | None => mret (false, i)
      | Some x => mret (true, set_fetch (set_anchor (Some (extent_ptrs x)) STACKS_INIT (fetch i)) i)
      end
  end.

(** More room when all stacks are in use. *)
Definition fetch_grow (i : pids_info) : R (bool * pids_info) :=
  let f := fetch i in
  if n_inuse f <? n_alloc f then mret (true, i) else
  let n := n_alloc f + STACKS_GROW in
  r ← sys (CMalloc (8 * n));
  if r_val r <? 0 then mret (false, set_fetch (set_anchor None n f) i) else
  let a := realloc_ptrs (anchor f) n in
  '(x, i) ← pids_stacks_alloc (set_fetch (set_anchor (Some a) n f) i) STACKS_GROW;
  match x with
  | None => mret (false, i)
  | Some x =>
      a ← deref (copy_ptrs a (Z.to_nat (n_inuse f)) (extent_ptrs x));
      mret (true, set_fetch (set_anchor (Some a) n (fetch i)) i)
  end.

(** The results of one process, into the next stack. *)
Definition fetch_one (i : pids_info) (p : proc_t) (l : lib) : R (bool * pids_info * lib) :=
  '(rc, i, p) ← pids_proc_tally i p;
  if rc =? 0 then mret (false, set_fetch_proc p i, l) else
  a ← deref (anchor (fetch i));
  q ← deref (mjoin (a !! Z.to_nat (n_inuse (fetch i))));
  let i := set_fetch (set_inuse (n_inuse (fetch i) + 1) (fetch i)) i in
  s ← deref (load (extents i) q);
  '(ok, i, s, p, l) ← pids_assign_results i s p l;
  mret (ok, set_fetch_proc p (set_extents (store (extents i) q s) (next_id i) i), l).

(** The loop: false when memory ran out. *)
Fixpoint fetch_loop (fl : nat) (i : pids_info) (l : lib) : R (bool * pids_info * lib) :=
  match fl with
  | O => nofuel
  | S f =>
      '(got, PT, p, l) ← read_next (read_something i) (fetch_PT i) (fetch_proc i) l;
      let i := set_fetch_proc p (set_fetch_PT (Some PT) i) in
      if negb got then mret (true, i, l) else
      '(ok, i) ← fetch_grow i;
      if negb ok then mret (false, i, l) else
      '(ok, i, l) ← fetch_one i p l;
      if negb ok then mret (false, i, l) else fetch_loop f i l
  end.

(** The copy of the pointers that is handed out. *)
Definition fetch_final (i : pids_info) : R (Z * pids_info) :=
  let f := fetch i in
  '(ok, f) ← (if n_saved f <? n_inuse f + 1 then
                let n := n_inuse f + 1 in
                r ← sys (CMalloc (8 * n));
                mret (if r_val r <? 0 then (false, set_results n None f)
                      else (true, set_results n (Some (realloc_ptrs (res_stacks f) n)) f))
              else mret (true, f));
  if negb ok then mret (-1, set_fetch f i) else
  a ← deref (anchor f);
  st ← deref (res_stacks f);
  st ← deref (copy_ptrs st 0 (take (Z.to_nat (n_inuse f)) a ++ [None]));
  mret (n_inuse f, set_fetch (set_results (n_saved f) (Some st) f) i).

Definition pids_stacks_fetch (i : pids_info) (l : lib) : R (Z * pids_info * lib) :=
  '(ok, i) ← fetch_init i;
  if negb ok then mret (-1, i, l) else
  let i := set_hist (pids_toggle_history (hist i)) i in
  let i := set_fetch (set_inuse 0 (set_counts no_counts (fetch i))) i in
  '(ok, i, l) ← fetch_loop fuel i l;
  if negb ok then mret (-1, i, l) else
  e ← get_errno;
  if e =? ENOMEM then mret (-1, i, l) else
  '(rc, i) ← fetch_final i;
  mret (rc, i, l).

(** ** Contexts *)

(** [while (pgsz > 1024) { pgsz >>= 1; shift++; }]; an [int] takes less than 32
    rounds. *)
Fixpoint shift_loop (n : nat) (pgsz shift : Z) : Z :=
  match n with
  | O => shift
  | S n => if 1024 <? pgsz then shift_loop n (Z.shiftr pgsz 1) (shift + 1) else shift
  end.

Definition fetch_empty : fetch_support := Fetch None 0 0 0 None no_counts.
Definition info_empty (h : history_info) : pids_info :=
  Info 0 0 0 None [] [] fetch_empty 0 h None 0 0 None 0 0 None None 0 false proc_zero proc_zero 0.

(** The items of a new context; [None] for the errors, with their value. *)
Definition new_items (its : option (Z * list Z)) (numitems : Z) (i : pids_info) : R (Z + pids_info) :=
  match its with
  | None => mret (inr i)
  | Some (addr, its) =>
      if numitems =? 0 then mret (inr i) else
      bad ← deref (pids_items_check_failed addr its numitems);
      if bad : bool then mret (inl (- EINVAL)) else
      let n := numitems + 1 in
      r ← sys (CMalloc (4 * n));
      if r_val r <? 0 then mret (inl (- ENOMEM)) else
      i ← deref (pids_libflags_set (set_items n n (Some (take (Z.to_nat numitems) its ++ [PIDS_logical_end])) i));
      mret (inr i)
  end.

(** The sizes of the two structures, which no call depends on. *)
Definition info_size : Z := 4096.
Definition hist_size : Z := 49192.

(** [slot] is the caller's variable, which must be NULL. *)
Definition procps_pids_new (so so1 : option Numa.libnuma) (slot : option pids_info)
    (its : option (Z * list Z)) (numitems : Z) (l : lib) : R (Z * option pids_info * lib) :=
  match slot with
  | Some _ => mret (- EINVAL, slot, l)
  | None =>
      c ← sys (CMalloc info_size);
      if r_val c <? 0 then mret (- ENOMEM, None, l) else
      x ← new_items its numitems (info_empty new_history);
      match x with
      | inl e => mret (e, None, l)
      | inr i =>
          h ← sys (CMalloc hist_size);
          if r_val h <? 0 then mret (- ENOMEM, None, l) else
          a ← sys (CMalloc (HST_size * NEWOLD_INIT));
          if r_val a <? 0 then mret (- ENOMEM, None, l) else
          b ← sys (CMalloc (HST_size * NEWOLD_INIT));
          if r_val b <? 0 then mret (- ENOMEM, None, l) else
          pg ← sys CGetpagesize;
          hz ← Sysinfo.procps_hertz_get;
          let i := Info 1 (maxitems i) (curitems i) (items i) [] [] fetch_empty (history_yes i) new_history None
                     (shift_loop 32 (r_val pg) 0) (oldflags i) None hz 0 None None 0 false proc_zero proc_zero 0 in
          mret (0, Some i, set_numa (Numa.numa_init so so1 (numa l)) l)
      end
  end.

Definition procps_pids_ref (i : option pids_info) : Z * option pids_info :=
  match i with
  | None => (- EINVAL, None)
  | Some i => (refcount i + 1, Some (set_refcount (refcount i + 1) i))
  end.

(** The stacks of the isolated extents are cleaned one each. *)
Definition cleanup_other (x : extent) : R unit :=
  s ← deref (x_stacks x !! 0%nat); _ ← pids_cleanup_stack s; mret tt.

Definition procps_pids_unref (i : option pids_info) (l : lib) : R (Z * option pids_info * lib) :=
  match i with
  | None => mret (- EINVAL, None, l)
  | Some i =>
      let i := set_refcount (refcount i - 1) i in
      if refcount i <? 1 then
        _ ← pids_cleanup_stacks_all i;
        _ ← mapR cleanup_other (otherexts i);
        _ ← (if is_none (get_ext i) then mret None else pids_oldproc_close (get_PT i));
        mret (0, None, set_numa (Numa.numa_uninit (numa l)) l)
      else mret (refcount i, Some i, l)
  end.

(** ** Access *)

(** The uptime: what [boot_seconds] becomes.  The condition holds for every
    value returned, so that nothing was stored in the variable when the file
    could not be opened. *)
Definition fresh_boot (i : pids_info) : R pids_info :=
  '(rc, v) ← Sysinfo.procps_uptime;
  if rc <=? 0 then '(up, _) ← deref v; mret (set_boot up i) else mret (set_boot 0 i).

(** The stack is the one of the newest isolated extent. *)
Definition fatal_proc_unmounted (i : option pids_info) (return_self : bool) (l : lib) :
    R (option pstack * option pids_info * lib) :=
  '(rc, p) ← look_up_our_self cs enc fuel (self l);
  let l := set_self p l in
  if (rc =? 0) || negb return_self then mret (None, i, l) else
  _ ← set_errno EINVAL;
  match i with
  | None => mret (None, None, l)
  | Some i =>
      if curitems i =? 0 then mret (None, Some i, l) else
      _ ← set_errno 0;
      '(x, i) ← pids_stacks_alloc i 1;
      match x with
      | None => mret (None, Some i, l)
      | Some x =>
          match pids_extent_cut i (x_id x) with
          | None => _ ← set_errno EADDRNOTAVAIL; mret (None, Some i, l)
          | Some (x, i) =>
              s ← deref (x_stacks x !! 0%nat);
              '(ok, i, s, p, l) ← pids_assign_results i s (self l) l;
              let i := set_otherexts (Extent (x_id x) [s] :: otherexts i) i in
              mret (if ok : bool then Some s else None, Some i, set_self p l)
          end
      end
  end.

(** The jump target [fresh_start]: the table is opened and the type noted. *)
Definition fresh_start (which : Z) (i : pids_info) (l : lib) : R (bool * pids_info * lib) :=
  '(ok, PT, l) ← pids_oldproc_open (get_PT i) (oldflags i) [] 0 l;
  let i := set_get_PT PT i in
  if negb ok then mret (false, i, l) else
  mret (true, set_reader (Some (negb (which =? 0))) (set_get_type which i), l).

Definition get_ready (which : Z) (i : pids_info) (l : lib) : R (bool * pids_info * lib) :=
  '(ok, i, l) ← (match get_ext i with
                 | Some _ => mret (true, i, l)
                 | None =>
                     '(x, i) ← pids_stacks_alloc i 1;
                     match x with
                     | None => mret (false, i, l)
                     | Some x => fresh_start which (set_get_ext (Some (x_id x)) i) l
                     end
                 end);
  if negb ok then mret (false, i, l) else
  if negb (get_type i =? which) then
    PT ← pids_oldproc_close (get_PT i);
    fresh_start which (set_get_PT PT i) l
  else mret (true, i, l).

(** The stack, or NULL. *)
Definition procps_pids_get (i : option pids_info) (which : Z) (l : lib) :
    R (option sptr * option pids_info * lib) :=
  _ ← set_errno EINVAL;
  match i with
  | None => mret (None, None, l)
  | Some i =>
      if negb ((which =? 0) || (which =? 1)) then mret (None, Some i, l) else
      if curitems i =? 0 then mret (None, Some i, l) else
      '(ok, i, l) ← get_ready which i l;
      if negb ok then mret (None, Some i, l) else
      _ ← set_errno 0;
      i ← fresh_boot i;
      '(got, PT, p, l) ← read_next (read_something i) (get_PT i) (get_proc i) l;
      let i := set_get_proc p (set_get_PT (Some PT) i) in
      if negb got then mret (None, Some i, l) else
      id ← deref (get_ext i);
      s ← deref (load (extents i) (id, 0%nat));
      '(ok, i, s, p, l) ← pids_assign_results i s p l;
      let i := set_get_proc p (set_extents (store (extents i) (id, 0%nat) s) (next_id i) i) in
      mret (if ok : bool then Some (id, 0%nat) else None, Some i, l)
  end.

(** What reap and select share: open, read everything, close.  [None] when the
    table could not be opened. *)
Definition harvest (flags : Z) (ids : list Z) (n : Z) (threads : bool) (i : pids_info) (l : lib) :
    R (option Z * pids_info * lib) :=
  '(ok, PT, l) ← pids_oldproc_open (fetch_PT i) flags ids n l;
  let i := set_fetch_PT PT i in
  if negb ok then mret (None, i, l) else
  let i := set_reader (Some threads) i in
  i ← fresh_boot i;
  '(rc, i, l) ← pids_stacks_fetch i l;
  PT ← pids_oldproc_close (fetch_PT i);
  mret (Some rc, set_fetch_PT PT i, l).

(** The results are the member [fetch] of the context when [true] is returned. *)
Definition procps_pids_reap (i : option pids_info) (which : Z) (l : lib) : R (bool * option pids_info * lib) :=
  _ ← set_errno EINVAL;
  match i with
  | None => mret (false, None, l)
  | Some i =>
      if negb ((which =? 0) || (which =? 1)) then mret (false, Some i, l) else
      if curitems i =? 0 then mret (false, Some i, l) else
      _ ← set_errno 0;
      '(rc, i, l) ← harvest (oldflags i) [] 0 (negb (which =? 0)) i l;
      mret (match rc with Some rc => 0 <? rc | None => false end, Some i, l)
  end.

Definition PIDS_SELECT_PID : Z := 65536.
Definition PIDS_SELECT_PID_THREADS : Z := 65537.
Definition PIDS_SELECT_UID : Z := 131072.
Definition PIDS_SELECT_UID_THREADS : Z := 131073.

Definition procps_pids_select (i : option pids_info) (these : option (list Z)) (numthese which : Z) (l : lib) :
    R (bool * option pids_info * lib) :=
  _ ← set_errno EINVAL;
  match i, these with
  | Some i, Some these =>
      if (numthese <? 1) || (FILL_ID_MAX <? numthese) then mret (false, Some i, l) else
      if negb ((which =? PIDS_SELECT_PID) || (which =? PIDS_SELECT_UID) ||
               (which =? PIDS_SELECT_PID_THREADS) || (which =? PIDS_SELECT_UID_THREADS)) then mret (false, Some i, l) else
      if curitems i =? 0 then mret (false, Some i, l) else
      _ ← set_errno 0;
      if (length these <? Z.to_nat numthese)%nat then undef else
      let ids := take (Z.to_nat numthese) these ++ [0] in
      '(rc, i, l) ← harvest (Z.lor (oldflags i) which) ids numthese (has which 1) i l;
      mret (match rc with Some rc => 0 <=? rc | None => false end, Some i, l)
  | _, _ => mret (false, i, l)
  end.

(** The extents, the table of [get] and the anchor are given up, and the items
    get more room: false when memory ran out. *)
Definition reset_room (n : Z) (i : pids_info) : R (bool * pids_info) :=
  let i := set_extents [] (next_id i) i in
  i ← (match get_ext i with
       | Some _ => PT ← pids_oldproc_close (get_PT i); mret (set_get_ext None (set_get_PT PT i))
       | None => mret i
       end);
  let i := set_fetch (set_anchor None (n_alloc (fetch i)) (fetch i)) i in
  r ← sys (CMalloc (4 * n));
  if r_val r <? 0 then mret (false, set_items n (curitems i) None i)
  else
    let old := default [] (items i) in
    mret (true, set_items n (curitems i) (Some (old ++ replicate (Z.to_nat n - length old) 0)) i).

(** [memcpy] of the new items and the delimiter. *)
Definition put_items (its : list Z) (n : nat) (arr : list Z) : option (list Z) :=
  if (length its <? n)%nat || (length arr <? n + 1)%nat then None
  else Some (take n its ++ [PIDS_logical_end] ++ drop (n + 1) arr).

Definition same_items (i : pids_info) (its : list Z) (n : Z) : option bool :=
  if negb (curitems i =? n + 1) then Some false
  else old ← items i; Some (bool_decide (take (Z.to_nat n) old = take (Z.to_nat n) its)).

Definition procps_pids_reset (i : option pids_info) (newitems : option (Z * list Z)) (n : Z) :
    R (Z * option pids_info) :=
  match i, newitems with
  | Some i, Some (addr, its) =>
      bad ← deref (pids_items_check_failed addr its n);
      if bad : bool then mret (- EINVAL, Some i) else
      i ← pids_cleanup_stacks_all i;
      same ← deref (same_items i its n);
      if same : bool then mret (0, Some i) else
      '(ok, i) ← (if maxitems i <? n + 1 then reset_room (n + 1) i else mret (true, i));
      if negb ok then mret (- ENOMEM, Some i) else
      arr ← deref (items i);
      arr ← deref (put_items its (Z.to_nat n) arr);
      let i := set_items (maxitems i) (n + 1) (Some arr) i in
      i ← deref (pids_itemize_stacks_all i);
      i ← deref (pids_libflags_set i);
      mret (0, Some i)
  | _, _ => mret (- EINVAL, i)
  end.
End ops.

(** ** Sorting *)

(** The position of the sort item in the first stack: the outer [None] leaves
    the stack, the inner one is NULL. *)
Fixpoint find_offset (cur sortitem : Z) (offset : Z) (s : pstack) : option (option nat) :=
  match s with
  | [] => None
  | r :: t =>
      if pr_item r =? sortitem then Some (Some (Z.to_nat offset))
      else if cur <=? offset + 1 then Some None
      else if PIDS_logical_end <=? pr_item r then Some None
      else find_offset cur sortitem (offset + 1) t
  end.

Definition val_at (offset : nat) (s : pstack) : pval := from_option pr_result NULL (s !! offset).

(** [procps_pids_sort]: the outer [None] is undefined, the inner one NULL.
    [qsort] is [qsort_r], which may compare any two of the stacks. *)
Definition procps_pids_sort (qsort : (pstack -> pstack -> Z) -> list pstack -> list pstack)
    (strcoll strverscmp : bytes -> bytes -> Z) (i : pids_info) (stacks : list pstack) (sortitem order : Z)
    : option (option (list pstack)) :=
  if (sortitem <? 0) || (PIDS_logical_end <=? sortitem) then Some None
  else if negb (order =? 1) && negb (order =? -1) then Some None
  else if (length stacks <? 2)%nat then Some (Some stacks)
  else
    s ← head stacks;
    offset ← find_offset (curitems i) sortitem 0 s;
    match offset with
    | None => Some None
    | Some offset =>
        row ← item_row sortitem;
        let cmp a b := compare_pvals strcoll strverscmp (rsort row) order (val_at offset a) (val_at offset b) in
        if forallb (fun a => forallb (fun b => bool_decide (is_Some (cmp a b))) stacks) stacks
        then Some (Some (qsort (fun a b => default 0 (cmp a b)) stacks))
        else None
    end.

(** ** The debugging interface: the result, and whether a message is printed *)

Fixpoint valid_len (s : pstack) : option Z :=
  match s with
  | [] => None
  | r :: t => if pr_item r <? PIDS_logical_end then Z.succ <$> valid_len t else Some 0
  end.

Definition xtra_pids_val (relative_enum : Z) (typestr : option ptype) (s : pstack) : option (option presult * bool) :=
  n ← valid_len s;
  if (relative_enum <? 0) || (n <=? relative_enum) then Some (None, true)
  else
    r ← s !! Z.to_nat relative_enum;
    row ← item_row (pr_item r);
    Some (Some r, match type2str row with Some _ => negb (bool_decide (typestr = type2str row)) | None => false end).
End Pids.
