(* ===== verification/Pidsafe.v ===== *)
(** * procps/linux/pids.c: every result holds what its item says

    The table of items is consistent, every operation keeps the results of the
    member type of their items, and with that nothing but a string is ever freed
    as one.  Nothing is assumed of the system here: calls may fail in any way. *)

From stdpp Require Import base numbers list strings.
From S2P Require Import Prelude Libc Posix Escape Utils Stacks Fetch Real Sysinfo Devname Procdata Procfiles Readproc Pidhist Piditems Pids.
Open Scope Z_scope.

Module Pidsafe.
Import Procdata Procfiles Readproc Real Devname Pidhist Piditems Pids.

(** ** The table *)

(** The member of the union a setter writes, and how what it stores is freed. *)
Definition setter_type (s : psetter) : option ptype :=
  match s with
  | SNoop | SExtra => None
  | SReg t _ | SSum t _ => Some t
  | SBorrow _ | SDup _ | SStr _ _ | STty _ | SWchan => Some str
  | SNs _ | SCvt _ => Some ul_int
  | SVec _ _ => Some strv
  | SNode => Some s_int
  | STimeAll _ | STimeElapsed | STimeStart | SUtil _ => Some real
  end.

Definition setter_owns (s : psetter) : option freefunc :=
  match s with
  | SDup _ | SStr _ _ | STty _ | SWchan => Some free_str
  | SVec _ _ => Some free_strv
  | _ => None
  end.

(** The setters that show what the history keeps. *)
Definition setter_history (s : psetter) : bool :=
  match s with SReg _ f => bool_decide (f ∈ [p_pcpu; p_maj_delta; p_min_delta]) | _ => false end.

(** The comparison looks at the member the setter writes. *)
Definition sort_member (k : psort) : option ptype :=
  match k with
  | sort_noop => None
  | sort_s_ch => Some s_ch | sort_s_int => Some s_int | sort_u_int => Some u_int | sort_ul_int => Some ul_int
  | sort_ull_int => Some ull_int | sort_real => Some real | sort_str | sort_strvers => Some str | sort_strv => Some strv
  end.

#[export] Instance freefunc_eq_dec : EqDecision freefunc.
Proof. solve_decision. Defined.

Definition row_consistent (x : psetter * row) : bool :=
  bool_decide (setter_type x.1 = type2str x.2) && bool_decide (setter_owns x.1 = rfree x.2) &&
  (bool_decide (type2str x.2 = None) || bool_decide (sort_member (rsort x.2) = type2str x.2)) &&
  (needhist x.2 =? if setter_history x.1 then 1 else 0).

Lemma Item_table_consistent : forallb row_consistent Item_table = true.
Proof. vm_compute. reflexivity. Qed.

Lemma Item_table_names : map fst item_rows = pids_item /\ map fst setters = pids_item.
Proof. split; vm_compute; reflexivity. Qed.

Lemma Item_table_zip : Item_table = zip (map snd setters) (map snd item_rows).
Proof. vm_compute. reflexivity. Qed.

(** Two lists of named things under the same names. *)
Lemma zip_named {A B} (names : list string) (l : list (string * A)) (m : list (string * B)) n a b :
  map fst l = names -> map fst m = names -> fst <$> zip (map snd l) (map snd m) !! n = Some a ->
  snd <$> zip (map snd l) (map snd m) !! n = Some b ->
  exists name, names !! n = Some name /\ (name, a) ∈ l /\ (name, b) ∈ m.
Proof.
  intros Hl Hm. destruct (zip _ _ !! n) as [[a' b']|] eqn:E; [|done]. intros [= <-] [= <-].
  apply lookup_zip_Some in E as [E1 E2]. rewrite list_lookup_fmap in E1. rewrite list_lookup_fmap in E2.
  destruct (l !! n) as [[x a]|] eqn:El; [|done]. destruct (m !! n) as [[y b]|] eqn:Em; [|done].
  cbn [fmap option_fmap option_map snd] in E1, E2. injection E1 as <-. injection E2 as <-.
  assert (names !! n = Some x) as Hx by (rewrite <- Hl; rewrite list_lookup_fmap, El; done).
  assert (names !! n = Some y) as Hy by (rewrite <- Hm; rewrite list_lookup_fmap, Em; done).
  rewrite Hx in Hy. injection Hy as <-.
  exists x. split; [done|]. split; by eapply list_elem_of_lookup_2.
Qed.

Lemma table_entry (T : list (psetter * row)) it : forallb row_consistent T = true -> 0 <= it < Z.of_nat (length T) ->
  exists f r, fst <$> T !! Z.to_nat it = Some f /\ snd <$> T !! Z.to_nat it = Some r /\ row_consistent (f, r) = true.
Proof.
  intros Hc Hn. destruct (lookup_lt_is_Some_2 T (Z.to_nat it) ltac:(lia)) as [[f r] E]. rewrite E.
  exists f, r. split; [done|]. split; [done|].
  rewrite forallb_forall in Hc. apply Hc, list_elem_of_In. by eapply list_elem_of_lookup_2.
Qed.

Lemma item_entry it : 0 <= it < PIDS_logical_end ->
  exists f r, setsfunc it = Some f /\ item_row it = Some r /\ row_consistent (f, r) = true.
Proof. exact (table_entry Item_table it Item_table_consistent). Qed.

Lemma row_consistent_spec f r : row_consistent (f, r) = true ->
  type2str r = setter_type f /\ rfree r = setter_owns f /\ (type2str r <> None -> sort_member (rsort r) = type2str r) /\
  needhist r = if setter_history f then 1 else 0.
Proof.
  unfold row_consistent. cbn [fst snd]. rewrite !andb_true_iff, orb_true_iff, !bool_decide_eq_true, Z.eqb_eq.
  intros [[[H1 H2] H3] H4]. split; [done|]. split; [done|]. split; [|done]. intros Hn. by destruct H3.
Qed.

Lemma item_free it : 0 <= it < PIDS_logical_end ->
  exists f r, setsfunc it = Some f /\ item_row it = Some r /\ rfree r = setter_owns f.
Proof.
  intros H. destruct (item_entry it H) as (f & r & Hf & Hr & Hc).
  exists f, r. split; [exact Hf|]. split; [exact Hr|]. apply (row_consistent_spec _ _ Hc).
Qed.

Lemma item_named it f r : setsfunc it = Some f -> item_row it = Some r ->
  exists name, pids_item !! Z.to_nat it = Some name /\ (name, f) ∈ setters /\ (name, r) ∈ item_rows.
Proof.
  unfold setsfunc, item_row. rewrite Item_table_zip. destruct Item_table_names as [H1 H2].
  exact (zip_named pids_item setters item_rows _ f r H2 H1).
Qed.

(** C6: the table of items is consistent for every item of the enumeration: its
    row stands under its own name, the setter writes the member of the union
    that the row's type names, the sort function compares that member, the
    clean-up function is the one for what the setter stores (and there is none
    for numbers and for borrowed names), and the history is asked for exactly
    by the items that show it. *)
Theorem Item_table_typed it : 0 <= it < PIDS_logical_end ->
  exists name f r, pids_item !! Z.to_nat it = Some name /\
    setsfunc it = Some f /\ item_row it = Some r /\ (name, f) ∈ setters /\ (name, r) ∈ item_rows /\
    type2str r = setter_type f /\ rfree r = setter_owns f /\
    (type2str r <> None -> sort_member (rsort r) = type2str r) /\
    needhist r = if setter_history f then 1 else 0.
Proof.
  intros H. destruct (item_entry it H) as (f & r & Hf & Hr & Hc).
  destruct (item_named it f r Hf Hr) as (name & Hn & Hs & Hi).
  exists name, f, r. split; [exact Hn|]. split; [exact Hf|]. split; [exact Hr|]. split; [exact Hs|]. split; [exact Hi|].
  exact (row_consistent_spec _ _ Hc).
Qed.

Lemma Item_table_typed_witness : exists name f r, pids_item !! 12%nat = Some name /\
  setsfunc 12 = Some f /\ item_row 12 = Some r /\ (name, f) ∈ setters /\ (name, r) ∈ item_rows /\
  type2str r = setter_type f /\ rfree r = setter_owns f /\
  (type2str r <> None -> sort_member (rsort r) = type2str r) /\
  needhist r = if setter_history f then 1 else 0.
Proof. apply (Item_table_typed 12). by vm_compute. Defined.
(** ** Values and stacks *)

(** What a union may hold under a type. *)
Definition typed (t : option ptype) (v : pval) : Prop :=
  match t with
  | None => v = NULL
  | Some str => v = NULL \/ exists s, v = PStr s
  | Some strv => v = NULL \/ exists l, v = PStrv l
  | Some real => v = NULL \/ exists x, v = PReal x
  | Some _ => exists raw, v = PNum raw /\ 0 <= raw < 2 ^ 64
  end.

Lemma typed_null t : typed t NULL.
Proof. destruct t as [[]|]; cbn; eauto; exists 0; by split. Qed.

Lemma put_num_range t old v : (exists raw, old = PNum raw /\ 0 <= raw < 2 ^ 64) ->
  exists raw, put_num t old v = PNum raw /\ 0 <= raw < 2 ^ 64.
Proof.
  intros (r & -> & Hr). pose proof (Z.mod_pos_bound v (2 ^ 8) ltac:(lia)).
  pose proof (Z.mod_pos_bound v (2 ^ 32) ltac:(lia)). pose proof (Z.mod_pos_bound v (2 ^ 64) ltac:(lia)).
  assert (0 <= r / 2 ^ 8 < 2 ^ 56) by (split; [apply Z.div_pos; lia|apply Z.div_lt_upper_bound; lia]).
  assert (0 <= r / 2 ^ 32 < 2 ^ 32) by (split; [apply Z.div_pos; lia|apply Z.div_lt_upper_bound; lia]).
  destruct t; cbn [put_num bits]; unfold u32, u64, wrap_u; (eexists; split; [reflexivity|lia]).
Qed.

(** A member that is neither a pointer nor a [double]. *)
Definition numeric_type (t : ptype) : bool := match t with str | strv | real => false | _ => true end.

Definition setter_sane (s : psetter) : bool := match s with SReg t _ | SSum t _ => numeric_type t | _ => true end.

Lemma setters_sane : forallb (fun x => setter_sane x.1) Item_table = true.
Proof. vm_compute. reflexivity. Qed.

Lemma setsfunc_sane it f : setsfunc it = Some f -> setter_sane f = true.
Proof.
  unfold setsfunc. pose proof setters_sane as H. rewrite forallb_forall in H.
  destruct (_ !! _) as [x|] eqn:E; [|done]. intros [= <-]. apply (H x), list_elem_of_In. by eapply list_elem_of_lookup_2.
Qed.

Lemma dup_val_typed t p l o (w : world rstate) :
  wlp (dup_val t p l) o w (fun x _ => typed (Some str) (s_val x)).
Proof. unfold dup_val. apply wlp_bind. apply wlp_any. intros [c|] w'; cbn; eauto. Qed.

(** Skipping over a computation whose result does not matter. *)
Lemma wlp_skip {A B} (m : R A) (f : A -> R B) o w Q :
  (forall a w', wlp (f a) o w' Q) -> wlp (m ≫= f) o w Q.
Proof. intros H. apply wlp_bind. by apply wlp_any. Qed.

Lemma run_setter_typed f e old p l o (w : world rstate) : setter_sane f = true -> typed (setter_type f) old ->
  wlp (run_setter f e old p l) o w (fun x _ => typed (setter_type f) (s_val x)).
Proof.
  intros Hs Ht. destruct f; cbn [run_setter setter_type setter_sane] in *; unfold plain;
    repeat first [apply wlp_skip; intros | apply dup_val_typed | case_match]; unfold wlp; cbn [mret M_ret s_val].
  all: try (destruct t; try done; exact (put_num_range _ _ _ Ht)).
  all: try exact (put_num_range _ _ _ Ht).
  all: cbn [typed]; eauto.
Qed.

(** A stack: results of valid items with values of their types, then the
    logical end, with nothing behind it that would have to be freed. *)
Inductive well : pstack -> Prop :=
| well_end it tail : PIDS_logical_end <= it -> Forall (fun r => pr_result r = NULL) tail ->
    well (PResult it NULL :: tail)
| well_cons it v t f : 0 <= it < PIDS_logical_end -> setsfunc it = Some f -> typed (setter_type f) v -> well t ->
    well (PResult it v :: t).
#[local] Hint Constructors well : core.

Lemma assign_loop_well e l0 o s : well s -> forall p err (w : world rstate),
  wlp (assign_loop e s p err l0) o w (fun r _ => well r.1.1.1 /\ map pr_item r.1.1.1 = map pr_item s).
Proof.
  intros H. revert l0. induction H as [it tail He Hn|it v t f Hi Hf Hv Ht IH]; intros l p err w; cbn [assign_loop pr_item pr_result].
  - destruct (Z.leb_spec PIDS_logical_end it); [|lia]. split; [by constructor|done].
  - destruct (Z.leb_spec PIDS_logical_end it); [lia|]. rewrite Hf. cbn [deref]. apply wlp_bind. cbn [wlp mret M_ret].
    apply wlp_bind. eapply wlp_mono; [by apply run_setter_typed; [eapply setsfunc_sane|]|]. intros x w1 Hx.
    apply wlp_bind. eapply wlp_mono; [apply IH|]. intros [[[t' p'] err'] l'] w2 [Hw Hm]. cbn [fst] in *.
    split; cbn [fst map pr_item]; [by econstructor|by f_equal].
Qed.

Lemma run_free_typed f old o (w : world rstate) : typed (setter_type f) old ->
  wp (match setter_owns f with Some g => run_free g old | None => mret tt end) o w (fun _ w' => w' = w).
Proof. destruct f; cbn [setter_type setter_owns typed]; try done; by intros [->|[? ->]]. Qed.

(** Freeing all of a stack is defined, and leaves nothing to free. *)
Lemma pids_cleanup_stack_well o s : well s -> forall w : world rstate,
  wp (pids_cleanup_stack s) o w (fun s' w' => w' = w /\ well s' /\ Forall (fun r => pr_result r = NULL) s' /\
    map pr_item s' = map pr_item s).
Proof.
  induction 1 as [it tail He Hn|it v t f Hi Hf Hv Ht IH]; intros w; cbn [pids_cleanup_stack pr_item pr_result].
  - destruct (Z.leb_spec PIDS_logical_end it); [|lia]. split; [done|]. split; [by constructor|by split; [constructor|]].
  - destruct (Z.leb_spec PIDS_logical_end it); [lia|]. destruct (item_free it Hi) as (f' & r & Hf' & Hr & Hrf).
    rewrite Hf in Hf'. injection Hf' as <-. rewrite Hr. cbn [deref]. wstep. apply wp_ret. rewrite Hrf.
    wstep. eapply wp_mono; [by apply run_free_typed|]. intros _ w1 ->.
    wstep. eapply wp_mono; [apply IH|]. intros t' w2 (-> & Hw & Hn & Hm). apply wp_ret.
    split; [done|]. split; [econstructor; [done..|apply typed_null|done]|]. split; [by constructor|].
    cbn [map pr_item]. by f_equal.
Qed.
(** ** Contexts *)

Definition valid_item (it : Z) : Prop := 0 <= it < PIDS_logical_end.

(** The items of a context: valid ones, the logical end, and unused room. *)
Definition items_ok (mx cur : Z) (its : list Z) : Prop :=
  exists vs tl, its = vs ++ PIDS_logical_end :: tl /\ Forall valid_item vs /\ cur = Z.of_nat (length vs) + 1 /\
    Z.of_nat (length its) = mx.

Definition stack_ok (mx : Z) (s : pstack) : Prop := well s /\ Z.of_nat (length s) = mx.
Definition null_stack (s : pstack) : Prop := Forall (fun r => pr_result r = NULL) s.

Record safe (i : pids_info) : Prop := Safe {
  sf_extents : Forall (fun x => Forall (stack_ok (maxitems i)) (x_stacks x)) (extents i);
  sf_others : Forall (fun x => exists s, x_stacks x = [s] /\ well s) (otherexts i);
  sf_items : forall its, items i = Some its -> items_ok (maxitems i) (curitems i) its
}.

(** Only these members matter. *)
Lemma safe_same i j : extents j = extents i -> otherexts j = otherexts i -> items j = items i ->
  maxitems j = maxitems i -> curitems j = curitems i -> safe i -> safe j.
Proof. intros E1 E2 E3 E4 E5 [H1 H2 H3]. split; rewrite ?E1, ?E2, ?E3, ?E4, ?E5; done. Qed.
#[local] Hint Extern 2 (safe _) =>
  match goal with H : safe ?i |- safe ?j => exact (safe_same i j eq_refl eq_refl eq_refl eq_refl eq_refl H) end : core.

(** An item and its setter: something to put in an itemized stack. *)
Lemma itemized_well vs tl s : Forall valid_item vs -> null_stack s -> (length vs < length s)%nat ->
  let n := S (length vs) in let its := vs ++ PIDS_logical_end :: tl in
  well (zip_with (fun it r => PResult it (pr_result r)) (take n its) (take n s) ++ drop n s).
Proof.
  cbn zeta. intros Hv Hs. revert s Hs. induction Hv as [|it vs Hi Hv IH]; intros [|r s] Hs Hl; cbn [length] in Hl; try lia;
    inversion Hs as [|? ? Hr Hs']; subst; cbn [length take app zip_with drop] in *.
  - rewrite take_0, Hr. cbn. by constructor.
  - rewrite Hr. destruct (item_entry it Hi) as (f & row & Hf & _). econstructor; [done|exact Hf|apply typed_null|].
    apply IH; [done|lia].
Qed.

Lemma itemize_ok mx cur its s : items_ok mx cur its -> null_stack s -> Z.of_nat (length s) = mx ->
  exists s', pids_itemize_stack s cur its = Some s' /\ stack_ok mx s'.
Proof.
  intros (vs & tl & -> & Hv & -> & Hlen) Hs Hl. unfold pids_itemize_stack. rewrite length_app in Hlen. cbn [length] in Hlen.
  replace (Z.to_nat (Z.of_nat (length vs) + 1)) with (S (length vs)) by lia.
  rewrite length_app. cbn [length].
  destruct (Nat.ltb_spec (length vs + S (length tl)) (S (length vs))); [lia|].
  destruct (Nat.ltb_spec (length s) (S (length vs))); [lia|]. cbn [orb]. eexists. split; [reflexivity|].
  split; [by apply itemized_well; [..|lia]|].
  rewrite length_app, length_zip_with, !length_take, length_drop, length_app. cbn [length]. lia.
Qed.

Lemma pids_stacks_alloc_safe i n o (w : world rstate) : safe i ->
  wlp (pids_stacks_alloc i n) o w (fun r _ => safe r.2 /\
    match r.1 with Some x => Forall (stack_ok (maxitems i)) (x_stacks x) /\ extents r.2 = x :: extents i /\
                              x_id x = next_id i /\ maxitems r.2 = maxitems i /\ length (x_stacks x) = Z.to_nat n
              | None => True end).
Proof.
  intros [H1 H2 H3]. unfold pids_stacks_alloc. apply wlp_skip. intros r w1. destruct (_ <? _); [done|].
  destruct (items i) as [its|] eqn:E; [|done]. cbn [deref]. apply wlp_bind. cbn [wlp mret M_ret].
  assert (0 <= maxitems i) by (destruct (H3 its eq_refl) as (? & ? & ? & ? & ? & ?); lia).
  destruct (itemize_ok (maxitems i) (curitems i) its (replicate (Z.to_nat (maxitems i)) (PResult 0 (PNum 0))))
    as (s & -> & Hs); [by apply H3|by apply Forall_replicate|rewrite length_replicate; lia|].
  cbn [deref]. apply wlp_bind. cbn [wlp mret M_ret]. cbn [fst snd].
  assert (Hx : Forall (stack_ok (maxitems i)) (replicate (Z.to_nat n) s)) by by apply Forall_replicate.
  split; [|cbn [x_stacks]; by rewrite length_replicate]. split; cbn; [by constructor|done|by rewrite E].
Qed.

Lemma find_extent_elem l id x : find_extent l id = Some x -> x ∈ l.
Proof.
  induction l as [|y l IH]; [done|]. cbn. destruct (_ =? _)%nat; [intros [= <-]; left|right; auto].
Qed.

Lemma load_ok i p s : safe i -> load (extents i) p = Some s -> stack_ok (maxitems i) s.
Proof.
  intros [H1 _ _]. unfold load. destruct (find_extent _ _) as [x|] eqn:E; [|done]. cbn. intros Hs.
  apply find_extent_elem in E. rewrite Forall_forall in H1. specialize (H1 x E).
  by eapply Forall_lookup_1.
Qed.

Lemma store_safe i p s : safe i -> stack_ok (maxitems i) s -> safe (set_extents (store (extents i) p s) (next_id i) i).
Proof.
  intros [H1 H2 H3] Hs. split; cbn; [|done..]. apply Forall_map. eapply Forall_impl; [exact H1|]. intros x Hx. cbn.
  destruct (_ =? _)%nat; [cbn; by apply Forall_insert|done].
Qed.

(** Assigning results keeps the stack well and the context as it was. *)
Lemma pids_assign_results_safe i s p l o (w : world rstate) : well s ->
  wlp (pids_assign_results i s p l) o w (fun r _ => (exists e, r.1.1.1.2 = set_seterr e i) /\ well r.1.1.2 /\
    map pr_item r.1.1.2 = map pr_item s).
Proof.
  intros Hs. unfold pids_assign_results. apply wlp_bind. eapply wlp_mono; [by apply assign_loop_well|].
  intros [[[s' p'] err] l'] w1 [Hw Hm]. cbn [fst snd] in *. split; [by eexists|done].
Qed.
Section ops.
Context (cs : bool) (enc : option bytes) (getpwuid getgrgid : Z -> option bytes) (fuel : nat) (o : os).
Implicit Types w : world rstate.

Lemma fetch_init_safe i w : safe i -> wlp (fetch_init i) o w (fun r _ => safe r.2).
Proof.
  intros H. unfold fetch_init. destruct (anchor _); [done|]. apply wlp_skip. intros r w1. destruct (_ <? _); [done|].
  cbn zeta. set (j0 := set_fetch _ i). assert (H0 : safe j0) by (subst j0; auto). clearbody j0.
  apply wlp_bind. eapply wlp_mono; [by apply pids_stacks_alloc_safe|].
  intros [[x|] j] w2 [Hj _]; cbn [snd] in *; unfold wlp; cbn; auto.
Qed.

Lemma fetch_grow_safe i w : safe i -> wlp (fetch_grow i) o w (fun r _ => safe r.2).
Proof.
  intros H. unfold fetch_grow. destruct (_ <? _); [done|]. apply wlp_skip. intros r w1.
  destruct (_ <? _); [unfold wlp; cbn; auto|]. cbn zeta. set (j0 := set_fetch _ i).
  assert (H0 : safe j0) by (subst j0; auto). clearbody j0.
  apply wlp_bind. eapply wlp_mono; [by apply pids_stacks_alloc_safe|].
  intros [[x|] j] w2 [Hj _]; cbn [snd] in *; [|done]. apply wlp_skip. intros a w3. unfold wlp. cbn. auto.
Qed.

Lemma pids_proc_tally_safe i p w : safe i -> wlp (pids_proc_tally i p) o w (fun r _ => safe r.1.2).
Proof.
  intros H. unfold pids_proc_tally. destruct (negb _); [|unfold wlp; cbn; auto].
  apply wlp_skip. intros [[rc h] p'] w1. unfold wlp. cbn. auto.
Qed.

(** Storing the results of one process. *)
Lemma assign_at_safe i q s p l w (k : bool * pids_info * pstack * proc_t * lib -> R (bool * pids_info * lib)) :
  safe i -> load (extents i) q = Some s ->
  (forall ok e s' p' l' w', safe (set_extents (store (extents i) q s') (next_id i) (set_seterr e i)) ->
     wlp (k (ok, set_seterr e i, s', p', l')) o w' (fun r _ => safe r.1.2)) ->
  wlp (pids_assign_results i s p l ≫= k) o w (fun r _ => safe r.1.2).
Proof.
  intros H Hs Hk. destruct (load_ok i q s H Hs) as [Hw Hl]. apply wlp_bind.
  eapply wlp_mono; [by apply pids_assign_results_safe|]. intros [[[[ok j] s'] p'] l'] w1 ((e & He) & Hw' & Hm).
  cbn [fst snd] in *. subst j. apply Hk. assert (He : safe (set_seterr e i)) by auto.
  apply (store_safe _ q s' He). split; [done|]. cbn. rewrite <- Hl. f_equal.
  rewrite <- (length_map pr_item s'), Hm. by rewrite length_map.
Qed.

Lemma fetch_one_safe i p l w : safe i -> wlp (fetch_one i p l) o w (fun r _ => safe r.1.2).
Proof.
  intros H. unfold fetch_one. apply wlp_bind. eapply wlp_mono; [by apply pids_proc_tally_safe|].
  intros [[rc j] p'] w1 Hj. cbn [fst snd] in *. destruct (_ =? _); [unfold wlp; cbn; auto|].
  apply wlp_skip. intros a w2. apply wlp_skip. intros q w3.
  set (j' := set_fetch _ j). assert (Hj' : safe j') by (subst j'; auto). clearbody j'.
  apply wlp_bind. destruct (load (extents j') q) as [s|] eqn:E; [|done]. unfold wlp at 1. cbn [deref mret M_ret].
  apply (assign_at_safe j' q s); [done|done|]. intros ok e s' p2 l' w4 Hs. unfold wlp. cbn. auto.
Qed.

Lemma fetch_loop_safe fl : forall i l w, safe i ->
  wlp (fetch_loop cs enc getpwuid getgrgid fuel fl i l) o w (fun r _ => safe r.1.2).
Proof.
  induction fl as [|f IH]; intros i l w H; [done|]. cbn [fetch_loop]. apply wlp_skip. intros [[[got PT] p] l'] w1.
  set (j := set_fetch_proc _ _). assert (Hj : safe j) by (subst j; auto). clearbody j.
  destruct (negb got); [done|]. apply wlp_bind. eapply wlp_mono; [by apply fetch_grow_safe|].
  intros [ok j2] w2 Hj2. cbn [snd] in Hj2. destruct (negb ok); [done|].
  apply wlp_bind. eapply wlp_mono; [by apply fetch_one_safe|]. intros [[ok3 j3] l3] w3 Hj3. cbn [fst snd] in Hj3.
  destruct (negb ok3); [done|]. by apply IH.
Qed.

Lemma fetch_final_safe i w : safe i -> wlp (fetch_final i) o w (fun r _ => safe r.2).
Proof.
  intros H. unfold fetch_final. apply wlp_skip. intros [ok f] w1. destruct (negb ok); [unfold wlp; cbn; auto|].
  do 3 (apply wlp_skip; intros ? ?). unfold wlp. cbn. auto.
Qed.

Lemma pids_stacks_fetch_safe i l w : safe i ->
  wlp (pids_stacks_fetch cs enc getpwuid getgrgid fuel i l) o w (fun r _ => safe r.1.2).
Proof.
  intros H. unfold pids_stacks_fetch. apply wlp_bind. eapply wlp_mono; [by apply fetch_init_safe|].
  intros [ok j] w1 Hj. cbn [snd] in Hj. destruct (negb ok); [done|]. cbn zeta.
  apply wlp_bind. eapply wlp_mono; [apply fetch_loop_safe; auto|]. intros [[ok2 j2] l2] w2 Hj2. cbn [fst snd] in Hj2.
  destruct (negb ok2); [done|]. apply wlp_skip. intros e w3. destruct (_ =? _); [done|].
  apply wlp_bind. eapply wlp_mono; [by apply fetch_final_safe|]. by intros [rc j3] w4 Hj3.
Qed.

Lemma fresh_boot_safe i w : safe i -> wlp (fresh_boot i) o w (fun j _ => safe j).
Proof.
  intros H. unfold fresh_boot. apply wlp_skip. intros [rc v] w1. destruct (_ <=? _); [|unfold wlp; cbn; auto].
  apply wlp_skip. intros [up ?] w2. unfold wlp. cbn. auto.
Qed.

Lemma harvest_safe flags ids n th i l w : safe i ->
  wlp (harvest cs enc getpwuid getgrgid fuel flags ids n th i l) o w (fun r _ => safe r.1.2).
Proof.
  intros H. unfold harvest. apply wlp_skip. intros [[ok PT] l1] w1. cbn zeta. destruct (negb ok); [unfold wlp; cbn; auto|].
  apply wlp_bind. eapply wlp_mono; [apply fresh_boot_safe; auto|]. intros j w2 Hj.
  apply wlp_bind. eapply wlp_mono; [by apply pids_stacks_fetch_safe|]. intros [[rc j2] l2] w3 Hj2. cbn [fst snd] in Hj2.
  apply wlp_skip. intros PT2 w4. unfold wlp. cbn. auto.
Qed.

(** *** Cleaning *)

Lemma mapR_ok {A B} (f : A -> R B) (P : A -> Prop) (Q : B -> Prop) l w :
  (forall a w, P a -> wp (f a) o w (fun b w' => w' = w /\ Q b)) -> Forall P l ->
  wp (mapR f l) o w (fun l' w' => w' = w /\ Forall Q l').
Proof.
  intros Hf H. induction H as [|a l Ha Hl IH]; cbn [mapR]; [by apply wp_ret|].
  wstep. eapply wp_mono; [by apply Hf|]. intros b w1 [-> Hb]. wstep. eapply wp_mono; [apply IH|].
  intros l' w2 [-> Hl']. apply wp_ret. split; [done|by constructor].
Qed.

(** All results were freed. *)
Definition clean_extents (i : pids_info) : Prop :=
  Forall (fun x => Forall (fun s => null_stack s /\ Z.of_nat (length s) = maxitems i) (x_stacks x)) (extents i).

Lemma pids_cleanup_stacks_all_ok i w : safe i ->
  wp (pids_cleanup_stacks_all i) o w (fun j w' => w' = w /\ (exists xs, j = set_extents xs (next_id i) i) /\
    safe j /\ clean_extents j).
Proof.
  intros [H1 H2 H3]. unfold pids_cleanup_stacks_all. wstep.
  eapply wp_mono; [eapply (mapR_ok cleanup_extent _
    (fun x => Forall (fun s => stack_ok (maxitems i) s /\ null_stack s) (x_stacks x)) _ _ _ H1)|].
  Unshelve.
  2:{ intros x w1 Hx. unfold cleanup_extent. wstep. eapply wp_mono;
        [apply (mapR_ok _ _ (fun s => stack_ok (maxitems i) s /\ null_stack s) _ w1) with (2 := Hx)|].
      - intros s w2 [Hw Hl]. eapply wp_mono; [by apply pids_cleanup_stack_well|]. intros s' w3 (-> & Hw' & Hn & Hm).
        split; [done|]. split; [|done]. split; [done|]. rewrite <- Hl, <- (length_map pr_item s'), Hm. by rewrite length_map.
      - intros ss w2 [-> Hss]. apply wp_ret. by split. }
  intros xs w1 [-> Hxs]. apply wp_ret. split; [done|]. split; [by eexists|]. split.
  - split; [|done..]. cbn. eapply Forall_impl; [exact Hxs|]. intros x Hx. eapply Forall_impl; [exact Hx|]. by intros s [].
  - unfold clean_extents. cbn. eapply Forall_impl; [exact Hxs|]. intros x Hx. eapply Forall_impl; [exact Hx|].
    intros s [[_ Hl] Hn]. by split.
Qed.

Lemma pids_oldproc_close_ok PT w : wp (pids_oldproc_close PT) o w (fun r _ => r = None).
Proof.
  unfold pids_oldproc_close. destruct PT as [PT|]; [|done]. wstep. unfold wp at 1. cbn [get_errno].
  unfold closeproc. wstep. wstep. destruct (procfs PT); [wstep; wsys r1 E1|]; apply wp_ret;
    (destruct (taskdir PT); [wstep; wsys r2 E2|]; apply wp_ret); done.
Qed.

(** *** Items *)

Lemma flags_loop_total vs tl : Forall valid_item vs -> forall n fl hy, (n <= S (length vs))%nat ->
  is_Some (flags_loop n (vs ++ PIDS_logical_end :: tl) fl hy).
Proof.
  induction 1 as [|it vs Hi Hv IH]; intros [|n] fl hy Hn; cbn [flags_loop app length] in *; [by eexists| |by eexists|].
  - rewrite Z.leb_refl. by eexists.
  - destruct (Z.leb_spec PIDS_logical_end it); [done|]. destruct (item_entry it Hi) as (f & r & _ & -> & _).
    apply IH. lia.
Qed.

Lemma pids_libflags_set_ok i : safe i -> items i <> None ->
  exists hy fl, pids_libflags_set i = Some (set_libflags hy fl i).
Proof.
  intros [_ _ H3] Hn. unfold pids_libflags_set. destruct (curitems i <? 1); [by eexists _, _|].
  destruct (items i) as [its|]; [|done]. destruct (H3 its eq_refl) as (vs & tl & -> & Hv & Hc & Hl). cbn.
  destruct (flags_loop_total vs tl Hv (Z.to_nat (curitems i)) 0 0 ltac:(lia)) as [[fl hy] ->]. by eexists _, _.
Qed.

Lemma put_items_ok its n arr : (n <= length its)%nat -> (n < length arr)%nat -> Forall valid_item (take n its) ->
  exists arr', put_items its n arr = Some arr' /\ items_ok (Z.of_nat (length arr)) (Z.of_nat n + 1) arr'.
Proof.
  intros H1 H2 Hv. unfold put_items. destruct (Nat.ltb_spec (length its) n); [lia|].
  destruct (Nat.ltb_spec (length arr) (n + 1)); [lia|]. cbn [orb]. eexists. split; [reflexivity|].
  exists (take n its), (drop (n + 1) arr). split; [done|]. split; [done|].
  rewrite length_app, length_take. cbn [length app]. rewrite length_drop. split; [lia|lia].
Qed.

Lemma items_bad_valid n its : (n <= length its)%nat ->
  exists b, items_bad n its = Some b /\ (b = false -> Forall valid_item (take n its)).
Proof.
  revert its. induction n as [|n IH]; intros [|it its] Hl; cbn [length] in Hl; try lia; cbn [items_bad take].
  - exists false. by split.
  - exists false. by split.
  - destruct (Z.ltb_spec it 0); [by exists true|]. destruct (Z.leb_spec PIDS_logical_end it); [by exists true|].
    cbn [orb]. destruct (IH its ltac:(lia)) as (b & -> & Hb). exists b. split; [done|]. intros ->. constructor; [done|auto].
Qed.

Lemma mapM_ok {A B} (f : A -> option B) (P : A -> Prop) (Q : B -> Prop) l :
  (forall a, P a -> exists b, f a = Some b /\ Q b) -> Forall P l -> exists l', mapM f l = Some l' /\ Forall Q l'.
Proof.
  intros Hf. induction 1 as [|a l Ha Hl IH]; [by exists []|]. destruct (Hf a Ha) as (b & Hb & HQ).
  destruct IH as (l' & Hl' & HQ'). exists (b :: l'). split; [|by constructor]. cbn. rewrite Hb. cbn. by rewrite Hl'.
Qed.

(** New items in the cleaned stacks. *)
Lemma itemize_all_ok i its : clean_extents i -> Forall (fun x => exists s, x_stacks x = [s] /\ well s) (otherexts i) ->
  items i = Some its -> items_ok (maxitems i) (curitems i) its ->
  exists j, pids_itemize_stacks_all i = Some j /\ safe j /\ items j <> None.
Proof.
  intros Hc Ho Hi Hok. unfold pids_itemize_stacks_all.
  assert (Hs : forall xs n, Forall (fun x => Forall (stack_ok (maxitems i)) (x_stacks x)) xs -> safe (set_extents xs n i))
    by (intros xs n Hx; split; cbn; [done..|by rewrite Hi; intros ? [= <-]]).
  destruct (mapM_ok (fun x => ss ← mapM (fun s => pids_itemize_stack s (curitems i) its) (x_stacks x);
                          Some (Extent (x_id x) ss))
    (fun x => Forall (fun s => null_stack s /\ Z.of_nat (length s) = maxitems i) (x_stacks x))
    (fun x => Forall (stack_ok (maxitems i)) (x_stacks x)) (extents i)) as (xs & Hxs & Hq); [|exact Hc|].
  { intros x Hx. destruct (mapM_ok (fun s => pids_itemize_stack s (curitems i) its)
      (fun s => null_stack s /\ Z.of_nat (length s) = maxitems i) (stack_ok (maxitems i)) (x_stacks x))
      as (ss & -> & Hss); [|exact Hx|by eexists].
    intros s [Hn Hl]. by apply itemize_ok. }
  destruct (extents i) as [|x0 l0] eqn:E.
  - exists i. split; [done|]. split; [|by rewrite Hi]. split; [by rewrite E|done|by rewrite Hi; intros ? [= <-]].
  - rewrite <- E in *. rewrite Hi. cbn [mbind option_bind]. rewrite E in *. rewrite Hxs. cbn.
    eexists. split; [reflexivity|]. split; [by apply Hs|cbn; by rewrite Hi].
Qed.

(** *** procps_pids_reset *)

Definition others_ok (i : pids_info) : Prop := Forall (fun x => exists s, x_stacks x = [s] /\ well s) (otherexts i).

Lemma reset_room_ok n i w : safe i -> 0 <= n -> maxitems i < n ->
  wp (reset_room n i) o w (fun r _ =>
    if r.1 then extents r.2 = [] /\ others_ok r.2 /\ maxitems r.2 = n /\
                exists arr, items r.2 = Some arr /\ Z.of_nat (length arr) = n
    else safe r.2).
Proof.
  intros [H1 H2 H3] H0 Hn. unfold reset_room. wstep.
  apply (wp_mono _ _ _ (fun j _ => extents j = [] /\ otherexts j = otherexts i /\ items j = items i)).
  { cbn [get_ext set_extents]. destruct (get_ext i); [|by apply wp_ret].
    wstep. eapply wp_mono; [apply pids_oldproc_close_ok|]. intros PT w1 ->. by apply wp_ret. }
  intros j w1 (E1 & E2 & E3). wstep. wsys r Hr. destruct (_ <? _); apply wp_ret; cbn [fst snd].
  - split; cbn; [by rewrite E1|by rewrite E2|done].
  - split; [done|]. split; [unfold others_ok; cbn; by rewrite E2|]. split; [done|].
    cbn [items set_items set_fetch]. rewrite E3. eexists. split; [reflexivity|].
    rewrite length_app, length_replicate. destruct (items i) as [its|]; cbn [default from_option id]; [|cbn; lia].
    destruct (H3 its eq_refl) as (? & ? & ? & ? & ? & ?). lia.
Qed.

(** The end of it: the items are stored, and the stacks get them. *)
Lemma reset_fill_ok n its j arr w : items j = Some arr -> Z.of_nat (length arr) = maxitems j -> clean_extents j ->
  others_ok j -> 0 <= n < maxitems j -> n <= Z.of_nat (length its) -> Forall valid_item (take (Z.to_nat n) its) ->
  wp (arr ← deref (items j);
      arr ← deref (put_items its (Z.to_nat n) arr);
      let j := set_items (maxitems j) (n + 1) (Some arr) j in
      j ← deref (pids_itemize_stacks_all j);
      j ← deref (pids_libflags_set j);
      mret (0, Some j)) o w (fun r _ => exists k, r = (0, Some k) /\ safe k).
Proof.
  intros Ei El Hc Ho Hn Hl Hv. rewrite Ei. cbn [deref]. wstep. apply wp_ret.
  destruct (put_items_ok its (Z.to_nat n) arr ltac:(lia) ltac:(lia) Hv) as (arr' & -> & Hok). cbn [deref]. wstep. apply wp_ret.
  rewrite El, Z2Nat.id in Hok by lia.
  destruct (itemize_all_ok (set_items (maxitems j) (n + 1) (Some arr') j) arr') as (k & -> & Hk & Hki); [done..|].
  cbn [deref]. wstep. apply wp_ret. destruct (pids_libflags_set_ok k Hk Hki) as (hy & fl & ->). cbn [deref].
  wstep. apply wp_ret. apply wp_ret. eexists. split; [reflexivity|]. eauto.
Qed.

(** A reset is defined, whatever the results hold, as long as the context has
    items. *)
Lemma procps_pids_reset_ok i addr its n w : safe i -> items i <> None -> n <= Z.of_nat (length its) ->
  wp (procps_pids_reset (Some i) (Some (addr, its)) n) o w (fun r _ => exists k, r.2 = Some k /\ safe k).
Proof.
  intros H Hi Hl. unfold procps_pids_reset, pids_items_check_failed.
  destruct (_ || _) eqn:E; [wstep; apply wp_ret; cbn; eauto|]. apply orb_false_iff in E as [E1%Z.ltb_ge _].
  destruct (items_bad_valid (Z.to_nat n) its ltac:(lia)) as (b & -> & Hb). cbn [deref]. wstep. apply wp_ret.
  destruct b; [apply wp_ret; cbn; eauto|]. specialize (Hb eq_refl).
  wstep. eapply wp_mono; [by apply pids_cleanup_stacks_all_ok|]. intros j w1 (-> & (xs & Hj) & Hs & Hc).
  assert (items j = items i /\ maxitems j = maxitems i /\ curitems j = curitems i) as (Ei & Em & Ec) by by rewrite Hj.
  destruct (items i) as [arr|] eqn:Ea; [|done].
  assert (exists b, same_items j its n = Some b) as [same ->]
    by (unfold same_items; rewrite Ei; destruct (negb _); cbn; eauto).
  cbn [deref]. wstep. apply wp_ret. destruct same; [apply wp_ret; cbn; eauto|].
  wstep. destruct (Z.ltb_spec (maxitems j) (n + 1)).
  - eapply wp_mono; [apply reset_room_ok; [done|lia|done]|]. intros [[|] k] w2; cbn [fst snd negb].
    + intros (K1 & K2 & K3 & arr' & K4 & K5). eapply wp_mono; [eapply (reset_fill_ok n its k arr'); try done|].
      * lia.
      * unfold clean_extents. by rewrite K1.
      * lia.
      * intros r w3 (k' & -> & Hk). eauto.
    + intros Hk. apply wp_ret. eauto.
  - apply wp_ret. cbn [negb]. eapply wp_mono; [eapply (reset_fill_ok n its j arr); try done|].
    + destruct Hs as [_ _ H3]. destruct (H3 arr Ei) as (? & ? & ? & ? & ? & ?). done.
    + apply Hs.
    + lia.
    + intros r w3 (k' & -> & Hk). eauto.
Qed.

Lemma items_bad_length n its : items_bad n its = Some false -> (n <= length its)%nat.
Proof.
  revert its. induction n as [|n IH]; intros [|it its]; cbn [items_bad length]; try done; [lia..|].
  destruct (_ || _); [done|]. intros H%IH. lia.
Qed.

Lemma procps_pids_reset_safe i newitems n w : safe i ->
  wlp (procps_pids_reset (Some i) newitems n) o w (fun r _ => exists k, r.2 = Some k /\ safe k).
Proof.
  intros H. destruct newitems as [[addr its]|]; [|unfold wlp; cbn; eauto].
  destruct (pids_items_check_failed addr its n) as [[|]|] eqn:E.
  - unfold procps_pids_reset. rewrite E. apply wlp_bind. unfold wlp. cbn. eauto.
  - assert (Hl : n <= Z.of_nat (length its) /\ 1 <= n /\ Forall valid_item (take (Z.to_nat n) its)).
    { unfold pids_items_check_failed in E. destruct (_ || _) eqn:E1; [done|]. apply orb_false_iff in E1 as [?%Z.ltb_ge _].
      pose proof (items_bad_length _ _ E). destruct (items_bad_valid (Z.to_nat n) its ltac:(lia)) as (b & Eb & Hb).
      rewrite E in Eb. injection Eb as <-. split; [lia|]. auto. }
    destruct Hl as (Hl & H1 & Hv).
    destruct (items i) as [arr|] eqn:Ea; [by apply wp_wlp, procps_pids_reset_ok; rewrite ?Ea|].
    unfold procps_pids_reset. rewrite E. apply wlp_bind. unfold wlp at 1. cbn [deref mret M_ret].
    apply wlp_bind. eapply wlp_mono; [by apply wp_wlp, pids_cleanup_stacks_all_ok|].
    intros j w1 (-> & (xs & Hj) & Hs & Hc). assert (items j = None) as Ei by by rewrite Hj.
    apply wlp_bind. unfold same_items. rewrite Ei. destruct (negb _); [|done].
    unfold wlp at 1. cbn [deref mret M_ret]. apply wlp_bind. destruct (Z.ltb_spec (maxitems j) (n + 1)).
    + eapply wlp_mono; [apply wp_wlp, reset_room_ok; [done|lia|done]|]. intros [[|] k] w2; cbn [fst snd negb].
      * intros (K1 & K2 & K3 & arr' & K4 & K5). eapply wlp_mono; [apply wp_wlp; eapply (reset_fill_ok n its k arr'); try done|].
        { lia. } { unfold clean_extents. by rewrite K1. } { lia. } { intros r w3 (k' & -> & Hk). eauto. }
      * intros Hk. unfold wlp. cbn. eauto.
    + unfold wlp at 1. cbn [mret M_ret negb]. by rewrite Ei.
  - unfold procps_pids_reset. by rewrite E.
Qed.

(** *** The other operations *)

Lemma fresh_start_safe which i l w : safe i -> wlp (fresh_start which i l) o w (fun r _ => safe r.1.2).
Proof.
  intros H. unfold fresh_start. apply wlp_skip. intros [[ok PT] l1] w1. cbn zeta. destruct (negb ok); unfold wlp; cbn; eauto.
Qed.

Lemma get_ready_safe which i l w : safe i -> wlp (get_ready which i l) o w (fun r _ => safe r.1.2).
Proof.
  intros H. unfold get_ready. apply wlp_bind. apply (wlp_mono _ _ _ (fun r _ => safe r.1.2)).
  { destruct (get_ext i); [done|]. apply wlp_bind. eapply wlp_mono; [by apply pids_stacks_alloc_safe|].
    intros [[x|] j] w1 [Hj _]; cbn [snd] in Hj; [|done]. apply fresh_start_safe. eauto. }
  intros [[ok j] l1] w1 Hj. cbn [fst snd] in Hj. destruct (negb ok); [done|]. destruct (negb _); [|done].
  apply wlp_skip. intros PT w2. apply fresh_start_safe. eauto.
Qed.

(** What is left behind for the caller: a context that is safe, if any. *)
Definition safe_opt (i : option pids_info) : Prop := match i with Some i => safe i | None => True end.

Lemma procps_pids_get_safe i which l w : safe i ->
  wlp (procps_pids_get cs enc getpwuid getgrgid fuel (Some i) which l) o w (fun r _ => safe_opt r.1.2).
Proof.
  intros H. unfold procps_pids_get. apply wlp_skip. intros [] w1. destruct (negb _); [done|]. destruct (_ =? 0); [done|].
  apply wlp_bind. eapply wlp_mono; [by apply get_ready_safe|]. intros [[ok j] l1] w2 Hj. cbn [fst snd] in Hj.
  destruct (negb ok); [done|]. apply wlp_skip. intros [] w3.
  apply wlp_bind. eapply wlp_mono; [by apply fresh_boot_safe|]. intros j2 w4 Hj2. cbn beta in Hj2.
  apply wlp_skip. intros [[[got PT] p] l2] w5. set (j3 := set_get_proc _ _).
  assert (Hj3 : safe j3) by (subst j3; eauto). clearbody j3. cbn zeta. destruct (negb got); [done|].
  apply wlp_skip. intros id w6. apply wlp_bind. destruct (load (extents j3) (id, 0%nat)) as [s|] eqn:E; [|done].
  unfold wlp at 1. cbn [deref mret M_ret]. destruct (load_ok j3 _ s Hj3 E) as [Hw Hl].
  apply wlp_bind. eapply wlp_mono; [by apply pids_assign_results_safe|].
  intros [[[[ok4 j4] s'] p'] l'] w7 ((e & He) & Hw' & Hm). cbn [fst snd] in *. subst j4. unfold wlp. cbn.
  assert (He : safe (set_seterr e j3)) by eauto.
  assert (Hst : safe (set_extents (store (extents j3) (id, 0%nat) s') (next_id j3) (set_seterr e j3))).
  { apply (store_safe _ _ _ He). split; [done|]. cbn. rewrite <- Hl, <- (length_map pr_item s'), Hm. by rewrite length_map. }
  eauto.
Qed.

Lemma cut_from_ok l id x r (P : extent -> Prop) : cut_from l id = Some (x, r) -> Forall P l -> P x /\ Forall P r.
Proof.
  revert r. induction l as [|y l IH]; intros r; [done|]. cbn. destruct (_ =? _)%nat; [intros [= -> ->] H; by inversion H|].
  destruct (cut_from l id) as [[z r']|]; [|done]. intros [= -> <-] H. inversion H as [|? ? Hy Hl]; subst.
  destruct (IH r' eq_refl Hl) as [IH1 IH2]. split; [done|by constructor].
Qed.

Lemma fatal_proc_unmounted_safe i self l w : safe i ->
  wlp (fatal_proc_unmounted cs enc fuel (Some i) self l) o w (fun r _ => safe_opt r.1.2).
Proof.
  intros H. unfold fatal_proc_unmounted. apply wlp_skip. intros [rc p] w1. cbn zeta. destruct (_ || _); [done|].
  apply wlp_skip. intros [] w2. destruct (_ =? _); [done|]. apply wlp_skip. intros [] w3.
  apply wlp_bind. eapply wlp_mono; [by apply pids_stacks_alloc_safe|]. intros [[x|] j] w4 [Hj Hx]; cbn [fst snd] in *; [|done].
  destruct (pids_extent_cut j (x_id x)) as [[y k]|] eqn:E; [|by apply wlp_skip; intros [] ?].
  unfold pids_extent_cut in E. destruct (cut_from _ _) as [[y' xs]|] eqn:E1; [|done]. injection E as -> <-.
  destruct (cut_from_ok _ _ _ _ _ E1 (sf_extents _ Hj)) as [Hy Hxs].
  assert (Hk : safe (set_extents xs (next_id j) j)) by (split; [done|apply Hj..]).
  apply wlp_bind. destruct (x_stacks y !! 0%nat) as [s|] eqn:E2; [|done]. unfold wlp at 1. cbn [deref mret M_ret].
  destruct (Forall_lookup_1 _ _ _ _ Hy E2) as [Hw _].
  apply wlp_bind. eapply wlp_mono; [by apply pids_assign_results_safe|].
  intros [[[[ok4 j4] s'] p'] l'] w7 ((e & He) & Hw' & Hm). cbn [fst snd] in *. subst j4. unfold wlp. cbn.
  destruct Hk as [K1 K2 K3]. split; cbn; [done| |done]. constructor; [by eexists|done].
Qed.

Lemma procps_pids_reap_safe i which l w : safe i ->
  wlp (procps_pids_reap cs enc getpwuid getgrgid fuel (Some i) which l) o w (fun r _ => safe_opt r.1.2).
Proof.
  intros H. unfold procps_pids_reap. apply wlp_skip. intros [] w1. destruct (negb _); [done|]. destruct (_ =? 0); [done|].
  apply wlp_skip. intros [] w2. apply wlp_bind. eapply wlp_mono; [by apply harvest_safe|]. by intros [[rc j] l2] w3 Hj.
Qed.

Lemma procps_pids_select_safe i these n which l w : safe i ->
  wlp (procps_pids_select cs enc getpwuid getgrgid fuel (Some i) these n which l) o w (fun r _ => safe_opt r.1.2).
Proof.
  intros H. unfold procps_pids_select. apply wlp_skip. intros [] w1. destruct these as [these|]; [|done].
  destruct (_ || _); [done|]. destruct (negb _); [done|]. destruct (_ =? 0); [done|]. apply wlp_skip. intros [] w2.
  destruct (_ <? _)%nat; [done|]. apply wlp_bind. eapply wlp_mono; [by apply harvest_safe|]. by intros [[rc j] l2] w3 Hj.
Qed.

Lemma new_items_safe its n h w :
  wlp (new_items its n (info_empty h)) o w (fun r _ => match r with inr i => safe i | inl _ => True end).
Proof.
  assert (He : safe (info_empty h)) by (by split).
  unfold new_items. destruct its as [[addr its]|]; [|done]. destruct (Z.eqb_spec n 0); [done|].
  destruct (pids_items_check_failed addr its n) as [[|]|] eqn:E; [done| |done]. cbn [deref].
  apply wlp_bind. unfold wlp at 1. cbn [mret M_ret]. apply wlp_skip. intros r w1. destruct (_ <? _); [done|].
  unfold pids_items_check_failed in E. destruct (_ || _) eqn:E1; [done|]. apply orb_false_iff in E1 as [?%Z.ltb_ge _].
  pose proof (items_bad_length _ _ E) as Hl. destruct (items_bad_valid (Z.to_nat n) its Hl) as (b & Eb & Hb).
  rewrite E in Eb. injection Eb as <-. specialize (Hb eq_refl).
  set (i := set_items _ _ _ _). assert (Hi : safe i).
  { subst i. split; [done|done|]. cbn. intros ? [= <-]. exists (take (Z.to_nat n) its), [].
    rewrite length_app, length_take. cbn [length]. repeat split; [done|lia|lia]. }
  destruct (pids_libflags_set_ok i Hi ltac:(done)) as (hy & fl & ->). clearbody i. cbn [deref].
  apply wlp_bind. unfold wlp. cbn. auto.
Qed.

Lemma procps_pids_new_safe so so1 its n l w :
  wlp (procps_pids_new so so1 None its n l) o w (fun r _ => safe_opt r.1.2).
Proof.
  unfold procps_pids_new. apply wlp_skip. intros c w1. destruct (_ <? _); [done|].
  apply wlp_bind. eapply wlp_mono; [apply new_items_safe|]. intros [e|i] w2 Hi; [done|].
  do 3 (apply wlp_skip; intros ? ?; destruct (_ <? _); [done|]). do 2 (apply wlp_skip; intros ? ?).
  unfold wlp. cbn. destruct Hi as [_ _ H3]. by split.
Qed.

(** Disposing of a context is defined: nothing but what its results own is
    freed, and each as what it is. *)
Lemma procps_pids_unref_ok i l w : safe i ->
  wp (procps_pids_unref (Some i) l) o w (fun r _ => safe_opt r.1.2).
Proof.
  intros H. unfold procps_pids_unref. cbn zeta. set (j := set_refcount _ i).
  assert (Hj : safe j) by (subst j; auto). clearbody j. destruct (_ <? _); [|by apply wp_ret].
  wstep. eapply wp_mono; [by apply pids_cleanup_stacks_all_ok|]. intros k w1 (-> & _).
  wstep. eapply wp_mono; [eapply (mapR_ok cleanup_other _ (fun _ => True) _ _ _ (sf_others _ Hj))|].
  Unshelve.
  2:{ intros x w2 (s & Hs & Hw). unfold cleanup_other. rewrite Hs. cbn [deref lookup list_lookup]. wstep. apply wp_ret.
      wstep. eapply wp_mono; [by apply pids_cleanup_stack_well|]. intros s' w3 (-> & _). by apply wp_ret. }
  intros us w2 [-> _]. wstep.
  apply (wp_mono _ _ _ (fun _ _ => True)); [destruct (is_none _); [done|]|by intros; apply wp_ret].
  eapply wp_mono; [apply pids_oldproc_close_ok|done].
Qed.

(** ** Any use of a context *)

Inductive pcall :=
| KRef | KUnref
| KGet (which : Z)
| KReap (which : Z)
| KSelect (these : option (list Z)) (numthese which : Z)
| KReset (newitems : option (Z * list Z)) (n : Z)
| KSelf (return_self : bool).

Definition run_call (c : pcall) (i : option pids_info) (l : lib) : R (option pids_info * lib) :=
  match c with
  | KRef => mret ((procps_pids_ref i).2, l)
  | KUnref => '(_, i, l) ← procps_pids_unref i l; mret (i, l)
  | KGet which => '(_, i, l) ← procps_pids_get cs enc getpwuid getgrgid fuel i which l; mret (i, l)
  | KReap which => '(_, i, l) ← procps_pids_reap cs enc getpwuid getgrgid fuel i which l; mret (i, l)
  | KSelect these n which => '(_, i, l) ← procps_pids_select cs enc getpwuid getgrgid fuel i these n which l; mret (i, l)
  | KReset its n => '(_, i) ← procps_pids_reset i its n; mret (i, l)
  | KSelf b => '(_, i, l) ← fatal_proc_unmounted cs enc fuel i b l; mret (i, l)
  end.

Fixpoint run_calls (ks : list pcall) (i : option pids_info) (l : lib) : R (option pids_info * lib) :=
  match ks with
  | [] => mret (i, l)
  | c :: r => '(i, l) ← run_call c i l; run_calls r i l
  end.

Definition use_pids (so so1 : option Numa.libnuma) (its : option (Z * list Z)) (n : Z) (ks : list pcall) (l : lib) :
    R (option pids_info * lib) :=
  '(_, i, l) ← procps_pids_new so so1 None its n l; run_calls ks i l.

Lemma run_call_safe c i l w : safe_opt i -> wlp (run_call c i l) o w (fun r _ => safe_opt r.1).
Proof.
  intros H. destruct i as [i|]; cbn [safe_opt] in H.
  - assert (K : forall {A} (m : R (A * option pids_info * lib)), wlp m o w (fun r _ => safe_opt r.1.2) ->
      wlp ('(_, i, l) ← m; mret (i, l)) o w (fun r _ => safe_opt r.1)).
    { intros A m Hm. apply wlp_bind. eapply wlp_mono; [exact Hm|]. by intros [[a j] l'] w' Hj. }
    destruct c; cbn [run_call]; try apply K.
    + unfold wlp. cbn. auto.
    + by apply wp_wlp, procps_pids_unref_ok.
    + by apply procps_pids_get_safe.
    + by apply procps_pids_reap_safe.
    + by apply procps_pids_select_safe.
    + apply wlp_bind. eapply wlp_mono; [by apply procps_pids_reset_safe|]. intros [rc j] w' (k & Hk & Hs).
      cbn [snd] in Hk. by subst j.
    + by apply fatal_proc_unmounted_safe.
  - destruct c; cbn [run_call]; try done; apply wlp_bind.
    + unfold fatal_proc_unmounted. apply wlp_skip. intros [rc p] w1. cbn zeta. destruct (_ || _); [done|].
      apply wlp_skip. intros [] w2. exact I.
Qed.

Lemma run_calls_safe ks : forall i l w, safe_opt i -> wlp (run_calls ks i l) o w (fun r _ => safe_opt r.1).
Proof.
  induction ks as [|c ks IH]; intros i l w H; [done|]. cbn [run_calls]. apply wlp_bind.
  eapply wlp_mono; [by apply run_call_safe|]. intros [j l'] w' Hj. by apply IH.
Qed.

(** C2: whatever a program does with a context of the process interface (get,
    reap, select, reset, references, in any order and any number) and whatever
    the system answers, every result of every stack holds a value of its item's
    type, so that giving up the context, or setting new items, is defined: only
    strings and string vectors that the results own are freed, each once and
    with the function made for it. *)
Theorem results_stay_typed so so1 its n ks l w :
  wlp (use_pids so so1 its n ks l) o w (fun r w' => forall i, r.1 = Some i ->
    (forall x s, x ∈ extents i -> s ∈ x_stacks x -> well s) /\
    wp (procps_pids_unref (Some i) r.2) o w' (fun _ _ => True) /\
    (forall addr new m, items i <> None -> m <= Z.of_nat (length new) ->
       wp (procps_pids_reset (Some i) (Some (addr, new)) m) o w' (fun _ _ => True))).
Proof.
  unfold use_pids. apply wlp_bind. eapply wlp_mono; [apply procps_pids_new_safe|]. intros [[rc i0] l0] w1 H0. cbn [fst snd] in H0.
  eapply wlp_mono; [by apply run_calls_safe|]. intros [j l'] w' Hj i E. cbn [fst snd] in *. subst j. cbn [safe_opt] in Hj.
  split; [|split].
  - intros x s Hx Hs. pose proof (sf_extents _ Hj) as He. rewrite Forall_forall in He. specialize (He x Hx).
    rewrite Forall_forall in He. by destruct (He s Hs).
  - eapply wp_mono; [by apply procps_pids_unref_ok|done].
  - intros addr new m Hi Hm. eapply wp_mono; [by apply procps_pids_reset_ok|done].
Qed.
End ops.
End Pidsafe.
