(* ===== verification/Pidstreams.v ===== *)
(** * procps/linux/pids.c: what a context holds open

    The directory streams behind a context of the process interface: the table
    of [procps_pids_get] stays open between calls, the one of [procps_pids_reap]
    and [procps_pids_select] only during them, and a context that is given up
    leaves nothing open.  Nothing is assumed of the system. *)

From stdpp Require Import base numbers list strings.
From S2P Require Import Prelude Libc Posix Escape Utils Stacks Fetch Real Sysinfo Devname Procdata Procfiles Readproc Pidhist Piditems Pids Pidsafe.
Open Scope Z_scope.

Module Pidstreams.
Import Procdata Procfiles Readproc Real Devname Pidhist Piditems Pids Pidsafe.

(** ** Parts that leave the tables alone *)

Definition links (i : pids_info) := (fetch_PT i, get_PT i, get_ext i).

(** [m] changes no number of references, and the context [pi] of its result has
    the tables of [i]. *)
Definition still {A} (m : R A) (i : pids_info) (pi : A -> pids_info) : Prop := forall o w,
  wlp m o w (fun a w' => links (pi a) = links i /\ forall h, 0 <= handle_val h -> net h (w_tr w') = net h (w_tr w)).

Lemma still_ret {A} (a : A) i pi : links (pi a) = links i -> still (mret a) i pi.
Proof. intros H o w. by split. Qed.

Lemma still_acct {A B} (m : R A) (f : A -> R B) i pi :
  acct m none -> (forall a, still (f a) i pi) -> still (m ≫= f) i pi.
Proof.
  intros Hm Hf o w. apply wlp_bind. eapply wlp_mono; [apply Hm|]. intros a w1 H1.
  eapply wlp_mono; [apply Hf|]. intros b w2 [H2 H3]. split; [done|]. intros h Hh. rewrite H3, H1 by done. unfold none. lia.
Qed.

Lemma still_bind {A B} (m : R A) (f : A -> R B) k pk i pi :
  still m k pk -> links k = links i -> (forall a, links (pk a) = links i -> still (f a) i pi) -> still (m ≫= f) i pi.
Proof.
  intros Hm Hk Hf o w. apply wlp_bind. eapply wlp_mono; [apply Hm|]. intros a w1 [H1 H2].
  eapply wlp_mono; [apply Hf; congruence|]. intros b w2 [H3 H4]. split; [done|]. intros h Hh. by rewrite H4, H2.
Qed.

Create HintDb sdb.

Ltac links_eq := unfold links in *; cbn in *; congruence.

(** Syntax-directed proof of a [still] goal. *)
Ltac still_step :=
  match goal with
  | |- still (mret _) _ _ => apply still_ret; links_eq
  | |- still undef _ _ => by intros ? ?
  | |- still nofuel _ _ => by intros ? ?
  | |- still (mbind _ _) _ _ =>
      first [eapply still_bind; [solve [eauto with sdb]|links_eq|intros ? ?; cbn beta in *]
            |eapply still_acct; [solve [eauto with adb|repeat acct_step]|intros ?; cbn beta]]
  | |- still (if ?b then _ else _) _ _ => destruct b eqn:?
  | |- still (match ?x with _ => _ end) _ _ => destruct x eqn:?
  end; cbn beta zeta in *; cbn [fst snd] in *.
Ltac still_tac := repeat still_step.

Lemma regrow_acct siz a : acct (regrow siz a) none.
Proof. unfold regrow. acct_tac. Qed.
#[local] Hint Resolve regrow_acct strdup_acct : adb.

Lemma grow_hist_acct h : acct (grow_hist h) none.
Proof. unfold grow_hist. acct_tac. Qed.

Lemma hist_chain_acct f a pid V : acct (hist_chain f a pid V) none.
Proof. revert V. induction f as [|f IH]; intros; cbn [hist_chain]; acct_tac. Qed.
#[local] Hint Resolve grow_hist_acct hist_chain_acct : adb.

Lemma pids_make_hist_acct h p : acct (pids_make_hist h p) none.
Proof. unfold pids_make_hist, pids_histput, pids_histget. acct_tac. Qed.

Lemma dup_val_acct s p l : acct (dup_val s p l) none.
Proof. unfold dup_val. acct_tac. Qed.
Lemma run_free_acct f v : acct (run_free f v) none.
Proof. unfold run_free. destruct f, v; acct_tac. Qed.
Lemma vectorize_this_str_acct s : acct (vectorize_this_str s) none.
Proof. unfold vectorize_this_str. acct_tac. Qed.
Lemma lookup_wchan_acct pid : acct (Wchan.lookup_wchan pid) none.
Proof. apply acct_gains. unfold Wchan.lookup_wchan, none. gains_tac. Qed.
Lemma dev_to_tty_acct ret chop dev pid fl m : acct (dev_to_tty ret chop dev pid fl m) none.
Proof. apply acct_gains, gains_dev_to_tty. Qed.
#[local] Hint Resolve pids_make_hist_acct dup_val_acct run_free_acct vectorize_this_str_acct lookup_wchan_acct
  dev_to_tty_acct : adb.

Lemma run_setter_acct f e old p l : acct (run_setter f e old p l) none.
Proof. destruct f; cbn [run_setter]; unfold plain; acct_tac. Qed.
#[local] Hint Resolve run_setter_acct : adb.

Lemma assign_loop_acct e s p err l : acct (assign_loop e s p err l) none.
Proof. revert p err l. induction s as [|r s IH]; intros; cbn [assign_loop]; acct_tac. Qed.
#[local] Hint Resolve assign_loop_acct : adb.

Lemma pids_assign_results_still i s p l : still (pids_assign_results i s p l) i (fun r => r.1.1.1.2).
Proof. unfold pids_assign_results. still_tac. Qed.
#[local] Hint Resolve pids_assign_results_still : sdb.

Lemma pids_stacks_alloc_still i n : still (pids_stacks_alloc i n) i (fun r => r.2).
Proof. unfold pids_stacks_alloc. still_tac. Qed.
#[local] Hint Resolve pids_stacks_alloc_still : sdb.

Lemma fetch_init_still i : still (fetch_init i) i (fun r => r.2).
Proof. unfold fetch_init. still_tac. Qed.
Lemma fetch_grow_still i : still (fetch_grow i) i (fun r => r.2).
Proof. unfold fetch_grow. still_tac. Qed.
Lemma pids_proc_tally_still i p : still (pids_proc_tally i p) i (fun r => r.1.2).
Proof. unfold pids_proc_tally. still_tac. Qed.
#[local] Hint Resolve fetch_init_still fetch_grow_still pids_proc_tally_still : sdb.

Lemma fetch_one_still i p l : still (fetch_one i p l) i (fun r => r.1.2).
Proof. unfold fetch_one. still_tac. Qed.
Lemma fetch_final_still i : still (fetch_final i) i (fun r => r.2).
Proof. unfold fetch_final. still_tac. Qed.
#[local] Hint Resolve fetch_one_still fetch_final_still : sdb.

Lemma procps_uptime_acct : acct Sysinfo.procps_uptime none.
Proof. unfold Sysinfo.procps_uptime. acct_tac. Qed.
#[local] Hint Resolve procps_uptime_acct : adb.
Lemma fresh_boot_still i : still (fresh_boot i) i id.
Proof. unfold fresh_boot. still_tac. Qed.
#[local] Hint Resolve fresh_boot_still : sdb.
(** ** The table of a fetch *)

Definition held_opt (PT : option PROCTAB) (h : handle) : Z := match PT with Some PT => held_by PT h | None => 0 end.

(** [m] opens and closes streams of the fetch table only. *)
Definition flow {A} (m : R A) (i : pids_info) (pi : A -> pids_info) : Prop := forall o w,
  wlp m o w (fun a w' => get_PT (pi a) = get_PT i /\ get_ext (pi a) = get_ext i /\
    forall h, 0 <= handle_val h ->
      net h (w_tr w') = net h (w_tr w) + held_opt (fetch_PT (pi a)) h - held_opt (fetch_PT i) h).

Lemma still_flow {A} (m : R A) i pi : still m i pi -> flow m i pi.
Proof.
  intros H o w. eapply wlp_mono; [apply H|]. intros a w' [Hl Hn]. unfold links in Hl. injection Hl as E1 E2 E3.
  split; [done|]. split; [done|]. intros h Hh. rewrite Hn, E1 by done. lia.
Qed.

Lemma flow_base {A} (m : R A) k i pi : links k = links i -> flow m k pi -> flow m i pi.
Proof. unfold flow, links. intros [= -> -> ->]. done. Qed.

Lemma flow_bind {A B} (m : R A) (f : A -> R B) i pk pi :
  flow m i pk -> (forall a, flow (f a) (pk a) pi) -> flow (m ≫= f) i pi.
Proof.
  intros Hm Hf o w. apply wlp_bind. eapply wlp_mono; [apply Hm|]. intros a w1 (H1 & H2 & H3).
  eapply wlp_mono; [apply Hf|]. intros b w2 (H4 & H5 & H6). split; [congruence|]. split; [congruence|].
  intros h Hh. rewrite H6, H3 by done. lia.
Qed.

Lemma flow_acct {A B} (m : R A) (f : A -> R B) i pi : acct m none -> (forall a, flow (f a) i pi) -> flow (m ≫= f) i pi.
Proof.
  intros Hm Hf. apply (flow_bind _ _ _ (fun _ => i)); [|done]. intros o w. eapply wlp_mono; [apply Hm|].
  intros a w' Hn. split; [done|]. split; [done|]. intros h Hh. rewrite Hn by done. unfold none. lia.
Qed.

Section ops.
Context (cs : bool) (enc : option bytes) (getpwuid getgrgid : Z -> option bytes) (fuel : nat).

Lemma pids_oldproc_open_acct PT flags ids n l :
  acct (pids_oldproc_open PT flags ids n l) (fun r h => held_opt r.1.2 h - held_opt PT h).
Proof.
  unfold pids_oldproc_open. destruct PT as [PT|]; [apply acct_ret; intros h Hh; cbn; lia|].
  eapply acct_bind; [apply openproc_acct|]. intros [PT st]. apply acct_ret. intros h Hh. cbn. destruct PT; cbn; lia.
Qed.

Lemma pids_oldproc_close_acct PT : acct (pids_oldproc_close PT) (fun _ h => - held_opt PT h).
Proof.
  unfold pids_oldproc_close. destruct PT as [PT|]; [|by apply acct_ret].
  eapply (acct_bind _ _ none); [eauto with adb|]. intros e. eapply acct_bind; [apply closeproc_acct|]. intros u.
  eapply (acct_bind _ _ none); [eauto with adb|]. intros u'. apply acct_ret. intros h Hh. unfold none. cbn. lia.
Qed.

Lemma read_next_acct how PT p l :
  acct (read_next cs enc getpwuid getgrgid fuel how PT p l) (fun r h => held_by r.1.1.2 h - held_opt PT h).
Proof.
  unfold read_next. eapply (acct_bind _ _ none); [eauto with adb|]. intros th.
  destruct PT as [PT|]; [|by intros o w]. cbn [deref].
  eapply (acct_bind _ _ (fun PT' h => held_by PT' h - held_by PT h)); [apply acct_ret; intros; lia|]. intros PT'.
  eapply (acct_bind _ _ (fun r h => held_by r.1.1.2 h - held_by PT' h)).
  { destruct th; [apply (readeither_acct cs enc getpwuid getgrgid fuel)|].
    unfold readproc. apply (readproc_loop_acct cs enc getpwuid getgrgid fuel). }
  intros [[[got PT2] st] p2]. apply acct_ret. intros h Hh. unfold none. cbn. lia.
Qed.

Lemma fetch_loop_flow fl : forall i l, flow (fetch_loop cs enc getpwuid getgrgid fuel fl i l) i (fun r => r.1.2).
Proof.
  induction fl as [|f IH]; intros i l; [by intros o w|]. cbn [fetch_loop].
  apply (flow_bind _ _ _ (fun r => set_fetch_proc r.1.2 (set_fetch_PT (Some r.1.1.2) i))).
  { intros o w. eapply wlp_mono; [apply read_next_acct|]. intros r w' Hn. split; [done|]. split; [done|].
    intros h Hh. rewrite Hn by done. cbn. lia. }
  intros [[[got PT] p] l1]. cbn [fst snd]. cbn zeta. set (j := set_fetch_proc _ _). clearbody j.
  destruct (negb got); [by apply still_flow, still_ret|].
  apply (flow_bind _ _ _ (fun r => r.2)); [apply still_flow, fetch_grow_still|]. intros [ok j2]. cbn [snd].
  destruct (negb ok); [by apply still_flow, still_ret|].
  apply (flow_bind _ _ _ (fun r => r.1.2)); [apply still_flow, fetch_one_still|]. intros [[ok3 j3] l3]. cbn [fst snd].
  destruct (negb ok3); [by apply still_flow, still_ret|]. apply IH.
Qed.

Lemma pids_stacks_fetch_flow i l : flow (pids_stacks_fetch cs enc getpwuid getgrgid fuel i l) i (fun r => r.1.2).
Proof.
  unfold pids_stacks_fetch. apply (flow_bind _ _ _ (fun r => r.2)); [apply still_flow, fetch_init_still|].
  intros [ok j]. cbn [snd]. destruct (negb ok); [by apply still_flow, still_ret|]. cbn zeta.
  set (j' := set_fetch _ _). apply (flow_base _ j'); [done|]. clearbody j'.
  apply (flow_bind _ _ _ (fun r => r.1.2)); [apply fetch_loop_flow|]. intros [[ok2 j2] l2]. cbn [fst snd].
  destruct (negb ok2); [by apply still_flow, still_ret|]. apply flow_acct; [eauto with adb|]. intros e.
  destruct (_ =? _); [by apply still_flow, still_ret|].
  apply (flow_bind _ _ _ (fun r => r.2)); [apply still_flow, fetch_final_still|]. intros [rc j3]. by apply still_flow, still_ret.
Qed.

(** ** Operations on a context *)

(** Between calls: the fetch table is closed, and the one of [get] is open only
    with its extent. *)
Definition shut (i : pids_info) : Prop := fetch_PT i = None /\ (get_ext i = None -> get_PT i = None).

(** [m] takes a context that is shut to one, and opens what that holds. *)
Definition tidy {A} (m : R A) (i : pids_info) (pi : A -> pids_info) : Prop := shut i -> forall o w,
  wlp m o w (fun a w' => shut (pi a) /\ forall h, 0 <= handle_val h ->
    net h (w_tr w') = net h (w_tr w) + held_opt (get_PT (pi a)) h - held_opt (get_PT i) h).

Lemma still_tidy {A} (m : R A) i pi : still m i pi -> tidy m i pi.
Proof.
  intros H Hs o w. eapply wlp_mono; [apply H|]. intros a w' [Hl Hn]. unfold links in Hl. injection Hl as E1 E2 E3.
  split; [unfold shut; by rewrite E1, E2, E3|]. intros h Hh. rewrite Hn, E2 by done. lia.
Qed.

Lemma tidy_bind {A B} (m : R A) (f : A -> R B) i pk pi :
  tidy m i pk -> (forall a, tidy (f a) (pk a) pi) -> tidy (m ≫= f) i pi.
Proof.
  intros Hm Hf Hs o w. apply wlp_bind. eapply wlp_mono; [by apply Hm|]. intros a w1 [H1 H2].
  eapply wlp_mono; [by apply Hf|]. intros b w2 [H3 H4]. split; [done|]. intros h Hh. rewrite H4, H2 by done. lia.
Qed.

Lemma tidy_acct {A B} (m : R A) (f : A -> R B) i pi : acct m none -> (forall a, tidy (f a) i pi) -> tidy (m ≫= f) i pi.
Proof.
  intros Hm Hf. apply (tidy_bind _ _ _ (fun _ => i)); [|done]. intros Hs o w. eapply wlp_mono; [apply Hm|].
  intros a w' Hn. split; [done|]. intros h Hh. rewrite Hn by done. unfold none. lia.
Qed.

Lemma tidy_ret {A} (a : A) i pi : links (pi a) = links i -> tidy (mret a) i pi.
Proof. intros H. by apply still_tidy, still_ret. Qed.

Lemma tidy_base {A} (m : R A) k i pi : links k = links i -> tidy m k pi -> tidy m i pi.
Proof. unfold tidy, shut, links. intros [= -> -> ->]. done. Qed.

(** Opening and closing, with the table that results. *)
Lemma open_bal flags ids n l o (w : world rstate) : wlp (pids_oldproc_open None flags ids n l) o w (fun r w' =>
  (r.1.1 = false -> r.1.2 = None) /\
  forall h, 0 <= handle_val h -> net h (w_tr w') = net h (w_tr w) + held_opt r.1.2 h).
Proof.
  apply wlp_and.
  - cbn [pids_oldproc_open]. apply wlp_bind, wlp_any. intros [PT st] w1. unfold wlp. cbn. by destruct PT.
  - eapply wlp_mono; [apply pids_oldproc_open_acct|]. intros r w1 Hn h Hh. rewrite Hn by done. cbn. lia.
Qed.

Lemma close_bal PT o (w : world rstate) : wlp (pids_oldproc_close PT) o w (fun r w' => r = None /\
  forall h, 0 <= handle_val h -> net h (w_tr w') = net h (w_tr w) - held_opt PT h).
Proof.
  apply wlp_and; [apply wp_wlp, pids_oldproc_close_ok|]. eapply wlp_mono; [apply pids_oldproc_close_acct|].
  intros r w1 Hn h Hh. rewrite Hn by done. lia.
Qed.

Lemma harvest_tidy flags ids n th i l : tidy (harvest cs enc getpwuid getgrgid fuel flags ids n th i l) i (fun r => r.1.2).
Proof.
  intros [Hf Hg] o w. unfold harvest. rewrite Hf. apply wlp_bind. eapply wlp_mono; [apply open_bal|].
  intros [[ok PT] l1] w1 [Hok Hn]. cbn [fst snd] in *. cbn zeta. destruct ok; cbn [negb].
  2:{ rewrite Hok in * by done. split; [by split|]. intros h Hh. rewrite Hn by done. cbn. lia. }
  apply wlp_bind. eapply wlp_mono; [apply fresh_boot_still|]. intros j w2 [Hl Hn2]. unfold links, id in Hl. cbn in Hl.
  injection Hl as E1 E2 E3.
  apply wlp_bind. eapply wlp_mono; [apply pids_stacks_fetch_flow|]. intros [[rc j2] l2] w3 (E4 & E5 & Hn3). cbn [fst snd] in *.
  apply wlp_bind. eapply wlp_mono; [apply close_bal|]. intros PT2 w4 [-> Hn4]. unfold wlp. cbn.
  unfold shut. cbn. rewrite E4, E5, E2, E3. split; [by split|]. intros h Hh. rewrite Hn4, Hn3, Hn2, Hn, E1 by done. lia.
Qed.

(** The table of [get], which is closed before. *)
Lemma fresh_start_bal which i l o w : get_PT i = None -> fetch_PT i = None -> get_ext i <> None ->
  wlp (fresh_start which i l) o w (fun r w' => shut r.1.2 /\ get_ext r.1.2 = get_ext i /\
    forall h, 0 <= handle_val h -> net h (w_tr w') = net h (w_tr w) + held_opt (get_PT r.1.2) h).
Proof.
  intros Hp Hf He. unfold fresh_start. rewrite Hp. apply wlp_bind. eapply wlp_mono; [apply open_bal|].
  intros [[ok PT] l1] w1 [_ Hn]. cbn [fst snd] in *. cbn zeta.
  destruct (negb ok); (split; [split; [done|]; by cbn|]; split; [done|]; intros h Hh; cbn in *; by rewrite Hn).
Qed.

Lemma get_ready_tidy which i l : tidy (get_ready which i l) i (fun r => r.1.2).
Proof.
  intros [Hf Hg] o w. unfold get_ready. apply wlp_bind.
  apply (wlp_mono _ _ _ (fun r w' => shut r.1.2 /\ (r.1.1 = true -> get_ext r.1.2 <> None) /\ forall h, 0 <= handle_val h ->
    net h (w_tr w') = net h (w_tr w) + held_opt (get_PT r.1.2) h - held_opt (get_PT i) h)).
  - destruct (get_ext i) eqn:E.
    { unfold wlp, shut. cbn [mret M_ret fst snd]. split; [by split; [|rewrite E]|]. split; [by rewrite E|]. intros; lia. }
    specialize (Hg eq_refl). apply wlp_bind. eapply wlp_mono; [apply pids_stacks_alloc_still|].
    intros [[x|] j] w1 [Hl Hn]; cbn [snd] in Hl; unfold links in Hl; injection Hl as E1 E2 E3.
    + eapply wlp_mono; [apply fresh_start_bal; cbn; congruence|]. intros r w2 (H1 & H2 & H3). split; [done|].
      split; [by rewrite H2|]. intros h Hh. rewrite H3, Hn, Hg by done. cbn. lia.
    + unfold wlp, shut. cbn. rewrite E1, E2, Hg, Hf. split; [done|]. split; [done|]. intros h Hh. rewrite Hn by done. lia.
  - intros [[ok j] l1] w1 (Hj & He & Hn). cbn [fst snd] in *. destruct ok; cbn [negb]; [|done]. specialize (He eq_refl).
    destruct (negb _); [|done]. apply wlp_bind. eapply wlp_mono; [apply close_bal|]. intros PT w2 [-> Hn2].
    eapply wlp_mono; [apply fresh_start_bal; cbn; [done|apply Hj|done]|]. intros r w3 (H1 & H2 & H3). split; [done|].
    intros h Hh. rewrite H3, Hn2, Hn by done. lia.
Qed.

Definition opt_PT (i : option pids_info) (h : handle) : Z := match i with Some i => held_opt (get_PT i) h | None => 0 end.
Definition shut_opt (i : option pids_info) : Prop := match i with Some i => shut i | None => True end.

(** The same for the operations that take the caller's variable. *)
Definition tidy_opt {A} (m : R A) (i : option pids_info) (pi : A -> option pids_info) : Prop := shut_opt i -> forall o w,
  wlp m o w (fun a w' => shut_opt (pi a) /\ forall h, 0 <= handle_val h ->
    net h (w_tr w') = net h (w_tr w) + opt_PT (pi a) h - opt_PT i h).

Lemma tidy_opt_ret {A} (a : A) i pi : pi a = i -> tidy_opt (mret a) i pi.
Proof. intros H Hs o w. unfold wlp. cbn. rewrite H. split; [done|]. intros; lia. Qed.

Lemma tidy_opt_acct {A B} (m : R A) (f : A -> R B) i pi :
  acct m none -> (forall a, tidy_opt (f a) i pi) -> tidy_opt (m ≫= f) i pi.
Proof.
  intros Hm Hf Hs o w. apply wlp_bind. eapply wlp_mono; [apply Hm|]. intros a w1 H1.
  eapply wlp_mono; [by apply Hf|]. intros b w2 [H2 H3]. split; [done|]. intros h Hh. rewrite H3, H1 by done. unfold none. lia.
Qed.

Lemma tidy_opt_bind {A B} (m : R A) (f : A -> R B) i pk pi :
  tidy m i pk -> (forall a, tidy_opt (f a) (Some (pk a)) pi) -> tidy_opt (m ≫= f) (Some i) pi.
Proof.
  intros Hm Hf Hs o w. apply wlp_bind. eapply wlp_mono; [by apply Hm|]. intros a w1 [H1 H2].
  eapply wlp_mono; [by apply Hf|]. intros b w2 [H3 H4]. split; [done|]. intros h Hh. rewrite H4, H2 by done. cbn. lia.
Qed.

Lemma tidy_opt_base {A} (m : R A) k i pi : links k = links i -> tidy_opt m (Some k) pi -> tidy_opt m (Some i) pi.
Proof. unfold tidy_opt, shut_opt, opt_PT, shut, links. intros [= -> -> ->]. done. Qed.

Lemma tidy_opt_deref {A B} (x : option A) (f : A -> R B) i pi :
  (forall a, x = Some a -> tidy_opt (f a) i pi) -> tidy_opt (deref x ≫= f) i pi.
Proof. intros H. destruct x as [a|]; [by apply (H a)|by intros ? ? ?]. Qed.

Lemma procps_pids_get_tidy i which l : tidy_opt (procps_pids_get cs enc getpwuid getgrgid fuel i which l) i (fun r => r.1.2).
Proof.
  unfold procps_pids_get. apply tidy_opt_acct; [eauto with adb|]. intros []. destruct i as [i|]; [|by apply tidy_opt_ret].
  destruct (negb _); [by apply tidy_opt_ret|]. destruct (_ =? 0); [by apply tidy_opt_ret|].
  apply (tidy_opt_bind _ _ _ (fun r => r.1.2)); [apply get_ready_tidy|]. intros [[ok j] l1]. cbn [fst snd].
  destruct (negb ok); [by apply tidy_opt_ret|]. apply tidy_opt_acct; [eauto with adb|]. intros [].
  apply (tidy_opt_bind _ _ _ id); [apply still_tidy, fresh_boot_still|]. intros j2. unfold id at 1.
  apply (tidy_opt_bind _ _ _ (fun r => set_get_proc r.1.2 (set_get_PT (Some r.1.1.2) j2))).
  { intros [H1 H2] o w. destruct (get_PT j2) as [PT0|] eqn:E0.
    - eapply wlp_mono; [apply read_next_acct|]. intros r w' Hn.
      split; [split; [done|]; cbn; intros He; specialize (H2 He); congruence|].
      intros h Hh. rewrite Hn by done. cbn. lia.
    - unfold read_next. apply wlp_bind, wlp_any. by intros. }
  intros [[[got PT] p] l2]. cbn [fst snd]. cbn zeta. set (j3 := set_get_proc _ _). clearbody j3.
  destruct (negb got); [by apply tidy_opt_ret|]. apply tidy_opt_acct; [eauto with adb|]. intros id.
  apply tidy_opt_acct; [eauto with adb|]. intros s.
  apply (tidy_opt_bind _ _ _ (fun r => r.1.1.1.2)); [apply still_tidy, pids_assign_results_still|].
  intros [[[[ok4 j4] s'] p'] l']. cbn [fst snd]. eapply (tidy_opt_base _ (set_get_proc p' _)); [|by apply tidy_opt_ret]. done.
Qed.

Lemma procps_pids_reap_tidy i which l :
  tidy_opt (procps_pids_reap cs enc getpwuid getgrgid fuel i which l) i (fun r => r.1.2).
Proof.
  unfold procps_pids_reap. apply tidy_opt_acct; [eauto with adb|]. intros []. destruct i as [i|]; [|by apply tidy_opt_ret].
  destruct (negb _); [by apply tidy_opt_ret|]. destruct (_ =? 0); [by apply tidy_opt_ret|].
  apply tidy_opt_acct; [eauto with adb|]. intros [].
  apply (tidy_opt_bind _ _ _ (fun r => r.1.2)); [apply harvest_tidy|]. intros [[rc j] l1]. by apply tidy_opt_ret.
Qed.

Lemma procps_pids_select_tidy i these n which l :
  tidy_opt (procps_pids_select cs enc getpwuid getgrgid fuel i these n which l) i (fun r => r.1.2).
Proof.
  unfold procps_pids_select. apply tidy_opt_acct; [eauto with adb|]. intros [].
  destruct i as [i|]; [|by apply tidy_opt_ret]. destruct these as [these|]; [|by apply tidy_opt_ret].
  destruct (_ || _); [by apply tidy_opt_ret|]. destruct (negb _); [by apply tidy_opt_ret|].
  destruct (_ =? 0); [by apply tidy_opt_ret|]. apply tidy_opt_acct; [eauto with adb|]. intros [].
  destruct (_ <? _)%nat; [by intros ? ? ?|].
  apply (tidy_opt_bind _ _ _ (fun r => r.1.2)); [apply harvest_tidy|]. intros [[rc j] l1]. by apply tidy_opt_ret.
Qed.

Lemma cleanup_stack_acct s : acct (pids_cleanup_stack s) none.
Proof. induction s as [|r s IH]; cbn [pids_cleanup_stack]; acct_tac. Qed.
Lemma mapR_acct {A B} (f : A -> R B) l : (forall a, acct (f a) none) -> acct (mapR f l) none.
Proof. intros Hf. induction l as [|a l IH]; cbn [mapR]; acct_tac. Qed.
#[local] Hint Resolve cleanup_stack_acct : adb.
Lemma cleanup_extent_acct x : acct (cleanup_extent x) none.
Proof. unfold cleanup_extent. eapply (acct_bind _ _ none); [apply mapR_acct, cleanup_stack_acct|]. intros; by apply acct_ret. Qed.
Lemma cleanup_other_acct x : acct (cleanup_other x) none.
Proof. unfold cleanup_other. acct_tac. Qed.

Lemma pids_cleanup_stacks_all_still i : still (pids_cleanup_stacks_all i) i id.
Proof.
  unfold pids_cleanup_stacks_all. apply still_acct; [apply mapR_acct, cleanup_extent_acct|]. intros xs. by apply still_ret.
Qed.

Lemma reset_room_tidy n i : tidy (reset_room n i) i (fun r => r.2).
Proof.
  intros [Hf Hg] o w. unfold reset_room. apply wlp_bind.
  apply (wlp_mono _ _ _ (fun j w' => fetch_PT j = None /\ get_ext j = None /\ get_PT j = None /\
    forall h, 0 <= handle_val h -> net h (w_tr w') = net h (w_tr w) - held_opt (get_PT i) h)).
  - cbn [get_ext set_extents]. destruct (get_ext i) eqn:E.
    + apply wlp_bind. eapply wlp_mono; [apply close_bal|]. by intros PT w1 [-> Hn].
    + specialize (Hg eq_refl). unfold wlp. cbn. rewrite Hg. repeat split; [done..|]. cbn. intros; lia.
  - intros j w1 (E1 & E2 & E3 & Hn).
    assert (Hs : still (r ← sys (CMalloc (4 * n));
      if r_val r <? 0 then mret (false, set_items n (curitems j) None (set_fetch (set_anchor None (n_alloc (fetch j)) (fetch j)) j))
      else let old := default [] (items j) in
        mret (true, set_items n (curitems j) (Some (old ++ replicate (Z.to_nat n - length old) 0))
                      (set_fetch (set_anchor None (n_alloc (fetch j)) (fetch j)) j))) j (fun r => r.2)) by still_tac.
    eapply wlp_mono; [apply Hs|]. intros r w2 [Hl Hn2]. unfold links in Hl. injection Hl as F1 F2 F3.
    split; [unfold shut; split; congruence|]. intros h Hh. rewrite Hn2, Hn, F2, E3 by done. cbn. lia.
Qed.

Lemma itemize_links i j : pids_itemize_stacks_all i = Some j -> links j = links i.
Proof.
  unfold pids_itemize_stacks_all. destruct (extents i); [by intros [= <-]|].
  destruct (items i); [|done]. cbn [mbind option_bind]. destruct (mapM _ _); [|done]. by intros [= <-].
Qed.
Lemma libflags_links i j : pids_libflags_set i = Some j -> links j = links i.
Proof.
  unfold pids_libflags_set. destruct (if _ : bool then _ else _) as [[fl hy]|]; [|done]. by intros [= <-].
Qed.

Lemma procps_pids_reset_tidy i newitems n : tidy_opt (procps_pids_reset i newitems n) i (fun r => r.2).
Proof.
  unfold procps_pids_reset. destruct i as [i|]; [|by apply tidy_opt_ret]. destruct newitems as [[addr its]|]; [|by apply tidy_opt_ret].
  apply tidy_opt_acct; [eauto with adb|]. intros [|]; [by apply tidy_opt_ret|].
  apply (tidy_opt_bind _ _ _ id); [apply still_tidy, pids_cleanup_stacks_all_still|]. intros j. unfold id at 1.
  apply tidy_opt_acct; [eauto with adb|]. intros [|]; [by apply tidy_opt_ret|].
  apply (tidy_opt_bind _ _ _ (fun r => r.2)); [destruct (_ <? _); [apply reset_room_tidy|by apply tidy_ret]|].
  intros [ok k]. cbn [snd]. destruct (negb ok); [by apply tidy_opt_ret|].
  do 2 (apply tidy_opt_acct; [eauto with adb|]; intros ?). cbn zeta.
  apply tidy_opt_deref. intros k2 E2%itemize_links. apply tidy_opt_deref. intros k3 E3%libflags_links.
  apply (tidy_opt_base _ k3); [rewrite E3, E2; done|]. by apply tidy_opt_ret.
Qed.

Lemma cut_links i id x j : pids_extent_cut i id = Some (x, j) -> links j = links i.
Proof. unfold pids_extent_cut. destruct (cut_from _ _) as [[? ?]|]; [|done]. by intros [= <- <-]. Qed.

Lemma look_up_our_self_acct p : acct (look_up_our_self cs enc fuel p) none.
Proof.
  unfold look_up_our_self. eapply (acct_bind _ _ none); [apply file2str_acct|]. intros [n u].
  destruct (_ =? _).
  - eapply (acct_bind _ _ none); [apply acct_gains, gains_stderr|]. by intros [] o w.
  - eapply (acct_bind _ _ none); [eauto with adb|]. intros b. eapply (acct_bind _ _ none); [apply stat2proc_acct|].
    intros [r q]. by apply acct_ret.
Qed.

Lemma fatal_proc_unmounted_tidy i self l : tidy_opt (fatal_proc_unmounted cs enc fuel i self l) i (fun r => r.1.2).
Proof.
  unfold fatal_proc_unmounted. apply tidy_opt_acct; [apply look_up_our_self_acct|]. intros [rc p]. cbn zeta.
  destruct (_ || _); [by apply tidy_opt_ret|]. apply tidy_opt_acct; [eauto with adb|]. intros [].
  destruct i as [i|]; [|by apply tidy_opt_ret]. destruct (_ =? 0); [by apply tidy_opt_ret|].
  apply tidy_opt_acct; [eauto with adb|]. intros [].
  apply (tidy_opt_bind _ _ _ (fun r => r.2)); [apply still_tidy, pids_stacks_alloc_still|].
  intros [[x|] j]; cbn [snd]; [|by apply tidy_opt_ret].
  destruct (pids_extent_cut j (x_id x)) as [[y k]|] eqn:E.
  2:{ apply tidy_opt_acct; [eauto with adb|]. intros []. by apply tidy_opt_ret. }
  apply (tidy_opt_base _ k); [by apply (cut_links j (x_id x) y)|]. apply tidy_opt_acct; [eauto with adb|]. intros s.
  apply (tidy_opt_bind _ _ _ (fun r => r.1.1.1.2)); [apply still_tidy, pids_assign_results_still|].
  intros [[[[ok4 j4] s'] p'] l']. cbn [fst snd]. cbn zeta.
  eapply (tidy_opt_base _ (set_otherexts _ j4)); [|by apply tidy_opt_ret]. done.
Qed.

Lemma procps_pids_unref_tidy i l : tidy_opt (procps_pids_unref i l) i (fun r => r.1.2).
Proof.
  unfold procps_pids_unref. destruct i as [i|]; [|by apply tidy_opt_ret]. cbn zeta. set (j := set_refcount _ i).
  apply (tidy_opt_base _ j); [done|]. clearbody j. destruct (_ <? _); [|by apply tidy_opt_ret].
  apply (tidy_opt_bind _ _ _ (fun _ => j)).
  { apply still_tidy. intros o w. eapply wlp_mono; [apply pids_cleanup_stacks_all_still|]. by intros k w' [_ H]. }
  intros _. apply tidy_opt_acct; [apply mapR_acct, cleanup_other_acct|]. intros _. intros [Hf Hg] o w.
  apply wlp_bind. apply (wlp_mono _ _ _ (fun _ w' => forall h, 0 <= handle_val h ->
    net h (w_tr w') = net h (w_tr w) - held_opt (get_PT j) h)).
  - destruct (get_ext j) eqn:E; cbn [is_none].
    + eapply wlp_mono; [apply close_bal|]. by intros PT w1 [_ Hn].
    + rewrite Hg by done. unfold wlp. cbn. intros; lia.
  - intros PT w1 Hn. unfold wlp. cbn. split; [done|]. intros h Hh. rewrite Hn by done. lia.
Qed.

Lemma run_call_tidy c i l : tidy_opt (run_call cs enc getpwuid getgrgid fuel c i l) i (fun r => r.1).
Proof.
  assert (K : forall {A} (m : R (A * option pids_info * lib)), tidy_opt m i (fun r => r.1.2) ->
    tidy_opt ('(_, i, l) ← m; mret (i, l)) i (fun r => r.1)).
  { intros A m Hm Hs o w. apply wlp_bind. eapply wlp_mono; [by apply Hm|]. by intros [[a j] l'] w' Hj. }
  destruct c; cbn [run_call]; try apply K.
  - destruct i as [i|]; [|by apply tidy_opt_ret]. cbn [procps_pids_ref snd].
    eapply (tidy_opt_base _ (set_refcount _ i)); [|by apply tidy_opt_ret]. done.
  - apply procps_pids_unref_tidy.
  - apply procps_pids_get_tidy.
  - apply procps_pids_reap_tidy.
  - apply procps_pids_select_tidy.
  - intros Hs o w. apply wlp_bind. eapply wlp_mono; [by apply procps_pids_reset_tidy|]. by intros [rc j] w' Hj.
  - apply fatal_proc_unmounted_tidy.
Qed.

Lemma run_calls_tidy ks : forall i l, tidy_opt (run_calls cs enc getpwuid getgrgid fuel ks i l) i (fun r => r.1).
Proof.
  induction ks as [|c ks IH]; intros i l; cbn [run_calls]; [by apply tidy_opt_ret|]. intros Hs o w. apply wlp_bind.
  eapply wlp_mono; [by apply run_call_tidy|]. intros [j l'] w' [Hj Hn]. cbn [fst] in *.
  eapply wlp_mono; [by apply IH|]. intros r w2 [Hr Hn2]. split; [done|]. intros h Hh. rewrite Hn2, Hn by done. lia.
Qed.

Lemma procps_pids_new_shut so so1 its n l o (w : world rstate) : wlp (procps_pids_new so so1 None its n l) o w (fun r w' =>
  (shut_opt r.1.2 /\ forall h, opt_PT r.1.2 h = 0) /\
  forall h, 0 <= handle_val h -> net h (w_tr w') = net h (w_tr w) + 0).
Proof.
  assert (Hi : acct (new_items its n (info_empty new_history)) none) by (unfold new_items; acct_tac).
  assert (Hh : acct Sysinfo.procps_hertz_get none) by (unfold Sysinfo.procps_hertz_get; acct_tac).
  apply wlp_and.
  - cbn [procps_pids_new]. apply wlp_skip. intros c w1. destruct (_ <? _); [done|].
    apply wlp_skip. intros [e|i] w2; [done|].
    do 3 (apply wlp_skip; intros ? ?; destruct (_ <? _); [done|]). by do 2 (apply wlp_skip; intros ? ?).
  - cut (acct (procps_pids_new so so1 None its n l) none); [intros H; apply H|]. cbn [procps_pids_new]. acct_tac.
Qed.

(** C3: whatever a program does with a context and whatever the system answers,
    the directory streams and descriptors open behind it are those open before,
    plus those of the one table procps_pids_get keeps for its next call; when
    the last reference is gone nothing is left open, and nothing was closed
    that was not the context's own. *)
Theorem context_balanced so so1 its n ks l o w :
  wlp (use_pids cs enc getpwuid getgrgid fuel so so1 its n ks l) o w (fun r w' => forall h, 0 <= handle_val h ->
    net h (w_tr w') = net h (w_tr w) +
      match r.1 with
      | Some i => match get_PT i with Some PT => held_by PT h | None => 0 end
      | None => 0
      end).
Proof.
  unfold use_pids. apply wlp_bind. eapply wlp_mono; [apply procps_pids_new_shut|].
  intros [[rc i] l0] w1 [[Hs H0] Hn]. cbn [fst snd] in *. eapply wlp_mono; [by apply run_calls_tidy|].
  intros r w2 [_ Hn2] h Hh. rewrite Hn2, Hn, H0 by done. unfold opt_PT, held_opt. lia.
Qed.
End ops.
End Pidstreams.
