(* ===== verification/Pidscan.v ===== *)
(** * procps/linux/pids.c: what a reap hands out

    The stacks of [procps_pids_reap] on a system with a process table: one for
    each process, in the order of the table, showing the items asked for.  The
    loop is proved against an interface of the reader, which [readproc]
    implements. *)

From stdpp Require Import base numbers list strings.
From S2P Require Import Prelude Libc Posix Escape Utils Stacks Fetch Real Sysinfo Devname Procdata Procfiles Readproc Procscan Pidhist Piditems Pids Pidsafe.
Open Scope Z_scope.

Module Pidscan.
Import Procdata Procfiles Readproc Procscan Real Piditems Pids Pidsafe.

(** ** What a result shows *)

(** A number through a member of the union. *)
Definition cast (t : ptype) (v : Z) : Z :=
  match t with s_ch => wrap_s 8 v | s_int => i32 v | u_int => u32 v | _ => u64 v end.
Definition member (t : ptype) (v : pval) : Z := cast t (bits v).

Lemma member_put_num t old v : member t (put_num t old v) = cast t v.
Proof.
  unfold member. destruct t; cbn [put_num bits cast]; unfold u64, u32, i32, wrap_s, wrap_u.
  all: try (apply Z.mod_mod; lia).
  all: rewrite ?Z.add_mod_idemp_l by lia.
  - f_equal. rewrite <- Z.add_assoc, Z.add_comm, Z.mod_add by lia. by rewrite Zplus_mod_idemp_l.
  - f_equal. rewrite <- Z.add_assoc, Z.add_comm, Z.mod_add by lia. by rewrite Zplus_mod_idemp_l.
  - rewrite Z.add_comm, Z.mod_add by lia. apply Z.mod_mod. lia.
Qed.

(** The setters that need nothing but the record and memory. *)
Definition simple (f : psetter) : bool :=
  match f with
  | SExtra | SReg _ _ | SBorrow _ | SCvt _ | SStr _ _ | SSum _ _ | STimeAll _ | STimeElapsed | STimeStart => true
  | _ => false
  end.

(** What the result of a setter is to show of a process. *)
Definition displays (e : senv) (f : psetter) (p : proc_t) (v : pval) : Prop :=
  match f with
  | SExtra => v = PNum 0
  | SReg t g => member t v = cast t (num p g)
  | SBorrow g => v = match Procdata.str p g with Some s => PStr s | None => NULL end
  | SCvt g => member ul_int v = u64 (i64 (num p g) * 2 ^ e_shift e)
  | SStr name g => v = PStr (default (duplicate name) (Procdata.str p g))
  | SSum t gs => member t v = cast t (sum_of gs p)
  | STimeAll gs => v = PReal (time_all e gs p)
  | STimeElapsed => v = PReal (if time_start e p <? e_boot e then fsub (e_boot e) (time_start e p) else 0)
  | STimeStart => v = PReal (time_start e p)
  | _ => True
  end.

(** The record behind a setter: a string was taken over. *)
Definition after (f : psetter) (p : proc_t) : proc_t :=
  match f with
  | SStr _ g => match Procdata.str p g with Some _ => Procdata.set_str g None p | None => p end
  | _ => p
  end.

(** A stack shows the items [its] of a process; an item asked for again finds
    its string gone. *)
Fixpoint shows (e : senv) (its : list Z) (p : proc_t) (s : pstack) : Prop :=
  match its, s with
  | [], r :: _ => pr_item r = PIDS_logical_end
  | it :: its, r :: s =>
      pr_item r = it /\ exists f, setsfunc it = Some f /\ displays e f p (pr_result r) /\ shows e its (after f p) s
  | _, [] => False
  end.

(** ** Memory only

    What an allocation changes of the world. *)

Definition mem_only (w w' : world rstate) : Prop :=
  w_g w' = w_g w /\ w_errno w' = w_errno w /\ (forall h, net h (w_tr w') = net h (w_tr w)) /\
  forall d, readdirs d (w_tr w') = readdirs d (w_tr w).

Lemma mem_only_refl w : mem_only w w.
Proof. done. Qed.
Lemma mem_only_trans w1 w2 w3 : mem_only w1 w2 -> mem_only w2 w3 -> mem_only w1 w3.
Proof.
  intros (A1 & A2 & A3 & A4) (B1 & B2 & B3 & B4). split; [congruence|]. split; [congruence|].
  split; intros x; [by rewrite B3|by rewrite B4].
Qed.
#[local] Hint Resolve mem_only_refl mem_only_trans : core.

Section memory.
Context (o : os) (Hm : Fetch.memory o).

Lemma wp_malloc sz (w : world rstate) : wp (sys (CMalloc sz)) o w (fun r w' => (r_val r <? 0) = false /\ mem_only w w').
Proof.
  apply wp_sys_errno. intros r ->. pose proof (Hm (w_tr w) sz) as H.
  assert ((r_val (o (w_tr w) (CMalloc sz)) <? 0) = false) as E by (apply Z.ltb_ge; lia).
  split; [done|]. rewrite E. split; [done|]. split; [done|]. split; [by intros []|done].
Qed.

Lemma dup_val_ok t p l (w : world rstate) :
  wp (dup_val t p l) o w (fun x w' => x = SRes (PStr t) p false l /\ mem_only w w').
Proof.
  unfold dup_val, strdup. wstep. wstep. eapply wp_mono; [apply wp_malloc|]. intros r w1 [-> H]. by do 2 apply wp_ret.
Qed.

Lemma run_setter_ok f e old p l (w : world rstate) : simple f = true -> typed (setter_type f) old ->
  wp (run_setter f e old p l) o w (fun x w' => displays e f p (s_val x) /\ s_proc x = after f p /\ s_err x = false /\
    s_lib x = l /\ mem_only w w').
Proof.
  intros Hs Ht. destruct f; try done; cbn [run_setter displays after]; unfold plain;
    try (apply wp_ret; cbn [s_val s_proc s_err s_lib]; by repeat split; try apply member_put_num).
  assert (Hf : wp (run_free free_str old) o w (fun _ w' => w' = w)) by (destruct Ht as [->|[? ->]]; done).
  wstep. eapply wp_mono; [exact Hf|]. intros _ w1 ->. destruct (Procdata.str p f) eqn:E; [by apply wp_ret|].
  eapply wp_mono; [apply dup_val_ok|]. by intros x w1 [-> H].
Qed.

(** Valid items with simple setters. *)
Definition simple_item (it : Z) : Prop :=
  0 <= it < PIDS_logical_end /\ exists f, setsfunc it = Some f /\ simple f = true.

(** A stack made for the items. *)
Definition prime (its : list Z) (s : pstack) : Prop :=
  well s /\ exists tl, map pr_item s = its ++ PIDS_logical_end :: tl.

Lemma assign_loop_shows e its : Forall simple_item its -> forall s p err l (w : world rstate), prime its s ->
  wp (assign_loop e s p err l) o w (fun r w' => shows e its p r.1.1.1 /\ r.1.2 = err /\ r.2 = l /\ mem_only w w').
Proof.
  induction 1 as [|it its (Hi & f & Hf & Hs) Hits IH]; intros s p err l w [Hw [tl Hmp]];
    (destruct s as [|r s]; [by apply (f_equal length) in Hmp|]); cbn [map app] in Hmp; injection Hmp as E1 E2; cbn [assign_loop].
  - rewrite E1, Z.leb_refl. apply wp_ret. cbn [fst snd]. by split.
  - inversion Hw as [it0 tail He Hn|it0 v t f0 Hi0 Hf0 Ht0 Hw0]; subst; cbn [pr_item pr_result] in *; [lia|].
    destruct (Z.leb_spec PIDS_logical_end it0); [lia|]. rewrite Hf in Hf0. injection Hf0 as <-. rewrite Hf. cbn [deref].
    wstep. apply wp_ret. wstep. eapply wp_mono; [by apply run_setter_ok|].
    intros x w1 (Hd & Hp & Herr & Hl & Hmem).
    wstep. eapply wp_mono; [apply (IH s (s_proc x) (err || s_err x) (s_lib x)); split; [done|by exists tl]|].
    intros [[[t' p'] err'] l'] w2 (H1 & H3 & H4 & H5). cbn [fst snd] in *. apply wp_ret. cbn [fst snd].
    split; [cbn [shows pr_item pr_result]; split; [done|]; exists f; by rewrite <- Hp|].
    split; [by rewrite H3, Herr, orb_false_r|]. split; [congruence|eauto].
Qed.

Lemma pids_assign_results_shows i its s p l (w : world rstate) : Forall simple_item its -> prime its s ->
  wp (pids_assign_results i s p l) o w (fun r w' => r.1.1.1.1 = true /\ r.1.1.1.2 = set_seterr false i /\
    shows (env_of i) its p r.1.1.2 /\ prime its r.1.1.2 /\ r.2 = l /\ mem_only w w').
Proof.
  intros Hits Hp. unfold pids_assign_results. wstep.
  eapply wp_mono; [apply wp_wlp_and; [by apply (assign_loop_shows _ its)|by apply assign_loop_well, Hp]|].
  intros [[[s' p'] err] l'] w1 [(H1 & He & Hl & H2) [H3 H4]]. cbn [fst snd] in *. subst err l'. apply wp_ret. cbn [fst snd].
  split; [done|]. split; [done|]. split; [done|]. split; [|done]. split; [done|]. destruct Hp as [_ [tl Htl]].
  exists tl. by rewrite H4.
Qed.

(** ** Stacks for the items *)

(** A context with the items [its], and extents older than the next one. *)
Record ctx (its : list Z) (i : pids_info) : Prop := {
  cx_items : exists tl, items i = Some (its ++ PIDS_logical_end :: tl) /\
    Z.of_nat (length (its ++ PIDS_logical_end :: tl)) = maxitems i;
  cx_cur : curitems i = Z.of_nat (length its) + 1;
  cx_simple : Forall simple_item its;
  cx_fresh : Forall (fun x => (x_id x < next_id i)%nat) (extents i)
}.

Lemma ctx_same its i j : items j = items i -> maxitems j = maxitems i -> curitems j = curitems i ->
  extents j = extents i -> next_id j = next_id i -> ctx its i -> ctx its j.
Proof. intros E1 E2 E3 E4 E5 [H1 H2 H3 H4]. split; rewrite ?E1, ?E2, ?E3, ?E4, ?E5; done. Qed.
#[local] Hint Extern 2 (ctx _ _) =>
  match goal with H : ctx ?its ?i |- ctx ?its ?j => exact (ctx_same its i j eq_refl eq_refl eq_refl eq_refl eq_refl H) end : core.

Lemma itemize_items s n its tl s' : (length its < length s)%nat -> n = Z.of_nat (length its) + 1 ->
  pids_itemize_stack s n (its ++ PIDS_logical_end :: tl) = Some s' ->
  exists t, map pr_item s' = its ++ PIDS_logical_end :: t.
Proof.
  intros Hl ->. unfold pids_itemize_stack. replace (Z.to_nat (Z.of_nat (length its) + 1)) with (S (length its)) by lia.
  destruct (_ || _); [done|]. intros [= <-]. exists (map pr_item (drop (S (length its)) s)).
  rewrite map_app. change (PIDS_logical_end :: map pr_item (drop (S (length its)) s)) with
    ([PIDS_logical_end] ++ map pr_item (drop (S (length its)) s)). rewrite app_assoc. f_equal.
  replace (take (S (length its)) (its ++ PIDS_logical_end :: tl)) with (its ++ [PIDS_logical_end]).
  2:{ rewrite take_app_ge by lia. replace (S (length its) - length its)%nat with 1%nat by lia. done. }
  assert (Hz : length (its ++ [PIDS_logical_end]) = length (take (S (length its)) s))
    by (rewrite length_app, length_take; cbn [length]; lia).
  revert Hz. generalize (its ++ [PIDS_logical_end]), (take (S (length its)) s). clear.
  induction l as [|x l IH]; intros [|r t] H; cbn in H; try lia; [done|]. cbn. f_equal. apply IH. lia.
Qed.

Lemma pids_stacks_alloc_ok its i n (w : world rstate) : ctx its i -> 0 <= n ->
  wp (pids_stacks_alloc i n) o w (fun r w' => exists x, r = (Some x, set_extents (x :: extents i) (S (next_id i)) i) /\
    x_id x = next_id i /\ Z.of_nat (length (x_stacks x)) = n /\ Forall (prime its) (x_stacks x) /\ mem_only w w').
Proof.
  intros [(tl & Hi & Hl) Hc Hs Hf] Hn. unfold pids_stacks_alloc. wstep. eapply wp_mono; [apply wp_malloc|]. intros r w1 [-> H].
  rewrite Hi. cbn [deref]. wstep. apply wp_ret.
  assert (Hv : Forall valid_item its) by (eapply Forall_impl; [exact Hs|]; by intros it []).
  destruct (itemize_ok (maxitems i) (curitems i) (its ++ PIDS_logical_end :: tl)
    (replicate (Z.to_nat (maxitems i)) (PResult 0 (PNum 0)))) as (s & Es & Hw & _).
  { by exists its, tl. } { by apply Forall_replicate. } { rewrite length_replicate. lia. }
  rewrite Es. cbn [deref]. wstep. apply wp_ret. apply wp_ret. eexists. split; [reflexivity|]. split; [done|].
  cbn [x_stacks]. rewrite length_replicate. split; [lia|]. split; [|done]. apply Forall_replicate. split; [done|].
  rewrite length_app in Hl. cbn [length] in Hl. eapply itemize_items; [|exact Hc|exact Es]. rewrite length_replicate. lia.
Qed.

(** *** Pointers *)

Definition ptrs (x : extent) : list sptr := map (fun k => (x_id x, k)) (seq 0 (length (x_stacks x))).

Lemma extent_ptrs_eq x : extent_ptrs x = map Some (ptrs x).
Proof. unfold extent_ptrs, ptrs. by rewrite map_map. Qed.
Lemma ptrs_length x : length (ptrs x) = length (x_stacks x).
Proof. unfold ptrs. by rewrite length_map, length_seq. Qed.
Lemma ptrs_nodup x : NoDup (ptrs x).
Proof. apply NoDup_fmap; [by intros a b [= ->]|apply NoDup_seq]. Qed.
Lemma elem_ptrs x q : q ∈ ptrs x -> q.1 = x_id x /\ (q.2 < length (x_stacks x))%nat.
Proof. intros (k & -> & Hk)%list_elem_of_fmap. apply elem_of_seq in Hk. cbn. split; [done|lia]. Qed.

(** The stacks behind the pointers [a], each made for the items. *)
Definition points (its : list Z) (xs : list extent) (a : list sptr) : Prop :=
  NoDup a /\ Forall (fun q => exists s, load xs q = Some s /\ prime its s) a.

Lemma find_extent_id l id x : find_extent l id = Some x -> x ∈ l /\ x_id x = id.
Proof.
  induction l as [|y l IH]; [done|]. cbn. destruct (Nat.eqb_spec (x_id y) id); [intros [= <-]; by split; [left|]|].
  intros [H1 H2]%IH. split; [by right|done].
Qed.

Lemma load_older xs x q s n : Forall (fun x => (x_id x < n)%nat) xs -> x_id x = n -> load xs q = Some s ->
  (q.1 < n)%nat /\ load (x :: xs) q = Some s.
Proof.
  intros Hf Hx. unfold load. cbn [find_extent]. destruct (find_extent xs q.1) as [y|] eqn:E; [|done].
  apply find_extent_id in E as [Hy Hid]. rewrite Forall_forall in Hf. specialize (Hf y Hy). intros Hs. split; [lia|].
  destruct (Nat.eqb_spec (x_id x) q.1); [lia|exact Hs].
Qed.

Lemma points_app its xs a x n : Forall (fun x => (x_id x < n)%nat) xs -> x_id x = n -> Forall (prime its) (x_stacks x) ->
  points its xs a -> points its (x :: xs) (a ++ ptrs x).
Proof.
  intros Hf Hx Hp [Ha Hl]. rewrite Forall_forall in Hl. split.
  - apply NoDup_app. split; [done|]. split; [|apply ptrs_nodup]. intros q Hq [Hq1 _]%elem_ptrs.
    destruct (Hl q Hq) as (s & Hs & _). destruct (load_older xs x q s n Hf Hx Hs). lia.
  - apply Forall_app. split; apply Forall_forall; intros q Hq.
    + destruct (Hl q Hq) as (s & Hs & Hpr). exists s. split; [|done]. by apply (load_older xs x q s n).
    + apply elem_ptrs in Hq as [Hq1 Hq2]. destruct (lookup_lt_is_Some_2 _ _ Hq2) as [s Hs]. exists s.
      split; [|by eapply Forall_lookup_1]. unfold load. cbn [find_extent]. by rewrite Hq1, Nat.eqb_refl.
Qed.

Lemma load_store xs q s0 s : load xs q = Some s0 -> load (store xs q s) q = Some s.
Proof.
  unfold load, store. induction xs as [|x xs IH]; [done|]. cbn [find_extent map].
  destruct (Nat.eqb_spec (x_id x) q.1) as [E|E]; cbn [x_id].
  - rewrite E, Nat.eqb_refl. cbn. intros Hs. apply list_lookup_insert_eq. by apply lookup_lt_Some in Hs.
  - destruct (Nat.eqb_spec (x_id x) q.1); [done|]. exact IH.
Qed.

Lemma load_store_ne xs p q s : p <> q -> load (store xs p s) q = load xs q.
Proof.
  intros Hpq. unfold load, store. induction xs as [|x xs IH]; [done|]. cbn [find_extent map].
  assert (x_id (if (x_id x =? p.1)%nat then Extent (x_id x) (<[p.2:=s]> (x_stacks x)) else x) = x_id x) as ->
    by by destruct (_ =? _)%nat.
  destruct (Nat.eqb_spec (x_id x) q.1) as [E|E]; [|exact IH]. cbn.
  destruct (Nat.eqb_spec (x_id x) p.1) as [E'|E']; [|done]. cbn.
  apply list_lookup_insert_ne. intros E2. apply Hpq. destruct p, q; cbn in *; congruence.
Qed.

Lemma points_store its xs a q s0 s : load xs q = Some s0 -> prime its s -> points its xs a -> points its (store xs q s) a.
Proof.
  intros Hq Hs [Ha Hl]. split; [done|]. eapply Forall_impl; [exact Hl|]. intros p (s1 & Hp & Hpr).
  destruct (decide (q = p)) as [<-|Hne]; [exists s; split; [by eapply load_store|done]|].
  exists s1. by rewrite load_store_ne.
Qed.

Lemma store_fresh n xs q s : Forall (fun x => (x_id x < n)%nat) xs -> Forall (fun x => (x_id x < n)%nat) (store xs q s).
Proof. intros H. apply Forall_map. eapply Forall_impl; [exact H|]. intros x Hx. cbn. by destruct (_ =? _)%nat. Qed.

(** *** The anchor *)

Record live (its : list Z) (i : pids_info) (a : list sptr) : Prop := {
  lv_anchor : anchor (fetch i) = Some (map Some a);
  lv_alloc : n_alloc (fetch i) = Z.of_nat (length a);
  lv_points : points its (extents i) a;
  lv_ctx : ctx its i
}.

(** What the allocations keep of the context. *)
Definition kept (i j : pids_info) : Prop :=
  (fetch_PT j, read_something j, history_yes j, env_of j) = (fetch_PT i, read_something i, history_yes i, env_of i) /\
  (n_saved (fetch j), res_stacks (fetch j), oldflags j) = (n_saved (fetch i), res_stacks (fetch i), oldflags i).
Definition same_use (i j : pids_info) : Prop :=
  (n_inuse (fetch j), counts (fetch j)) = (n_inuse (fetch i), counts (fetch i)).

Lemma kept_trans i j k : kept i j -> kept j k -> kept i k.
Proof. unfold kept. intros [H1 H2] [H3 H4]. split; congruence. Qed.

Lemma fetch_init_ok its i (w : world rstate) : ctx its i -> (anchor (fetch i) = None \/ exists a, live its i a) ->
  wp (fetch_init i) o w (fun r w' => exists j a, r = (true, j) /\ live its j a /\ kept i j /\ same_use i j /\ mem_only w w').
Proof.
  intros Hc Ha. unfold fetch_init. destruct (anchor (fetch i)) as [a|] eqn:E.
  - destruct Ha as [|[b Hb]]; [done|]. apply wp_ret. by exists i, b.
  - wstep. eapply wp_mono; [apply wp_malloc|]. intros r w1 [-> H1]. cbn zeta. set (j := set_fetch _ i).
    assert (Hj : ctx its j) by (subst j; auto). wstep.
    eapply wp_mono; [apply (pids_stacks_alloc_ok its j STACKS_INIT); [done|unfold STACKS_INIT; lia]|].
    intros r2 w2 (x & -> & Hid & Hlen & Hp & H2). apply wp_ret. eexists _, (ptrs x). split; [reflexivity|].
    split; [|by split; [|split; [|eauto]]]. split.
    + cbn. by rewrite extent_ptrs_eq.
    + cbn [fetch set_fetch set_anchor n_alloc]. by rewrite ptrs_length.
    + cbn [extents set_fetch set_extents]. apply (points_app its (extents j) [] x (next_id j)); [apply Hj|done|done|].
      split; [constructor|constructor].
    + destruct Hj as [H3 H4 H5 H6]. split; [done|done|done|]. cbn. constructor; [subst j; cbn in Hid; rewrite Hid; lia|].
      eapply Forall_impl; [exact H6|]. subst j. cbn. lia.
Qed.

Lemma fetch_grow_ok its i a (w : world rstate) : live its i a -> 0 <= n_inuse (fetch i) <= n_alloc (fetch i) ->
  wp (fetch_grow i) o w (fun r w' => exists j b, r = (true, j) /\ live its j (a ++ b) /\ kept i j /\ same_use i j /\
    n_inuse (fetch j) < Z.of_nat (length (a ++ b)) /\
    (forall q s, q ∈ a -> load (extents i) q = Some s -> load (extents j) q = Some s) /\ mem_only w w').
Proof.
  intros [H1 H2 H3 H4] Hn. unfold fetch_grow. destruct (Z.ltb_spec (n_inuse (fetch i)) (n_alloc (fetch i))).
  - apply wp_ret. exists i, []. rewrite app_nil_r. split; [done|]. split; [done|]. split; [done|]. split; [done|]. split; [lia|]. by split.
  - wstep. eapply wp_mono; [apply wp_malloc|]. intros r w1 [-> M1]. cbn zeta. set (j := set_fetch _ i).
    assert (Hj : ctx its j) by (subst j; auto). wstep.
    eapply wp_mono; [apply (pids_stacks_alloc_ok its j STACKS_GROW); [done|unfold STACKS_GROW; lia]|].
    intros r2 w2 (x & -> & Hid & Hlen & Hp & M2). rewrite H1, H2.
    assert (realloc_ptrs (Some (map Some a)) (Z.of_nat (length a) + STACKS_GROW) =
      map Some a ++ replicate (length (extent_ptrs x)) None) as ->.
    { unfold realloc_ptrs. cbn [default from_option id]. rewrite length_map. rewrite take_ge by (rewrite length_map; unfold STACKS_GROW; lia).
      f_equal. rewrite extent_ptrs_eq, length_map, ptrs_length. f_equal. lia. }
    rewrite copy_ptrs_tail by (rewrite length_map; lia). cbn [deref]. wstep. apply wp_ret. apply wp_ret.
    eexists _, (ptrs x). split; [reflexivity|].
    assert (Hold : forall q s, q ∈ a -> load (extents j) q = Some s -> load (x :: extents j) q = Some s).
    { intros q s _ Hs. by apply (load_older (extents j) x q s (next_id j)); [apply Hj| |]. }
    split; [|split; [done|split; [done|split; [|split; [exact Hold|eauto]]]]].
    + split.
      * cbn. by rewrite extent_ptrs_eq, map_app.
      * cbn [fetch set_fetch set_anchor n_alloc]. rewrite length_app, ptrs_length. lia.
      * cbn [extents set_fetch set_extents]. by apply (points_app its (extents j) a x (next_id j)); [apply Hj|..].
      * destruct Hj as [J3 J4 J5 J6]. split; [done|done|done|]. cbn. constructor; [subst j; cbn in Hid; rewrite Hid; lia|].
        eapply Forall_impl; [exact J6|]. subst j. cbn. lia.
    + cbn. rewrite length_app, ptrs_length. unfold STACKS_GROW in Hlen. lia.
Qed.

Lemma fetch_one_ok its i a p l q (w : world rstate) : live its i a -> history_yes i = 0 -> 0 <= n_inuse (fetch i) ->
  a !! Z.to_nat (n_inuse (fetch i)) = Some q ->
  wp (fetch_one i p l) o w (fun r w' => exists j s, r = (true, j, l) /\ live its j a /\ kept i j /\
    n_inuse (fetch j) = n_inuse (fetch i) + 1 /\ counts (fetch j) = tally_state (num p p_state) (counts (fetch i)) /\
    load (extents j) q = Some s /\ shows (env_of i) its p s /\
    (forall q', q <> q' -> load (extents j) q' = load (extents i) q') /\ mem_only w w').
Proof.
  intros [H1 H2 H3 H4] Hh H0 Hq. unfold fetch_one, pids_proc_tally. cbn [history_yes set_fetch]. rewrite Hh. cbn [Z.eqb negb].
  wstep. apply wp_ret. cbn [Z.eqb fetch set_fetch set_counts anchor n_inuse]. rewrite H1. cbn [deref]. wstep. apply wp_ret.
  rewrite list_lookup_fmap, Hq. cbn [fmap option_fmap option_map mjoin option_join deref]. wstep. apply wp_ret.
  cbn [extents set_fetch]. destruct H3 as [Hnd Hl]. pose proof (Forall_lookup_1 _ _ _ _ Hl Hq) as (s0 & Hs0 & Hp0).
  rewrite Hs0. cbn [deref]. wstep. apply wp_ret. wstep.
  eapply wp_mono; [apply (pids_assign_results_shows _ its s0 p l); [apply H4|done]|].
  intros [[[[ok j] s] p'] l'] w1 (E1 & E2 & Hs & Hps & E3 & M). cbn [fst snd] in *. subst ok j l'. apply wp_ret.
  eexists _, s. split; [reflexivity|]. split.
  { split; [done|done| |].
    - cbn. by apply (points_store its (extents i) a q s0 s).
    - destruct H4 as [J1 J2 J3 J4]. split; [done|done|done|]. cbn. by apply store_fresh. }
  split; [done|]. split; [done|]. split; [done|]. split; [cbn; by eapply load_store|]. split; [exact Hs|].
  split; [|done]. intros q' Hne. cbn. by apply load_store_ne.
Qed.
End memory.

(** ** The interface of the reader

    [pending specs w PT l]: from this world, table and library on, the calls of
    [info->read_something] deliver records that meet [specs], one after the
    other, and then NULL. *)

Class Reader (cs : bool) (enc : option bytes) (getpwuid getgrgid : Z -> option bytes) (fuel : nat) (o : os)
    (how : option bool) (pending : list (proc_t -> Prop) -> world rstate -> option PROCTAB -> lib -> Prop) : Prop := {
  rd_next : forall specs w PT p l, pending specs w PT l ->
    wp (read_next cs enc getpwuid getgrgid fuel how PT p l) o w (fun r w' =>
      (forall h, net h (w_tr w') = net h (w_tr w)) /\
      match specs with
      | P :: rest => r.1.1.1 = true /\ P r.1.2 /\ pending rest w' (Some r.1.1.2) r.2
      | [] => r.1.1.1 = false /\ pending [] w' (Some r.1.1.2) r.2
      end);
  rd_mem : forall specs w w' PT l, pending specs w PT l -> mem_only w w' -> pending specs w' PT l;
  rd_errno : forall specs w PT l, pending specs w PT l -> w_errno w <> ENOMEM
}.

Section fetching.
Context (cs : bool) (enc : option bytes) (getpwuid getgrgid : Z -> option bytes) (fuel : nat) (o : os) (how : option bool).
Context (pending : list (proc_t -> Prop) -> world rstate -> option PROCTAB -> lib -> Prop).
Context (HR : Reader cs enc getpwuid getgrgid fuel o how pending) (Hm : Fetch.memory o).

(** The stacks filled so far, in the order of the anchor. *)
Definition filled (i : pids_info) (a : list sptr) (ss : list pstack) : Prop :=
  n_inuse (fetch i) = Z.of_nat (length ss) /\ (length ss <= length a)%nat /\
  forall k s, ss !! k = Some s -> exists q, a !! k = Some q /\ load (extents i) q = Some s.

Definition tally (c : pids_counts) (ps : list proc_t) : pids_counts :=
  foldl (fun c p => tally_state (num p p_state) c) c ps.

Lemma filled_more i j a b ss : (forall q s, q ∈ a -> load (extents i) q = Some s -> load (extents j) q = Some s) ->
  n_inuse (fetch j) = n_inuse (fetch i) -> filled i a ss -> filled j (a ++ b) ss.
Proof.
  intros Hl Hn (H1 & H2 & H3). split; [congruence|]. split; [rewrite length_app; lia|]. intros k s Hk.
  destruct (H3 k s Hk) as (q & Hq & Hs). exists q. split; [by apply lookup_app_l_Some|].
  apply Hl; [by eapply list_elem_of_lookup_2|done].
Qed.

Lemma filled_one i j a ss q s : NoDup a -> filled i a ss -> a !! length ss = Some q -> load (extents j) q = Some s ->
  n_inuse (fetch j) = n_inuse (fetch i) + 1 -> (forall q', q <> q' -> load (extents j) q' = load (extents i) q') ->
  filled j a (ss ++ [s]).
Proof.
  intros Hnd (H1 & H2 & H3) Hq Hs Hn Ho. pose proof (lookup_lt_Some _ _ _ Hq). split; [rewrite length_app; cbn [length]; lia|].
  split; [rewrite length_app; cbn [length]; lia|]. intros k t [Hk|[Hk Ht]]%lookup_app_Some.
  - destruct (H3 k t Hk) as (q' & Hq' & Ht). exists q'. split; [done|]. rewrite Ho; [done|]. intros <-.
    apply lookup_lt_Some in Hk. pose proof (NoDup_lookup _ _ _ _ Hnd Hq Hq'). lia.
  - apply list_lookup_singleton_Some in Ht as [Hk0 <-]. exists q. by replace k with (length ss) by lia.
Qed.

Lemma pids_fetch_loop_ok its e : forall fl specs i a ss l (w : world rstate), live its i a -> filled i a ss ->
  history_yes i = 0 -> read_something i = how -> env_of i = e -> pending specs w (fetch_PT i) l -> (length specs < fl)%nat ->
  wp (fetch_loop cs enc getpwuid getgrgid fuel fl i l) o w (fun r w' => exists j a' ss' ps,
    r.1 = (true, j) /\ live its j a' /\ filled j a' (ss ++ ss') /\ Forall2 (fun P p => P p) specs ps /\
    Forall2 (shows e its) ps ss' /\ counts (fetch j) = tally (counts (fetch i)) ps /\
    n_saved (fetch j) = n_saved (fetch i) /\ res_stacks (fetch j) = res_stacks (fetch i) /\
    history_yes j = 0 /\ oldflags j = oldflags i /\ pending [] w' (fetch_PT j) r.2 /\ forall h, net h (w_tr w') = net h (w_tr w)).
Proof.
  induction fl as [|f IH]; intros specs i a ss l w Hl Hf Hh Hw He Hp Hfl; [lia|]. cbn [fetch_loop]. rewrite Hw. wstep.
  eapply wp_mono; [by apply (rd_next specs w (fetch_PT i) (fetch_proc i) l)|].
  intros [[[got PT] p] l1] w1 [Hn1 Hr]. cbn [fst snd] in Hr. cbn zeta. set (i1 := set_fetch_proc _ _).
  assert (Hl1 : live its i1 a) by (destruct Hl as [L1 L2 L3 L4]; split; [done..|]; by apply (ctx_same its i)).
  assert (Hf1 : filled i1 a ss) by done.
  destruct specs as [|P rest].
  - destruct Hr as [-> Hr]. cbn [negb]. apply wp_ret. exists i1, a, [], []. rewrite app_nil_r.
    split; [done|]. split; [done|]. split; [done|]. split; [constructor|]. split; [constructor|]. by repeat (split; [done|]).
  - destruct Hr as (-> & HP & Hr). cbn [negb length] in *. wstep.
    assert (Hu : 0 <= n_inuse (fetch i1) <= n_alloc (fetch i1)).
    { destruct Hf1 as (F1 & F2 & _). rewrite F1, (lv_alloc _ _ _ Hl1). lia. }
    eapply wp_mono; [by apply (fetch_grow_ok o Hm its i1 a)|].
    intros r2 w2 (i2 & b & -> & Hl2 & [K2 K2'] & S2 & Hlt & Hold & M2). cbn [negb]. wstep.
    injection K2 as K21 K22 K23 K24 K25 K26. injection K2' as K27 K28 K29. injection S2 as S21 S22.
    assert (Hf2 : filled i2 (a ++ b) ss) by (by eapply filled_more).
    assert (exists q, (a ++ b) !! length ss = Some q) as [q Hq].
    { apply lookup_lt_is_Some_2. destruct Hf2 as (F1 & _). lia. }
    eapply wp_mono; [apply (fetch_one_ok o Hm its i2 (a ++ b) p l1 q); [done|by rewrite K23|destruct Hf2 as (F1 & _); lia|]|].
    { destruct Hf2 as (F1 & _). rewrite F1, Nat2Z.id. exact Hq. }
    intros r3 w3 (i3 & s & -> & Hl3 & [K3 K3'] & N3 & C3 & L3 & Sh & O3 & M3). cbn [negb].
    injection K3 as K31 K32 K33 K34 K35 K36. injection K3' as K37 K38 K39.
    assert (Hf3 : filled i3 (a ++ b) (ss ++ [s])) by (eapply (filled_one i2); try done; apply Hl2).
    assert (He2 : env_of i2 = e) by (unfold env_of in *; rewrite <- He, K24, K25, K26; done).
    assert (He3 : env_of i3 = e) by (unfold env_of in *; rewrite <- He2, K34, K35, K36; done).
    eapply wp_mono; [eapply (IH rest i3 (a ++ b) (ss ++ [s]) l1 w3); try done|].
    { congruence. } { rewrite K32, K22. exact Hw. }
    { rewrite K31, K21. cbn [i1 fetch_PT set_fetch_proc set_fetch_PT]. eapply rd_mem; [|exact M3]. by eapply rd_mem. } { lia. }
    intros r4 w4 (j & a' & ss' & ps & R1 & R2 & R3 & R4 & R5 & R6 & R7 & R8 & R9 & R9' & R10 & R11).
    exists j, a', (s :: ss'), (p :: ps). split; [done|]. split; [done|].
    split; [by rewrite <- app_assoc in R3|]. split; [by constructor|].
    split; [constructor; [|done]; by rewrite <- He2|].
    split; [rewrite R6, C3, S22; done|]. split; [rewrite R7, K37, K27; done|]. split; [rewrite R8, K38, K28; done|].
    split; [done|]. split; [rewrite R9', K39, K29; done|]. split; [done|]. intros h. rewrite R11. destruct M2 as (_ & _ & M2 & _), M3 as (_ & _ & M3 & _).
    by rewrite M3, M2.
Qed.

(** The array of pointers that is handed out is as long as it is said to be. *)
Definition results_ok (f : fetch_support) : Prop :=
  match res_stacks f with Some st => n_saved f <= Z.of_nat (length st) | None => n_saved f <= 0 end.

(** The stacks [ss] are what the caller gets, up to the NULL pointer. *)
Definition handed (i : pids_info) (ss : list pstack) : Prop := exists qs tail,
  res_stacks (fetch i) = Some (map Some qs ++ None :: tail) /\ Forall2 (fun q s => load (extents i) q = Some s) qs ss.

Lemma filled_handed i a ss : filled i a ss -> Forall2 (fun q s => load (extents i) q = Some s) (take (length ss) a) ss.
Proof.
  intros (_ & H2 & H3). apply Forall2_same_length_lookup_2; [rewrite length_take; lia|].
  intros k q s Hq Hs. apply lookup_take_Some in Hq as [Hq _]. destruct (H3 k s Hs) as (q' & Hq' & Hl). congruence.
Qed.

Lemma fetch_final_ok its i a ss (w : world rstate) : live its i a -> filled i a ss -> results_ok (fetch i) ->
  wp (fetch_final i) o w (fun r w' => exists j, r = (Z.of_nat (length ss), j) /\ live its j a /\ results_ok (fetch j) /\
    handed j ss /\ (fetch_PT j, history_yes j, counts (fetch j), oldflags j) = (fetch_PT i, history_yes i, counts (fetch i), oldflags i) /\ mem_only w w').
Proof.
  intros Hl Hf Hr. pose proof Hf as (F1 & F2 & _). unfold fetch_final. wstep. set (n := n_inuse (fetch i) + 1).
  assert (K : wp (if n_saved (fetch i) <? n then
      r ← sys (CMalloc (8 * n));
      mret (if r_val r <? 0 then (false, set_results n None (fetch i))
            else (true, set_results n (Some (realloc_ptrs (res_stacks (fetch i)) n)) (fetch i)))
    else mret (true, fetch i)) o w (fun r w' => exists m st, r = (true, set_results m (Some st) (fetch i)) /\
      n <= m <= Z.of_nat (length st) /\ mem_only w w')).
  { destruct (Z.ltb_spec (n_saved (fetch i)) n).
    - wstep. eapply wp_mono; [by apply wp_malloc|]. intros r w1 [-> M]. apply wp_ret. eexists _, _. split; [reflexivity|].
      split; [|done]. unfold realloc_ptrs. rewrite length_app, length_take, length_replicate. lia.
    - apply wp_ret. unfold results_ok in Hr. destruct (res_stacks (fetch i)) as [st|] eqn:E; [|lia].
      exists (n_saved (fetch i)), st. split; [|by split; [lia|]]. rewrite <- E. by destruct (fetch i). }
  eapply wp_mono; [exact K|]. intros r w1 (m & st & -> & Hms & M). cbn [negb anchor set_results res_stacks n_inuse n_saved].
  rewrite (lv_anchor _ _ _ Hl). cbn [deref]. wstep. apply wp_ret. wstep. apply wp_ret.
  set (src := map Some (take (length ss) a) ++ [None]).
  assert (take (Z.to_nat (n_inuse (fetch i))) (map Some a) ++ [None] = src) as ->
    by (rewrite F1, Nat2Z.id; unfold src; f_equal; symmetry; apply fmap_take).
  assert (Hsrc : length src = S (length ss)) by (unfold src; rewrite length_app, length_map, length_take; cbn [length]; lia).
  unfold copy_ptrs. destruct (Nat.leb_spec (0 + length src) (length st)); [|lia]. cbn [deref take app]. wstep. apply wp_ret.
  apply wp_ret. eexists. split; [by rewrite F1|]. split; [destruct Hl as [L1 L2 L3 L4]; split; [done..|]; by apply (ctx_same its i)|].
  split; [|split; [|by split]].
  - unfold results_ok. cbn [fetch set_fetch set_results res_stacks n_saved]. rewrite take_0, app_nil_l, length_app, length_drop. lia.
  - exists (take (length ss) a), (drop (0 + length src) st). split; [|by apply filled_handed].
    cbn [fetch set_fetch set_results res_stacks]. rewrite take_0, app_nil_l. unfold src at 1. by rewrite <- app_assoc.
Qed.

(** [pids_stacks_fetch] for any reader: a stack for each record, in order. *)
Lemma pids_stacks_fetch_ok its specs i l (w : world rstate) :
  ctx its i -> (anchor (fetch i) = None \/ exists a, live its i a) -> results_ok (fetch i) ->
  history_yes i = 0 -> read_something i = how -> pending specs w (fetch_PT i) l -> (length specs < fuel)%nat ->
  wp (pids_stacks_fetch cs enc getpwuid getgrgid fuel i l) o w (fun r w' => exists j a ps ss,
    r.1 = (Z.of_nat (length specs), j) /\ live its j a /\ results_ok (fetch j) /\ handed j ss /\
    Forall2 (fun P p => P p) specs ps /\ Forall2 (shows (env_of i) its) ps ss /\
    counts (fetch j) = tally no_counts ps /\ history_yes j = 0 /\ oldflags j = oldflags i /\ pending [] w' (fetch_PT j) r.2 /\
    forall h, net h (w_tr w') = net h (w_tr w)).
Proof.
  intros Hc Ha Hr Hh Hw Hp Hfu. unfold pids_stacks_fetch. wstep. eapply wp_mono; [by apply (fetch_init_ok o Hm its i)|].
  intros r1 w1 (i1 & a1 & -> & Hl1 & [K1 K1'] & S1 & M1). cbn [negb]. cbn zeta.
  injection K1 as K11 K12 K13 K14 K15 K16. injection K1' as K17 K18 K19.
  set (i2 := set_fetch _ _). wstep.
  assert (Hl2 : live its i2 a1) by (destruct Hl1 as [L1 L2 L3 L4]; split; [done..|]; by apply (ctx_same its i1)).
  eapply wp_mono; [apply (pids_fetch_loop_ok its (env_of i) fuel specs i2 a1 [] l w1)|].
  { done. } { split; [done|]. split; [cbn; lia|]. by intros k s. } { subst i2; cbn; congruence. } { subst i2; cbn; congruence. }
  { subst i2. unfold env_of. cbn. by rewrite K14, K15, K16. }
  { subst i2. cbn. rewrite K11. by eapply rd_mem. } { done. }
  intros [[ok i3] l3] w3 (j & a' & ss & ps & R1 & R2 & R3 & R4 & R5 & R6 & R7 & R8 & R9 & R9' & R10 & R11). cbn [fst snd] in *.
  injection R1 as -> ->. cbn [negb]. wstep. unfold wp at 1. cbn [get_errno].
  destruct (Z.eqb_spec (w_errno w3) ENOMEM) as [E|_]; [by eapply rd_errno in R10|]. wstep.
  assert (Hrj : results_ok (fetch j)) by (unfold results_ok in *; rewrite R7, R8; subst i2; cbn; by rewrite K17, K18).
  eapply wp_mono; [by apply (fetch_final_ok its j a' ss)|].
  intros r4 w4 (j4 & -> & Hl4 & Hr4 & Hh4 & E4 & M4). injection E4 as E41 E42 E43 E44. apply wp_ret.
  exists j4, a', ps, ss. cbn [fst snd].
  split; [by rewrite <- (Forall2_length _ _ _ R5), <- (Forall2_length _ _ _ R4)|].
  split; [done|]. split; [done|]. split; [done|]. split; [done|]. split; [done|]. split; [by rewrite E43, R6|].
  split; [congruence|]. split; [rewrite E44, R9'; exact K19|]. split; [rewrite E41; by eapply rd_mem|].
  intros h. destruct M1 as (_ & _ & M1 & _), M4 as (_ & _ & M4 & _). by rewrite M4, R11, M1.
Qed.
End fetching.

(** ** readproc as the reader *)

Lemma gains_uptime {G} : gains (Sysinfo.procps_uptime (G := G)) (fun _ _ => 0).
Proof. unfold Sysinfo.procps_uptime. gains_tac. Qed.

#[local] Hint Resolve quiet_ret quiet_undef quiet_nofuel quiet_deref quiet_getg quiet_modg quiet_get_errno : qdb.
#[local] Hint Extern 1 (Procscan.quiet (sys _)) => apply quiet_sys; reflexivity : qdb.

Lemma quiet_uptime : Procscan.quiet Sysinfo.procps_uptime.
Proof. unfold Sysinfo.procps_uptime. quiet_tac. Qed.
Lemma quiet_openproc flags pidl uidl n st : Procscan.quiet (openproc flags pidl uidl n st).
Proof. unfold openproc, learn, alloc_buffers, close_procfs, put_src, put_dst. quiet_tac. Qed.
Lemma quiet_closeproc PT : Procscan.quiet (closeproc PT).
Proof. unfold closeproc. quiet_tac. Qed.

Section system.
Context (cs : bool) (enc : option bytes) (getpwuid getgrgid : Z -> option bytes) (fuel : nat).
Context (o : os) (fs : bytes -> option bytes) (sts : bytes -> ret) (d : Z) (k : nat) (es : list bytes).
Hypothesis Hsys : ProcSystem o fs sts d k es.

Abbreviation sw_of w := (Escape.utf_switch (utf_sw (w_g w)) enc).

(** What the records of the processes left to read have to be. *)
Definition specs_of (sw : Z) (ents : list entry) : list (proc_t -> Prop) :=
  map (fun '(pid, comm, vs) => reads_as cs sts sw pid comm vs) (lives ents).

Definition pending (sw : Z) (specs : list (proc_t -> Prop)) (w : world rstate) (PT : option PROCTAB) (l : lib) : Prop :=
  exists ents T, PT = Some T /\ specs = specs_of sw ents /\ table_ok d T /\ ub_ok (ub_proc (rp l)) /\
    Forall (entry_ok fuel fs sts) ents /\ at_entries d k es w ents /\ w_errno w <> ENOMEM /\ sw_of w = sw /\
    (length ents < fuel)%nat.

#[export] Instance readproc_reader sw : Reader cs enc getpwuid getgrgid fuel o (Some false) (pending sw).
Proof.
  split.
  - intros specs w PT p l (ents & T & -> & -> & Ht & Hu & Hok & Hat & He & Hsw & Hf).
    unfold read_next. cbn [deref]. wstep. apply wp_ret. wstep. apply wp_ret. wstep. unfold readproc.
    eapply wp_mono; [by apply (readproc_loop_ok cs enc getpwuid getgrgid fuel o fs sts d k es Hsys fuel ents)|].
    intros [[[got T'] st] p'] w1 (Ht' & Hu' & (Hs1 & Hn1 & He1) & Hr). cbn [fst snd] in *. apply wp_ret. cbn [fst snd].
    split; [done|]. pose proof (next_live_ok fuel fs sts ents Hok) as Hnl. unfold specs_of. rewrite (lives_next ents).
    destruct (next_live ents) as [[[[pid comm] vs] rest]|]; cbn [map].
    + destruct Hr as (-> & Hra & Hat1). destruct Hnl as [Hok1 Hlen]. split; [done|]. split; [by rewrite <- Hsw|].
      exists rest, T'. by repeat (split; [done || congruence|]); lia.
    + destruct Hr as (-> & Hat1). split; [done|]. exists [], T'.
      by repeat (split; [done || congruence || constructor|]); cbn; lia.
  - intros specs w w' PT l (ents & T & -> & -> & Ht & Hu & Hok & [A1 A2] & He & Hsw & Hf) (M1 & M2 & M3 & M4).
    exists ents, T. split; [done|]. split; [done|]. split; [done|]. split; [done|]. split; [done|].
    split; [unfold at_entries; by rewrite M4|]. by rewrite M1, M2.
  - by intros specs w PT l (ents & T & _ & _ & _ & _ & _ & _ & He & _).
Qed.

(** *** Opening the table *)

(** The system opens the directory, and kernel threads are not to be hidden. *)
Definition opens (st : statics) : Prop :=
  (forall t, r_val (o t (COpendir (bs "/proc"))) = d) /\ 0 <= d /\
  (hide_kernel st = 0 \/ hide_kernel st < 0 /\ forall t, r_val (o t (CGetenv (bs "LIBPROC_HIDE_KERNEL"))) < 0).

Lemma alloc_buffers_ok PT (w : world rstate) :
  wp (alloc_buffers PT) o w (fun ok w' => ok = true /\ utf_sw (w_g w') = utf_sw (w_g w)).
Proof.
  assert (Hm : Fetch.memory o) by apply Hsys. unfold alloc_buffers. wstep. unfold wp at 1. cbn [getg]. wstep.
  apply (wp_mono _ _ _ (fun ok w' => ok = true /\ utf_sw (w_g w') = utf_sw (w_g w))).
  { destruct (src_buffer _); [by apply wp_ret|]. wstep. eapply wp_mono; [by apply wp_malloc|].
    intros r w1 [-> (M1 & _)]. wstep. unfold wp at 1, put_src. cbn [modg]. apply wp_ret. cbn. by rewrite M1. }
  intros ok w1 [-> H1]. cbn [negb]. destruct (dst_buffer _); [by apply wp_ret|]. wstep. eapply wp_mono; [by apply wp_malloc|].
  intros r w2 [-> (M1 & _)]. wstep. unfold wp at 1, put_dst. cbn [modg]. apply wp_ret. cbn. by rewrite M1.
Qed.

Lemma learn_ok st (w : world rstate) : opens st ->
  wp (learn st) o w (fun st' w' => hide_kernel st' = 0 /\ ub_proc st' = ub_proc st /\ w_g w' = w_g w).
Proof.
  intros (_ & _ & Hh). unfold learn. wstep.
  apply (wp_mono _ _ _ (fun h w' => h = 0 /\ w_g w' = w_g w)).
  { destruct Hh as [E|[E Hg]]; [rewrite E; by apply wp_ret|].
    destruct (Z.ltb_spec (hide_kernel st) 0); [|lia]. wstep. wsys g Eg. apply wp_ret. subst g.
    destruct (Z.ltb_spec (r_val (o (w_tr w) (CGetenv (bs "LIBPROC_HIDE_KERNEL")))) 0) as [|H']; [done|].
    specialize (Hg (w_tr w)). lia. }
  intros h w1 [-> Hg1]. destruct (did_stat st); [by apply wp_ret|]. wstep. wsys t Ht. by apply wp_ret.
Qed.

Lemma openproc_ok flags st (w : world rstate) : opens st -> stat_only flags -> w_errno w <> ENOMEM ->
  wp (openproc flags [] [] 0 st) o w (fun r w' => exists T, r.1 = Some T /\ table_ok d T /\ ub_proc r.2 = ub_proc st /\
    sw_of w' = sw_of w /\ (forall x, readdirs x (w_tr w') = readdirs x (w_tr w)) /\ w_errno w' <> ENOMEM /\
    forall h, 0 <= handle_val h -> net h (w_tr w') = net h (w_tr w) + held_by T h).
Proof.
  intros Ho Hfl He. assert (Hm : Fetch.memory o) by apply Hsys.
  assert (has flags PROC_PID = false /\ has flags PROC_UID = false) as [Hf1 Hf2] by (by destruct Hfl as [->| ->]).
  eapply wp_mono; [apply wp_wlp_and; [|apply wlp_and; [by apply quiet_openproc, Hsys|apply openproc_acct]]|].
  - unfold openproc. wstep. eapply wp_mono; [by apply wp_malloc|]. intros r w1 [-> (M1 & _)].
    wstep. eapply wp_mono; [by apply learn_ok|]. intros st' w2 (Hh & Hu & Hg2). rewrite Hf1. wstep. wstep. wsys dd Hd.
    assert (r_val dd = d) as Ed by (subst dd; apply Ho). assert (0 <= d) by apply Ho. rewrite Ed.
    destruct (Z.ltb_spec d 0); [lia|]. apply wp_ret. rewrite Hf2, Hh. cbn [Z.ltb Z.compare andb negb]. wstep.
    eapply wp_mono; [apply alloc_buffers_ok|]. intros ok w3 [-> H3]. apply wp_ret.
    instantiate (1 := fun r w' => exists T, r.1 = Some T /\ table_ok d T /\ ub_proc r.2 = ub_proc st /\ sw_of w' = sw_of w).
    cbn beta. eexists. split; [reflexivity|]. split; [by repeat split|]. split; [done|]. rewrite H3. cbn. by rewrite Hg2, M1.
  - intros r w' ((T & H1 & H2 & H3 & H4) & [H5 H6] & H7). exists T. rewrite H1 in H7.
    split; [done|]. split; [done|]. split; [done|]. split; [done|]. split; [done|]. split; [auto|exact H7].
Qed.

(** ** procps_pids_reap *)

(** A context that is ready for a reap, the first one or a later one. *)
Record ready (its : list Z) (i : pids_info) : Prop := {
  ry_ctx : ctx its i;
  ry_anchor : anchor (fetch i) = None \/ exists a, live its i a;
  ry_results : results_ok (fetch i);
  ry_history : history_yes i = 0;
  ry_closed : fetch_PT i = None;
  ry_flags : stat_only (oldflags i)
}.

Lemma fresh_boot_ok fp n c m j i (w : world rstate) : Sysinfo.uptime_file o fp (Sysinfo.uptime_line n c m j) ->
  0 <= n < 2 ^ 64 -> 0 <= c < 100 -> 0 <= m < 2 ^ 64 -> 0 <= j < 100 -> w_errno w <> ENOMEM ->
  wp (fresh_boot i) o w (fun r w' => r = set_boot (Sysinfo.secs n c) i /\ w_g w' = w_g w /\
    (forall x, readdirs x (w_tr w') = readdirs x (w_tr w)) /\ w_errno w' <> ENOMEM).
Proof.
  intros Hf Hn Hc Hm Hj He. unfold fresh_boot. wstep.
  eapply wp_mono; [apply wp_wlp_and; [by apply (Sysinfo.procps_uptime_wp o w fp n c m j)|
    apply wlp_and; [by apply quiet_uptime, Hsys|apply gains_uptime]]|].
  intros r w1 ((-> & _) & [Hq Hq2] & [Hg _]). cbn [Z.leb Z.compare deref]. wstep. apply wp_ret. apply wp_ret.
  split; [done|]. split; [done|]. split; [done|auto].
Qed.

Lemma harvest_ok its i l ents fp n c m j (w : world rstate) : ready its i -> opens (rp l) -> ub_ok (ub_proc (rp l)) ->
  Sysinfo.uptime_file o fp (Sysinfo.uptime_line n c m j) -> 0 <= n < 2 ^ 64 -> 0 <= c < 100 -> 0 <= m < 2 ^ 64 -> 0 <= j < 100 ->
  Forall (entry_ok fuel fs sts) ents -> at_entries d k es w ents -> (length ents < fuel)%nat -> w_errno w <> ENOMEM ->
  wp (harvest cs enc getpwuid getgrgid fuel (oldflags i) [] 0 false i l) o w (fun r w' => exists i' ps ss,
    r.1 = (Some (Z.of_nat (length (lives ents))), i') /\ ready its i' /\ handed i' ss /\
    Forall2 (fun '(pid, comm, vs) p => reads_as cs sts (sw_of w) pid comm vs p) (lives ents) ps /\
    Forall2 (shows (SEnv (hertz i) (Sysinfo.secs n c) (pgs2k_shift i)) its) ps ss /\
    counts (fetch i') = tally no_counts ps).
Proof.
  intros [R1 R2 R3 R4 R5 R6] Ho Hu Hup Hn Hc Hm Hj Hents Hat Hf He. unfold harvest. rewrite R5.
  cbn [pids_oldproc_open]. wstep. wstep. eapply wp_mono; [by apply openproc_ok|].
  intros [PT st] w1 (T & ET & Ht & Hub & Hsw & Hrd & He1 & _). cbn [fst snd] in *. subst PT. apply wp_ret. cbn [Pidhist.is_none negb].
  wstep. eapply wp_mono; [by apply (fresh_boot_ok fp n c m j)|]. intros r w2 (-> & Hg2 & Hrd2 & He2). wstep.
  set (i2 := set_boot _ _).
  assert (Hsame : forall a, live its i a -> live its i2 a) by (intros a [L1 L2 L3 L4]; split; [done..|]; by apply (ctx_same its i)).
  eapply wp_mono; [apply (pids_stacks_fetch_ok cs enc getpwuid getgrgid fuel o (Some false) (pending (sw_of w))
    (readproc_reader _) (ps_memory _ _ _ _ _ _ Hsys) its (specs_of (sw_of w) ents) i2)|].
  { by apply (ctx_same its i). } { destruct R2 as [|[a Ha]]; [by left|right; eauto]. } { done. } { done. } { done. }
  { exists ents, T. split; [done|]. split; [done|]. split; [done|]. split; [cbn; by rewrite Hub|]. split; [done|].
    destruct Hat as [A1 A2]. split; [unfold at_entries; by rewrite Hrd2, Hrd|]. split; [done|]. split; [|done].
    rewrite Hg2. exact Hsw. }
  { unfold specs_of. rewrite length_map. assert (length (lives ents) <= length ents)%nat; [|lia].
    clear. induction ents as [|[] ents IH]; cbn [lives length]; lia. }
  intros [[rc i3] l3] w3 (j3 & a & ps & ss & E1 & L3 & F3 & H3 & P3 & S3 & C3 & Y3 & O3 & Q3 & N3). cbn [fst snd] in *.
  injection E1 as -> ->. wstep. eapply wp_mono; [apply pids_oldproc_close_ok|]. intros PT w4 ->. apply wp_ret.
  eexists _, ps, ss. cbn [fst]. split; [unfold specs_of; by rewrite length_map|]. split.
  { split; [by apply (ctx_same its j3), (lv_ctx _ _ _ L3)| |done|done|done|cbn; rewrite O3; exact R6].
    right. exists a. destruct L3 as [L1 L2 L3 L4]. split; [done..|]. by apply (ctx_same its j3). }
  split; [done|]. split; [|by split].
  unfold specs_of in P3. rewrite Forall2_fmap_l in P3. eapply Forall2_impl; [exact P3|]. by intros [[pid comm] vs] p Hp.
Qed.


(** *** Without an uptime *)

(** The file is not there, as in a namespace with a /proc of processes only. *)
Definition no_uptime : Prop := forall t, let r := o t (CFopen Sysinfo.UPTIME_FILE) in r_val r < 0 /\ 0 < r_errno r.

Lemma fresh_boot_undefined i (w : world rstate) : no_uptime -> exists w', fresh_boot i o w = Undef w'.
Proof.
  intros H. destruct (H (w_tr w)) as [H1 H2]. unfold fresh_boot, Sysinfo.procps_uptime, mbind, M_bind, sys.
  set (r := o (w_tr w) _) in *. assert ((r_val r <? 0) = true) as -> by (apply Z.ltb_lt, H1). unfold get_errno.
  cbn [mret M_ret w_errno]. destruct (Z.leb_spec (- r_errno r) 0); [by eexists|lia].
Qed.

Lemma bind_undef {A B} (m : R A) (f : A -> R B) (w : world rstate) : (exists w', m o w = Undef w') ->
  exists w', (m ≫= f) o w = Undef w'.
Proof. unfold mbind, M_bind. intros [w' ->]. by eexists. Qed.
Lemma bind_done {A B} (m : R A) (f : A -> R B) (w : world rstate) a w1 : m o w = Done a w1 ->
  (exists w', f a o w1 = Undef w') -> exists w', (m ≫= f) o w = Undef w'.
Proof. unfold mbind, M_bind. by intros ->. Qed.

(** A reap (and with it a get and a select) has undefined behaviour where
    /proc has no uptime file, the case its comment mentions: the test of the
    value returned holds for failures too, so that a variable nothing was
    stored in becomes the time since the boot. *)
Theorem reap_without_uptime its i l w : ready its i -> opens (rp l) -> no_uptime ->
  exists w', procps_pids_reap cs enc getpwuid getgrgid fuel (Some i) 0 l o w = Undef w'.
Proof.
  intros Hr Ho Hn. unfold procps_pids_reap. eapply bind_done; [reflexivity|]. cbn [Z.eqb orb negb].
  destruct (Z.eqb_spec (curitems i) 0) as [E|_]; [rewrite (cx_cur _ _ (ry_ctx _ _ Hr)) in E; lia|].
  eapply bind_done; [reflexivity|]. apply bind_undef. unfold harvest. rewrite (ry_closed _ _ Hr). cbn [pids_oldproc_open w_tr w_g].
  destruct (wp_done _ _ _ _ (openproc_ok (oldflags i) (rp l) (World (w_tr w) 0 (w_g w)) Ho (ry_flags _ _ Hr) ltac:(done)))
    as ([PT st] & w1 & E & T & ET & _). cbn [fst] in ET. subst PT.
  eapply bind_done; [unfold mbind at 1, M_bind at 1; rewrite E; reflexivity|]. cbn [Pidhist.is_none negb].
  apply bind_undef. by apply fresh_boot_undefined.
Qed.
End system.

(** ** A new context *)

Lemma items_good its : its <> [] -> Forall simple_item its -> items_bad (length its) its = Some false.
Proof.
  intros _. induction 1 as [|it its [[H1 H2] _] _ IH]; [done|]. cbn [items_bad length].
  destruct (Z.ltb_spec it 0); [lia|]. destruct (Z.leb_spec PIDS_logical_end it); [lia|]. exact IH.
Qed.

(** The flags and the need of history of the items. *)
Definition item_flags (its : list Z) : option (Z * Z) := flags_loop (S (length its)) (its ++ [PIDS_logical_end]) 0 0.

Lemma procps_pids_new_ready so so1 o addr its fl l (w : world rstate) : Fetch.memory o -> its <> [] ->
  Forall simple_item its -> 32768 <= addr -> item_flags its = Some (fl, 0) -> stat_only (resolve_either fl) ->
  wp (procps_pids_new so so1 None (Some (addr, its)) (Z.of_nat (length its)) l) o w (fun r w' => exists i,
    r.1 = (0, Some i) /\ ready its i /\ rp r.2 = rp l /\ w_g w' = w_g w /\
    forall d, readdirs d (w_tr w') = readdirs d (w_tr w)).
Proof.
  intros Hm Hne Hs Ha Hfl Hst. cbn [procps_pids_new]. wstep. eapply wp_mono; [by apply wp_malloc|]. intros r1 w1 [-> M1].
  wstep. unfold new_items. assert (1 <= Z.of_nat (length its)) by (destruct its; [by destruct Hne|cbn [length]; lia]).
  destruct (Z.eqb_spec (Z.of_nat (length its)) 0); [lia|]. unfold pids_items_check_failed.
  destruct (Z.ltb_spec (Z.of_nat (length its)) 1); [lia|]. destruct (Z.ltb_spec addr 32768); [lia|]. cbn [orb].
  rewrite Nat2Z.id, (items_good its) by done. cbn [deref]. wstep. apply wp_ret. wstep.
  eapply wp_mono; [by apply wp_malloc|]. intros r2 w2 [-> M2]. rewrite take_ge by lia. cbn zeta.
  unfold pids_libflags_set. cbn [curitems items set_items mbind option_bind].
  destruct (Z.ltb_spec (Z.of_nat (length its) + 1) 1); [lia|].
  replace (Z.to_nat (Z.of_nat (length its) + 1)) with (S (length its)) by lia.
  unfold item_flags in Hfl. rewrite Hfl. cbn [mbind option_bind deref]. wstep. apply wp_ret. apply wp_ret.
  wstep. eapply wp_mono; [by apply wp_malloc|]. intros r3 w3 [-> M3].
  wstep. eapply wp_mono; [by apply wp_malloc|]. intros r4 w4 [-> M4].
  wstep. eapply wp_mono; [by apply wp_malloc|]. intros r5 w5 [-> M5].
  wstep. wsys pg Hpg. wstep. unfold Sysinfo.procps_hertz_get. wstep. wsys hz Hhz. apply wp_ret. apply wp_ret.
  eexists. split; [reflexivity|]. split.
  { split; [|by left|done|done|done|done]. split; [|done|done|constructor].
    exists []. split; [done|]. cbn. rewrite length_app. cbn. lia. }
  split; [done|].
  assert (M : mem_only w w5) by (repeat (eapply mem_only_trans; [eassumption|]); done). destruct M as (G & _ & _ & D).
  by split.
Qed.

(** ** A system with two processes *)

Definition reap_os : os := fun t c =>
  match c with
  | COpendir _ => rok 5
  | CGetenv _ => rerr 2
  | CFopen _ => rok 7
  | CNewlocale => rok 1
  | CFscan _ => rdata 0 (Sysinfo.uptime_line 350 25 100 0)
  | CGetpagesize => rok 4096
  | CSysconf _ => rok 100
  | _ => demo_os t c
  end.

Lemma reap_system : ProcSystem reap_os demo_fs demo_sts 5 0 (map entry_name demo_entries).
Proof.
  destruct demo_system as [H1 H2 H3 H4 H5]. split; [|done| |done|done].
  - destruct H1 as [F1 F2]. by split.
  - intros t c. destruct c; try done; apply (H3 t _).
Qed.

(** ID_PID, CMD, STATE, TIME_START and CMD again. *)
Definition reap_items : list Z := [36; 12; 118; 135; 12].

Lemma reap_setters : setsfunc 36 = Some (SReg s_int p_tid) /\ setsfunc 12 = Some (SStr "CMD" p_cmd) /\
  setsfunc 118 = Some (SReg s_ch p_state) /\ setsfunc 135 = Some STimeStart.
Proof. repeat split; vm_compute; reflexivity. Qed.

Lemma reap_items_simple : Forall simple_item reap_items.
Proof.
  destruct reap_setters as (F1 & F2 & F3 & F4).
  assert (H : forall it f, setsfunc it = Some f -> simple f = true -> (0 <=? it) && (it <? PIDS_logical_end) = true -> simple_item it).
  { intros it f Hf Hs Hb. apply andb_true_iff in Hb as [?%Z.leb_le ?%Z.ltb_lt]. split; [split; assumption|]. exists f. split; assumption. }
  repeat (apply Forall_cons; split); [eapply H; [eassumption|done|vm_compute; reflexivity]..|constructor].
Qed.

Definition reap_lib : lib := Lib statics_init Devname.Unloaded Numa.nstart proc_zero.

(** What such a stack shows. *)
Lemma reap_items_show e p s : shows e reap_items p s -> Procdata.str p p_cmd <> None ->
  member s_int (val_at 0 s) = i32 (num p p_tid) /\
  Some (val_at 1 s) = PStr <$> Procdata.str p p_cmd /\
  member s_ch (val_at 2 s) = wrap_s 8 (num p p_state) /\
  val_at 3 s = PReal (time_start e p) /\ val_at 4 s = PStr (duplicate "CMD").
Proof.
  destruct reap_setters as (F1 & F2 & F3 & F4).
  intros H Hc. unfold reap_items in H. destruct s as [|r0 s]; [destruct H|]. cbn [shows] in H.
  destruct H as (_ & f & E & D0 & H). rewrite F1 in E. injection E as <-. cbn [displays after] in *.
  destruct s as [|r1 s]; [destruct H|]. destruct H as (_ & f & E & D1 & H). rewrite F2 in E. injection E as <-. cbn [displays after] in *.
  destruct (Procdata.str p p_cmd) as [t|] eqn:Et; [|by destruct Hc].
  destruct s as [|r2 s]; [destruct H|]. destruct H as (_ & f & E & D2 & H). rewrite F3 in E. injection E as <-. cbn [displays after] in *.
  destruct s as [|r3 s]; [destruct H|]. destruct H as (_ & f & E & D3 & H). rewrite F4 in E. injection E as <-. cbn [displays after] in *.
  destruct s as [|r4 s]; [destruct H|]. destruct H as (_ & f & E & D4 & H). rewrite F2 in E. injection E as <-. cbn [displays after] in *.
  unfold val_at. cbn [lookup list_lookup from_option]. split; [exact D0|]. split; [by rewrite D1|]. split; [exact D2|].
  split; [exact D3|]. exact D4.
Qed.

Lemma reap_items_some : reap_items <> [].
Proof. done. Qed.
Lemma reap_addr : 32768 <= 65536.
Proof. lia. Qed.
Lemma reap_flags : item_flags reap_items = Some (268435520, 0).
Proof. vm_compute. reflexivity. Qed.
Lemma reap_opens : opens reap_os 5 statics_init.
Proof. split; [done|]. split; [lia|]. by right. Qed.
Lemma reap_uptime : Sysinfo.uptime_file reap_os 7 (Sysinfo.uptime_line 350 25 100 0).
Proof. split; [lia|]. split; [reflexivity|]. split; [|reflexivity]. intros t. cbn [reap_os r_val rok]. lia. Qed.

(** The same system without the file. *)
Definition bare_os : os := fun t c => match c with CFopen _ => rerr 2 | _ => reap_os t c end.

Lemma bare_system : ProcSystem bare_os demo_fs demo_sts 5 0 (map entry_name demo_entries).
Proof.
  destruct reap_system as [H1 H2 H3 H4 H5]. split; [|done| |done|done].
  - destruct H1 as [F1 F2]. by split.
  - intros t c. destruct c; try done; apply (H3 t _).
Qed.

Lemma reap_without_uptime_witness : exists i l1 w1 w',
  procps_pids_new None None None (Some (65536, reap_items)) 5 reap_lib bare_os sample_world = Done (0, Some i, l1) w1 /\
  procps_pids_reap true None (fun _ => None) (fun _ => None) 400 (Some i) 0 l1 bare_os w1 = Undef w'.
Proof.
  destruct (wp_done _ _ _ _ (procps_pids_new_ready None None bare_os 65536 reap_items 268435520 reap_lib sample_world
    (ps_memory _ _ _ _ _ _ bare_system) reap_items_some reap_items_simple reap_addr reap_flags
    (or_intror eq_refl))) as ([[rc i0] l1] & w1 & E1 & i & Ei & Hr & Hrp & Hg & Hd). cbn [fst snd] in *. injection Ei as -> ->.
  assert (Hop : opens bare_os 5 (rp l1)) by (rewrite Hrp; exact reap_opens).
  destruct (reap_without_uptime true None (fun _ => None) (fun _ => None) 400 bare_os demo_fs demo_sts 5 0
    (map entry_name demo_entries) bare_system reap_items i l1 w1 Hr Hop ltac:(intros t; cbn [bare_os rerr r_val r_errno]; lia))
    as [w' E2].
  exists i, l1, w1, w'. split; [exact E1|exact E2].
Defined.

End Pidscan.
