(* ===== verification/Vmcmd.v ===== *)
(** * procps/linux/vmstat.c: the vmstat command

    The command reads its options into static variables and runs one of six
    reports, which repeat themselves at an interval.  A report is a computation
    over those variables and the contexts of the statistics modules (Meminfo,
    Vmstat, Stat, Diskstats, Slabinfo), called as the source calls them; one
    [printf] is one write to the standard output.  Where the arguments of a
    [printf] make calls, they are evaluated from left to right, one of the
    orders the language allows.  Locale and buffering calls ([setlocale],
    [setlinebuf], [fflush]) have no effect here; the messages are those of the
    source, since the build does not enable translations. *)

From stdpp Require Import base numbers list strings.
From S2P Require Import Prelude Libc Posix Utils Stacks Fetch Real Sysinfo Keyfile Meminfo Vmstat Diskstats Slabinfo Stat.
Open Scope Z_scope.

Module Vmcmd.

(** ** Static variables *)

Definition UNIT_B : Z := 1.
Definition UNIT_k : Z := 1000.
Definition UNIT_K : Z := 1024.
Definition UNIT_m : Z := 1000000.
Definition UNIT_M : Z := 1048576.

Definition VMSTAT : Z := 0.
Definition DISKSTAT : Z := 1.
Definition VMSUMSTAT : Z := 2.
Definition SLABSTAT : Z := 4.
Definition PARTITIONSTAT : Z := 8.
Definition DISKSUMSTAT : Z := 16.

Definition EXIT_SUCCESS : Z := 0.
Definition EXIT_FAILURE : Z := 1.
Definition UINT_MAX : Z := 4294967295.
Definition ERANGE : Z := 34.
Definition SC_PAGESIZE : Z := 30.
Definition STDOUT_FILENO : Z := 1.
Definition TIOCGWINSZ : Z := 21523.

(** With the variables of numa.c, which stat.c loads. *)
Record vmglobals := VmGlobals {
  dataUnit : Z; szDataUnit : bytes; statMode : Z;
  a_option : bool; w_option : bool; y_option : bool; t_option : bool;
  sleep_time : Z; infinite_updates : bool; num_updates : Z;
  height : Z; moreheaders : bool; numa : Numa.nstate
}.

Definition start : vmglobals :=
  VmGlobals UNIT_K (bs "K") VMSTAT false false false false 1 false 1 0 true Numa.nstart.

Definition set_unit u c g := VmGlobals u c (statMode g) (a_option g) (w_option g) (y_option g) (t_option g) (sleep_time g) (infinite_updates g) (num_updates g) (height g) (moreheaders g) (numa g).
Definition set_mode m g := VmGlobals (dataUnit g) (szDataUnit g) m (a_option g) (w_option g) (y_option g) (t_option g) (sleep_time g) (infinite_updates g) (num_updates g) (height g) (moreheaders g) (numa g).
Definition set_a g := VmGlobals (dataUnit g) (szDataUnit g) (statMode g) true (w_option g) (y_option g) (t_option g) (sleep_time g) (infinite_updates g) (num_updates g) (height g) (moreheaders g) (numa g).
Definition set_w g := VmGlobals (dataUnit g) (szDataUnit g) (statMode g) (a_option g) true (y_option g) (t_option g) (sleep_time g) (infinite_updates g) (num_updates g) (height g) (moreheaders g) (numa g).
Definition set_y g := VmGlobals (dataUnit g) (szDataUnit g) (statMode g) (a_option g) (w_option g) true (t_option g) (sleep_time g) (infinite_updates g) (num_updates g) (height g) (moreheaders g) (numa g).
Definition set_t g := VmGlobals (dataUnit g) (szDataUnit g) (statMode g) (a_option g) (w_option g) (y_option g) true (sleep_time g) (infinite_updates g) (num_updates g) (height g) (moreheaders g) (numa g).
Definition set_times s i n g := VmGlobals (dataUnit g) (szDataUnit g) (statMode g) (a_option g) (w_option g) (y_option g) (t_option g) s i n (height g) (moreheaders g) (numa g).
Definition set_height h g := VmGlobals (dataUnit g) (szDataUnit g) (statMode g) (a_option g) (w_option g) (y_option g) (t_option g) (sleep_time g) (infinite_updates g) (num_updates g) h (moreheaders g) (numa g).
Definition set_more b g := VmGlobals (dataUnit g) (szDataUnit g) (statMode g) (a_option g) (w_option g) (y_option g) (t_option g) (sleep_time g) (infinite_updates g) (num_updates g) (height g) b (numa g).
Definition set_numa n g := VmGlobals (dataUnit g) (szDataUnit g) (statMode g) (a_option g) (w_option g) (y_option g) (t_option g) (sleep_time g) (infinite_updates g) (num_updates g) (height g) (moreheaders g) n.

Abbreviation MV := (M vmglobals).

(** A computation over a part of the static variables. *)
Definition within {G H A} (get : G -> H) (put : H -> G -> G) (m : M H A) : M G A := fun o w =>
  let back (w' : world H) := World (w_tr w') (w_errno w') (put (w_g w') (w_g w)) in
  match m o (World (w_tr w) (w_errno w) (get (w_g w))) with
  | Done a w' => Done a (back w')
  | Undef w' => Undef (back w')
  | Exit c w' => Exit c (back w')
  | NoFuel => NoFuel
  end.

(** Calls of the modules without static variables, and of stat.c. *)
Definition lib {A} (m : M unit A) : MV A := within (fun _ => tt) (fun _ g => g) m.
Definition libs {A} (m : M Numa.nstate A) : MV A := within numa set_numa m.

(** ** Item arrays *)

(** The number of an enumerator. *)
Fixpoint enum (names : list string) (n : string) : Z :=
  match names with [] => 0 | x :: l => if (x =? n)%string then 0 else 1 + enum l n end.

Definition First_stat_items : list Z := map (enum Stat.stat_item)
  ["SYS_PROC_RUNNING"; "SYS_PROC_BLOCKED"; "SYS_INTERRUPTS"; "SYS_CTX_SWITCHES"; "TIC_USER"; "TIC_NICE";
   "TIC_SYSTEM"; "TIC_IRQ"; "TIC_SOFTIRQ"; "TIC_IDLE"; "TIC_IOWAIT"; "TIC_STOLEN"; "TIC_GUEST";
   "TIC_GUEST_NICE"]%string.
Definition Loop_stat_items : list Z := map (enum Stat.stat_item)
  ["SYS_PROC_RUNNING"; "SYS_PROC_BLOCKED"; "SYS_DELTA_INTERRUPTS"; "SYS_DELTA_CTX_SWITCHES";
   "TIC_DELTA_USER"; "TIC_DELTA_NICE"; "TIC_DELTA_SYSTEM"; "TIC_DELTA_IRQ"; "TIC_DELTA_SOFTIRQ";
   "TIC_DELTA_IDLE"; "TIC_DELTA_IOWAIT"; "TIC_DELTA_STOLEN"; "TIC_DELTA_GUEST";
   "TIC_DELTA_GUEST_NICE"]%string.
Definition MAX_stat : Z := 14.

Definition Mem_items : list Z := map (enum Meminfo.meminfo_item)
  ["SWAP_USED"; "MEM_FREE"; "MEM_ACTIVE"; "MEM_INACTIVE"; "MEM_BUFFERS"; "MEM_CACHED_ALL"]%string.
Definition MAX_mem : Z := 6.

Definition Disk_items : list Z := map (enum Diskstats.diskstats_item)
  ["TYPE"; "NAME"; "READS"; "READS_MERGED"; "READ_SECTORS"; "READ_TIME"; "WRITES"; "WRITES_MERGED";
   "WRITE_SECTORS"; "WRITE_TIME"; "IO_INPROGRESS"; "IO_TIME"; "WEIGHTED_TIME"]%string.
Definition MAX_disk : Z := 13.

Definition Part_items : list Z := map (enum Diskstats.diskstats_item)
  ["READS"; "READ_SECTORS"; "WRITES"; "WRITE_SECTORS"]%string.
Definition MAX_part : Z := 4.

Definition Sum_stat_items : list Z := map (enum Stat.stat_item)
  ["TIC_USER"; "TIC_NICE"; "TIC_SYSTEM"; "TIC_IDLE"; "TIC_IOWAIT"; "TIC_IRQ"; "TIC_SOFTIRQ"; "TIC_STOLEN";
   "TIC_GUEST"; "TIC_GUEST_NICE"; "SYS_CTX_SWITCHES"; "SYS_INTERRUPTS"; "SYS_TIME_OF_BOOT";
   "SYS_PROC_CREATED"]%string.

Definition Sum_mem_items : list Z := map (enum Meminfo.meminfo_item)
  ["MEM_TOTAL"; "MEM_USED"; "MEM_ACTIVE"; "MEM_INACTIVE"; "MEM_FREE"; "MEM_BUFFERS"; "MEM_CACHED_ALL";
   "SWAP_TOTAL"; "SWAP_USED"; "SWAP_FREE"]%string.

(** The items of [slabformat]. *)
Definition node_items : list Z := map (enum Slabinfo.slabinfo_item)
  ["SLAB_ACTIVE_OBJS"; "SLAB_NUM_OBJS"; "SLAB_OBJ_SIZE"; "SLAB_OBJ_PER_SLAB"; "SLAB_NAME"]%string.
Definition SLAB_NAME : Z := enum Slabinfo.slabinfo_item "SLAB_NAME".
Definition SLABINFO_SORT_ASCEND : Z := 1.

Definition DISKSTATS_TYPE : Z := enum Diskstats.diskstats_item "TYPE".
Definition VMSTAT_PGPGIN : Z := enum Vmstat.vmstat_item "PGPGIN".
Definition VMSTAT_PGPGOUT : Z := enum Vmstat.vmstat_item "PGPGOUT".
Definition VMSTAT_PSWPIN : Z := enum Vmstat.vmstat_item "PSWPIN".
Definition VMSTAT_PSWPOUT : Z := enum Vmstat.vmstat_item "PSWPOUT".
Definition STAT_SYS_PROC_CREATED : Z := enum Stat.stat_item "SYS_PROC_CREATED".

(** ** Arithmetic *)

(** [long long] operations, undefined outside its range. *)
Definition ll (x : Z) : option Z := if (LONG_MIN <=? x) && (x <=? LONG_MAX) then Some x else None.
(** The same of [int]. *)
Definition int (x : Z) : option Z := if (INT_MIN <=? x) && (x <=? INT_MAX) then Some x else None.

(** [(unsigned long) x] of a [float]. *)
Definition to_ulong (x : Z) : option Z :=
  let n := Z.quot x Real.one in if (0 <=? n) && (n <=? ULONG_MAX) then Some n else None.

Definition unitConvert (g : vmglobals) (size : Z) : option Z :=
  to_ulong (Real.fmulf (Real.fdivf (Real.of_intf size) (Real.of_intf (dataUnit g)))
              (Real.of_intf (if statMode g =? SLABSTAT then 1 else 1024))).

(** The processor times of a line. *)
Record cpu := Cpu { cpu_use : Z; cpu_sys : Z; cpu_idl : Z; cpu_iow : Z; cpu_sto : Z; cpu_gue : Z }.

(** Sums of [unsigned long long], stored in [long long]. *)
Definition first_cpu (s : stack) : option cpu :=
  match map (fun r => get_ul_int (r_result r)) s with
  | _ :: _ :: _ :: _ :: usr :: nic :: sys :: irq :: srq :: idl :: iow :: sto :: gst :: gni :: _ =>
      Some (Cpu (i64 (usr + nic)) (i64 (sys + irq + srq)) (i64 idl) (i64 iow) (i64 sto) (i64 (gst + gni)))
  | _ => None
  end.

(** Sums of [long], but for the guest times. *)
Definition loop_cpu (s : stack) : option cpu :=
  match map (fun r => (get_sl_int (r_result r), get_ul_int (r_result r))) s with
  | _ :: _ :: _ :: _ :: usr :: nic :: sys :: irq :: srq :: idl :: iow :: sto :: gst :: gni :: _ =>
      use ← ll (usr.1 + nic.1); a ← ll (sys.1 + irq.1); b ← ll (a + srq.1);
      Some (Cpu use b idl.1 iow.1 sto.1 (i64 (gst.2 + gni.2)))
  | _ => None
  end.

(** Idle time that runs backwards is kept as a debt. *)
Definition idle_debt (debt idl : Z) : option (Z * Z) :=
  idl ← (if negb (debt =? 0) then int (i32 idl + debt) else Some idl);
  Some (if i32 idl <? 0 then (i32 idl, 0) else (0, idl)).

Definition with_idle (c : cpu) (idl : Z) : cpu := Cpu (cpu_use c) (cpu_sys c) idl (cpu_iow c) (cpu_sto c) (cpu_gue c).

(** [Div], never 0, its half, and the times with guest time taken out of user
    time. *)
Definition settle (c : cpu) : option (cpu * Z * Z) :=
  a ← ll (cpu_use c + cpu_sys c); b ← ll (a + cpu_idl c); d ← ll (b + cpu_iow c); d ← ll (d + cpu_sto c);
  let '(d, idl) := if d =? 0 then (1, 1) else (d, cpu_idl c) in
  use ← (if cpu_gue c <=? cpu_use c then ll (cpu_use c - cpu_gue c) else Some 0);
  Some (Cpu use (cpu_sys c) idl (cpu_iow c) (cpu_sto c) (cpu_gue c), d, u64 d / 2).

Definition percent (d half x : Z) : option Z :=
  a ← ll (100 * x); b ← ll (a + half); q ← ll (Z.quot b d); Some (u32 q).

Definition cpu_columns (c : cpu) (d half : Z) : option (list Z) :=
  mapM (percent d half) [cpu_use c; cpu_sys c; cpu_idl c; cpu_iow c; cpu_sto c; cpu_gue c].

(** The processor columns of the main loop, with the debt of idle time that is
    left. *)
Definition loop_cpus (debt : Z) (s : stack) : option (list Z * Z) :=
  c ← loop_cpu s; '(debt, idl) ← idle_debt debt (cpu_idl c); '(c, d, half) ← settle (with_idle c idl);
  cs ← cpu_columns c d half; Some (cs, debt).

(** Rates since boot, in unsigned arithmetic, and over an interval. *)
Definition rate_first (hz d half v : Z) : Z := u32 (u64 (u64 (v * hz) + half) / u64 d).
Definition rate_loop (secs v : Z) : option Z :=
  if secs =? 0 then None else Some (u32 (u64 (v + secs / 2) / secs)).
Definition rate_int (secs v : Z) : option Z :=
  if secs =? 0 then None else Some (u32 (v + secs / 2) / secs).

(** ** Text *)

Definition padl (w : nat) (s : bytes) : bytes := replicate (w - length s) 32 ++ s.
Definition padr (w : nat) (s : bytes) : bytes := s ++ replicate (w - length s) 32.

(** A format of right-aligned fields separated by blanks; further arguments are
    ignored. *)
Fixpoint fields (ws : list nat) (cols : list bytes) : bytes :=
  match ws, cols with
  | [w], c :: _ => padl w c
  | w :: ws, c :: cols => padl w c ++ 32 :: fields ws cols
  | _, _ => []
  end.

Definition widths (wide : bool) : list nat :=
  (if wide then [4; 4; 12; 12; 12; 12; 4; 4; 5; 5; 4; 4; 3; 3; 3; 3; 3; 3]
   else [2; 2; 6; 6; 6; 6; 4; 4; 5; 5; 4; 4; 2; 2; 2; 2; 2])%nat.

Definition disk_widths (wide : bool) : list nat :=
  (if wide then [9; 9; 11; 11; 9; 9; 11; 11; 7; 7] else [6; 6; 7; 7; 6; 6; 7; 7; 6; 6])%nat.

Definition newline : bytes := [10].

Section vmstat.
(** [program_invocation_short_name]. *)
Variable progname : bytes.
(** [strftime] of the [localtime] of a time, into 32 bytes; [None] when either
    fails. *)
Variable strftime : bytes -> Z -> option bytes.
Variable strerror : Z -> bytes.
(** The parameters of the statistics modules. *)
Variable garbage : nat -> Stat.hist_tic.
Variables so so1 : option Numa.libnuma.
Variable page_size : Z.
Variable qsort : (stack -> stack -> Z) -> list stack -> list stack.
Variable strcoll : bytes -> bytes -> Z.
(** The addresses of the item arrays. *)
Variable array : string -> Z.
(** The fuel of the loops of the statistics modules. *)
Variable fuel : nat.

Definition xerrx {A} (msg : bytes) : MV A :=
  _ ← stderr (progname ++ bs ": " ++ msg ++ newline); exit_now EXIT_FAILURE.

(** A statement under a condition. *)
Definition when (b : bool) (m : MV unit) : MV unit := if b then m else mret tt.

Definition put_all (out : bytes -> MV unit) : list bytes -> MV unit :=
  fix go l := match l with [] => mret tt | s :: l => _ ← out s; go l end.

Definition usage_text : list bytes :=
  [newline ++ bs "Usage:" ++ newline; bs " " ++ progname ++ bs " [options] [delay [count]]" ++ newline;
   newline ++ bs "Options:" ++ newline;
   bs " -a, --active           active/inactive memory" ++ newline;
   bs " -f, --forks            number of forks since boot" ++ newline;
   bs " -m, --slabs            slabinfo" ++ newline;
   bs " -n, --one-header       do not redisplay header" ++ newline;
   bs " -s, --stats            event counter statistics" ++ newline;
   bs " -d, --disk             disk statistics" ++ newline;
   bs " -D, --disk-sum         summarize disk statistics" ++ newline;
   bs " -p, --partition <dev>  partition specific statistics" ++ newline;
   bs " -S, --unit <char>      define display unit" ++ newline;
   bs " -w, --wide             wide output" ++ newline;
   bs " -t, --timestamp        show timestamp" ++ newline;
   bs " -y, --no-first         skips first line of output" ++ newline;
   newline; bs " -h, --help     display this help and exit" ++ newline;
   bs " -V, --version  output version information and exit" ++ newline;
   newline ++ bs "For more details see vmstat(8)." ++ newline].

Definition usage {A} (to_stderr : bool) : MV A :=
  _ ← put_all (if to_stderr then stderr else stdout) usage_text;
  exit_now (if to_stderr then EXIT_FAILURE else EXIT_SUCCESS).

(** *** Headers *)

Definition timestamp_header : bytes := bs " -----timestamp-----".

(** The time zone, cut to the width of its column. *)
Definition zone : MV bytes :=
  t ← sys CTime;
  mret (match strftime (bs "%Z") (r_val t) with
        | Some s => take (length timestamp_header - 1) s
        | None => []
        end).

Definition date : MV bytes :=
  t ← sys CTime; mret (default [] (strftime (bs "%Y-%m-%d %H:%M:%S") (r_val t))).

(** The two lines of a header with its titles. *)
Definition header_lines (top : bytes) (titles : bytes) : MV unit :=
  g ← getg;
  _ ← stdout top;
  _ ← when (t_option g) (stdout timestamp_header);
  _ ← stdout newline;
  _ ← stdout titles;
  _ ← when (t_option g) (z ← zone; stdout (32 :: padl (length timestamp_header - 1) z));
  stdout newline.

Definition new_header : MV unit :=
  g ← getg;
  header_lines
    (bs (if w_option g
         then "--procs-- -----------------------memory---------------------- ---swap-- -----io---- -system-- ----------cpu----------"
         else "procs -----------memory---------- ---swap-- -----io---- -system-- ------cpu-----"))
    (fields (widths (w_option g)) (map bs
       ["r"; "b"; "swpd"; "free"; if a_option g then "inact" else "buff"; if a_option g then "active" else "cache";
        "si"; "so"; "bi"; "bo"; "in"; "cs"; "us"; "sy"; "id"; "wa"; "st"; "gu"]%string)).

Definition diskheader : MV unit :=
  g ← getg;
  header_lines
    (bs (if w_option g
         then "disk- -------------------reads------------------- -------------------writes------------------ ------IO-------"
         else "disk- ------------reads------------ ------------writes----------- -----IO------"))
    (padl 5 (bs " ") ++ 32 :: fields (disk_widths (w_option g)) (map bs
       ["total"; "merged"; "sectors"; "ms"; "total"; "merged"; "sectors"; "ms"; "cur"; "sec"]%string)).

Definition diskpartition_header (partition_name : bytes) : MV unit :=
  stdout (padr 10 partition_name ++ bs " " ++ padl 10 (bs "reads") ++ bs "  " ++ padl 16 (bs "read sectors") ++
          bs "  " ++ padl 10 (bs "writes") ++ bs "  " ++ padl 16 (bs "requested writes") ++ newline).

Definition slabheader : MV unit :=
  stdout (padr 24 (bs "Cache") ++ 32 :: fields [6; 6; 6; 6]%nat (map bs ["Num"; "Total"; "Size"; "Pages"]%string) ++ newline).

(** *** Processes, memory and processor: the default report *)

(** [VMSTAT_GET], 0 when the module returns NULL. *)
Definition VMSTAT_GET (info : option Vmstat.vmstat_info) (item : Z) : MV (Z * option Vmstat.vmstat_info) :=
  '(r, info) ← lib (Vmstat.procps_vmstat_get fuel info item);
  mret (match r with Some r => get_ul_int (r_result r) | None => 0 end, info).

(** One element of each of the arrays [pgpgin], [pgpgout], [pswpin], [pswpout]. *)
Record pages := Pages { pgpgin : Z; pgpgout : Z; pswpin : Z; pswpout : Z }.

Definition get_pages (vm : option Vmstat.vmstat_info) : MV (pages * option Vmstat.vmstat_info) :=
  '(pi, vm) ← VMSTAT_GET vm VMSTAT_PGPGIN;
  '(po, vm) ← VMSTAT_GET vm VMSTAT_PGPGOUT;
  '(si, vm) ← VMSTAT_GET vm VMSTAT_PSWPIN;
  '(so, vm) ← VMSTAT_GET vm VMSTAT_PSWPOUT;
  mret (Pages pi po si so, vm).

(** The first two columns and the counters of interrupts and switches. *)
Definition proc_values (s : stack) : option (Z * Z * uval * uval) :=
  match map r_result s with
  | pru :: pbl :: int :: ctx :: _ => Some (get_ul_int pru, get_ul_int pbl, int, ctx)
  | _ => None
  end.

(** The memory columns. *)
Definition mem_columns (g : vmglobals) (mem : stack) : option (list Z) :=
  match map (fun r => get_ul_int (r_result r)) mem with
  | sus :: free :: act :: ina :: buf :: cac :: _ =>
      mapM (unitConvert g) [sus; free; if a_option g then ina else buf; if a_option g then act else cac]
  | _ => None
  end.

Definition first_rates (g : vmglobals) (kb_per_page hz d half : Z) (s : stack) (p : pages) : option (list Z) :=
  '(_, _, int, ctx) ← proc_values s;
  si ← unitConvert g (u64 (pswpin p * kb_per_page));
  so ← unitConvert g (u64 (pswpout p * kb_per_page));
  Some (map (rate_first hz d half) [si; so; pgpgin p; pgpgout p; get_ul_int int; get_ul_int ctx]).

Definition loop_rates (g : vmglobals) (kb_per_page : Z) (s : stack) (new old : pages) : option (list Z) :=
  '(_, _, int, ctx) ← proc_values s;
  si ← unitConvert g (u64 (u64 (pswpin new - pswpin old) * kb_per_page));
  so ← unitConvert g (u64 (u64 (pswpout new - pswpout old) * kb_per_page));
  page ← mapM (rate_loop (sleep_time g)) [si; so; u64 (pgpgin new - pgpgin old); u64 (pgpgout new - pgpgout old)];
  sys ← mapM (rate_int (sleep_time g)) [get_s_int int; get_s_int ctx];
  Some (page ++ sys).

(** A line: processes, memory, rates, processor. *)
Definition first_line (g : vmglobals) (kb_per_page hz : Z) (s mem : stack) (p : pages) : option (list Z) :=
  c ← first_cpu s; '(c, d, half) ← settle c;
  '(pru, pbl, _, _) ← proc_values s;
  ms ← mem_columns g mem; rs ← first_rates g kb_per_page hz d half s p; cs ← cpu_columns c d half;
  Some ([pru; pbl] ++ ms ++ rs ++ cs).

Definition loop_line (g : vmglobals) (kb_per_page debt : Z) (s mem : stack) (new old : pages) : option (list Z * Z) :=
  '(pru, pbl, _, _) ← proc_values s;
  ms ← mem_columns g mem; rs ← loop_rates g kb_per_page s new old; '(cs, debt) ← loop_cpus debt s;
  Some ([pru; pbl] ++ ms ++ rs ++ cs, debt).

(** A printed line with its time. *)
Definition put_line (cols : list Z) (time : bytes) : MV unit :=
  g ← getg;
  _ ← stdout (fields (widths (w_option g)) (map fmt_d cols));
  _ ← when (t_option g) (stdout (32 :: time));
  stdout newline.

Definition date_if_shown : MV bytes := g ← getg; if t_option g then date else mret [].

(** [procps_stat_select], with the stack its result points to. *)
Definition select_stat (st : option Stat.stat_info) (name : string) (items : list Z)
  : MV (stack * option Stat.stat_info) :=
  '(p, st) ← libs (Stat.procps_stat_select garbage fuel st (array name) items MAX_stat);
  match p with
  | None => xerrx (bs "Unable to select stat information")
  | Some p =>
      s ← deref (i ← st; load (Stat.ext_of (Stat.select_items i) (Stat.select i)) p);
      mret (s, st)
  end.

(** A header above every [height]-th line. *)
Definition header_at (i : Z) (head : MV unit) : MV unit :=
  g ← getg;
  if moreheaders g then
    if height g =? 0 then undef else when (i mod height g =? 0) head
  else mret tt.

(** The main loop of [new_format]; [old] is the last element of the arrays. *)
Fixpoint new_loop (rounds : nat) (i : Z) (kb_per_page : Z) (old : pages) (debt : Z)
    (vm : option Vmstat.vmstat_info) (st : option Stat.stat_info) (mem : stack)
  : MV (option Vmstat.vmstat_info * option Stat.stat_info) :=
  match rounds with
  | O => nofuel
  | S rounds =>
      g ← getg;
      if negb (infinite_updates g || (i <? num_updates g)) then mret (vm, st) else
      _ ← sys (CSleep (sleep_time g));
      _ ← header_at i new_header;
      '(s, st) ← select_stat st "Loop_stat_items" Loop_stat_items;
      '(new, vm) ← get_pages vm;
      time ← date_if_shown;
      '(cols, debt) ← deref (loop_line g kb_per_page debt s mem new old);
      _ ← put_line cols time;
      new_loop rounds (u32 (i + 1)) kb_per_page new debt vm st mem
  end.

(** The line for the time since boot. *)
Definition first_format (kb_per_page hz : Z) (vm : option Vmstat.vmstat_info) (st : option Stat.stat_info) (mem : stack)
  : MV (option Vmstat.vmstat_info * option Stat.stat_info) :=
  g ← getg;
  time ← date_if_shown;
  '(s, st) ← select_stat st "First_stat_items" First_stat_items;
  '(si, vm) ← VMSTAT_GET vm VMSTAT_PSWPIN;
  '(so, vm) ← VMSTAT_GET vm VMSTAT_PSWPOUT;
  '(pi, vm) ← VMSTAT_GET vm VMSTAT_PGPGIN;
  '(po, vm) ← VMSTAT_GET vm VMSTAT_PGPGOUT;
  cols ← deref (first_line g kb_per_page hz s mem (Pages pi po si so));
  _ ← put_line cols time;
  mret (vm, st).

Definition new_format (rounds : nat) : MV unit :=
  pg ← sys (CSysconf SC_PAGESIZE);
  let kb_per_page := u64 (r_val pg) / 1024 in
  hz ← Sysinfo.procps_hertz_get;
  '(rc, vm) ← lib (Vmstat.procps_vmstat_new fuel None);
  if rc <? 0 then xerrx (bs "Unable to create vmstat structure") else
  '(rc, st) ← libs (Stat.procps_stat_new garbage so so1 fuel None);
  if rc <? 0 then xerrx (bs "Unable to create system stat structure") else
  '(rc, mi) ← lib (Meminfo.procps_meminfo_new fuel None);
  if rc <? 0 then xerrx (bs "Unable to create meminfo structure") else
  _ ← new_header;
  '(old, vm) ← get_pages vm;
  '(mem, mi) ← lib (Meminfo.procps_meminfo_select fuel mi (array "Mem_items") Mem_items MAX_mem);
  match mem with
  | None => xerrx (bs "Unable to select memory information")
  | Some mem =>
      g ← getg;
      '(vm, st) ← (if negb (y_option g) then first_format kb_per_page hz vm st mem
                   else _ ← modg (fun g => set_times (sleep_time g) (infinite_updates g) (u64 (num_updates g + 1)) g);
                        mret (vm, st));
      '(vm, st) ← new_loop rounds 1 kb_per_page old 0 vm st mem;
      _ ← libs (Stat.procps_stat_unref st);
      _ ← lib (Vmstat.procps_vmstat_unref vm);
      _ ← lib (Meminfo.procps_meminfo_unref mi);
      mret tt
  end.

(** *** Disks, partitions and slabs *)

(** [for (i = 0; infinite_updates || i < num_updates; i++)] with an [int]
    counter, and the sleep between two rounds; the body hands its context on. *)
Fixpoint updates {I} (body : I -> MV I) (rounds : nat) (i : Z) (info : I) : MV I :=
  match rounds with
  | O => nofuel
  | S rounds =>
      g ← getg;
      if negb (infinite_updates g || (i <? num_updates g)) then mret info else
      info ← body info;
      if negb (infinite_updates g) && (i =? INT_MAX) then undef else
      _ ← when (infinite_updates g || (i + 1 <? num_updates g)) (_ ← sys (CSleep (sleep_time g)); mret tt);
      if i =? INT_MAX then undef else updates body rounds (i + 1) info
  end.

(** [reap->stacks[j]] *)
Definition disk_stack (info : Diskstats.diskstats_info) (j : nat) : option stack :=
  st ← f_stacks (Diskstats.fetch info); p ← st !! j; p ← p; load (Diskstats.fetch_ext info) p.

Definition partition_line (s : stack) : option bytes :=
  match map (fun r => fmt_d (get_ul_int (r_result r))) s with
  | read :: read_sect :: write :: write_sect :: _ =>
      Some (padl 21 read ++ bs "  " ++ padl 16 read_sect ++ bs "  " ++ padl 10 write ++ bs "  " ++ padl 16 write_sect ++ newline)
  | _ => None
  end.

Definition not_found (partition_name : bytes) : bytes := bs "Disk/Partition " ++ partition_name ++ bs " not found".

Definition diskpartition_format (rounds : nat) (partition_name : bytes) : MV unit :=
  '(rc, info) ← lib (Diskstats.procps_diskstats_new fuel None);
  if rc <? 0 then xerrx (bs "Unable to create diskstat structure") else
  '(got, info) ← lib (Diskstats.procps_diskstats_get fuel info partition_name DISKSTATS_TYPE);
  match got with
  | None => xerrx (not_found partition_name)
  | Some _ =>
      _ ← diskpartition_header partition_name;
      info ← updates (fun info =>
          '(s, info) ← lib (Diskstats.procps_diskstats_select fuel info partition_name (array "Part_items") Part_items MAX_part);
          match s with
          | None => xerrx (not_found partition_name)
          | Some s => l ← deref (partition_line s); _ ← stdout l; mret info
          end) rounds 0 info;
      _ ← lib (Diskstats.procps_diskstats_unref info);
      mret tt
  end.

(** The values of a disk. *)
Record disk := Disk {
  disk_TYPE : Z; disk_NAME : bytes;
  disk_READ : Z; disk_READ_MERGE : Z; disk_READ_SECT : Z; disk_READ_TIME : Z;
  disk_WRITE : Z; disk_WRITE_MERGE : Z; disk_WRITE_SECT : Z; disk_WRITE_TIME : Z;
  disk_IO : Z; disk_IO_TIME : Z; disk_IO_WTIME : Z
}.

Definition disk_of (s : stack) : option disk :=
  match map r_result s with
  | ty :: nm :: r :: rm :: rs :: rt :: w :: wm :: ws :: wt :: io :: iot :: iow :: _ =>
      Some (Disk (get_s_int ty) (get_str nm) (get_ul_int r) (get_ul_int rm) (get_ul_int rs) (get_ul_int rt)
              (get_ul_int w) (get_ul_int wm) (get_ul_int ws) (get_ul_int wt)
              (get_s_int io) (get_ul_int iot) (get_ul_int iow))
  | _ => None
  end.

Definition is_disk (d : disk) : bool := disk_TYPE d =? Diskstats.DISKSTATS_TYPE_DISK.

Definition disk_line (wide : bool) (d : disk) : bytes :=
  padr 5 (disk_NAME d) ++ 32 :: fields (disk_widths wide) (map fmt_d
    [disk_READ d; disk_READ_MERGE d; disk_READ_SECT d; disk_READ_TIME d;
     disk_WRITE d; disk_WRITE_MERGE d; disk_WRITE_SECT d; disk_WRITE_TIME d;
     Z.quot (disk_IO d) 1000; disk_IO_TIME d / 1000]).

(** The lines of the devices from the [j]-th on. *)
Fixpoint disk_lines (n : nat) (j : nat) (info : Diskstats.diskstats_info) (time : bytes) : MV unit :=
  match n with
  | O => mret tt
  | S n =>
      s ← deref (disk_stack info j);
      d ← deref (disk_of s);
      _ ← (if negb (is_disk d) then mret tt else
           _ ← header_at (Z.of_nat j) diskheader;
           g ← getg;
           _ ← stdout (disk_line (w_option g) d);
           stdout (if t_option g then 32 :: time ++ newline else newline));
      disk_lines n (S j) info time
  end.

Definition reap_disks (info : option Diskstats.diskstats_info)
  : MV (Diskstats.diskstats_info * option Diskstats.diskstats_info) :=
  '(ok, info) ← lib (Diskstats.procps_diskstats_reap fuel info (array "Disk_items") Disk_items MAX_disk);
  if negb ok then xerrx (bs "Unable to retrieve disk statistics") else
  i ← deref info; mret (i, info).

Definition diskformat (rounds : nat) : MV unit :=
  '(rc, info) ← lib (Diskstats.procps_diskstats_new fuel None);
  if rc <? 0 then xerrx (bs "Unable to create diskstat structure") else
  g ← getg;
  _ ← when (negb (moreheaders g)) diskheader;
  info ← updates (fun info =>
      '(i, info) ← reap_disks info;
      time ← date_if_shown;
      _ ← disk_lines (Z.to_nat (f_total (Diskstats.fetch i))) 0 i time;
      mret info) rounds 0 info;
  _ ← lib (Diskstats.procps_diskstats_unref info);
  mret tt.

(** [reaped->stacks[0..total]] *)
Definition slab_stacks (info : Slabinfo.slabinfo_info) : option (list stack) :=
  st ← f_stacks (Slabinfo.fetch info);
  mapM (fun p => p ← p; load (Slabinfo.fetch_ext info) p) (take (Z.to_nat (f_total (Slabinfo.fetch info))) st).

Definition slab_line (s : stack) : option bytes :=
  match map r_result s with
  | aobjs :: objs :: osize :: ops :: name :: _ =>
      Some (padr 24 (take 24 (get_str name)) ++ 32 :: fields [6; 6; 6; 6]%nat
              (map (fun u => fmt_d (get_u_int u)) [aobjs; objs; osize; ops]) ++ newline)
  | _ => None
  end.

Fixpoint put_slabs (j : Z) (stacks : list stack) : MV unit :=
  match stacks with
  | [] => mret tt
  | p :: stacks => _ ← header_at j slabheader; l ← deref (slab_line p); _ ← stdout l; put_slabs (j + 1) stacks
  end.

(** The sorted pointers are read before the context is used again. *)
Definition slabformat (rounds : nat) : MV unit :=
  '(rc, info) ← lib (Slabinfo.procps_slabinfo_new page_size fuel None);
  if rc <? 0 then xerrx (bs "Unable to create slabinfo structure") else
  g ← getg;
  _ ← when (negb (moreheaders g)) slabheader;
  info ← updates (fun info =>
      '(ok, info) ← lib (Slabinfo.procps_slabinfo_reap page_size fuel info (array "node_items") node_items 5);
      if negb ok then xerrx (bs "Unable to get slabinfo node data") else
      i ← deref info;
      stacks ← deref (slab_stacks i);
      sorted ← deref (Slabinfo.procps_slabinfo_sort qsort strcoll stacks SLAB_NAME SLABINFO_SORT_ASCEND);
      match sorted with
      | None => xerrx (bs "Unable to sort slab nodes")
      | Some sorted => _ ← put_slabs 0 sorted; mret info
      end) rounds 0 info;
  _ ← lib (Slabinfo.procps_slabinfo_unref info);
  mret tt.

(** *** Summaries *)

(** The counters of [disksum_format]. *)
Record disk_sums := DiskSums {
  disk_count : Z; part_count : Z;
  reads : Z; merged_reads : Z; read_sectors : Z; milli_reading : Z;
  writes : Z; merged_writes : Z; written_sectors : Z; milli_writing : Z;
  inprogress_IO : Z; milli_spent_IO : Z; weighted_milli_spent_IO : Z
}.

Definition no_disks : disk_sums := DiskSums 0 0 0 0 0 0 0 0 0 0 0 0 0.

(** One device; [None] when an [int] counter overflows. *)
Definition add_disk (s : disk_sums) (d : disk) : option disk_sums :=
  if negb (is_disk d) then
    n ← int (part_count s + 1);
    Some (DiskSums (disk_count s) n (reads s) (merged_reads s) (read_sectors s) (milli_reading s) (writes s)
            (merged_writes s) (written_sectors s) (milli_writing s) (inprogress_IO s) (milli_spent_IO s)
            (weighted_milli_spent_IO s))
  else
    n ← int (disk_count s + 1);
    Some (DiskSums n (part_count s) (u64 (reads s + disk_READ d)) (u64 (merged_reads s + disk_READ_MERGE d))
            (u64 (read_sectors s + disk_READ_SECT d)) (u64 (milli_reading s + disk_READ_TIME d))
            (u64 (writes s + disk_WRITE d)) (u64 (merged_writes s + disk_WRITE_MERGE d))
            (u64 (written_sectors s + disk_WRITE_SECT d)) (u64 (milli_writing s + disk_WRITE_TIME d))
            (u64 (inprogress_IO s + Z.quot (disk_IO d) 1000)) (u64 (milli_spent_IO s + disk_IO_TIME d / 1000))
            (u64 (weighted_milli_spent_IO s + disk_IO_WTIME d / 1000))).

Fixpoint sum_disks (n : nat) (j : nat) (info : Diskstats.diskstats_info) (s : disk_sums) : option disk_sums :=
  match n with
  | O => Some s
  | S n => st ← disk_stack info j; d ← disk_of st; s ← add_disk s d; sum_disks n (S j) info s
  end.

(** A number in a field of thirteen, and its label. *)
Definition count_line (v : Z) (label : string) : bytes := padl 13 (fmt_d v) ++ 32 :: bs label ++ newline.

Definition disksum_lines (s : disk_sums) : list bytes :=
  [count_line (disk_count s) "disks"; count_line (part_count s) "partitions"; count_line (reads s) "total reads";
   count_line (merged_reads s) "merged reads"; count_line (read_sectors s) "read sectors";
   count_line (milli_reading s) "milli reading"; count_line (writes s) "writes";
   count_line (merged_writes s) "merged writes"; count_line (written_sectors s) "written sectors";
   count_line (milli_writing s) "milli writing"; count_line (inprogress_IO s) "inprogress IO";
   count_line (milli_spent_IO s) "milli spent IO"; count_line (weighted_milli_spent_IO s) "milli weighted IO"].

Definition disksum_format : MV unit :=
  '(rc, info) ← lib (Diskstats.procps_diskstats_new fuel None);
  if rc <? 0 then xerrx (bs "Unable to create diskstat structure") else
  '(i, info) ← reap_disks info;
  s ← deref (sum_disks (Z.to_nat (f_total (Diskstats.fetch i))) 0 i no_disks);
  _ ← put_all stdout (disksum_lines s);
  _ ← lib (Diskstats.procps_diskstats_unref info);
  mret tt.

Definition sum_mem_labels : list string :=
  ["total memory"; "used memory"; "active memory"; "inactive memory"; "free memory"; "buffer memory";
   "swap cache"; "total swap"; "used swap"; "free swap"]%string.

Definition sum_tic_labels : list string :=
  ["non-nice user cpu ticks"; "nice user cpu ticks"; "system cpu ticks"; "idle cpu ticks"; "IO-wait cpu ticks";
   "IRQ cpu ticks"; "softirq cpu ticks"; "stolen cpu ticks"; "non-nice guest cpu ticks"; "nice guest cpu ticks"]%string.

(** The lines of the memory, in the display unit. *)
Definition sum_mem_lines (g : vmglobals) (mem : stack) : option (list bytes) :=
  if (length mem <? 10)%nat then None else
  mapM (fun '(r, label) =>
    v ← unitConvert g (get_ul_int (r_result r));
    Some (padl 13 (fmt_d v) ++ 32 :: szDataUnit g ++ 32 :: bs label ++ newline)) (zip mem sum_mem_labels).

(** The ticks, printed as signed numbers. *)
Definition sum_tic_lines (s : stack) : option (list bytes) :=
  if (length s <? 10)%nat then None else
  Some (map (fun '(r, label) => count_line (i64 (get_ul_int (r_result r))) label) (zip s sum_tic_labels)).

Definition sum_sys_lines (s : stack) : option (list bytes) :=
  match map (fun r => get_ul_int (r_result r)) (drop 10 s) with
  | ctx :: int :: tob :: pcr :: _ =>
      Some [count_line int "interrupts"; count_line ctx "CPU context switches"; count_line tob "boot time";
            count_line pcr "forks"]
  | _ => None
  end.

Definition put_page (vm : option Vmstat.vmstat_info) (item : Z) (label : string) : MV (option Vmstat.vmstat_info) :=
  '(v, vm) ← VMSTAT_GET vm item; _ ← stdout (count_line v label); mret vm.

Definition sum_format : MV unit :=
  '(rc, st) ← libs (Stat.procps_stat_new garbage so so1 fuel None);
  if rc <? 0 then xerrx (bs "Unable to create system stat structure") else
  '(s, st) ← select_stat st "Sum_stat_items" Sum_stat_items;
  '(rc, vm) ← lib (Vmstat.procps_vmstat_new fuel None);
  if rc <? 0 then xerrx (bs "Unable to create vmstat structure") else
  '(rc, mi) ← lib (Meminfo.procps_meminfo_new fuel None);
  if rc <? 0 then xerrx (bs "Unable to create meminfo structure") else
  '(mem, mi) ← lib (Meminfo.procps_meminfo_select fuel mi (array "Sum_mem_items") Sum_mem_items 10);
  match mem with
  | None => xerrx (bs "Unable to select memory information")
  | Some mem =>
      g ← getg;
      ls ← deref (sum_mem_lines g mem); _ ← put_all stdout ls;
      ls ← deref (sum_tic_lines s); _ ← put_all stdout ls;
      vm ← put_page vm VMSTAT_PGPGIN "K paged in";
      vm ← put_page vm VMSTAT_PGPGOUT "K paged out";
      vm ← put_page vm VMSTAT_PSWPIN "pages swapped in";
      vm ← put_page vm VMSTAT_PSWPOUT "pages swapped out";
      ls ← deref (sum_sys_lines s); _ ← put_all stdout ls;
      _ ← libs (Stat.procps_stat_unref st);
      _ ← lib (Vmstat.procps_vmstat_unref vm);
      _ ← lib (Meminfo.procps_meminfo_unref mi);
      mret tt
  end.

Definition fork_format : MV unit :=
  '(rc, st) ← libs (Stat.procps_stat_new garbage so so1 fuel None);
  if rc <? 0 then xerrx (bs "Unable to create system stat structure") else
  '(r, st) ← libs (Stat.procps_stat_get garbage fuel st STAT_SYS_PROC_CREATED);
  _ ← stdout (count_line (match r with Some r => get_ul_int (r_result r) | None => 0 end) "forks");
  _ ← libs (Stat.procps_stat_unref st);
  mret tt.

(** *** Options *)

(** [ws_row] of the [struct winsize] the call filled: its first two bytes. *)
Definition ws_row (d : bytes) : Z := match d with b0 :: b1 :: _ => b0 + 256 * b1 | _ => 0 end.

Definition winhi : MV Z :=
  r ← sys (CIoctl STDOUT_FILENO TIOCGWINSZ);
  mret (if negb (r_val r =? -1) && (0 <? ws_row (r_data r)) then ws_row (r_data r) else 24).

(** A character constant. *)
Definition ch (s : string) : Z := default 0 (head (bs s)).

(** The long options, whether they take an argument, and their letters. *)
Definition longopts : list (bytes * bool * Z) :=
  map (fun '(n, a, c) => (bs n, a, ch c))
  [("active", false, "a"); ("forks", false, "f"); ("slabs", false, "m"); ("one-header", false, "n");
   ("stats", false, "s"); ("disk", false, "d"); ("disk-sum", false, "D"); ("partition", true, "p");
   ("unit", true, "S"); ("wide", false, "w"); ("timestamp", false, "t"); ("help", false, "h");
   ("version", false, "V"); ("no-first", false, "y")]%string.

(** The option string [afmnsdDp:S:wthVy]: the letters without and with an
    argument. *)
Definition short_kind (c : Z) : option bool :=
  if bool_decide (c ∈ bs "afmnsdDwthVy") then Some false
  else if bool_decide (c ∈ bs "pS") then Some true else None.

(** What [getopt_long] returns: an option with its argument, or the question
    mark with the message it prints. *)
Inductive gopt := GOpt (c : Z) (arg : option bytes) | GBad (msg : bytes).

Definition quoted (s : bytes) : bytes := bs "'" ++ s ++ bs "'".

(** A group of short options; the second part is an option whose argument is
    the next word.  After an error the command ends, so the rest is dropped. *)
Fixpoint cluster (s : bytes) : list gopt * option Z :=
  match s with
  | [] => ([], None)
  | c :: s =>
      match short_kind c with
      | None => ([GBad (bs "invalid option -- " ++ quoted [c])], None)
      | Some false => let '(os, p) := cluster s in (GOpt c None :: os, p)
      | Some true => match s with [] => ([], Some c) | _ => ([GOpt c (Some s)], None) end
      end
  end.

(** A long option without its dashes: the name up to an equals sign, exact or
    as the abbreviation of one name only. *)
Fixpoint cut_equals (s : bytes) : bytes * option bytes :=
  match s with
  | [] => ([], None)
  | c :: r => if c =? 61 then ([], Some r) else let '(n, v) := cut_equals r in (c :: n, v)
  end.

Definition long_matches (n : bytes) : list (bytes * bool * Z) :=
  match filter (fun row => row.1.1 = n) longopts with
  | [] => filter (fun row => prefixb n row.1.1 = true) longopts
  | l => l
  end.

(** [inr] is an option that takes the next word, with its full name. *)
Definition long_option (s : bytes) : gopt + (bytes * Z) :=
  let '(n, v) := cut_equals s in
  match long_matches n with
  | [] => inl (GBad (bs "unrecognized option " ++ quoted (bs "--" ++ s)))
  | [(name, false, c)] =>
      match v with
      | None => inl (GOpt c None)
      | Some _ => inl (GBad (bs "option " ++ quoted (bs "--" ++ name) ++ bs " doesn't allow an argument"))
      end
  | [(name, true, c)] => match v with Some v => inl (GOpt c (Some v)) | None => inr (name, c) end
  | l => inl (GBad (bs "option " ++ quoted (bs "--" ++ s) ++ bs " is ambiguous; possibilities:" ++
                    concat (map (fun row => 32 :: quoted (bs "--" ++ row.1.1)) l)))
  end.

Definition dash_word (a : bytes) : bool := match a with 45 :: _ :: _ => true | _ => false end.

(** The options of the words after the program name, and the operands, which
    [getopt_long] moves to the end unless POSIXLY_CORRECT is set. *)
Fixpoint getopt_long (posixly_correct : bool) (args : list bytes) : list gopt * list bytes :=
  match args with
  | [] => ([], [])
  | a :: r =>
      if bool_decide (a = bs "--") then ([], r) else
      if negb (dash_word a) then
        if posixly_correct then ([], a :: r)
        else let '(os, ops) := getopt_long posixly_correct r in (os, a :: ops)
      else
        let '(os, wants) :=
          match a with
          | 45 :: 45 :: s => match long_option s with
                             | inl g => ([g], None)
                             | inr (n, c) => ([], Some (c, bs "option " ++ quoted (bs "--" ++ n) ++ bs " requires an argument"))
                             end
          | _ => let '(os, p) := cluster (tail a) in
                 (os, c ← p; Some (c, bs "option requires an argument -- " ++ quoted [c]))
          end in
        match wants with
        | None => let '(os', ops) := getopt_long posixly_correct r in (os ++ os', ops)
        | Some (c, msg) =>
            match r with
            | [] => (os ++ [GBad msg], [])
            | v :: r => let '(os', ops) := getopt_long posixly_correct r in (os ++ GOpt c (Some v) :: os', ops)
            end
        end
  end.

(** [-S] *)
Definition unit_of (c : Z) : option Z :=
  if bool_decide (c ∈ bs "bB") then Some UNIT_B
  else if bool_decide (c ∈ bs "k") then Some UNIT_k
  else if bool_decide (c ∈ bs "K") then Some UNIT_K
  else if bool_decide (c ∈ bs "m") then Some UNIT_m
  else if bool_decide (c ∈ bs "M") then Some UNIT_M else None.

Definition or_mode (m : Z) : MV unit := modg (fun g => set_mode (Z.lor (statMode g) m) g).

(** One option; the partition so far is handed on, [inl] is a return of
    [vmstat]. *)
Definition option_case (c : Z) (optarg : bytes) (partition : option bytes) : MV (Z + option bytes) :=
  let go (m : MV unit) : MV (Z + option bytes) := _ ← m; mret (inr partition) in
  if c =? ch "V" then _ ← stdout (progname ++ bs " from procps-ng UNKNOWN" ++ newline); mret (inl EXIT_SUCCESS)
  else if c =? ch "h" then usage false
  else if c =? ch "d" then go (or_mode DISKSTAT)
  else if c =? ch "a" then go (modg set_a)
  else if c =? ch "f" then _ ← fork_format; exit_now 0
  else if c =? ch "m" then go (or_mode SLABSTAT)
  else if c =? ch "D" then go (or_mode DISKSUMSTAT)
  else if c =? ch "n" then go (modg (set_more false))
  else if c =? ch "p" then
    _ ← or_mode PARTITIONSTAT;
    mret (inr (Some (if prefixb (bs "/dev/") optarg then drop 5 optarg else optarg)))
  else if c =? ch "S" then
    match unit_of (default 0 (head optarg)) with
    | Some u => go (modg (set_unit u (take 1 optarg)))
    | None => xerrx (bs "-S requires k, K, m or M (default is KiB)")
    end
  else if c =? ch "s" then go (or_mode VMSUMSTAT)
  else if c =? ch "w" then go (modg set_w)
  else if c =? ch "t" then go (modg set_t)
  else if c =? ch "y" then go (modg set_y)
  else usage true.

(** The option loop; [argv0] opens the messages of [getopt_long]. *)
Fixpoint options (argv0 : bytes) (os : list gopt) (partition : option bytes) : MV (Z + option bytes) :=
  match os with
  | [] => mret (inr partition)
  | GBad msg :: _ => _ ← stderr (argv0 ++ bs ": " ++ msg ++ newline); usage true
  | GOpt c arg :: os =>
      r ← option_case c (default [] arg) partition;
      match r with inl rc => mret (inl rc) | inr partition => options argv0 os partition end
  end.

(** [strtol_or_err], with what it prints before it exits. *)
Definition number (s : bytes) : MV Z :=
  match Strutils.strtol_or_err (Some s) with
  | Some v => mret v
  | None =>
      e ← (match s with [] => get_errno | _ => mret (if st_range (strtol s) then ERANGE else 0) end);
      xerrx (bs "failed to parse argument: " ++ quoted s ++ (if e =? 0 then [] else bs ": " ++ strerror e))
  end.

(** The operands: a delay and a count. *)
Definition delay_operand (s : bytes) : MV unit :=
  tmp ← number s;
  if tmp <? 1 then xerrx (bs "delay must be positive integer")
  else if UINT_MAX <? tmp then xerrx (bs "too large delay value")
  else modg (fun g => set_times tmp true (num_updates g) g).

Definition count_operand (s : bytes) : MV unit :=
  tmp ← number s; modg (fun g => set_times (sleep_time g) false (u64 tmp) g).

Definition operands (ops : list bytes) : MV unit :=
  _ ← (match ops with [] => mret tt | s :: _ => delay_operand s end);
  _ ← modg (fun g => set_times (sleep_time g) (infinite_updates g) 1 g);
  _ ← (match ops with _ :: s :: _ => count_operand s | _ => mret tt end);
  match ops with _ :: _ :: _ :: _ => usage true | _ => mret tt end.

Definition window_height : MV unit :=
  g ← getg;
  when (moreheaders g)
    (h ← winhi; modg (set_height (if 0 <? h - 3 then h - 3 else 22))).

Definition run_report (rounds : nat) (partition : option bytes) : MV unit :=
  g ← getg;
  if statMode g =? VMSTAT then new_format rounds
  else if statMode g =? VMSUMSTAT then sum_format
  else if statMode g =? DISKSTAT then diskformat rounds
  else if statMode g =? PARTITIONSTAT then p ← deref partition; diskpartition_format rounds p
  else if statMode g =? SLABSTAT then slabformat rounds
  else if statMode g =? DISKSUMSTAT then disksum_format
  else usage true.

(** [argv] with the program name; the words are read by the C library. *)
Definition vmstat (rounds : nat) (argv : list bytes) : MV Z :=
  e ← sys (CGetenv (bs "POSIXLY_CORRECT"));
  let '(os, ops) := getopt_long (0 <=? r_val e) (tail argv) in
  r ← options (default [] (head argv)) os None;
  match r with
  | inl rc => mret rc
  | inr partition =>
      _ ← operands ops;
      _ ← window_height;
      _ ← run_report rounds partition;
      mret 0
  end.
End vmstat.
End Vmcmd.
