(* ===== verification/Vmnumbers.v ===== *)
(** * The numbers of the vmstat command

    How far the displayed sizes are from the exact ones, and what the processor
    columns add up to. *)

From stdpp Require Import base numbers list strings.
From S2P Require Import Prelude Libc Posix Utils Stacks Fetch Real Stat Vmcmd.
Open Scope Z_scope.

Module Vmnumbers.
Import Vmcmd.

(** ** Sizes *)

(** One rounding to [float] of a number that is not tiny. *)
Lemma rndf_error n d : 0 < d -> n = 0 \/ 2 ^ 948 * d <= n -> 2 ^ 24 * Z.abs (Real.rndf n d * d - n) <= n.
Proof.
  intros Hd [->|Hn].
  { unfold Real.rndf, Real.round. change (Z.abs 0) with 0. rewrite Z.div_0_l by lia.
    unfold Real.nearest. rewrite Z.div_0_l, Z.mod_0_l by lia. zcase; cbn; lia. }
  assert (H0 : 0 < 2 ^ 948) by lia.
  unfold Real.rndf, Real.round. rewrite (Z.abs_eq n) by nia.
  assert (Hq : 2 ^ 948 <= n / d) by (apply Z.div_le_lower_bound; lia).
  pose proof (Z.log2_le_mono _ _ Hq) as Hl. rewrite Z.log2_pow2 in Hl by lia.
  pose proof (Z.log2_spec (n / d) ltac:(lia)) as [Hs _].
  pose proof (Z.mul_div_le n d Hd) as Hm.
  set (q := n / d) in *. set (l := Z.log2 q) in *. rewrite Z.max_r by lia.
  replace (l - (24 - 1)) with (l - 23) by lia. set (p := 2 ^ (l - 23)).
  assert (Hp : 2 ^ l = p * 2 ^ 23) by (unfold p; rewrite <- Z.pow_add_r by lia; f_equal; lia).
  assert (0 < p) by (unfold p; lia).
  pose proof (Real.nearest_error n (d * p) ltac:(nia)) as He.
  replace (p * Real.nearest n (d * p) * d) with (Real.nearest n (d * p) * (d * p)) by ring.
  set (e := Z.abs _) in *. assert (d * (p * 2 ^ 23) <= n) by nia. nia.
Qed.

Definition units : list Z := [UNIT_B; UNIT_k; UNIT_K; UNIT_m; UNIT_M].

Lemma of_intf_small n : 0 <= n < 2 ^ 24 -> Real.of_intf n = n * Real.one.
Proof.
  intros H. unfold Real.of_intf, Real.rndf. rewrite <- (Z.mul_1_r (n * Real.one)) at 1.
  unfold Real.one. apply Real.round_exact; lia.
Qed.

Lemma units_range u : u ∈ units -> 1 <= u <= 2 ^ 20.
Proof.
  unfold units, UNIT_B, UNIT_k, UNIT_K, UNIT_m, UNIT_M. rewrite !elem_of_cons, elem_of_nil. intros. lia.
Qed.

(** The error of the three operations, in exact arithmetic. *)
Lemma three_roundings (one u size A B C : Z) : 0 < one -> 1 <= u -> 0 <= size ->
  2 ^ 24 * Z.abs (A - size * one) <= size * one ->
  2 ^ 24 * Z.abs (B * u - A) <= A -> 2 ^ 24 * Z.abs (C - B * 1024) <= B * 1024 ->
  0 <= C /\ 2 ^ 22 * Z.abs (C * u - size * 1024 * one) <= size * 1024 * one.
Proof.
  intros Ho Hu Hs HA HB HC. assert (0 <= B * u) by lia. assert (0 <= B) by nia. split; [lia|].
  assert (HC' : 2 ^ 24 * Z.abs (C * u - B * u * 1024) <= B * u * 1024).
  { replace (C * u - B * u * 1024) with ((C - B * 1024) * u) by ring. rewrite Z.abs_mul, (Z.abs_eq u) by lia. nia. }
  set (X := B * u) in *. set (Y := C * u) in *. set (S := size * one) in *.
  assert (0 <= S) by (subst S; nia). lia.
Qed.

Lemma unit_text_bound (one u size C : Z) : 0 < one -> 1 <= u -> 0 <= size -> size * 1024 <= 2 ^ 63 * u -> 0 <= C ->
  2 ^ 22 * Z.abs (C * u - size * 1024 * one) <= size * 1024 * one ->
  let n := Z.quot C one in 0 <= n <= ULONG_MAX /\ 2 ^ 22 * Z.abs (n * u - size * 1024) <= size * 1024 + 2 ^ 22 * u.
Proof.
  intros Ho Hu Hs Hr HC HE n. subst n. rewrite Z.quot_div_nonneg by lia.
  pose proof (Z.div_mod C one ltac:(lia)) as Hd. pose proof (Z.mod_pos_bound C one Ho) as Hm.
  set (n := C / one) in *. set (r := C mod one) in *.
  assert (Hn : 0 <= n) by (apply Z.div_pos; lia).
  assert (E : C * u = n * u * one + r * u) by (rewrite Hd; ring).
  assert (0 <= r * u < u * one) by nia.
  assert (H1 : 2 ^ 22 * Z.abs (n * u - size * 1024) <= size * 1024 + 2 ^ 22 * u).
  { apply (Z.mul_le_mono_pos_r _ _ one Ho).
    replace (2 ^ 22 * Z.abs (n * u - size * 1024) * one) with (2 ^ 22 * Z.abs (n * u * one - size * 1024 * one)).
    2:{ replace (n * u * one - size * 1024 * one) with ((n * u - size * 1024) * one) by ring.
        rewrite Z.abs_mul, (Z.abs_eq one) by lia. ring. }
    replace ((size * 1024 + 2 ^ 22 * u) * one) with (size * 1024 * one + 2 ^ 22 * (u * one)) by ring. lia. }
  split; [|exact H1]. split; [done|]. unfold ULONG_MAX.
  assert (n * u <= (2 ^ 63 + 2 ^ 42) * u) by lia. nia.
Qed.

Lemma convert_exact u size k : u = 2 ^ k -> 0 <= k <= 20 -> 0 <= size < 2 ^ 24 ->
  Real.fmulf (Real.fdivf (size * Real.one) (u * Real.one)) (1024 * Real.one) = size * 2 ^ (1084 - k).
Proof.
  intros -> Hk Hs. unfold Real.fmulf, Real.fdivf, Real.rndf.
  assert (E1 : Real.one = 2 ^ (1074 - k) * 2 ^ k) by (unfold Real.one; rewrite <- Z.pow_add_r by lia; f_equal; lia).
  assert (E2 : 2 ^ (1084 - k) = 2 ^ (1074 - k) * 1024) by (change 1024 with (2 ^ 10); rewrite <- Z.pow_add_r by lia; f_equal; lia).
  replace (size * Real.one * Real.one) with (size * 2 ^ (1074 - k) * (2 ^ k * Real.one)) by (rewrite E1 at 2; ring).
  pose proof Real.one_pos. rewrite Real.round_exact by (try nia; lia).
  replace (size * 2 ^ (1074 - k) * (1024 * Real.one)) with (size * 2 ^ (1084 - k) * Real.one) by (rewrite E2; ring).
  apply Real.round_exact; lia.
Qed.

(** None of the three operations meets a tiny number; [L] is the least number
    [rndf_error] speaks of. *)
Lemma not_tiny (L one u size A B : Z) : 0 < L -> one = L * 2 ^ 126 -> 1 <= u <= 2 ^ 20 -> 0 < size ->
  2 ^ 24 * Z.abs (A - size * one) <= size * one ->
  L * 1 <= size * one /\ L * (u * one) <= A * one /\
  (2 ^ 24 * Z.abs (B * u - A) <= A -> L * one <= B * (1024 * one)).
Proof.
  intros HL -> Hu Hs HA. assert (H1 : L * 2 ^ 126 <= size * (L * 2 ^ 126)) by nia. assert (HA1 : L * 2 ^ 125 <= A) by lia.
  assert (Hu1 : L * u <= L * 2 ^ 20) by nia. set (one := L * 2 ^ 126) in *. assert (Ho : 0 < one) by lia. split_and!.
  - lia.
  - replace (L * (u * one)) with (L * u * one) by ring. apply Z.mul_le_mono_nonneg_r; lia.
  - intros HB. assert (HB1 : L * 2 ^ 124 <= B * u) by lia.
    assert (HB2 : L * 2 ^ 104 <= B) by (apply (Z.mul_le_mono_pos_r _ _ u); [lia|]; nia).
    replace (B * (1024 * one)) with (B * 1024 * one) by ring. apply Z.mul_le_mono_nonneg_r; lia.
Qed.

Lemma one_large : Real.one = 2 ^ 948 * 2 ^ 126.
Proof. unfold Real.one. by rewrite <- Z.pow_add_r. Qed.

(** UnitConvert: for every display unit the shown size differs from the exact
    one by less than one unit and a relative error of 2 ^ -22, the price of
    computing in [float]; sizes below 2 ^ 24 KiB in a binary unit are rounded
    down exactly. *)
Theorem unitConvert_error g size :
  dataUnit g ∈ units -> statMode g <> SLABSTAT -> 0 <= size -> size * 1024 <= 2 ^ 63 * dataUnit g ->
  exists n, unitConvert g size = Some n /\
    2 ^ 22 * Z.abs (n * dataUnit g - size * 1024) <= size * 1024 + 2 ^ 22 * dataUnit g /\
    (size < 2 ^ 24 -> dataUnit g ∈ [UNIT_B; UNIT_K; UNIT_M] -> n = size * 1024 / dataUnit g).
Proof.
  intros Hu Hm Hs Hr. apply units_range in Hu. set (u := dataUnit g) in *. pose proof Real.one_pos as Ho.
  unfold unitConvert. fold u. zcase. rewrite (of_intf_small u), (of_intf_small 1024) by lia.
  set (A := Real.of_intf size). set (B := Real.fdivf A _). set (C := Real.fmulf B _).
  assert (HL : 0 < 2 ^ 948) by (apply Z.pow_pos_nonneg; lia).
  pose proof (fun A B => not_tiny (2 ^ 948) Real.one u size A B HL one_large Hu) as Ht. pose proof (fun n d => rndf_error n d) as Hre.
  clear HL. revert Ht Hre. generalize (2 ^ 948). intros L Ht Hre.
  assert (HA : 2 ^ 24 * Z.abs (A - size * Real.one) <= size * Real.one).
  { rewrite <- (Z.mul_1_r A). apply Hre; [lia|]. destruct (Z.eq_dec size 0) as [->|]; [by left|right].
    apply (Ht (size * Real.one) 0); [lia|]. rewrite Z.sub_diag. simpl. lia. }
  assert (HB : 2 ^ 24 * Z.abs (B * u - A) <= A).
  { apply (Z.mul_le_mono_pos_r _ _ Real.one Ho).
    rewrite <- Z.mul_assoc, <- (Z.abs_eq Real.one) at 1 by lia. rewrite <- Z.abs_mul.
    replace ((B * u - A) * Real.one) with (B * (u * Real.one) - A * Real.one) by ring.
    apply Hre; [nia|]. destruct (Z.eq_dec size 0) as [E|]; [left; lia|right; apply (Ht A 0); [lia|done]]. }
  assert (HC : 2 ^ 24 * Z.abs (C - B * 1024) <= B * 1024).
  { apply (Z.mul_le_mono_pos_r _ _ Real.one Ho).
    rewrite <- Z.mul_assoc, <- (Z.abs_eq Real.one) at 1 by lia. rewrite <- Z.abs_mul.
    replace ((C - B * 1024) * Real.one) with (C * Real.one - B * (1024 * Real.one)) by ring.
    replace (B * 1024 * Real.one) with (B * (1024 * Real.one)) by ring.
    apply Hre; [lia|]. destruct (Z.eq_dec size 0) as [E|].
    - left. assert (B * u = 0) by lia. nia.
    - right. by apply (Ht A B); [lia|..]. }
  destruct (three_roundings Real.one u size A B C) as [HC0 HE]; try done; [lia|].
  destruct (unit_text_bound Real.one u size C) as [Hn Hb]; try done; [lia|].
  exists (Z.quot C Real.one). unfold to_ulong. fold u. zcase. split; [done|]. split; [exact Hb|].
  intros Hsm Hbin.
  assert (exists k, u = 2 ^ k /\ 0 <= k <= 20) as (k & Hk & Hk').
  { unfold UNIT_B, UNIT_K, UNIT_M in Hbin. rewrite !elem_of_cons, elem_of_nil in Hbin.
    destruct Hbin as [E|[E|[E|[]]]]; [exists 0|exists 10|exists 20]; (split; [exact E|lia]). }
  subst C B A. rewrite of_intf_small, (convert_exact u size k) by lia. fold u.
  rewrite Z.quot_div_nonneg by lia. unfold Real.one. rewrite Hk.
  replace (2 ^ 1074) with (2 ^ k * 2 ^ (1074 - k)) by (rewrite <- Z.pow_add_r by lia; f_equal; lia).
  replace (size * 2 ^ (1084 - k)) with (size * 1024 * 2 ^ (1074 - k)).
  2:{ change 1024 with (2 ^ 10). rewrite <- Z.mul_assoc, <- Z.pow_add_r by lia. do 2 f_equal. lia. }
  apply Z.div_mul_cancel_r; lia.
Qed.

Lemma unitConvert_error_witness :
  exists n, unitConvert start 16777217 = Some n /\
    2 ^ 22 * Z.abs (n * UNIT_K - 16777217 * 1024) <= 16777217 * 1024 + 2 ^ 22 * UNIT_K /\
    (16777217 < 2 ^ 24 -> UNIT_K ∈ [UNIT_B; UNIT_K; UNIT_M] -> n = 16777217 * 1024 / UNIT_K).
Proof.
  apply (unitConvert_error start 16777217);
    [apply (bool_decide_unpack _); vm_compute; exact I|vm_compute; discriminate|lia|vm_compute; discriminate].
Defined.

(** ** Processor columns *)

(** The change of a counter that stat.c hands out. *)
Definition delta (th : Stat.hist_tic) (x : Stat.stat_jifs -> Z) : Z :=
  let d := i64 (x (Stat.t_new th) - x (Stat.t_old th)) in if d <? 0 then 0 else d.

Lemma delta_nonneg th x : 0 <= delta th x.
Proof. unfold delta. zcase; lia. Qed.

Lemma delta_value u x sh th : get_sl_int (Stat.run_setter (Stat.TICsetH sl_int x) u (sh, th)) = delta th x /\
  get_ul_int (Stat.run_setter (Stat.TICsetH sl_int x) u (sh, th)) = delta th x.
Proof.
  cbn [Stat.run_setter]. fold (delta th x). pose proof (delta_nonneg th x). pose proof (wrap_s_range 64 (x (Stat.t_new th) - x (Stat.t_old th)) ltac:(lia)).
  assert (delta th x < 2 ^ 63) by (unfold delta; zcase; lia).
  unfold set_as, set_ul_int. cbn [get_sl_int get_ul_int]. rewrite wrap_u_small by lia. by rewrite wrap_s_small by lia.
Qed.

(** The counters a line is computed from, in the order of [Loop_stat_items]. *)
Definition line_counters : list (Stat.stat_jifs -> Z) :=
  [Stat.j_user; Stat.j_nice; Stat.j_system; Stat.j_irq; Stat.j_sirq; Stat.j_idle; Stat.j_iowait; Stat.j_stolen;
   Stat.j_guest; Stat.j_gnice].

Lemma loop_items_setters i x : line_counters !! i = Some x -> exists item,
  Loop_stat_items !! (4 + i)%nat = Some item /\
  Stat.Item_table !! Z.to_nat item = Some (Stat.run_setter (Stat.TICsetH sl_int x)).
Proof.
  intros Hi. do 10 (destruct i as [|i]; [injection Hi as <-; eexists; split; reflexivity|]). done.
Qed.

Lemma loop_values sh th s i x : shows Stat.Item_table Loop_stat_items (sh, th) s -> line_counters !! i = Some x ->
  exists r, s !! (4 + i)%nat = Some r /\ get_sl_int (r_result r) = delta th x /\ get_ul_int (r_result r) = delta th x.
Proof.
  intros [_ Hs] (item & Hi & Ht)%loop_items_setters. destruct (Hs _ _ _ Hi Ht) as [u Hu].
  eexists. split; [exact Hu|]. cbn [r_result]. apply delta_value.
Qed.

Lemma ll_ok x : LONG_MIN <= x <= LONG_MAX -> ll x = Some x.
Proof. intros. unfold ll. zcase. done. Qed.

(** The times of a line shown by stat.c. *)
Definition shown_cpu (th : Stat.hist_tic) : cpu :=
  let d := delta th in
  Cpu (d Stat.j_user + d Stat.j_nice) (d Stat.j_system + d Stat.j_irq + d Stat.j_sirq) (d Stat.j_idle)
    (d Stat.j_iowait) (d Stat.j_stolen) (d Stat.j_guest + d Stat.j_gnice).

Definition small_deltas (th : Stat.hist_tic) : Prop := Forall (fun x => delta th x < 2 ^ 31) line_counters.

Ltac loop_value H Hr k f :=
  let b := fresh "B" in pose proof (Hr k f eq_refl) as b;
  let r := fresh "r" in let E := fresh "E" in let v := fresh "V" in let v' := fresh "V" in
  destruct (H k f eq_refl) as (r & E & v & v'); injection E as <-.

Lemma loop_cpu_shown sh th s : shows Stat.Item_table Loop_stat_items (sh, th) s -> small_deltas th ->
  loop_cpu s = Some (shown_cpu th).
Proof.
  intros Hs Hsm. pose proof (fun i x => loop_values sh th s i x Hs) as H. destruct Hs as [Hp _].
  apply (f_equal length) in Hp. rewrite length_map in Hp. change (length (_ ++ _)) with 15%nat in Hp.
  do 15 (destruct s as [|?r s]; [done|]). destruct s; [|done].
  assert (Hr : forall i x, line_counters !! i = Some x -> 0 <= delta th x < 2 ^ 31).
  { intros i x Hi. split; [apply delta_nonneg|]. by apply (Forall_lookup_1 _ _ _ _ Hsm Hi). }
  pose proof (fun i x Hi => H i x Hi) as H'.
  loop_value H Hr 0%nat Stat.j_user. loop_value H Hr 1%nat Stat.j_nice. loop_value H Hr 2%nat Stat.j_system.
  loop_value H Hr 3%nat Stat.j_irq. loop_value H Hr 4%nat Stat.j_sirq. loop_value H Hr 5%nat Stat.j_idle.
  loop_value H Hr 6%nat Stat.j_iowait. loop_value H Hr 7%nat Stat.j_stolen. loop_value H Hr 8%nat Stat.j_guest.
  loop_value H Hr 9%nat Stat.j_gnice.
  clear H H' Hr Hp. unfold loop_cpu. cbn [map fst snd].
  repeat match goal with E : get_sl_int _ = _ |- _ => rewrite E; clear E | E : get_ul_int _ = _ |- _ => rewrite E; clear E end.
  unfold LONG_MIN, LONG_MAX. rewrite !ll_ok by (unfold LONG_MIN, LONG_MAX; lia). cbn [mbind option_bind].
  rewrite ll_ok by (unfold LONG_MIN, LONG_MAX; lia). unfold shown_cpu. cbn [mbind option_bind]. do 2 f_equal. apply wrap_s_small; lia.
Qed.

(** Rounding to the nearest percent. *)
Lemma percent_nearest d x : 0 < d < 2 ^ 40 -> 0 <= x <= d -> exists q,
  percent d (u64 d / 2) x = Some q /\ 0 <= q <= 100 /\ 2 * Z.abs (q * d - 100 * x) <= d.
Proof.
  intros Hd Hx. rewrite wrap_u_small by lia. set (h := d / 2).
  assert (Hh : 2 * h <= d < 2 * h + 2) by (pose proof (Z.div_mod d 2 ltac:(lia)); pose proof (Z.mod_pos_bound d 2 ltac:(lia)); subst h; lia).
  unfold percent. rewrite !ll_ok by (unfold LONG_MIN, LONG_MAX; lia). cbn [mbind option_bind].
  rewrite ll_ok by (unfold LONG_MIN, LONG_MAX; lia). cbn [mbind option_bind].
  rewrite Z.quot_div_nonneg by lia. set (n := 100 * x + h). pose proof (Z.div_mod n d ltac:(lia)) as Hn.
  pose proof (Z.mod_pos_bound n d ltac:(lia)) as Hr. set (q := n / d) in *. set (r := n mod d) in *.
  assert (0 <= q) by (apply Z.div_pos; lia). assert (q < 101) by nia.
  rewrite ll_ok by (unfold LONG_MIN, LONG_MAX; lia). cbn [mbind option_bind].
  exists q. rewrite wrap_u_small by lia. split; [done|]. split; [lia|]. rewrite (Z.mul_comm q). lia.
Qed.

Lemma no_debt idl : 0 <= idl < 2 ^ 31 -> idle_debt 0 idl = Some (0, idl).
Proof. intros. unfold idle_debt. cbn [Z.eqb negb mbind option_bind]. rewrite i32_small by (unfold INT_MIN, INT_MAX; lia). zcase. done. Qed.

(** The times of a line are those of counters: not negative, not huge, and the
    guest times are part of the user times. *)
Definition sane (c : cpu) : Prop :=
  Forall (fun x => 0 <= x < 2 ^ 36) [cpu_use c; cpu_sys c; cpu_idl c; cpu_iow c; cpu_sto c] /\
  0 <= cpu_gue c <= cpu_use c.

(** The columns are the nearest percentages. *)
Definition shares (c : cpu) (cols : list Z) : Prop :=
  exists us sy id wa st gu, cols = [us; sy; id; wa; st; gu] /\
    Forall (fun x => 0 <= x <= 100) cols /\ 97 <= us + sy + id + wa + st + gu <= 103 /\
    let d := cpu_use c + cpu_sys c + cpu_idl c + cpu_iow c + cpu_sto c in
    let near x v := 2 * Z.abs (x * d - 100 * v) <= d in
    (d = 0 -> cols = [0; 0; 100; 0; 0; 0]) /\
    near us (cpu_use c - cpu_gue c) /\ near sy (cpu_sys c) /\ near id (cpu_idl c) /\ near wa (cpu_iow c) /\
    near st (cpu_sto c) /\ near gu (cpu_gue c).

Lemma settle_sane c : sane c -> let d := cpu_use c + cpu_sys c + cpu_idl c + cpu_iow c + cpu_sto c in
  settle c = Some (Cpu (cpu_use c - cpu_gue c) (cpu_sys c) (if d =? 0 then 1 else cpu_idl c) (cpu_iow c) (cpu_sto c) (cpu_gue c),
                   if d =? 0 then 1 else d, u64 (if d =? 0 then 1 else d) / 2).
Proof.
  intros [Hf Hg] d. rewrite !Forall_cons in Hf. destruct Hf as (H1 & H2 & H3 & H4 & H5 & _). unfold settle.
  rewrite !ll_ok by (unfold LONG_MIN, LONG_MAX; lia). cbn [mbind option_bind].
  rewrite !ll_ok by (unfold LONG_MIN, LONG_MAX; lia). cbn [mbind option_bind].
  rewrite !ll_ok by (unfold LONG_MIN, LONG_MAX; lia). cbn [mbind option_bind].
  rewrite !ll_ok by (unfold LONG_MIN, LONG_MAX; lia). cbn [mbind option_bind]. fold d.
  destruct (Z.eqb_spec d 0); zcase; done.
Qed.

Lemma columns_shares c : sane c ->
  exists c' d half cols, settle c = Some (c', d, half) /\ cpu_columns c' d half = Some cols /\ shares c cols.
Proof.
  intros Hs. rewrite (settle_sane c Hs). destruct Hs as [Hf Hg].
  rewrite !Forall_cons in Hf. destruct Hf as (H1 & H2 & H3 & H4 & H5 & _). unfold shares.
  set (d := cpu_use c + cpu_sys c + cpu_idl c + cpu_iow c + cpu_sto c).
  destruct (Z.eqb_spec d 0) as [E|E].
  - do 3 eexists. exists [0; 0; 100; 0; 0; 0]. split; [done|]. subst d.
    replace (cpu_use c) with 0 by lia. replace (cpu_sys c) with 0 by lia. replace (cpu_idl c) with 0 by lia.
    replace (cpu_iow c) with 0 by lia. replace (cpu_sto c) with 0 by lia. replace (cpu_gue c) with 0 by lia.
    split; [reflexivity|]. do 6 eexists. split; [done|]. split; [repeat constructor; lia|]. split; [lia|]. cbn. by repeat (split; [done|]).
  - assert (Hd : 0 < d < 2 ^ 40) by (subst d; lia).
    assert (Hc : (cpu_use c <= d /\ cpu_sys c <= d /\ cpu_idl c <= d) /\ cpu_iow c <= d /\ cpu_sto c <= d) by (subst d; lia).
    destruct (percent_nearest d (cpu_use c - cpu_gue c)) as (us & E1 & ? & ?); [lia..|].
    destruct (percent_nearest d (cpu_sys c)) as (sy & E2 & ? & ?); [lia..|].
    destruct (percent_nearest d (cpu_idl c)) as (id & E3 & ? & ?); [lia..|].
    destruct (percent_nearest d (cpu_iow c)) as (wa & E4 & ? & ?); [lia..|].
    destruct (percent_nearest d (cpu_sto c)) as (st & E5 & ? & ?); [lia..|].
    destruct (percent_nearest d (cpu_gue c)) as (gu & E6 & ? & ?); [lia..|].
    do 3 eexists. exists [us; sy; id; wa; st; gu]. split; [done|]. unfold cpu_columns. cbn [cpu_use cpu_sys cpu_idl cpu_iow cpu_sto cpu_gue mapM].
    rewrite E1, E2, E3, E4, E5, E6. split; [done|]. exists us, sy, id, wa, st, gu. split; [done|].
    split; [repeat (apply Forall_cons; split; [done|]); constructor|]. split; [|by repeat (split; [done|])].
    assert (Hb : 2 * Z.abs ((us + sy + id + wa + st + gu) * d - 100 * d) <= 6 * d) by (subst d; lia).
    set (t := us + sy + id + wa + st + gu) in *.
    rewrite <- Z.mul_sub_distr_r, Z.abs_mul, (Z.abs_eq d), Z.mul_assoc in Hb by lia.
    apply Z.mul_le_mono_pos_r in Hb; lia.
Qed.


(** Two samples of a machine: 100 ticks passed, 90 of them idle. *)
Definition sample_tic : Stat.hist_tic :=
  Stat.Tic 0 0 1 (Stat.Jifs 1005 20 303 5090 10 1 1 0 2 0 0 0 0 0 0) (Stat.Jifs 1000 20 300 5000 9 1 0 0 0 0 0 0 0 0 0).
Definition sample_sys : Stat.hist_sys := Stat.HSys Stat.data_zero Stat.data_zero.
Definition sample_stack : stack :=
  map (fun item => Result item (match Stat.Item_table !! Z.to_nat item with
                                | Some set => set (U64 0) (sample_sys, sample_tic) | None => U64 0 end))
    (Loop_stat_items ++ [Stat.STAT_logical_end]).

Lemma sample_shows : shows Stat.Item_table Loop_stat_items (sample_sys, sample_tic) sample_stack.
Proof.
  split; [reflexivity|]. intros i item set Hi Ht. exists (U64 0). unfold sample_stack.
  rewrite list_lookup_fmap, (lookup_app_l_Some _ _ _ _ Hi). cbn [fmap option_fmap option_map]. by rewrite Ht.
Qed.

End Vmnumbers.
