(* ===== verification/Vmargs.v ===== *)
(** * The command line of vmstat

    Options, spelled short or long, and the operands set the static variables
    they stand for before the report runs; two kinds of report exclude each
    other. *)

From stdpp Require Import base numbers list strings.
From S2P Require Import Prelude Libc Posix Utils Stacks Fetch Stat Statscan Vmcmd.
Open Scope Z_scope.

Module Vmargs.
Import Vmcmd.

(** ** Options as a user means them *)

Inductive kind := KDisk | KSlabs | KDiskSum | KStats.
Inductive vopt := OActive | OOneHeader | OWide | OTimestamp | ONoFirst | OUnit (c : Z) | OKind (k : kind) | OPart (p : bytes).

#[export] Instance kind_eq_dec : EqDecision kind.
Proof. solve_decision. Defined.

(** Their words, with the short or the long name. *)
Definition words (o : bool * vopt) : list bytes :=
  let '(long, o) := o in
  let pick (s l : string) := bs (if long then l else s) in
  match o with
  | OActive => [pick "-a" "--active"]
  | OOneHeader => [pick "-n" "--one-header"]
  | OWide => [pick "-w" "--wide"]
  | OTimestamp => [pick "-t" "--timestamp"]
  | ONoFirst => [pick "-y" "--no-first"]
  | OUnit c => [pick "-S" "--unit"; [c]]
  | OKind KDisk => [pick "-d" "--disk"]
  | OKind KSlabs => [pick "-m" "--slabs"]
  | OKind KDiskSum => [pick "-D" "--disk-sum"]
  | OKind KStats => [pick "-s" "--stats"]
  | OPart p => [pick "-p" "--partition"; p]
  end.

Definition kind_mode (k : kind) : Z :=
  match k with KDisk => DISKSTAT | KSlabs => SLABSTAT | KDiskSum => DISKSUMSTAT | KStats => VMSUMSTAT end.

(** The kind of report an option asks for. *)
Definition mode_of (o : vopt) : option Z :=
  match o with OKind k => Some (kind_mode k) | OPart _ => Some PARTITIONSTAT | _ => None end.

Definition add_mode (m : Z) (g : vmglobals) : vmglobals := set_mode (Z.lor (statMode g) m) g.

(** What an option sets. *)
Definition sets (g : vmglobals) (o : vopt) : vmglobals :=
  match o with
  | OActive => set_a g
  | OOneHeader => set_more false g
  | OWide => set_w g
  | OTimestamp => set_t g
  | ONoFirst => set_y g
  | OUnit c => match unit_of c with Some u => set_unit u [c] g | None => g end
  | OKind k => add_mode (kind_mode k) g
  | OPart _ => add_mode PARTITIONSTAT g
  end.

Definition device (p : bytes) : bytes := if prefixb (bs "/dev/") p then drop 5 p else p.

Definition names (part : option bytes) (o : vopt) : option bytes :=
  match o with OPart p => Some (device p) | _ => part end.

Definition valid (o : vopt) : Prop := match o with OUnit c => unit_of c <> None | _ => True end.

(** A delay, and a count with it. *)
Inductive times := Once | Every (delay : Z) | Often (delay count : Z).

Definition time_words (t : times) : list bytes :=
  match t with Once => [] | Every d => [dec d] | Often d n => [dec d; dec n] end.

Definition times_ok (t : times) : Prop :=
  match t with
  | Once => True
  | Every d => 1 <= d <= UINT_MAX
  | Often d n => 1 <= d <= UINT_MAX /\ 0 <= n <= LONG_MAX
  end.

Definition timed (t : times) (g : vmglobals) : vmglobals :=
  match t with
  | Once => set_times (sleep_time g) (infinite_updates g) 1 g
  | Every d => set_times d true 1 g
  | Often d n => set_times d false n g
  end.

(** ** Reading them *)

Definition gopt_of (o : vopt) : gopt :=
  match o with
  | OActive => GOpt (ch "a") None
  | OOneHeader => GOpt (ch "n") None
  | OWide => GOpt (ch "w") None
  | OTimestamp => GOpt (ch "t") None
  | ONoFirst => GOpt (ch "y") None
  | OUnit c => GOpt (ch "S") (Some [c])
  | OKind KDisk => GOpt (ch "d") None
  | OKind KSlabs => GOpt (ch "m") None
  | OKind KDiskSum => GOpt (ch "D") None
  | OKind KStats => GOpt (ch "s") None
  | OPart p => GOpt (ch "p") (Some p)
  end.

Lemma getopt_words pc o rest :
  getopt_long pc (words o ++ rest) = let '(os, ops) := getopt_long pc rest in (gopt_of o.2 :: os, ops).
Proof. destruct o as [[|] [| | | | | | [] |]]; cbn; by destruct (getopt_long pc rest). Qed.

(** A word that is not an option. *)
Definition plain (a : bytes) : Prop := dash_word a = false.

Lemma getopt_plain pc ops : Forall plain ops -> getopt_long pc ops = ([], ops).
Proof.
  induction 1 as [|a ops Ha _ IH]; [done|]. cbn [getopt_long]. rewrite bool_decide_false by (by intros ->).
  rewrite Ha. destruct pc; [done|]. by rewrite IH.
Qed.

Lemma getopt_all pc os ops : Forall plain ops ->
  getopt_long pc (concat (map words os) ++ ops) = (map (fun o => gopt_of o.2) os, ops).
Proof.
  intros Hp. induction os as [|o os IH]; [by apply getopt_plain|].
  cbn [map concat]. rewrite <- app_assoc, getopt_words, IH. done.
Qed.

Lemma dec_plain n : 0 <= n -> plain (dec n).
Proof.
  intros Hn. pose proof (dec_digits n Hn) as Hd. unfold plain, dash_word.
  destruct (dec n) as [|c s]; [done|]. inversion Hd as [|? ? Hc]; subst.
  destruct c as [|p|]; try done. by do 6 (destruct p as [p|p|]; try done).
Qed.

Lemma time_words_plain t : times_ok t -> Forall plain (time_words t).
Proof.
  destruct t; cbn; intros H; repeat constructor; apply dec_plain; lia.
Qed.

Section run.
Variable progname : bytes.
Variable strftime : bytes -> Z -> option bytes.
Variable strerror : Z -> bytes.
Variable garbage : nat -> Stat.hist_tic.
Variables so so1 : option Numa.libnuma.
Variable page_size : Z.
Variable qsort : (stack -> stack -> Z) -> list stack -> list stack.
Variable strcoll : bytes -> bytes -> Z.
Variable array : string -> Z.
Variable fuel : nat.

Abbreviation options := (options progname garbage so so1 fuel).
Abbreviation run_report := (run_report progname strftime garbage so so1 page_size qsort strcoll array fuel).
Abbreviation vmstat := (vmstat progname strftime strerror garbage so so1 page_size qsort strcoll array fuel).

Lemma unit_case c part : option_case progname garbage so so1 fuel (ch "S") [c] part =
  match unit_of c with
  | Some u => _ ← modg (set_unit u [c]); mret (inr part)
  | None => xerrx progname (bs "-S requires k, K, m or M (default is KiB)")
  end.
Proof. reflexivity. Qed.

Lemma option_run argv0 x os part o w : valid x ->
  options argv0 (gopt_of x :: os) part o w =
  options argv0 os (names part x) o (World (w_tr w) (w_errno w) (sets (w_g w) x)).
Proof.
  intros Hv. destruct x as [| | | | |c|[]|p]; try (cbn; reflexivity).
  cbn [Vmcmd.options gopt_of valid sets names] in *. change (default [] (Some [c])) with [c]. rewrite unit_case.
  by destruct (unit_of c) as [u|].
Qed.

Lemma options_run argv0 os part o w : Forall valid os ->
  options argv0 (map gopt_of os) part o w =
  Done (inr (foldl names part os)) (World (w_tr w) (w_errno w) (foldl sets (w_g w) os)).
Proof.
  intros Hv. revert part w. induction Hv as [|x os Hx _ IH]; intros part w; [by destruct w|].
  cbn [map]. rewrite option_run by done. by rewrite IH.
Qed.

Lemma number_dec n o w : 0 <= n <= LONG_MAX -> number progname strerror (dec n) o w = Done n w.
Proof.
  intros Hn. unfold number, Strutils.strtol_or_err.
  pose proof (dec_nonnil n) as Hne. destruct (dec n) as [|c s] eqn:E; [done|]. rewrite <- E.
  pose proof (Statscan.strtol_dec n [] Hn I) as H. rewrite app_nil_r in H. by rewrite H.
Qed.

Lemma delay_run d o w : 1 <= d <= UINT_MAX -> delay_operand progname strerror (dec d) o w =
  Done tt (World (w_tr w) (w_errno w) (set_times d true (num_updates (w_g w)) (w_g w))).
Proof.
  unfold UINT_MAX. intros Hd. unfold delay_operand, mbind, M_bind. rewrite number_dec by (unfold LONG_MAX; lia).
  unfold UINT_MAX. by zcase.
Qed.

Lemma count_run n o w : 0 <= n <= LONG_MAX -> count_operand progname strerror (dec n) o w =
  Done tt (World (w_tr w) (w_errno w) (set_times (sleep_time (w_g w)) false n (w_g w))).
Proof.
  intros Hn. unfold count_operand, mbind, M_bind. rewrite number_dec by done. cbn.
  by rewrite wrap_u_small by (unfold LONG_MAX in *; lia).
Qed.

Lemma operands_run t o w : times_ok t ->
  operands progname strerror (time_words t) o w = Done tt (World (w_tr w) (w_errno w) (timed t (w_g w))).
Proof.
  intros H. destruct t as [|d|d n]; [done|..]; unfold operands; cbn [time_words times_ok] in *;
    unfold mbind at 1, M_bind at 1; rewrite delay_run by (by destruct H || done); [done|].
  unfold mbind at 1, M_bind at 1. cbn [modg]. unfold mbind, M_bind. by rewrite count_run by apply H.
Qed.

Lemma height_run o w : exists h w1, window_height o w = Done tt w1 /\ 0 < h /\
  w_g w1 = (if moreheaders (w_g w) then set_height h (w_g w) else w_g w) /\ printed (w_tr w1) = printed (w_tr w).
Proof.
  unfold window_height, when. destruct (moreheaders (w_g w)) eqn:E.
  - exists (let h := (if negb (r_val (o (w_tr w) (CIoctl STDOUT_FILENO TIOCGWINSZ)) =? -1) &&
        (0 <? ws_row (r_data (o (w_tr w) (CIoctl STDOUT_FILENO TIOCGWINSZ))))
        then ws_row (r_data (o (w_tr w) (CIoctl STDOUT_FILENO TIOCGWINSZ))) else 24) in
      if 0 <? h - 3 then h - 3 else 22). eexists.
    unfold mbind, M_bind, getg. rewrite E. split; [reflexivity|]. cbv zeta. split; [zcase; lia|done].
  - exists 1, w. unfold mbind, M_bind, getg. by rewrite E.
Qed.

(** What the prologue of [vmstat] leaves. *)
Definition configured (os : list vopt) (t : times) (g : vmglobals) : vmglobals := timed t (foldl sets g os).

Lemma vmstat_prologue os t rounds argv0 o w : Forall (fun x => valid x.2) os -> times_ok t ->
  let g := configured (map snd os) t (w_g w) in
  exists h w1, vmstat rounds (argv0 :: concat (map words os) ++ time_words t) o w =
      (_ ← run_report rounds (foldl names None (map snd os)); mret 0) o w1 /\
    0 < h /\ w_g w1 = (if moreheaders g then set_height h g else g) /\ printed (w_tr w1) = printed (w_tr w).
Proof.
  intros Hv Ht g. unfold Vmcmd.vmstat. cbn [tail head]. unfold mbind at 1, M_bind at 1. unfold sys at 1.
  rewrite getopt_all by (by apply time_words_plain). unfold mbind at 1, M_bind at 1.
  rewrite <- (map_map snd gopt_of), options_run by (by apply Forall_fmap). cbn [w_tr w_errno w_g].
  unfold mbind at 1, M_bind at 1. rewrite operands_run by done. cbn [w_tr w_errno w_g].
  unfold mbind at 1, M_bind at 1.
  destruct (height_run o (World ((CGetenv (bs "POSIXLY_CORRECT"), o (w_tr w) (CGetenv (bs "POSIXLY_CORRECT"))) :: w_tr w)
      (if r_val (o (w_tr w) (CGetenv (bs "POSIXLY_CORRECT"))) <? 0
       then r_errno (o (w_tr w) (CGetenv (bs "POSIXLY_CORRECT"))) else w_errno w) g)) as (h & w1 & E & Hh & Hg & Hp).
  exists h, w1. fold (configured (map snd os) t (w_g w)). fold g. rewrite E. done.
Qed.

(** *** Conflicts *)

Lemma put_all_stderr l o (w : world vmglobals) : exists w1, put_all stderr l o w = Done tt w1 /\ printed (w_tr w1) = printed (w_tr w).
Proof.
  revert w. induction l as [|s l IH]; intros w; [by exists w|].
  edestruct IH as (w1 & E & Hp). exists w1. split; [exact E|exact Hp].
Qed.

Lemma usage_fails {A} o (w : world vmglobals) : exists w1, usage progname (A := A) true o w = Exit EXIT_FAILURE w1 /\
  printed (w_tr w1) = printed (w_tr w).
Proof.
  unfold usage. generalize (usage_text progname). intros l. destruct (put_all_stderr l o w) as (w1 & E & Hp).
  exists w1. cbv beta iota. unfold mbind, M_bind. by rewrite E.
Qed.

Lemma sets_mode g o k : Z.testbit (statMode (sets g o)) k =
  Z.testbit (statMode g) k || match mode_of o with Some m => Z.testbit m k | None => false end.
Proof.
  destruct o; cbn; rewrite ?orb_false_r; try done; try apply Z.lor_spec. by destruct (unit_of c).
Qed.

Lemma fold_keeps os g k : Z.testbit (statMode g) k = true -> Z.testbit (statMode (foldl sets g os)) k = true.
Proof.
  revert g. induction os as [|x os IH]; intros g H; [done|]. apply IH. by rewrite sets_mode, H.
Qed.

Lemma fold_mode os g x m k : x ∈ os -> mode_of x = Some m -> Z.testbit m k = true ->
  Z.testbit (statMode (foldl sets g os)) k = true.
Proof.
  intros Hx Hm Hk. revert g. induction Hx as [x os|x y os Hx IH]; intros g; [|by apply IH].
  cbn [foldl]. apply fold_keeps. by rewrite sets_mode, Hm, Hk, orb_true_r.
Qed.

Lemma timed_mode t g : statMode (timed t g) = statMode g.
Proof. by destruct t. Qed.

Lemma height_mode h (b : bool) g : statMode (if b then set_height h g else g) = statMode g.
Proof. by destruct b. Qed.

Definition kinds : list Z := [DISKSTAT; VMSUMSTAT; SLABSTAT; PARTITIONSTAT; DISKSUMSTAT].

Lemma mode_of_kind x m : mode_of x = Some m -> m ∈ kinds.
Proof. destruct x as [| | | | | |[]|]; intros [= <-]; apply (bool_decide_unpack _); vm_compute; exact I. Qed.

Lemma kind_bit m : m ∈ kinds -> m = 2 ^ Z.log2 m /\ 0 <= Z.log2 m.
Proof.
  unfold kinds. rewrite !elem_of_cons, elem_of_nil. intros H. by destruct_or! H; subst.
Qed.

Lemma kind_log m : m ∈ kinds -> Z.testbit m (Z.log2 m) = true.
Proof. intros [E ?]%kind_bit. rewrite E at 1. by rewrite Z.pow2_bits_true. Qed.

(** A mode with the bits of two kinds is none of the modes. *)
Lemma two_kinds m m' v : m ∈ kinds -> m' ∈ kinds -> m <> m' -> Z.testbit v (Z.log2 m) = true ->
  Z.testbit v (Z.log2 m') = true -> v <> 0 /\ v ∉ kinds.
Proof.
  intros Hm Hm' Hne H1 H2. split; [by intros ->; rewrite Z.bits_0 in H1|]. intros Hv.
  apply kind_bit in Hm as [Em ?], Hm' as [Em' ?], Hv as [Ev ?].
  rewrite Ev in H1, H2. rewrite Z.pow2_bits_eqb in H1, H2 by done. apply Z.eqb_eq in H1, H2. congruence.
Qed.

Lemma report_conflict rounds part o w : statMode (w_g w) <> 0 -> statMode (w_g w) ∉ kinds ->
  exists w1, run_report rounds part o w = Exit EXIT_FAILURE w1 /\ printed (w_tr w1) = printed (w_tr w).
Proof.
  unfold kinds. rewrite !not_elem_of_cons. intros H0 (H1 & H2 & H3 & H4 & H5 & _).
  unfold Vmcmd.run_report, mbind, M_bind, getg, VMSTAT. zcase. apply usage_fails.
Qed.

(** C29: the command line: from the options of a request, each spelled short or
    long, with their arguments as the following words, and at most a delay and a
    count, vmstat reaches its report with exactly those settings: the flags, the
    unit, the kinds of report asked for, the partition without its directory,
    the times, and a positive height when headers repeat; nothing is printed
    before. *)
Theorem vmstat_configures os t rounds argv0 o w : Forall (fun x => valid x.2) os -> times_ok t ->
  let g := configured (map snd os) t (w_g w) in
  exists h w1, vmstat rounds (argv0 :: concat (map words os) ++ time_words t) o w =
      (_ ← run_report rounds (foldl names None (map snd os)); mret 0) o w1 /\
    0 < h /\ w_g w1 = (if moreheaders g then set_height h g else g) /\ printed (w_tr w1) = printed (w_tr w).
Proof. apply vmstat_prologue. Qed.


(** Two options that ask for different reports: the command prints its usage to
    the standard error, nothing to the standard output, and fails. *)
Theorem vmstat_conflict os t rounds argv0 o w x y m m' : Forall (fun x => valid x.2) os -> times_ok t ->
  x ∈ map snd os -> y ∈ map snd os -> mode_of x = Some m -> mode_of y = Some m' -> m <> m' ->
  exists w1, vmstat rounds (argv0 :: concat (map words os) ++ time_words t) o w = Exit EXIT_FAILURE w1 /\
    printed (w_tr w1) = printed (w_tr w).
Proof.
  intros Hv Ht Hx Hy Hm Hm' Hne. destruct (vmstat_prologue os t rounds argv0 o w Hv Ht) as (h & w1 & -> & _ & Hg & Hp).
  assert (Hb : forall z n, z ∈ map snd os -> mode_of z = Some n -> Z.testbit (statMode (w_g w1)) (Z.log2 n) = true).
  { intros z n Hz Hn. rewrite Hg, height_mode. unfold configured. rewrite timed_mode.
    by eapply fold_mode; [| |eapply kind_log, mode_of_kind]. }
  destruct (two_kinds m m' (statMode (w_g w1))) as [H0 Hk];
    [by eapply mode_of_kind|by eapply mode_of_kind|done|by apply (Hb x)|by apply (Hb y)|].
  destruct (report_conflict rounds (foldl names None (map snd os)) o w1 H0 Hk) as (w2 & E & Hp2).
  exists w2. unfold mbind, M_bind. rewrite E. by rewrite Hp2.
Qed.
End run.

(** ** Witnesses *)

Definition demo_os : os := fun _ c => match c with CGetenv _ => rerr 0 | _ => rok 0 end.
Definition demo_world : world vmglobals := World [] 0 start.

Lemma vmstat_configures_witness :
  let os := [(false, OWide); (true, OUnit 77); (false, OPart (bs "/dev/sda1"))] in
  let t := Often 2 5 in
  let g := configured (map snd os) t start in
  exists h w1, vmstat (bs "vmstat") (fun _ _ => None) (fun _ => []) (fun _ => Stat.tic_zero) None None 4096 isort
        strcasecmp (fun _ => 4096) 10 10 (map bs ["vmstat"; "-w"; "--unit"; "M"; "-p"; "/dev/sda1"; "2"; "5"]%string)
        demo_os demo_world =
      (_ ← run_report (bs "vmstat") (fun _ _ => None) (fun _ => Stat.tic_zero) None None 4096 isort strcasecmp
             (fun _ => 4096) 10 10 (Some (bs "sda1")); mret 0) demo_os w1 /\
    0 < h /\ w_g w1 = (if moreheaders g then set_height h g else g) /\ printed (w_tr w1) = [].
Proof.
  apply (vmstat_configures (bs "vmstat") (fun _ _ => None) (fun _ => []) (fun _ => Stat.tic_zero) None None 4096 isort
        strcasecmp (fun _ => 4096) 10 [(false, OWide); (true, OUnit 77); (false, OPart (bs "/dev/sda1"))] (Often 2 5)
        10 (bs "vmstat") demo_os demo_world).
  - repeat constructor. cbn. vm_compute. discriminate.
  - unfold times_ok, UINT_MAX, LONG_MAX. lia.
Defined.

Lemma vmstat_conflict_witness :
  exists w1, vmstat (bs "vmstat") (fun _ _ => None) (fun _ => []) (fun _ => Stat.tic_zero) None None 4096 isort
        strcasecmp (fun _ => 4096) 10 10 (map bs ["vmstat"; "-d"; "--slabs"]%string) demo_os demo_world =
      Exit EXIT_FAILURE w1 /\ printed (w_tr w1) = [].
Proof.
  apply (vmstat_conflict (bs "vmstat") (fun _ _ => None) (fun _ => []) (fun _ => Stat.tic_zero) None None 4096 isort
        strcasecmp (fun _ => 4096) 10 [(false, OKind KDisk); (true, OKind KSlabs)] Once 10 (bs "vmstat") demo_os demo_world
        (OKind KDisk) (OKind KSlabs) DISKSTAT SLABSTAT);
    [by repeat constructor|done|by left|by right; left|done|done|done].
Defined.
End Vmargs.
