(* ===== verification/Vmcalls.v ===== *)
(** * What the statistics modules call

    Which system calls a computation makes, on every path and for every system:
    the modules the vmstat command uses print nothing and never sleep, and each
    reads no descriptor but its own. *)

From stdpp Require Import base numbers list strings.
From S2P Require Import Prelude Libc Posix Utils Stacks Fetch Keyfile Meminfo Vmstat Diskstats Stat.
Open Scope Z_scope.

(** If [m] finishes it has made calls of [P] only, and its result is one of
    [Q]. *)
Definition only {G A} (P : call -> Prop) (m : M G A) (Q : A -> Prop) : Prop := forall o w,
  wlp m o w (fun a w' => Q a /\ exists t, w_tr w' = t ++ w_tr w /\ Forall (fun e => P e.1) t).

(** Any result. *)
Definition any {A} (_ : A) : Prop := True.

Create HintDb only_db.

Section only.
Context {G : Type} (P : call -> Prop).

Lemma only_mono {A} (m : M G A) (Q Q' : A -> Prop) : only P m Q -> (forall a, Q a -> Q' a) -> only P m Q'.
Proof. intros Hm HQ o w. eapply wlp_mono; [apply Hm|]. intros a w' [? ?]. auto. Qed.

Lemma only_any {A} (m : M G A) Q : only P m Q -> only P m any.
Proof. intros H. by apply (only_mono m Q). Qed.

Lemma only_bind {A B} (m : M G A) (f : A -> M G B) Q1 Q :
  only P m Q1 -> (forall a, Q1 a -> only P (f a) Q) -> only P (m ≫= f) Q.
Proof.
  intros Hm Hf o w. apply wlp_bind. eapply wlp_mono; [apply Hm|]. intros a w1 (Ha & t1 & E1 & H1).
  eapply wlp_mono; [by apply Hf|]. intros b w2 (Hb & t2 & E2 & H2). split; [done|].
  exists (t2 ++ t1). rewrite E2, E1, app_assoc. split; [done|]. by apply Forall_app.
Qed.

Lemma only_same {A} (m : M G A) Q :
  (forall o w, match m o w with Done a w' => Q a /\ w_tr w' = w_tr w | _ => True end) -> only P m Q.
Proof.
  intros H o w. specialize (H o w). unfold wlp. destruct (m o w); try done. destruct H as [H1 H2].
  split; [done|]. exists []. rewrite H2. split; [done|constructor].
Qed.

Lemma only_ret {A} (a : A) (Q : A -> Prop) : Q a -> only P (mret a : M G A) Q.
Proof. intros. by apply only_same. Qed.
Lemma only_sys c : P c -> only P (sys c : M G ret) any.
Proof. intros Hc o w. split; [done|]. exists [(c, o (w_tr w) c)]. split; [done|]. by constructor. Qed.
Lemma only_deref {A} (x : option A) : only P (deref x : M G A) (fun a => x = Some a).
Proof. apply only_same. by destruct x. Qed.
Lemma only_getg : only P (getg : M G G) any.
Proof. by apply only_same. Qed.
Lemma only_modg f : only P (modg f : M G unit) any.
Proof. by apply only_same. Qed.
Lemma only_get_errno : only P (get_errno : M G Z) any.
Proof. by apply only_same. Qed.
Lemma only_set_errno e : only P (set_errno e : M G unit) any.
Proof. by apply only_same. Qed.
Lemma only_undef {A} (Q : A -> Prop) : only P (undef : M G A) Q.
Proof. by apply only_same. Qed.
Lemma only_nofuel {A} (Q : A -> Prop) : only P (nofuel : M G A) Q.
Proof. by apply only_same. Qed.
Lemma only_exit {A} c (Q : A -> Prop) : only P (exit_now c : M G A) Q.
Proof. by apply only_same. Qed.
End only.

Lemma only_imp {G A} (P P' : call -> Prop) (m : M G A) Q : only P m Q -> (forall c, P c -> P' c) -> only P' m Q.
Proof.
  intros Hm HP o w. eapply wlp_mono; [apply Hm|]. intros a w' (? & t & E & Ht). split; [done|].
  exists t. split; [done|]. eapply Forall_impl; [exact Ht|]. intros e. apply HP.
Qed.

(** Syntax-directed proofs, for any result. *)
Ltac only_step :=
  match goal with
  | |- only _ (mret _) _ => apply only_ret; try exact I
  | |- only _ undef _ => apply only_undef
  | |- only _ nofuel _ => apply only_nofuel
  | |- only _ (exit_now _) _ => apply only_exit
  | |- only _ (mbind _ _) _ => eapply (only_bind _ _ _ any); [|intros ? _; cbn beta]
  | |- only _ (sys _) _ => apply only_sys; try exact I
  | |- only _ (deref _) _ => eapply only_any, only_deref
  | |- only _ getg _ => apply only_getg
  | |- only _ (modg _) _ => apply only_modg
  | |- only _ get_errno _ => apply only_get_errno
  | |- only _ (set_errno _) _ => apply only_set_errno
  | |- only _ (if ?b then _ else _) _ => destruct b eqn:?
  | |- only _ (match ?x with _ => _ end) _ => destruct x eqn:?
  | |- only _ (let _ := _ in _) _ => cbv zeta
  | |- only _ _ _ => solve [auto with only_db]
  end.
Ltac only_tac := repeat only_step.

(** The calls that neither print, sleep nor read from a descriptor. *)
Definition harmless (c : call) : Prop :=
  match c with
  | CStdout _ | CStderr _ | CPerror _ | CSleep _ | CNanosleep _ | CRead _ _ | CRecv _ _ | CWrite _ _ => False
  | _ => True
  end.

(** ** Stacks and fetching *)

Section stacks.
Context {G H : Type} (table : list (uval -> H -> uval)).

Lemma only_stacks_alloc x n : only harmless (stacks_alloc x n : M G _) any.
Proof. unfold stacks_alloc. only_tac. Qed.
Hint Resolve only_stacks_alloc : only_db.

Lemma only_reconfig x items n : only harmless (reconfig table x items n : M G _) any.
Proof. unfold reconfig. only_tac. Qed.
Hint Resolve only_reconfig : only_db.

Lemma only_reconfig_maybe x addr items n : only harmless (reconfig_maybe table x addr items n : M G _) any.
Proof. unfold reconfig_maybe. only_tac. Qed.

Lemma only_stacks_fetch incr err nodes x f : only harmless (stacks_fetch table incr err nodes x f : M G _) any.
Proof.
  assert (Hl : forall ns x f, only harmless (fetch_loop table incr ns x f : M G _) any).
  { induction ns as [|n ns IH]; intros x' f'; cbn [fetch_loop]; unfold grow; only_tac. }
  unfold stacks_fetch, init_anchor, init_extents, finalize, grow. only_tac.
Qed.
End stacks.
#[export] Hint Resolve only_stacks_alloc only_reconfig only_reconfig_maybe only_stacks_fetch : only_db.

(** ** Disks *)

Module Disks.
Import Diskstats.

Lemma only_classify fuel nm : only harmless (node_classify fuel nm) any.
Proof.
  assert (Hs : forall f d, only harmless (classify_scan f d nm) any).
  { induction f as [|f IH]; intros d; cbn [classify_scan]; only_tac. }
  unfold node_classify. only_tac.
Qed.
#[export] Hint Resolve only_classify : only_db.

Lemma only_disk_read fuel info : only harmless (diskstats_read_failed fuel info) any.
Proof.
  assert (Hl : forall f i, only harmless (read_lines f i) any).
  { induction f as [|f IH]; intros i; cbn [read_lines]; unfold node_update; only_tac. }
  unfold diskstats_read_failed. only_tac.
Qed.
#[export] Hint Resolve only_disk_read : only_db.

Lemma only_unref info : only harmless (procps_diskstats_unref info) any.
Proof. unfold procps_diskstats_unref. only_tac. Qed.
#[export] Hint Resolve only_unref : only_db.

Lemma only_new fuel slot : only harmless (procps_diskstats_new fuel slot) any.
Proof. unfold procps_diskstats_new. only_tac. Qed.
Lemma only_get fuel info nm item : only harmless (procps_diskstats_get fuel info nm item) any.
Proof. unfold procps_diskstats_get. only_tac. Qed.
Lemma only_reap fuel info addr items n : only harmless (procps_diskstats_reap fuel info addr items n) any.
Proof. unfold procps_diskstats_reap, diskstats_stacks_reconfig_maybe, diskstats_stacks_fetch. only_tac. Qed.
Lemma only_disk_select fuel info nm addr items n : only harmless (procps_diskstats_select fuel info nm addr items n) any.
Proof. unfold procps_diskstats_select, diskstats_stacks_reconfig_maybe, diskstats_stacks_alloc. only_tac. Qed.
End Disks.

(** ** Processor statistics *)

Module Stats.
Import Stat.

Lemma only_parse garbage buf info : only harmless (parse_stat garbage buf info) any.
Proof.
  assert (Hl : forall f bp i cs, only harmless (cpu_loop garbage f bp i cs) any).
  { induction f as [|f IH]; intros; cbn [cpu_loop]; only_tac. }
  unfold parse_stat. only_tac.
Qed.
#[export] Hint Resolve only_parse : only_db.

Lemma only_stat_read garbage fuel info : only harmless (stat_read_failed garbage fuel info) any.
Proof.
  assert (Hl : forall f fp m acc, only harmless (read_all f fp m acc) any).
  { induction f as [|f IH]; intros; cbn [read_all]; only_tac. }
  unfold stat_read_failed, init_tics. only_tac.
Qed.
#[export] Hint Resolve only_stat_read : only_db.

Lemma only_stat_select garbage fuel info addr items n :
  only harmless (procps_stat_select garbage fuel info addr items n) any.
Proof.
  unfold procps_stat_select, stat_stacks_reconfig_maybe, stat_update_single_stack, stat_stacks_alloc. only_tac.
Qed.
End Stats.

(** ** Files of keys and numbers *)

Section keys.
Import Keyfile.
Context {F : Type} {EF : EqDecision F} {KF : KeyFile F}.

(** The calls of a context whose descriptor is open. *)
Definition own (fd : Z) (c : call) : Prop := harmless c \/ exists n, c = CRead fd n.

(** The context keeps its descriptor. *)
Definition same_fd (fd : Z) (i : option (kinfo F)) : Prop := exists i', i = Some i' /\ info_fd i' = fd.

Lemma only_retry fuel fd : only (own fd) (read_retry fuel fd) any.
Proof. induction fuel as [|f IH]; cbn [read_retry]; only_tac. right. eauto. Qed.

Lemma only_key_read fuel info : info_fd info <> -1 ->
  only (own (info_fd info)) (read_failed fuel info) (fun res => info_fd res.2 = info_fd info).
Proof.
  intros Hfd. unfold read_failed. cbn [set_hist info_fd]. zcase.
  eapply (only_bind _ _ _ (fun i => info_fd i = info_fd info)); [by apply only_ret|]. intros i Hi. rewrite Hi. zcase.
  eapply (only_bind _ _ _ any); [apply only_sys; by left|]. intros l _. destruct (_ =? -1); [by apply only_ret|].
  eapply (only_bind _ _ _ any); [apply only_retry|]. intros r _. destruct (_ <? 0); [by apply only_ret|].
  destruct (_ =? 0); [eapply (only_bind _ _ _ any); [only_tac|intros ? _; by apply only_ret]|].
  destruct (_ <=? _); [apply only_undef|]. eapply (only_bind _ _ _ any); [only_tac|]. intros buf _. by apply only_ret.
Qed.

Lemma only_key_get fuel info item : info_fd info <> -1 ->
  only (own (info_fd info)) (procps_get fuel (Some info) item) (fun res => same_fd (info_fd info) res.2).
Proof.
  intros Hfd. unfold procps_get. eapply (only_bind _ _ _ any); [only_tac|]. intros _ _.
  destruct (_ || _); [apply only_ret; by exists info|].
  eapply (only_bind _ _ _ any); [only_tac|]. intros _ _.
  eapply (only_bind _ _ _ any); [apply only_sys; by left|]. intros t _.
  eapply (only_bind _ _ _ (fun res => info_fd res.2 = info_fd info)).
  { destruct (1 <=? _); [|by apply only_ret].
    eapply only_bind; [by apply only_key_read|]. intros [rc i] Hi. cbn [snd] in *. by destruct (negb _); apply only_ret. }
  intros [rc i] Hi. cbn [snd] in *. destruct (negb _); [apply only_ret; by exists i|].
  eapply (only_bind _ _ _ any); [only_tac|]. intros set _. apply only_ret. by eexists.
Qed.
End keys.
