(* ===== verification/Vmdisks.v ===== *)
(** * Reports on disks

    On a system with a fixed /proc/diskstats, the reports of vmstat on disks
    and partitions print the counters of that file. *)

From stdpp Require Import base numbers list strings.
From S2P Require Import Prelude Libc Posix Utils Stacks Fetch Diskstats Stat Vmcmd Vmcalls.
Open Scope Z_scope.

Module Vmdisks.
Import Diskstats.

(** ** The nodes of a file that is read again and again *)

(** The node of a line, as of the last reading. *)
Definition row (stamp : Z) (l : dline) (n : dev_node) : Prop :=
  name n = dl_name l /\ new n = dl_data l /\ stamped n = stamp /\ is_class (type_ n).

Lemma streq_refl a : streq a a = true.
Proof. unfold streq. by rewrite bool_decide_true. Qed.

Lemma find_skip pre n ns nm : nm ∉ names pre -> name n = nm -> node_find (pre ++ n :: ns) nm = Some n.
Proof.
  intros Hn <-. induction pre as [|m pre IH]; cbn; [by rewrite streq_refl|].
  cbn in Hn. apply not_elem_of_cons in Hn as [H1 H2]. unfold streq at 1. rewrite bool_decide_false by done. by apply IH.
Qed.

Lemma put_skip pre n ns src : name src ∉ names pre -> name n = name src ->
  node_put (pre ++ n :: ns) src = pre ++ src :: ns.
Proof.
  intros Hn Hs. induction pre as [|m pre IH]; cbn; [by rewrite Hs, streq_refl|].
  cbn in Hn. apply not_elem_of_cons in Hn as [H1 H2]. unfold streq at 1. rewrite bool_decide_false by done. f_equal. by apply IH.
Qed.

(** The first reading adds a node for each line. *)
Lemma merge_all_first o_stamp now lines : forall pre tys, NoDup (map dl_name lines) ->
  (forall l, l ∈ lines -> dl_name l ∉ names pre) -> length tys = length lines -> Forall is_class tys ->
  exists ns, merge_all o_stamp now pre lines tys = pre ++ ns /\ Forall2 (row now) lines ns.
Proof.
  induction lines as [|l ls IH]; intros pre [|ty tys] Hnd Hpre Hl Hc; try done.
  { exists []. by rewrite app_nil_r. }
  cbn [map] in Hnd. apply NoDup_cons in Hnd as [Hn Hnd]. apply Forall_cons in Hc as [Hc Hcs].
  cbn [merge_all]. unfold merge. cbn [name source_of].
  rewrite (proj2 (node_find_none _ _)) by (apply Hpre; by left). unfold node_add.
  edestruct (IH (pre ++ [set_type ty (set_old (new (source_of now l)) (source_of now l))]) tys) as (ns & -> & HF); try done.
  - intros k Hk. unfold names. rewrite map_app. cbn. rewrite not_elem_of_app, list_elem_of_singleton.
    split; [apply Hpre; by right|]. intros E. apply Hn. rewrite <- E. by apply list_elem_of_fmap_2.
  - cbn in Hl. lia.
  - eexists. rewrite <- app_assoc. split; [done|]. constructor; [by repeat split|done].
Qed.

(** Later ones update the nodes in place. *)
Lemma merge_all_again o_stamp now lines : forall pre ns tys, NoDup (map dl_name lines) ->
  (forall l, l ∈ lines -> dl_name l ∉ names pre) -> length tys = length lines -> Forall2 (row o_stamp) lines ns ->
  exists ns', merge_all o_stamp now (pre ++ ns) lines tys = pre ++ ns' /\ Forall2 (row now) lines ns' /\
    map type_ ns' = map type_ ns.
Proof.
  induction lines as [|l ls IH]; intros pre ns [|ty tys] Hnd Hpre Hl HF; try done.
  { apply Forall2_nil_inv_l in HF as ->. exists []. by split. }
  apply Forall2_cons_inv_l in HF as (n & ns1 & (H1 & H2 & H3 & H4) & HF & ->).
  cbn [map] in Hnd. apply NoDup_cons in Hnd as [Hn Hnd].
  cbn [merge_all]. unfold merge. cbn [name source_of]. rewrite find_skip by (done || (apply Hpre; by left)).
  rewrite H3, Z.eqb_refl. cbn [negb andb].
  rewrite put_skip by (done || (cbn; apply Hpre; by left)).
  set (n' := set_type _ _).
  destruct (IH (pre ++ [n']) ns1 tys) as (ns & E & HF' & Ht); try done.
  - intros k Hk. unfold names. rewrite map_app. cbn. rewrite not_elem_of_app, list_elem_of_singleton.
    split; [apply Hpre; by right|]. intros E. apply Hn. rewrite <- E. by apply list_elem_of_fmap_2.
  - cbn in Hl. lia.
  - exists (n' :: ns). rewrite <- !app_assoc in E. cbn in E. split; [done|]. cbn. rewrite Ht.
    split; [|done]. constructor; [by repeat split|done].
Qed.

(** ** Contexts that follow the file *)

Record tracked (lines : list dline) (info : diskstats_info) : Prop := {
  tk_inv : disk_inv info;
  tk_rows : Forall2 (row (new_stamp info)) lines (nodes info);
  tk_ref : refcount info = 1;
  tk_fp : 0 <= diskstats_fp info
}.

Definition balance (info info' : diskstats_info) (t t' : trace) : Prop :=
  forall h, 0 <= handle_val h -> net h t' - held (diskstats_fp info') h = net h t - held (diskstats_fp info) h.

Section system.
Context (o : os) (n : nat) (lines : list dline) (fuel : nat).
Context (Hsys : disk_system o n lines) (Hfuel : (n + length lines < fuel)%nat) (Hnames : NoDup (map dl_name lines)).

Lemma new_tracked w : wp (procps_diskstats_new fuel None) o w (fun res w' => exists info,
  res = (0, Some info) /\ tracked lines info /\
  forall h, 0 <= handle_val h -> net h (w_tr w') - held (diskstats_fp info) h = net h (w_tr w)).
Proof.
  unfold procps_diskstats_new. wstep. wsys c Hc.
  destruct (Z.ltb_spec (r_val c) 0) as [H|_]; [subst c; pose proof (ds_memory _ _ _ Hsys (w_tr w) 1); lia|]. wstep.
  eapply wp_mono; [by apply (disk_read_ok o n lines)|].
  intros [rc i] w1 (now & tys & Hrc & Hl & Hc' & _ & Hst & Hns & Hrf & Hsel & Hfe & Hfs & Hfp & Hn). cbn [fst snd] in *. subst rc.
  apply wp_ret. exists i. split; [done|].
  destruct (merge_all_first 0 now lines [] tys) as (ns & E & HF); try done.
  { intros l _. apply not_elem_of_nil. }
  cbn [nodes new_stamp refcount select_ext fetch_ext fetch app] in *. rewrite E in Hns. split.
  - split; [|by rewrite Hst, Hns|done|done].
    split; [rewrite Hsel; by left|]. split; [rewrite Hfe; by left|]. rewrite Hfe, Hfs. split; [done|]. split; [done|].
    rewrite Hns, <- E. apply merge_all_nodup. constructor.
  - intros h Hh. rewrite Hn by done. cbn [diskstats_fp w_tr]. destruct h; unfold net; cbn [foldr effect held]; zcase; lia.
Qed.

Lemma read_tracked info w : tracked lines info ->
  wp (diskstats_read_failed fuel info) o w (fun res w' => exists info', res = (0, info') /\ tracked lines info' /\
    select_ext info' = select_ext info /\ map type_ (nodes info') = map type_ (nodes info) /\
    balance info info' (w_tr w) (w_tr w')).
Proof.
  intros [Hi Hr Hrf Hfp]. eapply wp_mono; [by apply (disk_read_ok o n lines)|].
  intros [rc i] w1 (now & tys & Hrc & Hl & Hc & _ & Hst & Hns & Hrf' & Hsel & Hfe & Hfs & Hfp' & Hn). cbn [fst snd] in *. subst rc.
  exists i. split; [done|]. destruct (merge_all_again (new_stamp info) now lines [] (nodes info) tys) as (ns & E & HF & Ht); try done.
  { intros l _. apply not_elem_of_nil. }
  cbn [app] in E. rewrite E in Hns. split; [|by rewrite Hns].
  destruct Hi as (H1 & H2 & H3 & H4 & H5). split; [|by rewrite Hst, Hns|congruence|done].
  split; [by rewrite Hsel|]. split; [by rewrite Hfe|]. rewrite Hfe, Hfs. split; [done|]. split; [done|].
  rewrite Hns, <- E. by apply merge_all_nodup.
Qed.

Lemma tracked_find info l : tracked lines info -> l ∈ lines -> exists nd,
  node_get info (dl_name l) = (Some nd, info) /\ row (new_stamp info) l nd.
Proof.
  intros [Hi Hr _ _] Hl. apply list_elem_of_lookup in Hl as [k Hk].
  destruct (Forall2_lookup_l _ _ _ _ _ Hr Hk) as (nd & Hnd & Hrow). pose proof Hrow as (Hn & _ & Hs & _).
  exists nd. split; [|done]. unfold node_get. apply list_elem_of_split_length in Hnd as (pre & post & E & _).
  destruct Hi as (_ & _ & _ & _ & Hd). rewrite E in Hd |- *. rewrite find_skip; [|rewrite <- Hn|done].
  - unfold stale. rewrite Hs, (Z.eqb_refl (new_stamp info)). by rewrite andb_false_r.
  - unfold names in Hd. rewrite map_app in Hd. apply NoDup_app in Hd as (_ & Hd & _).
    intros Hin. apply (Hd _ Hin). by left.
Qed.

Lemma tracked_absent info nm : tracked lines info -> nm ∉ map dl_name lines -> node_get info nm = (None, info).
Proof.
  intros [_ Hr _ _] Hnm. unfold node_get. rewrite (proj2 (node_find_none _ _)); [done|].
  intros Hin. apply Hnm. unfold names in Hin. apply list_elem_of_fmap in Hin as (nd & -> & Hin).
  apply list_elem_of_lookup in Hin as [k Hk]. destruct (Forall2_lookup_r _ _ _ _ _ Hr Hk) as (l & Hl & Hrow).
  rewrite (proj1 Hrow). apply list_elem_of_fmap_2. by eapply list_elem_of_lookup_2.
Qed.

Lemma tracked_set_get r info : tracked lines info -> tracked lines (set_get r info).
Proof. by intros [? ? ? ?]. Qed.

(** [procps_diskstats_get], of a device of the file and of another name. *)
Lemma get_tracked info item nm w : tracked lines info -> 0 <= item < DISKSTATS_logical_end ->
  wp (procps_diskstats_get fuel (Some info) nm item) o w (fun res w' => exists info',
    res.2 = Some info' /\ tracked lines info' /\ (res.1 = None <-> nm ∉ map dl_name lines) /\
    balance info info' (w_tr w) (w_tr w')).
Proof.
  intros Ht Hitem. unfold procps_diskstats_get. wstep. unfold wp at 1. cbn [set_errno]. zcase.
  wstep. unfold wp at 1. cbn [set_errno]. wstep. wsys t Ht0. wstep.
  eapply (wp_mono _ _ _ (fun res w' => exists info', res = (0, info') /\ tracked lines info' /\
    balance info info' (w_tr w) (w_tr w'))).
  { destruct (1 <=? _).
    - eapply wp_mono; [by apply read_tracked|]. intros res w1 (i & -> & Hi & _ & _ & Hb). exists i.
      split; [done|]. split; [done|]. intros h Hh. rewrite Hb by done. destruct h; unfold net; cbn [w_tr foldr effect]; lia.
    - apply wp_ret. exists info. split; [done|]. split; [done|]. intros h Hh. destruct h; unfold net; cbn [w_tr foldr effect]; lia. }
  intros res w1 (i & -> & Hi & Hb). cbn [Z.eqb negb]. pose proof (tracked_set_get (Result item (U64 0)) i Hi) as Hi'.
  destruct (decide (nm ∈ map dl_name lines)) as [Hin|Hout].
  - apply list_elem_of_fmap in Hin as (l & -> & Hin). destruct (tracked_find _ l Hi' Hin) as (nd & -> & _).
    destruct (Item_table !! Z.to_nat item) as [set|] eqn:E.
    2:{ apply lookup_ge_None in E. unfold DISKSTATS_logical_end, logical_end in Hitem. lia. }
    cbn [deref]. wstep. apply wp_ret. apply wp_ret. eexists. split; [done|]. split; [by repeat apply tracked_set_get|].
    split; [|exact Hb]. split; [done|]. intros []. by apply list_elem_of_fmap_2.
  - rewrite tracked_absent by done. wstep. unfold wp at 1. cbn [set_errno]. apply wp_ret. eexists.
    split; [done|]. split; [done|]. split; [done|exact Hb].
Qed.

Lemma ensure_disk_stack w x its : ext_ok Item_table x its ->
  wp (match x_extents x with
      | [] => '(b, x) ← diskstats_stacks_alloc x 1; mret (bool_decide (b <> None), x)
      | _ => mret (true, x)
      end) o w (fun res w' => res.1 = true /\ ext_ok Item_table res.2 its /\ x_extents res.2 <> [] /\
        forall h, net h (w_tr w') = net h (w_tr w)).
Proof.
  intros Hx. destruct (x_extents x) as [|b r] eqn:E.
  - wstep. eapply wp_mono.
    { apply (stacks_alloc_full Item_table o w x its 1 (ds_memory _ _ _ Hsys) Hx); lia. }
    intros res w' (b & -> & _ & _ & H1 & Hn). apply wp_ret. cbn [fst snd] in *.
    split; [done|]. split; [done|]. by split.
  - apply wp_ret. cbn [fst snd]. split; [done|]. split; [done|]. by rewrite E.
Qed.

(** [procps_diskstats_select] of a device of the file. *)
Lemma select_tracked info addr items num l w : tracked lines info -> l ∈ lines ->
  2 * DISKSTATS_logical_end <= addr -> 1 <= num <= Z.of_nat (length items) ->
  Forall (valid_item Item_table) (take (Z.to_nat num) items) ->
  wp (procps_diskstats_select fuel (Some info) (dl_name l) addr items num) o w (fun res w' => exists s info' nd,
    res = (Some s, Some info') /\ tracked lines info' /\ row (new_stamp info') l nd /\
    shows Item_table (take (Z.to_nat num) items) nd s /\ balance info info' (w_tr w) (w_tr w')).
Proof.
  intros Ht Hl Haddr Hnum Hv. set (its := take (Z.to_nat num) items) in *. pose proof (ds_memory _ _ _ Hsys) as Hm.
  destruct (tk_inv _ _ Ht) as (Hse & Hfe & Ha & Hr & Hnd).
  unfold procps_diskstats_select. wstep. unfold wp at 1. cbn [set_errno].
  destruct (Z.eqb_spec addr 0) as [E|_]; [rewrite logical_end_27 in Haddr; lia|].
  wstep. eapply wp_mono; [by apply (reconfig_maybe_ok Item_table o)|].
  intros [rc x] w1. cbn [fst snd w_tr]. intros (Hrc & Hx & _ & Hn1). fold its in Hx. zcase.
  wstep. unfold wp at 1. cbn [set_errno]. wstep.
  eapply wp_mono; [by apply (ensure_disk_stack _ x its)|].
  intros [ok x2] w2. cbn [fst snd w_tr select_ext set_select]. intros (-> & Hx2 & Hne & Hn2). cbn [negb]. wstep.
  eapply wp_mono.
  { apply read_tracked. destruct Ht as [_ Hrows Hrf Hfp].
    split; [|exact Hrows|exact Hrf|exact Hfp]. by split; [right; exists its|]. }
  intros res w3 (i & -> & Hi & Hsel & _ & Hb). cbn [Z.eqb negb]. cbn [select_ext set_select] in Hsel.
  destruct (tracked_find i l Hi Hl) as (nd & -> & Hrow).
  rewrite Hsel. destruct (x_extents x2) as [|b r] eqn:Ex; [done|]. cbn [head].
  destruct (load_head Item_table x2 its b r Hx2 Ex) as [s0 Hs0].
  pose proof (load_primed Item_table x2 its _ s0 Hx2 Hs0) as Hp0.
  destruct (assign_shows Item_table its s0 nd Hv Hp0) as (s & Hs & Hsh).
  wstep. unfold wp at 1. cbn [deref mret M_ret]. wstep. rewrite Hs0. unfold wp at 1. cbn [deref mret M_ret].
  wstep. unfold diskstats_assign_results. rewrite Hs. unfold wp at 1. cbn [deref mret M_ret]. apply wp_ret.
  exists s. eexists. exists nd. split; [done|]. split; [|split; [done|split; [done|]]].
  - destruct Hi as [Hinv Hrows Hrf Hfp]. split; [|exact Hrows|exact Hrf|exact Hfp].
    destruct Hinv as (_ & Hinv). split; [|exact Hinv]. right. exists its.
    apply (store_ok Item_table x2 its _ s s0); try done. apply Hsh.
  - intros h Hh. specialize (Hb h Hh). cbn [diskstats_fp set_select] in Hb |- *. rewrite Hb, Hn2, Hn1. done.
Qed.

(** [procps_diskstats_reap]: a stack for each line, in the order of the file. *)
Lemma reap_tracked info addr items num w : tracked lines info ->
  2 * DISKSTATS_logical_end <= addr -> 1 <= num <= Z.of_nat (length items) ->
  Forall (valid_item Item_table) (take (Z.to_nat num) items) ->
  wp (procps_diskstats_reap fuel (Some info) addr items num) o w (fun res w' => exists info',
    res = (true, Some info') /\ tracked lines info' /\
    reaped Item_table (take (Z.to_nat num) items) (fetch_ext info') (fetch info') (nodes info') /\
    map type_ (nodes info') = map type_ (nodes info) /\ balance info info' (w_tr w) (w_tr w')).
Proof.
  intros Ht Haddr Hnum Hv. pose proof Ht as [Hinv Hrows Hrf Hfp].
  eapply wp_mono; [by apply (procps_diskstats_reap_ok o n lines)|].
  intros res w' (i & now & tys & -> & Hi & Hl & Hc & Hns & Hst & Hrf' & Hfp' & Hre & Hb).
  exists i. split; [done|].
  destruct (merge_all_again (new_stamp info) now lines [] (nodes info) tys) as (ns & E & HF & Hty); try done.
  { intros k _. apply not_elem_of_nil. }
  cbn [app] in E. rewrite E in Hns. split; [|split; [done|split; [by rewrite Hns|exact Hb]]].
  split; [done|by rewrite Hst, Hns|congruence|done].
Qed.

(** Releasing the context gives its stream back. *)
Lemma unref_tracked info w : tracked lines info ->
  wp (procps_diskstats_unref (Some info)) o w (fun _ w' => forall h, 0 <= handle_val h ->
    net h (w_tr w') = net h (w_tr w) - held (diskstats_fp info) h).
Proof.
  intros [_ _ Hrf Hfp]. unfold procps_diskstats_unref. cbn [set_refcount refcount diskstats_fp]. rewrite Hrf. cbn [Z.ltb Z.sub Z.compare Z.opp Z.add Z.pos_sub].
  zcase. wstep. wstep. wsys r Hr. apply wp_ret. apply wp_ret. intros h Hh. unfold net. cbn [w_tr foldr].
  destruct h; cbn [effect held]; unfold closed; zcase; lia.
Qed.
End system.

(** ** What the stacks show *)

Import Vmcmd.

(** A device as vmstat sees it. *)
Definition disk_view (ty : Z) (l : dline) : disk :=
  let d := dl_data l in
  Disk ty (dl_name l) (Diskstats.reads d) (reads_merged d) (Diskstats.read_sectors d) (read_time d)
    (Diskstats.writes d) (writes_merged d) (write_sectors d) (write_time d)
    (i32 (io_inprogress d)) (io_time d) (io_wtime d).

(** The setters behind an array of items. *)
Definition setters_of (its : list Z) (ss : list dsetter) : Prop :=
  forall i d, ss !! i = Some d -> exists item, its !! i = Some item /\ Item_table !! Z.to_nat item = Some (run_setter d).

Lemma shown_value its ss nd s i d : setters_of its ss -> shows Item_table its nd s -> ss !! i = Some d ->
  exists r u, s !! i = Some r /\ r_result r = run_setter d u nd.
Proof.
  intros Hss [_ Hs] (item & Hi & Ht)%Hss. destruct (Hs _ _ _ Hi Ht) as [u Hu]. by do 2 eexists.
Qed.

Definition disk_setters : list dsetter :=
  [DEV_type; DEV_name; REG_set ul_int Diskstats.reads; REG_set ul_int reads_merged; REG_set ul_int Diskstats.read_sectors;
   REG_set ul_int read_time; REG_set ul_int Diskstats.writes; REG_set ul_int writes_merged; REG_set ul_int write_sectors;
   REG_set ul_int write_time; REG_set s_int io_inprogress; REG_set ul_int io_time; REG_set ul_int io_wtime].
Definition part_setters : list dsetter :=
  [REG_set ul_int Diskstats.reads; REG_set ul_int Diskstats.read_sectors; REG_set ul_int Diskstats.writes;
   REG_set ul_int write_sectors].

Lemma disk_items_setters : setters_of Disk_items disk_setters.
Proof. intros i d Hi. do 13 (destruct i as [|i]; [injection Hi as <-; eexists; split; reflexivity|]). done. Qed.
Lemma part_items_setters : setters_of Part_items part_setters.
Proof. intros i d Hi. do 4 (destruct i as [|i]; [injection Hi as <-; eexists; split; reflexivity|]). done. Qed.

Ltac shown Hss Hs k d :=
  let r := fresh "r" in let u := fresh "u" in let E := fresh "E" in let V := fresh "V" in
  destruct (shown_value _ _ _ _ k d Hss Hs eq_refl) as (r & u & E & V); injection E as <-.

Lemma counters_range l : dline_ok l -> Forall (fun v => 0 <= v <= ULONG_MAX) (counters (dl_data l)).
Proof. by intros (_ & _ & _ & _ & _ & H & _). Qed.

Lemma class_i32 ty : is_class ty -> i32 ty = ty.
Proof. by intros [->| ->]. Qed.

Lemma disk_of_shown stamp l nd s : dline_ok l -> row stamp l nd -> shows Item_table Disk_items nd s ->
  disk_of s = Some (disk_view (type_ nd) l).
Proof.
  intros Hok (Hn & Hd & _ & Hty) Hs. pose proof (proj1 Hs) as Hp. apply (f_equal length) in Hp. rewrite length_map in Hp.
  change (length (_ ++ _)) with 14%nat in Hp. apply counters_range in Hok. unfold counters, ULONG_MAX in Hok. rewrite !Forall_cons in Hok.
  destruct Hok as (H1 & H2 & H3 & H4 & H5 & H6 & H7 & H8 & H9 & H10 & H11 & _).
  do 14 (destruct s as [|?r s]; [done|]). destruct s; [|done]. pose proof disk_items_setters as Hss.
  shown Hss Hs 0%nat DEV_type. shown Hss Hs 1%nat DEV_name. shown Hss Hs 2%nat (REG_set ul_int Diskstats.reads).
  shown Hss Hs 3%nat (REG_set ul_int reads_merged). shown Hss Hs 4%nat (REG_set ul_int Diskstats.read_sectors).
  shown Hss Hs 5%nat (REG_set ul_int read_time). shown Hss Hs 6%nat (REG_set ul_int Diskstats.writes).
  shown Hss Hs 7%nat (REG_set ul_int writes_merged). shown Hss Hs 8%nat (REG_set ul_int write_sectors).
  shown Hss Hs 9%nat (REG_set ul_int write_time). shown Hss Hs 10%nat (REG_set s_int io_inprogress).
  shown Hss Hs 11%nat (REG_set ul_int io_time). shown Hss Hs 12%nat (REG_set ul_int io_wtime).
  clear Hs Hss Hp. unfold disk_of. cbn [map].
  repeat match goal with V : r_result _ = _ |- _ => rewrite V; clear V end.
  unfold run_setter, set_as, set_ul_int, set_str. rewrite !get_set_s_int. cbn [get_ul_int get_str].
  rewrite Hn, Hd, (class_i32 _ Hty). unfold disk_view. rewrite !wrap_u_small by lia. done.
Qed.

(** The line of a partition. *)
Definition part_text (d : dev_data) : bytes :=
  padl 21 (dec (Diskstats.reads d)) ++ bs "  " ++ padl 16 (dec (Diskstats.read_sectors d)) ++ bs "  " ++
  padl 10 (dec (Diskstats.writes d)) ++ bs "  " ++ padl 16 (dec (write_sectors d)) ++ newline.

Lemma fmt_d_dec v : 0 <= v -> fmt_d v = dec v.
Proof. intros. unfold fmt_d. by zcase. Qed.

Lemma partition_line_shown stamp l nd s : dline_ok l -> row stamp l nd -> shows Item_table Part_items nd s ->
  partition_line s = Some (part_text (dl_data l)).
Proof.
  intros Hok (_ & Hd & _ & _) Hs. pose proof (proj1 Hs) as Hp. apply (f_equal length) in Hp. rewrite length_map in Hp.
  change (length (_ ++ _)) with 5%nat in Hp. apply counters_range in Hok. unfold counters, ULONG_MAX in Hok. rewrite !Forall_cons in Hok.
  destruct Hok as (H1 & H2 & H3 & H4 & H5 & H6 & H7 & H8 & H9 & H10 & H11 & _).
  do 5 (destruct s as [|?r s]; [done|]). destruct s; [|done]. pose proof part_items_setters as Hss.
  shown Hss Hs 0%nat (REG_set ul_int Diskstats.reads). shown Hss Hs 1%nat (REG_set ul_int Diskstats.read_sectors).
  shown Hss Hs 2%nat (REG_set ul_int Diskstats.writes). shown Hss Hs 3%nat (REG_set ul_int write_sectors).
  clear Hs Hss Hp. unfold partition_line. cbn [map].
  repeat match goal with V : r_result _ = _ |- _ => rewrite V; clear V end.
  unfold run_setter, set_as, set_ul_int. cbn [get_ul_int]. rewrite Hd, !wrap_u_small, !fmt_d_dec by lia. done.
Qed.
End Vmdisks.
