(* ===== verification/Vmreport.v ===== *)
(** * The reports of the vmstat command

    The partition report prints, for each update, the counters of the device in
    /proc/diskstats, and sleeps between updates; the disk summary adds up the
    disks; the main loop of the default report never reads the memory again. *)

From stdpp Require Import base numbers list strings.
From S2P Require Import Prelude Libc Posix Utils Stacks Fetch Keyfile Vmstat Diskstats Stat Vmcmd Vmcalls Vmdisks.
Open Scope Z_scope.

Module Vmreport.
Import Vmcmd Vmdisks.

(** ** Traces *)

(** The lengths of the sleeps, newest first. *)
Fixpoint pauses (t : trace) : list Z :=
  match t with
  | [] => []
  | (CSleep s, _) :: t => s :: pauses t
  | _ :: t => pauses t
  end.

Lemma harmless_trace t t0 : Forall (fun e => harmless e.1) t ->
  printed (t ++ t0) = printed t0 /\ pauses (t ++ t0) = pauses t0.
Proof.
  induction 1 as [|[c r] t Hc _ IH]; [done|]. destruct c; cbn [app printed pauses]; done.
Qed.

(** A call of a module, from a state of vmstat. *)
Lemma wp_lib {A} (m : M unit A) o (w : world vmglobals) Q Q' : only harmless m any ->
  wp m o (World (w_tr w) (w_errno w) tt) Q' ->
  (forall a t e, Q' a (World t e tt) -> printed t = printed (w_tr w) -> pauses t = pauses (w_tr w) ->
     Q a (World t e (w_g w))) ->
  wp (lib m) o w Q.
Proof.
  intros Ho Hm HQ. specialize (Ho o (World (w_tr w) (w_errno w) tt)). unfold wp, wlp, lib, within in *.
  destruct (m o _) as [a [t e []]|w'|c w'|]; try done. destruct Ho as (_ & u & E & Hu). cbn [w_tr w_errno] in *. subst t.
  apply (harmless_trace _ (w_tr w)) in Hu as [H1 H2]. by apply HQ.
Qed.

(** ** Repetition *)

Section updates.
Context {I : Type} (o : os) (g : vmglobals) (body : I -> M vmglobals I) (line : bytes) (J : I -> trace -> Prop).
Context (Hfinite : infinite_updates g = false) (Hmax : num_updates g <= INT_MAX).
Context (Hbody : forall i w, J i (w_tr w) -> w_g w = g -> wp (body i) o w (fun i' w' =>
  J i' (w_tr w') /\ w_g w' = g /\ printed (w_tr w') = printed (w_tr w) ++ line /\ pauses (w_tr w') = pauses (w_tr w))).
Context (Hsleep : forall i t r, J i t -> J i ((CSleep (sleep_time g), r) :: t)).

(** One line for each update, and a sleep between any two. *)
Lemma updates_ok n : forall k rounds i w, J i (w_tr w) -> w_g w = g -> 0 <= k -> num_updates g - k = Z.of_nat n ->
  (n < rounds)%nat ->
  wp (updates body rounds k i) o w (fun i' w' => J i' (w_tr w') /\ w_g w' = g /\
    printed (w_tr w') = printed (w_tr w) ++ concat (replicate n line) /\
    pauses (w_tr w') = replicate (n - 1) (sleep_time g) ++ pauses (w_tr w)).
Proof.
  induction n as [|n IH]; intros k [|rounds] i w Hi Hg Hk Hn Hr; try lia; cbn [updates]; wstep;
    unfold wp at 1; cbn [getg]; rewrite Hg, Hfinite; cbn [orb].
  - destruct (Z.ltb_spec k (num_updates g)); [lia|]. apply wp_ret. cbn. by rewrite app_nil_r.
  - destruct (Z.ltb_spec k (num_updates g)); [|lia]. cbn [negb]. wstep. eapply wp_mono; [by apply Hbody|].
    intros i1 w1 (H1 & Hg1 & Hp1 & Hs1). destruct (Z.eqb_spec k INT_MAX); [lia|]. cbn [negb andb]. wstep.
    unfold when. destruct (Z.ltb_spec (k + 1) (num_updates g)).
    + wstep. wsys r Hr0. apply wp_ret. eapply wp_mono.
      { apply (IH (k + 1) rounds i1); [by apply Hsleep|done|lia|lia|lia]. }
      intros i2 w2 (H2 & Hg2 & Hp2 & Hs2). split; [done|]. split; [done|]. rewrite Hp2, Hs2. cbn [w_tr printed pauses].
      rewrite Hp1, Hs1. split; [cbn; by rewrite <- app_assoc|].
      destruct n as [|n]; [lia|]. replace (S (S n) - 1)%nat with (S n) by lia. replace (S n - 1)%nat with n by lia.
      change (sleep_time g :: pauses (w_tr w)) with ([sleep_time g] ++ pauses (w_tr w)).
      rewrite app_assoc, <- replicate_cons_app. done.
    + apply wp_ret. replace n with 0%nat in * by lia. eapply wp_mono.
      { apply (IH (k + 1) rounds i1); [done|done|lia|lia|lia]. }
      intros i2 w2 (H2 & Hg2 & Hp2 & Hs2). split; [done|]. split; [done|]. rewrite Hp2, Hs2, Hp1, Hs1. cbn.
      by rewrite !app_nil_r.
Qed.
End updates.

(** ** Partitions *)

Definition header_text (nm : bytes) : bytes :=
  padr 10 nm ++ bs " " ++ padl 10 (bs "reads") ++ bs "  " ++ padl 16 (bs "read sectors") ++
  bs "  " ++ padl 10 (bs "writes") ++ bs "  " ++ padl 16 (bs "requested writes") ++ newline.

Section disks.
Context (progname : bytes) (array : string -> Z) (fuel : nat) (o : os) (n : nat) (lines : list Diskstats.dline).
Context (Hsys : Diskstats.disk_system o n lines) (Hfuel : (n + length lines < fuel)%nat).
Context (Hnames : NoDup (map Diskstats.dl_name lines)).
Context (Harray : forall a, 2 * Diskstats.DISKSTATS_logical_end <= array a).

Lemma part_valid : Forall (valid_item Diskstats.Item_table) (take (Z.to_nat MAX_part) Part_items).
Proof. repeat constructor; unfold logical_end; cbn; lia. Qed.
Lemma disk_valid : Forall (valid_item Diskstats.Item_table) (take (Z.to_nat MAX_disk) Disk_items).
Proof. repeat constructor; unfold logical_end; cbn; lia. Qed.

(** The context follows the file and holds what is open beyond [c]. *)
Definition holds (c : handle -> Z) (i : option Diskstats.diskstats_info) (t : trace) : Prop :=
  exists info, i = Some info /\ tracked lines info /\
    forall h, 0 <= handle_val h -> net h t - held (Diskstats.diskstats_fp info) h = c h.

Lemma stdout_run d (w : world vmglobals) Q :
  (forall r e, Q tt (World ((CStdout d, r) :: w_tr w) e (w_g w))) -> wp (stdout d) o w Q.
Proof. intros H. unfold stdout. wstep. wsys r Hr. apply wp_ret. apply H. Qed.

Lemma net_other h c r t : (forall h, effect h (c, r) = 0) -> net h ((c, r) :: t) = net h t.
Proof. intros H. unfold net. cbn [foldr]. by rewrite H. Qed.

Lemma lines_ok l : l ∈ lines -> Diskstats.dline_ok l.
Proof. intros Hl. pose proof (Diskstats.ds_lines _ _ _ Hsys) as H. unfold Diskstats.file_ok in H. rewrite Forall_forall in H. by apply H. Qed.

(** One update of the partition report. *)
Lemma partition_update c l i w : l ∈ lines -> holds c i (w_tr w) ->
  wp ('(s, info) ← lib (Diskstats.procps_diskstats_select fuel i (Diskstats.dl_name l) (array "Part_items") Part_items MAX_part);
      match s with
      | None => xerrx progname (not_found (Diskstats.dl_name l))
      | Some s => t ← deref (partition_line s); _ ← stdout t; mret info
      end) o w (fun i' w' => holds c i' (w_tr w') /\ w_g w' = w_g w /\
    printed (w_tr w') = printed (w_tr w) ++ part_text (Diskstats.dl_data l) /\ pauses (w_tr w') = pauses (w_tr w)).
Proof.
  intros Hl (info & -> & Ht & Hc). wstep. eapply wp_lib; [apply Disks.only_disk_select| |].
  { apply (select_tracked o n lines fuel Hsys Hfuel Hnames info _ Part_items MAX_part l);
      [done|done|apply Harray|by cbn|apply part_valid]. }
  intros res t e (s & info' & nd & -> & Ht' & Hrow & Hsh & Hb) Hp Hs. cbn [w_tr] in Hb.
  rewrite (partition_line_shown _ l nd s (lines_ok l Hl) Hrow Hsh). wstep. apply wp_ret. wstep. apply stdout_run. intros r e'.
  apply wp_ret. cbn [w_tr w_g printed pauses]. rewrite Hp, Hs. split; [|done]. exists info'. split; [done|]. split; [done|].
  intros h Hh. rewrite net_other by (by intros []). rewrite Hb by done. cbn [w_tr]. by apply Hc.
Qed.

(** C27: the partition report: on a system with a fixed /proc/diskstats, for a
    device that is listed there, it prints its header and then, for each of the
    updates asked for, a line with the four counters of the device; it sleeps
    once between any two updates, finishes, and leaves nothing open. *)
Theorem diskpartition_report l rounds w : l ∈ lines ->
  infinite_updates (w_g w) = false -> 0 <= num_updates (w_g w) <= INT_MAX -> (Z.to_nat (num_updates (w_g w)) < rounds)%nat ->
  wp (diskpartition_format progname array fuel rounds (Diskstats.dl_name l)) o w (fun _ w' =>
    let updates := Z.to_nat (num_updates (w_g w)) in
    printed (w_tr w') = printed (w_tr w) ++ header_text (Diskstats.dl_name l) ++
                        concat (replicate updates (part_text (Diskstats.dl_data l))) /\
    pauses (w_tr w') = replicate (updates - 1) (sleep_time (w_g w)) ++ pauses (w_tr w) /\
    forall h, 0 <= handle_val h -> net h (w_tr w') = net h (w_tr w)).
Proof.
  intros Hl Hinf Hnum Hr. unfold diskpartition_format. wstep. eapply wp_lib; [apply Disks.only_new|by apply (new_tracked o n lines)|].
  intros res t e (info & -> & Ht & Hnet) Hp Hs. cbn [Z.ltb Z.compare w_tr] in *. wstep.
  eapply wp_lib; [apply Disks.only_get|by apply (get_tracked o n lines fuel Hsys Hfuel Hnames info DISKSTATS_TYPE (Diskstats.dl_name l))|].
  cbn [w_tr w_g]. intros [got i] t1 e1 (info1 & Hi & Ht1 & Hgot & Hb) Hp1 Hs1. cbn [fst snd w_tr] in *. subst i.
  destruct got as [got|]; [|destruct (proj1 Hgot eq_refl); by apply list_elem_of_fmap_2].
  wstep. apply stdout_run. intros r e2. cbn [w_tr w_g]. wstep.
  eapply wp_mono.
  { apply (updates_ok o (w_g w) _ (part_text (Diskstats.dl_data l)) (holds (fun h => net h (w_tr w))) Hinf (proj2 Hnum)) with (n := Z.to_nat (num_updates (w_g w))).
    - intros i w1 Hi Hg. rewrite <- Hg. by apply partition_update.
    - intros i t2 r2 (i2 & -> & Hi2 & Hn2). exists i2. split; [done|]. split; [done|]. intros h Hh.
      rewrite net_other by (by intros []). by apply Hn2.
    - exists info1. split; [done|]. split; [done|]. intros h Hh. cbn [w_tr]. rewrite net_other by (by intros []).
      rewrite Hb, Hnet by done. done.
    - done.
    - done.
    - lia.
    - done. }
  intros i w1 ((i2 & -> & Hi2 & Hn2) & Hg & Hp2 & Hs2). wstep.
  eapply wp_lib; [apply Disks.only_unref|by apply (unref_tracked o n lines fuel)|].
  intros res t3 e3 Hn3 Hp3 Hs3. apply wp_ret. cbn [w_tr] in *. rewrite Hp3, Hs3, Hp2, Hs2. cbn [w_tr printed pauses].
  rewrite Hp1, Hs1, Hp, Hs. split; [by rewrite <- app_assoc|]. split; [done|].
  intros h Hh. rewrite Hn3, <- (Hn2 h) by done. lia.
Qed.

(** A device that is not listed: the report prints nothing but a message that
    names it, and the command fails. *)
Theorem diskpartition_missing nm rounds w : nm ∉ map Diskstats.dl_name lines -> exists w',
  diskpartition_format progname array fuel rounds nm o w = Exit EXIT_FAILURE w' /\
  printed (w_tr w') = printed (w_tr w) /\
  exists r t, w_tr w' = (CStderr (progname ++ bs ": " ++ not_found nm ++ newline), r) :: t.
Proof.
  intros Hnm. unfold diskpartition_format.
  assert (H : wp (lib (Diskstats.procps_diskstats_new fuel None)) o w (fun res w1 => exists info,
    res = (0, Some info) /\ tracked lines info /\ printed (w_tr w1) = printed (w_tr w))).
  { eapply wp_lib; [apply Disks.only_new|by apply (new_tracked o n lines)|]. intros res t e (i & -> & Hi & _) Hp _. eauto. }
  apply wp_done in H as (res & w1 & E1 & info & -> & Ht & Hp).
  assert (H : wp (lib (Diskstats.procps_diskstats_get fuel (Some info) nm DISKSTATS_TYPE)) o w1 (fun res w2 =>
    res.1 = None /\ printed (w_tr w2) = printed (w_tr w1))).
  { eapply wp_lib; [apply Disks.only_get|by apply (get_tracked o n lines fuel Hsys Hfuel Hnames info DISKSTATS_TYPE nm)|].
    intros res t e (i & _ & _ & Hgot & _) Hp' _. split; [by apply Hgot|done]. }
  apply wp_done in H as ([got i] & w2 & E2 & Hgot & Hp2). cbn [fst] in Hgot. subst got.
  eexists. unfold mbind at 1, M_bind at 1. rewrite E1. cbn [Z.ltb Z.compare]. unfold mbind at 1, M_bind at 1. rewrite E2.
  split; [reflexivity|]. split; [cbn [w_tr printed]; congruence|]. by do 2 eexists.
Qed.

(** ** Summary of the disks *)

(** What [disksum_format] adds up, in closed form. *)
Definition total (f : disk -> Z) (ds : list disk) : Z := foldr (fun d s => (if is_disk d then f d else 0) + s) 0 ds.

Definition sums_of (ds : list disk) : disk_sums :=
  DiskSums (total (fun _ => 1) ds) (Z.of_nat (length ds) - total (fun _ => 1) ds)
    (u64 (total disk_READ ds)) (u64 (total disk_READ_MERGE ds)) (u64 (total disk_READ_SECT ds)) (u64 (total disk_READ_TIME ds))
    (u64 (total disk_WRITE ds)) (u64 (total disk_WRITE_MERGE ds)) (u64 (total disk_WRITE_SECT ds)) (u64 (total disk_WRITE_TIME ds))
    (u64 (total (fun d => Z.quot (disk_IO d) 1000) ds)) (u64 (total (fun d => disk_IO_TIME d / 1000) ds))
    (u64 (total (fun d => disk_IO_WTIME d / 1000) ds)).

Lemma disk_total_snoc f ds d : total f (ds ++ [d]) = total f ds + if is_disk d then f d else 0.
Proof. induction ds as [|x ds IH]; cbn [app total foldr]; [lia|]. fold (total f (ds ++ [d])). fold (total f ds). lia. Qed.

Lemma total_count ds : 0 <= total (fun _ => 1) ds <= Z.of_nat (length ds).
Proof. induction ds as [|x ds IH]; cbn [total foldr length]; [lia|]. fold (total (fun _ => 1) ds). destruct (is_disk x); lia. Qed.

Lemma u64_add a b : u64 (u64 a + b) = u64 (a + b).
Proof. unfold wrap_u. by rewrite Zplus_mod_idemp_l. Qed.

Lemma int_ok x : INT_MIN <= x <= INT_MAX -> int x = Some x.
Proof. intros. unfold int. by zcase. Qed.

Lemma add_disk_sums ds d : Z.of_nat (length ds) < INT_MAX -> add_disk (sums_of ds) d = Some (sums_of (ds ++ [d])).
Proof.
  intros Hl. pose proof (total_count ds). unfold add_disk, sums_of.
  cbn [disk_count part_count reads merged_reads read_sectors milli_reading writes merged_writes written_sectors milli_writing
       inprogress_IO milli_spent_IO weighted_milli_spent_IO].
  rewrite length_app, !disk_total_snoc. cbn [length]. destruct (is_disk d); cbn [negb];
    rewrite int_ok by (unfold INT_MIN, INT_MAX in *; lia); cbn [mbind option_bind]; rewrite ?u64_add, ?Z.add_0_r; do 2 f_equal; lia.
Qed.

Lemma sum_disks_ok info ds rest : forall pre, ds = pre ++ rest ->
  (forall j d, ds !! j = Some d -> exists s, disk_stack info j = Some s /\ disk_of s = Some d) ->
  Z.of_nat (length ds) <= INT_MAX ->
  sum_disks (length rest) (length pre) info (sums_of pre) = Some (sums_of ds).
Proof.
  induction rest as [|d rest IH]; intros pre Hds Hst Hmax; cbn [length sum_disks].
  - by rewrite Hds, app_nil_r.
  - destruct (Hst (length pre) d) as (s & E1 & E2); [rewrite Hds; by apply list_lookup_middle|].
    rewrite E1. cbn [mbind option_bind]. rewrite E2. cbn [mbind option_bind].
    rewrite add_disk_sums by (rewrite Hds, length_app in Hmax; cbn in Hmax; lia). cbn [mbind option_bind].
    specialize (IH (pre ++ [d])). rewrite length_app, Nat.add_1_r in IH. apply IH; [by rewrite Hds, <- app_assoc|done|done].
Qed.

(** The devices of the file with their classes. *)
Definition devices (tys : list Z) : list disk := zip_with disk_view tys lines.

Lemma devices_shown info : tracked lines info ->
  reaped Diskstats.Item_table Disk_items (Diskstats.fetch_ext info) (Diskstats.fetch info) (Diskstats.nodes info) ->
  forall j d, devices (map Diskstats.type_ (Diskstats.nodes info)) !! j = Some d ->
  exists s, disk_stack info j = Some s /\ disk_of s = Some d.
Proof.
  intros [_ Hrows _ _] [_ (st & Hst & _ & Hfill)] j d Hj. unfold devices in Hj.
  apply lookup_zip_with_Some in Hj as (ty & l & -> & Hty & Hl).
  rewrite list_lookup_fmap in Hty. destruct (Diskstats.nodes info !! j) as [nd|] eqn:En; [|done]. injection Hty as <-.
  pose proof (Forall2_lookup_lr _ _ _ _ _ _ Hrows Hl En) as Hrow.
  destruct (Hfill j nd En) as (p & s & H1 & H2 & H3). exists s. unfold disk_stack. rewrite Hst. cbn [mbind option_bind].
  rewrite Nat.add_0_l in H1. rewrite H1. cbn [mbind option_bind]. split; [done|].
  apply (disk_of_shown (Diskstats.new_stamp info)); [|done|done]. apply lines_ok. by eapply list_elem_of_lookup_2.
Qed.

Lemma put_all_stdout ls : forall (w : world vmglobals), wp (put_all stdout ls) o w (fun _ w' => w_g w' = w_g w /\
  printed (w_tr w') = printed (w_tr w) ++ concat ls /\ pauses (w_tr w') = pauses (w_tr w) /\
  forall h, net h (w_tr w') = net h (w_tr w)).
Proof.
  induction ls as [|l ls IH]; intros w; cbn [put_all concat].
  - apply wp_ret. by rewrite app_nil_r.
  - change (wp (_ ← stdout l; put_all stdout ls) o w (fun _ w' => w_g w' = w_g w /\
      printed (w_tr w') = printed (w_tr w) ++ l ++ concat ls /\ pauses (w_tr w') = pauses (w_tr w) /\
      forall h, net h (w_tr w') = net h (w_tr w))).
    wstep. apply stdout_run. intros r e. eapply wp_mono; [apply IH|]. intros [] w1 (Hg & Hp & Hs & Hn).
    cbn [w_tr w_g printed pauses] in *. rewrite Hg, Hp, Hs, <- app_assoc. split; [done|]. split; [done|]. split; [done|].
    intros h. rewrite Hn. apply net_other. by intros [].
Qed.

End disks.

(** The number of requests in progress is shown in thousands. *)
Lemma inprogress_hidden ds : Forall (fun d => 0 <= disk_IO d < 1000) ds -> inprogress_IO (sums_of ds) = 0.
Proof.
  intros H. cbn [sums_of inprogress_IO]. replace (total _ ds) with 0; [done|].
  induction H as [|d ds Hd _ IH]; cbn [total foldr]; [done|]. fold (total (fun d => Z.quot (disk_IO d) 1000) ds).
  rewrite <- IH. rewrite Z.quot_small by lia. by destruct (is_disk d).
Qed.

(** ** The main loop *)

(** Any call but a read of this descriptor. *)
Definition not_read (fd : Z) (c : call) : Prop := match c with CRead f _ => f <> fd | _ => True end.

Lemma harmless_not_read fd c : harmless c -> not_read fd c.
Proof. by destruct c. Qed.

Lemma own_not_read fd fd' c : fd' <> fd -> own fd' c -> not_read fd c.
Proof. intros Hne [H|[n ->]]; [by apply harmless_not_read|done]. Qed.

Lemma only_within {G H A} (get : G -> H) (put : H -> G -> G) P (m : M H A) Q : only P m Q -> only P (within get put m) Q.
Proof.
  intros Hm o w. specialize (Hm o (World (w_tr w) (w_errno w) (get (w_g w)))). unfold wlp, within in *. by destruct (m o _).
Qed.

Lemma only_print P d : P (CStdout d) -> only P (stdout d : M vmglobals unit) any.
Proof. intros H. unfold stdout. eapply (only_bind _ _ _ any); [by apply only_sys|]. intros r _. by apply only_ret. Qed.
Lemma only_complain P d : P (CStderr d) -> only P (stderr d : M vmglobals unit) any.
Proof. intros H. unfold stderr. eapply (only_bind _ _ _ any); [by apply only_sys|]. intros r _. by apply only_ret. Qed.

Section loop.
Context (progname : bytes) (strftime : bytes -> Z -> option bytes) (garbage : nat -> Stat.hist_tic) (array : string -> Z).
Context (fuel : nat) (kb_per_page fd vfd : Z) (Hvfd : vfd <> -1) (Hne : vfd <> fd).

Abbreviation P := (not_read fd).

Lemma only_when b m : only P m any -> only P (when b m) any.
Proof. intros H. unfold when. destruct b; [done|]. by apply only_ret. Qed.
Hint Resolve only_print only_complain only_when : only_db.
Hint Extern 1 (not_read _ _) => exact I : only_db.

Lemma only_header : only P (new_header strftime) any.
Proof. unfold new_header, header_lines, zone, when. only_tac; apply only_print; exact I. Qed.

Lemma only_header_at i : only P (header_at i (new_header strftime)) any.
Proof. unfold header_at, when. only_tac; apply only_header. Qed.

Lemma only_put_line cols time : only P (put_line cols time) any.
Proof. unfold put_line, when. only_tac; apply only_print; exact I. Qed.

Lemma only_select_stat st name items : only P (select_stat progname garbage array fuel st name items) any.
Proof.
  unfold select_stat, xerrx. eapply (only_bind _ _ _ any).
  { apply only_within. eapply only_imp; [apply Stats.only_stat_select|apply harmless_not_read]. }
  intros [p i] _. destruct p; only_tac.
Qed.

Lemma only_vmstat_get vm item : same_fd vfd vm ->
  only P (VMSTAT_GET fuel vm item) (fun res => same_fd vfd res.2).
Proof.
  intros (i & -> & Hi). unfold VMSTAT_GET. eapply only_bind.
  { apply only_within. eapply only_imp; [apply only_key_get; by rewrite Hi|].
    intros c. apply own_not_read. by rewrite Hi. }
  intros [r i'] Hi'. cbn [snd] in *. apply only_ret. by rewrite <- Hi.
Qed.

Lemma only_get_pages vm : same_fd vfd vm -> only P (get_pages fuel vm) (fun res => same_fd vfd res.2).
Proof.
  intros H. unfold get_pages. do 4 (eapply only_bind; [by apply only_vmstat_get|]; intros [? ?] ?; cbn [snd] in * ).
  by apply only_ret.
Qed.

Lemma only_new_loop rounds : forall i old debt vm st mem, same_fd vfd vm ->
  only P (new_loop progname strftime garbage array fuel rounds i kb_per_page old debt vm st mem) any.
Proof.
  induction rounds as [|rounds IH]; intros i old debt vm st mem Hvm; cbn [new_loop]; [apply only_nofuel|].
  eapply (only_bind _ _ _ any); [apply only_getg|]. intros g _. destruct (negb _); [by apply only_ret|].
  eapply (only_bind _ _ _ any); [by apply only_sys|]. intros _ _.
  eapply (only_bind _ _ _ any); [apply only_header_at|]. intros _ _.
  eapply (only_bind _ _ _ any); [apply only_select_stat|]. intros [s st'] _.
  eapply only_bind; [by apply only_get_pages|]. intros [new vm'] Hvm'. cbn [snd] in Hvm'.
  eapply (only_bind _ _ _ any); [unfold date_if_shown, date; only_tac|]. intros time _.
  eapply (only_bind _ _ _ any); [only_tac|]. intros [cols debt'] _.
  eapply (only_bind _ _ _ any); [apply only_put_line|]. intros _ _. by apply IH.
Qed.
End loop.

Lemma not_read_trace fd t t0 : Forall (fun e => not_read fd e.1) t -> Posix.reads fd (t ++ t0) = Posix.reads fd t0.
Proof.
  induction 1 as [|[c r] t Hc _ IH]; [done|]. destruct c; cbn [app Posix.reads]; try done.
  cbn in Hc. destruct (Z.eqb_spec fd0 fd); [done|]. exact IH.
Qed.

(** The memory columns of a line are those of the stack they are taken from. *)
Lemma loop_line_memory g kb_per_page debt s mem new old cols debt' :
  loop_line g kb_per_page debt s mem new old = Some (cols, debt') -> mem_columns g mem = Some (take 4 (drop 2 cols)).
Proof.
  unfold loop_line. intros H.
  apply bind_Some in H as ([[[pru pbl] int] ctx] & _ & H). apply bind_Some in H as (ms & Hms & H).
  apply bind_Some in H as (rs & _ & H). apply bind_Some in H as ([cs d] & _ & H). injection H as <- <-.
  rewrite Hms. f_equal.
  assert (Hl : length ms = 4%nat).
  { unfold mem_columns in Hms. destruct (map _ mem) as [|? [|? [|? [|? [|? [|? ?]]]]]]; try done.
    apply length_mapM in Hms. done. }
  change (drop 2 (pru :: pbl :: ms ++ rs ++ cs)) with (ms ++ rs ++ cs). by rewrite <- Hl, take_app_length.
Qed.

(** The main loop of the default report reads no file but those of stat.c and
    of the virtual memory: whatever the system does and however many updates
    are made, the descriptor of the memory file is never read again, and the
    memory columns of each line are computed from the stack that was selected
    before the first one. *)
Theorem memory_columns_stale progname strftime garbage array fuel kb_per_page fd rounds i old debt vi st mem o w :
  Keyfile.info_fd vi <> -1 -> Keyfile.info_fd vi <> fd ->
  wlp (new_loop progname strftime garbage array fuel rounds i kb_per_page old debt (Some vi) st mem) o w
    (fun _ w' => Posix.reads fd (w_tr w') = Posix.reads fd (w_tr w)) /\
  forall g debt s new old cols debt', loop_line g kb_per_page debt s mem new old = Some (cols, debt') ->
    mem_columns g mem = Some (take 4 (drop 2 cols)).
Proof.
  intros Hv Hne. split; [|intros; by eapply loop_line_memory].
  eapply wlp_mono.
  { apply (only_new_loop progname strftime garbage array fuel kb_per_page fd (Keyfile.info_fd vi) Hv Hne). by exists vi. }
  intros [vm' st'] w' (_ & t & -> & Ht). by apply not_read_trace.
Qed.
(** ** Witnesses *)

(** A machine with one device, sampled twice at an interval of three seconds. *)
Definition demo_world : world vmglobals := World [] 0 (set_times 3 false 2 start).

Lemma demo_lines : NoDup (map Diskstats.dl_name [Diskstats.sample_line]) /\ Diskstats.sample_line ∈ [Diskstats.sample_line].
Proof. split; [apply NoDup_singleton|by left]. Qed.

Lemma diskpartition_report_witness :
  wp (diskpartition_format (bs "vmstat") (fun _ => 4096) 2 3 (bs "sda")) Diskstats.sample_os demo_world (fun _ w' =>
    printed (w_tr w') = header_text (bs "sda") ++ concat (replicate 2 (part_text (Diskstats.dl_data Diskstats.sample_line))) /\
    pauses (w_tr w') = [3] /\ forall h, 0 <= handle_val h -> net h (w_tr w') = 0).
Proof.
  apply (diskpartition_report (bs "vmstat") (fun _ => 4096) 2 Diskstats.sample_os 0 [Diskstats.sample_line]
    Diskstats.sample_disk_system ltac:(cbn; lia) (proj1 demo_lines) ltac:(intros; rewrite Diskstats.logical_end_27; lia)
    Diskstats.sample_line 3 demo_world (proj2 demo_lines));
    [done|unfold INT_MAX; cbn; lia|cbn; lia].
Defined.

Lemma diskpartition_missing_witness : exists w',
  diskpartition_format (bs "vmstat") (fun _ => 4096) 2 3 (bs "sdb") Diskstats.sample_os demo_world = Exit EXIT_FAILURE w' /\
  printed (w_tr w') = [] /\
  exists r t, w_tr w' = (CStderr (bs "vmstat" ++ bs ": " ++ not_found (bs "sdb") ++ newline), r) :: t.
Proof.
  apply (diskpartition_missing (bs "vmstat") (fun _ => 4096) 2 Diskstats.sample_os 0 [Diskstats.sample_line]
    Diskstats.sample_disk_system ltac:(cbn; lia) (proj1 demo_lines) (bs "sdb") 3 demo_world).
  apply (bool_decide_unpack _). vm_compute. exact I.
Defined.


Definition demo_vm : Vmstat.vmstat_info :=
  Keyfile.KInfo 1 4 (Keyfile.Hist (fun _ => 0) (fun _ => 0)) ext_empty (Result 0 (U64 0)) 0.

Lemma memory_columns_stale_witness :
  wlp (new_loop (bs "vmstat") (fun _ _ => None) (fun _ => Stat.tic_zero) (fun _ => 4096) 5 3 1 4 (Pages 0 0 0 0) 0
         (Some demo_vm) None []) Diskstats.sample_os demo_world (fun _ w' => Posix.reads 5 (w_tr w') = 0%nat) /\
  forall g debt s new old cols debt', loop_line g 4 debt s [] new old = Some (cols, debt') ->
    mem_columns g [] = Some (take 4 (drop 2 cols)).
Proof.
  apply (memory_columns_stale (bs "vmstat") (fun _ _ => None) (fun _ => Stat.tic_zero) (fun _ => 4096) 5 4 5 3 1
           (Pages 0 0 0 0) 0 demo_vm None [] Diskstats.sample_os demo_world); cbn; lia.
Defined.
End Vmreport.
