(* ===== verification/Winattach.v ===== *)
(** * ycattach/windows/jattach.c: the attach on Windows

    The Windows API and the target process are a parameter [wos], a function
    from the history of calls and the next call to what the call returns.  A C
    function is a computation of the monad [W], which hands back the calls it made.  The code of the injected thread runs in the target: it is a
    function of the two entry points of the loader and of the [CallData] that
    was written into the target.  The build is the 64-bit one ([_WIN64]). *)

From stdpp Require Import base numbers list strings.
From S2P Require Import Prelude Libc.
Open Scope Z_scope.

Module Winattach.

(** ** The Windows API *)

Definition WIN_MAX_PATH : nat := 260.
Definition ERROR_ACCESS_DENIED : Z := 5.
Definition INVALID_HANDLE_VALUE : Z := -1.

(** The record written into the target; each array with all its bytes. *)
Record CallData := MkCallData {
  strJvm : bytes;
  strEnqueue : bytes;
  pipeName : bytes;
  args : list bytes
}.

Inductive payload := PCode | PData (d : CallData).

Inductive wcall :=
| WGetTickCount
| WGetLastError
| WCreateNamedPipe (name : bytes)
| WOpenProcess (pid : Z)
| WOpenThreadToken
| WImpersonateSelf
| WLookupPrivilegeValue
| WAdjustTokenPrivileges (tok luid : Z)
| WIsWow64Process (h : Z)
| WVirtualAllocEx (h : Z) (exec : bool)
| WWriteProcessMemory (h addr : Z) (what : payload)
| WVirtualFreeEx (h addr : Z)
| WCreateRemoteThread (h code data : Z)
| WWaitForSingleObject (h : Z)
| WGetExitCodeThread (h : Z)
| WConnectNamedPipe (h : Z)
| WReadFile (h n : Z)
| WCloseHandle (h : Z)
| WStdout (d : bytes).

(** The value of a call (0 is FALSE and NULL), the DWORD, HANDLE, LUID or BOOL
    it stores through a pointer, and the bytes it delivers. *)
Record wret := WRet { wr_val : Z; wr_out : Z; wr_data : bytes }.

Abbreviation wtrace := (list (wcall * wret)).
Definition wos : Type := wtrace -> wcall -> wret.

(** What a computation returns, with the calls it made, newest first. *)
Inductive wout (A : Type) := WDone (a : A) (s : wtrace) | WUndef | WNoFuel.
Arguments WDone {A}.
Arguments WUndef {A}.
Arguments WNoFuel {A}.

Definition W (A : Type) : Type := wos -> wtrace -> wout A.

#[export] Instance W_ret : MRet W := fun A a o t => WDone a [].
#[export] Instance W_bind : MBind W := fun A B f m o t =>
  match m o t with
  | WDone a s =>
      match f a o (s ++ t) with
      | WDone b s' => WDone b (s' ++ s)
      | WUndef => WUndef
      | WNoFuel => WNoFuel
      end
  | WUndef => WUndef
  | WNoFuel => WNoFuel
  end.

Definition win (c : wcall) : W wret := fun o t => let r := o t c in WDone r [(c, r)].
Definition wundef {A} : W A := fun o t => WUndef.
Definition wnofuel {A} : W A := fun o t => WNoFuel.
Definition printf (d : bytes) : W unit := _ ← win (WStdout d); mret tt.

Definition nz (x : Z) : bool := negb (x =? 0).

(** [strcpy] into an array: past its end the behaviour is undefined. *)
Definition strcpy (dst s : bytes) : option bytes :=
  if (length s <? length dst)%nat then Some (s ++ 0 :: drop (S (length s)) dst) else None.

(** ** The thread that runs in the target *)

Section remote.
  (** The loader of the target: a module by its name, a function of a module by
      its name; the function found takes the five strings of the call. *)
Variable GetModuleHandleA : bytes -> Z.
Variable GetProcAddress : Z -> bytes -> option (list bytes -> Z).

Definition alt_name (e : bytes) : bytes :=
    <[24%nat := 0]> (<[23%nat := 48]> (<[22%nat := 50]> (<[21%nat := 64]> e))).

  (** [None]: a string of the record has no end. *)
Definition call_enqueue (f : list bytes -> Z) (d : CallData) : option Z :=
    a ← mapM cstr (args d);
    p ← cstr (pipeName d);
    mret (f (a ++ [p])).

Definition remote_thread_entry (d : CallData) : option Z :=
    jvm ← cstr (strJvm d);
    let libJvm := GetModuleHandleA jvm in
    if libJvm =? 0 then mret 1001 else
    name ← cstr (drop 1 (strEnqueue d));
    match GetProcAddress libJvm name with
    | Some f => call_enqueue f d
    | None =>
        alt ← cstr (alt_name (strEnqueue d));
        match GetProcAddress libJvm alt with
        | Some f => call_enqueue f d
        | None => mret 1002
        end
    end.
End remote.

(** ** jattach.c *)

Definition allocate_code (hProcess : Z) : W Z :=
  r ← win (WVirtualAllocEx hProcess true);
  if nz (wr_val r) then
    _ ← win (WWriteProcessMemory hProcess (wr_val r) PCode);
    mret (wr_val r)
  else mret (wr_val r).

(** The record filled in; [d] is what the stack held before. *)
Definition fill_data (d : CallData) (pipe : bytes) (argv : list bytes) : option CallData :=
  j ← strcpy (strJvm d) (bs "jvm");
  e ← strcpy (strEnqueue d) (bs "_JVM_EnqueueOperation");
  p ← strcpy (pipeName d) pipe;
  a ← mapM (fun i => strcpy (nth i (args d) []) (nth i argv [])) (seq 0 4);
  mret (MkCallData j e p a).

Definition allocate_data (d : CallData) (hProcess : Z) (pipe : bytes) (argv : list bytes) : W Z :=
  match fill_data d pipe argv with
  | None => wundef
  | Some data =>
      r ← win (WVirtualAllocEx hProcess false);
      if nz (wr_val r) then
        _ ← win (WWriteProcessMemory hProcess (wr_val r) (PData data));
        mret (wr_val r)
      else mret (wr_val r)
  end.

(** A [DWORD] printed with %d. *)
Definition print_error (msg : bytes) (code : Z) : W unit :=
  printf (msg ++ bs " (error code = " ++ fmt_d (i32 code) ++ bs ")" ++ [10]).

Definition enable_debug_privileges : W Z :=
  tok ← (r ← win WOpenThreadToken;
         if nz (wr_val r) then mret (Some (wr_out r)) else
         i ← win WImpersonateSelf;
         if negb (nz (wr_val i)) then mret None else
         r2 ← win WOpenThreadToken;
         if nz (wr_val r2) then mret (Some (wr_out r2)) else mret None);
  match tok with
  | None => mret 0
  | Some hToken =>
      l ← win WLookupPrivilegeValue;
      if negb (nz (wr_val l)) then mret 0 else
      s ← win (WAdjustTokenPrivileges hToken (wr_out l));
      _ ← win (WCloseHandle hToken);
      mret (if nz (wr_val s) then 1 else 0)
  end.

Definition check_bitness (hProcess : Z) : W Z :=
  r ← win (WIsWow64Process hProcess);
  if nz (wr_val r) && nz (wr_out r) then
    _ ← printf (bs "Cannot attach 64-bit process to 32-bit JVM" ++ [10]);
    mret 0
  else mret 1.

Definition open_process (pid : Z) : W (option Z) :=
  p ← win (WOpenProcess (u32 pid));
  if nz (wr_val p) then mret (Some (wr_val p)) else
  e ← win WGetLastError;
  hProcess ← (if wr_val e =? ERROR_ACCESS_DENIED then
                ok ← enable_debug_privileges;
                if negb (nz ok) then
                  e2 ← win WGetLastError;
                  _ ← print_error (bs "Not enough privileges") (wr_val e2);
                  mret None
                else
                p2 ← win (WOpenProcess (u32 pid));
                mret (Some (wr_val p2))
              else mret (Some 0));
  match hProcess with
  | None => mret None
  | Some h =>
      if nz h then mret (Some h) else
      e3 ← win WGetLastError;
      _ ← print_error (bs "Could not open process") (wr_val e3);
      mret None
  end.

(** The thread and what becomes of it. *)
Definition run_thread (hProcess code data : Z) : W Z :=
  th ← win (WCreateRemoteThread hProcess code data);
  if negb (nz (wr_val th)) then
    e ← win WGetLastError;
    _ ← print_error (bs "Could not create remote thread") (wr_val e);
    mret 0
  else
  _ ← printf (bs "Connected to remote process" ++ [10]);
  _ ← win (WWaitForSingleObject (wr_val th));
  ec ← win (WGetExitCodeThread (wr_val th));
  success ← (if nz (wr_out ec) then
               _ ← print_error (bs "Attach is not supported by the target process") (wr_out ec);
               mret 0
             else mret 1);
  _ ← win (WCloseHandle (wr_val th));
  mret success.

Definition inject_thread (d : CallData) (pid : Z) (pipe : bytes) (argv : list bytes) : W Z :=
  hp ← open_process pid;
  match hp with
  | None => mret 0
  | Some hProcess =>
      ok ← check_bitness hProcess;
      if negb (nz ok) then
        _ ← win (WCloseHandle hProcess);
        mret 0
      else
      code ← allocate_code hProcess;
      data ← (if nz code then allocate_data d hProcess pipe argv else mret 0);
      if negb (nz data) then
        e ← win WGetLastError;
        _ ← print_error (bs "Could not allocate memory in target process") (wr_val e);
        _ ← win (WCloseHandle hProcess);
        mret 0
      else
      success ← run_thread hProcess code data;
      _ ← win (WVirtualFreeEx hProcess code);
      _ ← win (WVirtualFreeEx hProcess data);
      _ ← win (WCloseHandle hProcess);
      mret success
  end.

(** The [do] loop: the bytes of the last read are printed before the next. *)
Fixpoint mirror_pipe (fuel : nat) (hPipe : Z) (chunk : bytes) : W unit :=
  match fuel with
  | O => wnofuel
  | S fuel =>
      _ ← printf chunk;
      r ← win (WReadFile hPipe 8192);
      if nz (wr_val r) then mirror_pipe fuel hPipe (wr_data r) else mret tt
  end.

Definition read_response (fuel : nat) (hPipe : Z) : W Z :=
  _ ← win (WConnectNamedPipe hPipe);
  r ← win (WReadFile hPipe 8191);
  if negb (nz (wr_val r)) then
    e ← win WGetLastError;
    _ ← print_error (bs "Error reading response") (wr_val e);
    mret 1
  else
  match cstr (wr_data r ++ [0]) with
  | None => wundef
  | Some s =>
      _ ← mirror_pipe fuel hPipe (wr_data r);
      mret (atoi s)
  end.

(** [argc] is the length of [argv]. *)
Definition jattach (d : CallData) (fuel : nat) (argv : list bytes) : W Z :=
  match argv with
  | pid :: (_ :: _) as rest =>
      tick ← win WGetTickCount;
      let pipe := bs "\\.\pipe\javatool" ++ fmt_d (i32 (wr_val tick)) in
      p ← win (WCreateNamedPipe pipe);
      if negb (nz (wr_val p)) then
        e ← win WGetLastError;
        _ ← print_error (bs "Could not create pipe") (wr_val e);
        mret 1
      else
      ok ← inject_thread d (atoi pid) pipe (drop 1 argv);
      if negb (nz ok) then
        _ ← win (WCloseHandle (wr_val p));
        mret 1
      else
      _ ← printf (bs "Response code = ");
      result ← read_response fuel (wr_val p);
      _ ← printf [10];
      _ ← win (WCloseHandle (wr_val p));
      mret result
  | _ => mret 1
  end.

(** The arrays of an uninitialised record have the sizes of the declaration. *)
Definition data_sizes (d : CallData) : Prop :=
  length (strJvm d) = 32%nat /\ length (strEnqueue d) = 32%nat /\
  length (pipeName d) = WIN_MAX_PATH /\ map length (args d) = replicate 4 WIN_MAX_PATH.

(** ** Reasoning about computations

    [wwlp m o t Q]: when [m], run after the calls [t], returns, its result and
    its own calls satisfy [Q]. *)

Definition wwlp {A} (m : W A) (o : wos) (t : wtrace) (Q : A -> wtrace -> Prop) : Prop :=
  match m o t with WDone a s => Q a s | _ => True end.

Lemma wwlp_bind {A B} (m : W A) (f : A -> W B) o t Q :
  wwlp m o t (fun a s => wwlp (f a) o (s ++ t) (fun b s' => Q b (s' ++ s))) ->
  wwlp (m ≫= f) o t Q.
Proof. unfold wwlp, mbind, W_bind. destruct (m o t) as [a s| |]; [|done..]. by destruct (f a o (s ++ t)). Qed.

Lemma wwlp_mono {A} (m : W A) o t (Q Q' : A -> wtrace -> Prop) :
  wwlp m o t Q -> (forall a s, Q a s -> Q' a s) -> wwlp m o t Q'.
Proof. unfold wwlp. destruct (m o t); naive_solver. Qed.

Lemma wwlp_done {A} (m : W A) o t Q a s : m o t = WDone a s -> wwlp m o t Q -> Q a s.
Proof. unfold wwlp. by intros ->. Qed.

(** *** Resources: handles of this process, memory of the target *)

Inductive resource := RHandle (h : Z) | RMem (a : Z).

#[export] Instance resource_eq_dec : EqDecision resource.
Proof. solve_decision. Defined.

Definition is_res (k k' : resource) : Z := if decide (k = k') then 1 else 0.

(** What a call that returns NULL or FALSE does not hand out. *)
Definition granted (k : resource) (val : Z) (k' : resource) : Z :=
  if nz val then is_res k k' else 0.

Definition weffect (k : resource) (e : wcall * wret) : Z :=
  match e with
  | ((WCreateNamedPipe _ | WOpenProcess _ | WCreateRemoteThread _ _ _), r) =>
      granted k (wr_val r) (RHandle (wr_val r))
  | (WOpenThreadToken, r) => granted k (wr_val r) (RHandle (wr_out r))
  | (WCloseHandle h, _) => - is_res k (RHandle h)
  | (WVirtualAllocEx _ _, r) => granted k (wr_val r) (RMem (wr_val r))
  | (WVirtualFreeEx _ a, _) => - is_res k (RMem a)
  | _ => 0
  end.

Fixpoint wnet (k : resource) (t : wtrace) : Z :=
  match t with [] => 0 | e :: t => weffect k e + wnet k t end.

(** No [LookupPrivilegeValue] and no allocation in the target failed. *)
Definition clean_event (e : wcall * wret) : bool :=
  match e with
  | ((WLookupPrivilegeValue | WVirtualAllocEx _ _), r) => nz (wr_val r)
  | _ => true
  end.
Definition clean (t : wtrace) : bool := forallb clean_event t.

Lemma wnet_app k s t : wnet k (s ++ t) = wnet k s + wnet k t.
Proof. induction s as [|e s IH]; simpl; [done|]. rewrite IH. lia. Qed.

(** [owns_res m P D]: when [m] returns [a] after clean calls, [P a] holds and it has
    kept the resources [D a]. *)
Definition owns_res {A} (m : W A) (P : A -> Prop) (D : A -> resource -> Z) : Prop := forall o t,
  wwlp m o t (fun a s => clean s = true -> P a /\ forall k, wnet k s = D a k).

Lemma owns_bind {A B} (m : W A) (f : A -> W B) P1 D1 P D :
  owns_res m P1 D1 -> (forall a, P1 a -> owns_res (f a) P (fun b k => D b k - D1 a k)) -> owns_res (m ≫= f) P D.
Proof.
  intros Hm Hf o t. apply wwlp_bind. eapply wwlp_mono; [apply Hm|]. cbn beta.
  intros a s1 H1. unfold wwlp. destruct (f a o (s1 ++ t)) as [b s2| |] eqn:E; [|done..].
  unfold clean. rewrite forallb_app. intros [Hc2 Hc1]%andb_prop. destruct (H1 Hc1) as [HP HD].
  destruct (wwlp_done _ _ _ _ _ _ E (Hf a HP o (s1 ++ t)) Hc2) as [HP2 HD2].
  split; [done|]. intros k. rewrite wnet_app, HD, HD2. lia.
Qed.

Lemma owns_win c : owns_res (win c) (fun r => clean_event (c, r) = true) (fun r k => weffect k (c, r)).
Proof.
  intros o t. unfold wwlp, win. unfold clean. cbn [forallb]. rewrite andb_true_r. intros H.
  split; [done|]. intros k. cbn [wnet]. lia.
Qed.

Lemma owns_ret {A} (a : A) (P : A -> Prop) D : P a -> (forall k, D a k = 0) -> owns_res (mret a) P D.
Proof. intros HP H o t _. split; [done|]. intros k. simpl. by rewrite H. Qed.
Lemma owns_undef {A} (P : A -> Prop) D : owns_res wundef P D.
Proof. by intros o t. Qed.
Lemma owns_nofuel {A} (P : A -> Prop) D : owns_res wnofuel P D.
Proof. by intros o t. Qed.

Lemma owns_mono {A} (m : W A) (P P' : A -> Prop) D D' :
  owns_res m P D -> (forall a, P a -> P' a) -> (forall a k, P a -> D a k = D' a k) -> owns_res m P' D'.
Proof.
  intros Hm HP HD o t. eapply wwlp_mono; [apply Hm|]. intros a s H Hc.
  destruct (H Hc) as [H1 H2]. split; [by apply HP|]. intros k. by rewrite H2, HD.
Qed.

Create HintDb wdb.
#[export] Hint Resolve owns_win : wdb.

Ltac own_leaf :=
  intros; cbn [weffect clean_event negb] in *; unfold granted, nz in *;
  repeat match goal with
  | H : context [Z.eqb ?a ?b] |- _ => destruct (Z.eqb_spec a b); try discriminate H
  | |- context [Z.eqb ?a ?b] => destruct (Z.eqb_spec a b)
  end; cbn [negb] in *; subst; try lia; try congruence.

Ltac own_step :=
  match goal with
  | |- owns_res (mret _) _ _ => apply owns_ret; [try done; own_leaf | own_leaf]
  | |- owns_res wundef _ _ => apply owns_undef
  | |- owns_res wnofuel _ _ => apply owns_nofuel
  | |- owns_res (mbind _ _) _ _ => eapply owns_bind; [solve [eauto with wdb] | intros ? ?; cbn beta in *]
  | |- owns_res (if ?b then _ else _) _ _ => destruct b eqn:?
  | |- owns_res (match ?x with _ => _ end) _ _ => destruct x eqn:?
  | |- owns_res _ _ _ => eapply owns_mono; [solve [eauto with wdb] | try done; own_leaf | own_leaf]
  end.
Ltac own_tac := repeat own_step.

Lemma owns_printf d : owns_res (printf d) (fun _ => True) (fun _ _ => 0).
Proof. unfold printf. own_tac. Qed.
#[export] Hint Resolve owns_printf : wdb.

Lemma owns_print_error m c : owns_res (print_error m c) (fun _ => True) (fun _ _ => 0).
Proof. apply owns_printf. Qed.
#[export] Hint Resolve owns_print_error : wdb.

Lemma owns_allocate_code h : owns_res (allocate_code h) (fun a => a <> 0) (fun a k => is_res k (RMem a)).
Proof. unfold allocate_code. own_tac. Qed.

Lemma owns_allocate_data d h p argv :
  owns_res (allocate_data d h p argv) (fun a => a <> 0) (fun a k => is_res k (RMem a)).
Proof. unfold allocate_data. own_tac. Qed.

Lemma owns_check_bitness h : owns_res (check_bitness h) (fun _ => True) (fun _ _ => 0).
Proof. unfold check_bitness. own_tac. Qed.

Lemma owns_run_thread h c d : owns_res (run_thread h c d) (fun _ => True) (fun _ _ => 0).
Proof.
  unfold run_thread. own_tac.
  all: eapply (owns_bind _ _ (fun _ => True) (fun _ _ => 0)); [|intros ? _]; own_tac.
Qed.
#[export] Hint Resolve owns_allocate_code owns_allocate_data owns_check_bitness owns_run_thread : wdb.

(** The token is closed unless its privilege has no value. *)
Lemma owns_enable : owns_res enable_debug_privileges (fun _ => True) (fun _ _ => 0).
Proof.
  unfold enable_debug_privileges.
  apply (owns_bind _ _ (fun _ => True)
           (fun tok k => match tok with Some h => is_res k (RHandle h) | None => 0 end)).
  - own_tac.
  - intros tok _. own_tac.
Qed.
#[export] Hint Resolve owns_enable : wdb.

Lemma owns_open_process pid : owns_res (open_process pid)
  (fun h => match h with Some h => h <> 0 | None => True end)
  (fun h k => match h with Some h => is_res k (RHandle h) | None => 0 end).
Proof.
  unfold open_process. own_tac.
  apply (owns_bind _ _ (fun _ => True)
           (fun h k => match h with Some h => granted k h (RHandle h) | None => 0 end)).
  - own_tac.
  - intros h _. own_tac.
Qed.
#[export] Hint Resolve owns_open_process : wdb.

Lemma owns_inject d pid pipe argv : owns_res (inject_thread d pid pipe argv) (fun _ => True) (fun _ _ => 0).
Proof.
  unfold inject_thread. own_tac.
  apply (owns_bind _ _ (fun a => a <> 0) (fun a k => is_res k (RMem a))); [|intros ? ?]; own_tac.
Qed.
#[export] Hint Resolve owns_inject : wdb.

Lemma owns_mirror_pipe fuel h chunk : owns_res (mirror_pipe fuel h chunk) (fun _ => True) (fun _ _ => 0).
Proof.
  revert chunk. induction fuel as [|fuel IH]; intros chunk; simpl; own_tac.
Qed.
#[export] Hint Resolve owns_mirror_pipe : wdb.

Lemma owns_read_response fuel h : owns_res (read_response fuel h) (fun _ => True) (fun _ _ => 0).
Proof. unfold read_response. own_tac. Qed.
#[export] Hint Resolve owns_read_response : wdb.

Lemma owns_jattach d fuel argv : owns_res (jattach d fuel argv) (fun _ => True) (fun _ _ => 0).
Proof. unfold jattach. own_tac. Qed.

(** *** The call in the target *)

(** The four strings of the operation, and what the injected thread should do
    with them. *)
Definition four (argv : list bytes) : list bytes := map (fun i => nth i argv []) (seq 0 4).

Definition enqueue_spec (gmh : bytes -> Z) (gpa : Z -> bytes -> option (list bytes -> Z))
    (pipe : bytes) (argv : list bytes) : Z :=
  let lib := gmh (bs "jvm") in
  if lib =? 0 then 1001 else
  match gpa lib (bs "JVM_EnqueueOperation"), gpa lib (bs "_JVM_EnqueueOperation@20") with
  | Some f, _ => f (four argv ++ [pipe])
  | None, Some f => f (four argv ++ [pipe])
  | None, None => 1002
  end.

Definition no_nul (s : bytes) : Prop := Forall (fun c => c <> 0) s.
Definition fits (s : bytes) : Prop := (length s < WIN_MAX_PATH)%nat.

Lemma cstr_strcpy dst s r : no_nul s -> strcpy dst s = Some r -> cstr r = Some s.
Proof.
  unfold strcpy. intros Hs H. destruct (length s <? length dst)%nat; [|done].
  injection H as <-. by apply cstr_app.
Qed.

Lemma strcpy_some dst s n : length dst = n -> (is_Some (strcpy dst s) <-> (length s < n)%nat).
Proof.
  intros <-. unfold strcpy. destruct (Nat.ltb_spec (length s) (length dst)).
  - split; [done|]. eauto.
  - split; [intros []; done|lia].
Qed.

Lemma data_four d : data_sizes d -> exists a b c e, args d = [a; b; c; e] /\
  Forall (fun x : bytes => length x = WIN_MAX_PATH) [a; b; c; e].
Proof.
  intros (_ & _ & _ & H). destruct (args d) as [|a [|b [|c [|e [|? ?]]]]]; try done.
  injection H as H1 H2 H3 H4. exists a, b, c, e. split; [done|]. by repeat constructor.
Qed.

Lemma fill_some d pipe argv : data_sizes d ->
  (is_Some (fill_data d pipe argv) <-> fits pipe /\ Forall fits (four argv)).
Proof.
  intros Hd. pose proof (data_four d Hd) as (a & b & c & e & Ha & Hl).
  destruct Hd as (Hj & He & Hp & _).
  rewrite !Forall_cons in Hl. destruct Hl as (L1 & L2 & L3 & L4 & _).
  apply strcpy_some with (s := bs "jvm") in Hj as [_ Hj]. destruct Hj as [j Ej]; [simpl; lia|].
  apply strcpy_some with (s := bs "_JVM_EnqueueOperation") in He as [_ He]. destruct He as [q Eq]; [simpl; lia|].
  apply strcpy_some with (s := pipe) in Hp.
  apply strcpy_some with (s := nth 0 argv []) in L1.
  apply strcpy_some with (s := nth 1 argv []) in L2.
  apply strcpy_some with (s := nth 2 argv []) in L3.
  apply strcpy_some with (s := nth 3 argv []) in L4.
  unfold fill_data, four, fits. rewrite Ha, Ej, Eq. cbn [seq mapM map nth mbind option_bind].
  rewrite !Forall_cons, Forall_nil, <- Hp, <- L1, <- L2, <- L3, <- L4. clear.
  destruct (strcpy (pipeName d) pipe), (strcpy a _), (strcpy b _), (strcpy c _), (strcpy e _);
    rewrite !is_Some_alt; cbn; tauto.
Qed.

Lemma fill_strings d pipe argv data : data_sizes d -> no_nul pipe -> Forall no_nul (four argv) ->
  fill_data d pipe argv = Some data ->
  strcpy (strJvm d) (bs "jvm") = Some (strJvm data) /\
  strcpy (strEnqueue d) (bs "_JVM_EnqueueOperation") = Some (strEnqueue data) /\
  cstr (pipeName data) = Some pipe /\ mapM cstr (args data) = Some (four argv).
Proof.
  intros Hd Hp Hn H. pose proof (data_four d Hd) as (a & b & c & e & Ha & Hl).
  unfold fill_data, four in *. rewrite Ha in H. cbn [seq map nth] in *.
  rewrite !Forall_cons in Hn. destruct Hn as (N1 & N2 & N3 & N4 & _).
  destruct (strcpy (strJvm d) _) as [j|] eqn:Ej; [|done].
  destruct (strcpy (strEnqueue d) _) as [q|] eqn:Eq; [|done].
  destruct (strcpy (pipeName d) _) as [p|] eqn:Ep; [|done]. cbn [mbind option_bind mapM] in H.
  destruct (strcpy a _) as [a'|] eqn:E1; [|done]. destruct (strcpy b _) as [b'|] eqn:E2; [|done].
  destruct (strcpy c _) as [c'|] eqn:E3; [|done]. destruct (strcpy e _) as [e'|] eqn:E4; [|done].
  injection H as <-. cbn [strJvm strEnqueue pipeName args mapM mbind option_bind].
  by rewrite (cstr_strcpy _ _ _ Hp Ep), (cstr_strcpy _ _ _ N1 E1), (cstr_strcpy _ _ _ N2 E2),
    (cstr_strcpy _ _ _ N3 E3), (cstr_strcpy _ _ _ N4 E4).
Qed.

(** The two names, the second made by writing behind the end of the first. *)
Lemma enqueue_names buf e : length buf = 32%nat -> strcpy buf (bs "_JVM_EnqueueOperation") = Some e ->
  cstr (drop 1 e) = Some (bs "JVM_EnqueueOperation") /\
  cstr (alt_name e) = Some (bs "_JVM_EnqueueOperation@20").
Proof.
  intros H. unfold strcpy. rewrite H. cbn [length bs map String.list_ascii_of_string Nat.ltb Nat.leb].
  intros [= <-]. do 32 (destruct buf as [|? buf]; [done|]). done.
Qed.

Lemma remote_meets_spec gmh gpa d pipe argv data : data_sizes d -> no_nul pipe ->
  Forall no_nul (four argv) -> fill_data d pipe argv = Some data ->
  remote_thread_entry gmh gpa data = Some (enqueue_spec gmh gpa pipe argv).
Proof.
  intros Hd Hp Hn H. destruct (fill_strings _ _ _ _ Hd Hp Hn H) as (Hj & He & Hpn & Ha).
  destruct Hd as (_ & Le & _). destruct (enqueue_names _ _ Le He) as [Hn1 Hn2].
  assert (Hjs : cstr (strJvm data) = Some (bs "jvm")).
  { eapply cstr_strcpy; [|exact Hj]. by repeat constructor. }
  unfold remote_thread_entry, enqueue_spec, call_enqueue.
  rewrite Hjs, Hn1, Hn2, Hpn, Ha. cbn [mbind option_bind].
  destruct (gmh (bs "jvm") =? 0); [done|].
  destruct (gpa _ (bs "JVM_EnqueueOperation")); [done|].
  by destruct (gpa _ (bs "_JVM_EnqueueOperation@20")).
Qed.

(** The record in the target: the last one written. *)
Fixpoint last_data (t : wtrace) : option CallData :=
  match t with
  | [] => None
  | (WWriteProcessMemory _ _ (PData d), _) :: _ => Some d
  | _ :: t => last_data t
  end.

(** The system runs the injected code: the exit code it reports is what
    [remote_thread_entry] returns on the record in the target. *)
Definition runs_injected (o : wos) gmh gpa : Prop := forall t h d c,
  last_data t = Some d -> remote_thread_entry gmh gpa d = Some c ->
  wr_out (o t (WGetExitCodeThread h)) = c.

Lemma wwlp_win c o t (Q : wret -> wtrace -> Prop) : Q (o t c) [(c, o t c)] -> wwlp (win c) o t Q.
Proof. done. Qed.
Lemma wwlp_ret {A} (a : A) o t (Q : A -> wtrace -> Prop) : Q a [] -> wwlp (mret a) o t Q.
Proof. done. Qed.
Lemma wwlp_any {A} (m : W A) o t (Q : A -> wtrace -> Prop) : (forall a s, Q a s) -> wwlp m o t Q.
Proof. intros H. unfold wwlp. destruct (m o t); [apply H|done..]. Qed.

Ltac wwstep := apply wwlp_bind; first [apply wwlp_win | idtac]; cbn beta.

Lemma allocate_data_last d h pipe argv o t :
  wwlp (allocate_data d h pipe argv) o t (fun a s => a <> 0 -> exists data,
    fill_data d pipe argv = Some data /\ last_data (s ++ t) = Some data).
Proof.
  unfold allocate_data. destruct (fill_data d pipe argv) as [data|]; [|done].
  wwstep. unfold nz. destruct (Z.eqb_spec (wr_val (o t (WVirtualAllocEx h false))) 0); cbn [negb].
  - apply wwlp_ret. done.
  - wwstep. apply wwlp_ret. intros _. by exists data.
Qed.

Lemma run_thread_exit h c d o t data : last_data t = Some data ->
  wwlp (run_thread h c d) o t (fun a s => a <> 0 -> exists t1 th, last_data t1 = Some data /\
    wr_out (o t1 (WGetExitCodeThread th)) = 0).
Proof.
  intros Hd. unfold run_thread. wwstep. destruct (negb (nz _)).
  - wwstep. wwstep. apply wwlp_any. intros ? ?. by apply wwlp_ret.
  - wwstep. unfold printf. apply wwlp_bind, wwlp_win, wwlp_ret. wwstep. wwstep. wwstep.
    match goal with |- context [nz (wr_out (o ?t1 (WGetExitCodeThread ?th)))] =>
      unfold nz; destruct (Z.eqb_spec (wr_out (o t1 (WGetExitCodeThread th))) 0) as [E|E] end; cbn [negb].
    + apply wwlp_ret. wwstep. apply wwlp_ret. intros _. eexists _, _. split; [|exact E]. done.
    + wwstep. apply wwlp_any. intros ? ?. apply wwlp_ret. wwstep. by apply wwlp_ret.
Qed.

(** A successful injection: the thread read the record that was filled in for it
    and ended with 0. *)
Lemma inject_exit d pid pipe argv o t :
  wwlp (inject_thread d pid pipe argv) o t (fun a s => a <> 0 -> exists data t1 th,
    fill_data d pipe argv = Some data /\ last_data t1 = Some data /\
    wr_out (o t1 (WGetExitCodeThread th)) = 0).
Proof.
  unfold inject_thread. wwstep. apply wwlp_any. intros [h|] s0; [|by apply wwlp_ret].
  wwstep. apply wwlp_any. intros ok s1. destruct (negb (nz ok)).
  { wwstep. by apply wwlp_ret. }
  wwstep. apply wwlp_any. intros code s2. wwstep.
  apply (wwlp_mono _ _ _ (fun a s => a <> 0 -> exists data, fill_data d pipe argv = Some data /\
    last_data (s ++ s2 ++ s1 ++ s0 ++ t) = Some data)).
  { destruct (nz code); [apply allocate_data_last|by apply wwlp_ret]. }
  intros a s3 Ha. unfold nz. destruct (Z.eqb_spec a 0) as [->|Na]; cbn [negb].
  { wwstep. wwstep. apply wwlp_any. intros ? ?. wwstep. by apply wwlp_ret. }
  destruct (Ha Na) as (data & Hf & Hl). wwstep.
  eapply wwlp_mono; [apply (run_thread_exit _ _ _ _ _ _ Hl)|]. intros r s4 Hr.
  wwstep. wwstep. wwstep. apply wwlp_ret. intros Hn.
  destruct (Hr Hn) as (t1 & th & H1 & H2). by exists data, t1, th.
Qed.

(** *** The response *)

(** What was read from a pipe, and what was printed, oldest first. *)
Fixpoint pipe_bytes (h : Z) (s : wtrace) : bytes :=
  match s with
  | [] => []
  | (WReadFile h' _, r) :: s => pipe_bytes h s ++ (if (h' =? h) && nz (wr_val r) then wr_data r else [])
  | _ :: s => pipe_bytes h s
  end.
Fixpoint wprinted (s : wtrace) : bytes :=
  match s with
  | [] => []
  | (WStdout d, _) :: s => wprinted s ++ d
  | _ :: s => wprinted s
  end.
Fixpoint pipe_reads (h : Z) (s : wtrace) : nat :=
  match s with
  | [] => 0
  | (WReadFile h' _, _) :: s => (if (h' =? h)%Z then 1 else 0) + pipe_reads h s
  | _ :: s => pipe_reads h s
  end.

(** After [t] the writer of the pipe fills at most [n] more reads. *)
Definition pipe_ends (o : wos) (h : Z) (n : nat) (t : wtrace) : Prop :=
  forall s k, (n <= pipe_reads h s)%nat -> wr_val (o (s ++ t) (WReadFile h k)) = 0.

Lemma pipe_ends_cons o h n t e :
  pipe_ends o h n t -> pipe_ends o h (n - pipe_reads h [e]) (e :: t).
Proof.
  intros H s k Hk. change (e :: t) with ([e] ++ t). rewrite app_assoc. apply H.
  assert (pipe_reads h (s ++ [e]) = (pipe_reads h s + pipe_reads h [e])%nat) as ->; [|lia].
  clear. induction s as [|[c r] s IH]; [done|]. destruct c; simpl in *; try apply IH. rewrite IH.
  destruct e as [[] ?]; simpl; lia.
Qed.

Lemma mirror_pipe_spec fuel h : forall n chunk o t, (n < fuel)%nat -> pipe_ends o h n t ->
  exists s, mirror_pipe fuel h chunk o t = WDone tt s /\ wprinted s = chunk ++ pipe_bytes h s.
Proof.
  induction fuel as [|fuel IH]; intros n chunk o t Hf Ht; [lia|].
  apply (pipe_ends_cons _ _ _ _ (WStdout chunk, o t (WStdout chunk))) in Ht.
  cbn [pipe_reads] in Ht. rewrite Nat.sub_0_r in Ht.
  cbn [mirror_pipe]. unfold printf, mbind, W_bind, mret, W_ret, win. cbn [app].
  set (e1 := (WStdout chunk, o t (WStdout chunk))) in *.
  set (r := o (e1 :: t) (WReadFile h 8192)). destruct (nz (wr_val r)) eqn:E.
  - destruct n as [|n].
    { exfalso. pose proof (Ht [] 8192 ltac:(simpl; lia)) as Hz. cbn [app] in Hz.
      change (wr_val r = 0) in Hz. by rewrite Hz in E. }
    destruct (IH n (wr_data r) o ((WReadFile h 8192, r) :: e1 :: t)) as (s & Hs & Hp); [lia| |].
    { apply (pipe_ends_cons _ _ _ _ (WReadFile h 8192, r)) in Ht. cbn [pipe_reads] in Ht.
      rewrite Z.eqb_refl in Ht. by replace (S n - (1 + 0))%nat with n in Ht by lia. }
    rewrite Hs. eexists. split; [done|].
    assert (Hpb : forall h' x, pipe_bytes h' (x ++ [(WReadFile h 8192, r); e1]) =
      (if (h =? h') && nz (wr_val r) then wr_data r else []) ++ pipe_bytes h' x).
    { intros h' x. induction x as [|[c y] x IHx]; [by rewrite app_nil_r|].
      destruct c; simpl in *; try apply IHx. by rewrite IHx, app_assoc. }
    assert (Hwp : forall x, wprinted (x ++ [(WReadFile h 8192, r); e1]) = chunk ++ wprinted x).
    { intros x. induction x as [|[c y] x IHx]; [simpl; by rewrite app_nil_r|].
      destruct c; simpl in *; try apply IHx. by rewrite IHx, app_assoc. }
    rewrite <- app_assoc. cbn [app]. rewrite Hpb, Hwp, Hp, E, Z.eqb_refl. by rewrite ?app_nil_r.
  - eexists. split; [done|]. simpl. by rewrite E, andb_false_r, !app_nil_r.
Qed.

(** ** Properties *)

(** C12: whatever Windows answers, when [jattach] returns it has closed every
    handle it opened and freed all the memory it took in the target, provided the
    lookup of the debug privilege and the two allocations in the target did not
    fail. *)
Theorem win_attach_balanced o d fuel argv result s :
  jattach d fuel argv o [] = WDone result s -> clean s = true -> forall k, wnet k s = 0.
Proof.
  intros H Hc. by destruct (wwlp_done _ _ _ _ _ _ H (owns_jattach d fuel argv o []) Hc).
Qed.


(** The response is printed as it was read, chunk after chunk until the pipe
    ends, and the result is the number its first line starts with. *)
Theorem win_response o h n fuel t :
  pipe_ends o h n t -> (n < fuel)%nat ->
  wr_val (o ((WConnectNamedPipe h, o t (WConnectNamedPipe h)) :: t) (WReadFile h 8191)) <> 0 ->
  exists s first result, read_response fuel h o t = WDone result s /\ wprinted s = pipe_bytes h s /\
    cstr (wr_data (o ((WConnectNamedPipe h, o t (WConnectNamedPipe h)) :: t) (WReadFile h 8191)) ++ [0])
      = Some first /\ result = atoi first.
Proof.
  intros He Hf Hr. unfold read_response, mbind, W_bind, win, mret, W_ret. cbn [app].
  set (e := (WConnectNamedPipe h, _)) in *. set (r := o (e :: t) (WReadFile h 8191)) in *.
  unfold nz. destruct (Z.eqb_spec (wr_val r) 0) as [|Hz]; [done|]. cbn [negb].
  destruct (cstr_line (wr_data r)) as (first & Hc & _). rewrite Hc.
  destruct (mirror_pipe_spec fuel h n (wr_data r) o ((WReadFile h 8191, r) :: e :: t)) as (s & Hs & Hp);
    [done| |].
  { intros s k Hk. change ((WReadFile h 8191, r) :: e :: t) with ([(WReadFile h 8191, r); e] ++ t).
    rewrite app_assoc. apply He. clear - Hk. revert Hk. generalize n.
    induction s as [|[c y] s IH]; intros m Hm; simpl in *; [lia|].
    destruct c; simpl in *; try (apply IH; lia).
    destruct (_ =? h); [|apply IH; lia]. destruct m; [lia|]. apply le_n_S, IH. lia. }
  rewrite Hs. eexists _, first, _. split; [done|]. split; [|done].
  cbn [app]. rewrite ?app_nil_r.
  assert (forall x, wprinted (x ++ [(WReadFile h 8191, r); e]) = wprinted x /\
    pipe_bytes h (x ++ [(WReadFile h 8191, r); e]) = wr_data r ++ pipe_bytes h x) as Hx.
  { intros x. induction x as [|[c y] x [IH1 IH2]]; simpl.
    - rewrite Z.eqb_refl. unfold nz. destruct (Z.eqb_spec (wr_val r) 0); [done|].
      split; [done|]. by rewrite app_nil_r.
    - destruct c; simpl; rewrite ?IH1, ?IH2; split; try done. by rewrite app_assoc. }
  rewrite <- app_assoc. cbn [app]. destruct (Hx s) as [-> ->]. done.
Qed.

(** [CreateNamedPipe] reports failure with INVALID_HANDLE_VALUE, which
    [jattach] does not test: it goes on and opens the target process. *)
Theorem win_pipe_failure_missed o d fuel pid cmd rest result s :
  (forall t name, wr_val (o t (WCreateNamedPipe name)) = INVALID_HANDLE_VALUE) ->
  jattach d fuel (pid :: cmd :: rest) o [] = WDone result s ->
  exists r, (WOpenProcess (u32 (atoi pid)), r) ∈ s.
Proof.
  intros Ho H. apply (wwlp_done _ _ _ (fun _ s => exists r, (WOpenProcess (u32 (atoi pid)), r) ∈ s) _ _ H).
  clear H. unfold jattach.
  wwstep. wwstep. rewrite Ho. cbn [nz negb Z.eqb INVALID_HANDLE_VALUE].
  wwstep. eapply (wwlp_mono _ _ _ (fun _ s => exists r, (WOpenProcess (u32 (atoi pid)), r) ∈ s)).
  - unfold inject_thread, open_process. wwstep. wwstep.
    match goal with |- context [nz ?v] => destruct (nz v) end.
    + apply wwlp_ret. apply wwlp_any. intros a s'. eexists. rewrite !elem_of_app. eauto 10 using list_elem_of_here.
    + apply wwlp_any. intros b s2. apply wwlp_any. intros a s'. eexists. rewrite !elem_of_app. eauto 10 using list_elem_of_here.
  - intros a s1 [r Hr]. apply wwlp_any. intros b s2. exists r. rewrite !elem_of_app. auto.
Qed.

(** The record is filled in without running past an array exactly when the
    name of the pipe and the first four strings of the command are shorter than
    MAX_PATH; nothing in the code checks it. *)
Theorem win_arguments_unchecked d h pipe argv o t : data_sizes d ->
  (allocate_data d h pipe argv o t = WUndef <-> ~ (fits pipe /\ Forall fits (four argv))).
Proof.
  intros Hd. rewrite <- (fill_some d pipe argv Hd). unfold allocate_data.
  destruct (fill_data d pipe argv) as [data|].
  - split; [|intros []; eauto]. unfold mbind, W_bind, win. by destruct (nz _).
  - split; [intros _ []; done|done].
Qed.

(** ** Witnesses

    A target that answers every call and sends one chunk. *)
Definition demo_os (dbg alloc : Z) : wos := fun t c =>
  match c with
  | WGetTickCount => WRet 7 0 []
  | WGetLastError => WRet 5 0 []
  | WCreateNamedPipe _ => WRet 11 0 []
  | WOpenProcess _ => WRet (if existsb (fun e => match e with (WAdjustTokenPrivileges _ _, _) => true | _ => false end) t
                            then 21 else 0) 0 []
  | WOpenThreadToken => WRet 1 61 []
  | WLookupPrivilegeValue => WRet dbg 20 []
  | WIsWow64Process _ => WRet 1 0 []
  | WVirtualAllocEx _ exec => WRet (if exec then 31 else alloc) 0 []
  | WCreateRemoteThread _ _ _ => WRet 51 0 []
  | WReadFile h _ => if pipe_reads h t is O then WRet 1 0 (bs "0 ok") else WRet 0 0 []
  | _ => WRet 1 0 []
  end.

Definition demo_data : CallData :=
  MkCallData (replicate 32 7) (replicate 32 7) (replicate 260 7) (replicate 4 (replicate 260 7)).
Definition demo_argv : list bytes := [bs "42"; bs "threaddump"].

Lemma demo_sizes : data_sizes demo_data.
Proof. by repeat split. Qed.

(** The run of the demonstration. *)
Lemma win_attach_balanced_witness :
  exists r s, jattach demo_data 3 demo_argv (demo_os 1 41) [] = WDone r s /\ r = 0 /\ clean s = true /\
    wnet (RHandle 21) s = 0.
Proof.
  eexists _, _. split; [vm_compute; reflexivity|]. split; [reflexivity|]. split; [reflexivity|].
  eapply (win_attach_balanced (demo_os 1 41) demo_data 3 demo_argv); [vm_compute; reflexivity|reflexivity].
Defined.

Lemma demo_runs : runs_injected (demo_os 1 41) (fun _ => 1) (fun _ _ => Some (fun _ => 0)).
Proof.
  intros t h d c _ H. cbn [demo_os wr_out]. revert H.
  unfold remote_thread_entry, call_enqueue. cbn.
  destruct (cstr (strJvm d)); [|done]. destruct (cstr (drop 1 (strEnqueue d))); [|done]. cbn.
  destruct (mapM cstr (args d)); [|done]. destruct (cstr (pipeName d)); [|done]. cbn. by intros [= <-].
Qed.


Lemma demo_pipe_ends : pipe_ends (demo_os 1 41) 11 1 [].
Proof.
  intros s k H. cbn [demo_os]. rewrite app_nil_r. by destruct (pipe_reads 11 s); [lia|].
Qed.

Lemma win_response_witness : exists s first result,
  read_response 3 11 (demo_os 1 41) [] = WDone result s /\ wprinted s = pipe_bytes 11 s /\
  cstr (bs "0 ok" ++ [0]) = Some first /\ result = atoi first.
Proof. apply (win_response (demo_os 1 41) 11 1 3 []); [apply demo_pipe_ends|lia|by vm_compute]. Defined.

Definition no_pipe_os : wos := fun t c =>
  match c with WCreateNamedPipe _ => WRet INVALID_HANDLE_VALUE 0 [] | _ => WRet 0 0 [] end.

Lemma win_pipe_failure_missed_witness : exists r s, jattach demo_data 3 demo_argv no_pipe_os [] = WDone r s /\
  exists rr, (WOpenProcess (u32 (atoi (bs "42"))), rr) ∈ s.
Proof.
  eexists _, _. split; [vm_compute; reflexivity|].
  eapply (win_pipe_failure_missed no_pipe_os demo_data 3 (bs "42") (bs "threaddump") []);
    [done|vm_compute; reflexivity].
Defined.

Lemma win_arguments_unchecked_witness :
  allocate_data demo_data 1 (bs "p") [replicate 260 65] (demo_os 1 41) [] = WUndef.
Proof.
  apply (win_arguments_unchecked demo_data 1 (bs "p") [replicate 260 65] (demo_os 1 41) []); [apply demo_sizes|].
  intros [_ H]. apply Forall_cons in H as [H _]. revert H. unfold fits, WIN_MAX_PATH. simpl. lia.
Defined.

(** The two ways a resource is lost: when the debug privilege has no value
    the token of the thread stays open, and when the record cannot be allocated
    the code page stays in the target. *)
Theorem win_attach_leaks :
  (exists s, jattach demo_data 3 demo_argv (demo_os 0 41) [] = WDone 1 s /\ wnet (RHandle 61) s = 1) /\
  (exists s, jattach demo_data 3 demo_argv (demo_os 1 0) [] = WDone 1 s /\ wnet (RMem 31) s = 1).
Proof. split; eexists; (split; [vm_compute; reflexivity|vm_compute; reflexivity]). Qed.

End Winattach.
