(* ===== verification/Toptext.v ===== *)
(** * top.c: text, numbers and columns

    The routines that turn values into the text of a column: the multi-byte
    support, justification and truncation, the scaling of memory sizes, counts,
    percentages and times, and the parsing of numbers.  A static buffer is the
    string it holds when the routine returns; [float]s are those of [Real]. *)

From stdpp Require Import base numbers list strings.
From S2P Require Import Prelude Libc Real.
Open Scope Z_scope.

Module Toptext.
Import Real.

Definition SCREENMAX : Z := 512.
Definition SMLBUFSIZ : Z := 128.
Definition COLPADSTR : bytes := [32].
Definition COLPLUSCH : Z := 43.
Definition EU_MAXPFLGS : Z := 76.

(** ** Tables of fields as integers *)

(** [mlen]: the position of the terminating 0; [None] when there is none. *)
Fixpoint mlen (mem : list Z) : option nat :=
  match mem with
  | [] => None
  | x :: mem => if x =? 0 then Some O else S <$> mlen mem
  end.

(** [msch]: the position of [obj] among the first [max] entries. *)
Fixpoint msch (mem : list Z) (obj : Z) (max : nat) : option nat :=
  match max, mem with
  | S max, x :: mem => if x =? obj then Some O else S <$> msch mem obj max
  | _, _ => None
  end.

(** ** Multi-byte strings *)

(** [UTF8_tab]: how long the character is that starts with this byte. *)
Definition UTF8_tab (c : Z) : Z :=
  if c <? 128 then 1 else if c <? 194 then -1 else if c <? 224 then 2
  else if c <? 240 then 3 else if c <? 245 then 4 else -1.

Section utf8.
  (** [wcwidth] of the character [mbtowc] finds in these bytes: the locale's. *)
Variable wcols : bytes -> Z.

Definition utf8_cols (p : bytes) (n : Z) : Z :=
    if 1 <? n then (let w := wcols (take (Z.to_nat n) p) in if w <? 0 then 1 else w) else n.

  (** The loop of [utf8_delta]: the columns of the string, [-1] on a decoding
      error.  [None]: the pointer ran past the end of the string. *)
Fixpoint cols_loop (fuel : nat) (p : bytes) (cnum : Z) : option Z :=
    match fuel, p with
    | _, [] => Some cnum
    | O, _ => None
    | S fuel, c :: _ =>
        let clen := UTF8_tab c in
        if clen <? 0 then Some (-1)
        else if (length p <? Z.to_nat clen)%nat then None
        else cols_loop fuel (drop (Z.to_nat clen) p) (cnum + utf8_cols p clen)
    end.

Definition utf8_delta (str : bytes) : option Z :=
    n ← cols_loop (length str) str 0;
    Some (if n <? 0 then 0 else Z.of_nat (length str) - n).

Fixpoint embody_loop (fuel : nat) (p : bytes) (off width cnum : Z) : option Z :=
    match fuel, p with
    | _, [] => Some off
    | O, _ => None
    | S fuel, c :: _ =>
        let clen := UTF8_tab c in
        if clen <? 0 then Some width
        else
          let cnum := cnum + utf8_cols p clen in
          if width <? cnum then Some off
          else if (length p <? Z.to_nat clen)%nat then None
          else embody_loop fuel (drop (Z.to_nat clen) p) (off + clen) width cnum
    end.

Definition utf8_embody (str : bytes) (width : Z) : option Z :=
    if 0 <? width then embody_loop (length str) str 0 width 0 else Some 0.
End utf8.

(** [%.*s] *)
Definition prec_s (prec : Z) (s : bytes) : bytes :=
  if prec <? 0 then s else take (Z.to_nat prec) s.

(** [%*.*s] and [%-*.*s] with the same width and precision. *)
Definition pad_s (right : bool) (width : Z) (s : bytes) : bytes :=
  let s := prec_s width s in
  let blanks := replicate (Z.to_nat (Z.abs width) - length s) 32 in
  if right && (0 <=? width) then blanks ++ s else s ++ blanks.

Definition justify_pad (str : bytes) (width : Z) (justr : bool) : bytes :=
  snprintf SCREENMAX (pad_s justr width str ++ COLPADSTR).

Definition utf8_justify (wcols : bytes -> Z) (str : bytes) (width : Z) (justr : bool) : option bytes :=
  e ← utf8_embody wcols str width;
  let tmp := snprintf SCREENMAX (prec_s e str) in
  d ← utf8_delta wcols tmp;
  Some (justify_pad tmp (width + d) justr).

Fixpoint proper_loop (fuel : nat) (p : bytes) (tlen cnum col : Z) (tophysical : bool) : option Z :=
  let stop := Some (if tophysical then tlen else cnum) in
  match fuel, p with
  | _, [] => stop
  | O, _ => None
  | S fuel, c :: _ =>
      let clen := UTF8_tab c in
      if clen <? 0 then Some col
      else if (col <? cnum + 1) && tophysical then stop
      else if (length p <? Z.to_nat clen)%nat then None
      else
        let tlen := tlen + clen in
        if (col <? tlen) && negb tophysical then Some cnum
        else proper_loop fuel (drop (Z.to_nat clen) p) tlen (cnum + 1) col tophysical
  end.

Definition utf8_proper_col (str : bytes) (col : Z) (tophysical : bool) : option Z :=
  proper_loop (length str) str 0 0 col tophysical.

(** ** Columns *)

(** [AUTOX_COL]: remember that the column was too narrow. *)
Record autox := Autox { Autox_array : list Z; Autox_found : Z }.

Definition autox_col (f : Z) (a : autox) : autox :=
  if (f <? EU_MAXPFLGS) && (0 <=? f) then Autox (<[Z.to_nat f := 1]> (Autox_array a)) 1 else a.

Definition make_chr (ch width : Z) (justr : bool) : bytes :=
  justify_pad (if ch =? 0 then [] else [ch]) width justr.

(** [buf[width-1] = '+'; buf[width] = 0]: what is then the string, for a buffer
    that held [s]. *)
Definition mark_plus (s : bytes) (width : Z) : bytes :=
  if Z.of_nat (length s) <? width - 1 then s else take (Z.to_nat (width - 1)) s ++ [COLPLUSCH].

(** The end [make_num] and [make_str] share: [text] printed into a buffer of
    [size] bytes, cut when it is wider than the column. *)
Definition make_cut (size : Z) (text : bytes) (width : Z) (justr : bool) (col : Z) (a : autox) : bytes * autox :=
  if width <? snprintf_ret text then
    let width := if (width <=? 0) || (size <=? width) then size - 1 else width in
    (justify_pad (mark_plus (snprintf size text) width) width justr, autox_col col a)
  else (justify_pad (snprintf size text) width justr, a).

Definition make_num (zero_suppress : bool) (num width : Z) (justr : bool) (col : Z) (noz : bool)
    (a : autox) : bytes * autox :=
  if noz && zero_suppress && (num =? 0) then (justify_pad [] width justr, a)
  else make_cut SMLBUFSIZ (fmt_d num) width justr col a.

Definition make_str (str : bytes) (width : Z) (justr : bool) (col : Z) (a : autox) : bytes * autox :=
  make_cut SCREENMAX str width justr col a.

Definition make_str_utf8 (wcols : bytes -> Z) (str : bytes) (width : Z) (justr : bool) (col : Z)
    (a : autox) : option (bytes * autox) :=
  delta ← utf8_delta wcols str;
  if width + delta <? snprintf_ret str then
    e ← utf8_embody wcols str (width - 1);
    let buf := snprintf SCREENMAX (prec_s e str ++ [COLPLUSCH]) in
    delta ← utf8_delta wcols buf;
    Some (justify_pad buf (width + delta) justr, autox_col col a)
  else Some (justify_pad (snprintf SCREENMAX str) (width + delta) justr, a).

(** [%08lx], and dots for the zeros. *)
Fixpoint hex_digits (fuel : nat) (n : Z) (acc : bytes) : bytes :=
  match fuel with
  | O => acc
  | S f => if n <? 16 then hexdigit n :: acc else hex_digits f (n / 16) (hexdigit (n mod 16) :: acc)
  end.
Definition fmt_08lx (n : Z) : bytes :=
  let d := hex_digits 16 n [] in replicate (8 - length d) 48 ++ d.

Definition hex_make (num : Z) (noz : bool) : bytes :=
  let buf := fmt_08lx (u64 num) in
  if noz then map (fun c => if c =? 48 then 46 else c) buf else buf.

(** ** Scaling *)

(** [%.<p>f] *)
Fixpoint low_digits (p : nat) (n : Z) : bytes :=
  match p with O => [] | S p => low_digits p (n / 10) ++ [48 + n mod 10] end.

Definition fmt_f (p : nat) (radix x : Z) : bytes :=
  let c := nearest (Z.abs x * 10 ^ Z.of_nat p) one in
  (if x <? 0 then [45] else []) ++ dec (c / 10 ^ Z.of_nat p) ++
  match p with O => [] | _ => radix :: low_digits p (c mod 10 ^ Z.of_nat p) end.

(** [num /= 1024.0] of a [float]. *)
Definition div1024 (x : Z) : Z := rndf (fdiv x (1024 * one)) 1.

Definition Scaled_sfxtab : bytes := bs "kmgtpe".

(** [if (width >= snprintf(...)) goto end_justifies], one attempt after the
    other; when none fits, a question mark. *)
Fixpoint first_fit (width : Z) (cands : list bytes) : bytes :=
  match cands with
  | [] => bs "?"
  | t :: cands => if snprintf_ret t <=? width then snprintf SMLBUFSIZ t else first_fit width cands
  end.

Section scale.
Variable radix : Z.
Variable zero_suppress : bool.

  (** The attempts of [scale_mem] from the scale [i] on. *)
Fixpoint mem_texts (n : nat) (i target num : Z) : list bytes :=
    match n with
    | O => []
    | S n =>
        let t := if i =? 0 then fmt_f 0 radix num
                 else fmt_f 1 radix num ++ [nth (Z.to_nat i) Scaled_sfxtab 0] in
        (if target <=? i then [t] else []) ++ mem_texts n (i + 1) target (div1024 num)
    end.

Definition scale_mem (target num width : Z) (justr : bool) : bytes :=
    justify_pad (if zero_suppress && (num <=? 0) then []
                 else first_fit width (mem_texts 5 0 target num)) width justr.

Fixpoint num_texts (sfx : bytes) (num : Z) : list bytes :=
    match sfx with
    | [] => []
    | c :: sfx =>
        let num := div1024 num in
        [fmt_f 1 radix num ++ [c]; fmt_f 0 radix num ++ [c]] ++ num_texts sfx num
    end.

Definition scale_num (num width : Z) (justr : bool) : bytes :=
    justify_pad (if zero_suppress && (num <=? 0) then []
                 else first_fit width (fmt_f 0 radix num :: num_texts Scaled_sfxtab num)) width justr.

  (** [%*.0f] *)
Definition pad_left (width : Z) (s : bytes) : bytes :=
    let blanks := replicate (Z.to_nat (Z.abs width) - length s) 32 in
    if width <? 0 then s ++ blanks else blanks ++ s.

Definition scale_pcnt (num width : Z) (justr xtra : bool) : bytes :=
    justify_pad (if zero_suppress && (num <=? 0) then []
                 else first_fit width
                        ((if xtra then [fmt_f 3 radix num; fmt_f 2 radix num] else []) ++
                         [fmt_f 1 radix num; pad_left width (fmt_f 0 radix num)])) width justr.

  (** *** Times *)

Definition TICS_AS_SECS : Z := 0.
Definition TICS_AS_MINS : Z := 1.
Definition TICS_AS_HOUR : Z := 2.
Definition TICS_AS_DAY1 : Z := 3.
Definition TICS_AS_DAY2 : Z := 4.
Definition TICS_AS_WEEK : Z := 5.
Definition TICS_AS_LAST : Z := 6.

  (** The attempts of the switch, each with the first label that reaches it; the
      label of the days without hours lies inside the test of the days before. *)
Definition tics_texts (nt target : Z) : list bytes :=
    let cent := nt mod 100 in
    let secs := nt / 100 in
    let mins := secs / 60 in
    let hour := mins / 60 in
    let days := hour / 24 in
    let week := days / 7 in
    let from l (c : bool) t := if (target <=? l) && (0 <=? target) && c then [t] else [] in
    from TICS_AS_SECS (mins <? 361) (dec mins ++ bs ":" ++ two_digits (secs mod 60) ++ bs "." ++ two_digits cent) ++
    from TICS_AS_MINS (mins <? 361) (dec mins ++ bs ":" ++ two_digits (secs mod 60)) ++
    from TICS_AS_HOUR (hour <? 97) (dec hour ++ bs "," ++ two_digits (mins mod 60)) ++
    from TICS_AS_DAY1 (days <? 15) (dec days ++ bs "d+" ++ dec (hour mod 24) ++ bs "h") ++
    from TICS_AS_DAY2 ((days <? 15) || (target =? TICS_AS_DAY2)) (dec days ++ bs "d") ++
    from TICS_AS_WEEK true (dec week ++ bs "w+" ++ dec (days mod 7) ++ bs "d") ++
    from TICS_AS_LAST true (dec week ++ bs "w").

  (** [None]: division by zero. *)
Definition scale_tics (Hertz tics_scaled tics width : Z) (justr : bool) (target : Z) : option bytes :=
    if Hertz =? 0 then None else
    let nt := u64 (tics * 100) / u64 Hertz in
    Some (justify_pad
      (if zero_suppress && (nt <=? 0) then []
       else first_fit width (tics_texts nt (Z.max tics_scaled target))) width justr).
End scale.

(** ** Numbers typed by the user *)

Definition digit_value (c : Z) : Z :=
  if isdigit c then c - 48
  else if (97 <=? c) && (c <=? 122) then c - 87
  else if (65 <=? c) && (c <=? 90) then c - 55 else 99.

Fixpoint span_base (base : Z) (s : bytes) (v : Z) : Z * bytes :=
  match s with
  | c :: r => if digit_value c <? base then span_base base r (base * v + digit_value c) else (v, s)
  | [] => (v, [])
  end.

(** The value and the rest of a number whose prefix tells its base; whether there
    was a digit. *)
Definition scan_base0 (s : bytes) : Z * bytes * bool :=
  match s with
  | 48 :: 120 :: c :: r | 48 :: 88 :: c :: r =>
      if digit_value c <? 16 then (span_base 16 (c :: r) 0, true) else (0, drop 1 s, true)
  | 48 :: _ => (span_base 8 s 0, true)
  | c :: _ => (span_base 10 s 0, isdigit c)
  | [] => (0, [], false)
  end.

(** [strtol(s, &ep, 0)] and [strtoul(s, &ep, 0)] *)
Definition strtol0 (s : bytes) : strto :=
  let '(neg, r) := scan_sign (skip_spaces s) in
  let '(v, rest, conv) := scan_base0 r in
  if conv : bool then
    let w := if neg then - v else v in
    Strto (Z.max LONG_MIN (Z.min LONG_MAX w)) rest true ((w <? LONG_MIN) || (LONG_MAX <? w))
  else Strto 0 s false false.

Definition strtoul0 (s : bytes) : strto :=
  let '(neg, r) := scan_sign (skip_spaces s) in
  let '(v, rest, conv) := scan_base0 r in
  if conv : bool then
    Strto (if ULONG_MAX <? v then ULONG_MAX else if neg then u64 (- v) else v) rest true (ULONG_MAX <? v)
  else Strto 0 s false false.

(** [strtof]: as [scan_lf], rounded to a [float]. *)
Definition f_number (neg : bool) (whole frac rest : bytes) : lf :=
  match lf_number neg whole frac rest with
  | LfVal _ rest =>
      let v := rndf (dec_value (whole ++ frac) * one) (10 ^ Z.of_nat (length frac)) in
      if 2 ^ 128 * one <=? v then LfOther else LfVal (if neg then - v else v) rest
  | r => r
  end.

Definition strtof (radix : Z) (s : bytes) : lf :=
  let '(neg, s) := scan_sign (skip_spaces s) in
  let '(whole, s) := span_digits s in
  match s with
  | c :: r =>
      if c =? radix then let '(frac, r) := span_digits r in f_number neg whole frac r
      else f_number neg whole [] s
  | [] => f_number neg whole [] s
  end.

(** The other decimal separator. *)
Definition swap_sep (c : Z) : Z := if c =? 46 then 44 else if c =? 44 then 46 else c.

(** The second attempt of [mkfloat]: the text where the first one stopped. *)
Definition swapped (tmp rest : bytes) : bytes :=
  match rest with
  | c :: r => take (length tmp - length rest) tmp ++ swap_sep c :: r
  | [] => tmp
  end.

(** [mkfloat]: whether the text is a number, and the number stored.  [None]: a
    number of a form that is not modelled. *)
Definition mkfloat (radix : Z) (str : bytes) (whole : bool) : option (bool * Z) :=
  if whole then
    let r := strtol0 str in
    let num := of_intf (st_val r) in
    Some (st_conv r && bool_decide (st_rest r = []) && (num <? of_intf INT_MAX), num)
  else
    let tmp := snprintf SMLBUFSIZ str in
    let finish r := match r with
                    | LfOther => None
                    | LfFail => Some (false, 0)
                    | LfVal num rest => Some (bool_decide (rest = []) && (num <? of_intf INT_MAX), num)
                    end in
    match strtof radix tmp with
    | LfOther => None
    | LfFail => finish (match tmp with [] => LfFail | _ => strtof radix (swapped tmp tmp) end)
    | LfVal num [] => finish (LfVal num [])
    | LfVal num rest => finish (strtof radix (swapped tmp rest))
    end.

Definition GET_NUM_BAD : Z := INT_MIN.
Definition GET_NUM_ESC : Z := INT_MIN + 1.
Definition GET_NUM_NOT : Z := INT_MIN + 2.

(** [get_int] and [get_float] of the line the user typed.  [None]: the
    conversion of the number to [int] is undefined, or the number is of a form
    that is not modelled. *)
Definition get_int (line : bytes) (Frames_signal : bool) : option Z :=
  match line with
  | 27 :: _ => Some GET_NUM_ESC
  | _ =>
      if Frames_signal then Some GET_NUM_ESC else
      match line with
      | [] => Some GET_NUM_NOT
      | _ =>
          '(ok, f) ← mkfloat 46 line true;
          if ok : bool then to_int f else Some GET_NUM_BAD
      end
  end.

Definition get_float (radix : Z) (line : bytes) (Frames_signal : bool) : option Z :=
  match line with
  | 27 :: _ => Some (of_intf GET_NUM_ESC)
  | _ =>
      if Frames_signal then Some (of_intf GET_NUM_ESC) else
      match line with
      | [] => Some (of_intf GET_NUM_NOT)
      | _ =>
          '(ok, f) ← mkfloat radix line false;
          if negb ok || (f <? 0) then Some (of_intf GET_NUM_BAD) else Some f
      end
  end.

(** ** Facts about justification *)

Lemma pad_s_length r w s : 0 <= w -> length (pad_s r w s) = Z.to_nat w.
Proof.
  intros Hw. unfold pad_s, prec_s. destruct (Z.ltb_spec w 0); [lia|].
  destruct (r && (0 <=? w)); rewrite length_app, length_replicate, length_take; lia.
Qed.

Lemma justify_pad_eq s w r : 0 <= w <= 510 -> justify_pad s w r = pad_s r w s ++ COLPADSTR.
Proof.
  intros Hw. apply snprintf_fits. rewrite length_app, pad_s_length by lia. simpl. unfold SCREENMAX. lia.
Qed.

(** A string that fits is not cut. *)
Lemma pad_s_fits r w s : Z.of_nat (length s) <= w ->
  pad_s r w s = if r then replicate (Z.to_nat w - length s) 32 ++ s
                else s ++ replicate (Z.to_nat w - length s) 32.
Proof.
  intros Hw. unfold pad_s, prec_s. destruct (Z.ltb_spec w 0); [lia|].
  rewrite take_ge by lia. rewrite Z.abs_eq by lia. destruct (Z.leb_spec 0 w); [|lia].
  by rewrite andb_true_r.
Qed.

(** *** Strings of whole characters *)

Section chars.
Variable wcols : bytes -> Z.

  (** [s] is a sequence of whole characters that take [n] columns. *)
Inductive chars : bytes -> Z -> Prop :=
  | chars_nil : chars [] 0
  | chars_cons c p q n :
      UTF8_tab c = Z.of_nat (length (c :: p)) -> chars q n ->
      chars ((c :: p) ++ q) (utf8_cols wcols (c :: p) (UTF8_tab c) + n).

Lemma utf8_cols_nonneg p n : 0 <= n -> 0 <= utf8_cols wcols p n.
  Proof. intros. unfold utf8_cols. zcase; lia. Qed.

Lemma chars_nonneg s n : chars s n -> 0 <= n.
  Proof.
    induction 1 as [|c p q n Hc Hq IH]; [lia|].
    pose proof (utf8_cols_nonneg (c :: p) (UTF8_tab c) ltac:(lia)). lia.
  Qed.

Lemma chars_app s n t m : chars s n -> chars t m -> chars (s ++ t) (n + m).
  Proof.
    intros Hs Ht. induction Hs as [|c p q n Hc Hq IH]; [done|].
    rewrite <- app_assoc, <- Z.add_assoc. by apply chars_cons.
  Qed.

Lemma chars_ascii c : 0 <= c < 128 -> chars [c] 1.
  Proof.
    intros Hc. replace [c] with ([c] ++ []) by done.
    assert (UTF8_tab c = 1) as E by (unfold UTF8_tab; zcase; lia).
    replace 1 with (utf8_cols wcols [c] (UTF8_tab c) + 0) by (rewrite E; reflexivity).
    apply chars_cons; [by rewrite E|constructor].
  Qed.

Lemma chars_blanks k : chars (replicate k 32) (Z.of_nat k).
  Proof.
    induction k as [|k IH]; [constructor|]. replace (Z.of_nat (S k)) with (1 + Z.of_nat k) by lia.
    apply (chars_app [32]); [apply chars_ascii; lia|done].
  Qed.

Lemma chars_snoc s n c : chars s n -> 0 <= c < 128 -> chars (s ++ [c]) (n + 1).
  Proof. intros Hs Hc. apply chars_app; [done|by apply chars_ascii]. Qed.

  (** The columns of the first character do not depend on what follows it. *)
Lemma utf8_cols_app c p q : UTF8_tab c = Z.of_nat (length (c :: p)) ->
    utf8_cols wcols ((c :: p) ++ q) (UTF8_tab c) = utf8_cols wcols (c :: p) (UTF8_tab c).
  Proof.
    intros Hc. unfold utf8_cols. rewrite Hc, Nat2Z.id, take_app_length, take_ge; done || lia.
  Qed.

Lemma cols_loop_chars s n : chars s n -> forall fuel k, (length s <= fuel)%nat ->
    cols_loop wcols fuel s k = Some (k + n).
  Proof.
    induction 1 as [|c p q n Hc Hq IH]; intros fuel k Hf; [destruct fuel; simpl; f_equal; lia|].
    rewrite length_app in Hf. simpl length in Hf. destruct fuel as [|fuel]; [lia|].
    change ((c :: p) ++ q) with (c :: (p ++ q)). cbn [cols_loop].
    destruct (Z.ltb_spec (UTF8_tab c) 0); [lia|].
    change (c :: (p ++ q)) with ((c :: p) ++ q). rewrite utf8_cols_app by done.
    rewrite !Hc, !Nat2Z.id, length_app, drop_app_length.
    destruct (Nat.ltb_spec (length (c :: p) + length q) (length (c :: p))); [lia|].
    rewrite IH by lia. f_equal. lia.
  Qed.

Lemma utf8_delta_chars s n : chars s n -> utf8_delta wcols s = Some (Z.of_nat (length s) - n).
  Proof.
    intros Hs. unfold utf8_delta. rewrite (cols_loop_chars s n Hs) by done. cbn [mbind option_bind].
    pose proof (chars_nonneg s n Hs). destruct (Z.ltb_spec (0 + n) 0); [lia|]. done.
  Qed.

  (** [utf8_embody] stops between characters, at or before the given column. *)
Lemma embody_loop_chars s n : chars s n -> forall fuel off width k, (length s <= fuel)%nat -> k <= width ->
    exists a b m, s = a ++ b /\ chars a m /\ k + m <= width /\ (b = [] \/ width < k + n) /\
      embody_loop wcols fuel s off width k = Some (off + Z.of_nat (length a)).
  Proof.
    induction 1 as [|c p q n Hc Hq IH]; intros fuel off width k Hf Hk.
    { exists [], [], 0. split_and!; [done|constructor|lia|by left|]. destruct fuel; simpl; f_equal; lia. }
    rewrite length_app in Hf. simpl length in Hf. destruct fuel as [|fuel]; [lia|].
    pose proof (chars_nonneg q n Hq).
    change ((c :: p) ++ q) with (c :: (p ++ q)). cbn [embody_loop].
    destruct (Z.ltb_spec (UTF8_tab c) 0); [lia|].
    change (c :: (p ++ q)) with ((c :: p) ++ q). rewrite utf8_cols_app by done.
    remember (utf8_cols wcols (c :: p) (UTF8_tab c)) as u eqn:Eu.
    destruct (Z.ltb_spec width (k + u)) as [Hw|Hw].
    { exists [], ((c :: p) ++ q), 0. split_and!; [done|constructor|lia|right; lia|f_equal; simpl; lia]. }
    rewrite !Hc, !Nat2Z.id, length_app, drop_app_length.
    destruct (Nat.ltb_spec (length (c :: p) + length q) (length (c :: p))); [lia|].
    destruct (IH fuel (off + Z.of_nat (length (c :: p))) width (k + u)) as (a & b & m & -> & Ha & Hm & Hb & ->);
      [lia|lia|].
    exists ((c :: p) ++ a), b, (u + m). rewrite app_assoc. split_and!; [done|rewrite Eu; by apply chars_cons|lia| |].
    - destruct Hb as [->|Hb]; [by left|right; lia].
    - f_equal. rewrite length_app. lia.
  Qed.

Lemma utf8_embody_chars s n width : chars s n -> 0 <= width ->
    exists a b m, s = a ++ b /\ chars a m /\ m <= width /\ utf8_embody wcols s width = Some (Z.of_nat (length a)).
  Proof.
    intros Hs Hw. unfold utf8_embody. destruct (Z.ltb_spec 0 width).
    - destruct (embody_loop_chars s n Hs (length s) 0 width 0) as (a & b & m & Hab & Ha & Hm & _ & He); [lia..|].
      exists a, b, m. split_and!; [done..|lia|]. rewrite He. f_equal.
    - exists [], s, 0. split_and!; [done|constructor|lia|done].
  Qed.

  (** Justified to its width plus the bytes it has too many, a string fills its
      columns. *)
Lemma justify_chars s n width r : chars s n -> n <= width -> width + (Z.of_nat (length s) - n) <= 510 ->
    chars (justify_pad s (width + (Z.of_nat (length s) - n)) r) (width + 1).
  Proof.
    intros Hs Hn Hl. pose proof (chars_nonneg s n Hs). rewrite justify_pad_eq by lia.
    apply chars_app; [|apply chars_ascii; lia]. rewrite pad_s_fits by lia.
    replace (Z.to_nat (width + (Z.of_nat (length s) - n)) - length s)%nat with (Z.to_nat (width - n)) by lia.
    pose proof (chars_blanks (Z.to_nat (width - n))) as Hb. rewrite Z2Nat.id in Hb by lia. destruct r.
    - replace width with ((width - n) + n) at 2 by lia. by apply chars_app.
    - replace width with (n + (width - n)) at 2 by lia. by apply chars_app.
  Qed.

  (** What follows whole characters is whole characters. *)
Lemma chars_drop a m : chars a m -> forall b n, chars (a ++ b) n -> chars b (n - m).
  Proof.
    induction 1 as [|c p q m Hc Hq IH]; intros b n H; [by rewrite Z.sub_0_r|].
    rewrite <- app_assoc in H. remember ((c :: p) ++ q ++ b) as s eqn:Es. destruct H as [|c' p' q' n' Hc' Hq']; [done|].
    injection Es as -> Es. rewrite Hc in Hc'. apply app_inj_1 in Es as [-> ->]; [|simpl in Hc'; lia]. apply IH in Hq'.
    match goal with |- chars _ ?x => replace x with (n' - m) by lia end. done.
  Qed.

  (** The strings [top] can show in [width] columns: the bytes of what is shown,
      and the blanks, fit its buffers.  A string without multi-byte characters
      always does. *)
Definition short (width : Z) (str : bytes) : Prop :=
    forall p q m, str = p ++ q -> chars p m -> m <= width -> width + (Z.of_nat (length p) - m) <= 508.

Lemma chars_length_ascii s n : chars s n -> Forall (fun c => 0 <= c < 128) s -> n = Z.of_nat (length s).
  Proof.
    induction 1 as [|c p q n Hc Hq IH]; intros Hs; [done|]. apply Forall_app in Hs as [Hcp Hs]. inversion Hcp as [|? ? Hc0 Hp]; subst.
    assert (UTF8_tab c = 1) as E by (unfold UTF8_tab; zcase; lia). rewrite E in Hc. destruct p; [|simpl in Hc; lia].
    rewrite (IH Hs), E. simpl. unfold utf8_cols. simpl. lia.
  Qed.

Lemma short_ascii width s : width <= 508 -> Forall (fun c => 0 <= c < 128) s -> short width s.
  Proof.
    intros Hw Hs p q m -> Hp Hm. apply Forall_app in Hs as [Hs _]. rewrite (chars_length_ascii p m Hp Hs) in *. lia.
  Qed.

Lemma short_length width s : width + Z.of_nat (length s) <= 508 -> short width s.
  Proof. intros Hw p q m -> Hp _. pose proof (chars_nonneg p m Hp). rewrite length_app in Hw. lia. Qed.

Lemma chars_of_ascii s : Forall (fun c => 0 <= c < 128) s -> chars s (Z.of_nat (length s)).
  Proof.
    induction 1 as [|c s Hc Hs IH]; [constructor|]. replace (Z.of_nat (length (c :: s))) with (1 + Z.of_nat (length s)) by (simpl; lia).
    by apply (chars_app [c]); [apply chars_ascii|].
  Qed.
End chars.

(** *** Division by 1024 *)

Lemma nearest_scale n d k : 0 < d -> 0 < k -> nearest (n * k) (d * k) = nearest n d.
Proof.
  intros Hd Hk. unfold nearest. rewrite Z.div_mul_cancel_r, Zmult_mod_distr_r by lia.
  set (q := n / d). set (r := n mod d).
  assert (H1 : (2 * (r * k) <? d * k) = (2 * r <? d)) by (zcase; try done; nia).
  assert (H2 : (d * k <? 2 * (r * k)) = (d <? 2 * r)) by (zcase; try done; nia).
  by rewrite H1, H2.
Qed.

(** A [float] that is a multiple of 2 ^ -139 is divided exactly. *)
Lemma div1024_exact m e : Z.abs m < 2 ^ 24 -> 935 <= e -> div1024 (m * 2 ^ e) = m * 2 ^ (e - 10).
Proof.
  intros Hm He. unfold div1024, fdiv, rnd, rndf.
  assert (2 ^ e = 2 ^ (e - 10) * 1024) as ->.
  { change 1024 with (2 ^ 10). rewrite <- Z.pow_add_r by lia. f_equal. lia. }
  pose proof one_pos.
  replace (m * (2 ^ (e - 10) * 1024) * one) with (m * 2 ^ (e - 10) * (1024 * one)) by ring.
  rewrite round_exact by lia.
  replace (m * 2 ^ (e - 10)) with (m * 2 ^ (e - 10) * 1) at 1 by ring. by rewrite round_exact by lia.
Qed.

(** What is shown of [n] KiB at the scale [i]: a whole number of KiB, else tenths
    of the unit, rounded to the nearest. *)
Definition mem_shown (radix n i : Z) : bytes :=
  if i =? 0 then dec n
  else
    let c := nearest (10 * n) (1024 ^ i) in
    dec (c / 10) ++ radix :: [48 + c mod 10] ++ [nth (Z.to_nat i) Scaled_sfxtab 0].

(** [n] KiB as a [float], divided [i] times. *)
Definition kib (m e i : Z) : Z := m * 2 ^ (e + 1074 - 10 * i).

Lemma kib_next m e i : 0 <= m < 2 ^ 24 -> 0 <= e -> 0 <= i <= 10 -> div1024 (kib m e i) = kib m e (i + 1).
Proof.
  intros Hm He Hi. unfold kib. rewrite div1024_exact by lia. f_equal. f_equal. lia.
Qed.

Lemma kib_scaled m e i p : 0 <= m -> 0 <= e -> 0 <= i <= 10 ->
  nearest (Z.abs (kib m e i) * 10 ^ p) one = nearest (10 ^ p * (m * 2 ^ e)) (1024 ^ i).
Proof.
  intros Hm He Hi. unfold kib, one. change 1024 with (2 ^ 10). rewrite <- Z.pow_mul_r by lia.
  rewrite Z.abs_eq by (apply Z.mul_nonneg_nonneg; [lia|apply Z.pow_nonneg; lia]).
  rewrite <- (nearest_scale (10 ^ p * (m * 2 ^ e)) (2 ^ (10 * i)) (2 ^ (1074 - 10 * i)))
    by (apply Z.pow_pos_nonneg; lia).
  rewrite <- Z.pow_add_r by lia. replace (10 * i + (1074 - 10 * i)) with 1074 by lia. f_equal.
  replace (e + 1074 - 10 * i) with (e + (1074 - 10 * i)) by lia. rewrite Z.pow_add_r by lia. ring.
Qed.

Lemma kib_nonneg m e i : 0 <= m -> 0 <= kib m e i.
Proof. intros. unfold kib. apply Z.mul_nonneg_nonneg; [lia|apply Z.pow_nonneg; lia]. Qed.

Lemma mem_texts_shown radix m e target n i : 0 <= m < 2 ^ 24 -> 0 <= e -> 0 <= i -> Z.of_nat n + i <= 5 ->
  mem_texts radix n i target (kib m e i) =
  map (mem_shown radix (m * 2 ^ e)) (filter (fun j => target <= j) (seqZ i (Z.of_nat n))).
Proof.
  intros Hm He. revert i. induction n as [|n IH]; intros i Hi Hn; [done|].
  rewrite (seqZ_cons i) by lia. cbn [mem_texts]. rewrite kib_next, (IH (i + 1)) by lia.
  replace (Z.pred (Z.of_nat (S n))) with (Z.of_nat n) by lia. change (Z.succ i) with (i + 1).
  rewrite filter_cons.
  assert (Ht : (if i =? 0 then fmt_f 0 radix (kib m e i)
                else fmt_f 1 radix (kib m e i) ++ [nth (Z.to_nat i) Scaled_sfxtab 0])
               = mem_shown radix (m * 2 ^ e) i).
  { unfold fmt_f, mem_shown. pose proof (kib_nonneg m e i ltac:(lia)).
    destruct (Z.ltb_spec (kib m e i) 0); [lia|]. rewrite !kib_scaled by lia.
    destruct (Z.eqb_spec i 0) as [->|].
    - change (10 ^ Z.of_nat 0 * (m * 2 ^ e)) with (1 * (m * 2 ^ e)). rewrite Z.mul_1_l.
      change (1024 ^ 0) with 1. rewrite <- (Z.mul_1_r (m * 2 ^ e)) at 1. rewrite nearest_exact by lia.
      cbn [app]. rewrite app_nil_r. change (10 ^ Z.of_nat 0) with 1. by rewrite Z.div_1_r.
    - change (10 ^ Z.of_nat 1) with 10. cbn [app low_digits].
      set (c := nearest _ _). by rewrite <- app_assoc, Z.mod_mod by lia. }
  rewrite Ht. destruct (Z.leb_spec target i), (decide (target <= i)); done || lia.
Qed.

(** The attempt that is kept: the first one that fits. *)
Lemma first_fit_spec width cands : width < 127 ->
  (exists k, cands !! k = Some (first_fit width cands) /\
     snprintf_ret (first_fit width cands) <= width /\
     forall j t, (j < k)%nat -> cands !! j = Some t -> width < snprintf_ret t) \/
  (first_fit width cands = bs "?" /\ Forall (fun t => width < snprintf_ret t) cands).
Proof.
  intros Hw. induction cands as [|t cands IH]; [by right|]. cbn [first_fit].
  destruct (Z.leb_spec (snprintf_ret t) width) as [Ht|Ht].
  - left. unfold snprintf_ret in *. rewrite snprintf_fits by (unfold SMLBUFSIZ; lia).
    exists O. split_and!; [done|done|lia].
  - destruct IH as [(k & H1 & H2 & H3)|[H1 H2]].
    + left. exists (S k). split_and!; [done|done|]. intros [|j] x Hj Hx; [by simplify_eq/=|].
      apply (H3 j); [lia|done].
    + right. by split; [|constructor].
Qed.

(** *** Numbers read back *)

Lemma dec_go_first fuel n acc : 0 < n < 2 ^ Z.of_nat fuel ->
  exists c r, dec_go fuel n acc = c :: r /\ 49 <= c <= 57.
Proof.
  revert n acc. induction fuel as [|fuel IH]; intros n acc Hn; [simpl in Hn; lia|].
  cbn [dec_go]. destruct (Z.ltb_spec n 10); [exists (48 + n), acc; split; [done|lia]|].
  apply IH. split; [apply Z.div_str_pos; lia|]. apply Z.div_lt_upper_bound; [lia|].
  rewrite Nat2Z.inj_succ, Z.pow_succ_r in Hn by lia. lia.
Qed.

Lemma span_base_digits ds v : all_digits ds -> span_base 10 ds v = (foldl dec_step v ds, []).
Proof.
  intros H. revert v. induction H as [|c ds Hc Hds IH]; intros v; [done|]. cbn [span_base foldl].
  unfold digit_value. rewrite Hc. apply isdigit_spec in Hc. destruct (Z.ltb_spec (c - 48) 10); [|lia].
  by rewrite IH.
Qed.

Lemma scan_base0_dec n : 0 <= n -> scan_base0 (dec n) = (n, [], true).
Proof.
  intros Hn. destruct (Z.eq_dec n 0) as [->|Hz]; [done|].
  destruct (dec_go_first (S (Z.to_nat (Z.log2 n))) n []) as (c & r & Hd & Hc).
  { pose proof (dec_fuel n Hn). lia. }
  pose proof (dec_digits n Hn) as Hall. pose proof (dec_value_dec n Hn) as Hv.
  unfold dec in *. rewrite Hd in *.
  assert (scan_base0 (c :: r) = (span_base 10 (c :: r) 0, isdigit c)) as ->.
  { destruct c as [|q|q]; [lia| |lia].
    do 6 (destruct q as [q|q|]; try (exfalso; lia); try reflexivity). }
  rewrite span_base_digits by done. unfold dec_value in Hv. rewrite Hv.
  by apply Forall_cons in Hall as [-> _].
Qed.

Lemma strtol0_fmt_d n : LONG_MIN <= n <= LONG_MAX -> strtol0 (fmt_d n) = Strto n [] true false.
Proof.
  intros Hn. unfold strtol0, fmt_d. destruct (Z.ltb_spec n 0).
  - change (skip_spaces (45 :: dec (- n))) with (45 :: dec (- n)).
    change (scan_sign (45 :: dec (- n))) with (true, dec (- n)). cbn beta iota.
    rewrite scan_base0_dec by lia. cbn beta iota. f_equal; [unfold LONG_MIN, LONG_MAX in *; lia|].
    destruct (Z.ltb_spec (- - n) LONG_MIN), (Z.ltb_spec LONG_MAX (- - n)); unfold LONG_MIN, LONG_MAX in *; lia || done.
  - rewrite <- (app_nil_r (dec n)). rewrite skip_spaces_dec, app_nil_r by lia.
    destruct (dec_head n) as (c & r & Hd & Hc); [lia|].
    rewrite Hd. rewrite scan_sign_digit by done. rewrite <- Hd. rewrite scan_base0_dec by lia. cbn beta iota.
    f_equal; [unfold LONG_MIN, LONG_MAX in *; lia|].
    destruct (Z.ltb_spec n LONG_MIN), (Z.ltb_spec LONG_MAX n); lia || done.
Qed.

Lemma of_intf_exact n : Z.abs n < 2 ^ 24 -> of_intf n = n * one.
Proof.
  intros. unfold of_intf, rndf, one. rewrite <- (Z.mul_1_r (n * 2 ^ 1074)) at 1. apply round_exact; lia.
Qed.

(** *** Readings of a time *)

Inductive reading :=
| Clock (m s c : Z) | Minutes (m s : Z) | Hours (h m : Z) | DaysHours (d h : Z)
| Days (d : Z) | WeeksDays (w d : Z) | Weeks (w : Z).

Definition render (r : reading) : bytes :=
  match r with
  | Clock m s c => dec m ++ bs ":" ++ two_digits s ++ bs "." ++ two_digits c
  | Minutes m s => dec m ++ bs ":" ++ two_digits s
  | Hours h m => dec h ++ bs "," ++ two_digits m
  | DaysHours d h => dec d ++ bs "d+" ++ dec h ++ bs "h"
  | Days d => dec d ++ bs "d"
  | WeeksDays w d => dec w ++ bs "w+" ++ dec d ++ bs "d"
  | Weeks w => dec w ++ bs "w"
  end.

(** The hundredths of a second it stands for, and the hundredths of its last unit. *)
Definition reads (r : reading) : Z :=
  match r with
  | Clock m s c => m * 6000 + s * 100 + c
  | Minutes m s => m * 6000 + s * 100
  | Hours h m => h * 360000 + m * 6000
  | DaysHours d h => d * 8640000 + h * 360000
  | Days d => d * 8640000
  | WeeksDays w d => w * 60480000 + d * 8640000
  | Weeks w => w * 60480000
  end.
Definition unit_size (r : reading) : Z :=
  match r with
  | Clock _ _ _ => 1 | Minutes _ _ => 100 | Hours _ _ => 6000 | DaysHours _ _ => 360000
  | Days _ | WeeksDays _ _ => 8640000 | Weeks _ => 60480000
  end.

(** The reading tells the time, to its last unit. *)
Definition tells (r : reading) (nt : Z) : Prop := reads r <= nt < reads r + unit_size r.

Lemma tics_texts_tell nt target : 0 <= nt ->
  Forall (fun t => exists r, t = render r /\ tells r nt) (tics_texts nt target).
Proof.
  intros Hn. unfold tics_texts.
  pose proof (Z.div_mod nt 100 ltac:(lia)). pose proof (Z.mod_pos_bound nt 100 ltac:(lia)).
  set (secs := nt / 100) in *. pose proof (Z.div_mod secs 60 ltac:(lia)).
  pose proof (Z.mod_pos_bound secs 60 ltac:(lia)). set (mins := secs / 60) in *.
  pose proof (Z.div_mod mins 60 ltac:(lia)). pose proof (Z.mod_pos_bound mins 60 ltac:(lia)).
  set (hour := mins / 60) in *. pose proof (Z.div_mod hour 24 ltac:(lia)).
  pose proof (Z.mod_pos_bound hour 24 ltac:(lia)). set (days := hour / 24) in *.
  pose proof (Z.div_mod days 7 ltac:(lia)). pose proof (Z.mod_pos_bound days 7 ltac:(lia)).
  set (week := days / 7) in *.
  assert (Hone : forall b t r, t = render r -> tells r nt ->
    Forall (fun t => exists r, t = render r /\ tells r nt) (if b : bool then [t] else [])).
  { intros [] t r -> Hr; repeat constructor. eauto. }
  unfold tells in *. rewrite !Forall_app. split_and!.
  - eapply (Hone _ _ (Clock mins (secs mod 60) (nt mod 100))); [done|simpl; lia].
  - eapply (Hone _ _ (Minutes mins (secs mod 60))); [done|simpl; lia].
  - eapply (Hone _ _ (Hours hour (mins mod 60))); [done|simpl; lia].
  - eapply (Hone _ _ (DaysHours days (hour mod 24))); [done|simpl; lia].
  - eapply (Hone _ _ (Days days)); [done|simpl; lia].
  - eapply (Hone _ _ (WeeksDays week (days mod 7))); [done|simpl; lia].
  - eapply (Hone _ _ (Weeks week)); [done|simpl; lia].
Qed.

(** What [make_str_utf8] shows of a string of whole characters. *)
Lemma make_str_utf8_shown wcols str n width justr col a :
  chars wcols str n -> 1 <= width -> short wcols width str ->
  exists text a', make_str_utf8 wcols str width justr col a = Some (text, a') /\ chars wcols text (width + 1) /\
    (n <= width -> a' = a) /\
    (width < n -> a' = autox_col col a /\ exists p q m, str = p ++ q /\ chars wcols p m /\
       text = justify_pad (p ++ [COLPLUSCH]) (width + (Z.of_nat (length p) - m)) justr).
Proof.
  intros Hs Hw Hl. unfold make_str_utf8. rewrite (utf8_delta_chars _ _ _ Hs). cbn [mbind option_bind].
  unfold snprintf_ret. destruct (Z.ltb_spec (width + (Z.of_nat (length str) - n)) (Z.of_nat (length str))).
  - destruct (utf8_embody_chars wcols str n (width - 1) Hs) as (p & q & m & -> & Hp & Hm & ->); [lia|].
    cbn [mbind option_bind]. pose proof (Hl p q m eq_refl Hp ltac:(lia)) as Hpl.
    assert (prec_s (Z.of_nat (length p)) (p ++ q) = p) as ->.
    { unfold prec_s. destruct (Z.ltb_spec (Z.of_nat (length p)) 0); [lia|].
      by rewrite Nat2Z.id, take_app_length. }
    rewrite snprintf_fits by (rewrite length_app; simpl; unfold SCREENMAX; lia).
    pose proof (chars_snoc wcols p m COLPLUSCH Hp ltac:(unfold COLPLUSCH; lia)) as Hb.
    rewrite (utf8_delta_chars _ _ _ Hb). cbn [mbind option_bind].
    eexists _, _. split; [done|]. split_and!; [|lia|].
    + apply justify_chars; [done|lia|rewrite length_app; simpl; lia].
    + intros _. split; [done|]. exists p, q, m. split_and!; [done..|]. rewrite length_app. f_equal. simpl. lia.
  - pose proof (Hl str [] n ltac:(by rewrite app_nil_r) Hs ltac:(lia)). rewrite snprintf_fits by (unfold SCREENMAX; lia). eexists _, _. split; [done|].
    split_and!; [apply justify_chars; [done|lia|lia]|done|lia].
Qed.

(** ** Properties *)


(** C23: a memory size of [m * 2 ^ e] KiB is shown at the first scale from the
    target on at which it fits the column, rounded to a tenth of that unit by
    the exact quotient, for the divisions by 1024 lose nothing; when no scale
    fits, a question mark is shown. *)
Theorem scale_mem_first_fit radix m e target width justr :
  0 <= m < 2 ^ 24 -> 0 <= e -> 0 <= target <= 4 -> 1 <= width < 127 ->
  exists text, scale_mem radix false target (kib m e 0) width justr = justify_pad text width justr /\
    let shown := mem_shown radix (m * 2 ^ e) in
    ((exists i, target <= i < 5 /\ text = shown i /\ snprintf_ret text <= width /\
        forall j, target <= j < i -> width < snprintf_ret (shown j)) \/
     (text = bs "?" /\ forall j, target <= j < 5 -> width < snprintf_ret (shown j))).
Proof.
  intros Hm He Ht Hw. unfold scale_mem. cbn [andb]. eexists. split; [done|]. cbv zeta. set (shown := mem_shown radix (m * 2 ^ e)).
  rewrite mem_texts_shown by lia. fold shown. change (seqZ 0 (Z.of_nat 5)) with ([0; 1; 2; 3; 4] : list Z).
  assert (Hf : filter (fun j => target <= j) [0; 1; 2; 3; 4] = seqZ target (5 - target)).
  { assert (target = 0 \/ target = 1 \/ target = 2 \/ target = 3 \/ target = 4) as Hc by lia.
    repeat destruct Hc as [->|Hc]; [done..|]. by rewrite Hc. }
  rewrite Hf. pose proof (first_fit_spec width (map shown (seqZ target (5 - target))) ltac:(lia)) as H.
  assert (Hk : forall k t, map shown (seqZ target (5 - target)) !! k = Some t <->
    t = shown (target + Z.of_nat k) /\ Z.of_nat k < 5 - target).
  { intros k t. rewrite list_lookup_fmap_Some. setoid_rewrite lookup_seqZ. split.
    - intros (x & -> & -> & Hx). done.
    - intros [-> Hx]. exists (target + Z.of_nat k). done. }
  destruct H as [(k & H1 & H2 & H3)|[H1 H2]].
  - left. apply Hk in H1 as [H1 Hlt]. exists (target + Z.of_nat k). split_and!; [lia|lia|done|done|].
    intros j Hj. apply (H3 (Z.to_nat (j - target))); [lia|]. apply Hk.
    split; [f_equal; lia|lia].
  - right. split; [done|]. intros j Hj. rewrite Forall_lookup in H2. apply (H2 (Z.to_nat (j - target))).
    apply Hk. split; [f_equal; lia|lia].
Qed.

(** Whatever format the width leaves for a time, the text reads as the time
    itself, to the last unit it names; only when no format fits is a question
    mark shown. *)
Theorem scale_tics_reads Hertz scaled tics width justr target :
  0 < Hertz <= LONG_MAX -> 0 <= tics -> tics * 100 < 2 ^ 64 -> 1 <= width < 127 ->
  exists text, scale_tics false Hertz scaled tics width justr target = Some (justify_pad text width justr) /\
    (text = bs "?" \/ (snprintf_ret text <= width /\ exists r, text = render r /\ tells r (tics * 100 / Hertz))).
Proof.
  intros Hh Ht Hb Hw. unfold scale_tics. destruct (Z.eqb_spec Hertz 0); [lia|].
  rewrite !wrap_u_small by (unfold LONG_MAX in *; lia). cbn [andb]. eexists. split; [done|].
  set (c := tics_texts _ _). destruct (first_fit_spec width c ltac:(lia)) as [(k & H1 & H2 & _)|[H1 _]]; [|by left].
  right. split; [done|]. pose proof (tics_texts_tell (tics * 100 / Hertz) (Z.max scaled target)) as H.
  rewrite Forall_lookup in H. eapply H; [apply Z.div_pos; lia|exact H1].
Qed.

(** A number that fits its column is shown whole; one that does not loses
    its last digits to a plus sign, and the column is remembered as too narrow. *)
Theorem make_num_column zero num width justr col a :
  LONG_MIN <= num <= LONG_MAX -> 1 <= width < 127 -> 0 <= col < EU_MAXPFLGS ->
  make_num zero num width justr col false a =
  if snprintf_ret (fmt_d num) <=? width then (pad_s justr width (fmt_d num) ++ COLPADSTR, a)
  else (take (Z.to_nat (width - 1)) (fmt_d num) ++ [COLPLUSCH] ++ COLPADSTR,
        Autox (<[Z.to_nat col := 1]> (Autox_array a)) 1).
Proof.
  intros Hn Hw Hc. unfold make_num, make_cut. cbn [andb].
  assert (Hlen : (length (fmt_d num) <= 21)%nat).
  { unfold fmt_d, LONG_MIN, LONG_MAX in *. destruct (Z.ltb_spec num 0); cbn [length].
    - pose proof (dec_length (- num) 20 ltac:(lia) ltac:(lia)). lia.
    - pose proof (dec_length num 20 ltac:(lia) ltac:(lia)). lia. }
  rewrite snprintf_fits by (unfold SMLBUFSIZ; lia). unfold snprintf_ret.
  destruct (Z.ltb_spec width (Z.of_nat (length (fmt_d num)))), (Z.leb_spec (Z.of_nat (length (fmt_d num))) width); try lia.
  - destruct (Z.leb_spec width 0), (Z.leb_spec SMLBUFSIZ width); try (unfold SMLBUFSIZ in *; lia). cbn [orb].
    unfold mark_plus. destruct (Z.ltb_spec (Z.of_nat (length (fmt_d num))) (width - 1)); [lia|].
    rewrite justify_pad_eq by lia. unfold autox_col.
    destruct (Z.ltb_spec col EU_MAXPFLGS), (Z.leb_spec 0 col); try lia. cbn [andb]. f_equal.
    rewrite app_assoc. set (s := take (Z.to_nat (width - 1)) (fmt_d num) ++ [COLPLUSCH]). assert (Hs : length s = Z.to_nat width).
    { unfold s. rewrite length_app, length_take. simpl. lia. }
    rewrite pad_s_fits by lia. rewrite Hs, Nat.sub_diag. cbn [replicate]. rewrite app_nil_r.
    by destruct justr.
  - by rewrite justify_pad_eq by lia.
Qed.

(** An integer of at most 24 bits that the user types is read as itself ... *)
Theorem get_int_exact n : Z.abs n < 2 ^ 24 -> get_int (fmt_d n) false = Some n.
Proof.
  intros Hn. unfold get_int, mkfloat. rewrite strtol0_fmt_d by (unfold LONG_MIN, LONG_MAX; lia).
  cbn [st_val st_conv st_rest]. rewrite bool_decide_true by done. rewrite of_intf_exact by lia.
  assert (to_int (n * one) = Some n) as Ht.
  { unfold to_int. rewrite Z.quot_mul by (pose proof one_pos; lia). unfold INT_MIN, INT_MAX.
    destruct (Z.leb_spec (-2147483648) n), (Z.leb_spec n 2147483647); lia || done. }
  assert ((n * one <? of_intf INT_MAX) = true) as ->.
  { assert (of_intf INT_MAX = 2 ^ 31 * one) as -> by (vm_compute; reflexivity).
    apply Z.ltb_lt. apply Z.mul_lt_mono_pos_r; [apply one_pos|lia]. }
  assert (exists c r, fmt_d n = c :: r /\ (c = 45 \/ 48 <= c <= 57)) as (c & r & Hd & Hc).
  { unfold fmt_d. destruct (Z.ltb_spec n 0); [eauto|].
    destruct (dec_head n) as (c & r & -> & Hi); [lia|]. apply isdigit_spec in Hi. eauto. }
  rewrite Hd. cbn [andb mbind option_bind]. rewrite Ht.
  destruct c as [|q|q]; [lia| |lia]. do 6 (destruct q as [q|q|]; try (exfalso; lia); try reflexivity).
Qed.

(** ... but it goes through a [float]: 16777217 is read as 16777216, and for a
    large negative number the conversion to [int] is undefined. *)
Theorem get_int_through_float :
  get_int (bs "16777217") false = Some 16777216 /\ get_int (bs "-3000000000") false = None.
Proof. split; vm_compute; reflexivity. Qed.

(** ** Witnesses *)

Definition one_col (_ : bytes) : Z := 1.


Lemma scale_mem_first_fit_witness : exists text,
  scale_mem 46 false 0 (kib 12345678 0 0) 6 true = justify_pad text 6 true /\
  let shown := mem_shown 46 (12345678 * 2 ^ 0) in
  ((exists i, 0 <= i < 5 /\ text = shown i /\ snprintf_ret text <= 6 /\
      forall j, 0 <= j < i -> 6 < snprintf_ret (shown j)) \/
   (text = bs "?" /\ forall j, 0 <= j < 5 -> 6 < snprintf_ret (shown j))).
Proof. apply (scale_mem_first_fit 46 12345678 0 0 6 true); lia. Defined.

(** 12345678 KiB in six columns. *)
Example scale_mem_example : scale_mem 46 false 0 (kib 12345678 0 0) 6 true = bs " 11.8g ".
Proof. vm_compute. reflexivity. Qed.

Lemma scale_tics_reads_witness : exists text,
  scale_tics false 100 0 123456 9 true 0 = Some (justify_pad text 9 true) /\
  (text = bs "?" \/ (snprintf_ret text <= 9 /\ exists r, text = render r /\ tells r (123456 * 100 / 100))).
Proof. apply (scale_tics_reads 100 0 123456 9 true 0); unfold LONG_MAX; lia. Defined.

Example scale_tics_example : scale_tics false 100 0 123456 9 true 0 = Some (bs " 20:34.56 ").
Proof. vm_compute. reflexivity. Qed.

Lemma make_num_column_witness :
  make_num false 1234567 5 true 0 false (Autox [0] 0) = (bs "1234+ ", Autox [1] 1).
Proof. rewrite (make_num_column false 1234567 5 true 0 (Autox [0] 0)); [reflexivity|unfold LONG_MIN, LONG_MAX; lia|lia|unfold EU_MAXPFLGS; lia]. Defined.

Lemma get_int_exact_witness : get_int (fmt_d (-20)) false = Some (-20).
Proof. apply (get_int_exact (-20)). lia. Defined.

End Toptext.
