(* ===== verification/Topforest.v ===== *)
(** * top.c: the forest view

    The tasks of a frame are the list [ts], in the order [forest_begin] sorted
    them; a pointer to a stack is its position in that list.  What the code keeps
    in the extra results of a stack (the level, the mark of a collapsed or unseen
    task, the added tics) is an array by position. *)

From stdpp Require Import base numbers list strings sorting.
From S2P Require Import Prelude Libc Toptext.
Open Scope Z_scope.

Module Topforest.

(** The results of a stack the forest view looks at. *)
Record task := Task {
  EU_PID : Z;
  EU_PPD : Z;
  EU_TGD : Z;
  EU_CPU : Z;
  EU_CMD : bytes;
  eu_CMDLINE : bytes
}.

(** [Tree_ppt], as far as it is filled, and the levels; [Tree_idx] is the length
    of the former. *)
Record forest := Forest { Tree_ppt : list nat; TREE_LVL : list Z }.

Section forest.
Variable ts : list task.

Definition PIDSmaxt : nat := length ts.

  (** The value of a field; a position past the end does not occur. *)
Definition rSv (f : task -> Z) (i : nat) : Z := match ts !! i with Some t => f t | None => 0 end.

  (** The test of [forest_adds]: [i] is a thread or a child of [self]. *)
Definition is_child (self i : nat) : bool :=
    (rSv EU_PID self =? rSv EU_TGD i) ||
    ((rSv EU_PID self =? rSv EU_PPD i) && (rSv EU_PID i =? rSv EU_TGD i)).

Definition add_task (self : nat) (level : Z) (st : forest) : forest :=
    Forest (Tree_ppt st ++ [self]) (<[self := level]> (TREE_LVL st)).

  (** [None]: out of fuel. *)
Fixpoint forest_adds (fuel self : nat) (level : Z) (st : forest) : option forest :=
    match fuel with
    | O => None
    | S fuel =>
        if (length (Tree_ppt st) <? PIDSmaxt)%nat then
          let level := if 100 <? level then 101 else level in
          foldl (fun st i => st ← st; if is_child self i then forest_adds fuel i (level + 1) st else Some st)
            (Some (add_task self level st)) (seq (S self) (PIDSmaxt - S self))
        else Some st
    end.

  (** The first loop of [forest_begin], over the positions [l]; every recursion
      goes to a later position, so [PIDSmaxt] levels are enough. *)
Fixpoint forest_roots (l : list nat) (st : forest) : option forest :=
    match l with
    | [] => Some st
    | i :: l =>
        st ← (if nth i (TREE_LVL st) 0 =? 0 then forest_adds PIDSmaxt i 0 st else Some st);
        forest_roots l st
    end.

Definition forest_tree : option forest :=
    forest_roots (seq 0 PIDSmaxt) (Forest [] (replicate PIDSmaxt 0)).

  (** *** Collapsed parents *)

  (** The marks of a frame: TREE_HID and TREE_ADD by position. *)
Record marks := Marks { TREE_HID : list Z; TREE_ADD : list Z }.

Definition hid_x : Z := 120.
Definition hid_z : Z := 122.

  (** The tasks behind a parent that are deeper: marked as unseen, their tics
      added to the parent; whether there were any. *)
Fixpoint collapse_children (lvl : list Z) (parent : nat) (level : Z) (rest : list nat) (children : bool)
      (m : marks) : bool * marks :=
    match rest with
    | j :: rest =>
        if level <? nth j lvl 0 then
          collapse_children lvl parent level rest true
            (Marks (<[j := hid_z]> (TREE_HID m))
                   (<[parent := u32 (nth parent (TREE_ADD m) 0 + rSv EU_CPU j)]> (TREE_ADD m)))
        else (children, m)
    | [] => (children, m)
    end.

  (** One entry of Hide_pid: the first task with that pid; the entry is negated
      when there is none. *)
Fixpoint hide_scan (lvl : list Z) (tree : list nat) (pid : Z) (m : marks) : Z * marks :=
    match tree with
    | [] => (- pid, m)
    | j :: rest =>
        if rSv EU_PID j =? pid then
          let '(children, m) := collapse_children lvl j (nth j lvl 0) rest false m in
          (pid, if children : bool then Marks (<[j := hid_x]> (TREE_HID m)) (TREE_ADD m) else m)
        else hide_scan lvl rest pid m
    end.

Fixpoint hide_all (lvl : list Z) (tree : list nat) (Hide_pid : list Z) (m : marks) : list Z * marks :=
    match Hide_pid with
    | [] => ([], m)
    | pid :: hs =>
        let '(pid, m) := if 0 <? pid then hide_scan lvl tree pid m else (pid, m) in
        let '(hs, m) := hide_all lvl tree hs m in (pid :: hs, m)
    end.

  (** [forest_begin] of the first window of a frame: the order of the tasks, their
      levels, what is left of Hide_pid and the marks. *)
Definition forest_begin (Hide_pid : list Z) : option (forest * (list Z * marks)) :=
    st ← forest_tree;
    Some (st, hide_all (TREE_LVL st) (Tree_ppt st) Hide_pid
                (Marks (replicate PIDSmaxt 0) (replicate PIDSmaxt 0))).

  (** [forest_config]: the focus of a window and where its tasks begin. *)
Record focus := Focus { focus_pid : Z; focus_beg : Z; focus_end : Z; begtask : Z; begnext : Z }.

Fixpoint run_end (lvl : list Z) (level : Z) (rest : list nat) (i : Z) : Z :=
    match rest with
    | j :: rest => if level <? nth j lvl 0 then run_end lvl level rest (i + 1) else i
    | [] => i
    end.

Fixpoint focus_scan (lvl : list Z) (ppt : list nat) (i : Z) (q : focus) : focus :=
    match ppt with
    | [] => Focus 0 (focus_beg q) (focus_end q) 0 (begnext q)
    | j :: rest =>
        if focus_pid q =? rSv EU_PID j then
          let fend := run_end lvl (nth j lvl 0) rest i + 1 in
          if begtask q <? i then Focus (focus_pid q) i fend i 0
          else Focus (focus_pid q) i fend (begtask q) (begnext q)
        else focus_scan lvl rest (i + 1) q
    end.

Definition forest_config (lvl : list Z) (ppt : list nat) (q : focus) : focus := focus_scan lvl ppt 0 q.

  (** [%*s] with a positive width. *)
Definition pad_art (width : Z) (s : string) : bytes :=
    replicate (Z.to_nat width - String.length s) 32 ++ bs s.

  (** [forest_display]: the command of a task with the artwork before it. *)
Definition forest_display (show_cmdlin show_forest is_curwin : bool) (focus_pid level hid : Z) (t : task) : bytes :=
    let which := if show_cmdlin then eu_CMDLINE t else EU_CMD t in
    let buf s := snprintf 131072 s in
    if negb show_forest || (level =? 0) then which
    else if is_curwin && (hid =? hid_x) then buf (43 :: pad_art (4 * level - 1) "`- " ++ which)
    else if 100 <? level then buf (pad_art 400 " +  " ++ which)
    else if negb (focus_pid =? 0) then buf (124 :: pad_art (4 * level - 1) "`- " ++ which)
    else buf (pad_art (4 * level) " `- " ++ which).

  (** ** What the tree should be *)

  (** The earlier task a task hangs below: the leader of its thread group, or the
      parent of a leader. *)
Definition parent_pid (i : nat) : Z :=
    if rSv EU_PID i =? rSv EU_TGD i then rSv EU_PPD i else rSv EU_TGD i.

Definition children (self : nat) : list nat := filter (fun i => is_child self i) (seq (S self) (PIDSmaxt - S self)).

Definition cap (level : Z) : Z := Z.min level 101.

  (** A task and all that hangs below it, each with its level. *)
Fixpoint preorder (fuel self : nat) (level : Z) : list (nat * Z) :=
    match fuel with
    | O => []
    | S fuel => (self, cap level) :: concat (map (fun i => preorder fuel i (level + 1)) (children self))
    end.

  (** The tasks no earlier task adopts. *)
Definition has_parent (i : nat) : bool := existsb (fun p => is_child p i) (seq 0 i).
Definition roots (l : list nat) : list nat := filter (fun i => negb (has_parent i)) l.

Definition spec_tree (l : list nat) : list (nat * Z) := concat (map (fun i => preorder PIDSmaxt i 0) (roots l)).

  (** ** Facts *)

  (** Process ids are distinct. *)
Hypothesis distinct : NoDup (map EU_PID ts).

Lemma pid_inj i j : (i < PIDSmaxt)%nat -> (j < PIDSmaxt)%nat -> rSv EU_PID i = rSv EU_PID j -> i = j.
  Proof.
    unfold rSv. intros Hi Hj. destruct (lookup_lt_is_Some_2 ts i Hi) as [a Ha].
    destruct (lookup_lt_is_Some_2 ts j Hj) as [b Hb]. rewrite Ha, Hb. intros E.
    eapply (NoDup_lookup (map EU_PID ts)); [done|by rewrite list_lookup_fmap, Ha|].
    rewrite list_lookup_fmap, Hb. cbn. by rewrite E.
  Qed.

  (** At most one earlier task adopts a task. *)
Lemma is_child_parent p i : (p < i)%nat -> (i < PIDSmaxt)%nat -> is_child p i = true <-> rSv EU_PID p = parent_pid i.
  Proof.
    intros Hp Hi. unfold is_child, parent_pid.
    destruct (Z.eqb_spec (rSv EU_PID i) (rSv EU_TGD i)) as [E|E].
    - rewrite andb_true_r, orb_true_iff, !Z.eqb_eq. split; [|by right].
      intros [H|H]; [|done]. exfalso. rewrite <- E in H. apply pid_inj in H; lia.
    - by rewrite andb_false_r, orb_false_r, Z.eqb_eq.
  Qed.

Lemma child_unique p q i : (p < i)%nat -> (q < i)%nat -> (i < PIDSmaxt)%nat ->
    is_child p i = true -> is_child q i = true -> p = q.
  Proof.
    intros Hp Hq Hi H1 H2. apply is_child_parent in H1, H2; try done. apply pid_inj; [lia|lia|congruence].
  Qed.

Lemma has_parent_spec i : has_parent i = true <-> exists p, (p < i)%nat /\ is_child p i = true.
  Proof.
    unfold has_parent. rewrite existsb_exists. split; intros (p & H & Hc); exists p.
    - apply in_seq in H. split; [lia|done].
    - split; [apply in_seq; lia|done].
  Qed.

  (** *** Occurrences *)

Definition occ (x : nat) (l : list (nat * Z)) : nat := count_occ Nat.eq_dec (map fst l) x.
Fixpoint total (l : list nat) : nat := match l with [] => O | n :: l => (n + total l)%nat end.
Definition ind (b : bool) : nat := if b then 1%nat else 0%nat.

Lemma occ_app x l l' : occ x (l ++ l') = (occ x l + occ x l')%nat.
  Proof. unfold occ. by rewrite fmap_app, count_occ_app. Qed.

Lemma occ_cons x y l : occ x (y :: l) = (ind (fst y =? x)%nat + occ x l)%nat.
  Proof.
    unfold occ, ind. cbn [map count_occ fmap list_fmap]. destruct (Nat.eq_dec y.1 x), (Nat.eqb_spec y.1 x); done.
  Qed.

Lemma occ_concat x (f : nat -> list (nat * Z)) l : occ x (concat (map f l)) = total (map (fun i => occ x (f i)) l).
  Proof. induction l as [|i l IH]; [done|]. cbn [map concat total]. by rewrite occ_app, IH. Qed.

Lemma count_nodup (x : nat) l : NoDup l -> total (map (fun i => ind (i =? x)%nat) l) = ind (bool_decide (x ∈ l)).
  Proof.
    induction 1 as [|i l Hi Hl IH]; [done|]. cbn [map total]. rewrite IH. unfold ind.
    destruct (Nat.eqb_spec i x) as [->|Hn].
    - rewrite (bool_decide_false _ Hi), bool_decide_true by (by left). done.
    - rewrite (bool_decide_ext (x ∈ i :: l) (x ∈ l)); [done|]. rewrite elem_of_cons. intuition congruence.
  Qed.

Lemma elem_children self x : x ∈ children self <-> (self < x < PIDSmaxt)%nat /\ is_child self x = true.
  Proof.
    unfold children. rewrite list_elem_of_filter, elem_of_seq. rewrite Is_true_true. intuition lia.
  Qed.

Lemma count_children self x : (x < PIDSmaxt)%nat ->
    total (map (fun i => ind (i =? x)%nat) (children self)) = ind ((self <? x)%nat && is_child self x).
  Proof.
    intros Hx. rewrite count_nodup by (apply NoDup_filter, NoDup_seq). f_equal.
    destruct (Nat.ltb_spec self x), (is_child self x) eqn:E; cbn [andb].
    all: first [apply bool_decide_eq_true_2 | apply bool_decide_eq_false_2]; rewrite elem_children, ?E; intuition (lia || congruence).
  Qed.

Lemma sum_add {A} (f g : A -> nat) l : total (map (fun i => f i + g i)%nat l) = (total (map f l) + total (map g l))%nat.
  Proof. induction l as [|a l IH]; [done|]. cbn [map total]. rewrite IH. lia. Qed.

Lemma sum_ext {A} (f g : A -> nat) l : (forall a, a ∈ l -> f a = g a) -> total (map f l) = total (map g l).
  Proof.
    induction l as [|a l IH]; intros H; [done|]. cbn [map total].
    rewrite (H a) by (by left). rewrite IH; [done|]. intros b Hb. apply H. by right.
  Qed.

Lemma occ_preorder_S x fuel self level : occ x (preorder (S fuel) self level) =
    (ind (self =? x)%nat + total (map (fun i => occ x (preorder fuel i (level + 1)%Z)) (children self)))%nat.
  Proof. cbn [preorder]. rewrite occ_cons, occ_concat. done. Qed.

  (** A task occurs below another once where it is the top itself, and as often as
      the task that adopts it. *)
Lemma occ_child x p : (p < x)%nat -> (x < PIDSmaxt)%nat -> is_child p x = true ->
    forall fuel self level, (self < PIDSmaxt)%nat -> (PIDSmaxt <= self + fuel)%nat ->
    occ x (preorder fuel self level) = (ind (self =? x)%nat + occ p (preorder fuel self level))%nat.
  Proof.
    intros Hp Hx Hc. induction fuel as [|fuel IH]; intros self level Hs Hf; [lia|].
    rewrite !occ_preorder_S.
    rewrite (sum_ext _ (fun i => ind (i =? x) + occ p (preorder fuel i (level + 1)%Z)))%nat.
    2:{ intros i Hi. apply elem_children in Hi as [Hi _]. apply IH; lia. }
    rewrite sum_add, count_children by done.
    assert ((self <? x)%nat && is_child self x = (self =? p)%nat) as ->; [|lia].
    destruct (Nat.eqb_spec self p) as [->|Hn].
    - rewrite Hc. destruct (Nat.ltb_spec p x); [done|lia].
    - destruct (Nat.ltb_spec self x); [|done]. destruct (is_child self x) eqn:E; [|done].
      exfalso. apply Hn. by eapply child_unique.
  Qed.

Lemma occ_root x : (x < PIDSmaxt)%nat -> has_parent x = false ->
    forall fuel self level, (self < PIDSmaxt)%nat -> (PIDSmaxt <= self + fuel)%nat ->
    occ x (preorder fuel self level) = ind (self =? x)%nat.
  Proof.
    intros Hx Hr. induction fuel as [|fuel IH]; intros self level Hs Hf; [lia|].
    rewrite occ_preorder_S. rewrite (sum_ext _ (fun i => ind (i =? x)%nat)).
    2:{ intros i Hi. apply elem_children in Hi as [Hi _]. apply IH; lia. }
    rewrite count_children by done.
    assert ((self <? x)%nat && is_child self x = false) as ->; [|simpl; lia].
    destruct (Nat.ltb_spec self x); [|done]. destruct (is_child self x) eqn:E; [|done].
    exfalso. assert (has_parent x = true) by (apply has_parent_spec; eauto). congruence.
  Qed.

Lemma occ_spec_tree k x : (x < PIDSmaxt)%nat -> (k <= PIDSmaxt)%nat -> 
    occ x (spec_tree (seq 0 k)) = match find (fun p => is_child p x) (seq 0 x) with
                                  | Some p => occ p (spec_tree (seq 0 k))
                                  | None => ind (x <? k)%nat
                                  end.
  Proof.
    intros Hx Hk. unfold spec_tree. rewrite !occ_concat.
    assert (Hin : forall i, i ∈ roots (seq 0 k) <-> has_parent i = false /\ (i < k)%nat).
    { intros i. unfold roots. rewrite list_elem_of_filter, elem_of_seq, Is_true_true, negb_true_iff. intuition lia. }
    destruct (find _ (seq 0 x)) as [p|] eqn:E.
    - apply find_some in E as [Hp Hc]. apply in_seq in Hp. rewrite occ_concat.
      apply sum_ext. intros i Hi. apply Hin in Hi as [Hi1 Hi2].
      rewrite (occ_child x p) by (done || lia). destruct (Nat.eqb_spec i x) as [->|]; [|done].
      exfalso. assert (has_parent x = true) by (apply has_parent_spec; exists p; split; [lia|done]). congruence.
    - assert (Hr : has_parent x = false).
      { destruct (has_parent x) eqn:Hh; [|done]. apply has_parent_spec in Hh as (p & Hp & Hc).
        exfalso. assert (is_child p x = false); [|congruence]. apply (find_none _ _ E). apply in_seq. lia. }
      rewrite (sum_ext _ (fun i => ind (i =? x)%nat)).
      2:{ intros i Hi. apply Hin in Hi as [_ Hi2]. apply occ_root; done || lia. }
      rewrite count_nodup by (apply NoDup_filter, NoDup_seq). f_equal.
      destruct (Nat.ltb_spec x k); [apply bool_decide_eq_true_2|apply bool_decide_eq_false_2]; rewrite Hin; intuition lia.
  Qed.

  (** The first [k] tasks occur once; any task at most once. *)
Lemma occ_le_1 k x : (x < PIDSmaxt)%nat -> (k <= PIDSmaxt)%nat -> (occ x (spec_tree (seq 0 k)) <= 1)%nat.
  Proof.
    revert x. induction x as [x IH] using lt_wf_ind. intros Hx Hk. rewrite occ_spec_tree by done.
    destruct (find _ (seq 0 x)) as [p|] eqn:E.
    - apply find_some in E as [Hp _]. apply in_seq in Hp. apply IH; lia.
    - unfold ind. destruct (x <? k)%nat; lia.
  Qed.

Lemma occ_early k x : (x < k)%nat -> (k <= PIDSmaxt)%nat -> occ x (spec_tree (seq 0 k)) = 1%nat.
  Proof.
    revert x. induction x as [x IH] using lt_wf_ind. intros Hx Hk. rewrite occ_spec_tree by lia.
    destruct (find _ (seq 0 x)) as [p|] eqn:E.
    - apply find_some in E as [Hp _]. apply in_seq in Hp. apply IH; lia.
    - destruct (Nat.ltb_spec x k); [done|lia].
  Qed.

  (** A task whose parent is not among the first [k] tasks or below them ... *)
Lemma occ_late_root k x : (x < PIDSmaxt)%nat -> (k <= x)%nat -> has_parent x = false ->
    occ x (spec_tree (seq 0 k)) = 0%nat.
  Proof.
    intros Hx Hk Hr. rewrite occ_spec_tree by lia. destruct (find _ (seq 0 x)) as [p|] eqn:E.
    - apply find_some in E as [Hp Hc]. apply in_seq in Hp.
      assert (has_parent x = true) by (apply has_parent_spec; exists p; split; [lia|done]). congruence.
    - destruct (Nat.ltb_spec x k); [lia|done].
  Qed.

  (** *** The code builds that tree *)

Definition add_all (l : list (nat * Z)) (st : forest) : forest :=
    foldl (fun st x => add_task x.1 x.2 st) st l.

Lemma add_all_app l l' st : add_all (l ++ l') st = add_all l' (add_all l st).
  Proof. apply foldl_app. Qed.

Lemma add_all_tree l st : Tree_ppt (add_all l st) = Tree_ppt st ++ map fst l.
  Proof.
    revert st. induction l as [|[i v] l IH]; intros st; [by rewrite app_nil_r|].
    unfold add_all in *. cbn [foldl map]. rewrite IH. cbn. by rewrite <- app_assoc.
  Qed.

Lemma cap_succ l : cap (cap l + 1) = cap (l + 1).
  Proof. unfold cap. lia. Qed.

Lemma preorder_cap fuel i l l' : cap l = cap l' -> preorder fuel i l = preorder fuel i l'.
  Proof.
    revert i l l'. induction fuel as [|fuel IH]; intros i l l' H; [done|]. cbn [preorder]. f_equal; [by f_equal|].
    f_equal. apply map_ext. intros j. apply IH. rewrite <- (cap_succ l), <- (cap_succ l'). by rewrite H.
  Qed.

Lemma foldl_children (f : nat -> forest -> option forest) self l st :
    foldl (fun st i => st ← st; if is_child self i then f i st else Some st) st l =
    foldl (fun st i => st ← st; f i st) st (filter (fun i => is_child self i) l).
  Proof.
    revert st. induction l as [|i l IH]; intros st; [done|]. cbn [foldl]. rewrite IH, filter_cons.
    destruct (decide (is_child self i)) as [E|E].
    - by rewrite (Is_true_true_1 _ E).
    - destruct (is_child self i); [by destruct E|]. by destruct st.
  Qed.

Lemma length_concat_le {A} (l : list (list A)) x : x ∈ l -> (length x <= length (concat l))%nat.
  Proof.
    induction l as [|y l IH]; [by intros ?%elem_of_nil|]. intros [->|H]%elem_of_cons; cbn; rewrite length_app; [lia|].
    apply IH in H. lia.
  Qed.

Lemma forest_adds_spec fuel : forall self level st, (self < PIDSmaxt)%nat -> (PIDSmaxt <= self + fuel)%nat ->
    (length (Tree_ppt st) + length (preorder fuel self level) <= PIDSmaxt)%nat ->
    forest_adds fuel self level st = Some (add_all (preorder fuel self level) st).
  Proof.
    induction fuel as [|fuel IH]; intros self level st Hs Hf Hl; [lia|].
    cbn [forest_adds preorder] in *. rewrite length_cons in Hl.
    destruct (Nat.ltb_spec (length (Tree_ppt st)) PIDSmaxt); [|lia].
    assert ((if 100 <? level then 101 else level) = cap level) as -> by (unfold cap; zcase; lia).
    rewrite foldl_children. fold (children self).
    set (st1 := add_task self (cap level) st).
    assert (Hl1 : (length (Tree_ppt st1) + length (concat (map (fun i => preorder fuel i (level + 1)) (children self))) <= PIDSmaxt)%nat).
    { unfold st1. cbn. rewrite length_app. simpl. lia. }
    transitivity (Some (add_all (concat (map (fun i => preorder fuel i (level + 1)) (children self))) st1)); [|done].
    assert (Hc : forall i, i ∈ children self -> (self < i < PIDSmaxt)%nat) by (intros i Hi; apply elem_children in Hi; tauto).
    clearbody st1. clear Hl. revert st1 Hl1 Hc. generalize (children self) as l. induction l as [|i l IHl]; intros st1 Hl1 Hc; [done|].
    cbn [foldl map concat] in *. rewrite length_app in Hl1. cbn [mbind option_bind].
    destruct (Hc i) as [Hi1 Hi2]; [by left|].
    assert (Hp : preorder fuel i (cap level + 1) = preorder fuel i (level + 1)) by apply preorder_cap, cap_succ.
    rewrite IH by (rewrite ?Hp; lia). rewrite Hp.
    rewrite IHl.
    - by rewrite add_all_app.
    - rewrite add_all_tree, length_app, length_map. lia.
    - intros j Hj. apply Hc. by right.
  Qed.

  (** *** Levels *)

Lemma length_lvl l st : length (TREE_LVL (add_all l st)) = length (TREE_LVL st).
  Proof.
    revert st. induction l as [|[i v] l IH]; intros st; [done|]. unfold add_all in *. cbn [foldl]. rewrite IH.
    cbn. by rewrite length_insert.
  Qed.

Lemma lvl_other l st i : i ∉ map fst l -> nth i (TREE_LVL (add_all l st)) 0 = nth i (TREE_LVL st) 0.
  Proof.
    revert st. induction l as [|[j v] l IH]; intros st Hi; [done|]. unfold add_all in *. cbn [foldl map] in *.
    apply not_elem_of_cons in Hi as [Hn Hi]. rewrite IH by done. cbn.
    rewrite !nth_lookup, list_lookup_insert_ne by (simpl in Hn; congruence). done.
  Qed.

Lemma lvl_in l st i v : NoDup (map fst l) -> (i, v) ∈ l -> (i < length (TREE_LVL st))%nat ->
    nth i (TREE_LVL (add_all l st)) 0 = v.
  Proof.
    revert st. induction l as [|[j w] l IH]; intros st Hnd Hin Hi; [by apply elem_of_nil in Hin|].
    cbn [map] in Hnd. apply NoDup_cons in Hnd as [Hj Hnd]. apply elem_of_cons in Hin as [E|Hin].
    - simplify_eq. change (add_all ((j, w) :: l) st) with (add_all l (add_task j w st)).
      rewrite lvl_other by done. cbn. rewrite nth_lookup, list_lookup_insert_eq by done. done.
    - change (add_all ((j, w) :: l) st) with (add_all l (add_task j w st)). apply IH; [done..|].
      cbn. by rewrite length_insert.
  Qed.

Lemma preorder_level fuel s l x v : 0 <= l -> (x, v) ∈ preorder fuel s l -> (x = s /\ v = cap l) \/ 1 <= v.
  Proof.
    revert s l. induction fuel as [|fuel IH]; intros s l Hl H; [by apply elem_of_nil in H|].
    cbn [preorder] in H. apply elem_of_cons in H as [H|H]; [left; by simplify_eq|right].
    apply list_elem_of_In, in_concat in H as (y & Hy & H). apply in_map_iff in Hy as (i & <- & Hi).
    apply list_elem_of_In in H. destruct (IH i (l + 1) ltac:(lia) H) as [[-> ->]|]; [|done]. unfold cap. lia.
  Qed.

Lemma preorder_range fuel s l x : (s < PIDSmaxt)%nat -> x ∈ map fst (preorder fuel s l) -> (x < PIDSmaxt)%nat.
  Proof.
    revert s l. induction fuel as [|fuel IH]; intros s l Hs H; [by apply elem_of_nil in H|].
    cbn [preorder map] in H. apply elem_of_cons in H as [->|H]; [done|].
    apply list_elem_of_fmap in H as ([y v] & -> & H).
    apply list_elem_of_In, in_concat in H as (z & Hz & H). apply in_map_iff in Hz as (i & <- & Hi).
    apply list_elem_of_In, elem_children in Hi as [Hi _]. apply (IH i (l + 1)); [lia|].
    apply list_elem_of_fmap. exists (y, v). split; [done|]. by apply list_elem_of_In.
  Qed.

  (** *** The whole tree *)

Lemma spec_tree_range k x : (k <= PIDSmaxt)%nat -> x ∈ map fst (spec_tree (seq 0 k)) -> (x < PIDSmaxt)%nat.
  Proof.
    intros Hk H. apply list_elem_of_fmap in H as ([y v] & -> & H). unfold spec_tree in H.
    apply list_elem_of_In, in_concat in H as (z & Hz & H). apply in_map_iff in Hz as (i & <- & Hi).
    apply list_elem_of_In, list_elem_of_filter in Hi as [_ Hi]. apply elem_of_seq in Hi.
    apply (preorder_range PIDSmaxt i 0); [lia|]. apply list_elem_of_fmap. exists (y, v).
    split; [done|by apply list_elem_of_In].
  Qed.

Lemma occ_elem x l : x ∈ map fst l <-> (0 < occ x l)%nat.
  Proof. unfold occ. rewrite list_elem_of_In. apply count_occ_In. Qed.

Lemma spec_tree_nodup k : (k <= PIDSmaxt)%nat -> NoDup (map fst (spec_tree (seq 0 k))).
  Proof.
    intros Hk. apply NoDup_ListNoDup, (NoDup_count_occ Nat.eq_dec). intros x.
    destruct (decide (x ∈ map fst (spec_tree (seq 0 k)))) as [H|H].
    - apply (occ_le_1 k x); [|done]. by eapply spec_tree_range.
    - rewrite list_elem_of_In in H. apply (count_occ_not_In Nat.eq_dec) in H. rewrite H. lia.
  Qed.

Lemma spec_tree_length k : (k <= PIDSmaxt)%nat -> (length (spec_tree (seq 0 k)) <= PIDSmaxt)%nat.
  Proof.
    intros Hk. rewrite <- (length_map fst), <- (length_seq PIDSmaxt 0).
    apply NoDup_incl_length; [by apply NoDup_ListNoDup, spec_tree_nodup|].
    intros x Hx. apply in_seq. apply list_elem_of_In, spec_tree_range in Hx; [lia|done].
  Qed.

Lemma spec_tree_perm : Permutation (map fst (spec_tree (seq 0 PIDSmaxt))) (seq 0 PIDSmaxt).
  Proof.
    apply NoDup_Permutation; [by apply spec_tree_nodup|apply NoDup_seq|]. intros x. split; intros H.
    - apply elem_of_seq. apply spec_tree_range in H; [lia|done].
    - apply elem_of_seq in H. apply occ_elem. rewrite occ_early by lia. lia.
  Qed.

Lemma spec_tree_S k : spec_tree (seq 0 (S k)) =
    spec_tree (seq 0 k) ++ (if has_parent k then [] else preorder PIDSmaxt k 0).
  Proof.
    unfold spec_tree, roots. rewrite seq_S, filter_app, map_app, concat_app. f_equal.
    rewrite Nat.add_0_l, filter_cons. destruct (has_parent k); cbn [negb];
      [rewrite decide_False by (intros []); done|rewrite decide_True by done; cbn; by rewrite app_nil_r].
  Qed.

Definition tree_start : forest := Forest [] (replicate PIDSmaxt 0).

  (** What the levels are after the first [k] tasks. *)
Lemma lvl_root k : (k < PIDSmaxt)%nat -> has_parent k = false ->
    nth k (TREE_LVL (add_all (spec_tree (seq 0 k)) tree_start)) 0 = 0.
  Proof.
    intros Hk Hr. rewrite lvl_other.
    - cbn. rewrite nth_lookup, lookup_replicate_2 by done. done.
    - rewrite occ_elem, occ_late_root by (done || lia). lia.
  Qed.

Lemma lvl_child k : (k < PIDSmaxt)%nat -> has_parent k = true ->
    1 <= nth k (TREE_LVL (add_all (spec_tree (seq 0 k)) tree_start)) 0.
  Proof.
    intros Hk Hp. assert (Hin : k ∈ map fst (spec_tree (seq 0 k))).
    { apply occ_elem. rewrite occ_spec_tree by lia. apply has_parent_spec in Hp as (p & Hp & Hc).
      destruct (find _ (seq 0 k)) as [q|] eqn:E.
      - apply find_some in E as [Hq _]. apply in_seq in Hq. rewrite occ_early by lia. lia.
      - exfalso. assert (is_child p k = false); [|congruence]. apply (find_none _ _ E), in_seq. lia. }
    apply list_elem_of_fmap in Hin as ([y v] & E & Hin). simpl in E. subst y.
    rewrite (lvl_in _ _ _ v); [|by apply spec_tree_nodup; lia|done|cbn; by rewrite length_replicate].
    unfold spec_tree in Hin. apply list_elem_of_In, in_concat in Hin as (z & Hz & Hin).
    apply in_map_iff in Hz as (i & <- & Hi). apply list_elem_of_In in Hin.
    destruct (preorder_level PIDSmaxt i 0 k v ltac:(lia) Hin) as [[-> _]|]; [|done].
    apply list_elem_of_In, list_elem_of_filter in Hi as [Hi _]. rewrite Hp in Hi. by destruct Hi.
  Qed.

Lemma forest_roots_spec n k : (k + n = PIDSmaxt)%nat ->
    forest_roots (seq k n) (add_all (spec_tree (seq 0 k)) tree_start) = Some (add_all (spec_tree (seq 0 PIDSmaxt)) tree_start).
  Proof.
    revert k. induction n as [|n IH]; intros k Hk; [by replace k with PIDSmaxt by lia|].
    cbn [seq forest_roots].
    assert ((if nth k (TREE_LVL (add_all (spec_tree (seq 0 k)) tree_start)) 0 =? 0
             then forest_adds PIDSmaxt k 0 (add_all (spec_tree (seq 0 k)) tree_start)
             else Some (add_all (spec_tree (seq 0 k)) tree_start)) = Some (add_all (spec_tree (seq 0 (S k))) tree_start)) as ->.
    { rewrite spec_tree_S. pose proof (spec_tree_length (S k) ltac:(lia)) as Hl. rewrite spec_tree_S, length_app in Hl.
      destruct (has_parent k) eqn:Hp.
      - pose proof (lvl_child k ltac:(lia) Hp). destruct (Z.eqb_spec (nth k (TREE_LVL (add_all (spec_tree (seq 0 k)) tree_start)) 0) 0); [lia|].
        by rewrite app_nil_r.
      - rewrite lvl_root by (done || lia). cbn [Z.eqb]. rewrite add_all_app. apply forest_adds_spec; [lia|lia|].
        rewrite add_all_tree, length_app, length_map. cbn. lia. }
    cbn [mbind option_bind]. apply IH. lia.
  Qed.

Lemma forest_tree_spec : forest_tree = Some (add_all (spec_tree (seq 0 PIDSmaxt)) tree_start).
  Proof. apply (forest_roots_spec PIDSmaxt 0). lia. Qed.

  (** *** Parents, children and subtrees in the list *)

Lemma preorder_fuel f : forall f' s l, (s < PIDSmaxt)%nat -> (PIDSmaxt <= s + f)%nat -> (PIDSmaxt <= s + f')%nat ->
    preorder f s l = preorder f' s l.
  Proof.
    induction f as [|f IH]; intros [|f'] s l Hs H1 H2; try lia. cbn [preorder]. f_equal. f_equal.
    apply map_ext_in. intros i Hi. apply list_elem_of_In, elem_children in Hi as [Hi _]. apply IH; lia.
  Qed.

  (** A member of a concatenation, with what is before and behind its part. *)
Lemma concat_part (f : nat -> list (nat * Z)) l i : i ∈ l -> exists a b, concat (map f l) = a ++ f i ++ b.
  Proof.
    intros (l1 & l2 & ->)%list_elem_of_split. exists (concat (map f l1)), (concat (map f l2)).
    rewrite map_app, concat_app. done.
  Qed.

Lemma preorder_before fuel : forall s l p v x, (s < PIDSmaxt)%nat -> (PIDSmaxt <= s + fuel)%nat ->
    (p, v) ∈ preorder fuel s l -> (p < x < PIDSmaxt)%nat -> is_child p x = true ->
    exists a b c, preorder fuel s l = a ++ (p, v) :: b ++ (x, cap (v + 1)) :: c.
  Proof.
    induction fuel as [|fuel IH]; intros s l p v x Hs Hf Hin Hx Hc; [lia|].
    cbn [preorder] in *. apply elem_of_cons in Hin as [E|Hin].
    - simplify_eq. destruct (concat_part (fun i => preorder fuel i (l + 1)) (children s) x) as (a & b & ->).
      { by apply elem_children. }
      destruct fuel as [|fuel]; [lia|]. cbn [preorder]. exists [], a. eexists.
      rewrite cap_succ. cbn [app]. done.
    - apply list_elem_of_In, in_concat in Hin as (z & Hz & Hin). apply in_map_iff in Hz as (i & <- & Hi).
      apply list_elem_of_In in Hi, Hin. destruct (concat_part (fun i => preorder fuel i (l + 1)) _ _ Hi) as (a & b & ->).
      apply elem_children in Hi as [Hi _].
      destruct (IH i (l + 1) p v x) as (a' & b' & c' & ->); [lia|lia|done..|].
      exists ((s, cap l) :: a ++ a'), b', (c' ++ b). by simplify_list_eq.
  Qed.

Lemma cap_mono l l' : l <= l' -> cap l <= cap l'.
  Proof. unfold cap. lia. Qed.

  (** The level at the head of a list, if any, is at most [v]. *)
Definition head_le (v : Z) (l : list (nat * Z)) : Prop := match l with [] => True | y :: _ => y.2 <= v end.

Lemma head_le_forest fuel l js v : cap l <= v -> head_le v (concat (map (fun i => preorder (S fuel) i l) js)).
  Proof. intros H. by destruct js. Qed.

  (** Behind a task stand the tasks below it and then none that is deeper. *)
Lemma segments fuel : forall l js, (forall i, i ∈ js -> (i < PIDSmaxt)%nat /\ (PIDSmaxt <= i + fuel)%nat) ->
    forall A s v B, concat (map (fun i => preorder fuel i l) js) = A ++ (s, v) :: B ->
    exists lev D C, l <= lev /\ v = cap lev /\ (s < PIDSmaxt)%nat /\ (s, v) :: D = preorder PIDSmaxt s lev /\
      B = D ++ C /\ head_le v C.
  Proof.
    induction fuel as [|fuel IH]; intros l js His A s v B HL.
    { destruct js as [|i js]; [by destruct A|]. destruct (His i) as [? ?]; [by left|]. lia. }
    revert A HL. induction js as [|i js IHis]; intros A HL; [by destruct A|].
    cbn [map concat] in HL. destruct (His i) as [Hi1 Hi2]; [by left|].
    assert (Hch : forall c, c ∈ children i -> (c < PIDSmaxt)%nat /\ (PIDSmaxt <= c + fuel)%nat).
    { intros c Hc. apply elem_children in Hc as [Hc _]. lia. }
    apply app_eq_app in HL as (R & [[H1 H2]|[H1 H2]]).
    - destruct R as [|r R]; cbn [app] in H2.
      + rewrite app_nil_r in H1. apply (IHis (fun j Hj => His j ltac:(by right)) []). cbn [app]. done.
      + injection H2 as <- HB. cbn [preorder] in H1. destruct A as [|a A]; cbn [app] in H1.
        * injection H1 as E1 E2 E3. subst. exists l. eexists _, _. split_and!; [lia|done|done| |done|by apply head_le_forest].
          rewrite (preorder_fuel PIDSmaxt (S fuel)) by lia. done.
        * injection H1 as _ H1. destruct (IH (l + 1) (children i) Hch A s v R H1) as (lev & D & C & Hl & Hv & Hs & HD & -> & HC).
          exists lev, D, (C ++ concat (map (fun i => preorder (S fuel) i l) js)).
          split_and!; [lia|done|done|done|by rewrite HB, app_assoc|].
          destruct C as [|c C]; [|done]. apply head_le_forest. subst v. apply cap_mono. lia.
    - apply (IHis (fun j Hj => His j ltac:(by right)) R). done.
  Qed.

  (** Everything below a task is deeper, down to the hundredth level. *)
Lemma preorder_deeper fuel s l x w : 0 <= l <= 100 -> (x, w) ∈ drop 1 (preorder fuel s l) -> cap l < w.
  Proof.
    intros Hl H. destruct fuel as [|fuel]; [by apply elem_of_nil in H|]. cbn [preorder drop] in H.
    apply list_elem_of_In, in_concat in H as (z & Hz & H). apply in_map_iff in Hz as (i & <- & _).
    apply list_elem_of_In in H. clear s. revert i H.
    assert (Hge : forall f m i, cap (l + 1) <= cap m -> (x, w) ∈ preorder f i m -> cap (l + 1) <= w).
    { induction f as [|f IH]; intros m i Hm Hin; [by apply elem_of_nil in Hin|]. cbn [preorder] in Hin.
      apply elem_of_cons in Hin as [E|Hin]; [by simplify_eq|].
      apply list_elem_of_In, in_concat in Hin as (z & Hz & Hin). apply in_map_iff in Hz as (j & <- & _).
      apply list_elem_of_In in Hin. apply (IH (m + 1) j); [|done]. unfold cap in *. lia. }
    intros i H. pose proof (Hge fuel (l + 1) i ltac:(lia) H). unfold cap in *. lia.
  Qed.

  (** *** Collapsing *)

  (** All that hangs below a task. *)
Definition below (s : nat) : list nat := map fst (drop 1 (preorder PIDSmaxt s 0)).

Lemma preorder_tasks fuel s l l' : map fst (preorder fuel s l) = map fst (preorder fuel s l').
  Proof.
    revert s l l'. induction fuel as [|fuel IH]; intros s l l'; [done|]. cbn [preorder map fst]. f_equal.
    rewrite !concat_map, !map_map. f_equal. apply map_ext. intros i. apply IH.
  Qed.

Definition mark_unseen (h : list Z) (l : list nat) : list Z := foldl (fun h j => <[j := hid_z]> h) h l.
Definition add_tics (l : list nat) (v : Z) : Z := foldl (fun v j => u32 (v + rSv EU_CPU j)) v l.

Lemma collapse_spec lvl parent level D C : forall ch m, (parent < length (TREE_ADD m))%nat ->
    Forall (fun j => level < nth j lvl 0) D ->
    match C with [] => True | j :: _ => nth j lvl 0 <= level end ->
    collapse_children lvl parent level (D ++ C) ch m =
    (ch || negb (bool_decide (D = [])),
     Marks (mark_unseen (TREE_HID m) D)
       (match D with [] => TREE_ADD m | _ => <[parent := add_tics D (nth parent (TREE_ADD m) 0)]> (TREE_ADD m) end)).
  Proof.
    induction D as [|j D IH]; intros ch m Hp HD HC.
    - cbn [app mark_unseen foldl]. rewrite bool_decide_true by done. rewrite orb_false_r.
      destruct m. destruct C as [|c C]; [done|]. cbn [collapse_children].
      destruct (Z.ltb_spec level (nth c lvl 0)); [lia|done].
    - apply Forall_cons in HD as [Hj HD]. cbn [app collapse_children].
      destruct (Z.ltb_spec level (nth j lvl 0)); [|lia].
      rewrite IH; [|cbn; by rewrite length_insert|done|done]. rewrite (bool_decide_false (j :: D = [])) by done.
      rewrite orb_true_r. f_equal. cbn [TREE_HID TREE_ADD]. f_equal. destruct D as [|k D]; [done|].
      rewrite list_insert_insert_eq. f_equal. cbn [add_tics foldl]. unfold add_tics. cbn [foldl].
      rewrite nth_lookup, list_lookup_insert_eq by done. done.
  Qed.

Lemma hide_scan_skip lvl A s rest m : (s < PIDSmaxt)%nat -> Forall (fun j => (j < PIDSmaxt)%nat) A -> s ∉ A ->
    hide_scan lvl (A ++ s :: rest) (rSv EU_PID s) m = hide_scan lvl (s :: rest) (rSv EU_PID s) m.
  Proof.
    intros Hs HA Hn. induction HA as [|j A Hj HA IH]; [done|]. apply not_elem_of_cons in Hn as [Hne Hn].
    cbn [app hide_scan]. destruct (Z.eqb_spec (rSv EU_PID j) (rSv EU_PID s)) as [E|E]; [|by apply IH].
    apply pid_inj in E; [congruence|done|done].
  Qed.

Lemma spec_tree_split s : (s < PIDSmaxt)%nat -> exists lev A D C,
    spec_tree (seq 0 PIDSmaxt) = A ++ (s, cap lev) :: D ++ C /\ 0 <= lev /\ map fst D = below s /\
    (s, cap lev) :: D = preorder PIDSmaxt s lev /\ head_le (cap lev) C.
  Proof.
    intros Hs. assert (H : s ∈ map fst (spec_tree (seq 0 PIDSmaxt))).
    { rewrite spec_tree_perm. apply elem_of_seq. lia. }
    apply list_elem_of_fmap in H as ([y v] & E & H). simpl in E. subst y.
    apply list_elem_of_split in H as (A & B & HL). pose proof HL as HL'. unfold spec_tree in HL.
    destruct (segments PIDSmaxt 0 (roots (seq 0 PIDSmaxt))) with (A := A) (s := s) (v := v) (B := B)
      as (lev & D & C & Hl & -> & _ & HD & -> & HC); [|done|].
    { intros i Hi. apply list_elem_of_filter in Hi as [_ Hi]. apply elem_of_seq in Hi. lia. }
    exists lev, A, D, C. split_and!; [done|lia| |done|done].
    unfold below. rewrite <- !skipn_map, (preorder_tasks PIDSmaxt s 0 lev), <- HD. done.
  Qed.

  (** *** Focus *)

Lemma run_end_spec lvl level D C i : Forall (fun j => level < nth j lvl 0) D ->
    match C with [] => True | j :: _ => nth j lvl 0 <= level end ->
    run_end lvl level (D ++ C) i = i + Z.of_nat (length D).
  Proof.
    intros HD HC. revert i. induction HD as [|j D Hj HD IH]; intros i; cbn [app run_end length].
    - destruct C as [|c C]; simpl; [lia|]. destruct (Z.ltb_spec level (nth c lvl 0)); lia.
    - destruct (Z.ltb_spec level (nth j lvl 0)); [|lia]. rewrite IH. lia.
  Qed.

Lemma focus_scan_skip lvl A s rest q i : (s < PIDSmaxt)%nat -> Forall (fun j => (j < PIDSmaxt)%nat) A -> s ∉ A ->
    focus_pid q = rSv EU_PID s ->
    focus_scan lvl (A ++ s :: rest) i q = focus_scan lvl (s :: rest) (i + Z.of_nat (length A)) q.
  Proof.
    intros Hs HA Hn Hq. revert i. induction HA as [|j A Hj HA IH]; intros i; [simpl length; by rewrite Z.add_0_r|].
    apply not_elem_of_cons in Hn as [Hne Hn]. cbn [app focus_scan]. rewrite Hq.
    destruct (Z.eqb_spec (rSv EU_PID s) (rSv EU_PID j)) as [E|E].
    - apply pid_inj in E; [congruence|done|done].
    - rewrite IH by done. replace (i + 1 + Z.of_nat (length A)) with (i + Z.of_nat (length (j :: A))) by (simpl length; lia).
      cbn [focus_scan]. by rewrite Hq.
  Qed.

  (** What the list and the levels look like around a task. *)
Lemma tree_around s : (s < PIDSmaxt)%nat ->
    let st := add_all (spec_tree (seq 0 PIDSmaxt)) tree_start in nth s (TREE_LVL st) 0 <= 100 ->
    exists A C, Tree_ppt st = A ++ s :: (below s ++ C) /\ Forall (fun j => (j < PIDSmaxt)%nat) A /\ (s ∉ A) /\
      Forall (fun j => nth s (TREE_LVL st) 0 < nth j (TREE_LVL st) 0) (below s) /\
      match C with [] => True | j :: _ => nth j (TREE_LVL st) 0 <= nth s (TREE_LVL st) 0 end.
  Proof.
    intros Hs st Hlv. destruct (spec_tree_split s Hs) as (lev & A & D & C & HL & Hl0 & HD & HDp & HC).
    pose proof (spec_tree_nodup PIDSmaxt ltac:(lia)) as Hnd.
    assert (Hlev : forall x v, (x, v) ∈ spec_tree (seq 0 PIDSmaxt) -> nth x (TREE_LVL st) 0 = v).
    { intros x v Hx. apply lvl_in; [done|done|]. cbn. rewrite length_replicate.
      apply (spec_tree_range PIDSmaxt); [done|]. apply list_elem_of_fmap. by exists (x, v). }
    assert (Htr : Tree_ppt st = map fst (spec_tree (seq 0 PIDSmaxt))) by (unfold st; by rewrite add_all_tree).
    assert (Hrange : Forall (fun j => (j < PIDSmaxt)%nat) (map fst A)).
    { apply Forall_forall. intros j Hj. apply (spec_tree_range PIDSmaxt); [done|].
      rewrite HL, map_app. apply elem_of_app. by left. }
    rewrite HL in Hlev, Hnd, Htr. rewrite map_app, map_cons, map_app in Hnd, Htr. cbn [fst] in Hnd, Htr.
    assert (Hls : nth s (TREE_LVL st) 0 = cap lev) by (apply Hlev; apply elem_of_app; right; by left).
    apply NoDup_app in Hnd as (_ & Hdis & _). rewrite Hls in Hlv |- *.
    exists (map fst A), (map fst C). rewrite Htr, HD. split_and!; [done|done| | |].
    - intros Hin. apply (Hdis s Hin). by left.
    - rewrite <- HD. apply Forall_forall. intros j Hj. apply list_elem_of_fmap in Hj as ([x w] & -> & Hj). cbn [fst].
      rewrite (Hlev x w); [|apply elem_of_app; right; right; apply elem_of_app; by left].
      apply (preorder_deeper PIDSmaxt s lev x w); [unfold cap in Hlv; lia|]. rewrite <- HDp. done.
    - destruct C as [|[x w] C]; [done|]. cbn [map fst]. rewrite (Hlev x w); [exact HC|].
      apply elem_of_app; right; right; apply elem_of_app; right; by left.
  Qed.

End forest.

(** ** Properties *)

(** C10: the forest view loses no task and shows none twice, whatever the ids of
    the parents are: its order is a permutation of the tasks in which a thread or
    a child stands behind the task that adopts it, one level deeper (down to the
    limit of the levels), and a task no earlier task adopts stands at level 0. *)
Theorem forest_tree_complete ts : NoDup (map EU_PID ts) ->
  exists st, forest_tree ts = Some st /\ Permutation (Tree_ppt st) (seq 0 (length ts)) /\
    (forall x, (x < length ts)%nat -> has_parent ts x = false -> nth x (TREE_LVL st) 0 = 0) /\
    (forall p x, (p < x < length ts)%nat -> is_child ts p x = true ->
       nth x (TREE_LVL st) 0 = Z.min (nth p (TREE_LVL st) 0 + 1) 101 /\
       exists a b c, Tree_ppt st = a ++ p :: b ++ x :: c).
Proof.
  intros Hd. eexists. split; [by apply forest_tree_spec|].
  assert (Hl : forall x v, (x, v) ∈ spec_tree ts (seq 0 (PIDSmaxt ts)) ->
    nth x (TREE_LVL (add_all (spec_tree ts (seq 0 (PIDSmaxt ts))) (tree_start ts))) 0 = v).
  { intros x v Hx. apply lvl_in; [by apply spec_tree_nodup|done|]. cbn. rewrite length_replicate.
    apply (spec_tree_range ts (PIDSmaxt ts)); [done|]. apply list_elem_of_fmap. by exists (x, v). }
  rewrite add_all_tree. cbn [tree_start Tree_ppt app]. split_and!.
  - by apply spec_tree_perm.
  - intros x Hx Hr. apply Hl. unfold spec_tree. apply list_elem_of_In, in_concat. exists (preorder ts (PIDSmaxt ts) x 0).
    split; [|destruct (PIDSmaxt ts) eqn:E; [unfold PIDSmaxt in E; lia|by left]].
    apply in_map_iff. exists x. split; [done|]. apply list_elem_of_In, list_elem_of_filter.
    split; [by rewrite Hr|]. apply elem_of_seq. unfold PIDSmaxt. lia.
  - intros p x Hpx Hc. assert (Hp : p ∈ map fst (spec_tree ts (seq 0 (PIDSmaxt ts)))).
    { rewrite spec_tree_perm by done. apply elem_of_seq. unfold PIDSmaxt. lia. }
    apply list_elem_of_fmap in Hp as ([y v] & E & Hp). simpl in E. subst y. rewrite (Hl p v Hp).
    assert (exists a b c, spec_tree ts (seq 0 (PIDSmaxt ts)) = a ++ (p, v) :: b ++ (x, cap (v + 1)) :: c) as (a & b & c & HL).
    { unfold spec_tree in *. apply list_elem_of_In, in_concat in Hp as (z & Hz & Hp).
      apply in_map_iff in Hz as (i & <- & Hi). apply list_elem_of_In in Hi, Hp.
      destruct (concat_part (fun i => preorder ts (PIDSmaxt ts) i 0) _ _ Hi) as (a & b & ->).
      apply list_elem_of_filter in Hi as [_ Hi]. apply elem_of_seq in Hi.
      destruct (preorder_before ts (PIDSmaxt ts) i 0 p v x) as (a' & b' & c' & ->); [lia|lia|done|done|done|].
      exists (a ++ a'), b', (c' ++ b). by simplify_list_eq. }
    split.
    + apply Hl. rewrite HL. apply elem_of_app. right. right. apply elem_of_app. right. by left.
    + exists (map fst a), (map fst b), (map fst c). rewrite HL. by rewrite map_app, map_cons, map_app, map_cons.
Qed.

(** C11: collapsing a task of the first hundred levels marks exactly the tasks below
    it as unseen, marks the task itself when there are any, and adds their tics
    to its own; every other mark stays. *)
Theorem forest_collapse_exact ts st s m : NoDup (map EU_PID ts) -> forest_tree ts = Some st ->
  (s < length ts)%nat -> nth s (TREE_LVL st) 0 <= 100 -> length (TREE_ADD m) = length ts ->
  hide_scan ts (TREE_LVL st) (Tree_ppt st) (rSv ts EU_PID s) m =
  (rSv ts EU_PID s,
   match below ts s with
   | [] => m
   | _ => Marks (<[s := hid_x]> (mark_unseen (TREE_HID m) (below ts s)))
            (<[s := add_tics ts (below ts s) (nth s (TREE_ADD m) 0)]> (TREE_ADD m))
   end).
Proof.
  intros Hd Hst Hs Hlv Hm. rewrite forest_tree_spec in Hst by done. injection Hst as <-.
  destruct (tree_around ts Hd s Hs Hlv) as (A & C & -> & HA & Hn & HD & HC).
  rewrite hide_scan_skip by done. cbn [hide_scan]. rewrite Z.eqb_refl, collapse_spec by (done || by rewrite Hm).
  cbn [orb]. destruct (below ts s) as [|j l]; [by destruct m|]. by rewrite bool_decide_false by done.
Qed.

(** The focus on a task of the first hundred levels covers that task and
    exactly the tasks below it, and the window is not left scrolled above it. *)
Theorem forest_focus_exact ts st s q : NoDup (map EU_PID ts) -> forest_tree ts = Some st ->
  (s < length ts)%nat -> nth s (TREE_LVL st) 0 <= 100 -> focus_pid q = rSv ts EU_PID s ->
  exists A C, Tree_ppt st = A ++ (s :: below ts s) ++ C /\
    let q' := forest_config ts (TREE_LVL st) (Tree_ppt st) q in
    focus_pid q' = focus_pid q /\ focus_beg q' = Z.of_nat (length A) /\
    focus_end q' = Z.of_nat (length A + length (s :: below ts s)) /\
    begtask q' = Z.max (begtask q) (focus_beg q').
Proof.
  intros Hd Hst Hs Hlv Hq. rewrite forest_tree_spec in Hst by done. injection Hst as <-.
  destruct (tree_around ts Hd s Hs Hlv) as (A & C & -> & HA & Hn & HD & HC).
  exists A, C. split; [done|]. cbv zeta. unfold forest_config. rewrite focus_scan_skip by done.
  cbn [focus_scan]. rewrite Hq, Z.eqb_refl, run_end_spec by done. rewrite Z.add_0_l.
  destruct (Z.ltb_spec (begtask q) (Z.of_nat (length A))); cbn; (split_and!; [done|done|lia|lia]).
Qed.

(** ** Witnesses *)

(** A shell with two children, a thread of the first and a task whose parent is
    not shown. *)
Definition demo_task (pid ppid tgid cpu : Z) : task := Task pid ppid tgid cpu (bs "c") (bs "c -l").
Definition demo_tasks : list task :=
  [demo_task 1 0 1 5; demo_task 10 1 10 7; demo_task 11 1 11 9; demo_task 12 1 10 4; demo_task 99 77 99 1].

Example demo_tree : forest_tree demo_tasks = Some (Forest [0; 1; 3; 2; 4]%nat [0; 1; 1; 2; 0]).
Proof. vm_compute. reflexivity. Qed.

Lemma demo_distinct : NoDup (map EU_PID demo_tasks).
Proof. by apply (bool_decide_unpack (NoDup [1; 10; 11; 12; 99])). Qed.

Lemma forest_tree_complete_witness : exists st, forest_tree demo_tasks = Some st /\
  Permutation (Tree_ppt st) (seq 0 5).
Proof.
  destruct (forest_tree_complete demo_tasks demo_distinct) as (st & H1 & H2 & _). exists st.
  split; [exact H1|exact H2].
Defined.

Lemma forest_collapse_exact_witness :
  hide_scan demo_tasks [0; 1; 1; 2; 0] [0; 1; 3; 2; 4]%nat 10 (Marks (replicate 5 0) (replicate 5 0)) =
  (10, Marks [0; 120; 0; 122; 0] [0; 4; 0; 0; 0]).
Proof.
  apply (forest_collapse_exact demo_tasks (Forest [0; 1; 3; 2; 4]%nat [0; 1; 1; 2; 0]) 1
    (Marks (replicate 5 0) (replicate 5 0)) demo_distinct demo_tree); [simpl; lia|simpl; lia|reflexivity].
Defined.

Lemma forest_focus_exact_witness :
  exists A C, [0; 1; 3; 2; 4]%nat = A ++ (1%nat :: below demo_tasks 1) ++ C /\
    let q' := forest_config demo_tasks [0; 1; 1; 2; 0] [0; 1; 3; 2; 4]%nat (Focus 10 0 0 0 0) in
    focus_pid q' = 10 /\ focus_beg q' = Z.of_nat (length A) /\
    focus_end q' = Z.of_nat (length A + length (1%nat :: below demo_tasks 1)) /\
    begtask q' = Z.max 0 (focus_beg q').
Proof.
  apply (forest_focus_exact demo_tasks (Forest [0; 1; 3; 2; 4]%nat [0; 1; 1; 2; 0]) 1 (Focus 10 0 0 0 0)
    demo_distinct demo_tree); [simpl; lia|simpl; lia|reflexivity].
Defined.

End Topforest.
