(* ===== verification/Topdata.v ===== *)
(** * top.c and top.h: the data of top

    The tables of fields, the flags, the configuration of a window and of the
    program, and the windows.  The [int] members of a struct are a function from
    the names of the members; arrays are lists of their declared length.  The
    build is the one of config.h (ORIG_TOPDEFS). *)

From stdpp Require Import functions base numbers list strings.
From S2P Require Import Prelude Libc Real Toptext.
Open Scope Z_scope.

Module Topdata.
Import Toptext.

Definition PFLAGSSIZ : nat := 128.
Definition MEDBUFSIZ : Z := 256.
Definition GROUPSMAX : nat := 4.
Definition WINNAMSIZ : Z := 4.
Definition GRPNAMSIZ : Z := 6.
Definition MONPIDMAX : Z := 20.

(** ** Fields *)

Definition EU_PID : Z := 0.
Definition EU_PPD : Z := 1.
Definition EU_UED : Z := 2.
Definition EU_UEN : Z := 3.
Definition EU_URD : Z := 4.
Definition EU_URN : Z := 5.
Definition EU_USD : Z := 6.
Definition EU_USN : Z := 7.
Definition EU_GID : Z := 8.
Definition EU_GRP : Z := 9.
Definition EU_PGD : Z := 10.
Definition EU_TTY : Z := 11.
Definition EU_TPG : Z := 12.
Definition EU_SID : Z := 13.
Definition EU_PRI : Z := 14.
Definition EU_NCE : Z := 15.
Definition EU_THD : Z := 16.
Definition EU_CPN : Z := 17.
Definition EU_CPU : Z := 18.
Definition EU_TME : Z := 19.
Definition EU_TM2 : Z := 20.
Definition EU_MEM : Z := 21.
Definition EU_VRT : Z := 22.
Definition EU_SWP : Z := 23.
Definition EU_RES : Z := 24.
Definition EU_COD : Z := 25.
Definition EU_DAT : Z := 26.
Definition EU_SHR : Z := 27.
Definition EU_FL1 : Z := 28.
Definition EU_FL2 : Z := 29.
Definition EU_DRT : Z := 30.
Definition EU_STA : Z := 31.
Definition EU_CMD : Z := 32.
Definition EU_WCH : Z := 33.
Definition EU_FLG : Z := 34.
Definition EU_CGR : Z := 35.
Definition EU_SGD : Z := 36.
Definition EU_SGN : Z := 37.
Definition EU_TGD : Z := 38.
Definition EU_OOA : Z := 39.
Definition EU_OOM : Z := 40.
Definition EU_ENV : Z := 41.
Definition EU_FV1 : Z := 42.
Definition EU_FV2 : Z := 43.
Definition EU_USE : Z := 44.
Definition EU_NS1 : Z := 45.
Definition EU_NS2 : Z := 46.
Definition EU_NS3 : Z := 47.
Definition EU_NS4 : Z := 48.
Definition EU_NS5 : Z := 49.
Definition EU_NS6 : Z := 50.
Definition EU_LXC : Z := 51.
Definition EU_RZA : Z := 52.
Definition EU_RZF : Z := 53.
Definition EU_RZL : Z := 54.
Definition EU_RZS : Z := 55.
Definition EU_CGN : Z := 56.
Definition EU_NMA : Z := 57.
Definition EU_LID : Z := 58.
Definition EU_EXE : Z := 59.
Definition EU_RSS : Z := 60.
Definition EU_PSS : Z := 61.
Definition EU_PZA : Z := 62.
Definition EU_PZF : Z := 63.
Definition EU_PZS : Z := 64.
Definition EU_USS : Z := 65.
Definition EU_IRB : Z := 66.
Definition EU_IRO : Z := 67.
Definition EU_IWB : Z := 68.
Definition EU_IWO : Z := 69.
Definition EU_AGI : Z := 70.
Definition EU_AGN : Z := 71.
Definition EU_TM3 : Z := 72.
Definition EU_TM4 : Z := 73.
Definition EU_CUU : Z := 74.
Definition EU_CUC : Z := 75.
Definition EU_XON : Z := 77.
Definition EU_XOF : Z := 78.

(** ** Flags *)

Definition View_CPUSUM : Z := 0x008000.
Definition View_CPUNOD : Z := 0x400000.
Definition View_LOADAV : Z := 0x004000.
Definition View_STATES : Z := 0x002000.
Definition View_MEMORY : Z := 0x001000.
Definition View_NOBOLD : Z := 0x000008.
Definition View_SCROLL : Z := 0x080000.
Definition Show_COLORS : Z := 0x000800.
Definition Show_HIBOLD : Z := 0x000400.
Definition Show_HICOLS : Z := 0x000200.
Definition Show_HIROWS : Z := 0x000100.
Definition Show_CMDLIN : Z := 0x000080.
Definition Show_CTIMES : Z := 0x000040.
Definition Show_IDLEPS : Z := 0x000020.
Definition Show_TASKON : Z := 0x000010.
Definition Show_FOREST : Z := 0x000002.
Definition Qsrt_NORMAL : Z := 0x000004.
Definition Show_JRSTRS : Z := 0x040000.
Definition Show_JRNUMS : Z := 0x020000.
Definition NOPRINT_xxx : Z := 0x010000.
Definition EQUWINS_xxx : Z := 0x000001.
Definition NOHISEL_xxx : Z := 0x200000.
Definition NOHIFND_xxx : Z := 0x100000.

Definition flags (l : list Z) : Z := foldr Z.lor 0 l.

(** ** Fieldstab *)

Record field := Fld { f_width : Z; f_scale : Z; f_align : Z; f_item : string }.

Definition A_left : Z := Show_JRSTRS.
Definition A_right : Z := Show_JRNUMS.

Definition Fieldstab : list field :=
   [Fld 0 (-1) A_right "PIDS_ID_PID"; Fld 0 (-1) A_right "PIDS_ID_PPID"; Fld 5 (-1) A_right "PIDS_ID_EUID";
    Fld 8 (-1) A_left "PIDS_ID_EUSER"; Fld 5 (-1) A_right "PIDS_ID_RUID"; Fld 8 (-1) A_left "PIDS_ID_RUSER";
    Fld 5 (-1) A_right "PIDS_ID_SUID"; Fld 8 (-1) A_left "PIDS_ID_SUSER"; Fld 5 (-1) A_right "PIDS_ID_EGID";
    Fld 8 (-1) A_left "PIDS_ID_EGROUP"; Fld 0 (-1) A_right "PIDS_ID_PGRP"; Fld 8 (-1) A_left "PIDS_TTY_NAME";
    Fld 0 (-1) A_right "PIDS_ID_TPGID"; Fld 0 (-1) A_right "PIDS_ID_SESSION"; Fld 3 (-1) A_right "PIDS_PRIORITY";
    Fld 3 (-1) A_right "PIDS_NICE"; Fld 3 (-1) A_right "PIDS_NLWP"; Fld 0 (-1) A_right "PIDS_PROCESSOR";
    Fld 5 (-1) A_right "PIDS_TICS_ALL_DELTA"; Fld 6 (-1) A_right "PIDS_TICS_ALL"; Fld 9 (-1) A_right "PIDS_TICS_ALL";
    Fld 5 (-1) A_right "PIDS_MEM_RES"; Fld 7 0 A_right "PIDS_MEM_VIRT"; Fld 6 0 A_right "PIDS_VM_SWAP";
    Fld 6 0 A_right "PIDS_MEM_RES"; Fld 6 0 A_right "PIDS_MEM_CODE"; Fld 7 0 A_right "PIDS_MEM_DATA";
    Fld 6 0 A_right "PIDS_MEM_SHR"; Fld 4 (-1) A_right "PIDS_FLT_MAJ"; Fld 4 (-1) A_right "PIDS_FLT_MIN";
    Fld 4 (-1) A_right "PIDS_noop"; Fld 1 (-1) A_right "PIDS_STATE"; Fld (-1) (-1) A_left "PIDS_CMD";
    Fld 10 (-1) A_left "PIDS_WCHAN_NAME"; Fld 8 (-1) A_left "PIDS_FLAGS"; Fld (-1) (-1) A_left "PIDS_CGROUP";
    Fld (-1) (-1) A_left "PIDS_SUPGIDS"; Fld (-1) (-1) A_left "PIDS_SUPGROUPS"; Fld 0 (-1) A_right "PIDS_ID_TGID";
    Fld 5 (-1) A_right "PIDS_OOM_ADJ"; Fld 4 (-1) A_right "PIDS_OOM_SCORE"; Fld (-1) (-1) A_left "PIDS_ENVIRON";
    Fld 3 (-1) A_right "PIDS_FLT_MAJ_DELTA"; Fld 3 (-1) A_right "PIDS_FLT_MIN_DELTA"; Fld 6 0 A_right "PIDS_VM_USED";
    Fld 10 (-1) A_right "PIDS_NS_IPC"; Fld 10 (-1) A_right "PIDS_NS_MNT"; Fld 10 (-1) A_right "PIDS_NS_NET";
    Fld 10 (-1) A_right "PIDS_NS_PID"; Fld 10 (-1) A_right "PIDS_NS_USER"; Fld 10 (-1) A_right "PIDS_NS_UTS";
    Fld 8 (-1) A_left "PIDS_LXCNAME"; Fld 6 0 A_right "PIDS_VM_RSS_ANON"; Fld 6 0 A_right "PIDS_VM_RSS_FILE";
    Fld 6 0 A_right "PIDS_VM_RSS_LOCKED"; Fld 6 0 A_right "PIDS_VM_RSS_SHARED"; Fld (-1) (-1) A_left "PIDS_CGNAME";
    Fld 0 (-1) A_right "PIDS_PROCESSOR_NODE"; Fld 5 (-1) A_right "PIDS_ID_LOGIN"; Fld (-1) (-1) A_left "PIDS_EXE";
    Fld 6 0 A_right "PIDS_SMAP_RSS"; Fld 6 0 A_right "PIDS_SMAP_PSS"; Fld 6 0 A_right "PIDS_SMAP_PSS_ANON";
    Fld 6 0 A_right "PIDS_SMAP_PSS_FILE"; Fld 6 0 A_right "PIDS_SMAP_PSS_SHMEM"; Fld 6 0 A_right "PIDS_SMAP_PRV_TOTAL";
    Fld 6 (-1) A_right "PIDS_IO_READ_BYTES"; Fld 5 (-1) A_right "PIDS_IO_READ_OPS"; Fld 6 (-1) A_right "PIDS_IO_WRITE_BYTES";
    Fld 5 (-1) A_right "PIDS_IO_WRITE_OPS"; Fld 5 (-1) A_right "PIDS_AUTOGRP_ID"; Fld 4 (-1) A_right "PIDS_AUTOGRP_NICE";
    Fld 7 (-1) A_right "PIDS_TICS_BEGAN"; Fld 7 (-1) A_right "PIDS_TIME_ELAPSED"; Fld 6 (-1) A_right "PIDS_UTILIZATION";
    Fld 6 (-1) A_right "PIDS_UTILIZATION_C"; Fld (-1) (-1) (-1) "PIDS_CMDLINE"; Fld (-1) (-1) (-1) "PIDS_TICS_ALL_C";
    Fld (-1) (-1) (-1) "PIDS_ID_FUID"; Fld (-1) (-1) (-1) "PIDS_extra"; Fld (-1) (-1) (-1) "PIDS_extra";
    Fld (-1) (-1) (-1) "PIDS_extra"].

Definition SK_Kb : Z := 0.
Definition SK_Pb : Z := 4.
Definition SK_Eb : Z := 5.

(** ** The configuration of a window *)

Inductive rfield :=
| sortindx | winflags | maxtasks | graph_cpus | graph_mems | double_up | combine_cpus
| summclr | msgsclr | headclr | taskclr.

#[export] Instance rfield_eq_dec : EqDecision rfield.
Proof. solve_decision. Defined.

Record RCW_t := RCW { rc_int : rfield -> Z; winname : bytes; fieldscur : list Z }.

Definition FLDon : Z := 1.
Definition FLDoff : Z := 0.
Definition FLD_OFFSET : Z := 37.
Definition FLDget_of (x : Z) : Z := Z.shiftr x 1 - FLD_OFFSET.
Definition FLDviz_of (x : Z) : bool := negb (Z.land x FLDon =? 0).
Definition ENUcvt (E x : Z) : Z := Z.lor (Z.shiftl (E + FLD_OFFSET) 1) x.

Definition pad_fields (l : list Z) : list Z := l ++ replicate (PFLAGSSIZ - length l) 0.

Definition DEF_FIELDS : list Z := pad_fields
   [75; 81; 103; 105; 119; 123; 129; 137; 111; 117; 115; 139; 76; 78; 82; 84; 86; 88; 90; 92;
    94; 96; 98; 100; 106; 108; 112; 120; 124; 126; 130; 132; 134; 140; 142; 144; 146; 148; 150; 152;
    154; 156; 158; 160; 162; 164; 166; 168; 170; 172; 174; 176; 178; 180; 182; 184; 186; 188; 190; 192;
    194; 196; 198; 200; 202; 204; 206; 208; 210; 212; 214; 216; 218; 220; 222; 224; 226; 228; 230; 232;
    234; 236; 238; 240; 242; 244; 246; 248; 250; 252; 254; 256; 258; 260; 262; 264; 266; 268; 270; 272].
Definition JOB_FIELDS : list Z := pad_fields
   [75; 77; 115; 111; 117; 80; 103; 105; 137; 119; 123; 128; 120; 79; 139; 82; 84; 86; 88; 90;
    92; 94; 96; 98; 100; 106; 108; 112; 124; 126; 130; 132; 134; 140; 142; 144; 146; 148; 150; 152;
    154; 156; 158; 160; 162; 164; 166; 168; 170; 172; 174; 176; 178; 180; 182; 184; 186; 188; 190; 192;
    194; 196; 198; 200; 202; 204; 206; 208; 210; 212; 214; 216; 218; 220; 222; 224; 226; 228; 230; 232;
    234; 236; 238; 240; 242; 244; 246; 248; 250; 252; 254; 256; 258; 260; 262; 264; 266; 268; 270; 272].
Definition MEM_FIELDS : list Z := pad_fields
   [75; 117; 119; 120; 123; 125; 127; 129; 131; 154; 132; 156; 135; 136; 102; 104; 111; 139; 76; 78;
    80; 82; 84; 86; 88; 90; 92; 94; 96; 98; 100; 106; 108; 112; 114; 140; 142; 144; 146; 148;
    150; 152; 158; 160; 162; 164; 166; 168; 170; 172; 174; 176; 178; 180; 182; 184; 186; 188; 190; 192;
    194; 196; 198; 200; 202; 204; 206; 208; 210; 212; 214; 216; 218; 220; 222; 224; 226; 228; 230; 232;
    234; 236; 238; 240; 242; 244; 246; 248; 250; 252; 254; 256; 258; 260; 262; 264; 266; 268; 270; 272].
Definition USR_FIELDS : list Z := pad_fields
   [75; 77; 79; 81; 85; 97; 115; 111; 117; 137; 139; 82; 86; 88; 90; 92; 94; 98; 100; 102;
    104; 106; 108; 112; 118; 120; 122; 124; 126; 128; 130; 132; 134; 140; 142; 144; 146; 148; 150; 152;
    154; 156; 158; 160; 162; 164; 166; 168; 170; 172; 174; 176; 178; 180; 182; 184; 186; 188; 190; 192;
    194; 196; 198; 200; 202; 204; 206; 208; 210; 212; 214; 216; 218; 220; 222; 224; 226; 228; 230; 232;
    234; 236; 238; 240; 242; 244; 246; 248; 250; 252; 254; 256; 258; 260; 262; 264; 266; 268; 270; 272].

Definition DEF_WINFLGS : Z := flags
  [View_LOADAV; View_STATES; View_CPUSUM; View_MEMORY; Show_HIBOLD; Show_HIROWS; Show_IDLEPS;
   Show_TASKON; Show_JRNUMS; Qsrt_NORMAL].
Definition ALT_WINFLGS : Z := DEF_WINFLGS.

(** The members in the order of the declaration. *)
Definition rcw_ints (l : list Z) (f : rfield) : Z :=
  let i := match f with
           | sortindx => 0 | winflags => 1 | maxtasks => 2 | graph_cpus => 3 | graph_mems => 4
           | double_up => 5 | combine_cpus => 6 | summclr => 7 | msgsclr => 8 | headclr => 9 | taskclr => 10
           end%nat in nth i l 0.

(** The windows of DEF_RCFILE. *)
Definition DEF_WINS : list RCW_t :=
  [RCW (rcw_ints [EU_CPU; DEF_WINFLGS; 0; 0; 0; 1; 0; 1; 1; 3; 1]) (bs "Def") DEF_FIELDS;
   RCW (rcw_ints [EU_PID; ALT_WINFLGS; 0; 0; 0; 0; 0; 6; 6; 7; 6]) (bs "Job") JOB_FIELDS;
   RCW (rcw_ints [EU_MEM; ALT_WINFLGS; 0; 0; 0; 0; 0; 5; 5; 4; 5]) (bs "Mem") MEM_FIELDS;
   RCW (rcw_ints [EU_UEN; ALT_WINFLGS; 0; 0; 0; 0; 0; 3; 3; 2; 3]) (bs "Usr") USR_FIELDS].

(** ** Windows *)

(** One of the other filters; [o_typ] is the key it was made with, which selects
    the comparisons [rel] and [sel]. *)
Record osel_s := Osel { o_raw : bytes; o_val : bytes; o_ops : Z; o_inc : bool; o_enu : Z; o_typ : Z }.

Inductive wfield :=
| winnum | winlines | maxpflgs | totpflgs | begpflg | endpflg | begtask | begnext | varcolbeg | varcolsz
| usrseluid | usrseltyp | usrselflg | osel_tot | findlen | focus_pid | focus_beg | focus_end.

#[export] Instance wfield_eq_dec : EqDecision wfield.
Proof. solve_decision. Defined.

(** [ppt] holds the process ids of the stacks it points to. *)
Record WIN_t := WIN {
  w_int : wfield -> Z;
  rc : RCW_t;
  pflgsall : list Z;
  procflgs : list Z;
  grpname : bytes;
  findstr : bytes;
  osel_1st : list osel_s;
  ppt : list Z
}.

(** ** The program *)

Inductive gfield :=
| mode_altscr | mode_irixps | fixed_widest | summ_mscale | task_mscale | zero_suppress | tics_scaled
| Monpidsidx | Thread_mode | Secure_mode | Cpu_cnt | Numa_node_tot | Numa_node_sel | Restrict_some
| Rc_questions | Rc_compatibilty | Pseudo_row | Screen_cols | max_colors | PIDSmaxt.

#[export] Instance gfield_eq_dec : EqDecision gfield.
Proof. solve_decision. Defined.

(** [Curwin] is an index of [Winstk]; [widths] the widths of Fieldstab, which
    change; [insp_total] and [insp_raw] what is kept of Inspect. *)
Record top := Top {
  g_int : gfield -> Z;
  rc_id : Z;
  delay_time : Z;
  Winstk : list WIN_t;
  Curwin : nat;
  Hide_pid : list Z;
  widths : list Z;
  insp_total : Z;
  insp_raw : bytes
}.

(** *** Updates *)

Definition set_rc (f : rfield) (v : Z) (r : RCW_t) : RCW_t := RCW (<[f := v]> (rc_int r)) (winname r) (fieldscur r).
Definition set_fields (l : list Z) (r : RCW_t) : RCW_t := RCW (rc_int r) (winname r) l.

Definition on_rc (h : RCW_t -> RCW_t) (w : WIN_t) : WIN_t :=
  WIN (w_int w) (h (rc w)) (pflgsall w) (procflgs w) (grpname w) (findstr w) (osel_1st w) (ppt w).
Definition set_w (f : wfield) (v : Z) (w : WIN_t) : WIN_t :=
  WIN (<[f := v]> (w_int w)) (rc w) (pflgsall w) (procflgs w) (grpname w) (findstr w) (osel_1st w) (ppt w).
Definition set_names (wname gname : bytes) (w : WIN_t) : WIN_t :=
  WIN (w_int w) (RCW (rc_int (rc w)) wname (fieldscur (rc w))) (pflgsall w) (procflgs w) gname (findstr w)
    (osel_1st w) (ppt w).
Definition set_find (s : bytes) (w : WIN_t) : WIN_t :=
  WIN (w_int w) (rc w) (pflgsall w) (procflgs w) (grpname w) s (osel_1st w) (ppt w).
Definition set_osel (l : list osel_s) (w : WIN_t) : WIN_t :=
  WIN (w_int w) (rc w) (pflgsall w) (procflgs w) (grpname w) (findstr w) l (ppt w).

Definition set_g (f : gfield) (v : Z) (t : top) : top :=
  Top (<[f := v]> (g_int t)) (rc_id t) (delay_time t) (Winstk t) (Curwin t) (Hide_pid t) (widths t) (insp_total t) (insp_raw t).
Definition set_delay (v : Z) (t : top) : top :=
  Top (g_int t) (rc_id t) v (Winstk t) (Curwin t) (Hide_pid t) (widths t) (insp_total t) (insp_raw t).
Definition set_wins (l : list WIN_t) (t : top) : top :=
  Top (g_int t) (rc_id t) (delay_time t) l (Curwin t) (Hide_pid t) (widths t) (insp_total t) (insp_raw t).
Definition set_cur (i : nat) (t : top) : top :=
  Top (g_int t) (rc_id t) (delay_time t) (Winstk t) i (Hide_pid t) (widths t) (insp_total t) (insp_raw t).
Definition set_hide (l : list Z) (t : top) : top :=
  Top (g_int t) (rc_id t) (delay_time t) (Winstk t) (Curwin t) l (widths t) (insp_total t) (insp_raw t).

Definition on_win (i : nat) (h : WIN_t -> WIN_t) (t : top) : top := set_wins (alter h i (Winstk t)) t.
Definition on_cur (h : WIN_t -> WIN_t) (t : top) : top := on_win (Curwin t) h t.

Definition sw (f : rfield) (v : Z) : WIN_t -> WIN_t := on_rc (set_rc f v).
Definition rcv (w : WIN_t) (f : rfield) : Z := rc_int (rc w) f.

(** [CHKw], [TOGw], [SETw], [OFFw], [VIZISw] *)
Definition CHKw (w : WIN_t) (f : Z) : bool := negb (Z.land (rcv w winflags) f =? 0).
Definition TOGw (f : Z) (w : WIN_t) : WIN_t := sw winflags (Z.lxor (rcv w winflags) f) w.
Definition SETw (f : Z) (w : WIN_t) : WIN_t := sw winflags (Z.lor (rcv w winflags) f) w.
Definition OFFw (f : Z) (w : WIN_t) : WIN_t := sw winflags (Z.land (rcv w winflags) (Z.lnot f)) w.
Definition VIZISw (t : top) (w : WIN_t) : bool := (g_int t mode_altscr =? 0) || CHKw w Show_TASKON.

Definition ENUviz (w : WIN_t) (E : Z) : bool :=
  match msch (procflgs w) E (Z.to_nat (w_int w maxpflgs)) with Some _ => true | None => false end.
Definition VARcol (t : top) (E : Z) : bool := nth (Z.to_nat E) (widths t) 0 =? -1.

(** [mkVIZrow1] and [mkVIZrowX] *)
Definition mkVIZrow1 : top -> top := on_cur (fun w => set_w begtask (w_int w begtask - 1) (set_w begnext 1 w)).
Definition mkVIZrowX (n : Z) : top -> top := on_cur (set_w begnext n).

(** ** Windows/Field Groups support *)

(** The windows hang in a ring. *)
Definition next_win (i : nat) : nat := (S i mod GROUPSMAX)%nat.
Definition prev_win (i : nat) : nat := ((i + (GROUPSMAX - 1)) mod GROUPSMAX)%nat.

Definition win_names (name : bytes) (w : WIN_t) : WIN_t :=
  set_names (snprintf WINNAMSIZ name) (snprintf GRPNAMSIZ (fmt_d (w_int w winnum) ++ 58 :: name)) w.

Definition osel_clear (w : WIN_t) : WIN_t := OFFw NOHISEL_xxx (set_osel [] (set_w osel_tot 0 w)).

(** [win_reset]: what it does to the window; the two global variables it clears. *)
Definition win_reset_w (w : WIN_t) : WIN_t :=
  let w := SETw (Z.lor Show_IDLEPS Show_TASKON) w in
  let w := sw maxtasks 0 w in
  let w := foldl (fun w f => set_w f 0 w) w [usrseltyp; begpflg; begtask; begnext; varcolbeg; focus_pid] in
  let w := set_find [] (osel_clear w) in
  sw combine_cpus 0 (OFFw (Z.lor NOHIFND_xxx NOHISEL_xxx) w).

Definition win_reset (i : nat) (t : top) : top :=
  on_win i win_reset_w (set_g tics_scaled 0 (set_g Monpidsidx 0 t)).

(** [win_select] of a key that has been read. *)
Definition win_select (ch : Z) (t : top) : top :=
  if ch =? 97 then set_cur (next_win (Curwin t)) t
  else if ch =? 119 then set_cur (prev_win (Curwin t)) t
  else if (49 <=? ch) && (ch <=? 52) then set_cur (Z.to_nat (ch - 49)) t
  else t.

Inductive reflag := Flags_TOG | Flags_SET | Flags_OFF.

(** [wins_reflag]: once around the ring. *)
Definition reflag_one (what : reflag) (flg : Z) (t : top) (i : nat) : top :=
  let t := on_win i (match what with Flags_TOG => TOGw flg | Flags_SET => SETw flg | Flags_OFF => OFFw flg end) t in
  if flg =? EQUWINS_xxx then win_reset i t else t.

Definition ring (i : nat) : list nat := map (fun k => ((i + k) mod GROUPSMAX)%nat) (seq 0 GROUPSMAX).

Definition wins_reflag (what : reflag) (flg : Z) (t : top) : top := foldl (reflag_one what flg) t (ring (Curwin t)).

(** [wins_stage_1] *)
Definition empty_win (r : RCW_t) (i : nat) : WIN_t :=
  WIN (fun f => if decide (f = winnum) then Z.of_nat i + 1 else 0) r (replicate PFLAGSSIZ 0) (replicate PFLAGSSIZ 0) [] [] [] [].
Definition wins_stage_1 : list WIN_t := imap (fun i r => empty_win r i) DEF_WINS.

(** [wins_stage_2]: what it does to the windows. *)
Definition stage_2_win (cpus : Z) (w : WIN_t) : WIN_t :=
  let w := win_names (winname (rc w)) w in
  let w := set_w findlen 0 (set_find [] w) in
  let w := if cpus <=? rcv w combine_cpus then sw combine_cpus 0 w else w in
  if CHKw w (Z.lor View_CPUSUM View_CPUNOD) then sw double_up 0 w else w.

(** ** User selection *)

Section users.
  (** The password database: a user by number, a number by name. *)
Variable getpwuid : Z -> option Z.
Variable getpwnam : bytes -> option Z.

  (** [None]: no such user. *)
Definition certify_uid (str : bytes) : option Z :=
    let r := strtoul0 str in
    let num := u32 (st_val r) in
    if bool_decide (st_rest r = []) then
      match getpwuid num with None => Some num | Some uid => Some uid end
    else getpwnam str.

  (** [user_certify] of the window; false: the message of an unknown user. *)
Definition user_certify (str : bytes) (typ : Z) (w : WIN_t) : bool * WIN_t :=
    let w := set_w usrselflg 1 (set_w usrseltyp 0 w) in
    match str with
    | [] => (true, w)
    | c :: r =>
        let '(str, w) := if c =? 33 then (r, set_w usrselflg 0 w) else (str, w) in
        match certify_uid str with
        | None => (false, w)
        | Some uid => (true, set_w usrseltyp typ (set_w usrseluid uid w))
        end
    end.
End users.

(** [wins_usrselect]: the real, saved, file system and effective user of a task. *)
Record uids := Uids { u_r : Z; u_s : Z; u_f : Z; u_e : Z }.

Definition wins_usrselect (w : WIN_t) (p : uids) : bool :=
  let uid := u32 (w_int w usrseluid) in
  let flg := negb (w_int w usrselflg =? 0) in
  let typ := w_int w usrseltyp in
  if typ =? 0 then true
  else if typ =? 85 then
    if (u_r p =? uid) || (u_s p =? uid) || (u_f p =? uid) || (u_e p =? uid) then flg else negb flg
  else if typ =? 117 then if u_e p =? uid then flg else negb flg
  else negb flg.

End Topdata.
