(* ===== verification/Topfilter.v ===== *)
(** * top.c: the other filters

    Parsing of a filter, the list of filters of a window, and the match of the
    text of a column against them.  The headings of the columns ([N_col]) are
    translated texts and a parameter. *)

From stdpp Require Import functions base numbers list strings.
From S2P Require Import Prelude Libc Real Toptext Topdata.
Open Scope Z_scope.

Module Topfilter.
Import Toptext Topdata.

(** [strcmp], and [strstr] and [strcasestr] as tests. *)
Fixpoint strcmp (a b : bytes) : Z :=
  match a, b with
  | [], [] => 0
  | [], y :: _ => - y
  | x :: _, [] => x
  | x :: a, y :: b => if x =? y then strcmp a b else x - y
  end.

Definition contains (s p : bytes) : bool := match strstr s p with Some _ => true | None => false end.
Definition contains_case (s p : bytes) : bool := contains (map tolower s) (map tolower p).

(** The two comparisons of a filter: those of the key 'o' ignore the case. *)
Definition rel (typ : Z) : bytes -> bytes -> Z := if typ =? 111 then strcasecmp else strcmp.
Definition sel (typ : Z) : bytes -> bytes -> bool := if typ =? 111 then contains_case else contains.

(** [strpbrk(s, "<=>")] *)
Definition is_delim (c : Z) : bool := (c =? 60) || (c =? 61) || (c =? 62).

Fixpoint split_delim (s : bytes) : option (bytes * Z * bytes) :=
  match s with
  | [] => None
  | c :: r =>
      if is_delim c then Some ([], c, r)
      else '(name, ops, val) ← split_delim r; Some (c :: name, ops, val)
  end.

(** What [osel_add] tells the user. *)
Inductive osel_err := Errdups | Errdelm (inc : bool) | Badflds (name : bytes) | Errvalu (inc : bool).

Section filters.
Variable N_col : Z -> bytes.

  (** The field with this heading. *)
Fixpoint find_col (n : nat) (enu : Z) (name : bytes) : option Z :=
    match n with
    | O => None
    | S n => if bool_decide (N_col enu = name) then Some enu else find_col n (enu + 1) name
    end.

  (** A filter, from what the user typed; [width] is that of Fieldstab. *)
Definition parse_osel (width : Z -> Z) (ch : Z) (glob : bytes) : osel_err + osel_s :=
    let raw := snprintf MEDBUFSIZ glob in
    let '(inc, glob) := match glob with c :: r => if c =? 33 then (false, r) else (true, glob) | [] => (true, glob) end in
    match split_delim glob with
    | None => inl (Errdelm inc)
    | Some (name, ops, pval) =>
        match find_col (Z.to_nat EU_MAXPFLGS) 0 name with
        | None => inl (Badflds name)
        | Some enu =>
            match pval with
            | [] => inl (Errvalu inc)
            | _ =>
                (* the alignment passed is the flag of the column, never 0 *)
                let align := nth (Z.to_nat enu) (map f_align Fieldstab) 0 in
                inr (Osel raw (if ops =? 61 then pval else justify_pad pval (width enu) (negb (align =? 0)))
                       ops inc enu ch)
            end
        end
    end.

Definition osel_add (width : Z -> Z) (ch : Z) (glob : bytes) (push : bool) (w : WIN_t) : option osel_err * WIN_t :=
    let raw := snprintf MEDBUFSIZ glob in
    match glob with
    | [] => (None, w)
    | _ =>
        if existsb (fun o => streq (o_raw o) raw) (osel_1st w) then (Some Errdups, w)
        else
          match parse_osel width ch glob with
          | inl e => (Some e, w)
          | inr o =>
              (None, set_w osel_tot (w_int w osel_tot + 1)
                       (set_osel (if push then o :: osel_1st w else osel_1st w ++ [o]) w))
          end
    end.
End filters.

Fixpoint osel_matched (l : list osel_s) (enu : Z) (str : bytes) : bool :=
  match l with
  | [] => true
  | o :: l =>
      let reject :=
        if o_enu o =? enu then
          if o_ops o =? 60 then
            let r := rel (o_typ o) str (o_val o) in
            ((0 <=? r) && o_inc o) || ((r <? 0) && negb (o_inc o))
          else if o_ops o =? 62 then
            let r := rel (o_typ o) str (o_val o) in
            ((r <=? 0) && o_inc o) || ((0 <? r) && negb (o_inc o))
          else
            let p := sel (o_typ o) str (o_val o) in
            (negb p && o_inc o) || (p && negb (o_inc o))
        else false in
      if reject then false else osel_matched l enu str
  end.

(** ** What the filters mean *)

(** A filter holds of a text; a filter that excludes holds of the others. *)
Definition holds (o : osel_s) (str : bytes) : bool :=
  eqb (o_inc o)
    (if o_ops o =? 60 then rel (o_typ o) str (o_val o) <? 0
     else if o_ops o =? 62 then 0 <? rel (o_typ o) str (o_val o)
     else sel (o_typ o) str (o_val o)).

(** The filters of a window: counted, and no two typed alike. *)
Definition filters_ok (w : WIN_t) : Prop :=
  w_int w osel_tot = Z.of_nat (length (osel_1st w)) /\ NoDup (map o_raw (osel_1st w)).

Lemma osel_matched_spec l enu str :
  osel_matched l enu str = forallb (fun o => negb (o_enu o =? enu) || holds o str) l.
Proof.
  induction l as [|o l IH]; [done|]. cbn [osel_matched forallb]. rewrite IH.
  destruct (o_enu o =? enu); cbn [negb orb]; [|done].
  match goal with |- (if ?b then false else ?x) = _ => assert (H : b = negb (holds o str)) end.
  { unfold holds. destruct (o_ops o =? 60), (o_ops o =? 62), (o_inc o); zcase; try done;
      try (by destruct (sel (o_typ o) str (o_val o))). }
  rewrite H. by destruct (holds o str).
Qed.

Lemma parse_raw N_col width ch glob o : parse_osel N_col width ch glob = inr o -> o_raw o = snprintf MEDBUFSIZ glob.
Proof.
  unfold parse_osel. intros H.
  destruct glob as [|c g]; cbn [split_delim] in H; [done|].
  destruct (c =? 33); (destruct (split_delim _) as [[[name ops] pval]|]; [|done]);
    (destruct (find_col _ _ _ name); [|done]); (destruct pval; [done|]); by injection H as <-.
Qed.

Lemma osel_add_ok N_col width ch glob push w : filters_ok w ->
  filters_ok (osel_add N_col width ch glob push w).2.
Proof.
  intros Hok. unfold osel_add. destruct glob as [|c g]; [done|].
  destruct (existsb _ (osel_1st w)) eqn:Ed; [done|].
  destruct (parse_osel N_col width ch (c :: g)) as [e|o] eqn:Ep; [done|]. cbn [snd].
  destruct Hok as [Ht Hn]. split; cbn [w_int set_w set_osel osel_1st].
  - rewrite fn_lookup_insert, Ht. destruct push; [simpl; lia|]. rewrite length_app. simpl. lia.
  - assert (Hfresh : o_raw o ∉ map o_raw (osel_1st w)).
    { rewrite (parse_raw _ _ _ _ _ Ep). intros Hin. apply list_elem_of_fmap in Hin as (x & Hx & Hin).
      assert (existsb (fun o => streq (o_raw o) (snprintf MEDBUFSIZ (c :: g))) (osel_1st w) = true); [|congruence].
      apply existsb_exists. exists x. split; [by apply list_elem_of_In|]. by apply streq_spec. }
    destruct push; [by apply NoDup_cons_2|]. rewrite map_app. apply NoDup_app. split_and!; [done| |apply NoDup_singleton].
    intros x Hx ->%list_elem_of_singleton. done.
Qed.

(** ** Properties *)

(** A task is shown in a column exactly when every filter on that column
    holds of its text: a filter that includes asks for the relation or the
    substring, one that excludes asks for its opposite. *)
Theorem osel_matched_all l enu str :
  osel_matched l enu str = forallb (fun o => negb (o_enu o =? enu) || holds o str) l.
Proof. apply osel_matched_spec. Qed.

(** C24: adding a filter keeps the list counted and without duplicates; a filter
    that is refused changes nothing, one that is accepted is put first when the
    user typed it and last when it comes from the configuration file. *)
Theorem osel_add_behaves N_col width ch glob push w : filters_ok w ->
  filters_ok (osel_add N_col width ch glob push w).2 /\
  match osel_add N_col width ch glob push w with
  | (Some _, w') => w' = w
  | (None, w') => glob = [] /\ w' = w \/
      exists o, parse_osel N_col width ch glob = inr o /\
        osel_1st w' = if push then o :: osel_1st w else osel_1st w ++ [o]
  end.
Proof.
  intros Hok. split; [by apply osel_add_ok|]. unfold osel_add. destruct glob as [|c g]; [by left|].
  destruct (existsb _ (osel_1st w)); [done|].
  destruct (parse_osel N_col width ch (c :: g)) as [e|o]; [done|]. right. by exists o.
Qed.

(** ** Witnesses *)

Definition demo_col (e : Z) : bytes := if e =? EU_UEN then bs "USER" else if e =? EU_PID then bs "PID" else bs "?".
Definition demo_width (e : Z) : Z := nth (Z.to_nat e) (map f_width Fieldstab) 0.
Definition demo_win : WIN_t := nth 0 wins_stage_1 (empty_win (RCW (fun _ => 0) [] []) 0).

Lemma demo_filters : filters_ok demo_win.
Proof. split; [reflexivity|apply NoDup_nil_2]. Qed.

Lemma osel_add_behaves_witness :
  filters_ok (osel_add demo_col demo_width 111 (bs "USER=root") true demo_win).2 /\
  match osel_add demo_col demo_width 111 (bs "USER=root") true demo_win with
  | (Some _, w') => w' = demo_win
  | (None, w') => bs "USER=root" = [] /\ w' = demo_win \/
      exists o, parse_osel demo_col demo_width 111 (bs "USER=root") = inr o /\
        osel_1st w' = [o]
  end.
Proof. apply (osel_add_behaves demo_col demo_width 111 (bs "USER=root") true demo_win demo_filters). Defined.

(** The filter the user typed, as it is kept. *)
Definition typed (s : string) : list osel_s :=
  match parse_osel demo_col demo_width 79 (bs s) with inr o => [o] | inl _ => [] end.

(** The value of a relational filter on a column of names is right-justified
    while the names are shown left-justified: "USER<zz" rejects the user "abc",
    and "USER>zz" accepts it. *)
Theorem relational_name_filters :
  let shown := (make_str (bs "abc") 8 false (-1) (Autox [] 0)).1 in
  osel_matched (typed "USER<zz") EU_UEN shown = false /\ osel_matched (typed "USER>zz") EU_UEN shown = true.
Proof. split; vm_compute; reflexivity. Qed.

End Topfilter.
