(* ===== verification/Toprc.v ===== *)
(** * top.c: the configuration file

    Writing the configuration ([write_rcfile]) and reading it back
    ([configs_file] with [cfg_xform], [config_osel] and [config_insp]).  A stream
    is the list of its bytes that have not been read yet. *)

From stdpp Require Import functions base numbers list strings.
From S2P Require Import Prelude Libc Real Toptext Topdata Topfilter.
Open Scope Z_scope.

Module Toprc.
Import Real Toptext Topdata Topfilter.

Definition LRGBUFSIZ : nat := 512.
Definition FLD_ROWMAX : nat := 20.
Definition RCF_VERSION_ID : Z := 107.
Definition RCF_XFORMED_ID : Z := 107.
Definition RCF_EYECATCHER : bytes := bs "Config File (Linux processes with windows)" ++ [10].
Definition RCF_PLUS_H : bytes := bs "\]^_`abcdefghij".
Definition RCF_PLUS_J : bytes := bs "klmnopqrstuvwxyz".
Definition CVT_FORMER : bytes :=
  [37; 38; 42; 39; 40; 45; 48; 51; 52; 54; 55; 56; 57; 58; 59; 60; 61; 62; 63; 64; 65; 67; 68; 69; 70; 71; 77; 76;
   41; 43; 44; 46; 47; 49; 50; 53; 66; 72; 73; 74; 75; 78; 79; 80; 81; 82; 83; 84; 85; 86; 87; 88; 89; 90; 91]
  ++ RCF_PLUS_H ++ RCF_PLUS_J.
Definition CVT_FLDMAX : nat := 28.

(** The length of the default fields of the former format, all four alike. *)
Definition FORMER_LEN : nat := 86.

Definition Osel_delim_1_txt : bytes := bs "begin: saved other filter data -------------------" ++ [10].
Definition Osel_delim_2_txt : bytes := bs "end  : saved other filter data -------------------" ++ [10].
Definition OSEL_FILTER : bytes := bs "filter=".

(** ** Formatted reading of a stream *)

Inductive fdir := FLit (c : Z) | FWs | FInt | FChar | FWord (n : nat).

Fixpoint span_nospace (n : nat) (s : bytes) : bytes * bytes :=
  match n, s with
  | S n, c :: r => if isspace c then ([], s) else let '(w, r) := span_nospace n r in (c :: w, r)
  | _, _ => ([], s)
  end.

(** [%d]: the value, or nothing; in both cases what is left of the stream. *)
Definition scan_d (s : bytes) : option Z * bytes :=
  let '(neg, r) := scan_sign (skip_spaces s) in
  let '(ds, rest) := span_digits r in
  match ds with
  | [] => (None, r)
  | _ => let v := if neg then - dec_value ds else dec_value ds in
         (Some (i32 (Z.max LONG_MIN (Z.min LONG_MAX v))), rest)
  end.

(** [fscanf]: the values converted and the rest of the stream. *)
Fixpoint fscan (fmt : list fdir) (s : bytes) : list sval * bytes :=
  match fmt with
  | [] => ([], s)
  | FLit c :: fmt =>
      match s with
      | x :: r => if x =? c then fscan fmt r else ([], s)
      | [] => ([], s)
      end
  | FWs :: fmt => fscan fmt (skip_spaces s)
  | FInt :: fmt =>
      match scan_d s with
      | (Some v, r) => let '(vs, r) := fscan fmt r in (VI v :: vs, r)
      | (None, r) => ([], r)
      end
  | FChar :: fmt =>
      match s with
      | x :: r => let '(vs, r) := fscan fmt r in (VI x :: vs, r)
      | [] => ([], s)
      end
  | FWord n :: fmt =>
      let '(w, r) := span_nospace n (skip_spaces s) in
      match w with
      | [] => ([], r)
      | _ => let '(vs, r) := fscan fmt r in (VS w :: vs, r)
      end
  end.

(** A literal text of a format: its blanks match any white space. *)
Definition flits (s : string) : list fdir := map (fun c => if isspace c then FWs else FLit c) (bs s).

(** [fgets(buf, size, fp)]: the line, or nothing at the end of the file. *)
Fixpoint span_line (n : nat) (s : bytes) : bytes * bytes :=
  match n, s with
  | S n, c :: r => if c =? 10 then ([c], r) else let '(l, r) := span_line n r in (c :: l, r)
  | _, _ => ([], s)
  end.

Definition fgets (size : nat) (s : bytes) : option (bytes * bytes) :=
  match s with [] => None | _ => Some (span_line (size - 1) s) end.

(** ** write_rcfile *)

Definition fsubf (x y : Z) : Z := rndf (x - y) 1.

(** The whole part and the thousandths of the delay, as they are written. *)
Definition delay_parts (d : Z) : option (Z * Z) :=
  whole ← to_int d;
  frac ← to_int (fmulf (fsubf d (of_intf whole)) (1000 * one));
  Some (whole, frac).

Definition padl (w : nat) (s : bytes) : bytes := replicate (w - length s) 32 ++ s.

Definition field_text (j : nat) (v : Z) : bytes :=
  (if (0 <? j)%nat && (j mod FLD_ROWMAX =? 0)%nat then 10 :: 9 :: 9 :: bs "  " else []) ++ padl 4 (fmt_d v) ++ [32].

Fixpoint fields_text (j : nat) (l : list Z) : bytes :=
  match l with [] => [] | v :: l => field_text j v ++ fields_text (S j) l end.

(** Numbers, each behind a text of the format. *)
Fixpoint ints_text (names : list string) (vs : list Z) : bytes :=
  match names, vs with
  | n :: names, v :: vs => bs n ++ fmt_d v ++ ints_text names vs
  | _, _ => []
  end.

Definition win_fields : list rfield := [winflags; sortindx; maxtasks; graph_cpus; graph_mems; double_up; combine_cpus].
Definition win_names : list string :=
  ["winflags="; ", sortindx="; ", maxtasks="; ", graph_cpus="; ", graph_mems="; ", double_up="; ", combine_cpus="]%string.
Definition clr_fields : list rfield := [summclr; msgsclr; headclr; taskclr].
Definition clr_names : list string := ["summclr="; ", msgsclr="; ", headclr="; ", taskclr="]%string.
Definition head_names : list string :=
  [", Mode_altscr="; ", Mode_irixps="; ", Delay_time="; "."; ", Curwin="]%string.
Definition tail_fields : list gfield := [fixed_widest; summ_mscale; task_mscale; zero_suppress; tics_scaled].
Definition tail_names : list string :=
  ["Fixed_widest="; ", Summ_mscale="; ", Task_mscale="; ", Zero_suppress="; ", Tics_scaled="]%string.

Definition win_line (w : RCW_t) : bytes := 9 :: ints_text win_names (map (rc_int w) win_fields) ++ [10].
Definition clr_line (w : RCW_t) : bytes := 9 :: ints_text clr_names (map (rc_int w) clr_fields) ++ [10].

(** [None]: the fields of the window have no end. *)
Definition win_text (w : RCW_t) : option bytes :=
  n ← mlen (fieldscur w);
  Some (winname w ++ 9 :: bs "fieldscur=" ++ fields_text 0 (take n (fieldscur w)) ++ 10 :: win_line w ++ clr_line w).

Definition osel_line (o : osel_s) : bytes := 9 :: bs "type=" ++ fmt_d (o_typ o) ++ 44 :: 9 :: OSEL_FILTER ++ o_raw o ++ [10].

Definition osel_names : list string := ["window #"; ", osel_tot="]%string.

Definition osel_text (i : nat) (w : WIN_t) : bytes :=
  match osel_1st w with
  | [] => []
  | l => ints_text osel_names [Z.of_nat i; w_int w osel_tot] ++ 10 :: concat (map osel_line l)
  end.

Definition head_text (t : top) (whole frac : Z) : bytes :=
  bs "Id:" ++ [RCF_VERSION_ID] ++
  ints_text head_names [g_int t mode_altscr; g_int t mode_irixps; whole; frac; Z.of_nat (Curwin t)] ++ [10].

Definition tail_text (t : top) : bytes := ints_text tail_names (map (g_int t) tail_fields) ++ [10].

Definition osels_text (t : top) : bytes :=
  if foldr Z.add 0 (map (fun w => w_int w osel_tot) (Winstk t)) =? 0 then []
  else 10 :: Osel_delim_1_txt ++ concat (imap osel_text (Winstk t)) ++ Osel_delim_2_txt.

Definition insp_text (raw : bytes) : bytes := if bool_decide (raw = [10]) then [] else raw.

(** The file that is written.  [None]: a conversion is undefined. *)
Definition rc_text (Myname : bytes) (t : top) : option bytes :=
  '(whole, frac) ← delay_parts (delay_time t);
  wins ← mapM (fun w => win_text (rc w)) (Winstk t);
  Some (Myname ++ bs "'s " ++ RCF_EYECATCHER ++ head_text t whole frac ++ concat wins ++ tail_text t ++
        osels_text t ++ insp_text (insp_raw t)).

(** [write_rcfile]: the answers to its two questions, whether the file could be
    opened; the new state and what was written, if anything. *)
Definition write_rcfile (Myname : bytes) (yes1 yes2 opened : bool) (t : top) : option (top * option bytes) :=
  if negb (g_int t Rc_questions =? 0) && negb yes1 then Some (t, None) else
  let t := if g_int t Rc_questions =? 0 then t else set_g Rc_questions 0 t in
  if negb (g_int t Rc_compatibilty =? 0) && negb yes2 then Some (t, None) else
  let t := if g_int t Rc_compatibilty =? 0 then t else set_g Rc_compatibilty 0 t in
  if negb opened then Some (t, None) else
  text ← rc_text Myname t; Some (t, Some text).

(** ** configs_file *)

(** What reading ends with: the message of a bad file or a bad entry, undefined
    behaviour, or a result with the rest of the stream. *)
Inductive cfg (A : Type) := CBad | CEntry (i : nat) | CUndef | COk (a : A) (s : bytes).
Arguments CBad {A}.
Arguments CEntry {A}.
Arguments CUndef {A}.
Arguments COk {A}.

(** A C string in a buffer, and one put into it. *)
Definition put_str (buf s : bytes) : option bytes := 
  if (length s <? length buf)%nat then Some (s ++ 0 :: drop (S (length s)) buf) else None.

(** The loop over "%d" that fills [fieldscur]; [None] past the end of the array. *)
Fixpoint read_fields (fuel j : nat) (s : bytes) (arr : list Z) : option (list Z * bytes) :=
  match fuel with
  | O => None
  | S fuel =>
      match scan_d s with
      | (None, r) => Some (arr, r)
      | (Some v, r) => if (j <? length arr)%nat then read_fields fuel (S j) r (<[j := v]> arr) else None
      end
  end.

(** Assign the converted values to the members, in order. *)
Fixpoint assign_rc (fs : list rfield) (vs : list sval) (r : RCW_t) : RCW_t :=
  match fs, vs with
  | f :: fs, VI v :: vs => assign_rc fs vs (set_rc f v r)
  | _, _ => r
  end.
Fixpoint assign_g (fs : list gfield) (vs : list sval) (t : top) : top :=
  match fs, vs with
  | f :: fs, VI v :: vs => assign_g fs vs (set_g f v t)
  | _, _ => t
  end.

(** A format of numbers, each behind a text, and the end of the line. *)
Definition ints_fmt (names : list string) : list fdir := concat (map (fun n => flits n ++ [FInt]) names) ++ [FWs].

Definition head_fmt : list fdir := flits "Id:" ++ FChar :: ints_fmt head_names.
Definition win_fmt : list fdir := FWs :: ints_fmt win_names.
Definition clr_fmt : list fdir := FWs :: ints_fmt clr_names.
Definition tail_fmt : list fdir := ints_fmt tail_names.

Definition between (lo hi v : Z) : bool := (lo <=? v) && (v <=? hi).

Definition win_checks (r : RCW_t) : bool :=
  between 0 (EU_MAXPFLGS - 1) (rc_int r sortindx) && (0 <=? rc_int r maxtasks) &&
  between 0 2 (rc_int r graph_cpus) && between 0 2 (rc_int r graph_mems) &&
  between 0 1 (rc_int r double_up) && (0 <=? rc_int r combine_cpus).
Definition clr_checks (r : RCW_t) : bool := forallb (fun f => between 0 255 (rc_int r f)) clr_fields.

(** The last checks of a window: enough fields, each a field, none twice.  [None]:
    the search for the end of the fields leaves the array. *)
Definition field_checks (l : list Z) : option bool :=
  n ← mlen l;
  Some ((Z.to_nat EU_MAXPFLGS <=? n)%nat &&
        forallb (fun x => between 0 (EU_MAXPFLGS - 1) (FLDget_of x)) (take (Z.to_nat EU_MAXPFLGS) l)).
Definition field_dups (l : list Z) : bool :=
  forallb (fun n => bool_decide (msch l (nth n l 0) (Z.to_nat EU_MAXPFLGS) = Some n)) (seq 0 (Z.to_nat EU_MAXPFLGS)).

(** *** cfg_xform: the formats before 4.0 *)

Definition old_flags : list (Z * Z) :=
  [(0x000001, View_NOBOLD); (0x000008, Show_TASKON); (0x000010, Qsrt_NORMAL); (0x000200, Show_HICOLS); (0x010000, 0)].

Definition xform_flags (x : Z) : Z :=
  let '(x, new) := foldl (fun '(x, new) '(o, n) =>
    if negb (Z.land x o =? 0) then (Z.land x (Z.lnot o), Z.lor new n) else (x, new)) (x, 0) old_flags in
  Z.lor new x.

Definition CVTon (c : Z) : Z := Z.lor c 0x80.
Definition isupper (c : Z) : bool := (65 <=? c) && (c <=? 90).

(** The first position of a character among the first [n] bytes ([memchr]). *)
Definition memchr (buf : bytes) (c : Z) (n : nat) : option nat := strchr (take n buf) c.

(** The loop that converts the letters of the oldest format. *)
Fixpoint old_fields (flds : bytes) (i : nat) (dst : bytes) : option bytes :=
  match flds with
  | [] => Some dst
  | c :: flds =>
      let x := tolower c - 97 in
      if (x <? 0) || (Z.of_nat CVT_FLDMAX <=? x) then None
      else
        let v := nth (Z.to_nat x) CVT_FORMER 0 in
        old_fields flds (S i) (<[i := if isupper c then CVTon v else v]> dst)
  end.

Definition cvt_at (p : option nat) (dst : bytes) : bytes :=
  match p with Some i => alter CVTon i dst | None => dst end.
Definition put_at (p : option nat) (c : Z) (buf : bytes) : bytes :=
  match p with Some i => <[i := c]> buf | None => buf end.

(** The conversion of a file of 'a': false when it is refused. *)
Definition xform_a (r : RCW_t) (buf : bytes) : option (option (RCW_t * bytes)) :=
  let r := set_rc winflags (xform_flags (rc_int r winflags)) r in
  flds ← cstr buf;
  if (CVT_FLDMAX <=? length flds)%nat then Some None else
  let p1 := strchr flds 91 in
  let buf := put_at p1 123 buf in
  flds ← cstr buf;
  let p2 := strchr flds 92 in
  let buf := put_at p2 124 buf in
  flds ← cstr buf;
  match old_fields flds 0 CVT_FORMER with
  | None => Some None
  | Some dst =>
      let dst := cvt_at p2 (cvt_at p1 dst) in
      (* null_flds has 26 letters and a NUL: nothing checks the index *)
      c ← (bs "abcdefghijklmnopqrstuvwxyz" ++ [0]) !! Z.to_nat (rc_int r sortindx);
      let pos := match memchr buf c CVT_FLDMAX with
                 | Some x => Some x
                 | None => memchr buf (toupper c) CVT_FLDMAX
                 end in
      let r := set_rc sortindx (match pos with
                                | Some x => Z.land (nth x dst 0) 0x7f - FLD_OFFSET
                                | None => 0
                                end) r in
      buf ← put_str buf dst;
      Some (Some (r, buf))
  end.

Definition xform_field (c : Z) : Z :=
  let f := Z.shiftl (Z.land c 0x7f) 1 in
  if negb (Z.land c 0x80 =? 0) then Z.lor f FLDon else f.

Definition cfg_xform (id : Z) (r : RCW_t) (buf : bytes) : option (option (RCW_t * bytes)) :=
  res ← (if id =? 97 then xform_a r buf else Some (Some (r, buf)));
  match res with
  | None => Some None
  | Some (r, buf) =>
      Some (Some (set_fields (map xform_field (take FORMER_LEN buf) ++ drop FORMER_LEN (fieldscur r)) r, buf))
  end.

Definition scat (buf s : bytes) : option bytes := a ← cstr buf; put_str buf (a ++ s).

(** The switch on the version of the file. *)
Definition versions (id : Z) (r : RCW_t) (buf : bytes) (t : top) : option (option (RCW_t * bytes * top)) :=
  let upto c := id <=? c in
  let r := if upto 102 then set_rc winflags (Z.lor (rc_int r winflags) Show_JRNUMS) r else r in
  buf ← (if upto 103 && (97 <? id) then scat buf RCF_PLUS_H else Some buf);
  let r := if upto 104 then set_rc graph_mems 0 (set_rc graph_cpus 0 r) else r in
  let t := if upto 104 then set_g summ_mscale SK_Kb (set_g task_mscale SK_Kb t) else t in
  buf ← (if upto 105 && (97 <? id) then scat buf RCF_PLUS_J else Some buf);
  let r := if upto 105 then set_rc combine_cpus 0 (set_rc double_up 0 r) else r in
  if upto 106 then
    res ← cfg_xform id r buf;
    match res with
    | None => Some None
    | Some (r, buf) => Some (Some (r, buf, set_g tics_scaled 0 t))
    end
  else Some (Some (r, buf, t)).

(** One window of the file.  The buffer [fbuf] is shared with the other windows. *)
Definition read_window (id : Z) (i : nat) (w : WIN_t) (fbuf : bytes) (t : top) (s : bytes)
    : cfg (WIN_t * bytes * top) :=
  match fscan (FWord 3 :: flits "	fieldscur=") s with
  | ([VS name], s) =>
      let r := RCW (rc_int (rc w)) name (fieldscur (rc w)) in
      let fields :=
        if id <? RCF_XFORMED_ID then
          let '(word, s) := span_nospace (length s) (skip_spaces s) in
          match word with
          | [] => Some (r, fbuf, s)
          | _ => fbuf ← put_str fbuf word; Some (r, fbuf, skip_spaces s)
          end
        else
          '(arr, s) ← read_fields (S (length s)) 0 s (fieldscur r); Some (set_fields arr r, fbuf, s) in
      match fields with
      | None => CUndef
      | Some (r, fbuf, s) =>
          let '(vs, s) := fscan win_fmt s in
          if (length vs <? 3)%nat then CEntry i else
          let r := assign_rc win_fields vs r in
          if negb (win_checks r) then CEntry i else
          let '(vs, s) := fscan clr_fmt s in
          if negb (length vs =? 4)%nat then CEntry i else
          let r := assign_rc clr_fields vs r in
          if negb (clr_checks r) then CEntry i else
          match versions id r fbuf t with
          | None => CUndef
          | Some None => CEntry i
          | Some (Some (r, fbuf, t)) =>
              match field_checks (fieldscur r) with
              | None => CUndef
              | Some ok =>
                  if negb (ok && field_dups (fieldscur r)) then CEntry i
                  else
                    let w := WIN (w_int w) r (pflgsall w) (procflgs w) (grpname w) (findstr w) (osel_1st w) (ppt w) in
                    COk (OFFw (Z.lor NOHIFND_xxx NOHISEL_xxx) w, fbuf, t) s
              end
          end
      end
  | (_, s) => CEntry i
  end.

Fixpoint read_windows (id : Z) (i : nat) (ws : list WIN_t) (fbuf : bytes) (t : top) (s : bytes)
    : cfg (list WIN_t * bytes * top) :=
  match ws with
  | [] => COk ([], fbuf, t) s
  | w :: ws =>
      match read_window id i w fbuf t s with
      | COk (w, fbuf, t) s =>
          match read_windows id (S i) ws fbuf t s with
          | COk (ws, fbuf, t) s => COk (w :: ws, fbuf, t) s
          | CBad => CBad | CEntry i => CEntry i | CUndef => CUndef
          end
      | CBad => CBad | CEntry i => CEntry i | CUndef => CUndef
      end
  end.

(** *** config_osel *)

Section filters.
Variable N_col : Z -> bytes.

Definition width_of (t : top) (e : Z) : Z := nth (Z.to_nat e) (widths t) 0.

  (** A loop that ends with this code, the buffer and the rest of the stream. *)
Record osel_end := OselEnd { oe_code : Z; oe_buf : bytes; oe_top : top; oe_rest : bytes }.

Definition oops (buf : bytes) (t : top) (s : bytes) : osel_end := OselEnd 1 buf (set_g Rc_questions 1 t) s.

Definition filter_fmt : list fdir := flits "	type=" ++ FInt :: FLit 44 :: flits "	filter=" ++ [FWord 512; FWs].

  (** The string behind the first occurrence of a text. *)
Definition behind (s p : bytes) : option bytes := i ← strstr s p; Some (drop (i + length p) s).

Definition cut_nl (s : bytes) : bytes := match strchr s 10 with Some i => take i s | None => s end.

  (** The [tot] filters of a window; every one takes a line. *)
Fixpoint osel_lines (fuel : nat) (tot : Z) (wno : nat) (buf : bytes) (t : top) (s : bytes) : osel_end + (bytes * top * bytes) :=
    if tot <=? 0 then inr (buf, t, s) else
    match fuel with
    | O => inl (OselEnd 1 buf t s)
    | S fuel =>
        match fgets LRGBUFSIZ s with
        | None => inl (OselEnd 1 buf t s)
        | Some (line, s) =>
            match fscan filter_fmt line with
            | (VI ch :: _, _) =>
                match behind (cut_nl line) OSEL_FILTER with
                | None => inl (oops line t s)
                | Some p =>
                    match Winstk t !! wno with
                    | None => inl (oops line t s)
                    | Some w =>
                        match osel_add N_col (width_of t) ch p false w with
                        | (Some _, _) => inl (oops line t s)
                        | (None, w) => osel_lines fuel (tot - 1) wno (cut_nl line) (set_wins (<[wno := w]> (Winstk t)) t) s
                        end
                    end
                end
            | _ => inl (oops line t s)
            end
        end
    end.

Definition window_fmt : list fdir := ints_fmt osel_names.

Fixpoint osel_loop (fuel : nat) (begun : bool) (buf : bytes) (t : top) (s : bytes) : osel_end :=
    match fuel with
    | O => OselEnd 0 buf t s
    | S fuel =>
        match fgets LRGBUFSIZ s with
        | None => OselEnd 0 buf t s
        | Some (line, s) =>
            if match line with c :: _ => c =? 10 | [] => false end then osel_loop fuel begun line t s
            else if negb begun then
              if contains line Osel_delim_1_txt then osel_loop fuel true line t s else OselEnd 0 line t s
            else if contains line Osel_delim_2_txt then
              (* at the end of the file the buffer stays as it was *)
              match fgets LRGBUFSIZ s with
              | Some (next, s) => OselEnd 0 next t s
              | None => OselEnd 0 line t s
              end
            else
              match fscan window_fmt line with
              | ([VI wno; VI tot], _) =>
                  if negb (between 0 (Z.of_nat GROUPSMAX - 1) wno) || (tot <? 0) then oops line t s
                  else
                    match osel_lines (length s) tot (Z.to_nat wno) line t s with
                    | inl e => e
                    | inr (buf, t, s) => osel_loop fuel true buf t s
                    end
              | _ => oops line t s
              end
        end
    end.

  (** Every round takes a line, so the length of the stream bounds the rounds. *)
Definition config_osel (t : top) (s : bytes) : osel_end := osel_loop (S (length s)) false [] t s.
End filters.

(** *** config_insp *)

(** The tokens of a line ([strtok] with tab and newline). *)
Fixpoint tokens (s : bytes) (cur : bytes) : list bytes :=
  match s with
  | [] => match cur with [] => [] | _ => [cur] end
  | c :: r =>
      if (c =? 9) || (c =? 10) then match cur with [] => tokens r [] | _ => cur :: tokens r [] end
      else tokens r (cur ++ [c])
  end.

(** Control characters, and with a signed [char] the bytes from 128 on. *)
Definition unprintable (c : Z) : bool := negb (c =? 9) && negb (c =? 10) && ((c <? 32) || (128 <=? c)).
Definition sanitize_line (s : bytes) : bytes := map (fun c => if unprintable c then 46 else c) s.

(** Whether a line is a good entry, and whether it casts doubt on the file. *)
Definition insp_entry (line : bytes) : bool * bool :=
  let doubt := existsb unprintable line in
  let line := sanitize_line line in
  if (length (tokens line []) <? 3)%nat then (false, true)
  else
    let c := toupper (hd 0 line) in
    if (c =? 70) || (c =? 80) then (true, doubt) else (false, true).

Fixpoint insp_loop (fuel : nat) (buf raw : bytes) (n : Z) (doubt : bool) (s : bytes) : bytes * Z * bool :=
  match fuel with
  | O => (raw, n, doubt)
  | S fuel =>
      match (match buf with [] => fgets LRGBUFSIZ s | _ => Some (buf, s) end) with
      | None => (raw, n, doubt)
      | Some (line, s) =>
          let raw := raw ++ line in
          if match line with c :: _ => (c =? 35) || (c =? 10) | [] => false end
          then insp_loop fuel [] raw n doubt s
          else
            let '(good, bad) := insp_entry line in
            insp_loop fuel [] raw (if good : bool then n + 1 else n) (doubt || bad) s
      end
  end.

Definition YINSP_demo : Z := 3.

Definition config_insp (buf : bytes) (t : top) (s : bytes) : top :=
  let raw := match buf with c :: _ => if c =? 10 then [] else [10] | [] => [10] end in
  let '(raw, n, doubt) := insp_loop (S (S (length s))) buf raw 0 false s in
  let t := if doubt : bool then set_g Rc_questions 1 t else t in
  Top (g_int t) (rc_id t) (delay_time t) (Winstk t) (Curwin t) (Hide_pid t) (widths t)
    (if n =? 0 then YINSP_demo else n) raw.

(** *** configs_file *)

(** [(float)whole + (float)fract / 1000] *)
Definition read_delay (whole fract : Z) : Z := rndf (of_intf whole + fdivf (of_intf fract) (1000 * one)) 1.

Definition clamp_g (f : gfield) (lo hi : Z) (t : top) : top :=
  if between lo hi (g_int t f) then t else set_g f 0 t.

Definition tail_clamp (t : top) : top :=
  clamp_g tics_scaled 0 TICS_AS_LAST (clamp_g zero_suppress 0 1 (clamp_g task_mscale 0 SK_Pb
    (clamp_g summ_mscale 0 SK_Eb (clamp_g fixed_widest (-1) SCREENMAX t)))).

(** [junk]: what the buffer held; the delay that was read is kept aside. *)
Definition configs_file (N_col : Z -> bytes) (junk : bytes) (t : top) (s : bytes) : cfg (top * Z) :=
  let '(fbuf, s) := match fgets LRGBUFSIZ s with
                    | Some (line, s) => (default junk (put_str junk line), s)
                    | None => (junk, s)
                    end in
  match fscan head_fmt s with
  | ([VI id; VI altscr; VI irixps; VI whole; VI fract; VI cur], s) =>
      let t := set_g mode_irixps irixps (set_g mode_altscr altscr t) in
      let t := Top (g_int t) id (delay_time t) (Winstk t) (Curwin t) (Hide_pid t) (widths t) (insp_total t) (insp_raw t) in
      if negb (between 97 RCF_VERSION_ID id) || between 98 101 id then CBad
      else if negb (between 0 1 altscr) || negb (between 0 1 irixps) || (whole <? 0) then CBad
      else if negb (between 0 (Z.of_nat GROUPSMAX - 1) cur) then CBad
      else
        let t := set_cur (Z.to_nat cur) t in
        match read_windows id 0 (Winstk t) fbuf t s with
        | COk (ws, fbuf, t) s =>
            let t := set_wins ws t in
            let '(vs, s) := fscan tail_fmt s in
            let t := tail_clamp (assign_g tail_fields vs t) in
            let t := if id =? RCF_VERSION_ID then t else set_g Rc_compatibilty 1 t in
            let e := config_osel N_col t s in
            COk (config_insp (oe_buf e) (oe_top e) (oe_rest e), read_delay whole fract) []
        | CBad => CBad | CEntry i => CEntry i | CUndef => CUndef
        end
  | _ => CBad
  end.

(** ** Reading back what was written *)

(** No two blanks in a row, none at the end; and not a digit in front. *)
Fixpoint plain (l : bytes) : bool :=
  match l with
  | [] => true
  | c :: r => (if isspace c then match r with d :: _ => negb (isspace d) | [] => false end else true) && plain r
  end.
Definition plain_name (n : string) : bool :=
  plain (bs n) && match bs n with c :: _ => negb (isdigit c) | [] => false end.

Lemma fscan_flits n fmt rest : plain (bs n) = true -> fscan (flits n ++ fmt) (bs n ++ rest) = fscan fmt rest.
Proof.
  unfold flits. generalize (bs n) as l. induction l as [|c l IH]; intros H; [done|].
  cbn [plain map app] in *. apply andb_prop in H as [Hc Hl]. destruct (isspace c) eqn:E; cbn [fscan].
  - destruct l as [|d l]; [done|]. cbn [app skip_spaces]. rewrite E. apply negb_true_iff in Hc. rewrite Hc.
    by apply IH.
  - cbn [app]. rewrite Z.eqb_refl. by apply IH.
Qed.

Lemma scan_d_fmt n rest : INT_MIN <= n <= INT_MAX -> stops rest -> scan_d (fmt_d n ++ rest) = (Some n, rest).
Proof.
  intros Hn Hr. unfold scan_d. pose proof (scan_fmt_d n rest Hr) as H.
  destruct (scan_sign _) as [neg s1]. destruct (span_digits s1) as [ds t].
  injection H as -> -> ->. destruct (dec (Z.abs n)) eqn:E; [by destruct (dec_nonnil (Z.abs n))|].
  rewrite <- E, dec_value_dec by lia.
  assert ((if n <? 0 then - Z.abs n else Z.abs n) = n) as -> by (destruct (Z.ltb_spec n 0); lia).
  unfold INT_MIN, INT_MAX, LONG_MIN, LONG_MAX in *. f_equal. f_equal.
  rewrite Z.min_r, Z.max_r by lia. apply i32_small. unfold INT_MIN, INT_MAX. lia.
Qed.

Lemma scan_d_spaces k s : scan_d (replicate k 32 ++ s) = scan_d s.
Proof. unfold scan_d. by rewrite skip_spaces_blanks. Qed.

Definition in_int (v : Z) : Prop := INT_MIN <= v <= INT_MAX.

Lemma stops_name n r : plain_name n = true -> stops (bs n ++ r).
Proof.
  unfold plain_name. intros [_ H]%andb_prop. destruct (bs n) as [|c l]; [done|]. by apply negb_true_iff in H.
Qed.

Lemma fscan_ints names : forall vs rest, length names = length vs -> forallb plain_name names = true ->
  Forall in_int vs -> fscan (ints_fmt names) (ints_text names vs ++ 10 :: rest) = (map VI vs, skip_spaces rest).
Proof.
  unfold ints_fmt. induction names as [|n names IH]; intros vs rest Hl Hn Hv.
  - destruct vs; [|done]. done.
  - destruct vs as [|v vs]; [done|]. cbn [map concat ints_text forallb] in *.
    apply andb_prop in Hn as [Hn Hns]. apply Forall_cons in Hv as [Hv Hvs].
    rewrite <- !app_assoc. rewrite fscan_flits by (unfold plain_name in Hn; by apply andb_prop in Hn as [? _]).
    cbn [app fscan]. rewrite scan_d_fmt; [|done|].
    + rewrite IH; [done|simpl in Hl; lia|done|done].
    + destruct names as [|m names], vs as [|x vs]; try done. cbn [ints_text]. rewrite <- app_assoc.
      cbn [forallb] in Hns. apply andb_prop in Hns as [Hm _]. by apply stops_name.
Qed.

(** *** The fields of a window *)

Lemma skip_field j v rest : skip_spaces (field_text j v ++ rest) = skip_spaces (fmt_d v ++ 32 :: rest).
Proof.
  unfold field_text.
  set (pre := if (0 <? j)%nat && (j mod FLD_ROWMAX =? 0)%nat then 10 :: 9 :: 9 :: bs "  " else []).
  assert (Hp : forall s, skip_spaces (pre ++ s) = skip_spaces s) by (intros s; unfold pre; by destruct (_ && _)).
  rewrite <- !app_assoc, Hp. unfold padl. by rewrite <- app_assoc, skip_spaces_blanks.
Qed.

Lemma scan_d_field_text j v rest : in_int v -> scan_d (field_text j v ++ rest) = (Some v, 32 :: rest).
Proof.
  intros Hv. transitivity (scan_d (fmt_d v ++ 32 :: rest)); [|by apply scan_d_fmt].
  unfold scan_d. by rewrite skip_field.
Qed.

Lemma scan_d_space s : scan_d (32 :: s) = scan_d s.
Proof. done. Qed.

Lemma read_fields_text l : forall fuel j arr rest, Forall in_int l -> (length l < fuel)%nat -> (j + length l <= length arr)%nat ->
  (scan_d rest).1 = None ->
  read_fields fuel j (fields_text j l ++ rest) arr = Some (take j arr ++ l ++ drop (j + length l) arr, (scan_d rest).2) /\
  read_fields fuel j (32 :: fields_text j l ++ rest) arr = Some (take j arr ++ l ++ drop (j + length l) arr, (scan_d rest).2).
Proof.
  induction l as [|v l IH]; intros fuel j arr rest Hl Hf Hj Hr; (destruct fuel as [|fuel]; [simpl in Hf; lia|]).
  - cbn [fields_text app read_fields]. rewrite scan_d_space, Nat.add_0_r, take_drop.
    destruct (scan_d rest) as [[]]; [done|]. done.
  - apply Forall_cons in Hl as [Hv Hl]. cbn [fields_text]. rewrite <- app_assoc. cbn [read_fields].
    rewrite scan_d_space, scan_d_field_text by done. simpl length in *.
    destruct (Nat.ltb_spec j (length arr)); [|lia].
    destruct (IH fuel (S j) (<[j := v]> arr) rest) as [_ ->]; [done|lia|rewrite length_insert; lia|done|].
    assert (take (S j) (<[j:=v]> arr) ++ l ++ drop (S j + length l) (<[j:=v]> arr) =
            take j arr ++ (v :: l) ++ drop (j + S (length l)) arr) as ->; [|done].
    rewrite (take_S_r _ _ v) by (by apply list_lookup_insert_eq).
    rewrite take_insert_ge by lia. rewrite drop_insert_lt by lia. rewrite <- app_assoc. cbn [app].
    by replace (S j + length l)%nat with (j + S (length l))%nat by lia.
Qed.

(** *** A window *)

(** A name that [%3s] reads as a whole. *)
Definition word (n : bytes) : Prop := n <> [] /\ (length n <= 3)%nat /\ Forall (fun c => isspace c = false) n.

(** The fields in use of the default arrays; those behind them are zero. *)
Definition NFLDS : nat := 100.
Definition padded (a : list Z) : Prop := exists l, a = pad_fields l /\ length l = NFLDS.

Lemma pad_fields_100 l : length l = NFLDS -> pad_fields l = l ++ 0 :: replicate 27 0.
Proof. intros H. unfold pad_fields. by rewrite H. Qed.

(** What a window must be for its entry to be read back. *)
Record rcw_ok (r : RCW_t) : Prop := {
  ok_name : word (winname r);
  ok_fields : exists l, fieldscur r = pad_fields l /\ length l = NFLDS /\ Forall (fun v => v <> 0 /\ in_int v) l;
  ok_enums : field_checks (fieldscur r) = Some true;
  ok_dups : field_dups (fieldscur r) = true;
  ok_ints : Forall in_int (map (rc_int r) (win_fields ++ clr_fields));
  ok_win : win_checks r = true;
  ok_clr : clr_checks r = true
}.

(** The stream goes on with something that is not white space. *)
Definition nonblank (s : bytes) : Prop := match s with c :: _ => isspace c = false | [] => True end.

Lemma skip_nonblank s : nonblank s -> skip_spaces s = s.
Proof. destruct s as [|c s]; [done|]. simpl. by intros ->. Qed.

Lemma mlen_app l z : Forall (fun v => v <> 0) l -> mlen (l ++ 0 :: z) = Some (length l).
Proof.
  induction 1 as [|v l Hv Hl IH]; [done|]. cbn [app mlen]. destruct (Z.eqb_spec v 0); [done|]. by rewrite IH.
Qed.

Lemma span_nospace_word n w c r : Forall (fun c => isspace c = false) w -> (length w <= n)%nat -> isspace c = true ->
  span_nospace n (w ++ c :: r) = (w, c :: r).
Proof.
  intros Hw Hn Hc. revert n Hn. induction Hw as [|x w Hx Hw IH]; intros n Hn; cbn [app].
  - destruct n; [done|]. simpl. by rewrite Hc.
  - destruct n as [|n]; [simpl in Hn; lia|]. cbn [span_nospace]. rewrite Hx. simpl in Hn. by rewrite IH by lia.
Qed.

Lemma assign_rc_ints fs r r0 f : NoDup fs ->
  rc_int (assign_rc fs (map VI (map (rc_int r) fs)) r0) f = if bool_decide (f ∈ fs) then rc_int r f else rc_int r0 f.
Proof.
  intros Hn. revert r0. induction Hn as [|g fs Hg Hn IH]; intros r0; [done|]. cbn [map assign_rc]. rewrite IH.
  destruct (decide (f ∈ fs)) as [H|H].
  - rewrite !bool_decide_true; [done|by right|done].
  - rewrite (bool_decide_false (f ∈ fs)) by done. cbn [rc_int set_rc]. destruct (decide (f = g)) as [->|Hne].
    + rewrite bool_decide_true by (by left). by rewrite fn_lookup_insert.
    + rewrite fn_lookup_insert_ne by done. rewrite bool_decide_false; [done|]. by rewrite elem_of_cons; intros [].
Qed.

Lemma assign_rc_fields fs vs r : fieldscur (assign_rc fs vs r) = fieldscur r /\ winname (assign_rc fs vs r) = winname r.
Proof.
  revert vs r. induction fs as [|f fs IH]; intros vs r; [done|]. destruct vs as [|[v|] vs]; [done| |done].
  cbn [assign_rc]. apply (IH vs (set_rc f v r)).
Qed.

(** Two configurations of a window that a file cannot tell apart. *)
Definition same_rc (r r' : RCW_t) : Prop :=
  (forall f, rc_int r f = rc_int r' f) /\ winname r = winname r' /\ fieldscur r = fieldscur r'.

Lemma all_fields f : f ∈ win_fields ++ clr_fields.
Proof. destruct f; by apply (bool_decide_unpack _). Qed.

Lemma between_spec lo hi v : between lo hi v = true <-> lo <= v <= hi.
Proof. unfold between. rewrite andb_true_iff, !Z.leb_le. done. Qed.

Lemma win_checks_ext r r' : (forall f, rc_int r f = rc_int r' f) -> win_checks r = win_checks r'.
Proof. intros H. unfold win_checks. by rewrite !H. Qed.
Lemma clr_checks_ext r r' : (forall f, f ∈ clr_fields -> rc_int r f = rc_int r' f) -> clr_checks r = clr_checks r'.
Proof. intros H. unfold clr_checks, clr_fields in *. cbn [forallb]. by rewrite !H by (by apply (bool_decide_unpack _)). Qed.

(** The same members of the second line. *)
Lemma win_checks_part r r' : (forall f, f ∈ win_fields -> rc_int r f = rc_int r' f) -> win_checks r = win_checks r'.
Proof. intros H. unfold win_checks, win_fields in *. by rewrite !H by (by apply (bool_decide_unpack _)). Qed.

Lemma versions_k r fbuf t : versions RCF_VERSION_ID r fbuf t = Some (Some (r, fbuf, t)).
Proof. done. Qed.

(** The stream behind the fields of a window. *)
Lemma fields_end r s : scan_d (10 :: win_line r ++ s) =
  (None, ints_text win_names (map (rc_int r) win_fields) ++ 10 :: s).
Proof. unfold win_line. cbn [app]. rewrite <- app_assoc. done. Qed.

Lemma fscan_winname n s : word n ->
  fscan (FWord 3 :: flits "	fieldscur=") (n ++ 9 :: bs "fieldscur=" ++ s) = ([VS n], s).
Proof.
  intros (Hne & Hlen & Hsp). pose proof (fscan_flits "	fieldscur=" [] s eq_refl) as H. rewrite app_nil_r in H.
  cbn [fscan] in *. rewrite (skip_nonblank (n ++ _)) by (destruct n as [|c n]; [done|]; by apply Forall_cons in Hsp as [? _]).
  rewrite span_nospace_word by done. destruct n as [|c n]; [done|].
  change (9 :: bs "fieldscur=" ++ s) with (bs "	fieldscur=" ++ s). by rewrite H.
Qed.

Lemma fields_text_length l : forall j, (length l <= length (fields_text j l))%nat.
Proof.
  induction l as [|v l IH]; intros j; [done|]. cbn [fields_text length]. rewrite length_app.
  specialize (IH (S j)). unfold field_text. rewrite !length_app. simpl. lia.
Qed.

Lemma win_text_eq r l z : fieldscur r = l ++ 0 :: z -> Forall (fun v => v <> 0) l ->
  win_text r = Some (winname r ++ 9 :: bs "fieldscur=" ++ fields_text 0 l ++ 10 :: win_line r ++ clr_line r).
Proof.
  intros Hl Hnz. unfold win_text. rewrite Hl, mlen_app by done.
  transitivity (Some (winname r ++ 9 :: bs "fieldscur=" ++ fields_text 0 (take (length l) (l ++ 0 :: z)) ++ 10 :: win_line r ++ clr_line r));
    [done|by rewrite take_app_length].
Qed.

Lemma fscan_ws_ints names vs rest : length names = length vs -> forallb plain_name names = true -> Forall in_int vs ->
  nonblank (ints_text names vs ++ 10 :: rest) ->
  fscan (FWs :: ints_fmt names) (ints_text names vs ++ 10 :: rest) = (map VI vs, skip_spaces rest).
Proof. intros ? ? ? ?. cbn [fscan]. rewrite skip_nonblank by done. by apply fscan_ints. Qed.

Lemma skip_clr_line r s : skip_spaces (clr_line r ++ s) = ints_text clr_names (map (rc_int r) clr_fields) ++ 10 :: s.
Proof. unfold clr_line. cbn [app skip_spaces]. rewrite <- app_assoc. done. Qed.

(** A window read over another has all its members. *)
Lemma assign_all r r0 : fieldscur r0 = fieldscur r -> winname r0 = winname r ->
  let r1 := assign_rc win_fields (map VI (map (rc_int r) win_fields)) r0 in
  win_checks r1 = win_checks r /\ same_rc (assign_rc clr_fields (map VI (map (rc_int r) clr_fields)) r1) r.
Proof.
  intros Hf Hw r1. split.
  - apply win_checks_part. intros f Hin. unfold r1. rewrite assign_rc_ints by (by apply (bool_decide_unpack _)).
    by rewrite bool_decide_true.
  - destruct (assign_rc_fields clr_fields (map VI (map (rc_int r) clr_fields)) r1) as [H1 H2].
    destruct (assign_rc_fields win_fields (map VI (map (rc_int r) win_fields)) r0) as [H3 H4].
    split; [|fold r1 in H3, H4; split; congruence].
    intros f. rewrite assign_rc_ints by (by apply (bool_decide_unpack _)). case_bool_decide as Hc; [done|].
    unfold r1. rewrite assign_rc_ints by (by apply (bool_decide_unpack _)). rewrite bool_decide_true; [done|].
    pose proof (all_fields f) as [?|?]%elem_of_app; done.
Qed.

Lemma read_window_text i r w0 fbuf t text s : rcw_ok r -> win_text r = Some text -> nonblank s ->
  padded (fieldscur (rc w0)) ->
  exists r', same_rc r' r /\
    read_window RCF_VERSION_ID i w0 fbuf t (text ++ s) =
    COk (OFFw (Z.lor NOHIFND_xxx NOHISEL_xxx)
           (WIN (w_int w0) r' (pflgsall w0) (procflgs w0) (grpname w0) (findstr w0) (osel_1st w0) (ppt w0)), fbuf, t) s.
Proof.
  intros [Hname (l & Hl & Hmax & [Hnz Hint]%Forall_and) Hen Hdup Hints Hwin Hclr] Htext Hs (l0 & Hl0 & Hlen0).
  rewrite pad_fields_100 in Hl, Hl0 by done. set (z := replicate 27 0) in *.
  rewrite (win_text_eq r l z Hl Hnz) in Htext. apply (inj Some) in Htext as <-. unfold read_window.
  rewrite <- app_assoc, <- app_comm_cons, <- app_assoc. rewrite fscan_winname by done.
  change (RCF_VERSION_ID <? RCF_XFORMED_ID) with false. cbn [fieldscur].
  rewrite <- app_assoc, <- app_comm_cons, <- app_assoc.
  destruct (read_fields_text l (S (length (fields_text 0 l ++ 10 :: win_line r ++ clr_line r ++ s))) 0 (fieldscur (rc w0))
    (10 :: win_line r ++ clr_line r ++ s)) as [-> _]; [done| | |by rewrite fields_end|].
  { rewrite length_app. pose proof (fields_text_length l 0). lia. }
  { rewrite Hl0, length_app. simpl. lia. }
  rewrite fields_end. cbn [mbind option_bind snd take app set_fields winname rc_int].
  assert (drop (0 + length l) (fieldscur (rc w0)) = 0 :: z) as -> by (by rewrite Hl0, Nat.add_0_l, Hmax, <- Hlen0, drop_app_length).
  rewrite <- Hl.
  rewrite map_app in Hints. apply Forall_app in Hints as [Hi1 Hi2].
  set (r0 := set_fields _ _). change (take 0 (fieldscur (rc w0)) ++ fieldscur r) with (fieldscur r) in r0.
  destruct (assign_all r r0 eq_refl eq_refl) as [Hc1 Hsame].
  unfold win_fmt, clr_fmt. rewrite fscan_ws_ints by done. rewrite skip_clr_line.
  change (length (map VI (map (rc_int r) win_fields)) <? 3)%nat with false.
  rewrite Hc1, Hwin. cbn [negb]. rewrite fscan_ws_ints by done. rewrite (skip_nonblank s Hs).
  change (length (map VI (map (rc_int r) clr_fields)) =? 4)%nat with true. cbn [negb].
  set (r' := assign_rc clr_fields _ _) in *. exists r'. split; [done|].
  destruct Hsame as (Hi & _ & Hf). rewrite (clr_checks_ext r' r) by (intros; apply Hi). rewrite Hclr, versions_k.
  cbn [negb]. by rewrite Hf, Hen, Hdup.
Qed.

Definition transient : Z := Z.lor NOHIFND_xxx NOHISEL_xxx.

(** A window of the file and the one it was written from. *)
Definition same_win (w' w : WIN_t) : Prop := same_rc (rc w') (rc (OFFw transient w)).

Lemma nonblank_winname w text s : rcw_ok w -> win_text w = Some text -> nonblank (text ++ s).
Proof.
  intros Hok Ht. destruct (ok_fields w Hok) as (l & Hl & Hlen & [Hnz _]%Forall_and).
  rewrite pad_fields_100 in Hl by done. rewrite (win_text_eq w l _ Hl Hnz) in Ht. apply (inj Some) in Ht as <-.
  destruct (ok_name w Hok) as (Hne & _ & Hsp). destruct (winname w) as [|c n]; [done|].
  by apply Forall_cons in Hsp as [? _].
Qed.

Lemma nonblank_windows ws texts s : Forall (fun w => rcw_ok (rc w)) ws ->
  mapM (fun w => win_text (rc w)) ws = Some texts -> nonblank s -> nonblank (concat texts ++ s).
Proof.
  intros Hok Ht Hs. destruct ws as [|w ws]; [by apply (inj Some) in Ht as <-|].
  apply Forall_cons in Hok as [Hw _]. simpl in Ht. destruct (win_text (rc w)) as [x|] eqn:E; [|done]. simpl in Ht.
  destruct (mapM _ ws) as [xs|]; [|done]. simpl in Ht. injection Ht as <-. simpl. rewrite <- app_assoc.
  by eapply nonblank_winname.
Qed.

Lemma read_windows_text ws0 : forall ws texts i fbuf t s, length ws = length ws0 ->
  Forall (fun w => padded (fieldscur (rc w))) ws0 -> Forall (fun w => rcw_ok (rc w)) ws ->
  mapM (fun w => win_text (rc w)) ws = Some texts -> nonblank s ->
  exists ws', Forall2 same_win ws' ws /\ map osel_1st ws' = map osel_1st ws0 /\
    read_windows RCF_VERSION_ID i ws0 fbuf t (concat texts ++ s) = COk (ws', fbuf, t) s.
Proof.
  induction ws0 as [|w0 ws0 IH]; intros [|w ws] texts i fbuf t s Hlen Hp Hok Ht Hs; try done.
  - apply (inj Some) in Ht as <-. by exists [].
  - apply Forall_cons in Hp as [Hp0 Hp]. pose proof Hok as [Hw Hok']%Forall_cons. simpl in Ht.
    destruct (win_text (rc w)) as [x|] eqn:Ex; [|done]. simpl in Ht.
    destruct (mapM _ ws) as [xs|] eqn:Exs; [|done]. simpl in Ht. injection Ht as <-. simpl concat. rewrite <- app_assoc.
    destruct (read_window_text i (rc w) w0 fbuf t x (concat xs ++ s) Hw Ex) as (r' & Hr & E); [|done|].
    { by eapply nonblank_windows. }
    cbn [read_windows]. rewrite E.
    destruct (IH ws xs (S i) fbuf t s) as (ws' & Hws & Hos & ->); [simpl in Hlen; lia|done..|].
    eexists. split; [|split; [|done]].
    + constructor; [|done]. destruct Hr as (Hi & Hn & Hf). split; [|done]. unfold OFFw, rcv. simpl rc. rewrite Hi.
      intros f. unfold sw, on_rc, set_rc. simpl. destruct (decide (f = winflags)) as [->|Hf'].
      * by rewrite !fn_lookup_insert.
      * by rewrite !fn_lookup_insert_ne.
    + simpl. by f_equal.
Qed.

(** *** The inspect entries *)

Lemma span_line_app n : forall s l r, span_line n s = (l, r) -> l ++ r = s.
Proof.
  induction n as [|n IH]; intros [|c s] l r E; simpl in E; [by injection E as <- <-..|].
  destruct (c =? 10); [by injection E as <- <-|]. destruct (span_line n s) as [l' r'] eqn:E'.
  injection E as <- <-. simpl. f_equal. by apply IH.
Qed.

Lemma fgets_split s l r : fgets LRGBUFSIZ s = Some (l, r) -> l ++ r = s /\ l <> [] /\ (length r < length s)%nat.
Proof.
  destruct s as [|c s]; [done|]. intros E. apply (inj Some) in E. change (LRGBUFSIZ - 1)%nat with (S 510) in E.
  pose proof (span_line_app _ _ _ _ E) as H. assert (l <> []) as Hl.
  { revert E. generalize 510%nat as n. intros n. cbn [span_line]. destruct (c =? 10); [by intros [= <- <-]|].
    destruct (span_line n s). by intros [= <- <-]. }
  split; [done|split; [done|]]. rewrite <- H, length_app. destruct l; [done|]. simpl. lia.
Qed.

(** Every line of the rest of the file is kept. *)
Lemma insp_loop_raw fuel : forall buf raw n doubt s, (length s < fuel)%nat -> (buf <> [] -> (S (length s) < fuel)%nat) ->
  (insp_loop fuel buf raw n doubt s).1.1 = raw ++ buf ++ s.
Proof.
  induction fuel as [|fuel IH]; intros buf raw n doubt s Hf Hb; [lia|]. cbn [insp_loop].
  destruct buf as [|b buf].
  - destruct (fgets LRGBUFSIZ s) as [[line r]|] eqn:E.
    + apply fgets_split in E as (<- & _ & Hlt).
      assert (forall n d, (insp_loop fuel [] (raw ++ line) n d r).1.1 = raw ++ line ++ r) as H.
      { intros. rewrite IH by (done || lia). by rewrite <- app_assoc. }
      destruct (match line with [] => _ | _ => _ end); [apply H|]. destruct (insp_entry line). apply H.
    + destruct s; [|done]. by rewrite !app_nil_r.
  - specialize (Hb ltac:(done)).
    assert (forall n d, (insp_loop fuel [] (raw ++ b :: buf) n d s).1.1 = raw ++ (b :: buf) ++ s) as H.
    { intros. rewrite IH by (done || lia). by rewrite <- app_assoc. }
    destruct ((b =? 35) || (b =? 10)); [apply H|]. destruct (insp_entry (b :: buf)). apply H.
Qed.

Definition insp_start (buf : bytes) : bytes := match buf with c :: _ => if c =? 10 then [] else [10] | [] => [10] end.

Lemma config_insp_raw buf t s : insp_raw (config_insp buf t s) = insp_start buf ++ buf ++ s.
Proof.
  unfold config_insp. fold (insp_start buf).
  pose proof (insp_loop_raw (S (S (length s))) buf (insp_start buf) 0 false s) as H.
  destruct (insp_loop _ _ _ _ _ _) as [[raw n] d]. simpl in *. apply H; lia.
Qed.

Lemma config_insp_same buf t s : let t' := config_insp buf t s in
  (forall f, f <> Rc_questions -> g_int t' f = g_int t f) /\ Winstk t' = Winstk t /\ Curwin t' = Curwin t.
Proof.
  unfold config_insp. destruct (insp_loop _ _ _ _ _ _) as [[raw n] d]. split; [|by destruct d].
  intros f Hf. destruct d; [|done]. simpl. by rewrite fn_lookup_insert_ne.
Qed.

(** Without filters the stream is left to the inspect entries: its first line is
    in the buffer. *)
Definition unfiltered (s : bytes) : Prop :=
  match fgets LRGBUFSIZ s with Some (line, _) => contains line Osel_delim_1_txt = false | None => True end.

Lemma config_osel_none N_col t s : nonblank s -> unfiltered s ->
  let e := config_osel N_col t s in oe_top e = t /\ oe_buf e ++ oe_rest e = s /\ insp_start (oe_buf e) = [10].
Proof.
  intros Hs Hu. unfold config_osel, unfiltered in *. cbn [osel_loop].
  destruct (fgets LRGBUFSIZ s) as [[line r]|] eqn:E; [|by destruct s].
  apply fgets_split in E as (<- & Hne & _). destruct line as [|c line]; [done|]. simpl in Hs.
  assert ((c =? 10) = false) as Hc by (destruct (Z.eqb_spec c 10) as [->|]; done).
  rewrite Hc, Hu. simpl. by rewrite Hc.
Qed.

(** *** The whole file *)

Definition saved_fields : list gfield := mode_altscr :: mode_irixps :: tail_fields.

(** What a state must be for its file to be read back. *)
Record rc_ok (t : top) : Prop := {
  ok_wins : Forall (fun w => rcw_ok (rc w)) (Winstk t);
  ok_total : length (Winstk t) = GROUPSMAX;
  ok_modes : Forall (fun f => g_int t f = 0 \/ g_int t f = 1) [mode_altscr; mode_irixps; zero_suppress];
  ok_cur : (Curwin t < GROUPSMAX)%nat;
  ok_widest : -1 <= g_int t fixed_widest <= SCREENMAX;
  ok_summ : 0 <= g_int t summ_mscale <= SK_Eb;
  ok_task : 0 <= g_int t task_mscale <= SK_Pb;
  ok_tics : 0 <= g_int t tics_scaled <= TICS_AS_LAST;
  ok_delay : exists whole frac, delay_parts (delay_time t) = Some (whole, frac) /\ 0 <= whole
}.

(** The same settings, but for the flags of a search and of a selection. *)
Definition same_saved (t' t : top) : Prop :=
  (forall f, f ∈ saved_fields -> g_int t' f = g_int t f) /\ Curwin t' = Curwin t /\ Forall2 same_win (Winstk t') (Winstk t).

Lemma windows_text ws : Forall (fun w => rcw_ok (rc w)) ws -> exists texts, mapM (fun w => win_text (rc w)) ws = Some texts.
Proof.
  intros H. apply mapM_is_Some. eapply Forall_impl; [exact H|]. intros w Hw.
  destruct (ok_fields _ Hw) as (l & Hl & Hlen & [Hnz _]%Forall_and). rewrite pad_fields_100 in Hl by done.
  unfold compose. rewrite (win_text_eq _ l _ Hl Hnz). by eexists.
Qed.

Lemma fscan_head t whole frac s : g_int t mode_altscr = 0 \/ g_int t mode_altscr = 1 ->
  g_int t mode_irixps = 0 \/ g_int t mode_irixps = 1 -> in_int whole -> in_int frac -> (Curwin t < GROUPSMAX)%nat ->
  nonblank s ->
  fscan head_fmt (head_text t whole frac ++ s) =
  ([VI RCF_VERSION_ID; VI (g_int t mode_altscr); VI (g_int t mode_irixps); VI whole; VI frac; VI (Z.of_nat (Curwin t))], s).
Proof.
  intros Ha Hi Hw Hf Hc Hs. unfold head_text, head_fmt. rewrite <- !app_assoc.
  rewrite fscan_flits by done. cbn [app fscan].
  rewrite fscan_ints; [|done|done|].
  - by rewrite (skip_nonblank s Hs).
  - unfold in_int, INT_MIN, INT_MAX, GROUPSMAX in *. repeat constructor; lia.
Qed.

Lemma fscan_tail t s : rc_ok t ->
  fscan tail_fmt (tail_text t ++ s) = (map VI (map (g_int t) tail_fields), skip_spaces s).
Proof.
  intros H. unfold tail_text, tail_fmt. rewrite <- app_assoc. apply fscan_ints; [done|done|].
  destruct H as [_ _ Hm _ ? ? ? ? _]. rewrite Forall_forall in Hm.
  assert (g_int t zero_suppress = 0 \/ g_int t zero_suppress = 1) by (apply Hm; by apply (bool_decide_unpack _)).
  unfold in_int, INT_MIN, INT_MAX, SCREENMAX, SK_Eb, SK_Pb, TICS_AS_LAST in *. cbn [map tail_fields]. repeat constructor; lia.
Qed.

Lemma clamp_id f lo hi t : lo <= g_int t f <= hi -> clamp_g f lo hi t = t.
Proof. intros H%between_spec. unfold clamp_g. by rewrite H. Qed.

Lemma assign_g_ints fs t t0 f : NoDup fs ->
  g_int (assign_g fs (map VI (map (g_int t) fs)) t0) f = if bool_decide (f ∈ fs) then g_int t f else g_int t0 f.
Proof.
  intros Hn. revert t0. induction Hn as [|g fs Hg Hn IH]; intros t0; [done|]. cbn [map assign_g]. rewrite IH.
  destruct (decide (f ∈ fs)) as [H|H].
  - rewrite !bool_decide_true; [done|by right|done].
  - rewrite (bool_decide_false (f ∈ fs)) by done. cbn [g_int set_g]. destruct (decide (f = g)) as [->|Hne].
    + rewrite bool_decide_true by (by left). by rewrite fn_lookup_insert.
    + rewrite fn_lookup_insert_ne by done. rewrite bool_decide_false; [done|]. by rewrite elem_of_cons; intros [].
Qed.

Lemma assign_g_rest fs vs t : Winstk (assign_g fs vs t) = Winstk t /\ Curwin (assign_g fs vs t) = Curwin t.
Proof.
  revert vs t. induction fs as [|f fs IH]; intros vs t; [done|]. destruct vs as [|[v|] vs]; [done| |done].
  cbn [assign_g]. apply (IH vs (set_g f v t)).
Qed.

Lemma tail_clamp_ok t t0 : rc_ok t -> let t1 := assign_g tail_fields (map VI (map (g_int t) tail_fields)) t0 in tail_clamp t1 = t1.
Proof.
  intros Hok t1. assert (Hg : forall f, f ∈ tail_fields -> g_int t1 f = g_int t f).
  { intros f Hf. unfold t1. rewrite assign_g_ints by (by apply (bool_decide_unpack _)). by rewrite bool_decide_true. }
  destruct Hok as [_ _ Hm _ ? ? ? ? _]. rewrite Forall_forall in Hm.
  assert (g_int t zero_suppress = 0 \/ g_int t zero_suppress = 1) by (apply Hm; by apply (bool_decide_unpack _)).
  unfold tail_clamp. rewrite (clamp_id fixed_widest _ _ t1), (clamp_id summ_mscale _ _ t1), (clamp_id task_mscale _ _ t1),
    (clamp_id zero_suppress _ _ t1), (clamp_id tics_scaled _ _ t1); [done|rewrite Hg by (by apply (bool_decide_unpack _)); lia..].
Qed.

Lemma to_int_range x n : to_int x = Some n -> in_int n.
Proof. unfold to_int, in_int. destruct (Z.leb_spec INT_MIN (Z.quot x one)), (Z.leb_spec (Z.quot x one) INT_MAX); simpl; intros [= <-]. lia. Qed.

Lemma delay_parts_range d whole frac : delay_parts d = Some (whole, frac) -> in_int whole /\ in_int frac.
Proof.
  unfold delay_parts. destruct (to_int d) as [n|] eqn:E1; [|done]. simpl.
  destruct (to_int (fmulf _ _)) as [m|] eqn:E2; [|done]. simpl. intros [= <- <-]. eauto using to_int_range.
Qed.

Lemma zero_sum l : Forall (fun w => w_int w osel_tot = 0) l -> foldr Z.add 0 (map (fun w => w_int w osel_tot) l) = 0.
Proof. induction 1 as [|w l Hw _ IH]; [done|]. simpl. lia. Qed.

(** A name for the first line of the file. *)
Definition name_line (n : bytes) : Prop := (length n <= 400)%nat /\ 10 ∉ n.

Lemma fgets_line l s : (length l < 511)%nat -> 10 ∉ l -> fgets LRGBUFSIZ (l ++ 10 :: s) = Some (l ++ [10], s).
Proof.
  intros Hlen Hl. assert (fgets LRGBUFSIZ (l ++ 10 :: s) = Some (span_line 511 (l ++ 10 :: s))) as -> by (by destruct l).
  f_equal. revert Hlen. generalize 511%nat as n. induction l as [|c l IH]; intros n Hn.
  - destruct n; [simpl in Hn; lia|]. done.
  - apply not_elem_of_cons in Hl as [Hc Hl]. destruct n as [|n]; [simpl in Hn; lia|]. cbn [app span_line].
    destruct (Z.eqb_spec c 10); [done|]. simpl in Hn. by rewrite IH by (done || lia).
Qed.

Lemma first_line Myname rest : name_line Myname ->
  exists line, fgets LRGBUFSIZ (Myname ++ bs "'s " ++ RCF_EYECATCHER ++ rest) = Some (line, rest).
Proof.
  intros [Hl Hn]. exists ((Myname ++ bs "'s Config File (Linux processes with windows)") ++ [10]).
  assert (Myname ++ bs "'s " ++ RCF_EYECATCHER ++ rest =
          (Myname ++ bs "'s Config File (Linux processes with windows)") ++ 10 :: rest) as -> by (by rewrite <- app_assoc).
  apply fgets_line; [rewrite length_app; simpl; lia|]. rewrite elem_of_app. intros [?|H]; [done|].
  revert H. by apply (bool_decide_unpack _).
Qed.

(** The filters of no window are written. *)
Definition no_filters (t : top) : Prop := Forall (fun w => w_int w osel_tot = 0) (Winstk t).

Lemma rc_text_ok Myname t : rc_ok t -> no_filters t -> exists whole frac texts,
  delay_parts (delay_time t) = Some (whole, frac) /\ 0 <= whole /\
  mapM (fun w => win_text (rc w)) (Winstk t) = Some texts /\
  rc_text Myname t = Some (Myname ++ bs "'s " ++ RCF_EYECATCHER ++ head_text t whole frac ++ concat texts ++ tail_text t ++
    insp_text (insp_raw t)).
Proof.
  intros Hok Hno. destruct (ok_delay t Hok) as (whole & frac & Hd & Hw). destruct (windows_text _ (ok_wins t Hok)) as [texts Ht].
  exists whole, frac, texts. do 3 (split; [done|]). unfold rc_text. rewrite Hd. cbn [mbind option_bind]. rewrite Ht.
  unfold osels_text. by rewrite zero_sum.
Qed.

(** The inspect entries of a state, behind the empty line in front of them. *)
Definition insp_body (t : top) (body : bytes) : Prop :=
  (insp_raw t = 10 :: body \/ insp_raw t = [] /\ body = []) /\ nonblank body /\ unfiltered body.

Lemma skip_insp t body : insp_body t body -> skip_spaces (insp_text (insp_raw t)) = body.
Proof.
  intros ([->|[-> ->]] & Hb & _); [|done]. unfold insp_text. case_bool_decide as H; [by injection H as ->|].
  cbn [skip_spaces]. by apply skip_nonblank.
Qed.

Lemma ok_mode t f : rc_ok t -> f ∈ [mode_altscr; mode_irixps; zero_suppress] -> g_int t f = 0 \/ g_int t f = 1.
Proof. intros Hok. pose proof (ok_modes t Hok) as H. rewrite Forall_forall in H. apply H. Qed.

Lemma nonblank_tail t s : nonblank (tail_text t ++ s).
Proof. done. Qed.

(** What follows the windows, read over a state with these windows. *)
Lemma read_tail N_col t t1 body : rc_ok t -> insp_body t body ->
  (forall f, f ∈ [mode_altscr; mode_irixps] -> g_int t1 f = g_int t f) -> Curwin t1 = Curwin t ->
  Forall2 same_win (Winstk t1) (Winstk t) ->
  let e := config_osel N_col (tail_clamp (assign_g tail_fields (map VI (map (g_int t) tail_fields)) t1)) body in
  let t' := config_insp (oe_buf e) (oe_top e) (oe_rest e) in same_saved t' t /\ insp_raw t' = 10 :: body.
Proof.
  intros Hok (_ & Hb & Hu) Hg Hc Hw. rewrite tail_clamp_ok by done. set (t2 := assign_g _ _ _).
  destruct (config_osel_none N_col t2 body Hb Hu) as (Ht & Hs & Hst). cbv zeta.
  rewrite config_insp_raw, Hst, Hs, Ht. split; [|done].
  destruct (config_insp_same (oe_buf (config_osel N_col t2 body)) t2 (oe_rest (config_osel N_col t2 body))) as (H1 & H2 & H3).
  destruct (assign_g_rest tail_fields (map VI (map (g_int t) tail_fields)) t1) as [H4 H5]. fold t2 in H4, H5.
  split; [|split; congruence || by rewrite H2, H4].
  intros f Hf. rewrite H1 by (intros ->; revert Hf; by apply (bool_decide_unpack _)). unfold t2.
  rewrite assign_g_ints by (by apply (bool_decide_unpack _)). case_bool_decide as Hin; [done|]. apply Hg.
  revert Hf Hin. unfold saved_fields. rewrite !elem_of_cons. intuition.
Qed.

(** The state top starts with, on a machine with four processors. *)
Definition demo_top : top :=
  Top (fun f => match f with mode_irixps => 1 | summ_mscale => 1 | Cpu_cnt => 4 | _ => 0 end)
    RCF_VERSION_ID (of_intf 3) wins_stage_1 0 [] (map f_width Fieldstab) 0 [].

#[export] Instance in_int_dec v : Decision (in_int v).
Proof. unfold in_int. apply _. Defined.

Lemma rcw_default i r : DEF_WINS !! i = Some r -> rcw_ok r.
Proof.
  intros H. assert (Hl : exists l, fieldscur r = pad_fields l /\ length l = NFLDS /\ Forall (fun v => v <> 0 /\ in_int v) l).
  { exists (take NFLDS (fieldscur r)).
    do 4 (destruct i as [|i]; [injection H as <-; split_and!; [reflexivity..|by apply (bool_decide_unpack _)]|]). done. }
  do 4 (destruct i as [|i]; [injection H as <-; split; first [exact Hl|reflexivity|by apply (bool_decide_unpack _)|
    split_and!; [done|simpl; lia|by apply (bool_decide_unpack _)]]|]). done.
Qed.

Lemma demo_ok : rc_ok demo_top.
Proof.
  split; try done.
  - repeat (constructor; [first [by apply (rcw_default 0)|by apply (rcw_default 1)|by apply (rcw_default 2)|by apply (rcw_default 3)]|]). constructor.
  - repeat constructor; simpl; lia.
  - simpl. unfold GROUPSMAX. lia.
  - exists 3, 0. done.
Qed.

(** A file that is written is read back. *)
Lemma rc_reads_back N_col Myname junk t t0 body : rc_ok t -> no_filters t -> insp_body t body -> name_line Myname ->
  length (Winstk t0) = GROUPSMAX -> Forall (fun w => padded (fieldscur (rc w))) (Winstk t0) ->
  exists text t' whole frac, rc_text Myname t = Some text /\ delay_parts (delay_time t) = Some (whole, frac) /\
    configs_file N_col junk t0 text = COk (t', read_delay whole frac) [] /\ same_saved t' t /\ insp_raw t' = 10 :: body.
Proof.
  intros Hok Hno Hb Hname Hlen0 Hpad. destruct (rc_text_ok Myname t Hok Hno) as (whole & frac & texts & Hd & Hw & Htexts & Htext).
  destruct (delay_parts_range _ _ _ Hd) as [Hiw Hif]. pose proof (ok_cur t Hok) as Hcur.
  pose proof (ok_mode t mode_altscr Hok ltac:(by apply (bool_decide_unpack _))) as Ha.
  pose proof (ok_mode t mode_irixps Hok ltac:(by apply (bool_decide_unpack _))) as Hi.
  destruct (first_line Myname (head_text t whole frac ++ concat texts ++ tail_text t ++ insp_text (insp_raw t)) Hname) as [line Hline].
  set (text := Myname ++ _) in Htext, Hline. exists text. unfold configs_file. rewrite Hline.
  pose proof (nonblank_windows _ _ _ (ok_wins t Hok) Htexts (nonblank_tail t (insp_text (insp_raw t)))) as Hnb.
  rewrite fscan_head by done.
  change (negb (between 97 RCF_VERSION_ID RCF_VERSION_ID) || between 98 101 RCF_VERSION_ID) with false.
  assert (negb (between 0 1 (g_int t mode_altscr)) || negb (between 0 1 (g_int t mode_irixps)) || (whole <? 0) = false) as ->.
  { destruct (Z.ltb_spec whole 0); [lia|]. by destruct Ha as [-> | ->], Hi as [-> | ->]. }
  assert (between 0 (Z.of_nat GROUPSMAX - 1) (Z.of_nat (Curwin t)) = true) as -> by (apply between_spec; lia).
  cbv beta iota zeta. cbn [negb]. set (t1 := set_cur _ _).
  destruct (read_windows_text (Winstk t1) (Winstk t) texts 0 (default junk (put_str junk line)) t1 (tail_text t ++ insp_text (insp_raw t)))
    as (ws' & Hws & _ & ->); [by rewrite (ok_total t Hok)|done|by apply ok_wins|done|apply nonblank_tail|].
  rewrite fscan_tail, (skip_insp t body Hb) by done. cbv beta iota zeta.
  change (RCF_VERSION_ID =? RCF_VERSION_ID) with true. cbv iota.
  destruct (read_tail N_col t (set_wins ws' t1) body Hok Hb) as [Hs Hr]; [| |done|].
  - intros f. rewrite !elem_of_cons. intros [->|[->|[]%not_elem_of_nil]]; simpl;
      rewrite ?fn_lookup_insert, ?fn_lookup_insert_ne by done; by rewrite ?fn_lookup_insert.
  - simpl. by rewrite Nat2Z.id.
  - eexists _, whole, frac. done.
Qed.



(** ** What the file does not keep *)

(** The delay is written as its whole part and the truncated thousandths of
    a float, so a delay typed by the user comes back smaller: 2.3 seconds are
    written as 2.299, and read as another number. *)
Theorem rc_delay_truncated : exists d, d = rndf (23 * one) 10 /\ delay_parts d = Some (2, 299) /\
  read_delay 2 299 < d.
Proof. eexists. split; [reflexivity|]. split; vm_compute; done. Qed.

Definition demo_filtered : top := on_win 1 (fun w => (osel_add demo_col demo_width 111 (bs "USER=root") true w).2) demo_top.

Definition reread (t : top) : option (list (list bytes) * Z * bytes) :=
  match rc_text (bs "top") t with
  | Some text =>
      match configs_file demo_col [] demo_top text with
      | COk (t', _) [] => Some (map (fun w => map o_raw (osel_1st w)) (Winstk t'), g_int t' Rc_questions, insp_raw t')
      | _ => None
      end
  | None => None
  end.

Lemma filters_end_of t raws q insp : reread t = Some (raws, q, insp) ->
  exists text t' d, rc_text (bs "top") t = Some text /\ configs_file demo_col [] demo_top text = COk (t', d) [] /\
    map (fun w => map o_raw (osel_1st w)) (Winstk t') = raws /\ g_int t' Rc_questions = q /\ insp_raw t' = insp.
Proof.
  unfold reread. generalize demo_top as t0. intros t0. destruct (rc_text (bs "top") t) as [text|]; [|done].
  destruct (configs_file demo_col [] t0 text) as [| | |[t' d] [|]] eqn:E; try done. intros [= <- <- <-]. by exists text, t', d.
Qed.

(** When a file has other filters and no inspect entry, the last line that
    config_osel read stays in the buffer, because fgets leaves it alone at the
    end of the file: config_insp takes the closing line of the filters for an
    inspect entry, calls the file into question and keeps the line, which the
    next save writes a second time. *)
Theorem rc_filters_end : exists text t' d, rc_text (bs "top") demo_filtered = Some text /\
  configs_file demo_col [] demo_top text = COk (t', d) [] /\
  map (fun w => map o_raw (osel_1st w)) (Winstk t') = [[]; [bs "USER=root"]; []; []] /\
  g_int t' Rc_questions = 1 /\ insp_raw t' = 10 :: Osel_delim_2_txt.
Proof.
  apply filters_end_of. vm_compute. reflexivity.
Qed.

Lemma read_fields_overflow l : forall fuel j arr s, Forall in_int l -> (length arr < j + length l)%nat -> (j <= length arr)%nat ->
  read_fields fuel j (fields_text j l ++ s) arr = None /\ read_fields fuel j (32 :: fields_text j l ++ s) arr = None.
Proof.
  induction l as [|v l IH]; intros fuel j arr s Hl Hlen Hj; [simpl in Hlen; lia|].
  apply Forall_cons in Hl as [Hv Hl]. destruct fuel as [|fuel]; [done|]. cbn [fields_text]. rewrite <- app_assoc.
  cbn [read_fields]. rewrite scan_d_space, scan_d_field_text by done. simpl length in Hlen.
  destruct (Nat.ltb_spec j (length arr)); [|done].
  destruct (IH fuel (S j) (<[j:=v]> arr) s) as [_ ->]; [done|rewrite length_insert; lia..|done].
Qed.

(** The loop that reads the fields of a window does not count them: a file
    with more numbers than fieldscur has elements makes configs_file store past
    the end of the array. *)
Theorem rc_fields_unbounded i w fbuf t name l s : word name -> Forall in_int l -> (length (fieldscur (rc w)) < length l)%nat ->
  read_window RCF_VERSION_ID i w fbuf t (name ++ 9 :: bs "fieldscur=" ++ fields_text 0 l ++ s) = CUndef.
Proof.
  intros Hn Hl Hlen. unfold read_window. rewrite fscan_winname by done.
  change (RCF_VERSION_ID <? RCF_XFORMED_ID) with false. cbn [fieldscur].
  destruct (read_fields_overflow l (S (length (fields_text 0 l ++ s))) 0 (fieldscur (rc w)) s) as [-> _]; [done|lia..|done].
Qed.

Lemma rc_fields_unbounded_witness : read_window RCF_VERSION_ID 0 (empty_win (RCW (rcw_ints []) (bs "Def") DEF_FIELDS) 0) [] demo_top
  (bs "Def" ++ 9 :: bs "fieldscur=" ++ fields_text 0 (replicate 129 75) ++ []) = CUndef.
Proof.
  apply rc_fields_unbounded; [split_and!; [done|simpl; lia|by apply (bool_decide_unpack _)]|by apply (bool_decide_unpack _)|vm_compute; lia].
Defined.

(** In a file of the oldest format nothing limits the sort column to the
    letters it stands for: with a column above 26 cfg_xform reads behind the end
    of its table. *)
Theorem rc_xform_sortindx r buf flds dst : cstr buf = Some flds -> (length flds < CVT_FLDMAX)%nat ->
  strchr flds 91 = None -> strchr flds 92 = None -> old_fields flds 0 CVT_FORMER = Some dst -> 26 < rc_int r sortindx ->
  cfg_xform 97 r buf = None.
Proof.
  intros Hb Hl H1 H2 Ho Hs. unfold cfg_xform, xform_a. cbn [Z.eqb Pos.eqb]. rewrite Hb. cbn [mbind option_bind].
  destruct (Nat.leb_spec CVT_FLDMAX (length flds)); [lia|]. rewrite H1. cbn [put_at]. rewrite Hb. cbn [mbind option_bind].
  rewrite H2. cbn [put_at]. rewrite Hb. cbn [mbind option_bind]. rewrite Ho.
  rewrite lookup_ge_None_2; [done|].
  cbn [rc_int set_rc]. rewrite fn_lookup_insert_ne by done. simpl length. lia.
Qed.

Lemma rc_xform_sortindx_witness :
  cfg_xform 97 (RCW (rcw_ints [27]) (bs "Def") DEF_FIELDS) (bs "AEHIOQTWKNMbcdfgjplrsuvyzX" ++ [0]) = None.
Proof.
  apply (rc_xform_sortindx _ _ (bs "AEHIOQTWKNMbcdfgjplrsuvyzX")
    (default [] (old_fields (bs "AEHIOQTWKNMbcdfgjplrsuvyzX") 0 CVT_FORMER))); vm_compute; reflexivity || lia.
Defined.

End Toprc.
