(* ===== verification/Topfields.v ===== *)
(** * top.c: the screen, the widths of the columns and their headers

    [adj_geometry], [widths_resize], [zap_fieldstab], [calibrate_fields] and
    [build_headers]: how big the screen is, how wide a column, which fields of a
    window fit on the screen, what stands above them, and which items the library
    is asked for.  The names of the columns (top_nls.c) and the widths of
    characters are parameters. *)

From stdpp Require Import functions base numbers list strings.
From S2P Require Import Prelude Libc Real Toptext Topdata.
Open Scope Z_scope.

Module Topfields.
Import Real Toptext Topdata.

(** ** adj_geometry *)

Definition W_MIN_COL : Z := 3.
Definition W_MIN_ROW : Z := 3.
Definition ROWMAXSIZ : Z := SCREENMAX + 16 * (32 + 64).
Definition GRAPH_prefix : Z := 25.
Definition GRAPH_actual : Z := 100.
Definition GRAPH_suffix : Z := 2.
Definition DOUBLE_space : Z := 3.
Definition DOUBLE_limit : Z := 80.

(** What surrounds it: the terminal's description, the answer of the terminal, the
    -w option, the environment. *)
Record tty := Tty {
  columns : Z;
  lines : Z;
  winsize : option (Z * Z);
  Cap_avoid_eol : bool;
  Width_mode : Z;
  env_columns : option bytes;
  env_lines : option bytes;
  Batch : bool
}.

(** Its static variables. *)
Record geo := Geo { w_set : bool; w_cols : Z; w_rows : Z; pseudo_max : Z }.

(** What it sets, and whether the screen had to grow. *)
Record screen := Screen { s_cols : Z; s_rows : Z; s_pseudo : Z; s_graph : Z; s_double : Z }.

(** A number of the environment, 0 when it is not one. *)
Definition env_number (e : option bytes) : Z :=
  match e with
  | None | Some [] => 0
  | Some s =>
      let r := strtol0 s in
      if bool_decide (st_rest r = []) && (0 <? st_val r) && (st_val r <=? 0x7fffffff) then st_val r else 0
  end.

(** The override of -w, found the first time. *)
Definition override (y : tty) (g : geo) : geo :=
  if w_set g then g
  else
    let '(c, r) :=
      if 0 <? Width_mode y then (Width_mode y, w_rows g)
      else if Width_mode y <? 0 then
        let c := if 0 <? env_number (env_columns y) then env_number (env_columns y) else w_cols g in
        let r := if 0 <? env_number (env_lines y) then env_number (env_lines y) else w_rows g in
        let c := if c =? 0 then SCREENMAX else c in
        (if negb (c =? 0) && (c <? W_MIN_COL) then W_MIN_COL else c,
         if negb (r =? 0) && (r <? W_MIN_ROW) then W_MIN_ROW else r)
      else (w_cols g, w_rows g) in
    Geo true (if SCREENMAX <? c then SCREENMAX else c) r (pseudo_max g).

Definition max_rows : Z := Z.quot INT_MAX ROWMAXSIZ.

Definition graph_length (cols double : Z) : Z :=
  let len := cols - GRAPH_prefix - GRAPH_actual - GRAPH_suffix in
  let len := if 0 <=? len then GRAPH_actual
             else if 80 <? cols then cols - GRAPH_prefix - GRAPH_suffix
             else 80 - GRAPH_prefix - GRAPH_suffix in
  if double =? 0 then len
  else
    let len := Z.quot (cols - DOUBLE_space - 2 * (GRAPH_prefix + GRAPH_suffix)) 2 in
    let len := len + (if Z.rem cols 2 =? 0 then 1 else 0) in
    if GRAPH_actual <? len then GRAPH_actual else len.

(** [double]: double_up of the current window. *)
Definition adj_geometry (y : tty) (double : Z) (g : geo) : geo * screen :=
  let '(c, r) := match winsize y with
                 | Some (wc, wr) => if (0 <? wc) && (0 <? wr) then (wc, wr) else (columns y, lines y)
                 | None => (columns y, lines y)
                 end in
  let c := if Cap_avoid_eol y then c - 1 else c in
  let c := if SCREENMAX <? c then SCREENMAX else c in
  let c := if c <? W_MIN_COL then W_MIN_COL else c in
  let g := override y g in
  let '(c, r, psize) :=
    if Batch y then
      (if w_cols g =? 0 then c else w_cols g, if w_rows g =? 0 then INT_MAX else w_rows g, ROWMAXSIZ)
    else
      let c := if negb (w_cols g =? 0) && (w_cols g <? c) then w_cols g else c in
      let r := if negb (w_rows g =? 0) && (w_rows g <? r) then w_rows g else r in
      let r := if (r <? 0) || (max_rows <? r) then max_rows else r in
      (c, r, ROWMAXSIZ * r) in
  let g := if pseudo_max g <? psize then Geo (w_set g) (w_cols g) (w_rows g) psize else g in
  let double := if c <? DOUBLE_limit then 0 else double in
  (g, Screen c r psize (graph_length c double) double).

(** ** Widths *)

(** [widths_resize]: every column that was too narrow becomes wider by one. *)
Definition widths_resize (a : autox) (ws : list Z) : autox * list Z :=
  let grow i x := if nth i (Autox_array a) 0 =? 0 then x else x + 1 in
  let n := Z.to_nat EU_MAXPFLGS in
  (Autox (replicate (length (Autox_array a)) 0)
     (if existsb (fun v => negb (v =? 0)) (take n (Autox_array a)) then 1 else 0),
   imap (fun i x => if (i <? n)%nat then grow i x else x) ws).

Definition set_width (v : Z) (ws : list Z) (e : Z) : list Z := <[Z.to_nat e := v]> ws.

Definition pid_fields : list Z := [EU_TPG; EU_TGD; EU_SID; EU_PGD; EU_PPD; EU_PID].

(** The end of the program with a message. *)
Inductive zap := ZapWidePid | ZapWideCpu | ZapOk (ws : list Z).

(** The first time: the widths of numbers of processors, nodes and processes. *)
Definition zap_once (pid_length : Z) (ws : list Z) : zap :=
  let ws := set_width 2 (set_width 1 ws EU_CPN) EU_NMA in
  let ws := foldl (set_width 5) ws pid_fields in
  if 5 <? pid_length then
    if 10 <? pid_length then ZapWidePid else ZapOk (foldl (set_width pid_length) ws pid_fields)
  else ZapOk ws.

Definition extra_fields : list (Z * list Z) :=
  [(5, [EU_GID; EU_USD; EU_URD; EU_UED]); (8, [EU_GRP; EU_USN; EU_URN; EU_UEN]); (8, [EU_LXC; EU_TTY]); (10, [EU_WCH]);
   (10, [EU_NS1; EU_NS2; EU_NS3; EU_NS4; EU_NS5; EU_NS6])].

(** [zap_fieldstab]: the widths of Fieldstab.  [once] is its static variable. *)
Definition zap_fieldstab (once : bool) (pid_length : Z) (t : top) (ws : list Z) : zap :=
  match (if once then ZapOk ws else zap_once pid_length ws) with
  | ZapOk ws =>
      let digits := Z.of_nat (length (fmt_d (g_int t Cpu_cnt))) in
      if (1 <? digits) && (5 <? digits) then ZapWideCpu
      else
        let ws := if 1 <? digits then set_width digits ws EU_CPN else ws in
        let digits := Z.of_nat (length (fmt_d (g_int t Numa_node_tot))) in
        let ws := if 2 <? digits then set_width digits ws EU_NMA else ws in
        ZapOk (if g_int t fixed_widest <? 0 then ws
               else foldl (fun ws '(base, fs) => foldl (set_width (base + g_int t fixed_widest)) ws fs) ws extra_fields)
  | z => z
  end.

Definition mscale_fields : list Z :=
  [EU_VRT; EU_SWP; EU_RES; EU_COD; EU_DAT; EU_SHR; EU_USE; EU_RZA; EU_RZF; EU_RZL; EU_RZS; EU_RSS; EU_PSS; EU_PZA; EU_PZF;
   EU_PZS; EU_USS].
(** The scales of Fieldstab. *)
Definition zap_scales (t : top) (scales : list Z) : list Z := foldl (set_width (g_int t task_mscale)) scales mscale_fields.

(** [Cpu_pmax], in tenths of a percent. *)
Definition cpu_pmax (t : top) : Z :=
  let n := g_int t Cpu_cnt in
  if negb (g_int t mode_irixps =? 0) && (1 <? n) && (g_int t Thread_mode =? 0) then
    let p := 1000 * n in
    if 1000 <? n then Z.min p 99999990
    else if 100 <? n then if 999999 <? n then 9999990 else p
    else if 10 <? n then Z.min p 999990
    else Z.min p 9999
  else 999.

(** ** calibrate_fields *)

Section calibrate.
  (** The heading of a field and the columns of a character. *)
Variable N_col : Z -> bytes.
Variable wcols : bytes -> Z.

  (** The fields that are on, the sort field between its marks when columns are
      highlighted; the process id when none is on. *)
Definition viz_fields (w : WIN_t) : list Z :=
    map FLDget_of (filter (fun x => FLDviz_of x = true) (take (Z.to_nat EU_MAXPFLGS) (fieldscur (rc w)))).
Definition marked (w : WIN_t) (f : Z) : list Z :=
    if CHKw w Show_HICOLS && (f =? rcv w sortindx) then [EU_XON; f; EU_XOF] else [f].
Definition all_fields (w : WIN_t) : list Z :=
    match concat (map (marked w) (viz_fields w)) with [] => [EU_PID] | l => l end.

Definition is_field (f : Z) : bool := f <? EU_MAXPFLGS.

  (** The columns a field takes, with the one behind it. *)
Definition col_len (t : top) (f : Z) : Z :=
    (if VARcol t f then Z.of_nat (length (N_col f)) else nth (Z.to_nat f) (widths t) 0) + 1.

  (** The first loop: how many of these fields fit into [cols] columns when [used]
      are taken; the columns used, the variable columns and the sum of their
      headings. *)
Record fit := Fit { f_count : nat; f_used : Z; f_vars : Z; f_sum : Z }.

Fixpoint fit_fields (t : top) (cols : Z) (l : list Z) (x : fit) : fit :=
    match l with
    | [] => x
    | f :: l =>
        if negb (is_field f) then fit_fields t cols l (Fit (S (f_count x)) (f_used x) (f_vars x) (f_sum x))
        else if cols <? f_used x + col_len t f then x
        else
          let '(v, s) := if VARcol t f then (f_vars x + 1, f_sum x + Z.of_nat (length (N_col f))) else (f_vars x, f_sum x) in
          fit_fields t cols l (Fit (S (f_count x)) (f_used x + col_len t f) v s)
    end.

  (** The last loop, from the last field down: the first field from which all the
      others fit.  [i] is the index behind the fields that are left, in reverse. *)
Fixpoint end_field (t : top) (cols : Z) (rl : list Z) (i : nat) (used : Z) (e : nat) : nat :=
    match rl, i with
    | f :: rl, S i =>
        if negb (is_field f) then end_field t cols rl i used i
        else if cols <? used + col_len t f then e
        else end_field t cols rl i (used + col_len t f) i
    | _, _ => e
    end.

  (** Members written over the first elements of an array. *)
Definition over (l a : list Z) : list Z := l ++ drop (length l) a.

  (** A window that is visible.  [None]: it starts left of its first field. *)
Definition calibrate_win (t : top) (w : WIN_t) : option WIN_t :=
    if w_int w begpflg <? 0 then None else
    let cols := g_int t Screen_cols in
    let all := all_fields w in
    let lead := if g_int t mode_altscr =? 0 then 0 else 1 in
    let shown := drop (Z.to_nat (w_int w begpflg)) all in
    let x := fit_fields t cols shown (Fit 0 lead 0 0) in
    (* the field that did not fit has been stored too *)
    let procs := over (take (S (f_count x)) shown) (procflgs w) in
    let n := f_count x in
    let n := match n with S k => if nth k procs 0 =? EU_XON then k else n | O => O end in
    let sz := f_sum x + (cols - f_used x) in
    let sz := if f_vars x =? 0 then sz else Z.quot sz (f_vars x) in
    let e := end_field t cols (rev all) (length all) lead 0 in
    let e := if nth e all 0 =? EU_XOF then S e else e in
    let w := WIN (w_int w) (rc w) (over all (pflgsall w)) procs (grpname w) (findstr w) (osel_1st w) (ppt w) in
    Some (set_w endpflg (Z.of_nat e) (set_w varcolsz sz (set_w maxpflgs (Z.of_nat n)
      (set_w totpflgs (Z.of_nat (length all)) w)))).

  (** The windows a frame looks at: the current one, or all of them. *)
Definition frame_wins (t : top) : list nat := if g_int t mode_altscr =? 0 then [Curwin t] else ring (Curwin t).

Definition calibrate_one (t : top) (i : nat) : option top :=
    w ← Winstk t !! i;
    if VIZISw t w then w' ← calibrate_win t w; Some (set_wins (<[i := w']> (Winstk t)) t) else Some t.

Fixpoint each {A} (h : A -> nat -> option A) (a : A) (l : list nat) : option A :=
    match l with [] => Some a | i :: l => a ← h a i; each h a l end.

Definition calibrate_wins (t : top) : option top := each calibrate_one t (frame_wins t).

  (** *** build_headers *)

Definition eu_CMDLINE : Z := EU_MAXPFLGS.
Definition eu_TICS_ALL_C : Z := EU_MAXPFLGS + 1.
Definition eu_ID_FUID : Z := EU_MAXPFLGS + 2.
Definition eu_TREE_HID : Z := EU_MAXPFLGS + 3.
Definition eu_TREE_LVL : Z := EU_MAXPFLGS + 4.
Definition eu_TREE_ADD : Z := EU_MAXPFLGS + 5.

Definition item_of (f : Z) : string := match Fieldstab !! Z.to_nat f with Some x => f_item x | None => "" end.
Definition ckITEM (itms : list string) (f : Z) : list string := <[Z.to_nat f := item_of f]> itms.

Definition ckCMDS (w : WIN_t) : list Z := if CHKw w Show_CMDLIN then [eu_CMDLINE] else [].

  (** The fields that are asked for because of a field that is shown. *)
Definition field_items (w : WIN_t) (f : Z) : list Z :=
    f :: (if f =? EU_CMD then ckCMDS w
          else if f =? EU_CPU then [EU_THD]
          else if ((f =? EU_TME) || (f =? EU_TM2)) && CHKw w Show_CTIMES then [eu_TICS_ALL_C] else []).

Definition shown_fields (w : WIN_t) : list Z :=
    filter (fun f => is_field f = true) (take (Z.to_nat (w_int w maxpflgs)) (procflgs w)).

Definition win_items (w : WIN_t) : list Z :=
    concat (map (field_items w) (shown_fields w)) ++
    (if CHKw w Show_IDLEPS then [] else [EU_CPU]) ++
    (if CHKw w Show_FOREST then [EU_PPD; EU_TGD; EU_TM3; eu_TREE_HID; eu_TREE_LVL; eu_TREE_ADD] else []) ++
    (if w_int w usrseltyp =? 0 then [] else [EU_UED; EU_URD; EU_USD; eu_ID_FUID]) ++
    (if rcv w sortindx =? EU_CMD then ckCMDS w else [rcv w sortindx]).

Definition viz_wins (t : top) : list WIN_t := filter (fun w => VIZISw t w = true) (omap (fun i => Winstk t !! i) (frame_wins t)).

  (** [Pids_itms] *)
Definition header_items (t : top) : list string :=
    foldl ckITEM (replicate (length Fieldstab) "PIDS_extra"%string)
      ([EU_PID; EU_STA; EU_CMD] ++ concat (map win_items (viz_wins t))).

  (** [columnhdr] of a window; [None]: a heading ends inside a character. *)
Definition column_text (t : top) (w : WIN_t) (f : Z) : option bytes :=
    utf8_justify wcols (N_col f) (if VARcol t f then w_int w varcolsz else nth (Z.to_nat f) (widths t) 0)
      (CHKw w (match Fieldstab !! Z.to_nat f with Some x => f_align x | None => 0 end)).
Definition columnhdr (t : top) (w : WIN_t) : option bytes :=
    cols ← mapM (column_text t w) (shown_fields w);
    Some ((if g_int t mode_altscr =? 0 then [] else fmt_d (w_int w winnum)) ++ concat cols).
End calibrate.

(** ** The columns of a window fit on the screen *)

Lemma utf8_justify_chars wcols s n width r : chars wcols s n -> 0 <= width -> width + Z.of_nat (length s) <= 510 ->
  exists x, utf8_justify wcols s width r = Some x /\ chars wcols x (width + 1).
Proof.
  intros Hs Hw Hl. destruct (utf8_embody_chars wcols s n width Hs Hw) as (a & b & m & -> & Ha & Hm & He).
  rewrite length_app in Hl. unfold utf8_justify. rewrite He. cbn [mbind option_bind].
  assert (prec_s (Z.of_nat (length a)) (a ++ b) = a) as ->.
  { unfold prec_s. destruct (Z.ltb_spec (Z.of_nat (length a)) 0); [lia|]. by rewrite Nat2Z.id, take_app_length. }
  rewrite snprintf_fits by (unfold SCREENMAX; lia). rewrite (utf8_delta_chars wcols a m Ha). cbn [mbind option_bind].
  pose proof (chars_nonneg wcols a m Ha). eexists. split; [done|]. apply justify_chars; [done|lia..].
Qed.

Section fits.
Variable N_col : Z -> bytes.
Variable wcols : bytes -> Z.
  (** The headings are short strings of whole characters. *)
Hypothesis headings : forall f, exists n, chars wcols (N_col f) n /\ (length (N_col f) <= 30)%nat.

  (** The widths are those of fixed columns, or -1. *)
Definition widths_ok (t : top) : Prop := forall f, VARcol t f = true \/ 0 <= nth (Z.to_nat f) (widths t) 0.

Definition total (h : Z -> Z) (l : list Z) : Z := foldr (fun f n => h f + n) 0 l.

Lemma total_app h a b : total h (a ++ b) = total h a + total h b.
Proof. induction a as [|f a IH]; [done|]. simpl. lia. Qed.

Definition fields (l : list Z) : list Z := filter (fun f => is_field f = true) l.

Lemma fields_cons f l : fields (f :: l) = if is_field f then f :: fields l else fields l.
Proof. unfold fields. destruct (is_field f) eqn:E; [by rewrite filter_cons_True|by rewrite filter_cons_False by (by rewrite E)]. Qed.
Lemma total_cons h f l : total h (f :: l) = h f + total h l.
Proof. done. Qed.

Definition var_text (t : top) (f : Z) : Z := if VARcol t f then Z.of_nat (length (N_col f)) else 0.
Definition var_one (t : top) (f : Z) : Z := if VARcol t f then 1 else 0.

  (** What the first loop counts. *)
Lemma fit_fields_spec t cols l : forall x, f_used x <= cols ->
    let y := fit_fields N_col t cols l x in
    exists k, (k <= length l)%nat /\ f_count y = (f_count x + k)%nat /\ f_used y <= cols /\
      f_used y = f_used x + total (col_len N_col t) (fields (take k l)) /\
      f_vars y = f_vars x + total (var_one t) (fields (take k l)) /\
      f_sum y = f_sum x + total (var_text t) (fields (take k l)).
Proof.
  induction l as [|f l IH]; intros x Hx; cbn [fit_fields].
  - exists 0%nat. simpl. split_and!; lia.
  - destruct (is_field f) eqn:Ef; cbn [negb].
    + destruct (Z.ltb_spec cols (f_used x + col_len N_col t f)).
      { exists 0%nat. simpl. split_and!; lia. }
      set (v := if VARcol t f then _ else _).
      assert (v = (f_vars x + var_one t f, f_sum x + var_text t f)) as -> by (unfold v, var_one, var_text; destruct (VARcol t f); f_equal; lia).
      destruct (IH (Fit (S (f_count x)) (f_used x + col_len N_col t f) (f_vars x + var_one t f) (f_sum x + var_text t f)))
        as (k & Hk & H1 & H2 & H3 & H4 & H5); [simpl; lia|]. cbn [f_count f_used f_vars f_sum] in *.
      exists (S k). cbn [take length]. rewrite fields_cons, Ef, !total_cons. split_and!; lia.
    + destruct (IH (Fit (S (f_count x)) (f_used x) (f_vars x) (f_sum x))) as (k & Hk & H1 & H2 & H3 & H4 & H5); [done|].
      cbn [f_count f_used f_vars f_sum] in *. exists (S k). cbn [take length]. rewrite fields_cons, Ef. split_and!; lia.
Qed.

Lemma shown_of (w : WIN_t) : shown_fields w = fields (take (Z.to_nat (w_int w maxpflgs)) (procflgs w)).
Proof. done. Qed.

  (** What [calibrate_win] leaves in a window: a run of its fields from the first
      one on, the columns they take and what remains for the variable ones. *)
Lemma calibrate_win_spec t w w' : calibrate_win N_col t w = Some w' -> 1 <= g_int t Screen_cols ->
    let all := all_fields w in
    let lead := if g_int t mode_altscr =? 0 then 0 else 1 in
    exists k n, (n <= k)%nat /\
      take n (procflgs w') = take n (drop (Z.to_nat (w_int w begpflg)) all) /\
      w_int w' maxpflgs = Z.of_nat n /\ (n <= length (procflgs w'))%nat /\
      shown_fields w' = fields (take k (drop (Z.to_nat (w_int w begpflg)) all)) /\
      let used := lead + total (col_len N_col t) (shown_fields w') in
      let vars := total (var_one t) (shown_fields w') in
      let sz := total (var_text t) (shown_fields w') + (g_int t Screen_cols - used) in
      used <= g_int t Screen_cols /\ w_int w' varcolsz = (if vars =? 0 then sz else Z.quot sz vars) /\
      rc w' = rc w /\ w_int w' winnum = w_int w winnum /\ w_int w' begpflg = w_int w begpflg /\ 0 <= w_int w begpflg.
Proof.
  unfold calibrate_win. intros E Hc. destruct (Z.ltb_spec (w_int w begpflg) 0); [done|]. revert E. cbv zeta.
  set (all := all_fields w). set (lead := if g_int t mode_altscr =? 0 then 0 else 1).
  set (shown := drop (Z.to_nat (w_int w begpflg)) all).
  destruct (fit_fields_spec t (g_int t Screen_cols) shown (Fit 0 lead 0 0)) as (k & Hk & H1 & H2 & H3 & H4 & H5).
  { unfold lead. simpl. destruct (_ =? 0); lia. }
  set (x := fit_fields N_col t (g_int t Screen_cols) shown (Fit 0 lead 0 0)) in *. simpl in H1, H3, H4, H5. rewrite H1.
  set (procs := over (take (S k) shown) (procflgs w)).
  assert (Hp : forall m, (m <= k)%nat -> take m procs = take m shown).
  { intros m Hm. unfold procs, over. rewrite take_app_le by (rewrite length_take; lia). rewrite take_take. f_equal. lia. }
  set (n := match k with O => O | S j => if nth j procs 0 =? EU_XON then j else k end).
  assert (Hlen : (k <= length procs)%nat) by (unfold procs, over; rewrite length_app, length_take; lia).
  assert ((n <= k)%nat /\ fields (take n procs) = fields (take k shown)) as [Hnk Hf].
  { unfold n. destruct k as [|j]; [done|]. destruct (Z.eqb_spec (nth j procs 0) EU_XON) as [Ej|Ej]; [|by rewrite Hp].
    split; [lia|]. rewrite <- (Hp (S j)) by done. rewrite (take_S_r procs j EU_XON).
    - unfold fields. by rewrite filter_app, app_nil_r.
    - destruct (lookup_lt_is_Some_2 procs j) as [y Hy]; [lia|]. rewrite nth_lookup, Hy in Ej. simpl in Ej. by subst y. }
  intros [= <-]. exists k, n.
  assert (Hs : forall w2, w_int w2 maxpflgs = Z.of_nat n -> procflgs w2 = procs -> shown_fields w2 = fields (take k shown)).
  { intros w2 Hm Hq. by rewrite shown_of, Hm, Hq, Nat2Z.id. }
  match goal with |- context [shown_fields ?w2] => rewrite (Hs w2) by done end.
  rewrite <- Hp by done. cbn [procflgs set_w rc]. split_and!; try done; try lia.
  cbn [w_int set_w]. rewrite fn_lookup_insert_ne, fn_lookup_insert by done.
  rewrite H3, H4, H5. done.
Qed.

Definition width_in (t : top) (w : WIN_t) (f : Z) : Z := if VARcol t f then w_int w varcolsz else nth (Z.to_nat f) (widths t) 0.

Lemma total_nonneg h l : (forall f, 0 <= h f) -> 0 <= total h l.
Proof. intros H. induction l as [|f l IH]; [done|]. rewrite total_cons. specialize (H f). lia. Qed.
Lemma total_member h l f : (forall f, 0 <= h f) -> f ∈ l -> h f <= total h l.
Proof.
  intros H. induction 1 as [f l|f g l _ IH]; rewrite total_cons; [pose proof (total_nonneg h l H); lia|]. specialize (H g). lia.
Qed.

Lemma col_len_pos t f : widths_ok t -> 1 <= col_len N_col t f.
Proof. intros H. unfold col_len. destruct (H f) as [->|?]; [lia|]. destruct (VARcol t f); lia. Qed.

Lemma total_widths t w l : total (fun f => width_in t w f + 1) l =
    total (col_len N_col t) l - total (var_text t) l + total (var_one t) l * w_int w varcolsz.
Proof.
  induction l as [|f l IH]; [done|]. rewrite !total_cons, IH. unfold width_in, col_len, var_text, var_one.
  destruct (VARcol t f); lia.
Qed.

Lemma var_text_le t l : widths_ok t -> total (var_text t) l + total (var_one t) l <= total (col_len N_col t) l.
Proof.
  intros H. induction l as [|f l IH]; [done|]. rewrite !total_cons. pose proof (col_len_pos t f H) as Hf.
  unfold var_text, var_one, col_len in *. destruct (VARcol t f); lia.
Qed.

Lemma mapM_chars (g : Z -> option bytes) (h : Z -> Z) l :
    (forall f, f ∈ l -> exists x, g f = Some x /\ chars wcols x (h f)) ->
    exists xs, mapM g l = Some xs /\ chars wcols (concat xs) (total h l).
Proof.
  induction l as [|f l IH]; intros H; [exists []; split; [done|constructor]|].
  destruct (H f) as (x & Hx & Hc); [by left|]. destruct IH as (xs & Hxs & Hcs); [intros g' ?; apply H; by right|].
  exists (x :: xs). split; [simpl; rewrite Hx; simpl; by rewrite Hxs|]. rewrite total_cons. by apply chars_app.
Qed.

  (** The columns of the variable fields are within what is left of the screen. *)
Lemma varcolsz_fits used text vars cols v : 0 <= text -> 0 <= vars -> used <= cols -> text + vars <= used ->
    v = (if vars =? 0 then text + (cols - used) else Z.quot (text + (cols - used)) vars) ->
    0 <= v <= cols /\ used - text + vars * v <= cols.
Proof.
  intros Ht Hv Hu Htu ->. destruct (Z.eqb_spec vars 0) as [->|]; [lia|]. rewrite Z.quot_div_nonneg by lia.
  pose proof (Z.mul_div_le (text + (cols - used)) vars ltac:(lia)).
  pose proof (Z.div_pos (text + (cols - used)) vars ltac:(lia) ltac:(lia)).
  assert ((text + (cols - used)) / vars <= text + (cols - used)) by (apply Z.div_le_upper_bound; nia). split; lia.
Qed.

(** A shown field has room on the screen, and its heading takes the columns of
      its width and the blank behind it. *)
Lemma shown_column t w w' f : calibrate_win N_col t w = Some w' -> 1 <= g_int t Screen_cols <= 480 -> widths_ok t ->
    f ∈ shown_fields w' ->
    0 <= width_in t w' f <= 480 /\ exists x, column_text N_col wcols t w' f = Some x /\ chars wcols x (width_in t w' f + 1).
Proof.
  intros E Hc Hw Hf. destruct (calibrate_win_spec t w w' E ltac:(lia)) as (k & m & _ & _ & _ & _ & _ & Hu & Hv & _).
  set (l := shown_fields w') in *. set (lead := if g_int t mode_altscr =? 0 then 0 else 1) in *.
  pose proof (var_text_le t l Hw) as Hle. assert (0 <= lead <= 1) by (unfold lead; destruct (_ =? 0); lia).
  assert (0 <= total (var_text t) l) by (apply total_nonneg; intros g; unfold var_text; destruct (VARcol t g); lia).
  assert (0 <= total (var_one t) l) by (apply total_nonneg; intros g; unfold var_one; destruct (VARcol t g); lia).
  destruct (varcolsz_fits (lead + total (col_len N_col t) l) (total (var_text t) l) (total (var_one t) l) (g_int t Screen_cols) (w_int w' varcolsz))
    as [Hsz _]; [lia..|done|].
  pose proof (total_member (col_len N_col t) l f ltac:(intros g; pose proof (col_len_pos t g Hw); lia) Hf) as Hm.
  pose proof (col_len_pos t f Hw). assert (0 <= width_in t w' f <= 480) as Hwi by (unfold width_in, col_len in *; destruct (VARcol t f); lia).
  split; [done|]. unfold column_text. fold (width_in t w' f). destruct (headings f) as (q & Hq & Hlen).
  apply (utf8_justify_chars wcols _ q); [done|lia..].
Qed.

End fits.

(** ** What is left for the keys *)

(** The entries of a field array: a field of the table or a mark, no two marks
    next to each other. *)
Definition entry_ok (f : Z) : Prop := 0 <= f < EU_MAXPFLGS \/ f = EU_XON \/ f = EU_XOF.
Definition no_marks (x y : Z) : Prop := is_field x = true \/ is_field y = true.
Definition apart (l : list Z) : Prop := forall i x y, l !! i = Some x -> l !! S i = Some y -> no_marks x y.
Definition flags_ok (w : WIN_t) : Prop :=
  let l := take (Z.to_nat (w_int w maxpflgs)) (procflgs w) in
  0 <= w_int w maxpflgs <= Z.of_nat (length (procflgs w)) /\ Forall entry_ok l /\ apart l.

Lemma apart_sublist l i n : apart l -> apart (take n (drop i l)).
Proof.
  intros H j x y Hx Hy. apply lookup_take_Some in Hx as [Hx _]. apply lookup_take_Some in Hy as [Hy _].
  rewrite lookup_drop in Hx, Hy. apply (H (i + j)%nat); [done|]. by replace (S (i + j)) with (i + S j)%nat by lia.
Qed.

Lemma apart_cons f l : is_field f = true -> apart l -> apart (f :: l).
Proof. intros Hf Hl [|i] x y Hx Hy; simpl in *; [injection Hx as ->; by left|by apply (Hl i)]. Qed.

Lemma apart_fields l : Forall (fun f => is_field f = true) l -> apart l.
Proof. intros H i x y Hx _. left. by eapply (Forall_lookup_1 _ _ _ _ H Hx). Qed.

Lemma marked_out w l : rcv w sortindx ∉ l -> concat (map (marked w) l) = l.
Proof.
  induction l as [|f l IH]; [done|]. rewrite not_elem_of_cons. intros [Hf Hl]. simpl. rewrite (IH Hl). unfold marked.
  destruct (Z.eqb_spec f (rcv w sortindx)); [congruence|]. by rewrite andb_false_r.
Qed.

Lemma marked_apart w l : NoDup l -> Forall (fun f => is_field f = true) l -> apart (concat (map (marked w) l)).
Proof.
  induction 1 as [|f l Hf Hl IH]; intros Hall; [by intros i x y|]. apply Forall_cons in Hall as [Hf' Hall].
  simpl. unfold marked at 1. destruct (CHKw w Show_HICOLS && _) eqn:E; [|simpl; apply apart_cons; auto].
  apply andb_prop in E as [_ ->%Z.eqb_eq]. rewrite marked_out by done.
  intros [|[|[|i]]] x y Hx Hy; simpl in *; [injection Hy as <-; by right|injection Hx as <-; by left| |].
  - right. by apply (Forall_lookup_1 _ _ _ _ Hall Hy).
  - left. by apply (Forall_lookup_1 _ _ _ _ Hall Hx).
Qed.

Lemma marked_entries w l : 0 <= rcv w sortindx -> Forall (fun f => 0 <= f < EU_MAXPFLGS) l -> Forall entry_ok (concat (map (marked w) l)).
Proof.
  intros Hs. induction 1 as [|f l Hf Hl IH]; [done|]. simpl. apply Forall_app. split; [|done]. unfold marked.
  cbv beta in Hf. destruct (_ && _); repeat (constructor; [unfold entry_ok; tauto|]); constructor.
Qed.

(** The fields of a window of a file that was accepted. *)
Definition fields_ok (w : WIN_t) : Prop :=
  Forall (fun f => 0 <= f < EU_MAXPFLGS) (viz_fields w) /\ NoDup (viz_fields w) /\ 0 <= rcv w sortindx.

Lemma all_fields_ok w : fields_ok w -> Forall entry_ok (all_fields w) /\ apart (all_fields w).
Proof.
  intros (Hr & Hd & Hs). unfold all_fields.
  pose proof (marked_entries w _ Hs Hr) as H1.
  pose proof (marked_apart w _ Hd) as H2.
  destruct (concat _) as [|f l].
  - split; [constructor; [by left|constructor]|]. intros [|i] x y Hx Hy; done.
  - split; [done|]. apply H2. eapply Forall_impl; [exact Hr|]. intros g Hg. simpl in Hg. unfold is_field. apply Z.ltb_lt. lia.
Qed.

Lemma calibrate_win_flags N_col t w w' : calibrate_win N_col t w = Some w' -> 1 <= g_int t Screen_cols -> fields_ok w ->
  flags_ok w' /\ rc w' = rc w.
Proof.
  intros E Hc Hw. destruct (calibrate_win_spec N_col t w w' E Hc) as (k & n & _ & Hp & Hm & Hl & _ & _ & _ & Hr & _).
  destruct (all_fields_ok w Hw) as [He Ha]. split; [|done].
  unfold flags_ok. rewrite Hm, Nat2Z.id, Hp. split; [lia|]. split; [by apply Forall_take, Forall_drop|by apply apart_sublist].
Qed.

(** After calibrate_fields the fields of a visible window are a run of its
    fields in their order, from the first one that is scrolled to; the marks of a
    highlighted column never stand next to each other. *)
Theorem calibrate_run N_col t w w' : calibrate_win N_col t w = Some w' -> 1 <= g_int t Screen_cols -> fields_ok w ->
  flags_ok w' /\ exists k, shown_fields w' = fields (take k (drop (Z.to_nat (w_int w begpflg)) (all_fields w))).
Proof.
  intros E Hc Hw. destruct (calibrate_win_spec N_col t w w' E Hc) as (k & n & _ & Hp & Hm & Hl & Hs & _).
  split; [|by exists k]. by apply (calibrate_win_flags N_col t w w').
Qed.

(** ** The items the library is asked for *)

Lemma ckITEM_lookup fs : forall l i, (i < length l)%nat ->
  foldl ckITEM l fs !! i = if bool_decide (i ∈ map Z.to_nat fs) then Some (item_of (Z.of_nat i)) else l !! i.
Proof.
  induction fs as [|f fs IH]; intros l i Hi; [done|]. cbn [foldl]. rewrite IH by (unfold ckITEM; by rewrite length_insert).
  destruct (decide (i ∈ map Z.to_nat fs)) as [H|H].
  - rewrite !bool_decide_true; [done|by right|done].
  - rewrite (bool_decide_false (i ∈ map Z.to_nat fs)) by done. unfold ckITEM. destruct (decide (i = Z.to_nat f)) as [->|Hf].
    + rewrite list_lookup_insert_eq by done. rewrite bool_decide_true by (by left). f_equal.
      unfold item_of. by rewrite Nat2Z.id.
    + rewrite list_lookup_insert_ne by done. rewrite bool_decide_false; [done|]. simpl. rewrite elem_of_cons. tauto.
Qed.

Lemma in_concat_map (h : Z -> list Z) l a f : f ∈ l -> a ∈ h f -> a ∈ concat (map h l).
Proof. intros Hf Ha. apply list_elem_of_In, in_concat. exists (h f). rewrite <- !list_elem_of_In. split; [by apply list_elem_of_fmap_2|done]. Qed.

(** The item [window_show] sorts by. *)
Definition sort_item (w : WIN_t) : string :=
  let item := item_of (rcv w sortindx) in
  if bool_decide (item = "PIDS_CMD"%string) && CHKw w Show_CMDLIN then "PIDS_CMDLINE"
  else if bool_decide (item = "PIDS_TICS_ALL"%string) && CHKw w Show_CTIMES then "PIDS_TICS_ALL_C"
  else item.

Lemma asked t w f : w ∈ viz_wins t -> f ∈ win_items w -> 0 <= f < Z.of_nat (length Fieldstab) -> item_of f ∈ header_items t.
Proof.
  intros Hw Hf Hr. apply (list_elem_of_lookup_2 _ (Z.to_nat f)). unfold header_items.
  rewrite ckITEM_lookup by (rewrite length_replicate; lia). rewrite bool_decide_true; [by rewrite Z2Nat.id by lia|].
  apply list_elem_of_fmap_2. apply elem_of_app. right. apply list_elem_of_In, in_concat. exists (win_items w).
  rewrite <- !list_elem_of_In. split; [by apply list_elem_of_fmap_2|done].
Qed.

(** The time columns, one of which is shown. *)
Definition time_shown (w : WIN_t) : Prop := EU_TME ∈ shown_fields w \/ EU_TM2 ∈ shown_fields w.

Lemma sort_items_by f : 0 <= f < EU_MAXPFLGS ->
  (item_of f = "PIDS_CMD"%string -> f = EU_CMD) /\ (item_of f = "PIDS_TICS_ALL"%string -> f = EU_TME \/ f = EU_TM2).
Proof.
  intros Hf. assert (exists d, (d < 76)%nat /\ f = Z.of_nat d) as (d & Hd & ->) by (exists (Z.to_nat f); unfold EU_MAXPFLGS in Hf; lia).
  clear Hf. do 76 (destruct d as [|d]; [split; intros H; first [discriminate H|reflexivity|by left|by right]|]). lia.
Qed.

(** C21: the item a visible window is sorted by is among those build_headers asks
    the library for, with the command line and the cumulative times in place of
    the plain ones where they are shown: unless the window is sorted by a
    cumulative time and shows no time column. *)
Theorem sort_item_asked t w : w ∈ viz_wins t -> 0 <= rcv w sortindx < EU_MAXPFLGS ->
  (CHKw w Show_CTIMES = true -> rcv w sortindx = EU_TME \/ rcv w sortindx = EU_TM2 -> time_shown w) ->
  sort_item w ∈ header_items t.
Proof.
  intros Hw Hs Ht. destruct (sort_items_by _ Hs) as [Hcmd Htics]. unfold sort_item.
  assert (Hplain : rcv w sortindx <> EU_CMD -> item_of (rcv w sortindx) ∈ header_items t).
  { intros Hne. apply (asked t w); [done| |unfold EU_MAXPFLGS in Hs; simpl; lia]. unfold win_items. rewrite !elem_of_app. right; right; right; right.
    destruct (Z.eqb_spec (rcv w sortindx) EU_CMD); [done|]. by left. }
  case_bool_decide as H1; simpl.
  - specialize (Hcmd H1). destruct (CHKw w Show_CMDLIN) eqn:Ec.
    + change "PIDS_CMDLINE"%string with (item_of eu_CMDLINE). apply (asked t w); [done| |done]. unfold win_items, ckCMDS.
      rewrite Ec, Hcmd, !elem_of_app. right; right; right; right. by left.
    + rewrite H1. simpl. change "PIDS_CMD"%string with (item_of EU_CMD).
      apply (list_elem_of_lookup_2 _ (Z.to_nat EU_CMD)). unfold header_items.
      rewrite ckITEM_lookup by (rewrite length_replicate; by apply Nat.ltb_lt). rewrite bool_decide_true; [done|]. do 2 right. by left.
  - case_bool_decide as H2; [|apply Hplain; intros E; rewrite E in H1; done]. destruct (CHKw w Show_CTIMES) eqn:Ec; simpl.
    + change "PIDS_TICS_ALL_C"%string with (item_of eu_TICS_ALL_C). apply (asked t w); [done| |done].
      unfold win_items. rewrite elem_of_app. left.
      destruct (Ht eq_refl (Htics H2)) as [H|H]; apply (in_concat_map _ _ _ _ H); unfold field_items; rewrite Ec; right; by left.
    + apply Hplain. intros E. rewrite E in H1. done.
Qed.

Lemma asked_only t x : x ∈ header_items t -> x <> "PIDS_extra"%string ->
  exists f, f ∈ [EU_PID; EU_STA; EU_CMD] ++ concat (map win_items (viz_wins t)) /\ x = item_of f.
Proof.
  intros [i Hi]%list_elem_of_lookup Hx. assert (i < length Fieldstab)%nat as Hlen.
  { apply lookup_lt_Some in Hi. unfold header_items in Hi. revert Hi. generalize (concat (map win_items (viz_wins t))). intros fs.
    assert (forall l, length (foldl ckITEM l ([EU_PID; EU_STA; EU_CMD] ++ fs)) = length l) as ->; [|by rewrite length_replicate].
    generalize ([EU_PID; EU_STA; EU_CMD] ++ fs). clear. intros l. induction l as [|f l IH]; intros l0; [done|].
    cbn [foldl]. rewrite IH. unfold ckITEM. by rewrite length_insert. }
  unfold header_items in Hi. rewrite ckITEM_lookup in Hi by (by rewrite length_replicate). case_bool_decide as H.
  - apply list_elem_of_fmap in H as (f & -> & Hf). exists f. split; [done|]. injection Hi as <-. unfold item_of. by rewrite Nat2Z.id.
  - apply lookup_replicate in Hi as [-> _]. done.
Qed.

Lemma cumulative_item f : item_of f = "PIDS_TICS_ALL_C"%string -> f = eu_TICS_ALL_C.
Proof.
  unfold item_of. destruct (Fieldstab !! Z.to_nat f) as [x|] eqn:E; [|done]. intros H.
  assert (Hall : Forall (fun '(i, y) => f_item y = "PIDS_TICS_ALL_C"%string -> i = 77%nat) (imap pair Fieldstab)).
  { repeat (constructor; [intros Hi; first [discriminate Hi|reflexivity]|]). constructor. }
  rewrite Forall_forall in Hall. specialize (Hall (Z.to_nat f, x)).
  assert (Z.to_nat f = 77%nat); [|unfold eu_TICS_ALL_C, EU_MAXPFLGS; lia]. apply Hall; [|done].
  apply (list_elem_of_lookup_2 _ (Z.to_nat f)). by rewrite list_lookup_imap, E.
Qed.

(** Sorted by the time used with cumulative times switched on, a window that
    shows neither time column is sorted by an item that build_headers does not
    ask for: procps_pids_sort refuses it, and top ends with an error. *)
Theorem sort_item_missing t w : viz_wins t = [w] -> rcv w sortindx = EU_TM2 -> CHKw w Show_CTIMES = true ->
  (EU_TME ∉ shown_fields w) -> (EU_TM2 ∉ shown_fields w) -> sort_item w ∉ header_items t.
Proof.
  intros Hv Hs Hc H1 H2. unfold sort_item. rewrite Hs, Hc. change (item_of EU_TM2) with "PIDS_TICS_ALL"%string.
  rewrite bool_decide_false by done. rewrite bool_decide_true by done. simpl. intros H.
  apply asked_only in H as (f & Hf & Hx%eq_sym%cumulative_item); [|done]. subst f. rewrite Hv in Hf. simpl concat in Hf.
  rewrite app_nil_r in Hf. apply elem_of_app in Hf as [Hf|Hf]; [revert Hf; by apply (bool_decide_unpack _)|].
  unfold win_items in Hf. rewrite !elem_of_app, Hs in Hf. destruct Hf as [Hf|[Hf|[Hf|[Hf|Hf]]]].
  - apply list_elem_of_In, in_concat in Hf as (l & Hl & Hf). apply list_elem_of_In, list_elem_of_fmap in Hl as (g & -> & Hg).
    apply list_elem_of_In in Hf. unfold field_items in Hf. apply elem_of_cons in Hf as [Hf|Hf].
    { subst g. apply list_elem_of_filter in Hg as [Hg _]. done. }
    revert Hf. destruct (g =? EU_CMD).
    { unfold ckCMDS. destruct (CHKw w Show_CMDLIN); by apply (bool_decide_unpack _). }
    destruct (g =? EU_CPU); [by apply (bool_decide_unpack _)|].
    destruct (Z.eqb_spec g EU_TME) as [->|]; [done|]. destruct (Z.eqb_spec g EU_TM2) as [->|]; [done|]. by apply (bool_decide_unpack _).
  - revert Hf. destruct (CHKw w Show_IDLEPS); by apply (bool_decide_unpack _).
  - revert Hf. destruct (CHKw w Show_FOREST); by apply (bool_decide_unpack _).
  - revert Hf. destruct (_ =? 0); by apply (bool_decide_unpack _).
  - revert Hf. by apply (bool_decide_unpack _).
Qed.

(** ** The screen *)

(** The override, before and after it is found. *)
Definition geo_ok (g : geo) : Prop :=
  (w_cols g = 0 \/ W_MIN_COL <= w_cols g <= SCREENMAX) /\ (w_rows g = 0 \/ W_MIN_ROW <= w_rows g <= INT_MAX) /\ 0 <= pseudo_max g.

(** What [parse_args] accepts for -w. *)
Definition width_mode_ok (m : Z) : Prop := m <= 0 \/ W_MIN_COL <= m <= SCREENMAX.

Lemma env_number_range e : 0 <= env_number e <= INT_MAX.
Proof.
  unfold env_number, INT_MAX. destruct e as [[|c e]|]; [lia| |lia].
  destruct (bool_decide _); simpl; [|lia]. zcase; lia.
Qed.

Lemma override_ok y g : width_mode_ok (Width_mode y) -> geo_ok g -> geo_ok (override y g).
Proof.
  intros Hm (Hc & Hr & Hp). unfold override. destruct (w_set g); [done|].
  pose proof (env_number_range (env_columns y)). pose proof (env_number_range (env_lines y)).
  unfold geo_ok, width_mode_ok, W_MIN_COL, W_MIN_ROW, SCREENMAX, INT_MAX in *. zcase; simpl; zcase; lia.
Qed.

Lemma graph_length_range cols double : W_MIN_COL <= cols <= SCREENMAX -> (double = 0 \/ DOUBLE_limit <= cols) ->
  12 <= graph_length cols double <= GRAPH_actual.
Proof.
  intros Hc Hd. unfold graph_length, W_MIN_COL, SCREENMAX, DOUBLE_limit, GRAPH_actual, GRAPH_prefix, GRAPH_suffix, DOUBLE_space in *.
  destruct (Z.eqb_spec double 0); [zcase; lia|]. destruct Hd; [done|].
  rewrite Z.quot_div_nonneg, Z.rem_mod_nonneg by lia.
  pose proof (Z.div_mod (cols - 3 - 2 * (25 + 2)) 2 ltac:(lia)). pose proof (Z.mod_pos_bound (cols - 3 - 2 * (25 + 2)) 2 ltac:(lia)).
  pose proof (Z.div_mod cols 2 ltac:(lia)). pose proof (Z.mod_pos_bound cols 2 ltac:(lia)). zcase; lia.
Qed.

(** Whatever the terminal, the environment and the -w option say, the screen
    has between 3 and 512 columns, its buffer fits an int and is allocated, and
    a graph is never longer than its text of 100 characters; the two graphs of a
    line appear only on a screen that is wide enough. *)
Theorem adj_geometry_bounds y double g : width_mode_ok (Width_mode y) -> geo_ok g -> 0 <= lines y ->
  let '(g', s) := adj_geometry y double g in
  geo_ok g' /\ W_MIN_COL <= s_cols s <= SCREENMAX /\ 0 <= s_rows s /\ 0 <= s_pseudo s <= INT_MAX /\ s_pseudo s <= pseudo_max g' /\
  (Batch y = false -> s_pseudo s = ROWMAXSIZ * s_rows s) /\ 12 <= s_graph s <= GRAPH_actual /\
  (s_double s = 0 \/ (s_double s = double /\ DOUBLE_limit <= s_cols s)).
Proof.
  intros Hm Hg Hl. unfold adj_geometry.
  assert (exists c r, (match winsize y with Some (wc, wr) => if (0 <? wc) && (0 <? wr) then (wc, wr) else (columns y, lines y)
    | None => (columns y, lines y) end) = (c, r) /\ 0 <= r) as (c & r & -> & Hr).
  { destruct (winsize y) as [[wc wr]|]; [zcase|]; eexists _, _; split; done || lia. }
  set (c1 := if Cap_avoid_eol y then c - 1 else c). set (c2 := if SCREENMAX <? c1 then SCREENMAX else c1).
  set (c3 := if c2 <? W_MIN_COL then W_MIN_COL else c2).
  assert (W_MIN_COL <= c3 <= SCREENMAX) as Hc by (unfold c3, c2, W_MIN_COL, SCREENMAX; zcase; lia). clearbody c3. clear c1 c2.
  pose proof (override_ok y g Hm Hg) as Ho. set (g1 := override y g) in *. clearbody g1.
  set (p := if Batch y then _ else _).
  assert (exists cc rr pp, p = (cc, rr, pp) /\ W_MIN_COL <= cc <= SCREENMAX /\ 0 <= rr /\ 0 <= pp <= INT_MAX /\
    (Batch y = false -> pp = ROWMAXSIZ * rr)) as (cc & rr & pp & -> & Hcc & Hrr & Hpp & Hb).
  { unfold p, geo_ok, W_MIN_COL, W_MIN_ROW, max_rows, ROWMAXSIZ, SCREENMAX, INT_MAX in *. destruct (Batch y).
    - zcase; do 3 eexists; (split; [done|]); split_and!; lia || done.
    - change (Z.quot 2147483647 (512 + 16 * (32 + 64))) with 1048575. zcase; do 3 eexists; (split; [done|]); split_and!; lia. }
  destruct Ho as (Ho1 & Ho2 & Ho3).
  pose proof (graph_length_range cc (if cc <? DOUBLE_limit then 0 else double) Hcc) as Hgr.
  assert (12 <= graph_length cc (if cc <? DOUBLE_limit then 0 else double) <= GRAPH_actual) as Hgr' by (apply Hgr; zcase; lia).
  cbn [s_cols s_rows s_pseudo s_graph s_double].
  split_and!; try done; try lia; unfold geo_ok; zcase; simpl; try lia; auto with lia.
Qed.

(** ** A screen of 80 columns *)

Definition demo_tty : tty := Tty 80 24 (Some (80, 24)) false (-1) (Some (bs "0x64")) None false.
Definition demo_frame : top :=
  Top (fun f => match f with Screen_cols => 80 | Cpu_cnt => 4 | mode_irixps => 1 | _ => 0 end) 107 0 wins_stage_1 0 []
    (match zap_fieldstab false 7 (Top (fun f => match f with Cpu_cnt => 4 | _ => 0 end) 107 0 [] 0 [] [] 0 []) (map f_width Fieldstab) with
     | ZapOk ws => ws | _ => [] end) 0 [].
Definition demo_heading (f : Z) : bytes := if f =? EU_CMD then bs "COMMAND" else bs "COL".
Definition demo_cols (c : bytes) : Z := 1.
Definition demo_window (l : list Z) (flgs : Z) : WIN_t :=
  empty_win (RCW (rcw_ints [EU_TM2; flgs; 0; 0; 0; 1; 0; 1; 1; 3; 1]) (bs "Def") (pad_fields l)) 0.

Lemma demo_headings f : exists n, chars demo_cols (demo_heading f) n /\ (length (demo_heading f) <= 30)%nat.
Proof.
  exists (Z.of_nat (length (demo_heading f))). unfold demo_heading.
  destruct (f =? EU_CMD); (split; [apply chars_of_ascii; by apply (bool_decide_unpack _)|simpl; lia]).
Qed.

Lemma demo_widths : widths_ok demo_frame.
Proof.
  intros f. assert (H : Forall (fun w => w = -1 \/ 0 <= w) (widths demo_frame)).
  { vm_compute. repeat (constructor; [first [left; reflexivity|right; discriminate]|]). constructor. }
  unfold VARcol. rewrite nth_lookup. destruct (widths demo_frame !! Z.to_nat f) as [v|] eqn:E; [|by right].
  rewrite Forall_lookup in H. destruct (H _ _ E) as [->|?]; [by left|by right].
Qed.

Definition demo_calibrated (w : WIN_t) : WIN_t := default w (calibrate_win demo_heading demo_frame w).


Lemma calibrate_run_witness : flags_ok (demo_calibrated (demo_window [75; 81; 115; 139] Show_HICOLS)).
Proof.
  apply (calibrate_run demo_heading demo_frame (demo_window [75; 81; 115; 139] Show_HICOLS)).
  - reflexivity.
  - simpl. lia.
  - split_and!; [by apply (bool_decide_unpack _)|by apply (bool_decide_unpack _)|done].
Defined.

(** The command line shown, sorted by it; and sorted by a hidden cumulative time. *)
Definition demo_sorted (f flgs : Z) (l : list Z) : top :=
  set_wins [sw sortindx f (demo_calibrated (demo_window l flgs))] demo_frame.

Lemma sort_item_asked_witness :
  sort_item (sw sortindx EU_CMD (demo_calibrated (demo_window [75; 139] Show_CMDLIN))) ∈ header_items (demo_sorted EU_CMD Show_CMDLIN [75; 139]).
Proof.
  apply sort_item_asked; [left|split; done|]. intros H. vm_compute in H. discriminate H.
Defined.

Lemma sort_item_missing_witness :
  sort_item (sw sortindx EU_TM2 (demo_calibrated (demo_window [75; 139] Show_CTIMES))) ∉ header_items (demo_sorted EU_TM2 Show_CTIMES [75; 139]).
Proof.
  apply sort_item_missing; [reflexivity..|by apply (bool_decide_unpack _)|by apply (bool_decide_unpack _)].
Defined.

Lemma adj_geometry_bounds_witness : let '(g', s) := adj_geometry demo_tty 1 (Geo false 0 0 0) in
  geo_ok g' /\ W_MIN_COL <= s_cols s <= SCREENMAX /\ 0 <= s_rows s /\ 0 <= s_pseudo s <= INT_MAX /\ s_pseudo s <= pseudo_max g' /\
  (false = false -> s_pseudo s = ROWMAXSIZ * s_rows s) /\ 12 <= s_graph s <= GRAPH_actual /\
  (s_double s = 0 \/ (s_double s = 1 /\ DOUBLE_limit <= s_cols s)).
Proof.
  apply (adj_geometry_bounds demo_tty 1 (Geo false 0 0 0)); [left; simpl; lia|split_and!; simpl; lia|simpl; lia].
Defined.

End Topfields.
