(* ===== verification/Topkeys.v ===== *)
(** * top.c: the keys

    [do_key] and the handlers it calls: what each key does to the windows and to
    the settings, with the lines and the keys the user answers its questions with.
    Colours and cursor are the terminal's business and left out; the text of a
    row, which [find_string] searches, is a parameter. *)

From stdpp Require Import functions base numbers list strings.
From S2P Require Import Prelude Libc Real Signals Toptext Topdata Topfilter Toprc Topfields.
Open Scope Z_scope.

Module Topkeys.
Import Real Toptext Topdata Topfilter Toprc Topfields.

Definition kbd_ESC : Z := 27.
Definition kbd_SPACE : Z := 32.
Definition kbd_ENTER : Z := 10.
Definition kbd_UP : Z := 129.
Definition kbd_DOWN : Z := 130.
Definition kbd_LEFT : Z := 131.
Definition kbd_RIGHT : Z := 132.
Definition kbd_PGUP : Z := 133.
Definition kbd_PGDN : Z := 134.
Definition kbd_HOME : Z := 135.
Definition kbd_END : Z := 136.
Definition kbd_CtrlO : Z := 15.
Definition kbd_CtrlE : Z := 5.
Definition PROC_XTRA : Z := -1.
Definition SCROLLAMT : Z := 8.
Definition FNDBUFSIZ : Z := MEDBUFSIZ.
Definition SIGTERM : Z := 15.

(** ** What a key handler sees and does *)

(** What it asks of the system or shows. *)
Inductive ocall := CMsg (what : string) | CKill (pid sig : Z) | CPrio (pid val : Z) | CInspect (pid : Z) | CWrite (text : bytes).

(** The state with the lines and the keys the user has still to type, what has
    been asked of the system, and the static variables of the 'i' key and of
    [wins_clrhlp]. *)
Record kst := KSt {
  k_top : top;
  k_lines : list bytes;
  k_keys : list Z;
  k_calls : list ocall;
  i_save : option nat * Z;
  c_save : Z * Z * Z * Z * Z
}.

(** [KWait]: the user has not answered yet; [KUndef]: undefined behaviour. *)
Inductive kres (A : Type) := KOk (a : A) (s : kst) | KWait | KUndef | KExit.
Arguments KOk {A}.
Arguments KWait {A}.
Arguments KUndef {A}.
Arguments KExit {A}.

Definition K (A : Type) : Type := kst -> kres A.
#[export] Instance K_ret : MRet K := fun A a s => KOk a s.
#[export] Instance K_bind : MBind K := fun A B f m s =>
  match m s with KOk a s => f a s | KWait => KWait | KUndef => KUndef | KExit => KExit end.

Definition get : K top := fun s => KOk (k_top s) s.
Definition modify (h : top -> top) : K unit := fun s =>
  KOk tt (KSt (h (k_top s)) (k_lines s) (k_keys s) (k_calls s) (i_save s) (c_save s)).
Definition call (c : ocall) : K unit := fun s =>
  KOk tt (KSt (k_top s) (k_lines s) (k_keys s) (k_calls s ++ [c]) (i_save s) (c_save s)).
Definition show_msg (m : string) : K unit := call (CMsg m).
Definition bye_bye : K unit := fun s => KExit.
Definition undef {A} : K A := fun s => KUndef.
Definition defined {A} (o : option A) : K A := match o with Some a => mret a | None => undef end.

Definition ioline : K bytes := fun s =>
  match k_lines s with
  | [] => KWait
  | l :: ls => KOk l (KSt (k_top s) ls (k_keys s) (k_calls s) (i_save s) (c_save s))
  end.
Definition iokey : K Z := fun s =>
  match k_keys s with
  | [] => KWait
  | c :: cs => KOk c (KSt (k_top s) (k_lines s) cs (k_calls s) (i_save s) (c_save s))
  end.

Definition ask_int : K Z := l ← ioline; defined (get_int l false).
Definition ask_float (radix : Z) : K Z := l ← ioline; defined (get_float radix l false).

Definition curwin : K WIN_t := t ← get; defined (Winstk t !! Curwin t).
Definition cur (h : WIN_t -> WIN_t) : K unit := modify (on_cur h).

(** [VIZCHKw] and [ALTCHKw] in front of something. *)
Definition viz_guard (k : WIN_t -> K unit) : K unit :=
  t ← get; w ← curwin; if VIZISw t w then k w else show_msg "DISABLED_win".
Definition alt_guard (k : K unit) : K unit :=
  t ← get; if g_int t mode_altscr =? 0 then show_msg "DISABLED_cmd" else k.
Definition VIZTOGw (f : Z) : K unit := viz_guard (fun _ => cur (TOGw f)).

(** The process id of the first row. *)
Definition row_pid (w : WIN_t) : K Z :=
  if w_int w begtask <? 0 then undef else defined (ppt w !! Z.to_nat (w_int w begtask)).

(** What [adj_geometry] does to the current window. *)
Definition adj_double : K unit :=
  t ← get; if g_int t Screen_cols <? DOUBLE_limit then cur (sw double_up 0) else mret tt.

Definition when (b : bool) (k : K unit) : K unit := if b then k else mret tt.

(** ** fields_utility *)

Definition unSCRL (w : WIN_t) : WIN_t := OFFw Show_HICOLS (set_w begpflg 0 (set_w varcolbeg 0 w)).

(** The position of the sort field. *)
Definition spewFI (w : WIN_t) : nat :=
  let at_x x := msch (fieldscur (rc w)) (ENUcvt (rcv w sortindx) x) (Z.to_nat EU_MAXPFLGS) in
  match at_x FLDon with Some i => i | None => match at_x FLDoff with Some i => i | None => 0%nat end end.

Definition swap_fields (i j : nat) (w : WIN_t) : WIN_t :=
  let l := fieldscur (rc w) in
  on_rc (set_fields (<[j := nth i l 0]> (<[i := nth j l 0]> l))) (unSCRL w).
Definition FLDtog (i : nat) (w : WIN_t) : WIN_t := on_rc (fun r => set_fields (alter (fun x => Z.lxor x FLDon) i (fieldscur r)) r) w.
Definition FLDget (w : WIN_t) (i : nat) : Z := FLDget_of (nth i (fieldscur (rc w)) 0).

Definition held (p : option nat) : bool := match p with Some _ => true | None => false end.

(** [i]: the field under the cursor; [p]: the field that moves with it. *)
Definition fields_key (key : Z) (i : nat) (p : option nat) : K (nat * option nat) :=
  let go j := match p with
              | Some k => cur (swap_fields j k);; mret (j, Some j)
              | None => mret (j, None)
              end in
  if key =? kbd_UP then if (0 <? i)%nat then go (i - 1)%nat else mret (i, p)
  else if key =? kbd_DOWN then if (S i <? Z.to_nat EU_MAXPFLGS)%nat then go (S i) else mret (i, p)
  else if (key =? kbd_LEFT) || (key =? kbd_ENTER) then mret (i, None)
  else if key =? kbd_RIGHT then mret (i, Some i)
  else if (key =? kbd_HOME) || (key =? kbd_PGUP) then mret (if held p then i else 0%nat, p)
  else if (key =? kbd_END) || (key =? kbd_PGDN) then mret (if held p then i else Z.to_nat (EU_MAXPFLGS - 1), p)
  else if (key =? kbd_SPACE) || (key =? 100) then
    (if held p then mret tt else cur (fun w => unSCRL (FLDtog i w)));; mret (i, p)
  else if key =? 115 then
    (if held p then mret tt else cur (fun w => OFFw Show_FOREST (unSCRL (sw sortindx (FLDget w i) w))));; mret (i, p)
  else if (key =? 97) || (key =? 119) then
    modify (fun t => set_cur (if key =? 97 then next_win (Curwin t) else prev_win (Curwin t)) t);;
    w ← curwin; mret (spewFI w, None)
  else mret (i, p).

(** Every round takes a key. *)
Fixpoint fields_loop (fuel : nat) (i : nat) (p : option nat) : K unit :=
  match fuel with
  | O => fun _ => KWait
  | S fuel =>
      key ← iokey;
      if key <? 1 then adj_double;; fields_loop fuel i p
      else
        x ← fields_key key i p;
        if (key =? 113) || (key =? kbd_ESC) then mret tt else fields_loop fuel x.1 x.2
  end.

Definition fields_utility : K unit := fun s =>
  (w ← curwin; adj_double;; fields_loop (S (length (k_keys s))) (spewFI w) None) s.

(** ** wins_colors *)

Definition clr_save (w : WIN_t) : Z * Z * Z * Z * Z :=
  (rcv w winflags, rcv w summclr, rcv w msgsclr, rcv w headclr, rcv w taskclr).

Definition save_clr (c : Z * Z * Z * Z * Z) : K unit := fun s =>
  KOk tt (KSt (k_top s) (k_lines s) (k_keys s) (k_calls s) (i_save s) c).
Definition saved_clr : K (Z * Z * Z * Z * Z) := fun s => KOk (c_save s) s.

Definition wins_clrhlp (save : bool) : K unit :=
  if save then w ← curwin; save_clr (clr_save w);; cur (SETw Show_COLORS)
  else '(f, su, ms, he, ta) ← saved_clr;
       cur (fun w => sw taskclr ta (sw headclr he (sw msgsclr ms (sw summclr su (sw winflags f w))))).

(** [clr]: the colour shown; [tg]: what it is the colour of. *)
Definition colors_key (key clr : Z) (tg : rfield) : K (Z * rfield) :=
  t ← get;
  w ← curwin;
  let target f := mret (rcv w f, f) in
  let put c := cur (sw tg c);; mret (c, tg) in
  if key =? 83 then target summclr
  else if key =? 77 then target msgsclr
  else if key =? 72 then target headclr
  else if key =? 84 then target taskclr
  else if (48 <=? key) && (key <=? 55) then put (key - 48)
  else if key =? kbd_UP then put (if g_int t max_colors <=? clr + 1 then 0 else clr + 1)
  else if key =? kbd_DOWN then put (if clr - 1 <? 0 then g_int t max_colors - 1 else clr - 1)
  else if key =? 66 then cur (TOGw View_NOBOLD);; mret (clr, tg)
  else if key =? 98 then cur (TOGw Show_HIBOLD);; mret (clr, tg)
  else if key =? 122 then cur (TOGw Show_COLORS);; mret (clr, tg)
  else if (key =? 97) || (key =? 119) then
    modify (win_select key);; wins_clrhlp true;; w ← curwin; mret (rcv w taskclr, taskclr)
  else mret (clr, tg).

Fixpoint colors_loop (fuel : nat) (clr : Z) (tg : rfield) : K unit :=
  match fuel with
  | O => fun _ => KWait
  | S fuel =>
      key ← iokey;
      if key <? 1 then adj_double;; colors_loop fuel clr tg
      else if key =? kbd_ESC then wins_clrhlp false
      else
        x ← colors_key key clr tg;
        if key =? 113 then wins_clrhlp false
        else if key =? kbd_ENTER then mret tt
        else colors_loop fuel x.1 x.2
  end.

Definition wins_colors : K unit := fun s =>
  (t ← get; w ← curwin;
   if g_int t max_colors <=? 0 then show_msg "COLORS_nomap"
   else wins_clrhlp true;; adj_double;; colors_loop (S (length (k_keys s))) (rcv w taskclr) taskclr) s.

(** ** help_view *)

Definition i8 (c : Z) : Z := (c + 128) mod 256 - 128.

(** A key is kept in a char; -1 for [again] is the loop of the first page. *)
Fixpoint help_windows (fuel : nat) : K unit :=
  match fuel with
  | O => fun _ => KWait
  | S fuel =>
      c ← iokey;
      let key := i8 c in
      (if key <? 1 then adj_double else modify (win_select key));;
      if (key =? kbd_ENTER) || (key =? kbd_ESC) then mret tt else help_windows fuel
  end.

Fixpoint help_loop (fuel : nat) : K unit :=
  match fuel with
  | O => fun _ => KWait
  | S fuel =>
      adj_double;;
      c ← iokey;
      let key := i8 c in
      if (key =? kbd_ESC) || (key =? 113) then mret tt
      else if (key =? 63) || (key =? 104) || (key =? 72) then help_windows fuel
      else help_loop fuel
  end.

Definition help_view : K unit := fun s => help_loop (S (length (k_keys s))) s.

Section handlers.
  (** The names of the columns; the decimal point; the user database; the first
      real-time signal; whether a signal could be sent and a priority set; the
      text of a row. *)
Variable N_col : Z -> bytes.
Variable radix : Z.
Variable getpwuid : Z -> option Z.
Variable getpwnam : bytes -> option Z.
Variable SIGRTMIN : Z.
Variable kill_ok : Z -> Z -> bool.
Variable prio_ok : Z -> Z -> bool.
Variable task_row : top -> WIN_t -> nat -> bytes.
Variable Myname : bytes.
Variable rc_opened : bool.

  (** *** find_string *)

Definition find_ofs (w : WIN_t) (row : bytes) : bool :=
    match findstr w with [] => false | p => match strstr row p with Some _ => true | None => false end end.

  (** The first task from [i] on whose row has the string, but not the first row. *)
Fixpoint find_task (t : top) (w : WIN_t) (n : nat) (i : Z) : option Z :=
    match n with
    | O => None
    | S n =>
        let row := task_row t w (Z.to_nat i) in
        if negb (bool_decide (row = [])) && find_ofs w row && negb (i =? w_int w begtask) then Some i
        else find_task t w n (i + 1)
    end.

Definition find_next : K unit :=
    w ← curwin;
    match findstr w with
    | [] => mret tt
    | _ =>
        cur (SETw NOPRINT_xxx);;
        w ← curwin; t ← get;
        if w_int w begtask <? 0 then undef
        else match find_task t w (Z.to_nat (g_int t PIDSmaxt - w_int w begtask)) (w_int w begtask) with
             | Some i => cur (set_w begtask i)
             | None => show_msg "FIND_no_find"
             end
    end.

Definition find_string (ch : Z) : K unit :=
    w ← curwin;
    if (ch =? 38) && bool_decide (findstr w = []) then show_msg "FIND_no_next"
    else if ch =? 76 then
      str ← ioline;
      if bool_decide (head str = Some kbd_ESC) then mret tt
      else
        let s := snprintf FNDBUFSIZ str in
        cur (fun w => set_w findlen (Z.of_nat (length s)) (set_find s w));;
        cur (match s with [] => OFFw NOHIFND_xxx | _ => SETw NOHIFND_xxx end);;
        find_next
    else find_next.

  (** *** other_filters *)

Definition other_filters (ch : Z) : K unit :=
    if (ch =? 111) || (ch =? 79) then
      glob ← ioline;
      if bool_decide (head glob = Some kbd_ESC) || bool_decide (glob = []) then mret tt
      else
        t ← get; w ← curwin;
        match osel_add N_col (width_of t) ch glob true w with
        | (Some _, w') => cur (fun _ => w');; show_msg "OSEL_err"
        | (None, w') => cur (fun _ => SETw NOHISEL_xxx w')
        end
    else if ch =? kbd_CtrlO then viz_guard (fun _ => _ ← ioline; mret tt)
    else mret tt.

  (** ** keys_global *)

Definition ask_pid (k : Z -> K unit) : K unit :=
    w ← curwin; def ← row_pid w; pid ← ask_int;
    if GET_NUM_ESC <? pid then k (if pid =? GET_NUM_NOT then def else pid) else mret tt.

Definition key_kill : K unit :=
    ask_pid (fun pid =>
      str ← ioline;
      if bool_decide (head str = Some kbd_ESC) then mret tt
      else
        sig ← (match str with [] => mret SIGTERM | _ => defined (Signals.Signals.signal_name_to_number SIGRTMIN str) end);
        if 0 <? sig then call (CKill pid sig);; when (negb (kill_ok pid sig)) (show_msg "FAIL_signals")
        else when (sig <? 0) (show_msg "BAD_signalid")).

Definition key_renice : K unit :=
    ask_pid (fun pid =>
      val ← ask_int;
      when (GET_NUM_NOT <? val)
        (call (CPrio (u32 pid) val);; when (negb (prio_ok (u32 pid) val)) (show_msg "FAIL_re_nice"))).

Definition secure_guard (k : K unit) : K unit :=
    t ← get; if g_int t Secure_mode =? 0 then k else show_msg "NOT_onsecure".

  (** The next of the scales 0 to [hi]. *)
Definition cycle_g (f : gfield) (hi : Z) : K unit :=
    modify (fun t => set_g f (if hi <? g_int t f + 1 then 0 else g_int t f + 1) t).
Definition not_g (f : gfield) : K unit := modify (fun t => set_g f (if g_int t f =? 0 then 1 else 0) t).

Definition key_threads : K unit :=
    not_g Thread_mode;;
    t ← get; w ← curwin;
    (if CHKw w View_STATES then mret tt else show_msg "THREADS_show");;
    modify (fun t => set_g Pseudo_row PROC_XTRA (set_wins (map (fun w => set_w begtask 0 (set_w focus_pid 0 w)) (Winstk t)) t)).

Definition keys_global (ch : Z) : K unit :=
    if (ch =? 63) || (ch =? 104) then help_view;; modify mkVIZrow1
    else if ch =? 66 then cur (TOGw View_NOBOLD)
    else if (ch =? 100) || (ch =? 115) then
      secure_guard (d ← ask_float radix; when (- one <? d) (modify (set_delay d)))
    else if ch =? 69 then cycle_g summ_mscale SK_Eb
    else if ch =? 101 then cycle_g task_mscale SK_Pb
    else if ch =? 102 then fields_utility
    else if ch =? 103 then
      key ← iokey; (if key <? 1 then mret tt else modify (win_select key));; modify mkVIZrow1
    else if ch =? 72 then key_threads
    else if ch =? 73 then
      t ← get; if 1 <? g_int t Cpu_cnt then not_g mode_irixps;; show_msg "IRIX_curmode" else show_msg "NOT_smp_cpus"
    else if ch =? 107 then secure_guard key_kill
    else if ch =? 114 then secure_guard key_renice
    else if ch =? 88 then
      wide ← ask_int;
      when (GET_NUM_NOT <? wide) (modify (set_g fixed_widest (if between 0 SCREENMAX wide then wide else -1)))
    else if ch =? 89 then
      t ← get;
      if insp_total t =? 0 then _ ← ioline; mret tt
      else ask_pid (fun pid => when (negb (pid =? 0)) (call (CInspect pid)))
    else if ch =? 90 then wins_colors;; modify mkVIZrow1
    else if ch =? 48 then not_g zero_suppress
    else if ch =? kbd_CtrlE then cycle_g tics_scaled TICS_AS_LAST
    else mret tt.

  (** ** keys_summary *)

Definition next_combine (cpus v : Z) : Z :=
    let v := if v =? 0 then 1 else i32 (v * 2) in if cpus <=? v then 0 else v.

  (** The 4-way toggles: a view and its graph. *)
Definition graph_toggle (view : Z) (graph : rfield) : K unit :=
    cur (fun w => if negb (CHKw w view) then SETw view w
                  else if 2 <? rcv w graph + 1 then OFFw view (sw graph 0 w)
                  else sw graph (rcv w graph + 1) w).

Definition key_node (num : Z) : K unit :=
    t ← get;
    when (GET_NUM_NOT <? num)
      (if between 0 (g_int t Numa_node_tot - 1) num then
         modify (set_g Numa_node_sel num);;
         cur (fun w => sw double_up 0 (OFFw View_CPUSUM (SETw (Z.lor View_CPUNOD View_STATES) w)))
       else show_msg "NUMA_nodebad").

Definition keys_summary (ch : Z) : K unit :=
    t ← get; w ← curwin;
    if negb (g_int t Restrict_some =? 0) && negb (ch =? 67) then show_msg "X_RESTRICTED"
    else if ch =? 33 then
      if CHKw w View_CPUSUM || CHKw w View_CPUNOD then show_msg "XTRA_modebad"
      else cur (fun w => sw combine_cpus (next_combine (g_int t Cpu_cnt) (rcv w combine_cpus)) w)
    else if ch =? 49 then
      cur (fun w => sw double_up 0 (SETw View_STATES (OFFw View_CPUNOD
        (if CHKw w View_CPUNOD then OFFw View_CPUSUM w else TOGw View_CPUSUM w))))
    else if ch =? 50 then
      if g_int t Numa_node_tot =? 0 then show_msg "NUMA_nodenot"
      else
        cur (fun w =>
          let w := if g_int t Numa_node_sel <? 0 then TOGw View_CPUNOD w else w in
          let w := if CHKw w View_CPUNOD then w else SETw View_CPUSUM w in
          sw double_up 0 (SETw View_STATES w));;
        modify (set_g Numa_node_sel (-1))
    else if ch =? 51 then
      if g_int t Numa_node_tot =? 0 then show_msg "NUMA_nodenot" else num ← ask_int; key_node num
    else if ch =? 52 then
      cur (fun w => sw double_up (if rcv w double_up =? 0 then 1 else 0) w);;
      w ← curwin;
      if rcv w double_up =? 0 then mret tt
      else if g_int t Screen_cols <? DOUBLE_limit then show_msg "XTRA_size2up";; cur (sw double_up 0)
      else cur (OFFw (Z.lor View_CPUSUM View_CPUNOD))
    else if ch =? 67 then VIZTOGw View_SCROLL
    else if ch =? 108 then cur (TOGw View_LOADAV)
    else if ch =? 109 then graph_toggle View_MEMORY graph_mems
    else if ch =? 116 then graph_toggle View_STATES graph_cpus
    else mret tt.

  (** ** keys_task *)

  (** The last entry of the shown fields that is the sort field. *)
Fixpoint last_pos (l : list Z) (v : Z) (i : nat) (found : option nat) : option nat :=
    match l with
    | [] => found
    | x :: l => last_pos l v (S i) (if x =? v then Some i else found)
    end.

Definition shown_entries (w : WIN_t) : list Z := take (Z.to_nat (w_int w maxpflgs)) (procflgs w).

  (** The entry left or right of the sort field, past a mark.  Left of the first
      entry the code reads the element in front of the array, right of the last
      one the element behind; neither matters, since nothing is stored then. *)
Definition sort_left (w : WIN_t) : option Z :=
    let l := shown_entries w in
    match last_pos l (rcv w sortindx) 0 None with
    | Some (S i) =>
        x ← l !! i;
        if EU_MAXPFLGS <? x then match i with S j => l !! j | O => None end else Some x
    | _ => None
    end.
Definition sort_right (w : WIN_t) : option Z :=
    let l := shown_entries w in
    match last_pos l (rcv w sortindx) 0 None with
    | Some i =>
        x ← l !! S i;
        if EU_MAXPFLGS <? x then l !! S (S i) else Some x
    | None => None
    end.

Definition move_sort (next : WIN_t -> option Z) (w : WIN_t) : WIN_t :=
    match next w with Some f => OFFw Show_FOREST (sw sortindx f w) | None => w end.

  (** The 'i' key: where the window was before idle tasks were hidden. *)
Definition saved_idle : K (option nat * Z) := fun s => KOk (i_save s) s.
Definition save_idle (x : option nat * Z) : K unit := fun s =>
    KOk tt (KSt (k_top s) (k_lines s) (k_keys s) (k_calls s) x (c_save s)).

Definition key_idle : K unit :=
    w ← curwin; t ← get; x ← saved_idle;
    let beg := if bool_decide (x.1 = Some (Curwin t)) then x.2 else 0 in
    (if CHKw w Show_IDLEPS then save_idle (Some (Curwin t), w_int w begtask);; cur (set_w begtask 0)
     else cur (set_w begtask beg);; save_idle (Some (Curwin t), 0));;
    VIZTOGw Show_IDLEPS.

  (** The 'v' key: collapse or expand the children of a process. *)
Fixpoint flip (pid : Z) (l : list Z) : option (list Z) :=
    match l with
    | [] => None
    | x :: l => if (x =? pid) || (x =? - pid) then Some (- x :: l) else (x ::.) <$> flip pid l
    end.
Definition toggle_hidden (pid : Z) (l : list Z) : list Z :=
    match flip pid l with
    | None => l ++ [pid]
    | Some l => if existsb (fun x => 0 <? x) l then l else []
    end.

Definition key_hicols (w : WIN_t) : K unit :=
    if ENUviz w (rcv w sortindx) && negb (CHKw w (Z.lor NOHIFND_xxx NOHISEL_xxx)) then
      match msch (pflgsall w) (rcv w sortindx) (Z.to_nat (w_int w totpflgs)) with
      | None => undef
      | Some pos =>
          cur (fun w =>
            let w := TOGw Show_HICOLS w in
            if Z.of_nat pos <? w_int w begpflg then
              let b := if CHKw w Show_HICOLS then w_int w begpflg + 2 else w_int w begpflg - 2 in
              set_w begpflg (if b <? 0 then 0 else b) w
            else w)
      end
    else mret tt.

Definition keys_task (ch : Z) : K unit :=
    if (ch =? 35) || (ch =? 110) then
      viz_guard (fun _ =>
        num ← ask_int;
        when (GET_NUM_NOT <? num) (if -1 <? num then cur (sw maxtasks num) else show_msg "BAD_max_task"))
    else if ch =? 60 then viz_guard (fun _ => cur (move_sort sort_left))
    else if ch =? 62 then viz_guard (fun _ => cur (move_sort sort_right))
    else if ch =? 98 then cur (TOGw Show_HIBOLD)
    else if ch =? 99 then VIZTOGw Show_CMDLIN
    else if ch =? 70 then
      viz_guard (fun w =>
        if CHKw w Show_FOREST then
          n ← row_pid w; cur (fun w => set_w focus_pid (if w_int w focus_pid =? n then 0 else n) w)
        else mret tt)
    else if ch =? 105 then key_idle
    else if ch =? 74 then VIZTOGw Show_JRNUMS
    else if ch =? 106 then VIZTOGw Show_JRSTRS
    else if ch =? 82 then viz_guard (fun _ => cur (fun w => OFFw Show_FOREST (TOGw Qsrt_NORMAL w)))
    else if ch =? 83 then viz_guard (fun _ => cur (TOGw Show_CTIMES);; show_msg "TIME_accumed")
    else if (ch =? 79) || (ch =? 111) || (ch =? kbd_CtrlO) then
      viz_guard (fun _ => other_filters ch;; modify mkVIZrow1)
    else if (ch =? 85) || (ch =? 117) then
      viz_guard (fun _ =>
        str ← ioline;
        (if bool_decide (head str = Some kbd_ESC) then mret tt
         else
           w ← curwin;
           let '(ok, w') := user_certify getpwuid getpwnam str ch w in
           cur (fun _ => w');; when (negb ok) (show_msg "BAD_username"));;
        modify mkVIZrow1)
    else if ch =? 86 then
      viz_guard (fun _ =>
        cur (TOGw Show_FOREST);;
        w ← curwin;
        (if ENUviz w EU_CMD then mret tt else show_msg "FOREST_modes");;
        if CHKw w Show_FOREST then mret tt else cur (set_w focus_pid 0))
    else if ch =? 118 then
      viz_guard (fun w =>
        if CHKw w Show_FOREST then
          pid ← row_pid w; modify (fun t => set_hide (toggle_hidden pid (Hide_pid t)) t)
        else mret tt)
    else if ch =? 120 then viz_guard key_hicols
    else if ch =? 121 then viz_guard (fun _ => cur (TOGw Show_HIROWS))
    else if ch =? 122 then viz_guard (fun _ => cur (TOGw Show_COLORS))
    else mret tt.

  (** ** keys_window *)

Definition VARright (t : top) (w : WIN_t) : bool :=
    ((w_int w maxpflgs =? 1) && VARcol t (nth 0 (procflgs w) 0)) ||
    ((w_int w maxpflgs =? 3) && (nth 0 (procflgs w) 0 =? EU_XON) && VARcol t (nth 1 (procflgs w) 0)).

Definition scroll_left (t : top) (w : WIN_t) : WIN_t :=
    if negb (w_int w varcolbeg =? 0) && VARright t w then set_w varcolbeg (w_int w varcolbeg - SCROLLAMT) w
    else if 0 <? w_int w begpflg then
      let b := w_int w begpflg - 1 in
      set_w begpflg (if EU_MAXPFLGS <? nth (Z.to_nat b) (pflgsall w) 0 then b - 2 else b) w
    else w.
Definition scroll_right (t : top) (w : WIN_t) : WIN_t :=
    if VARright t w then
      let v := i32 (w_int w varcolbeg + SCROLLAMT) in set_w varcolbeg (if v <? 0 then 0 else v) w
    else if w_int w begpflg + 1 <? w_int w totpflgs then
      let b := w_int w begpflg in
      set_w begpflg (if EU_MAXPFLGS <? nth (Z.to_nat b) (pflgsall w) 0
                     then b + (if b + 3 <? w_int w totpflgs then 3 else 0) else b + 1) w
    else w.

Definition page (t : top) (w : WIN_t) : Z := w_int w winlines - (if g_int t mode_altscr =? 0 then 2 else 1).

  (** A key that moves the rows, where idle tasks are shown. *)
Definition row_key (k : top -> WIN_t -> K unit) : K unit :=
    viz_guard (fun w => t ← get; when (CHKw w Show_IDLEPS) (k t w)).

Definition keys_window (ch : Z) : K unit :=
    t ← get;
    if ch =? 43 then alt_guard (modify (wins_reflag Flags_OFF EQUWINS_xxx));; modify (set_hide [])
    else if ch =? 45 then alt_guard (cur (TOGw Show_TASKON))
    else if ch =? 61 then modify (fun t => set_hide [] (win_reset (Curwin t) t))
    else if ch =? 95 then alt_guard (modify (wins_reflag Flags_TOG Show_TASKON))
    else if (ch =? 38) || (ch =? 76) then viz_guard (fun _ => find_string ch)
    else if ch =? 65 then not_g mode_altscr
    else if (ch =? 97) || (ch =? 119) then alt_guard (modify (win_select ch);; modify mkVIZrow1)
    else if ch =? 71 then
      alt_guard (str ← ioline;
        let tmp := take (Z.to_nat (SMLBUFSIZ - 1)) str in
        if bool_decide (tmp = []) || bool_decide (head tmp = Some kbd_ESC) then mret tt else cur (Topdata.win_names tmp))
    else if ch =? kbd_UP then row_key (fun _ _ => modify (mkVIZrowX (-1)))
    else if ch =? kbd_DOWN then row_key (fun _ _ => modify (mkVIZrowX 1))
    else if ch =? kbd_LEFT then viz_guard (fun _ => cur (scroll_left t))
    else if ch =? kbd_RIGHT then viz_guard (fun _ => cur (scroll_right t))
    else if ch =? kbd_PGUP then row_key (fun t w => when (0 <? w_int w begtask) (modify (mkVIZrowX (- page t w))))
    else if ch =? kbd_PGDN then
      row_key (fun t w => when (w_int w begtask <? g_int t PIDSmaxt - 1) (modify (mkVIZrowX (page t w))))
    else if ch =? kbd_HOME then
      row_key (fun _ _ => cur (fun w => set_w begtask 0 (set_w begpflg 0 (set_w varcolbeg 0 w))));; modify mkVIZrow1
    else if ch =? kbd_END then
      row_key (fun t w =>
        modify (mkVIZrowX (g_int t PIDSmaxt - w_int w winlines + 1));;
        cur (fun w => set_w varcolbeg 0 (set_w begpflg (w_int w endpflg) w)))
    else mret tt.

  (** ** keys_xtra *)

Definition keys_xtra (ch : Z) : K unit :=
    cur (OFFw Show_FOREST);;
    if ch =? 77 then cur (sw sortindx EU_MEM)
    else if ch =? 78 then cur (sw sortindx EU_PID)
    else if ch =? 80 then cur (sw sortindx EU_CPU)
    else if ch =? 84 then cur (sw sortindx EU_TM2)
    else mret tt.

  (** ** do_key *)

Definition key_tab : list ((Z -> K unit) * list Z) :=
    [(keys_global, bs "?BdEefgHhIkrsXYZ0" ++ [kbd_CtrlE; kbd_ENTER; kbd_SPACE]);
     (keys_summary, bs "!1234Clmt");
     (keys_task, bs "#<>bcFiJjnOoRSUuVvxyz" ++ [kbd_CtrlO]);
     (keys_window, bs "+-=_&AaGLw" ++ [kbd_UP; kbd_DOWN; kbd_LEFT; kbd_RIGHT; kbd_PGUP; kbd_PGDN; kbd_HOME; kbd_END]);
     (keys_xtra, bs "MNPT")].

  (** A yes asked for when a flag is set. *)
Definition ask_yes (f : gfield) (t : top) : K bool :=
    if g_int t f =? 0 then mret true else key ← iokey; mret (tolower key =? 121).

Definition key_write : K unit :=
    t ← get;
    y1 ← ask_yes Rc_questions t;
    y2 ← (if y1 then ask_yes Rc_compatibilty t else mret true);
    r ← defined (write_rcfile Myname y1 y2 rc_opened t);
    modify (fun _ => r.1);;
    match r.2 with
    | Some text => call (CWrite text)
    | None => when (y1 && y2) (show_msg "FAIL_rc_open")
    end.

Definition do_key (ch : Z) : K unit :=
    t ← get;
    if (ch =? 0) || (ch =? kbd_ESC) then mret tt
    else if ch =? 113 then bye_bye
    else if ch =? 87 then key_write
    else if (g_int t PIDSmaxt =? 0) && negb (ch =? 61) then mret tt
    else
      match find (fun e => existsb (Z.eqb ch) e.2) key_tab with
      | Some (func, _) => func ch
      | None => show_msg "UNKNOWN_cmds"
      end.

  (** Keys one after the other. *)
Fixpoint do_keys (chs : list Z) : K unit :=
    match chs with [] => mret tt | ch :: chs => do_key ch;; do_keys chs end.
End handlers.

(** ** Reasoning about the handlers *)

(** Started where [I] holds, the handler ends where it holds and its result has
    [P]. *)
Definition holds (I : kst -> Prop) {A} (m : K A) (P : A -> Prop) : Prop :=
  forall s, I s -> match m s with KOk a s' => I s' /\ P a | _ => True end.
Definition keeps (I : kst -> Prop) {A} (m : K A) : Prop := holds I m (fun _ => True).

Lemma holds_ret I {A} (a : A) P : P a -> holds I (mret a) P.
Proof. intros Ha s Hs. by split. Qed.

Lemma holds_bind I {A B} (m : K A) (f : A -> K B) P Q :
  holds I m P -> (forall a, P a -> holds I (f a) Q) -> holds I (m ≫= f) Q.
Proof.
  intros Hm Hf s Hs. unfold mbind, K_bind. specialize (Hm s Hs). destruct (m s) as [a s'| | |]; [|done..].
  destruct Hm as [Hs' Ha]. by apply Hf.
Qed.

Lemma holds_weaken I {A} (m : K A) P Q : holds I m P -> (forall a, P a -> Q a) -> holds I m Q.
Proof. intros Hm HPQ s Hs. specialize (Hm s Hs). destruct (m s); [|done..]. destruct Hm; auto. Qed.

Lemma keeps_seq I {A B} (m : K A) (k : K B) : keeps I m -> keeps I k -> keeps I (m;; k).
Proof. intros Hm Hk. eapply holds_bind; [exact Hm|]. by intros a _. Qed.

Lemma keeps_ret I {A} (a : A) : keeps I (mret a).
Proof. by apply holds_ret. Qed.

Lemma holds_mret I {A} (a : A) : holds I (mret a) (fun x => x = a).
Proof. by apply holds_ret. Qed.

Lemma keeps_exit I : keeps I bye_bye.
Proof. by intros s Hs. Qed.

Lemma holds_undef I {A} (P : A -> Prop) : holds I undef P.
Proof. by intros s Hs. Qed.

Lemma keeps_undef I {A} : keeps I (undef (A := A)).
Proof. apply holds_undef. Qed.

Lemma holds_defined I {A} (o : option A) : holds I (defined o) (fun a => o = Some a).
Proof. destruct o; [by apply holds_ret|apply holds_undef]. Qed.

Lemma keeps_when I b k : keeps I k -> keeps I (when b k).
Proof. intros Hk. destruct b; [done|apply keeps_ret]. Qed.

Lemma keeps_if I {A} (b : bool) (k1 k2 : K A) : keeps I k1 -> keeps I k2 -> keeps I (if b then k1 else k2).
Proof. by destruct b. Qed.

Create HintDb keys.
#[export] Hint Resolve holds_mret keeps_ret keeps_exit keeps_undef keeps_when : keys.

(** Walk down a handler. *)
Ltac kstep :=
  match goal with
  | |- holds ?I ?m (fun _ => True) => change (keeps I m)
  | |- keeps _ (if _ then _ else _) => apply keeps_if
  | |- keeps _ (when _ _) => apply keeps_when
  | |- keeps _ (mbind (fun _ => ?k) ?m) => apply (keeps_seq _ m k)
  | |- keeps _ (_ ≫= _) => eapply holds_bind; [solve [eauto with keys]|intros ? ?]
  | |- keeps _ (mbind _ (match ?x with _ => _ end)) => destruct x eqn:?
  | |- holds _ (_ ≫= _) _ => eapply holds_bind; [solve [eauto with keys]|intros ? ?]
  | |- keeps _ (viz_guard _) => unfold viz_guard
  | |- keeps _ (alt_guard _) => unfold alt_guard
  | |- keeps _ (match ?x with _ => _ end) => destruct x eqn:?
  | |- keeps _ _ => progress cbv zeta
  end.
Ltac kleaf := solve [eauto with keys | eapply holds_weaken; [solve [eauto with keys]|done]].
Ltac ksolve := repeat first [kleaf | kstep]; eauto with keys.

(** *** Invariants of the state, of what is typed and of what is asked for *)

Section invariant.
Variable It : top -> Prop.
Variable Pl : bytes -> Prop.
Variable Pc : ocall -> Prop.
Variable Ps : Z * Z * Z * Z * Z -> Prop.

Definition kinv (s : kst) : Prop := It (k_top s) /\ Forall Pl (k_lines s) /\ Forall Pc (k_calls s) /\ Ps (c_save s).

Lemma holds_get : holds kinv get It.
Proof. intros s Hs. split; [done|]. by destruct Hs. Qed.

Lemma keeps_modify h : (forall t, It t -> It (h t)) -> keeps kinv (modify h).
Proof. intros H s (H1 & H2). split; [|done]. split; [by apply H|done]. Qed.

Lemma keeps_call c : Pc c -> keeps kinv (call c).
Proof. intros Hc s (H1 & H2 & H3 & H4). split; [|done]. split_and!; [done..| |done]. apply Forall_app. by repeat constructor. Qed.

Lemma holds_ioline : holds kinv ioline Pl.
Proof.
  intros s (H1 & H2 & H3). unfold ioline. destruct (k_lines s); [done|]. apply Forall_cons in H2 as [? ?]. by split.
Qed.

Lemma holds_iokey : holds kinv iokey (fun _ => True).
Proof. intros s H. unfold iokey. by destruct (k_keys s). Qed.

Lemma holds_curwin (Pw : WIN_t -> Prop) : (forall t, It t -> Forall Pw (Winstk t)) -> holds kinv curwin Pw.
Proof.
  intros H. eapply holds_bind; [apply holds_get|]. intros t Ht s Hs. unfold defined. destruct (Winstk t !! Curwin t) as [w|] eqn:E; [|done].
  split; [done|]. eapply Forall_lookup_1; [|exact E]. by apply H.
Qed.

Lemma holds_ask_int : holds kinv ask_int in_int.
Proof.
  eapply holds_bind; [apply holds_ioline|]. intros l _. eapply holds_weaken; [apply holds_defined|]. intros n Hn. cbv beta in Hn.
  unfold get_int in Hn.
  assert (forall k, Some k = Some n -> in_int k -> in_int n) as Hk by (by intros k [= ->]).
  destruct l as [|c l]; [revert Hn; simpl; intros Hn; apply (Hk _ Hn); done|].
  destruct (decide (c = 27)) as [->|Hc]; [apply (Hk _ Hn); done|].
  assert (Hm : ('(ok, f) ← mkfloat 46 (c :: l) true; if ok : bool then to_int f else Some GET_NUM_BAD) = Some n).
  { destruct c as [|p|p]; [done| |done]. repeat (destruct p as [p|p|]; try done). }
  destruct (mkfloat _ _ _) as [[ok f]|]; [|done]. simpl in Hm. destruct ok; [by apply to_int_range in Hm|]. by apply (Hk _ Hm).
Qed.

Lemma keeps_save_clr c : Ps c -> keeps kinv (save_clr c).
Proof. intros Hc s (H1 & H2 & H3 & H4). by split_and!. Qed.

Lemma holds_saved_clr : holds kinv saved_clr Ps.
Proof. intros s Hs. split; [done|]. by destruct Hs as (_ & _ & _ & ?). Qed.
End invariant.

(** A handler whose fuel depends on what is still to be typed. *)
Lemma keeps_fuel I {A} (m : nat -> K A) (n : kst -> nat) : (forall k, keeps I (m k)) -> keeps I (fun s => m (n s) s).
Proof. intros H s Hs. by apply H. Qed.

(** ** A machine to try the keys on *)

Definition demo_keys_top : top :=
  set_g PIDSmaxt 2 (set_g max_colors 256 (set_wins (map (fun w => WIN (w_int w) (rc w) (pflgsall w) (procflgs w) (grpname w) (findstr w)
    (osel_1st w) [1; 42]) wins_stage_1) demo_top)).
Definition demo_session (lines : list bytes) (keys : list Z) (t : top) : kst := KSt t lines keys [] (None, 0) (0, 0, 0, 0, 0).

Definition no_user (n : Z) : option Z := None.
Definition no_name (n : bytes) : option Z := None.
Definition sys_ok (a b : Z) : bool := true.
Definition no_row (t : top) (w : WIN_t) (i : nat) : bytes := [].

End Topkeys.
