(* ===== verification/Topsecure.v ===== *)
(** * top.c: secure mode

    In secure mode (-s) the keys neither send signals nor change priorities or the
    delay, whatever is pressed and typed. *)

From stdpp Require Import functions base numbers list strings.
From S2P Require Import Prelude Libc Real Signals Toptext Topdata Topfilter Toprc Topfields Topkeys.
Open Scope Z_scope.

Module Topsecure.
Import Real Toptext Topdata Topfilter Toprc Topfields Topkeys.

(** ** Secure mode *)

Section secure.
Variable d : Z.

Definition sec_t (t : top) : Prop := g_int t Secure_mode <> 0 /\ delay_time t = d.
Definition harmless (c : ocall) : Prop := match c with CKill _ _ | CPrio _ _ => False | _ => True end.
Definition sec : kst -> Prop := kinv sec_t (fun _ => True) harmless (fun _ => True).

  (** An update that leaves the mode and the delay alone. *)
Definition tame (h : top -> top) : Prop := forall t, g_int (h t) Secure_mode = g_int t Secure_mode /\ delay_time (h t) = delay_time t.

Lemma sec_modify h : tame h -> keeps sec (modify h).
Proof. intros H. apply keeps_modify. intros t [H1 H2]. destruct (H t) as [H3 H4]. split; congruence. Qed.

Lemma tame_cur h : tame (on_cur h).
Proof. done. Qed.
Lemma sec_cur h : keeps sec (cur h).
Proof. apply sec_modify, tame_cur. Qed.
Lemma sec_get : holds sec get sec_t.
Proof. apply holds_get. Qed.
Lemma sec_ioline : holds sec ioline (fun _ => True).
Proof. apply holds_ioline. Qed.
Lemma sec_iokey : holds sec iokey (fun _ => True).
Proof. apply holds_iokey. Qed.
Lemma sec_curwin : holds sec curwin (fun _ => True).
Proof. apply holds_curwin. intros. by apply Forall_true. Qed.
Lemma sec_ask_int : holds sec ask_int in_int.
Proof. apply holds_ask_int. Qed.
Lemma sec_msg m : keeps sec (show_msg m).
Proof. by apply keeps_call. Qed.
Lemma sec_defined {A} (o : option A) : holds sec (defined o) (fun a => o = Some a).
Proof. apply holds_defined. Qed.
Lemma sec_inspect pid : keeps sec (call (CInspect pid)).
Proof. by apply keeps_call. Qed.
Lemma sec_save c : keeps sec (save_clr c).
Proof. by apply keeps_save_clr. Qed.
Lemma sec_saved : holds sec saved_clr (fun _ => True).
Proof. apply holds_saved_clr. Qed.

  (** A write of the file is not harmful. *)
Lemma sec_write text : keeps sec (call (CWrite text)).
Proof. by apply keeps_call. Qed.
End secure.
#[export] Hint Resolve sec_cur sec_get sec_ioline sec_iokey sec_curwin sec_ask_int sec_msg sec_defined sec_inspect sec_save sec_saved sec_write : keys.
Lemma tame_select key : tame (win_select key).
Proof. intros t. unfold win_select. destruct (_ =? _); [done|]. destruct (_ =? _); [done|]. by destruct (_ && _). Qed.
Lemma tame_reflag what flg : tame (wins_reflag what flg).
Proof.
  intros t. unfold wins_reflag. generalize (ring (Curwin t)). intros l. revert t. induction l as [|i l IH]; intros t; [done|].
  cbn [foldl]. destruct (IH (reflag_one what flg t i)) as [-> ->]. unfold reflag_one. by destruct (_ =? _).
Qed.
#[export] Hint Resolve tame_select tame_reflag : keys.
#[export] Hint Extern 4 (tame _) => done : keys.
#[export] Hint Resolve sec_modify : keys.

Section secure_keys.
Variable d : Z.
Lemma sec_saved_idle : holds (sec d) saved_idle (fun _ => True).
Proof. intros s Hs. by split. Qed.
Lemma sec_save_idle x : keeps (sec d) (save_idle x).
Proof. intros s Hs. by split. Qed.
Lemma sec_viztog f : keeps (sec d) (VIZTOGw f).
Proof. unfold VIZTOGw. ksolve. Qed.
Lemma sec_row_pid w : holds (sec d) (row_pid w) (fun _ => True).
Proof. unfold row_pid. destruct (_ <? 0); [apply holds_undef|]. eapply holds_weaken; [apply sec_defined|done]. Qed.
Lemma sec_adj : keeps (sec d) adj_double.
Proof. unfold adj_double. ksolve. Qed.
Lemma sec_clrhlp b : keeps (sec d) (wins_clrhlp b).
Proof. unfold wins_clrhlp. ksolve. Qed.
End secure_keys.
#[export] Hint Resolve sec_saved_idle sec_save_idle sec_viztog sec_row_pid sec_adj sec_clrhlp : keys.

Section secure_loops.
Variable d : Z.

Lemma sec_fields_key key i p : holds (sec d) (fields_key key i p) (fun _ => True).
Proof.
  unfold fields_key. destruct (key =? kbd_UP); [destruct (0 <? i)%nat, p; ksolve|].
  destruct (key =? kbd_DOWN); [destruct (S i <? Z.to_nat EU_MAXPFLGS)%nat, p; ksolve|]. ksolve.
Qed.
#[local] Hint Resolve sec_fields_key : keys.

Lemma sec_fields_loop fuel : forall i p, keeps (sec d) (fields_loop fuel i p).
Proof. induction fuel as [|fuel IH]; intros i p; [by intros s|]. cbn [fields_loop]. ksolve. Qed.
#[local] Hint Resolve sec_fields_loop : keys.

Lemma sec_fields : keeps (sec d) fields_utility.
Proof.
  apply (keeps_fuel _ (fun n => w ← curwin; adj_double;; fields_loop n (spewFI w) None) (fun s => S (length (k_keys s)))).
  intros n. ksolve.
Qed.

Lemma sec_colors_key key clr tg : holds (sec d) (colors_key key clr tg) (fun _ => True).
Proof. unfold colors_key. ksolve. Qed.
#[local] Hint Resolve sec_colors_key : keys.

Lemma sec_colors_loop fuel : forall clr tg, keeps (sec d) (colors_loop fuel clr tg).
Proof. induction fuel as [|fuel IH]; intros clr tg; [by intros s|]. cbn [colors_loop]. ksolve. Qed.
#[local] Hint Resolve sec_colors_loop : keys.

Lemma sec_colors : keeps (sec d) wins_colors.
Proof.
  apply (keeps_fuel _ (fun n => t ← get; w ← curwin;
   if g_int t max_colors <=? 0 then show_msg "COLORS_nomap"
   else wins_clrhlp true;; adj_double;; colors_loop n (rcv w taskclr) taskclr) (fun s => S (length (k_keys s)))).
  intros n. ksolve.
Qed.

Lemma sec_help_windows fuel : keeps (sec d) (help_windows fuel).
Proof. induction fuel as [|fuel IH]; [by intros s|]. cbn [help_windows]. ksolve. Qed.
#[local] Hint Resolve sec_help_windows : keys.
Lemma sec_help_loop fuel : keeps (sec d) (help_loop fuel).
Proof. induction fuel as [|fuel IH]; [by intros s|]. cbn [help_loop]. ksolve. Qed.

Lemma sec_help : keeps (sec d) help_view.
Proof. apply (keeps_fuel _ help_loop (fun s => S (length (k_keys s)))), sec_help_loop. Qed.
End secure_loops.
#[export] Hint Resolve sec_fields sec_colors sec_help : keys.

Section secure_handlers.
Variable d : Z.
Context (N_col : Z -> bytes) (radix : Z) (getpwuid : Z -> option Z) (getpwnam : bytes -> option Z) (SIGRTMIN : Z)
  (kill_ok prio_ok : Z -> Z -> bool) (task_row : top -> WIN_t -> nat -> bytes) (Myname : bytes) (rc_opened : bool).

Lemma sec_guard k : keeps (sec d) (secure_guard k).
Proof.
  eapply holds_bind; [apply sec_get|]. intros t [Ht _]. destruct (Z.eqb_spec (g_int t Secure_mode) 0); [done|]. apply sec_msg.
Qed.

Lemma sec_cycle f hi : f <> Secure_mode -> keeps (sec d) (cycle_g f hi).
Proof. intros H. apply sec_modify. intros t. simpl. by rewrite fn_lookup_insert_ne. Qed.
Lemma sec_not f : f <> Secure_mode -> keeps (sec d) (not_g f).
Proof. intros H. apply sec_modify. intros t. simpl. by rewrite fn_lookup_insert_ne. Qed.
#[local] Hint Resolve sec_guard : keys.
#[local] Hint Extern 4 (keeps _ (cycle_g _ _)) => by apply sec_cycle : keys.
#[local] Hint Extern 4 (keeps _ (not_g _)) => by apply sec_not : keys.

Lemma sec_threads : keeps (sec d) key_threads.
Proof. unfold key_threads. ksolve. Qed.
#[local] Hint Resolve sec_threads : keys.

Lemma sec_global ch : keeps (sec d) (keys_global radix SIGRTMIN kill_ok prio_ok ch).
Proof. unfold keys_global, ask_pid. ksolve. Qed.

Lemma sec_node num : keeps (sec d) (key_node num).
Proof. unfold key_node. ksolve. Qed.
#[local] Hint Resolve sec_node : keys.
Lemma sec_graph v g : keeps (sec d) (graph_toggle v g).
Proof. unfold graph_toggle. ksolve. Qed.
#[local] Hint Resolve sec_graph : keys.
Lemma sec_summary ch : keeps (sec d) (keys_summary ch).
Proof. unfold keys_summary. ksolve. Qed.

Lemma sec_filters ch : keeps (sec d) (other_filters N_col ch).
Proof. unfold other_filters. ksolve. Qed.
#[local] Hint Resolve sec_filters : keys.
Lemma sec_idle : keeps (sec d) key_idle.
Proof. unfold key_idle. ksolve. Qed.
Lemma sec_hicols w : keeps (sec d) (key_hicols w).
Proof. unfold key_hicols. ksolve. Qed.
#[local] Hint Resolve sec_idle sec_hicols : keys.
Lemma sec_task ch : keeps (sec d) (keys_task N_col getpwuid getpwnam ch).
Proof. unfold keys_task. ksolve. Qed.

Lemma sec_find ch : keeps (sec d) (find_string task_row ch).
Proof. unfold find_string, find_next. ksolve. Qed.
#[local] Hint Resolve sec_find : keys.
Lemma sec_window ch : keeps (sec d) (keys_window task_row ch).
Proof. unfold keys_window, row_key. ksolve. Qed.
Lemma sec_xtra ch : keeps (sec d) (keys_xtra ch).
Proof. unfold keys_xtra. ksolve. Qed.
#[local] Hint Resolve sec_global sec_summary sec_task sec_window sec_xtra : keys.

Lemma sec_ask_yes f t : holds (sec d) (ask_yes f t) (fun _ => True).
Proof. unfold ask_yes. ksolve. Qed.

Lemma write_rcfile_state y1 y2 o t r : write_rcfile Myname y1 y2 o t = Some r -> g_int r.1 Secure_mode = g_int t Secure_mode /\ delay_time r.1 = delay_time t.
Proof.
  unfold write_rcfile. intros H. repeat case_match; try (destruct (rc_text _ _); simpl in H); by simplify_eq.
Qed.

Lemma sec_key_write : keeps (sec d) (key_write Myname rc_opened).
Proof.
  unfold key_write. eapply holds_bind; [apply sec_get|]. intros t Ht.
  eapply holds_bind; [apply sec_ask_yes|]. intros y1 _.
  eapply holds_bind; [instantiate (1 := fun _ => True); destruct y1; [apply sec_ask_yes|by apply holds_ret]|]. intros y2 _.
  eapply holds_bind; [apply sec_defined|]. intros r Hr%write_rcfile_state. apply keeps_seq; [|ksolve].
  apply keeps_modify. intros _ _. destruct Ht, Hr. split; congruence.
Qed.
#[local] Hint Resolve sec_key_write : keys.

Lemma sec_do_key ch :
  keeps (sec d) (do_key N_col radix getpwuid getpwnam SIGRTMIN kill_ok prio_ok task_row Myname rc_opened ch).
Proof.
  unfold do_key. eapply holds_bind; [apply sec_get|]. intros t Ht.
  do 4 (apply keeps_if; [ksolve|]).
  destruct (find _ _) as [[func keys]|] eqn:E; [|ksolve]. apply find_some in E as [E _]. simpl in E.
  repeat (destruct E as [[= <- <-]|E]; [ksolve|]). done.
Qed.

Lemma sec_do_keys chs :
  keeps (sec d) (do_keys N_col radix getpwuid getpwnam SIGRTMIN kill_ok prio_ok task_row Myname rc_opened chs).
Proof. induction chs as [|ch chs IH]; cbn [do_keys]; [ksolve|]. apply keeps_seq; [apply sec_do_key|done]. Qed.
End secure_handlers.

(** C9: in secure mode no sequence of keys and answers sends a signal, changes a
    priority or the delay, or leaves secure mode. *)
Theorem secure_mode_safe N_col radix getpwuid getpwnam SIGRTMIN kill_ok prio_ok task_row Myname rc_opened chs s s' :
  g_int (k_top s) Secure_mode <> 0 -> k_calls s = [] ->
  do_keys N_col radix getpwuid getpwnam SIGRTMIN kill_ok prio_ok task_row Myname rc_opened chs s = KOk tt s' ->
  Forall harmless (k_calls s') /\ delay_time (k_top s') = delay_time (k_top s) /\ g_int (k_top s') Secure_mode <> 0.
Proof.
  intros Hs Hc E.
  pose proof (sec_do_keys (delay_time (k_top s)) N_col radix getpwuid getpwnam SIGRTMIN kill_ok prio_ok task_row Myname rc_opened chs s) as H.
  rewrite E in H. destruct H as [([H1 H2] & _ & H3 & _) _]; [|done].
  split_and!; try done; [by apply Forall_true|]. rewrite Hc. constructor.
Qed.

#[local] Abbreviation demo_do := (do_keys demo_col 46 no_user no_name 34 sys_ok sys_ok no_row (bs "top") true).

Lemma secure_mode_safe_witness : exists s', 
  demo_do [107; 114; 100]
    (demo_session [bs "1"; bs "9"] [] (set_g Secure_mode 1 demo_keys_top)) = KOk tt s' /\
  Forall harmless (k_calls s') /\ delay_time (k_top s') = delay_time demo_keys_top /\ g_int (k_top s') Secure_mode <> 0.
Proof.
  eexists. split; [reflexivity|].
  apply (secure_mode_safe demo_col 46 no_user no_name 34 sys_ok sys_ok no_row (bs "top") true
    [107; 114; 100] (demo_session [bs "1"; bs "9"] [] (set_g Secure_mode 1 demo_keys_top))); [discriminate|reflexivity|reflexivity].
Defined.

End Topsecure.
