(* ===== verification/Topsum.v ===== *)
(** * top.c: the summary area

    [sum_see], [sum_tics], [sum_unify], [do_cpus], [do_memory] and
    [summary_show]: the lines above the tasks, two of which share a row when there
    is room.  A row is the list of what stands in it; percentages are floats, and
    the texts around them (top_nls.c) are left out. *)

From stdpp Require Import functions base numbers list strings.
From S2P Require Import Prelude Libc Real Toptext Topdata Topfields.
Open Scope Z_scope.

Module Topsum.
Import Real Toptext Topdata Topfields.

Definition NODE_INVALID : Z := -22222.

(** ** What the library has counted *)

Inductive sitem := stat_ID | stat_NU | stat_US | stat_SY | stat_NI | stat_IL | stat_IO | stat_IR | stat_SI | stat_ST
  | stat_SUM_USR | stat_SUM_SYS | stat_SUM_TOT.
#[export] Instance sitem_eq_dec : EqDecision sitem.
Proof. solve_decision. Defined.

Definition stack : Type := sitem -> Z.

Inductive mitem := mem_FRE | mem_USE | mem_TOT | mem_QUE | mem_BUF | mem_AVL | swp_TOT | swp_FRE | swp_USE.

Record counts := Counts { cpus : list stack; numa : list stack; summary : stack; mem : mitem -> Z }.

(** ** A part of a line *)

Inductive cell :=
| CStates (pfx : bytes) (pcts : list Z)                      (* the percentages of a processor *)
| CGraph (pfx : bytes) (user syst both : Z) (bars : Z * Z)   (* two percentages, their sum and their bars *)
| CLoad                                                      (* uptime and load average *)
| CTasks                                                     (* the tasks by their states *)
| CMem (pfx : bytes) (texts : list bytes)
| CMemGraph (pfx : bytes) (pct : Z) (total : bytes) (bars : list Z).

(** The statics of [sum_see] and [sum_unify], the rows printed so far, Msg_row and
    the node that is selected. *)
Record sum := Sum {
  row : list cell;
  tog : bool;
  accum : stack;
  ix : Z;
  beg : Z;
  rows : list (list cell);
  Msg_row : Z;
  node_sel : Z
}.

Definition zero_stack : stack := fun _ => 0.

(** What a line is printed with: the current window and the screen. *)
Record view := View { v_double : Z; v_graph_cpus : Z; v_graph_mems : Z; v_combine : Z; v_flags : Z; v_rows : Z; v_graph : Z;
  v_cpus : Z; v_nodes : Z; v_scale : Z; v_restrict : bool; v_radix : Z }.

Definition chk (v : view) (f : Z) : bool := negb (Z.land (v_flags v) f =? 0).

(** [sum_see]: the number of lines printed. *)
Definition sum_see (v : view) (c : cell) (nobuf : bool) (s : sum) : Z * sum :=
  let r := row s ++ [c] in
  if negb (v_double v =? 0) && negb nobuf && negb (tog s)
  then (0, Sum r true (accum s) (ix s) (beg s) (rows s) (Msg_row s) (node_sel s))
  else (1, Sum [] false (accum s) (ix s) (beg s) (rows s ++ [r]) (Msg_row s) (node_sel s)).

(** The lines are added to Msg_row. *)
Definition count_lines (r : Z * sum) : sum :=
  let s := r.2 in Sum (row s) (tog s) (accum s) (ix s) (beg s) (rows s) (Msg_row s + r.1) (node_sel s).

(** ** Processors *)

Definition half : Z := one / 2.

(** [(int)((pct * Graph_adj) + .5)] *)
Definition bars_of (v : view) (pct : Z) : option Z :=
  to_int (fadd (fmulf pct (rndf (fdiv (of_intf (v_graph v)) (100 * one)) 1)) half).

(** Two bars that do not exceed the graph together. *)
Definition two_bars (v : view) (a b : Z) : option (Z * Z) :=
  na ← bars_of v a; nb ← bars_of v b;
  Some (na, if v_graph v <? na + nb then v_graph v - na else nb).

Definition state_items : list sitem := [stat_US; stat_SY; stat_NI; stat_IL; stat_IO; stat_IR; stat_SI; stat_ST].

Definition tics_cell (v : view) (this : stack) (pfx : bytes) : option cell :=
  let '(idl, tot) := if this stat_SUM_TOT <? 1 then (1, 1) else (this stat_IL, this stat_SUM_TOT) in
  let scale := rndf (fdiv (100 * one) (of_intf tot)) 1 in
  let pct n := fmulf (of_intf n) scale in
  if v_graph_cpus v =? 0 then
    Some (CStates pfx (map (fun e => pct (if decide (e = stat_IL) then idl else this e)) state_items))
  else
    let u := pct (this stat_SUM_USR) in
    let y := pct (this stat_SUM_SYS) in
    b ← two_bars v u y; Some (CGraph pfx u y (rndf (u + y) 1) b).

(** [sum_tics]; [None]: a conversion is undefined. *)
Definition sum_tics (v : view) (this : stack) (pfx : bytes) (nobuf : bool) (s : sum) : option (Z * sum) :=
  c ← tics_cell v this pfx; Some (sum_see v c nobuf s).

(** The items [sum_unify] adds up. *)
Definition sum_items : list sitem := state_items ++ [stat_SUM_USR; stat_SUM_SYS; stat_SUM_TOT].

Definition add_stack (a this : stack) : stack := fun e => if bool_decide (e ∈ sum_items) then a e + this e else a e.

(** [%-7.7s:] *)
Definition range_pfx (a b : Z) : bytes :=
  let t := take 7 (fmt_d a ++ 45 :: fmt_d b) in t ++ replicate (7 - length t) 32 ++ [58].

Definition sum_unify (v : view) (this : stack) (nobuf : bool) (s : sum) : option (Z * sum) :=
  let a := add_stack (accum s) this in
  let b := if ix s =? 0 then this stat_ID else beg s in
  let s := Sum (row s) (tog s) a (ix s) b (rows s) (Msg_row s) (node_sel s) in
  if nobuf || (v_combine v <=? ix s) then
    '(n, s) ← sum_tics v a (range_pfx b (this stat_ID)) nobuf s;
    Some (n, Sum (row s) (tog s) zero_stack 0 (beg s) (rows s) (Msg_row s) (node_sel s))
  else Some (0, Sum (row s) (tog s) a (ix s + 1) b (rows s) (Msg_row s) (node_sel s)).

Definition noMAS (v : view) (s : sum) : bool := v_rows v - 1 <=? Msg_row s + 1.

(** Names of a processor, of a node, of all processors (top_nls.c). *)
Record names := Names { n_cpu : Z -> bytes; n_node : Z -> bytes; n_all : bytes; n_mem : bytes; n_swp : bytes }.

Section lines.
Variable nm : names.

  (** The processors one by one, or combined: [n] of them are left. *)
Fixpoint cpu_lines (v : view) (l : list stack) (n : Z) (s : sum) : option sum :=
    match l with
    | [] => Some s
    | this :: l =>
        if n <=? 0 then Some s else
        r ← (if v_combine v =? 0 then sum_tics v this (n_cpu nm (this stat_ID)) (n <=? 1) s else sum_unify v this (n <=? 1) s);
        let s := count_lines r in
        if noMAS v s then Some s else cpu_lines v l (n - 1) s
    end.

  (** The nodes that exist. *)
Fixpoint node_lines (v : view) (l : list stack) (s : sum) : option sum :=
    match l with
    | [] => Some s
    | this :: l =>
        if this stat_NU =? NODE_INVALID then node_lines v l s
        else if noMAS v s then Some s
        else r ← sum_tics v this (n_node nm (this stat_ID)) true s; node_lines v l (count_lines r)
    end.

  (** The processors of a node. *)
Fixpoint node_cpus (v : view) (sel : Z) (l : list stack) (s : sum) : option sum :=
    match l with
    | [] => Some s
    | this :: l =>
        if negb (this stat_NU =? sel) then node_cpus v sel l s
        else if noMAS v s then Some s
        else r ← sum_tics v this (n_cpu nm (this stat_ID)) true s; node_cpus v sel l (count_lines r)
    end.

Definition take_z {A} (n : Z) (l : list A) : list A := take (Z.to_nat n) l.

Definition all_nodes (v : view) (c : counts) (s : sum) : option sum :=
    r ← sum_tics v (summary c) (n_all nm) true s;
    node_lines v (take_z (v_nodes v) (numa c)) (count_lines r).

Definition do_cpus (v : view) (c : counts) (s : sum) : option sum :=
    if chk v View_CPUNOD then
      if node_sel s <? 0 then all_nodes v c s
      else
        if existsb (fun x => (x stat_ID =? node_sel s) && negb (x stat_NU =? NODE_INVALID)) (take_z (v_nodes v) (numa c)) then
          this ← numa c !! Z.to_nat (node_sel s);
          r ← sum_tics v this (n_node nm (node_sel s)) true s;
          node_cpus v (node_sel s) (take_z (v_cpus v) (cpus c)) (count_lines r)
        else all_nodes v c (Sum (row s) (tog s) (accum s) (ix s) (beg s) (rows s) (Msg_row s) (-1))
    else if negb (chk v View_CPUSUM) then
      (* the array has an element for every processor *)
      if (length (cpus c) <? Z.to_nat (v_cpus v))%nat then None else cpu_lines v (cpus c) (v_cpus v) s
    else r ← sum_tics v (summary c) (n_all nm) true s; Some (count_lines r).

  (** ** Memory *)

Definition fmul (x y : Z) : Z := rnd (x * y) one.

  (** [(float)part * (100.0 / (float)whole)]; [None] for an empty whole. *)
Definition mem_pct (part whole : Z) : option Z :=
    if whole =? 0 then None else Some (rndf (fmul (of_intf part) (fdiv (100 * one) (of_intf whole))) 1).

  (** [prT(b, mkM(x))]: a size in the unit of the summary, eight columns and a blank
      or a plus. *)
Definition mem_text (v : view) (x : Z) : bytes :=
    let z := fdivf (of_intf x) (1024 ^ v_scale v * one) in
    let t := fmt_f (if v_scale v =? 0 then 0 else 1) (v_radix v) z ++ [32] in
    let b := snprintf 10 t in
    if 9 <? snprintf_ret t then <[8%nat := 43]> b else b.

Definition mem_graphs (v : view) (c : counts) : option (cell * cell) :=
    used ← mem_pct (mem c mem_USE) (mem c mem_TOT);
    misc ← mem_pct (u64 (mem c mem_TOT - mem c mem_AVL - mem c mem_USE)) (mem c mem_TOT);
    let misc := if (100 * one <? rndf (used + misc) 1) || (misc <? 0) then 0 else misc in
    let swap := default 0 (mem_pct (mem c swp_USE) (mem c swp_TOT)) in
    b ← two_bars v used misc;
    bs ← bars_of v swap;
    Some (CMemGraph (n_mem nm) (rndf (used + misc) 1) (mem_text v (mem c mem_TOT)) [b.1; b.2],
          CMemGraph (n_swp nm) swap (mem_text v (mem c swp_TOT)) [bs]).

Definition mem_cells (v : view) (c : counts) : cell * cell :=
    let t x := mem_text v x in
    (CMem (n_mem nm) [t (mem c mem_TOT); t (mem c mem_FRE); t (mem c mem_USE); t (u64 (mem c mem_BUF + mem c mem_QUE))],
     CMem (n_swp nm) [t (mem c swp_TOT); t (mem c swp_FRE); t (mem c swp_USE); t (mem c mem_AVL)]).

Definition do_memory (v : view) (c : counts) (s : sum) : option sum :=
    cells ← (if v_graph_mems v =? 0 then Some (mem_cells v c) else mem_graphs v c);
    let s := count_lines (sum_see v cells.1 false s) in
    Some (count_lines (sum_see v cells.2 false s)).

  (** ** summary_show *)

Definition isROOM (v : view) (f n : Z) (s : sum) : bool := chk v f && (Msg_row s + n <? v_rows v - 1).

  (** A line [show_special] prints at once. *)
Definition put_row (c : cell) (s : sum) : sum :=
    Sum (row s) (tog s) (accum s) (ix s) (beg s) (rows s ++ [[c]]) (Msg_row s + 1) (node_sel s).

Definition summary_show (v : view) (c : counts) (s : sum) : option sum :=
    if v_restrict v then Some (if isROOM v View_STATES 1 s then put_row CTasks s else s)
    else
      let s := if isROOM v View_LOADAV 1 s then put_row CLoad s else s in
      s ← (if isROOM v View_STATES 2 s then do_cpus v c (put_row CTasks s) else Some s);
      if isROOM v View_MEMORY 2 s then do_memory v c s else Some s.
End lines.

(** ** The rows of the summary *)

(** Between two lines: nothing is buffered, nothing is added up. *)
Definition clean (s : sum) : Prop := row s = [] /\ tog s = false /\ ix s = 0 /\ accum s = zero_stack.

(** The rows printed are those that are count_lines. *)
Definition balanced (s : sum) : Prop := Msg_row s = Z.of_nat (length (rows s)).

Lemma sum_see_counted v c nobuf s : balanced s -> balanced (count_lines (sum_see v c nobuf s)).
Proof.
  unfold balanced, count_lines, sum_see. intros H. destruct (_ && _); simpl; [lia|]. rewrite length_app. simpl. lia.
Qed.

Lemma sum_see_nobuf v c s : sum_see v c true s =
  (1, Sum [] false (accum s) (ix s) (beg s) (rows s ++ [row s ++ [c]]) (Msg_row s) (node_sel s)).
Proof. unfold sum_see. by rewrite andb_false_r. Qed.

(** Where the second half of a row comes in, the row is printed. *)
Lemma sum_see_lines v c nobuf s n s' : sum_see v c nobuf s = (n, s') ->
  (n = 0 /\ tog s' = true /\ nobuf = false /\ tog s = false) \/ (n = 1 /\ tog s' = false /\ row s' = []).
Proof.
  unfold sum_see. destruct (negb (v_double v =? 0)), nobuf, (tog s) eqn:E; simpl; intros [= <- <-]; auto.
Qed.

(** What a line does to the state: it keeps what is added up. *)
Lemma sum_tics_keeps v this pfx nobuf s n s' : sum_tics v this pfx nobuf s = Some (n, s') ->
  accum s' = accum s /\ ix s' = ix s /\ Msg_row s' = Msg_row s /\
  ((n = 0 /\ nobuf = false /\ rows s' = rows s) \/
   (n = 1 /\ tog s' = false /\ row s' = [] /\ length (rows s') = S (length (rows s)))).
Proof.
  unfold sum_tics. destruct (tics_cell v this pfx) as [c|]; simpl; [|done]. unfold sum_see.
  destruct (negb (v_double v =? 0)), nobuf, (tog s); simpl; intros [= <- <-]; simpl; rewrite ?length_app; simpl; split_and!; auto;
    right; split_and!; auto; lia.
Qed.

(** In the middle of the processors: only a combined line adds up. *)
Definition midway (v : view) (s : sum) : Prop := balanced s /\ (v_combine v = 0 -> ix s = 0 /\ accum s = zero_stack).

Definition room (v : view) (s : sum) : Prop := Msg_row s <= v_rows v - 2.

Lemma noMAS_room v s : noMAS v s = false -> Msg_row s + 1 <= v_rows v - 2.
Proof. unfold noMAS. rewrite Z.leb_gt. lia. Qed.

(** A processor: where it prints, everything is reset. *)
Lemma cpu_line v nm this last s n s' : midway v s ->
  (if v_combine v =? 0 then sum_tics v this (n_cpu nm (this stat_ID)) last s else sum_unify v this last s) = Some (n, s') ->
  midway v (count_lines (n, s')) /\ ((n = 0 /\ last = false) \/ (n = 1 /\ clean (count_lines (n, s')))).
Proof.
  intros [Hb Hm]. unfold midway, balanced, clean in *. destruct (Z.eqb_spec (v_combine v) 0) as [E|E].
  - intros H. apply sum_tics_keeps in H as (H1 & H2 & H3 & H4). destruct (Hm E) as [Hi Ha]. simpl.
    destruct H4 as [(-> & -> & Hr)|(-> & Ht & Hw & Hr)]; rewrite Hr, H3; split_and!; try lia; auto; try (intros _; split; congruence).
    right. split_and!; congruence.
  - unfold sum_unify. set (a := add_stack _ _). set (b := if ix s =? 0 then _ else _). simpl.
    destruct (last || (v_combine v <=? ix s)) eqn:El.
    + destruct (sum_tics _ _ _ _ _) as [[k s1]|] eqn:Es; [|done]. apply sum_tics_keeps in Es as (H1 & H2 & H3 & H4).
      cbn. intros [= <- <-]. simpl in *. split.
      * split; [destruct H4 as [(-> & _ & ->)|(-> & _ & _ & ->)]; lia|done].
      * destruct H4 as [(-> & -> & _)|(-> & Ht & Hw & _)]; [by left|right; by split_and!].
    + cbn. intros [= <- <-]. simpl. apply orb_false_elim in El as [-> _]. split; [split; [lia|done]|by left].
Qed.

Lemma cpu_lines_ok nm v l : forall n s s', midway v s -> noMAS v s = false -> 0 <= n <= Z.of_nat (length l) -> (n = 0 -> clean s) ->
  cpu_lines nm v l n s = Some s' -> clean s' /\ balanced s' /\ room v s'.
Proof.
  induction l as [|this l IH]; intros n s s' Hm Hno Hn Hz E; cbn [cpu_lines] in E.
  - injection E as <-. simpl in Hn. destruct Hm. split_and!; [apply Hz; lia|done|apply noMAS_room in Hno; unfold room; lia].
  - destruct (Z.leb_spec n 0).
    { injection E as <-. destruct Hm. split_and!; [apply Hz; lia|done|apply noMAS_room in Hno; unfold room; lia]. }
    destruct (if v_combine v =? 0 then _ else _) as [[k s1]|] eqn:Es; [|done]. cbn [mbind option_bind] in E.
    destruct (cpu_line v nm this (n <=? 1) s k s1 Hm Es) as [Hm1 Hk]. pose proof (noMAS_room v s Hno) as Hr.
    assert (Hrow : Msg_row (count_lines (k, s1)) = Msg_row s + k).
    { destruct Hm as [Hb _]. destruct Hm1 as [Hb1 _]. unfold balanced in *. 
      clear - Es. destruct (v_combine v =? 0).
      - apply sum_tics_keeps in Es as (_ & _ & H3 & _). simpl. lia.
      - unfold sum_unify in Es. destruct (_ || _).
        + destruct (sum_tics _ _ _ _ _) as [[k' s2]|] eqn:E2; [|done]. apply sum_tics_keeps in E2 as (_ & _ & H3 & _).
          cbn in Es. injection Es as <- <-. simpl in *. lia.
        + injection Es as <- <-. simpl. lia. }
    destruct (noMAS v (count_lines (k, s1))) eqn:Hno1.
    + injection E as <-. destruct Hk as [[-> _]|[-> Hc]].
      { unfold noMAS in Hno, Hno1. rewrite Hrow, Z.add_0_r in Hno1. congruence. }
      split_and!; [done|apply Hm1|unfold room; rewrite Hrow; lia].
    + apply (IH (n - 1) _ _ Hm1 Hno1) in E; [done|simpl in Hn; lia|].
      intros Hn1. destruct Hk as [[_ Hl]|[_ Hc]]; [|done]. apply Z.leb_gt in Hl. lia.
Qed.

(** A whole line, where there is room for it. *)
Lemma whole_line v this pfx s r : sum_tics v this pfx true s = Some r -> clean s -> balanced s -> Msg_row s + 1 <= v_rows v - 2 ->
  clean (count_lines r) /\ balanced (count_lines r) /\ room v (count_lines r).
Proof.
  intros E (H1 & H2 & H3 & H4) Hb Hr. destruct r as [n s']. apply sum_tics_keeps in E as (Ha & Hi & Hm & [(_ & ? & _)|(-> & Ht & Hw & Hl)]); [done|].
  unfold clean, balanced, room in *. simpl. rewrite Hl. split_and!; congruence || lia.
Qed.

Definition settled (v : view) (s : sum) : Prop := clean s /\ balanced s /\ room v s.

Lemma node_lines_ok nm v l : forall s s', settled v s -> node_lines nm v l s = Some s' -> settled v s'.
Proof.
  induction l as [|this l IH]; intros s s' Hs E; cbn [node_lines] in E; [by injection E as <-|].
  destruct (_ =? _); [by apply (IH s)|]. destruct (noMAS v s) eqn:Hno; [by injection E as <-|].
  destruct (sum_tics _ _ _ _ _) as [r|] eqn:Es; [|done]. cbn [mbind option_bind] in E. apply (IH (count_lines r)); [|done].
  destruct Hs as (Hc & Hb & _). apply (whole_line _ _ _ _ _ Es Hc Hb). by apply noMAS_room.
Qed.

Lemma node_cpus_ok nm v sel l : forall s s', settled v s -> node_cpus nm v sel l s = Some s' -> settled v s'.
Proof.
  induction l as [|this l IH]; intros s s' Hs E; cbn [node_cpus] in E; [by injection E as <-|].
  destruct (negb _); [by apply (IH s)|]. destruct (noMAS v s) eqn:Hno; [by injection E as <-|].
  destruct (sum_tics _ _ _ _ _) as [r|] eqn:Es; [|done]. cbn [mbind option_bind] in E. apply (IH (count_lines r)); [|done].
  destruct Hs as (Hc & Hb & _). apply (whole_line _ _ _ _ _ Es Hc Hb). by apply noMAS_room.
Qed.

Lemma all_nodes_ok nm v c s s' : clean s -> balanced s -> noMAS v s = false -> all_nodes nm v c s = Some s' -> settled v s'.
Proof.
  intros Hc Hb Hno. unfold all_nodes. destruct (sum_tics _ _ _ _ _) as [r|] eqn:Es; [|done]. cbn [mbind option_bind].
  apply node_lines_ok. apply (whole_line _ _ _ _ _ Es Hc Hb). by apply noMAS_room.
Qed.

Lemma do_cpus_ok nm v c s s' : clean s -> balanced s -> noMAS v s = false -> 0 <= v_cpus v -> do_cpus nm v c s = Some s' -> settled v s'.
Proof.
  intros Hc Hb Hno Hn. unfold do_cpus. pose proof (noMAS_room v s Hno) as Hr. destruct (chk v View_CPUNOD).
  - destruct (_ <? 0); [by apply all_nodes_ok|]. destruct (existsb _ _); [|by apply all_nodes_ok].
    destruct (numa c !! _) as [this|]; [|done]. cbn [mbind option_bind].
    destruct (sum_tics _ _ _ _ _) as [r|] eqn:Es; [|done]. cbn [mbind option_bind]. apply node_cpus_ok.
    by apply (whole_line _ _ _ _ _ Es Hc Hb).
  - destruct (chk v View_CPUSUM); simpl.
    + destruct (sum_tics _ _ _ _ _) as [r|] eqn:Es; [|done]. cbn [mbind option_bind]. intros [= <-].
      by apply (whole_line _ _ _ _ _ Es Hc Hb).
    + destruct (Nat.ltb_spec (length (cpus c)) (Z.to_nat (v_cpus v))); [done|]. apply cpu_lines_ok; [|done|lia|done].
      split; [done|]. intros _. by destruct Hc as (_ & _ & ? & ?).
Qed.

Lemma do_memory_ok nm v c s s' : clean s -> balanced s -> Msg_row s + 2 <= v_rows v - 2 -> do_memory nm v c s = Some s' -> settled v s'.
Proof.
  intros (H1 & H2 & H3 & H4) Hb Hr. unfold do_memory. destruct (if v_graph_mems v =? 0 then _ else _) as [[c1 c2]|]; [|done].
  cbn [mbind option_bind]. intros [= <-]. pose proof (sum_see_counted v c1 false s Hb) as B1.
  pose proof (sum_see_counted v c2 false _ B1) as B2. split; [|split; [exact B2|]].
  - unfold clean, sum_see. rewrite H2. destruct (v_double v =? 0); simpl; by rewrite ?H1.
  - unfold room, sum_see. rewrite H2. destruct (v_double v =? 0); simpl; lia.
Qed.

Lemma put_row_ok v c s : clean s -> balanced s -> Msg_row s + 1 <= v_rows v - 2 -> settled v (put_row c s).
Proof.
  intros Hc Hb Hr. split; [done|]. unfold balanced, room, put_row in *. simpl. rewrite length_app. simpl. lia.
Qed.

(** The rows of a summary. *)
Lemma summary_rows nm v c s s' : 2 <= v_rows v -> 0 <= v_cpus v -> clean s -> Msg_row s = 0 -> rows s = [] ->
  summary_show nm v c s = Some s' ->
  clean s' /\ Msg_row s' = Z.of_nat (length (rows s')) /\ Msg_row s' <= v_rows v - 2.
Proof.
  intros Hv Hn Hc Hm Hr. assert (Hs : settled v s) by (split_and!; [done|unfold balanced; by rewrite Hm, Hr|unfold room; lia]).
  unfold summary_show, isROOM. destruct (v_restrict v).
  { intros [= <-]. destruct (chk v View_STATES); simpl; [|apply Hs]. destruct (Z.ltb_spec (Msg_row s + 1) (v_rows v - 1)); [|apply Hs].
    apply put_row_ok; [done|apply Hs|lia]. }
  set (s1 := if chk v View_LOADAV && _ then _ else _).
  assert (H1 : settled v s1).
  { unfold s1. destruct (chk v View_LOADAV); simpl; [|done]. destruct (Z.ltb_spec (Msg_row s + 1) (v_rows v - 1)); [|done].
    apply put_row_ok; [done|apply Hs|lia]. }
  clearbody s1. destruct H1 as (C1 & B1 & R1).
  destruct (if chk v View_STATES && _ then _ else _) as [s2|] eqn:E2; [|done]. cbn [mbind option_bind].
  assert (H2 : settled v s2).
  { destruct (chk v View_STATES); simpl in E2; [|by injection E2 as <-].
    destruct (Z.ltb_spec (Msg_row s1 + 2) (v_rows v - 1)); [|by injection E2 as <-].
    destruct (put_row_ok v CTasks s1 C1 B1 ltac:(lia)) as (C2 & B2 & _). apply (do_cpus_ok _ _ _ _ _ C2 B2) in E2; [done| |done].
    unfold noMAS, put_row. simpl. apply Z.leb_gt. lia. }
  destruct (chk v View_MEMORY); simpl; [|intros [= <-]; apply H2].
  destruct (Z.ltb_spec (Msg_row s2 + 2) (v_rows v - 1)); [|intros [= <-]; apply H2].
  destruct H2 as (C2 & B2 & _). apply do_memory_ok; [done|done|lia].
Qed.

(** C20: the summary counts its rows right and never takes the last two rows of
    the screen, with any number of processors and nodes, combined, two abreast or
    as graphs; and it ends between two rows, with nothing buffered or added up
    for the next frame, even where it stops for lack of room. *)
Theorem summary_fits nm v c s s' : 2 <= v_rows v -> 0 <= v_cpus v -> clean s -> Msg_row s = 0 -> rows s = [] ->
  summary_show nm v c s = Some s' ->
  clean s' /\ Msg_row s' = Z.of_nat (length (rows s')) /\ Msg_row s' <= v_rows v - 2.
Proof. apply summary_rows. Qed.

(** Five processors combined by twos, two abreast, on eight rows. *)
Definition demo_names : names := Names (fun n => fmt_d n) (fun n => 78 :: fmt_d n) [65] [77] [83].
Definition demo_view : view := View 1 0 0 1 (Z.lor View_LOADAV (Z.lor View_STATES View_MEMORY)) 8 20 5 1 0 false 46.
Definition demo_stack (n : Z) : stack := fun e =>
  match e with stat_ID => n | stat_SUM_USR => 30 | stat_SUM_SYS => 20 | stat_SUM_TOT => 100 | stat_US => 30 | stat_SY => 20 | stat_IL => 50 | _ => 0 end.
Definition demo_counts : counts :=
  Counts (map demo_stack [0; 1; 2; 3; 4]) [demo_stack 0] (demo_stack (-1))
    (fun e => match e with mem_TOT => 8000 | mem_USE => 3000 | mem_FRE => 4000 | mem_AVL => 4500 | _ => 100 end).
Definition demo_sum : sum := Sum [] false zero_stack 0 0 [] 0 (-1).

Lemma summary_fits_witness : exists s', summary_show demo_names demo_view demo_counts demo_sum = Some s' /\
  clean s' /\ Msg_row s' = Z.of_nat (length (rows s')) /\ Msg_row s' <= 6 /\ map length (rows s') = [1; 1; 2; 1; 2]%nat.
Proof.
  assert (Hs : match summary_show demo_names demo_view demo_counts demo_sum with
    | Some s' => map length (rows s') = [1; 1; 2; 1; 2]%nat | None => False end) by (vm_compute; reflexivity).
  destruct (summary_show demo_names demo_view demo_counts demo_sum) as [s'|] eqn:E; [|contradiction].
  exists s'. split; [reflexivity|].
  destruct (summary_fits demo_names demo_view demo_counts demo_sum s' ltac:(vm_compute; discriminate) ltac:(vm_compute; discriminate)
    ltac:(repeat split) eq_refl eq_refl E) as (H1 & H2 & H3).
  split; [exact H1|]. split; [exact H2|]. split; [exact H3|exact Hs].
Defined.

End Topsum.
