(* ===== verification/Toprow.v ===== *)
(** * top.c: the row of a task

    [task_show]: the text of every field of a row, the filters that suppress it,
    and the highlighting of a string that was searched for.  The terminal strings
    of a highlighted column are a parameter. *)

From stdpp Require Import functions base numbers list strings.
From S2P Require Import Prelude Libc Real Toptext Topforest Topdata Topfilter Topfields.
Open Scope Z_scope.

Module Toprow.
Import Real Toptext Topdata Topfilter Topfields.

(** The results of a task, by the field they are asked for: whole numbers (and
    characters), floating point numbers and strings. *)
Record task_result := Result { r_num : Z -> Z; r_real : Z -> Z; r_str : Z -> bytes }.

(** What a frame knows besides the settings: [scales] are those of Fieldstab,
    [is_cur] tells whether the window is the current one, [cap] gives the terminal
    strings of the marks. *)
Record env := Env {
  Hertz : Z;
  Frame_etscale : Z;
  Cpu_pmax : Z;
  mem_TOT : Z;
  scales : list Z;
  is_cur : bool;
  cap : Z -> bytes
}.

Section row.
Variable wcols : bytes -> Z.
Variable radix : Z.

Definition among (i : Z) (l : list Z) : bool := existsb (Z.eqb i) l.

  (** *** The groups of fields, by the type of the result *)

Definition int_fields : list Z :=
    [EU_AGI; EU_CPN; EU_NMA; EU_PGD; EU_PID; EU_PPD; EU_SID; EU_TGD; EU_THD; EU_TPG].
Definition int0_fields : list Z := [EU_AGN; EU_NCE; EU_OOA; EU_OOM].
Definition uid_fields : list Z := [EU_GID; EU_UED; EU_URD; EU_USD].
Definition ns_fields : list Z := [EU_NS1; EU_NS2; EU_NS3; EU_NS4; EU_NS5; EU_NS6].
Definition mem_fields : list Z :=
    [EU_COD; EU_DAT; EU_DRT; EU_PZA; EU_PZF; EU_PZS; EU_PSS; EU_RES; EU_RSS; EU_RZA; EU_RZF; EU_RZL; EU_RZS; EU_SHR; EU_SWP;
     EU_USE; EU_USS; EU_VRT].
Definition count_fields : list Z := [EU_FL1; EU_FL2; EU_IRB; EU_IRO; EU_IWB; EU_IWO].
Definition str_fields : list Z := [EU_LXC; EU_TTY; EU_WCH].
Definition name_fields : list Z := [EU_GRP; EU_UEN; EU_URN; EU_USN].
Definition var_fields : list Z := [EU_CGN; EU_CGR; EU_ENV; EU_EXE; EU_SGN].

  (** The share of a processor: not more than its threads can use, unless it
      stands for a collapsed tree. *)
Definition cpu_share (e : env) (q : WIN_t) (p : task_result) : Z :=
    let u := of_intf (r_num p EU_CPU) in
    let u := if is_cur e && CHKw q Show_FOREST then rndf (u + of_intf (r_num p eu_TREE_ADD)) 1 else u in
    let u := fmulf u (Frame_etscale e) in
    let n := 100 * r_num p EU_THD * one in
    let u := if negb (r_num p eu_TREE_HID =? Topforest.hid_x) && (n <? u) then rndf n 1 else u in
    if Cpu_pmax e <? u then Cpu_pmax e else u.

  (** A string of variable width from the column on it is scrolled to. *)
Definition from_col (q : WIN_t) (s : bytes) : option bytes :=
    if w_int q varcolbeg =? 0 then Some s
    else
      d ← utf8_delta wcols s;
      if w_int q varcolbeg <? Z.of_nat (length s) - d then k ← utf8_embody wcols s (w_int q varcolbeg); Some (drop (Z.to_nat k) s)
      else Some [].

Definition from_byte (q : WIN_t) (s : bytes) : bytes :=
    if w_int q varcolbeg =? 0 then s
    else if w_int q varcolbeg <? Z.of_nat (length s) then drop (Z.to_nat (w_int q varcolbeg)) s else [].

  (** The command with the artwork of the forest view. *)
Definition command (e : env) (q : WIN_t) (p : task_result) : bytes :=
    Topforest.forest_display (CHKw q Show_CMDLIN) (CHKw q Show_FOREST) (is_cur e) (w_int q focus_pid) (r_num p eu_TREE_LVL)
      (r_num p eu_TREE_HID) (Topforest.Task 0 0 0 0 (r_str p EU_CMD) (r_str p eu_CMDLINE)).

  (** The text of an entry of [procflgs], if it has one; [None]: undefined. *)
Definition cell (t : top) (e : env) (q : WIN_t) (p : task_result) (i : Z) (a : autox) : option (option bytes * autox) :=
    let W := nth (Z.to_nat i) (widths t) 0 in
    let S := nth (Z.to_nat i) (scales e) 0 in
    let Js := CHKw q Show_JRSTRS in
    let Jn := CHKw q Show_JRNUMS in
    let zero := negb (g_int t zero_suppress =? 0) in
    let restricted := negb (g_int t Restrict_some =? 0) in
    let num := r_num p i in
    let text s := Some (Some s, a) in
    let made (x : bytes * autox) := Some (Some x.1, x.2) in
    if among i [EU_XOF; EU_XON] then
      Some (if CHKw q (flags [NOPRINT_xxx; NOHIFND_xxx; NOHISEL_xxx]) || ((r_num p EU_STA =? 82) && CHKw q Show_HIROWS)
            then None else Some (cap e i), a)
    else if i =? EU_STA then text (make_chr num W Js)
    else if i =? EU_LID then made (make_num zero num W Jn EU_LID false a)
    else if among i int_fields then made (make_num zero num W Jn EU_MAXPFLGS false a)
    else if among i int0_fields then made (make_num zero num W Jn EU_MAXPFLGS true a)
    else if among i [EU_FV1; EU_FV2] then text (scale_num radix zero (of_intf num) W Jn)
    else if i =? EU_PRI then
      if (num <? -99) || (999 <? num) then made (make_str (bs "rt") W Jn EU_MAXPFLGS a)
      else made (make_num zero num W Jn EU_MAXPFLGS false a)
    else if i =? EU_CPU then
      text (if restricted then justify_pad (bs "?") W Jn else scale_pcnt radix zero (cpu_share e q p) W Jn false)
    else if among i [EU_CUU; EU_CUC] then
      text (if restricted then justify_pad (bs "?") W Jn else scale_pcnt radix zero (rndf (r_real p i) 1) W Jn true)
    else if among i uid_fields then made (make_num zero num W Jn i false a)
    else if among i ns_fields then made (make_num zero (i64 num) W Jn i true a)
    else if among i mem_fields then text (scale_mem radix zero S (of_intf num) W Jn)
    else if among i count_fields then text (scale_num radix zero (of_intf num) W Jn)
    else if i =? EU_MEM then
      if restricted then text (justify_pad (bs "?") W Jn)
      else if mem_TOT e =? 0 then None
      else text (scale_pcnt radix zero (fdivf (fmulf (of_intf num) (of_intf 100)) (of_intf (mem_TOT e))) W Jn false)
    else if i =? EU_FLG then made (make_str (hex_make (i64 num) true) W Js EU_MAXPFLGS a)
    else if among i [EU_TM2; EU_TME] then
      s ← scale_tics zero (Hertz e) (g_int t tics_scaled) (if CHKw q Show_CTIMES then r_num p eu_TICS_ALL_C else num) W Jn TICS_AS_SECS;
      text s
    else if i =? EU_TM3 then s ← scale_tics zero (Hertz e) (g_int t tics_scaled) num W Jn TICS_AS_MINS; text s
    else if i =? EU_TM4 then
      let n := Z.quot (rnd (r_real p i * Hertz e) 1) one in
      if (0 <=? n) && (n <? 2 ^ 64) then s ← scale_tics zero (Hertz e) (g_int t tics_scaled) n W Jn TICS_AS_HOUR; text s else None
    else if among i str_fields then made (make_str (r_str p i) W Js i a)
    else if among i name_fields then x ← make_str_utf8 wcols (r_str p i) W Js i a; made x
    else if among i var_fields then
      s ← from_col q (r_str p i); x ← make_str_utf8 wcols s (w_int q varcolsz) Js EU_MAXPFLGS a; made x
    else if i =? EU_SGD then made (make_str (from_byte q (r_str p i)) (w_int q varcolsz) Js EU_MAXPFLGS a)
    else if i =? EU_CMD then
      s ← from_col q (command e q p); x ← make_str_utf8 wcols s (w_int q varcolsz) Js EU_MAXPFLGS a; made x
    else Some (None, a).

  (** The texts of a row, each with its entry; nothing when a filter rejects it. *)
Fixpoint row_cells (t : top) (e : env) (q : WIN_t) (p : task_result) (l : list Z) (a : autox) :
      option (option (list (Z * bytes)) * autox) :=
    match l with
    | [] => Some (Some [], a)
    | i :: l =>
        '(c, a) ← cell t e q p i a;
        match c with
        | None => row_cells t e q p l a
        | Some s =>
            if negb (w_int q osel_tot =? 0) && negb (osel_matched (osel_1st q) i s) then Some (None, a)
            else '(r, a) ← row_cells t e q p l a; Some (option_map (cons (i, s)) r, a)
        end
    end.

  (** A task below a collapsed one. *)
Definition unseen (e : env) (q : WIN_t) (p : task_result) : bool :=
    is_cur e && CHKw q Show_FOREST && (r_num p eu_TREE_HID =? Topforest.hid_z).

Definition entries (q : WIN_t) : list Z := take (Z.to_nat (w_int q maxpflgs)) (procflgs q).

Definition lead (t : top) : bytes := if g_int t mode_altscr =? 0 then [] else [32].

  (** The row before it is printed; none when the task is not shown. *)
Definition task_text (t : top) (e : env) (q : WIN_t) (p : task_result) (a : autox) : option (option bytes * autox) :=
    if unseen e q p then Some (None, a)
    else
      '(r, a) ← row_cells t e q p (entries q) a;
      Some (option_map (fun cs => lead t ++ concat (map snd cs)) r, a).
End row.

(** ** Printing *)

(** What is printed: a part of the row, or the string that was searched for. *)
Inductive piece := Plain (s : bytes) | Found (s : bytes).

Definition shown (x : piece) : bytes := match x with Plain s => s | Found s => s end.

(** The loop over the matches: the pieces, and what it leaves in [rbuf]. *)
Fixpoint highlight (fuel : nat) (pat row : bytes) : list piece * bytes :=
  match fuel with
  | O => ([Plain row], row)
  | S fuel =>
      match strstr row pat with
      | None => ([Plain row], row)
      | Some ofs =>
          let r := highlight fuel pat (drop (ofs + length pat) row) in
          (Plain (take ofs row) :: Found pat :: r.1,
           take ofs row ++ 0 :: drop (S ofs) (take (ofs + length pat) row) ++ r.2)
      end
  end.

Definition until_nul (s : bytes) : bytes := match strchr s 0 with Some i => take i s | None => s end.

(** The row as it is returned, and what is printed: nothing, the row by way of
    the screen buffer, or pieces sent to the terminal at once. *)
Inductive printed := Nothing | Buffered (row : bytes) | Direct (l : list piece).

Definition print_row (q : WIN_t) (row : bytes) : bytes * printed :=
  if CHKw q NOPRINT_xxx then (row, Nothing)
  else
    match findstr q with
    | [] => (row, Buffered row)
    | pat =>
        match strstr row pat with
        | None => (row, Buffered row)
        | Some _ => let h := highlight (length row) pat row in (until_nul (33 :: drop 1 h.2), Direct h.1)
        end
    end.

(** [task_show] *)
Definition task_show (wcols : bytes -> Z) (radix : Z) (t : top) (e : env) (q : WIN_t) (p : task_result) (a : autox) :
    option (bytes * printed * autox) :=
  '(row, a) ← task_text wcols radix t e q p a;
  Some (match row with None => ([], Nothing) | Some row => print_row q row end, a).
(** ** Facts *)

Definition ascii (s : bytes) : Prop := Forall (fun c => 0 <= c < 128) s.

(** The bytes of a text one by one. *)
Ltac bytewise := repeat first [apply Forall_nil_2 | apply Forall_cons_2].

Lemma ascii_app a b : ascii a -> ascii b -> ascii (a ++ b).
Proof. intros. by apply Forall_app_2. Qed.
Lemma ascii_take n s : ascii s -> ascii (take n s).
Proof. intros. by apply Forall_take. Qed.
Lemma ascii_snprintf n s : ascii s -> ascii (snprintf n s).
Proof. apply ascii_take. Qed.
Lemma ascii_digits s : all_digits s -> ascii s.
Proof. intros H. apply (Forall_impl _ _ _ H). intros c Hc. apply isdigit_spec in Hc. lia. Qed.
Lemma ascii_dec n : 0 <= n -> ascii (dec n).
Proof. intros. by apply ascii_digits, dec_digits. Qed.
Lemma ascii_fmt_d n : ascii (fmt_d n).
Proof. unfold fmt_d. destruct (Z.ltb_spec n 0); [constructor; [lia|]|]; apply ascii_dec; lia. Qed.
Lemma ascii_low p : forall n, ascii (low_digits p n).
Proof.
  induction p as [|p IH]; intros n; [constructor|]. cbn [low_digits]. apply ascii_app; [done|]. constructor; [|constructor].
  pose proof (Z.mod_pos_bound n 10 ltac:(lia)). lia.
Qed.
Lemma ascii_fmt_f p radix x : 0 <= radix < 128 -> ascii (fmt_f p radix x).
Proof.
  intros Hr. unfold fmt_f. apply ascii_app; [destruct (x <? 0); repeat constructor; lia|]. apply ascii_app.
  - apply ascii_dec. apply Z.div_pos; [|lia]. unfold nearest.
    change (0 <= nearest (Z.abs x * 10 ^ Z.of_nat p) one). rewrite <- (nearest_exact 0 one one_pos). apply nearest_mono; [apply one_pos|nia].
  - destruct p; [constructor|]. constructor; [done|apply ascii_low].
Qed.

Lemma ascii_first_fit width l : Forall ascii l -> ascii (first_fit width l).
Proof.
  induction 1 as [|s l Hs Hl IH]; cbn [first_fit]; [repeat constructor; lia|]. destruct (_ <=? _); [by apply ascii_snprintf|done].
Qed.

Section columns.
Variable wcols : bytes -> Z.
Variable radix : Z.
Hypothesis Hradix : 0 <= radix < 128.

  (** A text without multi-byte characters fills its column, whatever its length. *)
Lemma justify_ascii s w r : ascii s -> 0 <= w <= 510 -> chars wcols (justify_pad s w r) (w + 1).
Proof.
  intros Hs Hw. rewrite justify_pad_eq by done. apply chars_app; [|apply chars_ascii; lia].
  replace w with (Z.of_nat (length (pad_s r w s))) at 2 by (rewrite pad_s_length; lia).
  apply chars_of_ascii. unfold pad_s, prec_s. destruct (Z.ltb_spec w 0); [lia|].
  assert (Forall (fun c => 0 <= c < 128) (replicate (Z.to_nat (Z.abs w) - length (take (Z.to_nat w) s)) 32)) by (apply Forall_replicate; lia).
  destruct (r && (0 <=? w)); apply ascii_app; try done; by apply ascii_take.
Qed.

Lemma cut_ascii size text w r col a : ascii text -> 1 <= w <= 480 -> (w < size \/ Z.of_nat (length text) <= w) ->
  chars wcols (make_cut size text w r col a).1 (w + 1).
Proof.
  intros Ht Hw Hs. unfold make_cut, snprintf_ret. destruct (Z.ltb_spec w (Z.of_nat (length text))); [|by apply justify_ascii; [apply ascii_snprintf|lia]].
  destruct (Z.leb_spec w 0), (Z.leb_spec size w); try lia. cbn [orb fst]. apply justify_ascii; [|lia].
  unfold mark_plus. destruct (_ <? _); [by apply ascii_snprintf|]. apply ascii_app; [by apply ascii_take, ascii_snprintf|].
  repeat constructor; unfold COLPLUSCH; lia.
Qed.

Lemma fmt_d_short n : LONG_MIN <= n < 2 ^ 64 -> (length (fmt_d n) <= 21)%nat.
Proof.
  intros Hn. unfold fmt_d, LONG_MIN in *. destruct (Z.ltb_spec n 0); cbn [length].
  - pose proof (dec_length (- n) 20 ltac:(lia) ltac:(lia)). lia.
  - pose proof (dec_length n 20 ltac:(lia) ltac:(lia)). lia.
Qed.

Lemma num_columns zero n w r col noz a : LONG_MIN <= n < 2 ^ 64 -> 1 <= w <= 480 ->
  chars wcols (make_num zero n w r col noz a).1 (w + 1).
Proof.
  intros Hn Hw. unfold make_num. destruct (_ && _); [by apply justify_ascii; [constructor|lia]|].
  pose proof (fmt_d_short n Hn). apply cut_ascii; [apply ascii_fmt_d|done|unfold SMLBUFSIZ; lia].
Qed.

Lemma str_columns s w r col a : ascii s -> 1 <= w <= 480 -> chars wcols (make_str s w r col a).1 (w + 1).
Proof. intros Hs Hw. apply cut_ascii; [done|done|unfold SCREENMAX; lia]. Qed.

Lemma mem_columns zero target num w r : 1 <= w <= 480 -> chars wcols (scale_mem radix zero target num w r) (w + 1).
Proof.
  intros Hw. unfold scale_mem. apply justify_ascii; [|lia]. destruct (_ && _); [constructor|]. apply ascii_first_fit.
  assert (H : forall n i num, 0 <= i -> Forall ascii (mem_texts radix n i target num)); [|by apply H].
  clear num. induction n as [|n IH]; intros i num Hi; cbn [mem_texts]; [constructor|]. apply Forall_app_2; [|apply IH; lia].
  destruct (target <=? i); [|constructor]. constructor; [|constructor].
  destruct (i =? 0); [by apply ascii_fmt_f|]. apply ascii_app; [by apply ascii_fmt_f|]. repeat constructor.
  all: generalize (Z.to_nat i); intros k; do 6 (destruct k as [|k]; [done|]); by destruct k.
Qed.

Lemma count_columns zero num w r : 1 <= w <= 480 -> chars wcols (scale_num radix zero num w r) (w + 1).
Proof.
  intros Hw. unfold scale_num. apply justify_ascii; [|lia]. destruct (_ && _); [constructor|]. apply ascii_first_fit.
  constructor; [by apply ascii_fmt_f|].
  assert (H : forall sfx num, ascii sfx -> Forall ascii (num_texts radix sfx num)); [|by apply H; repeat constructor].
  clear num. induction sfx as [|c sfx IH]; intros num Hs; cbn [num_texts]; [constructor|]. inversion Hs; subst.
  constructor; [|constructor; [|by apply IH]]; (apply ascii_app; [by apply ascii_fmt_f|constructor; [done|constructor]]).
Qed.

Lemma pcnt_columns zero num w r xtra : 1 <= w <= 480 -> chars wcols (scale_pcnt radix zero num w r xtra) (w + 1).
Proof.
  intros Hw. unfold scale_pcnt. apply justify_ascii; [|lia]. destruct (_ && _); [constructor|]. apply ascii_first_fit.
  apply Forall_app_2; [destruct xtra; [|constructor]; do 2 (constructor; [by apply ascii_fmt_f|]); constructor|].
  constructor; [by apply ascii_fmt_f|]. constructor; [|constructor].
  unfold pad_left. destruct (w <? 0); apply ascii_app; try by apply ascii_fmt_f. all: apply Forall_replicate; lia.
Qed.

Lemma ascii_two n : 0 <= n < 100 -> ascii (two_digits n).
Proof.
  intros Hn. unfold two_digits.
  pose proof (Z.div_lt_upper_bound n 10 10 ltac:(lia) ltac:(lia)). pose proof (Z.div_pos n 10 ltac:(lia) ltac:(lia)).
  pose proof (Z.mod_pos_bound n 10 ltac:(lia)). bytewise; lia.
Qed.

Lemma tics_columns zero hz scaled tics w r target : 1 <= w <= 480 -> 0 < u64 hz ->
  exists s, scale_tics zero hz scaled tics w r target = Some s /\ chars wcols s (w + 1).
Proof.
  intros Hw Hh. unfold scale_tics. destruct (Z.eqb_spec hz 0) as [->|_]; [by vm_compute in Hh|]. eexists. split; [done|].
  apply justify_ascii; [|lia]. destruct (_ && _); [constructor|]. apply ascii_first_fit.
  assert (Hnt : 0 <= u64 (tics * 100) / u64 hz) by (apply Z.div_pos; [apply (wrap_u_range 64); lia|done]).
  set (nt := u64 (tics * 100) / u64 hz) in *. clearbody nt. unfold tics_texts. set (tg := Z.max scaled target). cbv zeta.
  assert (Hm : forall x k, 0 < k <= 100 -> ascii (two_digits (x mod k))) by (intros; apply ascii_two; pose proof (Z.mod_pos_bound x k); lia).
  assert (Hd : forall x k, 0 <= x -> 0 < k -> ascii (dec (x mod k))) by (intros; apply ascii_dec, Z.mod_pos_bound; lia).
  repeat apply Forall_app_2; match goal with |- Forall _ (if ?b then _ else _) => destruct b; [|apply Forall_nil_2] end;
    (apply Forall_cons_2; [|apply Forall_nil_2]); repeat match goal with |- ascii (_ ++ _) => apply ascii_app end;
    try (apply Hm; lia); try (apply Hd; [repeat apply Z.div_pos; lia|lia]); try (apply ascii_dec; repeat apply Z.div_pos; lia);
    bytewise; by vm_compute.
Qed.

  (** *** Cells *)

Definition var_list : list Z := var_fields ++ [EU_SGD; EU_CMD].

  (** A string of whole characters of which [top] can show every part. *)
Definition whole (s : bytes) : Prop :=
    exists n, chars wcols s n /\ forall a b m w, s = a ++ b -> chars wcols a m -> 1 <= w <= 480 -> short wcols w b.

  (** What the library and the tables give a row. *)
Record row_ok (t : top) (e : env) (q : WIN_t) (p : task_result) : Prop := {
    ok_num : forall f, LONG_MIN <= r_num p f < 2 ^ 64;
    ok_hertz : 0 < u64 (Hertz e);
    ok_mem : mem_TOT e <> 0;
    ok_elapsed : 0 <= Z.quot (rnd (r_real p EU_TM4 * Hertz e) 1) one < 2 ^ 64;
    ok_state : 0 <= r_num p EU_STA < 128;
    ok_ascii : forall f, among f (EU_SGD :: str_fields) = true -> ascii (r_str p f);
    ok_names : forall f, among f (name_fields ++ var_fields) = true -> whole (r_str p f);
    ok_command : whole (command e q p);
    ok_var : forall f, 0 <= f < EU_MAXPFLGS -> VARcol t f = among f var_list;
    ok_scroll : 0 <= w_int q varcolbeg
  }.

Lemma from_col_whole q s : whole s -> 0 <= w_int q varcolbeg ->
    exists b n, from_col wcols q s = Some b /\ chars wcols b n /\ forall w, 1 <= w <= 480 -> short wcols w b.
Proof.
  intros (n & Hs & Hsh) Hv. unfold from_col. destruct (Z.eqb_spec (w_int q varcolbeg) 0).
  { exists s, n. split_and!; [done..|]. intros w Hw. by apply (Hsh [] s 0 w); [|constructor|]. }
  rewrite (utf8_delta_chars _ _ _ Hs). cbn [mbind option_bind]. destruct (_ <? _).
  - destruct (utf8_embody_chars wcols s n (w_int q varcolbeg) Hs ltac:(lia)) as (a & b & m & -> & Ha & Hm & He). rewrite He.
    cbn [mbind option_bind]. rewrite Nat2Z.id, drop_app_length. exists b, (n - m). split_and!; [done|by apply (chars_drop wcols a m Ha)|].
    intros w Hw. by apply (Hsh a b m w).
  - exists [], 0. split_and!; [done|constructor|]. intros w Hw. apply short_length. simpl. lia.
Qed.

Lemma from_byte_ascii q s : ascii s -> ascii (from_byte q s).
Proof. intros Hs. unfold from_byte. destruct (_ =? _); [done|]. destruct (_ <? _); [by apply Forall_drop|constructor]. Qed.

Lemma among_In i l : among i l = true -> i ∈ l.
Proof. unfold among. rewrite existsb_exists. intros (x & Hx & E). apply Z.eqb_eq in E as ->. by apply list_elem_of_In. Qed.

Lemma among_app i l k : among i (l ++ k) = among i l || among i k.
Proof. apply existsb_app. Qed.

Lemma ascii_hex n noz : ascii (hex_make n noz).
Proof.
  assert (Hd : forall k, 0 <= k < 16 -> 0 <= hexdigit k < 128) by (intros k Hk; unfold hexdigit; zcase; lia).
  assert (Hx : forall fuel n acc, 0 <= n -> ascii acc -> ascii (hex_digits fuel n acc)).
  { induction fuel as [|fuel IH]; intros k acc Hk Ha; cbn [hex_digits]; [done|].
    destruct (Z.ltb_spec k 16); [apply Forall_cons_2; [apply Hd; lia|done]|].
    apply IH; [apply Z.div_pos; lia|]. apply Forall_cons_2; [apply Hd, Z.mod_pos_bound; lia|done]. }
  assert (Hb : ascii (fmt_08lx (u64 n))).
  { apply ascii_app; [apply Forall_replicate; lia|]. apply Hx; [apply (wrap_u_range 64); lia|constructor]. }
  unfold hex_make. destruct noz; [|done]. apply Forall_map. apply (Forall_impl _ _ _ Hb). intros c Hc. simpl. destruct (c =? 48); lia.
Qed.

Lemma utf8_cell s w r col a n : chars wcols s n -> (forall w, 1 <= w <= 480 -> short wcols w s) -> 1 <= w <= 480 ->
    exists x, make_str_utf8 wcols s w r col a = Some x /\ chars wcols x.1 (w + 1).
Proof.
  intros Hs Hsh Hw. destruct (make_str_utf8_shown wcols s n w r col a Hs ltac:(lia) (Hsh w Hw)) as (x & a' & E & Hx & _).
  by exists (x, a').
Qed.

  (** Every field of the table is in one of the groups. *)
Definition all_groups : list Z :=
    [EU_STA; EU_LID] ++ int_fields ++ int0_fields ++ [EU_FV1; EU_FV2] ++ [EU_PRI; EU_CPU] ++ [EU_CUU; EU_CUC] ++ uid_fields ++
    ns_fields ++ mem_fields ++ count_fields ++ [EU_MEM; EU_FLG] ++ [EU_TM2; EU_TME] ++ [EU_TM3; EU_TM4] ++ str_fields ++
    name_fields ++ var_fields ++ [EU_SGD; EU_CMD].

Lemma all_grouped i : 0 <= i < EU_MAXPFLGS -> among i all_groups = true.
Proof.
  intros Hi. assert (H : forallb (fun i => among i all_groups) (seqZ 0 EU_MAXPFLGS) = true) by (vm_compute; reflexivity).
  rewrite forallb_forall in H. apply H. apply list_elem_of_In, elem_of_seqZ. lia.
Qed.

  (** A string of variable width, from the column on it is scrolled to. *)
Lemma scrolled_cell q s w r a : whole s -> 0 <= w_int q varcolbeg -> 1 <= w <= 480 ->
    exists x, (y ← from_col wcols q s; make_str_utf8 wcols y w r EU_MAXPFLGS a) = Some x /\ chars wcols x.1 (w + 1).
Proof.
  intros Hs Hv Hw. destruct (from_col_whole q s Hs Hv) as (y & m & -> & Hy & Hsh). cbn [mbind option_bind].
  by apply (utf8_cell y w r EU_MAXPFLGS a m).
Qed.

  (** A time that is known shows in its column. *)
Lemma time_cell t e q n target N : 1 <= N <= 480 -> 0 < u64 (Hertz e) ->
    exists x, scale_tics (negb (g_int t zero_suppress =? 0)) (Hertz e) (g_int t tics_scaled) n N (CHKw q Show_JRNUMS) target = Some x /\
      chars wcols x (N + 1).
Proof. intros HN Hh. by apply tics_columns. Qed.

Lemma unknown_columns w r : 1 <= w <= 480 -> chars wcols (justify_pad (bs "?") w r) (w + 1).
Proof. intros Hw. apply justify_ascii; [bytewise; by vm_compute|lia]. Qed.

  (** The fields of fixed width have the width of the table, the others that of
      the window. *)
Lemma fixed_width t e q p i l : row_ok t e q p -> 0 <= i < EU_MAXPFLGS -> among i l = true ->
    forallb (fun x => negb (among x var_list)) l = true -> nth (Z.to_nat i) (widths t) 0 = width_in t q i.
Proof.
  intros Hok Hi Hl Hf. rewrite forallb_forall in Hf. apply among_In, list_elem_of_In in Hl. unfold width_in.
  rewrite (ok_var _ _ _ _ Hok i Hi). by rewrite (proj1 (negb_true_iff _) (Hf i Hl)).
Qed.

Lemma var_width t e q p i : row_ok t e q p -> 0 <= i < EU_MAXPFLGS -> among i var_list = true -> w_int q varcolsz = width_in t q i.
Proof. intros Hok Hi Hl. unfold width_in. by rewrite (ok_var _ _ _ _ Hok i Hi), Hl. Qed.

Lemma not_mark i : 0 <= i < EU_MAXPFLGS -> among i [EU_XOF; EU_XON] = false.
Proof.
  intros Hi. unfold EU_MAXPFLGS in Hi. cbn [among existsb]. destruct (Z.eqb_spec i EU_XOF); [unfold EU_XOF in *; lia|].
  destruct (Z.eqb_spec i EU_XON); [unfold EU_XON in *; lia|done].
Qed.

Lemma among_one i x : (i =? x) = true -> among i [x] = true.
Proof. intros E. cbn [among existsb]. by rewrite E. Qed.

  (** The group of a field of fixed width: its width is that of the field. *)
Ltac fixed Hok Hi E :=
    first [rewrite (fixed_width _ _ _ _ _ _ Hok Hi E ltac:(vm_compute; reflexivity))
          |rewrite (fixed_width _ _ _ _ _ _ Hok Hi (among_one _ _ E) ltac:(vm_compute; reflexivity))].
  (** A text that is made without failing. *)
Ltac made L := eexists _, _; (split; [done|]); by apply L.

Lemma cell_columns t e q p i a : row_ok t e q p -> 0 <= i < EU_MAXPFLGS -> 1 <= width_in t q i <= 480 ->
    exists s a', cell wcols radix t e q p i a = Some (Some s, a') /\ chars wcols s (width_in t q i + 1).
Proof.
  intros Hok Hi Hw. pose proof (all_grouped i Hi) as Hg. unfold cell. rewrite (not_mark i Hi).
  pose proof (ok_num _ _ _ _ Hok i) as Hn. pose proof (ok_hertz _ _ _ _ Hok) as Hh. pose proof (ok_scroll _ _ _ _ Hok) as Hv.
  destruct (i =? EU_STA) eqn:E1; [fixed Hok Hi E1|].
  { apply Z.eqb_eq in E1 as ->. eexists _, _. split; [done|]. apply justify_ascii; [|lia]. pose proof (ok_state _ _ _ _ Hok).
    destruct (_ =? 0); bytewise; lia. }
  destruct (i =? EU_LID) eqn:E2; [fixed Hok Hi E2; made num_columns|].
  destruct (among i int_fields) eqn:E3; [fixed Hok Hi E3; made num_columns|].
  destruct (among i int0_fields) eqn:E4; [fixed Hok Hi E4; made num_columns|].
  destruct (among i [EU_FV1; EU_FV2]) eqn:E5; [fixed Hok Hi E5; made count_columns|].
  destruct (i =? EU_PRI) eqn:E6; [fixed Hok Hi E6; destruct (_ || _); [|made num_columns]|].
  { eexists _, _. split; [done|]. apply str_columns; [bytewise; by vm_compute|done]. }
  destruct (i =? EU_CPU) eqn:E7; [fixed Hok Hi E7; destruct (negb _); [made unknown_columns|made pcnt_columns]|].
  destruct (among i [EU_CUU; EU_CUC]) eqn:E8; [fixed Hok Hi E8; destruct (negb _); [made unknown_columns|made pcnt_columns]|].
  destruct (among i uid_fields) eqn:E9; [fixed Hok Hi E9; made num_columns|].
  destruct (among i ns_fields) eqn:E10; [fixed Hok Hi E10|].
  { eexists _, _. split; [done|]. apply num_columns; [|done]. pose proof (wrap_s_range 64 (r_num p i) ltac:(lia)). unfold LONG_MIN. lia. }
  destruct (among i mem_fields) eqn:E11; [fixed Hok Hi E11; made mem_columns|].
  destruct (among i count_fields) eqn:E12; [fixed Hok Hi E12; made count_columns|].
  destruct (i =? EU_MEM) eqn:E13; [fixed Hok Hi E13; destruct (negb _); [made unknown_columns|]|].
  { destruct (Z.eqb_spec (mem_TOT e) 0); [by destruct (ok_mem _ _ _ _ Hok)|made pcnt_columns]. }
  destruct (i =? EU_FLG) eqn:E14; [fixed Hok Hi E14; eexists _, _; split; [done|by apply str_columns; [apply ascii_hex|]]|].
  destruct (among i [EU_TM2; EU_TME]) eqn:E15; [fixed Hok Hi E15|].
  { destruct (time_cell t e q (if CHKw q Show_CTIMES then r_num p eu_TICS_ALL_C else r_num p i) TICS_AS_SECS _ Hw Hh) as (x & -> & Hx).
    by eexists _, _. }
  destruct (i =? EU_TM3) eqn:E16; [fixed Hok Hi E16; destruct (time_cell t e q (r_num p i) TICS_AS_MINS _ Hw Hh) as (x & -> & Hx); by eexists _, _|].
  destruct (i =? EU_TM4) eqn:E17; [fixed Hok Hi E17|].
  { apply Z.eqb_eq in E17 as ->. pose proof (ok_elapsed _ _ _ _ Hok) as He. set (n := Z.quot _ one) in *.
    destruct (Z.leb_spec 0 n), (Z.ltb_spec n (2 ^ 64)); try lia. cbn [andb].
    destruct (time_cell t e q n TICS_AS_HOUR _ Hw Hh) as (x & -> & Hx). by eexists _, _. }
  destruct (among i str_fields) eqn:E18; [fixed Hok Hi E18|].
  { eexists _, _. split; [done|]. apply str_columns; [|done]. apply (ok_ascii _ _ _ _ Hok). apply orb_true_iff. by right. }
  destruct (among i name_fields) eqn:E19; [fixed Hok Hi E19|].
  { destruct (ok_names _ _ _ _ Hok i) as (m & Hm & Hsh); [by rewrite among_app, E19|].
    destruct (utf8_cell (r_str p i) (width_in t q i) (CHKw q Show_JRSTRS) i a m Hm) as (x & -> & Hx); [|done|by eexists _, _].
    intros w Hw'. by apply (Hsh [] _ 0); [|constructor|]. }
  assert (Hvar : forall s, whole s -> among i var_list = true -> exists s' a',
    (y ← from_col wcols q s; x ← make_str_utf8 wcols y (w_int q varcolsz) (CHKw q Show_JRSTRS) EU_MAXPFLGS a; Some (Some x.1, x.2)) =
    Some (Some s', a') /\ chars wcols s' (width_in t q i + 1)).
  { intros s Hs Hi'. rewrite (var_width _ _ _ _ _ Hok Hi Hi'). destruct (scrolled_cell q s _ (CHKw q Show_JRSTRS) a Hs Hv Hw) as (x & E & Hx).
    destruct (from_col wcols q s); [|done]. cbn [mbind option_bind] in *. rewrite E. by eexists _, _. }
  destruct (among i var_fields) eqn:E20.
  { apply Hvar; [|unfold var_list; by rewrite among_app, E20]. apply (ok_names _ _ _ _ Hok). by rewrite among_app, E20, orb_true_r. }
  destruct (i =? EU_SGD) eqn:E21.
  { apply Z.eqb_eq in E21 as ->. rewrite (var_width _ _ _ _ _ Hok Hi) by done. eexists _, _. split; [done|]. apply str_columns; [|done].
    by apply from_byte_ascii, (ok_ascii _ _ _ _ Hok). }
  destruct (i =? EU_CMD) eqn:E22; [apply Z.eqb_eq in E22 as ->; by apply Hvar; [apply (ok_command _ _ _ _ Hok)|]|].
  exfalso. clear Hvar. unfold all_groups in Hg. rewrite !among_app in Hg. unfold among in *. cbn [existsb] in *.
  rewrite ?orb_false_r in *. by rewrite ?E1, ?E2, ?E3, ?E4, ?E5, ?E6, ?E7, ?E8, ?E9, ?E10, ?E11, ?E12, ?E13, ?E14, ?E15, ?E16, ?E17, ?E18, ?E19, ?E20, ?E21, ?E22 in Hg.
Qed.

  (** *** Rows *)

Definition texts (cs : list (Z * bytes)) : list (Z * bytes) := filter (fun x => is_field x.1 = true) cs.

Lemma texts_cons i s cs : texts ((i, s) :: cs) = if is_field i then (i, s) :: texts cs else texts cs.
Proof.
  unfold texts. destruct (is_field i) eqn:E; [by rewrite filter_cons_True|by rewrite filter_cons_False by (simpl; by rewrite E)].
Qed.

Lemma mark_cell t e q p i a : is_field i = false -> entry_ok i -> exists c, cell wcols radix t e q p i a = Some (c, a).
Proof.
  intros Hf Hi. unfold cell. assert (among i [EU_XOF; EU_XON] = true) as ->; [|by eexists].
  destruct Hi as [Hi|[->| ->]]; [|done..]. unfold is_field in Hf. apply Z.ltb_ge in Hf. lia.
Qed.

Lemma row_cells_columns t e q p : row_ok t e q p -> forall l a, Forall entry_ok l ->
    (forall f, f ∈ fields l -> 1 <= width_in t q f <= 480) ->
    exists r a', row_cells wcols radix t e q p l a = Some (r, a') /\
      forall cs, r = Some cs ->
        map fst (texts cs) = fields l /\ Forall (fun x => chars wcols x.2 (width_in t q x.1 + 1)) (texts cs).
Proof.
  intros Hok. induction l as [|i l IH]; intros a Hl Hw; cbn [row_cells].
  { eexists _, _. split; [done|]. intros cs [= <-]. by split; [|constructor]. }
  inversion Hl as [|? ? Hi Hl']; subst. rewrite fields_cons in Hw |- *. destruct (is_field i) eqn:Ef.
  - assert (0 <= i < EU_MAXPFLGS) as Hb.
    { destruct Hi as [?|[->| ->]]; [done|by vm_compute in Ef..]. }
    destruct (cell_columns t e q p i a Hok Hb) as (s & a1 & -> & Hs); [apply Hw; by left|]. cbn [mbind option_bind].
    destruct (_ && _); [eexists _, _; by split|].
    destruct (IH a1 Hl') as (r & a2 & -> & Hr); [intros f Hf; apply Hw; by right|]. cbn [mbind option_bind].
    eexists _, _. split; [done|]. intros cs. destruct r as [cs'|]; [|done]. intros [= <-]. destruct (Hr cs' eq_refl) as [H1 H2].
    rewrite texts_cons, Ef. simpl. rewrite H1. split; [done|]. by constructor.
  - destruct (mark_cell t e q p i a Ef Hi) as (c & ->). cbn [mbind option_bind]. destruct c as [s|]; [|by apply IH].
    destruct (_ && _); [eexists _, _; by split|].
    destruct (IH a Hl' Hw) as (r & a2 & -> & Hr). cbn [mbind option_bind].
    eexists _, _. split; [done|]. intros cs. destruct r as [cs'|]; [|done]. intros [= <-].
    rewrite texts_cons, Ef. by apply Hr.
Qed.
End columns.

(** *** Highlighting *)

Lemma prefixb_split p : forall s, prefixb p s = true -> s = p ++ drop (length p) s.
Proof.
  induction p as [|c p IH]; intros s H; [done|]. destruct s as [|d s]; [done|]. cbn [prefixb] in H. apply andb_true_iff in H as [Hc H].
  apply Z.eqb_eq in Hc as ->. simpl. by rewrite <- IH.
Qed.

Lemma strstr_split s p : forall i, strstr s p = Some i -> s = take i s ++ p ++ drop (i + length p) s.
Proof.
  induction s as [|c s IH]; intros i H; cbn [strstr] in H.
  - destruct (prefixb p []) eqn:E; [|done]. injection H as <-. by apply prefixb_split in E.
  - destruct (prefixb p (c :: s)) eqn:E; [injection H as <-; by apply prefixb_split in E|].
    destruct (strstr s p) as [j|]; [|done]. injection H as <-. simpl. f_equal. by apply IH.
Qed.

(** The pieces are those of the row, and nothing behind them matches. *)
Lemma highlight_pieces pat : pat <> [] -> forall fuel row, (length row <= fuel)%nat ->
  concat (map shown (highlight fuel pat row).1) = row /\
  Forall (fun x => match x with Found s => s = pat | Plain _ => True end) (highlight fuel pat row).1 /\
  exists l s, (highlight fuel pat row).1 = l ++ [Plain s] /\ strstr s pat = None.
Proof.
  intros Hp. induction fuel as [|fuel IH]; intros row Hl.
  { destruct row; [|simpl in Hl; lia]. cbn [highlight fst map concat shown]. split_and!; [done|by repeat constructor|].
    exists [], []. split; [done|]. by destruct pat. }
  cbn [highlight]. destruct (strstr row pat) as [ofs|] eqn:E.
  - pose proof (strstr_split row pat ofs E) as Hs. cbn [fst].
    destruct (IH (drop (ofs + length pat) row)) as (H1 & H2 & l & s & H3 & H4).
    { rewrite length_drop. destruct pat; [done|]. simpl. lia. }
    split_and!.
    + cbn [map concat shown]. rewrite H1. by rewrite <- Hs.
    + constructor; [done|]. by constructor.
    + rewrite H3. by exists (Plain (take ofs row) :: Found pat :: l), s.
  - cbn [fst map concat shown]. rewrite app_nil_r. split_and!; [done|constructor; [done|constructor]|]. by exists [], row.
Qed.


(** Where the string that was searched for occurs in a row, the parts that are
    sent to the terminal put together are the row again, nothing but that string
    is highlighted, no occurrence is left behind the last one, and the row still
    counts as shown. *)
Theorem row_highlighted q row : CHKw q NOPRINT_xxx = false -> findstr q <> [] -> strstr row (findstr q) <> None ->
  exists r l, print_row q row = (r, Direct l) /\ r <> [] /\ concat (map shown l) = row /\
    Forall (fun x => match x with Found s => s = findstr q | Plain _ => True end) l /\
    exists l' s, l = l' ++ [Plain s] /\ strstr s (findstr q) = None.
Proof.
  intros Hp Hf Hs. unfold print_row. rewrite Hp. destruct (findstr q) as [|c pat] eqn:E; [done|].
  destruct (strstr row (c :: pat)); [|done]. eexists _, _. split; [done|]. split.
  - unfold until_nul. cbn [strchr]. change (33 =? 0) with false. destruct (strchr _ 0); done.
  - apply highlight_pieces; [done|lia].
Qed.

(** ** A row on a screen of 80 columns *)

Definition demo_env : env := Env 100 one (99 * one) 8000000 (map f_scale Fieldstab) true (fun _ => []).
Definition demo_result : task_result :=
  Result (fun f => if f =? EU_PID then 4321 else if f =? EU_STA then 83 else if f =? EU_TM2 then 123456 else 0) (fun _ => 0) (fun f => bs "root").
Definition demo_columns : WIN_t := demo_calibrated (demo_window [75; 81; 115; 139] 0).

Lemma demo_whole : whole demo_cols (bs "root").
Proof.
  assert (Ha : ascii (bs "root")) by (bytewise; by vm_compute).
  exists 4. split; [by apply (chars_of_ascii demo_cols (bs "root"))|]. intros a b m w E _ Hw.
  apply short_ascii; [lia|]. unfold ascii in Ha. rewrite E in Ha. by apply Forall_app in Ha as [_ ?].
Qed.

Lemma demo_row_ok : row_ok demo_cols demo_frame demo_env demo_columns demo_result.
Proof.
  split.
  - intros f. unfold demo_result. cbn [r_num]. unfold LONG_MIN. repeat match goal with |- context [if ?b then _ else _] => destruct b end; lia.
  - by vm_compute.
  - done.
  - vm_compute. by split.
  - by vm_compute.
  - intros f _. cbn [r_str demo_result]. bytewise; by vm_compute.
  - intros f _. apply demo_whole.
  - apply demo_whole.
  - intros f Hf. apply Bool.eqb_prop. assert (H : forallb (fun f => Bool.eqb (VARcol demo_frame f) (among f var_list)) (seqZ 0 EU_MAXPFLGS) = true)
      by (vm_compute; reflexivity). rewrite forallb_forall in H. apply H. apply list_elem_of_In, elem_of_seqZ. lia.
  - by vm_compute.
Qed.

Lemma demo_shown : shown_fields demo_columns = [EU_PID; EU_UEN; EU_TM2; EU_CMD].
Proof. vm_compute. reflexivity. Qed.


Example demo_row : task_text demo_cols 46 demo_frame demo_env demo_columns demo_result (Autox [] 0) =
  Some (Some (bs "4321    root     20:34.56  root" ++ replicate 49 32), Autox [] 0).
Proof. vm_compute. reflexivity. Qed.

Lemma row_highlighted_witness : exists r l, print_row (set_find (bs "ab") demo_columns) (bs "xabcab ") = (r, Direct l) /\ r <> [] /\
  concat (map shown l) = bs "xabcab " /\ Forall (fun x => match x with Found s => s = bs "ab" | Plain _ => True end) l /\
  exists l' s, l = l' ++ [Plain s] /\ strstr s (bs "ab") = None.
Proof.
  apply (row_highlighted (set_find (bs "ab") demo_columns) (bs "xabcab ")); [reflexivity|discriminate|vm_compute; discriminate].
Defined.

End Toprow.
