(* ===== verification/Topshow.v ===== *)
(** * top.c: the rows of the windows and the frame

    [window_hlp], [window_show], [frame_hlp] and [frame_make]: which tasks a window
    shows, on which of them its first row stands, and how the windows share the
    screen.  What [wins_usrselect], [task_show] and the tics say of the task at a
    position is a parameter of the model. *)

From stdpp Require Import functions base numbers list strings.
From S2P Require Import Prelude Libc Real Toptext Topforest Topdata Topfields Topsum.
Open Scope Z_scope.

Module Topshow.
Import Topdata Topfields.

(** ** Scanning for a task that is shown *)

(** The first position among [n] from [i] on. *)
Fixpoint scan_fwd (n : nat) (sel : Z -> bool) (i : Z) : option Z :=
  match n with O => None | S n => if sel i then Some i else scan_fwd n sel (i + 1) end.

(** The last position among [n] from [i] down, or [beg]. *)
Fixpoint scan_bwd (n : nat) (sel : Z -> bool) (i beg : Z) : Z :=
  match n with O => beg | S n => if sel i then i else scan_bwd n sel (i - 1) beg end.

(** The positions a window may start at: all, or those of its focus. *)
Definition hlp_range (n : Z) (w : WIN_t) : Z * Z :=
  if w_int w focus_pid =? 0 then (0, n) else (w_int w focus_beg, w_int w focus_end).

(** [window_hlp]; [sel] tells which tasks the window shows. *)
Definition window_hlp (sel : Z -> bool) (n : Z) (w : WIN_t) : WIN_t :=
  let '(beg, last) := hlp_range n w in
  let w := SETw NOPRINT_xxx w in
  let bt := w_int w begtask + w_int w begnext in
  let '(bt, next) :=
    if bt <=? beg then (beg, 1) else if last <=? bt then (last - 1, w_int w begnext) else (bt, w_int w begnext) in
  let forth i := scan_fwd (Z.to_nat (last - i)) sel i in
  let back i := scan_bwd (Z.to_nat (i - beg)) sel i beg in
  (* reached the top: maybe it is not shown, so once more from there *)
  let again i :=
    if (i =? beg) && negb (sel beg) then match forth beg with Some j => j | None => back (last - 1) end else i in
  let i := if 0 <? next then match forth bt with Some j => j | None => again (back (last - 1)) end else again (back bt) in
  OFFw NOPRINT_xxx (set_w begnext 0 (set_w begtask i w)).

(** The loop of [window_show]: at most [left] rows among the [n] tasks from [j] on. *)
Fixpoint show_loop (n : nat) (show : Z -> bool) (j left : Z) : list Z :=
  match n with
  | O => []
  | S n =>
      if left <=? 0 then []
      else if show j then j :: show_loop n show (j + 1) (left - 1) else show_loop n show (j + 1) left
  end.

Section frame.
  (** The tasks of the frame, and their forest. *)
Variable ts : list Topforest.task.
Variable lvl : list Z.
Variable tree : list nat.
  (** Of the window at a position and the task at a position of its array, before
      the array is sorted (false) or behind it: whether the user selects it,
      whether its row is not empty; whether it used the processor. *)
Variable usr : bool -> nat -> Z -> bool.
Variable row : bool -> nat -> Z -> bool.
Variable busy : nat -> Z -> bool.

  (** What sorting does to the window: the forest view looks for its focus. *)
Definition arrange (w : WIN_t) : WIN_t :=
    if CHKw w Show_FOREST && negb (w_int w focus_pid =? 0) then
      let f := Topforest.forest_config ts lvl tree
        (Topforest.Focus (w_int w focus_pid) (w_int w focus_beg) (w_int w focus_end) (w_int w begtask) (w_int w begnext)) in
      set_w focus_pid (Topforest.focus_pid f) (set_w focus_beg (Topforest.focus_beg f) (set_w focus_end (Topforest.focus_end f)
        (set_w begtask (Topforest.begtask f) (set_w begnext (Topforest.begnext f) w))))
    else w.

Definition visible (sorted : bool) (i : nat) (j : Z) : bool := usr sorted i j && row sorted i j.

  (** Whether [window_show] counts the row of a task. *)
Definition show (w : WIN_t) (i : nat) (j : Z) : bool :=
    if CHKw w Show_IDLEPS && (w_int w usrseltyp =? 0) then row true i j
    else (CHKw w Show_IDLEPS || busy i j) && usr true i j && row true i j.

Definition tasks_end (t : top) (w : WIN_t) : Z :=
    if w_int w focus_pid =? 0 then g_int t PIDSmaxt else Z.min (w_int w focus_end) (g_int t PIDSmaxt).

  (** [mkVIZyes] looks at the current window, and [window_hlp] works on it,
      whichever window is shown. *)
Definition put_first (t : top) (i : nat) : top :=
    match Winstk t !! Curwin t with
    | Some c =>
        if negb (w_int c begnext =? 0) then on_cur (window_hlp (visible (Curwin t =? i)%nat (Curwin t)) (g_int t PIDSmaxt)) t
        else on_win i (OFFw NOPRINT_xxx) t
    | None => t
    end.

  (** [window_show] of the window at a position: the lines it takes, the tasks it
      shows.  [None]: a task in front of the first is looked at. *)
Definition window_show (t : top) (i : nat) (wmax : Z) : option (Z * list Z * top) :=
    if g_int t PIDSmaxt =? 0 then Some (1, [], t)
    else
      let t := put_first (on_win i arrange t) i in
      w ← Winstk t !! i;
      let wmax := Z.min wmax (w_int w winlines + 1) in
      let beg := w_int w begtask in
      let last := tasks_end t w in
      if (beg <? 0) && (beg <? last) && (1 <? wmax) then None
      else
        let rows := show_loop (Z.to_nat (last - beg)) (show w i) beg (wmax - 1) in
        Some (1 + Z.of_nat (length rows), rows, t).

Definition taskon (t : top) (i : nat) : bool := match Winstk t !! i with Some w => CHKw w Show_TASKON | None => false end.

  (** The visible windows from a position on. *)
Definition visible_from (t : top) (i : nat) : list nat := filter (fun j => taskon t j = true) (seq i (GROUPSMAX - i)).

Definition frame_hlp (i : nat) (max : Z) (t : top) : top :=
    let wins := match visible_from t i with [] => 1 | l => Z.of_nat (length l) end in
    let size := Z.quot (max - wins) wins in
    on_win i (fun w => set_w winlines (if rcv w maxtasks =? 0 then size else rcv w maxtasks) w) t.

  (** The windows of the alternate display, from those at the positions [l] on. *)
Fixpoint frame_loop (l : list nat) (Max_lines scrlins : Z) (t : top) : option (Z * list (nat * list Z) * top) :=
    match l with
    | [] => Some (scrlins, [], t)
    | i :: l =>
        '(n, rows, t) ← (if taskon t i
           then '(n, rows, t) ← window_show (frame_hlp i (Max_lines - scrlins) t) i (Max_lines - scrlins); Some (n, [(i, rows)], t)
           else Some (0, [], t));
        let scrlins := scrlins + n in
        if Max_lines <=? scrlins then Some (scrlins, rows, t)
        else '(m, more, t) ← frame_loop l Max_lines scrlins t; Some (m, rows ++ more, t)
    end.

  (** The part of [frame_make] behind the summary. *)
Definition frame_tasks (Max_lines : Z) (t : top) : option (Z * list (nat * list Z) * top) :=
    if g_int t mode_altscr =? 0 then
      let t := on_cur (fun w => set_w winlines (if rcv w maxtasks =? 0 then Max_lines else rcv w maxtasks) w) t in
      '(n, rows, t) ← window_show t (Curwin t) Max_lines; Some (n, [(Curwin t, rows)], t)
    else frame_loop (seq 0 GROUPSMAX) Max_lines 0 t.

  (** The summary and the windows of a frame. *)
Definition frame_make (nm : Topsum.names) (v : Topsum.view) (c : Topsum.counts) (s : Topsum.sum) (t : top) :
      option (Topsum.sum * Z * list (nat * list Z) * top) :=
    s ← Topsum.summary_show nm v c s;
    '(n, rows, t) ← frame_tasks ((Topsum.v_rows v - Topsum.Msg_row s) - 1) t;
    Some (s, n, rows, t).
End frame.

(** ** Facts about the scans *)

Lemma scan_fwd_some n sel : forall i j, scan_fwd n sel i = Some j ->
  i <= j < i + Z.of_nat n /\ sel j = true /\ forall k, i <= k < j -> sel k = false.
Proof.
  induction n as [|n IH]; intros i j H; [done|]. cbn [scan_fwd] in H. destruct (sel i) eqn:E.
  - injection H as <-. split_and!; [lia|lia|done|lia].
  - apply IH in H as (H1 & H2 & H3). split_and!; [lia|lia|done|]. intros k Hk. destruct (decide (k = i)) as [->|]; [done|apply H3; lia].
Qed.

Lemma scan_fwd_none n sel : forall i, scan_fwd n sel i = None -> forall k, i <= k < i + Z.of_nat n -> sel k = false.
Proof.
  induction n as [|n IH]; intros i H k Hk; [lia|]. cbn [scan_fwd] in H. destruct (sel i) eqn:E; [done|].
  destruct (decide (k = i)) as [->|]; [done|]. apply (IH (i + 1) H). lia.
Qed.

Lemma scan_bwd_spec n sel beg : forall i, i = beg + Z.of_nat n ->
  let j := scan_bwd n sel i beg in
  beg <= j <= i /\ (j = beg \/ sel j = true) /\ forall k, j < k <= i -> sel k = false.
Proof.
  induction n as [|n IH]; intros i Hi; cbn [scan_bwd]; [split_and!; [lia|lia|by left|lia]|]. destruct (sel i) eqn:E.
  - split_and!; [lia|lia|by right|lia].
  - destruct (IH (i - 1) ltac:(lia)) as (H1 & H2 & H3). split_and!; [lia|lia|done|].
    intros k Hk. destruct (decide (k = i)) as [->|]; [done|apply H3; lia].
Qed.

(** ** The first row of a window *)

(** Where [window_hlp] goes, from the position it aims at. *)
Lemma window_hlp_where sel n w beg last : hlp_range n w = (beg, last) -> beg < last ->
  let aim := Z.max beg (Z.min (w_int w begtask + w_int w begnext) (last - 1)) in
  let i := w_int (window_hlp sel n w) begtask in
  beg <= i < last /\ (sel i = true \/ forall j, beg <= j < last -> sel j = false) /\
  (0 < w_int w begnext \/ w_int w begtask + w_int w begnext <= beg ->
     forall j, aim <= j < last -> sel j = true -> aim <= i <= j) /\
  (w_int w begnext <= 0 -> beg < w_int w begtask + w_int w begnext ->
     forall j, beg <= j <= aim -> sel j = true -> j <= i <= aim).
Proof.
  intros Hr Hlt aim i. unfold i, window_hlp. rewrite Hr. cbn [w_int SETw sw on_rc]. set (bt := w_int w begtask + w_int w begnext) in *.
  set (next := w_int w begnext) in *.
  assert (exists nx, (if bt <=? beg then (beg, 1) else if last <=? bt then (last - 1, next) else (bt, next)) = (aim, nx) /\
    (0 < nx <-> (0 < next \/ bt <= beg))) as (nx & -> & Hnx).
  { unfold aim. destruct (Z.leb_spec bt beg); [exists 1; split; [f_equal; lia|lia]|].
    destruct (Z.leb_spec last bt); [exists next; split; [f_equal; lia|lia]|exists next; split; [f_equal; lia|lia]]. }
  assert (Ha : beg <= aim < last) by (unfold aim; lia).
  cbn [OFFw sw on_rc set_w w_int]. rewrite fn_lookup_insert_ne, fn_lookup_insert by done.
  (* backward, and perhaps once more forward *)
  assert (Hback : forall x, beg <= x < last ->
    let b := scan_bwd (Z.to_nat (x - beg)) sel x beg in
    let g := if (b =? beg) && negb (sel beg)
      then match scan_fwd (Z.to_nat (last - beg)) sel beg with
           | Some j => j | None => scan_bwd (Z.to_nat (last - 1 - beg)) sel (last - 1) beg end
      else b in
    beg <= g < last /\ (sel g = true \/ forall j, beg <= j < last -> sel j = false) /\
    forall j, beg <= j <= x -> sel j = true -> j <= g <= x).
  { intros x Hx b g. destruct (scan_bwd_spec (Z.to_nat (x - beg)) sel beg x ltac:(lia)) as (B1 & B2 & B3). fold b in B1, B2, B3.
    unfold g. destruct (Z.eqb_spec b beg) as [E|E]; cbn [andb]; [|destruct B2 as [?|B2]; [done|]].
    - destruct (sel beg) eqn:Es; cbn [negb].
      + rewrite E. split_and!; [lia|lia|by left|]. intros j Hj Hs. destruct (decide (j = beg)); [lia|]. rewrite B3 in Hs by lia. done.
      + assert (Hno : forall j, beg <= j <= x -> sel j = false).
        { intros j Hj. destruct (decide (j = beg)) as [->|]; [done|]. apply B3. lia. }
        destruct (scan_fwd _ _ _) as [j|] eqn:Ef.
        * apply scan_fwd_some in Ef as (F1 & F2 & F3). split_and!; [lia|lia|by left|]. intros k Hk Hs. by rewrite Hno in Hs.
        * assert (Hall : forall j, beg <= j < last -> sel j = false) by (intros j Hj; apply (scan_fwd_none _ _ _ Ef); lia).
          destruct (scan_bwd_spec (Z.to_nat (last - 1 - beg)) sel beg (last - 1) ltac:(lia)) as (C1 & _ & _).
          split_and!; [lia|lia|by right|]. intros k Hk Hs. by rewrite Hno in Hs.
    - split_and!; [lia|lia|by left|]. intros j Hj Hs. destruct (decide (b < j)); [rewrite B3 in Hs by lia; done|lia]. }
  destruct (Z.ltb_spec 0 nx) as [Hn|Hn].
  - destruct (scan_fwd (Z.to_nat (last - aim)) sel aim) as [j|] eqn:Ef.
    + apply scan_fwd_some in Ef as (F1 & F2 & F3). split_and!; [lia|lia|by left| |intros ? ?; lia].
      intros _ k Hk Hs. destruct (decide (k < j)); [rewrite F3 in Hs by lia; done|lia].
    + destruct (Hback (last - 1) ltac:(lia)) as (H1 & H2 & _). split_and!; [lia|lia|done| |intros ? ?; lia].
      intros _ k Hk Hs. rewrite (scan_fwd_none _ _ _ Ef) in Hs by lia. done.
  - destruct (Hback aim Ha) as (H1 & H2 & H3). split_and!; [lia|lia|done|intros ?; lia|]. intros _ _. exact H3.
Qed.

(** ** The rows of a window *)

Lemma show_loop_spec n show : forall j left,
  show_loop n show j left = take (Z.to_nat left) (filter (fun k => show k = true) (seqZ j (Z.of_nat n))).
Proof.
  induction n as [|n IH]; intros j left; cbn [show_loop]; [by destruct (Z.to_nat left)|]. rewrite seqZ_cons by lia.
  replace (Z.pred (Z.of_nat (S n))) with (Z.of_nat n) by lia. change (Z.succ j) with (j + 1).
  destruct (Z.leb_spec left 0); [replace (Z.to_nat left) with 0%nat by lia; done|].
  destruct (show j) eqn:E; [rewrite filter_cons_True by done|rewrite filter_cons_False by (by rewrite E)]; rewrite IH; [|done].
  replace (Z.to_nat left) with (S (Z.to_nat (left - 1))) by lia. done.
Qed.

(** ** What a frame leaves of the settings that share the screen *)

Definition share (w : WIN_t) : Z * bool * Z := (w_int w winlines, CHKw w Show_TASKON, rcv w maxtasks).
Definition shares (t : top) : list (Z * bool * Z) := map share (Winstk t).

Lemma land_other f a b : Z.land a b = 0 -> Z.land (Z.land f (Z.lnot a)) b = Z.land f b /\ Z.land (Z.lor f a) b = Z.land f b.
Proof.
  intros H. assert (Hb : forall n, Z.testbit a n && Z.testbit b n = false) by (intros n; by rewrite <- Z.land_spec, H, Z.bits_0).
  split; apply Z.bits_inj'; intros n Hn; rewrite ?Z.land_spec, ?Z.lor_spec, ?Z.lnot_spec by done; specialize (Hb n);
    destruct (Z.testbit f n), (Z.testbit a n), (Z.testbit b n); done.
Qed.

Lemma share_off w : share (OFFw NOPRINT_xxx w) = share w.
Proof.
  unfold share, OFFw, sw, on_rc, CHKw, rcv. simpl. rewrite fn_lookup_insert, fn_lookup_insert_ne by done.
  by rewrite (proj1 (land_other _ NOPRINT_xxx Show_TASKON eq_refl)).
Qed.
Lemma share_set w : share (SETw NOPRINT_xxx w) = share w.
Proof.
  unfold share, SETw, sw, on_rc, CHKw, rcv. simpl. rewrite fn_lookup_insert, fn_lookup_insert_ne by done.
  by rewrite (proj2 (land_other _ NOPRINT_xxx Show_TASKON eq_refl)).
Qed.
Lemma share_w f v w : f <> winlines -> share (set_w f v w) = share w.
Proof. intros H. unfold share, CHKw, rcv. simpl. by rewrite fn_lookup_insert_ne. Qed.

Lemma share_hlp sel n w : share (window_hlp sel n w) = share w.
Proof.
  unfold window_hlp. destruct (hlp_range n w) as [beg last]. destruct (if _ <=? _ then _ else _) as [bt next].
  by rewrite share_off, !share_w, share_set.
Qed.

Lemma shares_on_win i f t : (forall w, share (f w) = share w) -> shares (on_win i f t) = shares t.
Proof.
  intros H. unfold shares, on_win. cbn [Winstk set_wins]. revert i. induction (Winstk t) as [|w l IH]; intros i; [done|].
  destruct i; cbn [alter list_alter map]; [by rewrite H|by rewrite IH].
Qed.

Section shared.
Variable ts : list Topforest.task.
Variable lvl : list Z.
Variable tree : list nat.
Variable usr : bool -> nat -> Z -> bool.
Variable row : bool -> nat -> Z -> bool.
Variable busy : nat -> Z -> bool.
#[local] Abbreviation show_one := (window_show ts lvl tree usr row busy).
#[local] Abbreviation show_all := (frame_loop ts lvl tree usr row busy).

Lemma share_arrange w : share (arrange ts lvl tree w) = share w.
Proof. unfold arrange. destruct (_ && _); [|done]. by rewrite !share_w. Qed.

Lemma shares_put_first t i : shares (put_first usr row t i) = shares t.
Proof.
  unfold put_first. destruct (Winstk t !! Curwin t) as [c|]; [|done]. destruct (negb _); apply shares_on_win; intros w; [apply share_hlp|apply share_off].
Qed.

  (** The lines of a window: its heading and its rows, within its share. *)
Lemma window_show_lines t i wmax n rows t' : show_one t i wmax = Some (n, rows, t') ->
    shares t' = shares t /\ n = 1 + Z.of_nat (length rows) /\ n <= Z.max 1 wmax /\
    forall x, shares t !! i = Some x -> n <= Z.max 1 (Z.min wmax (x.1.1 + 1)).
Proof.
  unfold window_show. destruct (_ =? 0); [intros [= <- <- <-]; split_and!; [done|done|lia|lia]|].
  set (t1 := put_first usr row (on_win i (arrange ts lvl tree) t) i).
  assert (Hsh : shares t1 = shares t) by (unfold t1; rewrite shares_put_first; apply shares_on_win; intros w; apply share_arrange).
  destruct (Winstk t1 !! i) as [w|] eqn:Ew; [|done]. cbn [mbind option_bind]. destruct (_ && _ && _); [done|]. intros [= <- <- <-].
  rewrite show_loop_spec, length_take. split_and!; [done|done|lia|]. intros x Hx. rewrite <- Hsh in Hx. unfold shares in Hx. rewrite list_lookup_fmap, Ew in Hx. injection Hx as <-.
  cbn [share fst]. lia.
Qed.

Lemma shares_taskon t t' i : shares t' = shares t -> taskon t' i = taskon t i.
Proof.
  intros H. unfold taskon. assert (E : shares t' !! i = shares t !! i) by (by rewrite H). unfold shares in E.
  rewrite !list_lookup_fmap in E. destruct (Winstk t' !! i), (Winstk t !! i); try done. simpl in E. by injection E.
Qed.

Lemma frame_hlp_taskon i max t j : taskon (frame_hlp i max t) j = taskon t j.
Proof.
  unfold taskon, frame_hlp, on_win. cbn [Winstk set_wins]. destruct (decide (i = j)) as [->|Hn].
  - rewrite list_lookup_alter_eq. by destruct (Winstk t !! j).
  - by rewrite list_lookup_alter_ne.
Qed.

  (** The frame never takes more lines than it has. *)
Lemma frame_loop_lines Max_lines l : forall scrlins t m rows t', 0 <= scrlins < Max_lines ->
    show_all l Max_lines scrlins t = Some (m, rows, t') ->
    scrlins <= m <= Max_lines /\ m = scrlins + Z.of_nat (length rows) + Z.of_nat (length (concat (map snd rows))).
Proof.
  induction l as [|i l IH]; intros scrlins t m rows t' Hs E; cbn [frame_loop] in E.
  { injection E as <- <- <-. simpl. lia. }
  destruct (taskon t i).
  - destruct (show_one _ i _) as [[[n r] t1]|] eqn:Ew; [|done]. cbn [mbind option_bind] in E.
    apply window_show_lines in Ew as (_ & Hn & Hle & _).
    destruct (Z.leb_spec Max_lines (scrlins + n)).
    + injection E as <- <- <-. simpl. rewrite app_nil_r. lia.
    + destruct (frame_loop _ _ _ _ _ _ l Max_lines (scrlins + n) t1) as [[[m' more] t2]|] eqn:El; [|done].
      cbn [mbind option_bind] in E. injection E as <- <- <-. apply IH in El; [|lia]. simpl. rewrite length_app. lia.
  - cbn [mbind option_bind] in E. destruct (Z.leb_spec Max_lines (scrlins + 0)); [lia|].
    destruct (frame_loop _ _ _ _ _ _ l Max_lines (scrlins + 0) t) as [[[m' more] t2]|] eqn:El; [|done].
    cbn [mbind option_bind] in E. injection E as <- <- <-. apply IH in El; [|lia]. simpl. lia.
Qed.

Lemma visible_from_cons t i : (i < GROUPSMAX)%nat ->
    visible_from t i = if taskon t i then i :: visible_from t (S i) else visible_from t (S i).
Proof.
  intros Hi. unfold visible_from. replace (GROUPSMAX - i)%nat with (S (GROUPSMAX - S i)) by lia. cbn [seq].
  destruct (taskon t i) eqn:E; [by rewrite filter_cons_True|by rewrite filter_cons_False by (by rewrite E)].
Qed.

Lemma visible_from_shares t t' i : (forall j, taskon t' j = taskon t j) -> visible_from t' i = visible_from t i.
Proof. intros H. unfold visible_from. apply list_filter_iff. intros j. by rewrite H. Qed.

  (** While every visible window has a line left, each of them is shown. *)
Lemma frame_loop_fair Max_lines k : forall i scrlins t m rows t', (i + k = GROUPSMAX)%nat ->
    Forall (fun w => rcv w maxtasks = 0) (Winstk t) -> Z.of_nat (length (visible_from t i)) <= Max_lines - scrlins ->
    show_all (seq i k) Max_lines scrlins t = Some (m, rows, t') -> map fst rows = visible_from t i.
Proof.
  induction k as [|k IH]; intros i scrlins t m rows t' Hi Hm Hv E; cbn [seq frame_loop] in E.
  { injection E as <- <- <-. unfold visible_from. by replace (GROUPSMAX - i)%nat with 0%nat by lia. }
  rewrite visible_from_cons in Hv |- * by lia. destruct (taskon t i) eqn:Ei.
  - simpl in Hv. set (M := Max_lines - scrlins) in *. set (W := Z.of_nat (length (visible_from t i))).
    assert (HW : W = 1 + Z.of_nat (length (visible_from t (S i)))) by (unfold W; rewrite visible_from_cons, Ei by lia; simpl; lia).
    destruct (show_one _ i _) as [[[n r] t1]|] eqn:Ew; [|done]. cbn [mbind option_bind] in E.
    apply window_show_lines in Ew as (Hsh & Hn & _ & Hb).
    assert (Ht : forall j, taskon t1 j = taskon t j) by (intros j; rewrite (shares_taskon _ _ j Hsh); apply frame_hlp_taskon).
    assert (Hm1 : Forall (fun w => rcv w maxtasks = 0) (Winstk t1)).
    { assert (Forall (fun x => x.2 = 0) (shares t1)) as H; [|by apply Forall_map in H].
      rewrite Hsh. unfold shares, frame_hlp, on_win. cbn [Winstk set_wins]. apply Forall_map.
      apply Forall_alter; [done|]. by intros w _ Hw. }
    assert (Hle : n <= M / W).
    { unfold taskon in Ei. destruct (Winstk t !! i) as [w|] eqn:Ew; [|done].
      assert (Hwins : match visible_from t i with [] => 1 | l => Z.of_nat (length l) end = W).
      { unfold W in *. destruct (visible_from t i); [simpl in HW; lia|done]. }
      assert (Hx : exists b, shares (frame_hlp i M t) !! i = Some (Z.quot (M - W) W, b, 0)).
      { unfold shares, frame_hlp, on_win. rewrite Hwins. cbn [Winstk set_wins]. rewrite list_lookup_fmap, list_lookup_alter_eq, Ew.
        rewrite Forall_lookup in Hm. simpl. rewrite (Hm i w Ew). eexists. unfold share, rcv. simpl. rewrite fn_lookup_insert.
        by setoid_rewrite (Hm i w Ew). }
      destruct Hx as (b & Hx). specialize (Hb _ Hx). cbn [fst] in Hb. rewrite Z.quot_div_nonneg in Hb by lia.
      replace (M - W) with (M + (-1) * W) in Hb by lia. rewrite Z.div_add in Hb by lia.
      assert (1 <= M / W) by (apply Z.div_le_lower_bound; lia). lia. }
    assert (Hrest : W - 1 <= M - n).
    { assert (1 <= M / W) by (apply Z.div_le_lower_bound; lia). pose proof (Z.mul_div_le M W ltac:(lia)). nia. }
    destruct (Z.leb_spec Max_lines (scrlins + n)).
    + injection E as <- <- <-. cbn [map fst]. assert (visible_from t (S i) = []) as ->; [|done].
      apply length_zero_iff_nil. lia.
    + destruct (frame_loop _ _ _ _ _ _ _ Max_lines (scrlins + n) t1) as [[[m' more] t2]|] eqn:El; [|done].
      cbn [mbind option_bind] in E. injection E as <- <- <-. cbn [map fst app]. f_equal.
      rewrite <- (visible_from_shares t t1) by done. apply (IH (S i) (scrlins + n) t1 m' more t2); [lia|done| |done].
      rewrite (visible_from_shares t t1) by done. lia.
  - cbn [mbind option_bind] in E. rewrite Z.add_0_r in E. destruct (Z.leb_spec Max_lines scrlins).
    + injection E as <- <- <-. cbn [map]. symmetry. apply length_zero_iff_nil. lia.
    + destruct (frame_loop _ _ _ _ _ _ _ Max_lines scrlins t) as [[[m' more] t2]|] eqn:El; [|done].
      cbn [mbind option_bind] in E. injection E as <- <- <-. cbn [app]. by apply (IH (S i) scrlins t m' more t2); [lia|..].
Qed.
End shared.

(** ** Properties *)

(** C15: after keys that scroll or switch windows, the first row of the current
    window stands on a task that is shown, if there is one in its range, however
    the tasks that are not shown lie: forward on the first one at or behind the
    aim, backward on the last one at or before it, and at the other side when
    there is none on that one. *)
Theorem window_hlp_shows sel n w beg last : hlp_range n w = (beg, last) -> beg < last ->
  let aim := Z.max beg (Z.min (w_int w begtask + w_int w begnext) (last - 1)) in
  let w' := window_hlp sel n w in
  let i := w_int w' begtask in
  w_int w' begnext = 0 /\ beg <= i < last /\ (sel i = true \/ forall j, beg <= j < last -> sel j = false) /\
  (0 < w_int w begnext -> forall j, aim <= j < last -> sel j = true -> aim <= i <= j) /\
  (w_int w begnext <= 0 -> beg < w_int w begtask + w_int w begnext ->
     forall j, beg <= j <= aim -> sel j = true -> j <= i <= aim).
Proof.
  intros Hr Hlt aim w' i. destruct (window_hlp_where sel n w beg last Hr Hlt) as (H1 & H2 & H3 & H4).
  split; [|split_and!; [apply H1|apply H1|exact H2|intros H; apply H3; by left|exact H4]].
  unfold w', window_hlp. rewrite Hr. destruct (if _ <=? _ then _ else _) as [bt next]. cbn [OFFw sw on_rc set_w w_int].
  by rewrite fn_lookup_insert.
Qed.


(** C14: the summary, the message line and the windows of a frame never take more
    than the rows of the screen, and the lines that are counted are those of the
    headings and the rows. *)
Theorem frame_fits ts lvl tree usr row busy nm v c s t s' n rows t' :
  2 <= Topsum.v_rows v -> 0 <= Topsum.v_cpus v -> Topsum.clean s -> Topsum.Msg_row s = 0 -> Topsum.rows s = [] ->
  frame_make ts lvl tree usr row busy nm v c s t = Some (s', n, rows, t') ->
  Z.of_nat (length (Topsum.rows s')) + 1 + n <= Topsum.v_rows v /\
  n = Z.of_nat (length rows) + Z.of_nat (length (concat (map snd rows))).
Proof.
  intros H1 H2 H3 H4 H5 E. unfold frame_make in E. destruct (Topsum.summary_show nm v c s) as [s1|] eqn:Es; [|done]. cbn [mbind option_bind] in E.
  destruct (Topsum.summary_rows nm v c s s1 H1 H2 H3 H4 H5 Es) as (_ & Hm & Hr).
  set (Max := Topsum.v_rows v - Topsum.Msg_row s1 - 1) in E. destruct (frame_tasks _ _ _ _ _ _ Max t) as [[[m r] t1]|] eqn:Ef; [|done].
  cbn [mbind option_bind] in E. injection E as <- <- <- <-. unfold frame_tasks in Ef. destruct (g_int t mode_altscr =? 0).
  - destruct (window_show _ _ _ _ _ _ _ _ Max) as [[[k l] t2]|] eqn:Ew; [|done]. cbn [mbind option_bind] in Ef. injection Ef as <- <- <-.
    apply window_show_lines in Ew as (_ & Hn & Hle & _). unfold Max in *. simpl. rewrite app_nil_r. lia.
  - apply frame_loop_lines in Ef; [|unfold Max; lia]. unfold Max in *. lia.
Qed.

(** C18: in the alternate display every visible window gets its share: with at
    least a line for each of them and no limit of tasks set, all of them are
    shown, in their order. *)
Theorem frame_fair ts lvl tree usr row busy Max_lines t m rows t' :
  g_int t mode_altscr <> 0 -> Forall (fun w => rcv w maxtasks = 0) (Winstk t) ->
  Z.of_nat (length (visible_from t 0)) <= Max_lines ->
  frame_tasks ts lvl tree usr row busy Max_lines t = Some (m, rows, t') -> map fst rows = visible_from t 0.
Proof.
  intros Ha Hm Hv E. unfold frame_tasks in E. destruct (Z.eqb_spec (g_int t mode_altscr) 0); [done|].
  apply (frame_loop_fair ts lvl tree usr row busy Max_lines GROUPSMAX 0 0 t m rows t'); [done|done|lia|done].
Qed.

(** ** Two windows of five tasks *)

Definition demo_shown (alt : Z) (cur : nat) : top :=
  Top (fun f => match f with mode_altscr => alt | PIDSmaxt => 5 | _ => 0 end) 107 0
    (map (fun w => set_w begnext 1 w) (take 2 wins_stage_1) ++ map (OFFw Show_TASKON) (drop 2 wins_stage_1)) cur [] [] 0 [].

Definition all_tasks (_ : bool) (_ : nat) (_ : Z) : bool := true.
(** A selection that hits the task at position 1 before the window is sorted and
    the one at position 2 behind. *)
Definition one_task (sorted : bool) (_ : nat) (j : Z) : bool := j =? (if sorted then 2 else 1).

Lemma window_hlp_shows_witness :
  let w := set_w begtask 4 (set_w begnext (-1) (empty_win (RCW (rcw_ints []) [] []) 0)) in
  let w' := window_hlp (one_task true 0) 5 w in
  w_int w' begnext = 0 /\ 0 <= w_int w' begtask < 5 /\
  (one_task true 0 (w_int w' begtask) = true \/ forall j, 0 <= j < 5 -> one_task true 0 j = false) /\
  (0 < w_int w begnext -> forall j, 3 <= j < 5 -> one_task true 0 j = true -> 3 <= w_int w' begtask <= j) /\
  (w_int w begnext <= 0 -> 0 < w_int w begtask + w_int w begnext ->
     forall j, 0 <= j <= 3 -> one_task true 0 j = true -> j <= w_int w' begtask <= 3).
Proof.
  exact (window_hlp_shows (one_task true 0) 5 (set_w begtask 4 (set_w begnext (-1) (empty_win (RCW (rcw_ints []) [] []) 0))) 0 5 eq_refl eq_refl).
Defined.


Lemma frame_fits_witness : exists s' n rows t',
  frame_make [] [] [] all_tasks all_tasks (fun _ _ => true) Topsum.demo_names Topsum.demo_view Topsum.demo_counts Topsum.demo_sum (demo_shown 1 0) =
    Some (s', n, rows, t') /\
  Z.of_nat (length (Topsum.rows s')) + 1 + n <= 8 /\ n = Z.of_nat (length rows) + Z.of_nat (length (concat (map snd rows))).
Proof.
  destruct (frame_make [] [] [] all_tasks all_tasks (fun _ _ => true) Topsum.demo_names Topsum.demo_view Topsum.demo_counts Topsum.demo_sum
    (demo_shown 1 0)) as [[[[s' n] rows] t']|] eqn:E.
  - exists s', n, rows, t'. split; [reflexivity|].
    apply (frame_fits [] [] [] all_tasks all_tasks (fun _ _ => true) Topsum.demo_names Topsum.demo_view Topsum.demo_counts Topsum.demo_sum
      (demo_shown 1 0) s' n rows t'); [discriminate|discriminate|repeat split|reflexivity|reflexivity|exact E].
  - exfalso. assert (H : match frame_make [] [] [] all_tasks all_tasks (fun _ _ => true) Topsum.demo_names Topsum.demo_view Topsum.demo_counts
      Topsum.demo_sum (demo_shown 1 0) with Some _ => True | None => False end) by (vm_compute; exact I). rewrite E in H. exact H.
Defined.

Lemma frame_fair_witness : exists m rows t',
  frame_tasks [] [] [] all_tasks all_tasks (fun _ _ => true) 7 (demo_shown 1 0) = Some (m, rows, t') /\ map fst rows = [0; 1]%nat.
Proof.
  destruct (frame_tasks [] [] [] all_tasks all_tasks (fun _ _ => true) 7 (demo_shown 1 0)) as [[[m rows] t']|] eqn:E.
  - exists m, rows, t'. split; [reflexivity|].
    apply (frame_fair [] [] [] all_tasks all_tasks (fun _ _ => true) 7 (demo_shown 1 0) m rows t'); [discriminate| |discriminate|exact E].
    repeat (apply Forall_cons_2; [reflexivity|]). apply Forall_nil_2.
  - exfalso. assert (H : match frame_tasks [] [] [] all_tasks all_tasks (fun _ _ => true) 7 (demo_shown 1 0) with Some _ => True | None => False end)
      by (vm_compute; exact I). rewrite E in H. exact H.
Defined.

(** When the current window is not the first one that is shown, it is put on
    its first row before it is sorted: the first window finds that the current
    one has been scrolled.  The row it is put on is that of another task then. *)
Theorem first_row_too_early :
  match frame_tasks [] [] [] all_tasks one_task (fun _ _ => true) 20 (demo_shown 1 1) with
  | Some (_, rows, t') => rows = [(0%nat, [2]); (1%nat, [2])] /\
      match Winstk t' !! 1%nat with Some w => w_int w begtask = 1 /\ w_int w begnext = 0 | None => False end
  | None => False
  end /\ visible all_tasks one_task true 1 1 = false /\ visible all_tasks one_task true 1 2 = true.
Proof. vm_compute. split_and!; reflexivity. Qed.

End Topshow.
