(* ===== verification/Topsaved.v ===== *)
(** * top.c: the settings the keys leave behind

    Every key keeps the settings such that the file that is written from them is
    read back: the invariant of the windows and of the program, its preservation by
    the keys and by the frames between them, and what goes wrong outside it. *)

From stdpp Require Import functions base numbers list strings.
From S2P Require Import Prelude Libc Real Signals Toptext Topforest Topdata Topfilter Toprc Topfields Topkeys Topshow.
Open Scope Z_scope.

Module Topsaved.
Import Real Toptext Topdata Topfilter Toprc Topfields Topkeys.

(** ** The saved settings *)

(** The values a number of a window may have. *)
Definition rc_val (f : rfield) (v : Z) : Prop :=
  match f with
  | sortindx => 0 <= v < EU_MAXPFLGS
  | winflags => in_int v
  | maxtasks => 0 <= v <= INT_MAX
  | graph_cpus | graph_mems => 0 <= v <= 2
  | double_up => 0 <= v <= 1
  | combine_cpus => 0 <= v < 2 ^ 30
  | summclr | msgsclr | headclr | taskclr => 0 <= v <= 255
  end.

(** The fields of a window: every field of the table once, on or off. *)
Definition fields_inv (l : list Z) : Prop := exists p, l = pad_fields p /\ length p = NFLDS /\
  Forall (fun v => v <> 0 /\ in_int v) p /\
  Forall (fun x => 0 <= FLDget_of x < EU_MAXPFLGS) (take (Z.to_nat EU_MAXPFLGS) p) /\
  NoDup (map FLDget_of (take (Z.to_nat EU_MAXPFLGS) p)).

Record win_inv (w : WIN_t) : Prop := {
  inv_name : word (winname (rc w));
  inv_fields : fields_inv (fieldscur (rc w));
  inv_vals : forall f, rc_val f (rcv w f);
  inv_flags : flags_ok w
}.

Record top_inv (t : top) : Prop := {
  inv_wins : Forall win_inv (Winstk t);
  inv_total : length (Winstk t) = GROUPSMAX;
  inv_modes : Forall (fun f => g_int t f = 0 \/ g_int t f = 1) [mode_altscr; mode_irixps; zero_suppress];
  inv_cur : (Curwin t < GROUPSMAX)%nat;
  inv_widest : -1 <= g_int t fixed_widest <= SCREENMAX;
  inv_summ : 0 <= g_int t summ_mscale <= SK_Eb;
  inv_task : 0 <= g_int t task_mscale <= SK_Pb;
  inv_tics : 0 <= g_int t tics_scaled <= TICS_AS_LAST;
  inv_delay : exists whole frac, delay_parts (delay_time t) = Some (whole, frac) /\ 0 <= whole;
  inv_colors : g_int t max_colors <= 256;
  inv_cpus : g_int t Cpu_cnt <= 2 ^ 30
}.

Lemma msch_nth l v n k : msch l v n = Some k -> l !! k = Some v /\ (k < n)%nat /\ (forall j, (j < k)%nat -> l !! j <> Some v).
Proof.
  revert l k. induction n as [|n IH]; intros [|x l] k; simpl; try done. destruct (Z.eqb_spec x v) as [->|Hx].
  - intros [= <-]. split_and!; [done|lia|lia].
  - destruct (msch l v n) as [m|] eqn:E; [|done]. simpl. intros [= <-]. destruct (IH _ _ E) as (H1 & H2 & H3).
    split_and!; [done|lia|]. intros [|j] Hj; [simpl; congruence|]. apply H3. lia.
Qed.

Lemma msch_found l v n i : l !! i = Some v -> (i < n)%nat -> exists k, msch l v n = Some k.
Proof.
  revert l i. induction n as [|n IH]; intros [|x l] i Hi Hn; [lia|lia|done|]. simpl. destruct (Z.eqb_spec x v); [by eexists|].
  destruct i as [|i]; [simpl in Hi; congruence|]. destruct (IH l i Hi ltac:(lia)) as [k ->]. by eexists.
Qed.

(** Every number is the first of its kind. *)
Lemma field_dups_nodup l : (Z.to_nat EU_MAXPFLGS <= length l)%nat -> NoDup (take (Z.to_nat EU_MAXPFLGS) l) -> field_dups l = true.
Proof.
  intros Hlen Hn. unfold field_dups. apply forallb_forall. intros n [_ Hlt]%in_seq. apply bool_decide_eq_true.
  destruct (lookup_lt_is_Some_2 l n) as [v Hv]; [lia|]. rewrite nth_lookup, Hv. simpl.
  destruct (msch_found l v (Z.to_nat EU_MAXPFLGS) n Hv) as [k Hk]; [lia|]. rewrite Hk. f_equal.
  apply msch_nth in Hk as (H1 & H2 & _). rewrite NoDup_alt in Hn. apply (Hn k n v); rewrite lookup_take_lt by lia; done.
Qed.

Lemma take_pad p : length p = NFLDS -> take (Z.to_nat EU_MAXPFLGS) (pad_fields p) = take (Z.to_nat EU_MAXPFLGS) p.
Proof. intros H. rewrite pad_fields_100 by done. rewrite take_app_le; [done|]. rewrite H. by apply Nat.leb_le. Qed.

Lemma rc_val_int f v : rc_val f v -> in_int v.
Proof. unfold rc_val, in_int, INT_MIN, INT_MAX, EU_MAXPFLGS. destruct f; lia. Qed.

Lemma win_inv_ok w : win_inv w -> rcw_ok (rc w).
Proof.
  intros [Hn (p & Hp & Hlen & Hnz & Hr & Hd) Hv _]. split.
  - done.
  - by exists p.
  - unfold field_checks. rewrite Hp, take_pad by done. rewrite pad_fields_100 by done.
    rewrite mlen_app by (eapply Forall_impl; [exact Hnz|]; by intros v [? _]). cbn [mbind option_bind]. rewrite Hlen. f_equal.
    apply andb_true_intro. split; [done|]. apply forallb_forall. intros x Hx%list_elem_of_In.
    rewrite Forall_forall in Hr. apply between_spec. specialize (Hr x Hx). lia.
  - rewrite Hp. apply field_dups_nodup; [|rewrite take_pad by done; by eapply NoDup_fmap_1].
    rewrite pad_fields_100, length_app by done. rewrite Hlen. apply Nat.le_trans with NFLDS; [by apply Nat.leb_le|lia].
  - apply Forall_fmap. apply Forall_true. intros f. simpl. apply (rc_val_int f), Hv.
  - unfold win_checks. pose proof (Hv sortindx) as H1. pose proof (Hv maxtasks) as H2. pose proof (Hv graph_cpus) as H3.
    pose proof (Hv graph_mems) as H4. pose proof (Hv double_up) as H5. pose proof (Hv combine_cpus) as H6.
    unfold rcv, rc_val in *. unfold between. repeat (apply andb_true_intro; split); apply Z.leb_le; lia.
  - unfold clr_checks. apply forallb_forall. intros f Hf%list_elem_of_In. apply between_spec.
    pose proof (Hv f) as H. unfold rcv in H. revert Hf H. unfold clr_fields. rewrite !elem_of_cons.
    intros [->|[->|[->|[->|[]%not_elem_of_nil]]]]; simpl; lia.
Qed.

Lemma top_inv_ok t : top_inv t -> rc_ok t.
Proof.
  intros [Hw ? ? ? ? ? ? ? ? _ _]. split; try done. eapply Forall_impl; [exact Hw|]. apply win_inv_ok.
Qed.

(** *** What keeps a window right *)

Lemma win_inv_set w f v : f <> maxpflgs -> win_inv w -> win_inv (set_w f v w).
Proof.
  intros Hf [H1 H2 H3 H4]. split; [done..|]. unfold flags_ok in *. cbn [w_int set_w procflgs] in *.
  by rewrite fn_lookup_insert_ne.
Qed.

Lemma win_inv_sw w f v : rc_val f v -> win_inv w -> win_inv (sw f v w).
Proof.
  intros Hv [H1 H2 H3 H4]. split; [done..| |done]. intros g. unfold rcv, sw, on_rc, set_rc. simpl.
  destruct (decide (g = f)) as [->|Hg]; [by rewrite fn_lookup_insert|rewrite fn_lookup_insert_ne by done; apply H3].
Qed.

Lemma win_inv_find w x : win_inv w -> win_inv (set_find x w).
Proof. intros [? ? ? ?]. by split. Qed.
Lemma win_inv_osel w x : win_inv w -> win_inv (set_osel x w).
Proof. intros [? ? ? ?]. by split. Qed.

(** Machine integers are closed under the operations on bits. *)
Lemma in_int_shift v : in_int v <-> Z.shiftr v 31 = 0 \/ Z.shiftr v 31 = -1.
Proof.
  unfold in_int, INT_MIN, INT_MAX. rewrite Z.shiftr_div_pow2 by lia. change (2 ^ 31) with 2147483648.
  pose proof (Z.div_mod v 2147483648 ltac:(lia)). pose proof (Z.mod_pos_bound v 2147483648 ltac:(lia)).
  split; intros; lia.
Qed.

Lemma in_int_lor a b : in_int a -> in_int b -> in_int (Z.lor a b).
Proof. rewrite !in_int_shift, Z.shiftr_lor. by intros [-> | ->] [-> | ->]; auto. Qed.
Lemma in_int_land a b : in_int a -> in_int b -> in_int (Z.land a b).
Proof. rewrite !in_int_shift, Z.shiftr_land. by intros [-> | ->] [-> | ->]; auto. Qed.
Lemma in_int_lxor a b : in_int a -> in_int b -> in_int (Z.lxor a b).
Proof. rewrite !in_int_shift, Z.shiftr_lxor. by intros [-> | ->] [-> | ->]; auto. Qed.
Lemma in_int_lnot a : in_int a -> in_int (Z.lnot a).
Proof. unfold in_int, INT_MIN, INT_MAX, Z.lnot. lia. Qed.

Lemma win_inv_flags w (h : Z -> Z) : (forall v, in_int v -> in_int (h v)) -> win_inv w -> win_inv (sw winflags (h (rcv w winflags)) w).
Proof. intros Hh Hw. apply win_inv_sw; [|done]. apply Hh, (inv_vals w Hw winflags). Qed.
Lemma win_inv_SET w f : in_int f -> win_inv w -> win_inv (SETw f w).
Proof. intros Hf. apply (win_inv_flags w (fun v => Z.lor v f)). intros. by apply in_int_lor. Qed.
Lemma win_inv_TOG w f : in_int f -> win_inv w -> win_inv (TOGw f w).
Proof. intros Hf. apply (win_inv_flags w (fun v => Z.lxor v f)). intros. by apply in_int_lxor. Qed.
Lemma win_inv_OFF w f : in_int f -> win_inv w -> win_inv (OFFw f w).
Proof. intros Hf. apply (win_inv_flags w (fun v => Z.land v (Z.lnot f))). intros. by apply in_int_land, in_int_lnot. Qed.

Lemma win_inv_names w n : word (take 3 n) -> win_inv w -> win_inv (Topdata.win_names n w).
Proof. intros Hn [H1 H2 H3 H4]. by split. Qed.
#[export] Hint Resolve win_inv_find win_inv_osel : keys.
#[export] Hint Extern 2 (win_inv (set_w _ _ _)) => apply win_inv_set; [done|] : keys.
#[export] Hint Extern 2 (win_inv (SETw _ _)) => apply win_inv_SET; [done|] : keys.
#[export] Hint Extern 2 (win_inv (TOGw _ _)) => apply win_inv_TOG; [done|] : keys.
#[export] Hint Extern 2 (win_inv (OFFw _ _)) => apply win_inv_OFF; [done|] : keys.
#[export] Hint Extern 2 (win_inv (sw _ _ _)) => apply win_inv_sw; [done|] : keys.

(** *** Moving and switching fields *)

Definition swap_list (i j : nat) (l : list Z) : list Z := <[j := nth i l 0]> (<[i := nth j l 0]> l).
Definition transpose (i j k : nat) : nat := if decide (k = j) then i else if decide (k = i) then j else k.

Lemma swap_lookup i j l k : (i < length l)%nat -> (j < length l)%nat -> swap_list i j l !! k = l !! transpose i j k.
Proof.
  intros Hi Hj. unfold swap_list, transpose. destruct (lookup_lt_is_Some_2 l i Hi) as [a Ha]. destruct (lookup_lt_is_Some_2 l j Hj) as [b Hb].
  rewrite !nth_lookup, Ha, Hb. simpl. destruct (decide (k = j)) as [->|Hkj].
  - by rewrite list_lookup_insert_eq by (by rewrite length_insert).
  - rewrite list_lookup_insert_ne by done. destruct (decide (k = i)) as [->|Hki]; [by rewrite list_lookup_insert_eq|].
    by rewrite list_lookup_insert_ne.
Qed.

Lemma swap_forall (P : Z -> Prop) i j l : (i < length l)%nat -> (j < length l)%nat -> Forall P l -> Forall P (swap_list i j l).
Proof.
  intros Hi Hj H. apply Forall_lookup. intros k x Hx. rewrite swap_lookup in Hx by done. by apply (Forall_lookup_1 _ _ _ _ H Hx).
Qed.

Lemma swap_nodup (h : Z -> Z) i j l : (i < length l)%nat -> (j < length l)%nat -> NoDup (map h l) -> NoDup (map h (swap_list i j l)).
Proof.
  intros Hi Hj. rewrite !NoDup_alt. intros H k k' x. rewrite !list_lookup_fmap, !swap_lookup by done.
  rewrite <- !list_lookup_fmap. intros H1 H2. pose proof (H _ _ _ H1 H2) as E. unfold transpose in E. repeat case_decide; congruence.
Qed.

Lemma swap_take n i j l : (i < n)%nat -> (j < n)%nat -> take n (swap_list i j l) = swap_list i j (take n l).
Proof.
  intros Hi Hj. unfold swap_list. rewrite !take_insert_lt, !nth_lookup by done. by rewrite !lookup_take_lt by done.
Qed.

Lemma swap_pad i j p : length p = NFLDS -> (i < NFLDS)%nat -> (j < NFLDS)%nat -> swap_list i j (pad_fields p) = pad_fields (swap_list i j p).
Proof.
  intros Hp Hi Hj. assert (length (swap_list i j p) = NFLDS) as Hs by (unfold swap_list; by rewrite !length_insert).
  rewrite !pad_fields_100 by done. unfold swap_list. rewrite !nth_lookup, !lookup_app_l by lia.
  rewrite !insert_app_l by (rewrite ?length_insert; lia). done.
Qed.

Lemma field_lt i : (i < Z.to_nat EU_MAXPFLGS)%nat -> (i < NFLDS)%nat.
Proof. intros H. apply Nat.lt_le_trans with (1 := H). by apply Nat.leb_le. Qed.

Lemma fields_len (p : list Z) : length p = NFLDS -> length (take (Z.to_nat EU_MAXPFLGS) p) = Z.to_nat EU_MAXPFLGS.
Proof. intros H. rewrite length_take, H. done. Qed.

Lemma fields_inv_swap i j l : (i < Z.to_nat EU_MAXPFLGS)%nat -> (j < Z.to_nat EU_MAXPFLGS)%nat ->
  fields_inv l -> fields_inv (swap_list i j l).
Proof.
  intros Hi Hj (p & -> & Hlen & Hnz & Hr & Hd). pose proof (field_lt i Hi). pose proof (field_lt j Hj).
  pose proof (fields_len p Hlen). exists (swap_list i j p). rewrite swap_pad, swap_take by done.
  split_and!; [done|unfold swap_list; by rewrite !length_insert|apply swap_forall; [lia..|done]|apply swap_forall; [lia..|done]|
    apply swap_nodup; [lia..|done]].
Qed.

Lemma FLDget_tog x : FLDget_of (Z.lxor x FLDon) = FLDget_of x.
Proof. unfold FLDget_of, FLDon. by rewrite Z.shiftr_lxor, Z.lxor_0_r. Qed.

Lemma FLDget_pos x : 0 <= FLDget_of x -> x <> 0.
Proof. unfold FLDget_of, FLD_OFFSET. intros H ->. by vm_compute in H. Qed.

Definition tog_list (i : nat) : list Z -> list Z := alter (fun x => Z.lxor x FLDon) i.

Lemma tog_get i l : map FLDget_of (tog_list i l) = map FLDget_of l.
Proof.
  revert i. induction l as [|x l IH]; intros [|i]; try done; unfold tog_list in *; cbn; [by rewrite FLDget_tog|]. f_equal. apply IH.
Qed.

Lemma fields_inv_tog i l : (i < Z.to_nat EU_MAXPFLGS)%nat -> fields_inv l -> fields_inv (tog_list i l).
Proof.
  intros Hi (p & -> & Hlen & Hnz & Hr & Hd). pose proof (field_lt i Hi) as Hi'. exists (tog_list i p).
  assert (Hlen' : length (tog_list i p) = NFLDS) by (unfold tog_list; by rewrite length_alter).
  assert (Ht : take (Z.to_nat EU_MAXPFLGS) (tog_list i p) = tog_list i (take (Z.to_nat EU_MAXPFLGS) p)).
  { unfold tog_list. by rewrite take_alter_lt. }
  assert (Hr' : Forall (fun x => 0 <= FLDget_of x < EU_MAXPFLGS) (tog_list i (take (Z.to_nat EU_MAXPFLGS) p))).
  { assert (Forall (fun z => 0 <= z < EU_MAXPFLGS) (map FLDget_of (tog_list i (take (Z.to_nat EU_MAXPFLGS) p)))) as Hf
      by (rewrite tog_get; by apply Forall_fmap). by apply Forall_fmap in Hf. }
  split_and!; [|done| |by rewrite Ht|by rewrite Ht, tog_get].
  - rewrite !pad_fields_100 by done. unfold tog_list. by rewrite alter_app_l by lia.
  - apply Forall_lookup. intros k x Hx. destruct (decide (k = i)) as [->|Hk].
    + split.
      * apply FLDget_pos. apply (Forall_lookup_1 _ _ i x Hr'). rewrite <- Ht, lookup_take_lt by done. done.
      * unfold tog_list in Hx. rewrite list_lookup_alter_eq in Hx. destruct (p !! i) as [y|] eqn:Ey; [|done].
        simpl in Hx. injection Hx as <-. apply in_int_lxor; [apply (Forall_lookup_1 _ _ i y Hnz Ey)|done].
    + unfold tog_list in Hx. rewrite list_lookup_alter_ne in Hx by done. apply (Forall_lookup_1 _ _ k x Hnz Hx).
Qed.

(** *** The invariant and the updates that keep it *)

Definition delay_fine (d : Z) : Prop := exists whole frac, delay_parts d = Some (whole, frac) /\ 0 <= whole.

(** A line that may be typed: as a name it has no blank, as a delay it is one that
    can be written. *)
Definition line_ok (radix : Z) (l : bytes) : Prop :=
  Forall (fun c => isspace c = false) (take 3 l) /\
  forall d, get_float radix l false = Some d -> - one < d -> delay_fine d.

Definition cs_ok (c : Z * Z * Z * Z * Z) : Prop :=
  let '(f, su, ms, he, ta) := c in in_int f /\ 0 <= su <= 255 /\ 0 <= ms <= 255 /\ 0 <= he <= 255 /\ 0 <= ta <= 255.

(** The values a setting may have. *)
Definition g_val (f : gfield) (v : Z) : Prop :=
  match f with
  | mode_altscr | mode_irixps | zero_suppress => v = 0 \/ v = 1
  | fixed_widest => -1 <= v <= SCREENMAX
  | summ_mscale => 0 <= v <= SK_Eb
  | task_mscale => 0 <= v <= SK_Pb
  | tics_scaled => 0 <= v <= TICS_AS_LAST
  | max_colors => False
  | Cpu_cnt => v <= 2 ^ 30
  | _ => True
  end.

Section saved.
Variable radix : Z.
  (** Whether the terminal is known to have colours. *)
Variable colored : Prop.

Definition top_invc (t : top) : Prop := top_inv t /\ (colored -> 0 < g_int t max_colors).
Definition rcI : kst -> Prop := kinv top_invc (line_ok radix) (fun _ => True) cs_ok.

Lemma inv_set_g f v t : g_val f v -> top_invc t -> top_invc (set_g f v t).
Proof.
  intros Hv [[H1 H2 H3 H4 H5 H6 H7 H8 H9 H10 H11] Hc].
  assert (Hg : forall (P : Z -> Prop) g, P (g_int t g) -> (g = f -> P v) -> P (g_int (set_g f v t) g)).
  { intros P g HP Hf. simpl. destruct (decide (g = f)) as [->|Hg]; [rewrite fn_lookup_insert; auto|by rewrite fn_lookup_insert_ne]. }
  split; [split; try done|].
  - repeat (apply Forall_cons in H3 as [? H3]). repeat (constructor; [apply (Hg (fun x => x = 0 \/ x = 1)); [done|by intros <-]|]). constructor.
  - apply (Hg (fun x => -1 <= x <= SCREENMAX)); [done|by intros <-].
  - apply (Hg (fun x => 0 <= x <= SK_Eb)); [done|by intros <-].
  - apply (Hg (fun x => 0 <= x <= SK_Pb)); [done|by intros <-].
  - apply (Hg (fun x => 0 <= x <= TICS_AS_LAST)); [done|by intros <-].
  - apply (Hg (fun x => x <= 256)); [done|by intros <-].
  - apply (Hg (fun x => x <= 2 ^ 30)); [done|by intros <-].
  - intros C. apply (Hg (fun x => 0 < x)); [auto|by intros <-].
Qed.

Lemma inv_on_win i h t : (forall w, win_inv w -> win_inv (h w)) -> top_invc t -> top_invc (on_win i h t).
Proof.
  intros Hh [[H1 H2 H3 H4 H5 H6 H7 H8 H9 H10 H11] Hc]. split; [split; try done|done]; simpl; [|by rewrite length_alter].
  apply Forall_lookup. intros k w Hk. destruct (decide (k = i)) as [->|Hki].
  - rewrite list_lookup_alter_eq in Hk. destruct (Winstk t !! i) as [w0|] eqn:E; [|done]. simpl in Hk. injection Hk as <-.
    apply Hh. by apply (Forall_lookup_1 _ _ i w0 H1).
  - rewrite list_lookup_alter_ne in Hk by done. by apply (Forall_lookup_1 _ _ k w H1).
Qed.

Lemma inv_map h t : (forall w, win_inv w -> win_inv (h w)) -> top_invc t -> top_invc (set_wins (map h (Winstk t)) t).
Proof.
  intros Hh [[H1 H2 H3 H4 H5 H6 H7 H8 H9 H10 H11] Hc]. split; [split; try done|done]; simpl; [|by rewrite length_map].
  apply Forall_fmap. eapply Forall_impl; [exact H1|]. apply Hh.
Qed.

Lemma inv_set_cur i t : (i < GROUPSMAX)%nat -> top_invc t -> top_invc (set_cur i t).
Proof. intros Hi [[H1 H2 H3 H4 H5 H6 H7 H8 H9 H10 H11] Hc]. by split; [split|]. Qed.
Lemma inv_set_hide l t : top_invc t -> top_invc (set_hide l t).
Proof. intros [[H1 H2 H3 H4 H5 H6 H7 H8 H9 H10 H11] Hc]. by split; [split|]. Qed.
Lemma inv_set_delay d t : delay_fine d -> top_invc t -> top_invc (set_delay d t).
Proof. intros Hd [[H1 H2 H3 H4 H5 H6 H7 H8 H9 H10 H11] Hc]. by split; [split|]. Qed.

Lemma next_lt i : (next_win i < GROUPSMAX)%nat.
Proof. apply Nat.mod_upper_bound. done. Qed.
Lemma prev_lt i : (prev_win i < GROUPSMAX)%nat.
Proof. apply Nat.mod_upper_bound. done. Qed.

Lemma inv_select key t : top_invc t -> top_invc (win_select key t).
Proof.
  intros H. unfold win_select. destruct (_ =? _); [apply inv_set_cur; [apply next_lt|done]|].
  destruct (_ =? _); [apply inv_set_cur; [apply prev_lt|done]|].
  destruct (Z.leb_spec 49 key), (Z.leb_spec key 52); simpl; try done. apply inv_set_cur; [unfold GROUPSMAX; lia|done].
Qed.

Lemma win_inv_reset w : win_inv w -> win_inv (win_reset_w w).
Proof. intros H. unfold win_reset_w, osel_clear. cbn [foldl]. eauto 20 with keys. Qed.

Lemma inv_reset i t : top_invc t -> top_invc (win_reset i t).
Proof. intros H. apply inv_on_win; [apply win_inv_reset|]. apply inv_set_g; [done|]. by apply inv_set_g. Qed.

Lemma inv_reflag what flg t : in_int flg -> top_invc t -> top_invc (wins_reflag what flg t).
Proof.
  intros Hf. unfold wins_reflag. generalize (ring (Curwin t)). intros l. revert t. induction l as [|i l IH]; intros t Ht; [done|].
  cbn [foldl]. apply IH. unfold reflag_one.
  assert (top_invc (on_win i (match what with Flags_TOG => TOGw flg | Flags_SET => SETw flg | Flags_OFF => OFFw flg end) t)).
  { apply inv_on_win; [|done]. intros w Hw. destruct what; [by apply win_inv_TOG|by apply win_inv_SET|by apply win_inv_OFF]. }
  destruct (_ =? _); [by apply inv_reset|done].
Qed.

Lemma rc_modify h : (forall t, top_invc t -> top_invc (h t)) -> keeps rcI (modify h).
Proof. apply keeps_modify. Qed.
Lemma rc_cur h : (forall w, win_inv w -> win_inv (h w)) -> keeps rcI (cur h).
Proof. intros H. apply rc_modify. intros t. by apply inv_on_win. Qed.
Lemma rc_get : holds rcI get top_invc.
Proof. apply holds_get. Qed.
Lemma rc_ioline : holds rcI ioline (line_ok radix).
Proof. apply holds_ioline. Qed.
Lemma rc_iokey : holds rcI iokey (fun _ => True).
Proof. apply holds_iokey. Qed.
Lemma rc_curwin : holds rcI curwin win_inv.
Proof. apply holds_curwin. intros t [Ht _]. by apply inv_wins. Qed.
Lemma rc_ask_int : holds rcI ask_int in_int.
Proof. apply holds_ask_int. Qed.
Lemma rc_call c : keeps rcI (call c).
Proof. by apply keeps_call. Qed.
Lemma rc_msg m : keeps rcI (show_msg m).
Proof. apply rc_call. Qed.
Lemma rc_defined {A} (o : option A) : holds rcI (defined o) (fun a => o = Some a).
Proof. apply holds_defined. Qed.
Lemma rc_save c : cs_ok c -> keeps rcI (save_clr c).
Proof. apply keeps_save_clr. Qed.
Lemma rc_saved : holds rcI saved_clr cs_ok.
Proof. apply holds_saved_clr. Qed.
Lemma rc_saved_idle : holds rcI saved_idle (fun _ => True).
Proof. intros s Hs. by split. Qed.
Lemma rc_save_idle x : keeps rcI (save_idle x).
Proof. intros s Hs. by split. Qed.

Lemma rc_delay : holds rcI (ask_float radix) (fun d => - one < d -> delay_fine d).
Proof.
  eapply holds_bind; [apply rc_ioline|]. intros l [_ Hl]. eapply holds_weaken; [apply rc_defined|]. intros d Hd. by apply Hl.
Qed.
End saved.
#[export] Hint Resolve rc_get rc_ioline rc_iokey rc_curwin rc_ask_int rc_msg rc_call rc_defined rc_saved rc_saved_idle rc_save_idle rc_delay : keys.
#[export] Hint Extern 3 (keeps (rcI _ _) (cur _)) => apply rc_cur; intros ? ?; cbv beta zeta : keys.
#[export] Hint Extern 3 (keeps (rcI _ _) (modify _)) => apply rc_modify; intros ? ?; cbv beta zeta : keys.
#[export] Hint Resolve inv_select inv_set_hide inv_reset : keys.
#[export] Hint Extern 3 (top_invc _ (on_cur _ _)) => apply inv_on_win; [intros ? ?|] : keys.
#[export] Hint Extern 3 (top_invc _ (mkVIZrow1 _)) => apply inv_on_win; [intros ? ?|] : keys.
#[export] Hint Extern 3 (top_invc _ (mkVIZrowX _ _)) => apply inv_on_win; [intros ? ?|] : keys.
#[export] Hint Extern 3 (top_invc _ (set_g _ _ _)) => apply inv_set_g; [done|] : keys.
#[export] Hint Extern 3 (win_inv (match ?x with _ => _ end)) => destruct x : keys.

Section saved_keys.
Variable radix : Z.
Variable colored : Prop.
#[local] Abbreviation I := (rcI radix colored).

Lemma rc_adj : keeps I adj_double.
Proof. unfold adj_double. ksolve. Qed.
Lemma rc_viztog f : in_int f -> keeps I (VIZTOGw f).
Proof. intros Hf. unfold VIZTOGw. ksolve. Qed.
Lemma rc_row_pid w : holds I (row_pid w) (fun _ => True).
Proof. unfold row_pid. destruct (_ <? 0); [apply holds_undef|]. eapply holds_weaken; [apply rc_defined|done]. Qed.
#[local] Hint Resolve rc_adj : keys.

Lemma win_inv_unSCRL w : win_inv w -> win_inv (unSCRL w).
Proof. intros H. unfold unSCRL. eauto 10 with keys. Qed.

Lemma win_inv_fields w l : fields_inv l -> win_inv w -> win_inv (on_rc (set_fields l) w).
Proof. intros Hl [H1 H2 H3 H4]. by split. Qed.

Lemma win_inv_swap i j w : (i < Z.to_nat EU_MAXPFLGS)%nat -> (j < Z.to_nat EU_MAXPFLGS)%nat -> win_inv w -> win_inv (swap_fields i j w).
Proof.
  intros Hi Hj H. unfold swap_fields. apply win_inv_fields; [|by apply win_inv_unSCRL].
  apply (fields_inv_swap i j), (inv_fields w H); done.
Qed.

Lemma win_inv_tog i w : (i < Z.to_nat EU_MAXPFLGS)%nat -> win_inv w -> win_inv (FLDtog i w).
Proof. intros Hi H. apply (win_inv_fields w (tog_list i (fieldscur (rc w)))); [|done]. apply fields_inv_tog, (inv_fields w H). done. Qed.

Lemma FLDget_range w i : (i < Z.to_nat EU_MAXPFLGS)%nat -> win_inv w -> 0 <= FLDget w i < EU_MAXPFLGS.
Proof.
  intros Hi H. destruct (inv_fields w H) as (p & Hp & Hlen & _ & Hr & _). unfold FLDget. rewrite Hp, pad_fields_100 by done.
  pose proof (field_lt i Hi). destruct (lookup_lt_is_Some_2 p i) as [x Hx]; [lia|].
  rewrite nth_lookup, lookup_app_l, Hx by lia. simpl. apply (Forall_lookup_1 _ _ i x Hr). by rewrite lookup_take_lt.
Qed.

Lemma spewFI_lt w : (spewFI w < Z.to_nat EU_MAXPFLGS)%nat.
Proof.
  unfold spewFI. destruct (msch _ _ _) as [i|] eqn:E; [by apply msch_nth in E as (_ & ? & _)|].
  destruct (msch _ (ENUcvt _ FLDoff) _) as [i|] eqn:E2; [by apply msch_nth in E2 as (_ & ? & _)|]. by apply Nat.ltb_lt.
Qed.

Definition idx_ok (x : nat * option nat) : Prop :=
  (x.1 < Z.to_nat EU_MAXPFLGS)%nat /\ match x.2 with Some k => (k < Z.to_nat EU_MAXPFLGS)%nat | None => True end.

Lemma idx_ret x : idx_ok x -> holds I (mret x) idx_ok.
Proof. intros H. by apply holds_ret. Qed.

(** Something that keeps the invariant, and then the position. *)
Lemma idx_seq {A} (m : K A) x : keeps I m -> idx_ok x -> holds I (m;; mret x) idx_ok.
Proof. intros Hm Hx. eapply holds_bind; [exact Hm|]. intros a _. by apply idx_ret. Qed.

Lemma rc_fields_key key i p : idx_ok (i, p) -> holds I (fields_key key i p) idx_ok.
Proof.
  intros [Hi Hp]. simpl in Hi, Hp.
  assert (Hgo : forall j, (j < Z.to_nat EU_MAXPFLGS)%nat ->
    holds I (match p with Some k => cur (swap_fields j k);; mret (j, Some j) | None => mret (j, None) end) idx_ok).
  { intros j Hj. destruct p as [k|]; [|by apply idx_ret]. apply idx_seq; [|done]. apply rc_cur. intros w. by apply win_inv_swap. }
  assert (Hhere : holds I (mret (i, p)) idx_ok) by (by apply idx_ret).
  unfold fields_key. destruct (key =? kbd_UP).
  { destruct (Nat.ltb_spec 0 i); [apply Hgo; lia|done]. }
  destruct (key =? kbd_DOWN).
  { destruct (Nat.ltb_spec (S i) (Z.to_nat EU_MAXPFLGS)); [by apply Hgo|done]. }
  destruct (_ || _); [by apply idx_ret|]. destruct (key =? kbd_RIGHT); [by apply idx_ret|].
  destruct (_ || _); [apply idx_ret; split; [|done]; destruct p; simpl; [done|]; by apply Nat.ltb_lt|].
  destruct (_ || _); [apply idx_ret; split; [|done]; destruct p; simpl; [done|]; by apply Nat.ltb_lt|].
  destruct (_ || _).
  { apply idx_seq; [|done]. destruct (held p); [apply keeps_ret|]. apply rc_cur. intros w Hw. by apply win_inv_unSCRL, win_inv_tog. }
  destruct (_ =? _).
  { apply idx_seq; [|done]. destruct (held p); [apply keeps_ret|]. apply rc_cur. intros w Hw. apply win_inv_OFF; [done|].
    apply win_inv_unSCRL, win_inv_sw; [by apply FLDget_range|done]. }
  destruct (_ || _); [|done]. eapply holds_bind; [apply rc_modify; intros t Ht; apply inv_set_cur; [|done]; destruct (_ =? _); [apply next_lt|apply prev_lt]|].
  intros _ _. eapply holds_bind; [apply rc_curwin|]. intros w _. apply idx_ret. split; [apply spewFI_lt|done].
Qed.

Lemma rc_fields_loop fuel : forall i p, idx_ok (i, p) -> keeps I (fields_loop fuel i p).
Proof.
  induction fuel as [|fuel IH]; intros i p Hx; [by intros s|]. cbn [fields_loop].
  eapply holds_bind; [apply rc_iokey|]. intros key _. apply keeps_if; [apply keeps_seq; [apply rc_adj|by apply IH]|].
  eapply holds_bind; [by apply rc_fields_key|]. intros [j q] Hj. apply keeps_if; [ksolve|by apply IH].
Qed.

Lemma rc_fields : keeps I fields_utility.
Proof.
  apply (keeps_fuel _ (fun n => w ← curwin; adj_double;; fields_loop n (spewFI w) None) (fun s => S (length (k_keys s)))).
  intros n. ksolve. apply rc_fields_loop. split; [apply spewFI_lt|done].
Qed.

Definition is_clr (f : rfield) : Prop := f ∈ clr_fields.
Lemma clr_val f v : is_clr f -> 0 <= v <= 255 -> rc_val f v.
Proof. unfold is_clr, clr_fields. rewrite !elem_of_cons. by intros [->|[->|[->|[->|[]%not_elem_of_nil]]]] H. Qed.
Lemma clr_val_inv f w : is_clr f -> win_inv w -> 0 <= rcv w f <= 255.
Proof.
  intros Hf Hw. pose proof (inv_vals w Hw f) as H. revert Hf H. unfold is_clr, clr_fields. rewrite !elem_of_cons.
  by intros [->|[->|[->|[->|[]%not_elem_of_nil]]]].
Qed.

Lemma rc_clrhlp b : keeps I (wins_clrhlp b).
Proof.
  unfold wins_clrhlp. destruct b.
  - eapply holds_bind; [apply rc_curwin|]. intros w Hw. apply keeps_seq; [|ksolve]. apply rc_save.
    exact (conj (inv_vals w Hw winflags) (conj (inv_vals w Hw summclr) (conj (inv_vals w Hw msgsclr)
      (conj (inv_vals w Hw headclr) (inv_vals w Hw taskclr))))).
  - eapply holds_bind; [apply rc_saved|]. intros [[[[f su] ms] he] ta] (H1 & H2 & H3 & H4 & H5). apply rc_cur. intros w Hw.
    repeat (apply win_inv_sw; [done|]). done.
Qed.

Definition clr_ok (x : Z * rfield) : Prop := 0 <= x.1 <= 255 /\ is_clr x.2.
End saved_keys.

Section saved_colors.
Variable radix : Z.
#[local] Abbreviation I := (rcI radix True).

Lemma rc_colors_key key clr tg : clr_ok (clr, tg) -> holds I (colors_key key clr tg) clr_ok.
Proof.
  intros [Hc Ht]. simpl in Hc, Ht. unfold colors_key. eapply holds_bind; [apply rc_get|]. intros t [Hi Hm]. specialize (Hm Logic.I).
  pose proof (inv_colors t Hi) as Hmax.
  eapply holds_bind; [apply rc_curwin|]. intros w Hw.
  assert (Htg : forall f, is_clr f -> holds I (mret (rcv w f, f)) clr_ok).
  { intros f Hf. apply holds_ret. split; [by apply clr_val_inv|done]. }
  assert (Hseq : forall m : K unit, keeps I m -> forall x, clr_ok x -> holds I (m;; mret x) clr_ok).
  { intros m Hk x Hx. eapply holds_bind; [exact Hk|]. intros _ _. by apply holds_ret. }
  assert (Hput : forall c, 0 <= c <= 255 -> holds I (cur (sw tg c);; mret (c, tg)) clr_ok).
  { intros c Hr. apply Hseq; [|done]. apply rc_cur. intros v Hv. apply win_inv_sw; [by apply clr_val|done]. }
  assert (Hhere : clr_ok (clr, tg)) by done.
  do 4 (destruct (_ =? _); [apply Htg; by apply (bool_decide_unpack _)|]).
  destruct (Z.leb_spec 48 key), (Z.leb_spec key 55); simpl andb; cbv iota; [apply Hput; lia| | |].
  all: destruct (_ =? _); [apply Hput; destruct (Z.leb_spec (g_int t max_colors) (clr + 1)); lia|].
  all: destruct (_ =? _); [apply Hput; destruct (Z.ltb_spec (clr - 1) 0); lia|].
  all: do 3 (destruct (_ =? _); [apply Hseq; [apply rc_cur; intros v Hv; by apply win_inv_TOG|done]|]).
  all: destruct (_ || _); [|by apply holds_ret].
  all: eapply holds_bind; [apply (rc_modify _ _ (win_select key)); intros v Hv; by apply inv_select|]; intros _ _.
  all: eapply holds_bind; [apply (rc_clrhlp _ _ true)|]; intros _ _.
  all: eapply holds_bind; [apply rc_curwin|]; intros v Hv; apply holds_ret; split; [apply clr_val_inv|]; try done; by apply (bool_decide_unpack _).
Qed.

Lemma rc_colors_loop fuel : forall clr tg, clr_ok (clr, tg) -> keeps I (colors_loop fuel clr tg).
Proof.
  induction fuel as [|fuel IH]; intros clr tg Hx; [by intros s|]. cbn [colors_loop].
  eapply holds_bind; [apply rc_iokey|]. intros key _. apply keeps_if; [apply keeps_seq; [apply rc_adj|by apply IH]|].
  apply keeps_if; [apply rc_clrhlp|]. eapply holds_bind; [by apply rc_colors_key|]. intros [c f] Hf.
  apply keeps_if; [apply rc_clrhlp|]. apply keeps_if; [ksolve|by apply IH].
Qed.

Lemma rc_colored s : rcI radix False s -> 0 < g_int (k_top s) max_colors -> I s.
Proof. intros ([H1 _] & H2) Hm. split; [split; [done|by intros _]|done]. Qed.
Lemma rc_uncolored s : I s -> rcI radix False s.
Proof. intros ([H1 _] & H2). split; [split; [done|by intros []]|done]. Qed.

Lemma rc_switch {A} (m : K A) : keeps I m -> forall s, rcI radix False s -> 0 < g_int (k_top s) max_colors ->
    match m s with KOk a s' => rcI radix False s' /\ True | _ => True end.
Proof.
  intros Hk s Hs Hm. specialize (Hk s (rc_colored s Hs Hm)). destruct (m s); [|done..]. destruct Hk. split; [by apply rc_uncolored|done].
Qed.

Lemma rc_colors : keeps (rcI radix False) wins_colors.
Proof.
  intros s Hs. unfold wins_colors. change (match (curwin ≫= fun w =>
     if g_int (k_top s) max_colors <=? 0 then show_msg "COLORS_nomap"
     else wins_clrhlp true;; adj_double;; colors_loop (S (length (k_keys s))) (rcv w taskclr) taskclr) s
   with KOk a s' => rcI radix False s' /\ True | _ => True end).
  destruct (Z.leb_spec (g_int (k_top s) max_colors) 0) as [Hm|Hm].
  - assert (Hk : keeps (rcI radix False) (curwin ≫= fun _ => show_msg "COLORS_nomap")) by ksolve. by apply Hk.
  - assert (Hk : keeps I (curwin ≫= fun w => wins_clrhlp true;; adj_double;;
      colors_loop (S (length (k_keys s))) (rcv w taskclr) taskclr)).
    { eapply holds_bind; [apply rc_curwin|]. intros w Hw. apply keeps_seq; [apply rc_clrhlp|]. apply keeps_seq; [apply rc_adj|].
      apply rc_colors_loop. split; [apply clr_val_inv; [by apply (bool_decide_unpack _)|done]|by apply (bool_decide_unpack _)]. }
    by apply (rc_switch _ Hk).
Qed.
End saved_colors.

Section saved_handlers.
Context (N_col : Z -> bytes) (radix : Z) (getpwuid : Z -> option Z) (getpwnam : bytes -> option Z) (SIGRTMIN : Z)
  (kill_ok prio_ok : Z -> Z -> bool) (task_row : top -> WIN_t -> nat -> bytes) (Myname : bytes) (rc_opened : bool).
#[local] Abbreviation I := (rcI radix False).
#[local] Hint Resolve rc_adj rc_row_pid rc_fields rc_colors : keys.
#[local] Hint Extern 3 (keeps _ (VIZTOGw _)) => by apply rc_viztog : keys.

Lemma rc_help_windows fuel : keeps I (help_windows fuel).
Proof. induction fuel as [|fuel IH]; [by intros s|]. cbn [help_windows]. ksolve. Qed.
#[local] Hint Resolve rc_help_windows : keys.
Lemma rc_help_loop fuel : keeps I (help_loop fuel).
Proof. induction fuel as [|fuel IH]; [by intros s|]. cbn [help_loop]. ksolve. Qed.
Lemma rc_help : keeps I help_view.
Proof. apply (keeps_fuel _ help_loop (fun s => S (length (k_keys s)))), rc_help_loop. Qed.
#[local] Hint Resolve rc_help : keys.

Lemma rc_kill : keeps I (key_kill SIGRTMIN kill_ok).
Proof. unfold key_kill, ask_pid. ksolve. Qed.
Lemma rc_renice : keeps I (key_renice prio_ok).
Proof. unfold key_renice, ask_pid. ksolve. Qed.
Lemma rc_guard k : keeps I k -> keeps I (secure_guard k).
Proof. intros H. unfold secure_guard. ksolve. Qed.

Lemma rc_cycle f hi : (forall v, 0 <= v <= hi -> g_val f v) -> 0 <= hi -> (forall t, top_inv t -> 0 <= g_int t f) -> keeps I (cycle_g f hi).
Proof.
  intros Hv Hh Hg. apply rc_modify. intros t Ht. apply inv_set_g; [|done]. apply Hv. destruct Ht as [Ht _]. specialize (Hg t Ht).
  destruct (Z.ltb_spec hi (g_int t f + 1)); lia.
Qed.
Lemma rc_not f : g_val f 0 -> g_val f 1 -> keeps I (not_g f).
Proof. intros H0 H1. apply rc_modify. intros t Ht. apply inv_set_g; [|done]. by destruct (_ =? 0). Qed.
#[local] Hint Resolve rc_kill rc_renice rc_guard : keys.
#[local] Hint Extern 4 (keeps _ (not_g _)) => apply rc_not; [by (left || idtac)|by (right || idtac)] : keys.

Lemma rc_threads : keeps I key_threads.
Proof.
  unfold key_threads. ksolve. apply rc_modify. intros t Ht. apply inv_set_g; [done|]. apply inv_map; [|done]. intros w Hw. eauto 10 with keys.
Qed.
#[local] Hint Resolve rc_threads : keys.

Lemma rc_delay_key : keeps I (d ← ask_float radix; when (- one <? d) (modify (set_delay d))).
Proof.
  eapply holds_bind; [apply rc_delay|]. intros d Hd. destruct (Z.ltb_spec (- one) d); [|ksolve]. apply rc_modify. intros t Ht.
  apply inv_set_delay; [by apply Hd|done].
Qed.

Lemma rc_global ch : keeps I (keys_global radix SIGRTMIN kill_ok prio_ok ch).
Proof.
  unfold keys_global, ask_pid. ksolve.
  - apply rc_guard, rc_delay_key.
  - apply rc_cycle; [done|done|]. intros t Ht. apply (inv_summ t Ht).
  - apply rc_cycle; [done|done|]. intros t Ht. apply (inv_task t Ht).
  - apply rc_modify. intros t Ht. apply inv_set_g; [|done]. simpl.
    destruct (between 0 SCREENMAX a) eqn:E; [apply between_spec in E; lia|unfold SCREENMAX; lia].
  - apply rc_cycle; [done|done|]. intros t Ht. apply (inv_tics t Ht).
Qed.

Lemma rc_node num : keeps I (key_node num).
Proof. unfold key_node. ksolve. Qed.
Lemma rc_graph v g : in_int v -> g = graph_cpus \/ g = graph_mems -> keeps I (graph_toggle v g).
Proof.
  intros Hv Hg. apply rc_cur. intros w Hw. destruct (CHKw w v); simpl; [|by apply win_inv_SET].
  pose proof (inv_vals w Hw g) as Hr.
  destruct (Z.ltb_spec 2 (rcv w g + 1)).
  - apply win_inv_OFF; [done|]. apply win_inv_sw; [|done]. by destruct Hg as [-> | ->].
  - apply win_inv_sw; [|done]. destruct Hg as [-> | ->]; simpl in *; lia.
Qed.
Lemma next_combine_range cpus v : cpus <= 2 ^ 30 -> 0 <= v < 2 ^ 30 -> 0 <= next_combine cpus v < 2 ^ 30.
Proof.
  intros Hc Hv. unfold next_combine. destruct (Z.eqb_spec v 0).
  - destruct (Z.leb_spec cpus 1); lia.
  - rewrite i32_small by (unfold INT_MIN, INT_MAX; lia). destruct (Z.leb_spec cpus (v * 2)); lia.
Qed.
#[local] Hint Resolve rc_node : keys.
#[local] Hint Extern 4 (keeps _ (graph_toggle _ _)) => apply rc_graph; [done|auto] : keys.

Lemma rc_summary ch : keeps I (keys_summary ch).
Proof.
  unfold keys_summary. ksolve; apply rc_cur; intros w Hw.
  - apply win_inv_sw; [|done]. apply next_combine_range; [apply (inv_cpus a), H|apply (inv_vals w Hw combine_cpus)].
  - destruct (CHKw w View_CPUNOD); eauto 20 with keys.
  - set (w1 := if g_int a Numa_node_sel <? 0 then _ else _). assert (win_inv w1) by (unfold w1; destruct (_ <? 0); eauto 20 with keys).
    destruct (CHKw w1 View_CPUNOD); eauto 20 with keys.
  - apply win_inv_sw; [|done]. destruct (_ =? 0); simpl; lia.
Qed.

(** The neighbours of the sort field are fields. *)
Lemma last_pos_lookup l v : forall i f k, last_pos l v i f = Some k -> f = Some k \/ (i <= k)%nat /\ l !! (k - i)%nat = Some v.
Proof.
  induction l as [|x l IH]; intros i f k Hk; simpl in Hk; [by left|].
  destruct (IH _ _ _ Hk) as [Hf|[Hi Hl]].
  - destruct (Z.eqb_spec x v) as [->|]; [|by left]. injection Hf as ->. right. split; [done|]. by rewrite Nat.sub_diag.
  - right. split; [lia|]. by replace (k - i)%nat with (S (k - S i)) by lia.
Qed.

Lemma entry_field l i x : Forall entry_ok l -> l !! i = Some x -> is_field x = true -> 0 <= x < EU_MAXPFLGS.
Proof.
  intros Hl Hx Hf. destruct (Forall_lookup_1 _ _ i x Hl Hx) as [?|[->| ->]]; [done|discriminate Hf..].
Qed.

Lemma entry_mark l i x : Forall entry_ok l -> l !! i = Some x -> (EU_MAXPFLGS <? x) = negb (is_field x).
Proof.
  intros Hl Hx. unfold is_field. destruct (Forall_lookup_1 _ _ i x Hl Hx) as [?|[->| ->]]; [|done..].
  destruct (Z.ltb_spec EU_MAXPFLGS x), (Z.ltb_spec x EU_MAXPFLGS); simpl; lia.
Qed.

Lemma sort_left_field w f : win_inv w -> sort_left w = Some f -> 0 <= f < EU_MAXPFLGS.
Proof.
  intros Hw. destruct (inv_flags w Hw) as (_ & He & Ha). unfold sort_left, shown_entries.
  set (l := take _ _) in *. destruct (last_pos l (rcv w sortindx) 0 None) as [[|i]|] eqn:E; [done| |done].
  apply last_pos_lookup in E as [?|[_ E]]; [done|]. rewrite Nat.sub_0_r in E.
  destruct (l !! i) as [x|] eqn:Ex; [|done]. cbn [mbind option_bind]. rewrite (entry_mark l i x) by done.
  destruct (is_field x) eqn:Ef; cbn [negb]; [intros [= <-]; by eapply entry_field|].
  destruct i as [|j]; [done|]. intros Hj. destruct (Ha j f x Hj Ex) as [Hf|Hf]; [by eapply entry_field|congruence].
Qed.

Lemma sort_right_field w f : win_inv w -> sort_right w = Some f -> 0 <= f < EU_MAXPFLGS.
Proof.
  intros Hw. destruct (inv_flags w Hw) as (_ & He & Ha). unfold sort_right, shown_entries.
  set (l := take _ _) in *. destruct (last_pos l (rcv w sortindx) 0 None) as [i|] eqn:E; [|done].
  destruct (l !! S i) as [x|] eqn:Ex; [|done]. cbn [mbind option_bind]. rewrite (entry_mark l (S i) x) by done.
  destruct (is_field x) eqn:Ef; cbn [negb]; [intros [= <-]; by eapply entry_field|].
  intros Hj. destruct (Ha (S i) x f Ex Hj) as [Hf|Hf]; [congruence|by eapply entry_field].
Qed.

Lemma win_inv_move next w : (forall f, next w = Some f -> 0 <= f < EU_MAXPFLGS) -> win_inv w -> win_inv (move_sort next w).
Proof.
  intros Hn Hw. unfold move_sort. destruct (next w) as [f|]; [|done]. apply win_inv_OFF; [done|]. apply win_inv_sw; [by apply Hn|done].
Qed.

Lemma osel_add_inv width ch glob push w : win_inv w -> win_inv (osel_add N_col width ch glob push w).2.
Proof.
  intros Hw. unfold osel_add. destruct glob; [done|]. destruct (existsb _ _); [done|].
  destruct (parse_osel _ _ _ _); [done|]. simpl. eauto 10 with keys.
Qed.

Lemma certify_inv str typ w : win_inv w -> win_inv (user_certify getpwuid getpwnam str typ w).2.
Proof.
  intros Hw. unfold user_certify. destruct str as [|c r]; [simpl; eauto 10 with keys|].
  destruct (c =? 33); destruct (certify_uid _ _ _); simpl; eauto 10 with keys.
Qed.

Lemma rc_filters ch : keeps I (other_filters N_col ch).
Proof.
  unfold other_filters. ksolve; pose proof (osel_add_inv (width_of a0) ch a true a1 H1) as Hw; rewrite Heqp in Hw; simpl in Hw;
    apply rc_cur; intros; eauto with keys.
Qed.
#[local] Hint Resolve rc_filters : keys.

Lemma rc_idle : keeps I key_idle.
Proof. unfold key_idle. ksolve. Qed.
Lemma rc_hicols w : keeps I (key_hicols w).
Proof. unfold key_hicols. ksolve. apply rc_cur. intros v Hv. cbv zeta. destruct (_ <? _); eauto 10 with keys. Qed.
#[local] Hint Resolve rc_idle rc_hicols : keys.

Lemma rc_maxtasks : keeps I (num ← ask_int;
  when (GET_NUM_NOT <? num) (if -1 <? num then cur (sw maxtasks num) else show_msg "BAD_max_task")).
Proof.
  eapply holds_bind; [apply rc_ask_int|]. intros n Hn. apply keeps_when. destruct (Z.ltb_spec (-1) n); [|ksolve].
  apply rc_cur. intros w Hw. apply win_inv_sw; [|done]. destruct Hn. simpl. lia.
Qed.
#[local] Hint Resolve rc_maxtasks : keys.

Lemma rc_task ch : keeps I (keys_task N_col getpwuid getpwnam ch).
Proof.
  unfold keys_task. ksolve; apply rc_cur; intros v Hv.
  - apply win_inv_move; [|done]. intros f. by apply sort_left_field.
  - apply win_inv_move; [|done]. intros f. by apply sort_right_field.
  - pose proof (certify_inv a1 ch a2 H2) as Hw. match goal with E : user_certify _ _ _ _ _ = _ |- _ => rewrite E in Hw end. done.
Qed.

Lemma rc_find ch : keeps I (find_string task_row ch).
Proof.
  unfold find_string, find_next. ksolve. apply rc_cur. intros w Hw. destruct (snprintf FNDBUFSIZ a0); eauto with keys.
Qed.
#[local] Hint Resolve rc_find : keys.

Lemma win_inv_left t w : win_inv w -> win_inv (scroll_left t w).
Proof. intros Hw. unfold scroll_left. repeat case_match; eauto with keys. Qed.
Lemma win_inv_right t w : win_inv w -> win_inv (scroll_right t w).
Proof. intros Hw. unfold scroll_right. repeat case_match; eauto with keys. Qed.

Lemma rc_name : keeps I (str ← ioline;
  let tmp := take (Z.to_nat (SMLBUFSIZ - 1)) str in
  if bool_decide (tmp = []) || bool_decide (head tmp = Some kbd_ESC) then mret tt else cur (Topdata.win_names tmp)).
Proof.
  eapply holds_bind; [apply rc_ioline|]. intros l [Hl _]. cbv zeta.
  destruct (bool_decide_reflect (take (Z.to_nat (SMLBUFSIZ - 1)) l = [])) as [Hne|Hne]; cbn [orb]; [ksolve|]. apply keeps_if; [ksolve|].
  apply rc_cur. intros w Hw. apply win_inv_names; [|done]. rewrite take_take. change (3 `min` Z.to_nat (SMLBUFSIZ - 1))%nat with 3%nat.
  split_and!; [by destruct l|rewrite length_take; lia|done].
Qed.
#[local] Hint Resolve rc_name : keys.

Lemma rc_window ch : keeps I (keys_window task_row ch).
Proof.
  unfold keys_window, row_key. ksolve.
  - apply rc_modify. intros t. by apply inv_reflag.
  - apply rc_modify. intros t. by apply inv_reflag.
  - apply rc_cur. apply win_inv_left.
  - apply rc_cur. apply win_inv_right.
Qed.

Lemma rc_xtra ch : keeps I (keys_xtra ch).
Proof. unfold keys_xtra. ksolve. Qed.
#[local] Hint Resolve rc_global rc_summary rc_task rc_window rc_xtra : keys.

Lemma rc_ask_yes f t : holds I (ask_yes f t) (fun _ => True).
Proof. unfold ask_yes. ksolve. Qed.

Lemma write_rcfile_inv y1 y2 o t r : write_rcfile Myname y1 y2 o t = Some r -> top_invc False t -> top_invc False r.1.
Proof.
  intros H Ht. assert (r.1 = t \/ (exists a, r.1 = set_g Rc_questions a t) \/ (exists a, r.1 = set_g Rc_compatibilty a t) \/
    exists a b, r.1 = set_g Rc_compatibilty a (set_g Rc_questions b t)) as Hr.
  { unfold write_rcfile in H. repeat case_match; try (destruct (rc_text _ _); simpl in H); simplify_eq/=; eauto 10. }
  destruct Hr as [->|[[a ->]|[[a ->]|[a [b ->]]]]]; repeat (apply inv_set_g; [done|]); done.
Qed.

Lemma rc_key_write : keeps I (key_write Myname rc_opened).
Proof.
  unfold key_write. eapply holds_bind; [apply rc_get|]. intros t Ht.
  eapply holds_bind; [apply rc_ask_yes|]. intros y1 _.
  eapply holds_bind; [instantiate (1 := fun _ => True); destruct y1; [apply rc_ask_yes|by apply holds_ret]|]. intros y2 _.
  eapply holds_bind; [apply rc_defined|]. intros r Hr. apply keeps_seq; [|ksolve].
  apply rc_modify. intros _ _. by apply (write_rcfile_inv _ _ _ _ _ Hr).
Qed.
#[local] Hint Resolve rc_key_write : keys.

Lemma rc_do_key ch : keeps I (do_key N_col radix getpwuid getpwnam SIGRTMIN kill_ok prio_ok task_row Myname rc_opened ch).
Proof.
  unfold do_key. eapply holds_bind; [apply rc_get|]. intros t Ht.
  do 4 (apply keeps_if; [ksolve|]).
  destruct (find _ _) as [[func keys]|] eqn:E; [|ksolve]. apply find_some in E as [E _]. simpl in E.
  repeat (destruct E as [[= <- <-]|E]; [ksolve|]). done.
Qed.

  (** *** Frames between the keys *)

Lemma nodup_map_filter (h : Z -> Z) (P : Z -> Prop) `{forall x, Decision (P x)} l : NoDup (map h l) -> NoDup (map h (filter P l)).
Proof.
  induction l as [|x l IH]; [done|]. simpl. intros [Hx Hl]%NoDup_cons. rewrite filter_cons. destruct (decide (P x)); [|by apply IH].
  simpl. apply NoDup_cons. split; [|by apply IH]. intros (y & Hy & [_ Hin]%list_elem_of_filter)%list_elem_of_fmap. apply Hx.
  rewrite Hy. by apply list_elem_of_fmap_2.
Qed.

Lemma win_inv_fields_ok w : win_inv w -> fields_ok w.
Proof.
  intros Hw. destruct (inv_fields w Hw) as (p & Hp & Hlen & _ & Hr & Hd). unfold fields_ok, viz_fields. rewrite Hp, take_pad by done.
  split_and!.
  - apply Forall_fmap, Forall_forall. intros x [_ Hx]%list_elem_of_filter. rewrite Forall_forall in Hr. by apply Hr.
  - by apply nodup_map_filter.
  - apply (inv_vals w Hw sortindx).
Qed.

Lemma calibrate_win_inv t w w' : calibrate_win N_col t w = Some w' -> 1 <= g_int t Screen_cols -> win_inv w -> win_inv w'.
Proof.
  intros E Hc Hw. destruct (calibrate_win_flags N_col t w w' E Hc (win_inv_fields_ok w Hw)) as [Hf Hrc].
  destruct Hw as [H1 H2 H3 H4]. split; [by rewrite Hrc|by rewrite Hrc| |done]. intros f. unfold rcv. rewrite Hrc. apply H3.
Qed.

Lemma inv_set_win i w t : win_inv w -> top_invc False t -> top_invc False (set_wins (<[i := w]> (Winstk t)) t).
Proof.
  intros Hw [[H1 H2 H3 H4 H5 H6 H7 H8 H9 H10 H11] Hc]. split; [split; try done|done]; simpl; [by apply Forall_insert|by rewrite length_insert].
Qed.

Lemma calibrate_one_inv t i t' : calibrate_one N_col t i = Some t' -> 1 <= g_int t Screen_cols -> top_invc False t ->
    top_invc False t' /\ g_int t' = g_int t.
Proof.
  unfold calibrate_one. intros E Hc Ht. destruct (Winstk t !! i) as [w|] eqn:Ew; simpl in E; [|done].
  destruct (VIZISw t w); [|by injection E as <-]. destruct (calibrate_win N_col t w) as [w'|] eqn:Ec; simpl in E; [|done].
  injection E as <-. split; [|done]. apply inv_set_win; [|done]. eapply calibrate_win_inv; [done|done|].
  destruct Ht as [Ht _]. by apply (Forall_lookup_1 _ _ i w (inv_wins t Ht)).
Qed.

Lemma calibrate_inv l : forall t t', each (calibrate_one N_col) t l = Some t' -> 1 <= g_int t Screen_cols -> top_invc False t -> top_invc False t'.
Proof.
  induction l as [|i l IH]; intros t t' E Hc Ht; simpl in E; [by injection E as <-|].
  destruct (calibrate_one N_col t i) as [t1|] eqn:E1; simpl in E; [|done].
  destruct (calibrate_one_inv t i t1 E1 Hc Ht) as [H1 H2]. apply (IH t1); [done|by rewrite H2|done].
Qed.

  (** What a frame meets: the size of the screen and the lines left below the
      summary, the tasks with their forest, and which of them a window selects,
      shows and finds busy. *)
Record display := Display {
    d_cols : Z;
    d_lines : Z;
    d_tasks : list Topforest.task;
    d_lvl : list Z;
    d_tree : list nat;
    d_usr : bool -> nat -> Z -> bool;
    d_row : bool -> nat -> Z -> bool;
    d_busy : nat -> Z -> bool
  }.

  (** The windows of a frame. *)
Definition show_tasks (d : display) (t : top) : option top :=
    option_map snd (Topshow.frame_tasks (d_tasks d) (d_lvl d) (d_tree d) (d_usr d) (d_row d) (d_busy d) (d_lines d) t).

  (** The part of a frame that changes the windows: their columns are laid out,
      their rows are put on the screen. *)
Definition frame (d : display) : K unit :=
    modify (set_g Screen_cols (d_cols d));; adj_double;;
    t ← get; t ← defined (calibrate_wins N_col t); t ← defined (show_tasks d t); modify (fun _ => t).

Inductive event := EKey (ch : Z) | EFrame (d : display).
Definition event_ok (e : event) : Prop := match e with EKey _ => True | EFrame d => W_MIN_COL <= d_cols d <= SCREENMAX end.

Definition run_event (e : event) : K unit :=
    match e with
    | EKey ch => do_key N_col radix getpwuid getpwnam SIGRTMIN kill_ok prio_ok task_row Myname rc_opened ch
    | EFrame d => frame d
    end.
Fixpoint run_events (l : list event) : K unit := match l with [] => mret tt | e :: l => run_event e;; run_events l end.

Lemma adj_double_eq s : adj_double s = KOk tt
    (if g_int (k_top s) Screen_cols <? DOUBLE_limit
     then KSt (on_cur (sw double_up 0) (k_top s)) (k_lines s) (k_keys s) (k_calls s) (i_save s) (c_save s) else s).
Proof. unfold adj_double, mbind, K_bind, get. by destruct (_ <? DOUBLE_limit). Qed.

Lemma window_hlp_inv sel n w : win_inv w -> win_inv (Topshow.window_hlp sel n w).
Proof.
  intros Hw. unfold Topshow.window_hlp. destruct (Topshow.hlp_range n w) as [beg last]. destruct (if _ <=? beg then _ else _) as [bt next].
  apply win_inv_OFF; [done|]. do 2 (apply win_inv_set; [done|]). by apply win_inv_SET.
Qed.

Lemma arrange_inv ts lvl tree w : win_inv w -> win_inv (Topshow.arrange ts lvl tree w).
Proof. intros Hw. unfold Topshow.arrange. destruct (_ && _); [|done]. cbv zeta. by repeat (apply win_inv_set; [done|]). Qed.

Lemma put_first_inv usr row t i : top_invc False t -> top_invc False (Topshow.put_first usr row t i).
Proof.
  intros Ht. unfold Topshow.put_first. destruct (Winstk t !! Curwin t); [|done].
  destruct (negb _); apply inv_on_win; try done; intros; [by apply window_hlp_inv|by apply win_inv_OFF].
Qed.

Lemma window_show_inv ts lvl tree usr row busy t i wmax n rows t' : top_invc False t ->
    Topshow.window_show ts lvl tree usr row busy t i wmax = Some (n, rows, t') -> top_invc False t'.
Proof.
  intros Ht E. unfold Topshow.window_show in E. destruct (_ =? 0); [by injection E as <- <- <-|].
  set (t1 := Topshow.put_first _ _ _ _) in E. destruct (Winstk t1 !! i); [|done]. cbn [mbind option_bind] in E.
  destruct (_ && _ && _); [done|]. injection E as <- <- <-. apply put_first_inv, inv_on_win; [|done]. intros. by apply arrange_inv.
Qed.

Lemma frame_loop_inv ts lvl tree usr row busy max l : forall scr t n rows t', top_invc False t ->
    Topshow.frame_loop ts lvl tree usr row busy l max scr t = Some (n, rows, t') -> top_invc False t'.
Proof.
  induction l as [|i l IH]; intros scr t n rows t' Ht E; cbn [Topshow.frame_loop] in E; [by injection E as <- <- <-|].
  destruct (if Topshow.taskon t i then _ else _) as [[[k r] t1]|] eqn:E1; [|done]. cbn [mbind option_bind] in E.
  assert (H1 : top_invc False t1).
  { destruct (Topshow.taskon t i); [|by injection E1 as <- <- <-].
    destruct (Topshow.window_show _ _ _ _ _ _ _ i _) as [[[k' r'] t2]|] eqn:Ew; [|done]. cbn [mbind option_bind] in E1. injection E1 as <- <- <-.
    eapply window_show_inv; [|exact Ew]. apply inv_on_win; [|done]. intros. by apply win_inv_set. }
  destruct (_ <=? _); [by injection E as <- <- <-|].
  destruct (Topshow.frame_loop _ _ _ _ _ _ l _ _ _) as [[[m more] t2]|] eqn:El; [|done]. cbn [mbind option_bind] in E.
  injection E as <- <- <-. by eapply IH.
Qed.

Lemma show_tasks_inv d t t' : top_invc False t -> show_tasks d t = Some t' -> top_invc False t'.
Proof.
  intros Ht E. unfold show_tasks, Topshow.frame_tasks in E. destruct (_ =? 0).
  - destruct (Topshow.window_show _ _ _ _ _ _ _ _ _) as [[[n rows] t1]|] eqn:Ew; [|done]. injection E as <-.
    eapply window_show_inv; [|exact Ew]. apply inv_on_win; [|done]. intros. by apply win_inv_set.
  - destruct (Topshow.frame_loop _ _ _ _ _ _ _ _ _ _) as [[[n rows] t1]|] eqn:Ew; [|done]. injection E as <-.
    by eapply frame_loop_inv.
Qed.

Lemma rc_frame d : W_MIN_COL <= d_cols d <= SCREENMAX -> keeps I (frame d).
Proof.
  intros Hc s Hs. unfold frame. set (c := d_cols d) in *.
  set (s1 := KSt (set_g Screen_cols c (k_top s)) (k_lines s) (k_keys s) (k_calls s) (i_save s) (c_save s)).
  assert (I s1) as H1 by (destruct Hs as (Ht & Hr); split; [by apply inv_set_g|done]).
  assert (exists s2, adj_double s1 = KOk tt s2 /\ I s2 /\ g_int (k_top s2) Screen_cols = c) as (s2 & E2 & H2 & Hc2).
  { pose proof (rc_adj radix False s1 H1) as Ha. rewrite adj_double_eq in *.
    assert (Hg : g_int (k_top s1) Screen_cols = c) by (simpl; by rewrite fn_lookup_insert).
    destruct Ha as [Ha _]. destruct (g_int (k_top s1) Screen_cols <? DOUBLE_limit); eexists; (split; [reflexivity|]); by split. }
  change (match (adj_double;; t ← get; t ← defined (calibrate_wins N_col t); t ← defined (show_tasks d t); modify (fun _ => t)) s1 with
    KOk a s' => I s' /\ True | _ => True end).
  unfold mbind, K_bind at 1. rewrite E2. cbn -[show_tasks]. destruct (calibrate_wins N_col (k_top s2)) as [t'|] eqn:E; cbn -[show_tasks]; [|done].
  destruct (show_tasks d t') as [t2|] eqn:Es; cbn; [|done].
  split; [|done]. destruct H2 as (Ht & Hr). split; [|done]. cbn. apply (show_tasks_inv d t'); [|done].
  apply (calibrate_inv _ _ _ E); [unfold W_MIN_COL in Hc; lia|done].
Qed.

Lemma rc_run_events l : Forall event_ok l -> keeps I (run_events l).
Proof.
  induction 1 as [|e l He Hl IH]; cbn [run_events]; [ksolve|]. apply keeps_seq; [|done].
  destruct e; [apply rc_do_key|by apply rc_frame].
Qed.
End saved_handlers.


(** *** A session *)

Lemma demo_fields i r : DEF_WINS !! i = Some r -> fields_inv (fieldscur r).
Proof.
  intros H. exists (take NFLDS (fieldscur r)).
  do 4 (destruct i as [|i]; [injection H as <-; split_and!; first [reflexivity|apply (bool_decide_unpack _); vm_compute; exact I]|]). done.
Qed.

Lemma demo_keys_inv : top_inv demo_keys_top.
Proof.
  split; try done.
  - assert (Hw : forall i r w, DEF_WINS !! i = Some r -> rc w = r -> w_int w maxpflgs = 0 -> win_inv w).
    { intros i r w Hr Hrc Hm. pose proof (rcw_default i r Hr) as Hok. split.
      - rewrite Hrc. apply (ok_name r Hok).
      - rewrite Hrc. by apply (demo_fields i).
      - intros f. unfold rcv. rewrite Hrc. do 4 (destruct i as [|i]; [injection Hr as <-; destruct f; vm_compute; by split|]). done.
      - unfold flags_ok. rewrite Hm. simpl. split_and!; [lia|lia|constructor|by intros i' x y]. }
    repeat (constructor; [first [by apply (Hw 0%nat _ _ eq_refl)|by apply (Hw 1%nat _ _ eq_refl)|by apply (Hw 2%nat _ _ eq_refl)|by apply (Hw 3%nat _ _ eq_refl)]|]).
    constructor.
  - repeat constructor; simpl; lia.
  - simpl. unfold GROUPSMAX. lia.
  - exists 3, 0. split; [vm_compute; reflexivity|lia].
Qed.

(** The session with nothing but the keys. *)
#[local] Abbreviation demo_run := (run_events demo_col 46 no_user no_name 34 sys_ok sys_ok no_row (bs "top") true).
#[local] Abbreviation demo_do := (do_keys demo_col 46 no_user no_name 34 sys_ok sys_ok no_row (bs "top") true).

(** A frame, the colours of the summary changed, a field moved down and another
    switched on, the delay changed, the window renamed, another frame. *)
Definition demo_frame (cols : Z) : display :=
  Display cols 20 [] [] [] (fun _ _ _ => true) (fun _ _ _ => true) (fun _ _ => true).
Definition demo_events : list event :=
  [EFrame (demo_frame 80); EKey 65; EKey 90; EKey 102; EKey 100; EKey 71; EKey 62; EKey 118; EFrame (demo_frame 132)].
Definition demo_input : kst :=
  demo_session [bs "1.5"; bs "Xyz"] [83; kbd_UP; kbd_ENTER; kbd_RIGHT; kbd_DOWN; kbd_ENTER; kbd_END; 100; 113] demo_keys_top.

Lemma demo_lines_ok : Forall (line_ok 46) (k_lines demo_input).
Proof.
  repeat constructor.
  - intros d Hd Hlt. assert (get_float 46 (bs "1.5") false = Some (3 * one / 2)) as E by (vm_compute; reflexivity).
    rewrite E in Hd. apply (inj Some) in Hd. subst d. exists 1, 500. split; [vm_compute; reflexivity|lia].
  - intros d Hd Hlt. assert (get_float 46 (bs "Xyz") false = Some (of_intf GET_NUM_BAD)) as E by (vm_compute; reflexivity).
    rewrite E in Hd. apply (inj Some) in Hd. subst d. vm_compute in Hlt. discriminate Hlt.
Qed.

Definition demo_end (r : kres unit) : bool :=
  match r with
  | KOk _ s => forallb (fun w => w_int w osel_tot =? 0) (Winstk (k_top s)) && bool_decide (insp_raw (k_top s) = [])
  | _ => false
  end.

Lemma demo_end_ok r : demo_end r = true -> exists s, r = KOk tt s /\ no_filters (k_top s) /\ insp_body (k_top s) [].
Proof.
  destruct r as [[] s| | |]; [|done..]. simpl. intros [H1 H2%bool_decide_eq_true]%andb_prop. exists s. split_and!; [done| |by split; [right|]].
  apply Forall_forall. intros w Hw. rewrite forallb_forall in H1. apply Z.eqb_eq, H1. by apply list_elem_of_In.
Qed.


(** ** Where a key goes wrong *)

(** What becomes of the file after some keys: read, a bad file, a bad entry for a
    window, or something undefined on the way. *)
Definition after_keys (r : kres unit) : option (cfg unit) :=
  match r with
  | KOk _ s =>
      match rc_text (bs "top") (k_top s) with
      | Some text => Some (match configs_file demo_col [] demo_top text with
                           | COk _ s => COk tt s | CBad => CBad | CEntry i => CEntry i | CUndef => CUndef end)
      | None => None
      end
  | _ => None
  end.

(** The G key accepts a name with a blank, and top writes it as it is: the
    next start finds a bad entry for that window and ends with an error. *)
Theorem name_with_blank : after_keys (demo_do [65; 71] (demo_session [bs "a b"] [] demo_keys_top)) = Some (CEntry 0).
Proof. vm_compute. reflexivity. Qed.

(** On a terminal with more than 256 colours the Z key goes down from colour
    0 to one above 255, which the next start rejects. *)
Theorem color_above_255 :
  after_keys (demo_do [90] (demo_session [] [kbd_DOWN; kbd_DOWN; kbd_ENTER] (set_g max_colors 16777216 demo_keys_top))) = Some (CEntry 0).
Proof. vm_compute. reflexivity. Qed.

(** A window that lists the process id twice, on and off, instead of the user. *)
Definition demo_twice : top := on_win 0 (on_rc (set_fields (<[1%nat := 74]> DEF_FIELDS))) demo_keys_top.

(** The check against altered fields compares the numbers with their on and
    off bit: a file that lists a field once on and once off is accepted, though
    another field is missing, and switching it off makes a file that is not. *)
Theorem field_on_and_off : after_keys (demo_do [] (demo_session [] [] demo_twice)) = Some (COk tt []) /\
  after_keys (demo_do [102] (demo_session [] [kbd_HOME; 100; 113] demo_twice)) = Some (CEntry 0).
Proof. vm_compute. done. Qed.

Lemma curwin_eq s w : Winstk (k_top s) !! Curwin (k_top s) = Some w -> curwin s = KOk w s.
Proof. intros H. unfold curwin, mbind, K_bind, get. by rewrite H. Qed.

Lemma frame_loop_hidden ts lvl tree usr row busy max t l scr : (forall i, Topshow.taskon t i = false) -> scr < max ->
  Topshow.frame_loop ts lvl tree usr row busy l max scr t = Some (scr, [], t).
Proof.
  intros Hk Hm. induction l as [|i l IH]; cbn [Topshow.frame_loop]; [done|]. rewrite Hk. cbn [mbind option_bind]. rewrite Z.add_0_r.
  destruct (Z.leb_spec max scr); [lia|]. rewrite IH. done.
Qed.

(** The keys that switch windows move the first row of the new one up and
    leave it to the next frame to put it right.  When no window of the alternate
    display is visible, the frame leaves them all alone, and the keys k, r and Y,
    which do not ask whether the window is visible, then take the process id from
    in front of the array. *)
Theorem hidden_window_row N_col radix getpwuid getpwnam SIGRTMIN kill_ok prio_ok task_row Myname rc_opened s w :
  let t := k_top s in
  g_int t mode_altscr <> 0 -> g_int t PIDSmaxt <> 0 -> g_int t Secure_mode = 0 ->
  Forall (fun w => CHKw w Show_TASKON = false) (Winstk t) ->
  Winstk t !! prev_win (Curwin t) = Some w -> w_int w begtask <= 0 ->
  exists s', do_key N_col radix getpwuid getpwnam SIGRTMIN kill_ok prio_ok task_row Myname rc_opened 119 s = KOk tt s' /\
    (forall d, 0 < d_lines d -> show_tasks d (k_top s') = Some (k_top s')) /\
    do_key N_col radix getpwuid getpwnam SIGRTMIN kill_ok prio_ok task_row Myname rc_opened 107 s' = KUndef.
Proof.
  intros t Ha Hp Hs Hk Hw Hb.
  pose (w' := set_w begtask (w_int w begtask - 1) (set_w begnext 1 w)).
  set (t' := mkVIZrow1 (set_cur (prev_win (Curwin t)) t)).
  exists (KSt t' (k_lines s) (k_keys s) (k_calls s) (i_save s) (c_save s)).
  assert (Hw' : Winstk t' !! Curwin t' = Some w').
  { unfold t', mkVIZrow1, on_cur, on_win. simpl. by rewrite list_lookup_alter_eq, Hw. }
  assert (Hp' : (g_int t PIDSmaxt =? 0) = false) by (by apply Z.eqb_neq).
  assert (Ha' : (g_int t mode_altscr =? 0) = false) by (by apply Z.eqb_neq).
  split_and!.
  - unfold do_key, mbind, K_bind, get. cbn [Z.eqb Pos.eqb orb andb negb]. fold t. rewrite Hp'. simpl.
    unfold keys_window, alt_guard, mbind, K_bind, get. cbn [Z.eqb Pos.eqb orb andb negb]. fold t. rewrite Ha'. reflexivity.
  - intros d Hd. cbn [k_top]. unfold show_tasks, Topshow.frame_tasks. change (g_int t' mode_altscr) with (g_int t mode_altscr). rewrite Ha'.
    rewrite frame_loop_hidden; [done| |lia]. intros i. unfold Topshow.taskon, t', mkVIZrow1, on_cur, on_win. simpl.
    rewrite Forall_lookup in Hk. destruct (decide (i = prev_win (Curwin t))) as [->|Hi].
    + rewrite list_lookup_alter_eq, Hw. exact (Hk _ _ Hw).
    + rewrite list_lookup_alter_ne by done. destruct (Winstk t !! i) eqn:E; [exact (Hk _ _ E)|done].
  - unfold do_key, mbind, K_bind, get. cbn [Z.eqb Pos.eqb orb andb negb k_top]. change (g_int t' PIDSmaxt) with (g_int t PIDSmaxt).
    rewrite Hp'. simpl.
    unfold keys_global, secure_guard, key_kill, ask_pid, mbind, K_bind, get. cbn [Z.eqb Pos.eqb orb andb negb k_top].
    change (g_int t' Secure_mode) with (g_int t Secure_mode). rewrite Hs. cbn [Z.eqb].
    rewrite (curwin_eq (KSt t' (k_lines s) (k_keys s) (k_calls s) (i_save s) (c_save s)) w' Hw'). unfold row_pid. simpl.
    rewrite fn_lookup_insert. destruct (Z.ltb_spec (w_int w begtask - 1) 0); [done|lia].
Qed.

Definition demo_hidden : top :=
  set_g mode_altscr 1 (set_cur 1 (set_wins (map (OFFw Show_TASKON) (Winstk demo_keys_top)) demo_keys_top)).

Lemma hidden_window_row_witness : exists s',
  do_key demo_col 46 no_user no_name 34 sys_ok sys_ok no_row (bs "top") true 119 (demo_session [] [] demo_hidden) = KOk tt s' /\
  (forall d, 0 < d_lines d -> show_tasks d (k_top s') = Some (k_top s')) /\
  do_key demo_col 46 no_user no_name 34 sys_ok sys_ok no_row (bs "top") true 107 s' = KUndef.
Proof.
  apply (hidden_window_row demo_col 46 no_user no_name 34 sys_ok sys_ok no_row (bs "top") true (demo_session [] [] demo_hidden)
    (nth 0 (Winstk demo_hidden) (empty_win (RCW (rcw_ints []) [] []) 0))); first [reflexivity|discriminate|repeat constructor].
Defined.

(** ** A focus without a forest *)

(** Two processes, none the child of the other. *)
Definition demo_two : display :=
  Display 80 20 [Topforest.Task 1 0 1 0 [] []; Topforest.Task 42 0 42 0 [] []] [0; 0] [0; 1]%nat
    (fun _ _ _ => true) (fun _ _ _ => true) (fun _ _ => true).

(** The rows the next frame shows. *)
Definition next_rows (d : display) (r : kres unit) : option (list (nat * list Z)) :=
  match r with
  | KOk _ s =>
      option_map (fun x => x.1.2)
        (Topshow.frame_tasks (d_tasks d) (d_lvl d) (d_tree d) (d_usr d) (d_row d) (d_busy d) (d_lines d) (k_top s))
  | _ => None
  end.

(** With the forest view on, F puts the focus on a process and V, which leaves
    the view, takes it back.  M, N, P and T leave the view too, but the focus stays:
    the sorted window shows as many tasks as the focus had. *)
Theorem focus_outlives_forest :
  let keys l := demo_run (EKey 86 :: EKey 70 :: EFrame demo_two :: l) (demo_session [] [] demo_keys_top) in
  next_rows demo_two (keys []) = Some [(0%nat, [0])] /\
  next_rows demo_two (keys [EKey 86]) = Some [(0%nat, [0; 1])] /\
  next_rows demo_two (keys [EKey 77]) = Some [(0%nat, [0])].
Proof. vm_compute. split_and!; reflexivity. Qed.

End Topsaved.
